(* ===== verification/_CoqProject ===== *)
-Q . S2P
Prelude.v
GoLib.v
Gtpv2Ie.v
Gtpv2Message.v
Gtpv2Procedures.v
Gtpv2Transport.v
Collision.v
Bearer.v
Checkpoint.v
SessionData.v
CheckpointWriter.v
Session.v
Teid.v
SessionManager.v
SessionRestore.v
Gtpu.v
SgwuStore.v
Forwarder.v
PathProber.v
PfcpIe.v
Compiler.v
PfcpMessage.v
PfcpTransport.v
PfcpServer.v
PfcpServerRules.v
PfcpServerSpec.v
PfcpServerStops.v
SgwuConfig.v
SgwuMain.v
PfcpClient.v
S11Pfcp.v
Sxa.v
PeerHealth.v
PgwFailure.v
DdnControl.v
GoText.v
PolicyReason.v
SgwcConfig.v
Effects.v
SgwcIo.v
S5c.v
Sha256.v
CreateBearerTxn.v
S11.v
S11Relay.v
S11Create.v
S11Session.v
S11Bearer.v
S11Ddn.v
S11Frames.v
S11Example.v
S11Answers.v
S11Registry.v
S11Manager.v
IdleDownlink.v
BearerInactivity.v
MmeRestoration.v
MmeRestart.v
PfcpReconcile.v
SgwcMain.v
