(* ===== verification/Prelude.v ===== *)
(** * VectorCore SGW: verification development

    VectorCore SGW is an LTE serving gateway in Go, split into a control plane
    (SGW-C) and a user plane (SGW-U).  The SGW-C speaks GTPv2-C to the MME (S11) and
    to the PDN gateway (S5/S8), keeps one session per PDN connection with its bearers,
    and programs the SGW-U over PFCP (Sxa).  The SGW-U keeps the rules of each session
    and relays G-PDUs between eNB and PGW, either in user space or in an XDP program
    whose forwarding map it fills.  This library is a shallow embedding of that code
    and of its properties; every file names the Go files it follows.

    ** Layout

    Foundations: [Prelude] (record update, tactics, hint databases, list, option, map and
    machine-integer lemmas), [GoLib] and [GoText] (what the code uses of the Go language and
    its standard library: [range] over strings, [netip.Addr], host-port texts, formatting,
    case and trimming of texts).

    Configuration and programs:
    - [SgwcConfig], [SgwuConfig]: internal/config/{sgwc,sgwu}/{config,validate}.go;
    - [SgwuMain]: cmd/vectorcore-sgw-u, with pfcpserver.New, the loading of the fast path
      (dataplane/bpf/loader.go) and the socket group (sgwu/gtpu/group.go);
    - [SgwcMain]: cmd/vectorcore-sgw-c, with sessioncheckpoint/status.go.

    Wire protocols:
    - [Gtpv2Ie], [Gtpv2Message], [Gtpv2Procedures]: internal/gtpv2/ie/ie.go,
      internal/gtpv2/message/*.go;
    - [PfcpIe], [PfcpMessage]: internal/pfcp/ie/ie.go, internal/pfcp/message/message.go;
    - [Gtpu]: internal/sgwu/gtpu/header.go and ie.go.

    Transactions:
    - [Gtpv2Transport]: internal/gtpv2/transport/transport.go;
    - [PfcpTransport]: internal/pfcp/transport/transport.go;
    - [Collision]: internal/sgwc/collision/collision.go, the tracker of concurrent
      procedures of one session.

    SGW-C state:
    - [Bearer], [Checkpoint], [SessionData]: the records of internal/sgwc/bearer,
      sessioncheckpoint/store.go and session/{session,snapshot,checkpoint}.go;
    - [Session], [SessionManager], [SessionRestore]: the methods of a session, the store
      with its indexes, and the rebuilding of both after a restart
      (session/{session,manager,restore}.go);
    - [CheckpointWriter]: sessioncheckpoint/writer.go, the asynchronous sink;
    - [Teid]: teid/allocator.go and recovery/recovery.go.

    SGW-C towards the SGW-U:
    - [PfcpClient]: internal/sgwc/pfcpclient/client.go, peers, their supervision and the
      session procedures;
    - [S11Pfcp]: the PFCP helpers of internal/sgwc/s11/handler.go;
    - [Sxa]: both ends together, [PfcpClient] against [PfcpServer] and [Forwarder].

    SGW-C peers and policies:
    - [PeerHealth]: internal/sgwc/peerhealth/{peerhealth,prober}.go, the table of MMEs and
      gateways with its Echo supervision;
    - [PgwFailure]: internal/sgwc/pgwfailure/handler.go, the listener of that table that
      marks the sessions of a gateway;
    - [DdnControl]: internal/sgwc/ddncontrol/state.go, rate limits of downlink data
      notifications;
    - [PolicyReason]: internal/sgwc/policyreason/reason.go, the names of policy rules.

    SGW-C procedures, as effectful programs:
    - [Effects]: a state monad with panics, its weakest-precondition rules and the
      [keeps] rules for what a program never changes; [SgwcIo]: the surroundings of a
      handler (class [Environment]) and the trace of what it sends;
    - [S5c]: internal/sgwc/s5c/client.go, the client of the gateway;
    - [Sha256], [CreateBearerTxn]: the hash and the tables behind the Create Bearer
      transactions of s11/bearer_handler.go;
    - [S11]: the handler object, its world ([S11.World]) and the steps all procedures use
      (s11/collision.go included); [S11Relay], [S11Create], [S11Session], [S11Bearer],
      [S11Ddn]: the procedures of s11/handler.go and s11/bearer_handler.go;
    - [S11Frames], [S11Answers], [S11Registry]: what each procedure leaves alone, how it
      answers, and what its answer says about the registered sessions;
      [S11Manager]: what each step does to the session manager;
      [S11Example]: a concrete network whose SGW-U is [PfcpServer], used by the witnesses.

    SGW-C background work, over the same world:
    - [IdleDownlink]: internal/sgwc/idledownlink/handler.go, the reports of the SGW-U;
    - [BearerInactivity]: internal/sgwc/bearerinactivity/*.go, the clean-up of idle bearers;
    - [MmeRestoration], [MmeRestart]: internal/sgwc/mmerestoration/handler.go, and what the
      restart of an MME does to the sessions;
    - [PfcpReconcile]: session/{reconcile,repair,manager_snapshot}.go.

    SGW-U state:
    - [SgwuStore]: internal/sgwu/session/store.go;
    - [PfcpServer], [PfcpServerRules], [PfcpServerSpec], [PfcpServerStops]:
      internal/sgwu/pfcpserver/server.go, its rule transformations, its abstract
      specification and where it can stop the process;
    - [Forwarder], [PathProber]: internal/sgwu/gtpu/{forwarder,path_prober}.go;
    - [Compiler]: internal/dataplane/bpf/{compiler,loader}.go and the decision the XDP
      program of ebpf/ takes on a map entry.

    A GTPv2-C request reaches [S11Ddn.handle] (from an MME) or [S11Bearer.HandleS5CInbound]
    (from a gateway).  Its program runs over one [S11.World]: the handler's own tables, the
    [SessionManager] with the [Session]s and their [Collision] trackers, the [S5c] and
    [PfcpClient] clients, the [PeerHealth] table, and the surroundings.  Changes of a peer's
    state are told to [PgwFailure] and [MmeRestoration], the loss of an SGW-U to the
    callbacks of [SgwcMain]; all of them change sessions of the same manager.
    [IdleDownlink] and [MmeRestoration] wake subscribers through [S11Ddn], within what
    [DdnControl] allows.

    A datagram from a peer goes through a transport ([Gtpv2Transport.Listen],
    [PfcpTransport.dispatch]), is parsed ([Parse], then the typed parser), and changes a
    store ([SessionManager], or [SgwuStore] through [PfcpServer.handle]).  Each change of
    an SGW-C session is handed to the checkpoint sink ([SessionData.checkpoint]), which is
    the [CheckpointWriter]; [SessionRestore] reads back what it wrote.  Each change of
    an SGW-U session is handed to the dataplane ([Compiler.UpdateSession]), and a G-PDU is
    treated according to the same rules by [Forwarder.handleGPDU] and by
    [Compiler.xdp_verdict].

    ** Conventions

    A Go function is a function on its receiver's record and its arguments, returning the
    results with the new record; a critical section is one such function, and goroutines
    are interleavings of critical sections (step relations in [Gtpv2Transport],
    [PfcpTransport]; lists of operations elsewhere).  Shared objects (session pointers,
    peer records) are locations in a heap, so that aliasing is kept.  Panics are [None]
    or a constructor of the result type, errors are values of a sum type.  Sized
    integers are [Z] with the wrap-around written out; an octet is a [Z] below 256; a
    slice is a [list].  What the code gets from outside the process is an argument: the
    clock, random words, map iteration orders, addresses of new objects, the outcome of
    socket, file and kernel-map calls.

    ** What the theorems show

    - PFCP at the SGW-U: every datagram takes the server by one step of an abstract
      specification and keeps it consistent ([handle_refines]); establishment and
      modification are transactions; the association keeps its peers; the one datagram
      that makes a handler panic ([handle_stops]); values, messages and typed parsers
      ([value_codecs], [wire_roundtrip], [typed_parsers], [datagram_handling]).
    - The rule compiler: the forwarding map after any pattern of failing map calls
      ([compiled_rules]), what stays behind ([stale_rules]), and the agreement of both
      forwarding paths ([paths_agree]).
    - Both planes together: the set-up of a default bearer through the client, the server
      and the forwarder ([default_bearer_path]), what an SGW-C restart leaves behind
      ([restart_strands_sessions]); the client's supervision of its peers and its choice
      among them ([peer_supervision], [SelectPeer_round_robin]).
    - The S11 procedures: every request of an MME is answered at most once, to its
      sender, by the response of its type and sequence number, and the requests that
      must be answered are ([request_answered_once]).  Create Session registers one
      active session and accepts, or nothing and refuses ([create_session_all_or_nothing]);
      Delete Session accepts exactly when the session is gone ([delete_session_told]).
    - Peers: the table over any sequence of operations ([peer_history]), the gateway
      records and sessions that follow it ([failure_follows_peers]), and the bound on the
      notifications one MME is sent ([token_bucket]).
    - Loss and recovery: the restart of an MME releases only what its policy gives up, and
      only with the gateway's word ([restart_releases_only_given_up]); its queue of delayed
      notifications stays bounded ([delayed_queue_bounded]); the loss of an SGW-U reaches
      exactly the sessions bound to it ([peer_loss_reaches_sessions]); reconciliation
      judges every session once ([reconciliation_judges_sessions]).
    - Background work: a report wakes a subscriber only when session, policies, throttle
      and notification control want it ([report_wakes_when_wanted]); a scan removes only
      bearers whose time has passed ([scan_removes_expired]).
    - Configuration: validation decides a declarative condition ([Validate_iff],
      [sgwu_Validate_accepts]); the parameters the program computes are the configured ones
      ([runtime_parameters]); a valid configuration starts an SGW-U that meets the
      hypotheses of the server's theorems ([gateway_starts]); one socket for both GTP-C
      interfaces loses one message of the gateway ([control_dispatch]).
    - GTP-U: header coding, the fate of every G-PDU, path supervision, both SEID indexes.
    - GTPv2-C: the IE grammar, identifiers, messages, framing, typed procedures, and the
      transaction layer (at most one delivery, exclusive handlers, retransmissions).
    - SGW-C: index consistency of the manager, creation and deletion, the session life
      cycle, rule ids, checkpoints at every step, restoration as the inverse of the
      snapshot, and the collision tracker's admission and invariant.

    ** Fuel

    Recursion that consumes a byte list is given the length of that list as fuel (each
    step consumes at least one octet, so the fuel is never what ends it; the lemmas named
    [_loop_fuel] or the completeness direction of the round trips say so).  The
    allocators draw from a stream; their bound is the number of draws, and the theorems
    say that the first free draw is returned.  The send loops have N3-REQUESTS + 1 rounds,
    as in the code.

    ** Not modelled, and why

    - Sockets, the socket option behind DSCP marking, signal handling, goroutine start and
      stop, logging, Prometheus metrics, the management API (it renders the state as JSON)
      and the command-line client that calls it: input and output only.
    - The SQLite backend and the JSON coding of snapshots: calls of a database driver and
      of encoding/json.  The [Store] interface they implement is a class with laws
      ([CheckpointWriter.SessionStore]).
    - YAML unmarshalling (an argument of the two [Load] functions), command-line flags and
      the order of the shutdown.
    - Interleaving of S11 handlers: a handler runs to its end before the next one starts,
      except that the answers it waits for come from an [Environment] with state of its
      own; [removeBearerRulesAndState] of s11/bearer_handler.go has no caller.
    - The header rewriting the XDP program does in C, and the read-out of its statistics. *)

From Stdlib Require Export ZArith Lia Ascii String.
From stdpp Require Export base gmap list strings numbers fin_maps.
#[export] Set Default Goal Selector "!".

(** ** Record update

    [Eta R] rebuilds a record from its projections; [FieldUpdate p] is derived
    from it for every projection [p], so that [r <| p := v |>] is the Go field
    assignment [r.p = v] in state-passing style. *)

Class Eta (R : Type) := eta_rebuild : R -> R.
Class FieldUpdate {R F : Type} (proj : R -> F) := field_update : F -> R -> R.
#[global] Hint Mode FieldUpdate - - + : typeclass_instances.

Ltac derive_field_update :=
  lazymatch goal with
  | |- @FieldUpdate ?R ?F ?proj =>
      let v := fresh "v" in
      let r := fresh "r" in
      intros v r;
      let inst := constr:(_ : Eta R) in
      let hd := lazymatch inst with ?h => h end in
      let whole := eval unfold hd in (hd r) in
      let whole := eval cbv beta in whole in
      let abstracted := eval pattern (proj r) in whole in
      lazymatch abstracted with
      | ?ctx _ => let t := eval cbv beta in (ctx v) in exact t
      end
  end.

#[export] Hint Extern 1 (FieldUpdate _) => derive_field_update : typeclass_instances.

Declare Scope sgw_scope.
Delimit Scope sgw_scope with sgw.

Notation "r <| p := v |>" := (field_update (proj := p) v r)
  (at level 1, left associativity, p at level 0, v at level 200,
   format "r  <| p  :=  v |>") : sgw_scope.

Open Scope sgw_scope.
Open Scope Z_scope.

(** ** Fallible code: Go's [(value, error)] results *)

Inductive result (E A : Type) : Type :=
| Ok (a : A)
| Err (e : E).
Arguments Ok {E A} a.
Arguments Err {E A} e.

Definition rbind {E A B} (r : result E A) (k : A -> result E B) : result E B :=
  match r with Ok a => k a | Err e => Err e end.

Notation "'let?' x := r 'in' k" := (rbind r (fun x => k))
  (at level 10, x pattern, r at level 100, k at level 200)
  : sgw_scope.

Definition is_Ok {E A} (r : result E A) : Prop := exists a, r = Ok a.

(** Raise an error unless the guard holds: [if !c { return err }]. *)
Definition guard {E} (c : bool) (e : E) : result E unit :=
  if c then Ok tt else Err e.

(** ** Machine integers

    A [w]-bit Go integer is a [Z]; every conversion and every operation that can
    leave the range is followed by the wrap of its width. *)

Definition uN (w : Z) (z : Z) : Z := z mod 2 ^ w.
Abbreviation u8 := (uN 8).
Abbreviation u16 := (uN 16).
Abbreviation u32 := (uN 32).
Abbreviation u64 := (uN 64).
Definition i64 (z : Z) : Z := (z + 2 ^ 63) mod 2 ^ 64 - 2 ^ 63.

Definition in_u (w z : Z) : Prop := 0 <= z < 2 ^ w.
#[export] Instance in_u_dec w z : Decision (in_u w z) := and_dec _ _.

(** A byte, a well-formed byte string. *)
Abbreviation is_byte := (in_u 8).
Abbreviation bytes := (list Z).
Definition bytes_ok (l : bytes) : Prop := Forall is_byte l.
#[export] Instance bytes_ok_dec l : Decision (bytes_ok l).
Proof. unfold bytes_ok. apply Forall_dec. intros x. apply in_u_dec. Defined.

(** A single flag bit of an octet: [b & mask != 0]. *)
Definition flag (b mask : Z) : bool := negb (Z.land b mask =? 0).

(** Big-endian encoding of the low [8 * n] bits of [z], and its inverse. *)
Fixpoint be_bytes (n : nat) (z : Z) : bytes :=
  match n with
  | O => []
  | S k => u8 (Z.shiftr z (8 * Z.of_nat k)) :: be_bytes k z
  end.

Fixpoint be_val_acc (acc : Z) (l : bytes) : Z :=
  match l with
  | [] => acc
  | b :: l => be_val_acc (Z.lor (Z.shiftl acc 8) b) l
  end.
Definition be_val (l : bytes) : Z := be_val_acc 0 l.

(** [copy(dst, src)] into a fresh slice of length [n]. *)
Definition copy_into (n : nat) (src : bytes) : bytes :=
  take n src ++ replicate (n - length src) 0.

(** Go slice expression [b[i:j]] for [i <= j <= len b]. *)
Definition slice {A} (i j : nat) (l : list A) : list A := take (j - i) (drop i l).

(** ** Time

    A [time.Time] is the number of nanoseconds since Go's zero time, so that
    [t.IsZero()] is [t = 0]; a [time.Duration] is a 64-bit count of
    nanoseconds.  Every call of [time.Now()] is an argument. *)

Abbreviation time := Z (only parsing).
Abbreviation duration := Z (only parsing).
Definition zero_time : time := 0.
Definition IsZero (t : time) : bool := t =? 0.
Definition Second : duration := 1000000000.

Definition max_i64 : Z := 2 ^ 63 - 1.
Definition min_i64 : Z := - 2 ^ 63.

(** [t.Sub(u)] saturates; [t.Add(d)] does not. *)
Definition Sub (t u : time) : duration := Z.max min_i64 (Z.min max_i64 (t - u)).
Definition Add (t : time) (d : duration) : time := t + d.
Definition Before (t u : time) : bool := t <? u.
Definition After (t u : time) : bool := u <? t.

(** [if at.IsZero() { at = time.Now() }] *)
Definition or_now (at_ now : time) : time := if IsZero at_ then now else at_.

(** ** Strings

    A Go string is a sequence of bytes, which is what Rocq's [string] is. *)

Definition byte_of_ascii (a : ascii) : Z := Z.of_N (N_of_ascii a).
Definition ascii_of_byte (b : Z) : ascii := ascii_of_N (Z.to_N b).

Definition string_bytes (s : string) : bytes := byte_of_ascii <$> list_ascii_of_string s.
Definition bytes_string (l : bytes) : string := string_of_list_ascii (ascii_of_byte <$> l).

(** ** Lemmas: results *)

Lemma rbind_Ok {E A B} (r : result E A) (k : A -> result E B) b :
  rbind r k = Ok b <-> exists a, r = Ok a /\ k a = Ok b.
Proof.
  destruct r as [a|e]; simpl; split; [eauto|by intros (? & [= ->] & ?)|done|].
  by intros (? & ? & ?).
Qed.

Lemma guard_Ok {E} c (e : E) u : guard c e = Ok u <-> c = true.
Proof. by destruct c, u. Qed.

(** ** Lemmas: integers and bits *)

Lemma uN_range w z : 0 <= w -> in_u w (uN w z).
Proof. intros. apply Z.mod_pos_bound. lia. Qed.

Lemma uN_small w z : in_u w z -> uN w z = z.
Proof. apply Z.mod_small. Qed.

Lemma in_u_mono v w z : v <= w -> in_u v z -> in_u w z.
Proof.
  intros ? [? ?]. split; [lia|].
  pose proof (Z.pow_le_mono_r 2 v w ltac:(lia) ltac:(lia)). lia.
Qed.

Lemma testbit_in_u w z n : 0 <= w <= n -> in_u w z -> Z.testbit z n = false.
Proof.
  intros ? [? ?]. destruct (decide (z = 0)) as [->|]; [apply Z.bits_0|].
  apply Z.bits_above_log2; [lia|].
  assert (Z.log2 z < w); [apply Z.log2_lt_pow2; lia|lia].
Qed.

Lemma in_u_land w a b : 0 <= w -> in_u w a -> 0 <= b -> in_u w (Z.land a b).
Proof.
  intros ? [? ?] ?. assert (0 <= Z.land a b) by (apply Z.land_nonneg; lia).
  split; [done|]. destruct (decide (Z.land a b = 0)); [lia|].
  destruct (decide (a = 0)) as [->|]; [rewrite Z.land_0_l in *; lia|].
  apply Z.log2_lt_pow2; [lia|]. pose proof (Z.log2_land a b ltac:(lia) ltac:(lia)).
  assert (Z.log2 a < w) by (apply Z.log2_lt_pow2; lia). lia.
Qed.

Lemma in_u_lor w a b : 0 <= w -> in_u w a -> in_u w b -> in_u w (Z.lor a b).
Proof.
  intros ? [? ?] [? ?]. split; [apply Z.lor_nonneg; lia|].
  destruct (decide (Z.lor a b = 0)); [lia|].
  assert (0 <= Z.lor a b) by (apply Z.lor_nonneg; lia).
  destruct (decide (a = 0)) as [->|]; [rewrite Z.lor_0_l; lia|].
  destruct (decide (b = 0)) as [->|]; [rewrite Z.lor_0_r; lia|].
  apply Z.log2_lt_pow2; [lia|]. rewrite Z.log2_lor by lia.
  apply Z.max_lub_lt; apply Z.log2_lt_pow2; lia.
Qed.

Lemma lor_shiftl_add a b k :
  0 <= k -> in_u k b -> Z.lor (Z.shiftl a k) b = a * 2 ^ k + b.
Proof.
  intros Hk Hb. rewrite <-Z.shiftl_mul_pow2 by done.
  symmetry. apply Z.add_nocarry_lor, Z.bits_inj'. intros n Hn.
  rewrite Z.land_spec, Z.bits_0. destruct (decide (n < k)).
  - by rewrite Z.shiftl_spec_low.
  - rewrite (testbit_in_u k b n) by (done || lia). apply andb_false_r.
Qed.

Lemma shiftr_in_u w k z : 0 <= k <= w -> in_u w z -> in_u (w - k) (Z.shiftr z k).
Proof.
  intros ? [? ?]. rewrite Z.shiftr_div_pow2 by lia. split.
  - apply Z.div_pos; lia.
  - apply Z.div_lt_upper_bound; [lia|]. rewrite <-Z.pow_add_r by lia.
    by replace (k + (w - k)) with w by lia.
Qed.

Lemma pow8_S n : 2 ^ (8 * Z.of_nat (S n)) = 256 * 2 ^ (8 * Z.of_nat n).
Proof.
  replace (8 * Z.of_nat (S n)) with (8 + 8 * Z.of_nat n) by lia.
  by rewrite Z.pow_add_r by lia.
Qed.

(** ** Lemmas: big-endian coding *)

Lemma length_be_bytes n z : length (be_bytes n z) = n.
Proof. induction n; simpl; congruence. Qed.

Lemma be_bytes_ok n z : bytes_ok (be_bytes n z).
Proof. induction n; constructor; [by apply uN_range|done]. Qed.

Lemma be_val_acc_cons acc b l :
  is_byte b -> be_val_acc acc (b :: l) = be_val_acc (acc * 256 + b) l.
Proof. intros ?. simpl. by rewrite lor_shiftl_add. Qed.

Lemma be_val_acc_split acc l :
  bytes_ok l -> be_val_acc acc l = acc * 2 ^ (8 * Z.of_nat (length l)) + be_val l.
Proof.
  intros Hl. revert acc. induction Hl as [|b l Hb Hl IH]; intros acc.
  { unfold be_val. simpl. lia. }
  unfold be_val. rewrite !be_val_acc_cons, (IH (_ + _)), (IH (0 * 256 + b)) by done.
  simpl length. rewrite pow8_S. lia.
Qed.

Lemma be_val_cons b l :
  is_byte b -> bytes_ok l ->
  be_val (b :: l) = b * 2 ^ (8 * Z.of_nat (length l)) + be_val l.
Proof.
  intros. unfold be_val at 1. rewrite be_val_acc_cons, be_val_acc_split by done. lia.
Qed.

Lemma be_val_range l : bytes_ok l -> in_u (8 * Z.of_nat (length l)) (be_val l).
Proof.
  induction 1 as [|b l Hb Hl IH]; [done|]. unfold in_u in *.
  rewrite be_val_cons by done. simpl length. rewrite pow8_S. nia.
Qed.

Lemma be_val_be_bytes n z : be_val (be_bytes n z) = z mod 2 ^ (8 * Z.of_nat n).
Proof.
  induction n as [|n IH]; [by rewrite Z.mod_1_r|].
  simpl be_bytes. rewrite be_val_cons, IH, length_be_bytes, pow8_S
    by (by apply uN_range || apply be_bytes_ok).
  unfold uN. rewrite Z.shiftr_div_pow2, (Z.mul_comm 256) by lia.
  rewrite Z.rem_mul_r by lia. change (2 ^ 8) with 256. lia.
Qed.

Lemma be_bytes_be_val_acc acc l :
  bytes_ok l -> be_bytes (length l) (be_val_acc acc l) = l.
Proof.
  intros Hl. revert acc. induction Hl as [|b l Hb Hl IH]; intros acc; [done|].
  rewrite be_val_acc_cons by done. simpl. f_equal; [|apply IH].
  rewrite be_val_acc_split, Z.shiftr_div_pow2 by (done || lia).
  rewrite Z.div_add_l, (Z.div_small (be_val l)) by (lia || by apply be_val_range).
  unfold uN, in_u in *. change (2 ^ 8) with 256 in *.
  rewrite Z.add_0_r, Z.add_comm, Z.mod_add by lia. by apply Z.mod_small.
Qed.

Lemma be_bytes_be_val n l :
  length l = n -> bytes_ok l -> be_bytes n (be_val l) = l.
Proof. intros <- ?. by apply be_bytes_be_val_acc. Qed.

Lemma be_val_be_bytes_small n z :
  in_u (8 * Z.of_nat n) z -> be_val (be_bytes n z) = z.
Proof. intros. rewrite be_val_be_bytes. by apply Z.mod_small. Qed.

Lemma be16_u16 n : in_u 16 n -> be_val (be_bytes 2 (u16 n)) = n.
Proof.
  intros. rewrite be_val_be_bytes_small by (by apply uN_range). by apply uN_small.
Qed.

Lemma be_bytes_2 z : exists a b, be_bytes 2 z = [a; b].
Proof. eexists _, _. reflexivity. Qed.

Lemma be_bytes_4 z : exists a b c d, be_bytes 4 z = [a; b; c; d].
Proof. eexists _, _, _, _. reflexivity. Qed.

Lemma bytes_ok_cons b l : bytes_ok (b :: l) <-> is_byte b /\ bytes_ok l.
Proof. apply Forall_cons. Qed.

Lemma bytes_ok_app l k : bytes_ok (l ++ k) <-> bytes_ok l /\ bytes_ok k.
Proof. apply Forall_app. Qed.

(** ** Lemmas: strings as bytes *)

Lemma byte_of_ascii_ok a : is_byte (byte_of_ascii a).
Proof.
  unfold byte_of_ascii. pose proof (N_ascii_bounded a). unfold in_u.
  change (2 ^ 8) with (Z.of_N 256). lia.
Qed.

Lemma ascii_of_byte_of_ascii a : ascii_of_byte (byte_of_ascii a) = a.
Proof.
  unfold ascii_of_byte, byte_of_ascii. rewrite N2Z.id. apply ascii_N_embedding.
Qed.

Lemma byte_of_ascii_of_byte b : is_byte b -> byte_of_ascii (ascii_of_byte b) = b.
Proof.
  unfold ascii_of_byte, byte_of_ascii, in_u. change (2 ^ 8) with 256. intros ?.
  rewrite N_ascii_embedding by lia. lia.
Qed.

Lemma string_bytes_ok s : bytes_ok (string_bytes s).
Proof. apply Forall_fmap, Forall_true. intros. apply byte_of_ascii_ok. Qed.

Lemma bytes_string_bytes s : bytes_string (string_bytes s) = s.
Proof.
  unfold bytes_string, string_bytes. rewrite <-list_fmap_compose.
  rewrite (list_fmap_ext _ id) by (intros; apply ascii_of_byte_of_ascii).
  rewrite list_fmap_id. apply string_of_list_ascii_of_string.
Qed.

Lemma string_bytes_string l : bytes_ok l -> string_bytes (bytes_string l) = l.
Proof.
  intros Hl. unfold bytes_string, string_bytes.
  rewrite list_ascii_of_string_of_list_ascii, <-list_fmap_compose.
  induction Hl as [|b l Hb Hl IH]; simpl; [done|].
  f_equal; [by apply byte_of_ascii_of_byte|done].
Qed.

(** ** Lemmas: slices *)

Lemma slice_app_mid {A} (a b c : list A) i j :
  i = length a -> j = (length a + length b)%nat -> slice i j (a ++ b ++ c) = b.
Proof.
  intros -> ->. unfold slice. rewrite drop_app_length.
  replace (length a + length b - length a)%nat with (length b) by lia.
  by rewrite take_app_length.
Qed.

Lemma length_slice {A} i j (l : list A) :
  (i <= j <= length l)%nat -> length (slice i j l) = (j - i)%nat.
Proof. intros. unfold slice. rewrite length_take, length_drop. lia. Qed.

Lemma bytes_ok_take n l : bytes_ok l -> bytes_ok (take n l).
Proof. apply Forall_take. Qed.
Lemma bytes_ok_drop n l : bytes_ok l -> bytes_ok (drop n l).
Proof. apply Forall_drop. Qed.
Lemma bytes_ok_slice i j l : bytes_ok l -> bytes_ok (slice i j l).
Proof. intros. by apply bytes_ok_take, bytes_ok_drop. Qed.

Lemma copy_into_length n l : length l = n -> copy_into n l = l.
Proof.
  intros <-. unfold copy_into. rewrite take_ge, Nat.sub_diag by lia. apply app_nil_r.
Qed.

(** Close a decidable goal by evaluating its decision procedure. *)
Ltac by_compute := refine (bool_decide_unpack _ _); vm_compute; exact I.

Create HintDb sgw_bytes.
#[export] Hint Resolve be_bytes_ok string_bytes_ok bytes_ok_take bytes_ok_drop
  bytes_ok_slice byte_of_ascii_ok : sgw_bytes.
#[export] Hint Extern 1 (in_u _ (uN _ _)) => apply uN_range; lia : sgw_bytes.
#[export] Hint Extern 1 (bytes_ok (_ ++ _)) => apply bytes_ok_app; split : sgw_bytes.
#[export] Hint Extern 1 (bytes_ok (_ :: _)) => apply bytes_ok_cons; split : sgw_bytes.
#[export] Hint Extern 1 (bytes_ok []) => apply Forall_nil : sgw_bytes.

(** ** Lemmas: bit fields packed into one octet *)

Lemma field_low k x y :
  0 <= k -> in_u k x -> Z.land (Z.lor x (Z.shiftl y k)) (Z.ones k) = x.
Proof.
  intros Hk Hx. rewrite Z.lor_comm, lor_shiftl_add, Z.land_ones by done.
  rewrite Z.add_comm, Z.mod_add by (apply Z.pow_nonzero; lia). by apply Z.mod_small.
Qed.

Lemma field_high k x y :
  0 <= k -> in_u k x -> Z.shiftr (Z.lor x (Z.shiftl y k)) k = y.
Proof.
  intros Hk Hx. rewrite Z.lor_comm, lor_shiftl_add, Z.shiftr_div_pow2 by done.
  unfold in_u in Hx. rewrite Z.div_add_l, Z.div_small by lia. lia.
Qed.

Lemma land_ones_small k x : 0 <= k -> in_u k x -> Z.land x (Z.ones k) = x.
Proof. intros. rewrite Z.land_ones by done. by apply Z.mod_small. Qed.

Lemma land_15_small x : in_u 4 x -> Z.land x 15 = x.
Proof. exact (land_ones_small 4 x ltac:(lia)). Qed.

(** Two nibbles of a byte. *)
Lemma nibbles x y :
  in_u 4 x -> in_u 4 y ->
  let v := Z.lor x (u8 (Z.shiftl y 4)) in
  is_byte v /\ Z.land v 0x0F = x /\ Z.land (Z.shiftr v 4) 0x0F = y.
Proof.
  intros Hx Hy. assert (is_byte (Z.shiftl y 4)) as Hs.
  { unfold in_u in *. rewrite Z.shiftl_mul_pow2 by lia. lia. }
  rewrite (uN_small 8) by done. cbv zeta. split_and!.
  - apply in_u_lor; [lia| |done]. eapply in_u_mono; [|done]. lia.
  - apply (field_low 4); [lia|done].
  - rewrite field_high by (lia || done). by apply land_15_small.
Qed.

(** ** Lemmas: finite ranges by computation *)

Lemma forall_range (lo n : Z) (P : Z -> bool) :
  forallb P (seqZ lo n) = true -> forall z, lo <= z < lo + n -> P z = true.
Proof.
  intros HP z Hz. rewrite forallb_forall in HP. apply HP.
  apply list_elem_of_In, elem_of_seqZ. lia.
Qed.

Lemma bytes_string_app l k : bytes_string (l ++ k) = (bytes_string l ++ bytes_string k)%string.
Proof.
  unfold bytes_string. induction l as [|a l IH]; [done|].
  exact (f_equal (String (ascii_of_byte a)) IH).
Qed.

#[global] Arguments be_bytes : simpl never.
#[global] Arguments be_val : simpl never.

Lemma list_filter_all {A} (P : A -> Prop) `{!forall x, Decision (P x)} (l : list A) :
  (forall x, x ∈ l -> P x) -> filter P l = l.
Proof.
  induction l as [|x l IH]; intros Hl; [done|].
  rewrite filter_cons_True by (apply Hl; left). f_equal. apply IH. intros y Hy. apply Hl. by right.
Qed.
