(* ===== verification/GoLib.v ===== *)
(** * The parts of the Go language and standard library the code uses

    Strings as byte sequences with the [range] loop's UTF-8 decoding, [netip.Addr],
    [net.SplitHostPort] / [net.JoinHostPort], integer formatting, and the IEEE
    double arithmetic of [Duration.Seconds].  Each definition follows the
    documented behaviour (and, where the documentation is silent, the Go 1.26
    sources) of the function it is named after. *)

From stdpp Require Import pretty.
From Stdlib Require Import SpecFloat.
From S2P Require Import Prelude.

(** ** Strings *)

(** [for i, r := range s]: the byte index and the rune at each step; an invalid
    sequence yields U+FFFD and advances one byte. *)
Definition RuneError : Z := 0xFFFD.
Definition is_cont (b : Z) : bool := (0x80 <=? b) && (b <=? 0xBF).
Definition in_range (lo b hi : Z) : bool := (lo <=? b) && (b <=? hi).

Definition utf8_two (b0 b1 : Z) : bool := in_range 0xC2 b0 0xDF && is_cont b1.
Definition utf8_three (b0 b1 b2 : Z) : bool :=
  in_range 0xE0 b0 0xEF && is_cont b2 &&
  in_range (if b0 =? 0xE0 then 0xA0 else 0x80) b1 (if b0 =? 0xED then 0x9F else 0xBF).
Definition utf8_four (b0 b1 b2 b3 : Z) : bool :=
  in_range 0xF0 b0 0xF4 && is_cont b2 && is_cont b3 &&
  in_range (if b0 =? 0xF0 then 0x90 else 0x80) b1 (if b0 =? 0xF4 then 0x8F else 0xBF).

Fixpoint utf8_range (i : Z) (l : bytes) : list (Z * Z) :=
  match l with
  | [] => []
  | b0 :: l1 =>
      let bad := (i, RuneError) :: utf8_range (i + 1) l1 in
      if b0 <? 0x80 then (i, b0) :: utf8_range (i + 1) l1
      else match l1 with
      | [] => bad
      | b1 :: l2 =>
          if utf8_two b0 b1
          then (i, (b0 - 0xC0) * 64 + (b1 - 0x80)) :: utf8_range (i + 2) l2
          else match l2 with
          | [] => bad
          | b2 :: l3 =>
              if utf8_three b0 b1 b2
              then (i, (b0 - 0xE0) * 4096 + (b1 - 0x80) * 64 + (b2 - 0x80))
                     :: utf8_range (i + 3) l3
              else match l3 with
              | [] => bad
              | b3 :: l4 =>
                  if utf8_four b0 b1 b2 b3
                  then (i, (b0 - 0xF0) * 262144 + (b1 - 0x80) * 4096
                             + (b2 - 0x80) * 64 + (b3 - 0x80))
                         :: utf8_range (i + 4) l4
                  else bad
              end
          end
      end
  end.

Definition range_string (s : string) : list (Z * Z) := utf8_range 0 (string_bytes s).

(** [strconv.Itoa], [%d]: decimal notation. *)
Definition Itoa (z : Z) : string := pretty z.

(** Lower-case hexadecimal digits without leading zeros ([%x]). *)
Definition hex_digit (d : Z) : ascii := ascii_of_byte (if d <? 10 then 48 + d else 87 + d).
Fixpoint hex_go (fuel : nat) (z : Z) (acc : string) : string :=
  match fuel with
  | O => acc
  | S f =>
      let acc := String (hex_digit (Z.land z 15)) acc in
      if Z.shiftr z 4 =? 0 then acc else hex_go f (Z.shiftr z 4) acc
  end.
Definition format_hex (z : Z) : string := hex_go (S (Z.to_nat (Z.log2 z))) z "".

(** Byte search in a string, [strings.IndexByte] and its mirror image. *)
Fixpoint index_byte (c : ascii) (l : list ascii) : option nat :=
  match l with
  | [] => None
  | x :: l => if decide (x = c) then Some O else S <$> index_byte c l
  end.
Fixpoint last_index_byte (c : ascii) (l : list ascii) : option nat :=
  match l with
  | [] => None
  | x :: l =>
      match last_index_byte c l with
      | Some i => Some (S i)
      | None => if decide (x = c) then Some O else None
      end
  end.

(** ** net.SplitHostPort and net.JoinHostPort *)

Inductive AddrError : Type :=
| MissingPort
| TooManyColons
| MissingBracket
| UnexpectedOpen
| UnexpectedClose.

Definition colon : ascii := ":"%char.
Definition lbrack : ascii := "["%char.
Definition rbrack : ascii := "]"%char.

(** The host and the positions before which no bracket may occur. *)
Definition split_host (l : list ascii) (i : nat)
    : result AddrError (list ascii * nat * nat) :=
  if decide (head l = Some lbrack) then
    match index_byte rbrack l with
    | None => Err MissingBracket
    | Some e =>
        if decide (S e = length l) then Err MissingPort
        else if decide (S e = i) then Ok (slice 1 e l, 1%nat, S e)
        else if decide (l !! S e = Some colon) then Err TooManyColons
        else Err MissingPort
    end
  else
    let host := take i l in
    match index_byte colon host with
    | Some _ => Err TooManyColons
    | None => Ok (host, O, O)
    end.

Definition SplitHostPort_list (l : list ascii)
    : result AddrError (list ascii * list ascii) :=
  match last_index_byte colon l with
  | None => Err MissingPort
  | Some i =>
      let? (host, j, k) := split_host l i in
      match index_byte lbrack (drop j l), index_byte rbrack (drop k l) with
      | Some _, _ => Err UnexpectedOpen
      | None, Some _ => Err UnexpectedClose
      | None, None => Ok (host, drop (S i) l)
      end
  end.

Definition SplitHostPort (s : string) : result AddrError (string * string) :=
  let? (h, p) := SplitHostPort_list (list_ascii_of_string s) in
  Ok (string_of_list_ascii h, string_of_list_ascii p).

Definition JoinHostPort_list (host port : list ascii) : list ascii :=
  match index_byte colon host with
  | Some _ => lbrack :: host ++ rbrack :: colon :: port
  | None => host ++ colon :: port
  end.

Definition JoinHostPort (host port : string) : string :=
  string_of_list_ascii
    (JoinHostPort_list (list_ascii_of_string host) (list_ascii_of_string port)).

(** ** netip.Addr *)

Inductive Addr : Type :=
| AddrZero
| AddrV4 (a : Z)
| AddrV6 (a : Z) (zone : string).
#[export] Instance Addr_eq_dec : EqDecision Addr.
Proof. solve_decision. Defined.

#[export] Instance Addr_countable : Countable Addr.
Proof.
  apply (inj_countable'
    (fun a => match a with
              | AddrZero => inl tt | AddrV4 v => inr (inl v) | AddrV6 v z => inr (inr (v, z)) end)
    (fun x => match x with
              | inl _ => AddrZero | inr (inl v) => AddrV4 v | inr (inr (v, z)) => AddrV6 v z end)).
  by intros [].
Defined.

Definition IsValid (a : Addr) : bool :=
  match a with AddrZero => false | _ => true end.
Definition Is4In6 (a : Z) : bool := Z.shiftr a 32 =? 0xFFFF.

(** [AddrFrom4] of four bytes; [As4] panics ([None]) outside IPv4. *)
Definition AddrFrom4 (b : bytes) : Addr := AddrV4 (be_val b).
Definition As4 (a : Addr) : option bytes :=
  match a with
  | AddrZero => None
  | AddrV4 v => Some (be_bytes 4 v)
  | AddrV6 v _ => if Is4In6 v then Some (be_bytes 4 v) else None
  end.

Definition v4_string (v : Z) : string :=
  let octet k := Itoa (u8 (Z.shiftr v k)) in
  (octet 24 ++ "." ++ octet 16 ++ "." ++ octet 8 ++ "." ++ octet 0)%string.

Definition v6u16 (v : Z) (i : nat) : Z := u16 (Z.shiftr v (112 - 16 * Z.of_nat i)).
Fixpoint zero_run (v : Z) (i fuel : nat) : nat :=
  match fuel with
  | O => O
  | S f => if v6u16 v i =? 0 then S (zero_run v (S i) f) else O
  end.
(** First longest run of at least two zero groups: (start, length). *)
Definition longest_zeros (v : Z) : nat * nat :=
  fold_left
    (fun best i =>
       let l := zero_run v i (8 - i) in
       if decide (2 <= l /\ best.2 < l)%nat then (i, l) else best)
    (seq 0 8) (255%nat, O).
Fixpoint v6_groups (v : Z) (zs : nat * nat) (i fuel : nat) : string :=
  match fuel with
  | O => ""
  | S f =>
      if decide (8 <= i)%nat then ""
      else if decide (i = zs.1) then
        let i' := (i + zs.2)%nat in
        if decide (8 <= i')%nat then "::"
        else ("::" ++ format_hex (v6u16 v i') ++ v6_groups v zs (S i') f)%string
      else ((if decide (i = O) then "" else ":")
              ++ format_hex (v6u16 v i) ++ v6_groups v zs (S i) f)%string
  end.
Definition zone_string (zone : string) : string :=
  if decide (zone = "") then "" else ("%" ++ zone)%string.
Definition Addr_String (a : Addr) : string :=
  match a with
  | AddrZero => "invalid IP"
  | AddrV4 v => v4_string v
  | AddrV6 v zone =>
      ((if Is4In6 v then "::ffff:" ++ v4_string (u32 v)
        else v6_groups v (longest_zeros v) 0 8) ++ zone_string zone)%string
  end.

(** *** net.IP, net.UDPAddr and net.IPNet *)

(** [net.IP.To4]: four bytes, or the last four of an IPv4-mapped sixteen. *)
Definition To4 (ip : bytes) : option bytes :=
  if decide (length ip = 4%nat) then Some ip
  else if decide (length ip = 16%nat /\ take 12 ip = replicate 10 0 ++ [0xFF; 0xFF])
  then Some (drop 12 ip) else None.

Definition hexString (b : bytes) : string :=
  string_of_list_ascii (flat_map (fun v => [hex_digit (v / 16); hex_digit (v mod 16)]) b).
Definition IP_String (ip : bytes) : string :=
  match ip with
  | [] => "<nil>"
  | _ =>
      if negb (bool_decide (length ip = 4%nat)) && negb (bool_decide (length ip = 16%nat))
      then ("?" ++ hexString ip)%string
      else match To4 ip with
           | Some v4 => Addr_String (AddrFrom4 v4)
           | None => Addr_String (AddrV6 (be_val ip) "")
           end
  end.

Record UDPAddr := mkUDPAddr { ua_IP : bytes; ua_Port : Z }.
Definition UDPAddr_String (a : UDPAddr) : string :=
  JoinHostPort (match ua_IP a with [] => "" | ip => IP_String ip end) (Itoa (ua_Port a)).

Record IPNet := mkIPNet { net_IP : bytes; net_Mask : bytes }.
(** [networkNumberAndMask]; [None] is the nil pair, which contains no address. *)
Definition networkNumberAndMask (n : IPNet) : option (bytes * bytes) :=
  let ip := default (net_IP n) (To4 (net_IP n)) in
  if negb (bool_decide (length ip = 4%nat)) && negb (bool_decide (length ip = 16%nat)) then None
  else if decide (length (net_Mask n) = 4%nat) then
    if decide (length ip = 4%nat) then Some (ip, net_Mask n) else None
  else if decide (length (net_Mask n) = 16%nat) then
    if decide (length ip = 4%nat) then Some (ip, drop 12 (net_Mask n)) else Some (ip, net_Mask n)
  else None.
Fixpoint same_network (nn m ip : bytes) : bool :=
  match nn, m, ip with
  | n :: nn, k :: m, i :: ip => (Z.land n k =? Z.land i k) && same_network nn m ip
  | [], _, [] => true
  | _, _, _ => false
  end.
Definition Contains (n : IPNet) (ip : bytes) : bool :=
  let ip := default ip (To4 ip) in
  match networkNumberAndMask n with
  | None => bool_decide (length ip = O)
  | Some (nn, m) => bool_decide (length ip = length nn) && same_network nn m ip
  end.

(** *** netip.ParseAddr

    Characters are bytes; an error is [None]. *)

Definition is_digit (c : Z) : bool := (48 <=? c) && (c <=? 57).
Definition dot : Z := 46.
Definition colon_byte : Z := 58.
Definition percent : Z := 37.

(** [parseIPv4Fields]: the four octets.  [prev] is the preceding character, [fields]
    the octets read so far in reverse. *)
Fixpoint parseIPv4Fields (prev : option Z) (val : Z) (digLen : nat) (fields : list Z)
    (s : bytes) : option (list Z) :=
  match s with
  | [] => if decide (length fields < 3)%nat then None else Some (rev (val :: fields))
  | c :: rest =>
      if is_digit c then
        if (digLen =? 1)%nat && (val =? 0) then None
        else
          let val := val * 10 + (c - 48) in
          if 255 <? val then None
          else parseIPv4Fields (Some c) val (S digLen) fields rest
      else if c =? dot then
        if bool_decide (prev = None) || bool_decide (rest = []) || bool_decide (prev = Some dot)
        then None
        else if (length fields =? 3)%nat then None
        else parseIPv4Fields (Some c) 0 0 (val :: fields) rest
      else None
  end.

Definition parseIPv4 (s : bytes) : option Addr :=
  AddrFrom4 <$> parseIPv4Fields None 0 0 [] s.

Definition hex_value (c : Z) : option Z :=
  if is_digit c then Some (c - 48)
  else if (97 <=? c) && (c <=? 102) then Some (c - 87)
  else if (65 <=? c) && (c <=? 70) then Some (c - 55)
  else None.

(** Leading hexadecimal digits: their number, their value, the rest. *)
Fixpoint hex_run (acc : Z) (off : nat) (s : bytes) : nat * Z * bytes :=
  match s with
  | c :: rest =>
      match hex_value c with
      | Some d => hex_run (acc * 16 + d) (S off) rest
      | None => (off, acc, s)
      end
  | [] => (off, acc, [])
  end.

(** The group loop: the bytes read and the position of the ellipsis; each iteration
    consumes a digit, so the length of the input bounds the iterations. *)
Fixpoint parse_groups (fuel : nat) (ip : bytes) (ellipsis : option nat) (s : bytes)
    : option (bytes * option nat * bytes) :=
  match fuel with
  | O => None
  | S fuel =>
      if decide (16 <= length ip)%nat then Some (ip, ellipsis, s)
      else
        let '(off, acc, rest) := hex_run 0 0 s in
        if (off =? 0)%nat || (4 <? off)%nat then None
        else if bool_decide (head rest = Some dot) then
          if bool_decide (ellipsis = None) && negb (length ip =? 12)%nat then None
          else if (16 <? length ip + 4)%nat then None
          else option_map (fun f => (ip ++ f, ellipsis, []))%list (parseIPv4Fields None 0 0 [] s)
        else
          let ip := (ip ++ be_bytes 2 acc)%list in
          match rest with
          | [] => Some (ip, ellipsis, [])
          | c :: rest =>
              if negb (c =? colon_byte) then None
              else match rest with
              | [] => None
              | c2 :: rest2 =>
                  if c2 =? colon_byte then
                    match ellipsis with
                    | Some _ => None
                    | None => match rest2 with
                              | [] => Some (ip, Some (length ip), [])
                              | _ => parse_groups fuel ip (Some (length ip)) rest2
                              end
                    end
                  else parse_groups fuel ip ellipsis rest
              end
          end
  end.

Definition expand_ellipsis (ip : bytes) (ellipsis : option nat) : option bytes :=
  if decide (length ip < 16)%nat then
    match ellipsis with
    | None => None
    | Some e => Some (take e ip ++ replicate (16 - length ip) 0 ++ drop e ip)%list
    end
  else match ellipsis with None => Some ip | Some _ => None end.

Definition parseIPv6 (s : bytes) : option Addr :=
  let '(s, zone) :=
    match list_find (fun c => c = percent) s with
    | Some (i, _) => (take i s, Some (drop (S i) s))
    | None => (s, None)
    end in
  if bool_decide (zone = Some []) then None
  else
    let with_zone v := AddrV6 v (bytes_string (default [] zone)) in
    let parse ellipsis s :=
      match parse_groups (S (length s)) [] ellipsis s with
      | Some (ip, ellipsis, []) => (fun ip => with_zone (be_val ip)) <$> expand_ellipsis ip ellipsis
      | _ => None
      end in
    match s with
    | c1 :: c2 :: rest =>
        if (c1 =? colon_byte) && (c2 =? colon_byte) then
          match rest with [] => Some (with_zone 0) | _ => parse (Some 0%nat) rest end
        else parse None s
    | _ => parse None s
    end.

(** The first '.', ':' or '%' decides the syntax. *)
Definition ParseAddr (s : string) : option Addr :=
  let b := string_bytes s in
  match list_find (fun c => c = dot \/ c = colon_byte \/ c = percent) b with
  | Some (_, c) => if c =? dot then parseIPv4 b
                   else if c =? colon_byte then parseIPv6 b else None
  | None => None
  end.

Example ParseAddr_examples :
  ParseAddr "10.0.0.255" = Some (AddrV4 0x0A0000FF) /\ ParseAddr "10.0.0.256" = None /\
  ParseAddr "10.0.01.2" = None /\ ParseAddr "1.2.3" = None /\
  ParseAddr "fe80::1%eth0" = Some (AddrV6 0xFE800000000000000000000000000001 "eth0") /\
  ParseAddr "::ffff:1.2.3.4" = Some (AddrV6 0xFFFF01020304 "") /\ ParseAddr "1:2::3::4" = None.
Proof. by vm_compute. Qed.

(** ** float64 *)

Definition f64_of_Z (z : Z) : spec_float := binary_normalize 53 1024 z 0 false.
Definition f64_add := SFadd 53 1024.
Definition f64_mul := SFmul 53 1024.
Definition f64_div := SFdiv 53 1024.

(** [int(f)] truncates toward zero; out of range (and for NaN and the
    infinities) amd64 yields the smallest integer. *)
Definition f64_to_int (f : spec_float) : Z :=
  match f with
  | S754_zero _ => 0
  | S754_finite s m e =>
      let mag := if 0 <=? e then Z.shiftl (Zpos m) e else Z.shiftr (Zpos m) (- e) in
      let z := if s then - mag else mag in
      if (min_i64 <=? z) && (z <=? max_i64) then z else min_i64
  | _ => min_i64
  end.

(** [Duration.Seconds]: [float64(d / Second) + float64(d % Second) / 1e9]. *)
Definition Seconds (d : duration) : spec_float :=
  f64_add (f64_of_Z (Z.quot d Second))
          (f64_div (f64_of_Z (Z.rem d Second)) (f64_of_Z 1000000000)).

(** ** Lemmas: ranging over an ASCII string visits its bytes in order *)

Fixpoint enumerate (i : Z) (l : bytes) : list (Z * Z) :=
  match l with [] => [] | b :: l => (i, b) :: enumerate (i + 1) l end.

Lemma utf8_range_ascii i l :
  Forall (fun b => b < 0x80) l -> utf8_range i l = enumerate i l.
Proof.
  intros Hl. revert i. induction Hl as [|b l Hb Hl IH]; intros i; simpl; [done|].
  destruct (Z.ltb_spec b 128); [|lia]. by rewrite IH.
Qed.

(** ** Lemmas: hosts and ports *)

Lemma index_byte_None c l : index_byte c l = None <-> c ∉ l.
Proof.
  induction l as [|x l IH]; simpl; [by split; [intros _ []%elem_of_nil|]|].
  case_decide; [split; [done|set_solver]|]. rewrite fmap_None, IH. set_solver.
Qed.

Lemma index_byte_Some c l i :
  index_byte c l = Some i -> c ∉ take i l /\ l !! i = Some c.
Proof.
  revert i. induction l as [|x l IH]; intros i; simpl; [done|].
  case_decide; [intros [= <-]; simpl; set_solver|].
  intros (i' & Hi & ->)%fmap_Some.
  destruct (IH i' Hi) as [? ?]. simpl. set_solver.
Qed.

Lemma index_byte_app c l k :
  c ∉ l -> index_byte c (l ++ c :: k) = Some (length l).
Proof.
  induction l as [|x l IH]; intros Hc; simpl.
  - by rewrite decide_True.
  - rewrite decide_False by set_solver. by rewrite IH by set_solver.
Qed.

Lemma last_index_byte_None c l : c ∉ l -> last_index_byte c l = None.
Proof.
  induction l as [|x l IH]; intros Hc; simpl; [done|].
  rewrite IH, decide_False by set_solver. done.
Qed.

Lemma last_index_byte_app c l k :
  c ∉ k -> last_index_byte c (l ++ c :: k) = Some (length l).
Proof.
  intros Hk. induction l as [|x l IH]; simpl.
  - by rewrite last_index_byte_None, decide_True.
  - by rewrite IH.
Qed.

Lemma drop_cons_mid {A} (l k : list A) x : drop (S (length l)) (l ++ x :: k) = k.
Proof. induction l; [apply drop_0|done]. Qed.

(** Text that holds no bracket: a host name or an address literal. *)
Definition no_brackets (l : list ascii) : Prop := lbrack ∉ l /\ rbrack ∉ l.
#[export] Instance no_brackets_dec l : Decision (no_brackets l) := and_dec _ _.

Lemma SplitHostPort_list_join h p :
  no_brackets h -> no_brackets p -> colon ∉ p ->
  SplitHostPort_list (JoinHostPort_list h p) = Ok (h, p).
Proof.
  intros [Hlb Hrb] [Hlp Hrp] Hp. unfold SplitHostPort_list, JoinHostPort_list.
  destruct (index_byte colon h) as [n|] eqn:Hc.
  - replace (lbrack :: h ++ rbrack :: colon :: p)
      with ((lbrack :: h ++ [rbrack]) ++ colon :: p)
      by (simpl; by rewrite <-app_assoc).
    rewrite last_index_byte_app by done.
    unfold split_host. rewrite decide_True by done.
    assert (index_byte rbrack ((lbrack :: h ++ [rbrack]) ++ colon :: p)
            = Some (S (length h))) as ->.
    { change (S <$> index_byte rbrack ((h ++ [rbrack]) ++ colon :: p)
              = Some (S (length h))).
      rewrite <-app_assoc. simpl app. by rewrite index_byte_app. }
    rewrite decide_False by (rewrite length_app; simpl; rewrite length_app; simpl; lia).
    rewrite decide_True by (simpl; rewrite length_app; simpl; lia).
    simpl rbind. cbv beta iota.
    rewrite (proj2 (index_byte_None _ _)).
    2: { simpl. rewrite drop_0. set_solver. }
    rewrite (proj2 (index_byte_None _ _)).
    2: { simpl. rewrite <-app_assoc. simpl.
         rewrite cons_middle, app_assoc, drop_app_ge by (rewrite length_app; simpl; lia).
         rewrite length_app. simpl.
         replace (S (length h) - (length h + 1))%nat with O by lia. set_solver. }
    f_equal. f_equal.
    + simpl. unfold slice. simpl. rewrite Nat.sub_0_r, drop_0, <-app_assoc.
      by rewrite take_app_length.
    + apply drop_cons_mid.
  - apply index_byte_None in Hc. rewrite last_index_byte_app by done.
    unfold split_host. rewrite decide_False.
    2: { destruct h; simpl; [by intros [=]|set_solver]. }
    rewrite take_app_length. rewrite (proj2 (index_byte_None _ _)) by done.
    simpl rbind. cbv beta iota. rewrite !drop_0.
    rewrite !(proj2 (index_byte_None _ _)) by set_solver.
    f_equal. f_equal. apply drop_cons_mid.
Qed.

(** ** Lemmas: IPv4 addresses parse back *)

(** The decimal notation of an octet: no leading zero, at most three digits. *)
Definition octet_digits (n : Z) (ds : bytes) : bool :=
  match ds with
  | [a] => is_digit a && (a - 48 =? n)
  | [a; b] => is_digit a && is_digit b && negb (a - 48 =? 0) && ((a - 48) * 10 + (b - 48) =? n)
  | [a; b; c] => is_digit a && is_digit b && is_digit c && negb (a - 48 =? 0)
                 && ((a - 48) * 10 + (b - 48) <=? 255)
                 && (((a - 48) * 10 + (b - 48)) * 10 + (c - 48) =? n)
  | _ => false
  end.

Lemma Itoa_octet n : is_byte n -> octet_digits n (string_bytes (Itoa n)) = true.
Proof.
  revert n. apply (forall_range 0 256 (fun n => octet_digits n (string_bytes (Itoa n)))).
  by vm_compute.
Qed.

Lemma is_digit_spec c : is_digit c = true -> 48 <= c <= 57.
Proof. unfold is_digit. rewrite andb_true_iff, !Z.leb_le. lia. Qed.

(** Reading one octet. *)
Lemma parseIPv4Fields_octet n ds prev fields rest :
  is_byte n -> octet_digits n ds = true ->
  exists c, c <> dot /\ c <> colon_byte /\ c <> percent /\
    parseIPv4Fields prev 0 0 fields (ds ++ rest) = parseIPv4Fields (Some c) n (length ds) fields rest.
Proof.
  unfold in_u. intros Hn H.
  destruct ds as [|a [|b [|c [|]]]]; cbn in H; try done;
    rewrite ?andb_true_iff, ?negb_true_iff, ?Z.eqb_eq, ?Z.eqb_neq, ?Z.leb_le in H.
  - destruct H as [Ha E]. pose proof (is_digit_spec _ Ha). exists a.
    unfold dot, colon_byte, percent. repeat (split; [lia|]). cbn [parseIPv4Fields app length].
    rewrite Ha. cbn. rewrite ?Z.mul_0_l, ?Z.add_0_l. replace (a - 48) with n by lia.
    destruct (Z.ltb_spec 255 n); [lia|done].
  - destruct H as [[[Ha Hb] Hz] E]. pose proof (is_digit_spec _ Ha). pose proof (is_digit_spec _ Hb).
    exists b. unfold dot, colon_byte, percent. repeat (split; [lia|]).
    cbn [parseIPv4Fields app length]. rewrite Ha, Hb. cbn. rewrite ?Z.mul_0_l, ?Z.add_0_l.
    destruct (Z.ltb_spec 255 (a - 48)); [lia|]. destruct (Z.eqb_spec (a - 48) 0); [lia|].
    rewrite E. destruct (Z.ltb_spec 255 n); [lia|done].
  - destruct H as [[[[[Ha Hb] Hc] Hz] Hm] E].
    pose proof (is_digit_spec _ Ha). pose proof (is_digit_spec _ Hb). pose proof (is_digit_spec _ Hc).
    exists c. unfold dot, colon_byte, percent. repeat (split; [lia|]).
    cbn [parseIPv4Fields app length]. rewrite Ha, Hb, Hc. cbn. rewrite ?Z.mul_0_l, ?Z.add_0_l.
    destruct (Z.ltb_spec 255 (a - 48)); [lia|]. destruct (Z.eqb_spec (a - 48) 0); [lia|]. cbn.
    destruct (Z.ltb_spec 255 ((a - 48) * 10 + (b - 48))); [lia|]. cbn.
    rewrite E. destruct (Z.ltb_spec 255 n); [lia|done].
Qed.

Lemma parseIPv4Fields_dot c val k fields rest :
  c <> dot -> rest <> [] -> (length fields < 3)%nat ->
  parseIPv4Fields (Some c) val k fields (dot :: rest)
    = parseIPv4Fields (Some dot) 0 0 (val :: fields) rest.
Proof.
  intros Hc Hr Hf. cbn [parseIPv4Fields]. change (is_digit dot) with false. rewrite Z.eqb_refl.
  rewrite !bool_decide_eq_false_2 by congruence. cbn.
  destruct (Nat.eqb_spec (length fields) 3); [lia|done].
Qed.

Lemma octet_digits_head n ds : octet_digits n ds = true ->
  exists a l, ds = a :: l /\ is_digit a = true /\ Forall (fun c => is_digit c = true) ds.
Proof.
  destruct ds as [|a [|b [|c [|]]]]; cbn; try done; rewrite ?andb_true_iff; intros H;
    eexists _, _; (split; [done|]); split; try tauto; repeat constructor; tauto.
Qed.

Lemma string_bytes_app s1 s2 :
  string_bytes (s1 ++ s2)%string = (string_bytes s1 ++ string_bytes s2)%list.
Proof.
  unfold string_bytes. rewrite <- fmap_app. f_equal.
  induction s1 as [|c s1 IH]; [done|]. exact (f_equal (cons c) IH).
Qed.

Lemma ParseAddr_v4 v : in_u 32 v -> ParseAddr (v4_string v) = Some (AddrV4 v).
Proof.
  intros Hv. unfold ParseAddr, v4_string.
  assert (Hb : forall k, is_byte (u8 (Z.shiftr v k))) by (intros; apply uN_range; lia).
  set (o := fun k => string_bytes (Itoa (u8 (Z.shiftr v k)))).
  assert (Ho : forall k, octet_digits (u8 (Z.shiftr v k)) (o k) = true)
    by (intros; by apply Itoa_octet).
  rewrite !string_bytes_app. fold (o 24) (o 16) (o 8) (o 0).
  change (string_bytes ".") with [dot].
  assert (Hd : forall k, exists a l, o k = a :: l) by
    (intros k; destruct (octet_digits_head _ _ (Ho k)) as (a & l & E & _); eauto).
  assert (Hfind : forall ds rest, Forall (fun c => is_digit c = true) ds ->
    exists i, list_find (fun c => c = dot \/ c = colon_byte \/ c = percent) (ds ++ dot :: rest)%list
              = Some (i, dot)).
  { intros ds rest. induction 1 as [|c ds Hc _ [i IH]].
    - exists O. cbn. rewrite decide_True by auto. done.
    - exists (S i). cbn. pose proof (is_digit_spec _ Hc). unfold dot, colon_byte, percent in *.
      rewrite decide_False by lia. rewrite IH. done. }
  destruct (octet_digits_head _ _ (Ho 24)) as (_ & _ & _ & _ & Hall).
  destruct (Hfind (o 24) ((o 16 ++ [dot] ++ o 8 ++ [dot] ++ o 0)%list) Hall) as [i Hi].
  cbn [app] in *. rewrite Hi. cbn [Z.eqb]. rewrite Z.eqb_refl. unfold parseIPv4.
  destruct (parseIPv4Fields_octet _ (o 24) None [] (dot :: o 16 ++ dot :: o 8 ++ dot :: o 0)
    (Hb 24) (Ho 24)) as (c1 & Hc1 & _ & _ & ->).
  rewrite parseIPv4Fields_dot; [|done|by destruct (Hd 16) as (? & ? & ->)|cbn; lia].
  destruct (parseIPv4Fields_octet _ (o 16) (Some dot) [u8 (Z.shiftr v 24)] (dot :: o 8 ++ dot :: o 0)
    (Hb 16) (Ho 16)) as (c2 & Hc2 & _ & _ & ->).
  rewrite parseIPv4Fields_dot; [|done|by destruct (Hd 8) as (? & ? & ->)|cbn; lia].
  destruct (parseIPv4Fields_octet _ (o 8) (Some dot) [u8 (Z.shiftr v 16); u8 (Z.shiftr v 24)]
    (dot :: o 0) (Hb 8) (Ho 8)) as (c3 & Hc3 & _ & _ & ->).
  rewrite parseIPv4Fields_dot; [|done|by destruct (Hd 0) as (? & ? & ->)|cbn; lia].
  destruct (parseIPv4Fields_octet _ (o 0) (Some dot)
    [u8 (Z.shiftr v 8); u8 (Z.shiftr v 16); u8 (Z.shiftr v 24)] [] (Hb 0) (Ho 0))
    as (c4 & _ & _ & _ & E).
  rewrite app_nil_r in E. rewrite E. cbn [parseIPv4Fields]. rewrite decide_False by (cbn; lia).
  exact (f_equal (fun x => Some (AddrV4 x)) (be_val_be_bytes_small 4 v Hv)).
Qed.
