(* ===== verification/Gtpv2Ie.v ===== *)
(** * GTPv2-C information elements ([internal/gtpv2/ie/ie.go])

    The IE record with its wire coding, the grouped-IE parser, the search
    helpers, every constructor and every value decoder, and the TBCD, APN, PLMN
    and 40-bit helpers they use.  A Go [*IE] that the code never mutates after
    construction is its value; a panic of [netip.Addr.As4] is [None]. *)

From stdpp Require Import pretty.
From S2P Require Import Prelude GoLib.

(** ** Constants *)

Definition TypeIMSI := 1.
Definition TypeCause := 2.
Definition TypeRecovery := 3.
Definition TypeAPN := 71.
Definition TypeAMBR := 72.
Definition TypeEBI := 73.
Definition TypeIPAddress := 74.
Definition TypeMEI := 75.
Definition TypeMSISDN := 76.
Definition TypeIndication := 77.
Definition TypePCO := 78.
Definition TypePAA := 79.
Definition TypeBearerQoS := 80.
Definition TypeFlowQoS := 81.
Definition TypeRATType := 82.
Definition TypeServingNetwork := 83.
Definition TypeBearerTFT := 84.
Definition TypeULI := 86.
Definition TypeFTEID := 87.
Definition TypeDelayValue := 92.
Definition TypeBearerContext := 93.
Definition TypeChargingID := 94.
Definition TypeChargingChars := 95.
Definition TypePDNType := 99.
Definition TypePTI := 100.
Definition TypeAPNRestriction := 127.
Definition TypeUETimeZone := 114.
Definition TypeNodeType := 135.
Definition TypeThrottling := 154.
Definition TypeARP := 155.
Definition TypeEPCTimer := 156.
Definition TypePagingAndServiceInformation := 186.
Definition TypeIntegerNumber := 187.
Definition TypeSelectionMode := 128.
Definition TypeSecondaryRATUsageDataReport := 201.

Definition CauseRequestAccepted := 16.
Definition CauseRequestAcceptedPartially := 17.
Definition CauseContextNotFound := 64.
Definition CauseInvalidMessageFormat := 65.
Definition CauseVersionNotSupported := 66.
Definition CauseInvalidLength := 67.
Definition CauseMandatoryIEIncorrect := 69.
Definition CauseMandatoryIEMissing := 70.
Definition CauseSystemFailure := 72.
Definition CauseNoResourcesAvailable := 73.
Definition CauseMissingOrUnknownAPN := 78.
Definition CausePreferredPDNTypeNotSupported := 83.
Definition CauseAllDynamicAddressesOccupied := 84.
Definition CauseRequestRejected := 94.
Definition CauseConditionalIEMissing := 103.

Definition PDNTypeIPv4 := 1.
Definition PDNTypeIPv6 := 2.
Definition PDNTypeIPv4v6 := 3.

Definition IFTypeS1UENB := 0.
Definition IFTypeS1USGW := 1.
Definition IFTypeS5S8USGW := 4.
Definition IFTypeS5S8UPGW := 5.
Definition IFTypeS11MMEC := 10.
Definition IFTypeS11S4SGW := 11.
Definition IFTypeS5S8CSGW := 6.
Definition IFTypeS5S8CPGW := 7.

(** ** The IE and its errors *)

Record IE := mkIE { IE_Type : Z; IE_Instance : Z; IE_Value : bytes }.
#[export] Instance IE_eq_dec : EqDecision IE.
Proof. solve_decision. Defined.

Inductive IEError : Type :=
| IEHeaderTruncated (remain : nat)
| IEValueTruncated (typ need : Z) (have : nat)
| IEWrongType (typ want : Z)
| IETooShort (typ : Z) (have : nat)
| IEOutOfFuel.

(** A well-formed IE: what a [uint8] type, a 4-bit instance and a 16-bit length
    can carry. *)
Definition IE_wf (i : IE) : Prop :=
  is_byte (IE_Type i) /\ in_u 4 (IE_Instance i) /\ bytes_ok (IE_Value i)
  /\ Z.of_nat (length (IE_Value i)) < 2 ^ 16.
#[export] Instance IE_wf_dec i : Decision (IE_wf i).
Proof. unfold IE_wf. apply _. Defined.

Definition IE_Marshal (i : IE) : bytes :=
  IE_Type i :: be_bytes 2 (u16 (Z.of_nat (length (IE_Value i))))
  ++ Z.land (IE_Instance i) 0x0F :: IE_Value i.

(** The loop of [ParseIEs]; every iteration consumes at least the four header
    bytes, so [length b] iterations are enough ([ParseIEs_loop_fuel] below). *)
Fixpoint ParseIEs_loop (fuel : nat) (b : bytes) : result IEError (list IE) :=
  match b with
  | [] => Ok []
  | _ =>
      match fuel with
      | O => Err IEOutOfFuel
      | S f =>
          match b with
          | typ :: l1 :: l0 :: si :: rest =>
              let len := be_val [l1; l0] in
              if Z.of_nat (length rest) <? len
              then Err (IEValueTruncated typ len (length rest))
              else
                let n := Z.to_nat len in
                let? tail := ParseIEs_loop f (drop n rest) in
                Ok (mkIE typ (Z.land si 0x0F) (copy_into n (take n rest)) :: tail)
          | _ => Err (IEHeaderTruncated (length b))
          end
      end
  end.
Definition ParseIEs (b : bytes) : result IEError (list IE) :=
  ParseIEs_loop (length b) b.

Fixpoint FindInstance (ies : list IE) (typ inst : Z) : option IE :=
  match ies with
  | [] => None
  | i :: ies =>
      if (IE_Type i =? typ) && (IE_Instance i =? inst) then Some i
      else FindInstance ies typ inst
  end.
Definition FindFirst (ies : list IE) (typ : Z) : option IE := FindInstance ies typ 0.
Definition FindAll (ies : list IE) (typ : Z) : list IE :=
  filter (fun i => IE_Type i = typ) ies.

(** ** Encoding helpers *)

(** [out[k] |= v] / [out[k] = v] on a slice. *)
Definition or_at (k : nat) (v : Z) (out : bytes) : bytes :=
  alter (fun x => Z.lor x v) k out.

(** The loop of [encodeTBCD]: the runes of the string with their byte index. *)
Fixpoint encodeTBCD_loop (rs : list (Z * Z)) (out : bytes) : bytes :=
  match rs with
  | [] => out
  | (i, c) :: rs =>
      let d := u8 (c - 48) in
      let k := Z.to_nat (i / 2) in
      encodeTBCD_loop rs
        (if i mod 2 =? 0 then <[k := d]> out else or_at k (u8 (Z.shiftl d 4)) out)
  end.
Definition encodeTBCD (digits : string) : bytes :=
  let n := String.length digits in
  let out := encodeTBCD_loop (range_string digits) (replicate ((n + 1) / 2) 0) in
  if decide (n mod 2 = 0)%nat then out else or_at (length out - 1) 0xF0 out.

Fixpoint decodeTBCD_bytes (b : bytes) : bytes :=
  match b with
  | [] => []
  | v :: b =>
      let lo := Z.land v 0x0F in
      let hi := Z.land (Z.shiftr v 4) 0x0F in
      u8 (48 + lo) :: (if hi =? 0x0F then [] else [u8 (48 + hi)]) ++ decodeTBCD_bytes b
  end.
Definition decodeTBCD (b : bytes) : string := bytes_string (decodeTBCD_bytes b).

Definition encodeE164 (num : string) : bytes :=
  match num with
  | String "+" rest => encodeTBCD rest
  | _ => encodeTBCD num
  end.
Definition decodeE164 (b : bytes) : string := decodeTBCD b.

(** [encodeAPN]: [label] holds the bytes since [start]. *)
Fixpoint encodeAPN_loop (apn label : bytes) : bytes :=
  let flush := u8 (Z.of_nat (length label)) :: label in
  match apn with
  | [] => flush
  | c :: rest =>
      if c =? 46 then flush ++ encodeAPN_loop rest []
      else encodeAPN_loop rest (label ++ [c])
  end.
Definition encodeAPN (apn : string) : bytes :=
  match apn with
  | EmptyString => [0]
  | _ => encodeAPN_loop (string_bytes apn) []
  end.

(** The loop of [decodeAPN]; each iteration consumes the length octet. *)
Fixpoint decodeAPN_loop (fuel : nat) (b out : bytes) : bytes :=
  match fuel, b with
  | S f, n :: b =>
      let n := Z.to_nat n in
      if decide (length b < n)%nat then out
      else
        let out := if decide (out = []) then out else out ++ [46] in
        decodeAPN_loop f (drop n b) (out ++ take n b)
  | _, _ => out
  end.
Definition decodeAPN (b : bytes) : string :=
  bytes_string (decodeAPN_loop (length b) b []).

Definition digit (c : Z) : Z := if (48 <=? c) && (c <=? 57) then c - 48 else 0.

(** [for len(mcc) < 3 { mcc += "0" }] and [for len(mnc) < 2 { mnc = "0" + mnc }] *)
Definition pad_right (n : nat) (l : bytes) : bytes := l ++ replicate (n - length l) 48.
Definition pad_left (n : nat) (l : bytes) : bytes := replicate (n - length l) 48 ++ l.

Definition encodePLMN (mcc mnc : string) : bytes :=
  let mcc := pad_right 3 (string_bytes mcc) in
  let mnc := pad_left 2 (string_bytes mnc) in
  let d l k := digit (nth k l 0) in
  [ Z.lor (d mcc 0%nat) (u8 (Z.shiftl (d mcc 1%nat) 4));
    (if decide (length mnc = 2%nat) then Z.lor (d mcc 2%nat) 0xF0
     else Z.lor (d mcc 2%nat) (u8 (Z.shiftl (d mnc 2%nat) 4)));
    Z.lor (d mnc 0%nat) (u8 (Z.shiftl (d mnc 1%nat) 4)) ].

Definition decodePLMN (b : bytes) : result IEError (string * string) :=
  match b with
  | b0 :: b1 :: b2 :: _ =>
      let lo v := Z.land v 0x0F in
      let hi v := Z.land (Z.shiftr v 4) 0x0F in
      let mcc := (Itoa (lo b0) ++ Itoa (hi b0) ++ Itoa (lo b1))%string in
      let mnc := if hi b1 =? 0x0F then (Itoa (lo b2) ++ Itoa (hi b2))%string
                 else (Itoa (lo b2) ++ Itoa (hi b2) ++ Itoa (hi b1))%string in
      Ok (mcc, mnc)
  | _ => Err (IETooShort TypeServingNetwork (length b))
  end.

Definition putUint40 (v : Z) : bytes :=
  [ u8 (Z.shiftr v 32); u8 (Z.shiftr v 24); u8 (Z.shiftr v 16);
    u8 (Z.shiftr v 8); u8 v ].

(** ** Constructors *)

Definition NewIMSI (imsi : string) : IE := mkIE TypeIMSI 0 (encodeTBCD imsi).
Definition NewMSISDN (msisdn : string) : IE := mkIE TypeMSISDN 0 (encodeE164 msisdn).
Definition NewMEI (mei : string) : IE := mkIE TypeMEI 0 (encodeTBCD mei).

Definition NewCause (cause pce bce cs : Z) (offendingIE : option IE) : IE :=
  let flags := Z.lor (Z.lor (Z.land cs 1) (Z.shiftl (Z.land bce 1) 1))
                     (Z.shiftl (Z.land pce 1) 2) in
  let tail := match offendingIE with
              | None => []
              | Some i => [IE_Type i; 0; 0; Z.land (IE_Instance i) 0x0F]
              end in
  mkIE TypeCause 0 (cause :: flags :: tail).

Definition NewRecovery (restartCounter : Z) : IE := mkIE TypeRecovery 0 [restartCounter].
Definition NewRATType (ratType : Z) : IE := mkIE TypeRATType 0 [ratType].
Definition NewSelectionMode (mode : Z) : IE :=
  mkIE TypeSelectionMode 0 [Z.land mode 0x03].
Definition NewAPN (apn : string) : IE := mkIE TypeAPN 0 (encodeAPN apn).
Definition NewPDNType (pdnType : Z) : IE := mkIE TypePDNType 0 [Z.land pdnType 0x07].
Definition NewServingNetwork (mcc mnc : string) : IE :=
  mkIE TypeServingNetwork 0 (encodePLMN mcc mnc).
Definition NewEBI (ebi : Z) : IE := mkIE TypeEBI 0 [Z.land ebi 0x0F].
Definition NewEBIInstance (inst ebi : Z) : IE := mkIE TypeEBI inst [Z.land ebi 0x0F].

(** [None] is the panic of [As4] on an IPv6 address. *)
Definition NewFTEID (inst ifType teid : Z) (v4 : Addr) : option IE :=
  let flags := Z.land ifType 0x3F in
  if IsValid v4 then
    ip4 ← As4 v4;
    Some (mkIE TypeFTEID inst (Z.lor flags 0x80 :: be_bytes 4 teid ++ ip4))
  else Some (mkIE TypeFTEID inst (flags :: be_bytes 4 teid)).

Definition NewPAA (pdnType : Z) (v4 : Addr) : option IE :=
  let v := Z.land pdnType 0x07 in
  if (pdnType =? PDNTypeIPv4) && IsValid v4 then
    ip4 ← As4 v4; Some (mkIE TypePAA 0 (v :: ip4))
  else Some (mkIE TypePAA 0 [v]).

Definition NewAMBR (uplinkKbps downlinkKbps : Z) : IE :=
  mkIE TypeAMBR 0 (be_bytes 4 uplinkKbps ++ be_bytes 4 downlinkKbps).

Definition NewBearerQoS (pci pl pvi qci mbrUL mbrDL gbrUL gbrDL : Z) : IE :=
  let flags := Z.lor (Z.lor (Z.shiftl (Z.land pci 1) 6) (Z.shiftl (Z.land pl 0x0F) 2))
                     (Z.land pvi 1) in
  mkIE TypeBearerQoS 0
    (flags :: qci :: putUint40 mbrUL ++ putUint40 mbrDL ++ putUint40 gbrUL
       ++ putUint40 gbrDL).

Definition NewBearerTFT (raw : bytes) : IE :=
  mkIE TypeBearerTFT 0 (copy_into (length raw) raw).
Definition NewSecondaryRATUsageDataReport (raw : bytes) : IE :=
  mkIE TypeSecondaryRATUsageDataReport 0 (copy_into (length raw) raw).
Definition NewBearerContext (inst : Z) (children : list IE) : IE :=
  mkIE TypeBearerContext inst (flat_map IE_Marshal children).
Definition NewIndication (flags : bytes) : IE := mkIE TypeIndication 0 flags.

(** ** Decoders *)

(** [if ie.Type != want { return ..., error }] *)
Definition of_type (want : Z) (i : IE) : result IEError unit :=
  guard (IE_Type i =? want) (IEWrongType (IE_Type i) want).
(** The first value octet, after [if len(ie.Value) < 1 { return error }]. *)
Definition octet0 (i : IE) : result IEError Z :=
  match IE_Value i with
  | [] => Err (IETooShort (IE_Type i) 0)
  | v :: _ => Ok v
  end.

Definition IMSI (i : IE) : result IEError string :=
  let? _ := of_type TypeIMSI i in Ok (decodeTBCD (IE_Value i)).
Definition MEIValue (i : IE) : result IEError string :=
  let? _ := of_type TypeMEI i in Ok (decodeTBCD (IE_Value i)).
Definition MSISDN (i : IE) : result IEError string :=
  let? _ := of_type TypeMSISDN i in Ok (decodeE164 (IE_Value i)).
Definition CauseValue (i : IE) : result IEError Z :=
  let? _ := of_type TypeCause i in octet0 i.
Definition SelectionModeValue (i : IE) : result IEError Z :=
  let? _ := of_type TypeSelectionMode i in
  let? v := octet0 i in Ok (Z.land v 0x03).
Definition RATTypeValue (i : IE) : result IEError Z :=
  let? _ := of_type TypeRATType i in octet0 i.
Definition SecondaryRATUsageDataReportValue (i : IE) : result IEError bytes :=
  let? _ := of_type TypeSecondaryRATUsageDataReport i in
  Ok (copy_into (length (IE_Value i)) (IE_Value i)).
Definition APNValue (i : IE) : result IEError string :=
  let? _ := of_type TypeAPN i in Ok (decodeAPN (IE_Value i)).
Definition PDNTypeValue (i : IE) : result IEError Z :=
  let? _ := of_type TypePDNType i in
  let? v := octet0 i in Ok (Z.land v 0x07).
Definition EBIValue (i : IE) : result IEError Z :=
  let? _ := of_type TypeEBI i in
  let? v := octet0 i in Ok (Z.land v 0x0F).

Record FTEID := mkFTEID { FTEID_IntfType : Z; FTEID_TEID : Z; FTEID_IPv4 : Addr }.

Definition FTEIDValue (i : IE) : result IEError FTEID :=
  let? _ := of_type TypeFTEID i in
  let n := length (IE_Value i) in
  if decide (n < 5)%nat then Err (IETooShort TypeFTEID n)
  else
    let flags := nth 0 (IE_Value i) 0 in
    let intf := Z.land flags 0x3F in
    let teid := be_val (slice 1 5 (IE_Value i)) in
    if negb (Z.land flags 0x80 =? 0) then
      if decide (n < 9)%nat then Err (IETooShort TypeFTEID n)
      else Ok (mkFTEID intf teid (AddrFrom4 (slice 5 9 (IE_Value i))))
    else Ok (mkFTEID intf teid AddrZero).

Record PAA := mkPAA { PAA_PDNType : Z; PAA_IPv4 : Addr }.

Definition PAAValue (i : IE) : result IEError PAA :=
  let? _ := of_type TypePAA i in
  let? v := octet0 i in
  let pdn := Z.land v 0x07 in
  let n := length (IE_Value i) in
  if pdn =? PDNTypeIPv4 then
    if decide (n < 5)%nat then Err (IETooShort TypePAA n)
    else Ok (mkPAA pdn (AddrFrom4 (slice 1 5 (IE_Value i))))
  else Ok (mkPAA pdn AddrZero).

Definition ServingNetworkValue (i : IE) : result IEError (string * string) :=
  let? _ := of_type TypeServingNetwork i in
  if decide (length (IE_Value i) < 3)%nat
  then Err (IETooShort TypeServingNetwork (length (IE_Value i)))
  else decodePLMN (IE_Value i).

Definition ChildIEs (i : IE) : result IEError (list IE) := ParseIEs (IE_Value i).
Definition BearerTFTValue (i : IE) : result IEError bytes :=
  let? _ := of_type TypeBearerTFT i in
  Ok (copy_into (length (IE_Value i)) (IE_Value i)).
Definition RecoveryValue (i : IE) : result IEError Z :=
  let? _ := of_type TypeRecovery i in octet0 i.

(** ** Lemmas: the IE parser *)

(** The wire grammar of TS 29.274 8.1: a sequence of type, 16-bit length, an
    octet with four spare bits and the instance, and the value. *)
Inductive Encodes : list IE -> bytes -> Prop :=
| Encodes_nil : Encodes [] []
| Encodes_cons i spare ies b :
    IE_wf i -> in_u 4 spare -> Encodes ies b ->
    Encodes (i :: ies)
      (IE_Type i :: be_bytes 2 (Z.of_nat (length (IE_Value i)))
         ++ Z.lor (IE_Instance i) (Z.shiftl spare 4) :: IE_Value i ++ b).

(** A tail on which the parser stops with an error. *)
Inductive Truncated : bytes -> IEError -> Prop :=
| Truncated_header b :
    (0 < length b < 4)%nat -> Truncated b (IEHeaderTruncated (length b))
| Truncated_value t l1 l0 si v :
    Z.of_nat (length v) < be_val [l1; l0] ->
    Truncated (t :: l1 :: l0 :: si :: v)
      (IEValueTruncated t (be_val [l1; l0]) (length v)).

Lemma ParseIEs_loop_cons f t l1 l0 si rest :
  ParseIEs_loop (S f) (t :: l1 :: l0 :: si :: rest) =
    let len := be_val [l1; l0] in
    if Z.of_nat (length rest) <? len then Err (IEValueTruncated t len (length rest))
    else
      let n := Z.to_nat len in
      let? tail := ParseIEs_loop f (drop n rest) in
      Ok (mkIE t (Z.land si 0x0F) (copy_into n (take n rest)) :: tail).
Proof. reflexivity. Qed.

Lemma ParseIEs_loop_fuel n m b :
  (length b <= n)%nat -> (length b <= m)%nat ->
  ParseIEs_loop n b = ParseIEs_loop m b.
Proof.
  revert m b. induction n as [|n IH]; intros m b Hn Hm.
  { destruct b, m; simpl in *; done || lia. }
  destruct m as [|m]; [destruct b; simpl in *; done || lia|].
  destruct b as [|t [|l1 [|l0 [|si rest]]]]; [done..|].
  rewrite !ParseIEs_loop_cons. cbv zeta.
  destruct (Z.ltb_spec (Z.of_nat (length rest)) (be_val [l1; l0])); [done|].
  rewrite (IH m); [done|..]; simpl in *; rewrite length_drop; lia.
Qed.

Lemma ParseIEs_cons t l1 l0 si rest :
  ParseIEs (t :: l1 :: l0 :: si :: rest) =
    let len := be_val [l1; l0] in
    if Z.of_nat (length rest) <? len then Err (IEValueTruncated t len (length rest))
    else
      let n := Z.to_nat len in
      let? tail := ParseIEs (drop n rest) in
      Ok (mkIE t (Z.land si 0x0F) (copy_into n (take n rest)) :: tail).
Proof.
  unfold ParseIEs. simpl length. rewrite ParseIEs_loop_cons. cbv zeta.
  destruct (Z.ltb_spec (Z.of_nat (length rest)) (be_val [l1; l0])); [done|].
  rewrite (ParseIEs_loop_fuel (S (S (S (length rest))))
             (length (drop (Z.to_nat (be_val [l1; l0])) rest)));
    [done|rewrite length_drop; lia|done].
Qed.

Lemma ParseIEs_complete ies b : Encodes ies b -> ParseIEs b = Ok ies.
Proof.
  induction 1 as [|i sp ies b Hwf Hsp Henc IH]; [done|].
  destruct i as [t inst v]; destruct Hwf as (Ht & Hi & Hv & Hlen).
  cbn [IE_Type IE_Instance IE_Value] in *.
  destruct (be_bytes_2 (Z.of_nat (length v))) as (l1 & l0 & E). rewrite E.
  simpl app. rewrite ParseIEs_cons. cbv zeta.
  rewrite <-E, be_val_be_bytes_small by (unfold in_u; simpl Z.of_nat; lia).
  rewrite length_app, Nat2Z.id, drop_app_length, take_app_length, IH by done.
  destruct (Z.ltb_spec (Z.of_nat (length v + length b)) (Z.of_nat (length v))); [lia|].
  simpl. rewrite copy_into_length by done.
  change 15 with (Z.ones 4). by rewrite (field_low 4 inst sp) by (done || lia).
Qed.

Lemma ParseIEs_sound b ies : bytes_ok b -> ParseIEs b = Ok ies -> Encodes ies b.
Proof.
  revert ies. induction b as [b IH] using (induction_ltof1 _ length).
  intros ies Hb. destruct b as [|t [|l1 [|l0 [|si rest]]]]; try done.
  { intros [= <-]. constructor. }
  rewrite ParseIEs_cons. cbv zeta.
  set (len := be_val [l1; l0]).
  destruct (Z.ltb_spec (Z.of_nat (length rest)) len); [done|].
  intros (tail & Htail & [= <-])%rbind_Ok.
  repeat (apply Forall_cons in Hb as [? Hb]).
  assert (in_u 16 len) as Hlen by (apply (be_val_range [l1; l0]); auto with sgw_bytes).
  apply IH in Htail; [|unfold ltof; simpl; rewrite length_drop; lia|auto with sgw_bytes].
  set (n := Z.to_nat len) in *. unfold in_u in *.
  assert (length (take n rest) = n) as Htk by (rewrite length_take; lia).
  rewrite copy_into_length by done.
  assert (si = Z.lor (Z.land si 0x0F) (Z.shiftl (Z.shiftr si 4) 4)) as Hsi.
  { change 0x0F with (Z.ones 4). rewrite Z.lor_comm, Z.land_ones, lor_shiftl_add,
      Z.shiftr_div_pow2 by (lia || apply Z.mod_pos_bound; lia).
    pose proof (Z.div_mod si (2^4)). lia. }
  assert ([l1; l0] = be_bytes 2 (Z.of_nat n)) as Hl.
  { rewrite <-(be_bytes_be_val 2 [l1; l0]) by auto with sgw_bytes.
    fold len. f_equal. lia. }
  assert (t :: l1 :: l0 :: si :: rest =
          t :: be_bytes 2 (Z.of_nat n)
            ++ Z.lor (Z.land si 0x0F) (Z.shiftl (Z.shiftr si 4) 4)
            :: take n rest ++ drop n rest) as ->.
  { rewrite <-Hl, <-Hsi, take_drop. done. }
  pose proof (Encodes_cons (mkIE t (Z.land si 0x0F) (take n rest)) (Z.shiftr si 4)
                tail (drop n rest)) as Henc.
  cbn [IE_Type IE_Instance IE_Value] in Henc. rewrite Htk in Henc.
  apply Henc; [|..|done].
  - split_and!; simpl; [done|..|auto with sgw_bytes|lia].
    change 0x0F with (Z.ones 4). rewrite Z.land_ones by lia. apply Z.mod_pos_bound. lia.
  - apply (shiftr_in_u 8 4); [lia|done].
Qed.

Lemma IE_Marshal_Encodes ies :
  Forall IE_wf ies -> Encodes ies (flat_map IE_Marshal ies).
Proof.
  induction 1 as [|i ies Hi Hies IH]; [constructor|].
  destruct Hi as (? & Hinst & ? & Hlen).
  simpl. unfold IE_Marshal at 1. simpl app.
  rewrite (uN_small 16) by (split; lia).
  rewrite land_15_small by done.
  replace (IE_Instance i) with (Z.lor (IE_Instance i) (Z.shiftl 0 4)) at 1
    by (rewrite Z.shiftl_0_l; apply Z.lor_0_r).
  rewrite <-app_assoc || idtac.
  apply (Encodes_cons i 0 ies); [|done|done].
  by split_and!.
Qed.

(** ** Lemmas: TBCD *)

Definition is_digit (c : Z) : Prop := 48 <= c <= 57.
#[export] Instance is_digit_dec c : Decision (is_digit c) := and_dec _ _.
Definition digits (s : string) : Prop := Forall is_digit (string_bytes s).
#[export] Instance digits_dec s : Decision (digits s).
Proof. unfold digits. apply _. Defined.

(** What the encoding loop computes: two characters per octet, low nibble first. *)
Fixpoint pack (l : bytes) : bytes :=
  match l with
  | [] => []
  | [a] => [u8 (a - 48)]
  | a :: b :: l => Z.lor (u8 (a - 48)) (u8 (Z.shiftl (u8 (b - 48)) 4)) :: pack l
  end.

(** Induction two characters at a time. *)
Lemma pair_ind (P : bytes -> Prop) :
  P [] -> (forall a, P [a]) -> (forall a b l, P l -> P (a :: b :: l)) -> forall l, P l.
Proof.
  intros H0 H1 H2. fix IH 1. intros [|a [|b l]]; [exact H0|apply H1|apply H2, IH].
Qed.

Lemma half_SS n : ((S (S n) + 1) / 2 = S ((n + 1) / 2))%nat.
Proof. replace (S (S n) + 1)%nat with ((n + 1) + 1 * 2)%nat by lia. rewrite Nat.div_add by lia. lia. Qed.

Lemma length_pack l : length (pack l) = ((length l + 1) / 2)%nat.
Proof.
  induction l as [| |a b l IH] using pair_ind; [done..|].
  simpl length. by rewrite half_SS, IH.
Qed.

Lemma even_half k : (2 * Z.of_nat k) mod 2 = 0 /\ (2 * Z.of_nat k) / 2 = Z.of_nat k
  /\ (2 * Z.of_nat k + 1) mod 2 = 1 /\ (2 * Z.of_nat k + 1) / 2 = Z.of_nat k.
Proof. split_and!; Z.div_mod_to_equations; lia. Qed.

Lemma encodeTBCD_loop_pack l pre :
  encodeTBCD_loop (enumerate (2 * Z.of_nat (length pre)) l)
    (pre ++ replicate ((length l + 1) / 2) 0) = pre ++ pack l.
Proof.
  revert pre. induction l as [|a|a b l IH] using pair_ind; intros pre; [done|..];
    destruct (even_half (length pre)) as (E0 & E1 & E2 & E3).
  - cbn [enumerate encodeTBCD_loop]. rewrite E0, E1, Nat2Z.id.
    change ((length [a] + 1) / 2)%nat with 1%nat. simpl.
    by rewrite insert_app_r_alt, Nat.sub_diag by lia.
  - cbn [enumerate encodeTBCD_loop]. rewrite E0, E1, E2, E3, Nat2Z.id.
    simpl length. rewrite half_SS. cbn [replicate Z.eqb].
    rewrite insert_app_r_alt, Nat.sub_diag by lia. cbn [insert list_insert].
    unfold or_at. rewrite alter_app_r_alt, Nat.sub_diag by lia.
    cbn [alter list_alter].
    replace (2 * Z.of_nat (length pre) + 1 + 1)
      with (2 * Z.of_nat (length (pre ++ [Z.lor (u8 (a - 48)) (u8 (u8 (b - 48) ≪ 4))])))
      by (rewrite length_app; simpl; lia).
    rewrite (cons_middle _ pre (replicate _ _)), app_assoc, IH. by rewrite <-app_assoc.
Qed.

Lemma encodeTBCD_digits s :
  digits s ->
  encodeTBCD s =
    let l := string_bytes s in
    if decide (length l mod 2 = 0)%nat then pack l
    else or_at (length (pack l) - 1) 0xF0 (pack l).
Proof.
  intros Hs. unfold encodeTBCD, range_string. cbv zeta.
  rewrite utf8_range_ascii.
  2: { eapply Forall_impl; [exact Hs|]. unfold is_digit. simpl. lia. }
  assert (String.length s = length (string_bytes s)) as ->.
  { unfold string_bytes. rewrite length_fmap. clear Hs. induction s; simpl; congruence. }
  by rewrite (encodeTBCD_loop_pack (string_bytes s) [] :
    encodeTBCD_loop (enumerate 0 (string_bytes s))
      (replicate ((length (string_bytes s) + 1) / 2) 0) = pack (string_bytes s)).
Qed.

Lemma digit_nibble c : is_digit c -> in_u 4 (u8 (c - 48)) /\ u8 (48 + u8 (c - 48)) = c
  /\ u8 (c - 48) <> 15.
Proof.
  unfold is_digit, in_u, uN. intros. change (2 ^ 8) with 256. change (2 ^ 4) with 16.
  rewrite (Z.mod_small (c - 48)), Z.mod_small by lia. lia.
Qed.

Lemma decodeTBCD_pack l :
  Forall is_digit l ->
  decodeTBCD_bytes
    (if decide (length l mod 2 = 0)%nat then pack l
     else or_at (length (pack l) - 1) 0xF0 (pack l)) = l.
Proof.
  induction l as [|a|a b l IH] using pair_ind; intros Hl; [done|..].
  - apply Forall_cons in Hl as [(Ha & Hc & _)%digit_nibble _].
    destruct (nibbles (u8 (a - 48)) 15) as (_ & Hlo & Hhi); [done|done|].
    change (u8 (15 ≪ 4)) with 0xF0 in *.
    rewrite decide_False by done. simpl. by rewrite Hlo, Hhi, Hc.
  - apply Forall_cons in Hl as [(Ha & Hca & _)%digit_nibble Hl].
    apply Forall_cons in Hl as [(Hb & Hcb & Hb15)%digit_nibble Hl].
    destruct (nibbles (u8 (a - 48)) (u8 (b - 48))) as (_ & Hlo & Hhi); [done..|].
    specialize (IH Hl). simpl length.
    assert (S (S (length l)) mod 2 = length l mod 2)%nat as ->.
    { replace (S (S (length l))) with (length l + 1 * 2)%nat by lia.
      by rewrite Nat.Div0.mod_add. }
    assert (decodeTBCD_bytes (Z.lor (u8 (a - 48)) (u8 (u8 (b - 48) ≪ 4)) ::
      (if decide (length l mod 2 = 0)%nat then pack l
       else or_at (length (pack l) - 1) 0xF0 (pack l))) = a :: b :: l) as Hd.
    { cbn [decodeTBCD_bytes]. rewrite Hlo, Hhi, IH.
      destruct (Z.eqb_spec (u8 (b - 48)) 15); [done|]. by rewrite Hca, Hcb. }
    case_decide; [exact Hd|]. simpl pack. simpl length. cbn [Nat.sub].
    destruct (pack l) as [|v p] eqn:E.
    2: { replace (length (v :: p) - 1)%nat with (length p) in Hd by (simpl; lia).
         exact Hd. }
    exfalso. assert (length (pack l) = O) as Hp by by rewrite E.
    rewrite length_pack in Hp. destruct l as [|x l]; [done|].
    simpl length in Hp. apply Nat.div_small_iff in Hp; lia.
Qed.

Lemma TBCD_roundtrip s : digits s -> decodeTBCD (encodeTBCD s) = s.
Proof.
  intros Hs. rewrite encodeTBCD_digits by done. unfold decodeTBCD. cbv zeta.
  rewrite decodeTBCD_pack by done. apply bytes_string_bytes.
Qed.

(** ** Lemmas: APN labels *)

Fixpoint labels (b cur : bytes) : list bytes :=
  match b with
  | [] => [cur]
  | c :: b => if c =? 46 then cur :: labels b [] else labels b (cur ++ [c])
  end.
Definition enc_labels (ls : list bytes) : bytes :=
  flat_map (fun l => u8 (Z.of_nat (length l)) :: l) ls.
Definition dotted (ls : list bytes) : bytes := flat_map (cons 46) ls.

Lemma encodeAPN_labels b cur : encodeAPN_loop b cur = enc_labels (labels b cur).
Proof.
  revert cur. induction b as [|c b IH]; intros cur; simpl; [by rewrite app_nil_r|].
  destruct (c =? 46); [simpl; by rewrite IH|apply IH].
Qed.

Lemma labels_join b cur : exists l ls,
  labels b cur = l :: ls /\ l ++ dotted ls = cur ++ b /\ cur `prefix_of` l.
Proof.
  revert cur. induction b as [|c b IH]; intros cur; simpl.
  - exists cur, []. by rewrite !app_nil_r.
  - destruct (Z.eqb_spec c 46) as [->|].
    + destruct (IH []) as (l & ls & -> & E & _). exists cur, (l :: ls).
      simpl in E. subst b. done.
    + destruct (IH (cur ++ [c])) as (l & ls & -> & E & ?). exists l, ls.
      split_and!; [done|by rewrite E, <-app_assoc|].
      etrans; [by apply prefix_app_r|done].
Qed.

Lemma labels_length b cur l : l ∈ labels b cur -> (length l <= length cur + length b)%nat.
Proof.
  revert cur. induction b as [|c b IH]; intros cur; simpl.
  - intros ->%list_elem_of_singleton. lia.
  - destruct (c =? 46).
    + intros [->|Hl]%elem_of_cons; [lia|]. apply IH in Hl. simpl in Hl. lia.
    + intros Hl%IH. rewrite length_app in Hl. simpl in Hl. lia.
Qed.

Lemma decodeAPN_labels ls out fuel :
  out <> [] -> Forall (fun l => length l < 256)%nat ls ->
  (length (enc_labels ls) <= fuel)%nat ->
  decodeAPN_loop fuel (enc_labels ls) out = out ++ dotted ls.
Proof.
  revert out fuel. induction ls as [|l ls IH]; intros out fuel Hout Hls Hf.
  { rewrite app_nil_r. by destruct fuel. }
  apply Forall_cons in Hls as [Hl Hls].
  simpl in *. rewrite length_app in Hf. destruct fuel as [|fuel]; [lia|]. simpl.
  unfold uN. rewrite (Z.mod_small (Z.of_nat (length l))) by lia. rewrite Nat2Z.id.
  rewrite length_app. rewrite decide_False, decide_False by (done || lia).
  rewrite drop_app_length, take_app_length, IH; [|by destruct out|done|lia].
  by rewrite <-!app_assoc.
Qed.

Lemma APN_roundtrip s :
  head (string_bytes s) <> Some 46 -> (String.length s < 256)%nat ->
  decodeAPN (encodeAPN s) = s.
Proof.
  intros Hh Hlen. destruct (decide (s = "")) as [->|Hs]; [done|].
  assert (encodeAPN s = encodeAPN_loop (string_bytes s) []) as -> by by destruct s.
  assert (string_bytes s <> []) as Hne0 by by destruct s.
  assert (length (string_bytes s) = String.length s) as Hb.
  { unfold string_bytes. rewrite length_fmap. clear. induction s; simpl; congruence. }
  rewrite <-(bytes_string_bytes s) at 2. unfold decodeAPN. f_equal.
  rewrite encodeAPN_labels. rewrite <-Hb in Hlen. clear Hb Hs.
  generalize dependent (string_bytes s). intros b Hh Hlen Hne0. clear s.
  destruct (labels_join b []) as (l & ls & El & Ej & _).
  assert (Forall (fun l => length l < 256)%nat (l :: ls)) as [Hl Hls]%Forall_cons.
  { rewrite <-El. apply Forall_forall. intros x Hx%labels_length. simpl in Hx. lia. }
  assert (l <> []) as Hne.
  { intros ->. destruct b as [|x b']; [done|].
    simpl in El, Hh. destruct (Z.eqb_spec x 46) as [->|]; [done|].
    destruct (labels_join b' [x]) as (l' & ls' & E' & _ & Hp).
    rewrite E' in El. injection El as -> ->. by apply prefix_nil_inv in Hp. }
  rewrite El. simpl. unfold uN. rewrite (Z.mod_small (Z.of_nat (length l))) by lia.
  rewrite Nat2Z.id. rewrite length_app, decide_False by lia.
  rewrite drop_app_length, take_app_length.
  rewrite decodeAPN_labels by (done || lia).
  exact Ej.
Qed.

(** ** Lemmas: PLMN and F-TEID *)

Lemma digit_of c : is_digit c -> digit c = c - 48.
Proof. unfold is_digit, digit. intros. by rewrite !(proj2 (Z.leb_le _ _)) by lia. Qed.

Lemma Itoa_digit c : is_digit c -> Itoa (c - 48) = bytes_string [c].
Proof.
  unfold is_digit. intros Hc.
  apply String.eqb_eq.
  apply (forall_range 48 10 (fun c => String.eqb (Itoa (c - 48)) (bytes_string [c])));
    [by vm_compute|lia].
Qed.

Lemma digit_nib c : is_digit c -> in_u 4 (c - 48).
Proof. unfold is_digit, in_u. intros. change (2 ^ 4) with 16. lia. Qed.

(** An octet packed from two decimal digits prints as those digits. *)
Lemma plmn_octet a b :
  is_digit a -> is_digit b ->
  let v := Z.lor (a - 48) (u8 (Z.shiftl (b - 48) 4)) in
  Itoa (Z.land v 0x0F) = bytes_string [a]
  /\ Itoa (Z.land (Z.shiftr v 4) 0x0F) = bytes_string [b]
  /\ Z.land (Z.shiftr v 4) 0x0F <> 0x0F.
Proof.
  intros Ha Hb v. destruct (nibbles (a - 48) (b - 48)) as (_ & Hlo & Hhi);
    [by apply digit_nib..|]. fold v in Hlo, Hhi.
  rewrite Hlo, Hhi, !Itoa_digit by done. unfold is_digit in *. split_and!; [done..|lia].
Qed.

Lemma plmn_octet_fill a :
  is_digit a ->
  let v := Z.lor (a - 48) 0xF0 in
  Itoa (Z.land v 0x0F) = bytes_string [a] /\ Z.land (Z.shiftr v 4) 0x0F = 0x0F.
Proof.
  intros Ha v. destruct (nibbles (a - 48) 15) as (_ & Hlo & Hhi);
    [by apply digit_nib|done|].
  change (Z.lor (a - 48) (u8 (15 ≪ 4))) with v in *.
  by rewrite Hlo, Hhi, Itoa_digit.
Qed.

Lemma decode_encode_PLMN mcc mnc :
  digits mcc -> digits mnc -> length (string_bytes mcc) = 3%nat ->
  (2 <= length (string_bytes mnc) <= 3)%nat ->
  decodePLMN (encodePLMN mcc mnc) = Ok (mcc, mnc).
Proof.
  intros Hc Hn Lc Ln. unfold digits in *.
  rewrite <-(bytes_string_bytes mcc), <-(bytes_string_bytes mnc) at 2.
  unfold encodePLMN. generalize dependent (string_bytes mcc).
  generalize dependent (string_bytes mnc). clear mcc mnc. intros n Hn Ln c Hc Lc.
  destruct c as [|c0 [|c1 [|c2 [|]]]]; try done.
  repeat (apply Forall_cons in Hc as [? Hc]).
  destruct n as [|n0 [|n1 [|n2 [|]]]]; simpl in Ln; try lia;
    repeat (apply Forall_cons in Hn as [? Hn]);
    unfold pad_right, pad_left; simpl; rewrite !digit_of by done.
  - destruct (plmn_octet c0 c1) as (E1 & E2 & _); [done..|].
    destruct (plmn_octet n0 n1) as (E3 & E4 & _); [done..|].
    destruct (plmn_octet_fill c2) as (E5 & E6); [done|].
    rewrite E1, E2, E3, E4, E5, E6. simpl. by rewrite <-!bytes_string_app.
  - destruct (plmn_octet c0 c1) as (E1 & E2 & _); [done..|].
    destruct (plmn_octet n0 n1) as (E3 & E4 & _); [done..|].
    destruct (plmn_octet c2 n2) as (E5 & E6 & E7); [done..|].
    rewrite E1, E2, E3, E4, E5, E6. destruct (Z.eqb_spec (Z.land (Z.lor (c2 - 48) (u8 ((n2 - 48) ≪ 4)) ≫ 4) 15) 15); [done|].
    by rewrite <-!bytes_string_app.
Qed.

(** The V4 flag and the interface type share the first octet. *)
Lemma fteid_flags t :
  in_u 6 t ->
  Z.land (Z.lor t 0x80) 0x3F = t /\ Z.land (Z.lor t 0x80) 0x80 = 0x80
  /\ Z.land t 0x3F = t /\ Z.land t 0x80 = 0.
Proof.
  unfold in_u. intros Ht.
  pose proof (forall_range 0 64
    (fun t => (Z.land (Z.lor t 0x80) 0x3F =? t) && (Z.land (Z.lor t 0x80) 0x80 =? 0x80)
              && (Z.land t 0x3F =? t) && (Z.land t 0x80 =? 0))
    ltac:(by vm_compute) t ltac:(lia)) as H. simpl in H.
  rewrite !andb_true_iff, !Z.eqb_eq in H. tauto.
Qed.

Lemma FTEID_roundtrip_aux inst ifType teid v4 i :
  in_u 6 ifType -> in_u 32 teid -> (exists a, v4 = AddrV4 a /\ in_u 32 a) \/ v4 = AddrZero ->
  NewFTEID inst ifType teid v4 = Some i ->
  FTEIDValue i = Ok (mkFTEID ifType teid v4).
Proof.
  intros Hif Ht Ha. destruct (fteid_flags ifType Hif) as (F1 & F2 & F3 & F4).
  destruct (be_bytes_4 teid) as (t0 & t1 & t2 & t3 & Et).
  assert (be_val [t0; t1; t2; t3] = teid) as Hteid
    by (rewrite <-Et; by apply be_val_be_bytes_small).
  unfold NewFTEID. destruct Ha as [(a & -> & Ha)| ->]; simpl IsValid; cbv iota;
    rewrite Et, F3.
  - destruct (be_bytes_4 a) as (a0 & a1 & a2 & a3 & Ea).
    assert (As4 (AddrV4 a) = Some [a0; a1; a2; a3]) as -> by exact (f_equal Some Ea).
    intros [= <-]. unfold FTEIDValue. simpl. rewrite F1, F2. simpl.
    unfold slice, AddrFrom4. simpl. by rewrite Hteid, <-Ea, be_val_be_bytes_small.
  - intros [= <-]. unfold FTEIDValue. simpl. rewrite F3, F4. simpl.
    unfold slice. simpl. by rewrite Hteid.
Qed.

Lemma ParseIEs_error_sound b e :
  bytes_ok b -> ParseIEs b = Err e ->
  exists ies pre rest, b = pre ++ rest /\ Encodes ies pre /\ Truncated rest e.
Proof.
  induction b as [b IH] using (induction_ltof1 _ length).
  intros Hb. destruct b as [|t [|l1 [|l0 [|si rest]]]]; [done|..];
    try (intros [= <-]; exists [], [];
         eexists; split_and!; [done|constructor|constructor; simpl; lia]).
  rewrite ParseIEs_cons. cbv zeta.
  destruct (Z.ltb_spec (Z.of_nat (length rest)) (be_val [l1; l0])).
  { intros [= <-]. exists [], []. eexists. split_and!; [done|constructor|by constructor]. }
  set (n := Z.to_nat (be_val [l1; l0])).
  destruct (ParseIEs (drop n rest)) as [tail|e'] eqn:Et; [done|]. intros [= ->].
  repeat (apply Forall_cons in Hb as [? Hb]).
  apply IH in Et as (ies & pre & r & Er & Hpre & Hr);
    [|unfold ltof; simpl; rewrite length_drop; lia|auto with sgw_bytes].
  assert (in_u 16 (be_val [l1; l0])) as Hlen
    by (apply (be_val_range [l1; l0]); auto with sgw_bytes).
  assert (t :: l1 :: l0 :: si :: rest
          = (t :: l1 :: l0 :: si :: take n rest ++ pre) ++ r) as ->.
  { simpl. by rewrite <-app_assoc, <-Er, take_drop. }
  assert (length (take n rest) = n) as Htk
    by (rewrite length_take; unfold in_u in *; lia).
  assert (ParseIEs (t :: l1 :: l0 :: si :: take n rest ++ pre)
          = Ok (mkIE t (Z.land si 15) (take n rest) :: ies)) as Hp.
  { rewrite ParseIEs_cons. cbv zeta. fold n.
    rewrite length_app, Htk, drop_app_length' , take_app_length' by done.
    destruct (Z.ltb_spec (Z.of_nat (n + length pre)) (be_val [l1; l0]));
      [unfold in_u in *; lia|].
    by rewrite (ParseIEs_complete _ _ Hpre), copy_into_length. }
  eexists _, _, r. split_and!; [done| |done].
  apply ParseIEs_sound; [|exact Hp].
  rewrite <-(take_drop n rest), Er in Hb. auto 8 with sgw_bytes.
  apply bytes_ok_app in Hb as [? [? ?]%bytes_ok_app]. auto 8 with sgw_bytes.
Qed.

Lemma ParseIEs_error_complete ies pre rest e :
  Encodes ies pre -> Truncated rest e -> ParseIEs (pre ++ rest) = Err e.
Proof.
  intros Henc Hr. induction Henc as [|i sp ies b (Ht & Hi & Hv & Hlen) Hsp Henc IH].
  - destruct Hr as [b Hb|t l1 l0 si v Hv].
    + destruct b as [|t [|l1 [|l0 [|si b]]]]; simpl in *; done || lia.
    + simpl. rewrite ParseIEs_cons. cbv zeta. by rewrite (proj2 (Z.ltb_lt _ _)).
  - destruct (be_bytes_2 (Z.of_nat (length (IE_Value i)))) as (l1 & l0 & E). rewrite E.
    simpl app. rewrite ParseIEs_cons. cbv zeta.
    rewrite <-E, be_val_be_bytes_small by (unfold in_u; simpl Z.of_nat; lia).
    rewrite Nat2Z.id, <-app_assoc, length_app, drop_app_length, IH.
    by destruct (Z.ltb_spec (Z.of_nat (length (IE_Value i) + length (b ++ rest)))
                  (Z.of_nat (length (IE_Value i)))); [lia|].
Qed.

(** ** Properties *)

(** C22: [ParseIEs] decides the information-element grammar of TS 29.274 8.1 and
    reports the first truncation: it returns [ies] exactly on the encodings of
    [ies] (spare bits ignored), and an error exactly when a well-formed prefix is
    followed by a truncated header or value, whose type, declared and available
    sizes it names.  In particular it terminates with one of the two on every
    byte string. *)
Theorem ParseIEs_decides_grammar b :
  bytes_ok b ->
  (forall ies, ParseIEs b = Ok ies <-> Encodes ies b) /\
  (forall e, ParseIEs b = Err e <->
     exists ies pre rest, b = pre ++ rest /\ Encodes ies pre /\ Truncated rest e).
Proof.
  intros Hb. split; [intros ies; split|intros e; split].
  - by apply ParseIEs_sound.
  - apply ParseIEs_complete.
  - by apply ParseIEs_error_sound.
  - intros (ies & pre & rest & -> & ? & ?). by eapply ParseIEs_error_complete.
Qed.

Lemma ParseIEs_decides_grammar_witness :
  bytes_ok [73; 0; 1; 0x30; 5; 2; 0; 9; 0; 16] /\
  exists ies pre rest, [73; 0; 1; 0x30; 5; 2; 0; 9; 0; 16] = pre ++ rest
    /\ Encodes ies pre /\ Truncated rest (IEValueTruncated 2 9 1).
Proof.
  assert (bytes_ok [73; 0; 1; 0x30; 5; 2; 0; 9; 0; 16]) as H by by_compute.
  split; [exact H|].
  apply (proj2 (ParseIEs_decides_grammar _ H) (IEValueTruncated 2 9 1)). vm_compute. reflexivity.
Defined.

(** Marshalling then parsing returns the information elements, both for the
    body of a message and for the children of a grouped Bearer Context. *)
Lemma IEs_roundtrip inst ies :
  Forall IE_wf ies ->
  ParseIEs (flat_map IE_Marshal ies) = Ok ies /\
  ChildIEs (NewBearerContext inst ies) = Ok ies.
Proof. intros H. split; by apply ParseIEs_complete, IE_Marshal_Encodes. Qed.

(** A subscriber identity made of decimal digits survives encoding and
    decoding: IMSI, MEI and MSISDN, the last one with or without the leading
    plus sign of E.164. *)
Lemma identity_roundtrip s :
  digits s ->
  IMSI (NewIMSI s) = Ok s /\ MEIValue (NewMEI s) = Ok s /\
  MSISDN (NewMSISDN (String "+" s)) = Ok s /\ MSISDN (NewMSISDN s) = Ok s.
Proof.
  intros Hs. unfold IMSI, MEIValue, MSISDN. simpl. unfold decodeE164.
  assert (encodeE164 s = encodeTBCD s) as ->.
  { destruct s as [|c s]; [done|]. apply Forall_cons in Hs as [Hc _].
    unfold encodeE164. destruct c as [[] [] [] [] [] [] [] []]; try done.
    vm_compute in Hc. destruct Hc. done. }
  by rewrite TBCD_roundtrip.
Qed.

(** An access point name of at most 255 bytes that does not begin with a dot
    survives label encoding and decoding. *)
Lemma APN_roundtrip_ok s :
  head (string_bytes s) <> Some 46 -> (String.length s < 256)%nat ->
  APNValue (NewAPN s) = Ok s.
Proof. intros. unfold APNValue. simpl. by rewrite APN_roundtrip. Qed.

(** A three-digit MCC with a two- or three-digit MNC survives the Serving
    Network coding. *)
Lemma ServingNetwork_roundtrip mcc mnc :
  digits mcc -> digits mnc -> length (string_bytes mcc) = 3%nat ->
  (2 <= length (string_bytes mnc) <= 3)%nat ->
  ServingNetworkValue (NewServingNetwork mcc mnc) = Ok (mcc, mnc).
Proof. intros. unfold ServingNetworkValue. simpl. by apply decode_encode_PLMN. Qed.

(** An F-TEID built from a 6-bit interface type, a TEID and an IPv4 (or no)
    address decodes to the same three values. *)
Lemma FTEID_roundtrip inst ifType teid v4 i :
  in_u 6 ifType -> in_u 32 teid -> (exists a, v4 = AddrV4 a /\ in_u 32 a) \/ v4 = AddrZero ->
  NewFTEID inst ifType teid v4 = Some i ->
  FTEIDValue i = Ok (mkFTEID ifType teid v4).
Proof. apply FTEID_roundtrip_aux. Qed.

(** The identifiers a control-plane procedure exchanges survive their coding:
    subscriber identities of decimal digits (IMSI, MEI, and MSISDN with or without
    the leading plus of E.164), access point names of at most 255 bytes that do not
    begin with a dot, PLMNs of a three-digit MCC and a two- or three-digit MNC, and
    F-TEIDs of a 6-bit interface type, a TEID and an IPv4 (or no) address. *)
Lemma identifier_codings :
  (forall s, digits s ->
     IMSI (NewIMSI s) = Ok s /\ MEIValue (NewMEI s) = Ok s /\
     MSISDN (NewMSISDN (String "+" s)) = Ok s /\ MSISDN (NewMSISDN s) = Ok s) /\
  (forall s, head (string_bytes s) <> Some 46 -> (String.length s < 256)%nat ->
     APNValue (NewAPN s) = Ok s) /\
  (forall mcc mnc, digits mcc -> digits mnc -> length (string_bytes mcc) = 3%nat ->
     (2 <= length (string_bytes mnc) <= 3)%nat ->
     ServingNetworkValue (NewServingNetwork mcc mnc) = Ok (mcc, mnc)) /\
  (forall inst ifType teid v4 i,
     in_u 6 ifType -> in_u 32 teid -> (exists a, v4 = AddrV4 a /\ in_u 32 a) \/ v4 = AddrZero ->
     NewFTEID inst ifType teid v4 = Some i ->
     FTEIDValue i = Ok (mkFTEID ifType teid v4)).
Proof.
  split_and!; intros.
  - by apply identity_roundtrip.
  - by apply APN_roundtrip_ok.
  - by apply ServingNetwork_roundtrip.
  - by eapply FTEID_roundtrip.
Qed.
