(* ===== verification/Gtpv2Message.v ===== *)
(** * GTPv2-C message header and framing ([internal/gtpv2/message/message.go])

    Message types and their request/response pairing, the two header layouts,
    whole messages, piggybacking, and the splitter of a UDP payload into
    messages.  [ParseHeader] returns the header and the body bounded by the
    declared length; the header it returns next to [ErrInvalidLength] is carried
    by that error. *)

From S2P Require Import Prelude GoLib Gtpv2Ie.

(** ** Message types *)

Definition MsgTypeEchoRequest := 1.
Definition MsgTypeEchoResponse := 2.
Definition MsgTypeVersionNotSupported := 3.
Definition MsgTypeCreateSessionRequest := 32.
Definition MsgTypeCreateSessionResponse := 33.
Definition MsgTypeModifyBearerRequest := 34.
Definition MsgTypeModifyBearerResponse := 35.
Definition MsgTypeDeleteSessionRequest := 36.
Definition MsgTypeDeleteSessionResponse := 37.
Definition MsgTypeModifyBearerCommand := 64.
Definition MsgTypeModifyBearerFailureIndication := 65.
Definition MsgTypeDeleteBearerCommand := 66.
Definition MsgTypeDeleteBearerFailureIndication := 67.
Definition MsgTypeDownlinkDataNotificationFailureIndication := 70.
Definition MsgTypeStopPagingIndication := 73.
Definition MsgTypeCreateBearerRequest := 95.
Definition MsgTypeCreateBearerResponse := 96.
Definition MsgTypeUpdateBearerRequest := 97.
Definition MsgTypeUpdateBearerResponse := 98.
Definition MsgTypeDeleteBearerRequest := 99.
Definition MsgTypeDeleteBearerResponse := 100.
Definition MsgTypeReleaseAccessBearersRequest := 170.
Definition MsgTypeReleaseAccessBearersResponse := 171.
Definition MsgTypeDownlinkDataNotification := 176.
Definition MsgTypeDownlinkDataNotificationAck := 177.

(** [(0, false)] is [None]. *)
Definition ResponseTypeFor (reqType : Z) : option Z :=
  if reqType =? MsgTypeEchoRequest then Some MsgTypeEchoResponse
  else if reqType =? MsgTypeCreateSessionRequest then Some MsgTypeCreateSessionResponse
  else if reqType =? MsgTypeModifyBearerRequest then Some MsgTypeModifyBearerResponse
  else if reqType =? MsgTypeDeleteSessionRequest then Some MsgTypeDeleteSessionResponse
  else if reqType =? MsgTypeCreateBearerRequest then Some MsgTypeCreateBearerResponse
  else if reqType =? MsgTypeUpdateBearerRequest then Some MsgTypeUpdateBearerResponse
  else if reqType =? MsgTypeDeleteBearerRequest then Some MsgTypeDeleteBearerResponse
  else if reqType =? MsgTypeReleaseAccessBearersRequest
  then Some MsgTypeReleaseAccessBearersResponse
  else if reqType =? MsgTypeDownlinkDataNotification
  then Some MsgTypeDownlinkDataNotificationAck
  else None.

Definition RequestTypeForResponse (respType : Z) : option Z :=
  if respType =? MsgTypeEchoResponse then Some MsgTypeEchoRequest
  else if respType =? MsgTypeCreateSessionResponse then Some MsgTypeCreateSessionRequest
  else if respType =? MsgTypeModifyBearerResponse then Some MsgTypeModifyBearerRequest
  else if respType =? MsgTypeDeleteSessionResponse then Some MsgTypeDeleteSessionRequest
  else if respType =? MsgTypeCreateBearerResponse then Some MsgTypeCreateBearerRequest
  else if respType =? MsgTypeUpdateBearerResponse then Some MsgTypeUpdateBearerRequest
  else if respType =? MsgTypeDeleteBearerResponse then Some MsgTypeDeleteBearerRequest
  else if respType =? MsgTypeReleaseAccessBearersResponse
  then Some MsgTypeReleaseAccessBearersRequest
  else if respType =? MsgTypeDownlinkDataNotificationAck
  then Some MsgTypeDownlinkDataNotification
  else None.

(** ** Header, frame and errors *)

Record Header := mkHeader {
  Version : Z;
  PiggyBacked : bool;
  HasTEID : bool;
  MP : bool;
  MessagePriority : Z;
  MessageType : Z;
  Length : Z;
  TEID : Z;
  SequenceNumber : Z
}.
#[export] Instance eta_Header : Eta Header := fun h =>
  mkHeader (Version h) (PiggyBacked h) (HasTEID h) (MP h) (MessagePriority h)
           (MessageType h) (Length h) (TEID h) (SequenceNumber h).
#[export] Instance Header_eq_dec : EqDecision Header.
Proof. solve_decision. Defined.

Record Frame := mkFrame {
  Frame_Header : Header; Frame_Raw : bytes; Frame_Start : nat; Frame_End : nat
}.

Inductive MsgError : Type :=
| HeaderTooShort (n : nat)
| ErrVersionNotSupported (version : Z)
| HeaderWithTEIDTooShort (n : nat)
| DeclaredLengthTooSmall (len : Z)
| ErrInvalidLength (hdr : Header)
| BadIE (e : IEError)
| IETooLong (typ inst : Z) (len : nat)
| MessageTooLong (typ : Z) (len : Z)
| TFlagSet (typ : Z)
| TFlagClear (typ : Z)
| PiggybackEmpty
| PrimaryError (e : MsgError)
| PrimaryPiggybacked
| PiggybackError (e : MsgError)
| PiggybackNotFinal
| NoResponseType (typ : Z)
| TrailingBytes (n : nat)
| NoPiggybackedMessage
| EmptyPayload
| SplitOutOfFuel.

Definition headerLenWithTEID : nat := 12.
Definition headerLenWithoutTEID : nat := 8.

Definition ValidateTFlag (h : Header) : result MsgError unit :=
  if (MessageType h =? MsgTypeEchoRequest) || (MessageType h =? MsgTypeEchoResponse)
     || (MessageType h =? MsgTypeVersionNotSupported)
  then if HasTEID h then Err (TFlagSet (MessageType h)) else Ok tt
  else if HasTEID h then Ok tt else Err (TFlagClear (MessageType h)).

Definition be24 (b0 b1 b2 : Z) : Z :=
  Z.lor (Z.lor (Z.shiftl b0 16) (Z.shiftl b1 8)) b2.

(** The fields after the length check against the minimal header size. *)
Definition parse_fields (b : bytes) (hasTEID : bool) : Header :=
  let at_ k := nth k b 0 in
  let mp := hasTEID && flag (at_ 0%nat) 0x04 in
  {| Version := Z.land (Z.shiftr (at_ 0%nat) 5) 0x07;
     PiggyBacked := flag (at_ 0%nat) 0x10;
     HasTEID := hasTEID;
     MP := mp;
     MessagePriority := if mp then Z.shiftr (at_ 11%nat) 4 else 0;
     MessageType := at_ 1%nat;
     Length := be_val (slice 2 4 b);
     TEID := if hasTEID then be_val (slice 4 8 b) else 0;
     SequenceNumber := if hasTEID then be24 (at_ 8%nat) (at_ 9%nat) (at_ 10%nat)
                       else be24 (at_ 4%nat) (at_ 5%nat) (at_ 6%nat) |}.

Definition ParseHeader (b : bytes) : result MsgError (Header * bytes) :=
  if decide (length b < headerLenWithoutTEID)%nat then Err (HeaderTooShort (length b))
  else
    let b0 := nth 0 b 0 in
    let version := Z.land (Z.shiftr b0 5) 0x07 in
    if negb (version =? 2) then Err (ErrVersionNotSupported version)
    else
      let hasTEID := flag b0 0x08 in
      let minHeaderSize := if hasTEID then headerLenWithTEID else headerLenWithoutTEID in
      if decide (length b < minHeaderSize)%nat then Err (HeaderWithTEIDTooShort (length b))
      else
        let h := parse_fields b hasTEID in
        let declaredTotal := (4 + Z.to_nat (Length h))%nat in
        if decide (declaredTotal < minHeaderSize)%nat
        then Err (DeclaredLengthTooSmall (Length h))
        else if decide (length b < declaredTotal)%nat then Err (ErrInvalidLength h)
        else Ok (h, slice minHeaderSize declaredTotal b).

Definition MarshalHeader (h : Header) (bodyLen : Z) : bytes :=
  let f1 := if PiggyBacked h then Z.lor 0x40 0x10 else 0x40 in
  let f2 := if HasTEID h then Z.lor f1 0x08 else f1 in
  let flags := if MP h && HasTEID h then Z.lor f2 0x04 else f2 in
  let seq := [ u8 (Z.shiftr (SequenceNumber h) 16); u8 (Z.shiftr (SequenceNumber h) 8);
               u8 (SequenceNumber h) ] in
  if HasTEID h then
    flags :: MessageType h :: be_bytes 2 (u16 (12 - 4 + bodyLen)) ++ be_bytes 4 (TEID h)
    ++ seq ++ [if MP h then u8 (Z.shiftl (Z.land (MessagePriority h) 0x0F) 4) else 0]
  else
    flags :: MessageType h :: be_bytes 2 (u16 (8 - 4 + bodyLen)) ++ seq ++ [0].

Fixpoint marshal_ies (ies : list IE) : result MsgError bytes :=
  match ies with
  | [] => Ok []
  | i :: ies =>
      if 65535 <? Z.of_nat (length (IE_Value i))
      then Err (IETooLong (IE_Type i) (IE_Instance i) (length (IE_Value i)))
      else let? body := marshal_ies ies in Ok (IE_Marshal i ++ body)
  end.

Definition Marshal (h : Header) (ies : list IE) : result MsgError bytes :=
  let? body := marshal_ies ies in
  let n := Z.of_nat (length body) in
  let headerBodyLen := if HasTEID h then n + 12 - 4 else n + 8 - 4 in
  if 65535 <? headerBodyLen then Err (MessageTooLong (MessageType h) headerBodyLen)
  else Ok (MarshalHeader h n ++ body).

(** The header literal of the responses built here. *)
Definition simple_header (hasTEID : bool) (typ teid seq : Z) : Header :=
  mkHeader 2 false hasTEID false 0 typ 0 teid seq.

Definition MarshalVersionNotSupportedIndication (seq : Z) : bytes :=
  match Marshal (simple_header false MsgTypeVersionNotSupported 0 seq) [] with
  | Ok b => b
  | Err _ => []
  end.

Definition MarshalPiggybacked (primary piggyback : bytes) : result MsgError bytes :=
  match primary, piggyback with
  | [], _ | _, [] => Err PiggybackEmpty
  | p0 :: prest, _ =>
      match ParseHeader primary with
      | Err e => Err (PrimaryError e)
      | Ok (primaryHdr, _) =>
          if PiggyBacked primaryHdr then Err PrimaryPiggybacked
          else match ParseHeader piggyback with
          | Err e => Err (PiggybackError e)
          | Ok (piggyHdr, _) =>
              if PiggyBacked piggyHdr then Err PiggybackNotFinal
              else Ok (Z.lor p0 0x10 :: prest ++ piggyback)
          end
      end
  end.

Definition MarshalInvalidLengthResponse (reqHdr : Header) (peerTEID : Z)
    : result MsgError bytes :=
  match ResponseTypeFor (MessageType reqHdr) with
  | None => Err (NoResponseType (MessageType reqHdr))
  | Some respType =>
      Marshal (simple_header (negb (respType =? MsgTypeEchoResponse)) respType peerTEID
                 (SequenceNumber reqHdr))
              [NewCause CauseInvalidLength 0 0 0 None]
  end.

Definition Parse (b : bytes) : result MsgError (Header * list IE) :=
  let? (h, body) := ParseHeader b in
  match ParseIEs body with
  | Ok ies => Ok (h, ies)
  | Err e => Err (BadIE e)
  end.

(** The loop of [SplitFrames] from [offset]; every iteration advances by at least
    the smallest header, so [length b] iterations are enough. *)
Fixpoint SplitFrames_loop (fuel : nat) (b : bytes) (offset : nat)
    : result MsgError (list Frame) :=
  if decide (length b <= offset)%nat then Ok []
  else match fuel with
  | O => Err SplitOutOfFuel
  | S f =>
      let? (h, _) := ParseHeader (drop offset b) in
      let e := (offset + 4 + Z.to_nat (Length h))%nat in
      if decide (length b < e)%nat then Err (ErrInvalidLength h)
      else
        let frame := mkFrame h (copy_into (e - offset) (slice offset e b)) offset e in
        if negb (PiggyBacked h) then
          if decide (e <> length b) then Err (TrailingBytes (length b - e))
          else Ok [frame]
        else if decide (e = length b) then Err NoPiggybackedMessage
        else let? frames := SplitFrames_loop f b e in Ok (frame :: frames)
  end.

Definition SplitFrames (b : bytes) : result MsgError (list Frame) :=
  let? frames := SplitFrames_loop (length b) b 0 in
  match frames with
  | [] => Err EmptyPayload
  | _ => Ok frames
  end.

(** ** Lemmas: the header *)

(** A header as [MarshalHeader] can represent it. *)
Definition Header_wf (h : Header) : Prop :=
  Version h = 2 /\ is_byte (MessageType h) /\ in_u 32 (TEID h)
  /\ in_u 24 (SequenceNumber h) /\ in_u 4 (MessagePriority h)
  /\ (MP h = false -> MessagePriority h = 0)
  /\ (HasTEID h = false -> MP h = false /\ TEID h = 0).
#[export] Instance Header_wf_dec h : Decision (Header_wf h).
Proof. unfold Header_wf. apply _. Defined.

Definition header_size (h : Header) : nat :=
  if HasTEID h then headerLenWithTEID else headerLenWithoutTEID.

(** The header that parsing reports for a message with a body of [n] bytes. *)
Definition with_length (n : nat) (h : Header) : Header :=
  h <| Length := Z.of_nat (header_size h - 4 + n) |>.

Lemma be24_be_bytes s : in_u 24 s ->
  be24 (u8 (Z.shiftr s 16)) (u8 (Z.shiftr s 8)) (u8 s) = s.
Proof.
  intros Hs. transitivity (be_val (be_bytes 3 s)).
  - change (be_bytes 3 s) with [u8 (Z.shiftr s 16); u8 (Z.shiftr s 8); u8 (Z.shiftr s 0)].
    rewrite Z.shiftr_0_r. unfold be24.
    change (be_val [?a; ?b; ?c]) with
      (Z.lor (Z.shiftl (Z.lor (Z.shiftl (Z.lor (Z.shiftl 0 8) a) 8) b) 8) c).
    by rewrite Z.shiftl_0_l, Z.lor_0_l, Z.shiftl_lor, Z.shiftl_shiftl by lia.
  - apply be_val_be_bytes_small. exact Hs.
Qed.

Definition flags_octet (p t m : bool) : Z :=
  let f1 := if p then Z.lor 0x40 0x10 else 0x40 in
  let f2 := if t then Z.lor f1 0x08 else f1 in
  if m && t then Z.lor f2 0x04 else f2.

Lemma flags_octet_parse p t m :
  let f := flags_octet p t m in
  Z.land (Z.shiftr f 5) 7 = 2 /\ flag f 0x10 = p /\ flag f 0x08 = t /\ t && flag f 0x04 = t && m.
Proof. by destruct p, t, m. Qed.

Lemma length_MarshalHeader h n : length (MarshalHeader h n) = header_size h.
Proof. unfold MarshalHeader, header_size. by destruct (HasTEID h). Qed.

Lemma priority_roundtrip p : in_u 4 p -> Z.shiftr (u8 (Z.shiftl (Z.land p 15) 4)) 4 = p.
Proof.
  intros Hp. rewrite land_15_small by done.
  rewrite uN_small.
  - rewrite Z.shiftr_shiftl_l by lia. apply Z.shiftl_0_r.
  - unfold in_u in *. rewrite Z.shiftl_mul_pow2 by lia. lia.
Qed.

Lemma ParseHeader_teid f ty l1 l0 t3 t2 t1 t0 s2 s1 s0 pr rest :
  Z.land (Z.shiftr f 5) 7 = 2 -> flag f 0x08 = true ->
  let len := Z.to_nat (be_val [l1; l0]) in
  (8 <= len <= 8 + length rest)%nat ->
  ParseHeader (f :: ty :: l1 :: l0 :: t3 :: t2 :: t1 :: t0 :: s2 :: s1 :: s0 :: pr :: rest)
  = Ok (mkHeader 2 (flag f 0x10) true (flag f 0x04)
          (if flag f 0x04 then Z.shiftr pr 4 else 0) ty (be_val [l1; l0])
          (be_val [t3; t2; t1; t0]) (be24 s2 s1 s0), take (len - 8) rest).
Proof.
  intros Hv Ht len Hlen. unfold ParseHeader, parse_fields, slice.
  cbn [nth length take drop Nat.sub Length]. fold len.
  rewrite Ht, Hv. cbn [negb Z.eqb Pos.eqb andb].
  unfold headerLenWithTEID, headerLenWithoutTEID.
  rewrite !decide_False by lia. cbn [drop].
  by replace (4 + len - 12)%nat with (len - 8)%nat by lia.
Qed.

Lemma ParseHeader_no_teid f ty l1 l0 s2 s1 s0 sp rest :
  Z.land (Z.shiftr f 5) 7 = 2 -> flag f 0x08 = false ->
  let len := Z.to_nat (be_val [l1; l0]) in
  (4 <= len <= 4 + length rest)%nat ->
  ParseHeader (f :: ty :: l1 :: l0 :: s2 :: s1 :: s0 :: sp :: rest)
  = Ok (mkHeader 2 (flag f 0x10) false false 0 ty (be_val [l1; l0]) 0 (be24 s2 s1 s0),
        take (len - 4) rest).
Proof.
  intros Hv Ht len Hlen. unfold ParseHeader, parse_fields, slice.
  cbn [nth length take drop Nat.sub Length]. fold len.
  rewrite Ht, Hv. cbn [negb Z.eqb Pos.eqb andb].
  unfold headerLenWithTEID, headerLenWithoutTEID.
  rewrite !decide_False by lia. cbn [drop].
  by replace (4 + len - 8)%nat with (len - 4)%nat by lia.
Qed.

Lemma ParseHeader_MarshalHeader h body rest :
  Header_wf h -> Z.of_nat (header_size h - 4 + length body) < 2 ^ 16 ->
  ParseHeader (MarshalHeader h (Z.of_nat (length body)) ++ body ++ rest)
  = Ok (with_length (length body) h, body).
Proof.
  destruct h as [ver p t m prio ty len teid seq].
  intros (Hv & Hty & Hteid & Hseq & Hprio & Hm & Ht).
  unfold header_size, with_length, MarshalHeader, headerLenWithTEID, headerLenWithoutTEID.
  cbn [Version PiggyBacked HasTEID MP SequenceNumber MessageType TEID MessagePriority] in *.
  fold (flags_octet p t m). destruct (flags_octet_parse p t m) as (F1 & F2 & F3 & F4).
  subst ver. intros Hn. destruct t.
  - destruct (be_bytes_2 (u16 (12 - 4 + Z.of_nat (length body)))) as (l1 & l0 & El).
    destruct (be_bytes_4 teid) as (t3 & t2 & t1 & t0 & Et). rewrite El, Et.
    assert (be_val [l1; l0] = Z.of_nat (8 + length body)) as Hl
      by (rewrite <-El, be16_u16; [|unfold in_u]; lia).
    simpl app. rewrite ParseHeader_teid by (done || rewrite Hl, ?length_app; lia).
    simpl andb in F4. rewrite Hl, Nat2Z.id, <-Et, be_val_be_bytes_small, be24_be_bytes,
      F2, F4 by done.
    replace (8 + length body - 8)%nat with (length body) by lia.
    rewrite take_app_length. f_equal. f_equal.
    unfold field_update. cbn. f_equal. destruct m; [by apply priority_roundtrip|].
    by rewrite Hm.
  - destruct (Ht eq_refl) as [-> ->].
    destruct (be_bytes_2 (u16 (8 - 4 + Z.of_nat (length body)))) as (l1 & l0 & El).
    rewrite El.
    assert (be_val [l1; l0] = Z.of_nat (4 + length body)) as Hl
      by (rewrite <-El, be16_u16; [|unfold in_u]; lia).
    simpl app. rewrite ParseHeader_no_teid by (done || rewrite Hl, ?length_app; lia).
    rewrite Hl, Nat2Z.id, be24_be_bytes, F2 by done.
    replace (4 + length body - 4)%nat with (length body) by lia.
    rewrite take_app_length. f_equal. f_equal.
    unfold field_update. cbn. by rewrite Hm.
Qed.

(** ** Lemmas: whole messages *)

Lemma marshal_ies_spec ies :
  Forall IE_wf ies -> marshal_ies ies = Ok (flat_map IE_Marshal ies).
Proof.
  induction 1 as [|i ies (_ & _ & _ & Hlen) _ IH]; [done|].
  simpl. destruct (Z.ltb_spec 65535 (Z.of_nat (length (IE_Value i)))); [lia|].
  by rewrite IH.
Qed.

(** The size of a message's body is what fits the 16-bit length field. *)
Definition fits (h : Header) (ies : list IE) : Prop :=
  Z.of_nat (header_size h - 4 + length (flat_map IE_Marshal ies)) < 2 ^ 16.
#[export] Instance fits_dec h ies : Decision (fits h ies).
Proof. unfold fits. apply _. Defined.

Definition marshalled (h : Header) (ies : list IE) : bytes :=
  let body := flat_map IE_Marshal ies in
  MarshalHeader h (Z.of_nat (length body)) ++ body.

Lemma Marshal_spec h ies :
  Forall IE_wf ies ->
  Marshal h ies =
    if decide (fits h ies) then Ok (marshalled h ies)
    else Err (MessageTooLong (MessageType h)
                (Z.of_nat (header_size h - 4 + length (flat_map IE_Marshal ies)))).
Proof.
  intros Hies. unfold Marshal, fits, marshalled, header_size.
  rewrite marshal_ies_spec by done. simpl rbind.
  unfold headerLenWithTEID, headerLenWithoutTEID.
  set (n := length (flat_map IE_Marshal ies)).
  case_decide as Hd; destruct (HasTEID h);
    match goal with |- context [65535 <? ?x] => destruct (Z.ltb_spec 65535 x) end;
    try lia; try done; repeat f_equal; lia.
Qed.

Lemma Parse_marshalled h ies :
  Header_wf h -> Forall IE_wf ies -> fits h ies ->
  Parse (marshalled h ies)
  = Ok (with_length (length (flat_map IE_Marshal ies)) h, ies).
Proof.
  intros Hh Hies Hfit. unfold Parse, marshalled.
  pose proof (ParseHeader_MarshalHeader h (flat_map IE_Marshal ies) [] Hh Hfit) as E.
  rewrite app_nil_r in E. rewrite E. simpl.
  by rewrite (ParseIEs_complete _ _ (IE_Marshal_Encodes ies Hies)).
Qed.

(** ** Lemmas: framing *)

Lemma nth_take_lt {A} (l : list A) k n d : (k < n)%nat -> nth k (take n l) d = nth k l d.
Proof.
  revert k n. induction l as [|x l IH]; intros [|k] [|n] ?; simpl; try done || lia.
  apply IH. lia.
Qed.

Lemma slice_take {A} (l : list A) i j n : (j <= n)%nat -> slice i j (take n l) = slice i j l.
Proof.
  intros. unfold slice. rewrite skipn_firstn_comm, take_take. f_equal. lia.
Qed.

Lemma parse_fields_take b (t : bool) n :
  ((if t then 12 else 8) <= n)%nat -> parse_fields (take n b) t = parse_fields b t.
Proof.
  intros Hn. unfold parse_fields.
  destruct t; cbn -[nth slice flag be_val be24 take Z.land Z.shiftr];
    rewrite ?nth_take_lt, ?slice_take by lia; done.
Qed.

Lemma ParseHeader_Ok b h body :
  ParseHeader b = Ok (h, body) ->
  let e := (4 + Z.to_nat (Length h))%nat in
  (8 <= e <= length b)%nat /\ ParseHeader (take e b) = Ok (h, body).
Proof.
  unfold ParseHeader at 1. unfold headerLenWithTEID, headerLenWithoutTEID.
  case_decide; [done|]. destruct (negb _) eqn:Hv; [done|].
  case_decide as H1; [done|]. case_decide as H2; [done|]. case_decide as H3; [done|].
  intros [= <- <-]. set (t := flag (nth 0 b 0) 8) in *.
  set (e := (4 + Z.to_nat (Length (parse_fields b t)))%nat) in *.
  assert ((if t then 12 else 8) <= e <= length b)%nat as He by (destruct t; lia).
  split; [destruct t; lia|].
  unfold ParseHeader, headerLenWithTEID, headerLenWithoutTEID.
  rewrite (nth_take_lt b 0) by (destruct t; lia). fold t.
  rewrite length_take, Nat.min_l, Hv, parse_fields_take by (destruct t; lia). fold e.
  rewrite !decide_False by (destruct t; lia). by rewrite slice_take.
Qed.

(** The frames of [b] from [offset] on: they cover it without gaps, each parses
    on its own to the header recorded, and the piggyback flag is set on all but
    the last one. *)
Inductive Framed (b : bytes) : nat -> list Frame -> Prop :=
| Framed_last (o : nat) f body :
    Frame_Start f = o -> Frame_End f = length b -> (o < length b)%nat ->
    Frame_Raw f = drop o b -> PiggyBacked (Frame_Header f) = false ->
    ParseHeader (Frame_Raw f) = Ok (Frame_Header f, body) -> Framed b o [f]
| Framed_more (o : nat) f body fs :
    Frame_Start f = o -> (o < Frame_End f < length b)%nat ->
    Frame_Raw f = slice o (Frame_End f) b -> PiggyBacked (Frame_Header f) = true ->
    ParseHeader (Frame_Raw f) = Ok (Frame_Header f, body) ->
    Framed b (Frame_End f) fs -> Framed b o (f :: fs).

Lemma Framed_concat b o fs : Framed b o fs -> flat_map Frame_Raw fs = drop o b.
Proof.
  induction 1 as [o f body Hs He Ho Hr Hp Hb|o f body fs Hs He Hr Hp Hb _ IH]; simpl;
    rewrite Hr.
  - apply app_nil_r.
  - rewrite IH. unfold slice. rewrite <-(take_drop (Frame_End f - o) (drop o b)) at 2.
    rewrite drop_drop. do 2 f_equal. lia.
Qed.

Lemma SplitFrames_loop_sound n b o fs :
  (o < length b)%nat -> SplitFrames_loop n b o = Ok fs -> Framed b o fs.
Proof.
  revert o fs. induction n as [|n IH]; intros o fs Ho; simpl;
    rewrite decide_False by lia; [done|].
  intros ([h body] & Hp & Hk)%rbind_Ok.
  destruct (ParseHeader_Ok _ _ _ Hp) as [He Ht]. cbv zeta in Hk.
  rewrite length_drop in He.
  set (e := (o + 4 + Z.to_nat (Length h))%nat) in *.
  assert (length (slice o e b) = e - o)%nat as Hlen by (rewrite length_slice; lia).
  rewrite copy_into_length, decide_False in Hk by lia.
  assert (ParseHeader (slice o e b) = Ok (h, body)) as Hraw.
  { unfold slice. by replace (e - o)%nat with (4 + Z.to_nat (Length h))%nat by lia. }
  destruct (PiggyBacked h) eqn:Hpb; simpl in Hk.
  - case_decide; [done|].
    apply rbind_Ok in Hk as (frames & Hf & [= <-]).
    eapply Framed_more; simpl; [done|lia|done|done|exact Hraw|].
    apply IH; [lia|done].
  - case_decide; [done|]. injection Hk as <-.
    assert (slice o e b = drop o b) as Es.
    { unfold slice. apply take_ge. rewrite length_drop. lia. }
    eapply Framed_last; simpl; [done|lia|done|exact Es|done|exact Hraw].
Qed.

Lemma SplitFrames_loop_total n b o :
  (length b <= o + n)%nat -> SplitFrames_loop n b o <> Err SplitOutOfFuel.
Proof.
  revert o. induction n as [|n IH]; intros o Ho; simpl.
  { by rewrite decide_True by lia. }
  case_decide as Hd; [done|].
  destruct (ParseHeader (drop o b)) as [[h body]|e] eqn:Hp; simpl.
  2: { intros [= ->]. revert Hp. unfold ParseHeader. repeat case_match; done. }
  destruct (ParseHeader_Ok _ _ _ Hp) as [He _].
  repeat case_decide; try done; case_match; try done;
    destruct (SplitFrames_loop n b _) eqn:Hl; simpl; try done;
    intros [= ->]; by apply (IH (o + 4 + Z.to_nat (Length h))%nat) in Hl; [|lia].
Qed.

(** The UDP payload and the frames of a list of messages, and the flag discipline
    of TS 29.274 6.3: every message but the last one announces a successor. *)
Abbreviation message := (Header * list IE)%type.

Fixpoint payload (ms : list message) : bytes :=
  match ms with
  | [] => []
  | (h, ies) :: ms => marshalled h ies ++ payload ms
  end.

Fixpoint frames_of (o : nat) (ms : list message) : list Frame :=
  match ms with
  | [] => []
  | (h, ies) :: ms =>
      let raw := marshalled h ies in
      let e := (o + length raw)%nat in
      mkFrame (with_length (length (flat_map IE_Marshal ies)) h) raw o e
      :: frames_of e ms
  end.

Fixpoint chained (ms : list message) : Prop :=
  match ms with
  | [] => False
  | [(h, _)] => PiggyBacked h = false
  | (h, _) :: ms => PiggyBacked h = true /\ chained ms
  end.

Definition message_wf (m : message) : Prop :=
  Header_wf m.1 /\ Forall IE_wf m.2 /\ fits m.1 m.2.
#[export] Instance message_wf_dec m : Decision (message_wf m).
Proof. unfold message_wf. apply _. Defined.

Lemma length_marshalled h ies :
  length (marshalled h ies) = (header_size h + length (flat_map IE_Marshal ies))%nat.
Proof. unfold marshalled. by rewrite length_app, length_MarshalHeader. Qed.

Lemma header_size_bounds h : (8 <= header_size h <= 12)%nat.
Proof. unfold header_size, headerLenWithTEID, headerLenWithoutTEID. destruct (HasTEID h); lia. Qed.

Lemma ParseHeader_marshalled h ies rest :
  message_wf (h, ies) ->
  let n := length (flat_map IE_Marshal ies) in
  ParseHeader (marshalled h ies ++ rest) = Ok (with_length n h, flat_map IE_Marshal ies)
  /\ (4 + Z.to_nat (Length (with_length n h)) = length (marshalled h ies))%nat.
Proof.
  intros (Hh & _ & Hfit) n. simpl in *. split.
  - unfold marshalled. rewrite <-app_assoc. by apply ParseHeader_MarshalHeader.
  - rewrite length_marshalled. unfold with_length, field_update. cbn [Length].
    pose proof (header_size_bounds h). rewrite Nat2Z.id. fold n. lia.
Qed.

Lemma length_payload ms : Forall message_wf ms -> (8 * length ms <= length (payload ms))%nat.
Proof.
  induction 1 as [|[h ies] ms _ _ IH]; simpl; [lia|].
  rewrite length_app, length_marshalled. pose proof (header_size_bounds h). lia.
Qed.

Lemma SplitFrames_loop_complete ms pre n :
  Forall message_wf ms -> chained ms -> (length ms <= n)%nat ->
  SplitFrames_loop n (pre ++ payload ms) (length pre) = Ok (frames_of (length pre) ms).
Proof.
  intros Hms. revert pre n. induction Hms as [|[h ies] ms Hm Hms IH]; intros pre n Hc Hn; [done|].
  destruct n as [|n]; [simpl in Hn; lia|]. cbn [payload frames_of SplitFrames_loop].
  destruct (ParseHeader_marshalled h ies (payload ms) Hm) as [Hp He].
  set (raw := marshalled h ies) in *.
  assert (8 <= length raw)%nat as Hraw
    by (unfold raw; rewrite length_marshalled; pose proof (header_size_bounds h); lia).
  rewrite decide_False by (rewrite !length_app; lia).
  rewrite drop_app_length, Hp. cbn [rbind].
  replace (length pre + 4 + Z.to_nat (Length (with_length (length (flat_map IE_Marshal ies)) h)))%nat
    with (length pre + length raw)%nat by lia.
  rewrite decide_False by (rewrite !length_app; lia).
  rewrite slice_app_mid, copy_into_length by lia.
  change (PiggyBacked (with_length _ h)) with (PiggyBacked h).
  destruct ms as [|m ms].
  - simpl in Hc. rewrite Hc. cbn [negb payload].
    rewrite decide_False; [done|]. rewrite app_nil_r, length_app. intros Hx. by apply Hx.
  - destruct Hc as [-> Hc]. cbn [negb].
    pose proof (length_payload (m :: ms) Hms) as Hl. cbn [length] in Hl.
    rewrite decide_False by (rewrite !length_app; lia).
    rewrite app_assoc, <-length_app, (IH (pre ++ raw) n Hc) by (simpl in *; lia).
    done.
Qed.

Lemma SplitFrames_messages ms :
  Forall message_wf ms -> chained ms ->
  SplitFrames (payload ms) = Ok (frames_of 0 ms).
Proof.
  intros Hms Hc. unfold SplitFrames. pose proof (length_payload ms Hms) as Hl.
  assert (length ms <= length (payload ms))%nat as Hn by lia.
  pose proof (SplitFrames_loop_complete ms [] (length (payload ms)) Hms Hc Hn) as E.
  simpl in E. rewrite E. by destruct ms as [|[h ies] ms].
Qed.

Lemma marshalled_set_flag h ies :
  PiggyBacked h = false ->
  exists p0 prest, marshalled h ies = p0 :: prest /\
    marshalled (h <| PiggyBacked := true |>) ies = Z.lor p0 0x10 :: prest.
Proof.
  intros P. unfold marshalled, MarshalHeader, field_update.
  cbn [PiggyBacked HasTEID MP MessageType TEID SequenceNumber MessagePriority]. rewrite P.
  destruct (HasTEID h), (MP h); cbn [app]; eexists _, _; split; reflexivity.
Qed.

(** ** Properties *)

(** C23: [Marshal] succeeds exactly when the message fits the 16-bit length field,
    and parsing its output gives back the header (with the length filled in) and
    the information elements. *)
Theorem message_roundtrip h ies :
  Header_wf h -> Forall IE_wf ies ->
  (fits h ies ->
   exists b, Marshal h ies = Ok b
     /\ Parse b = Ok (with_length (length (flat_map IE_Marshal ies)) h, ies)) /\
  (~ fits h ies -> exists n, Marshal h ies = Err (MessageTooLong (MessageType h) n)).
Proof.
  intros Hh Hies. rewrite Marshal_spec by done. split; intros Hf.
  - rewrite decide_True by done. eexists. split; [done|]. by apply Parse_marshalled.
  - rewrite decide_False by done. eauto.
Qed.

Lemma message_roundtrip_witness :
  let h := mkHeader 2 false true true 5 32 0 0x11223344 0x010203 in
  exists b, Marshal h [NewEBI 5; NewRecovery 7] = Ok b
    /\ Parse b = Ok (with_length 10 h, [NewEBI 5; NewRecovery 7]).
Proof.
  intros h. apply (message_roundtrip h [NewEBI 5; NewRecovery 7]); by_compute.
Defined.

(** [SplitFrames] is sound and total: on every UDP payload it returns frames
    that cover the payload without gap or overlap, each of which parses on its own
    to the header recorded, with the piggyback flag on all but the last one; its
    loop never runs out of iterations. *)
Lemma SplitFrames_sound b :
  SplitFrames b <> Err SplitOutOfFuel /\
  forall fs, SplitFrames b = Ok fs ->
    Framed b 0 fs /\ flat_map Frame_Raw fs = b.
Proof.
  unfold SplitFrames. split.
  - pose proof (SplitFrames_loop_total (length b) b 0 ltac:(lia)).
    destruct (SplitFrames_loop _ _ _) as [[]|]; simpl; congruence.
  - intros fs (fs' & Hl & Hk)%rbind_Ok. destruct fs' as [|f fs']; [done|].
    injection Hk as <-. assert (Framed b 0 (f :: fs')) as HF.
    { apply (SplitFrames_loop_sound (length b)); [|done].
      destruct b; [by destruct fs'|simpl; lia]. }
    split; [done|]. by rewrite (Framed_concat _ _ _ HF), drop_0.
Qed.

(** A payload that piggybacks messages with the flag discipline of TS 29.274
    6.3 is split back into exactly those messages, in order, with their offsets. *)
Lemma SplitFrames_payload ms :
  Forall message_wf ms -> chained ms ->
  SplitFrames (payload ms) = Ok (frames_of 0 ms).
Proof.
  apply SplitFrames_messages.
Qed.

(** [MarshalPiggybacked] of two marshalled messages without the flag is
    accepted, and the receiver splits the payload into the first message with the
    flag set and the second one unchanged. *)
Lemma MarshalPiggybacked_split h1 ies1 h2 ies2 :
  message_wf (h1, ies1) -> message_wf (h2, ies2) ->
  PiggyBacked h1 = false -> PiggyBacked h2 = false ->
  exists out, MarshalPiggybacked (marshalled h1 ies1) (marshalled h2 ies2) = Ok out /\
    SplitFrames out = Ok (frames_of 0 [(h1 <| PiggyBacked := true |>, ies1); (h2, ies2)]).
Proof.
  intros H1 H2 P1 P2.
  destruct (ParseHeader_marshalled h1 ies1 [] H1) as [E1 _].
  destruct (ParseHeader_marshalled h2 ies2 [] H2) as [E2 _].
  rewrite app_nil_r in E1, E2.
  destruct (marshalled_set_flag h1 ies1 P1) as (p0 & prest & Ep & Epb).
  exists (payload [(h1 <| PiggyBacked := true |>, ies1); (h2, ies2)]). split.
  - unfold MarshalPiggybacked. rewrite E1, E2.
    change (PiggyBacked (with_length _ ?h)) with (PiggyBacked h). rewrite P1, P2.
    simpl payload. rewrite app_nil_r, Epb, Ep.
    destruct (marshalled h2 ies2) eqn:Em; [|done].
    pose proof (length_marshalled h2 ies2) as Hl. rewrite Em in Hl. simpl in Hl.
    pose proof (header_size_bounds h2). lia.
  - apply SplitFrames_messages; [|done].
    repeat (apply Forall_cons; split); [|done..]. exact H1.
Qed.

(** The answer to a message whose declared length exceeds the datagram exists
    exactly for request types, carries the paired response type, the request's
    sequence number and cause 67, respects the T-flag rule, and parses back. *)
Lemma InvalidLength_response req peerTEID :
  in_u 24 (SequenceNumber req) -> in_u 32 peerTEID ->
  match ResponseTypeFor (MessageType req) with
  | None => MarshalInvalidLengthResponse req peerTEID
            = Err (NoResponseType (MessageType req))
  | Some rt =>
      exists out h, MarshalInvalidLengthResponse req peerTEID = Ok out /\
        Parse out = Ok (h, [NewCause CauseInvalidLength 0 0 0 None]) /\
        MessageType h = rt /\ SequenceNumber h = SequenceNumber req /\
        ValidateTFlag h = Ok tt /\ RequestTypeForResponse rt = Some (MessageType req)
  end.
Proof.
  intros Hseq Hpeer. destruct (ResponseTypeFor (MessageType req)) as [rt|] eqn:Hrt;
    unfold MarshalInvalidLengthResponse; rewrite Hrt; [|done].
  assert (is_byte rt /\ RequestTypeForResponse rt = Some (MessageType req)
          /\ forall teid, ValidateTFlag (simple_header (negb (rt =? MsgTypeEchoResponse)) rt teid
               (SequenceNumber req)) = Ok tt) as (Hb & Hpair & Hflag).
  { unfold ResponseTypeFor in Hrt.
    repeat case_match; try done; simplify_eq;
    match goal with H : (_ =? _) = true |- _ => apply Z.eqb_eq in H; rewrite H end;
      (split; [by_compute|by split]). }
  set (teid := if rt =? MsgTypeEchoResponse then 0 else peerTEID).
  set (h := simple_header (negb (rt =? MsgTypeEchoResponse)) rt teid (SequenceNumber req)).
  set (ies := [NewCause CauseInvalidLength 0 0 0 None]).
  assert (Header_wf h) as Hh.
  { unfold h, teid. split_and!; simpl; try done.
    - by destruct (rt =? _).
    - by destruct (rt =? _). }
  assert (Forall IE_wf ies) as Hies by by_compute.
  assert (fits h ies) as Hfit.
  { unfold fits. change (length (flat_map IE_Marshal ies)) with 6%nat.
    pose proof (header_size_bounds h). lia. }
  exists (marshalled h ies), (with_length (length (flat_map IE_Marshal ies)) h).
  split_and!; [|by apply Parse_marshalled|done|done|apply Hflag|done].
  rewrite Marshal_spec by done.
  assert (marshalled (simple_header (negb (rt =? MsgTypeEchoResponse)) rt peerTEID
    (SequenceNumber req)) ies = marshalled h ies) as Em
    by (unfold h, teid; by destruct (rt =? MsgTypeEchoResponse)).
  rewrite decide_True; [by rewrite Em|]. exact Hfit.
Qed.

(** UDP payloads and frames.  [SplitFrames] is total, and what it returns covers the
    payload without gap or overlap in frames that each parse on their own.  It inverts
    piggybacking: a payload of messages that follow the flag discipline of TS 29.274
    6.3 is split back into exactly those messages, in order, with their offsets; and
    [MarshalPiggybacked] of two marshalled messages without the flag is accepted, and
    gives the first message with the flag set followed by the second one unchanged. *)
Lemma message_framing :
  (forall b, SplitFrames b <> Err SplitOutOfFuel /\
     forall fs, SplitFrames b = Ok fs -> Framed b 0 fs /\ flat_map Frame_Raw fs = b) /\
  (forall ms, Forall message_wf ms -> chained ms ->
     SplitFrames (payload ms) = Ok (frames_of 0 ms)) /\
  (forall h1 ies1 h2 ies2,
     message_wf (h1, ies1) -> message_wf (h2, ies2) ->
     PiggyBacked h1 = false -> PiggyBacked h2 = false ->
     exists out, MarshalPiggybacked (marshalled h1 ies1) (marshalled h2 ies2) = Ok out /\
       SplitFrames out = Ok (frames_of 0 [(h1 <| PiggyBacked := true |>, ies1); (h2, ies2)])).
Proof.
  split; [apply SplitFrames_sound|]. split; [apply SplitFrames_payload|apply MarshalPiggybacked_split].
Qed.
