(* ===== verification/Gtpv2Procedures.v ===== *)
(** * Typed GTPv2-C messages ([internal/gtpv2/message], all files but [message.go])

    Every message of the S11 and S5/S8 procedures with its parser and its marshaller.
    Each [Parse<Message>] is the source's: the loop over the IEs as a fold whose step is
    the [switch] (a repeated single IE overwrites, a repeated list IE appends), then the
    presence checks in the order of the code.  Some parsers take the header and IEs of an
    already parsed message, the others the datagram.  A missing IE pointer is [None]. *)

From S2P Require Import Prelude GoLib Gtpv2Ie Gtpv2Message.
#[local] Open Scope list_scope.
#[local] Open Scope Z_scope.

Inductive TypedError : Type :=
| BadMessage (e : MsgError)
| WrongMessageType (typ want : Z)
| MissingIE (typ msg : Z)
| ContextMalformed (idx : nat) (e : IEError)
| ContextWithoutEBI (idx : nat).

Definition present (typ msg : Z) (i : option IE) : result TypedError unit :=
  guard (bool_decide (is_Some i)) (MissingIE typ msg).
Definition nonempty (typ msg : Z) (l : list IE) : result TypedError unit :=
  guard (bool_decide (l <> [])) (MissingIE typ msg).
(** The first steps of the parsers that take a datagram. *)
Definition receive (want : Z) (b : bytes) : result TypedError (Header * list IE) :=
  match Parse b with
  | Err e => Err (BadMessage e)
  | Ok (h, ies) =>
      if MessageType h =? want then Ok (h, ies) else Err (WrongMessageType (MessageType h) want)
  end.

(** ** The messages and their parsers *)

Record CreateSessionRequest := mkCSReq {
  CSReq_Header : Header; CSReq_IMSI : option IE; CSReq_MSISDN : option IE;
  CSReq_MEI : option IE; CSReq_RATType : option IE; CSReq_ServingNetwork : option IE;
  CSReq_ULI : option IE; CSReq_FTEID : option IE; CSReq_PGWFTEID : option IE;
  CSReq_APN : option IE; CSReq_PDNType : option IE; CSReq_PAA : option IE;
  CSReq_AMBR : option IE; CSReq_PCO : option IE; CSReq_APNRestriction : option IE;
  CSReq_UETimeZone : option IE; CSReq_ChargingChars : option IE; CSReq_SelectionMode : option IE;
  CSReq_BearerContexts : list IE; CSReq_Indication : option IE; CSReq_Recovery : option IE;
  CSReq_PTI : option IE }.
#[export] Instance eta_CSReq : Eta CreateSessionRequest := fun r =>
  mkCSReq (CSReq_Header r) (CSReq_IMSI r) (CSReq_MSISDN r) (CSReq_MEI r) (CSReq_RATType r) (CSReq_ServingNetwork r) (CSReq_ULI r) (CSReq_FTEID r) (CSReq_PGWFTEID r) (CSReq_APN r) (CSReq_PDNType r) (CSReq_PAA r) (CSReq_AMBR r) (CSReq_PCO r) (CSReq_APNRestriction r) (CSReq_UETimeZone r) (CSReq_ChargingChars r) (CSReq_SelectionMode r) (CSReq_BearerContexts r) (CSReq_Indication r) (CSReq_Recovery r) (CSReq_PTI r).
Definition CSReq_set (r : CreateSessionRequest) (i : IE) : CreateSessionRequest :=
  if IE_Type i =? TypeIMSI then r <| CSReq_IMSI := Some i |>
  else if IE_Type i =? TypeMSISDN then r <| CSReq_MSISDN := Some i |>
  else if IE_Type i =? TypeMEI then r <| CSReq_MEI := Some i |>
  else if IE_Type i =? TypeRATType then r <| CSReq_RATType := Some i |>
  else if IE_Type i =? TypeServingNetwork then r <| CSReq_ServingNetwork := Some i |>
  else if IE_Type i =? TypeULI then r <| CSReq_ULI := Some i |>
  else if IE_Type i =? TypeFTEID then
    if IE_Instance i =? 0 then r <| CSReq_FTEID := Some i |>
    else if IE_Instance i =? 1 then r <| CSReq_PGWFTEID := Some i |>
    else r
  else if IE_Type i =? TypeAPN then r <| CSReq_APN := Some i |>
  else if IE_Type i =? TypePDNType then r <| CSReq_PDNType := Some i |>
  else if IE_Type i =? TypePAA then r <| CSReq_PAA := Some i |>
  else if IE_Type i =? TypeAMBR then r <| CSReq_AMBR := Some i |>
  else if IE_Type i =? TypePCO then r <| CSReq_PCO := Some i |>
  else if IE_Type i =? TypeAPNRestriction then r <| CSReq_APNRestriction := Some i |>
  else if IE_Type i =? TypeUETimeZone then r <| CSReq_UETimeZone := Some i |>
  else if IE_Type i =? TypeChargingChars then r <| CSReq_ChargingChars := Some i |>
  else if IE_Type i =? TypeSelectionMode then r <| CSReq_SelectionMode := Some i |>
  else if IE_Type i =? TypeBearerContext then r <| CSReq_BearerContexts := CSReq_BearerContexts r ++ [i] |>
  else if IE_Type i =? TypeIndication then r <| CSReq_Indication := Some i |>
  else if IE_Type i =? TypeRecovery then r <| CSReq_Recovery := Some i |>
  else if IE_Type i =? TypePTI then r <| CSReq_PTI := Some i |>
  else r.
(** The mandatory IEs; EBI and QoS are those of the default bearer context. *)
Definition validate (req : CreateSessionRequest) : result TypedError unit :=
  let T := MsgTypeCreateSessionRequest in
  let? _ := guard (bool_decide (is_Some (CSReq_IMSI req)) || bool_decide (is_Some (CSReq_MEI req)))
              (MissingIE TypeIMSI T) in
  let? _ := present TypeRATType T (CSReq_RATType req) in
  let? _ := present TypeFTEID T (CSReq_FTEID req) in
  let? _ := present TypeAPN T (CSReq_APN req) in
  let? _ := present TypePDNType T (CSReq_PDNType req) in
  match CSReq_BearerContexts req with
  | [] => Err (MissingIE TypeBearerContext T)
  | bc :: _ =>
      match ChildIEs bc with
      | Err _ => Err (MissingIE TypeEBI T)
      | Ok children =>
          let? _ := present TypeEBI T (FindFirst children TypeEBI) in
          present TypeBearerQoS T (FindFirst children TypeBearerQoS)
      end
  end.
Definition ParseCreateSessionRequest (h : Header) (ies : list IE)
    : result TypedError CreateSessionRequest :=
  let req := fold_left CSReq_set ies (mkCSReq h None None None None None None None None None None None None None None None None None [] None None None) in
  let? _ := validate req in
  Ok req.

Record CreateSessionResponse := mkCSResp {
  CSResp_Header : Header; CSResp_Cause : option IE; CSResp_FTEID : option IE;
  CSResp_PGWFTEID : option IE; CSResp_PAA : option IE; CSResp_AMBR : option IE;
  CSResp_PCO : option IE; CSResp_APNRestriction : option IE; CSResp_ChargingID : option IE;
  CSResp_BearerContexts : list IE; CSResp_Recovery : option IE }.
#[export] Instance eta_CSResp : Eta CreateSessionResponse := fun r =>
  mkCSResp (CSResp_Header r) (CSResp_Cause r) (CSResp_FTEID r) (CSResp_PGWFTEID r) (CSResp_PAA r) (CSResp_AMBR r) (CSResp_PCO r) (CSResp_APNRestriction r) (CSResp_ChargingID r) (CSResp_BearerContexts r) (CSResp_Recovery r).
Definition CSResp_set (r : CreateSessionResponse) (i : IE) : CreateSessionResponse :=
  if IE_Type i =? TypeCause then r <| CSResp_Cause := Some i |>
  else if IE_Type i =? TypeFTEID then
    if IE_Instance i =? 0 then r <| CSResp_FTEID := Some i |>
    else if IE_Instance i =? 1 then r <| CSResp_PGWFTEID := Some i |>
    else r
  else if IE_Type i =? TypePAA then r <| CSResp_PAA := Some i |>
  else if IE_Type i =? TypeAMBR then r <| CSResp_AMBR := Some i |>
  else if IE_Type i =? TypePCO then r <| CSResp_PCO := Some i |>
  else if IE_Type i =? TypeAPNRestriction then r <| CSResp_APNRestriction := Some i |>
  else if IE_Type i =? TypeChargingID then r <| CSResp_ChargingID := Some i |>
  else if IE_Type i =? TypeBearerContext then r <| CSResp_BearerContexts := CSResp_BearerContexts r ++ [i] |>
  else if IE_Type i =? TypeRecovery then r <| CSResp_Recovery := Some i |>
  else r.
Definition ParseCreateSessionResponse (h : Header) (ies : list IE)
    : result TypedError CreateSessionResponse :=
  let r := fold_left CSResp_set ies (mkCSResp h None None None None None None None None [] None) in
  let? _ := present TypeCause MsgTypeCreateSessionResponse (CSResp_Cause r) in
  Ok r.

Record DeleteSessionRequest := mkDSReq {
  DSReq_Header : Header; DSReq_Cause : option IE; DSReq_EBI : option IE;
  DSReq_Indication : option IE; DSReq_Recovery : option IE }.
#[export] Instance eta_DSReq : Eta DeleteSessionRequest := fun r =>
  mkDSReq (DSReq_Header r) (DSReq_Cause r) (DSReq_EBI r) (DSReq_Indication r) (DSReq_Recovery r).
Definition DSReq_set (r : DeleteSessionRequest) (i : IE) : DeleteSessionRequest :=
  if IE_Type i =? TypeCause then r <| DSReq_Cause := Some i |>
  else if IE_Type i =? TypeEBI then r <| DSReq_EBI := Some i |>
  else if IE_Type i =? TypeIndication then r <| DSReq_Indication := Some i |>
  else if IE_Type i =? TypeRecovery then r <| DSReq_Recovery := Some i |>
  else r.
Definition ParseDeleteSessionRequest (h : Header) (ies : list IE)
    : result TypedError DeleteSessionRequest :=
  let r := fold_left DSReq_set ies (mkDSReq h None None None None) in
  Ok r.

Record DeleteSessionResponse := mkDSResp {
  DSResp_Header : Header; DSResp_Cause : option IE; DSResp_Recovery : option IE }.
#[export] Instance eta_DSResp : Eta DeleteSessionResponse := fun r =>
  mkDSResp (DSResp_Header r) (DSResp_Cause r) (DSResp_Recovery r).
Definition DSResp_set (r : DeleteSessionResponse) (i : IE) : DeleteSessionResponse :=
  if IE_Type i =? TypeCause then r <| DSResp_Cause := Some i |>
  else if IE_Type i =? TypeRecovery then r <| DSResp_Recovery := Some i |>
  else r.
Definition ParseDeleteSessionResponse (h : Header) (ies : list IE)
    : result TypedError DeleteSessionResponse :=
  let r := fold_left DSResp_set ies (mkDSResp h None None) in
  let? _ := present TypeCause MsgTypeDeleteSessionResponse (DSResp_Cause r) in
  Ok r.

Record ModifyBearerRequest := mkMBReq {
  MBReq_Header : Header; MBReq_FTEID : option IE; MBReq_BearerContexts : list IE;
  MBReq_SecondaryRATUsageDataReports : list IE; MBReq_Indication : option IE; MBReq_Recovery : option IE }.
#[export] Instance eta_MBReq : Eta ModifyBearerRequest := fun r =>
  mkMBReq (MBReq_Header r) (MBReq_FTEID r) (MBReq_BearerContexts r) (MBReq_SecondaryRATUsageDataReports r) (MBReq_Indication r) (MBReq_Recovery r).
Definition MBReq_set (r : ModifyBearerRequest) (i : IE) : ModifyBearerRequest :=
  if IE_Type i =? TypeFTEID then
    if IE_Instance i =? 0 then r <| MBReq_FTEID := Some i |>
    else r
  else if IE_Type i =? TypeBearerContext then r <| MBReq_BearerContexts := MBReq_BearerContexts r ++ [i] |>
  else if IE_Type i =? TypeSecondaryRATUsageDataReport then r <| MBReq_SecondaryRATUsageDataReports := MBReq_SecondaryRATUsageDataReports r ++ [i] |>
  else if IE_Type i =? TypeIndication then r <| MBReq_Indication := Some i |>
  else if IE_Type i =? TypeRecovery then r <| MBReq_Recovery := Some i |>
  else r.
Definition ParseModifyBearerRequest (h : Header) (ies : list IE)
    : result TypedError ModifyBearerRequest :=
  let r := fold_left MBReq_set ies (mkMBReq h None [] [] None None) in
  Ok r.

Record ModifyBearerResponse := mkMBResp {
  MBResp_Header : Header; MBResp_Cause : option IE; MBResp_FTEID : option IE;
  MBResp_BearerContexts : list IE; MBResp_Recovery : option IE }.
#[export] Instance eta_MBResp : Eta ModifyBearerResponse := fun r =>
  mkMBResp (MBResp_Header r) (MBResp_Cause r) (MBResp_FTEID r) (MBResp_BearerContexts r) (MBResp_Recovery r).
Definition MBResp_set (r : ModifyBearerResponse) (i : IE) : ModifyBearerResponse :=
  if IE_Type i =? TypeCause then r <| MBResp_Cause := Some i |>
  else if IE_Type i =? TypeFTEID then
    if IE_Instance i =? 0 then r <| MBResp_FTEID := Some i |>
    else r
  else if IE_Type i =? TypeBearerContext then r <| MBResp_BearerContexts := MBResp_BearerContexts r ++ [i] |>
  else if IE_Type i =? TypeRecovery then r <| MBResp_Recovery := Some i |>
  else r.
Definition ParseModifyBearerResponse (h : Header) (ies : list IE)
    : result TypedError ModifyBearerResponse :=
  let r := fold_left MBResp_set ies (mkMBResp h None None [] None) in
  let? _ := present TypeCause MsgTypeModifyBearerResponse (MBResp_Cause r) in
  Ok r.

Record ReleaseAccessBearersRequest := mkRABReq {
  RABReq_Header : Header; RABReq_Indication : option IE; RABReq_Recovery : option IE }.
#[export] Instance eta_RABReq : Eta ReleaseAccessBearersRequest := fun r =>
  mkRABReq (RABReq_Header r) (RABReq_Indication r) (RABReq_Recovery r).
Definition RABReq_set (r : ReleaseAccessBearersRequest) (i : IE) : ReleaseAccessBearersRequest :=
  if IE_Type i =? TypeIndication then r <| RABReq_Indication := Some i |>
  else if IE_Type i =? TypeRecovery then r <| RABReq_Recovery := Some i |>
  else r.
Definition ParseReleaseAccessBearersRequest (h : Header) (ies : list IE) : ReleaseAccessBearersRequest :=
  fold_left RABReq_set ies (mkRABReq h None None).

Record CreateBearerRequest := mkCBReq {
  CBReq_Header : Header; CBReq_LBI : option IE; CBReq_BearerContexts : list IE }.
#[export] Instance eta_CBReq : Eta CreateBearerRequest := fun r =>
  mkCBReq (CBReq_Header r) (CBReq_LBI r) (CBReq_BearerContexts r).
Definition CBReq_set (r : CreateBearerRequest) (i : IE) : CreateBearerRequest :=
  if (IE_Type i =? TypeEBI) && (IE_Instance i =? 0) then r <| CBReq_LBI := Some i |>
  else if (IE_Type i =? TypeBearerContext) && (IE_Instance i =? 0) then r <| CBReq_BearerContexts := CBReq_BearerContexts r ++ [i] |>
  else r.
Definition ParseCreateBearerRequest (b : bytes) : result TypedError CreateBearerRequest :=
  let? (h, ies) := receive MsgTypeCreateBearerRequest b in
  let r := fold_left CBReq_set ies (mkCBReq h None []) in
  let? _ := present TypeEBI MsgTypeCreateBearerRequest (CBReq_LBI r) in
  let? _ := nonempty TypeBearerContext MsgTypeCreateBearerRequest (CBReq_BearerContexts r) in
  Ok r.

Record CreateBearerResponse := mkCBResp {
  CBResp_Header : Header; CBResp_Cause : option IE; CBResp_BearerContexts : list IE }.
#[export] Instance eta_CBResp : Eta CreateBearerResponse := fun r =>
  mkCBResp (CBResp_Header r) (CBResp_Cause r) (CBResp_BearerContexts r).
Definition CBResp_set (r : CreateBearerResponse) (i : IE) : CreateBearerResponse :=
  if (IE_Type i =? TypeCause) && (IE_Instance i =? 0) then r <| CBResp_Cause := Some i |>
  else if (IE_Type i =? TypeBearerContext) && (IE_Instance i =? 0) then r <| CBResp_BearerContexts := CBResp_BearerContexts r ++ [i] |>
  else r.
Definition ParseCreateBearerResponse (b : bytes) : result TypedError CreateBearerResponse :=
  let? (h, ies) := receive MsgTypeCreateBearerResponse b in
  let r := fold_left CBResp_set ies (mkCBResp h None []) in
  let? _ := present TypeCause MsgTypeCreateBearerResponse (CBResp_Cause r) in
  let? _ := nonempty TypeBearerContext MsgTypeCreateBearerResponse (CBResp_BearerContexts r) in
  Ok r.

Record UpdateBearerRequest := mkUBReq {
  UBReq_Header : Header; UBReq_BearerContexts : list IE; UBReq_AMBR : option IE }.
#[export] Instance eta_UBReq : Eta UpdateBearerRequest := fun r =>
  mkUBReq (UBReq_Header r) (UBReq_BearerContexts r) (UBReq_AMBR r).
Definition UBReq_set (r : UpdateBearerRequest) (i : IE) : UpdateBearerRequest :=
  if (IE_Type i =? TypeBearerContext) && (IE_Instance i =? 0) then r <| UBReq_BearerContexts := UBReq_BearerContexts r ++ [i] |>
  else if (IE_Type i =? TypeAMBR) && (IE_Instance i =? 0) then r <| UBReq_AMBR := Some i |>
  else r.
Definition ParseUpdateBearerRequest (b : bytes) : result TypedError UpdateBearerRequest :=
  let? (h, ies) := receive MsgTypeUpdateBearerRequest b in
  let r := fold_left UBReq_set ies (mkUBReq h [] None) in
  let? _ := nonempty TypeBearerContext MsgTypeUpdateBearerRequest (UBReq_BearerContexts r) in
  let? _ := present TypeAMBR MsgTypeUpdateBearerRequest (UBReq_AMBR r) in
  Ok r.

Record UpdateBearerResponse := mkUBResp {
  UBResp_Header : Header; UBResp_Cause : option IE; UBResp_BearerContexts : list IE }.
#[export] Instance eta_UBResp : Eta UpdateBearerResponse := fun r =>
  mkUBResp (UBResp_Header r) (UBResp_Cause r) (UBResp_BearerContexts r).
Definition UBResp_set (r : UpdateBearerResponse) (i : IE) : UpdateBearerResponse :=
  if (IE_Type i =? TypeCause) && (IE_Instance i =? 0) then r <| UBResp_Cause := Some i |>
  else if (IE_Type i =? TypeBearerContext) && (IE_Instance i =? 0) then r <| UBResp_BearerContexts := UBResp_BearerContexts r ++ [i] |>
  else r.
Definition ParseUpdateBearerResponse (b : bytes) : result TypedError UpdateBearerResponse :=
  let? (h, ies) := receive MsgTypeUpdateBearerResponse b in
  let r := fold_left UBResp_set ies (mkUBResp h None []) in
  let? _ := present TypeCause MsgTypeUpdateBearerResponse (UBResp_Cause r) in
  Ok r.

Record DeleteBearerRequest := mkDBReq {
  DBReq_Header : Header; DBReq_LBI : option IE; DBReq_EBIs : list IE }.
#[export] Instance eta_DBReq : Eta DeleteBearerRequest := fun r =>
  mkDBReq (DBReq_Header r) (DBReq_LBI r) (DBReq_EBIs r).
Definition DBReq_set (r : DeleteBearerRequest) (i : IE) : DeleteBearerRequest :=
  if (IE_Type i =? TypeEBI) && (IE_Instance i =? 0) then r <| DBReq_LBI := Some i |>
  else if (IE_Type i =? TypeEBI) && (IE_Instance i =? 1) then r <| DBReq_EBIs := DBReq_EBIs r ++ [i] |>
  else r.
Definition ParseDeleteBearerRequest (b : bytes) : result TypedError DeleteBearerRequest :=
  let? (h, ies) := receive MsgTypeDeleteBearerRequest b in
  let r := fold_left DBReq_set ies (mkDBReq h None []) in
  let? _ := guard (bool_decide (is_Some (DBReq_LBI r)) || bool_decide (DBReq_EBIs r <> []))
              (MissingIE TypeEBI MsgTypeDeleteBearerRequest) in
  Ok r.

Record DeleteBearerResponse := mkDBResp {
  DBResp_Header : Header; DBResp_Cause : option IE; DBResp_LBI : option IE;
  DBResp_BearerContexts : list IE }.
#[export] Instance eta_DBResp : Eta DeleteBearerResponse := fun r =>
  mkDBResp (DBResp_Header r) (DBResp_Cause r) (DBResp_LBI r) (DBResp_BearerContexts r).
Definition DBResp_set (r : DeleteBearerResponse) (i : IE) : DeleteBearerResponse :=
  if (IE_Type i =? TypeCause) && (IE_Instance i =? 0) then r <| DBResp_Cause := Some i |>
  else if (IE_Type i =? TypeEBI) && (IE_Instance i =? 0) then r <| DBResp_LBI := Some i |>
  else if (IE_Type i =? TypeBearerContext) && (IE_Instance i =? 0) then r <| DBResp_BearerContexts := DBResp_BearerContexts r ++ [i] |>
  else r.
Definition ParseDeleteBearerResponse (b : bytes) : result TypedError DeleteBearerResponse :=
  let? (h, ies) := receive MsgTypeDeleteBearerResponse b in
  let r := fold_left DBResp_set ies (mkDBResp h None None []) in
  let? _ := present TypeCause MsgTypeDeleteBearerResponse (DBResp_Cause r) in
  Ok r.

Record DeleteBearerFailureIndication := mkDBFail {
  DBFail_Header : Header; DBFail_Cause : option IE; DBFail_BearerContexts : list IE }.
#[export] Instance eta_DBFail : Eta DeleteBearerFailureIndication := fun r =>
  mkDBFail (DBFail_Header r) (DBFail_Cause r) (DBFail_BearerContexts r).
Definition DBFail_set (r : DeleteBearerFailureIndication) (i : IE) : DeleteBearerFailureIndication :=
  if (IE_Type i =? TypeCause) && (IE_Instance i =? 0) then r <| DBFail_Cause := Some i |>
  else if (IE_Type i =? TypeBearerContext) && (IE_Instance i =? 0) then r <| DBFail_BearerContexts := DBFail_BearerContexts r ++ [i] |>
  else r.
Definition ParseDeleteBearerFailureIndication (b : bytes) : result TypedError DeleteBearerFailureIndication :=
  let? (h, ies) := receive MsgTypeDeleteBearerFailureIndication b in
  let r := fold_left DBFail_set ies (mkDBFail h None []) in
  let? _ := present TypeCause MsgTypeDeleteBearerFailureIndication (DBFail_Cause r) in
  let? _ := nonempty TypeBearerContext MsgTypeDeleteBearerFailureIndication (DBFail_BearerContexts r) in
  Ok r.

Record DownlinkDataNotification := mkDDN {
  DDN_Header : Header; DDN_Cause : option IE; DDN_EBIs : list IE;
  DDN_ARP : option IE; DDN_IMSI : option IE; DDN_SenderFTEID : option IE;
  DDN_Indication : option IE; DDN_PagingInfo : list IE }.
#[export] Instance eta_DDN : Eta DownlinkDataNotification := fun r =>
  mkDDN (DDN_Header r) (DDN_Cause r) (DDN_EBIs r) (DDN_ARP r) (DDN_IMSI r) (DDN_SenderFTEID r) (DDN_Indication r) (DDN_PagingInfo r).
Definition DDN_set (r : DownlinkDataNotification) (i : IE) : DownlinkDataNotification :=
  if (IE_Type i =? TypeCause) && (IE_Instance i =? 0) then r <| DDN_Cause := Some i |>
  else if (IE_Type i =? TypeEBI) && (IE_Instance i =? 0) then r <| DDN_EBIs := DDN_EBIs r ++ [i] |>
  else if (IE_Type i =? TypeARP) && (IE_Instance i =? 0) then r <| DDN_ARP := Some i |>
  else if (IE_Type i =? TypeIMSI) && (IE_Instance i =? 0) then r <| DDN_IMSI := Some i |>
  else if (IE_Type i =? TypeFTEID) && (IE_Instance i =? 0) then r <| DDN_SenderFTEID := Some i |>
  else if (IE_Type i =? TypeIndication) && (IE_Instance i =? 0) then r <| DDN_Indication := Some i |>
  else if (IE_Type i =? TypePagingAndServiceInformation) && (IE_Instance i =? 0) then r <| DDN_PagingInfo := DDN_PagingInfo r ++ [i] |>
  else r.
Definition ParseDownlinkDataNotification (b : bytes) : result TypedError DownlinkDataNotification :=
  let? (h, ies) := receive MsgTypeDownlinkDataNotification b in
  let r := fold_left DDN_set ies (mkDDN h None [] None None None None []) in
  Ok r.

Record DownlinkDataNotificationAck := mkDDNAck {
  DDNAck_Header : Header; DDNAck_Cause : option IE; DDNAck_DataNotificationDelay : option IE;
  DDNAck_Recovery : option IE; DDNAck_LowPriorityTrafficThrottling : option IE; DDNAck_IMSI : option IE;
  DDNAck_DLBufferingDuration : option IE; DDNAck_DLBufferingSuggestedPktCount : option IE }.
#[export] Instance eta_DDNAck : Eta DownlinkDataNotificationAck := fun r =>
  mkDDNAck (DDNAck_Header r) (DDNAck_Cause r) (DDNAck_DataNotificationDelay r) (DDNAck_Recovery r) (DDNAck_LowPriorityTrafficThrottling r) (DDNAck_IMSI r) (DDNAck_DLBufferingDuration r) (DDNAck_DLBufferingSuggestedPktCount r).
Definition DDNAck_set (r : DownlinkDataNotificationAck) (i : IE) : DownlinkDataNotificationAck :=
  if (IE_Type i =? TypeCause) && (IE_Instance i =? 0) then r <| DDNAck_Cause := Some i |>
  else if (IE_Type i =? TypeDelayValue) && (IE_Instance i =? 0) then r <| DDNAck_DataNotificationDelay := Some i |>
  else if (IE_Type i =? TypeRecovery) && (IE_Instance i =? 0) then r <| DDNAck_Recovery := Some i |>
  else if (IE_Type i =? TypeThrottling) && (IE_Instance i =? 0) then r <| DDNAck_LowPriorityTrafficThrottling := Some i |>
  else if (IE_Type i =? TypeIMSI) && (IE_Instance i =? 0) then r <| DDNAck_IMSI := Some i |>
  else if (IE_Type i =? TypeEPCTimer) && (IE_Instance i =? 0) then r <| DDNAck_DLBufferingDuration := Some i |>
  else if (IE_Type i =? TypeIntegerNumber) && (IE_Instance i =? 0) then r <| DDNAck_DLBufferingSuggestedPktCount := Some i |>
  else r.
Definition ParseDownlinkDataNotificationAck (b : bytes) : result TypedError DownlinkDataNotificationAck :=
  let? (h, ies) := receive MsgTypeDownlinkDataNotificationAck b in
  let r := fold_left DDNAck_set ies (mkDDNAck h None None None None None None None) in
  let? _ := present TypeCause MsgTypeDownlinkDataNotificationAck (DDNAck_Cause r) in
  Ok r.

Record DownlinkDataNotificationFailureIndication := mkDDNFail {
  DDNFail_Header : Header; DDNFail_Cause : option IE; DDNFail_OriginatingNode : option IE;
  DDNFail_IMSI : option IE }.
#[export] Instance eta_DDNFail : Eta DownlinkDataNotificationFailureIndication := fun r =>
  mkDDNFail (DDNFail_Header r) (DDNFail_Cause r) (DDNFail_OriginatingNode r) (DDNFail_IMSI r).
Definition DDNFail_set (r : DownlinkDataNotificationFailureIndication) (i : IE) : DownlinkDataNotificationFailureIndication :=
  if (IE_Type i =? TypeCause) && (IE_Instance i =? 0) then r <| DDNFail_Cause := Some i |>
  else if (IE_Type i =? TypeNodeType) && (IE_Instance i =? 0) then r <| DDNFail_OriginatingNode := Some i |>
  else if (IE_Type i =? TypeIMSI) && (IE_Instance i =? 0) then r <| DDNFail_IMSI := Some i |>
  else r.
Definition ParseDownlinkDataNotificationFailureIndication (b : bytes) : result TypedError DownlinkDataNotificationFailureIndication :=
  let? (h, ies) := receive MsgTypeDownlinkDataNotificationFailureIndication b in
  let r := fold_left DDNFail_set ies (mkDDNFail h None None None) in
  let? _ := present TypeCause MsgTypeDownlinkDataNotificationFailureIndication (DDNFail_Cause r) in
  Ok r.

Record DeleteBearerCommand := mkDBCmd {
  DBCmd_Header : Header; DBCmd_BearerContexts : list IE; DBCmd_IEs : list IE }.
#[export] Instance eta_DBCmd : Eta DeleteBearerCommand := fun r =>
  mkDBCmd (DBCmd_Header r) (DBCmd_BearerContexts r) (DBCmd_IEs r).
Definition DBCmd_set (r : DeleteBearerCommand) (i : IE) : DeleteBearerCommand :=
  if (IE_Type i =? TypeBearerContext) && (IE_Instance i =? 0)
  then r <| DBCmd_BearerContexts := DBCmd_BearerContexts r ++ [i] |> else r.
(** Every bearer context of a command must name its bearer. *)
Fixpoint check_contexts (idx : nat) (bcs : list IE) : result TypedError unit :=
  match bcs with
  | [] => Ok tt
  | bc :: bcs =>
      match ChildIEs bc with
      | Err e => Err (ContextMalformed idx e)
      | Ok children =>
          match FindFirst children TypeEBI with
          | None => Err (ContextWithoutEBI idx)
          | Some _ => check_contexts (S idx) bcs
          end
      end
  end.
Definition ParseDeleteBearerCommand (b : bytes) : result TypedError DeleteBearerCommand :=
  let? (h, ies) := receive MsgTypeDeleteBearerCommand b in
  let cmd := fold_left DBCmd_set ies (mkDBCmd h [] ies) in
  let? _ := nonempty TypeBearerContext MsgTypeDeleteBearerCommand (DBCmd_BearerContexts cmd) in
  let? _ := check_contexts 0 (DBCmd_BearerContexts cmd) in
  Ok cmd.

Record StopPagingIndication := mkStop { Stop_Header : Header; Stop_IMSI : option IE }.
Definition ParseStopPagingIndication (b : bytes) : result TypedError StopPagingIndication :=
  let? (h, ies) := receive MsgTypeStopPagingIndication b in
  Ok (mkStop h (FindFirst ies TypeIMSI)).

Record EchoRequest := mkEchoReq { EchoReq_Header : Header; EchoReq_Recovery : option IE }.
Record EchoResponse := mkEchoResp { EchoResp_Header : Header; EchoResp_Recovery : option IE }.
Definition ParseEchoRequest (h : Header) (ies : list IE) : EchoRequest :=
  mkEchoReq h (FindFirst ies TypeRecovery).
Definition ParseEchoResponse (h : Header) (ies : list IE) : EchoResponse :=
  mkEchoResp h (FindFirst ies TypeRecovery).

Record ReleaseAccessBearersResponse := mkRABResp {
  RABResp_Header : Header; RABResp_Cause : option IE; RABResp_Recovery : option IE }.

(** ** Marshallers *)

Definition MarshalEchoRequest (seq : Z) (restartCounter : option Z) : result MsgError bytes :=
  Marshal (simple_header false MsgTypeEchoRequest 0 seq)
    match restartCounter with Some c => [NewRecovery c] | None => [] end.
Definition MarshalEchoResponse (req : EchoRequest) (restartCounter : Z) : result MsgError bytes :=
  Marshal (simple_header false MsgTypeEchoResponse 0 (SequenceNumber (EchoReq_Header req)))
    [NewRecovery restartCounter].
(** The TEID of the response is the one in the Sender F-TEID, zero if it is unreadable. *)
Definition MarshalCreateSessionResponse (req : CreateSessionRequest) (cause : Z) (ies : list IE)
    : result MsgError bytes :=
  let mmeTEID := match CSReq_FTEID req with
                 | Some i => match FTEIDValue i with Ok f => FTEID_TEID f | Err _ => 0 end
                 | None => 0
                 end in
  Marshal (simple_header true MsgTypeCreateSessionResponse mmeTEID (SequenceNumber (CSReq_Header req)))
    (NewCause cause 0 0 0 None :: ies).
Definition MarshalDeleteSessionResponse (req : DeleteSessionRequest) (peerTEID cause : Z)
    : result MsgError bytes :=
  Marshal (simple_header (HasTEID (DSReq_Header req)) MsgTypeDeleteSessionResponse peerTEID
             (SequenceNumber (DSReq_Header req))) [NewCause cause 0 0 0 None].
Definition MarshalModifyBearerResponse (req : ModifyBearerRequest) (peerTEID cause : Z) (ies : list IE)
    : result MsgError bytes :=
  Marshal (simple_header (HasTEID (MBReq_Header req)) MsgTypeModifyBearerResponse peerTEID
             (SequenceNumber (MBReq_Header req))) (NewCause cause 0 0 0 None :: ies).
Definition MarshalReleaseAccessBearersResponse (req : ReleaseAccessBearersRequest) (peerTEID cause : Z)
    : result MsgError bytes :=
  Marshal (simple_header (HasTEID (RABReq_Header req)) MsgTypeReleaseAccessBearersResponse peerTEID
             (SequenceNumber (RABReq_Header req))) [NewCause cause 0 0 0 None].
Definition MarshalDownlinkDataNotificationAck (req : DownlinkDataNotification) (peerTEID cause : Z)
    (ies : list IE) : result MsgError bytes :=
  Marshal (simple_header true MsgTypeDownlinkDataNotificationAck peerTEID
             (SequenceNumber (DDN_Header req))) (NewCause cause 0 0 0 None :: ies).
Definition MarshalDownlinkDataNotificationFailureIndication (peerTEID seq cause : Z) (ies : list IE)
    : result MsgError bytes :=
  Marshal (simple_header true MsgTypeDownlinkDataNotificationFailureIndication peerTEID seq)
    (NewCause cause 0 0 0 None :: ies).
Definition MarshalCreateBearerRequest (peerTEID seq : Z) (ies : list IE) : result MsgError bytes :=
  Marshal (simple_header true MsgTypeCreateBearerRequest peerTEID seq) ies.
Definition MarshalCreateBearerResponse (peerTEID seq : Z) (ies : list IE) : result MsgError bytes :=
  Marshal (simple_header true MsgTypeCreateBearerResponse peerTEID seq) ies.
Definition MarshalUpdateBearerRequest (peerTEID seq : Z) (ies : list IE) : result MsgError bytes :=
  Marshal (simple_header true MsgTypeUpdateBearerRequest peerTEID seq) ies.
Definition MarshalUpdateBearerResponse (peerTEID seq : Z) (ies : list IE) : result MsgError bytes :=
  Marshal (simple_header true MsgTypeUpdateBearerResponse peerTEID seq) ies.
Definition MarshalDeleteBearerRequest (peerTEID seq : Z) (ies : list IE) : result MsgError bytes :=
  Marshal (simple_header true MsgTypeDeleteBearerRequest peerTEID seq) ies.
Definition MarshalDeleteBearerResponse (peerTEID seq : Z) (ies : list IE) : result MsgError bytes :=
  Marshal (simple_header true MsgTypeDeleteBearerResponse peerTEID seq) ies.
Definition MarshalDeleteBearerCommand (peerTEID seq : Z) (ies : list IE) : result MsgError bytes :=
  Marshal (simple_header true MsgTypeDeleteBearerCommand peerTEID seq) ies.
Definition MarshalDeleteBearerFailureIndication (peerTEID seq : Z) (ies : list IE) : result MsgError bytes :=
  Marshal (simple_header true MsgTypeDeleteBearerFailureIndication peerTEID seq) ies.
Definition MarshalDownlinkDataNotification (peerTEID seq : Z) (ies : list IE) : result MsgError bytes :=
  Marshal (simple_header true MsgTypeDownlinkDataNotification peerTEID seq) ies.
Definition MarshalStopPagingIndication (peerTEID seq : Z) (ies : list IE) : result MsgError bytes :=
  Marshal (simple_header true MsgTypeStopPagingIndication peerTEID seq) ies.

(** ** Specification: one row of the message tables of TS 29.274 per message

    A key selects the IEs of a type, at an instance if it has one; a table lists what
    a message must contain, in order, with the error the first violation is reported as. *)

Definition key : Type := Z * option Z.
Definition any (t : Z) : key := (t, None).
Definition at_inst (t n : Z) : key := (t, Some n).
Definition selects (k : key) (i : IE) : bool :=
  (IE_Type i =? k.1) && match k.2 with None => true | Some n => IE_Instance i =? n end.
Definition all_of (ies : list IE) (k : key) : list IE := List.filter (selects k) ies.
Definition last_of (ies : list IE) (k : key) : option IE := last (all_of ies k).
Definition has (k : key) (ies : list IE) : bool := bool_decide (all_of ies k <> []).

Definition row : Type := (list IE -> option TypedError).
Definition must (k : key) (msg : Z) : row := fun ies =>
  if has k ies then None else Some (MissingIE k.1 msg).
Definition one_of (k k' : key) (msg : Z) : row := fun ies =>
  if has k ies || has k' ies then None else Some (MissingIE k.1 msg).
(** IE [t] is in the first grouped IE selected by [k]. *)
Definition nested (k : key) (t msg : Z) : row := fun ies =>
  match all_of ies k with
  | bc :: _ =>
      match ChildIEs bc with
      | Ok children => if FindFirst children t then None else Some (MissingIE t msg)
      | Err _ => Some (MissingIE t msg)
      end
  | [] => Some (MissingIE t msg)
  end.
(** Every bearer context decodes and names a bearer. *)
Definition context_error (bc : IE) : option (nat -> TypedError) :=
  match ChildIEs bc with
  | Err e => Some (fun k => ContextMalformed k e)
  | Ok children => if FindFirst children TypeEBI then None else Some ContextWithoutEBI
  end.
Definition contexts_ok : row := fun ies =>
  match list_find (fun bc => is_Some (context_error bc)) (all_of ies (at_inst TypeBearerContext 0)) with
  | Some (k, bc) => (fun e => e k) <$> context_error bc
  | None => None
  end.

Fixpoint first_error (rows : list row) (ies : list IE) : option TypedError :=
  match rows with
  | [] => None
  | r :: rows => match r ies with Some e => Some e | None => first_error rows ies end
  end.
Definition checked {R} (rows : list row) (build : Header -> list IE -> R) (h : Header) (ies : list IE)
    : result TypedError R :=
  match first_error rows ies with Some e => Err e | None => Ok (build h ies) end.

(** What the typed parsers promise. *)
Class IEParser {R} (parse : Header -> list IE -> result TypedError R) (rows : list row)
    (build : Header -> list IE -> R) : Prop :=
  ie_parser h ies : parse h ies = checked rows build h ies.
Class DatagramParser {R} (parse : bytes -> result TypedError R) (typ : Z) (rows : list row)
    (build : Header -> list IE -> R) : Prop :=
  datagram_parser b : parse b = let? (h, ies) := receive typ b in checked rows build h ies.

Definition CSReq_rows : list row :=
  [one_of (any TypeIMSI) (any TypeMEI) MsgTypeCreateSessionRequest;
   must (any TypeRATType) MsgTypeCreateSessionRequest;
   must (at_inst TypeFTEID 0) MsgTypeCreateSessionRequest;
   must (any TypeAPN) MsgTypeCreateSessionRequest;
   must (any TypePDNType) MsgTypeCreateSessionRequest;
   must (any TypeBearerContext) MsgTypeCreateSessionRequest;
   nested (any TypeBearerContext) TypeEBI MsgTypeCreateSessionRequest;
   nested (any TypeBearerContext) TypeBearerQoS MsgTypeCreateSessionRequest].
Definition CSReq_build (h : Header) (ies : list IE) : CreateSessionRequest :=
  mkCSReq h (last_of ies (any TypeIMSI)) (last_of ies (any TypeMSISDN)) (last_of ies (any TypeMEI)) (last_of ies (any TypeRATType)) (last_of ies (any TypeServingNetwork)) (last_of ies (any TypeULI)) (last_of ies (at_inst TypeFTEID 0)) (last_of ies (at_inst TypeFTEID 1)) (last_of ies (any TypeAPN)) (last_of ies (any TypePDNType)) (last_of ies (any TypePAA)) (last_of ies (any TypeAMBR)) (last_of ies (any TypePCO)) (last_of ies (any TypeAPNRestriction)) (last_of ies (any TypeUETimeZone)) (last_of ies (any TypeChargingChars)) (last_of ies (any TypeSelectionMode)) (all_of ies (any TypeBearerContext)) (last_of ies (any TypeIndication)) (last_of ies (any TypeRecovery)) (last_of ies (any TypePTI)).
Definition CSResp_rows : list row :=
  [must (any TypeCause) MsgTypeCreateSessionResponse].
Definition CSResp_build (h : Header) (ies : list IE) : CreateSessionResponse :=
  mkCSResp h (last_of ies (any TypeCause)) (last_of ies (at_inst TypeFTEID 0)) (last_of ies (at_inst TypeFTEID 1)) (last_of ies (any TypePAA)) (last_of ies (any TypeAMBR)) (last_of ies (any TypePCO)) (last_of ies (any TypeAPNRestriction)) (last_of ies (any TypeChargingID)) (all_of ies (any TypeBearerContext)) (last_of ies (any TypeRecovery)).
Definition DSReq_rows : list row :=
  [].
Definition DSReq_build (h : Header) (ies : list IE) : DeleteSessionRequest :=
  mkDSReq h (last_of ies (any TypeCause)) (last_of ies (any TypeEBI)) (last_of ies (any TypeIndication)) (last_of ies (any TypeRecovery)).
Definition DSResp_rows : list row :=
  [must (any TypeCause) MsgTypeDeleteSessionResponse].
Definition DSResp_build (h : Header) (ies : list IE) : DeleteSessionResponse :=
  mkDSResp h (last_of ies (any TypeCause)) (last_of ies (any TypeRecovery)).
Definition MBReq_rows : list row :=
  [].
Definition MBReq_build (h : Header) (ies : list IE) : ModifyBearerRequest :=
  mkMBReq h (last_of ies (at_inst TypeFTEID 0)) (all_of ies (any TypeBearerContext)) (all_of ies (any TypeSecondaryRATUsageDataReport)) (last_of ies (any TypeIndication)) (last_of ies (any TypeRecovery)).
Definition MBResp_rows : list row :=
  [must (any TypeCause) MsgTypeModifyBearerResponse].
Definition MBResp_build (h : Header) (ies : list IE) : ModifyBearerResponse :=
  mkMBResp h (last_of ies (any TypeCause)) (last_of ies (at_inst TypeFTEID 0)) (all_of ies (any TypeBearerContext)) (last_of ies (any TypeRecovery)).
Definition RABReq_rows : list row :=
  [].
Definition RABReq_build (h : Header) (ies : list IE) : ReleaseAccessBearersRequest :=
  mkRABReq h (last_of ies (any TypeIndication)) (last_of ies (any TypeRecovery)).
Definition CBReq_rows : list row :=
  [must (at_inst TypeEBI 0) MsgTypeCreateBearerRequest;
   must (at_inst TypeBearerContext 0) MsgTypeCreateBearerRequest].
Definition CBReq_build (h : Header) (ies : list IE) : CreateBearerRequest :=
  mkCBReq h (last_of ies (at_inst TypeEBI 0)) (all_of ies (at_inst TypeBearerContext 0)).
Definition CBResp_rows : list row :=
  [must (at_inst TypeCause 0) MsgTypeCreateBearerResponse;
   must (at_inst TypeBearerContext 0) MsgTypeCreateBearerResponse].
Definition CBResp_build (h : Header) (ies : list IE) : CreateBearerResponse :=
  mkCBResp h (last_of ies (at_inst TypeCause 0)) (all_of ies (at_inst TypeBearerContext 0)).
Definition UBReq_rows : list row :=
  [must (at_inst TypeBearerContext 0) MsgTypeUpdateBearerRequest;
   must (at_inst TypeAMBR 0) MsgTypeUpdateBearerRequest].
Definition UBReq_build (h : Header) (ies : list IE) : UpdateBearerRequest :=
  mkUBReq h (all_of ies (at_inst TypeBearerContext 0)) (last_of ies (at_inst TypeAMBR 0)).
Definition UBResp_rows : list row :=
  [must (at_inst TypeCause 0) MsgTypeUpdateBearerResponse].
Definition UBResp_build (h : Header) (ies : list IE) : UpdateBearerResponse :=
  mkUBResp h (last_of ies (at_inst TypeCause 0)) (all_of ies (at_inst TypeBearerContext 0)).
Definition DBReq_rows : list row :=
  [one_of (at_inst TypeEBI 0) (at_inst TypeEBI 1) MsgTypeDeleteBearerRequest].
Definition DBReq_build (h : Header) (ies : list IE) : DeleteBearerRequest :=
  mkDBReq h (last_of ies (at_inst TypeEBI 0)) (all_of ies (at_inst TypeEBI 1)).
Definition DBResp_rows : list row :=
  [must (at_inst TypeCause 0) MsgTypeDeleteBearerResponse].
Definition DBResp_build (h : Header) (ies : list IE) : DeleteBearerResponse :=
  mkDBResp h (last_of ies (at_inst TypeCause 0)) (last_of ies (at_inst TypeEBI 0)) (all_of ies (at_inst TypeBearerContext 0)).
Definition DBFail_rows : list row :=
  [must (at_inst TypeCause 0) MsgTypeDeleteBearerFailureIndication;
   must (at_inst TypeBearerContext 0) MsgTypeDeleteBearerFailureIndication].
Definition DBFail_build (h : Header) (ies : list IE) : DeleteBearerFailureIndication :=
  mkDBFail h (last_of ies (at_inst TypeCause 0)) (all_of ies (at_inst TypeBearerContext 0)).
Definition DDN_rows : list row :=
  [].
Definition DDN_build (h : Header) (ies : list IE) : DownlinkDataNotification :=
  mkDDN h (last_of ies (at_inst TypeCause 0)) (all_of ies (at_inst TypeEBI 0)) (last_of ies (at_inst TypeARP 0)) (last_of ies (at_inst TypeIMSI 0)) (last_of ies (at_inst TypeFTEID 0)) (last_of ies (at_inst TypeIndication 0)) (all_of ies (at_inst TypePagingAndServiceInformation 0)).
Definition DDNAck_rows : list row :=
  [must (at_inst TypeCause 0) MsgTypeDownlinkDataNotificationAck].
Definition DDNAck_build (h : Header) (ies : list IE) : DownlinkDataNotificationAck :=
  mkDDNAck h (last_of ies (at_inst TypeCause 0)) (last_of ies (at_inst TypeDelayValue 0)) (last_of ies (at_inst TypeRecovery 0)) (last_of ies (at_inst TypeThrottling 0)) (last_of ies (at_inst TypeIMSI 0)) (last_of ies (at_inst TypeEPCTimer 0)) (last_of ies (at_inst TypeIntegerNumber 0)).
Definition DDNFail_rows : list row :=
  [must (at_inst TypeCause 0) MsgTypeDownlinkDataNotificationFailureIndication].
Definition DDNFail_build (h : Header) (ies : list IE) : DownlinkDataNotificationFailureIndication :=
  mkDDNFail h (last_of ies (at_inst TypeCause 0)) (last_of ies (at_inst TypeNodeType 0)) (last_of ies (at_inst TypeIMSI 0)).
Definition DBCmd_rows : list row :=
  [must (at_inst TypeBearerContext 0) MsgTypeDeleteBearerCommand; contexts_ok].
Definition DBCmd_build (h : Header) (ies : list IE) : DeleteBearerCommand :=
  mkDBCmd h (all_of ies (at_inst TypeBearerContext 0)) ies.

(** ** The loops collect the last or all IEs of a key *)

Lemma all_of_snoc ies i k :
  all_of (ies ++ [i]) k = if selects k i then all_of ies k ++ [i] else all_of ies k.
Proof.
  unfold all_of. rewrite List.filter_app. cbn. destruct (selects k i); [done|apply app_nil_r].
Qed.
Lemma last_key_snoc ies i k :
  last_of (ies ++ [i]) k = if selects k i then Some i else last_of ies k.
Proof. unfold last_of. rewrite all_of_snoc. case_match; [apply last_snoc|done]. Qed.

Ltac instances :=
  repeat match goal with |- context [IE_Instance ?i =? ?n] =>
    let E := fresh "E" in
    destruct (Z.eqb_spec (IE_Instance i) n) as [E|_]; [rewrite ?E; reflexivity|]
  end; reflexivity.
Ltac types :=
  repeat match goal with |- context [IE_Type ?i =? ?t] =>
    let E := fresh "E" in
    destruct (Z.eqb_spec (IE_Type i) t) as [E|_]; [rewrite ?E; cbn [andb]; instances|cbn [andb]]
  end; reflexivity.
Ltac collect :=
  intros h ies; induction ies as [|i ies IH] using rev_ind; [reflexivity|];
  rewrite fold_left_app, IH; cbn [fold_left];
  match goal with |- ?set (?build h ies) i = _ => unfold set, build end;
  rewrite ?last_key_snoc, ?all_of_snoc; unfold selects, any, at_inst; cbn [fst snd andb]; types.

Lemma CSReq_collect : forall h ies, fold_left CSReq_set ies (mkCSReq h None None None None None None None None None None None None None None None None None [] None None None) = CSReq_build h ies.
Proof. collect. Qed.
Lemma CSResp_collect : forall h ies, fold_left CSResp_set ies (mkCSResp h None None None None None None None None [] None) = CSResp_build h ies.
Proof. collect. Qed.
Lemma DSReq_collect : forall h ies, fold_left DSReq_set ies (mkDSReq h None None None None) = DSReq_build h ies.
Proof. collect. Qed.
Lemma DSResp_collect : forall h ies, fold_left DSResp_set ies (mkDSResp h None None) = DSResp_build h ies.
Proof. collect. Qed.
Lemma MBReq_collect : forall h ies, fold_left MBReq_set ies (mkMBReq h None [] [] None None) = MBReq_build h ies.
Proof. collect. Qed.
Lemma MBResp_collect : forall h ies, fold_left MBResp_set ies (mkMBResp h None None [] None) = MBResp_build h ies.
Proof. collect. Qed.
Lemma RABReq_collect : forall h ies, fold_left RABReq_set ies (mkRABReq h None None) = RABReq_build h ies.
Proof. collect. Qed.
Lemma CBReq_collect : forall h ies, fold_left CBReq_set ies (mkCBReq h None []) = CBReq_build h ies.
Proof. collect. Qed.
Lemma CBResp_collect : forall h ies, fold_left CBResp_set ies (mkCBResp h None []) = CBResp_build h ies.
Proof. collect. Qed.
Lemma UBReq_collect : forall h ies, fold_left UBReq_set ies (mkUBReq h [] None) = UBReq_build h ies.
Proof. collect. Qed.
Lemma UBResp_collect : forall h ies, fold_left UBResp_set ies (mkUBResp h None []) = UBResp_build h ies.
Proof. collect. Qed.
Lemma DBReq_collect : forall h ies, fold_left DBReq_set ies (mkDBReq h None []) = DBReq_build h ies.
Proof. collect. Qed.
Lemma DBResp_collect : forall h ies, fold_left DBResp_set ies (mkDBResp h None None []) = DBResp_build h ies.
Proof. collect. Qed.
Lemma DBFail_collect : forall h ies, fold_left DBFail_set ies (mkDBFail h None []) = DBFail_build h ies.
Proof. collect. Qed.
Lemma DDN_collect : forall h ies, fold_left DDN_set ies (mkDDN h None [] None None None None []) = DDN_build h ies.
Proof. collect. Qed.
Lemma DDNAck_collect : forall h ies, fold_left DDNAck_set ies (mkDDNAck h None None None None None None None) = DDNAck_build h ies.
Proof. collect. Qed.
Lemma DDNFail_collect : forall h ies, fold_left DDNFail_set ies (mkDDNFail h None None None) = DDNFail_build h ies.
Proof. collect. Qed.
Lemma DBCmd_collect h all ies :
  fold_left DBCmd_set ies (mkDBCmd h [] all) = mkDBCmd h (all_of ies (at_inst TypeBearerContext 0)) all.
Proof.
  induction ies as [|i ies IH] using rev_ind; [done|].
  rewrite fold_left_app, IH, all_of_snoc. cbn [fold_left]. unfold DBCmd_set, selects, at_inst.
  cbn [fst snd]. by destruct (_ && _).
Qed.

(** ** The typed parsers implement their tables *)

Lemma present_must ies k msg :
  present k.1 msg (last_of ies k) = match must k msg ies with Some e => Err e | None => Ok tt end.
Proof.
  unfold present, must, has, last_of.
  rewrite (bool_decide_ext (is_Some (last (all_of ies k))) (all_of ies k <> [])) by apply last_is_Some.
  by destruct (bool_decide _).
Qed.
Lemma nonempty_must ies k msg :
  nonempty k.1 msg (all_of ies k) = match must k msg ies with Some e => Err e | None => Ok tt end.
Proof. unfold nonempty, must, has. by destruct (bool_decide _). Qed.
Lemma last_has ies k : bool_decide (is_Some (last_of ies k)) = has k ies.
Proof. apply bool_decide_ext, last_is_Some. Qed.

Lemma checked_cons {R} r rows (build : Header -> list IE -> R) h ies :
  checked (r :: rows) build h ies =
    let? _ := match r ies with Some e => Err e | None => Ok tt end in checked rows build h ies.
Proof. unfold checked. cbn. by destruct (r ies). Qed.

(** Match each check of a parser with its row. *)
Ltac same_check :=
  match goal with
  | |- rbind ?a _ = rbind ?b _ => change b with a; destruct a as [[]|]; cbn [rbind]; [|reflexivity]
  end.
Ltac rows :=
  repeat (rewrite checked_cons;
    first [rewrite <- present_must; same_check | rewrite <- nonempty_must; same_check]); reflexivity.
Ltac ie_parser parse collect rws :=
  intros h ies; unfold parse, rws; rewrite collect; rows.
Ltac datagram_parser parse collect rws :=
  intros b; unfold parse, rws; destruct (receive _ b) as [[h ies]|]; cbn [rbind]; [|reflexivity];
  rewrite collect; rows.

Lemma validate_rows h ies :
  (let? _ := validate (CSReq_build h ies) in Ok (CSReq_build h ies)) = checked CSReq_rows CSReq_build h ies.
Proof.
  unfold validate, CSReq_rows. cbn [CSReq_IMSI CSReq_MEI CSReq_RATType CSReq_FTEID CSReq_APN CSReq_PDNType
    CSReq_BearerContexts CSReq_build].
  rewrite checked_cons. unfold one_of. rewrite !last_has.
  destruct (has (any TypeIMSI) ies || has (any TypeMEI) ies); cbn [guard rbind]; [|reflexivity].
  do 4 (rewrite checked_cons, <- present_must;
    match goal with |- rbind (rbind ?a _) _ = rbind ?b _ =>
      change b with a; destruct a as [[]|]; cbn [rbind]; [|reflexivity] end).
  rewrite !checked_cons. unfold nested, must, has, checked. cbn [first_error].
  destruct (all_of ies (any TypeBearerContext)) as [|bc bcs]; [done|]. cbn.
  destruct (ChildIEs bc) as [children|]; [|done]. unfold present.
  by destruct (FindFirst children TypeEBI), (FindFirst children TypeBearerQoS).
Qed.
#[export] Instance CSReq_parser : IEParser ParseCreateSessionRequest CSReq_rows CSReq_build.
Proof. intros h ies. unfold ParseCreateSessionRequest. rewrite CSReq_collect. apply validate_rows. Qed.

#[export] Instance CSResp_parser : IEParser ParseCreateSessionResponse CSResp_rows CSResp_build.
Proof. ie_parser ParseCreateSessionResponse CSResp_collect CSResp_rows. Qed.
#[export] Instance DSReq_parser : IEParser ParseDeleteSessionRequest DSReq_rows DSReq_build.
Proof. ie_parser ParseDeleteSessionRequest DSReq_collect DSReq_rows. Qed.
#[export] Instance DSResp_parser : IEParser ParseDeleteSessionResponse DSResp_rows DSResp_build.
Proof. ie_parser ParseDeleteSessionResponse DSResp_collect DSResp_rows. Qed.
#[export] Instance MBReq_parser : IEParser ParseModifyBearerRequest MBReq_rows MBReq_build.
Proof. ie_parser ParseModifyBearerRequest MBReq_collect MBReq_rows. Qed.
#[export] Instance MBResp_parser : IEParser ParseModifyBearerResponse MBResp_rows MBResp_build.
Proof. ie_parser ParseModifyBearerResponse MBResp_collect MBResp_rows. Qed.
#[export] Instance CBReq_parser : DatagramParser ParseCreateBearerRequest MsgTypeCreateBearerRequest CBReq_rows CBReq_build.
Proof. datagram_parser ParseCreateBearerRequest CBReq_collect CBReq_rows. Qed.
#[export] Instance CBResp_parser : DatagramParser ParseCreateBearerResponse MsgTypeCreateBearerResponse CBResp_rows CBResp_build.
Proof. datagram_parser ParseCreateBearerResponse CBResp_collect CBResp_rows. Qed.
#[export] Instance UBReq_parser : DatagramParser ParseUpdateBearerRequest MsgTypeUpdateBearerRequest UBReq_rows UBReq_build.
Proof. datagram_parser ParseUpdateBearerRequest UBReq_collect UBReq_rows. Qed.
#[export] Instance UBResp_parser : DatagramParser ParseUpdateBearerResponse MsgTypeUpdateBearerResponse UBResp_rows UBResp_build.
Proof. datagram_parser ParseUpdateBearerResponse UBResp_collect UBResp_rows. Qed.
#[export] Instance DBReq_parser : DatagramParser ParseDeleteBearerRequest MsgTypeDeleteBearerRequest DBReq_rows DBReq_build.
Proof.
  intros b. unfold ParseDeleteBearerRequest, DBReq_rows.
  destruct (receive _ b) as [[h ies]|]; cbn [rbind]; [|reflexivity]. rewrite DBReq_collect, checked_cons.
  unfold one_of. cbn [DBReq_LBI DBReq_EBIs DBReq_build]. rewrite last_has.
  by destruct (has (at_inst TypeEBI 0) ies), (has (at_inst TypeEBI 1) ies) eqn:E; unfold has in E; rewrite ?E.
Qed.
#[export] Instance DBResp_parser : DatagramParser ParseDeleteBearerResponse MsgTypeDeleteBearerResponse DBResp_rows DBResp_build.
Proof. datagram_parser ParseDeleteBearerResponse DBResp_collect DBResp_rows. Qed.
#[export] Instance DBFail_parser : DatagramParser ParseDeleteBearerFailureIndication MsgTypeDeleteBearerFailureIndication DBFail_rows DBFail_build.
Proof. datagram_parser ParseDeleteBearerFailureIndication DBFail_collect DBFail_rows. Qed.
#[export] Instance DDN_parser : DatagramParser ParseDownlinkDataNotification MsgTypeDownlinkDataNotification DDN_rows DDN_build.
Proof. datagram_parser ParseDownlinkDataNotification DDN_collect DDN_rows. Qed.
#[export] Instance DDNAck_parser : DatagramParser ParseDownlinkDataNotificationAck MsgTypeDownlinkDataNotificationAck DDNAck_rows DDNAck_build.
Proof. datagram_parser ParseDownlinkDataNotificationAck DDNAck_collect DDNAck_rows. Qed.
#[export] Instance DDNFail_parser : DatagramParser ParseDownlinkDataNotificationFailureIndication MsgTypeDownlinkDataNotificationFailureIndication DDNFail_rows DDNFail_build.
Proof. datagram_parser ParseDownlinkDataNotificationFailureIndication DDNFail_collect DDNFail_rows. Qed.

Lemma check_contexts_spec k bcs :
  check_contexts k bcs =
    match list_find (fun bc => is_Some (context_error bc)) bcs with
    | Some (j, bc) => match context_error bc with Some e => Err (e (k + j)%nat) | None => Ok tt end
    | None => Ok tt
    end.
Proof.
  revert k. induction bcs as [|bc bcs IH]; intros k; [done|].
  assert (check_contexts k (bc :: bcs)
    = match context_error bc with Some e => Err (e k) | None => check_contexts (S k) bcs end) as ->.
  { unfold context_error. cbn. destruct (ChildIEs bc) as [children|]; [|done].
    by destruct (FindFirst children TypeEBI). }
  cbn [list_find]. destruct (context_error bc) eqn:E.
  - rewrite decide_True by done. by rewrite E, Nat.add_0_r.
  - rewrite decide_False by (by intros []). rewrite IH.
    destruct (list_find _ bcs) as [[j bc']|]; cbn; [|done]. by rewrite Nat.add_succ_r.
Qed.
#[export] Instance DBCmd_parser : DatagramParser ParseDeleteBearerCommand MsgTypeDeleteBearerCommand DBCmd_rows DBCmd_build.
Proof.
  intros b. unfold ParseDeleteBearerCommand, DBCmd_rows.
  destruct (receive _ b) as [[h ies]|]; cbn [rbind]; [|reflexivity].
  rewrite DBCmd_collect, checked_cons, <- nonempty_must. cbn [DBCmd_BearerContexts].
  change (at_inst TypeBearerContext 0).1 with TypeBearerContext.
  destruct (nonempty _ _ _); cbn [rbind]; [|reflexivity]. rewrite check_contexts_spec, checked_cons.
  unfold contexts_ok. destruct (list_find _ _) as [[k bc]|]; [|done]. by destruct (context_error bc).
Qed.

(** ** Messages on the wire *)

(** A marshaller and a parser of one message: what is marshalled is received as the
    table of the message says. *)
Definition carried {R} (marshal : Z -> Z -> list IE -> result MsgError bytes)
    (parse : bytes -> result TypedError R) (typ : Z) (rows : list row)
    (build : Header -> list IE -> R) : Prop :=
  forall teid seq ies b,
    in_u 32 teid -> in_u 24 seq -> Forall IE_wf ies -> marshal teid seq ies = Ok b ->
    parse b = checked rows build
      (with_length (length (flat_map IE_Marshal ies)) (simple_header true typ teid seq)) ies.

Lemma answer_header_wf t typ teid seq : is_byte typ -> in_u 32 teid -> in_u 24 seq ->
  (t = false -> teid = 0) -> Header_wf (simple_header t typ teid seq).
Proof.
  intros. split; [done|]. split; [done|]. split; [done|]. split; [done|].
  split; [split; cbn; lia|]. split; [done|]. cbn. intros. auto.
Qed.

Lemma Marshal_Parse h ies b : Header_wf h -> Forall IE_wf ies -> Marshal h ies = Ok b ->
  Parse b = Ok (with_length (length (flat_map IE_Marshal ies)) h, ies).
Proof.
  intros Hh Hies. rewrite Marshal_spec by done. case_decide as Hf; [|done]. intros [= <-].
  by apply Parse_marshalled.
Qed.

Lemma carried_simple {R} (parse : bytes -> result TypedError R) typ rows build :
  DatagramParser parse typ rows build -> is_byte typ ->
  carried (fun teid seq ies => Marshal (simple_header true typ teid seq) ies) parse typ rows build.
Proof.
  intros HP Ht teid seq ies b Hteid Hseq Hies Hb. rewrite datagram_parser. unfold receive.
  apply Marshal_Parse in Hb; [|by apply answer_header_wf|done]. rewrite Hb.
  cbn [MessageType with_length simple_header]. by rewrite Z.eqb_refl.
Qed.
#[local] Hint Extern 1 (is_byte _) => (split; vm_compute; congruence) : core.

(** The answer to a request: the response type of the request's type with its sequence
    number, addressed to [teid], and the cause first. *)
Definition answer_to (reqType : Z) (req : Header) (teid cause : Z) (ies : list IE) (b : bytes) : Prop :=
  exists h, Parse b = Ok (h, NewCause cause 0 0 0 None :: ies) /\
    ResponseTypeFor reqType = Some (MessageType h) /\ TEID h = teid /\
    SequenceNumber h = SequenceNumber req /\
    CauseValue (NewCause cause 0 0 0 None) = Ok cause.

Lemma answers_to t typ reqType req teid cause ies b :
  is_byte typ -> ResponseTypeFor reqType = Some typ ->
  in_u 32 teid -> in_u 24 (SequenceNumber req) -> (t = false -> teid = 0) -> is_byte cause ->
  Forall IE_wf ies ->
  Marshal (simple_header t typ teid (SequenceNumber req)) (NewCause cause 0 0 0 None :: ies) = Ok b ->
  answer_to reqType req teid cause ies b.
Proof.
  intros Ht Htyp Hteid Hseq Hnt Hc Hies Hb.
  apply Marshal_Parse in Hb; [|by apply answer_header_wf|].
  2: { constructor; [|done]. split; [done|]. split; [split; cbn; lia|]. split; [|cbn; lia].
       change (bytes_ok ([cause] ++ [0])). apply bytes_ok_app. split; [by apply Forall_singleton|by_compute]. }
  eexists. split; [exact Hb|]. by rewrite Htyp.
Qed.

(** ** Properties *)


(** The answers to a request.  Whenever a response marshaller returns, what it
    built parses as the response of the request's type with the request's sequence
    number, the given cause first and the given IEs after it, and goes to the control
    TEID of the peer: the one the caller passes, or for a Create Session Response the one
    in the Sender F-TEID of the request (not the TEID of the request's header).  Nothing
    is said of a request without the T flag, whose answer has no room for a TEID. *)
Lemma procedure_answers teid cause ies b :
  in_u 32 teid -> is_byte cause -> Forall IE_wf ies ->
  (forall req i f, in_u 24 (SequenceNumber (CSReq_Header req)) ->
     CSReq_FTEID req = Some i -> FTEIDValue i = Ok f -> in_u 32 (FTEID_TEID f) ->
     MarshalCreateSessionResponse req cause ies = Ok b ->
     answer_to MsgTypeCreateSessionRequest (CSReq_Header req) (FTEID_TEID f) cause ies b) /\
  (forall req, in_u 24 (SequenceNumber (MBReq_Header req)) -> HasTEID (MBReq_Header req) = true ->
     MarshalModifyBearerResponse req teid cause ies = Ok b ->
     answer_to MsgTypeModifyBearerRequest (MBReq_Header req) teid cause ies b) /\
  (forall req, in_u 24 (SequenceNumber (DSReq_Header req)) -> HasTEID (DSReq_Header req) = true ->
     MarshalDeleteSessionResponse req teid cause = Ok b ->
     answer_to MsgTypeDeleteSessionRequest (DSReq_Header req) teid cause [] b) /\
  (forall req, in_u 24 (SequenceNumber (RABReq_Header req)) -> HasTEID (RABReq_Header req) = true ->
     MarshalReleaseAccessBearersResponse req teid cause = Ok b ->
     answer_to MsgTypeReleaseAccessBearersRequest (RABReq_Header req) teid cause [] b) /\
  (forall req, in_u 24 (SequenceNumber (DDN_Header req)) ->
     MarshalDownlinkDataNotificationAck req teid cause ies = Ok b ->
     answer_to MsgTypeDownlinkDataNotification (DDN_Header req) teid cause ies b).
Proof.
  intros Hteid Hc Hies. split_and!.
  - intros req i f Hs Hi Hf Ht. unfold MarshalCreateSessionResponse. rewrite Hi, Hf.
    by apply answers_to.
  - intros req Hs Hh. unfold MarshalModifyBearerResponse. rewrite Hh. by apply answers_to.
  - intros req Hs Hh. unfold MarshalDeleteSessionResponse. rewrite Hh. by apply answers_to.
  - intros req Hs Hh. unfold MarshalReleaseAccessBearersResponse. rewrite Hh. by apply answers_to.
  - intros req Hs. by apply answers_to.
Qed.

Definition example_request : ModifyBearerRequest :=
  mkMBReq (simple_header true MsgTypeModifyBearerRequest 0x11 0x1234) None [] [] None None.
