(* ===== verification/Gtpv2Transport.v ===== *)
(** * GTPv2-C transport ([internal/gtpv2/transport/transport.go])

    The transaction layer of a GTPv2-C socket: the 24-bit sequence counter, the
    pending table of outbound requests, and the response cache with the in-flight
    set that suppress duplicate inbound requests.  Each critical section is one
    function on the connection state, with [time.Now()] as an argument and writes
    to the socket and calls of the registered handler as emitted effects; the
    goroutines are interleaved by the step relation at the end.  A peer address is
    its ["ip:port"] text, the order in which Go ranges over a map is an argument. *)

From S2P Require Import Prelude GoLib Gtpv2Ie Gtpv2Message.

(** ** Keys and state *)

Record retransmitKey := mkRetransmitKey {
  rk_addr : string; rk_seq : Z; rk_msgType : Z; rk_teid : Z
}.
#[export] Instance retransmitKey_eq_dec : EqDecision retransmitKey.
Proof. solve_decision. Defined.
#[export] Instance retransmitKey_countable : Countable retransmitKey.
Proof.
  refine (inj_countable' (fun k => (rk_addr k, rk_seq k, rk_msgType k, rk_teid k))
    (fun '(a, s, m, t) => mkRetransmitKey a s m t) _). by intros [].
Defined.

Record transactionKey := mkTransactionKey {
  tk_addr : string; tk_seq : Z; tk_responseType : Z
}.
#[export] Instance transactionKey_eq_dec : EqDecision transactionKey.
Proof. solve_decision. Defined.
#[export] Instance transactionKey_countable : Countable transactionKey.
Proof.
  refine (inj_countable' (fun k => (tk_addr k, tk_seq k, tk_responseType k))
    (fun '(a, s, r) => mkTransactionKey a s r) _). by intros [].
Defined.

Record cachedResponse := mkCachedResponse { cr_raw : bytes; cr_expires : time }.

Record pendingResult := mkPendingResult { res_raw : bytes; res_piggybacks : list Frame }.

(** A pending request: the contents of its one-place result channel and whether
    its context was cancelled. *)
Record pendingRequest := mkPendingRequest {
  pr_addr : string; pr_raw : bytes; pr_result : list pendingResult; pr_cancelled : bool
}.
#[export] Instance eta_pendingRequest : Eta pendingRequest := fun p =>
  mkPendingRequest (pr_addr p) (pr_raw p) (pr_result p) (pr_cancelled p).

(** [preqs] is the store of the request objects: the goroutine waiting in
    [SendWithPiggybacks] keeps its object after the table entry is gone. *)
Record Conn := mkConn {
  n3 : nat;
  seqVal : Z;
  pending : gmap transactionKey nat;
  preqs : gmap nat pendingRequest;
  inboundCache : gmap retransmitKey cachedResponse;
  inFlight : gset retransmitKey;
  handler_set : bool
}.
#[export] Instance eta_Conn : Eta Conn := fun c =>
  mkConn (n3 c) (seqVal c) (pending c) (preqs c) (inboundCache c) (inFlight c)
         (handler_set c).

Definition inboundCacheTTL : duration := 30 * Second.

(** [Listen] once the socket is open. *)
Definition Listen (n3 : nat) : Conn := mkConn n3 0 ∅ ∅ ∅ ∅ false.
Definition SetHandler (c : Conn) : Conn := c <| handler_set := true |>.

Inductive output :=
| WriteToUDP (addr : string) (raw : bytes)
| CallHandler (addr : string) (hdr : Header) (raw : bytes).

(** ** Sequence numbers *)

Definition AllocSeq (c : Conn) : Z * Conn :=
  let v := Z.land (u32 (seqVal c + 1)) 0xFFFFFF in (v, c <| seqVal := v |>).

(** ** Inbound duplicates *)

(** [(cached, inFlight)] as in the source: a live cache entry, or whether another
    goroutine holds the key; otherwise the key is marked for the caller. *)
Definition checkAndMarkInFlight (now : time) (key : retransmitKey) (c : Conn)
    : option bytes * bool * Conn :=
  let mark (c : Conn) :=
    if decide (key ∈ inFlight c) then (None, true, c)
    else (None, false, c <| inFlight := {[ key ]} ∪ inFlight c |>) in
  match inboundCache c !! key with
  | Some entry =>
      if negb (After now (cr_expires entry)) then (Some (cr_raw entry), false, c)
      else mark (c <| inboundCache := delete key (inboundCache c) |>)
  | None => mark c
  end.

Definition clearInFlight (key : retransmitKey) (c : Conn) : Conn :=
  c <| inFlight := inFlight c ∖ {[ key ]} |>.

Definition storeInboundCache (now : time) (key : retransmitKey) (resp : bytes) (c : Conn)
    : Conn :=
  let live := filter (fun kv => After now (cr_expires kv.2) = false) (inboundCache c) in
  c <| inboundCache :=
         <[key := mkCachedResponse (copy_into (length resp) resp)
                    (Add now inboundCacheTTL)]> live |>.

Definition matches_response (addr : string) (seq reqType : Z) (key : retransmitKey) : bool :=
  bool_decide (rk_addr key = addr) && (rk_seq key =? seq) && (rk_msgType key =? reqType).

(** [order] is the order in which the range over [c.inFlight] visits its keys. *)
Definition inFlightRetransmitKeyForResponse (order : list retransmitKey) (addr : string)
    (h : Header) : retransmitKey :=
  match RequestTypeForResponse (MessageType h) with
  | None => mkRetransmitKey addr (SequenceNumber h) (MessageType h) (TEID h)
  | Some reqType =>
      match head (filter (fun k => matches_response addr (SequenceNumber h) reqType k = true)
                    order) with
      | Some key => key
      | None => mkRetransmitKey addr (SequenceNumber h) reqType 0
      end
  end.

(** [Reply] once the write succeeded. *)
Definition Reply (now : time) (order : list retransmitKey) (addr : string) (raw : bytes)
    (c : Conn) : list output * Conn :=
  ([WriteToUDP addr raw],
   match ParseHeader raw with
   | Ok (h, _) =>
       storeInboundCache now (inFlightRetransmitKeyForResponse order addr h) raw c
   | Err _ => c
   end).

(** ** Outbound transactions *)

Definition isResponseType (msgType : Z) : bool :=
  (msgType =? MsgTypeEchoResponse) || (msgType =? MsgTypeVersionNotSupported)
  || (msgType =? MsgTypeCreateSessionResponse) || (msgType =? MsgTypeModifyBearerResponse)
  || (msgType =? MsgTypeDeleteSessionResponse) || (msgType =? MsgTypeCreateBearerResponse)
  || (msgType =? MsgTypeUpdateBearerResponse) || (msgType =? MsgTypeDeleteBearerResponse)
  || (msgType =? MsgTypeReleaseAccessBearersResponse).

Definition deliverResponse (addr : string) (msgType seq : Z) (raw : bytes)
    (piggybacks : list Frame) (c : Conn) : bool * Conn :=
  let key := mkTransactionKey addr seq msgType in
  match pending c !! key with
  | None => (false, c)
  | Some id =>
      let send pr := pr <| pr_result := pr_result pr ++ [mkPendingResult raw piggybacks] |>
                        <| pr_cancelled := true |> in
      (true, c <| pending := delete key (pending c) |>
               <| preqs := alter send id (preqs c) |>)
  end.

Definition deliverPendingResponseFrame (addr : string) (frame : Frame)
    (piggybacks : list Frame) (c : Conn) : bool * Conn :=
  let h := Frame_Header frame in
  match ValidateTFlag h with
  | Err _ => (true, c)
  | Ok _ =>
      if negb (isResponseType (MessageType h)) then (false, c)
      else deliverResponse addr (MessageType h) (SequenceNumber h) (Frame_Raw frame)
             piggybacks c
  end.

Inductive SendError :=
| SendBadHeader (e : MsgError)
| SendNoResponseType (typ : Z)
| SendDuplicate (key : transactionKey)
| SendWriteError
| SendCancelled (ctxErr : string)
| SendNoResponse (attempts : nat) (seq : Z).

(** The registration half of [SendWithPiggybacks]: [id] is the address of the
    freshly allocated request object. *)
Definition Send_register (id : nat) (addr : string) (raw : bytes) (c : Conn)
    : result SendError (transactionKey * Conn) :=
  match ParseHeader raw with
  | Err e => Err (SendBadHeader e)
  | Ok (h, _) =>
      match ResponseTypeFor (MessageType h) with
      | None => Err (SendNoResponseType (MessageType h))
      | Some respType =>
          let key := mkTransactionKey addr (SequenceNumber h) respType in
          match pending c !! key with
          | Some _ => Err (SendDuplicate key)
          | None =>
              Ok (key, c <| pending := <[key := id]> (pending c) |>
                         <| preqs := <[id := mkPendingRequest addr raw [] false]>
                                       (preqs c) |>)
          end
      end
  end.

(** The deferred cleanup: it deletes whatever the key maps to. *)
Definition Send_cleanup (key : transactionKey) (c : Conn) : Conn :=
  c <| pending := delete key (pending c) |>.

(** One attempt of the send loop: the write fails, or one of the cases of its select
    is taken.  The loop waits on [tCtx], a child of the caller's context, but returns
    the caller's [ctx.Err()], which is nil ([None]) while the caller's context is
    live. *)
Inductive attempt :=
| WriteFails
| Responds (r : pendingResult)
| ContextDone (ctxErr : option string)
| T3Expires.

Definition empty_result : pendingResult := mkPendingResult [] [].

(** The T3/N3 loop: [n] attempts are left; the script lists how they end, an
    exhausted script standing for timer expiries.  The result pairs the returned
    response ([Ok] when the returned error is nil). *)
Fixpoint Send_loop (n : nat) (n3 : nat) (seq : Z) (addr : string) (raw : bytes)
    (script : list attempt) : list output * result SendError pendingResult :=
  match n with
  | O => ([], Err (SendNoResponse n3 seq))
  | S n =>
      match script with
      | WriteFails :: _ => ([], Err SendWriteError)
      | Responds r :: _ => ([WriteToUDP addr raw], Ok r)
      | ContextDone (Some e) :: _ => ([WriteToUDP addr raw], Err (SendCancelled e))
      | ContextDone None :: _ => ([WriteToUDP addr raw], Ok empty_result)
      | T3Expires :: script' =>
          let '(out, r) := Send_loop n n3 seq addr raw script' in
          (WriteToUDP addr raw :: out, r)
      | [] =>
          let '(out, r) := Send_loop n n3 seq addr raw [] in
          (WriteToUDP addr raw :: out, r)
      end
  end.

(** The cases of the select that can be taken: Go picks any ready one.  The timer
    case is left out, it depends on the clock only. *)
Definition select_ready (ctxErr : option string) (pr : pendingRequest) : list attempt :=
  (Responds <$> take 1 (pr_result pr))
  ++ (if pr_cancelled pr || bool_decide (is_Some ctxErr) then [ContextDone ctxErr] else []).

(** ** Dispatch of a datagram

    [run] is the registered handler, called synchronously by the dispatching
    goroutine; [now k] is the clock at the [k]-th frame. *)

Section Dispatch.
Variable run : string -> Header -> bytes -> Conn -> list output * Conn.

Definition frame_key (addr : string) (h : Header) : retransmitKey :=
  mkRetransmitKey addr (SequenceNumber h) (MessageType h) (TEID h).

Definition processFrame (now : time) (addr : string) (frame : Frame)
    (allowPendingResponse : bool) (c : Conn) : list output * Conn :=
  let h := Frame_Header frame in
  match ValidateTFlag h with
  | Err _ => ([], c)
  | Ok _ =>
      let '(delivered, c) :=
        if allowPendingResponse && isResponseType (MessageType h)
        then deliverResponse addr (MessageType h) (SequenceNumber h) (Frame_Raw frame) [] c
        else (false, c) in
      if (delivered : bool) then ([], c)
      else
        let key := frame_key addr h in
        match checkAndMarkInFlight now key c with
        | (Some cached, _, c) => ([WriteToUDP addr cached], c)
        | (None, true, c) => ([], c)
        | (None, false, c) =>
            if handler_set c then
              let '(out, c) := run addr h (Frame_Raw frame) c in
              (CallHandler addr h (Frame_Raw frame) :: out, clearInFlight key c)
            else ([], clearInFlight key c)
        end
  end.

Fixpoint processFrames (now : nat -> time) (k : nat) (addr : string) (frames : list Frame)
    (c : Conn) : list output * Conn :=
  match frames with
  | [] => ([], c)
  | f :: fs =>
      let '(out1, c) := processFrame (now k) addr f false c in
      let '(out2, c) := processFrames now (S k) addr fs c in
      (out1 ++ out2, c)
  end.

Definition DispatchFrames := fun now => processFrames now 0.

Definition dispatch (now : nat -> time) (addr : string) (raw : bytes) (c : Conn)
    : list output * Conn :=
  match SplitFrames raw with
  | Err (ErrVersionNotSupported _) =>
      ([WriteToUDP addr (MarshalVersionNotSupportedIndication 0)], c)
  | Err (ErrInvalidLength h) =>
      match MarshalInvalidLengthResponse h 0 with
      | Ok resp => ([WriteToUDP addr resp], c)
      | Err _ => ([], c)
      end
  | Err _ => ([], c)
  | Ok [] => ([], c)
  | Ok (f :: fs) =>
      match deliverPendingResponseFrame addr f fs c with
      | (true, c) => ([], c)
      | (false, c) => processFrames now 0 addr (f :: fs) c
      end
  end.
End Dispatch.

(** ** Interleaving of the dispatching goroutines

    [running] lists the keys for which a handler is executing.  Arrivals, replies
    and handler returns are the critical sections above, each at its own time. *)

Record world := mkWorld { conn : Conn; running : list retransmitKey }.

Inductive event :=
| Arrive (key : retransmitKey)
| Replies (order : list retransmitKey) (addr : string) (raw : bytes)
| Returns (key : retransmitKey).

Inductive reaction := Resent (raw : bytes) | Dropped | Started | Silent.

Inductive wstep : world -> time -> event -> reaction -> world -> Prop :=
| step_cached w now key raw fl c :
    checkAndMarkInFlight now key (conn w) = (Some raw, fl, c) ->
    wstep w now (Arrive key) (Resent raw) (mkWorld c (running w))
| step_duplicate w now key c :
    checkAndMarkInFlight now key (conn w) = (None, true, c) ->
    wstep w now (Arrive key) Dropped (mkWorld c (running w))
| step_start w now key c :
    checkAndMarkInFlight now key (conn w) = (None, false, c) ->
    wstep w now (Arrive key) Started (mkWorld c (key :: running w))
| step_reply w now order addr raw :
    Permutation order (elements (inFlight (conn w))) ->
    wstep w now (Replies order addr raw) Silent
          (mkWorld (Reply now order addr raw (conn w)).2 (running w))
| step_return w now key rest :
    Permutation (running w) (key :: rest) ->
    wstep w now (Returns key) Silent (mkWorld (clearInFlight key (conn w)) rest).

(** A run: times never decrease. *)
Inductive wrun : world -> time -> list (time * event * reaction) -> world -> Prop :=
| wrun_nil w t : wrun w t [] w
| wrun_cons w t now e r w' tr w'' :
    t <= now -> wstep w now e r w' -> wrun w' now tr w'' ->
    wrun w t ((now, e, r) :: tr) w''.

(** The life of the pending table: registrations with freshly allocated request
    objects, deliveries and the deferred cleanups, in any order. *)
Inductive txop :=
| TxRegister (id : nat) (addr : string) (raw : bytes)
| TxDeliver (addr : string) (msgType seq : Z) (raw : bytes) (piggybacks : list Frame)
| TxCleanup (key : transactionKey).

Definition tx_step (op : txop) (c : Conn) : Conn :=
  match op with
  | TxRegister id addr raw =>
      if decide (is_Some (preqs c !! id)) then c
      else match Send_register id addr raw c with Ok (_, c') => c' | Err _ => c end
  | TxDeliver addr msgType seq raw piggybacks =>
      (deliverResponse addr msgType seq raw piggybacks c).2
  | TxCleanup key => Send_cleanup key c
  end.

Definition tx_run (ops : list txop) (c : Conn) : Conn := fold_left (fun c op => tx_step op c) ops c.

(** [k] successive allocations. *)
Fixpoint alloc_seqs (k : nat) (c : Conn) : list Z :=
  match k with
  | O => []
  | S k => let '(v, c) := AllocSeq c in v :: alloc_seqs k c
  end.

(** ** Lemmas *)

(** *** The in-flight set *)

Lemma checkAndMark_start now key c c' :
  checkAndMarkInFlight now key c = (None, false, c') ->
  key ∉ inFlight c /\ inFlight c' = {[ key ]} ∪ inFlight c.
Proof.
  unfold checkAndMarkInFlight. intros H.
  destruct (inboundCache c !! key); [destruct (negb _); [discriminate|]|]; cbn in H;
    destruct (decide _); simplify_eq; cbn; done.
Qed.

Lemma checkAndMark_other now key c r fl c' :
  checkAndMarkInFlight now key c = (r, fl, c') -> (is_Some r \/ fl = true) ->
  inFlight c' = inFlight c.
Proof.
  unfold checkAndMarkInFlight. intros H Hr.
  destruct (inboundCache c !! key); [destruct (negb _); [by simplify_eq|]|]; cbn in H;
    destruct (decide _); simplify_eq; cbn; try done; by destruct Hr as [[]|].
Qed.

Lemma Reply_inFlight now order addr raw c : inFlight (Reply now order addr raw c).2 = inFlight c.
Proof. unfold Reply. by destruct (ParseHeader raw) as [[]|]. Qed.

Definition exclusive (w : world) : Prop :=
  NoDup (running w) /\ forall k, k ∈ running w <-> k ∈ inFlight (conn w).

Lemma wstep_exclusive w now e r w' : wstep w now e r w' -> exclusive w -> exclusive w'.
Proof.
  intros H [Hnd Hin]. inversion H; subst; unfold exclusive; cbn [running conn].
  - erewrite (checkAndMark_other _ _ (conn w)) by eauto. done.
  - erewrite (checkAndMark_other _ _ (conn w)) by eauto. done.
  - destruct (checkAndMark_start _ _ _ _ H0) as [Hk ->]. split.
    + constructor; [|done]. by rewrite Hin.
    + intros k. rewrite elem_of_cons, Hin. set_solver.
  - rewrite Reply_inFlight. done.
  - rewrite H0 in Hnd. apply NoDup_cons in Hnd as [Hk Hnd]. split; [done|].
    intros k. specialize (Hin k). rewrite H0 in Hin. cbn. destruct (decide (k = key)) as [->|].
    + set_solver.
    + set_solver.
Qed.

Lemma wrun_exclusive w t tr w' : wrun w t tr w' -> exclusive w -> exclusive w'.
Proof. induction 1; eauto using wstep_exclusive. Qed.

(** *** The response cache *)

Definition cached_until (k : retransmitKey) (until : time) (c : Conn) : Prop :=
  exists entry, inboundCache c !! k = Some entry /\ until <= cr_expires entry.

Lemma storeInboundCache_keeps now key resp k until c :
  now <= until -> cached_until k until c ->
  until <= Add now inboundCacheTTL -> cached_until k until (storeInboundCache now key resp c).
Proof.
  intros Hn (e & He & Hu) Ht. unfold storeInboundCache, cached_until. cbn.
  destruct (decide (key = k)) as [->|Hne].
  - rewrite lookup_insert_eq. eauto.
  - rewrite lookup_insert_ne by done. exists e. split; [|done].
    apply map_lookup_filter_Some. split; [done|]. cbn. unfold After. lia.
Qed.

Lemma checkAndMark_cached now key k until c :
  now <= until -> cached_until k until c ->
  cached_until k until (checkAndMarkInFlight now key c).2 /\
  (key = k -> exists raw, (checkAndMarkInFlight now key c).1 = (Some raw, false)).
Proof.
  intros Hn (e & He & Hu). unfold checkAndMarkInFlight, cached_until.
  destruct (decide (key = k)) as [->|Hne].
  - rewrite He. unfold After. rewrite (proj2 (Z.ltb_ge _ _)) by lia. cbn. eauto.
  - split; [|done].
    destruct (inboundCache c !! key); [destruct (negb _)|]; [by eauto|..]; cbn;
      destruct (decide _); cbn; rewrite ?lookup_delete_ne by done; eauto.
Qed.

Lemma wstep_cached w now e r w' k until :
  wstep w now e r w' -> now <= until -> until <= Add now inboundCacheTTL ->
  cached_until k until (conn w) ->
  cached_until k until (conn w') /\ (e = Arrive k -> exists raw, r = Resent raw).
Proof.
  intros H Hn Ht Hc. inversion H; subst; cbn [conn].
  1-3: destruct (checkAndMark_cached now key k until (conn w) Hn Hc) as [Hk Hr];
    rewrite H0 in Hk, Hr; cbn in Hk, Hr; split; [done|]; intros [= <-];
    destruct (Hr eq_refl); simplify_eq; eauto.
  - split; [|done]. unfold Reply. destruct (ParseHeader raw) as [[h x]|]; cbn; [|done].
    by apply storeInboundCache_keeps.
  - split; [|done]. exact Hc.
Qed.

Lemma wrun_cached w t tr w' k until :
  wrun w t tr w' -> until <= Add t inboundCacheTTL -> cached_until k until (conn w) ->
  forall now r, (now, Arrive k, r) ∈ tr -> now <= until -> exists raw, r = Resent raw.
Proof.
  unfold Add. induction 1 as [|w t now0 e r0 w1 tr w2 Ht Hs Hr IH]; intros Hu Hc now r Hin Hn.
  - by apply not_elem_of_nil in Hin.
  - destruct (decide (now0 <= until)) as [Hle|Hgt].
    + destruct (wstep_cached _ _ _ _ _ k until Hs Hle ltac:(unfold Add; lia) Hc) as [Hc' Hres].
      apply elem_of_cons in Hin as [Hin|Hin].
      * injection Hin as -> <- ->. by apply Hres.
      * eapply IH; eauto. lia.
    + exfalso. apply elem_of_cons in Hin as [Hin|Hin]; [injection Hin as -> <- ->; lia|].
      enough (now0 <= now) by lia. clear -Hr Hin.
      revert Hin. induction Hr as [|???????? Hle ??]; intros Hin; [by apply not_elem_of_nil in Hin|].
      apply elem_of_cons in Hin as [Hin|Hin]; [injection Hin as -> <- ->; lia|]. specialize (IHHr Hin). lia.
Qed.

(** The unique in-flight request a response can belong to. *)
Definition awaited (k : retransmitKey) (addr : string) (h : Header) (c : Conn) : Prop :=
  k ∈ inFlight c /\ rk_addr k = addr /\ rk_seq k = SequenceNumber h /\
  RequestTypeForResponse (MessageType h) = Some (rk_msgType k) /\
  forall k', k' ∈ inFlight c -> rk_addr k' = addr -> rk_seq k' = SequenceNumber h ->
             rk_msgType k' = rk_msgType k -> k' = k.

Lemma matches_response_spec addr seq t k :
  matches_response addr seq t k = true <->
  rk_addr k = addr /\ rk_seq k = seq /\ rk_msgType k = t.
Proof.
  unfold matches_response. rewrite !andb_true_iff, bool_decide_eq_true, !Z.eqb_eq. tauto.
Qed.

Lemma inFlightKey_awaited order addr h c k :
  Permutation order (elements (inFlight c)) -> awaited k addr h c ->
  inFlightRetransmitKeyForResponse order addr h = k.
Proof.
  intros Hp (Hk & Ha & Hs & Ht & Hu). unfold inFlightRetransmitKeyForResponse. rewrite Ht.
  assert (Hin : forall k', k' ∈ order <-> k' ∈ inFlight c)
    by (intros; rewrite Hp; apply elem_of_elements).
  set (P := fun k0 => matches_response addr (SequenceNumber h) (rk_msgType k) k0 = true).
  assert (k ∈ filter P order) as Hf
    by (apply list_elem_of_filter; split; [by apply matches_response_spec|by apply Hin]).
  destruct (filter P order) as [|k1 rest] eqn:E; [by apply not_elem_of_nil in Hf|]. cbn.
  assert (k1 ∈ filter P order) as H1 by (rewrite E; left).
  apply list_elem_of_filter in H1 as [H1 H2]. apply matches_response_spec in H1 as (?&?&?).
  apply Hu; [by apply Hin|..]; done.
Qed.

(** *** The pending table *)

(** Every pending entry awaits, on an empty channel, the address it was sent to, and
    no request object is registered twice; a channel never holds two results. *)
Record tx_inv (c : Conn) : Prop := mkTxInv {
  txi_pending : forall key id, pending c !! key = Some id ->
    exists pr, preqs c !! id = Some pr /\ pr_addr pr = tk_addr key /\ pr_result pr = [];
  txi_inj : forall k1 k2 id, pending c !! k1 = Some id -> pending c !! k2 = Some id -> k1 = k2;
  txi_single : forall id pr, preqs c !! id = Some pr -> (length (pr_result pr) <= 1)%nat
}.

Lemma deliverResponse_inv addr typ seq raw pb c :
  tx_inv c -> tx_inv (deliverResponse addr typ seq raw pb c).2.
Proof.
  intros [Hp Hi Hs]. unfold deliverResponse.
  destruct (pending c !! _) as [id|] eqn:E; [|by split].
  destruct (Hp _ _ E) as (pr0 & Hpr0 & Ha0 & Hr0).
  cbn [snd]; split; cbn.
  - intros key id' Hk. apply lookup_delete_Some in Hk as [Hne Hk].
    destruct (Hp _ _ Hk) as (pr & ? & ? & ?). exists pr. split; [|done].
    rewrite lookup_alter_ne; [done|]. intros <-. by apply Hne, Hi with id.
  - intros k1 k2 id' H1 H2. apply lookup_delete_Some in H1 as [_ H1], H2 as [_ H2]. eauto.
  - intros id' pr H. apply lookup_alter_Some in H as [(-> & pr1 & H1 & ->)|[_ H]]; [|eauto].
    simplify_eq. cbn. rewrite Hr0. cbn. lia.
Qed.

Lemma Send_register_Ok id addr raw c key c' :
  Send_register id addr raw c = Ok (key, c') ->
  tk_addr key = addr /\ pending c !! key = None /\
  c' = c <| pending := <[key := id]> (pending c) |>
         <| preqs := <[id := mkPendingRequest addr raw [] false]> (preqs c) |>.
Proof.
  unfold Send_register. destruct (ParseHeader raw) as [[h x]|]; [|done].
  destruct (ResponseTypeFor _); [|done]. destruct (pending c !! _) eqn:E; [done|].
  intros [= <- <-]. done.
Qed.

Lemma Send_register_inv id addr raw c key c' :
  preqs c !! id = None -> Send_register id addr raw c = Ok (key, c') -> tx_inv c -> tx_inv c'.
Proof.
  intros Hid H [Hp Hi Hs]. apply Send_register_Ok in H as (Ha & Hn & ->).
  assert (forall k, pending c !! k <> Some id) as Hfresh.
  { intros k Hk. destruct (Hp _ _ Hk) as (? & ? & _). congruence. }
  split; cbn.
  - intros k id' Hk. apply lookup_insert_Some in Hk as [[<- <-]|[Hne Hk]].
    + rewrite lookup_insert_eq. eauto.
    + destruct (Hp _ _ Hk) as (pr & ? & ? & ?). exists pr. split; [|done].
      rewrite lookup_insert_ne; [done|]. intros ->. by destruct (Hfresh k).
  - intros k1 k2 id' H1 H2.
    apply lookup_insert_Some in H1 as [[<- <-]|[? H1]], H2 as [[<- H2]|[? H2]]; try done.
    + by destruct (Hfresh k2).
    + subst id'. by destruct (Hfresh k1).
    + eauto.
  - intros id' pr H. apply lookup_insert_Some in H as [[_ <-]|[_ H]]; [cbn; lia|eauto].
Qed.

Lemma tx_step_inv op c : tx_inv c -> tx_inv (tx_step op c).
Proof.
  intros H. destruct op as [id addr raw|addr typ seq raw pb|key]; cbn.
  - destruct (decide _) as [|Hid]; [done|]. apply eq_None_not_Some in Hid.
    destruct (Send_register _ _ _ _) as [[k c']|] eqn:E; [|done]. eauto using Send_register_inv.
  - by apply deliverResponse_inv.
  - destruct H as [Hp Hi Hs]. split; cbn; [| |exact Hs].
    + intros k id Hk. apply lookup_delete_Some in Hk as [_ Hk]. eauto.
    + intros k1 k2 id H1 H2. apply lookup_delete_Some in H1 as [_ H1], H2 as [_ H2]. eauto.
Qed.

Lemma tx_run_inv ops c : tx_inv c -> tx_inv (tx_run ops c).
Proof. unfold tx_run. revert c. induction ops; cbn; auto using tx_step_inv. Qed.

Lemma Listen_tx_inv n : tx_inv (Listen n).
Proof. split; cbn; intros *; by rewrite lookup_empty. Qed.

Lemma Send_loop_spec n n3 seq addr raw script :
  let '(out, r) := Send_loop n n3 seq addr raw script in
  (exists k, (k <= n)%nat /\ out = replicate k (WriteToUDP addr raw)) /\
  (forall m s, r = Err (SendNoResponse m s) ->
     out = replicate n (WriteToUDP addr raw) /\ m = n3 /\ s = seq).
Proof.
  revert script. induction n as [|n IH]; intros script; cbn [Send_loop].
  - split; [by exists O|]. by intros m s [= <- <-].
  - assert (Hone : exists k, (k <= S n)%nat /\
              [WriteToUDP addr raw] = replicate k (WriteToUDP addr raw)) by (exists 1%nat; split; [lia|done]).
    assert (Hzero : exists k, (k <= S n)%nat /\ [] = replicate k (WriteToUDP addr raw))
      by (exists O; split; [lia|done]).
    assert (Hrec : forall sc, let '(out, r) := Send_loop n n3 seq addr raw sc in
       (exists k, (k <= S n)%nat /\ WriteToUDP addr raw :: out = replicate k (WriteToUDP addr raw)) /\
       (forall m s, r = Err (SendNoResponse m s) ->
          WriteToUDP addr raw :: out = replicate (S n) (WriteToUDP addr raw) /\ m = n3 /\ s = seq)).
    { intros sc. specialize (IH sc). destruct (Send_loop n n3 seq addr raw sc) as [out r].
      destruct IH as [(k & Hk & ->) IH]. split; [exists (S k); split; [lia|done]|].
      intros m s E. destruct (IH m s E) as (-> & -> & ->). done. }
    destruct script as [|[|r|[e|]|] script].
    + specialize (Hrec []). by destruct (Send_loop n n3 seq addr raw []).
    + split; [done|]. by intros.
    + split; [done|]. by intros.
    + split; [done|]. by intros.
    + split; [done|]. by intros.
    + specialize (Hrec script). by destruct (Send_loop n n3 seq addr raw script).
Qed.

Lemma AllocSeq_spec c :
  AllocSeq c = ((seqVal c + 1) mod 2 ^ 24,
                c <| seqVal := (seqVal c + 1) mod 2 ^ 24 |>).
Proof.
  unfold AllocSeq. change 0xFFFFFF with (Z.ones 24). rewrite Z.land_ones by lia.
  unfold uN. replace ((seqVal c + 1) mod 2 ^ 32 mod 2 ^ 24) with ((seqVal c + 1) mod 2 ^ 24); [done|].
  change (2 ^ 32) with (2 ^ 24 * 2 ^ 8). rewrite Z.rem_mul_r by lia.
  rewrite Z.mul_comm, Z.mod_add by lia. by rewrite Z.mod_mod by lia.
Qed.

Lemma alloc_seqs_nth k : forall c i, (i < k)%nat ->
  alloc_seqs k c !! i = Some ((seqVal c + 1 + Z.of_nat i) mod 2 ^ 24).
Proof.
  induction k as [|k IH]; intros c i Hi; [lia|]. cbn [alloc_seqs]. rewrite AllocSeq_spec.
  destruct i as [|i]; cbn.
  - f_equal. f_equal. lia.
  - rewrite IH by lia. f_equal. cbn -[Z.of_nat].
    rewrite <- Z.add_assoc, Zplus_mod_idemp_l. f_equal. lia.
Qed.

Lemma alloc_seqs_length k c : length (alloc_seqs k c) = k.
Proof.
  revert c. induction k; intros c; [done|]. cbn [alloc_seqs]. destruct (AllocSeq c). cbn. by rewrite IHk.
Qed.

(** ** Properties *)

(** C19: However arrivals, duplicates, replies and handler returns interleave on a
    socket, no two handlers ever execute for the same inbound request: the running
    handlers have distinct keys, and they are exactly the in-flight set. *)
Theorem handlers_exclusive n t tr w :
  wrun (mkWorld (Listen n) []) t tr w ->
  NoDup (running w) /\ forall k, k ∈ running w <-> k ∈ inFlight (conn w).
Proof.
  intros H. apply (wrun_exclusive _ _ _ _ H). split; [constructor|]. cbn. set_solver.
Qed.

Definition example_key : retransmitKey := mkRetransmitKey "10.0.0.1:2123" 7 MsgTypeCreateSessionRequest 0.
Definition example_marked : Conn := (checkAndMarkInFlight 100 example_key (Listen 3)).2.

Lemma handlers_exclusive_witness :
  let w := mkWorld example_marked [example_key] in
  NoDup (running w) /\ forall k, k ∈ running w <-> k ∈ inFlight (conn w).
Proof.
  apply (handlers_exclusive 3 0
    [(100, Arrive example_key, Started); (101, Arrive example_key, Dropped)]).
  eapply wrun_cons; [lia|by apply step_start with (c := example_marked)|].
  eapply wrun_cons; [lia|by apply step_duplicate with (c := example_marked)|constructor].
Defined.

(** After a handler replied to the one in-flight request its response can belong
    to, every retransmission of that request within the cache lifetime is answered
    from the cache and never reaches the handler again, whatever else happens on the
    socket and whatever the order in which the in-flight map is visited. *)
Lemma reply_suppresses_retransmissions w t order addr raw h x k tr w' :
  ParseHeader raw = Ok (h, x) -> awaited k addr h (conn w) ->
  Permutation order (elements (inFlight (conn w))) ->
  wrun (mkWorld (Reply t order addr raw (conn w)).2 (running w)) t tr w' ->
  inboundCache (Reply t order addr raw (conn w)).2 !! k
    = Some (mkCachedResponse raw (t + inboundCacheTTL)) /\
  forall now r, (now, Arrive k, r) ∈ tr -> now <= t + inboundCacheTTL ->
    exists resp, r = Resent resp.
Proof.
  intros Hh Hk Hp Hrun.
  assert (Hc : inboundCache (Reply t order addr raw (conn w)).2 !! k
                 = Some (mkCachedResponse raw (t + inboundCacheTTL))).
  { unfold Reply. rewrite Hh. cbn. erewrite inFlightKey_awaited by eauto.
    rewrite lookup_insert_eq, copy_into_length by done. done. }
  split; [done|]. apply (wrun_cached _ _ _ _ k _ Hrun); [unfold Add; lia|].
  cbn. eexists. split; [exact Hc|]. cbn. lia.
Qed.

Definition example_response : bytes := [0x48; 33; 0; 8; 0; 0; 0; 9; 0; 0; 7; 0].

Definition example_replied : Conn :=
  (Reply 200 [example_key] "10.0.0.1:2123" example_response example_marked).2.

Lemma example_inFlight : inFlight example_marked = {[ example_key ]}.
Proof. by_compute. Qed.

Lemma example_header :
  exists h x, ParseHeader example_response = Ok (h, x) /\
    awaited example_key "10.0.0.1:2123" h example_marked.
Proof.
  eexists _, _. split; [by vm_compute|]. unfold awaited. rewrite example_inFlight.
  split; [by apply elem_of_singleton|]. split; [done|]. split; [done|]. split; [done|].
  intros k' Hk' _ _ _. by apply elem_of_singleton in Hk'.
Qed.

Lemma example_order : Permutation [example_key] (elements (inFlight example_marked)).
Proof. by rewrite example_inFlight, elements_singleton. Qed.

Lemma example_cached : inboundCache example_replied !! example_key
  = Some (mkCachedResponse example_response (200 + inboundCacheTTL)).
Proof. by vm_compute. Qed.

Lemma example_recheck :
  checkAndMarkInFlight 300 example_key example_replied
  = (Some example_response, false, example_replied).
Proof. unfold checkAndMarkInFlight. by rewrite example_cached. Qed.

Lemma example_retransmission :
  wrun (mkWorld example_replied [example_key]) 200
    [(300, Arrive example_key, Resent example_response)] (mkWorld example_replied [example_key]).
Proof.
  refine (wrun_cons _ _ _ _ _ _ _ _ _ (step_cached (mkWorld example_replied [example_key])
    300 example_key _ _ _ example_recheck) (wrun_nil _ _)). lia.
Qed.


(** A response is delivered exactly when a request of the same peer, sequence
    number and awaited response type is pending; the delivery consumes the entry, so
    a second copy of it is not delivered; and the waiting send then has two ready
    cases, the response and its own cancelled child context, the second of which
    returns an empty response with a nil error. *)
Lemma deliverResponse_outcomes addr typ seq raw pb c :
  tx_inv c ->
  let key := mkTransactionKey addr seq typ in
  let '(ok, c') := deliverResponse addr typ seq raw pb c in
  (ok = true <-> is_Some (pending c !! key)) /\
  pending c' = delete key (pending c) /\
  (deliverResponse addr typ seq raw pb c').1 = false /\
  (forall id, pending c !! key = Some id -> exists pr,
     preqs c' !! id = Some pr /\
     select_ready None pr = [Responds (mkPendingResult raw pb); ContextDone None] /\
     forall n n3 req, Send_loop (S n) n3 seq addr req [ContextDone None]
       = ([WriteToUDP addr req], Ok empty_result)).
Proof.
  intros [Hp _ _] key. unfold deliverResponse. fold key.
  destruct (pending c !! key) as [id|] eqn:E; cbn.
  - rewrite lookup_delete_eq. destruct (Hp _ _ E) as (pr & Hpr & _ & Hr).
    split; [by split|]. split; [done|]. split; [done|]. intros id' [= <-].
    eexists. split; [by rewrite lookup_alter_eq, Hpr|]. unfold select_ready. cbn. rewrite Hr. done.
  - rewrite E. split; [split; [done|by intros []]|]. split; [by rewrite delete_id|]. by split.
Qed.

Definition example_request : bytes := [0x48; 32; 0; 8; 0; 0; 0; 0; 0; 0; 7; 0].
Definition example_pending : Conn :=
  tx_run [TxRegister 0 "10.0.0.2:2123" example_request] (Listen 3).

(** The retransmission loop writes the request at most N3 times and never anything
    else, and it gives up exactly after N3 transmissions. *)
Lemma Send_loop_bounded n seq addr raw script :
  let '(out, r) := Send_loop n n seq addr raw script in
  (exists k, (k <= n)%nat /\ out = replicate k (WriteToUDP addr raw)) /\
  (forall m s, r = Err (SendNoResponse m s) ->
     out = replicate n (WriteToUDP addr raw) /\ m = n /\ s = seq).
Proof. apply Send_loop_spec. Qed.

(** Sequence numbers are 24-bit, increase by one modulo 2^24 and do not repeat
    within 2^24 allocations. *)
Lemma AllocSeq_no_repeat k c :
  Z.of_nat k <= 2 ^ 24 ->
  NoDup (alloc_seqs k c) /\ Forall (fun v => 0 <= v < 2 ^ 24) (alloc_seqs k c).
Proof.
  intros Hk. split.
  - apply NoDup_alt. intros i j v Hi Hj.
    pose proof (lookup_lt_Some _ _ _ Hi) as Li. pose proof (lookup_lt_Some _ _ _ Hj) as Lj.
    rewrite alloc_seqs_length in Li, Lj. rewrite alloc_seqs_nth in Hi, Hj by done.
    injection Hi as <-. injection Hj as Hj.
    set (a := seqVal c + 1) in *.
    pose proof (Z.div_mod (a + Z.of_nat i) (2 ^ 24) ltac:(lia)).
    pose proof (Z.div_mod (a + Z.of_nat j) (2 ^ 24) ltac:(lia)). lia.
  - apply Forall_lookup. intros i v Hi. pose proof (lookup_lt_Some _ _ _ Hi) as Li.
    rewrite alloc_seqs_length in Li. rewrite alloc_seqs_nth in Hi by done.
    injection Hi as <-. apply Z.mod_pos_bound. lia.
Qed.
