(* ===== verification/Collision.v ===== *)
(** * Procedure collision tracker ([internal/sgwc/collision/collision.go])

    Each session has a tracker of the GTPv2-C procedures running on it; a new one is
    admitted when the pair policy allows it next to every live one.  Modes, procedures,
    owners, actions and policies are strings in the source and stay strings here.  A
    nil [*Tracker] is [None]; the order in which Go ranges over the active map is an
    argument, a list of ids. *)

From S2P Require Import Prelude GoLib.

Open Scope string_scope.
Open Scope Z_scope.

(** ** Constants *)

Definition Minute : duration := 60 * Second.
Definition DefaultActiveProcedureTimeout : duration := 2 * Minute.

Definition ModeStrict := "strict".
Definition ModePermissive := "permissive".

Definition ProcedureCreateSession := "CREATE_SESSION".
Definition ProcedureModifyBearer := "MODIFY_BEARER".
Definition ProcedureDeleteSession := "DELETE_SESSION".
Definition ProcedureReleaseAccessBearers := "RELEASE_ACCESS_BEARERS".
Definition ProcedureCreateBearer := "CREATE_BEARER".
Definition ProcedureCreateBearerResponse := "CREATE_BEARER_RESPONSE".
Definition ProcedureUpdateBearer := "UPDATE_BEARER".
Definition ProcedureDeleteBearer := "DELETE_BEARER".

Definition OwnerMME := "mme".
Definition OwnerPGW := "pgw".
Definition OwnerSGW := "sgw".

Definition ActionAllow := "allow".
Definition ActionRejectNew := "reject_new".

Definition PolicyNone := "".
Definition PolicyAllowResponse := "allow_response".
Definition PolicySessionOverlap := "session_overlap".
Definition PolicyBearerOverlap := "bearer_overlap".
Definition PolicyBearerDisjoint := "bearer_disjoint".
Definition PolicyBearerUnknown := "bearer_unknown_scope".

(** ** Data *)

Record Request := mkRequest {
  rq_Procedure : string; rq_Owner : string; rq_Peer : string;
  rq_TEID : Z; rq_Seq : Z; rq_EBIs : list Z; rq_Reason : string
}.

Record ActiveProcedure := mkActiveProcedure {
  ap_ID : Z; ap_Procedure : string; ap_Owner : string; ap_Peer : string;
  ap_TEID : Z; ap_Seq : Z; ap_EBIs : list Z; ap_StartedAt : time; ap_UpdatedAt : time
}.

Definition no_procedure : ActiveProcedure :=
  mkActiveProcedure 0 "" "" "" 0 0 [] zero_time zero_time.

(** The source's [Decision] (a name stdpp takes for decidable propositions). *)
Record Verdict := mkVerdict {
  vd_Action : string; vd_Current : ActiveProcedure; vd_Reason : string; vd_Policy : string
}.

Definition allowed : Verdict := mkVerdict ActionAllow no_procedure "" PolicyNone.

Record Tracker := mkTracker {
  nextID : Z; timeout : duration; mode : string; active : gmap Z ActiveProcedure
}.
#[export] Instance eta_Tracker : Eta Tracker := fun t =>
  mkTracker (nextID t) (timeout t) (mode t) (active t).

(** ** Pair policy *)

Definition isBearerScoped (proc : string) : bool :=
  String.eqb proc ProcedureModifyBearer || String.eqb proc ProcedureCreateBearer
  || String.eqb proc ProcedureCreateBearerResponse || String.eqb proc ProcedureUpdateBearer
  || String.eqb proc ProcedureDeleteBearer.

Definition isSessionWide (proc : string) : bool :=
  String.eqb proc ProcedureCreateSession || String.eqb proc ProcedureDeleteSession
  || String.eqb proc ProcedureReleaseAccessBearers.

(** Keyed by the active procedure and the next one. *)
Definition procedurePairRules : gmap (string * string) string := list_to_map [
  ((ProcedureCreateBearer, ProcedureCreateBearerResponse), PolicyAllowResponse);
  ((ProcedureCreateBearerResponse, ProcedureCreateBearer), PolicyAllowResponse);
  ((ProcedureModifyBearer, ProcedureDeleteSession), PolicyNone);
  ((ProcedureCreateBearer, ProcedureDeleteSession), PolicyNone);
  ((ProcedureCreateBearerResponse, ProcedureDeleteSession), PolicyNone);
  ((ProcedureUpdateBearer, ProcedureDeleteSession), PolicyNone);
  ((ProcedureDeleteBearer, ProcedureDeleteSession), PolicyNone);
  ((ProcedureDeleteBearer, ProcedureReleaseAccessBearers), PolicyNone);
  ((ProcedureReleaseAccessBearers, ProcedureDeleteBearer), PolicyNone);
  ((ProcedureUpdateBearer, ProcedureReleaseAccessBearers), PolicyNone);
  ((ProcedureReleaseAccessBearers, ProcedureUpdateBearer), PolicyNone)].

Definition pairPolicy (active next : string) : string :=
  match procedurePairRules !! (active, next) with
  | Some policy => policy
  | None =>
      if isSessionWide active || isSessionWide next then PolicySessionOverlap
      else if isBearerScoped active && isBearerScoped next then PolicyBearerOverlap
      else PolicySessionOverlap
  end.

Definition overlapsEBI (a b : list Z) : bool :=
  existsb (fun x => existsb (fun y => x =? y) b) a.

Definition or_strict (mode : string) : string :=
  if String.eqb mode "" then ModeStrict else mode.

(** The source's [decide]. *)
Definition decide_pair (mode : string) (cur : ActiveProcedure) (req : Request) : Verdict :=
  let mode := or_strict mode in
  let names := ("active=" ++ ap_Procedure cur ++ " new=" ++ rq_Procedure req)%string in
  let policy := pairPolicy (ap_Procedure cur) (rq_Procedure req) in
  if String.eqb policy PolicyAllowResponse then
    mkVerdict ActionAllow no_procedure
      "matching bearer response is allowed while request is active" policy
  else if String.eqb policy PolicySessionOverlap then
    mkVerdict ActionRejectNew no_procedure
      ("session-wide procedure overlap: " ++ names)%string policy
  else if String.eqb policy PolicyBearerOverlap then
    if (length (ap_EBIs cur) =? 0)%nat || (length (rq_EBIs req) =? 0)%nat then
      if String.eqb mode ModePermissive then
        mkVerdict ActionAllow no_procedure
          "bearer procedure unknown EBI scope allowed by permissive mode" PolicyBearerUnknown
      else
        mkVerdict ActionRejectNew no_procedure
          ("bearer procedure overlap with unknown EBI scope: " ++ names)%string policy
    else if overlapsEBI (ap_EBIs cur) (rq_EBIs req) then
      mkVerdict ActionRejectNew no_procedure
        ("bearer procedure overlap: " ++ names)%string policy
    else
      mkVerdict ActionAllow no_procedure "bearer procedure EBIs are disjoint"
        PolicyBearerDisjoint
  else mkVerdict ActionAllow no_procedure "" PolicyNone.

(** ** Operations *)

Definition or_default (timeout : duration) : duration :=
  if timeout <=? 0 then DefaultActiveProcedureTimeout else timeout.

Definition NewTrackerWithTimeout (timeout : duration) : Tracker :=
  mkTracker 0 (or_default timeout) ModeStrict ∅.

Definition NewTracker : Tracker := NewTrackerWithTimeout DefaultActiveProcedureTimeout.

Definition Configure (mode' : string) (timeout' : duration) (t : option Tracker)
    : option Tracker :=
  match t with
  | None => None
  | Some t => Some (t <| mode := or_strict mode' |> <| timeout := or_default timeout' |>)
  end.

Definition expired (now : time) (t : Tracker) (p : ActiveProcedure) : bool :=
  timeout t <? Sub now (ap_UpdatedAt p).

Definition sweepExpiredLocked (now : time) (t : Tracker) : nat * Tracker :=
  (size (filter (fun kv => expired now t kv.2 = true) (active t)),
   t <| active := filter (fun kv => expired now t kv.2 = false) (active t) |>).

Definition SweepExpired (now : time) (t : option Tracker) : nat * option Tracker :=
  match t with
  | None => (0%nat, None)
  | Some t =>
      let '(n, t) := sweepExpiredLocked now (t <| timeout := or_default (timeout t) |>) in
      (n, Some t)
  end.

(** The loop of [Begin] over the active procedures: the first one that rejects. *)
Fixpoint first_conflict (mode : string) (procs : list ActiveProcedure) (req : Request)
    : option Verdict :=
  match procs with
  | [] => None
  | cur :: rest =>
      let decision := decide_pair mode cur req in
      if String.eqb (vd_Action decision) ActionAllow then first_conflict mode rest req
      else Some (mkVerdict (vd_Action decision) cur (vd_Reason decision) (vd_Policy decision))
  end.

(** The state [Begin] works on: defaults restored, expired procedures dropped. *)
Definition refreshed (now : time) (t : Tracker) : Tracker :=
  (sweepExpiredLocked now (t <| timeout := or_default (timeout t) |>
                             <| mode := or_strict (mode t) |>)).2.

Definition Begin (now : time) (order : list Z) (req : Request) (t : option Tracker)
    : ActiveProcedure * Verdict * option Tracker :=
  match t with
  | None => (no_procedure, allowed, None)
  | Some t =>
      let t := refreshed now t in
      match first_conflict (mode t) (omap (fun id => active t !! id) order) req with
      | Some v => (no_procedure, v, Some t)
      | None =>
          let id := u64 (nextID t + 1) in
          let proc := mkActiveProcedure id (rq_Procedure req) (rq_Owner req) (rq_Peer req)
                        (rq_TEID req) (rq_Seq req) (rq_EBIs req) now now in
          (proc, allowed,
           Some (t <| nextID := id |> <| active := <[id := proc]> (active t) |>))
      end
  end.

Definition Finish (proc : ActiveProcedure) (t : option Tracker) : option Tracker :=
  match t with
  | None => None
  | Some t =>
      if ap_ID proc =? 0 then Some t
      else Some (t <| active := delete (ap_ID proc) (active t) |>)
  end.

Definition Active (order : list Z) (t : option Tracker) : list ActiveProcedure :=
  match t with None => [] | Some t => omap (fun id => active t !! id) order end.

(** Steps of a tracker whose configured modes are all [m] or stricter. *)
Inductive tstep (m : string) : Tracker -> Tracker -> Prop :=
| ts_begin t now order req proc v t' :
    Permutation order (elements (dom (active (refreshed now t)))) ->
    Begin now order req (Some t) = (proc, v, Some t') -> tstep m t t'
| ts_configure t mode' timeout' t' :
    (m = ModePermissive \/ mode' <> ModePermissive) ->
    Configure mode' timeout' (Some t) = Some t' -> tstep m t t'
| ts_finish t proc t' : Finish proc (Some t) = Some t' -> tstep m t t'
| ts_sweep t now n t' : SweepExpired now (Some t) = (n, Some t') -> tstep m t t'.

(** ** Lemmas *)

Lemma decide_pair_action mode p req :
  vd_Action (decide_pair mode p req) = ActionAllow \/
  vd_Action (decide_pair mode p req) = ActionRejectNew.
Proof. unfold decide_pair. repeat case_match; auto. Qed.

(** Only the permissive mode is special, and it allows more. *)
Lemma decide_pair_strict mode p req :
  mode <> ModePermissive -> decide_pair mode p req = decide_pair ModeStrict p req.
Proof.
  intros H. unfold decide_pair. replace (String.eqb (or_strict mode) ModePermissive)
    with (String.eqb (or_strict ModeStrict) ModePermissive); [done|].
  unfold or_strict. destruct (String.eqb_spec mode ""); [done|].
  symmetry. by apply String.eqb_neq.
Qed.

Lemma decide_pair_permissive mode p req :
  vd_Action (decide_pair mode p req) = ActionAllow ->
  vd_Action (decide_pair ModePermissive p req) = ActionAllow.
Proof. unfold decide_pair. cbn [or_strict String.eqb]. repeat case_match; done. Qed.

Lemma first_conflict_spec mode procs req :
  match first_conflict mode procs req with
  | None => Forall (fun p => vd_Action (decide_pair mode p req) = ActionAllow) procs
  | Some v => exists p, p ∈ procs /\ vd_Action (decide_pair mode p req) = ActionRejectNew /\
      v = mkVerdict ActionRejectNew p (vd_Reason (decide_pair mode p req))
            (vd_Policy (decide_pair mode p req))
  end.
Proof.
  induction procs as [|p procs IH]; cbn; [constructor|].
  destruct (decide_pair_action mode p req) as [E|E]; rewrite E; cbn.
  - destruct (first_conflict mode procs req) as [v|].
    + destruct IH as (q & ? & ? & ?). exists q. split; [by right|done].
    + by constructor.
  - exists p. split; [left|]. done.
Qed.

Lemma elem_of_procs order (m : gmap Z ActiveProcedure) p :
  Permutation order (elements (dom m)) ->
  p ∈ omap (fun id => m !! id) order <-> exists id, m !! id = Some p.
Proof.
  intros Hp. rewrite list_elem_of_omap. split; [by intros (id & _ & H); exists id|].
  intros (id & H). exists id. split; [|done]. rewrite Hp. apply elem_of_elements, elem_of_dom. eauto.
Qed.

(** [Begin] by cases. *)
Lemma Begin_cases now order req t :
  Permutation order (elements (dom (active (refreshed now t)))) ->
  let t' := refreshed now t in
  let id := u64 (nextID t + 1) in
  let proc := mkActiveProcedure id (rq_Procedure req) (rq_Owner req) (rq_Peer req)
                (rq_TEID req) (rq_Seq req) (rq_EBIs req) now now in
  (exists cur i, active t' !! i = Some cur /\
     vd_Action (decide_pair (mode t') cur req) = ActionRejectNew /\
     Begin now order req (Some t) =
       (no_procedure,
        mkVerdict ActionRejectNew cur (vd_Reason (decide_pair (mode t') cur req))
          (vd_Policy (decide_pair (mode t') cur req)), Some t')) \/
  ((forall i cur, active t' !! i = Some cur ->
      vd_Action (decide_pair (mode t') cur req) = ActionAllow) /\
   Begin now order req (Some t) =
     (proc, allowed, Some (t' <| nextID := id |> <| active := <[id := proc]> (active t') |>))).
Proof.
  intros Hp t' id proc. unfold Begin. fold t'.
  pose proof (first_conflict_spec (mode t') (omap (fun id => active t' !! id) order) req) as H.
  destruct (first_conflict _ _ _) as [v|].
  - left. destruct H as (p & Hin & Ha & ->). apply elem_of_procs in Hin as [i Hi]; [|done]. eauto 10.
  - right. split; [|done]. intros i cur Hi. rewrite Forall_forall in H.
    apply H, elem_of_procs; eauto.
Qed.

Lemma refreshed_lookup now t i p :
  active (refreshed now t) !! i = Some p <->
  active t !! i = Some p /\ Sub now (ap_UpdatedAt p) <= or_default (timeout t).
Proof.
  unfold refreshed, sweepExpiredLocked. cbn. rewrite map_lookup_filter_Some. cbn.
  unfold expired. cbn. by rewrite Z.ltb_ge.
Qed.

Definition request_of (p : ActiveProcedure) : Request :=
  mkRequest (ap_Procedure p) (ap_Owner p) (ap_Peer p) (ap_TEID p) (ap_Seq p) (ap_EBIs p) "".

(** What a later procedure was admitted next to. *)
Definition compatible (m : string) (p q : ActiveProcedure) : Prop :=
  vd_Action (decide_pair m p (request_of q)) = ActionAllow.

Record tracker_inv (m : string) (n : nat) (t : Tracker) : Prop := mkTrackerInv {
  tri_next : 0 <= nextID t <= Z.of_nat n;
  tri_mode : m = ModePermissive \/ mode t <> ModePermissive;
  tri_ids : forall id p, active t !! id = Some p -> 0 < id <= nextID t /\ ap_ID p = id;
  tri_pairs : forall i j p q, i < j -> active t !! i = Some p -> active t !! j = Some q ->
    compatible m p q
}.

(** Dropping procedures and changing the timeout or the mode keeps the invariant. *)
Lemma tracker_inv_sub m n t t' :
  tracker_inv m n t -> active t' ⊆ active t -> nextID t' = nextID t ->
  (m = ModePermissive \/ mode t' <> ModePermissive) -> tracker_inv m (S n) t'.
Proof.
  intros [Hn Hm Hi Hp] Hsub Hid Hmode. split; [lia|done|..].
  - intros id p H. rewrite Hid. apply Hi. by eapply lookup_weaken.
  - intros i j p q ? H1 H2. eapply Hp; eauto using lookup_weaken.
Qed.

Lemma or_strict_permissive mode' : or_strict mode' = ModePermissive -> mode' = ModePermissive.
Proof. unfold or_strict. by case_match. Qed.

Lemma refreshed_inv m n now t : tracker_inv m n t -> tracker_inv m (S n) (refreshed now t).
Proof.
  intros H. eapply tracker_inv_sub; [exact H|apply map_filter_subseteq|done|].
  destruct H as [_ [?|Hm] _ _]; [by left|right]. cbn.
  intros E. by apply Hm, or_strict_permissive.
Qed.

Lemma compatible_mode m mode p req :
  (m = ModePermissive \/ mode <> ModePermissive) ->
  vd_Action (decide_pair mode p req) = ActionAllow -> 
  m = ModePermissive \/ m = ModeStrict -> vd_Action (decide_pair m p req) = ActionAllow.
Proof.
  intros Hm H [-> | ->]; [eauto using decide_pair_permissive|].
  destruct Hm as [Hm|Hm]; [discriminate|]. by rewrite <- (decide_pair_strict mode).
Qed.

Lemma decide_pair_request m p req req' :
  rq_Procedure req = rq_Procedure req' -> rq_EBIs req = rq_EBIs req' ->
  decide_pair m p req = decide_pair m p req'.
Proof. unfold decide_pair. by intros -> ->. Qed.

Lemma tstep_inv m n t t' :
  m = ModePermissive \/ m = ModeStrict -> Z.of_nat n + 1 < 2 ^ 64 ->
  tstep m t t' -> tracker_inv m n t -> tracker_inv m (S n) t'.
Proof.
  intros Hm Hn Hstep Hinv. pose proof (refreshed_inv m n) as Href.
  destruct Hstep as [t now order req proc v t' Hp H|t mode' timeout' t' Hmode H|t proc t' H|t now k t' H].
  - destruct (Begin_cases now order req t Hp) as [(cur & i & _ & _ & E)|[Hall E]];
      rewrite E in H; injection H as <- <- <-; [by apply Href|].
    destruct (Href now t Hinv) as [_ Hmode Hi Hpairs]. destruct (tri_next _ _ _ Hinv) as [Hlo Hhi].
    replace (u64 (nextID t + 1)) with (nextID t + 1) by (symmetry; apply uN_small; unfold in_u; lia).
    split; cbn -[refreshed]; [lia|exact Hmode|..].
    + intros id p H. apply lookup_insert_Some in H as [[<- <-]|[_ H]]; [cbn; lia|].
      destruct (Hi _ _ H) as [Hid ?]. change (nextID (refreshed now t)) with (nextID t) in Hid. lia.
    + intros i j p q Hij H1 H2.
      apply lookup_insert_Some in H1 as [[<- <-]|[_ H1]], H2 as [[<- <-]|[_ H2]].
      * lia.
      * destruct (Hi _ _ H2) as [Hj _]. change (nextID (refreshed now t)) with (nextID t) in Hj. lia.
      * unfold compatible. rewrite (decide_pair_request _ _ _ req) by done.
        eapply compatible_mode; [|by eapply Hall|done]. exact Hmode.
      * by apply (Hpairs i j).
  - injection H as <-. eapply tracker_inv_sub; [exact Hinv|done|done|]. cbn.
    destruct Hmode as [?|Hmode]; [by left|right]. intros E. by apply Hmode, or_strict_permissive.
  - cbn in H. destruct (ap_ID proc =? 0); injection H as <-;
      (eapply tracker_inv_sub; [exact Hinv|..|apply Hinv]); try done. apply delete_subseteq.
  - injection H as _ <-. eapply tracker_inv_sub; [exact Hinv|apply map_filter_subseteq|done|apply Hinv].
Qed.

Lemma NewTracker_inv m d : tracker_inv m 0 (NewTrackerWithTimeout d).
Proof.
  split; cbn; [lia|by right|..]; intros *; by rewrite lookup_empty.
Qed.

Lemma tsteps_inv m n k t t' :
  m = ModePermissive \/ m = ModeStrict -> Z.of_nat (k + n) < 2 ^ 64 ->
  nsteps (tstep m) n t t' -> tracker_inv m k t -> tracker_inv m (k + n) t'.
Proof.
  intros Hm Hn H. revert k Hn. induction H as [|n t t1 t' H1 H IH]; intros k Hn Hk.
  - by rewrite Nat.add_0_r.
  - replace (k + S n)%nat with (S k + n)%nat in * by lia. apply IH; [lia|].
    apply (tstep_inv m k t); [done|lia|done|done].
Qed.

Lemma pairPolicy_bearer_delete proc :
  isBearerScoped proc = true -> pairPolicy proc ProcedureDeleteSession = PolicyNone.
Proof.
  unfold isBearerScoped. rewrite !orb_true_iff, !String.eqb_eq.
  intros [[[[E|E]|E]|E]|E]; rewrite E; by vm_compute.
Qed.

Lemma pairPolicy_deleting next : pairPolicy ProcedureDeleteSession next = PolicySessionOverlap.
Proof.
  unfold pairPolicy. replace (procedurePairRules !! (ProcedureDeleteSession, next)) with (@None string); [done|].
  symmetry. unfold procedurePairRules. rewrite not_elem_of_list_to_map_1; [done|].
  cbn. rewrite !not_elem_of_cons. repeat split; try (by injection); apply not_elem_of_nil.
Qed.

(** ** Properties *)

(** C18: Whatever the sequence of begins, finishes, sweeps and configurations and
    whatever the map iteration orders, active procedures carry distinct positive ids
    and every one of them was admissible next to each older active one: under the
    permissive policy always, and under the strict policy when the permissive mode
    was never configured. *)
Theorem active_procedures_compatible m d n t :
  m = ModePermissive \/ m = ModeStrict -> Z.of_nat n < 2 ^ 64 ->
  nsteps (tstep m) n (NewTrackerWithTimeout d) t ->
  (forall id p, active t !! id = Some p -> 0 < id <= nextID t /\ ap_ID p = id) /\
  (forall i j p q, i < j -> active t !! i = Some p -> active t !! j = Some q ->
     vd_Action (decide_pair m p (request_of q)) = ActionAllow).
Proof.
  intros Hm Hn H. destruct (tsteps_inv m n 0 _ _ Hm Hn H (NewTracker_inv m d)) as [_ _ Hi Hp]. done.
Qed.

Definition example_request (proc : string) (ebis : list Z) : Request :=
  mkRequest proc OwnerPGW "10.0.0.2" 1 2 ebis "".
Definition tracker_after (r : ActiveProcedure * Verdict * option Tracker) : Tracker :=
  default NewTracker r.2.
Definition example_one : Tracker :=
  tracker_after (Begin 10 [] (example_request ProcedureUpdateBearer [5]) (Some NewTracker)).
Definition example_two : Tracker :=
  tracker_after (Begin 20 [1] (example_request ProcedureDeleteBearer [6]) (Some example_one)).

Lemma active_procedures_compatible_witness :
  size (active example_two) = 2%nat /\
  forall i j p q, i < j -> active example_two !! i = Some p -> active example_two !! j = Some q ->
     vd_Action (decide_pair ModeStrict p (request_of q)) = ActionAllow.
Proof.
  split; [by vm_compute|].
  apply (active_procedures_compatible ModeStrict DefaultActiveProcedureTimeout 2); [by right|lia|].
  eapply nsteps_l with (y := example_one).
  - eapply (ts_begin _ _ 10 [] (example_request ProcedureUpdateBearer [5])); [|reflexivity]. by vm_compute.
  - eapply nsteps_l with (y := example_two); [|constructor].
    eapply (ts_begin _ _ 20 [1] (example_request ProcedureDeleteBearer [6])); [|vm_compute; reflexivity].
    assert (elements (dom (active (refreshed 20 example_one))) = [1]) as E by by_compute. by rewrite E.
Defined.

(** [Begin] considers exactly the procedures that were active and have not been
    idle longer than the timeout.  It rejects exactly when one of them conflicts with
    the request, then naming a conflicting one and starting nothing; otherwise it
    starts the procedure under the next id with the request's data and the current
    time.  The outcome never depends on the map iteration order. *)
Lemma Begin_admission now order req t :
  Permutation order (elements (dom (active (refreshed now t)))) ->
  exists proc v t', Begin now order req (Some t) = (proc, v, Some t') /\
  let live := active (refreshed now t) in
  let m := or_strict (mode t) in
  (forall i p, live !! i = Some p <->
     active t !! i = Some p /\ Sub now (ap_UpdatedAt p) <= or_default (timeout t)) /\
  ((exists i p, live !! i = Some p /\ vd_Action (decide_pair m p req) = ActionRejectNew) ->
     proc = no_procedure /\ vd_Action v = ActionRejectNew /\ active t' = live /\
     nextID t' = nextID t /\
     exists i, live !! i = Some (vd_Current v) /\
       vd_Reason v = vd_Reason (decide_pair m (vd_Current v) req) /\
       vd_Action (decide_pair m (vd_Current v) req) = ActionRejectNew) /\
  (~ (exists i p, live !! i = Some p /\ vd_Action (decide_pair m p req) = ActionRejectNew) ->
     v = allowed /\ ap_ID proc = u64 (nextID t + 1) /\ request_of proc
       = mkRequest (rq_Procedure req) (rq_Owner req) (rq_Peer req) (rq_TEID req) (rq_Seq req)
           (rq_EBIs req) "" /\
     ap_StartedAt proc = now /\ active t' = <[ap_ID proc := proc]> live).
Proof.
  intros Hp. destruct (Begin_cases now order req t Hp) as [(cur & i & Hi & Ha & ->)|[Hall ->]];
    eexists _, _, _; (split; [reflexivity|]); cbv zeta;
    (split; [intros; apply refreshed_lookup|]).
  - split; [|intros []; eauto]. intros _. repeat (split; [done|]). exists i. done.
  - split.
    + intros (j & p & Hj & Hr). change (or_strict (mode t)) with (mode (refreshed now t)) in Hr.
      rewrite (Hall _ _ Hj) in Hr. done.
    + intros _. done.
Qed.

(** A PDN teardown is never rejected because of bearer-scoped procedures, in any
    mode; and while a live Delete Session is active every other procedure, known or
    unknown, is rejected in any mode. *)
Lemma DeleteSession_terminal now order req t :
  Permutation order (elements (dom (active (refreshed now t)))) ->
  let v := (Begin now order req (Some t)).1.2 in
  (rq_Procedure req = ProcedureDeleteSession ->
   (forall i p, active t !! i = Some p -> isBearerScoped (ap_Procedure p) = true) ->
   v = allowed) /\
  (forall i p, active t !! i = Some p -> ap_Procedure p = ProcedureDeleteSession ->
   Sub now (ap_UpdatedAt p) <= or_default (timeout t) ->
   vd_Action v = ActionRejectNew).
Proof.
  intros Hp. destruct (Begin_cases now order req t Hp) as [(cur & i & Hi & Ha & ->)|[Hall ->]];
    cbn [fst snd].
  - split; [|done]. intros Hr Hb. exfalso. apply refreshed_lookup in Hi as [Hi _].
    revert Ha. unfold decide_pair. by rewrite Hr, pairPolicy_bearer_delete by eauto.
  - split; [done|]. intros i p Hi Hd Hs. exfalso.
    assert (active (refreshed now t) !! i = Some p) as Hl by by apply refreshed_lookup.
    specialize (Hall _ _ Hl). revert Hall. unfold decide_pair. by rewrite Hd, pairPolicy_deleting.
Qed.
