(* ===== verification/Bearer.v ===== *)
(** * EPS bearer state ([internal/sgwc/bearer/bearer.go])

    The per-bearer record of the SGW-C: QoS, user-plane F-TEIDs, PFCP rule ids and
    the activity fields of the inactivity policy.  Clients do not import the file: its
    names are used qualified, as in the source. *)

From S2P Require Import Prelude GoLib.



Definition BearerStatePending := "pending"%string.
Definition BearerStateActive := "active"%string.
Definition BearerStateModifying := "modifying"%string.
Definition BearerStateDeleting := "deleting"%string.
Definition BearerStateDeleted := "deleted"%string.

(** User-plane F-TEID. *)
Record FTEID := mkFTEID {
  TEID : Z;
  IPv4 : Addr
}.
#[global] Instance eta_FTEID : Eta FTEID := fun r =>
  mkFTEID (TEID r) (IPv4 r).
#[global] Instance FTEID_eq_dec : EqDecision FTEID.
Proof. solve_decision. Defined.
Definition no_FTEID : FTEID := mkFTEID 0 AddrZero.

Record ARP := mkARP {
  PriorityLevel : Z;
  PreemptionCapability : bool;
  PreemptionVulnerability : bool
}.
#[global] Instance ARP_eq_dec : EqDecision ARP.
Proof. solve_decision. Defined.

Record TFT := mkTFT {
  Raw : bytes
}.
#[global] Instance TFT_eq_dec : EqDecision TFT.
Proof. solve_decision. Defined.

(** [PDRIDs] and [FARIDs] pair the uplink and the downlink rule id. *)
Record Bearer := mkBearer {
  EBI : Z;
  QCI : Z;
  BearerARP : ARP;
  ENBS1UFTEID : FTEID;
  SGWS1UFTEID : FTEID;
  PGWS5UFTEID : FTEID;
  SGWS5UFTEID : FTEID;
  MBRUplink : Z;
  MBRDownlink : Z;
  GBRUplink : Z;
  GBRDownlink : Z;
  BearerTFT : option TFT;
  State : string;
  PDRIDs : Z * Z;
  FARIDs : Z * Z;
  LastControlActivityAt : time;
  LastUserPlaneActivityAt : time;
  LastActivitySource : string;
  InactiveSince : time;
  CleanupEligible : bool
}.
#[global] Instance eta_Bearer : Eta Bearer := fun r =>
  mkBearer (EBI r) (QCI r) (BearerARP r) (ENBS1UFTEID r) (SGWS1UFTEID r) (PGWS5UFTEID r)
    (SGWS5UFTEID r) (MBRUplink r) (MBRDownlink r) (GBRUplink r) (GBRDownlink r)
    (BearerTFT r) (State r) (PDRIDs r) (FARIDs r) (LastControlActivityAt r)
    (LastUserPlaneActivityAt r) (LastActivitySource r) (InactiveSince r)
    (CleanupEligible r).
#[global] Instance Bearer_eq_dec : EqDecision Bearer.
Proof. solve_decision. Defined.
