(* ===== verification/Checkpoint.v ===== *)
(** * Durable session snapshots ([internal/sgwc/sessioncheckpoint/store.go])

    The backend-neutral record a checkpoint backend stores for one session.  The
    file is used qualified; [Bearers] is the slice of the bearer snapshots. *)

From S2P Require Import Prelude GoLib.
From S2P Require Bearer.

Definition CurrentSchemaVersion : Z := 1.

Record FTEIDSnapshot := mkFTEIDSnapshot {
  fts_TEID : Z;
  fts_IPv4 : string
}.
#[global] Instance FTEIDSnapshot_eq_dec : EqDecision FTEIDSnapshot.
Proof. solve_decision. Defined.

Record FSEIDSnapshot := mkFSEIDSnapshot {
  fss_SEID : Z;
  fss_IPv4 : string
}.
#[global] Instance FSEIDSnapshot_eq_dec : EqDecision FSEIDSnapshot.
Proof. solve_decision. Defined.

Record PFCPSessionBindingSnapshot := mkPFCPSessionBindingSnapshot {
  pbs_LocalFSEID : FSEIDSnapshot;
  pbs_SGWUFSEID : FSEIDSnapshot;
  pbs_SGWUName : string;
  pbs_SGWUAddr : string;
  pbs_Established : bool
}.
#[global] Instance PFCPSessionBindingSnapshot_eq_dec : EqDecision PFCPSessionBindingSnapshot.
Proof. solve_decision. Defined.

Record PFCPReconciliationSnapshot := mkPFCPReconciliationSnapshot {
  recs_State : string;
  recs_At : time;
  recs_Reason : string
}.
#[global] Instance PFCPReconciliationSnapshot_eq_dec : EqDecision PFCPReconciliationSnapshot.
Proof. solve_decision. Defined.

Record PGWFailureSnapshot := mkPGWFailureSnapshot {
  pfs_PathState : string;
  pfs_PGWAddr : string;
  pfs_PathDownAt : time;
  pfs_RestartDetectedAt : time;
  pfs_RecoverySeen : bool;
  pfs_RecoveryCounter : Z
}.
#[global] Instance PGWFailureSnapshot_eq_dec : EqDecision PGWFailureSnapshot.
Proof. solve_decision. Defined.

Record MMERestorationSnapshot := mkMMERestorationSnapshot {
  mrs_State : string;
  mrs_MMEAddr : string;
  mrs_PathDownAt : time;
  mrs_RestartDetectedAt : time;
  mrs_RecoverySeen : bool;
  mrs_RecoveryCounter : Z;
  mrs_RestorationPending : bool;
  mrs_PolicyAction : string;
  mrs_PolicyReason : string;
  mrs_DDNTriggered : bool;
  mrs_DDNTriggeredAt : time;
  mrs_DDNSequence : Z;
  mrs_DDNAcked : bool;
  mrs_DDNAckedAt : time;
  mrs_DDNAckCause : Z;
  mrs_DDNFailureAt : time;
  mrs_DDNFailureCause : Z;
  mrs_DDNFailureReason : string;
  mrs_DDNControlAction : string;
  mrs_DDNControlPriority : string;
  mrs_DDNControlReason : string;
  mrs_DDNControlRetryAt : time;
  mrs_DDNControlDecidedAt : time;
  mrs_StopPagingSent : bool;
  mrs_StopPagingSentAt : time;
  mrs_StopPagingSequence : Z;
  mrs_UserPlaneRestored : bool;
  mrs_UserPlaneRestoredAt : time;
  mrs_RestoredEBI : Z
}.
#[global] Instance MMERestorationSnapshot_eq_dec : EqDecision MMERestorationSnapshot.
Proof. solve_decision. Defined.

Record BearerSnapshot := mkBearerSnapshot {
  bs_EBI : Z;
  bs_QCI : Z;
  bs_ARP : Bearer.ARP;
  bs_ENBS1UFTEID : FTEIDSnapshot;
  bs_SGWS1UFTEID : FTEIDSnapshot;
  bs_PGWS5UFTEID : FTEIDSnapshot;
  bs_SGWS5UFTEID : FTEIDSnapshot;
  bs_MBRUplink : Z;
  bs_MBRDownlink : Z;
  bs_GBRUplink : Z;
  bs_GBRDownlink : Z;
  bs_TFTRaw : bytes;
  bs_State : string;
  bs_PDRIDs : Z * Z;
  bs_FARIDs : Z * Z;
  bs_LastControlActivityAt : time;
  bs_LastUserPlaneActivityAt : time;
  bs_LastActivitySource : string;
  bs_InactiveSince : time;
  bs_CleanupEligible : bool
}.
#[global] Instance BearerSnapshot_eq_dec : EqDecision BearerSnapshot.
Proof. solve_decision. Defined.

Record SessionSnapshot := mkSessionSnapshot {
  SchemaVersion : Z;
  SessionID : string;
  IMSI : string;
  APN : string;
  RATType : Z;
  ServingNetwork : string;
  MMEControlFTEID : FTEIDSnapshot;
  SGWS11FTEID : FTEIDSnapshot;
  PGWControlFTEID : FTEIDSnapshot;
  SGWS5CFTEID : FTEIDSnapshot;
  UEIPv4 : string;
  DefaultBearerID : Z;
  Bearers : list BearerSnapshot;
  PFCP : PFCPSessionBindingSnapshot;
  PFCPReconciliation : PFCPReconciliationSnapshot;
  PGWFailure : PGWFailureSnapshot;
  MMERestoration : MMERestorationSnapshot;
  State : string;
  CreatedAt : time;
  UpdatedAt : time;
  NextRuleID : Z
}.
#[global] Instance eta_SessionSnapshot : Eta SessionSnapshot := fun r =>
  mkSessionSnapshot (SchemaVersion r) (SessionID r) (IMSI r) (APN r) (RATType r) (ServingNetwork r)
    (MMEControlFTEID r) (SGWS11FTEID r) (PGWControlFTEID r) (SGWS5CFTEID r) (UEIPv4 r)
    (DefaultBearerID r) (Bearers r) (PFCP r) (PFCPReconciliation r) (PGWFailure r)
    (MMERestoration r) (State r) (CreatedAt r) (UpdatedAt r) (NextRuleID r).
#[global] Instance SessionSnapshot_eq_dec : EqDecision SessionSnapshot.
Proof. solve_decision. Defined.

(** Recovery state of a peer. *)
Record PeerSnapshot := mkPeerSnapshot {
  ps_SchemaVersion : Z;
  ps_Role : string;
  ps_Addr : string;
  ps_Name : string;
  ps_State : string;
  ps_RecoverySeen : bool;
  ps_RecoveryCounter : Z;
  ps_RecoveryTimestamp : Z;
  ps_RestartDetectedAt : time;
  ps_Restarts : Z;
  ps_UpdatedAt : time
}.
#[global] Instance PeerSnapshot_eq_dec : EqDecision PeerSnapshot.
Proof. solve_decision. Defined.
