(* ===== verification/SessionData.v ===== *)
(** * Session data ([internal/sgwc/session/session.go], [snapshot.go], [checkpoint.go])

    The SGW-C session record with its PFCP binding, reconciliation, PGW and MME
    restoration status, and its durable snapshot.  State types are strings, as in the
    source.  The bearer map holds bearers by value: a bearer object is reachable only
    through its session's map, and a handler that changes one through [GetBearer]
    changes the map entry. *)

From stdpp Require Import sorting.
From S2P Require Import Prelude GoLib Collision.
From S2P Require Bearer Checkpoint.

Open Scope string_scope.
Open Scope Z_scope.

(** ** States *)

Definition StatePending := "pending".
Definition StateActive := "active".
Definition StateModifying := "modifying".
Definition StateRecovering := "recovering".
Definition StateDeleting := "deleting".
Definition StateDeleted := "deleted".

Definition BearerActivitySourceCreateSession := "create_session".
Definition BearerActivitySourceSetBearer := "set_bearer".
Definition BearerActivitySourceDeleteBearer := "delete_bearer".
Definition BearerActivitySourceReleaseAccess := "release_access_bearers".

Definition PFCPReconciliationUnknown := "unknown".
Definition PFCPReconciliationMatched := "matched".
Definition PFCPReconciliationMissing := "missing".
Definition PFCPReconciliationMismatched := "mismatched".
Definition PFCPReconciliationUnverifiable := "unverifiable".
Definition PFCPReconciliationNoBinding := "no_binding".

Definition PGWPathStateUnknown := "unknown".
Definition PGWPathStateUp := "up".
Definition PGWPathStateDegraded := "degraded".
Definition PGWPathStateSuspect := "suspect".
Definition PGWPathStateDown := "down".
Definition PGWPathStateRestarted := "restarted".

Definition MMERestorationStateUnknown := "unknown".
Definition MMERestorationStateUp := "up".
Definition MMERestorationStateDegraded := "degraded".
Definition MMERestorationStateSuspect := "suspect".
Definition MMERestorationStateDown := "down".
Definition MMERestorationStateRestarted := "restarted".
Definition MMERestorationStateRestorationPending := "restoration_pending".

Definition MMERestorationPolicyUnknown := "unknown".
Definition MMERestorationPolicyPreserve := "preserve".
Definition MMERestorationPolicyDelete := "delete".

(** ** Records *)

Record FTEID := mkFTEID {
  ft_TEID : Z;
  ft_IPv4 : Addr
}.
#[export] Instance eta_FTEID : Eta FTEID := fun r =>
  mkFTEID (ft_TEID r) (ft_IPv4 r).
#[export] Instance FTEID_eq_dec : EqDecision FTEID.
Proof. solve_decision. Defined.

Record FSEID := mkFSEID {
  fs_SEID : Z;
  fs_IPv4 : Addr
}.
#[export] Instance FSEID_eq_dec : EqDecision FSEID.
Proof. solve_decision. Defined.

Record PFCPSessionBinding := mkPFCPSessionBinding {
  pb_LocalFSEID : FSEID;
  pb_SGWUFSEID : FSEID;
  pb_SGWUName : string;
  pb_SGWUAddr : string;
  pb_Established : bool
}.
#[export] Instance eta_PFCPSessionBinding : Eta PFCPSessionBinding := fun r =>
  mkPFCPSessionBinding (pb_LocalFSEID r) (pb_SGWUFSEID r) (pb_SGWUName r) (pb_SGWUAddr r)
    (pb_Established r).
#[export] Instance PFCPSessionBinding_eq_dec : EqDecision PFCPSessionBinding.
Proof. solve_decision. Defined.

Record PFCPReconciliationStatus := mkPFCPReconciliationStatus {
  rec_State : string;
  rec_At : time;
  rec_Reason : string
}.
#[export] Instance PFCPReconciliationStatus_eq_dec : EqDecision PFCPReconciliationStatus.
Proof. solve_decision. Defined.

Record PGWFailureStatus := mkPGWFailureStatus {
  pf_PathState : string;
  pf_PGWAddr : string;
  pf_PathDownAt : time;
  pf_RestartDetectedAt : time;
  pf_RecoverySeen : bool;
  pf_RecoveryCounter : Z
}.
#[export] Instance eta_PGWFailureStatus : Eta PGWFailureStatus := fun r =>
  mkPGWFailureStatus (pf_PathState r) (pf_PGWAddr r) (pf_PathDownAt r) (pf_RestartDetectedAt r)
    (pf_RecoverySeen r) (pf_RecoveryCounter r).
#[export] Instance PGWFailureStatus_eq_dec : EqDecision PGWFailureStatus.
Proof. solve_decision. Defined.

Record MMERestorationStatus := mkMMERestorationStatus {
  mr_State : string;
  mr_MMEAddr : string;
  mr_PathDownAt : time;
  mr_RestartDetectedAt : time;
  mr_RecoverySeen : bool;
  mr_RecoveryCounter : Z;
  mr_RestorationPending : bool;
  mr_PolicyAction : string;
  mr_PolicyReason : string;
  mr_DDNTriggered : bool;
  mr_DDNTriggeredAt : time;
  mr_DDNSequence : Z;
  mr_DDNAcked : bool;
  mr_DDNAckedAt : time;
  mr_DDNAckCause : Z;
  mr_DDNFailureAt : time;
  mr_DDNFailureCause : Z;
  mr_DDNFailureReason : string;
  mr_DDNControlAction : string;
  mr_DDNControlPriority : string;
  mr_DDNControlReason : string;
  mr_DDNControlRetryAt : time;
  mr_DDNControlDecidedAt : time;
  mr_StopPagingSent : bool;
  mr_StopPagingSentAt : time;
  mr_StopPagingSequence : Z;
  mr_UserPlaneRestored : bool;
  mr_UserPlaneRestoredAt : time;
  mr_RestoredEBI : Z
}.
#[export] Instance eta_MMERestorationStatus : Eta MMERestorationStatus := fun r =>
  mkMMERestorationStatus (mr_State r) (mr_MMEAddr r) (mr_PathDownAt r) (mr_RestartDetectedAt r)
    (mr_RecoverySeen r) (mr_RecoveryCounter r) (mr_RestorationPending r)
    (mr_PolicyAction r) (mr_PolicyReason r) (mr_DDNTriggered r) (mr_DDNTriggeredAt r)
    (mr_DDNSequence r) (mr_DDNAcked r) (mr_DDNAckedAt r) (mr_DDNAckCause r)
    (mr_DDNFailureAt r) (mr_DDNFailureCause r) (mr_DDNFailureReason r)
    (mr_DDNControlAction r) (mr_DDNControlPriority r) (mr_DDNControlReason r)
    (mr_DDNControlRetryAt r) (mr_DDNControlDecidedAt r) (mr_StopPagingSent r)
    (mr_StopPagingSentAt r) (mr_StopPagingSequence r) (mr_UserPlaneRestored r)
    (mr_UserPlaneRestoredAt r) (mr_RestoredEBI r).
#[export] Instance MMERestorationStatus_eq_dec : EqDecision MMERestorationStatus.
Proof. solve_decision. Defined.

Record SecondaryRATUsageDataReport := mkSecondaryRATUsageDataReport {
  sr_ReceivedAt : time;
  sr_SourceProcedure : string;
  sr_MMEPeer : string;
  sr_SGWS11TEID : Z;
  sr_SequenceNumber : Z;
  sr_Payload : bytes
}.
#[export] Instance eta_SecondaryRATUsageDataReport : Eta SecondaryRATUsageDataReport := fun r =>
  mkSecondaryRATUsageDataReport (sr_ReceivedAt r) (sr_SourceProcedure r) (sr_MMEPeer r) (sr_SGWS11TEID r)
    (sr_SequenceNumber r) (sr_Payload r).
#[export] Instance SecondaryRATUsageDataReport_eq_dec : EqDecision SecondaryRATUsageDataReport.
Proof. solve_decision. Defined.

(** Zero values. *)
Definition no_FTEID : FTEID := mkFTEID 0 AddrZero.
Definition no_FSEID : FSEID := mkFSEID 0 AddrZero.
Definition no_binding : PFCPSessionBinding :=
  mkPFCPSessionBinding no_FSEID no_FSEID "" "" false.
Definition no_reconciliation : PFCPReconciliationStatus :=
  mkPFCPReconciliationStatus "" zero_time "".
Definition no_pgw_failure : PGWFailureStatus :=
  mkPGWFailureStatus "" "" zero_time zero_time false 0.
Definition no_restoration : MMERestorationStatus :=
  mkMMERestorationStatus "" "" zero_time zero_time false 0 false "" "" false zero_time 0
    false zero_time 0 zero_time 0 "" "" "" "" zero_time zero_time false zero_time 0
    false zero_time 0.

(** [checkpointSink] tells whether a sink is registered, [Procedures] is nil as [None]. *)
Record SGWSession := mkSGWSession {
  SessionID : string;
  IMSI : string;
  APN : string;
  RATType : Z;
  ServingNetwork : string;
  MMEControlFTEID : FTEID;
  SGWS11FTEID : FTEID;
  PGWControlFTEID : FTEID;
  SGWS5CFTEID : FTEID;
  UEIPv4 : Addr;
  DefaultBearerID : Z;
  Bearers : gmap Z Bearer.Bearer;
  PFCP : PFCPSessionBinding;
  PFCPReconciliation : PFCPReconciliationStatus;
  Procedures : option Tracker;
  SecondaryRATUsageDataReports : list SecondaryRATUsageDataReport;
  PGWFailure : PGWFailureStatus;
  MMERestoration : MMERestorationStatus;
  checkpointSink : bool;
  State : string;
  CreatedAt : time;
  UpdatedAt : time;
  nextRuleID : Z
}.
#[export] Instance eta_SGWSession : Eta SGWSession := fun r =>
  mkSGWSession (SessionID r) (IMSI r) (APN r) (RATType r) (ServingNetwork r) (MMEControlFTEID r)
    (SGWS11FTEID r) (PGWControlFTEID r) (SGWS5CFTEID r) (UEIPv4 r) (DefaultBearerID r)
    (Bearers r) (PFCP r) (PFCPReconciliation r) (Procedures r)
    (SecondaryRATUsageDataReports r) (PGWFailure r) (MMERestoration r)
    (checkpointSink r) (State r) (CreatedAt r) (UpdatedAt r) (nextRuleID r).

(** ** Snapshots *)

Definition addrString (addr : Addr) : string :=
  if IsValid addr then Addr_String addr else "".

Definition fteidSnapshot (f : FTEID) : Checkpoint.FTEIDSnapshot :=
  Checkpoint.mkFTEIDSnapshot (ft_TEID f) (addrString (ft_IPv4 f)).
Definition bearerFTEIDSnapshot (f : Bearer.FTEID) : Checkpoint.FTEIDSnapshot :=
  Checkpoint.mkFTEIDSnapshot (Bearer.TEID f) (addrString (Bearer.IPv4 f)).
Definition fseidSnapshot (f : FSEID) : Checkpoint.FSEIDSnapshot :=
  Checkpoint.mkFSEIDSnapshot (fs_SEID f) (addrString (fs_IPv4 f)).

Definition pfcpReconciliationSnapshot (f : PFCPReconciliationStatus)
    : Checkpoint.PFCPReconciliationSnapshot :=
  Checkpoint.mkPFCPReconciliationSnapshot (rec_State f) (rec_At f) (rec_Reason f).

Definition pgwFailureSnapshot (f : PGWFailureStatus) : Checkpoint.PGWFailureSnapshot :=
  Checkpoint.mkPGWFailureSnapshot (pf_PathState f) (pf_PGWAddr f) (pf_PathDownAt f)
    (pf_RestartDetectedAt f) (pf_RecoverySeen f) (pf_RecoveryCounter f).

Definition mmeRestorationSnapshot (f : MMERestorationStatus)
    : Checkpoint.MMERestorationSnapshot :=
  Checkpoint.mkMMERestorationSnapshot (mr_State f) (mr_MMEAddr f) (mr_PathDownAt f)
    (mr_RestartDetectedAt f) (mr_RecoverySeen f) (mr_RecoveryCounter f)
    (mr_RestorationPending f) (mr_PolicyAction f) (mr_PolicyReason f)
    (mr_DDNTriggered f) (mr_DDNTriggeredAt f) (mr_DDNSequence f) (mr_DDNAcked f)
    (mr_DDNAckedAt f) (mr_DDNAckCause f) (mr_DDNFailureAt f) (mr_DDNFailureCause f)
    (mr_DDNFailureReason f) (mr_DDNControlAction f) (mr_DDNControlPriority f)
    (mr_DDNControlReason f) (mr_DDNControlRetryAt f) (mr_DDNControlDecidedAt f)
    (mr_StopPagingSent f) (mr_StopPagingSentAt f) (mr_StopPagingSequence f)
    (mr_UserPlaneRestored f) (mr_UserPlaneRestoredAt f) (mr_RestoredEBI f).

Definition bearerSnapshot (b : Bearer.Bearer) : Checkpoint.BearerSnapshot :=
  let tftRaw := match Bearer.BearerTFT b with Some t => Bearer.Raw t | None => [] end in
  Checkpoint.mkBearerSnapshot (Bearer.EBI b) (Bearer.QCI b) (Bearer.BearerARP b)
    (bearerFTEIDSnapshot (Bearer.ENBS1UFTEID b)) (bearerFTEIDSnapshot (Bearer.SGWS1UFTEID b))
    (bearerFTEIDSnapshot (Bearer.PGWS5UFTEID b)) (bearerFTEIDSnapshot (Bearer.SGWS5UFTEID b))
    (Bearer.MBRUplink b) (Bearer.MBRDownlink b) (Bearer.GBRUplink b) (Bearer.GBRDownlink b)
    tftRaw (Bearer.State b) (Bearer.PDRIDs b) (Bearer.FARIDs b)
    (Bearer.LastControlActivityAt b) (Bearer.LastUserPlaneActivityAt b)
    (Bearer.LastActivitySource b) (Bearer.InactiveSince b) (Bearer.CleanupEligible b).

(** The keys of the bearer map in increasing order. *)
Definition sorted_ebis (s : SGWSession) : list Z :=
  merge_sort Z.le (elements (dom (Bearers s))).

Definition Snapshot (s : SGWSession) : Checkpoint.SessionSnapshot :=
  let bearers := omap (fun ebi => bearerSnapshot <$> Bearers s !! u8 ebi) (sorted_ebis s) in
  Checkpoint.mkSessionSnapshot Checkpoint.CurrentSchemaVersion
    (SessionID s) (IMSI s) (APN s) (RATType s) (ServingNetwork s)
    (fteidSnapshot (MMEControlFTEID s)) (fteidSnapshot (SGWS11FTEID s))
    (fteidSnapshot (PGWControlFTEID s)) (fteidSnapshot (SGWS5CFTEID s))
    (addrString (UEIPv4 s)) (DefaultBearerID s) bearers
    (Checkpoint.mkPFCPSessionBindingSnapshot
       (fseidSnapshot (pb_LocalFSEID (PFCP s))) (fseidSnapshot (pb_SGWUFSEID (PFCP s)))
       (pb_SGWUName (PFCP s)) (pb_SGWUAddr (PFCP s)) (pb_Established (PFCP s)))
    (pfcpReconciliationSnapshot (PFCPReconciliation s)) (pgwFailureSnapshot (PGWFailure s))
    (mmeRestorationSnapshot (MMERestoration s)) (State s) (CreatedAt s) (UpdatedAt s)
    (nextRuleID s).

(** Calls on the checkpoint sink. *)
Inductive sink_call :=
| SaveSessionSnapshot (snapshot : Checkpoint.SessionSnapshot)
| DeleteSessionSnapshot (sessionID : string).

Definition setCheckpointSink (sink : bool) (s : SGWSession) : SGWSession :=
  s <| checkpointSink := sink |>.

Definition checkpoint (s : SGWSession) : list sink_call :=
  if checkpointSink s then [SaveSessionSnapshot (Snapshot s)] else [].
