(* ===== verification/CheckpointWriter.v ===== *)
(** * Asynchronous checkpoint writer ([internal/sgwc/sessioncheckpoint/writer.go])

    The writer is the checkpoint sink of the sessions: it collects snapshots and
    deletions in memory and flushes them to a store from time to time.  The store is an
    interface of the program; [SessionStore] states its operations and laws, and
    [MapStore] is an instance.  The calls other goroutines make while a flush talks to
    the store are an argument of [Flush], as are the map iteration orders. *)

From S2P Require Import Prelude GoLib SessionData.
From S2P Require Checkpoint.

Open Scope string_scope.
Open Scope Z_scope.

(** ** The store interface ([store.go], [Store]) *)

(** Each operation reports success; [contents] is what [LoadSession] would find. *)
Class SessionStore (St : Type) := {
  contents : St -> gmap string Checkpoint.SessionSnapshot;
  peer_contents : St -> gmap (string * string) Checkpoint.PeerSnapshot;
  SaveSession : Checkpoint.SessionSnapshot -> St -> bool * St;
  DeleteSession : string -> St -> bool * St;
  SavePeer : Checkpoint.PeerSnapshot -> St -> bool * St
}.

Class SessionStoreLaws (St : Type) `{SessionStore St} := {
  SaveSession_ok snap st st' : SaveSession snap st = (true, st') ->
    contents st' = <[Checkpoint.SessionID snap := snap]> (contents st) /\
    peer_contents st' = peer_contents st;
  SaveSession_fails snap st st' : SaveSession snap st = (false, st') ->
    contents st' = contents st /\ peer_contents st' = peer_contents st;
  DeleteSession_ok id st st' : DeleteSession id st = (true, st') ->
    contents st' = delete id (contents st) /\ peer_contents st' = peer_contents st;
  DeleteSession_fails id st st' : DeleteSession id st = (false, st') ->
    contents st' = contents st /\ peer_contents st' = peer_contents st;
  SavePeer_ok p st st' : SavePeer p st = (true, st') ->
    contents st' = contents st /\
    peer_contents st' = <[(Checkpoint.ps_Role p, Checkpoint.ps_Addr p) := p]> (peer_contents st);
  SavePeer_fails p st st' : SavePeer p st = (false, st') ->
    contents st' = contents st /\ peer_contents st' = peer_contents st
}.

(** ** The writer *)

Record Writer := mkWriter {
  dirty : gmap string Checkpoint.SessionSnapshot;
  deleted : gset string;
  peers : gmap string Checkpoint.PeerSnapshot
}.
#[export] Instance eta_Writer : Eta Writer := fun w =>
  mkWriter (dirty w) (deleted w) (peers w).

Definition NewWriter : Writer := mkWriter ∅ ∅ ∅.

Definition peerKey (role addr : string) : string := role ++ String Ascii.zero addr.

Inductive writer_call :=
| Session (call : sink_call)
| Peer (snapshot : Checkpoint.PeerSnapshot).

Definition Writer_SaveSessionSnapshot (snap : Checkpoint.SessionSnapshot) (w : Writer) : Writer :=
  if String.eqb (Checkpoint.SessionID snap) "" then w
  else w <| deleted := deleted w ∖ {[ Checkpoint.SessionID snap ]} |>
         <| dirty := <[Checkpoint.SessionID snap := snap]> (dirty w) |>.

Definition Writer_SavePeerSnapshot (snap : Checkpoint.PeerSnapshot) (w : Writer) : Writer :=
  if String.eqb (Checkpoint.ps_Role snap) "" || String.eqb (Checkpoint.ps_Addr snap) "" then w
  else w <| peers := <[peerKey (Checkpoint.ps_Role snap) (Checkpoint.ps_Addr snap) := snap]>
                       (peers w) |>.

Definition Writer_DeleteSessionSnapshot (id : string) (w : Writer) : Writer :=
  if String.eqb id "" then w
  else w <| dirty := delete id (dirty w) |> <| deleted := {[ id ]} ∪ deleted w |>.

Definition writer_call_step (w : Writer) (c : writer_call) : Writer :=
  match c with
  | Session (SaveSessionSnapshot snap) => Writer_SaveSessionSnapshot snap w
  | Session (DeleteSessionSnapshot id) => Writer_DeleteSessionSnapshot id w
  | Peer snap => Writer_SavePeerSnapshot snap w
  end.

Definition requeueSave (snap : Checkpoint.SessionSnapshot) (w : Writer) : Writer :=
  if decide (Checkpoint.SessionID snap ∈ deleted w) then w
  else w <| dirty := <[Checkpoint.SessionID snap := snap]> (dirty w) |>.

Definition requeueDelete (id : string) (w : Writer) : Writer :=
  w <| dirty := delete id (dirty w) |> <| deleted := {[ id ]} ∪ deleted w |>.

Definition requeuePeer (snap : Checkpoint.PeerSnapshot) (w : Writer) : Writer :=
  w <| peers := <[peerKey (Checkpoint.ps_Role snap) (Checkpoint.ps_Addr snap) := snap]>
                  (peers w) |>.

Section Flush.
Context {St : Type} `{SessionStore St}.

(** Run a store operation over a list until one fails: the failing item, if any. *)
Fixpoint until_failure {A} (f : A -> St -> bool * St) (l : list A) (st : St) : option A * St :=
  match l with
  | [] => (None, st)
  | x :: l =>
      let '(ok, st) := f x st in
      if (ok : bool) then until_failure f l st else (Some x, st)
  end.

(** The maps taken by [drain], in iteration order. *)
Record drained := mkDrained {
  d_deleted : list string;
  d_dirty : list Checkpoint.SessionSnapshot;
  d_peers : list Checkpoint.PeerSnapshot
}.

Definition drains (w : Writer) (d : drained) : Prop :=
  Permutation (d_deleted d) (elements (deleted w)) /\
  Permutation (d_dirty d) (map_to_list (dirty w)).*2 /\
  Permutation (d_peers d) (map_to_list (peers w)).*2.

(** [meanwhile] are the calls made between [drain] and the end of the flush; the first
    result tells whether the flush succeeded. *)
Definition Flush (d : drained) (meanwhile : list writer_call) (st : St) : bool * Writer * St :=
  let w := fold_left writer_call_step meanwhile NewWriter in
  match until_failure DeleteSession (d_deleted d) st with
  | (Some id, st) => (false, requeueDelete id w, st)
  | (None, st) =>
      match until_failure SaveSession (d_dirty d) st with
      | (Some snap, st) => (false, requeueSave snap w, st)
      | (None, st) =>
          match until_failure SavePeer (d_peers d) st with
          | (Some p, st) => (false, requeuePeer p w, st)
          | (None, st) => (true, w, st)
          end
      end
  end.

End Flush.

(** ** The abstract map the writer implements

    [pending w m] is the store content [m] with the writer's pending work applied. *)

Definition pending (w : Writer) (m : gmap string Checkpoint.SessionSnapshot)
    : gmap string Checkpoint.SessionSnapshot :=
  dirty w ∪ filter (fun kv => kv.1 ∉ deleted w) m.

Definition map_call (m : gmap string Checkpoint.SessionSnapshot) (c : writer_call)
    : gmap string Checkpoint.SessionSnapshot :=
  match c with
  | Session (SaveSessionSnapshot snap) =>
      if String.eqb (Checkpoint.SessionID snap) "" then m
      else <[Checkpoint.SessionID snap := snap]> m
  | Session (DeleteSessionSnapshot id) => if String.eqb id "" then m else delete id m
  | Peer _ => m
  end.

Definition writer_wf (w : Writer) : Prop :=
  (forall id snap, dirty w !! id = Some snap -> Checkpoint.SessionID snap = id) /\
  (forall id, id ∈ deleted w -> dirty w !! id = None).

Lemma NewWriter_wf : writer_wf NewWriter.
Proof. split; cbn; [by intros ? ? ?%lookup_empty_Some|set_solver]. Qed.

Lemma pending_lookup w m id :
  pending w m !! id = match dirty w !! id with
                      | Some snap => Some snap
                      | None => if decide (id ∈ deleted w) then None else m !! id end.
Proof.
  unfold pending. rewrite lookup_union, map_lookup_filter.
  destruct (dirty w !! id), (m !! id); cbn; repeat case_guard || case_decide; try done.
Qed.

Lemma pending_New m : pending NewWriter m = m.
Proof. apply map_eq. intros id. rewrite pending_lookup. cbn. by rewrite lookup_empty. Qed.

Lemma call_pending w c m :
  writer_wf w -> writer_wf (writer_call_step w c) /\
  pending (writer_call_step w c) m = map_call (pending w m) c.
Proof.
  intros [Hd Hx]. destruct c as [[snap|id]|p]; cbn.
  - unfold Writer_SaveSessionSnapshot. destruct (String.eqb_spec (Checkpoint.SessionID snap) "");
      [by repeat split|]. split; [split|].
    + intros id s. cbn. rewrite lookup_insert_Some. naive_solver.
    + intros id. cbn. rewrite elem_of_difference, elem_of_singleton. intros [? ?].
      rewrite lookup_insert_ne by done. auto.
    + apply map_eq. intros id. rewrite pending_lookup. cbn.
      destruct (decide (id = Checkpoint.SessionID snap)) as [->|Hne].
      * by rewrite !lookup_insert_eq.
      * rewrite !lookup_insert_ne, pending_lookup by done. destruct (dirty w !! id); [done|].
        by repeat case_decide; set_solver.
  - unfold Writer_DeleteSessionSnapshot. destruct (String.eqb_spec id ""); [by repeat split|].
    split; [split|].
    + intros i s. cbn. rewrite lookup_delete_Some. naive_solver.
    + intros i. cbn. rewrite elem_of_union, elem_of_singleton, lookup_delete_None. naive_solver.
    + apply map_eq. intros i. rewrite pending_lookup. cbn.
      destruct (decide (i = id)) as [->|Hne].
      * rewrite !lookup_delete_eq, decide_True by set_solver. done.
      * rewrite !lookup_delete_ne, pending_lookup by done. destruct (dirty w !! i); [done|].
        by repeat case_decide; set_solver.
  - unfold Writer_SavePeerSnapshot. by destruct (_ || _).
Qed.

Lemma calls_pending cs : forall w m,
  writer_wf w -> writer_wf (fold_left writer_call_step cs w) /\
  pending (fold_left writer_call_step cs w) m = fold_left map_call cs (pending w m).
Proof.
  induction cs as [|c cs IH]; intros w m Hw; [done|]. cbn [fold_left].
  destruct (call_pending w c m Hw) as [Hw' E]. destruct (IH _ m Hw') as [? ->]. by rewrite E.
Qed.

Section FlushLemmas.
Context {St : Type} `{SessionStoreLaws St}.

Lemma until_failure_deletes ids : forall st st',
  until_failure DeleteSession ids st = (None, st') ->
  contents st' = filter (fun kv => kv.1 ∉ ids) (contents st).
Proof.
  induction ids as [|id ids IH]; intros st st'; cbn.
  - intros [= <-]. symmetry. apply map_filter_id. set_solver.
  - destruct (DeleteSession id st) as [[] st1] eqn:E; [|done]. intros Hu.
    apply DeleteSession_ok in E as [E _]. rewrite (IH _ _ Hu), E.
    apply map_eq. intros i. apply option_eq. intros s.
    rewrite !map_lookup_filter_Some, lookup_delete_Some. set_solver.
Qed.

Lemma until_failure_saves snaps : forall st st',
  until_failure SaveSession snaps st = (None, st') ->
  contents st' = fold_left (fun m s => <[Checkpoint.SessionID s := s]> m) snaps (contents st).
Proof.
  induction snaps as [|s snaps IH]; intros st st'; cbn; [by intros [= <-]|].
  destruct (SaveSession s st) as [[] st1] eqn:E; [|done]. intros Hu.
  apply SaveSession_ok in E as [E _]. by rewrite (IH _ _ Hu), E.
Qed.

Lemma until_failure_peers ps : forall st r st',
  until_failure SavePeer ps st = (r, st') -> contents st' = contents st.
Proof.
  induction ps as [|p ps IH]; intros st r st'; cbn; [by intros [= <- <-]|].
  destruct (SavePeer p st) as [[] st1] eqn:E.
  - intros Hu. apply SavePeer_ok in E as [E _]. by rewrite (IH _ _ _ Hu), E.
  - intros [= <- <-]. by apply SavePeer_fails in E as [E _].
Qed.

(** Saving a list of snapshots with distinct ids. *)
Lemma fold_saves snaps (m : gmap string Checkpoint.SessionSnapshot) id :
  NoDup (Checkpoint.SessionID <$> snaps) ->
  fold_left (fun m s => <[Checkpoint.SessionID s := s]> m) snaps m !! id =
    match List.find (fun s => String.eqb (Checkpoint.SessionID s) id) snaps with
    | Some s => Some s | None => m !! id end.
Proof.
  revert m. induction snaps as [|s snaps IH]; intros m Hnd; [done|].
  apply NoDup_cons in Hnd as [Hs Hnd]. cbn. rewrite IH by done.
  destruct (String.eqb_spec (Checkpoint.SessionID s) id) as [<-|Hne].
  - destruct (List.find _ snaps) as [s'|] eqn:E; [|by rewrite lookup_insert_eq].
    apply find_some in E as [Hin E]. apply String.eqb_eq in E.
    exfalso. apply Hs. rewrite <- E. by apply list_elem_of_fmap_2, list_elem_of_In.
  - by rewrite lookup_insert_ne.
Qed.

Lemma flush_contents w d meanwhile st w' st' :
  writer_wf w -> drains w d -> Flush d meanwhile st = (true, w', st') ->
  contents st' = pending w (contents st) /\
  w' = fold_left writer_call_step meanwhile NewWriter.
Proof.
  intros [Hw _] (Hd & Hs & _). unfold Flush.
  destruct (until_failure DeleteSession _ st) as [[?|] st1] eqn:E1; [done|].
  destruct (until_failure SaveSession _ st1) as [[?|] st2] eqn:E2; [done|].
  destruct (until_failure SavePeer _ st2) as [[?|] st3] eqn:E3; [done|]. intros [= <- <-].
  split; [|done]. apply until_failure_deletes in E1. apply until_failure_saves in E2.
  apply until_failure_peers in E3. rewrite E3, E2, E1. apply map_eq. intros id.
  assert (Hin : forall s, s ∈ d_dirty d <-> exists i, dirty w !! i = Some s).
  { intros s. rewrite Hs, list_elem_of_fmap. setoid_rewrite elem_of_map_to_list'.
    split; [intros ([i s'] & -> & ?); eauto|intros (i & ?); exists (i, s); done]. }
  rewrite fold_saves, pending_lookup.
  - destruct (List.find _ _) as [s|] eqn:E.
    + apply find_some in E as [Hl E]. apply String.eqb_eq in E as <-.
      apply list_elem_of_In, Hin in Hl as (i & Hi). by rewrite (Hw _ _ Hi), Hi.
    + destruct (dirty w !! id) as [s|] eqn:Es.
      * exfalso. pose proof (find_none _ _ E s) as Hn. cbn in Hn. rewrite (Hw _ _ Es) in Hn.
        rewrite String.eqb_refl in Hn. discriminate Hn. apply list_elem_of_In, Hin. eauto.
      * apply option_eq. intros s. rewrite map_lookup_filter_Some. cbn.
        rewrite Hd, elem_of_elements. case_decide; naive_solver.
  - rewrite Hs, <- list_fmap_compose.
    rewrite (list_fmap_ext _ fst); [apply NoDup_fst_map_to_list|].
    intros i [k s] Hk. apply list_elem_of_lookup_2, elem_of_map_to_list in Hk. by apply Hw.
Qed.

End FlushLemmas.

(** ** Runs of a writer whose flushes succeed *)

Section Runs.
Context {St : Type} `{SessionStoreLaws St}.

Inductive wstep : Writer * St -> list writer_call -> Writer * St -> Prop :=
| ws_call w st c : wstep (w, st) [c] (writer_call_step w c, st)
| ws_flush w st d meanwhile w' st' :
    drains w d -> Flush d meanwhile st = (true, w', st') -> wstep (w, st) meanwhile (w', st').

(** The calls made on the writer during a run, in order. *)
Inductive wruns : Writer * St -> list writer_call -> Writer * St -> Prop :=
| wr_nil x : wruns x [] x
| wr_cons x c y cs z : wstep x c y -> wruns y cs z -> wruns x (c ++ cs)%list z.

Lemma wstep_pending x c y :
  wstep x c y -> writer_wf x.1 -> writer_wf y.1 /\
  pending y.1 (contents y.2) = fold_left map_call c (pending x.1 (contents x.2)).
Proof.
  intros Hst Hw. destruct Hst as [w st c|w st d meanwhile w' st' Hd Hf]; cbn [fst snd] in *.
  - by apply call_pending.
  - destruct (flush_contents w d meanwhile st w' st' Hw Hd Hf) as [-> ->].
    destruct (calls_pending meanwhile NewWriter (pending w (contents st)) NewWriter_wf) as [? ->].
    by rewrite pending_New.
Qed.

Lemma wruns_pending x cs y :
  wruns x cs y -> writer_wf x.1 -> writer_wf y.1 /\
  pending y.1 (contents y.2) = fold_left map_call cs (pending x.1 (contents x.2)).
Proof.
  induction 1 as [x|x c y cs z Hs Hr IH]; intros Hw; [done|].
  destruct (wstep_pending _ _ _ Hs Hw) as [Hw1 E]. destruct (IH Hw1) as [? ->].
  by rewrite fold_left_app, E.
Qed.

End Runs.

(** ** A store with a schedule of outcomes *)

Record MapStore := mkMapStore {
  ms_sessions : gmap string Checkpoint.SessionSnapshot;
  ms_peers : gmap (string * string) Checkpoint.PeerSnapshot;
  ms_outcomes : list bool
}.

(** The next operation succeeds unless the schedule says otherwise. *)
Definition ms_try (f : MapStore -> MapStore) (st : MapStore) : bool * MapStore :=
  match ms_outcomes st with
  | false :: l => (false, mkMapStore (ms_sessions st) (ms_peers st) l)
  | _ :: l => (true, f (mkMapStore (ms_sessions st) (ms_peers st) l))
  | [] => (true, f st)
  end.

#[export] Instance MapStore_store : SessionStore MapStore := {
  contents := ms_sessions;
  peer_contents := ms_peers;
  SaveSession snap := ms_try (fun st =>
    mkMapStore (<[Checkpoint.SessionID snap := snap]> (ms_sessions st)) (ms_peers st) (ms_outcomes st));
  DeleteSession id := ms_try (fun st =>
    mkMapStore (delete id (ms_sessions st)) (ms_peers st) (ms_outcomes st));
  SavePeer p := ms_try (fun st =>
    mkMapStore (ms_sessions st)
      (<[(Checkpoint.ps_Role p, Checkpoint.ps_Addr p) := p]> (ms_peers st)) (ms_outcomes st))
}.

#[export] Instance MapStore_laws : SessionStoreLaws MapStore.
Proof.
  split; intros * E; unfold SaveSession, DeleteSession, SavePeer, MapStore_store, ms_try in E;
    destruct st as [ss pp [|[] oo]]; cbn in *; by inversion E; subst.
Qed.

(** ** Properties *)

(** C25: The writer implements a map of snapshots: for every interleaving of saves,
    deletions and successful flushes, with calls also arriving while a flush talks to
    the store and for every iteration order, the store content with the pending work
    applied is the result of the calls in the order they were made; so once nothing is
    pending the store holds exactly the last snapshot of every session not deleted
    since, and a further flush changes nothing. *)
Theorem writer_implements_map {St : Type} `{SessionStoreLaws St} (st st' st'' : St) cs w d w'' :
  wruns (NewWriter, st) cs (w, st') -> drains w d -> Flush d [] st' = (true, w'', st'') ->
  pending w (contents st') = fold_left map_call cs (contents st) /\
  contents st'' = fold_left map_call cs (contents st) /\ w'' = NewWriter.
Proof.
  intros Hr Hd Hf. destruct (wruns_pending _ _ _ Hr NewWriter_wf) as [Hw E]. cbn [fst snd] in *.
  rewrite pending_New in E. split; [exact E|].
  destruct (flush_contents w d [] st' w'' st'' Hw Hd Hf) as [-> ->]. by rewrite E.
Qed.

Definition no_fteid : Checkpoint.FTEIDSnapshot := Checkpoint.mkFTEIDSnapshot 0 "".
Definition no_fseid : Checkpoint.FSEIDSnapshot := Checkpoint.mkFSEIDSnapshot 0 "".
Definition example_snapshot (id : string) : Checkpoint.SessionSnapshot :=
  Checkpoint.mkSessionSnapshot 1 id "001010123456789" "internet" 6 "001-01" no_fteid no_fteid
    no_fteid no_fteid "" 5 [] (Checkpoint.mkPFCPSessionBindingSnapshot no_fseid no_fseid "" "" false)
    (pfcpReconciliationSnapshot no_reconciliation) (pgwFailureSnapshot no_pgw_failure)
    (mmeRestorationSnapshot no_restoration) "active" 100 100 0.

Definition example_store (outcomes : list bool) : MapStore := mkMapStore ∅ ∅ outcomes.
Definition save_call (id : string) : writer_call :=
  Session (SaveSessionSnapshot (example_snapshot id)).
Definition example_writer : Writer :=
  fold_left writer_call_step [save_call "a"; Session (DeleteSessionSnapshot "b")] NewWriter.
Definition example_drained : drained := mkDrained ["b"] [example_snapshot "a"] [].

Lemma example_drains : drains example_writer example_drained.
Proof.
  split; [|split].
  - assert (E : elements (deleted example_writer) = ["b"]) by by_compute. by rewrite E.
  - assert (E : (map_to_list (dirty example_writer)).*2 = [example_snapshot "a"]) by by_compute.
    by rewrite E.
  - done.
Qed.

Lemma example_run : wruns (NewWriter, example_store [])
  [save_call "a"; Session (DeleteSessionSnapshot "b")] (example_writer, example_store []).
Proof.
  eapply (wr_cons _ [_]); [apply ws_call|]. eapply (wr_cons _ [_]); [apply ws_call|]. constructor.
Qed.

Lemma writer_implements_map_witness :
  contents (Flush example_drained [] (example_store [])).2
    = {[ "a" := example_snapshot "a" ]}.
Proof.
  pose proof (fun st'' w'' => writer_implements_map (example_store []) (example_store []) st'' _
    example_writer example_drained w'' example_run example_drains) as H.
  destruct (Flush _ _ _) as [[ok w''] st''] eqn:E.
  assert (ok = true) as -> by (vm_compute in E; congruence).
  destruct (H _ _ eq_refl) as (_ & H1 & _). cbn [snd]. rewrite H1. reflexivity.
Defined.

(** A flush that fails loses work: when the first deletion fails, the writer keeps
    that deletion and the calls made meanwhile, but none of the other snapshots,
    deletions and peers it had collected, and the store is as it was. *)
Lemma failed_flush_drops {St : Type} `{SessionStoreLaws St} w d meanwhile (st st1 : St) id ids :
  writer_wf w -> drains w d -> d_deleted d = id :: ids -> DeleteSession id st = (false, st1) ->
  Flush d meanwhile st
    = (false, requeueDelete id (fold_left writer_call_step meanwhile NewWriter), st1) /\
  contents st1 = contents st /\
  (meanwhile = [] -> forall i snap, dirty w !! i = Some snap ->
     pending w (contents st) !! i = Some snap /\
     pending (requeueDelete id NewWriter) (contents st1) !! i
       = if decide (i = id) then None else contents st !! i).
Proof.
  intros [_ Hx] Hd Ed Ef. split; [unfold Flush; rewrite Ed; cbn; by rewrite Ef|].
  apply DeleteSession_fails in Ef as [Ef _]. split; [done|]. intros -> i snap Hi.
  split; [by rewrite pending_lookup, Hi|]. rewrite pending_lookup, Ef. cbn.
  rewrite delete_empty, lookup_empty.
  repeat case_decide; set_solver.
Qed.
