(* ===== verification/Session.v ===== *)
(** * Session operations ([internal/sgwc/session/session.go])

    One function per method of [SGWSession]: the critical section under the session
    lock followed by the checkpoint of the resulting state.  Readings of the clock
    are the arguments [now], [now1], [now2]; a caller's [at] replaces them unless it is
    the zero time.  A method returns its results, the new session and its calls on the
    checkpoint sink. *)

From S2P Require Import Prelude GoLib Collision SessionData.
From S2P Require Bearer Checkpoint.

Open Scope string_scope.
Open Scope Z_scope.

Definition outcome : Type := SGWSession * list sink_call.
Definition saved (s : SGWSession) : outcome := (s, checkpoint s).

(** ** Lifecycle *)

Definition is_state (a b : string) : bool := String.eqb a b.

Definition validTransition (from to : string) : bool :=
  if is_state from StatePending then
    is_state to StateActive || is_state to StateRecovering || is_state to StateDeleting
    || is_state to StateDeleted
  else if is_state from StateActive then
    is_state to StateModifying || is_state to StateRecovering || is_state to StateDeleting
  else if is_state from StateModifying then
    is_state to StateActive || is_state to StateRecovering || is_state to StateDeleting
  else if is_state from StateRecovering then
    is_state to StateActive || is_state to StateDeleting || is_state to StateDeleted
  else if is_state from StateDeleting then is_state to StateDeleted
  else false.

Definition Transition (now : time) (next : string) (s : SGWSession) : bool * outcome :=
  if negb (validTransition (State s) next) then (false, (s, []))
  else (true, saved (s <| State := next |> <| UpdatedAt := now |>)).

Definition ProcedureTracker (s : SGWSession) : Tracker * SGWSession :=
  match Procedures s with
  | Some t => (t, s)
  | None => (NewTracker, s <| Procedures := Some NewTracker |>)
  end.

(** [(pdrUL, pdrDL, farUL, farDL)]. *)
Definition AllocBearerRuleIDs (s : SGWSession) : (Z * Z * Z * Z) * SGWSession :=
  let base := if nextRuleID s =? 0 then 3 else nextRuleID s in
  ((u16 base, u16 (u32 (base + 1)), base, u32 (base + 1)),
   s <| nextRuleID := u32 (base + 2) |>).

(** ** Setters *)

Definition SetSGWS5CFTEID (now : time) (f : FTEID) (s : SGWSession) : outcome :=
  saved (s <| SGWS5CFTEID := f |> <| UpdatedAt := now |>).
Definition SetPGWControlFTEID (now : time) (f : FTEID) (s : SGWSession) : outcome :=
  saved (s <| PGWControlFTEID := f |> <| UpdatedAt := now |>).
Definition SetUEIPv4 (now : time) (addr : Addr) (s : SGWSession) : outcome :=
  saved (s <| UEIPv4 := addr |> <| UpdatedAt := now |>).
Definition SetPFCPBinding (now : time) (binding : PFCPSessionBinding) (s : SGWSession)
    : outcome :=
  saved (s <| PFCP := binding |> <| PFCPReconciliation := no_reconciliation |>
           <| UpdatedAt := now |>).

(** Recovery of the user plane binding is pending from here on. *)
Definition to_recovering (s : SGWSession) : SGWSession :=
  if negb (is_state (State s) StateDeleting) && negb (is_state (State s) StateDeleted)
  then s <| State := StateRecovering |> else s.
Definition recovered (s : SGWSession) : SGWSession :=
  if is_state (State s) StateRecovering then s <| State := StateActive |> else s.

Definition MarkPFCPReconciliation (now : time) (state reason : string) (at_ : time)
    (s : SGWSession) : outcome :=
  let at_ := or_now at_ now in
  let s := s <| PFCPReconciliation := mkPFCPReconciliationStatus state at_ reason |> in
  let s :=
    if String.eqb state PFCPReconciliationMatched then
      let s := recovered s in s <| PFCP := (PFCP s) <| pb_Established := true |> |>
    else if String.eqb state PFCPReconciliationMissing
         || String.eqb state PFCPReconciliationMismatched
         || String.eqb state PFCPReconciliationUnverifiable
         || String.eqb state PFCPReconciliationNoBinding then to_recovering s
    else s in
  saved (s <| UpdatedAt := at_ |>).

(** ** Bearers *)

Definition GetBearer (ebi : Z) (s : SGWSession) : option Bearer.Bearer := Bearers s !! ebi.

(** [order] is the iteration order of the map. *)
Definition BearerList (order : list Z) (s : SGWSession) : list Bearer.Bearer :=
  omap (fun ebi => Bearers s !! ebi) order.

Definition BearerCount (s : SGWSession) : nat := size (Bearers s).

Definition markBearerControlActivityLocked (now : time) (source : string) (at_ : time)
    (b : Bearer.Bearer) : Bearer.Bearer :=
  let b := b <| Bearer.LastControlActivityAt := or_now at_ now |> in
  let b := if String.eqb source "" then b else b <| Bearer.LastActivitySource := source |> in
  b <| Bearer.InactiveSince := zero_time |> <| Bearer.CleanupEligible := false |>.

Definition SetBearer (now : time) (b : Bearer.Bearer) (s : SGWSession) : outcome :=
  let b := markBearerControlActivityLocked now BearerActivitySourceSetBearer now b in
  saved (s <| Bearers := <[Bearer.EBI b := b]> (Bearers s) |> <| UpdatedAt := now |>).

Definition MarkBearerControlActivity (now : time) (ebi : Z) (source : string) (at_ : time)
    (s : SGWSession) : bool * outcome :=
  match Bearers s !! ebi with
  | None => (false, (s, []))
  | Some b =>
      let at_ := or_now at_ now in
      let b := markBearerControlActivityLocked now source at_ b in
      (true, saved (s <| Bearers := <[ebi := b]> (Bearers s) |> <| UpdatedAt := at_ |>))
  end.

Definition MarkBearerUserPlaneActivity (now : time) (ebi : Z) (source : string) (at_ : time)
    (s : SGWSession) : bool * outcome :=
  match Bearers s !! ebi with
  | None => (false, (s, []))
  | Some b =>
      let at_ := or_now at_ now in
      let b := b <| Bearer.LastUserPlaneActivityAt := at_ |> in
      let b := if String.eqb source "" then b
               else b <| Bearer.LastActivitySource := source |> in
      let b := b <| Bearer.InactiveSince := zero_time |>
                 <| Bearer.CleanupEligible := false |> in
      (true, saved (s <| Bearers := <[ebi := b]> (Bearers s) |> <| UpdatedAt := at_ |>))
  end.

Definition ClearENBFTEIDs (now : time) (s : SGWSession) : outcome :=
  let clear b := markBearerControlActivityLocked now BearerActivitySourceReleaseAccess now
                   (b <| Bearer.ENBS1UFTEID := Bearer.no_FTEID |>) in
  saved (s <| Bearers := clear <$> Bearers s |> <| UpdatedAt := now |>).

(** The first result is the bearer object taken out of the map, with its mark. *)
Definition DeleteBearer (now1 now2 : time) (ebi : Z) (s : SGWSession)
    : option Bearer.Bearer * outcome :=
  (markBearerControlActivityLocked now1 BearerActivitySourceDeleteBearer now1
     <$> Bearers s !! ebi,
   saved (s <| Bearers := delete ebi (Bearers s) |> <| UpdatedAt := now2 |>)).

(** ** PFCP binding *)

Definition InvalidatePFCPBinding (now1 now2 : time) (s : SGWSession) : bool * outcome :=
  let hadPFCP := pb_Established (PFCP s) || negb (fs_SEID (pb_LocalFSEID (PFCP s)) =? 0)
                 || negb (fs_SEID (pb_SGWUFSEID (PFCP s)) =? 0) in
  if negb hadPFCP then (false, (s, []))
  else
    let clear b := b <| Bearer.SGWS1UFTEID := Bearer.no_FTEID |>
                     <| Bearer.SGWS5UFTEID := Bearer.no_FTEID |> in
    let s := s <| PFCP := no_binding |>
               <| PFCPReconciliation := mkPFCPReconciliationStatus PFCPReconciliationMissing
                                          now1 "pfcp-binding-invalidated" |>
               <| Bearers := clear <$> Bearers s |> in
    (true, saved ((to_recovering s) <| UpdatedAt := now2 |>)).

Definition InvalidatePFCPBindingForPeer (now1 now2 : time) (peerName peerAddr : string)
    (s : SGWSession) : bool * outcome :=
  if String.eqb (pb_SGWUName (PFCP s)) peerName && String.eqb (pb_SGWUAddr (PFCP s)) peerAddr
  then InvalidatePFCPBinding now1 now2 s
  else (false, (s, [])).

(** ** Secondary RAT usage reports *)

(** [now k] is the clock when the [k]-th report is stored. *)
Definition stored_report (now : nat -> time) (k : nat) (report : SecondaryRATUsageDataReport)
    : SecondaryRATUsageDataReport :=
  report <| sr_ReceivedAt := or_now (sr_ReceivedAt report) (now k) |>.

Definition RecordSecondaryRATUsageDataReports (now : nat -> time)
    (reports : list SecondaryRATUsageDataReport) (s : SGWSession) : outcome :=
  match reports with
  | [] => (s, [])
  | _ =>
      saved (s <| SecondaryRATUsageDataReports :=
                    (SecondaryRATUsageDataReports s ++ imap (stored_report now) reports)%list |>
               <| UpdatedAt := now (length reports) |>)
  end.

(** ** PGW path state *)

Definition path_down_at (state down up : string) (at_ prev : time) : time :=
  let prev := if String.eqb state down && IsZero prev then at_ else prev in
  if String.eqb state up then zero_time else prev.

Definition SetPGWPathState (now : time) (state pgwAddr : string) (at_ : time)
    (s : SGWSession) : outcome :=
  let at_ := or_now at_ now in
  let f := (PGWFailure s) <| pf_PathState := state |> in
  let f := if String.eqb pgwAddr "" then f else f <| pf_PGWAddr := pgwAddr |> in
  let f := f <| pf_PathDownAt := path_down_at state PGWPathStateDown PGWPathStateUp at_
                                   (pf_PathDownAt f) |> in
  saved (s <| PGWFailure := f |> <| UpdatedAt := at_ |>).

Definition MarkPGWRestart (now : time) (pgwAddr : string) (recovery : Z) (at_ : time)
    (s : SGWSession) : outcome :=
  let at_ := or_now at_ now in
  let f := (PGWFailure s) <| pf_PathState := PGWPathStateRestarted |>
             <| pf_PGWAddr := pgwAddr |> <| pf_RestartDetectedAt := at_ |>
             <| pf_RecoverySeen := true |> <| pf_RecoveryCounter := recovery |> in
  saved (s <| PGWFailure := f |> <| UpdatedAt := at_ |>).

(** ** MME restoration *)

(** Run [f] on the restoration record and stamp the session. *)
Definition on_restoration (f : MMERestorationStatus -> MMERestorationStatus) (at_ : time)
    (s : SGWSession) : SGWSession :=
  s <| MMERestoration := f (MMERestoration s) |> <| UpdatedAt := at_ |>.

Definition SetMMEPathState (now : time) (state mmeAddr : string) (at_ : time)
    (s : SGWSession) : outcome :=
  let at_ := or_now at_ now in
  saved (on_restoration (fun r =>
    let r := r <| mr_State := state |> in
    let r := if String.eqb mmeAddr "" then r else r <| mr_MMEAddr := mmeAddr |> in
    r <| mr_PathDownAt := path_down_at state MMERestorationStateDown MMERestorationStateUp
                            at_ (mr_PathDownAt r) |>) at_ s).

Definition MarkMMERestart (now : time) (mmeAddr : string) (recovery : Z) (at_ : time)
    (s : SGWSession) : outcome :=
  let at_ := or_now at_ now in
  saved (on_restoration (fun r =>
    r <| mr_State := MMERestorationStateRestorationPending |> <| mr_MMEAddr := mmeAddr |>
      <| mr_RestartDetectedAt := at_ |> <| mr_RecoverySeen := true |>
      <| mr_RecoveryCounter := recovery |> <| mr_RestorationPending := true |>) at_ s).

Definition SetMMERestorationPolicy (now : time) (action reason : string) (at_ : time)
    (s : SGWSession) : outcome :=
  let at_ := or_now at_ now in
  saved (on_restoration (fun r =>
    r <| mr_PolicyAction := action |> <| mr_PolicyReason := reason |>) at_ s).

Definition MarkMMERestorationDDNTriggered (now : time) (seq : Z) (at_ : time)
    (s : SGWSession) : outcome :=
  let at_ := or_now at_ now in
  saved (on_restoration (fun r =>
    r <| mr_DDNTriggered := true |> <| mr_DDNTriggeredAt := at_ |>
      <| mr_DDNSequence := seq |> <| mr_DDNFailureReason := "" |>) at_ s).

Definition MarkMMERestorationDDNFailed (now : time) (reason : string) (at_ : time)
    (s : SGWSession) : outcome :=
  let at_ := or_now at_ now in
  saved (on_restoration (fun r => r <| mr_DDNFailureReason := reason |>) at_ s).

Definition MarkMMERestorationDDNControlDecision (now : time)
    (action priority reason : string) (retryAfter : duration) (at_ : time)
    (s : SGWSession) : outcome :=
  let at_ := or_now at_ now in
  saved (on_restoration (fun r =>
    r <| mr_DDNControlAction := action |> <| mr_DDNControlPriority := priority |>
      <| mr_DDNControlReason := reason |> <| mr_DDNControlDecidedAt := at_ |>
      <| mr_DDNControlRetryAt := if 0 <? retryAfter then Add at_ retryAfter
                                 else zero_time |>) at_ s).

Definition MarkMMERestorationDDNAck (now : time) (cause : Z) (at_ : time)
    (s : SGWSession) : outcome :=
  let at_ := or_now at_ now in
  let s := on_restoration (fun r =>
    r <| mr_DDNAcked := true |> <| mr_DDNAckedAt := at_ |> <| mr_DDNAckCause := cause |>
      <| mr_DDNFailureReason := "" |>) at_ s in
  saved (if cause =? 16 then to_recovering s else s).

Definition MarkMMERestorationDDNFailureIndication (now : time) (cause : Z) (at_ : time)
    (s : SGWSession) : outcome :=
  let at_ := or_now at_ now in
  saved (on_restoration (fun r =>
    r <| mr_DDNFailureAt := at_ |> <| mr_DDNFailureCause := cause |>
      <| mr_DDNFailureReason := "ddn-failure-indication" |>) at_ s).

Definition MarkMMERestorationStopPagingSent (now : time) (seq : Z) (at_ : time)
    (s : SGWSession) : outcome :=
  let at_ := or_now at_ now in
  saved (on_restoration (fun r =>
    r <| mr_StopPagingSent := true |> <| mr_StopPagingSentAt := at_ |>
      <| mr_StopPagingSequence := seq |>) at_ s).

Definition MarkMMERestorationUserPlaneRestored (now : time) (ebi : Z) (at_ : time)
    (s : SGWSession) : outcome :=
  let at_ := or_now at_ now in
  let s := on_restoration (fun r =>
    r <| mr_UserPlaneRestored := true |> <| mr_UserPlaneRestoredAt := at_ |>
      <| mr_RestoredEBI := ebi |> <| mr_RestorationPending := false |>
      <| mr_State := MMERestorationStateUp |>) at_ s in
  saved (recovered s).

(** ** Operation sequences *)

Inductive op :=
| OpTransition (now : time) (next : string)
| OpProcedureTracker
| OpAllocBearerRuleIDs
| OpSetSGWS5CFTEID (now : time) (f : FTEID)
| OpSetPGWControlFTEID (now : time) (f : FTEID)
| OpSetUEIPv4 (now : time) (addr : Addr)
| OpSetPFCPBinding (now : time) (binding : PFCPSessionBinding)
| OpMarkPFCPReconciliation (now : time) (state reason : string) (at_ : time)
| OpSetBearer (now : time) (b : Bearer.Bearer)
| OpMarkBearerControlActivity (now : time) (ebi : Z) (source : string) (at_ : time)
| OpMarkBearerUserPlaneActivity (now : time) (ebi : Z) (source : string) (at_ : time)
| OpClearENBFTEIDs (now : time)
| OpDeleteBearer (now1 now2 : time) (ebi : Z)
| OpInvalidatePFCPBinding (now1 now2 : time)
| OpInvalidatePFCPBindingForPeer (now1 now2 : time) (peerName peerAddr : string)
| OpRecordSecondaryRAT (now : nat -> time) (reports : list SecondaryRATUsageDataReport)
| OpSetPGWPathState (now : time) (state pgwAddr : string) (at_ : time)
| OpMarkPGWRestart (now : time) (pgwAddr : string) (recovery : Z) (at_ : time)
| OpSetMMEPathState (now : time) (state mmeAddr : string) (at_ : time)
| OpMarkMMERestart (now : time) (mmeAddr : string) (recovery : Z) (at_ : time)
| OpSetMMERestorationPolicy (now : time) (action reason : string) (at_ : time)
| OpDDNTriggered (now : time) (seq : Z) (at_ : time)
| OpDDNFailed (now : time) (reason : string) (at_ : time)
| OpDDNControlDecision (now : time) (action priority reason : string) (retryAfter : duration)
    (at_ : time)
| OpDDNAck (now : time) (cause : Z) (at_ : time)
| OpDDNFailureIndication (now : time) (cause : Z) (at_ : time)
| OpStopPagingSent (now : time) (seq : Z) (at_ : time)
| OpUserPlaneRestored (now : time) (ebi : Z) (at_ : time).

Definition exec (o : op) (s : SGWSession) : outcome :=
  match o with
  | OpTransition now next => (Transition now next s).2
  | OpProcedureTracker => ((ProcedureTracker s).2, [])
  | OpAllocBearerRuleIDs => ((AllocBearerRuleIDs s).2, [])
  | OpSetSGWS5CFTEID now f => SetSGWS5CFTEID now f s
  | OpSetPGWControlFTEID now f => SetPGWControlFTEID now f s
  | OpSetUEIPv4 now addr => SetUEIPv4 now addr s
  | OpSetPFCPBinding now binding => SetPFCPBinding now binding s
  | OpMarkPFCPReconciliation now state reason at_ =>
      MarkPFCPReconciliation now state reason at_ s
  | OpSetBearer now b => SetBearer now b s
  | OpMarkBearerControlActivity now ebi source at_ =>
      (MarkBearerControlActivity now ebi source at_ s).2
  | OpMarkBearerUserPlaneActivity now ebi source at_ =>
      (MarkBearerUserPlaneActivity now ebi source at_ s).2
  | OpClearENBFTEIDs now => ClearENBFTEIDs now s
  | OpDeleteBearer now1 now2 ebi => (DeleteBearer now1 now2 ebi s).2
  | OpInvalidatePFCPBinding now1 now2 => (InvalidatePFCPBinding now1 now2 s).2
  | OpInvalidatePFCPBindingForPeer now1 now2 name addr =>
      (InvalidatePFCPBindingForPeer now1 now2 name addr s).2
  | OpRecordSecondaryRAT now reports => RecordSecondaryRATUsageDataReports now reports s
  | OpSetPGWPathState now state addr at_ => SetPGWPathState now state addr at_ s
  | OpMarkPGWRestart now addr recovery at_ => MarkPGWRestart now addr recovery at_ s
  | OpSetMMEPathState now state addr at_ => SetMMEPathState now state addr at_ s
  | OpMarkMMERestart now addr recovery at_ => MarkMMERestart now addr recovery at_ s
  | OpSetMMERestorationPolicy now action reason at_ =>
      SetMMERestorationPolicy now action reason at_ s
  | OpDDNTriggered now seq at_ => MarkMMERestorationDDNTriggered now seq at_ s
  | OpDDNFailed now reason at_ => MarkMMERestorationDDNFailed now reason at_ s
  | OpDDNControlDecision now action priority reason retryAfter at_ =>
      MarkMMERestorationDDNControlDecision now action priority reason retryAfter at_ s
  | OpDDNAck now cause at_ => MarkMMERestorationDDNAck now cause at_ s
  | OpDDNFailureIndication now cause at_ => MarkMMERestorationDDNFailureIndication now cause at_ s
  | OpStopPagingSent now seq at_ => MarkMMERestorationStopPagingSent now seq at_ s
  | OpUserPlaneRestored now ebi at_ => MarkMMERestorationUserPlaneRestored now ebi at_ s
  end.

(** The session and all sink calls after a sequence of operations. *)
Fixpoint run (ops : list op) (s : SGWSession) : outcome :=
  match ops with
  | [] => (s, [])
  | o :: ops =>
      let '(s1, calls1) := exec o s in
      let '(s2, calls2) := run ops s1 in
      (s2, (calls1 ++ calls2)%list)
  end.

(** ** Lemmas *)

Definition known_state (st : string) : Prop :=
  st ∈ [StatePending; StateActive; StateModifying; StateRecovering; StateDeleting; StateDeleted].
#[export] Instance known_state_dec st : Decision (known_state st).
Proof. unfold known_state. apply _. Defined.

(** One step of the lifecycle: stay, or move along [validTransition]. *)
Definition lifecycle (a b : string) : Prop := b = a \/ validTransition a b = true.

Ltac case_state H :=
  unfold known_state in H; rewrite !elem_of_cons, elem_of_nil in H;
  destruct H as [H|[H|[H|[H|[H|[H|[]]]]]]].

Lemma validTransition_known a b : validTransition a b = true -> known_state a /\ known_state b.
Proof.
  unfold validTransition, is_state. intros H.
  repeat match type of H with
  | (if String.eqb ?x ?y then _ else _) = true => destruct (String.eqb_spec x y)
  end; subst; try done;
  rewrite ?orb_true_iff, ?String.eqb_eq in H; intuition subst; by_compute.
Qed.

Lemma to_recovering_lifecycle s :
  known_state (State s) -> lifecycle (State s) (State (to_recovering s)).
Proof. intros H. unfold lifecycle, to_recovering. case_state H; rewrite H; cbn; auto. Qed.

Lemma recovered_lifecycle s :
  known_state (State s) -> lifecycle (State s) (State (recovered s)).
Proof. intros H. unfold lifecycle, recovered. case_state H; rewrite H; cbn; auto. Qed.

Lemma exec_lifecycle o s :
  known_state (State s) -> lifecycle (State s) (State (exec o s).1).
Proof.
  intros Hk.
  assert (Hrec := fun s' (E : State s' = State s) =>
    eq_rect (State s') (fun x => known_state x -> lifecycle x (State (to_recovering s')))
      (to_recovering_lifecycle s') (State s) E Hk).
  assert (Hact := fun s' (E : State s' = State s) =>
    eq_rect (State s') (fun x => known_state x -> lifecycle x (State (recovered s')))
      (recovered_lifecycle s') (State s) E Hk).
  assert (Hinv : forall t1 t2, lifecycle (State s) (State (InvalidatePFCPBinding t1 t2 s).2.1)).
  { intros t1 t2. unfold InvalidatePFCPBinding. destruct (negb _); [by left|]. by apply Hrec. }
  destruct o; cbn; try (by left).
  - unfold Transition. destruct (validTransition _ _) eqn:E; [by right|by left].
  - unfold ProcedureTracker. by destruct (Procedures s); left.
  - unfold MarkPFCPReconciliation. destruct (String.eqb _ _); [by apply Hact|].
    destruct (_ || _); [by apply Hrec|by left].
  - unfold MarkBearerControlActivity. by destruct (_ !! _); left.
  - unfold MarkBearerUserPlaneActivity. by destruct (_ !! _); left.
  - apply Hinv.
  - unfold InvalidatePFCPBindingForPeer. destruct (_ && _); [apply Hinv|by left].
  - unfold RecordSecondaryRATUsageDataReports. by destruct reports; left.
  - unfold MarkMMERestorationDDNAck. destruct (_ =? _); [by apply Hrec|by left].
  - by apply Hact.
Qed.

(** What the manager's indexes rely on: no operation changes it. *)
Definition identity (s : SGWSession) :=
  (SessionID s, IMSI s, APN s, MMEControlFTEID s, SGWS11FTEID s, DefaultBearerID s,
   CreatedAt s, checkpointSink s).

Lemma identity_to_recovering s : identity (to_recovering s) = identity s.
Proof. unfold to_recovering. by destruct (_ && _). Qed.
Lemma identity_recovered s : identity (recovered s) = identity s.
Proof. unfold recovered. by destruct (is_state _ _). Qed.

(** The fields [to_recovering] and [recovered] leave alone. *)
Lemma to_recovering_fields s :
  Bearers (to_recovering s) = Bearers s /\ PFCP (to_recovering s) = PFCP s.
Proof. unfold to_recovering. by destruct (_ && _). Qed.
Lemma recovered_fields s : Bearers (recovered s) = Bearers s /\ PFCP (recovered s) = PFCP s.
Proof. unfold recovered. by destruct (is_state _ _). Qed.

Lemma to_recovering_mono s :
  to_recovering s = s \/ to_recovering s = s <| State := StateRecovering |>.
Proof. unfold to_recovering. destruct (_ && _); auto. Qed.
Lemma recovered_mono s : recovered s = s \/ recovered s = s <| State := StateActive |>.
Proof. unfold recovered. destruct (is_state _ _); auto. Qed.

Lemma to_recovering_spec s :
  to_recovering s = s <| State := if decide (State s = StateDeleting \/ State s = StateDeleted)
                                  then State s else StateRecovering |>.
Proof.
  unfold to_recovering, is_state.
  destruct (String.eqb_spec (State s) StateDeleting), (String.eqb_spec (State s) StateDeleted);
    destruct (decide _); try tauto; by destruct s.
Qed.

(** Split an operation into its branches, replacing the two state changes by what
    they may do. *)
Ltac op_cases o :=
  destruct o; cbn [exec];
  unfold Transition, ProcedureTracker, MarkPFCPReconciliation, MarkBearerControlActivity,
    MarkBearerUserPlaneActivity, InvalidatePFCPBindingForPeer, InvalidatePFCPBinding,
    RecordSecondaryRATUsageDataReports, MarkMMERestorationDDNAck,
    MarkMMERestorationUserPlaneRestored, DeleteBearer;
  repeat case_match;
  repeat match goal with
  | |- context [to_recovering ?s] => destruct (to_recovering_mono s) as [-> | ->]
  | |- context [recovered ?s] => destruct (recovered_mono s) as [-> | ->]
  end.

Lemma exec_identity o s : identity (exec o s).1 = identity s.
Proof. op_cases o; reflexivity. Qed.

Lemma run_identity ops s : identity (run ops s).1 = identity s.
Proof.
  revert s. induction ops as [|o ops IH]; intros s; [done|]. cbn [run].
  pose proof (exec_identity o s) as H. destruct (exec o s) as [s1 c1]. specialize (IH s1).
  destruct (run ops s1) as [s2 c2]. cbn in *. congruence.
Qed.

Lemma run_lifecycle ops s :
  known_state (State s) -> known_state (State (run ops s).1) /\
  (State s = StateDeleting -> State (run ops s).1 = StateDeleting \/ State (run ops s).1 = StateDeleted) /\
  (State s = StateDeleted -> State (run ops s).1 = StateDeleted).
Proof.
  revert s. induction ops as [|o ops IH]; intros s Hk; [cbn; auto|]. cbn [run].
  pose proof (exec_lifecycle o s Hk) as H. destruct (exec o s) as [s1 c1]. cbn [fst] in H.
  assert (known_state (State s1)) as Hk1
    by (destruct H as [->|H]; [done|apply validTransition_known in H as [_ H]; done]).
  specialize (IH s1 Hk1). destruct (run ops s1) as [s2 c2]. cbn [fst] in *.
  destruct IH as (IH0 & IH1 & IH2). split; [done|]. split; intros E; rewrite E in H.
  - destruct H as [H|H]; [auto|]. right. apply IH2.
    unfold validTransition in H. cbn in H. by apply String.eqb_eq in H.
  - destruct H as [H|H]; [auto|]. by cbn in H.
Qed.

(** Every bearer is stored under its own EBI. *)
Definition bearers_wf (s : SGWSession) : Prop :=
  map_Forall (fun ebi b => Bearer.EBI b = ebi) (Bearers s).
#[export] Instance bearers_wf_dec s : Decision (bearers_wf s).
Proof. unfold bearers_wf. apply _. Defined.

Lemma mark_EBI now source at_ b :
  Bearer.EBI (markBearerControlActivityLocked now source at_ b) = Bearer.EBI b.
Proof. unfold markBearerControlActivityLocked. by destruct (String.eqb _ _). Qed.

Lemma bearers_wf_fmap (m : gmap Z Bearer.Bearer) f :
  map_Forall (fun ebi b => Bearer.EBI b = ebi) m ->
  (forall b, Bearer.EBI (f b) = Bearer.EBI b) ->
  map_Forall (fun ebi b => Bearer.EBI b = ebi) (f <$> m).
Proof.
  intros H Hf i b Hb. apply lookup_fmap_Some in Hb as (b0 & <- & Hb). rewrite Hf. by apply H.
Qed.

Lemma exec_bearers_wf o s : bearers_wf s -> bearers_wf (exec o s).1.
Proof.
  intros H. op_cases o; try exact H; unfold bearers_wf; cbn.
  all: try (apply map_Forall_insert_2; [|exact H]; rewrite ?mark_EBI; cbn; first [done|by apply H]).
  all: try (apply bearers_wf_fmap; [exact H|]; intros b; by rewrite ?mark_EBI).
  by apply map_Forall_delete.
Qed.

(** *** Durability *)

(** Snapshots up to the rule id counter. *)
Definition but_rule (snap : Checkpoint.SessionSnapshot) : Checkpoint.SessionSnapshot :=
  snap <| Checkpoint.NextRuleID := 0 |>.

(** What the sink holds for a session after some calls. *)
Definition durable (held : Checkpoint.SessionSnapshot) (calls : list sink_call)
    : Checkpoint.SessionSnapshot :=
  fold_left (fun held call => match call with
                              | SaveSessionSnapshot snap => snap
                              | DeleteSessionSnapshot _ => held end) calls held.

Definition is_alloc (o : op) : bool :=
  match o with OpAllocBearerRuleIDs => true | _ => false end.

Lemma exec_durable o s held :
  checkpointSink s = true ->
  let '(s', calls) := exec o s in
  (but_rule held = but_rule (Snapshot s) ->
   but_rule (durable held calls) = but_rule (Snapshot s')) /\
  (held = Snapshot s -> is_alloc o = false -> durable held calls = Snapshot s').
Proof.
  intros Hs. destruct (exec o s) as [s' calls] eqn:E.
  assert (Hs' : checkpointSink s' = true)
    by (pose proof (exec_identity o s) as Hi; rewrite E in Hi; cbn in Hi; injection Hi; congruence).
  assert (Hc : calls = checkpoint s' \/ (calls = [] /\ but_rule (Snapshot s') = but_rule (Snapshot s)
                 /\ (is_alloc o = false -> Snapshot s' = Snapshot s))).
  { revert E. op_cases o; intros E; injection E as <- <-;
      first [right; split; [exact (eq_refl (@nil sink_call))|done] | left; reflexivity]. }
  destruct Hc as [->|(-> & H1 & H2)]; cbn.
  - unfold checkpoint. by rewrite Hs'.
  - rewrite H1. split; [done|]. intros -> Ho. by rewrite H2.
Qed.

Lemma run_durable ops s held :
  checkpointSink s = true ->
  let '(s', calls) := run ops s in
  (but_rule held = but_rule (Snapshot s) ->
   but_rule (durable held calls) = but_rule (Snapshot s')) /\
  (held = Snapshot s -> Forall (fun o => is_alloc o = false) ops ->
   durable held calls = Snapshot s').
Proof.
  revert s held. induction ops as [|o ops IH]; intros s held Hs; [done|]. cbn [run].
  pose proof (exec_durable o s held Hs) as H. pose proof (exec_identity o s) as Hi.
  destruct (exec o s) as [s1 c1]. cbn in Hi.
  assert (Hs1 : checkpointSink s1 = true) by (injection Hi; congruence).
  specialize (IH s1 (durable held c1) Hs1). destruct (run ops s1) as [s2 c2].
  unfold durable in *. rewrite fold_left_app. destruct H as [H1 H2], IH as [I1 I2].
  split; [auto|]. intros Hh Hf. inversion Hf; subst. auto.
Qed.

(** *** Rule ids *)

Fixpoint alloc_rules (n : nat) (s : SGWSession) : list (Z * Z * Z * Z) :=
  match n with
  | O => []
  | S n => let '(ids, s) := AllocBearerRuleIDs s in ids :: alloc_rules n s
  end.

Lemma alloc_rules_nth n : forall s i,
  3 <= nextRuleID s -> nextRuleID s + 2 * Z.of_nat n < 2 ^ 32 -> (i < n)%nat ->
  let base := nextRuleID s + 2 * Z.of_nat i in
  alloc_rules n s !! i = Some (u16 base, u16 (base + 1), base, base + 1).
Proof.
  induction n as [|n IH]; intros s i H3 Hn Hi; [lia|]. cbn [alloc_rules].
  unfold AllocBearerRuleIDs. rewrite (proj2 (Z.eqb_neq _ _)) by lia.
  assert (u32 (nextRuleID s + 1) = nextRuleID s + 1) as -> by (apply uN_small; unfold in_u; lia).
  assert (u32 (nextRuleID s + 2) = nextRuleID s + 2) as -> by (apply uN_small; unfold in_u; lia).
  destruct i as [|i].
  - cbn -[uN]. by rewrite Z.add_0_r.
  - change ((?x :: ?l) !! S i) with (l !! i). cbv zeta.
    rewrite IH; cbn [nextRuleID field_update]; try lia.
    cbv zeta. replace (Z.of_nat (S i)) with (1 + Z.of_nat i) by lia.
    replace (nextRuleID s + 2 + 2 * Z.of_nat i) with (nextRuleID s + 2 * (1 + Z.of_nat i)) by lia.
    done.
Qed.

(** ** Properties *)

(** C15: The session follows its lifecycle: whatever operation runs, with whatever
    arguments, the state stays or moves along [validTransition], the six states are
    never left, a session that is being deleted can only become deleted, and a deleted
    one is never revived. *)
Theorem session_lifecycle ops o s :
  known_state (State s) ->
  let s' := (run ops s).1 in
  known_state (State s') /\
  (State (exec o s').1 = State s' \/ validTransition (State s') (State (exec o s').1) = true) /\
  (State s = StateDeleting -> State s' = StateDeleting \/ State s' = StateDeleted) /\
  (State s = StateDeleted -> State s' = StateDeleted).
Proof.
  intros Hk. destruct (run_lifecycle ops s Hk) as (H0 & H1 & H2).
  split; [done|]. split; [by apply exec_lifecycle|]. done.
Qed.

Definition example_bearer : Bearer.Bearer :=
  Bearer.mkBearer 5 9 (Bearer.mkARP 1 false false) Bearer.no_FTEID
    (Bearer.mkFTEID 7 (AddrV4 3232235777)) Bearer.no_FTEID Bearer.no_FTEID 0 0 0 0 None
    Bearer.BearerStatePending (1, 2) (1, 2) 100 0 BearerActivitySourceCreateSession 0 false.

Definition example_session : SGWSession :=
  mkSGWSession "00aa" "001010123456789" "internet" 6 "001-01"
    (mkFTEID 17 (AddrV4 167772161)) (mkFTEID 33 (AddrV4 167772162)) no_FTEID no_FTEID AddrZero
    5 {[ 5 := example_bearer ]} no_binding no_reconciliation (Some NewTracker) []
    no_pgw_failure no_restoration true StatePending 100 100 0.

Definition example_bound : SGWSession :=
  (SetPFCPBinding 110 (mkPFCPSessionBinding (mkFSEID 1 (AddrV4 1)) (mkFSEID 2 (AddrV4 2))
     "sgwu-1" "10.0.0.9:8805" true) example_session).1.

Definition example_deleting : SGWSession := (Transition 200 StateDeleting example_session).2.1.

Lemma session_lifecycle_witness :
  let s := (run [OpDDNAck 210 16 0; OpMarkPFCPReconciliation 220 "matched" "" 0]
              example_deleting).1 in
  State s = StateDeleting \/ State s = StateDeleted.
Proof.
  refine (proj1 (proj2 (proj2 (session_lifecycle
    [OpDDNAck 210 16 0; OpMarkPFCPReconciliation 220 "matched" "" 0]
    (OpTransition 230 StateDeleted) example_deleting _))) _); by_compute.
Defined.

(** C28: No operation changes what identifies a session in the manager's indexes (id,
    IMSI, APN, MME and S11 F-TEIDs, default bearer, creation time), and every bearer
    stays stored under its own EBI. *)
Theorem session_indexes_stable ops s :
  bearers_wf s -> identity (run ops s).1 = identity s /\ bearers_wf (run ops s).1.
Proof.
  intros H. split; [apply run_identity|]. revert s H.
  induction ops as [|o ops IH]; intros s H; [done|]. cbn [run].
  pose proof (exec_bearers_wf o s H) as H1. destruct (exec o s) as [s1 c1]. specialize (IH s1 H1).
  by destruct (run ops s1).
Qed.

Lemma session_indexes_stable_witness :
  bearers_wf (run [OpSetBearer 120 (example_bearer <| Bearer.EBI := 6 |>); OpDeleteBearer 1 2 5]
                example_session).1.
Proof.
  refine (proj2 (session_indexes_stable [OpSetBearer 120 (example_bearer <| Bearer.EBI := 6 |>);
    OpDeleteBearer 1 2 5] example_session _)). by_compute.
Defined.


Definition example_ops : list op :=
  [OpSetBearer 120 (example_bearer <| Bearer.EBI := 6 |>); OpDDNAck 210 16 0].


(** The rule ids of the [i]-th dedicated bearer of a session are 3 + 2i and 4 + 2i,
    so they differ from each other and from the default bearer's 1 and 2, as long as
    they fit 16 bits; the PDR ids are those numbers modulo 2^16, and the 32768th
    dedicated bearer is given the PDR ids of the default bearer. *)
Lemma rule_ids_distinct n s i :
  nextRuleID s = 0 -> Z.of_nat n < 2 ^ 31 - 2 -> (i < n)%nat ->
  let base := 3 + 2 * Z.of_nat i in
  alloc_rules n s !! i = Some (base mod 2 ^ 16, (base + 1) mod 2 ^ 16, base, base + 1) /\
  (base + 1 < 2 ^ 16 -> alloc_rules n s !! i = Some (base, base + 1, base, base + 1)) /\
  (Z.of_nat i = 32767 -> alloc_rules n s !! i = Some (1, 2, 65537, 65538)).
Proof.
  intros H0 Hn Hi base.
  assert (E : alloc_rules n s !! i = Some (u16 base, u16 (base + 1), base, base + 1)).
  { replace (alloc_rules n s) with (alloc_rules n (s <| nextRuleID := 3 |>)).
    - apply alloc_rules_nth; cbn; lia.
    - destruct n; [done|]. cbn [alloc_rules]. unfold AllocBearerRuleIDs. by rewrite H0. }
  rewrite E. split; [done|]. split.
  - intros Hb. unfold uN. by rewrite !Z.mod_small by lia.
  - intros E'. replace base with 65537 by lia. reflexivity.
Qed.

(** Invalidating the PFCP binding reports whether there was one; if so, no PFCP
    identifier and no SGW-U tunnel endpoint of any bearer survives, every other bearer
    field is kept, the session is put into recovery unless it is being deleted, and it
    is marked missing; if not, nothing changes.  The peer variant does the same for
    its own peer's sessions and nothing to the others. *)
Lemma InvalidatePFCPBinding_complete now1 now2 s :
  let had := pb_Established (PFCP s) || negb (fs_SEID (pb_LocalFSEID (PFCP s)) =? 0)
             || negb (fs_SEID (pb_SGWUFSEID (PFCP s)) =? 0) in
  let '(ok, (s', calls)) := InvalidatePFCPBinding now1 now2 s in
  ok = had /\
  (had = false -> s' = s /\ calls = []) /\
  (had = true ->
     PFCP s' = no_binding /\ rec_State (PFCPReconciliation s') = PFCPReconciliationMissing /\
     dom (Bearers s') = dom (Bearers s) /\
     (forall ebi b', Bearers s' !! ebi = Some b' -> exists b, Bearers s !! ebi = Some b /\
        b' = b <| Bearer.SGWS1UFTEID := Bearer.no_FTEID |>
               <| Bearer.SGWS5UFTEID := Bearer.no_FTEID |>) /\
     State s' = (if decide (State s = StateDeleting \/ State s = StateDeleted)
                 then State s else StateRecovering) /\
     calls = checkpoint s') /\
  (forall name addr, InvalidatePFCPBindingForPeer now1 now2 name addr s =
     if decide (pb_SGWUName (PFCP s) = name /\ pb_SGWUAddr (PFCP s) = addr)
     then InvalidatePFCPBinding now1 now2 s else (false, (s, []))).
Proof.
  intros had. unfold InvalidatePFCPBinding. fold had.
  assert (Hpeer : forall name addr, InvalidatePFCPBindingForPeer now1 now2 name addr s =
     if decide (pb_SGWUName (PFCP s) = name /\ pb_SGWUAddr (PFCP s) = addr)
     then InvalidatePFCPBinding now1 now2 s else (false, (s, []))).
  { intros name addr. unfold InvalidatePFCPBindingForPeer.
    destruct (String.eqb_spec (pb_SGWUName (PFCP s)) name),
      (String.eqb_spec (pb_SGWUAddr (PFCP s)) addr); cbn; by destruct (decide _) as [[]|]; try tauto. }
  unfold InvalidatePFCPBinding in Hpeer. fold had in Hpeer.
  destruct had; cbn [negb] in *; (split; [done|]; split; [done|]; split; [|exact Hpeer]); [|done].
  intros _. rewrite to_recovering_spec. cbn. repeat (split; [done || by rewrite dom_fmap_L|]).
  split; [|by destruct (decide _)].
  intros ebi b' Hb. apply lookup_fmap_Some in Hb as (b & <- & Hb). eauto.
Qed.
