(* ===== verification/Teid.v ===== *)
(** * TEID allocation and the restart counter
    ([internal/sgwc/teid/allocator.go], [internal/sgwc/recovery/recovery.go])

    The random source is an argument: [rnd k] is the outcome of the [k]-th four-byte
    read, [None] when [rand.Read] fails.  The restart counter's file is an argument
    too: its previous contents, or why it could not be read. *)

From S2P Require Import Prelude GoLib.

(** ** TEID allocator *)

Record Allocator := mkAllocator { used : gset Z }.

Inductive TeidError := RandRead | Exhausted.

Definition NewAllocator : Allocator := mkAllocator ∅.

Definition randomU32 (b : option bytes) : option Z := be_val <$> b.

Fixpoint Alloc_loop (attempts : nat) (rnd : nat -> option bytes) (k : nat) (a : Allocator)
    : result TeidError Z * Allocator :=
  match attempts with
  | O => (Err Exhausted, a)
  | S attempts =>
      match randomU32 (rnd k) with
      | None => (Err RandRead, a)
      | Some t =>
          if t =? 0 then Alloc_loop attempts rnd (S k) a
          else if decide (t ∈ used a) then Alloc_loop attempts rnd (S k) a
          else (Ok t, mkAllocator ({[ t ]} ∪ used a))
      end
  end.

Definition Alloc (rnd : nat -> option bytes) (a : Allocator) : result TeidError Z * Allocator :=
  Alloc_loop 1024 rnd 0 a.

Definition Free (t : Z) (a : Allocator) : Allocator :=
  if t =? 0 then a else mkAllocator (used a ∖ {[ t ]}).

Definition Reserve (t : Z) (a : Allocator) : bool * Allocator :=
  if t =? 0 then (false, a)
  else if decide (t ∈ used a) then (false, a)
  else (true, mkAllocator ({[ t ]} ∪ used a)).

Definition Len (a : Allocator) : nat := size (used a).

(** The outcomes of [rand.Read] on a four-byte buffer. *)
Definition random_words (rnd : nat -> option bytes) : Prop :=
  forall k b, rnd k = Some b -> length b = 4%nat /\ bytes_ok b.

(** ** Restart counter *)

(** [New(initial)]: the stored counter value. *)
Definition New (initial : Z) : Z := u32 (Z.land (u8 (initial + 1)) 0xFF).
Definition Value (val : Z) : Z := u8 (Z.land val 0xFF).
(** [Increment] as the compare-and-swap that succeeds: [(result, new value)]. *)
Definition Increment (val : Z) : Z * Z :=
  let next := Z.land (u32 (val + 1)) 0xFF in (u8 next, next).

Inductive read_file := FileData (data : bytes) | NotExist | ReadFails.
Inductive RecoveryError := ErrRead | ErrMkdir | ErrWrite.

(** The counter and the bytes written to the file. *)
Definition LoadOrInit (file : read_file) (mkdir_ok write_ok : bool)
    : result RecoveryError Z * option bytes :=
  let start prev :=
    let c := New prev in
    if negb mkdir_ok then (Err ErrMkdir, None)
    else if negb write_ok then (Err ErrWrite, None)
    else (Ok c, Some [Value c]) in
  match file with
  | ReadFails => (Err ErrRead, None)
  | FileData (b :: _) => start b
  | FileData [] | NotExist => start 0
  end.

(** Consecutive process starts over one file; the values the peers see. *)
Fixpoint restarts (n : nat) (file : read_file) : list Z :=
  match n with
  | O => []
  | S n =>
      match LoadOrInit file true true with
      | (Ok c, Some data) => Value c :: restarts n (FileData data)
      | _ => []
      end
  end.

(** ** Lemmas *)

Lemma randomU32_range rnd k t :
  random_words rnd -> randomU32 (rnd k) = Some t -> in_u 32 t.
Proof.
  intros Hr H. unfold randomU32 in H. destruct (rnd k) as [b|] eqn:E; [|done].
  destruct (Hr _ _ E) as [Hl Hb]. injection H as <-.
  pose proof (be_val_range b Hb) as H. rewrite Hl in H. exact H.
Qed.

(** The first of the next [n] words that is usable, if any. *)
Definition usable (rnd : nat -> option bytes) (a : Allocator) (k : nat) : Prop :=
  exists t, randomU32 (rnd k) = Some t /\ t <> 0 /\ t ∉ used a.

Lemma Alloc_loop_spec n rnd a : forall k,
  match Alloc_loop n rnd k a with
  | (Ok t, a') => exists i, (i < n)%nat /\ randomU32 (rnd (k + i)%nat) = Some t /\ t <> 0 /\
      t ∉ used a /\ used a' = {[ t ]} ∪ used a /\ forall j, (j < i)%nat -> ~ usable rnd a (k + j)
  | (Err RandRead, a') => a' = a /\ exists i, (i < n)%nat /\ rnd (k + i)%nat = None /\
      forall j, (j < i)%nat -> ~ usable rnd a (k + j)
  | (Err Exhausted, a') => a' = a /\ forall j, (j < n)%nat -> ~ usable rnd a (k + j)
  end.
Proof.
  induction n as [|n IH]; intros k; cbn [Alloc_loop]; [split; [done|lia]|].
  assert (Hnext : ~ usable rnd a k -> forall P : nat -> Prop,
      (forall j, P j -> ~ usable rnd a (S k + j)) ->
      forall j, (j = O \/ exists j', j = S j' /\ P j') -> ~ usable rnd a (k + j)).
  { intros H0 P H j [->|(j' & -> & Hj)]; [by rewrite Nat.add_0_r|].
    replace (k + S j')%nat with (S k + j')%nat by lia. auto. }
  assert (Hskip : ~ usable rnd a k ->
    match Alloc_loop n rnd (S k) a with
    | (Ok t, a') => exists i, (i < S n)%nat /\ randomU32 (rnd (k + i)%nat) = Some t /\ t <> 0 /\
        t ∉ used a /\ used a' = {[ t ]} ∪ used a /\ forall j, (j < i)%nat -> ~ usable rnd a (k + j)
    | (Err RandRead, a') => a' = a /\ exists i, (i < S n)%nat /\ rnd (k + i)%nat = None /\
        forall j, (j < i)%nat -> ~ usable rnd a (k + j)
    | (Err Exhausted, a') => a' = a /\ forall j, (j < S n)%nat -> ~ usable rnd a (k + j)
    end).
  { intros H0. specialize (IH (S k)). specialize (Hnext H0).
    destruct (Alloc_loop n rnd (S k) a) as [[t|[]] a'].
    - destruct IH as (i & ? & Ht & ? & ? & ? & Hj). exists (S i).
      replace (k + S i)%nat with (S k + i)%nat by lia. repeat (split; [done || lia|]).
      intros j Hji. apply (Hnext _ Hj). destruct j; [by left|right]. eexists; split; [done|lia].
    - destruct IH as (? & i & ? & Ht & Hj). split; [done|]. exists (S i).
      replace (k + S i)%nat with (S k + i)%nat by lia. repeat (split; [done || lia|]).
      intros j Hji. apply (Hnext _ Hj). destruct j; [by left|right]. eexists; split; [done|lia].
    - destruct IH as (? & Hj). split; [done|].
      intros j Hji. apply (Hnext _ Hj). destruct j; [by left|right]. eexists; split; [done|lia]. }
  destruct (randomU32 (rnd k)) as [t|] eqn:E.
  - destruct (Z.eqb_spec t 0) as [->|H0].
    + apply Hskip. intros (u & Hu & ? & _). congruence.
    + destruct (decide (t ∈ used a)) as [Hin|Hout].
      * apply Hskip. intros (u & Hu & _ & ?). congruence.
      * exists O. rewrite Nat.add_0_r. repeat (split; [done || lia|]). lia.
  - split; [done|]. exists O. rewrite Nat.add_0_r. unfold randomU32 in E.
    destruct (rnd k); [done|]. repeat (split; [done || lia|]). lia.
Qed.

Lemma Alloc_loop_Ok n rnd a t a' :
  Alloc_loop n rnd 0 a = (Ok t, a') -> t <> 0 /\ t ∉ used a /\ used a' = {[ t ]} ∪ used a.
Proof.
  intros E. pose proof (Alloc_loop_spec n rnd a 0) as H. rewrite E in H.
  by destruct H as (i & _ & _ & ? & ? & ? & _).
Qed.

Lemma Alloc_loop_Err n rnd a e a' : Alloc_loop n rnd 0 a = (Err e, a') -> a' = a.
Proof.
  intros E. pose proof (Alloc_loop_spec n rnd a 0) as H. rewrite E in H. by destruct e, H.
Qed.

Lemma Alloc_Ok rnd a t a' :
  Alloc rnd a = (Ok t, a') -> t <> 0 /\ t ∉ used a /\ used a' = {[ t ]} ∪ used a.
Proof. unfold Alloc. generalize 1024%nat. intros n. apply Alloc_loop_Ok. Qed.

Lemma Alloc_Err rnd a e a' : Alloc rnd a = (Err e, a') -> a' = a.
Proof. unfold Alloc. generalize 1024%nat. intros n. apply Alloc_loop_Err. Qed.

Definition alloc_wf (a : Allocator) : Prop := 0 ∉ used a.

(** ** Properties *)

(** An allocation that succeeds returns a non-zero 32-bit TEID that was free, and
    exactly that TEID becomes used; it fails, changing nothing, only when the random
    source fails or 1024 words in a row were zero or in use.  Freeing and reserving
    are the inverse and the directed form of it, and zero is never in use. *)
Lemma Alloc_fresh rnd a :
  random_words rnd -> alloc_wf a ->
  let '(r, a') := Alloc rnd a in
  alloc_wf a' /\
  (forall t, r = Ok t -> in_u 32 t /\ t <> 0 /\ t ∉ used a /\ used a' = {[ t ]} ∪ used a /\
     Len a' = S (Len a) /\ used (Free t a') = used a /\ Reserve t a = (true, a')) /\
  (forall e, r = Err e -> a' = a /\
     (e = Exhausted -> forall j, (j < 1024)%nat -> ~ usable rnd a j) /\
     (e = RandRead -> exists i, (i < 1024)%nat /\ rnd i = None)).
Proof.
  intros Hr Hw. unfold Alloc. pose proof (Alloc_loop_spec 1024 rnd a 0) as H.
  destruct (Alloc_loop 1024 rnd 0 a) as [[t|[]] a'].
  - destruct H as (i & Hi & Ht & H0 & Hout & Hu & _).
    assert (alloc_wf a') as Hw' by (unfold alloc_wf in *; rewrite Hu; set_solver).
    split; [done|]. split; [|done]. intros t' [= <-].
    split; [by eapply randomU32_range|]. repeat (split; [done|]). unfold Len, Free, Reserve.
    rewrite (proj2 (Z.eqb_neq t 0) H0), decide_False by done. rewrite Hu. cbn.
    rewrite size_union, size_singleton by set_solver. split; [done|]. split; [set_solver|].
    destruct a'. cbn in *. by rewrite Hu.
  - destruct H as (-> & i & Hi & Hn & _). split; [done|]. split; [done|].
    intros e [= <-]. repeat (split; [done|]). eauto.
  - destruct H as (-> & Hj). split; [done|]. split; [done|].
    intros e [= <-]. repeat (split; [done|]). done.
Qed.

Definition example_random : nat -> option bytes :=
  fun k => match k with
           | 0%nat => Some [0; 0; 0; 0] | 1%nat => Some [0; 0; 0; 9] | 2%nat => Some [1; 2; 3; 4]
           | _ => None end.

(** Over consecutive restarts on one state file the restart counter increases by
    one modulo 256 from the stored value, the first start without a file announcing 1,
    so a peer sees a different value after each of up to 255 consecutive restarts; a
    counter that cannot be persisted is never announced. *)
Lemma restart_counter_changes n file i mk wr :
  (i < n)%nat -> file <> ReadFails -> (forall b l, file = FileData (b :: l) -> is_byte b) ->
  restarts n file !! i = Some ((match file with FileData (b :: _) => b | _ => 0 end
                                + 1 + Z.of_nat i) mod 256) /\
  (forall c, (LoadOrInit file mk wr).1 = Ok c ->
     (LoadOrInit file mk wr).2 = Some [Value c] /\ mk = true /\ wr = true) /\
  (forall v, is_byte v -> Increment v = ((v + 1) mod 256, (v + 1) mod 256)).
Proof.
  intros Hi Hf Hb.
  assert (HV : forall v, is_byte v -> Value (New v) = (v + 1) mod 256)
    by (intros v Hv; apply Z.eqb_eq; revert v Hv;
        apply (forall_range 0 256 (fun v => Value (New v) =? (v + 1) mod 256)); by vm_compute).
  assert (HI : forall v, is_byte v -> Increment v = ((v + 1) mod 256, (v + 1) mod 256)).
  { intros v Hv. unfold Increment, uN. change 0xFF with (Z.ones 8). rewrite Z.land_ones by lia.
    unfold in_u in Hv. rewrite (Z.mod_small (v + 1) (2 ^ 32)) by lia. by rewrite Z.mod_mod by lia. }
  assert (Hgen : forall n i v, (i < n)%nat -> is_byte v ->
    forall data, (data = FileData [v] \/ (v = 0 /\ (data = NotExist \/ data = FileData []))
                  \/ exists l, data = FileData (v :: l)) ->
    restarts n data !! i = Some ((v + 1 + Z.of_nat i) mod 256)).
  { clear -HV. induction n as [|n IH]; intros i v Hi Hv data Hd; [lia|].
    assert (Hs : restarts (S n) data = Value (New v) :: restarts n (FileData [Value (New v)]))
      by (destruct Hd as [->|[[-> [->| ->]]|[l ->]]]; done).
    rewrite Hs, HV by done. destruct i as [|i]; cbn [lookup list_lookup].
    - by rewrite Z.add_0_r.
    - rewrite (IH i ((v + 1) mod 256)); [|lia|unfold in_u; pose proof (Z.mod_pos_bound (v + 1) 256); lia|by left].
      f_equal. replace (v + 1 + Z.of_nat (S i)) with (v + 1 + (1 + Z.of_nat i)) by lia.
      rewrite <- Z.add_assoc. by rewrite Zplus_mod_idemp_l. }
  split; [|split; [|exact HI]].
  - apply Hgen; [done|..].
    + destruct file as [[|b l]| |]; try by_compute. by eapply Hb.
    + destruct file as [[|b l]| |]; eauto 10. done.
  - intros c. unfold LoadOrInit. destruct mk, wr, file as [[|b l]| |]; cbn; by intros [= <-].
Qed.
