(* ===== verification/SessionManager.v ===== *)
(** * Session manager ([internal/sgwc/session/manager.go])

    The session store of the SGW-C with its six indexes.  A [*SGWSession] is a location
    of the manager's [heap]: the indexes hold locations, so a session found through one
    index is the object every other index sees, and an object survives its removal from
    the indexes.  Map iteration orders, random bytes, the clock and the location of a new
    object are arguments. *)

From S2P Require Import Prelude GoLib Collision Teid SessionData Session.
From S2P Require Bearer Checkpoint.

Open Scope string_scope.
Open Scope Z_scope.

Definition loc := nat.

(** [(imsi, ebi)]. *)
Record pdnKey := mkpdnKey { pk_imsi : string; pk_ebi : Z }.
#[export] Instance pdnKey_eq_dec : EqDecision pdnKey.
Proof. solve_decision. Defined.
#[export] Instance pdnKey_countable : Countable pdnKey.
Proof.
  refine (inj_countable' (fun k => (pk_imsi k, pk_ebi k)) (fun '(i, e) => mkpdnKey i e) _).
  by intros [].
Defined.

Record Manager := mkManager {
  heap : gmap loc SGWSession;
  byID : gmap string loc;
  byS11 : gmap Z (list loc);
  byS5C : gmap Z loc;
  byPGW : gmap string (gmap string loc);
  byIMSI : gmap string loc;
  byPDN : gmap pdnKey loc;
  teidAlloc : Allocator;
  managerSink : bool
}.
#[export] Instance eta_Manager : Eta Manager := fun r =>
  mkManager (heap r) (byID r) (byS11 r) (byS5C r) (byPGW r) (byIMSI r) (byPDN r) (teidAlloc r)
    (managerSink r).

Record CreateParams := mkCreateParams {
  cp_IMSI : string;
  cp_APN : string;
  cp_RATType : Z;
  cp_ServingNetwork : string;
  cp_MMEControlFTEID : FTEID;
  cp_ReuseSGWS11FTEID : FTEID;
  cp_DefaultEBI : Z;
  cp_QCI : Z;
  cp_ARP : Bearer.ARP;
  cp_MBRUplink : Z;
  cp_MBRDownlink : Z
}.

Definition NewManager : Manager := mkManager ∅ ∅ ∅ ∅ ∅ ∅ ∅ NewAllocator false.

(** ** Helpers *)

Definition hex_octet (b : Z) : string :=
  String (hex_digit (Z.shiftr b 4)) (String (hex_digit (Z.land b 15)) "").
(** [hex.EncodeToString]. *)
Definition EncodeToString (l : bytes) : string := foldr (fun b s => hex_octet b ++ s) "" l.

Definition newSessionID (rnd : option bytes) : option string := EncodeToString <$> rnd.

Definition CanonicalGTPCEndpoint (addr : string) : string :=
  if String.eqb addr "" then ""
  else
    let host := match SplitHostPort addr with Ok (host, _) => host | Err _ => addr end in
    if String.eqb host "" then "" else JoinHostPort host (Itoa 2123).

(** The sessions a list of locations refers to. *)
Definition deref (m : Manager) (l : loc) : option SGWSession := heap m !! l.

(** Run a session operation on an object. *)
Definition on_session (l : loc) (f : SGWSession -> outcome) (m : Manager)
    : Manager * list sink_call :=
  match heap m !! l with
  | None => (m, [])
  | Some s => let '(s, calls) := f s in (m <| heap := <[l := s]> (heap m) |>, calls)
  end.

Fixpoint on_sessions (ls : list loc) (f : SGWSession -> outcome) (m : Manager)
    : Manager * list sink_call :=
  match ls with
  | [] => (m, [])
  | l :: ls =>
      let '(m, calls1) := on_session l f m in
      let '(m, calls2) := on_sessions ls f m in
      (m, (calls1 ++ calls2)%list)
  end.

(** The values of a map of sessions in iteration order. *)
Definition in_order (order : list string) (ids : gmap string loc) : list loc :=
  omap (fun id => ids !! id) order.

(** ** Removal *)

Definition removePGWLocked (pgwAddr sessionID : string) (m : Manager) : Manager :=
  let canonical := CanonicalGTPCEndpoint pgwAddr in
  if String.eqb canonical "" then m
  else
    match byPGW m !! canonical with
    | None => m
    | Some sessions =>
        if decide (size sessions = 0%nat) then m
        else
          let sessions := delete sessionID sessions in
          if decide (size sessions = 0%nat)
          then m <| byPGW := delete canonical (byPGW m) |>
          else m <| byPGW := <[canonical := sessions]> (byPGW m) |>
    end.

(** The candidate with the latest creation time, the first one among equals. *)
Definition newest (m : Manager) (imsi : string) (candidates : list loc) : option loc :=
  fold_left
    (fun best l =>
       match heap m !! l with
       | None => best
       | Some c =>
           if String.eqb (IMSI c) imsi then
             match best with
             | None => Some l
             | Some b =>
                 match heap m !! b with
                 | None => Some l
                 | Some n => if After (CreatedAt c) (CreatedAt n) then Some l else best
                 end
             end
           else best
       end) candidates None.

Definition remove_s11 (t : Z) (l : loc) (m : Manager) : Manager :=
  match byS11 m !! t with
  | None | Some [] => m
  | Some sessions =>
      let filtered := filter (fun c => c <> l) sessions in
      match filtered with
      | [] => m <| byS11 := delete t (byS11 m) |>
      | _ => m <| byS11 := <[t := filtered]> (byS11 m) |>
      end
  end.

Definition remove_pgw (s : SGWSession) (m : Manager) : Manager :=
  if negb (String.eqb (pf_PGWAddr (PGWFailure s)) "") then
    removePGWLocked (pf_PGWAddr (PGWFailure s)) (SessionID s) m
  else if IsValid (ft_IPv4 (PGWControlFTEID s)) then
    removePGWLocked (CanonicalGTPCEndpoint (Addr_String (ft_IPv4 (PGWControlFTEID s))))
      (SessionID s) m
  else m.

Definition session_pdn (s : SGWSession) : pdnKey := mkpdnKey (IMSI s) (DefaultBearerID s).

(** [order] is the iteration order over the sessions that remain. *)
Definition remove_imsi (order : list string) (s : SGWSession) (l : loc) (m : Manager)
    : Manager :=
  if decide (byIMSI m !! IMSI s = Some l) then
    let m := m <| byIMSI := delete (IMSI s) (byIMSI m) |> in
    match newest m (IMSI s) (in_order order (byID m)) with
    | Some n => m <| byIMSI := <[IMSI s := n]> (byIMSI m) |>
    | None => m
    end
  else m.

Definition removeLocked (order : list string) (l : loc) (m : Manager) : Manager :=
  match heap m !! l with
  | None => m
  | Some s =>
      let m := m <| byID := delete (SessionID s) (byID m) |> in
      let m := remove_s11 (ft_TEID (SGWS11FTEID s)) l m in
      let m := if ft_TEID (SGWS5CFTEID s) =? 0 then m
               else m <| byS5C := delete (ft_TEID (SGWS5CFTEID s)) (byS5C m) |> in
      let m := remove_pgw s m in
      let m := if decide (byPDN m !! session_pdn s = Some l)
               then m <| byPDN := delete (session_pdn s) (byPDN m) |> else m in
      remove_imsi order s l m
  end.

(** Give a TEID back when its last session is gone. *)
Definition free_if_unused (t : Z) (m : Manager) : Manager :=
  match default [] (byS11 m !! t) with
  | [] => m <| teidAlloc := Free t (teidAlloc m) |>
  | _ => m
  end.

Definition Delete (order : list string) (id : string) (m : Manager)
    : Manager * list sink_call :=
  match byID m !! id with
  | None => (m, [])
  | Some l =>
      match heap m !! l with
      | None => (m, [])
      | Some s =>
          let m := removeLocked order l m in
          let m := free_if_unused (ft_TEID (SGWS11FTEID s)) m in
          (m, if managerSink m then [DeleteSessionSnapshot id] else [])
      end
  end.

(** ** Creation *)

Inductive CreateError := ErrTeid (e : TeidError) | ErrSessionID.

Definition new_session (now : time) (id : string) (sgwFTEID : FTEID) (p : CreateParams)
    (sink : bool) : SGWSession :=
  let defaultBearer :=
    Bearer.mkBearer (cp_DefaultEBI p) (cp_QCI p) (cp_ARP p) Bearer.no_FTEID Bearer.no_FTEID
      Bearer.no_FTEID Bearer.no_FTEID (cp_MBRUplink p) (cp_MBRDownlink p) 0 0 None
      Bearer.BearerStatePending (0, 0) (0, 0) now zero_time BearerActivitySourceCreateSession
      zero_time false in
  mkSGWSession id (cp_IMSI p) (cp_APN p) (cp_RATType p) (cp_ServingNetwork p)
    (cp_MMEControlFTEID p) sgwFTEID no_FTEID no_FTEID AddrZero (cp_DefaultEBI p)
    {[ cp_DefaultEBI p := defaultBearer ]} no_binding no_reconciliation (Some NewTracker) []
    no_pgw_failure no_restoration sink StatePending now now 0.

(** The part of [Create] under the manager lock: eviction and registration. *)
Definition evict (order : list string) (pdn : pdnKey) (t : Z) (m : Manager)
    : option loc * Manager :=
  match byPDN m !! pdn with
  | None => (None, m)
  | Some old =>
      let m' := removeLocked order old m in
      match heap m !! old with
      | None => (Some old, m')
      | Some o =>
          let told := ft_TEID (SGWS11FTEID o) in
          (Some old, if told =? t then m' else free_if_unused told m')
      end
  end.

Definition register (l : loc) (s : SGWSession) (m : Manager) : Manager :=
  let t := ft_TEID (SGWS11FTEID s) in
  m <| heap := <[l := s]> (heap m) |>
    <| byID := <[SessionID s := l]> (byID m) |>
    <| byS11 := <[t := (default [] (byS11 m !! t) ++ [l])%list]> (byS11 m) |>
    <| byPDN := <[session_pdn s := l]> (byPDN m) |>
    <| byIMSI := <[IMSI s := l]> (byIMSI m) |>.

(** The session's location, the evicted session's location and the new state. *)
Definition Create (now : time) (rnd : nat -> option bytes) (id_rnd : option bytes)
    (order : list string) (l : loc) (p : CreateParams) (m : Manager)
    : result CreateError (loc * option loc) * Manager * list sink_call :=
  let reuse := cp_ReuseSGWS11FTEID p in
  let allocated := ft_TEID reuse =? 0 in
  let '(r, m) :=
    if allocated then
      let '(r, a) := Alloc rnd (teidAlloc m) in
      (match r with Ok t => Ok (mkFTEID t AddrZero) | Err e => Err e end,
       m <| teidAlloc := a |>)
    else (Ok reuse, m) in
  match r with
  | Err e => (Err (ErrTeid e), m, [])
  | Ok sgwFTEID =>
      match newSessionID id_rnd with
      | None =>
          (Err ErrSessionID,
           if allocated then m <| teidAlloc := Free (ft_TEID sgwFTEID) (teidAlloc m) |> else m,
           [])
      | Some id =>
          let sess := new_session now id sgwFTEID p (managerSink m) in
          let '(evicted, m) := evict order (session_pdn sess) (ft_TEID sgwFTEID) m in
          let evictedID := match evicted with
                           | Some old => from_option SessionID "" (heap m !! old)
                           | None => "" end in
          let m := register l sess m in
          (Ok (l, evicted), m,
           (checkpoint sess ++
            (if negb (String.eqb evictedID "") && managerSink m
             then [DeleteSessionSnapshot evictedID] else []))%list)
      end
  end.

(** ** Lookups *)

Definition Find (id : string) (m : Manager) : option loc := byID m !! id.
Definition FindByS11TEID (t : Z) (m : Manager) : option loc := last (default [] (byS11 m !! t)).

Definition FindByS11TEIDAndBearer (t ebi : Z) (m : Manager) : option loc :=
  List.find (fun l => match heap m !! l with
                      | Some s => bool_decide (is_Some (GetBearer ebi s)) | None => false end)
    (rev (default [] (byS11 m !! t))).

Definition FindByS11TEIDAndDefaultBearer (t ebi : Z) (m : Manager) : option loc :=
  List.find (fun l => match heap m !! l with
                      | Some s => DefaultBearerID s =? ebi | None => false end)
    (rev (default [] (byS11 m !! t))).

Definition FindAllByS11TEID (t : Z) (m : Manager) : list loc := default [] (byS11 m !! t).
Definition FindByIMSI (imsi : string) (m : Manager) : option loc := byIMSI m !! imsi.
Definition FindByS5CTEID (t : Z) (m : Manager) : option loc := byS5C m !! t.
Definition SessionList (order : list string) (m : Manager) : list loc := in_order order (byID m).
Definition Count (m : Manager) : nat := size (byID m).

(** First session in iteration order that satisfies a test. *)
Definition find_session (order : list string) (test : SGWSession -> bool) (m : Manager)
    : option loc :=
  List.find (fun l => match heap m !! l with Some s => test s | None => false end)
    (in_order order (byID m)).

Definition FindByPFCPSEID (order : list string) (cpSEID upSEID : Z) (m : Manager)
    : option loc :=
  find_session order (fun s =>
    let binding := PFCP s in
    pb_Established binding
    && ((cpSEID =? 0) || (fs_SEID (pb_LocalFSEID binding) =? cpSEID))
    && ((upSEID =? 0) || (fs_SEID (pb_SGWUFSEID binding) =? upSEID))) m.

Definition FindByPGW (order : list string) (pgwAddr : string) (m : Manager) : list loc :=
  let canonical := CanonicalGTPCEndpoint pgwAddr in
  if String.eqb canonical "" then []
  else in_order order (default ∅ (byPGW m !! canonical)).

(** The session's MME is the canonical endpoint. *)
Definition mme_matches (canonical : string) (s : SGWSession) : bool :=
  IsValid (ft_IPv4 (MMEControlFTEID s))
  && String.eqb (CanonicalGTPCEndpoint (Addr_String (ft_IPv4 (MMEControlFTEID s)))) canonical.

Definition FindByMME (order : list string) (mmeAddr : string) (m : Manager) : list loc :=
  let canonical := CanonicalGTPCEndpoint mmeAddr in
  if String.eqb canonical "" then []
  else filter (fun l => from_option (mme_matches canonical) false (heap m !! l) = true)
         (in_order order (byID m)).

Definition FindMMERestorationByDDN (order : list string) (mmeAddr : string)
    (sgwS11TEID seq : Z) (m : Manager) : option loc :=
  let canonical := CanonicalGTPCEndpoint mmeAddr in
  if String.eqb canonical "" || (seq =? 0) then None
  else find_session order (fun s =>
    ((sgwS11TEID =? 0) || (ft_TEID (SGWS11FTEID s) =? sgwS11TEID))
    && mme_matches canonical s
    && mr_DDNTriggered (MMERestoration s) && (mr_DDNSequence (MMERestoration s) =? seq)) m.

Definition FindMMERestorationByIMSI (order : list string) (mmeAddr imsi : string) (m : Manager)
    : option loc :=
  let canonical := CanonicalGTPCEndpoint mmeAddr in
  if String.eqb canonical "" || String.eqb imsi "" then None
  else find_session order (fun s =>
    String.eqb (IMSI s) imsi && mme_matches canonical s && mr_DDNTriggered (MMERestoration s)) m.

(** ** Registration of peers *)

Definition SetCheckpointSink (sink : bool) (m : Manager) : Manager :=
  let registered := map_to_list (byID m) in
  m <| managerSink := sink |>
    <| heap := foldr (fun kv h => alter (setCheckpointSink sink) kv.2 h) (heap m) registered |>.

Definition RegisterS5CTEID (sessionID : string) (s5cTEID : Z) (m : Manager)
    : Manager * list sink_call :=
  match byID m !! sessionID with
  | None => (m, [])
  | Some l =>
      on_session l saved (m <| byS5C := <[s5cTEID := l]> (byS5C m) |>)
  end.

Definition RegisterPGW (now : time) (sessionID pgwAddr : string) (m : Manager)
    : Manager * list sink_call :=
  let canonical := CanonicalGTPCEndpoint pgwAddr in
  if String.eqb canonical "" then (m, [])
  else
    match byID m !! sessionID with
    | None => (m, [])
    | Some l =>
        match heap m !! l with
        | None => (m, [])
        | Some s =>
            let old := pf_PGWAddr (PGWFailure s) in
            let m := if negb (String.eqb old "") && negb (String.eqb old canonical)
                     then removePGWLocked old sessionID m else m in
            let sessions := default ∅ (byPGW m !! canonical) in
            let m := m <| byPGW := <[canonical := <[sessionID := l]> sessions]> (byPGW m) |> in
            on_session l (SetPGWPathState now PGWPathStateUp canonical now) m
        end
    end.

(** ** Bulk updates *)

(** The number of sessions updated and the new state. *)
Definition MarkPGWPathState (now : time) (order : list string) (pgwAddr state : string)
    (at_ : time) (m : Manager) : nat * (Manager * list sink_call) :=
  let sessions := FindByPGW order pgwAddr m in
  (length sessions,
   on_sessions sessions (SetPGWPathState now state (CanonicalGTPCEndpoint pgwAddr) at_) m).

Definition Manager_MarkPGWRestart (now : time) (order : list string) (pgwAddr : string)
    (recovery : Z) (at_ : time) (m : Manager) : nat * (Manager * list sink_call) :=
  let sessions := FindByPGW order pgwAddr m in
  (length sessions,
   on_sessions sessions (MarkPGWRestart now (CanonicalGTPCEndpoint pgwAddr) recovery at_) m).

Definition MarkMMEPathState (now : time) (order : list string) (mmeAddr state : string)
    (at_ : time) (m : Manager) : nat * (Manager * list sink_call) :=
  let sessions := FindByMME order mmeAddr m in
  (length sessions,
   on_sessions sessions (SetMMEPathState now state (CanonicalGTPCEndpoint mmeAddr) at_) m).

Definition Manager_MarkMMERestart (now : time) (order : list string) (mmeAddr : string)
    (recovery : Z) (at_ : time) (m : Manager) : nat * (Manager * list sink_call) :=
  let sessions := FindByMME order mmeAddr m in
  (length sessions,
   on_sessions sessions (MarkMMERestart now (CanonicalGTPCEndpoint mmeAddr) recovery at_) m).

(** Run an operation that reports success on every session and count the successes. *)
Fixpoint count_sessions (ls : list loc) (f : SGWSession -> bool * outcome) (m : Manager)
    : nat * (Manager * list sink_call) :=
  match ls with
  | [] => (0%nat, (m, []))
  | l :: ls =>
      let ok := match heap m !! l with Some s => (f s).1 | None => false end in
      let '(m, calls1) := on_session l (fun s => (f s).2) m in
      let '(n, (m, calls2)) := count_sessions ls f m in
      ((if ok then S n else n), (m, (calls1 ++ calls2)%list))
  end.

Definition InvalidatePFCPBindings (now1 now2 : time) (order : list string) (m : Manager)
    : nat * (Manager * list sink_call) :=
  count_sessions (SessionList order m) (InvalidatePFCPBinding now1 now2) m.

Definition InvalidatePFCPBindingsForPeer (now1 now2 : time) (order : list string)
    (peerName peerAddr : string) (m : Manager) : nat * (Manager * list sink_call) :=
  count_sessions (SessionList order m)
    (InvalidatePFCPBindingForPeer now1 now2 peerName peerAddr) m.

(** ** Well-formedness *)

(** A registered object: the one its own id leads to. *)
Definition reg (m : Manager) (l : loc) (s : SGWSession) : Prop :=
  heap m !! l = Some s /\ byID m !! SessionID s = Some l.

Definition s11_list (m : Manager) (t : Z) : list loc := default [] (byS11 m !! t).
Definition s11_teid (s : SGWSession) : Z := ft_TEID (SGWS11FTEID s).

(** All indexes describe the registered sessions, and nothing else; [X] holds TEIDs
    that are allocated but may be without a session at the moment. *)
Record mgr_wf (X : gset Z) (m : Manager) : Prop := mkMgrWf {
  wf_id : forall id l, byID m !! id = Some l -> exists s, heap m !! l = Some s /\ SessionID s = id;
  wf_s11 : forall t l, l ∈ s11_list m t <-> exists s, reg m l s /\ s11_teid s = t;
  wf_s11_shape : forall t ls, byS11 m !! t = Some ls -> NoDup ls /\ ls <> [];
  wf_pdn : forall k l, byPDN m !! k = Some l <-> exists s, reg m l s /\ session_pdn s = k;
  wf_imsi : forall i l, byIMSI m !! i = Some l -> exists s, reg m l s /\ IMSI s = i /\
    forall l' s', reg m l' s' -> IMSI s' = i -> CreatedAt s' <= CreatedAt s;
  wf_imsi_total : forall l s, reg m l s -> is_Some (byIMSI m !! IMSI s);
  wf_used : forall t, is_Some (byS11 m !! t) -> t ∈ used (teidAlloc m);
  wf_leak : forall t, t ∈ used (teidAlloc m) -> is_Some (byS11 m !! t) \/ t ∈ X;
  wf_zero : 0 ∉ used (teidAlloc m)
}.

Lemma wf_weaken X Y m : X ⊆ Y -> mgr_wf X m -> mgr_wf Y m.
Proof. intros H []. split; try done. intros t Ht. destruct (wf_leak0 t Ht); [by left|right; set_solver]. Qed.

Lemma reg_inj m l s l' s' : reg m l s -> reg m l' s' -> SessionID s = SessionID s' -> l = l' /\ s = s'.
Proof. intros [H1 H2] [H3 H4] E. rewrite E in H2. simplify_eq. done. Qed.

Lemma s11_shape m X t : mgr_wf X m -> (byS11 m !! t = None <-> s11_list m t = []).
Proof.
  intros H. unfold s11_list. destruct (byS11 m !! t) as [ls|] eqn:E; [|done]. cbn.
  destruct (wf_s11_shape _ _ H _ _ E). naive_solver.
Qed.

(** *** Frame: session operations do not disturb the indexes *)

Definition index_key (s : SGWSession) := (SessionID s, session_pdn s, s11_teid s, CreatedAt s).
Definition indexes (m : Manager) := (byID m, byS11 m, byPDN m, byIMSI m, teidAlloc m).

Lemma index_key_inv s s' : index_key s = index_key s' ->
  SessionID s = SessionID s' /\ session_pdn s = session_pdn s' /\ IMSI s = IMSI s' /\
  s11_teid s = s11_teid s' /\ CreatedAt s = CreatedAt s'.
Proof.
  unfold index_key. intros H. injection H as H1 H2 H3 H4 H5.
  unfold session_pdn. by rewrite H2, H3.
Qed.

Lemma wf_frame X m m' :
  indexes m = indexes m' ->
  (forall l, index_key <$> heap m !! l = index_key <$> heap m' !! l) ->
  mgr_wf X m -> mgr_wf X m'.
Proof.
  intros [= Hid Hs11 Hpdn Himsi Ha] Hh H.
  assert (Hreg : forall l s', reg m' l s' -> exists s, reg m l s /\ index_key s = index_key s').
  { intros l s' [H1 H2]. specialize (Hh l). rewrite H1 in Hh. apply fmap_Some in Hh as (s & Hs & E).
    exists s. split; [|done]. split; [done|]. rewrite Hid. apply index_key_inv in E as [<- _]. done. }
  assert (Hreg' : forall l s, reg m l s -> exists s', reg m' l s' /\ index_key s = index_key s').
  { intros l s [H1 H2]. specialize (Hh l). rewrite H1 in Hh. symmetry in Hh.
    apply fmap_Some in Hh as (s' & Hs & E).
    exists s'. split; [|done]. split; [done|]. rewrite <- Hid. apply index_key_inv in E as [<- _]. done. }
  destruct H as [H1 H2 H3 H4 H5 H6 H7 H8 H9]. split.
  - intros id l E. rewrite <- Hid in E. destruct (H1 _ _ E) as (s & Hs & <-).
    specialize (Hh l). rewrite Hs in Hh. symmetry in Hh. apply fmap_Some in Hh as (s' & Hs' & E').
    exists s'. split; [done|]. by apply index_key_inv in E' as [<- _].
  - intros t l. unfold s11_list. rewrite <- Hs11. fold (s11_list m t). rewrite H2. split.
    + intros (s & Hs & <-). destruct (Hreg' _ _ Hs) as (s' & ? & E). exists s'.
      apply index_key_inv in E as (_ & _ & _ & -> & _). done.
    + intros (s & Hs & <-). destruct (Hreg _ _ Hs) as (s' & ? & E). exists s'.
      apply index_key_inv in E as (_ & _ & _ & -> & _). done.
  - intros t ls. rewrite <- Hs11. apply H3.
  - intros k l. rewrite <- Hpdn, H4. split.
    + intros (s & Hs & <-). destruct (Hreg' _ _ Hs) as (s' & ? & E). exists s'.
      apply index_key_inv in E as (_ & -> & _). done.
    + intros (s & Hs & <-). destruct (Hreg _ _ Hs) as (s' & ? & E). exists s'.
      apply index_key_inv in E as (_ & -> & _). done.
  - intros i l E. rewrite <- Himsi in E. destruct (H5 _ _ E) as (s & Hs & <- & Hmax).
    destruct (Hreg' _ _ Hs) as (s' & ? & E'). apply index_key_inv in E' as (_ & _ & E1 & _ & E2).
    exists s'. split; [done|]. split; [done|]. intros l2 s2 Hs2 Ei.
    destruct (Hreg _ _ Hs2) as (s3 & ? & E'). apply index_key_inv in E' as (_ & _ & E3 & _ & E4).
    rewrite <- E2, <- E4. apply (Hmax l2); [done|congruence].
  - intros l s' Hs. destruct (Hreg _ _ Hs) as (s & Hs' & E).
    apply index_key_inv in E as (_ & _ & <- & _). rewrite <- Himsi. eauto.
  - intros t. rewrite <- Hs11, <- Ha. apply H7.
  - intros t. rewrite <- Hs11, <- Ha. apply H8.
  - by rewrite <- Ha.
Qed.

Lemma on_session_wf X m l f :
  (forall s, index_key (f s).1 = index_key s) ->
  mgr_wf X m -> mgr_wf X (on_session l f m).1.
Proof.
  intros Hf. unfold on_session. destruct (heap m !! l) as [s|] eqn:E; [|done].
  specialize (Hf s). destruct (f s) as [s' calls]. cbn in *. apply wf_frame; [done|].
  intros l'. cbn. destruct (decide (l = l')) as [->|]; [|by rewrite lookup_insert_ne].
  rewrite lookup_insert_eq, E. cbn. by rewrite Hf.
Qed.

Lemma on_sessions_wf X ls f : forall m,
  (forall s, index_key (f s).1 = index_key s) ->
  mgr_wf X m -> mgr_wf X (on_sessions ls f m).1.
Proof.
  induction ls as [|l ls IH]; intros m Hf H; [done|]. cbn [on_sessions].
  pose proof (on_session_wf X m l f Hf H) as H1. destruct (on_session l f m) as [m1 c1].
  specialize (IH m1 Hf H1). by destruct (on_sessions ls f m1).
Qed.

Lemma count_sessions_wf X ls f : forall m,
  (forall s, index_key (f s).2.1 = index_key s) ->
  mgr_wf X m -> mgr_wf X (count_sessions ls f m).2.1.
Proof.
  induction ls as [|l ls IH]; intros m Hf H; [done|]. cbn [count_sessions].
  pose proof (on_session_wf X m l (fun s => (f s).2) Hf H) as H1.
  destruct (on_session l _ m) as [m1 c1]. specialize (IH m1 Hf H1).
  by destruct (count_sessions ls f m1) as [n [m2 c2]].
Qed.

Lemma exec_index_key o s : index_key (exec o s).1 = index_key s.
Proof.
  pose proof (exec_identity o s) as H. unfold identity in H. injection H as ? ? ? ? ? ? ? ?.
  unfold index_key, session_pdn, s11_teid. congruence.
Qed.

(** *** Removal *)

Lemma newest_spec m imsi ls :
  match newest m imsi ls with
  | None => forall l s, l ∈ ls -> heap m !! l = Some s -> IMSI s <> imsi
  | Some n => exists sn, heap m !! n = Some sn /\ n ∈ ls /\ IMSI sn = imsi /\
      forall l s, l ∈ ls -> heap m !! l = Some s -> IMSI s = imsi -> CreatedAt s <= CreatedAt sn
  end.
Proof.
  unfold newest. induction ls as [|l ls IH] using rev_ind; [by intros ? ? []%elem_of_nil|].
  rewrite fold_left_app. cbn [fold_left].
  set (best := fold_left _ _ _) in *. clearbody best.
  assert (Hin : forall x, x ∈ (ls ++ [l])%list <-> x ∈ ls \/ x = l) by (intros; set_solver).
  destruct (heap m !! l) as [c|] eqn:Hl.
  2: { destruct best as [n|].
       - destruct IH as (sn & ? & ? & ? & Hmax). exists sn. rewrite Hin. repeat (split; [by auto|]).
         intros l' s [Hx| ->]%Hin Hs; [eauto|congruence].
       - intros l' s [Hx| ->]%Hin Hs; [eauto|congruence]. }
  destruct (String.eqb_spec (IMSI c) imsi) as [Hc|Hc].
  2: { destruct best as [n|].
       - destruct IH as (sn & ? & ? & ? & Hmax). exists sn. rewrite Hin. repeat (split; [by auto|]).
         intros l' s [Hx| ->]%Hin Hs; [eauto|congruence].
       - intros l' s [Hx| ->]%Hin Hs; [eauto|congruence]. }
  destruct best as [n|].
  - destruct IH as (sn & Hn & Hnin & Hi & Hmax). rewrite Hn. unfold After.
    destruct (Z.ltb_spec (CreatedAt sn) (CreatedAt c)) as [Hlt|Hge].
    + exists c. rewrite Hin. repeat (split; [by auto|]). intros l' s [Hx| ->]%Hin Hs Hi'.
      * specialize (Hmax _ _ Hx Hs Hi'). lia.
      * simplify_eq. lia.
    + exists sn. rewrite Hin. repeat (split; [by auto|]). intros l' s [Hx| ->]%Hin Hs Hi'.
      * eauto.
      * simplify_eq. lia.
  - exists c. rewrite Hin. repeat (split; [by auto|]). intros l' s [Hx| ->]%Hin Hs Hi'.
    + by destruct (IH _ _ Hx Hs).
    + simplify_eq. lia.
Qed.

Lemma removePGW_frame pgw id m :
  indexes (removePGWLocked pgw id m) = indexes m /\ heap (removePGWLocked pgw id m) = heap m.
Proof. unfold removePGWLocked. repeat case_match; done. Qed.

Lemma remove_pgw_frame s m :
  indexes (remove_pgw s m) = indexes m /\ heap (remove_pgw s m) = heap m.
Proof. unfold remove_pgw. repeat case_match; auto using removePGW_frame. Qed.

Lemma remove_s11_spec X m l s :
  mgr_wf X m -> reg m l s ->
  let m' := remove_s11 (s11_teid s) l m in
  (forall t, s11_list m' t = filter (fun c => c <> l) (s11_list m t)) /\
  (forall t ls, byS11 m' !! t = Some ls -> NoDup ls /\ ls <> []) /\
  (byID m', byPDN m', byIMSI m', teidAlloc m', heap m')
    = (byID m, byPDN m, byIMSI m, teidAlloc m, heap m) /\
  (forall t, is_Some (byS11 m' !! t) -> is_Some (byS11 m !! t)) /\
  (forall t, is_Some (byS11 m !! t) -> is_Some (byS11 m' !! t) \/ t = s11_teid s).
Proof.
  intros H Hreg m'. pose proof (wf_s11_shape _ _ H) as Hsh.
  assert (Hother : forall t, t <> s11_teid s -> filter (fun c => c <> l) (s11_list m t) = s11_list m t).
  { intros t Ht. apply list_filter_all. intros c Hc ->. apply (wf_s11 _ _ H) in Hc as (s' & [Hs' _] & <-).
    apply Ht. destruct Hreg as [Hs _]. congruence. }
  assert (Hl : l ∈ s11_list m (s11_teid s)) by (apply (wf_s11 _ _ H); eauto).
  subst m'. unfold remove_s11. unfold s11_list in Hl.
  destruct (byS11 m !! s11_teid s) as [[|x ls]|] eqn:E; cbn in Hl;
    [by apply not_elem_of_nil in Hl| |by apply not_elem_of_nil in Hl].
  destruct (Hsh _ _ E) as [Hnd _].
  set (fl := filter (fun c => c <> l) (x :: ls)).
  assert (Hfl : filter (fun c => c <> l) (s11_list m (s11_teid s)) = fl)
    by (unfold s11_list; by rewrite E).
  destruct fl as [|y fl'] eqn:Ef; unfold s11_list; cbn -[filter].
  - split; [|split; [|split; [done|split]]].
    + intros t. destruct (decide (t = s11_teid s)) as [->|Ht].
      * rewrite lookup_delete_eq. symmetry. apply Hfl.
      * rewrite lookup_delete_ne by done. symmetry. by apply Hother.
    + intros t ls' Hls. apply lookup_delete_Some in Hls as [_ Hls]. eauto.
    + intros t [ls' Hls]. apply lookup_delete_Some in Hls as [_ Hls]. eauto.
    + intros t Ht. destruct (decide (t = s11_teid s)); [by right|left]. by rewrite lookup_delete_ne.
  - split; [|split; [|split; [done|split]]].
    + intros t. destruct (decide (t = s11_teid s)) as [->|Ht].
      * rewrite lookup_insert_eq. symmetry. apply Hfl.
      * rewrite lookup_insert_ne by done. symmetry. by apply Hother.
    + intros t ls' Hls. apply lookup_insert_Some in Hls as [[<- <-]|[_ Hls]]; [|eauto].
      split; [|done]. rewrite <- Ef. by apply NoDup_filter.
    + intros t [ls' Hls]. apply lookup_insert_Some in Hls as [[<- _]|[_ Hls]]; eauto.
    + intros t Ht. destruct (decide (t = s11_teid s)); [by right|left]. by rewrite lookup_insert_ne.
Qed.

(** The parts of the manager the index removals leave alone. *)
Definition frame (m : Manager) := (heap m, byID m, teidAlloc m, managerSink m).

Lemma remove_s11_frame t l m : frame (remove_s11 t l m) = frame m.
Proof. unfold remove_s11. repeat case_match; done. Qed.
Lemma remove_pgw_frame' s m : frame (remove_pgw s m) = frame m.
Proof. unfold remove_pgw, removePGWLocked. repeat case_match; done. Qed.
Lemma remove_imsi_frame order s l m : frame (remove_imsi order s l m) = frame m.
Proof. unfold remove_imsi. repeat case_match; done. Qed.

Lemma removeLocked_frame order l m s :
  heap m !! l = Some s ->
  frame (removeLocked order l m) = frame (m <| byID := delete (SessionID s) (byID m) |>).
Proof.
  intros Hs. unfold removeLocked. rewrite Hs, remove_imsi_frame.
  set (m1 := m <| byID := _ |>). rewrite <- (remove_s11_frame (ft_TEID (SGWS11FTEID s)) l m1).
  set (m2 := remove_s11 _ _ _). clearbody m2. clear m1.
  set (m3 := if ft_TEID (SGWS5CFTEID s) =? 0 then _ else _).
  assert (E3 : frame m3 = frame m2) by (unfold m3; by case_match).
  rewrite <- E3, <- (remove_pgw_frame' s m3). by destruct (decide _).
Qed.

(** The iteration order visits exactly the sessions that stay. *)
Definition order_of (order : list string) (m : Manager) (l : loc) : Prop :=
  match heap m !! l with
  | Some s => Permutation order (elements (dom (delete (SessionID s) (byID m))))
  | None => True
  end.

Lemma removeLocked_reg X order m l s :
  mgr_wf X m -> reg m l s ->
  let m' := removeLocked order l m in
  heap m' = heap m /\ byID m' = delete (SessionID s) (byID m) /\ teidAlloc m' = teidAlloc m /\
  managerSink m' = managerSink m /\
  forall l' s', reg m' l' s' <-> reg m l' s' /\ l' <> l.
Proof.
  intros H Hreg m'.
  assert (E : heap m' = heap m /\ byID m' = delete (SessionID s) (byID m) /\
              teidAlloc m' = teidAlloc m /\ managerSink m' = managerSink m).
  { pose proof (removeLocked_frame order l m s (proj1 Hreg)) as E. unfold frame in E. cbn in E.
    fold m' in E. by injection E. }
  destruct E as (E1 & E2 & E3 & E4). repeat (split; [done|]).
  intros l' s'. unfold reg. rewrite E1, E2, lookup_delete_Some. split.
  - intros (H1 & H2 & H3). split; [done|]. intros ->. destruct Hreg as [Hs _]. congruence.
  - intros [[H1 H2] Hne]. repeat (split; [done|]). split; [|done].
    intros Eid. destruct Hreg as [_ Hs]. rewrite Eid in Hs. congruence.
Qed.

Lemma remove_imsi_spec order s l m :
  let m' := remove_imsi order s l m in
  (byID m', byS11 m', byPDN m', teidAlloc m', heap m')
    = (byID m, byS11 m, byPDN m, teidAlloc m, heap m) /\
  byIMSI m' = if decide (byIMSI m !! IMSI s = Some l) then
                match newest m (IMSI s) (in_order order (byID m)) with
                | Some n => <[IMSI s := n]> (delete (IMSI s) (byIMSI m))
                | None => delete (IMSI s) (byIMSI m) end
              else byIMSI m.
Proof.
  unfold remove_imsi. destruct (decide _); [|done].
  change (newest (m <| byIMSI := _ |>)) with (newest m). cbn [byID field_update].
  by destruct (newest _ _ _).
Qed.

(** The IMSI index after a removal, given what the other steps did. *)
Lemma imsi_removed X m m6 l s m5 ls :
  mgr_wf X m -> reg m l s ->
  (forall l' s', reg m6 l' s' <-> reg m l' s' /\ l' <> l) ->
  (forall x, x ∈ ls <-> exists sx, reg m6 x sx) -> heap m5 = heap m6 ->
  (byIMSI m6 = if decide (byIMSI m !! IMSI s = Some l) then
                 match newest m5 (IMSI s) ls with
                 | Some n => <[IMSI s := n]> (delete (IMSI s) (byIMSI m))
                 | None => delete (IMSI s) (byIMSI m) end
               else byIMSI m) ->
  (forall i x, byIMSI m6 !! i = Some x -> exists sx, reg m6 x sx /\ IMSI sx = i /\
     forall l' s', reg m6 l' s' -> IMSI s' = i -> CreatedAt s' <= CreatedAt sx) /\
  (forall x sx, reg m6 x sx -> is_Some (byIMSI m6 !! IMSI sx)).
Proof.
  intros H Hreg Er Hcand Hh Ei.
  assert (Hold : forall i x, byIMSI m !! i = Some x -> x <> l -> exists sx, reg m6 x sx /\
    IMSI sx = i /\ forall l' s', reg m6 l' s' -> IMSI s' = i -> CreatedAt s' <= CreatedAt sx).
  { intros i x Hx Hne. destruct (wf_imsi _ _ H _ _ Hx) as (sx & ? & ? & Hmax). exists sx.
    split; [by apply Er|]. split; [done|]. intros l' s' Hl'. apply Er in Hl' as [Hl' _]. eauto. }
  assert (Hoth : forall i x, byIMSI m !! i = Some x -> i <> IMSI s -> x <> l).
  { intros i x Hx Hi ->. destruct (wf_imsi _ _ H _ _ Hx) as (sx & [Hsx _] & <- & _).
    destruct Hreg as [Hs _]. congruence. }
  assert (Htot : forall x sx, reg m6 x sx -> is_Some (byIMSI m !! IMSI sx)).
  { intros x sx Hx. apply Er in Hx as [Hx _]. by eapply (wf_imsi_total _ _ H). }
  pose proof (newest_spec m5 (IMSI s) ls) as Hnew. rewrite Ei.
  destruct (decide (byIMSI m !! IMSI s = Some l)) as [Hd|Hd].
  2: { split; [|done]. intros i x Hx. apply Hold; [done|]. intros ->.
       destruct (decide (i = IMSI s)) as [->|Hi]; [done|]. by eapply Hoth. }
  destruct (newest m5 (IMSI s) ls) as [n|]; split.
  - intros i x Hx. apply lookup_insert_Some in Hx as [[<- <-]|[Hi Hx]].
    + destruct Hnew as (sn & Hn & Hin & Hi & Hmax). apply Hcand in Hin as (sx & Hx).
      assert (sx = sn) as -> by (rewrite Hh in Hn; destruct Hx; congruence).
      exists sn. repeat (split; [done|]). intros l' s' Hl'. apply (Hmax l').
      * apply Hcand. eauto.
      * rewrite Hh. apply Hl'.
    + apply lookup_delete_Some in Hx as [_ Hx]. eauto.
  - intros x sx Hx. destruct (decide (IMSI sx = IMSI s)) as [->|Hne]; [by rewrite lookup_insert_eq|].
    rewrite lookup_insert_ne, lookup_delete_ne by done. eauto.
  - intros i x Hx. apply lookup_delete_Some in Hx as [Hi Hx]. eauto.
  - intros x sx Hx. rewrite lookup_delete_ne; [eauto|]. intros E.
    apply (Hnew x sx); [apply Hcand; eauto|rewrite Hh; apply Hx|done].
Qed.

Lemma removeLocked_wf X order m l s :
  mgr_wf X m -> reg m l s -> order_of order m l ->
  mgr_wf ({[ s11_teid s ]} ∪ X) (removeLocked order l m).
Proof.
  intros H Hreg Hord. unfold order_of in Hord. rewrite (proj1 Hreg) in Hord.
  destruct (removeLocked_reg X order m l s H Hreg) as (Eh & Eid & Ea & _ & Er).
  revert Eh Eid Ea Er. unfold removeLocked. rewrite (proj1 Hreg).
  set (m1 := m <| byID := delete (SessionID s) (byID m) |>).
  assert (Hs : let m2 := remove_s11 (s11_teid s) l m1 in
    (forall t, s11_list m2 t = filter (fun c => c <> l) (s11_list m t)) /\
    (forall t ls, byS11 m2 !! t = Some ls -> NoDup ls /\ ls <> []) /\
    (byPDN m2, byIMSI m2, heap m2, byID m2) = (byPDN m, byIMSI m, heap m, delete (SessionID s) (byID m)) /\
    (forall t, is_Some (byS11 m2 !! t) -> is_Some (byS11 m !! t)) /\
    (forall t, is_Some (byS11 m !! t) -> is_Some (byS11 m2 !! t) \/ t = s11_teid s)).
  { destruct (remove_s11_spec X m l s H Hreg) as (H1 & H2 & H3 & H4 & H5).
    assert (E : byS11 (remove_s11 (s11_teid s) l m1) = byS11 (remove_s11 (s11_teid s) l m)
                /\ (byPDN (remove_s11 (s11_teid s) l m1), byIMSI (remove_s11 (s11_teid s) l m1),
                    heap (remove_s11 (s11_teid s) l m1), byID (remove_s11 (s11_teid s) l m1))
                   = (byPDN m, byIMSI m, heap m, delete (SessionID s) (byID m))).
    { unfold remove_s11. cbn. destruct (byS11 m !! s11_teid s) as [[|x ls]|]; [done| |done].
      by destruct (filter _ (x :: ls)). }
    destruct E as [E1 E2]. unfold s11_list. rewrite E1. done. }
  change (ft_TEID (SGWS11FTEID s)) with (s11_teid s).
  set (m2 := remove_s11 (s11_teid s) l m1) in *. clearbody m2. clear m1.
  destruct Hs as (Hlist & Hshape & E2 & Hsome & Hsome'). injection E2 as Ep Ei Eh2 Eid2.
  set (m3 := if ft_TEID (SGWS5CFTEID s) =? 0 then m2 else m2 <| byS5C := _ |>).
  assert (E3 : indexes m3 = indexes m2 /\ heap m3 = heap m2) by (unfold m3; by case_match).
  clearbody m3. destruct E3 as [E3 Eh3].
  set (m4 := remove_pgw s m3).
  assert (E4 : indexes m4 = indexes m2 /\ heap m4 = heap m)
    by (destruct (remove_pgw_frame s m3) as [E5 E6]; fold m4 in E5, E6; split; congruence).
  clearbody m4. clear m3 E3 Eh3. destruct E4 as [E4 Eh4]. injection E4 as E4id E4s E4p E4i E4a.
  rewrite decide_True by (rewrite E4p, Ep; apply (wf_pdn _ _ H); eauto).
  set (m5 := m4 <| byPDN := _ |>).
  destruct (remove_imsi_spec order s l m5) as [E6 Ei6].
  set (m6 := remove_imsi order s l m5) in *. clearbody m6.
  injection E6 as E6id E6s E6p E6a E6h. cbn in E6id, E6s, E6p, E6a, E6h.
  intros Eh Eid Ea Er.
  assert (Hl6 : forall t, s11_list m6 t = filter (fun c => c <> l) (s11_list m t))
    by (intros t; rewrite <- Hlist; unfold s11_list; by rewrite E6s, E4s).
  assert (Hcand : forall x, x ∈ in_order order (byID m5) <-> exists sx, reg m6 x sx).
  { intros x. unfold in_order. rewrite list_elem_of_omap. cbn. rewrite E4id, Eid2. split.
    - intros (id & _ & Hx). apply lookup_delete_Some in Hx as [Hne Hx].
      destruct (wf_id _ _ H _ _ Hx) as (sx & Hsx & <-). exists sx. apply Er. split; [by split|].
      intros ->. destruct Hreg as [Hs _]. congruence.
    - intros (sx & [Hx Hx2]). exists (SessionID sx). rewrite Eid in Hx2. split; [|done].
      rewrite Hord. apply elem_of_elements, elem_of_dom. eauto. }
  assert (Hheap5 : heap m5 = heap m) by exact Eh4.
  assert (Ei5 : byIMSI m5 = byIMSI m) by (cbn; congruence). rewrite Ei5 in Ei6.
  pose proof (imsi_removed X m m6 l s m5 _ H Hreg Er Hcand ltac:(congruence) Ei6) as Himsi.
  split.
  - intros id x Hx. rewrite Eid in Hx. apply lookup_delete_Some in Hx as [_ Hx]. rewrite Eh.
    by apply (wf_id _ _ H).
  - intros t x. rewrite Hl6, list_elem_of_filter, (wf_s11 _ _ H). setoid_rewrite Er. naive_solver.
  - intros t ls. rewrite E6s, E4s. apply Hshape.
  - intros k x. rewrite E6p, E4p, Ep, lookup_delete_Some, (wf_pdn _ _ H). setoid_rewrite Er. split.
    + intros (Hne & sx & Hx & <-). exists sx. split; [|done]. split; [done|]. intros ->.
      destruct Hreg as [Hs _], Hx as [Hx _]. congruence.
    + intros (sx & [Hx Hne] & <-). split; [|eauto]. intros Ek. apply Hne.
      assert (byPDN m !! session_pdn s = Some x) as E1 by (apply (wf_pdn _ _ H); eauto).
      assert (byPDN m !! session_pdn s = Some l) as E5 by (apply (wf_pdn _ _ H); eauto). congruence.
  - exact (proj1 Himsi).
  - exact (proj2 Himsi).
  - intros t. rewrite E6s, E4s, Ea. intros Ht. by apply (wf_used _ _ H), Hsome.
  - intros t. rewrite Ea, E6s, E4s. intros Ht. destruct (wf_leak _ _ H _ Ht) as [Ht'|Ht']; [|set_solver].
    destruct (Hsome' _ Ht') as [?|?]; [by left|set_solver].
  - rewrite Ea. apply H.
Qed.

(** *** TEIDs *)

Lemma wf_teid X Y m a :
  mgr_wf X m -> (forall t, is_Some (byS11 m !! t) -> t ∈ used a) ->
  (forall t, t ∈ used a -> is_Some (byS11 m !! t) \/ t ∈ Y) -> 0 ∉ used a ->
  mgr_wf Y (m <| teidAlloc := a |>).
Proof. intros []. by split. Qed.

Lemma free_if_unused_wf X t m :
  mgr_wf ({[ t ]} ∪ X) m -> mgr_wf X (free_if_unused t m).
Proof.
  intros H. unfold free_if_unused. fold (s11_list m t).
  destruct (s11_list m t) as [|x ls] eqn:E.
  - apply (s11_shape m _ t H) in E. eapply wf_teid; [exact H|..]; unfold Free.
    + intros u Hu. destruct (t =? 0); [by apply (wf_used _ _ H)|]. cbn.
      apply elem_of_difference. split; [by apply (wf_used _ _ H)|].
      intros ->%elem_of_singleton. rewrite E in Hu. by destruct Hu.
    + intros u Hu. destruct (Z.eqb_spec t 0) as [->|Ht].
      * assert (u <> 0) by (intros ->; by apply (wf_zero _ _ H)).
        destruct (wf_leak _ _ H _ Hu); [by left|set_solver].
      * cbn in Hu. apply elem_of_difference in Hu as [Hu Hne].
        destruct (wf_leak _ _ H _ Hu); [by left|set_solver].
    + destruct (t =? 0); [apply H|]. cbn. pose proof (wf_zero _ _ H). set_solver.
  - destruct H as [H1 H2 H3 H4 H5 H6 H7 H8 H9]. split; try done. intros u Hu.
    destruct (H8 u Hu) as [?|Hu']; [by left|]. destruct (decide (u = t)) as [->|]; [|set_solver].
    left. unfold s11_list in E. destruct (byS11 m !! t); [by eauto|done].
Qed.

Lemma free_if_unused_frame t m :
  (heap (free_if_unused t m), byID (free_if_unused t m), byPDN (free_if_unused t m),
   managerSink (free_if_unused t m)) = (heap m, byID m, byPDN m, managerSink m) /\
  used (teidAlloc (free_if_unused t m)) ⊆ used (teidAlloc m) /\
  (forall u, u <> t -> u ∈ used (teidAlloc m) -> u ∈ used (teidAlloc (free_if_unused t m))).
Proof.
  unfold free_if_unused. destruct (default [] (byS11 m !! t)); [|done]. cbn. unfold Free.
  destruct (t =? 0); [done|]. cbn. set_solver.
Qed.

(** *** Creation *)

Definition evict_order (order : list string) (k : pdnKey) (m : Manager) : Prop :=
  forall old, byPDN m !! k = Some old -> order_of order m old.

Lemma evict_spec order k t m :
  mgr_wf {[ t ]} m -> t ∈ used (teidAlloc m) -> evict_order order k m ->
  let '(evicted, m') := evict order k t m in
  mgr_wf {[ t ]} m' /\ t ∈ used (teidAlloc m') /\ evicted = byPDN m !! k /\
  byPDN m' !! k = None /\ heap m' = heap m /\ managerSink m' = managerSink m /\
  (forall id, byID m !! id = None -> byID m' !! id = None) /\
  (forall l s, reg m' l s <-> reg m l s /\ evicted <> Some l).
Proof.
  intros H Ht Hord. unfold evict. destruct (byPDN m !! k) as [old|] eqn:Eold.
  2: { do 6 (split; [done|]). split; [done|]. intros; naive_solver. }
  pose proof Eold as Hold. apply (wf_pdn _ _ H) in Hold as (s & Hreg & Hk).
  pose proof (removeLocked_wf _ order m old s H Hreg (Hord _ Eold)) as Hw.
  destruct (removeLocked_reg _ order m old s H Hreg) as (Eh & Eid & Ea & Esk & Er).
  set (m1 := removeLocked order old m) in *. rewrite (proj1 Hreg).
  fold (s11_teid s). set (m2 := if s11_teid s =? t then m1 else free_if_unused (s11_teid s) m1).
  assert (H2 : mgr_wf {[ t ]} m2 /\ t ∈ used (teidAlloc m2) /\
    (heap m2, byID m2, byPDN m2, managerSink m2) = (heap m1, byID m1, byPDN m1, managerSink m1)).
  { unfold m2. destruct (Z.eqb_spec (s11_teid s) t) as [E|E].
    - split; [|by rewrite Ea]. eapply wf_weaken; [|exact Hw]. set_solver.
    - split; [by apply free_if_unused_wf|].
      destruct (free_if_unused_frame (s11_teid s) m1) as (-> & _ & Hu). split; [|done].
      apply Hu; [done|by rewrite Ea]. }
  destruct H2 as (Hw2 & Ht2 & E2). injection E2 as Eh2 Eid2 Ep2 Es2.
  assert (Er2 : forall l s', reg m2 l s' <-> reg m l s' /\ l <> old)
    by (intros l s'; rewrite <- Er; unfold reg; by rewrite Eh2, Eid2).
  split; [done|]. split; [done|]. split; [done|]. split; [|split; [congruence|split; [congruence|split]]].
  - destruct (byPDN m2 !! k) as [l'|] eqn:E; [|done]. exfalso.
    apply (wf_pdn _ _ Hw2) in E as (s' & Hs' & Hk'). apply Er2 in Hs' as [Hs' Hne].
    assert (byPDN m !! k = Some l') by (apply (wf_pdn _ _ H); eauto). congruence.
  - intros id Hid. rewrite Eid2, Eid, lookup_delete_None. auto.
  - intros l s'. rewrite Er2. naive_solver.
Qed.

Lemma s11_list_register l s m t :
  s11_list (register l s m) t =
    (s11_list m t ++ (if decide (t = s11_teid s) then [l] else []))%list.
Proof.
  unfold s11_list, register. cbn. fold (s11_teid s). destruct (decide (t = s11_teid s)) as [->|Hne].
  - by rewrite lookup_insert_eq.
  - by rewrite lookup_insert_ne, app_nil_r by done.
Qed.

(** A new session enters the indexes; the IMSI index follows it unless it knows a
    session of the subscriber that is not older. *)
Definition enters (l : loc) (s : SGWSession) (m m' : Manager) : Prop :=
  heap m' = <[l := s]> (heap m) /\ byID m' = <[SessionID s := l]> (byID m) /\
  byS11 m' = <[s11_teid s := (s11_list m (s11_teid s) ++ [l])%list]> (byS11 m) /\
  byPDN m' = <[session_pdn s := l]> (byPDN m) /\ teidAlloc m' = teidAlloc m /\
  ((byIMSI m' = <[IMSI s := l]> (byIMSI m) /\
    forall l' s', reg m l' s' -> IMSI s' = IMSI s -> CreatedAt s' <= CreatedAt s) \/
   (byIMSI m' = byIMSI m /\ exists lc sc, byIMSI m !! IMSI s = Some lc /\
      heap m !! lc = Some sc /\ CreatedAt s <= CreatedAt sc)).

Lemma enters_s11 l s m m' t :
  enters l s m m' ->
  s11_list m' t = (s11_list m t ++ (if decide (t = s11_teid s) then [l] else []))%list.
Proof.
  intros (_ & _ & E & _). unfold s11_list at 1. rewrite E.
  destruct (decide (t = s11_teid s)) as [->|Hne].
  - by rewrite lookup_insert_eq.
  - by rewrite lookup_insert_ne, app_nil_r by done.
Qed.

Lemma enters_reg l s m m' :
  enters l s m m' -> heap m !! l = None -> byID m !! SessionID s = None ->
  forall l' s', reg m' l' s' <-> reg m l' s' \/ (l' = l /\ s' = s).
Proof.
  intros (Eh & Ei & _) Hl Hid l' s'. unfold reg. rewrite Eh, Ei. split.
  - intros [H1 H2]. apply lookup_insert_Some in H1 as [[<- <-]|[Hne H1]]; [by right|left].
    apply lookup_insert_Some in H2 as [[_ H2]|[_ H2]]; [congruence|done].
  - intros [[H1 H2]|[-> ->]]; [|by rewrite !lookup_insert_eq].
    rewrite !lookup_insert_ne; [done|congruence|congruence].
Qed.

Lemma enters_imsi X l s m m' :
  mgr_wf X m -> enters l s m m' -> heap m !! l = None -> byID m !! SessionID s = None ->
  (forall i x, byIMSI m' !! i = Some x -> exists sx, reg m' x sx /\ IMSI sx = i /\
     forall l' s', reg m' l' s' -> IMSI s' = i -> CreatedAt s' <= CreatedAt sx) /\
  (forall x sx, reg m' x sx -> is_Some (byIMSI m' !! IMSI sx)).
Proof.
  intros H He Hl Hid. pose proof (enters_reg l s m m' He Hl Hid) as Er.
  destruct He as (_ & _ & _ & _ & _ & [[E Hmax]|[E (lc & sc & Hlc & Hsc & Hle)]]); rewrite E; split.
  - intros i x Hx. apply lookup_insert_Some in Hx as [[<- <-]|[Hne Hx]].
    + exists s. split; [by apply Er; right|]. split; [done|].
      intros l' s' [Hs'|[-> ->]]%Er Ei; [eauto|lia].
    + destruct (wf_imsi _ _ H _ _ Hx) as (sx & Hsx & <- & Hm). exists sx.
      split; [by apply Er; left|]. split; [done|].
      intros l' s' [Hs'|[-> ->]]%Er Ei; [eauto|done].
  - intros x sx Hx. destruct (decide (IMSI s = IMSI sx)) as [->|Hne]; [by rewrite lookup_insert_eq|].
    rewrite lookup_insert_ne by done. apply Er in Hx as [Hx|[-> ->]]; [|done].
    by eapply (wf_imsi_total _ _ H).
  - intros i x Hx. destruct (wf_imsi _ _ H _ _ Hx) as (sx & Hsx & <- & Hm). exists sx.
    split; [by apply Er; left|]. split; [done|].
    intros l' s' [Hs'|[-> ->]]%Er Ei; [eauto|]. rewrite Ei in Hlc.
    assert (x = lc) as -> by congruence. destruct Hsx as [Hsx _]. by simplify_eq.
  - intros x sx Hx. apply Er in Hx as [Hx|[-> ->]]; [by eapply (wf_imsi_total _ _ H)|eauto].
Qed.

Lemma enters_wf l s m m' :
  mgr_wf {[ s11_teid s ]} m -> s11_teid s ∈ used (teidAlloc m) -> enters l s m m' ->
  heap m !! l = None -> byID m !! SessionID s = None -> byPDN m !! session_pdn s = None ->
  mgr_wf ∅ m'.
Proof.
  intros H Ht He Hl Hid Hpdn.
  assert (Hfresh : forall s', ~ reg m l s') by (intros s' [Hs' _]; congruence).
  pose proof (enters_reg l s m m' He Hl Hid) as Er.
  pose proof (fun t => enters_s11 l s m m' t He) as Es.
  destruct (enters_imsi _ l s m m' H He Hl Hid) as [Himsi Htot].
  destruct He as (Eh & Ei & E11 & Ep & Ea & _). split.
  - intros id x Hx. rewrite Ei in Hx. rewrite Eh.
    apply lookup_insert_Some in Hx as [[<- <-]|[Hne Hx]]; [rewrite lookup_insert_eq; eauto|].
    destruct (wf_id _ _ H _ _ Hx) as (s' & Hs' & E). exists s'.
    rewrite lookup_insert_ne; [done|congruence].
  - intros u x. rewrite Es, elem_of_app, (wf_s11 _ _ H). setoid_rewrite Er.
    destruct (decide (u = s11_teid s)) as [->|Hne]; set_solver.
  - intros u ls Hu. rewrite E11 in Hu. apply lookup_insert_Some in Hu as [[<- <-]|[Hne Hu]].
    + split; [|by destruct (s11_list m (s11_teid s))]. apply NoDup_app. split.
      * unfold s11_list. destruct (byS11 m !! s11_teid s) as [ls|] eqn:E; [|constructor].
        by destruct (wf_s11_shape _ _ H _ _ E).
      * split; [|apply NoDup_singleton]. intros x Hx ->%list_elem_of_singleton.
        apply (wf_s11 _ _ H) in Hx as (s' & Hs' & _). by destruct (Hfresh s').
    + by apply (wf_s11_shape _ _ H u).
  - intros k x. rewrite Ep. setoid_rewrite Er. rewrite lookup_insert_Some, (wf_pdn _ _ H). split.
    + intros [[<- <-]|[Hne (s' & ? & ?)]]; eauto.
    + intros (s' & [Hs'|[-> ->]] & <-); [right|by left]. split; [|eauto]. intros E.
      assert (byPDN m !! session_pdn s = Some x) by (apply (wf_pdn _ _ H); eauto). congruence.
  - exact Himsi.
  - exact Htot.
  - intros u. rewrite E11, Ea. intros [ls Hu].
    apply lookup_insert_Some in Hu as [[<- _]|[_ Hu]]; [exact Ht|]. apply (wf_used _ _ H). eauto.
  - intros u. rewrite E11, Ea. intros Hu. left.
    destruct (decide (s11_teid s = u)) as [->|Hne]; [by rewrite lookup_insert_eq|].
    rewrite lookup_insert_ne by done. destruct (wf_leak _ _ H _ Hu); [done|set_solver].
  - rewrite Ea. apply H.
Qed.

Lemma register_wf l s m :
  let t := s11_teid s in
  mgr_wf {[ t ]} m -> t ∈ used (teidAlloc m) -> heap m !! l = None ->
  byID m !! SessionID s = None -> byPDN m !! session_pdn s = None ->
  (forall l' s', reg m l' s' -> CreatedAt s' <= CreatedAt s) ->
  mgr_wf ∅ (register l s m) /\
  (forall l' s', reg (register l s m) l' s' <-> reg m l' s' \/ (l' = l /\ s' = s)).
Proof.
  intros t H Ht Hl Hid Hpdn Hnew.
  assert (He : enters l s m (register l s m)) by (repeat (split; [done|]); left; eauto).
  split; [by eapply enters_wf|by apply enters_reg].
Qed.

(** *** Whole operations *)

(** What the environment guarantees for [Create]: fresh random words, a fresh object and
    session id, a clock that does not run behind the registered sessions, and a caller
    that only reuses the S11 TEID of a registered session. *)
Record create_env (now : time) (rnd : nat -> option bytes) (id_rnd : option bytes)
    (order : list string) (l : loc) (p : CreateParams) (m : Manager) : Prop := mkCreateEnv {
  ce_rnd : random_words rnd;
  ce_loc : heap m !! l = None;
  ce_id : forall id, newSessionID id_rnd = Some id -> byID m !! id = None;
  ce_reuse : ft_TEID (cp_ReuseSGWS11FTEID p) = 0 \/
             is_Some (byS11 m !! ft_TEID (cp_ReuseSGWS11FTEID p));
  ce_now : forall l s, reg m l s -> CreatedAt s <= now;
  ce_order : evict_order order (mkpdnKey (cp_IMSI p) (cp_DefaultEBI p)) m
}.

(** The state in which the S11 TEID of the new session is chosen. *)
Lemma wf_alloc m t a :
  mgr_wf ∅ m -> t <> 0 -> used a = {[ t ]} ∪ used (teidAlloc m) ->
  mgr_wf {[ t ]} (m <| teidAlloc := a |>).
Proof.
  intros H Ht Ha. eapply wf_teid; [exact H|..]; rewrite Ha.
  - intros u Hu. apply elem_of_union_r, (wf_used _ _ H _ Hu).
  - intros u Hu. apply elem_of_union in Hu as [Hu|Hu]; [by right|].
    destruct (wf_leak _ _ H _ Hu); [by left|set_solver].
  - pose proof (wf_zero _ _ H). set_solver.
Qed.

Lemma Create_spec now rnd id_rnd order l p m :
  mgr_wf ∅ m -> create_env now rnd id_rnd order l p m ->
  let '(r, m', calls) := Create now rnd id_rnd order l p m in
  mgr_wf ∅ m' /\
  match r with
  | Err _ => indexes m' = indexes m /\ heap m' = heap m /\ calls = []
  | Ok (l', evicted) =>
      l' = l /\ evicted = byPDN m !! mkpdnKey (cp_IMSI p) (cp_DefaultEBI p) /\
      exists id sgw, newSessionID id_rnd = Some id /\
        let sess := new_session now id sgw p (managerSink m) in
        (if ft_TEID (cp_ReuseSGWS11FTEID p) =? 0
         then ft_TEID sgw <> 0 /\ ft_TEID sgw ∉ used (teidAlloc m)
         else sgw = cp_ReuseSGWS11FTEID p) /\
        (forall l2 s2, reg m' l2 s2 <->
           (reg m l2 s2 /\ evicted <> Some l2) \/ (l2 = l /\ s2 = sess)) /\
        byIMSI m' !! cp_IMSI p = Some l /\ last (s11_list m' (ft_TEID sgw)) = Some l
  end.
Proof.
  intros H [Hrnd Hloc Hid Hreuse Hnow Hord]. unfold Create.
  set (reuse := cp_ReuseSGWS11FTEID p) in *.
  assert (Hmain : forall sgw a id, newSessionID id_rnd = Some id ->
    let m0 := m <| teidAlloc := a |> in
    mgr_wf {[ ft_TEID sgw ]} m0 -> ft_TEID sgw ∈ used a ->
    let sess := new_session now id sgw p (managerSink m) in
    let '(evicted, m1) := evict order (session_pdn sess) (ft_TEID sgw) m0 in
    let m' := register l sess m1 in
    mgr_wf ∅ m' /\ evicted = byPDN m !! mkpdnKey (cp_IMSI p) (cp_DefaultEBI p) /\
    (forall l2 s2, reg m' l2 s2 <->
       (reg m l2 s2 /\ evicted <> Some l2) \/ (l2 = l /\ s2 = sess)) /\
    byIMSI m' !! cp_IMSI p = Some l /\ last (s11_list m' (ft_TEID sgw)) = Some l /\
    managerSink m1 = managerSink m).
  { intros sgw a id Ei m0 Hw Ht sess.
    pose proof (evict_spec order (session_pdn sess) (ft_TEID sgw) m0 Hw Ht Hord) as He.
    destruct (evict order _ _ m0) as [evicted m1].
    destruct He as (Hw1 & Ht1 & Hev & Hp1 & Hh1 & Hs1 & Hi1 & Hr1).
    assert (Hr1' : forall l s, reg m1 l s <-> reg m l s /\ evicted <> Some l) by exact Hr1.
    destruct (register_wf l sess m1) as [Hw' Hr']; try done.
    - by rewrite Hh1.
    - apply Hi1, Hid. done.
    - intros l2 s2 Hs2. apply Hr1' in Hs2 as [Hs2 _]. by eapply Hnow.
    - split; [done|]. split; [done|]. split; [|split; [|split]].
      + intros l2 s2. by rewrite Hr', Hr1'.
      + unfold register. cbn. by rewrite lookup_insert_eq.
      + rewrite s11_list_register, decide_True by done. by rewrite last_snoc.
      + done. }
  destruct (Z.eqb_spec (ft_TEID reuse) 0) as [E0|E0].
  - destruct (Alloc rnd (teidAlloc m)) as [[t|e] a] eqn:Ea.
    + apply Alloc_Ok in Ea as (Ht0 & Htu & Hu).
      destruct (newSessionID id_rnd) as [id|] eqn:Ei.
      * specialize (Hmain (mkFTEID t AddrZero) a id eq_refl (wf_alloc m t a H Ht0 Hu)).
        cbn [ft_TEID] in *. rewrite Hu in Hmain. specialize (Hmain ltac:(set_solver)).
        cbv zeta in Hmain. change (managerSink (m <| teidAlloc := a |>)) with (managerSink m).
        destruct (evict order _ _ _) as [evicted m1].
        destruct Hmain as (? & ? & ? & ? & ? & Hs). split; [done|]. split; [done|].
        split; [done|]. eexists _, (mkFTEID t AddrZero). split; [done|]. done.
      * cbn. assert (Hfree : Free t a = teidAlloc m).
        { unfold Free. rewrite (proj2 (Z.eqb_neq _ _)) by done. destruct (teidAlloc m) as [u].
          f_equal. cbn in *. rewrite Hu. set_solver. }
        rewrite Hfree. split; [|done]. by destruct m, H.
    + apply Alloc_Err in Ea as ->. split; [by destruct m, H|done].
  - assert (Hin : is_Some (byS11 m !! ft_TEID reuse)) by (by destruct Hreuse).
    destruct (newSessionID id_rnd) as [id|] eqn:Ei; [|done].
    assert (Em : m <| teidAlloc := teidAlloc m |> = m) by by destruct m.
    specialize (Hmain reuse (teidAlloc m) id eq_refl). rewrite Em in Hmain. cbv zeta in Hmain.
    specialize (Hmain ltac:(eapply wf_weaken; [|exact H]; set_solver) (wf_used _ _ H _ Hin)).
    destruct (evict order _ _ _) as [evicted m1].
    destruct Hmain as (? & ? & ? & ? & ? & Hs). split; [done|]. split; [done|].
    split; [done|]. exists id, reuse. split; [done|]. done.
Qed.

Lemma Delete_spec order id m l s :
  mgr_wf ∅ m -> reg m l s -> SessionID s = id -> order_of order m l ->
  let '(m', calls) := Delete order id m in
  mgr_wf ∅ m' /\ heap m' = heap m /\
  (forall l2 s2, reg m' l2 s2 <-> reg m l2 s2 /\ l2 <> l) /\
  calls = (if managerSink m then [DeleteSessionSnapshot id] else []).
Proof.
  intros H Hreg Eid Hord. unfold Delete. rewrite <- Eid, (proj2 Hreg), (proj1 Hreg).
  pose proof (removeLocked_wf _ order m l s H Hreg Hord) as Hw.
  destruct (removeLocked_reg _ order m l s H Hreg) as (Eh & Ei & Ea & Es & Er).
  set (m1 := removeLocked order l m) in *. fold (s11_teid s).
  pose proof (free_if_unused_wf ∅ (s11_teid s) m1 Hw) as Hw2.
  destruct (free_if_unused_frame (s11_teid s) m1) as [E _]. injection E as Eh2 Ei2 Ep2 Es2.
  split; [done|]. split; [congruence|]. split; [|by rewrite Es2, Es].
  intros l2 s2. rewrite <- Er. unfold reg. by rewrite Eh2, Ei2.
Qed.

(** Operations of the manager and of the sessions it holds. *)
Inductive mgr_step : Manager -> Manager -> Prop :=
| ms_create now rnd id_rnd order l p m r m' calls :
    create_env now rnd id_rnd order l p m ->
    Create now rnd id_rnd order l p m = (r, m', calls) -> mgr_step m m'
| ms_delete order id m :
    (forall l, byID m !! id = Some l -> order_of order m l) ->
    mgr_step m (Delete order id m).1
| ms_session l o m : mgr_step m (on_session l (exec o) m).1
| ms_s5c id t m : mgr_step m (RegisterS5CTEID id t m).1
| ms_pgw now id addr m : mgr_step m (RegisterPGW now id addr m).1
| ms_pgw_path now order addr state at_ m :
    mgr_step m (MarkPGWPathState now order addr state at_ m).2.1
| ms_pgw_restart now order addr rec at_ m :
    mgr_step m (Manager_MarkPGWRestart now order addr rec at_ m).2.1
| ms_mme_path now order addr state at_ m :
    mgr_step m (MarkMMEPathState now order addr state at_ m).2.1
| ms_mme_restart now order addr rec at_ m :
    mgr_step m (Manager_MarkMMERestart now order addr rec at_ m).2.1
| ms_invalidate now1 now2 order m : mgr_step m (InvalidatePFCPBindings now1 now2 order m).2.1
| ms_invalidate_peer now1 now2 order name addr m :
    mgr_step m (InvalidatePFCPBindingsForPeer now1 now2 order name addr m).2.1.

Lemma mgr_step_wf m m' : mgr_step m m' -> mgr_wf ∅ m -> mgr_wf ∅ m'.
Proof.
  intros Hst H. destruct Hst as [now rnd id_rnd order l p m r m' calls Henv E|order id m Hord|l o m
    |id t m|now id addr m|now order addr st at_ m|now order addr rc at_ m|now order addr st at_ m
    |now order addr rc at_ m|now1 now2 order m|now1 now2 order name addr m].
  - pose proof (Create_spec now rnd id_rnd order l p m H Henv) as Hc. rewrite E in Hc. apply Hc.
  - destruct (byID m !! id) as [l|] eqn:E; [|by unfold Delete; rewrite E].
    destruct (wf_id _ _ H _ _ E) as (s & Hs & Eid).
    assert (Hreg : reg m l s) by (split; [done|congruence]).
    pose proof (Delete_spec order id m l s H Hreg Eid (Hord _ eq_refl)) as Hd.
    destruct (Delete order id m). apply Hd.
  - by apply on_session_wf; [intros; apply exec_index_key|].
  - unfold RegisterS5CTEID. destruct (byID m !! id); [|done].
    apply on_session_wf; [done|]. by apply (wf_frame ∅ m).
  - unfold RegisterPGW. destruct (String.eqb _ _); [done|].
    destruct (byID m !! id) as [l|]; [|done]. destruct (heap m !! l) as [s|]; [|done].
    apply on_session_wf; [intros s'; apply (exec_index_key (OpSetPGWPathState _ _ _ _))|].
    eapply wf_frame; [| |exact H].
    + cbn. destruct (_ && _); [|done]. by destruct (removePGW_frame (pf_PGWAddr (PGWFailure s)) id m).
    + intros l'. cbn. destruct (_ && _); [|done].
      by destruct (removePGW_frame (pf_PGWAddr (PGWFailure s)) id m) as [_ ->].
  - by apply on_sessions_wf; [intros; apply (exec_index_key (OpSetPGWPathState _ _ _ _))|].
  - by apply on_sessions_wf; [intros; apply (exec_index_key (OpMarkPGWRestart _ _ _ _))|].
  - by apply on_sessions_wf; [intros; apply (exec_index_key (OpSetMMEPathState _ _ _ _))|].
  - by apply on_sessions_wf; [intros; apply (exec_index_key (OpMarkMMERestart _ _ _ _))|].
  - by apply count_sessions_wf; [intros; apply (exec_index_key (OpInvalidatePFCPBinding _ _))|].
  - by apply count_sessions_wf; [intros; apply (exec_index_key (OpInvalidatePFCPBindingForPeer _ _ _ _))|].
Qed.

Lemma NewManager_wf : mgr_wf ∅ NewManager.
Proof.
  split; cbn; intros *; try (rewrite lookup_empty); rewrite ?lookup_empty; try done.
  - unfold s11_list. cbn. rewrite lookup_empty. cbn. split; [by intros []%elem_of_nil|].
    intros (s & [Hs _] & _). done.
  - split; [done|]. intros (s & [Hs _] & _). done.
  - by intros [Hs _].
Qed.

Lemma mgr_steps_wf m m' : rtc mgr_step m m' -> mgr_wf ∅ m -> mgr_wf ∅ m'.
Proof. induction 1; eauto using mgr_step_wf. Qed.

Lemma find_session_spec order test m :
  mgr_wf ∅ m -> Permutation order (elements (dom (byID m))) ->
  match find_session order test m with
  | Some l => exists s, reg m l s /\ test s = true
  | None => forall l s, reg m l s -> test s = false
  end.
Proof.
  intros H Hord.
  assert (Hin : forall l, l ∈ in_order order (byID m) <-> exists s, reg m l s).
  { intros l. unfold in_order. rewrite list_elem_of_omap. split.
    - intros (id & _ & Hx). destruct (wf_id _ _ H _ _ Hx) as (s & Hs & <-). by exists s.
    - intros (s & Hs & Hx). exists (SessionID s). split; [|done].
      rewrite Hord. apply elem_of_elements, elem_of_dom. eauto. }
  unfold find_session. destruct (List.find _ _) as [l|] eqn:E.
  - apply find_some in E as [Hl E]. apply list_elem_of_In, Hin in Hl as (s & Hs). exists s.
    by rewrite (proj1 Hs) in E.
  - intros l s Hs. assert (Hl : List.In l (in_order order (byID m)))
      by (apply list_elem_of_In, Hin; eauto).
    pose proof (find_none _ _ E _ Hl) as E'. cbn in E'. by rewrite (proj1 Hs) in E'.
Qed.

(** Bracket-free text stays bracket-free when its port is split off. *)
Lemma SplitHostPort_no_brackets l h p :
  no_brackets l -> SplitHostPort_list l = Ok (h, p) -> no_brackets h.
Proof.
  intros [Hl Hr]. unfold SplitHostPort_list. destruct (last_index_byte colon l) as [i|]; [|done].
  unfold split_host. rewrite decide_False.
  2: { destruct l as [|x l]; [done|]. intros [= ->]. apply Hl. left. }
  destruct (index_byte colon (take i l)); [done|]. cbn.
  destruct (index_byte lbrack _); [done|]. destruct (index_byte rbrack _); [done|].
  intros [= <- <-]. split; intros (k & Hk & _)%elem_of_take; apply list_elem_of_lookup_2 in Hk; done.
Qed.

Definition bracket_free (addr : string) : Prop := no_brackets (list_ascii_of_string addr).
#[export] Instance bracket_free_dec addr : Decision (bracket_free addr) := no_brackets_dec _.

Lemma Canonical_cases addr :
  bracket_free addr ->
  CanonicalGTPCEndpoint addr = "" \/
  exists host, bracket_free host /\ host <> "" /\
    CanonicalGTPCEndpoint addr = JoinHostPort host (Itoa 2123).
Proof.
  intros Hb. unfold CanonicalGTPCEndpoint.
  destruct (String.eqb_spec addr "") as [|Ha]; [by left|].
  set (host := match SplitHostPort addr with Ok (h, _) => h | Err _ => addr end).
  destruct (String.eqb_spec host "") as [|Hh]; [by left|]. right. exists host.
  split; [|done]. unfold host, SplitHostPort, bracket_free in *.
  destruct (SplitHostPort_list (list_ascii_of_string addr)) as [[h p]|e] eqn:E; cbn; [|done].
  rewrite list_ascii_of_string_of_list_ascii. by eapply SplitHostPort_no_brackets.
Qed.

Lemma Canonical_join host :
  bracket_free host -> host <> "" ->
  CanonicalGTPCEndpoint (JoinHostPort host (Itoa 2123)) = JoinHostPort host (Itoa 2123).
Proof.
  intros Hb Hh. unfold CanonicalGTPCEndpoint.
  assert (E : SplitHostPort (JoinHostPort host (Itoa 2123)) = Ok (host, "2123")).
  { unfold SplitHostPort, JoinHostPort. rewrite list_ascii_of_string_of_list_ascii.
    rewrite SplitHostPort_list_join; [|done|by_compute|by_compute]. cbn.
    by rewrite string_of_list_ascii_of_string. }
  rewrite E. destruct (String.eqb_spec (JoinHostPort host (Itoa 2123)) "") as [E0|_].
  - rewrite E0 in E. by vm_compute in E.
  - by destruct (String.eqb_spec host "").
Qed.

(** ** Properties *)


Definition example_params (ebi reuse : Z) : CreateParams :=
  mkCreateParams "001010123456789" "internet" 6 "001-01" (mkFTEID 17 (AddrV4 167772161))
    (mkFTEID reuse AddrZero) ebi 9 (Bearer.mkARP 1 false false) 1000 1000.

Definition example_words : nat -> option bytes := fun _ => Some [0; 0; 0; 33].
Definition example_id (b : Z) : option bytes := Some [b; 2; 3; 4; 5; 6; 7; 8].

Definition example_m1 : Manager :=
  (Create 100 example_words (example_id 1) [] 0%nat (example_params 5 0) NewManager).1.2.
Definition example_m2 : Manager :=
  (Create 200 example_words (example_id 2) [] 1%nat (example_params 6 33) example_m1).1.2.

Lemma example_words_ok : random_words example_words.
Proof. intros k b [= <-]. split; [done|by_compute]. Qed.

Lemma example_env1 :
  create_env 100 example_words (example_id 1) [] 0%nat (example_params 5 0) NewManager.
Proof.
  split; [apply example_words_ok|done|done|by left| |].
  - by intros l s [Hs _].
  - by intros old Hold.
Qed.

Lemma example_env2 :
  create_env 200 example_words (example_id 2) [] 1%nat (example_params 6 33) example_m1.
Proof.
  split; [apply example_words_ok|done| |right; by_compute| |].
  - intros id [= <-]. by vm_compute.
  - intros l s [Hs _].
    assert (map_Forall (fun _ s => CreatedAt s <= 200) (heap example_m1)) as H by by_compute.
    exact (H _ _ Hs).
  - intros old Hold. assert (byPDN example_m1 !! mkpdnKey "001010123456789" 6 = None) as E
      by by_compute. cbn in Hold. congruence.
Qed.

Lemma Create_mgr_step now rnd id_rnd order l p m :
  create_env now rnd id_rnd order l p m -> mgr_step m (Create now rnd id_rnd order l p m).1.2.
Proof.
  intros H. destruct (Create _ _ _ _ _ _ _) as [[r m'] calls] eqn:E. by eapply ms_create.
Qed.

Lemma example_step1 : mgr_step NewManager example_m1.
Proof. unfold example_m1. apply Create_mgr_step, example_env1. Qed.

Lemma example_step2 : mgr_step example_m1 example_m2.
Proof. unfold example_m2. apply Create_mgr_step, example_env2. Qed.

Lemma example_reachable : rtc mgr_step NewManager example_m2.
Proof. exact (rtc_l _ _ _ _ example_step1 (rtc_l _ _ _ _ example_step2 (rtc_refl _ _))). Qed.

Lemma example_m1_wf : mgr_wf ∅ example_m1.
Proof. exact (mgr_step_wf _ _ example_step1 NewManager_wf). Qed.

Lemma example_m2_wf : mgr_wf ∅ example_m2.
Proof. exact (mgr_steps_wf _ _ example_reachable NewManager_wf). Qed.


(** [Create] either fails and changes nothing, or registers exactly one new pending
    session built from the parameters, reachable through every index, on the S11 TEID
    that was asked for or a fresh non-zero one; it takes out exactly the session that
    held the same IMSI and EBI, reports it, and leaves every other session registered. *)
Lemma Create_registers now rnd id_rnd order l p m :
  mgr_wf ∅ m -> create_env now rnd id_rnd order l p m ->
  let '(r, m', calls) := Create now rnd id_rnd order l p m in
  mgr_wf ∅ m' /\
  match r with
  | Err _ => indexes m' = indexes m /\ heap m' = heap m /\ calls = []
  | Ok (l', evicted) =>
      l' = l /\ evicted = byPDN m !! mkpdnKey (cp_IMSI p) (cp_DefaultEBI p) /\
      exists id sgw, newSessionID id_rnd = Some id /\
        let sess := new_session now id sgw p (managerSink m) in
        (if ft_TEID (cp_ReuseSGWS11FTEID p) =? 0
         then ft_TEID sgw <> 0 /\ ft_TEID sgw ∉ used (teidAlloc m)
         else sgw = cp_ReuseSGWS11FTEID p) /\
        (forall l2 s2, reg m' l2 s2 <->
           (reg m l2 s2 /\ evicted <> Some l2) \/ (l2 = l /\ s2 = sess)) /\
        Find id m' = Some l /\ FindByIMSI (cp_IMSI p) m' = Some l /\
        FindByS11TEID (ft_TEID sgw) m' = Some l
  end.
Proof.
  intros H Henv. pose proof (Create_spec now rnd id_rnd order l p m H Henv) as Hc.
  destruct (Create now rnd id_rnd order l p m) as [[[[l' ev]|e] m'] calls]; [|done].
  destruct Hc as (Hw & -> & -> & id & sgw & Hid & Hsgw & Hreg & Hi & Hl).
  split; [done|]. split; [done|]. split; [done|]. exists id, sgw. repeat (split; [done|]).
  split; [|done]. by apply (proj2 (Hreg l (new_session now id sgw p (managerSink m)))); right.
Qed.

Lemma example_created :
  (Create 200 example_words (example_id 2) [] 1%nat (example_params 6 33) example_m1).1.1
  = Ok (1%nat, None).
Proof. by vm_compute. Qed.

(** [Delete] removes exactly the named session from every index, leaves every other
    session registered and every session object as it was, gives the S11 TEID back
    exactly when no other PDN connection shares it, and tells the checkpoint sink. *)
Lemma Delete_removes order id m l s :
  mgr_wf ∅ m -> reg m l s -> SessionID s = id -> order_of order m l ->
  let '(m', calls) := Delete order id m in
  mgr_wf ∅ m' /\ heap m' = heap m /\ Find id m' = None /\ 
  (forall t, l ∉ s11_list m' t) /\ (forall k, byPDN m' !! k <> Some l) /\
  (forall i, byIMSI m' !! i <> Some l) /\
  (forall l2 s2, reg m' l2 s2 <-> reg m l2 s2 /\ l2 <> l) /\
  (s11_teid s ∈ used (teidAlloc m') <->
     exists l2 s2, reg m l2 s2 /\ l2 <> l /\ s11_teid s2 = s11_teid s) /\
  calls = (if managerSink m then [DeleteSessionSnapshot id] else []).
Proof.
  intros H Hreg Eid Hord. pose proof (Delete_spec order id m l s H Hreg Eid Hord) as Hd.
  destruct (Delete order id m) as [m' calls]. destruct Hd as (Hw & Hh & Hr & Hc).
  assert (Hnl : forall s2, ~ reg m' l s2) by (intros s2 Hs2; by apply Hr in Hs2 as []).
  split; [done|]. split; [done|]. split; [|split; [|split; [|split; [|split; [done|split; [|done]]]]]].
  - unfold Find. destruct (byID m' !! id) as [l2|] eqn:E; [|done]. exfalso.
    destruct (wf_id _ _ Hw _ _ E) as (s2 & Hs2 & Ei).
    assert (Hreg2 : reg m' l2 s2) by (split; [done|by rewrite Ei]).
    apply Hr in Hreg2 as [Hreg2 Hne]. apply Hne. eapply (reg_inj m l2 s2 l s); [done|done|congruence].
  - intros t Ht. apply (wf_s11 _ _ Hw) in Ht as (s2 & Hs2 & _). by apply (Hnl s2).
  - intros k Hk. apply (wf_pdn _ _ Hw) in Hk as (s2 & Hs2 & _). by apply (Hnl s2).
  - intros i Hi. apply (wf_imsi _ _ Hw) in Hi as (s2 & Hs2 & _). by apply (Hnl s2).
  - split.
    + intros Hu. destruct (wf_leak _ _ Hw _ Hu) as [Hsome|Hin]; [|by apply elem_of_empty in Hin].
      destruct Hsome as [ls Hls]. destruct (wf_s11_shape _ _ Hw _ _ Hls) as [_ Hne].
      destruct ls as [|l2 ls]; [done|].
      assert (Hin : l2 ∈ s11_list m' (s11_teid s)) by (unfold s11_list; rewrite Hls; left).
      apply (wf_s11 _ _ Hw) in Hin as (s2 & Hs2 & Et). apply Hr in Hs2 as [? ?]. eauto.
    + intros (l2 & s2 & Hs2 & Hne & Et). apply (wf_used _ _ Hw).
      assert (Hin : l2 ∈ s11_list m' (s11_teid s)) by (apply (wf_s11 _ _ Hw); exists s2; by rewrite Hr).
      unfold s11_list in Hin. destruct (byS11 m' !! s11_teid s); [by eauto|].
      by apply not_elem_of_nil in Hin.
Qed.

Definition example_s2 : SGWSession := default example_session (heap example_m2 !! 1%nat).

Definition example_s1 : SGWSession := default example_session (heap example_m2 !! 0%nat).

Lemma example_regs :
  reg example_m2 1%nat example_s2 /\ reg example_m2 0%nat example_s1 /\
  s11_teid example_s1 = s11_teid example_s2.
Proof. repeat split; by vm_compute. Qed.

Lemma example_delete_order : order_of [SessionID example_s1] example_m2 1%nat.
Proof.
  unfold order_of. rewrite (proj1 (proj1 example_regs)).
  assert (E : elements (dom (delete (SessionID example_s2) (byID example_m2)))
            = [SessionID example_s1]) by by_compute.
  by rewrite E.
Qed.

(** The lookups that scan the store return a registered session that satisfies their
    criterion whenever there is one, and nothing otherwise, for every map iteration
    order: by PFCP SEIDs, by pending DDN, and by S11 TEID and bearer. *)
Lemma lookups_complete order m :
  mgr_wf ∅ m -> Permutation order (elements (dom (byID m))) ->
  (forall cp up, match FindByPFCPSEID order cp up m with
     | Some l => exists s, reg m l s /\ pb_Established (PFCP s) = true /\
         (cp <> 0 -> fs_SEID (pb_LocalFSEID (PFCP s)) = cp) /\
         (up <> 0 -> fs_SEID (pb_SGWUFSEID (PFCP s)) = up)
     | None => forall l s, reg m l s -> pb_Established (PFCP s) = true ->
         (cp <> 0 /\ fs_SEID (pb_LocalFSEID (PFCP s)) <> cp) \/
         (up <> 0 /\ fs_SEID (pb_SGWUFSEID (PFCP s)) <> up) end) /\
  (forall mme t seq l, FindMMERestorationByDDN order mme t seq m = Some l ->
     seq <> 0 /\ exists s, reg m l s /\ mr_DDNTriggered (MMERestoration s) = true /\
       mr_DDNSequence (MMERestoration s) = seq /\ (t <> 0 -> s11_teid s = t) /\
       mme_matches (CanonicalGTPCEndpoint mme) s = true) /\
  (forall t ebi, match FindByS11TEIDAndBearer t ebi m with
     | Some l => exists s, reg m l s /\ s11_teid s = t /\ is_Some (GetBearer ebi s)
     | None => forall l s, reg m l s -> s11_teid s = t -> GetBearer ebi s = None end).
Proof.
  intros H Hord. split; [|split].
  - intros cp up. unfold FindByPFCPSEID.
    pose proof (find_session_spec order (fun s => pb_Established (PFCP s)
      && ((cp =? 0) || (fs_SEID (pb_LocalFSEID (PFCP s)) =? cp))
      && ((up =? 0) || (fs_SEID (pb_SGWUFSEID (PFCP s)) =? up))) m H Hord) as Hf.
    cbv zeta. destruct (find_session _ _ m) as [l|].
    + destruct Hf as (s & Hs & Ht). exists s.
      rewrite !andb_true_iff, !orb_true_iff, !Z.eqb_eq in Ht. intuition.
    + intros l s Hs He. specialize (Hf l s Hs). rewrite He in Hf. cbn in Hf.
      rewrite andb_false_iff, !orb_false_iff, !Z.eqb_neq in Hf. done.
  - intros mme t seq l. unfold FindMMERestorationByDDN.
    destruct (String.eqb _ _); [done|]. destruct (Z.eqb_spec seq 0) as [|Hseq]; [done|]. cbn.
    intros Hf. split; [done|].
    match type of Hf with find_session _ ?test _ = _ =>
      pose proof (find_session_spec order test m H Hord) as Hs end. rewrite Hf in Hs.
    destruct Hs as (s & Hs & Ht). exists s.
    rewrite !andb_true_iff, !orb_true_iff, !Z.eqb_eq in Ht. unfold s11_teid. intuition.
  - intros t ebi. unfold FindByS11TEIDAndBearer. fold (s11_list m t).
    destruct (List.find _ _) as [l|] eqn:E.
    + apply find_some in E as [Hl E]. apply in_rev, list_elem_of_In in Hl.
      apply (wf_s11 _ _ H) in Hl as (s & Hs & Et). exists s.
      rewrite (proj1 Hs), bool_decide_eq_true in E. done.
    + intros l s Hs Et. assert (Hl : List.In l (rev (s11_list m t)))
        by (rewrite <- in_rev; apply list_elem_of_In, (wf_s11 _ _ H); eauto).
      pose proof (find_none _ _ E _ Hl) as E'. cbn in E'.
      rewrite (proj1 Hs), bool_decide_eq_false in E'. by apply eq_None_not_Some.
Qed.

Lemma example_found : FindByS11TEIDAndBearer 33 6 example_m2 = Some 1%nat.
Proof. by vm_compute. Qed.

(** The canonical endpoint of a bracket-free address is a fixed point of
    canonicalization and carries port 2123, so a session indexed under the endpoint
    computed at registration is found and removed under the endpoint computed from the
    stored one. *)
Lemma CanonicalGTPCEndpoint_stable addr :
  bracket_free addr ->
  CanonicalGTPCEndpoint (CanonicalGTPCEndpoint addr) = CanonicalGTPCEndpoint addr /\
  (CanonicalGTPCEndpoint addr = "" \/
   exists host, SplitHostPort (CanonicalGTPCEndpoint addr) = Ok (host, "2123")).
Proof.
  intros Hb. destruct (Canonical_cases addr Hb) as [->|(host & Hh & Hne & ->)]; [auto|].
  split; [by apply Canonical_join|right]. exists host.
  unfold SplitHostPort, JoinHostPort. rewrite list_ascii_of_string_of_list_ascii.
  rewrite SplitHostPort_list_join; [|done|by_compute|by_compute]. cbn.
  by rewrite string_of_list_ascii_of_string.
Qed.
