(* ===== verification/SessionRestore.v ===== *)
(** * Restoring sessions after a restart ([internal/sgwc/session/restore.go])

    Sessions are rebuilt from their durable snapshots and put into recovery.  New
    objects take consecutive locations from [l]; the clock is an argument. *)

From stdpp Require Import sorting.
From S2P Require Import Prelude GoLib Collision Teid SessionData Session SessionManager.
From S2P Require Bearer Checkpoint.

Open Scope string_scope.
Open Scope Z_scope.

(** ** One session *)

Definition addrFromString (value : string) : Addr :=
  if String.eqb value "" then AddrZero else default AddrZero (ParseAddr value).

Definition fteidFromSnapshot (s : Checkpoint.FTEIDSnapshot) : FTEID :=
  mkFTEID (Checkpoint.fts_TEID s) (addrFromString (Checkpoint.fts_IPv4 s)).
Definition bearerFTEIDFromSnapshot (s : Checkpoint.FTEIDSnapshot) : Bearer.FTEID :=
  Bearer.mkFTEID (Checkpoint.fts_TEID s) (addrFromString (Checkpoint.fts_IPv4 s)).
Definition fseidFromSnapshot (s : Checkpoint.FSEIDSnapshot) : FSEID :=
  mkFSEID (Checkpoint.fss_SEID s) (addrFromString (Checkpoint.fss_IPv4 s)).

Definition pfcpReconciliationFromSnapshot (s : Checkpoint.PFCPReconciliationSnapshot)
    : PFCPReconciliationStatus :=
  mkPFCPReconciliationStatus (Checkpoint.recs_State s) (Checkpoint.recs_At s)
    (Checkpoint.recs_Reason s).

Definition pgwFailureFromSnapshot (s : Checkpoint.PGWFailureSnapshot)
    : PGWFailureStatus :=
  mkPGWFailureStatus (Checkpoint.pfs_PathState s) (Checkpoint.pfs_PGWAddr s)
    (Checkpoint.pfs_PathDownAt s) (Checkpoint.pfs_RestartDetectedAt s)
    (Checkpoint.pfs_RecoverySeen s) (Checkpoint.pfs_RecoveryCounter s).

Definition mmeRestorationFromSnapshot (s : Checkpoint.MMERestorationSnapshot)
    : MMERestorationStatus :=
  mkMMERestorationStatus (Checkpoint.mrs_State s) (Checkpoint.mrs_MMEAddr s)
    (Checkpoint.mrs_PathDownAt s) (Checkpoint.mrs_RestartDetectedAt s)
    (Checkpoint.mrs_RecoverySeen s) (Checkpoint.mrs_RecoveryCounter s)
    (Checkpoint.mrs_RestorationPending s) (Checkpoint.mrs_PolicyAction s)
    (Checkpoint.mrs_PolicyReason s) (Checkpoint.mrs_DDNTriggered s)
    (Checkpoint.mrs_DDNTriggeredAt s) (Checkpoint.mrs_DDNSequence s)
    (Checkpoint.mrs_DDNAcked s) (Checkpoint.mrs_DDNAckedAt s)
    (Checkpoint.mrs_DDNAckCause s) (Checkpoint.mrs_DDNFailureAt s)
    (Checkpoint.mrs_DDNFailureCause s) (Checkpoint.mrs_DDNFailureReason s)
    (Checkpoint.mrs_DDNControlAction s) (Checkpoint.mrs_DDNControlPriority s)
    (Checkpoint.mrs_DDNControlReason s) (Checkpoint.mrs_DDNControlRetryAt s)
    (Checkpoint.mrs_DDNControlDecidedAt s) (Checkpoint.mrs_StopPagingSent s)
    (Checkpoint.mrs_StopPagingSentAt s) (Checkpoint.mrs_StopPagingSequence s)
    (Checkpoint.mrs_UserPlaneRestored s) (Checkpoint.mrs_UserPlaneRestoredAt s)
    (Checkpoint.mrs_RestoredEBI s).

Definition bearerFromSnapshot (s : Checkpoint.BearerSnapshot) : Bearer.Bearer :=
  let tft := match Checkpoint.bs_TFTRaw s with [] => None | raw => Some (Bearer.mkTFT raw) end in
  Bearer.mkBearer (Checkpoint.bs_EBI s) (Checkpoint.bs_QCI s) (Checkpoint.bs_ARP s)
    (bearerFTEIDFromSnapshot (Checkpoint.bs_ENBS1UFTEID s))
    (bearerFTEIDFromSnapshot (Checkpoint.bs_SGWS1UFTEID s))
    (bearerFTEIDFromSnapshot (Checkpoint.bs_PGWS5UFTEID s))
    (bearerFTEIDFromSnapshot (Checkpoint.bs_SGWS5UFTEID s))
    (Checkpoint.bs_MBRUplink s) (Checkpoint.bs_MBRDownlink s)
    (Checkpoint.bs_GBRUplink s) (Checkpoint.bs_GBRDownlink s)
    tft (Checkpoint.bs_State s) (Checkpoint.bs_PDRIDs s) (Checkpoint.bs_FARIDs s)
    (Checkpoint.bs_LastControlActivityAt s) (Checkpoint.bs_LastUserPlaneActivityAt s)
    (Checkpoint.bs_LastActivitySource s) (Checkpoint.bs_InactiveSince s)
    (Checkpoint.bs_CleanupEligible s).

(** All rule ids of the bearers in the order the code visits them. *)
Definition rule_ids (bearers : list Checkpoint.BearerSnapshot) : list Z :=
  flat_map (fun b => [(Checkpoint.bs_PDRIDs b).1; (Checkpoint.bs_PDRIDs b).2;
                      (Checkpoint.bs_FARIDs b).1; (Checkpoint.bs_FARIDs b).2]) bearers.

Definition nextRuleIDFromSnapshot (s : Checkpoint.SessionSnapshot) : Z :=
  if negb (Checkpoint.NextRuleID s =? 0) then Checkpoint.NextRuleID s
  else u32 (fold_left (fun maxRule id => if maxRule <? id then id else maxRule)
              (rule_ids (Checkpoint.Bearers s)) 2 + 1).

Inductive RestoreError :=
| BearerMissingEBI
| DuplicateEBI (ebi : Z)
| DefaultBearerMissing (ebi : Z)
| DuplicateSessionID (id : string)
| DuplicatePDNKey (key : pdnKey)
| DuplicateS5CTEID (teid : Z).

Fixpoint bearers_from (bs : list Checkpoint.BearerSnapshot) (m : gmap Z Bearer.Bearer)
    : result RestoreError (gmap Z Bearer.Bearer) :=
  match bs with
  | [] => Ok m
  | b :: bs =>
      let ebi := Checkpoint.bs_EBI b in
      if ebi =? 0 then Err BearerMissingEBI
      else match m !! ebi with
           | Some _ => Err (DuplicateEBI ebi)
           | None => bearers_from bs (<[ebi := bearerFromSnapshot b]> m)
           end
  end.

Definition sessionFromSnapshot (now : time) (s : Checkpoint.SessionSnapshot) (sink : bool)
    : result RestoreError SGWSession :=
  let? bearers := bearers_from (Checkpoint.Bearers s) ∅ in
  match bearers !! Checkpoint.DefaultBearerID s with
  | None => Err (DefaultBearerMissing (Checkpoint.DefaultBearerID s))
  | Some _ =>
      let createdAt := or_now (Checkpoint.CreatedAt s) now in
      let updatedAt := or_now (Checkpoint.UpdatedAt s) createdAt in
      let p := Checkpoint.PFCP s in
      Ok (mkSGWSession (Checkpoint.SessionID s) (Checkpoint.IMSI s) (Checkpoint.APN s)
            (Checkpoint.RATType s) (Checkpoint.ServingNetwork s)
            (fteidFromSnapshot (Checkpoint.MMEControlFTEID s))
            (fteidFromSnapshot (Checkpoint.SGWS11FTEID s))
            (fteidFromSnapshot (Checkpoint.PGWControlFTEID s))
            (fteidFromSnapshot (Checkpoint.SGWS5CFTEID s))
            (addrFromString (Checkpoint.UEIPv4 s)) (Checkpoint.DefaultBearerID s) bearers
            (mkPFCPSessionBinding (fseidFromSnapshot (Checkpoint.pbs_LocalFSEID p))
               (fseidFromSnapshot (Checkpoint.pbs_SGWUFSEID p)) (Checkpoint.pbs_SGWUName p)
               (Checkpoint.pbs_SGWUAddr p) (Checkpoint.pbs_Established p))
            (pfcpReconciliationFromSnapshot (Checkpoint.PFCPReconciliation s))
            (Some NewTracker) []
            (pgwFailureFromSnapshot (Checkpoint.PGWFailure s))
            (mmeRestorationFromSnapshot (Checkpoint.MMERestoration s))
            sink StateRecovering createdAt updatedAt (nextRuleIDFromSnapshot s))
  end.

(** ** The manager *)

Record RestoreResult := mkRestoreResult {
  Loaded : nat; Restored : nat; SkippedDeleted : nat; SkippedInvalid : nat;
  ReservedS11TEID : nat
}.
#[export] Instance eta_RestoreResult : Eta RestoreResult := fun r =>
  mkRestoreResult (Loaded r) (Restored r) (SkippedDeleted r) (SkippedInvalid r)
    (ReservedS11TEID r).

Definition add_pgw (canonical id : string) (l : loc) (m : Manager) : Manager :=
  if String.eqb canonical "" then m
  else m <| byPGW := <[canonical := <[id := l]> (default ∅ (byPGW m !! canonical))]> (byPGW m) |>.

(** Index one restored session in the manager under construction. *)
Definition index_session (l : loc) (s : SGWSession) (m : Manager) : bool * Manager :=
  let t := ft_TEID (SGWS11FTEID s) in
  let m := m <| heap := <[l := s]> (heap m) |>
             <| byID := <[SessionID s := l]> (byID m) |>
             <| byS11 := <[t := (default [] (byS11 m !! t) ++ [l])%list]> (byS11 m) |> in
  let m := if ft_TEID (SGWS5CFTEID s) =? 0 then m
           else m <| byS5C := <[ft_TEID (SGWS5CFTEID s) := l]> (byS5C m) |> in
  let m := if negb (String.eqb (pf_PGWAddr (PGWFailure s)) "")
           then add_pgw (CanonicalGTPCEndpoint (pf_PGWAddr (PGWFailure s))) (SessionID s) l m
           else if IsValid (ft_IPv4 (PGWControlFTEID s))
           then add_pgw (CanonicalGTPCEndpoint (Addr_String (ft_IPv4 (PGWControlFTEID s))))
                  (SessionID s) l m
           else m in
  let m := m <| byPDN := <[session_pdn s := l]> (byPDN m) |> in
  let newer := match byIMSI m !! IMSI s with
               | None => true
               | Some cur => match heap m !! cur with
                             | None => true
                             | Some c => After (CreatedAt s) (CreatedAt c) end end in
  let m := if (newer : bool) then m <| byIMSI := <[IMSI s := l]> (byIMSI m) |> else m in
  let '(ok, a) := Reserve t (teidAlloc m) in
  (ok, m <| teidAlloc := a |>).

Definition unusable (s : Checkpoint.SessionSnapshot) : bool :=
  String.eqb (Checkpoint.SessionID s) "" || String.eqb (Checkpoint.IMSI s) ""
  || (Checkpoint.DefaultBearerID s =? 0) || (Checkpoint.fts_TEID (Checkpoint.SGWS11FTEID s) =? 0).

Definition snapshot_pdn (s : Checkpoint.SessionSnapshot) : pdnKey :=
  mkpdnKey (Checkpoint.IMSI s) (Checkpoint.DefaultBearerID s).

(** [now k] is the clock when the [k]-th snapshot is rebuilt. *)
Fixpoint restore_loop (now : nat -> time) (l : loc) (k : nat)
    (snapshots : list Checkpoint.SessionSnapshot) (r : RestoreResult) (next : Manager)
    : RestoreResult * result RestoreError Manager :=
  match snapshots with
  | [] => (r, Ok next)
  | s :: rest =>
      if unusable s then
        restore_loop now l (S k) rest (r <| SkippedInvalid := S (SkippedInvalid r) |>) next
      else if String.eqb (Checkpoint.State s) StateDeleted then
        restore_loop now l (S k) rest (r <| SkippedDeleted := S (SkippedDeleted r) |>) next
      else
        let s5c := Checkpoint.fts_TEID (Checkpoint.SGWS5CFTEID s) in
        if bool_decide (is_Some (byID next !! Checkpoint.SessionID s)) then
          (r, Err (DuplicateSessionID (Checkpoint.SessionID s)))
        else if bool_decide (is_Some (byPDN next !! snapshot_pdn s)) then
          (r, Err (DuplicatePDNKey (snapshot_pdn s)))
        else if negb (s5c =? 0) && bool_decide (is_Some (byS5C next !! s5c)) then
          (r, Err (DuplicateS5CTEID s5c))
        else
          match sessionFromSnapshot (now k) s (managerSink next) with
          | Err _ =>
              restore_loop now l (S k) rest (r <| SkippedInvalid := S (SkippedInvalid r) |>) next
          | Ok sess =>
              let '(reserved, next) := index_session (l + k)%nat sess next in
              let r := if (reserved : bool)
                       then r <| ReservedS11TEID := S (ReservedS11TEID r) |> else r in
              restore_loop now l (S k) rest (r <| Restored := S (Restored r) |>) next
          end
  end.

(** On success the manager's indexes and its TEID allocator are replaced; on an error
    the manager is left as it was. *)
Definition RestoreSnapshots (now : nat -> time) (l : loc)
    (snapshots : list Checkpoint.SessionSnapshot) (m : Manager)
    : RestoreResult * option RestoreError * Manager :=
  let next := NewManager <| managerSink := managerSink m |> <| heap := heap m |> in
  match restore_loop now l 0 snapshots (mkRestoreResult (length snapshots) 0 0 0 0) next with
  | (r, Ok next) => (r, None, next)
  | (r, Err e) => (r, Some e, m)
  end.

(** ** Lemmas: one session *)

(** The addresses the coders produce: none, or IPv4. *)
Definition addr_ok (a : Addr) : Prop :=
  match a with AddrZero => True | AddrV4 v => in_u 32 v | AddrV6 _ _ => False end.
#[export] Instance addr_ok_dec a : Decision (addr_ok a).
Proof. destruct a; cbn; apply _. Defined.

Lemma addr_roundtrip a : addr_ok a -> addrFromString (addrString a) = a.
Proof.
  destruct a as [|v|v z]; intros H; [done| |done]. unfold addrFromString, addrString.
  change (Addr_String (AddrV4 v)) with (v4_string v). change (IsValid (AddrV4 v)) with true.
  cbv iota.
  pose proof (ParseAddr_v4 v H) as E. destruct (String.eqb_spec (v4_string v) "") as [E0|_].
  - rewrite E0 in E. by vm_compute in E.
  - by rewrite E.
Qed.

Lemma fteid_roundtrip f : addr_ok (ft_IPv4 f) -> fteidFromSnapshot (fteidSnapshot f) = f.
Proof. intros H. unfold fteidFromSnapshot, fteidSnapshot. cbn [Checkpoint.fts_TEID Checkpoint.fts_IPv4]. rewrite addr_roundtrip by done. by destruct f. Qed.

Lemma bearer_fteid_roundtrip f :
  addr_ok (Bearer.IPv4 f) -> bearerFTEIDFromSnapshot (bearerFTEIDSnapshot f) = f.
Proof. intros H. 
  unfold bearerFTEIDFromSnapshot, bearerFTEIDSnapshot.
  cbn [Checkpoint.fts_TEID Checkpoint.fts_IPv4]. rewrite addr_roundtrip by done. by destruct f. Qed.

Lemma fseid_roundtrip f : addr_ok (fs_IPv4 f) -> fseidFromSnapshot (fseidSnapshot f) = f.
Proof. intros H. unfold fseidFromSnapshot, fseidSnapshot. cbn [Checkpoint.fss_SEID Checkpoint.fss_IPv4]. rewrite addr_roundtrip by done. by destruct f. Qed.

(** What a snapshot can represent of a bearer: its addresses, and a TFT that is nil or
    non-empty. *)
Definition bearer_ok (b : Bearer.Bearer) : Prop :=
  addr_ok (Bearer.IPv4 (Bearer.ENBS1UFTEID b)) /\ addr_ok (Bearer.IPv4 (Bearer.SGWS1UFTEID b)) /\
  addr_ok (Bearer.IPv4 (Bearer.PGWS5UFTEID b)) /\ addr_ok (Bearer.IPv4 (Bearer.SGWS5UFTEID b)) /\
  match Bearer.BearerTFT b with Some t => Bearer.Raw t <> [] | None => True end.
#[export] Instance bearer_ok_dec b : Decision (bearer_ok b).
Proof. unfold bearer_ok. destruct (Bearer.BearerTFT b); apply _. Defined.

Lemma bearer_roundtrip b : bearer_ok b -> bearerFromSnapshot (bearerSnapshot b) = b.
Proof.
  intros (H1 & H2 & H3 & H4 & H5). unfold bearerFromSnapshot, bearerSnapshot.
  cbn -[bearerFTEIDFromSnapshot bearerFTEIDSnapshot].
  rewrite !bearer_fteid_roundtrip by done. destruct b; cbn in *. f_equal.
  destruct BearerTFT as [[raw]|]; [|done]. cbn in *. by destruct raw.
Qed.

(** The sessions a snapshot represents completely. *)
Record restorable (s : SGWSession) : Prop := mkRestorable {
  ro_wf : bearers_wf s;
  ro_ebi : map_Forall (fun ebi b => 0 < ebi < 256 /\ bearer_ok b) (Bearers s);
  ro_default : is_Some (Bearers s !! DefaultBearerID s);
  ro_addrs : Forall addr_ok [ft_IPv4 (MMEControlFTEID s); ft_IPv4 (SGWS11FTEID s);
    ft_IPv4 (PGWControlFTEID s); ft_IPv4 (SGWS5CFTEID s); UEIPv4 s;
    fs_IPv4 (pb_LocalFSEID (PFCP s)); fs_IPv4 (pb_SGWUFSEID (PFCP s))];
  ro_times : CreatedAt s <> zero_time /\ UpdatedAt s <> zero_time
}.

Lemma bearers_from_snapshots s : forall l m,
  restorable s -> NoDup l -> (forall e, e ∈ l -> is_Some (Bearers s !! e) /\ m !! e = None) ->
  exists m', bearers_from (omap (fun ebi => bearerSnapshot <$> Bearers s !! u8 ebi) l) m = Ok m' /\
    forall e, m' !! e = if decide (e ∈ l) then Bearers s !! e else m !! e.
Proof.
  intros l. induction l as [|e l IH]; intros m Hr Hnd Hl.
  - exists m. split; [done|]. intros e. by rewrite decide_False by apply not_elem_of_nil.
  - apply NoDup_cons in Hnd as [He Hnd]. destruct (Hl e) as [[b Hb] Hm]; [left|].
    destruct (ro_ebi _ Hr _ _ Hb) as [Hrange Hok]. pose proof (ro_wf _ Hr _ _ Hb) as Hebi.
    assert (Eu : u8 e = e) by (apply uN_small; unfold in_u; lia).
    destruct (IH (<[e := b]> m)) as (m' & Hm' & Hlook); [done|done| |].
    { intros x Hx. destruct (Hl x) as [? ?]; [by right|]. split; [done|].
      rewrite lookup_insert_ne; [done|]. by intros ->. }
    exists m'. split.
    + cbn [omap list_omap]. rewrite Eu, Hb. cbn. rewrite Hebi.
      destruct (Z.eqb_spec e 0); [lia|]. rewrite Hm, bearer_roundtrip by done. exact Hm'.
    + intros x. rewrite Hlook. destruct (decide (x = e)) as [->|Hne].
      * rewrite decide_False, lookup_insert_eq by done. by rewrite decide_True by left.
      * rewrite lookup_insert_ne by done. destruct (decide (x ∈ l)).
        -- by rewrite decide_True by (by right).
        -- by rewrite decide_False by (rewrite elem_of_cons; tauto).
Qed.

Lemma sorted_ebis_spec s : NoDup (sorted_ebis s) /\ forall e, e ∈ sorted_ebis s <-> is_Some (Bearers s !! e).
Proof.
  pose proof (merge_sort_Permutation Z.le (elements (dom (Bearers s)))) as Hp.
  fold (sorted_ebis s) in Hp. split; [rewrite Hp; apply NoDup_elements|].
  intros e. by rewrite Hp, elem_of_elements, elem_of_dom.
Qed.

Lemma restore_session now sink s :
  restorable s ->
  sessionFromSnapshot now (Snapshot s) sink =
    Ok (s <| State := StateRecovering |> <| Procedures := Some NewTracker |>
          <| SecondaryRATUsageDataReports := [] |> <| checkpointSink := sink |>
          <| nextRuleID := nextRuleIDFromSnapshot (Snapshot s) |>).
Proof.
  intros Hr. destruct (sorted_ebis_spec s) as [Hnd Hin].
  destruct (bearers_from_snapshots s (sorted_ebis s) ∅ Hr Hnd) as (m' & Hm' & Hlook).
  { intros e He. split; [by apply Hin|apply lookup_empty]. }
  assert (m' = Bearers s) as ->.
  { apply map_eq. intros e. rewrite Hlook, lookup_empty. case_decide as He; [done|].
    rewrite Hin in He. symmetry. by apply eq_None_not_Some. }
  destruct (ro_default _ Hr) as [b Hb]. destruct (ro_times _ Hr) as [Hc Hu].
  pose proof (ro_addrs _ Hr) as Ha. rewrite !Forall_cons in Ha.
  destruct Ha as (A1 & A2 & A3 & A4 & A5 & A6 & A7 & _).
  unfold sessionFromSnapshot. change (Checkpoint.Bearers (Snapshot s)) with
    (omap (fun ebi => bearerSnapshot <$> Bearers s !! u8 ebi) (sorted_ebis s)).
  rewrite Hm'. cbn [rbind]. change (Checkpoint.DefaultBearerID (Snapshot s)) with (DefaultBearerID s).
  rewrite Hb. f_equal.
  generalize (nextRuleIDFromSnapshot (Snapshot s)). intros rule.
  unfold Snapshot; cbn -[fteidFromSnapshot fteidSnapshot fseidFromSnapshot fseidSnapshot
                         addrFromString addrString].
  rewrite !fteid_roundtrip, !fseid_roundtrip, addr_roundtrip by done.
  unfold or_now, IsZero. unfold zero_time in Hc, Hu. rewrite !(proj2 (Z.eqb_neq _ _)) by done.
  destruct s as [sid imsi apn rat sn f1 f2 f3 f4 ue deb bs pfcp rec procs reps pgw mme sink0 st c u nr].
  cbn. clear. destruct pfcp, rec, pgw, mme. reflexivity.
Qed.

(** ** Lemmas: the manager *)

Lemma sessionFromSnapshot_fields now s sink sess :
  sessionFromSnapshot now s sink = Ok sess ->
  SessionID sess = Checkpoint.SessionID s /\ session_pdn sess = snapshot_pdn s /\
  s11_teid sess = Checkpoint.fts_TEID (Checkpoint.SGWS11FTEID s) /\
  State sess = StateRecovering /\ Procedures sess = Some NewTracker /\
  ft_TEID (SGWS5CFTEID sess) = Checkpoint.fts_TEID (Checkpoint.SGWS5CFTEID s).
Proof.
  unfold sessionFromSnapshot. destruct (bearers_from _ _); cbn [rbind]; [|done].
  destruct (_ !! _); [|done]. by intros [= <-].
Qed.

Lemma add_pgw_frame c id l m :
  indexes (add_pgw c id l m) = indexes m /\ heap (add_pgw c id l m) = heap m /\
  managerSink (add_pgw c id l m) = managerSink m.
Proof. unfold add_pgw. by destruct (String.eqb c ""). Qed.

Lemma Reserve_spec t a : t <> 0 ->
  used (Reserve t a).2 = {[ t ]} ∪ used a /\
  ((Reserve t a).1 = bool_decide (t ∉ used a)).
Proof.
  intros Ht. unfold Reserve. rewrite (proj2 (Z.eqb_neq t 0)) by done.
  destruct (decide (t ∈ used a)) as [Hin|Hout]; cbn; split.
  - symmetry. apply subseteq_union_1_L. by apply singleton_subseteq_l.
  - by rewrite bool_decide_eq_false_2 by tauto.
  - done.
  - by rewrite bool_decide_eq_true_2.
Qed.

Lemma index_session_spec l s m :
  mgr_wf ∅ m -> s11_teid s <> 0 -> heap m !! l = None -> byID m !! SessionID s = None ->
  byPDN m !! session_pdn s = None ->
  let '(ok, m') := index_session l s m in
  mgr_wf ∅ m' /\ heap m' = <[l := s]> (heap m) /\ managerSink m' = managerSink m /\
  (forall l' s', reg m' l' s' <-> reg m l' s' \/ (l' = l /\ s' = s)) /\
  size (used (teidAlloc m')) = (size (used (teidAlloc m)) + if (ok : bool) then 1 else 0)%nat.
Proof.
  intros H Ht Hl Hid Hpdn. unfold index_session. fold (s11_teid s).
  destruct (Reserve_spec (s11_teid s) (teidAlloc m) Ht) as [Hu Hok].
  set (m1 := m <| heap := _ |> <| byID := _ |> <| byS11 := _ |>).
  set (m2 := if ft_TEID (SGWS5CFTEID s) =? 0 then m1 else _).
  assert (E2 : indexes m2 = indexes m1 /\ heap m2 = heap m1 /\ managerSink m2 = managerSink m)
    by (unfold m2; by case_match).
  set (m3 := if negb _ then _ else _).
  assert (E3 : indexes m3 = indexes m2 /\ heap m3 = heap m2 /\ managerSink m3 = managerSink m2)
    by (unfold m3; repeat case_match; auto using add_pgw_frame).
  clearbody m3. clearbody m2. destruct E2 as (E2 & Eh2 & Es2), E3 as (E3 & Eh3 & Es3).
  rewrite E2 in E3. injection E3 as Eid E11 Ep Ei Ea. clear E2.
  set (newer := match byIMSI _ !! IMSI s with None => true | Some cur => _ end).
  set (m5 := if newer then _ else _).
  assert (E5 : (heap m5, byID m5, byS11 m5, byPDN m5, teidAlloc m5, managerSink m5) =
    (<[l := s]> (heap m), <[SessionID s := l]> (byID m),
     <[s11_teid s := (s11_list m (s11_teid s) ++ [l])%list]> (byS11 m),
     <[session_pdn s := l]> (byPDN m), teidAlloc m, managerSink m) /\
    byIMSI m5 = if newer then <[IMSI s := l]> (byIMSI m) else byIMSI m).
  { unfold m5. destruct newer; cbn; rewrite Eh3, Eid, E11, Ep, Ei, Ea, Es3, Es2, Eh2; done. }
  assert (En : newer = match byIMSI m !! IMSI s with None => true
                       | Some cur => match <[l := s]> (heap m) !! cur with None => true
                                     | Some c => After (CreatedAt s) (CreatedAt c) end end).
  { unfold newer. cbn. rewrite Ei, Eh3, Eh2. done. }
  clearbody m5 newer. destruct E5 as [E5 Ei5]. injection E5 as F1 F2 F3 F4 F5 F6.
  destruct (Reserve (s11_teid s) (teidAlloc m5)) as [ok a] eqn:Er. rewrite F5 in Er.
  rewrite Er in Hu, Hok. cbn [fst snd] in Hu, Hok.
  set (m0 := m <| teidAlloc := a |>). set (m' := m5 <| teidAlloc := a |>).
  assert (Hw0 : mgr_wf {[ s11_teid s ]} m0) by (apply wf_alloc; done).
  assert (He : enters l s m0 m').
  { unfold enters. cbn. rewrite F1, F2, F3, F4, Ei5. repeat (split; [done|]).
    destruct newer; [left|right]; (split; [done|]).
    - intros l' s' Hs' Eimsi. destruct (wf_imsi_total _ _ H _ _ Hs') as [cur Hcur].
      rewrite Eimsi in Hcur. rewrite Hcur in En.
      destruct (wf_imsi _ _ H _ _ Hcur) as (c & Hc & _ & Hmax).
      rewrite lookup_insert_ne in En by (intros <-; destruct Hc; congruence).
      rewrite (proj1 Hc) in En. unfold After in En. symmetry in En. apply Z.ltb_lt in En.
      specialize (Hmax _ _ Hs' Eimsi). lia.
    - destruct (byIMSI m !! IMSI s) as [cur|] eqn:Hcur; [|done].
      destruct (wf_imsi _ _ H _ _ Hcur) as (c & Hc & _ & _).
      rewrite lookup_insert_ne in En by (intros <-; destruct Hc; congruence).
      rewrite (proj1 Hc) in En. symmetry in En. apply Z.ltb_ge in En.
      exists cur, c. split; [done|]. split; [apply Hc|done]. }
  split; [|split; [|split; [|split]]].
  - eapply (enters_wf l s m0); try done. cbn. rewrite Hu. set_solver.
  - done.
  - done.
  - exact (enters_reg l s m0 m' He Hl Hid).
  - cbn. rewrite Hu, Hok. destruct (decide (s11_teid s ∈ used (teidAlloc m))) as [Hin|Hout].
    + rewrite bool_decide_eq_false_2 by tauto. rewrite subseteq_union_1_L by set_solver. lia.
    + rewrite bool_decide_eq_true_2 by done. rewrite size_union, size_singleton by set_solver. lia.
Qed.

(** The [k]-th snapshot yields a session. *)
Definition restored_as (now : nat -> time) (sink : bool) (k : nat)
    (snap : Checkpoint.SessionSnapshot) (s : SGWSession) : Prop :=
  unusable snap = false /\ Checkpoint.State snap <> StateDeleted /\
  sessionFromSnapshot (now k) snap sink = Ok s.

(** What the loop does with the snapshots from the [k]-th on. *)
Definition restores (now : nat -> time) (l : loc) (k : nat)
    (snaps : list Checkpoint.SessionSnapshot) (r : RestoreResult) (m : Manager)
    (r' : RestoreResult) (m' : Manager) : Prop :=
  mgr_wf ∅ m' /\
  (forall l' s', reg m' l' s' <-> reg m l' s' \/
     exists j snap, snaps !! j = Some snap /\ l' = (l + (k + j))%nat /\
       restored_as now (managerSink m) (k + j) snap s') /\
  (Restored r' + SkippedDeleted r' + SkippedInvalid r' =
     Restored r + SkippedDeleted r + SkippedInvalid r + length snaps)%nat /\
  (ReservedS11TEID r' + size (used (teidAlloc m)) =
     ReservedS11TEID r + size (used (teidAlloc m')))%nat /\
  Loaded r' = Loaded r.

Lemma restores_skip now l k s snaps r r1 m r' m' :
  (forall s', ~ restored_as now (managerSink m) k s s') ->
  Loaded r1 = Loaded r -> ReservedS11TEID r1 = ReservedS11TEID r ->
  (Restored r1 + SkippedDeleted r1 + SkippedInvalid r1 =
    S (Restored r + SkippedDeleted r + SkippedInvalid r))%nat ->
  restores now l (S k) snaps r1 m r' m' -> restores now l k (s :: snaps) r m r' m'.
Proof.
  intros Hno Hl Hres Hsum (Hw & Hreg & ? & ? & ?). split; [done|]. split; [|cbn; lia].
  intros l' s'. rewrite Hreg. split.
  - intros [?|(j & snap & Hj & -> & Hra)]; [by left|right]. exists (S j), snap.
    replace (k + S j)%nat with (S k + j)%nat by lia. done.
  - intros [?|(j & snap & Hj & -> & Hra)]; [by left|right]. destruct j as [|j].
    + injection Hj as <-. rewrite Nat.add_0_r in Hra. by destruct (Hno s').
    + exists j, snap. replace (S k + j)%nat with (k + S j)%nat by lia. done.
Qed.

Lemma restores_one now l k s snaps sess (ok : bool) r r1 m m1 r' m' :
  restored_as now (managerSink m) k s sess -> managerSink m1 = managerSink m ->
  (forall l' s', reg m1 l' s' <-> reg m l' s' \/ (l' = (l + k)%nat /\ s' = sess)) ->
  size (used (teidAlloc m1)) = (size (used (teidAlloc m)) + if ok then 1 else 0)%nat ->
  Loaded r1 = Loaded r ->
  ReservedS11TEID r1 = (ReservedS11TEID r + if ok then 1 else 0)%nat ->
  (Restored r1 + SkippedDeleted r1 + SkippedInvalid r1 =
    S (Restored r + SkippedDeleted r + SkippedInvalid r))%nat ->
  restores now l (S k) snaps r1 m1 r' m' -> restores now l k (s :: snaps) r m r' m'.
Proof.
  intros Hra Hs Hr1 Hsz Hl Hres Hsum (Hw & Hreg & ? & ? & ?).
  split; [done|]. split; [|cbn; lia]. intros l' s'. rewrite Hreg, Hr1, Hs. split.
  - intros [[?|[-> ->]]|(j & snap & Hj & -> & Hra')].
    + by left.
    + right. exists O, s. rewrite Nat.add_0_r. done.
    + right. exists (S j), snap. replace (k + S j)%nat with (S k + j)%nat by lia. done.
  - intros [?|(j & snap & Hj & -> & Hra')]; [by left; left|]. destruct j as [|j].
    + injection Hj as <-. rewrite Nat.add_0_r in *. left. right.
      destruct Hra as (_ & _ & Hra), Hra' as (_ & _ & Hra'). split; [done|congruence].
    + right. exists j, snap. replace (S k + j)%nat with (k + S j)%nat by lia. done.
Qed.

Lemma restore_loop_spec now l snaps : forall k r m r' m',
  mgr_wf ∅ m -> (forall i, (k <= i)%nat -> heap m !! (l + i)%nat = None) ->
  restore_loop now l k snaps r m = (r', Ok m') -> restores now l k snaps r m r' m'.
Proof.
  induction snaps as [|s snaps IH]; intros k r m r' m' Hw Hfresh Hrun; cbn [restore_loop] in Hrun.
  - injection Hrun as <- <-. split; [done|]. split; [|cbn; lia].
    intros l' s'. split; [by left|]. intros [?|(j & snap & Hj & _)]; [done|by rewrite lookup_nil in Hj].
  - assert (Hfresh' : forall i, (S k <= i)%nat -> heap m !! (l + i)%nat = None)
      by (intros; apply Hfresh; lia).
    destruct (unusable s) eqn:Eu.
    { eapply restores_skip; [|..|by eapply IH]; [|done|done|cbn; lia]. intros s' [? _]. congruence. }
    destruct (String.eqb_spec (Checkpoint.State s) StateDeleted) as [Ed|Ed].
    { eapply restores_skip; [|..|by eapply IH]; [|done|done|cbn; lia]. by intros s' (_ & ? & _). }
    destruct (bool_decide (is_Some (byID m !! _))) eqn:E1; [done|].
    destruct (bool_decide (is_Some (byPDN m !! _))) eqn:E2; [done|].
    destruct (_ && _); [done|].
    apply bool_decide_eq_false, eq_None_not_Some in E1, E2.
    destruct (sessionFromSnapshot (now k) s (managerSink m)) as [sess|e] eqn:Es.
    2: { eapply restores_skip; [|..|by eapply IH]; [|done|done|cbn; lia].
         intros s' (_ & _ & ?). congruence. }
    destruct (sessionFromSnapshot_fields _ _ _ _ Es) as (F1 & F2 & F3 & _).
    assert (Ht : s11_teid sess <> 0).
    { rewrite F3. unfold unusable in Eu. apply orb_false_iff in Eu as [_ Eu]. by apply Z.eqb_neq. }
    pose proof (index_session_spec (l + k)%nat sess m Hw Ht (Hfresh k (le_n k))) as Hix.
    rewrite F1, F2 in Hix. specialize (Hix E1 E2).
    destruct (index_session (l + k)%nat sess m) as [ok m1].
    destruct Hix as (Hw1 & Hh1 & Hs1 & Hr1 & Hsz).
    eapply (restores_one _ _ _ _ _ sess ok); [done|done|exact Hr1|exact Hsz|..|eapply IH; [done| |exact Hrun]].
    + by destruct ok.
    + destruct ok; cbn; lia.
    + destruct ok; cbn; lia.
    + intros i Hi. rewrite Hh1, lookup_insert_ne by lia. apply Hfresh. lia.
Qed.

(** ** Properties *)

(** C27: A checkpointed session survives a restart: restoring its snapshot gives back
    every field, bearers, rule ids and F-TEIDs included, except that the session is put
    into recovery, its procedure tracker is new, its usage reports are gone and it
    reports to the new sink; a session that never allocated rule ids continues above
    every rule id its bearers use. *)
Theorem snapshot_restore_roundtrip now sink s :
  restorable s ->
  exists s', sessionFromSnapshot now (Snapshot s) sink = Ok s' /\
    s' = s <| State := StateRecovering |> <| Procedures := Some NewTracker |>
           <| SecondaryRATUsageDataReports := [] |> <| checkpointSink := sink |>
           <| nextRuleID := nextRuleID s' |> /\
    (nextRuleID s <> 0 -> nextRuleID s' = nextRuleID s) /\
    (nextRuleID s = 0 -> Forall (fun id => id < 2 ^ 32 - 1) (rule_ids (Checkpoint.Bearers (Snapshot s))) ->
     2 < nextRuleID s' /\
     Forall (fun id => id < nextRuleID s') (rule_ids (Checkpoint.Bearers (Snapshot s)))).
Proof.
  intros Hr. rewrite restore_session by done. eexists. split; [done|]. split; [done|].
  cbn [nextRuleID field_update]. unfold nextRuleIDFromSnapshot.
  change (Checkpoint.NextRuleID (Snapshot s)) with (nextRuleID s).
  set (ids := rule_ids _). split; intros Hn.
  - by rewrite (proj2 (Z.eqb_neq _ _)).
  - rewrite Hn. cbn [negb Z.eqb]. intros Hids.
    set (mx := fold_left _ ids 2).
    assert (Hmx : forall a, a < 2 ^ 32 - 1 ->
      let mx := fold_left (fun maxRule id => if maxRule <? id then id else maxRule) ids a in
      a <= mx < 2 ^ 32 - 1 /\ Forall (fun id => id <= mx) ids).
    { clear mx. induction Hids as [|id ids Hid Hids IH]; intros a Ha; [cbn; split; [lia|constructor]|].
      cbn [fold_left]. destruct (Z.ltb_spec a id).
      - destruct (IH id Hid) as [? ?]. cbv zeta. split; [lia|]. constructor; [lia|done].
      - destruct (IH a Ha) as [? ?]. cbv zeta. split; [lia|]. constructor; [lia|done]. }
    destruct (Hmx 2 ltac:(lia)) as [Hb Hall]. fold mx in Hb, Hall. clearbody mx.
    rewrite uN_small by (unfold in_u; lia). split; [lia|].
    eapply Forall_impl; [exact Hall|]. cbn. lia.
Qed.

Lemma example_restorable : restorable example_session.
Proof.
  assert (H : map_Forall (fun ebi b => 0 < ebi < 256 /\ bearer_ok b) (Bearers example_session))
    by by_compute.
  split; [by_compute|exact H|by_compute|by_compute|by_compute].
Qed.

Lemma snapshot_restore_roundtrip_witness :
  exists s', sessionFromSnapshot 500 (Snapshot example_session) true = Ok s' /\
    Bearers s' = Bearers example_session.
Proof.
  destruct (snapshot_restore_roundtrip 500 true example_session example_restorable)
    as (s' & H1 & H2 & _).
  exists s'. split; [exact H1|]. exact (f_equal Bearers H2).
Defined.

(** C20: Restoring a list of snapshots either fails and leaves the manager untouched, or
    yields a consistent manager whose registered sessions are exactly the usable
    snapshots, each in recovery; every snapshot is counted once, as restored, deleted
    or invalid, and the reserved TEIDs are exactly the S11 TEIDs in use. *)
Theorem RestoreSnapshots_complete now l snaps m :
  (forall i, (l <= i)%nat -> heap m !! i = None) ->
  let '(r, e, m') := RestoreSnapshots now l snaps m in
  (is_Some e -> m' = m) /\
  (e = None ->
     mgr_wf ∅ m' /\
     (forall l' s, reg m' l' s <-> exists j snap, snaps !! j = Some snap /\ l' = (l + j)%nat /\
        restored_as now (managerSink m) j snap s) /\
     (forall l' s, reg m' l' s -> State s = StateRecovering) /\
     (Restored r + SkippedDeleted r + SkippedInvalid r = length snaps)%nat /\
     Loaded r = length snaps /\ ReservedS11TEID r = size (used (teidAlloc m'))).
Proof.
  intros Hfresh. unfold RestoreSnapshots.
  set (next := NewManager <| managerSink := managerSink m |> <| heap := heap m |>).
  assert (Hempty : forall l' s, ~ reg next l' s) by (intros l' s [_ H]; done).
  assert (Hw : mgr_wf ∅ next).
  { destruct NewManager_wf. split; try done.
    - intros t x. unfold s11_list. cbn. rewrite lookup_empty. cbn.
      split; [by intros []%elem_of_nil|]. intros (s & Hs & _). by destruct (Hempty x s).
    - intros k x. cbn. rewrite lookup_empty. split; [done|].
      intros (s & Hs & _). by destruct (Hempty x s).
    - intros x s Hs. by destruct (Hempty x s). }
  destruct (restore_loop _ _ _ _ _ next) as [r [m'|e]] eqn:E.
  2: { split; [done|]. done. }
  split; [by intros []|]. intros _.
  apply restore_loop_spec in E as (Hw' & Hreg & Hsum & Hres & Hld); [|done|].
  2: { intros i _. apply Hfresh. lia. }
  assert (Hreg' : forall l' s, reg m' l' s <-> exists j snap, snaps !! j = Some snap /\
    l' = (l + j)%nat /\ restored_as now (managerSink m) j snap s).
  { intros l' s. rewrite Hreg. cbn [Nat.add]. split; [|by right].
    intros [Hs|?]; [by destruct (Hempty l' s)|done]. }
  change (used (teidAlloc next)) with (∅ : gset Z) in Hres. rewrite size_empty in Hres.
  split; [done|]. split; [done|]. split; [|cbn in *; lia].
  intros l' s Hs. apply Hreg' in Hs as (j & snap & _ & _ & _ & _ & Hs).
  by apply sessionFromSnapshot_fields in Hs as (_ & _ & _ & ? & _).
Qed.

Lemma example_restore :
  (RestoreSnapshots (fun _ => 500) 0%nat [Snapshot example_session] NewManager).1.2 = None /\
  Restored (RestoreSnapshots (fun _ => 500) 0%nat [Snapshot example_session] NewManager).1.1 = 1%nat.
Proof. split; vm_compute; reflexivity. Qed.

Lemma RestoreSnapshots_complete_witness :
  let '(r, e, m') := RestoreSnapshots (fun _ => 500) 0%nat [Snapshot example_session] NewManager in
  e = None /\ Restored r = 1%nat /\ (Restored r + SkippedDeleted r + SkippedInvalid r = 1)%nat.
Proof.
  pose proof (RestoreSnapshots_complete (fun _ => 500) 0%nat [Snapshot example_session] NewManager
    (fun i _ => lookup_empty i)) as H.
  pose proof example_restore as [H1 H2].
  destruct (RestoreSnapshots _ _ _ _) as [[r e] m'].
  cbn [fst snd] in H1, H2. split; [done|]. split; [done|].
  by destruct (proj2 H H1) as (_ & _ & _ & ? & _).
Defined.
