(* ===== verification/Gtpu.v ===== *)
(** * GTP-U: headers and information elements

    The GTPv1-U header coder of src/internal/sgwu/gtpu/header.go, extension header
    chain included, and the signalling information elements of
    src/internal/sgwu/gtpu/ie.go.  A slice index is an option, so that a Go
    out-of-range panic would be visible as the error [IndexOutOfRange]. *)

From S2P Require Import Prelude GoLib.
Open Scope nat_scope.
Open Scope Z_scope.

Definition Port : Z := 2152.
Definition MsgTypeEchoRequest : Z := 1.
Definition MsgTypeEchoResponse : Z := 2.
Definition MsgTypeErrorIndication : Z := 26.
Definition MsgTypeEndMarker : Z := 254.
Definition MsgTypeGPDU : Z := 255.

Definition hdrVersionMask : Z := 0xE0.
Definition hdrVersionGTP : Z := 0x20.
Definition hdrPTFlag : Z := 0x10.
Definition hdrEFlag : Z := 0x04.
Definition hdrSFlag : Z := 0x02.
Definition hdrPNFlag : Z := 0x01.

Definition MinLen : nat := 8.
Definition OptFieldsLen : nat := 4.

Record Header := mkHeader {
  Version : Z; PT : bool; h_E : bool; h_S : bool; h_PN : bool;
  MsgType : Z; Length : Z; TEID : Z;
  SeqNum : Z; NPDUNum : Z; NextExtHdr : Z; ExtHeaders : bytes
}.
#[export] Instance eta_Header : Eta Header := fun h =>
  mkHeader (Version h) (PT h) (h_E h) (h_S h) (h_PN h) (MsgType h) (Length h) (TEID h)
    (SeqNum h) (NPDUNum h) (NextExtHdr h) (ExtHeaders h).
#[export] Instance Header_eq_dec : EqDecision Header.
Proof. solve_decision. Defined.

Inductive GtpuError : Type :=
| PacketTooShort (n : nat)
| UnsupportedVersion (v : Z)
| NotGTPU
| DeclaredTooLong (len : Z) (n : nat)
| OptFieldsTooShort (n : nat)
| DeclaredTooShort (len : Z)
| ChainPastEnd
| ExtZeroLength
| ExtPastEnd
| NotIPv4
| IndexOutOfRange
| ChainOutOfFuel.

Definition HasOptFields (h : Header) : bool := h_E h || h_S h || h_PN h.

Definition WireLen (h : Header) : nat :=
  if HasOptFields h then (MinLen + (OptFieldsLen + length (ExtHeaders h)))%nat else MinLen.

(** [b[i]] *)
Definition index (b : bytes) (i : nat) : result GtpuError Z :=
  match b !! i with Some v => Ok v | None => Err IndexOutOfRange end.

(** The walk along the extension header chain, from offset [consumed]; every header
    is at least four bytes, so [length b] iterations are enough. *)
Fixpoint ext_chain (fuel : nat) (b : bytes) (end_ consumed : nat) (nextType : Z)
    : result GtpuError nat :=
  if nextType =? 0 then Ok consumed
  else match fuel with
  | O => Err ChainOutOfFuel
  | S f =>
      if decide (end_ <= consumed)%nat then Err ChainPastEnd
      else
        let? l := index b consumed in
        let extLen := (Z.to_nat l * 4)%nat in
        if decide (extLen < 4)%nat then Err ExtZeroLength
        else if decide (end_ < consumed + extLen)%nat then Err ExtPastEnd
        else
          let? nextType := index b (consumed + extLen - 1)%nat in
          ext_chain f b end_ (consumed + extLen)%nat nextType
  end.

Definition Parse (b : bytes) : result GtpuError (Header * nat) :=
  match b with
  | o1 :: mt :: l1 :: l0 :: t3 :: t2 :: t1 :: t0 :: rest =>
      let version := Z.shiftr (Z.land o1 hdrVersionMask) 5 in
      if negb (version =? 1) then Err (UnsupportedVersion version)
      else if negb (flag o1 hdrPTFlag) then Err NotGTPU
      else
        let h := mkHeader version true (flag o1 hdrEFlag) (flag o1 hdrSFlag) (flag o1 hdrPNFlag)
                   mt (be_val [l1; l0]) (be_val [t3; t2; t1; t0]) 0 0 0 [] in
        let totalDeclared := (MinLen + Z.to_nat (Length h))%nat in
        if decide (length b < totalDeclared)%nat then Err (DeclaredTooLong (Length h) (length b))
        else if negb (HasOptFields h) then Ok (h, MinLen)
        else
          match rest with
          | q1 :: q0 :: np :: nx :: _ =>
              if decide (totalDeclared < MinLen + OptFieldsLen)%nat
              then Err (DeclaredTooShort (Length h))
              else
                let h := h <| SeqNum := be_val [q1; q0] |> <| NPDUNum := np |>
                           <| NextExtHdr := nx |> in
                let extStart := (MinLen + OptFieldsLen)%nat in
                if h_E h && negb (nx =? 0) then
                  let? consumed := ext_chain (length b) b totalDeclared extStart nx in
                  Ok (if decide (extStart < consumed)%nat
                      then h <| ExtHeaders := slice extStart consumed b |> else h, consumed)
                else Ok (h, extStart)
          | _ => Err (OptFieldsTooShort (length b))
          end
  | _ => Err (PacketTooShort (length b))
  end.

Definition octet1 (e s pn : bool) : Z :=
  let o := Z.lor hdrVersionGTP hdrPTFlag in
  let o := if e then Z.lor o hdrEFlag else o in
  let o := if s then Z.lor o hdrSFlag else o in
  if pn then Z.lor o hdrPNFlag else o.

Definition Marshal (h : Header) (payloadLen : nat) : bytes :=
  let length_ := if HasOptFields h
                 then (payloadLen + (OptFieldsLen + length (ExtHeaders h)))%nat
                 else payloadLen in
  octet1 (h_E h) (h_S h) (h_PN h) :: MsgType h :: be_bytes 2 (u16 (Z.of_nat length_))
  ++ be_bytes 4 (TEID h)
  ++ (if HasOptFields h
      then be_bytes 2 (SeqNum h) ++ NPDUNum h :: NextExtHdr h :: ExtHeaders h else []).

(** ** Information elements *)

Definition IETypeRecovery : Z := 14.
Definition IETypeTEIDDataI : Z := 16.
Definition IETypeGTPUPeerAddress : Z := 133.

Definition BuildRecovery : bytes := [IETypeRecovery; 0].
Definition BuildTEIDDataI (teid : Z) : bytes := IETypeTEIDDataI :: be_bytes 4 teid.

Definition BuildGTPUPeerAddressIPv4 (ip : Addr) : result GtpuError bytes :=
  match ip with
  | AddrV4 a => Ok (IETypeGTPUPeerAddress :: be_bytes 2 4 ++ be_bytes 4 a)
  | _ => Err NotIPv4
  end.

(** One iteration consumes at least the type octet. *)
Fixpoint ParseIEs_loop (fuel : nat) (b : bytes) (acc : gmap Z bytes) : gmap Z bytes :=
  match fuel with
  | O => acc
  | S f =>
      match b with
      | [] => acc
      | t :: rest =>
          if 128 <=? t then
            match rest with
            | l1 :: l0 :: rest =>
                let l := Z.to_nat (be_val [l1; l0]) in
                if decide (length rest < l)%nat then acc
                else ParseIEs_loop f (drop l rest) (<[t := take l rest]> acc)
            | _ => acc
            end
          else
            let vlen := if t =? IETypeRecovery then 1%nat
                        else if t =? IETypeTEIDDataI then 4%nat else 0%nat in
            if decide (vlen = 0%nat) then acc
            else if decide (length rest < vlen)%nat then acc
            else ParseIEs_loop f (drop vlen rest) (<[t := take vlen rest]> acc)
      end
  end.
Definition ParseIEs (b : bytes) : gmap Z bytes := ParseIEs_loop (length b) b ∅.

(** ** Well-formed headers *)

(** A chain of extension headers whose first one has type [t]: a length in units of
    four octets, the content, and the type of the next one. *)
Inductive ExtChain : Z -> bytes -> Prop :=
| chain_end : ExtChain 0 []
| chain_cons t n body next rest :
    t <> 0 -> is_byte n -> length body = (Z.to_nat n * 4 - 2)%nat -> 0 < n ->
    ExtChain next rest -> ExtChain t (n :: body ++ next :: rest).

Definition Header_wf (h : Header) : Prop :=
  Version h = 1 /\ PT h = true /\ is_byte (MsgType h) /\ in_u 32 (TEID h) /\
  in_u 16 (SeqNum h) /\ is_byte (NPDUNum h) /\ is_byte (NextExtHdr h) /\
  (if h_E h then ExtChain (NextExtHdr h) (ExtHeaders h) else ExtHeaders h = []) /\
  (HasOptFields h = false -> SeqNum h = 0 /\ NPDUNum h = 0 /\ NextExtHdr h = 0).

(** The spare bit of the first octet is sent as zero and ignored on receipt. *)
Definition clear_spare (b : bytes) : bytes :=
  match b with [] => [] | o :: rest => Z.land o 0xF7 :: rest end.

(** ** Lemmas: extension headers *)

Lemma ExtChain_four t ext : ExtChain t ext -> t <> 0 -> (4 <= length ext)%nat.
Proof.
  intros [] Ht; [done|]. unfold in_u in *. cbn. rewrite length_app. cbn. lia.
Qed.

Lemma index_app (p l : bytes) x i : i = length p -> index (p ++ x :: l) i = Ok x.
Proof. intros ->. unfold index. by rewrite list_lookup_middle. Qed.

Ltac reassoc := repeat (cbn [app] || rewrite <-app_assoc).

Lemma ext_chain_complete fuel b pre ext post end_ t :
  ExtChain t ext -> b = pre ++ ext ++ post -> (length pre + length ext <= end_)%nat ->
  (end_ <= length b)%nat -> (end_ - length pre < fuel)%nat ->
  ext_chain fuel b end_ (length pre) t = Ok (length pre + length ext)%nat.
Proof.
  intros H. revert fuel pre. induction H as [|t n body next rest Ht Hn Hb Hpos Hc IH];
    intros fuel pre Eb He Hl Hf.
  { destruct fuel; cbn; f_equal; lia. }
  destruct fuel as [|f]; [lia|]. unfold in_u in Hn.
  assert (Hlen : length (n :: body ++ next :: rest) = (Z.to_nat n * 4 + length rest)%nat)
    by (cbn [length]; rewrite length_app; cbn [length]; lia).
  assert (Hnext : b = (pre ++ n :: body) ++ next :: (rest ++ post))
    by (rewrite Eb; by reassoc).
  assert (Hpre : length ((pre ++ n :: body) ++ [next]) = (length pre + Z.to_nat n * 4)%nat)
    by (rewrite !length_app; cbn [length]; lia).
  rewrite Hlen in *. cbn [ext_chain]. rewrite (proj2 (Z.eqb_neq _ _) Ht), decide_False by lia.
  assert (index b (length pre) = Ok n) as -> by (rewrite Eb; by apply index_app).
  cbn [rbind]. rewrite !decide_False by lia.
  assert (index b (length pre + Z.to_nat n * 4 - 1) = Ok next) as ->.
  { rewrite Hnext at 1. apply index_app. rewrite length_app. cbn [length]. lia. }
  cbn [rbind]. rewrite <-Hpre, IH, Hpre by (rewrite ?Hpre; first [lia | rewrite Eb; by reassoc]).
  f_equal. lia.
Qed.

Lemma bytes_ok_index b i v : bytes_ok b -> index b i = Ok v -> is_byte v.
Proof.
  intros H E. unfold index in E. destruct (b !! i) eqn:El; [|done]. injection E as <-.
  by apply (Forall_lookup_1 _ _ _ _ H El).
Qed.

Lemma slice_cons (b : bytes) i j v :
  (i < j)%nat -> b !! i = Some v -> slice i j b = v :: slice (S i) j b.
Proof.
  intros Hij Hi. unfold slice. rewrite (drop_S _ _ _ Hi).
  replace (j - i)%nat with (S (j - S i)) by lia. done.
Qed.

Lemma slice_split (b : bytes) i j k :
  (i <= j <= k)%nat -> slice i k b = slice i j b ++ slice j k b.
Proof.
  intros H. unfold slice. rewrite <-(take_drop (j - i) (take (k - i) (drop i b))).
  rewrite take_take. f_equal; [f_equal; lia|].
  replace (k - i)%nat with ((j - i) + (k - j))%nat by lia.
  rewrite <-take_drop_commute, drop_drop. f_equal. f_equal. lia.
Qed.

(** Within the packet, the walk never indexes out of range nor runs out of fuel, and
    what it accepts is a chain. *)
Lemma ext_chain_sound fuel b end_ c t :
  bytes_ok b -> (end_ <= length b)%nat -> (end_ - c < fuel)%nat ->
  match ext_chain fuel b end_ c t with
  | Ok c' => ExtChain t (slice c c' b) /\ (c <= c' <= Nat.max c end_)%nat
  | Err e => e <> IndexOutOfRange /\ e <> ChainOutOfFuel
  end.
Proof.
  intros Hb Hl. revert c t. induction fuel as [|f IH]; intros c t Hf; [lia|].
  cbn [ext_chain]. destruct (Z.eqb_spec t 0) as [-> | Ht].
  { split; [|lia]. unfold slice. rewrite Nat.sub_diag. constructor. }
  case_decide as He; [done|].
  assert (is_Some (b !! c)) as [n Hn] by (apply lookup_lt_is_Some; lia).
  assert (Hin : index b c = Ok n) by by (unfold index; rewrite Hn).
  pose proof (bytes_ok_index _ _ _ Hb Hin) as Hbn. rewrite Hin. cbn [rbind].
  case_decide as H4; [done|]. case_decide as H5; [done|].
  assert (is_Some (b !! (c + Z.to_nat n * 4 - 1)%nat)) as [nt Hnt]
    by (apply lookup_lt_is_Some; lia).
  assert (index b (c + Z.to_nat n * 4 - 1)%nat = Ok nt) as -> by by (unfold index; rewrite Hnt).
  cbn [rbind]. specialize (IH (c + Z.to_nat n * 4)%nat nt ltac:(lia)).
  destruct (ext_chain f b end_ _ nt) as [c'|e]; [|done].
  destruct IH as [Hc Hle]. split; [|lia].
  rewrite (slice_cons b c c' n) by (done || lia).
  rewrite (slice_split b (S c) (c + Z.to_nat n * 4 - 1) c') by lia.
  rewrite (slice_cons b (c + Z.to_nat n * 4 - 1) c' nt) by (done || lia).
  replace (S (c + Z.to_nat n * 4 - 1)) with (c + Z.to_nat n * 4)%nat by lia.
  constructor; try done; [|unfold in_u in Hbn; lia].
  rewrite length_slice by lia. lia.
Qed.

(** ** Lemmas: whole headers *)

Lemma octet1_flags e s pn :
  let o := octet1 e s pn in
  Z.shiftr (Z.land o hdrVersionMask) 5 = 1 /\ flag o hdrPTFlag = true /\
  flag o hdrEFlag = e /\ flag o hdrSFlag = s /\ flag o hdrPNFlag = pn.
Proof. by destruct e, s, pn. Qed.

Lemma flags_octet1 o :
  is_byte o -> Z.shiftr (Z.land o hdrVersionMask) 5 = 1 -> flag o hdrPTFlag = true ->
  octet1 (flag o hdrEFlag) (flag o hdrSFlag) (flag o hdrPNFlag) = Z.land o 0xF7.
Proof.
  intros Ho Hv Hp.
  pose proof (forall_range 0 256 (fun o =>
    negb ((Z.shiftr (Z.land o hdrVersionMask) 5 =? 1) && flag o hdrPTFlag) ||
    (octet1 (flag o hdrEFlag) (flag o hdrSFlag) (flag o hdrPNFlag) =? Z.land o 0xF7)) eq_refl o)
    as H.
  cbn beta in H. rewrite Hv, Hp in H. apply Z.eqb_eq, H. exact Ho.
Qed.

Ltac solve_bytes := repeat first [assumption | apply Forall_nil_2 | apply Forall_cons_2].

Lemma be_bytes_2_val a b : is_byte a -> is_byte b -> be_bytes 2 (be_val [a; b]) = [a; b].
Proof. intros. apply be_bytes_be_val; [done|solve_bytes]. Qed.

Lemma be_bytes_4_val a b c d : is_byte a -> is_byte b -> is_byte c -> is_byte d ->
  be_bytes 4 (be_val [a; b; c; d]) = [a; b; c; d].
Proof. intros. apply be_bytes_be_val; [done|solve_bytes]. Qed.

Lemma be_val_2_range a b : is_byte a -> is_byte b -> in_u 16 (be_val [a; b]).
Proof. intros. apply (be_val_range [a; b]). solve_bytes. Qed.

Lemma be_val_4_range a b c d : is_byte a -> is_byte b -> is_byte c -> is_byte d ->
  in_u 32 (be_val [a; b; c; d]).
Proof. intros. apply (be_val_range [a; b; c; d]). solve_bytes. Qed.

(** What the property says of one result of [Parse]. *)
Definition parse_sound (b : bytes) (r : result GtpuError (Header * nat)) : Prop :=
  match r with
  | Ok (h, n) =>
      Header_wf h /\ n = WireLen h /\
      (n <= MinLen + Z.to_nat (Length h) <= length b)%nat /\ in_u 16 (Length h) /\
      Marshal h (MinLen + Z.to_nat (Length h) - n) = clear_spare (take n b)
  | Err e => e <> IndexOutOfRange /\ e <> ChainOutOfFuel
  end.

(** The header with optional fields. *)
Definition opt_header (o mt L T q np nx : Z) (ext : bytes) : Header :=
  mkHeader 1 true (flag o hdrEFlag) (flag o hdrSFlag) (flag o hdrPNFlag) mt L T q np nx ext.

Definition has_opt (o : Z) : bool := flag o hdrEFlag || flag o hdrSFlag || flag o hdrPNFlag.

Lemma HasOptFields_mk v p o mt L T q np nx ext :
  HasOptFields (mkHeader v p (flag o hdrEFlag) (flag o hdrSFlag) (flag o hdrPNFlag)
    mt L T q np nx ext) = has_opt o.
Proof. done. Qed.

(** Where the extension headers of a packet end. *)
Definition chain_end_of (o nx : Z) (b : bytes) (total : nat) : result GtpuError nat :=
  if flag o hdrEFlag && negb (nx =? 0) then ext_chain (length b) b total 12 nx else Ok 12%nat.

Lemma Parse_opt o mt l1 l0 t3 t2 t1 t0 q1 q0 np nx rest :
  let b := o :: mt :: l1 :: l0 :: t3 :: t2 :: t1 :: t0 :: q1 :: q0 :: np :: nx :: rest in
  let L := be_val [l1; l0] in
  Z.shiftr (Z.land o hdrVersionMask) 5 = 1 -> flag o hdrPTFlag = true -> has_opt o = true ->
  (4 <= Z.to_nat L <= 4 + length rest)%nat ->
  Parse b = let? c := chain_end_of o nx b (8 + Z.to_nat L) in
            Ok (opt_header o mt L (be_val [t3; t2; t1; t0]) (be_val [q1; q0]) np nx
                  (slice 12 c b), c).
Proof.
  intros b L Hv Hp Ho HL. unfold Parse, b. rewrite Hv, Hp. cbn [Z.eqb Pos.eqb negb Length].
  change (be_val [l1; l0]) with L. unfold MinLen, OptFieldsLen.
  rewrite decide_False by (cbn [length]; lia).
  rewrite HasOptFields_mk. rewrite Ho. cbn [negb].
  rewrite decide_False by lia. cbn [Nat.add].
  unfold chain_end_of, field_update, opt_header.
  cbn [Version PT h_E h_S h_PN MsgType Length TEID SeqNum NPDUNum NextExtHdr ExtHeaders].
  change (S (S (S (S (S (S (S (S (Z.to_nat L))))))))) with (8 + Z.to_nat L)%nat.
  destruct (flag o hdrEFlag && negb (nx =? 0)); cbn [rbind]; [|done].
  destruct (ext_chain _ _ _ _ _) as [c|e]; cbn [rbind]; [|done].
  case_decide as Hc; [done|]. unfold slice. by replace (c - 12)%nat with 0%nat by lia.
Qed.

Lemma Parse_plain o mt l1 l0 t3 t2 t1 t0 rest :
  let L := be_val [l1; l0] in
  Z.shiftr (Z.land o hdrVersionMask) 5 = 1 -> flag o hdrPTFlag = true -> has_opt o = false ->
  (Z.to_nat L <= length rest)%nat ->
  Parse (o :: mt :: l1 :: l0 :: t3 :: t2 :: t1 :: t0 :: rest)
  = Ok (opt_header o mt L (be_val [t3; t2; t1; t0]) 0 0 0 [], 8%nat).
Proof.
  intros L Hv Hp Ho HL. unfold Parse. rewrite Hv, Hp. cbn [Z.eqb Pos.eqb negb Length].
  change (be_val [l1; l0]) with L. unfold MinLen.
  rewrite decide_False by (cbn [length]; lia).
  rewrite HasOptFields_mk. by rewrite Ho.
Qed.

(** Every packet is rejected, or read by one of the two equations. *)
Lemma Parse_cases b (P : bytes -> result GtpuError (Header * nat) -> Prop) :
  (forall b e, e <> IndexOutOfRange -> e <> ChainOutOfFuel -> P b (Err e)) ->
  (forall o mt l1 l0 t3 t2 t1 t0 rest,
     let b := o :: mt :: l1 :: l0 :: t3 :: t2 :: t1 :: t0 :: rest in
     Z.shiftr (Z.land o hdrVersionMask) 5 = 1 -> flag o hdrPTFlag = true ->
     has_opt o = false -> (Z.to_nat (be_val [l1; l0]) <= length rest)%nat -> P b (Parse b)) ->
  (forall o mt l1 l0 t3 t2 t1 t0 q1 q0 np nx rest,
     let b := o :: mt :: l1 :: l0 :: t3 :: t2 :: t1 :: t0 :: q1 :: q0 :: np :: nx :: rest in
     Z.shiftr (Z.land o hdrVersionMask) 5 = 1 -> flag o hdrPTFlag = true ->
     has_opt o = true -> (4 <= Z.to_nat (be_val [l1; l0]) <= 4 + length rest)%nat ->
     P b (Parse b)) -> P b (Parse b).
Proof.
  intros Herr Hplain Hopt.
  destruct b as [|o [|mt [|l1 [|l0 [|t3 [|t2 [|t1 [|t0 rest]]]]]]]]; try by apply Herr.
  destruct (Z.eq_dec (Z.shiftr (Z.land o hdrVersionMask) 5) 1) as [Hv|Hv].
  2: { unfold Parse. rewrite (proj2 (Z.eqb_neq _ _) Hv). by apply Herr. }
  destruct (flag o hdrPTFlag) eqn:Hp.
  2: { unfold Parse. rewrite Hv, Hp. by apply Herr. }
  destruct (decide (length rest < Z.to_nat (be_val [l1; l0]))%nat) as [Hs|Hs].
  { unfold Parse. rewrite Hv, Hp. cbn [Z.eqb Pos.eqb negb Length]. unfold MinLen.
    rewrite decide_True by (cbn [length]; lia). by apply Herr. }
  destruct (has_opt o) eqn:Ho; [|apply Hplain; by try lia].
  destruct (decide (Z.to_nat (be_val [l1; l0]) < 4 \/ length rest < 4)%nat) as [H4|H4].
  - unfold Parse. rewrite Hv, Hp. cbn [Z.eqb Pos.eqb negb Length]. unfold MinLen, OptFieldsLen.
    rewrite decide_False by (cbn [length]; lia).
    rewrite HasOptFields_mk. rewrite Ho. cbn [negb].
    destruct rest as [|q1 [|q0 [|np [|nx rest]]]]; try by apply Herr.
    rewrite decide_True by (cbn [length] in *; lia). by apply Herr.
  - destruct rest as [|q1 [|q0 [|np [|nx rest]]]]; cbn [length] in *; try lia.
    apply Hopt; try done. lia.
Qed.

Lemma opt_header_wf o mt l1 l0 t3 t2 t1 t0 q np nx ext :
  Forall is_byte [mt; l1; l0; t3; t2; t1; t0; np; nx] -> in_u 16 q ->
  (if flag o hdrEFlag then ExtChain nx ext else ext = []) ->
  (has_opt o = false -> q = 0 /\ np = 0 /\ nx = 0) ->
  Header_wf (opt_header o mt (be_val [l1; l0]) (be_val [t3; t2; t1; t0]) q np nx ext).
Proof.
  intros Hb Hq Hx Ho. repeat (apply Forall_cons in Hb as [? Hb]).
  unfold Header_wf, opt_header.
  cbn [Version PT h_E MsgType TEID SeqNum NPDUNum NextExtHdr ExtHeaders].
  rewrite HasOptFields_mk. split_and!; try done; by apply be_val_4_range.
Qed.

(** Marshalling a parsed header gives back its octets. *)
Lemma Marshal_opt_header o mt l1 l0 t3 t2 t1 t0 q1 q0 np nx ext payload :
  Forall is_byte [o; mt; l1; l0; t3; t2; t1; t0; q1; q0] ->
  Z.shiftr (Z.land o hdrVersionMask) 5 = 1 -> flag o hdrPTFlag = true ->
  Z.to_nat (be_val [l1; l0])
    = (payload + if has_opt o then 4 + length ext else 0)%nat ->
  Marshal (opt_header o mt (be_val [l1; l0]) (be_val [t3; t2; t1; t0]) (be_val [q1; q0]) np nx
             ext) payload
  = clear_spare ([o; mt; l1; l0; t3; t2; t1; t0]
                 ++ if has_opt o then [q1; q0; np; nx] ++ ext else []).
Proof.
  intros Hb Hv Hp Hl. repeat (apply Forall_cons in Hb as [? Hb]).
  pose proof (be_val_2_range l1 l0 ltac:(done) ltac:(done)) as Hr.
  unfold Marshal, opt_header. rewrite HasOptFields_mk.
  cbn [h_E h_S h_PN MsgType TEID SeqNum NPDUNum NextExtHdr ExtHeaders].
  rewrite flags_octet1, be_bytes_4_val by done. change OptFieldsLen with 4%nat.
  destruct (has_opt o); [|rewrite Nat.add_0_r in Hl]; rewrite <-Hl, Z2Nat.id
    by (unfold in_u in Hr; lia); rewrite uN_small, !be_bytes_2_val by done; done.
Qed.

Lemma WireLen_opt_header o mt L T q np nx ext :
  WireLen (opt_header o mt L T q np nx ext)
  = if has_opt o then (12 + length ext)%nat else 8%nat.
Proof. unfold WireLen, opt_header. by rewrite HasOptFields_mk. Qed.

Lemma chain_end_sound o nx b total :
  bytes_ok b -> (total <= length b)%nat -> (12 <= total)%nat ->
  match chain_end_of o nx b total with
  | Ok c => (12 <= c <= total)%nat /\
      if flag o hdrEFlag then ExtChain nx (slice 12 c b) else slice 12 c b = []
  | Err e => e <> IndexOutOfRange /\ e <> ChainOutOfFuel
  end.
Proof.
  intros Hb Hl H12. unfold chain_end_of.
  assert (Hnil : slice 12 12 b = []) by done.
  destruct (flag o hdrEFlag); cbn [andb]; [|by split; [lia|]].
  destruct (Z.eqb_spec nx 0) as [-> | Hnx]; cbn [negb].
  { split; [lia|]. rewrite Hnil. constructor. }
  pose proof (ext_chain_sound (length b) b total 12 nx Hb Hl ltac:(lia)) as H.
  destruct (ext_chain _ _ _ _ _) as [c|e]; [|done]. destruct H. split; [lia|done].
Qed.

Lemma Parse_sound b : bytes_ok b -> parse_sound b (Parse b).
Proof.
  apply (Parse_cases b (fun b r => bytes_ok b -> parse_sound b r)); [by intros|..].
  - intros o mt l1 l0 t3 t2 t1 t0 rest b' Hv Hp Ho HL Hb. unfold b'. rewrite Parse_plain by done.
    do 8 (apply Forall_cons in Hb as [? Hb]).
    cbn [parse_sound]. rewrite WireLen_opt_header, Ho. change (Length _) with (be_val [l1; l0]).
    split; [|split; [done|split; [cbn [length]; unfold MinLen; lia|split]]].
    + apply opt_header_wf; [|done|by destruct (flag o hdrEFlag); constructor|done].
      solve_bytes; done.
    + by apply be_val_2_range.
    + change 0 with (be_val [0; 0]) at 1. rewrite Marshal_opt_header; rewrite ?Ho; try done.
      * by solve_bytes.
      * unfold MinLen. lia.
  - intros o mt l1 l0 t3 t2 t1 t0 q1 q0 np nx rest b' Hv Hp Ho HL Hb. unfold b'.
    rewrite Parse_opt by done.
    pose proof (chain_end_sound o nx b' (8 + Z.to_nat (be_val [l1; l0])) Hb
      ltac:(unfold b'; cbn [length]; lia) ltac:(lia)) as Hc.
    destruct (chain_end_of _ _ _ _) as [c|e]; cbn [rbind]; [|done].
    destruct Hc as [Hle Hc]. fold b'.
    assert (Hlen : length (slice 12 c b') = (c - 12)%nat)
      by (apply length_slice; unfold b'; cbn [length]; lia).
    do 12 (apply Forall_cons in Hb as [? Hb]).
    cbn [parse_sound]. rewrite WireLen_opt_header, Ho, Hlen.
    change (Length _) with (be_val [l1; l0]). change MinLen with 8%nat.
    split; [|split; [lia|split; [unfold b'; cbn [length]; lia|split]]].
    + apply opt_header_wf; [by solve_bytes|by apply be_val_2_range|done|by rewrite Ho].
    + by apply be_val_2_range.
    + rewrite Marshal_opt_header; rewrite ?Ho; try done.
      * f_equal. unfold b', slice. replace c with (12 + (c - 12))%nat at 2 by lia. done.
      * by solve_bytes.
      * rewrite Hlen. lia.
Qed.

(** The value of the length field of a message. *)
Definition message_length (h : Header) (payload : nat) : nat :=
  (payload + if HasOptFields h then 4 + length (ExtHeaders h) else 0)%nat.

Lemma bytes_2 z : in_u 16 z -> exists a b, be_bytes 2 z = [a; b] /\ be_val [a; b] = z.
Proof.
  intros Hz. destruct (be_bytes_2 z) as (a & b & E). exists a, b. split; [done|].
  rewrite <-E. by apply be_val_be_bytes_small.
Qed.

Lemma bytes_4 z : in_u 32 z ->
  exists a b c d, be_bytes 4 z = [a; b; c; d] /\ be_val [a; b; c; d] = z.
Proof.
  intros Hz. destruct (be_bytes_4 z) as (a & b & c & d & E). exists a, b, c, d.
  split; [done|]. rewrite <-E. by apply be_val_be_bytes_small.
Qed.

Lemma opt_header_octet1 h L :
  Version h = 1 -> PT h = true ->
  opt_header (octet1 (h_E h) (h_S h) (h_PN h)) (MsgType h) L (TEID h) (SeqNum h) (NPDUNum h)
    (NextExtHdr h) (ExtHeaders h) = h <| Length := L |>.
Proof.
  intros Hv Hp. destruct (octet1_flags (h_E h) (h_S h) (h_PN h)) as (_ & _ & E1 & E2 & E3).
  unfold opt_header. rewrite E1, E2, E3. destruct h. cbn in *. by subst.
Qed.

Lemma has_opt_octet1 h : has_opt (octet1 (h_E h) (h_S h) (h_PN h)) = HasOptFields h.
Proof.
  destruct (octet1_flags (h_E h) (h_S h) (h_PN h)) as (_ & _ & E1 & E2 & E3).
  unfold has_opt. by rewrite E1, E2, E3.
Qed.

Lemma chain_end_complete h pre post total :
  (if h_E h then ExtChain (NextExtHdr h) (ExtHeaders h) else ExtHeaders h = []) ->
  length pre = 12%nat -> (12 + length (ExtHeaders h) <= total)%nat ->
  (total <= length (pre ++ ExtHeaders h ++ post))%nat ->
  chain_end_of (octet1 (h_E h) (h_S h) (h_PN h)) (NextExtHdr h) (pre ++ ExtHeaders h ++ post)
    total = Ok (12 + length (ExtHeaders h))%nat.
Proof.
  intros Hx Hpre Ht Hl. destruct (octet1_flags (h_E h) (h_S h) (h_PN h)) as (_ & _ & E1 & _).
  unfold chain_end_of. rewrite E1. destruct (h_E h); cbn [andb]; [|by rewrite Hx].
  destruct (Z.eqb_spec (NextExtHdr h) 0) as [E|Hnx]; cbn [negb].
  - rewrite E in Hx. by inversion Hx.
  - rewrite <-Hpre in *. apply (ext_chain_complete _ _ pre _ post); try done. lia.
Qed.

Lemma Parse_Marshal h payload extra :
  Header_wf h -> Z.of_nat (message_length h (length payload)) < 2 ^ 16 ->
  Parse (Marshal h (length payload) ++ payload ++ extra)
  = Ok (h <| Length := Z.of_nat (message_length h (length payload)) |>, WireLen h).
Proof.
  intros (Hv & Hp & Hmt & HT & Hq & Hnp & Hnx & Hx & Hno) Hfit.
  destruct (octet1_flags (h_E h) (h_S h) (h_PN h)) as (F1 & F2 & _).
  unfold Marshal, message_length, WireLen in *. change OptFieldsLen with 4%nat.
  change MinLen with 8%nat.
  destruct (bytes_4 _ HT) as (t3 & t2 & t1 & t0 & -> & Ht).
  destruct (bytes_2 _ Hq) as (q1 & q0 & -> & Hq').
  destruct (HasOptFields h) eqn:Ho.
  - destruct (bytes_2 (Z.of_nat (length payload + (4 + length (ExtHeaders h)))))
      as (l1 & l0 & El & Hl); [unfold in_u; lia|].
    rewrite uN_small, El by (unfold in_u; lia). cbn [app].
    rewrite Parse_opt; rewrite ?has_opt_octet1, ?Hl, ?Nat2Z.id; try done.
    2: { rewrite !length_app. lia. }
    pose proof (chain_end_complete h [octet1 (h_E h) (h_S h) (h_PN h); MsgType h; l1; l0; t3; t2;
      t1; t0; q1; q0; NPDUNum h; NextExtHdr h] (payload ++ extra)) as Hc.
    cbn [app] in Hc. rewrite Hc; clear Hc.
    + cbn [rbind]. rewrite Ht, Hq'. unfold slice. cbn [drop].
      replace (12 + length (ExtHeaders h) - 12)%nat with (length (ExtHeaders h)) by lia.
      rewrite drop_0, take_app_length. by rewrite opt_header_octet1.
    + done.
    + done.
    + lia.
    + cbn [app length]. rewrite !length_app. lia.
  - destruct (Hno eq_refl) as (Eq & Enp & Enx).
    assert (Ex : ExtHeaders h = []).
    { unfold HasOptFields in Ho. apply orb_false_iff in Ho as [Ho _].
      apply orb_false_iff in Ho as [Ho _]. by rewrite Ho in Hx. }
    destruct (bytes_2 (Z.of_nat (length payload))) as (l1 & l0 & El & Hl); [unfold in_u; lia|].
    rewrite Nat.add_0_r in *. rewrite uN_small, El by (unfold in_u; lia). cbn [app].
    rewrite Parse_plain; rewrite ?has_opt_octet1, ?Hl, ?Nat2Z.id; try done.
    2: { rewrite length_app. lia. }
    rewrite Ht, <-(opt_header_octet1 h) by done. by rewrite Eq, Enp, Enx, Ex.
Qed.

(** ** Lemmas: information elements *)

Lemma ParseIEs_loop_teid f v3 v2 v1 v0 rest acc :
  ParseIEs_loop (S f) (IETypeTEIDDataI :: v3 :: v2 :: v1 :: v0 :: rest) acc
  = ParseIEs_loop f rest (<[IETypeTEIDDataI := [v3; v2; v1; v0]]> acc).
Proof.
  unfold ParseIEs_loop at 1. fold ParseIEs_loop.
  change (128 <=? IETypeTEIDDataI) with false. change (IETypeTEIDDataI =? IETypeRecovery) with false.
  change (IETypeTEIDDataI =? IETypeTEIDDataI) with true. cbv iota zeta.
  rewrite decide_False by done. rewrite decide_False by (cbn; lia). reflexivity.
Qed.

Lemma ParseIEs_loop_peer f v3 v2 v1 v0 rest acc :
  ParseIEs_loop (S f) (IETypeGTPUPeerAddress :: 0 :: 4 :: v3 :: v2 :: v1 :: v0 :: rest) acc
  = ParseIEs_loop f rest (<[IETypeGTPUPeerAddress := [v3; v2; v1; v0]]> acc).
Proof.
  unfold ParseIEs_loop at 1. fold ParseIEs_loop.
  change (128 <=? IETypeGTPUPeerAddress) with true.
  change (Z.to_nat (be_val [0; 4])) with 4%nat. cbv iota zeta.
  rewrite decide_False by (cbn; lia). reflexivity.
Qed.

Lemma ErrorIndication_ies teid a :
  in_u 32 teid -> in_u 32 a ->
  match BuildGTPUPeerAddressIPv4 (AddrV4 a) with
  | Ok peer => ParseIEs (BuildTEIDDataI teid ++ peer)
      = <[IETypeGTPUPeerAddress := be_bytes 4 a]> (<[IETypeTEIDDataI := be_bytes 4 teid]> ∅)
  | Err _ => False
  end.
Proof.
  intros Ht Ha. cbn [BuildGTPUPeerAddressIPv4]. unfold BuildTEIDDataI.
  destruct (bytes_4 _ Ht) as (t3 & t2 & t1 & t0 & -> & _).
  destruct (bytes_4 _ Ha) as (a3 & a2 & a1 & a0 & -> & _).
  change (be_bytes 2 4) with [0; 4]. unfold ParseIEs. cbn [app length].
  by rewrite ParseIEs_loop_teid, ParseIEs_loop_peer.
Qed.

(** ** The header coding *)

(** The GTP-U header coder and decoder are inverse to each other.  On every byte
    string [Parse] stays within the packet (it never indexes out of range and its walk
    along the extension headers ends): what it accepts is a well-formed header with the
    number of octets it takes, within the declared length, which is within the packet,
    and marshalling that header gives the received octets back, the spare bit cleared.
    Conversely every well-formed header is parsed back from its encoding, extension
    headers included, whatever follows the declared end. *)
Lemma header_coding b h payload extra :
  bytes_ok b -> Header_wf h -> Z.of_nat (message_length h (length payload)) < 2 ^ 16 ->
  match Parse b with
  | Ok (h, n) =>
      Header_wf h /\ n = WireLen h /\
      (n <= MinLen + Z.to_nat (Length h) <= length b)%nat /\ in_u 16 (Length h) /\
      Marshal h (MinLen + Z.to_nat (Length h) - n) = clear_spare (take n b)
  | Err e => e <> IndexOutOfRange /\ e <> ChainOutOfFuel
  end /\
  Parse (Marshal h (length payload) ++ payload ++ extra)
  = Ok (h <| Length := Z.of_nat (message_length h (length payload)) |>, WireLen h).
Proof. intros Hb Hh Hn. split; [by apply Parse_sound|by apply Parse_Marshal]. Qed.

Definition example_header : Header :=
  mkHeader 1 true true true false MsgTypeGPDU 0 0x11223344 7 0 0x85 [1; 0x10; 0; 0].
