(* ===== verification/SgwuStore.v ===== *)
(** * SGW-U session store

    The data-plane sessions of src/internal/sgwu/session/store.go with their packet
    detection and forwarding action rules, and the store that indexes them by CP-SEID
    and UP-SEID.  Both indexes hold pointers into one heap of session objects, since the
    PFCP handlers change the rules of a stored session in place. *)

From S2P Require Import Prelude GoLib.
#[local] Open Scope string_scope.
Open Scope Z_scope.

Record PDR := mkPDR {
  pd_ID : Z; Precedence : Z; SourceInterface : Z; LocalTEID : Z; LocalIP : Addr;
  pd_FARID : Z; pd_EBI : Z; pd_QCI : Z; pd_QoSValid : bool
}.
#[export] Instance PDR_eq_dec : EqDecision PDR.
Proof. solve_decision. Defined.

Definition DropReasonNone : string := "".
Definition DropReasonReleaseAccessBearers : string := "release_access_bearers".
Definition DropReasonBearerDeleted : string := "bearer_deleted".
Definition DropReasonSessionDeleted : string := "session_deleted".
Definition DropReasonPolicy : string := "policy".
Definition DropReasonInactivity : string := "inactivity".

Record FAR := mkFAR {
  fa_ID : Z; ApplyAction : Z; DestInterface : Z; OuterTEID : Z; OuterIP : Addr;
  fa_DropReason : string
}.
#[export] Instance FAR_eq_dec : EqDecision FAR.
Proof. solve_decision. Defined.

Record IdleDownlinkEvent := mkIdleDownlinkEvent {
  ev_CPSEID : Z; ev_UPSEID : Z; ev_PDRID : Z; ev_FARID : Z; ev_LocalTEID : Z;
  ev_EBI : Z; ev_QCI : Z; ev_SourceInterface : Z; ev_QoSValid : bool; ev_DropReason : string
}.

Record Session := mkSession {
  CPSEID : Z; UPSEID : Z; CPNodeKey : string; PDRs : list PDR; FARs : list FAR
}.
#[export] Instance eta_Session : Eta Session := fun s =>
  mkSession (CPSEID s) (UPSEID s) (CPNodeKey s) (PDRs s) (FARs s).
#[export] Instance Session_eq_dec : EqDecision Session.
Proof. solve_decision. Defined.

(** A pointer to a session object. *)
Abbreviation sref := nat (only parsing).

Record Store := mkStore {
  objects : gmap nat Session;
  byCPSEID : gmap Z nat;
  byUPSEID : gmap Z nat;
  seidCounter : Z
}.
#[export] Instance eta_Store : Eta Store := fun s =>
  mkStore (objects s) (byCPSEID s) (byUPSEID s) (seidCounter s).

Definition NewStore : Store := mkStore ∅ ∅ ∅ 0.

Definition AllocSEID (st : Store) : Z * Store :=
  let v := u64 (seidCounter st + 1) in (v, st <| seidCounter := v |>).

(** The session objects behind the CP-SEID index. *)
Definition stored (st : Store) (l : sref) (s : Session) : Prop :=
  objects st !! l = Some s /\ byCPSEID st !! CPSEID s = Some l.
Definition stored_sessions (st : Store) : list Session :=
  omap (fun kl => objects st !! kl.2) (map_to_list (byCPSEID st)).

Definition has_teid (teid : Z) (pdr : PDR) : bool := LocalTEID pdr =? teid.
Definition localTEIDInUseLocked (teid : Z) (st : Store) : bool :=
  existsb (fun s => existsb (has_teid teid) (PDRs s)) (stored_sessions st).

(** The random source is an argument; [None] is the panic on a failed read. The Go loop
    has no bound: it ends at the first word that is not zero and not in use. *)
Fixpoint AllocTEID (fuel : nat) (rnd : nat -> option Z) (i : nat) (st : Store)
    : option (option Z) :=
  match fuel with
  | O => None
  | S f =>
      match rnd i with
      | None => Some None
      | Some v =>
          if negb (v =? 0) && negb (localTEIDInUseLocked v st) then Some (Some v)
          else AllocTEID f rnd (S i) st
      end
  end.

Inductive StoreError : Type :=
| AlreadyExists (cpSEID : Z)
| NotFound (cpSEID : Z).

(** [l] is the address of the new session object. *)
Definition Create (l : sref) (sess : Session) (st : Store) : option StoreError * Store :=
  match byCPSEID st !! CPSEID sess with
  | Some _ => (Some (AlreadyExists (CPSEID sess)), st)
  | None =>
      (None, st <| objects := <[l := sess]> (objects st) |>
                <| byCPSEID := <[CPSEID sess := l]> (byCPSEID st) |>
                <| byUPSEID := <[UPSEID sess := l]> (byUPSEID st) |>)
  end.

Definition FindByCPSEID (cpSEID : Z) (st : Store) : option sref := byCPSEID st !! cpSEID.
Definition FindByUPSEID (upSEID : Z) (st : Store) : option sref := byUPSEID st !! upSEID.

(** [order] is the iteration order of the CP-SEID map. *)
Definition All (order : list Z) (st : Store) : list sref := omap (fun c => byCPSEID st !! c) order.

Definition Update (l : sref) (sess : Session) (st : Store) : option StoreError * Store :=
  match byCPSEID st !! CPSEID sess with
  | None => (Some (NotFound (CPSEID sess)), st)
  | Some lold =>
      let st' := match objects st !! lold with
                 | Some old => if UPSEID old =? UPSEID sess then st
                               else st <| byUPSEID := delete (UPSEID old) (byUPSEID st) |>
                 | None => st
                 end in
      (None, st' <| objects := <[l := sess]> (objects st') |>
                 <| byCPSEID := <[CPSEID sess := l]> (byCPSEID st') |>
                 <| byUPSEID := <[UPSEID sess := l]> (byUPSEID st') |>)
  end.

Definition DeleteByCPSEID (cpSEID : Z) (st : Store) : Store :=
  match byCPSEID st !! cpSEID ≫= (objects st !!.) with
  | Some s => st <| byUPSEID := delete (UPSEID s) (byUPSEID st) |>
                 <| byCPSEID := delete cpSEID (byCPSEID st) |>
  | None => st
  end.

Definition DeleteByUPSEID (upSEID : Z) (st : Store) : Store :=
  match byUPSEID st !! upSEID ≫= (objects st !!.) with
  | Some s => st <| byCPSEID := delete (CPSEID s) (byCPSEID st) |>
                 <| byUPSEID := delete upSEID (byUPSEID st) |>
  | None => st
  end.

(** Whether the session under a CP-SEID was established by the node. *)
Definition of_node (nodeKey : string) (st : Store) (cpSEID : Z) : bool :=
  match byCPSEID st !! cpSEID ≫= (objects st !!.) with
  | Some s => String.eqb (CPNodeKey s) nodeKey
  | None => false
  end.

(** The second loop of [DeleteByCPNodeKey]. *)
Fixpoint delete_all (toDelete : list Z) (st : Store) : list sref * Store :=
  match toDelete with
  | [] => ([], st)
  | c :: rest =>
      match byCPSEID st !! c with
      | None => delete_all rest st
      | Some l =>
          let st' := DeleteByCPSEID c st in
          let '(deleted, st'') := delete_all rest st' in (l :: deleted, st'')
      end
  end.

Definition DeleteByCPNodeKey (order : list Z) (nodeKey : string) (st : Store)
    : list sref * Store :=
  delete_all (filter (fun c => of_node nodeKey st c = true) order) st.

Definition find_pdr (teid : Z) (s : Session) : option PDR :=
  head (filter (fun p => LocalTEID p = teid) (PDRs s)).

Fixpoint first_match (teid : Z) (st : Store) (ls : list sref) : option (sref * PDR) :=
  match ls with
  | [] => None
  | l :: rest =>
      match objects st !! l ≫= find_pdr teid with
      | Some p => Some (l, p)
      | None => first_match teid st rest
      end
  end.

Definition FindByLocalTEID (order : list Z) (teid : Z) (st : Store) : option (sref * PDR) :=
  if teid =? 0 then None else first_match teid st (All order st).

Definition Count (st : Store) : nat := size (byCPSEID st).
Definition CountByCPNodeKey (nodeKey : string) (st : Store) : nat :=
  length (filter (fun s => CPNodeKey s = nodeKey) (stored_sessions st)).

(** The PFCP handlers replace the rules of a stored session under its lock. *)
Definition set_rules (l : sref) (pdrs : list PDR) (fars : list FAR) (st : Store) : Store :=
  match objects st !! l with
  | Some s => st <| objects := <[l := s <| PDRs := pdrs |> <| FARs := fars |>]> (objects st) |>
  | None => st
  end.

(** ** Invariant

    [issued] holds the UP-SEIDs that were allocated and not yet given to a session. *)

Record store_wf (issued : gset Z) (st : Store) : Prop := mkStoreWf {
  wf_cp : forall c l, byCPSEID st !! c = Some l ->
    exists s, objects st !! l = Some s /\ CPSEID s = c /\ byUPSEID st !! UPSEID s = Some l;
  wf_up : forall u l, byUPSEID st !! u = Some l ->
    exists s, objects st !! l = Some s /\ UPSEID s = u /\ byCPSEID st !! CPSEID s = Some l;
  wf_issued : forall u, u ∈ issued -> byUPSEID st !! u = None /\ 0 < u <= seidCounter st;
  wf_range : forall u l, byUPSEID st !! u = Some l -> 0 < u <= seidCounter st;
  wf_counter : 0 <= seidCounter st
}.

Inductive store_step : Store * gset Z -> Store * gset Z -> Prop :=
| step_alloc st P : store_step (st, P) ((AllocSEID st).2, {[ (AllocSEID st).1 ]} ∪ P)
| step_create st P l s :
    UPSEID s ∈ P -> objects st !! l = None ->
    store_step (st, P) ((Create l s st).2, P ∖ {[ UPSEID s ]})
| step_update st P l s :
    objects st !! l = None ->
    UPSEID s ∈ P \/ (exists l0 s0, stored st l0 s0 /\ CPSEID s0 = CPSEID s /\ UPSEID s0 = UPSEID s) ->
    store_step (st, P) ((Update l s st).2, P ∖ {[ UPSEID s ]})
| step_delete_cp st P c : store_step (st, P) (DeleteByCPSEID c st, P)
| step_delete_up st P u : store_step (st, P) (DeleteByUPSEID u st, P)
| step_delete_node st P order key :
    store_step (st, P) ((DeleteByCPNodeKey order key st).2, P)
| step_rules st P l pdrs fars : store_step (st, P) (set_rules l pdrs fars st, P).

(** ** Lemmas *)

Lemma stored_lookup issued st c l :
  store_wf issued st -> byCPSEID st !! c = Some l -> exists s, stored st l s /\ CPSEID s = c.
Proof.
  intros H Hc. destruct (wf_cp _ _ H _ _ Hc) as (s & Ho & <- & _). by exists s.
Qed.

Lemma stored_up issued st l s : store_wf issued st -> stored st l s ->
  byUPSEID st !! UPSEID s = Some l.
Proof. intros H [Ho Hc]. destruct (wf_cp _ _ H _ _ Hc) as (s' & ? & _ & ?). by simplify_eq. Qed.

Lemma up_stored issued st u l : store_wf issued st -> byUPSEID st !! u = Some l ->
  exists s, stored st l s /\ UPSEID s = u.
Proof.
  intros H Hu. destruct (wf_up _ _ H _ _ Hu) as (s & Ho & <- & Hc). by exists s.
Qed.

Lemma NewStore_wf : store_wf ∅ NewStore.
Proof. split; cbn; set_solver by (rewrite ?lookup_empty in *; done || lia). Qed.

Lemma AllocSEID_wf P st : store_wf P st -> seidCounter st + 1 < 2 ^ 64 ->
  store_wf ({[ (AllocSEID st).1 ]} ∪ P) (AllocSEID st).2.
Proof.
  intros H Hc. pose proof (wf_counter _ _ H). cbn. rewrite uN_small by (unfold in_u; lia).
  split; cbn.
  - apply (wf_cp _ _ H).
  - apply (wf_up _ _ H).
  - intros u Hu. apply elem_of_union in Hu as [->%elem_of_singleton | Hu].
    + split; [|lia]. destruct (byUPSEID st !! _) as [l|] eqn:E; [|done].
      apply (wf_range _ _ H) in E. lia.
    + apply (wf_issued _ _ H) in Hu. split; [tauto|lia].
  - intros u l Hu. apply (wf_range _ _ H) in Hu. lia.
  - lia.
Qed.

(** Indexing a new object under a fresh UP-SEID and a free CP-SEID. *)
Lemma index_wf P st l s :
  store_wf P st -> objects st !! l = None -> byCPSEID st !! CPSEID s = None ->
  byUPSEID st !! UPSEID s = None -> 0 < UPSEID s <= seidCounter st ->
  store_wf (P ∖ {[ UPSEID s ]})
    (st <| objects := <[l := s]> (objects st) |>
        <| byCPSEID := <[CPSEID s := l]> (byCPSEID st) |>
        <| byUPSEID := <[UPSEID s := l]> (byUPSEID st) |>).
Proof.
  intros H Hl Hc Hu Hr. split; cbn.
  - intros c l' Hc'. apply lookup_insert_Some in Hc' as [[<- <-] | [Hne Hc']].
    + exists s. by rewrite !lookup_insert_eq.
    + destruct (wf_cp _ _ H _ _ Hc') as (s' & Ho & Ec & Eu). exists s'.
      rewrite !lookup_insert_ne by congruence. done.
  - intros u l' Hu'. apply lookup_insert_Some in Hu' as [[<- <-] | [Hne Hu']].
    + exists s. by rewrite !lookup_insert_eq.
    + destruct (wf_up _ _ H _ _ Hu') as (s' & Ho & Eu & Ec). exists s'.
      rewrite !lookup_insert_ne by congruence. done.
  - intros u [Hin Hne]%elem_of_difference. apply (wf_issued _ _ H) in Hin as [? ?].
    split; [|done]. rewrite lookup_insert_ne by set_solver. done.
  - intros u l' Hu'. apply lookup_insert_Some in Hu' as [[<- <-] | [_ Hu']]; [done|].
    by apply (wf_range _ _ H) in Hu'.
  - apply (wf_counter _ _ H).
Qed.

(** Taking a stored session out of both indexes. *)
Lemma unindex_wf P st l s :
  store_wf P st -> stored st l s ->
  store_wf P (st <| byUPSEID := delete (UPSEID s) (byUPSEID st) |>
                 <| byCPSEID := delete (CPSEID s) (byCPSEID st) |>).
Proof.
  intros H Hs. pose proof (stored_up _ _ _ _ H Hs) as Hu. destruct Hs as [Ho Hc]. split; cbn.
  - intros c l' [Hne Hc']%lookup_delete_Some.
    destruct (wf_cp _ _ H _ _ Hc') as (s' & Ho' & Ec & Eu). exists s'.
    rewrite lookup_delete_ne; [done|]. intros E. rewrite <-E, Hu in Eu. by simplify_eq.
  - intros u l' [Hne Hu']%lookup_delete_Some.
    destruct (wf_up _ _ H _ _ Hu') as (s' & Ho' & Eu & Ec). exists s'.
    rewrite lookup_delete_ne; [done|]. intros E. rewrite <-E, Hc in Ec. by simplify_eq.
  - intros u Hin. apply (wf_issued _ _ H) in Hin as [Hn ?]. split; [|done].
    rewrite lookup_delete_None. by right.
  - intros u l' [_ Hu']%lookup_delete_Some. by apply (wf_range _ _ H) in Hu'.
  - apply (wf_counter _ _ H).
Qed.

Lemma unindex_stored P st l s l' s' :
  store_wf P st -> stored st l s ->
  stored (st <| byUPSEID := delete (UPSEID s) (byUPSEID st) |>
             <| byCPSEID := delete (CPSEID s) (byCPSEID st) |>) l' s'
  <-> stored st l' s' /\ l' <> l.
Proof.
  intros H [Ho Hc]. unfold stored. cbn. rewrite lookup_delete_Some. split.
  - intros (Ho' & Hne & Hc'). split; [done|]. intros ->. congruence.
  - intros ([Ho' Hc'] & Hne). split; [done|]. split; [|done]. intros E. congruence.
Qed.

Lemma DeleteByCPSEID_spec P st c :
  store_wf P st ->
  store_wf P (DeleteByCPSEID c st) /\
  (forall l s, stored (DeleteByCPSEID c st) l s <-> stored st l s /\ CPSEID s <> c) /\
  byCPSEID (DeleteByCPSEID c st) = delete c (byCPSEID st) /\
  objects (DeleteByCPSEID c st) = objects st.
Proof.
  intros H. unfold DeleteByCPSEID. destruct (byCPSEID st !! c) as [l0|] eqn:Ec; cbn.
  - destruct (stored_lookup _ _ _ _ H Ec) as (s0 & Hs & <-). rewrite (proj1 Hs).
    split; [by eapply unindex_wf|]. split; [|done]. intros l s.
    rewrite unindex_stored by done. split; intros [Hs' Hne]; (split; [done|]).
    + intros E. apply Hne. destruct Hs as [_ Hs], Hs' as [_ Hs']. congruence.
    + intros ->. apply Hne. destruct Hs as [Hs _], Hs' as [Hs' _]. congruence.
  - split; [done|]. split; [|split; [by rewrite delete_id|done]].
    intros l s. split; [|tauto]. intros Hs. split; [done|]. intros <-.
    destruct Hs. congruence.
Qed.

Lemma DeleteByUPSEID_spec P st u :
  store_wf P st ->
  store_wf P (DeleteByUPSEID u st) /\
  (forall l s, stored (DeleteByUPSEID u st) l s <-> stored st l s /\ UPSEID s <> u).
Proof.
  intros H. unfold DeleteByUPSEID. destruct (byUPSEID st !! u) as [l0|] eqn:Eu; cbn.
  - destruct (up_stored _ _ _ _ H Eu) as (s0 & Hs & <-). rewrite (proj1 Hs).
    split; [by apply (unindex_wf P st l0 s0)|]. intros l s.
    etransitivity; [apply (unindex_stored P st l0 s0 l s H Hs)|].
    split; intros [Hs' Hne]; (split; [done|]).
    + intros E. apply Hne. apply (stored_up _ _ _ _ H) in Hs, Hs'. congruence.
    + intros ->. apply Hne. destruct Hs as [Hs _], Hs' as [Hs' _]. congruence.
  - split; [done|]. intros l s. split; [|tauto]. intros Hs. split; [done|]. intros <-.
    apply (stored_up _ _ _ _ H) in Hs. congruence.
Qed.

Lemma delete_all_spec P cs st :
  store_wf P st ->
  let '(deleted, st') := delete_all cs st in
  store_wf P st' /\
  (forall l s, stored st' l s <-> stored st l s /\ CPSEID s ∉ cs) /\
  (forall l, l ∈ deleted <-> exists s, stored st l s /\ CPSEID s ∈ cs).
Proof.
  revert st. induction cs as [|c cs IH]; intros st H; cbn.
  { split; [done|]. split; [set_solver|]. set_solver. }
  destruct (byCPSEID st !! c) as [l0|] eqn:Ec.
  - destruct (DeleteByCPSEID_spec P st c H) as (Hw & Hst & _ & _).
    specialize (IH _ Hw). destruct (delete_all cs _) as [deleted st'].
    destruct IH as (Hw' & Hst' & Hdel). split; [done|]. split.
    + intros l s. rewrite Hst', Hst, not_elem_of_cons. tauto.
    + intros l. rewrite elem_of_cons, Hdel. setoid_rewrite elem_of_cons. split.
      * intros [-> | (s & Hs & Hin)].
        -- destruct (stored_lookup _ _ _ _ H Ec) as (s & Hs & Hc). exists s. auto.
        -- exists s. apply Hst in Hs. tauto.
      * intros (s & Hs & Hin). destruct (decide (CPSEID s = c)) as [E|Hne].
        -- left. destruct Hs as [_ Hs]. congruence.
        -- right. exists s. rewrite Hst. tauto.
  - specialize (IH _ H). destruct (delete_all cs st) as [deleted st'].
    destruct IH as (Hw' & Hst' & Hdel). split; [done|].
    assert (Hno : forall l s, stored st l s -> CPSEID s <> c)
      by (intros l s [_ Hs] E; congruence).
    split.
    + intros l s. rewrite Hst', not_elem_of_cons. split; [|tauto].
      intros [Hs ?]. eauto.
    + intros l. rewrite Hdel. setoid_rewrite elem_of_cons.
      split; intros (s & Hs & Hin); exists s; (split; [done|]); [by right|].
      destruct Hin as [E|]; [by apply Hno in Hs|done].
Qed.

Lemma of_node_stored P st key l s :
  store_wf P st -> stored st l s -> of_node key st (CPSEID s) = true <-> CPNodeKey s = key.
Proof.
  intros H [Ho Hc]. unfold of_node. rewrite Hc. cbn. rewrite Ho. apply String.eqb_eq.
Qed.

Lemma DeleteByCPNodeKey_spec P order key st :
  store_wf P st -> Permutation order (elements (dom (byCPSEID st))) ->
  let '(deleted, st') := DeleteByCPNodeKey order key st in
  store_wf P st' /\
  (forall l s, stored st' l s <-> stored st l s /\ CPNodeKey s <> key) /\
  (forall l, l ∈ deleted <-> exists s, stored st l s /\ CPNodeKey s = key).
Proof.
  intros H Hord. unfold DeleteByCPNodeKey.
  assert (Hin : forall l s, stored st l s ->
    CPSEID s ∈ filter (fun c => of_node key st c = true) order <-> CPNodeKey s = key).
  { intros l s Hs. rewrite list_elem_of_filter, (of_node_stored P st key l s) by done.
    split; [tauto|]. intros E. split; [done|]. rewrite Hord. apply elem_of_elements, elem_of_dom.
    destruct Hs. eauto. }
  pose proof (delete_all_spec P (filter (fun c => of_node key st c = true) order) st H) as Hd.
  destruct (delete_all _ st) as [deleted st']. destruct Hd as (Hw & Hst & Hdel).
  split; [done|]. split.
  - intros l s. rewrite Hst. split; intros [Hs Hn]; (split; [done|]); intros E; apply Hn;
      by apply (Hin l s).
  - intros l. rewrite Hdel. split; intros (s & Hs & E); exists s; (split; [done|]);
      by apply (Hin l s).
Qed.

Lemma Update_wf P st l s :
  store_wf P st -> objects st !! l = None ->
  UPSEID s ∈ P \/ (exists l0 s0, stored st l0 s0 /\ CPSEID s0 = CPSEID s /\ UPSEID s0 = UPSEID s) ->
  store_wf (P ∖ {[ UPSEID s ]}) (Update l s st).2.
Proof.
  intros H Hl Hu. unfold Update. destruct (byCPSEID st !! CPSEID s) as [lold|] eqn:Ec; cbn.
  2: { destruct H as [? ? Hi ? ?]. split; try done. intros u [Hin _]%elem_of_difference.
       by apply Hi. }
  destruct (stored_lookup _ _ _ _ H Ec) as (old & Hold & E). rewrite (proj1 Hold).
  (* the update is a removal of the old session followed by an indexing of the new one *)
  set (st1 := st <| byUPSEID := delete (UPSEID old) (byUPSEID st) |>
                 <| byCPSEID := delete (CPSEID old) (byCPSEID st) |>).
  assert (Hw1 : store_wf P st1) by (by apply (unindex_wf P st lold)).
  assert (Hr : 0 < UPSEID s <= seidCounter st /\ byUPSEID st1 !! UPSEID s = None).
  { destruct Hu as [Hin | (l0 & s0 & Hs0 & Ec0 & Eu0)].
    - apply (wf_issued _ _ Hw1) in Hin. tauto.
    - assert (l0 = lold) as -> by (destruct Hs0 as [_ Hs0]; congruence).
      assert (s0 = old) as -> by (destruct Hs0, Hold; congruence).
      split; [|cbn; rewrite Eu0; apply lookup_delete_eq].
      rewrite <-Eu0. eapply (wf_range _ _ H). by apply (stored_up _ _ _ _ H). }
  pose proof (index_wf P st1 l s Hw1 Hl) as Hi. cbn in Hi.
  rewrite <-E, lookup_delete_eq in Hi. specialize (Hi eq_refl (proj2 Hr) (proj1 Hr)).
  unfold st1, field_update in *. cbn in *. rewrite insert_delete_eq, E in Hi.
  destruct (Z.eqb_spec (UPSEID old) (UPSEID s)) as [Eu|Hne]; cbn; [|exact Hi].
  by rewrite Eu, insert_delete_eq in Hi.
Qed.

Lemma set_rules_wf P st l pdrs fars : store_wf P st -> store_wf P (set_rules l pdrs fars st).
Proof.
  intros H. unfold set_rules. destruct (objects st !! l) as [s|] eqn:El; [|done].
  assert (Hobj : forall l' s', objects st !! l' = Some s' -> exists s'',
    <[l := s <| PDRs := pdrs |> <| FARs := fars |>]> (objects st) !! l' = Some s'' /\
    CPSEID s'' = CPSEID s' /\ UPSEID s'' = UPSEID s').
  { intros l' s' Hs'. destruct (decide (l' = l)) as [-> | Hne].
    - rewrite lookup_insert_eq. eexists. split; [done|]. by simplify_eq.
    - rewrite lookup_insert_ne by done. by exists s'. }
  destruct H as [Hc Hu Hi Hr Hn]. split; cbn; try done.
  - intros c l' Hc'. destruct (Hc _ _ Hc') as (s' & Ho & Ec & Eu).
    destruct (Hobj _ _ Ho) as (s'' & ? & ? & ?). exists s''. by split_and!; congruence.
  - intros u l' Hu'. destruct (Hu _ _ Hu') as (s' & Ho & Eu & Ec).
    destruct (Hobj _ _ Ho) as (s'' & ? & ? & ?). exists s''. by split_and!; congruence.
Qed.

Lemma store_step_wf st P st' P' :
  store_step (st, P) (st', P') -> seidCounter st + 1 < 2 ^ 64 -> store_wf P st ->
  store_wf P' st' /\ seidCounter st' <= seidCounter st + 1.
Proof.
  intros Hstep Hc H. pose proof (wf_counter _ _ H).
  inversion Hstep as [| ? ? l s Hin Hl | ? ? l s Hl Hu | | | ? ? order key | ? ? l]; subst.
  - split; [by apply AllocSEID_wf|]. cbn. rewrite uN_small by (unfold in_u; lia). lia.
  - unfold Create. destruct (byCPSEID st !! CPSEID s) eqn:Ec; cbn.
    + split; [|lia]. destruct H as [? ? Hi ? ?]. split; try done.
      intros u [Hu _]%elem_of_difference. by apply Hi.
    + split; [|lia]. apply (wf_issued _ _ H) in Hin as [? ?]. by apply index_wf.
  - split; [by apply Update_wf|]. unfold Update.
    repeat case_match; cbn; lia.
  - split; [by apply DeleteByCPSEID_spec|]. unfold DeleteByCPSEID.
    destruct (_ ≫= _); cbn; lia.
  - split; [by apply DeleteByUPSEID_spec|]. unfold DeleteByUPSEID.
    destruct (_ ≫= _); cbn; lia.
  - unfold DeleteByCPNodeKey. set (cs := filter _ order). clearbody cs. split.
    + pose proof (delete_all_spec P' cs st H). destruct (delete_all cs st). tauto.
    + enough (seidCounter (delete_all cs st).2 = seidCounter st) by lia.
      clear. revert st. induction cs as [|c cs IH]; intros st; cbn; [done|].
      destruct (byCPSEID st !! c) eqn:Ec; [|done].
      specialize (IH (DeleteByCPSEID c st)). destruct (delete_all _ _). cbn in *. rewrite IH.
      unfold DeleteByCPSEID. by destruct (_ ≫= _).
  - split; [by apply set_rules_wf|]. unfold set_rules. destruct (objects st !! l); cbn; lia.
Qed.

Lemma reachable_wf n st P :
  Z.of_nat n < 2 ^ 64 -> nsteps store_step n (NewStore, ∅) (st, P) ->
  store_wf P st /\ seidCounter st <= Z.of_nat n.
Proof.
  revert st P. induction n as [|n IH]; intros st P Hn Hs.
  - inversion Hs. subst. split; [apply NewStore_wf|cbn; lia].
  - apply nsteps_inv_r in Hs as ([st0 P0] & Hs & Hstep).
    destruct (IH st0 P0 ltac:(lia) Hs) as [Hw Hc].
    destruct (store_step_wf _ _ _ _ Hstep ltac:(lia) Hw). split; [done|lia].
Qed.

(** ** Lemmas: local TEIDs *)

Lemma stored_sessions_spec P st s :
  store_wf P st -> s ∈ stored_sessions st <-> exists l, stored st l s.
Proof.
  intros H. unfold stored_sessions. rewrite list_elem_of_omap. split.
  - intros ([c l] & Hin%elem_of_map_to_list & Ho). cbn in Ho.
    destruct (stored_lookup _ _ _ _ H Hin) as (s' & Hs & <-). exists l.
    destruct Hs as [Ho' ?]. split; [done|]. congruence.
  - intros (l & Ho & Hc). exists (CPSEID s, l). split; [|done]. by apply elem_of_map_to_list.
Qed.

Lemma localTEIDInUse_spec P st teid :
  store_wf P st ->
  localTEIDInUseLocked teid st = true <->
  exists l s p, stored st l s /\ p ∈ PDRs s /\ LocalTEID p = teid.
Proof.
  intros H. unfold localTEIDInUseLocked. rewrite existsb_exists. split.
  - intros (s & Hs & Hp). apply list_elem_of_In, (stored_sessions_spec P) in Hs as [l Hs]; [|done].
    apply existsb_exists in Hp as (p & Hp & E). apply list_elem_of_In in Hp.
    exists l, s, p. by rewrite <-(proj1 (Z.eqb_eq _ _) E).
  - intros (l & s & p & Hs & Hp & E). exists s. split.
    + apply list_elem_of_In, (stored_sessions_spec P); eauto.
    + apply existsb_exists. exists p. split; [by apply list_elem_of_In|by apply Z.eqb_eq].
Qed.

(** Whether the [i]-th random word can be allocated. *)
Definition usable_teid (st : Store) (v : Z) : Prop :=
  v <> 0 /\ forall l s p, stored st l s -> p ∈ PDRs s -> LocalTEID p <> v.

Lemma AllocTEID_spec P st rnd k i fuel :
  store_wf P st -> (k < fuel)%nat ->
  (forall j, (j < k)%nat -> exists v, rnd (i + j)%nat = Some v /\ ~ usable_teid st v) ->
  (rnd (i + k)%nat = None -> AllocTEID fuel rnd i st = Some None) /\
  (forall v, rnd (i + k)%nat = Some v -> usable_teid st v ->
     AllocTEID fuel rnd i st = Some (Some v)).
Proof.
  intros H. revert i fuel. induction k as [|k IH]; intros i fuel Hf Hbad;
    (destruct fuel as [|fuel]; [lia|]); cbn.
  - rewrite Nat.add_0_r. split; [by intros ->|]. intros v -> [Hv Hfree].
    rewrite (proj2 (Z.eqb_neq _ _) Hv). destruct (localTEIDInUseLocked v st) eqn:E; [|done].
    apply (localTEIDInUse_spec P) in E as (l & s & p & Hs & Hp & Ht); [|done]. by destruct (Hfree l s p).
  - destruct (Hbad 0%nat ltac:(lia)) as (v & Hv & Hno). rewrite Nat.add_0_r in Hv. rewrite Hv.
    assert (negb (v =? 0) && negb (localTEIDInUseLocked v st) = false) as ->.
    { apply not_true_iff_false. intros [H0 Hu]%andb_true_iff.
      apply negb_true_iff, Z.eqb_neq in H0. apply negb_true_iff in Hu. apply Hno. split; [done|].
      intros l s p Hs Hp <-. apply not_true_iff_false in Hu. apply Hu.
      apply (localTEIDInUse_spec P); [done|]. by exists l, s, p. }
    rewrite <-plus_n_Sm, <-plus_Sn_m in *. apply IH; [lia|]. intros j Hj.
    destruct (Hbad (S j) ltac:(lia)) as (w & Hw & ?). exists w. split; [|done].
    by rewrite plus_Sn_m, plus_n_Sm.
Qed.

Lemma first_match_spec st teid ls :
  (forall l, l ∈ ls -> is_Some (objects st !! l)) ->
  match first_match teid st ls with
  | Some (l, p) => l ∈ ls /\ exists s, objects st !! l = Some s /\ p ∈ PDRs s /\ LocalTEID p = teid
  | None => forall l s p, l ∈ ls -> objects st !! l = Some s -> p ∈ PDRs s -> LocalTEID p <> teid
  end.
Proof.
  induction ls as [|l ls IH]; intros Hall; cbn; [set_solver|].
  destruct (Hall l ltac:(left)) as [s Hs]. rewrite Hs. cbn. unfold find_pdr.
  destruct (filter (fun p => LocalTEID p = teid) (PDRs s)) as [|p ps] eqn:E; cbn.
  - specialize (IH ltac:(intros; apply Hall; by right)).
    destruct (first_match teid st ls) as [[l' p]|].
    + destruct IH as [? ?]. split; [by right|done].
    + intros l' s' p Hin Hs' Hp Ht. apply elem_of_cons in Hin as [-> | Hin]; [|by eapply IH].
      assert (s' = s) as -> by congruence.
      assert (p ∈ filter (fun p => LocalTEID p = teid) (PDRs s)) as Hf
        by (by apply list_elem_of_filter). rewrite E in Hf. by apply not_elem_of_nil in Hf.
  - assert (p ∈ filter (fun p => LocalTEID p = teid) (PDRs s)) as [? ?]%list_elem_of_filter
      by (rewrite E; left). split; [left|]. by exists s.
Qed.

Lemma All_spec P order st l :
  store_wf P st -> Permutation order (elements (dom (byCPSEID st))) ->
  l ∈ All order st <-> exists s, stored st l s.
Proof.
  intros H Hord. unfold All. rewrite list_elem_of_omap. split.
  - intros (c & _ & Hc). destruct (stored_lookup _ _ _ _ H Hc) as (s & Hs & _). by exists s.
  - intros (s & Ho & Hc). exists (CPSEID s). split; [|done].
    rewrite Hord. apply elem_of_elements, elem_of_dom. eauto.
Qed.

Lemma FindByLocalTEID_spec P order st teid :
  store_wf P st -> Permutation order (elements (dom (byCPSEID st))) ->
  match FindByLocalTEID order teid st with
  | Some (l, p) => teid <> 0 /\ exists s, stored st l s /\ p ∈ PDRs s /\ LocalTEID p = teid
  | None => teid = 0 \/ forall l s p, stored st l s -> p ∈ PDRs s -> LocalTEID p <> teid
  end.
Proof.
  intros H Hord. unfold FindByLocalTEID. destruct (Z.eqb_spec teid 0) as [-> | Hne]; [by left|].
  pose proof (first_match_spec st teid (All order st)) as Hm.
  assert (Hall : forall l, l ∈ All order st -> is_Some (objects st !! l))
    by (intros l [s [Ho _]]%(All_spec P); eauto).
  specialize (Hm Hall). destruct (first_match _ _ _) as [[l p]|].
  - destruct Hm as (Hin & s & Ho & Hp & Ht). split; [done|].
    apply (All_spec P) in Hin as (s' & Hs); [|done..]. exists s'.
    destruct Hs as [Ho' ?]. assert (s' = s) as -> by congruence. by split_and!.
  - right. intros l s p Hs Hp. apply (Hm l s p); [|by destruct Hs|done].
    apply (All_spec P); eauto.
Qed.

(** ** Properties *)

(** The session store stays consistent over any sequence of allocations, creations,
    updates, deletions and rule changes in which every new UP-SEID was allocated: a
    session is found under a SEID exactly when it is stored and carries that SEID, in
    both indexes; an allocated UP-SEID is never zero and leads to nothing before its
    session is created; and each deletion removes exactly the sessions it names, the
    restart reconciliation also reporting exactly those it removed. *)
Lemma store_consistent n st P order key :
  Z.of_nat n < 2 ^ 64 -> nsteps store_step n (NewStore, ∅) (st, P) ->
  Permutation order (elements (dom (byCPSEID st))) ->
  (forall c l, FindByCPSEID c st = Some l <-> exists s, stored st l s /\ CPSEID s = c) /\
  (forall u l, FindByUPSEID u st = Some l <-> exists s, stored st l s /\ UPSEID s = u) /\
  (forall u, u ∈ P -> u <> 0 /\ FindByUPSEID u st = None) /\
  (forall c l s, stored (DeleteByCPSEID c st) l s <-> stored st l s /\ CPSEID s <> c) /\
  (forall u l s, stored (DeleteByUPSEID u st) l s <-> stored st l s /\ UPSEID s <> u) /\
  let '(deleted, st') := DeleteByCPNodeKey order key st in
  (forall l s, stored st' l s <-> stored st l s /\ CPNodeKey s <> key) /\
  (forall l, l ∈ deleted <-> exists s, stored st l s /\ CPNodeKey s = key).
Proof.
  intros Hn Hs Hord. destruct (reachable_wf _ _ _ Hn Hs) as [H _].
  split; [|split; [|split; [|split; [|split]]]].
  - intros c l. split; [by apply (stored_lookup P)|]. by intros (s & [_ Hc] & <-).
  - intros u l. split; [by apply (up_stored P)|]. intros (s & Hst & <-). by apply (stored_up P).
  - intros u Hu. apply (wf_issued _ _ H) in Hu as [? ?]. split; [lia|done].
  - intros c. by apply (DeleteByCPSEID_spec P).
  - intros u. by apply (DeleteByUPSEID_spec P).
  - pose proof (DeleteByCPNodeKey_spec P order key st H Hord).
    destruct (DeleteByCPNodeKey order key st). tauto.
Qed.

Definition example_pdr (teid : Z) : PDR := mkPDR 1 100 0 teid (AddrV4 0x0A000001) 1 5 9 true.
Definition example_far : FAR := mkFAR 1 2 1 0x55 (AddrV4 0x0A000002) "".
Definition example_session (cp : Z) (node : string) : Session :=
  mkSession cp 1 node [example_pdr 0x1000] [example_far].
Definition example_store : Store := (Create 0 (example_session 7 "ipv4:a") (AllocSEID NewStore).2).2.

Lemma example_store_run : nsteps store_step 2 (NewStore, ∅) (example_store, ∅).
Proof.
  eapply nsteps_l; [apply step_alloc|]. eapply nsteps_l; [|apply nsteps_O].
  replace (∅ : gset Z) with (({[ (AllocSEID NewStore).1 ]} ∪ ∅) ∖ {[ 1 ]} : gset Z)
    by by vm_compute.
  apply (step_create _ _ 0 (example_session 7 "ipv4:a")); [by_compute|done].
Qed.

(** C32: The local TEIDs of the data plane: for every iteration order the lookup returns
    a detection rule of a stored session with that TEID whenever there is one, and
    nothing otherwise, zero never matching; and the allocator returns the first random
    word that is neither zero nor carried by a rule of a stored session.  It does not
    reserve the word: until the session is stored the same word is returned again. *)
Theorem local_teids P st order teid rnd k v fuel :
  store_wf P st -> Permutation order (elements (dom (byCPSEID st))) ->
  (k < fuel)%nat -> rnd k = Some v -> usable_teid st v ->
  (forall j, (j < k)%nat -> exists w, rnd j = Some w /\ ~ usable_teid st w) ->
  match FindByLocalTEID order teid st with
  | Some (l, p) => teid <> 0 /\ exists s, stored st l s /\ p ∈ PDRs s /\ LocalTEID p = teid
  | None => teid = 0 \/ forall l s p, stored st l s -> p ∈ PDRs s -> LocalTEID p <> teid
  end /\
  AllocTEID fuel rnd 0 st = Some (Some v) /\ FindByLocalTEID order v st = None /\
  (forall rnd' i, rnd' i = Some v -> AllocTEID 1 rnd' i st = Some (Some v)).
Proof.
  intros H Hord Hk Hv Hu Hbad. split; [by apply (FindByLocalTEID_spec P)|]. split; [|split].
  - by apply (AllocTEID_spec P st rnd k 0 fuel).
  - pose proof (FindByLocalTEID_spec P order st v H Hord) as Hf.
    destruct (FindByLocalTEID order v st) as [[l p]|]; [|done].
    destruct Hf as (_ & s & Hs & Hp & Ht). by destruct Hu as [_ Hu]; destruct (Hu l s p).
  - intros rnd' i Hi. rewrite <-(Nat.add_0_r i) in Hi.
    apply (AllocTEID_spec P st rnd' 0 i 1 H); [lia|lia|done|done].
Qed.

Lemma example_store_wf : store_wf ∅ example_store.
Proof. by apply (reachable_wf 2 _ _ ltac:(done) example_store_run). Qed.

Lemma example_teid_free : usable_teid example_store 0x2000.
Proof.
  split; [done|]. intros l s p Hs Hp Ht.
  assert (localTEIDInUseLocked 0x2000 example_store = true) as E
    by (apply (localTEIDInUse_spec ∅); [apply example_store_wf|eauto 6]).
  by vm_compute in E.
Qed.

Lemma local_teids_witness :
  AllocTEID 5 (fun i => Some (nth i [0; 0x1000; 0x2000] 0)) 0 example_store = Some (Some 0x2000)
  /\ FindByLocalTEID [7] 0x2000 example_store = None.
Proof.
  destruct (local_teids ∅ example_store [7] 0x2000
    (fun i => Some (nth i [0; 0x1000; 0x2000] 0)) 2 0x2000 5 example_store_wf)
    as (_ & H1 & H2 & _); [by vm_compute|lia|done|apply example_teid_free| |by split].
  intros j Hj. exists (nth j [0; 0x1000; 0x2000] 0). split; [done|].
  destruct j as [|[|j]]; [| |lia]; intros [H0 Hno]; [done|].
  apply (Hno 0%nat (example_session 7 "ipv4:a") (example_pdr 0x1000)); [by split|left|done].
Defined.
