(* ===== verification/Forwarder.v ===== *)
(** * GTP-U forwarder

    The userspace forwarder of src/internal/sgwu/gtpu/forwarder.go: what the receive loop
    does with one datagram, for every message type.  The result is the list of effects
    (datagrams written, events reported) with the new counters, or [None] where the Go
    code would panic.  Whether a socket write succeeds is an argument. *)

From S2P Require Import Prelude GoLib Gtpu SgwuStore.
Open Scope Z_scope.

Definition applyActionFORW : Z := 0x02.

Record Counters := mkCounters {
  RxPackets : Z; TxPackets : Z; RxBytes : Z; TxBytes : Z;
  UnknownTEID : Z; Dropped : Z; IdleDownlink : Z
}.
#[export] Instance eta_Counters : Eta Counters := fun c =>
  mkCounters (RxPackets c) (TxPackets c) (RxBytes c) (TxBytes c) (UnknownTEID c) (Dropped c)
    (IdleDownlink c).

Record Forwarder := mkForwarder {
  store : Store;
  localIP : Addr;
  hasProber : bool;
  hasReporter : bool
}.

Inductive effect :=
| WriteToUDP (dst : UDPAddr) (b : bytes)
| ReportIdleDownlink (event : IdleDownlinkEvent)
| RecordEchoResponse (peer : Addr) (seq : Z).

Definition count (field : Counters -> Z) `{FieldUpdate Counters Z field} (n : Z) (c : Counters)
    : Counters := field_update (proj := field) (u64 (field c + n)) c.

Definition effects : Type := option (list effect * Counters).

(** [f.conn.WriteToUDP(pkt, dst)] with the counters of a successful write. *)
Definition send (ok : bool) (dst : UDPAddr) (pkt : bytes) (c : Counters) : effects :=
  Some ([WriteToUDP dst pkt],
        if ok then count TxBytes (Z.of_nat (length pkt)) (count TxPackets 1 c) else c).

(** [netip.AddrFromSlice] and [Unmap]. *)
Definition AddrFromSlice (b : bytes) : option Addr :=
  if decide (length b = 4%nat) then Some (AddrV4 (be_val b))
  else if decide (length b = 16%nat) then Some (AddrV6 (be_val b) ""%string)
  else None.
Definition Unmap (a : Addr) : Addr :=
  match a with
  | AddrV6 v _ => if Is4In6 v then AddrV4 (Z.land v 0xFFFFFFFF) else a
  | _ => a
  end.

(** The header literals built here. *)
Definition simple_header (s : bool) (msgType teid seq : Z) : Header :=
  mkHeader 1 true false s false msgType 0 teid seq 0 0 [].

Definition relay_header (inHdr : Header) (outerTEID : Z) : Header :=
  mkHeader 1 true (h_E inHdr) (h_S inHdr) (h_PN inHdr) MsgTypeGPDU 0 outerTEID
    (SeqNum inHdr) (NPDUNum inHdr) (NextExtHdr inHdr) (ExtHeaders inHdr).

Definition forwardGPDU (ok : bool) (inHdr : Header) (far : FAR) (tpdu : bytes) (c : Counters)
    : effects :=
  if negb (IsValid (OuterIP far)) || (OuterTEID far =? 0) then Some ([], count Dropped 1 c)
  else
    let out := Marshal (relay_header inHdr (OuterTEID far)) (length tpdu) ++ tpdu in
    match As4 (OuterIP far) with
    | None => None
    | Some a4 => send ok (mkUDPAddr a4 Port) out c
    end.

Definition sendErrorIndication (ok : bool) (unknownTEID : Z) (dst : UDPAddr) (peerAddr : Addr)
    (c : Counters) : effects :=
  match BuildGTPUPeerAddressIPv4 peerAddr with
  | Err _ => Some ([], c)
  | Ok peerIE =>
      let payload := BuildTEIDDataI unknownTEID ++ peerIE in
      send ok dst (Marshal (simple_header true MsgTypeErrorIndication 0 0) (length payload)
                   ++ payload) c
  end.

Definition sendEndMarker (ok : bool) (teid : Z) (dstIP : Addr) (c : Counters) : effects :=
  match As4 dstIP with
  | None => None
  | Some a4 => send ok (mkUDPAddr a4 Port) (Marshal (simple_header false MsgTypeEndMarker teid 0) 0) c
  end.

(** The first FAR of the session with the id of the detection rule. *)
Definition find_far (id : Z) (fars : list FAR) : option FAR :=
  head (filter (fun f => fa_ID f = id) fars).
Definition fars_of (l : sref) (st : Store) : list FAR :=
  match objects st !! l with Some s => FARs s | None => [] end.

Definition forwards (far : FAR) : bool := negb (Z.land (ApplyAction far) applyActionFORW =? 0).

Definition idle_event (s : Session) (p : PDR) (far : FAR) (teid : Z) : IdleDownlinkEvent :=
  mkIdleDownlinkEvent (CPSEID s) (UPSEID s) (pd_ID p) (pd_FARID p) teid (pd_EBI p) (pd_QCI p)
    (SourceInterface p) (pd_QoSValid p) (fa_DropReason far).

(** [order] is the iteration order of the CP-SEID index. *)
Definition handleGPDU (ok : bool) (order : list Z) (f : Forwarder) (hdr : Header) (tpdu : bytes)
    (src : UDPAddr) (pktIP : Addr) (c : Counters) : effects :=
  match FindByLocalTEID order (TEID hdr) (store f) with
  | None =>
      let c := count UnknownTEID 1 c in
      if negb (TEID hdr =? 0) then
        sendErrorIndication ok (TEID hdr) src (if IsValid pktIP then pktIP else localIP f) c
      else Some ([], c)
  | Some (l, pdr) =>
      match find_far (pd_FARID pdr) (fars_of l (store f)) with
      | None => Some ([], count Dropped 1 c)
      | Some far =>
          if forwards far then forwardGPDU ok hdr far tpdu c
          else if (SourceInterface pdr =? 1)
                  && String.eqb (fa_DropReason far) DropReasonReleaseAccessBearers
          then
            match objects (store f) !! l with
            | None => None
            | Some sess =>
                Some (if hasReporter f then [ReportIdleDownlink (idle_event sess pdr far (TEID hdr))]
                      else [], count Dropped 1 (count IdleDownlink 1 c))
            end
          else Some ([], count Dropped 1 c)
      end
  end.

Definition handleEchoRequest (ok : bool) (req : Header) (src : UDPAddr) (c : Counters) : effects :=
  send ok src (Marshal (simple_header true MsgTypeEchoResponse 0 (SeqNum req))
                 (length BuildRecovery) ++ BuildRecovery) c.

Definition handleEchoResponse (f : Forwarder) (hdr : Header) (src : UDPAddr) (c : Counters)
    : effects :=
  if hasProber f then
    match AddrFromSlice (ua_IP src) with
    | Some srcIP => Some ([RecordEchoResponse (Unmap srcIP) (SeqNum hdr)], c)
    | None => Some ([], c)
    end
  else Some ([], c).

Definition handleEndMarker (ok : bool) (order : list Z) (f : Forwarder) (hdr : Header)
    (c : Counters) : effects :=
  match FindByLocalTEID order (TEID hdr) (store f) with
  | None => Some ([], c)
  | Some (l, pdr) =>
      match find_far (pd_FARID pdr) (fars_of l (store f)) with
      | None => Some ([], c)
      | Some far =>
          if negb (forwards far) || negb (IsValid (OuterIP far)) || (OuterTEID far =? 0)
          then Some ([], c)
          else sendEndMarker ok (OuterTEID far) (OuterIP far) c
      end
  end.

Definition handleWithLocalIP (ok : bool) (order : list Z) (f : Forwarder) (pkt : bytes)
    (src : UDPAddr) (pktIP : Addr) (c : Counters) : effects :=
  match Parse pkt with
  | Err _ => Some ([], count Dropped 1 c)
  | Ok (hdr, hdrLen) =>
      let end_ := (MinLen + Z.to_nat (Length hdr))%nat in
      if MsgType hdr =? MsgTypeGPDU then
        handleGPDU ok order f hdr (slice hdrLen end_ pkt) src pktIP c
      else if MsgType hdr =? MsgTypeEchoRequest then handleEchoRequest ok hdr src c
      else if MsgType hdr =? MsgTypeEchoResponse then handleEchoResponse f hdr src c
      else if MsgType hdr =? MsgTypeEndMarker then handleEndMarker ok order f hdr c
      else Some ([], c)
  end.

(** One iteration of the receive loop. *)
Definition Serve_step (ok : bool) (order : list Z) (f : Forwarder) (pkt : bytes) (src : UDPAddr)
    (pktIP : Addr) (c : Counters) : effects :=
  handleWithLocalIP ok order f pkt src pktIP
    (count RxBytes (Z.of_nat (length pkt)) (count RxPackets 1 c)).

(** ** Lemmas *)

Lemma Marshal_TEID h teid n :
  Marshal (h <| TEID := teid |>) n
  = take 4 (Marshal h n) ++ be_bytes 4 teid ++ drop 8 (Marshal h n).
Proof.
  unfold Marshal. change (HasOptFields (h <| TEID := teid |>)) with (HasOptFields h).
  destruct (be_bytes_2 (u16 (Z.of_nat (if HasOptFields h
    then n + (OptFieldsLen + length (ExtHeaders h)) else n)%nat))) as (l1 & l0 & El).
  destruct (be_bytes_4 (TEID h)) as (t3 & t2 & t1 & t0 & Et).
  change (ExtHeaders (h <| TEID := teid |>)) with (ExtHeaders h). rewrite El, Et. done.
Qed.

Lemma Marshal_relay h teid n :
  MsgType h = MsgTypeGPDU -> Marshal (relay_header h teid) n = Marshal (h <| TEID := teid |>) n.
Proof. intros Hm. unfold Marshal, relay_header. by rewrite <-Hm. Qed.

Lemma clear_spare_take n b : (0 < n)%nat -> clear_spare (take n b) = take n (clear_spare b).
Proof. intros. destruct n; [lia|]. by destruct b. Qed.

Lemma drop_clear_spare n b : (0 < n)%nat -> drop n (clear_spare b) = drop n b.
Proof. intros. destruct n; [lia|]. by destruct b. Qed.

(** The datagram that relays a packet: its declared octets, the spare bit cleared, with
    the TEID of the next hop. *)
Definition relayed (teid : Z) (total : nat) (b : bytes) : bytes :=
  take 4 (clear_spare b) ++ be_bytes 4 teid ++ slice 8 total b.

Lemma relay_bytes b h n teid :
  bytes_ok b -> Parse b = Ok (h, n) -> MsgType h = MsgTypeGPDU ->
  let total := (MinLen + Z.to_nat (Length h))%nat in
  Marshal (relay_header h teid) (length (slice n total b)) ++ slice n total b
  = relayed teid total b.
Proof.
  intros Hb Hp Hm total. pose proof (Parse_sound b Hb) as Hs. rewrite Hp in Hs.
  destruct Hs as (_ & Hn & Hle & _ & Hmar).
  assert (H8 : (8 <= n)%nat).
  { rewrite Hn. unfold WireLen. change MinLen with 8%nat. destruct (HasOptFields h); lia. }
  fold total in Hle, Hmar. rewrite length_slice by lia.
  rewrite Marshal_relay, Marshal_TEID, Hmar by done. unfold relayed.
  rewrite clear_spare_take, take_take, Nat.min_l by lia. rewrite <-!app_assoc. do 2 f_equal.
  rewrite <-clear_spare_take, drop_clear_spare by lia.
  unfold slice. rewrite <-(take_drop (n - 8) (take (total - 8) (drop 8 b))). f_equal.
  - rewrite take_take, take_drop_commute. f_equal. f_equal. lia.
  - replace (total - 8)%nat with ((n - 8) + (total - n))%nat by lia.
    rewrite <-take_drop_commute, drop_drop. f_equal. f_equal. lia.
Qed.

Lemma find_far_spec id fars :
  match find_far id fars with
  | Some far => far ∈ fars /\ fa_ID far = id
  | None => forall far, far ∈ fars -> fa_ID far <> id
  end.
Proof.
  unfold find_far. destruct (filter (fun f => fa_ID f = id) fars) as [|f fs] eqn:E; cbn.
  - intros far Hin Hid. assert (far ∈ filter (fun f => fa_ID f = id) fars) as Hf
      by (by apply list_elem_of_filter). rewrite E in Hf. by apply not_elem_of_nil in Hf.
  - assert (f ∈ filter (fun f => fa_ID f = id) fars) as [? ?]%list_elem_of_filter
      by (rewrite E; left). done.
Qed.

Lemma simple_header_wf s typ teid seq :
  is_byte typ -> in_u 32 teid -> in_u 16 seq -> (s = false -> seq = 0) ->
  Header_wf (simple_header s typ teid seq).
Proof.
  intros. unfold Header_wf, simple_header, HasOptFields. cbn. split_and!; try done.
  intros Hs. destruct s; cbn in Hs; [done|]. auto.
Qed.

(** What the peer reads in an Error Indication. *)
Definition error_indication (teid a : Z) (pkt : bytes) : Prop :=
  exists h, Parse pkt = Ok (h, 12%nat) /\ MsgType h = MsgTypeErrorIndication /\ TEID h = 0 /\
    h_S h = true /\ (12 + length (drop 12 pkt) = MinLen + Z.to_nat (Length h))%nat /\
    ParseIEs (drop 12 pkt)
    = <[IETypeGTPUPeerAddress := be_bytes 4 a]> (<[IETypeTEIDDataI := be_bytes 4 teid]> ∅).

Lemma sendErrorIndication_spec ok teid dst a c :
  in_u 32 teid -> in_u 32 a ->
  exists pkt, sendErrorIndication ok teid dst (AddrV4 a) c = send ok dst pkt c /\
    error_indication teid a pkt.
Proof.
  intros Ht Ha. pose proof (ErrorIndication_ies teid a Ht Ha) as Hies.
  unfold sendErrorIndication. cbn [BuildGTPUPeerAddressIPv4] in *.
  set (payload := BuildTEIDDataI teid ++ _) in *. eexists. split; [done|].
  assert (Hlen : length payload = 12%nat)
    by (unfold payload, BuildTEIDDataI; rewrite length_app; cbn [length];
        by rewrite length_app, !length_be_bytes).
  pose proof (Parse_Marshal (simple_header true MsgTypeErrorIndication 0 0) payload []
    ltac:(by apply simple_header_wf) ltac:(by rewrite Hlen)) as Hp.
  rewrite app_nil_r in Hp. eexists. split; [exact Hp|].
  assert (Hd : drop 12 (Marshal (simple_header true MsgTypeErrorIndication 0 0) (length payload)
    ++ payload) = payload) by done.
  rewrite Hd, Hlen. by split_and!.
Qed.

Definition far_ok (far : FAR) : Prop :=
  OuterIP far = AddrZero \/ exists v, OuterIP far = AddrV4 v.

(** Where a rule sends a packet. *)
Definition next_hop (far : FAR) : option UDPAddr :=
  match OuterIP far with
  | AddrV4 v => if forwards far && negb (OuterTEID far =? 0)
                then Some (mkUDPAddr (be_bytes 4 v) Port) else None
  | _ => None
  end.

Lemma forwardGPDU_spec ok h n b far c :
  bytes_ok b -> Parse b = Ok (h, n) -> MsgType h = MsgTypeGPDU -> far_ok far ->
  forwards far = true ->
  let total := (MinLen + Z.to_nat (Length h))%nat in
  forwardGPDU ok h far (slice n total b) c
  = match next_hop far with
    | Some dst => send ok dst (relayed (OuterTEID far) total b) c
    | None => Some ([], count Dropped 1 c)
    end.
Proof.
  intros Hb Hp Hm Hfar Hf total. unfold forwardGPDU, next_hop, total.
  rewrite (relay_bytes b h n) by done. rewrite Hf.
  destruct Hfar as [-> | [v ->]]; [done|]. cbn. by destruct (OuterTEID far =? 0).
Qed.

(** A dropped packet counts, and is reported when it hits released access bearers. *)
Definition drops (f : Forwarder) (s : Session) (p : PDR) (far : FAR) (teid : Z) (c : Counters)
    : effects :=
  if (SourceInterface p =? 1) && String.eqb (fa_DropReason far) DropReasonReleaseAccessBearers
  then Some (if hasReporter f then [ReportIdleDownlink (idle_event s p far teid)] else [],
             count Dropped 1 (count IdleDownlink 1 c))
  else Some ([], count Dropped 1 c).

(** ** Relaying *)

(** C33: The forwarder's treatment of a user-plane packet, for every content and every
    iteration order of the session index.  A packet whose TEID belongs to a stored
    detection rule is relayed by the rule's forwarding action: when that forwards, the
    next hop receives exactly the declared octets of the packet, extension headers and
    sequence number included, under the rule's outer TEID on port 2152, and nothing
    beyond the declared end; when it does not, the packet is dropped, and reported as
    idle downlink exactly when it came from the core to released access bearers.  A
    packet for an unknown TEID is answered with an Error Indication that names that
    TEID and the address it was sent to, and with nothing when the TEID is zero.  The
    handling never panics while outer addresses are IPv4. *)
Theorem gpdu_handling P ok order f pkt src pktIP c h n a :
  store_wf P (store f) -> Permutation order (elements (dom (byCPSEID (store f)))) ->
  (forall l s far, stored (store f) l s -> far ∈ FARs s -> far_ok far) ->
  bytes_ok pkt -> Parse pkt = Ok (h, n) -> MsgType h = MsgTypeGPDU ->
  (if IsValid pktIP then pktIP else localIP f) = AddrV4 a -> in_u 32 a ->
  let total := (MinLen + Z.to_nat (Length h))%nat in
  let result := handleWithLocalIP ok order f pkt src pktIP c in
  match FindByLocalTEID order (TEID h) (store f) with
  | None =>
      let c := count UnknownTEID 1 c in
      (TEID h = 0 -> result = Some ([], c)) /\
      (TEID h <> 0 ->
         exists reply, result = send ok src reply c /\ error_indication (TEID h) a reply)
  | Some (l, p) => exists s, stored (store f) l s /\ p ∈ PDRs s /\ LocalTEID p = TEID h /\
      match find_far (pd_FARID p) (FARs s) with
      | None => result = Some ([], count Dropped 1 c)
      | Some far =>
          result = if forwards far then
                     match next_hop far with
                     | Some dst => send ok dst (relayed (OuterTEID far) total pkt) c
                     | None => Some ([], count Dropped 1 c)
                     end
                   else drops f s p far (TEID h) c
      end
  end.
Proof.
  intros H Hord Hfar Hb Hp Hm Ha Hu total result.
  assert (Er : result = handleGPDU ok order f h (slice n total pkt) src pktIP c)
    by (unfold result, handleWithLocalIP; by rewrite Hp, Hm).
  pose proof (FindByLocalTEID_spec P order (store f) (TEID h) H Hord) as Hf.
  unfold handleGPDU in Er. destruct (FindByLocalTEID order (TEID h) (store f)) as [[l p]|].
  - destruct Hf as (_ & s & Hs & Hpin & Ht). exists s. split_and!; [done..|].
    unfold fars_of in Er. rewrite (proj1 Hs) in Er.
    pose proof (find_far_spec (pd_FARID p) (FARs s)) as Hff.
    destruct (find_far (pd_FARID p) (FARs s)) as [far|]; [|done].
    rewrite Er. destruct (forwards far) eqn:Efw; [|done].
    apply forwardGPDU_spec; try done. apply (Hfar l s); [done|apply Hff].
  - cbv zeta. rewrite Er, Ha. split.
    + by intros ->.
    + intros Hne. rewrite (proj2 (Z.eqb_neq _ _) Hne). cbn [negb].
      apply sendErrorIndication_spec; [|done].
      pose proof (Parse_sound pkt Hb) as Hs. rewrite Hp in Hs. apply Hs.
Qed.

Definition example_forwarder : Forwarder := mkForwarder example_store (AddrV4 0x0A000001) false true.
(** A packet with a sequence number and two octets beyond its declared end. *)
Definition example_packet : bytes :=
  [0x32; 255; 0; 7; 0; 0; 0x10; 0; 0; 9; 0; 0; 0xAA; 0xBB; 0xCC; 1; 2].

Lemma example_fars_ok l s far :
  stored (store example_forwarder) l s -> far ∈ FARs s -> far_ok far.
Proof.
  intros [Ho _] Hin.
  assert (E : objects (store example_forwarder) = {[ 0%nat := example_session 7 "ipv4:a" ]})
    by by vm_compute.
  rewrite E in Ho. apply lookup_singleton_Some in Ho as [_ <-].
  apply list_elem_of_singleton in Hin as ->. right. by eexists.
Qed.

Lemma example_packet_parsed : exists h, Parse example_packet = Ok (h, 12%nat) /\
  MsgType h = MsgTypeGPDU /\ TEID h = 0x1000 /\ Length h = 7.
Proof. eexists. split; [vm_compute; reflexivity|]. by cbn. Qed.

Lemma gpdu_handling_witness :
  handleWithLocalIP true [7] example_forwarder example_packet (mkUDPAddr [10; 0; 0; 9] 2152)
    AddrZero (mkCounters 0 0 0 0 0 0 0)
  = Some ([WriteToUDP (mkUDPAddr [10; 0; 0; 2] 2152)
             [0x32; 255; 0; 7; 0; 0; 0; 0x55; 0; 9; 0; 0; 0xAA; 0xBB; 0xCC]],
          mkCounters 0 1 0 15 0 0 0).
Proof.
  destruct example_packet_parsed as (h & Hp & Hm & Ht & Hl).
  pose proof (gpdu_handling ∅ true [7] example_forwarder example_packet
    (mkUDPAddr [10; 0; 0; 9] 2152) AddrZero (mkCounters 0 0 0 0 0 0 0) h 12 0x0A000001
    example_store_wf ltac:(by vm_compute) example_fars_ok ltac:(by_compute) Hp Hm eq_refl
    ltac:(by_compute)) as H.
  cbv zeta in H. rewrite Ht, Hl in H.
  assert (FindByLocalTEID [7] 0x1000 (store example_forwarder)
    = Some (0%nat, example_pdr 0x1000)) as Ef by by vm_compute.
  rewrite Ef in H. destruct H as (s & [Hs _] & _ & _ & H).
  assert (objects (store example_forwarder) !! 0%nat = Some (example_session 7 "ipv4:a")) as Eo
    by by vm_compute.
  rewrite Eo in Hs. injection Hs as <-. rewrite H. by vm_compute.
Defined.
