(* ===== verification/PathProber.v ===== *)
(** * GTP-U path prober

    The Echo state machine of src/internal/sgwu/gtpu/path_prober.go: peers probed in
    rounds of at most N3-REQUESTS transmissions spaced by T3-RESPONSE, with failure and
    recovery notifications.  Every operation also yields the events it causes, which is
    what the properties talk about. *)

From S2P Require Import Prelude GoLib Gtpu Forwarder.
Open Scope Z_scope.

Definition N3RequestsDefault : Z := 5.
Definition EchoMinInterval : duration := 60 * Second.
Definition T3ResponseDefault : duration := 5 * Second.

Record pathEntry := mkPathEntry {
  roundSeq : Z; roundSent : Z; roundResponded : bool; failed : bool; nextAction : time
}.
#[export] Instance eta_pathEntry : Eta pathEntry := fun e =>
  mkPathEntry (roundSeq e) (roundSent e) (roundResponded e) (failed e) (nextAction e).

Record PathProber := mkPathProber {
  probeInterval : duration; t3Response : duration; n3Requests : Z;
  paths : gmap Addr pathEntry; seqGen : Z; port : Z
}.
#[export] Instance eta_PathProber : Eta PathProber := fun p =>
  mkPathProber (probeInterval p) (t3Response p) (n3Requests p) (paths p) (seqGen p) (port p).

Inductive event :=
| SentEcho (peer : Addr) (seq : Z) (at_ : time) (dst : UDPAddr) (pkt : bytes)
| GotResponse (peer : Addr) (seq : Z)
| PathFailed (peer : Addr)
| PathRecovered (peer : Addr).

Definition NewPathProber (probeInterval t3Response : duration) (n3Requests : Z) : PathProber :=
  mkPathProber (if probeInterval <? EchoMinInterval then EchoMinInterval else probeInterval)
    (if t3Response <=? 0 then T3ResponseDefault else t3Response)
    (if n3Requests <=? 0 then N3RequestsDefault else n3Requests) ∅ 0 Port.

Definition new_entry : pathEntry := mkPathEntry 0 0 false false zero_time.

Definition Add (peer : Addr) (p : PathProber) : PathProber :=
  match paths p !! peer with
  | None => p <| paths := <[peer := new_entry]> (paths p) |>
  | Some _ => p
  end.

Definition Remove (peer : Addr) (p : PathProber) : PathProber :=
  p <| paths := delete peer (paths p) |>.

Definition RecordEchoResponse (peer : Addr) (seq : Z) (p : PathProber)
    : list event * PathProber :=
  match paths p !! peer with
  | None => ([], p)
  | Some e =>
      if (roundSent e =? 0) || negb (roundSeq e =? seq) then ([], p)
      else
        let e' := e <| roundResponded := true |> in
        if failed e
        then ([PathRecovered peer], p <| paths := <[peer := e' <| failed := false |>]> (paths p) |>)
        else ([], p <| paths := <[peer := e']> (paths p) |>)
  end.

Definition nextSeqLocked (gen : Z) : Z * Z :=
  let v := u32 (gen + 1) in (u16 (Z.land v 0xFFFF), v).

(** [None] is the panic of [As4] on a peer that is not IPv4. *)
Definition sendEchoLocked (now : time) (peer : Addr) (seq : Z) (p : PathProber) : option event :=
  match As4 peer with
  | None => None
  | Some a4 => Some (SentEcho peer seq now (mkUDPAddr a4 (port p))
                       (Marshal (simple_header true MsgTypeEchoRequest 0 seq) 0))
  end.

(** The body of the loop of [tick] for one peer. *)
Definition tick_entry (now : time) (peer : Addr) (e : pathEntry) (p : PathProber)
    : option (list event * pathEntry * Z) :=
  if Before now (nextAction e) then Some ([], e, seqGen p)
  else if roundSent e =? 0 then
    let '(seq, gen) := nextSeqLocked (seqGen p) in
    match sendEchoLocked now peer seq p with
    | None => None
    | Some ev => Some ([ev], mkPathEntry seq 1 false (failed e) (Prelude.Add now (t3Response p)), gen)
    end
  else if roundResponded e then
    Some ([], e <| roundSent := 0 |> <| nextAction := Prelude.Add now (probeInterval p) |>, seqGen p)
  else if roundSent e <? n3Requests p then
    match sendEchoLocked now peer (roundSeq e) p with
    | None => None
    | Some ev => Some ([ev], e <| roundSent := roundSent e + 1 |>
                               <| nextAction := Prelude.Add now (t3Response p) |>, seqGen p)
    end
  else
    Some (if failed e then [] else [PathFailed peer],
          e <| failed := true |> <| roundSent := 0 |>
            <| nextAction := Prelude.Add now (probeInterval p) |>, seqGen p).

(** [order] is the iteration order of the path map. *)
Fixpoint tick (now : time) (order : list Addr) (p : PathProber)
    : option (list event * PathProber) :=
  match order with
  | [] => Some ([], p)
  | peer :: rest =>
      match paths p !! peer with
      | None => tick now rest p
      | Some e =>
          match tick_entry now peer e p with
          | None => None
          | Some (evs, e', gen) =>
              match tick now rest (p <| paths := <[peer := e']> (paths p) |> <| seqGen := gen |>) with
              | None => None
              | Some (evs', p') => Some (evs ++ evs', p')
              end
          end
      end
  end.

(** ** Runs

    A run interleaves ticks, received responses and registrations; its history lists
    the events in order, each received response preceding its notification.  Other paths
    than the watched one may be removed. *)

Inductive prun (watched : Addr) : PathProber -> list event -> PathProber -> Prop :=
| prun_new interval t3 n3 : prun watched (NewPathProber interval t3 n3) [] (NewPathProber interval t3 n3)
| prun_tick p0 h p now order evs p' :
    prun watched p0 h p -> Permutation order (elements (dom (paths p))) ->
    tick now order p = Some (evs, p') -> prun watched p0 (h ++ evs) p'
| prun_response p0 h p peer seq evs p' :
    prun watched p0 h p -> RecordEchoResponse peer seq p = (evs, p') ->
    prun watched p0 (h ++ GotResponse peer seq :: evs) p'
| prun_add p0 h p peer : prun watched p0 h p -> prun watched p0 h (Add peer p)
| prun_remove p0 h p peer :
    prun watched p0 h p -> peer <> watched -> prun watched p0 h (Remove peer p).

Definition peer_of (ev : event) : Addr :=
  match ev with
  | SentEcho peer _ _ _ _ | GotResponse peer _ | PathFailed peer | PathRecovered peer => peer
  end.

(** What happened on one path. *)
Definition history (peer : Addr) (h : list event) : list event :=
  filter (fun ev => peer_of ev = peer) h.

(** The transmissions of a history, with their times; its notifications, [true] for a
    failure. *)
Definition sends : list event -> list (Z * time) :=
  omap (fun ev => match ev with SentEcho _ seq t _ _ => Some (seq, t) | _ => None end).
Definition notifications : list event -> list bool :=
  omap (fun ev => match ev with
                  | PathFailed _ => Some true | PathRecovered _ => Some false | _ => None end).

(** The end of [h] is [n] transmissions of [seq]; none of them was answered, unless
    [answered] is set. *)
Definition round (seq n : Z) (answered : bool) (h : list event) : Prop :=
  exists h0 blk, h = h0 ++ blk /\ (sends blk).*1 = replicate (Z.to_nat n) seq /\
    (answered = false -> Forall (fun ev => forall peer, ev <> GotResponse peer seq) blk).

(** ** Invariant of one path *)

Record path_inv (p : PathProber) (e : pathEntry) (h : list event) : Prop := mkPathInv {
  pi_sent : 0 <= roundSent e <= n3Requests p;
  pi_round : 0 < roundSent e -> round (roundSeq e) (roundSent e) (roundResponded e) h;
  pi_gap : forall s t, last (sends h) = Some (s, t) ->
    t + t3Response p + (if roundSent e =? 0 then probeInterval p else 0) <= nextAction e;
  pi_same : forall s t, last (sends h) = Some (s, t) -> 0 < roundSent e -> s = roundSeq e;
  pi_failed : failed e = Nat.odd (length (notifications h));
  pi_alternate : forall i b, notifications h !! i = Some b -> b = Nat.even i;
  pi_justified : forall i peer, h !! i = Some (PathFailed peer) ->
    exists seq, round seq (n3Requests p) false (take i h);
  pi_spaced : forall i s t s' t', sends h !! i = Some (s, t) -> sends h !! S i = Some (s', t') ->
    t + t3Response p <= t' /\ (s <> s' -> t + t3Response p + probeInterval p <= t')
}.

Definition config_ok (p : PathProber) : Prop :=
  EchoMinInterval <= probeInterval p /\ 0 < t3Response p /\ 0 < n3Requests p.
Definition same_config (p q : PathProber) : Prop :=
  probeInterval q = probeInterval p /\ t3Response q = t3Response p /\ n3Requests q = n3Requests p.

(** ** Lemmas: histories *)

Lemma sends_app h k : sends (h ++ k) = sends h ++ sends k.
Proof. apply omap_app. Qed.
Lemma notifications_app h k : notifications (h ++ k) = notifications h ++ notifications k.
Proof. apply omap_app. Qed.
Lemma history_app peer h k : history peer (h ++ k) = history peer h ++ history peer k.
Proof. apply filter_app. Qed.

Lemma lookup_snoc_cases {A} (l : list A) x i y :
  (l ++ [x]) !! i = Some y -> l !! i = Some y \/ (i = length l /\ y = x).
Proof.
  intros [? | [Hi Hx]]%lookup_app_Some; [by left|right].
  apply list_lookup_singleton_Some in Hx as [? ->]. split; [lia|done].
Qed.

Lemma last_lookup_snoc {A} (l : list A) x i y z :
  (l ++ [x]) !! i = Some y -> (l ++ [x]) !! S i = Some z ->
  (l !! i = Some y /\ l !! S i = Some z) \/ (last l = Some y /\ z = x).
Proof.
  intros H1 H2. apply lookup_snoc_cases in H2 as [H2 | [E ->]].
  - left. split; [|done]. apply lookup_snoc_cases in H1 as [? | [E _]]; [done|].
    apply lookup_lt_Some in H2. lia.
  - right. split; [|done]. rewrite last_lookup, <-E. cbn.
    rewrite lookup_app_l in H1 by lia. done.
Qed.

Lemma round_extend seq n answered h ev :
  round seq n answered h -> sends [ev] = [] ->
  (answered = false -> forall peer, ev <> GotResponse peer seq) ->
  round seq n answered (h ++ [ev]).
Proof.
  intros (h0 & blk & -> & Hs & Hr) He Hev. exists h0, (blk ++ [ev]).
  rewrite <-app_assoc, sends_app, He, app_nil_r. split_and!; [done..|].
  intros Ha. apply Forall_app. split; [auto|]. apply Forall_singleton. auto.
Qed.

Lemma round_send seq n answered h peer at_ dst pkt :
  0 <= n -> round seq n answered h ->
  round seq (n + 1) answered (h ++ [SentEcho peer seq at_ dst pkt]).
Proof.
  intros Hn (h0 & blk & -> & Hs & Hr). exists h0, (blk ++ [SentEcho peer seq at_ dst pkt]).
  rewrite <-app_assoc, sends_app, fmap_app, Hs. cbn. split_and!; [done| |].
  - rewrite Z2Nat.inj_add by lia. rewrite replicate_add. done.
  - intros Ha. apply Forall_app. split; [auto|]. by apply Forall_singleton.
Qed.

Lemma round_first seq h peer at_ dst pkt :
  round seq 1 false (h ++ [SentEcho peer seq at_ dst pkt]).
Proof.
  exists h, [SentEcho peer seq at_ dst pkt]. split_and!; [done..|].
  intros _. by apply Forall_singleton.
Qed.

Lemma round_answered seq n answered h : round seq n answered h -> round seq n true h.
Proof. intros (h0 & blk & ? & ? & _). exists h0, blk. by split_and!. Qed.

(** An event that is neither a transmission nor a notification. *)
Lemma inv_quiet p e h ev :
  path_inv p e h -> sends [ev] = [] -> notifications [ev] = [] ->
  (0 < roundSent e -> roundResponded e = false ->
     forall peer, ev <> GotResponse peer (roundSeq e)) ->
  path_inv p e (h ++ [ev]).
Proof.
  intros [] Hs Hn Hr. split; rewrite ?sends_app, ?notifications_app, ?Hs, ?Hn, ?app_nil_r; try done.
  - intros H. apply round_extend; auto.
  - intros i peer Hi. apply lookup_snoc_cases in Hi as [Hi | [_ <-]]; [|by cbn in Hn].
    rewrite take_app_le by (apply lookup_lt_Some in Hi; lia). eauto.
Qed.

(** A transmission in the state [e'] that it leads to. *)
Lemma inv_send p e e' h peer seq now dst pkt :
  config_ok p -> path_inv p e h -> nextAction e <= now -> roundSeq e' = seq ->
  1 <= roundSent e' <= n3Requests p ->
  round seq (roundSent e') (roundResponded e') (h ++ [SentEcho peer seq now dst pkt]) ->
  (0 < roundSent e -> seq = roundSeq e) -> failed e' = failed e ->
  nextAction e' = now + t3Response p ->
  path_inv p e' (h ++ [SentEcho peer seq now dst pkt]).
Proof.
  unfold config_ok, EchoMinInterval, Second. intros Hcfg [] Hnow <- Hsent Hround Hseq Hf Hna.
  split; rewrite ?sends_app, ?notifications_app; cbn [sends omap list_omap notifications];
    rewrite ?app_nil_r; try done; try lia.
  - intros s t. rewrite last_snoc. intros [= <- <-]. rewrite (proj2 (Z.eqb_neq _ _)) by lia. lia.
  - intros s t. rewrite last_snoc. by intros [= <- <-].
  - congruence.
  - intros i q Hi. apply lookup_snoc_cases in Hi as [Hi | [_ [=]]].
    rewrite take_app_le by (apply lookup_lt_Some in Hi; lia). eauto.
  - intros i s t s' t' H1 H2.
    destruct (last_lookup_snoc _ _ _ _ _ H1 H2) as [[? ?] | [Hl [= -> ->]]]; [eauto|].
    pose proof (pi_gap0 _ _ Hl) as Hg. destruct (Z.eqb_spec (roundSent e) 0) as [E0|Hne]; [lia|].
    split; [lia|]. intros Hs. destruct Hs. rewrite Hseq by lia. eapply pi_same0; [done|lia].
Qed.

(** The end of a round: without a response the failure is notified, once. *)
Lemma inv_end p e h now :
  config_ok p -> path_inv p e h -> nextAction e <= now ->
  path_inv p (e <| roundSent := 0 |> <| nextAction := now + probeInterval p |>) h.
Proof.
  unfold config_ok, EchoMinInterval, Second. intros Hcfg [] Hnow. split; cbn; try done; try lia.
  intros s t Hl. specialize (pi_gap0 s t Hl). destruct (roundSent e =? 0); lia.
Qed.

Lemma inv_fail p e h now peer :
  config_ok p -> path_inv p e h -> nextAction e <= now -> roundSent e = n3Requests p ->
  roundResponded e = false ->
  path_inv p (e <| failed := true |> <| roundSent := 0 |> <| nextAction := now + probeInterval p |>)
    (h ++ if failed e then [] else [PathFailed peer]).
Proof.
  intros Hcfg H Hnow Hn Hr. pose proof (inv_end p e h now Hcfg H Hnow) as He.
  unfold config_ok in Hcfg. destruct (failed e) eqn:Ef.
  { rewrite app_nil_r. destruct He. split; try done. cbn in *. by rewrite Ef in pi_failed0. }
  pose proof (pi_round _ _ _ H ltac:(lia)) as Hround. rewrite Hn, Hr in Hround.
  destruct He. split; rewrite ?sends_app, ?notifications_app; cbn [sends omap list_omap];
    rewrite ?app_nil_r; try done.
  - cbn in pi_failed0. rewrite Ef in pi_failed0. cbn. rewrite length_app. cbn.
    rewrite Nat.add_1_r, Nat.odd_succ, <-Nat.negb_odd. by rewrite <-pi_failed0.
  - intros i b Hi. apply lookup_snoc_cases in Hi as [Hi | [-> ->]]; [eauto|].
    cbn in pi_failed0. rewrite Ef in pi_failed0. rewrite <-Nat.negb_odd. by rewrite <-pi_failed0.
  - intros i q Hi. apply lookup_snoc_cases in Hi as [Hi | [-> _]].
    + rewrite take_app_le by (apply lookup_lt_Some in Hi; lia). eauto.
    + rewrite take_app_length. by eexists.
Qed.

(** A response that matches the round, and the recovery it notifies. *)
Lemma inv_answer p e h peer :
  path_inv p e h ->
  path_inv p (e <| roundResponded := true |>) (h ++ [GotResponse peer (roundSeq e)]).
Proof.
  intros H. apply (inv_quiet p (e <| roundResponded := true |>)); try done.
  destruct H. split; try done. intros Hs. by eapply round_answered, pi_round0.
Qed.

Lemma inv_recover p e h peer :
  path_inv p e h -> roundResponded e = true -> failed e = true ->
  path_inv p (e <| failed := false |>) (h ++ [PathRecovered peer]).
Proof.
  intros [] Hr Hf. rewrite Hf in pi_failed0.
  split; rewrite ?sends_app, ?notifications_app; cbn [sends omap list_omap];
    rewrite ?app_nil_r; try done.
  - intros Hs. apply round_extend; auto.
  - cbn. rewrite length_app. cbn. rewrite Nat.add_1_r, Nat.odd_succ, <-Nat.negb_odd.
    by rewrite <-pi_failed0.
  - intros i b Hi. apply lookup_snoc_cases in Hi as [Hi | [-> ->]]; [eauto|].
    rewrite <-Nat.negb_odd. by rewrite <-pi_failed0.
  - intros i q Hi. apply lookup_snoc_cases in Hi as [Hi | [_ [=]]].
    rewrite take_app_le by (apply lookup_lt_Some in Hi; lia). eauto.
Qed.

(** ** Lemmas: one tick *)

Lemma path_inv_config p q e h : same_config p q -> path_inv p e h -> path_inv q e h.
Proof.
  intros (E1 & E2 & E3) []. split; rewrite ?E1, ?E2, ?E3; done.
Qed.

Lemma sendEchoLocked_Some now peer seq p ev :
  sendEchoLocked now peer seq p = Some ev ->
  exists dst pkt, ev = SentEcho peer seq now dst pkt.
Proof. unfold sendEchoLocked. destruct (As4 peer); [|done]. intros [= <-]. eauto. Qed.

Lemma tick_entry_inv now peer e p h evs e' gen :
  config_ok p -> path_inv p e h -> tick_entry now peer e p = Some (evs, e', gen) ->
  path_inv p e' (h ++ evs) /\ Forall (fun ev => peer_of ev = peer) evs.
Proof.
  intros Hcfg H. pose proof (pi_sent _ _ _ H) as Hsent. unfold tick_entry, Before.
  destruct (Z.ltb_spec now (nextAction e)) as [Hlt|Hnow].
  { intros [= <- <- _]. by rewrite app_nil_r. }
  assert (Hn3 : 0 < n3Requests p) by (unfold config_ok in Hcfg; lia).
  destruct (Z.eqb_spec (roundSent e) 0) as [E0|Hne].
  - destruct (nextSeqLocked (seqGen p)) as [seq g].
    destruct (sendEchoLocked now peer seq p) as [ev|] eqn:Es; [|done]. intros [= <- <- _].
    apply sendEchoLocked_Some in Es as (dst & pkt & ->). split; [|by apply Forall_singleton].
    apply (inv_send p e); cbn; try done; [lia|..|lia].
    apply round_first.
  - destruct (roundResponded e) eqn:Er.
    { intros [= <- <- _]. rewrite app_nil_r. split; [by apply inv_end|done]. }
    destruct (Z.ltb_spec (roundSent e) (n3Requests p)) as [Hs|Hs].
    + destruct (sendEchoLocked now peer (roundSeq e) p) as [ev|] eqn:Es; [|done].
      intros [= <- <- _]. apply sendEchoLocked_Some in Es as (dst & pkt & ->).
      split; [|by apply Forall_singleton].
      apply (inv_send p e); cbn; try done; [lia|].
      apply round_send; [lia|]. apply (pi_round _ _ _ H). lia.
    + intros [= <- <- _]. split; [apply inv_fail; try done; lia|].
      destruct (failed e); [done|by apply Forall_singleton].
Qed.

Definition entry (peer : Addr) (p : PathProber) : pathEntry := default new_entry (paths p !! peer).

Lemma history_own peer evs : Forall (fun ev => peer_of ev = peer) evs -> history peer evs = evs.
Proof. intros H. apply list_filter_all. by rewrite Forall_forall in H. Qed.

Lemma history_other peer q evs :
  peer <> q -> Forall (fun ev => peer_of ev = q) evs -> history peer evs = [].
Proof.
  intros Hne H. induction H as [|ev evs E _ IH]; [done|]. unfold history.
  rewrite filter_cons_False by congruence. exact IH.
Qed.

Lemma entry_insert peer q e p :
  entry peer (p <| paths := <[q := e]> (paths p) |>)
  = if decide (peer = q) then e else entry peer p.
Proof.
  unfold entry. cbn. case_decide as E.
  - by rewrite E, lookup_insert_eq.
  - by rewrite lookup_insert_ne by congruence.
Qed.

Lemma tick_inv watched now order p h evs p' :
  config_ok p -> path_inv p (entry watched p) h -> tick now order p = Some (evs, p') ->
  path_inv p' (entry watched p') (h ++ history watched evs) /\ same_config p p'.
Proof.
  revert p h evs. induction order as [|peer rest IH]; intros p h evs Hcfg H; cbn.
  { intros [= <- <-]. rewrite app_nil_r. by split. }
  destruct (paths p !! peer) as [e|] eqn:Ee; [|by apply IH].
  destruct (tick_entry now peer e p) as [[[evs1 e'] g]|] eqn:Et; [|done].
  set (q := p <| paths := _ |> <| seqGen := g |>).
  destruct (tick now rest q) as [[evs2 p2]|] eqn:Er; [|done]. intros [= <- <-].
  rewrite history_app, app_assoc.
  assert (Hq : path_inv q (entry watched q) (h ++ history watched evs1)).
  { apply (path_inv_config p); [done|].
    change (entry watched q) with (entry watched (p <| paths := <[peer := e']> (paths p) |>)).
    rewrite entry_insert. destruct (decide (watched = peer)) as [<-|Hne].
    - assert (entry watched p = e) as E by (unfold entry; by rewrite Ee). rewrite E in H.
      destruct (tick_entry_inv _ _ _ _ _ _ _ _ Hcfg H Et) as [? Hall].
      by rewrite history_own.
    - assert (Hall : Forall (fun ev => peer_of ev = peer) evs1).
      { clear -Et. unfold tick_entry in Et. repeat case_match; simplify_eq; auto.
        all: apply Forall_singleton; try done.
        all: match goal with E : sendEchoLocked _ _ _ _ = Some _ |- _ =>
               by apply sendEchoLocked_Some in E as (? & ? & ->) end. }
      rewrite (history_other _ _ _ Hne Hall). by rewrite app_nil_r. }
  destruct (IH q _ _ ltac:(exact Hcfg) Hq Er) as [? Hsame]. split; [done|exact Hsame].
Qed.

Lemma RecordEchoResponse_inv watched peer seq p h evs p' :
  path_inv p (entry watched p) h -> RecordEchoResponse peer seq p = (evs, p') ->
  path_inv p' (entry watched p') (h ++ history watched (GotResponse peer seq :: evs)) /\
  same_config p p'.
Proof.
  intros H. unfold RecordEchoResponse.
  assert (Hoth : forall q, watched <> peer -> same_config p q -> entry watched q = entry watched p ->
    forall evs, Forall (fun ev => peer_of ev = peer) evs ->
    path_inv q (entry watched q) (h ++ history watched (GotResponse peer seq :: evs))).
  { intros q Hne Hc -> evs' Hall. rewrite (history_other watched peer);
      [|done|by apply Forall_cons]. rewrite app_nil_r. by apply (path_inv_config p). }
  assert (Hown : forall evs, Forall (fun ev => peer_of ev = peer) evs ->
    history peer (GotResponse peer seq :: evs) = [GotResponse peer seq] ++ evs)
    by (intros; by rewrite history_own by (by apply Forall_cons)).
  destruct (paths p !! peer) as [e|] eqn:Ee.
  2: { intros [= <- <-]. split; [|done]. destruct (decide (watched = peer)) as [-> | Hne].
    - rewrite Hown by done. apply inv_quiet; try done. unfold entry. rewrite Ee. cbn. lia.
    - by apply Hoth. }
  destruct (decide (watched = peer)) as [-> | Hne].
  2: { assert (forall e', entry watched (p <| paths := <[peer := e']> (paths p) |>)
         = entry watched p) as Hent by (intros; rewrite entry_insert; by rewrite decide_False).
       repeat case_match; intros [= <- <-]; (split; [|done]); apply Hoth; try done.
       by apply Forall_singleton. }
  assert (He : entry peer p = e) by (unfold entry; by rewrite Ee). rewrite He in H.
  destruct ((roundSent e =? 0) || negb (roundSeq e =? seq)) eqn:Eg.
  - intros [= <- <-]. split; [|done]. rewrite Hown, He by done. cbn.
    apply inv_quiet; try done. intros Hs _ q [= _ E].
    rewrite E, Z.eqb_refl, (proj2 (Z.eqb_neq _ _)) in Eg by lia. done.
  - apply orb_false_iff in Eg as [_ Eg]. apply negb_false_iff, Z.eqb_eq in Eg as <-.
    pose proof (inv_answer p e h peer H) as Ha.
    destruct (failed e) eqn:Ef; intros [= <- <-]; (split; [|done]); rewrite Hown, entry_insert,
      decide_True by first [done | by apply Forall_singleton].
    + rewrite app_assoc. apply (path_inv_config p); [done|].
      by apply (inv_recover p (e <| roundResponded := true |>)).
    + by apply (path_inv_config p).
Qed.

Lemma NewPathProber_ok interval t3 n3 : config_ok (NewPathProber interval t3 n3).
Proof.
  unfold config_ok, NewPathProber. cbn.
  destruct (Z.ltb_spec interval EchoMinInterval), (Z.leb_spec t3 0), (Z.leb_spec n3 0);
    unfold T3ResponseDefault, N3RequestsDefault, Second; lia.
Qed.

Lemma new_entry_inv p : config_ok p -> path_inv p new_entry [].
Proof. intros Hcfg. unfold config_ok in Hcfg. split; cbn; done || lia. Qed.

Lemma same_config_trans p q r : same_config p q -> same_config q r -> same_config p r.
Proof. intros (E1 & E2 & E3) (F1 & F2 & F3). by split_and!; congruence. Qed.

Lemma config_same p q : config_ok p -> same_config p q -> config_ok q.
Proof. intros H (E1 & E2 & E3). unfold config_ok. by rewrite E1, E2, E3. Qed.

Lemma prun_inv watched p0 h p :
  prun watched p0 h p ->
  config_ok p0 /\ same_config p0 p /\ path_inv p (entry watched p) (history watched h).
Proof.
  induction 1 as [interval t3 n3 | p0 h p now order evs p' _ (Hc & Hs & Hi) _ Ht
    | p0 h p peer seq evs p' _ (Hc & Hs & Hi) Hr | p0 h p peer _ (Hc & Hs & Hi)
    | p0 h p peer _ (Hc & Hs & Hi) Hne].
  - split_and!; [apply NewPathProber_ok|done..|]. apply new_entry_inv, NewPathProber_ok.
  - rewrite history_app. destruct (tick_inv watched _ _ _ _ _ _ (config_same _ _ Hc Hs) Hi Ht)
      as [? Hs']. split_and!; [done|by eapply same_config_trans|done].
  - rewrite history_app. destruct (RecordEchoResponse_inv watched _ _ _ _ _ _ Hi Hr) as [? Hs'].
    split_and!; [done|by eapply same_config_trans|done].
  - split_and!; [done|by unfold Add; destruct (paths p !! peer)|].
    unfold Add. destruct (paths p !! peer) as [e|] eqn:Ee; [done|].
    apply (path_inv_config p); [done|]. rewrite entry_insert. case_decide as E; [|done].
    subst. unfold entry in Hi. by rewrite Ee in Hi.
  - split_and!; [done|done|]. apply (path_inv_config p); [done|].
    unfold entry, Remove in *. cbn. by rewrite lookup_delete_ne.
Qed.

(** ** The property *)


Definition example_peer : Addr := AddrV4 0x0A000009.
Definition example_start : PathProber := Add example_peer (NewPathProber 0 Second 1).
Definition example_tick (t : time) (st : option (list event * PathProber))
    : option (list event * PathProber) :=
  match st with
  | None => None
  | Some (h, p) =>
      match tick (t * Second) [example_peer] p with
      | None => None
      | Some (evs, p') => Some (h ++ evs, p')
      end
  end.
(** A path that fails after its only transmission and is probed again a minute later. *)
Definition example_run : option (list event * PathProber) :=
  example_tick 62 (example_tick 2 (example_tick 1 (Some ([], example_start)))).

Lemma example_tick_run t h p h' p' :
  prun example_peer (NewPathProber 0 Second 1) h p -> dom (paths p) = {[ example_peer ]} ->
  example_tick t (Some (h, p)) = Some (h', p') ->
  prun example_peer (NewPathProber 0 Second 1) h' p'.
Proof.
  intros H Hd. unfold example_tick. destruct (tick (t * Second) [example_peer] p) as [[evs q]|] eqn:E; [|done]. intros [= <- <-].
  eapply prun_tick; [done| |exact E]. by rewrite Hd, elements_singleton.
Qed.

Lemma example_prun : exists h p, example_run = Some (h, p) /\
  prun example_peer (NewPathProber 0 Second 1) h p /\
  notifications (history example_peer h) = [true] /\
  sends (history example_peer h) = [(1, Second); (2, 62 * Second)].
Proof.
  unfold example_run.
  destruct (example_tick 1 (Some ([], example_start))) as [[h1 p1]|] eqn:E1; [|by vm_compute in E1].
  pose proof (example_tick_run _ _ _ _ _ (prun_add _ _ _ _ example_peer (prun_new _ 0 Second 1))
    ltac:(by vm_compute) E1) as R1. vm_compute in E1. injection E1 as <- <-.
  destruct (example_tick 2 _) as [[h2 p2]|] eqn:E2; [|by vm_compute in E2].
  pose proof (example_tick_run _ _ _ _ _ R1 ltac:(by vm_compute) E2) as R2.
  vm_compute in E2. injection E2 as <- <-.
  destruct (example_tick 62 _) as [[h3 p3]|] eqn:E3; [|by vm_compute in E3].
  pose proof (example_tick_run _ _ _ _ _ R2 ltac:(by vm_compute) E3) as R3.
  exists h3, p3. split; [done|]. split; [done|]. vm_compute in E3. injection E3 as <- <-.
  by vm_compute.
Qed.

