(* ===== verification/PfcpIe.v ===== *)
(** * PFCP information elements ([internal/pfcp/ie/ie.go])

    The IE record with its wire coding (type and length of two octets each, no
    instance), the parser, the search helpers, the grouped-IE constructors and
    every value constructor and decoder.  A Go [*IE] is never mutated after it is
    built, so it is its value, and a nil [*IE] is [None]; [None] as the result of a
    constructor is the panic of [netip.Addr.As4] on an address that is not IPv4. *)

From S2P Require Import Prelude GoLib.

(** ** Constants *)

Definition TypeCause : Z := 19.
Definition TypeUPFunctionFeatures : Z := 43.
Definition TypeCPFunctionFeatures : Z := 89.
Definition TypeNodeID : Z := 60.
Definition TypeRecoveryTimeStamp : Z := 96.
Definition TypeCreatePDR : Z := 1.
Definition TypePDI : Z := 2.
Definition TypeCreateFAR : Z := 3.
Definition TypeForwardingParameters : Z := 4.
Definition TypeCreateQER : Z := 7.
Definition TypeCreatedPDR : Z := 8.
Definition TypeUpdatePDR : Z := 9.
Definition TypeUpdateFAR : Z := 10.
Definition TypeUpdateForwardingParameters : Z := 11.
Definition TypeRemovePDR : Z := 15.
Definition TypeRemoveFAR : Z := 16.
Definition TypeSourceInterface : Z := 20.
Definition TypeFTEID : Z := 21.
Definition TypeNetworkInstance : Z := 22.
Definition TypePrecedence : Z := 29.
Definition TypeDestinationInterface : Z := 42.
Definition TypeApplyAction : Z := 44.
Definition TypePDRID : Z := 56.
Definition TypeFSEID : Z := 57.
Definition TypeOuterHeaderCreation : Z := 84.
Definition TypeOuterHeaderRemoval : Z := 95.
Definition TypeFARID : Z := 108.
Definition TypeQERID : Z := 109.
Definition TypeActivatePredefinedRules : Z := 106.
Definition TypeVectorCoreQoSMarking : Z := 32768.
Definition TypeVectorCoreIdleDownlinkReport : Z := 32769.

Definition VectorCoreIdleDownlinkDropReleaseAccessBearers : Z := 1.

Definition TypeNodeReportType : Z := 101.
Definition TypeUserPlanPathFailureReport : Z := 102.
Definition TypeRemoteGTPUPeer : Z := 103.
Definition TypePFCPAssocReleaseRequest : Z := 111.

Definition NodeReportTypeUPFR : Z := 0x01.

Definition PFCPAssocReleaseRequestSARR : Z := 0x01.

Definition RemoteGTPUPeerFlagV6 : Z := 0x01.
Definition RemoteGTPUPeerFlagV4 : Z := 0x02.
Definition RemoteGTPUPeerFlagDI : Z := 0x04.
Definition RemoteGTPUPeerFlagNI : Z := 0x08.

Definition CauseRequestAccepted : Z := 1.
Definition CauseRequestRejected : Z := 64.
Definition CauseSessionContextNotFound : Z := 65.
Definition CauseNoEstablishedAssociation : Z := 72.
Definition CauseRuleCreationFailure : Z := 73.

Definition NodeIDTypeIPv4 : Z := 0x00.
Definition NodeIDTypeIPv6 : Z := 0x01.
Definition NodeIDTypeFQDN : Z := 0x02.

Definition SourceInterfaceAccess : Z := 0.
Definition SourceInterfaceCore : Z := 1.
Definition SourceInterfaceSGiLAN : Z := 2.
Definition SourceInterfaceCPFunction : Z := 3.

Definition DestInterfaceAccess : Z := 0.
Definition DestInterfaceCore : Z := 1.
Definition DestInterfaceSGiLAN : Z := 2.
Definition DestInterfaceCPFunction : Z := 3.

Definition ApplyActionDROP : Z := 0x01.
Definition ApplyActionFORW : Z := 0x02.
Definition ApplyActionBUFF : Z := 0x04.
Definition ApplyActionNOCP : Z := 0x08.

Definition UPFunctionFeaturesFTUP : Z := 0x10.

Definition OHCDescGTPUUDPIPv4 : Z := 0x0100.

Definition OHRDescGTPUUDPIPv4 : Z := 0.

Definition FTEIDFlagV4 : Z := 0x01.
Definition FTEIDFlagV6 : Z := 0x02.
Definition FTEIDFlagCH : Z := 0x04.
Definition FTEIDFlagCHID : Z := 0x08.

Definition FSEIDFlagV6 : Z := 0x01.
Definition FSEIDFlagV4 : Z := 0x02.

(** ** The IE and its errors *)

Record IE := mkIE { IE_Type : Z; IE_Value : bytes }.
#[export] Instance IE_eq_dec : EqDecision IE.
Proof. solve_decision. Defined.

Inductive IEError : Type :=
| DeclaredLength (typ len : Z) (have : nat)
| TrailingBytes (n : nat)
| WrongType (typ want : Z)
| TooShort (typ : Z) (have : nat)
| ChooseWithoutFamily
| UnsupportedVersion (v : Z)
| ParseOutOfFuel.

Definition IE_Marshal (i : IE) : bytes :=
  be_bytes 2 (IE_Type i) ++ be_bytes 2 (u16 (Z.of_nat (length (IE_Value i)))) ++ IE_Value i.

(** The loop of [ParseIEs]: each iteration consumes at least the four header octets,
    so [length b] iterations are enough ([ParseIEs_total] below). *)
Fixpoint ParseIEs_loop (fuel : nat) (b : bytes) : result IEError (list IE) :=
  if decide (length b < 4)%nat then
    match b with [] => Ok [] | _ => Err (TrailingBytes (length b)) end
  else
    match fuel with
    | O => Err ParseOutOfFuel
    | S fuel =>
        let t := be_val (slice 0 2 b) in
        let l := Z.to_nat (be_val (slice 2 4 b)) in
        if decide (length b < 4 + l)%nat then
          Err (DeclaredLength t (Z.of_nat l) (length b - 4))
        else
          let? ies := ParseIEs_loop fuel (drop (4 + l) b) in
          Ok (mkIE t (slice 4 (4 + l) b) :: ies)
    end.
Definition ParseIEs (b : bytes) : result IEError (list IE) := ParseIEs_loop (length b) b.

Fixpoint Find (ies : list IE) (t : Z) : option IE :=
  match ies with
  | [] => None
  | i :: ies => if IE_Type i =? t then Some i else Find ies t
  end.
Fixpoint FindAll (ies : list IE) (t : Z) : list IE :=
  match ies with
  | [] => []
  | i :: ies => if IE_Type i =? t then i :: FindAll ies t else FindAll ies t
  end.

Definition Children (i : IE) : result IEError (list IE) := ParseIEs (IE_Value i).
Definition newGrouped (t : Z) (children : list IE) : IE := mkIE t (flat_map IE_Marshal children).

(** ** Guards the decoders share: the type test and the length test *)

Definition of_type (want : Z) (i : IE) : result IEError unit :=
  guard (IE_Type i =? want) (WrongType (IE_Type i) want).
Definition at_least (n : nat) (i : IE) : result IEError unit :=
  guard (bool_decide (n <= length (IE_Value i))%nat) (TooShort (IE_Type i) (length (IE_Value i))).
(** [ie.Value[k]] after the length test. *)
Definition octet (k : nat) (i : IE) : Z := nth k (IE_Value i) 0.
Definition field (a b : nat) (i : IE) : Z := be_val (slice a b (IE_Value i)).

(** [net.IPv4zero.To4()]. *)
Definition IPv4zero4 : bytes := [0; 0; 0; 0].

(** ** Node-level IEs *)

Definition NewCause (cause : Z) : IE := mkIE TypeCause [cause].
Definition CauseValue (i : IE) : result IEError Z :=
  let? _ := of_type TypeCause i in let? _ := at_least 1 i in Ok (octet 0 i).

Definition NewNodeIDIPv4 (ip : bytes) : IE :=
  mkIE TypeNodeID (NodeIDTypeIPv4 :: copy_into 4 (default IPv4zero4 (To4 ip))).
Definition NodeIDIPv4 (i : IE) : option bytes :=
  if negb (IE_Type i =? TypeNodeID) || bool_decide (length (IE_Value i) < 5)%nat
     || negb (octet 0 i =? NodeIDTypeIPv4)
  then None else Some (slice 1 5 (IE_Value i)).

Definition NewRecoveryTimeStamp (ntpSec : Z) : IE := mkIE TypeRecoveryTimeStamp (be_bytes 4 ntpSec).
Definition RecoveryTimeStampValue (i : IE) : result IEError Z :=
  let? _ := of_type TypeRecoveryTimeStamp i in let? _ := at_least 4 i in Ok (field 0 4 i).

(** ** Session-level IEs *)

Record FSEID := mkFSEID { FSEID_SEID : Z; FSEID_IPv4 : Addr }.

Definition NewFSEID (seid : Z) (v4 : Addr) : option IE :=
  let val := FSEIDFlagV4 :: be_bytes 8 seid in
  if IsValid v4 then ip4 ← As4 v4; Some (mkIE TypeFSEID (val ++ ip4))
  else Some (mkIE TypeFSEID val).
Definition FSEIDValue (i : IE) : result IEError FSEID :=
  let? _ := of_type TypeFSEID i in
  let? _ := at_least 9 i in
  if flag (octet 0 i) FSEIDFlagV4 then
    let? _ := at_least 13 i in
    Ok (mkFSEID (field 1 9 i) (AddrFrom4 (slice 9 13 (IE_Value i))))
  else Ok (mkFSEID (field 1 9 i) AddrZero).

Record FTEIDPFCP := mkFTEIDPFCP { FTEID_TEID : Z; FTEID_IPv4 : Addr }.

Definition NewFTEIDChoose : IE := mkIE TypeFTEID [Z.lor FTEIDFlagCH FTEIDFlagV4].
Definition NewFTEIDv4 (teid : Z) (v4 : Addr) : option IE :=
  if IsValid v4 then
    ip4 ← As4 v4; Some (mkIE TypeFTEID (FTEIDFlagV4 :: be_bytes 4 teid ++ copy_into 4 ip4))
  else Some (mkIE TypeFTEID (FTEIDFlagV4 :: be_bytes 4 teid ++ copy_into 4 [])).
Definition FTEIDPFCPValue (i : IE) : result IEError (FTEIDPFCP * bool) :=
  let? _ := of_type TypeFTEID i in
  let? _ := at_least 1 i in
  let flags := octet 0 i in
  if flag flags FTEIDFlagCH then
    let? _ := guard (flag flags (Z.lor FTEIDFlagV4 FTEIDFlagV6)) ChooseWithoutFamily in
    Ok (mkFTEIDPFCP 0 AddrZero, true)
  else
    let? _ := at_least 5 i in
    if flag flags FTEIDFlagV4 then
      let? _ := at_least 9 i in
      Ok (mkFTEIDPFCP (field 1 5 i) (AddrFrom4 (slice 5 9 (IE_Value i))), false)
    else Ok (mkFTEIDPFCP (field 1 5 i) AddrZero, false).

Definition NewPDRID (id : Z) : IE := mkIE TypePDRID (be_bytes 2 id).
Definition PDRIDValue (i : IE) : result IEError Z :=
  let? _ := of_type TypePDRID i in let? _ := at_least 2 i in Ok (field 0 2 i).
Definition NewFARID (id : Z) : IE := mkIE TypeFARID (be_bytes 4 id).
Definition FARIDValue (i : IE) : result IEError Z :=
  let? _ := of_type TypeFARID i in let? _ := at_least 4 i in Ok (field 0 4 i).
Definition NewQERID (id : Z) : IE := mkIE TypeQERID (be_bytes 4 id).
Definition QERIDValue (i : IE) : result IEError Z :=
  let? _ := of_type TypeQERID i in let? _ := at_least 4 i in Ok (field 0 4 i).

Definition NewVectorCoreQoSMarking (ebi qci : Z) (valid : bool) : IE :=
  mkIE TypeVectorCoreQoSMarking [1; if valid then 0x01 else 0; ebi; qci].
Definition VectorCoreQoSMarkingValue (i : IE) : result IEError (Z * Z * bool) :=
  let? _ := of_type TypeVectorCoreQoSMarking i in
  let? _ := at_least 4 i in
  let? _ := guard (octet 0 i =? 1) (UnsupportedVersion (octet 0 i)) in
  Ok (octet 2 i, octet 3 i, flag (octet 1 i) 0x01).

Record VectorCoreIdleDownlinkReport := mkReport {
  CPSEID : Z; UPSEID : Z; R_PDRID : Z; R_FARID : Z; R_LocalTEID : Z; EBI : Z; QCI : Z;
  R_SourceInterface : Z; QoSValid : bool; R_DropReason : Z }.
Definition NewVectorCoreIdleDownlinkReport (r : VectorCoreIdleDownlinkReport) : IE :=
  mkIE TypeVectorCoreIdleDownlinkReport
    ([1; if QoSValid r then 0x01 else 0; R_DropReason r; R_SourceInterface r]
     ++ be_bytes 2 (R_PDRID r) ++ be_bytes 4 (R_FARID r) ++ be_bytes 4 (R_LocalTEID r)
     ++ be_bytes 8 (CPSEID r) ++ be_bytes 8 (UPSEID r) ++ [EBI r; QCI r]).
Definition VectorCoreIdleDownlinkReportValue (i : IE)
    : result IEError VectorCoreIdleDownlinkReport :=
  let? _ := of_type TypeVectorCoreIdleDownlinkReport i in
  let? _ := at_least 32 i in
  let? _ := guard (octet 0 i =? 1) (UnsupportedVersion (octet 0 i)) in
  Ok (mkReport (field 14 22 i) (field 22 30 i) (field 4 6 i) (field 6 10 i) (field 10 14 i)
        (octet 30 i) (octet 31 i) (octet 3 i) (flag (octet 1 i) 0x01) (octet 2 i)).

Definition NewPrecedence (p : Z) : IE := mkIE TypePrecedence (be_bytes 4 p).
Definition NewSourceInterface (iface : Z) : IE :=
  mkIE TypeSourceInterface [Z.land iface 0x0F].
Definition SourceInterfaceValue (i : IE) : result IEError Z :=
  let? _ := of_type TypeSourceInterface i in
  let? _ := at_least 1 i in Ok (Z.land (octet 0 i) 0x0F).
Definition NewDestinationInterface (iface : Z) : IE :=
  mkIE TypeDestinationInterface [Z.land iface 0x0F].
Definition DestinationInterfaceValue (i : IE) : result IEError Z :=
  let? _ := of_type TypeDestinationInterface i in
  let? _ := at_least 1 i in Ok (Z.land (octet 0 i) 0x0F).
Definition NewApplyAction (flags : Z) : IE := mkIE TypeApplyAction [flags].
Definition ApplyActionValue (i : IE) : result IEError Z :=
  let? _ := of_type TypeApplyAction i in let? _ := at_least 1 i in Ok (octet 0 i).
Definition NewUPFunctionFeatures (flags : Z) : IE := mkIE TypeUPFunctionFeatures [flags].
Definition UPFunctionFeaturesValue (i : IE) : result IEError Z :=
  let? _ := of_type TypeUPFunctionFeatures i in let? _ := at_least 1 i in Ok (octet 0 i).

Record OuterHeaderCreation := mkOHC { OHC_Description : Z; OHC_TEID : Z; OHC_IPv4 : Addr }.
Definition NewOuterHeaderCreation (desc teid : Z) (v4 : Addr) : option IE :=
  let val := be_bytes 2 desc ++ be_bytes 4 teid in
  if IsValid v4 then ip4 ← As4 v4; Some (mkIE TypeOuterHeaderCreation (val ++ ip4))
  else Some (mkIE TypeOuterHeaderCreation val).
Definition OuterHeaderCreationValue (i : IE) : result IEError OuterHeaderCreation :=
  let? _ := of_type TypeOuterHeaderCreation i in
  let? _ := at_least 6 i in
  let desc := field 0 2 i in
  if desc =? OHCDescGTPUUDPIPv4 then
    let? _ := at_least 10 i in
    Ok (mkOHC desc (field 2 6 i) (AddrFrom4 (slice 6 10 (IE_Value i))))
  else Ok (mkOHC desc (field 2 6 i) AddrZero).
Definition NewOuterHeaderRemoval (desc : Z) : IE := mkIE TypeOuterHeaderRemoval [desc].

(** ** Grouped IEs *)

Definition NewPDI : list IE -> IE := newGrouped TypePDI.
Definition NewForwardingParameters : list IE -> IE := newGrouped TypeForwardingParameters.
Definition NewUpdateForwardingParameters : list IE -> IE :=
  newGrouped TypeUpdateForwardingParameters.
Definition NewCreatePDR : list IE -> IE := newGrouped TypeCreatePDR.
Definition NewCreateFAR : list IE -> IE := newGrouped TypeCreateFAR.
Definition NewCreateQER : list IE -> IE := newGrouped TypeCreateQER.
Definition NewCreatedPDR : list IE -> IE := newGrouped TypeCreatedPDR.
Definition NewUpdateFAR : list IE -> IE := newGrouped TypeUpdateFAR.
Definition NewUpdatePDR : list IE -> IE := newGrouped TypeUpdatePDR.
Definition NewRemovePDR : list IE -> IE := newGrouped TypeRemovePDR.
Definition NewRemoveFAR : list IE -> IE := newGrouped TypeRemoveFAR.
Definition NewUserPlanPathFailureReport : list IE -> IE :=
  newGrouped TypeUserPlanPathFailureReport.

(** ** Node reports and association release *)

Definition NewNodeReportType (flags : Z) : IE := mkIE TypeNodeReportType [flags].
Definition NodeReportTypeFlags (i : IE) : result IEError Z :=
  let? _ := of_type TypeNodeReportType i in let? _ := at_least 1 i in Ok (octet 0 i).
Definition NewRemoteGTPUPeerIPv4 (ip : bytes) : IE :=
  mkIE TypeRemoteGTPUPeer (RemoteGTPUPeerFlagV4 :: copy_into 4 (default IPv4zero4 (To4 ip))).
Definition RemoteGTPUPeerIPv4 (i : IE) : option bytes :=
  if negb (IE_Type i =? TypeRemoteGTPUPeer) || bool_decide (length (IE_Value i) < 1)%nat then None
  else if negb (flag (octet 0 i) RemoteGTPUPeerFlagV4) then None
  else if bool_decide (length (IE_Value i) < 5)%nat then None
  else Some (slice 1 5 (IE_Value i)).
Definition NewPFCPAssocReleaseRequest (flags : Z) : IE := mkIE TypePFCPAssocReleaseRequest [flags].
Definition PFCPAssocReleaseRequestFlags (i : IE) : result IEError Z :=
  let? _ := of_type TypePFCPAssocReleaseRequest i in let? _ := at_least 1 i in Ok (octet 0 i).

(** ** Wire coding: the parser is the inverse of [Marshal] *)

Definition IE_wf (i : IE) : Prop :=
  in_u 16 (IE_Type i) /\ bytes_ok (IE_Value i) /\ Z.of_nat (length (IE_Value i)) < 2 ^ 16.
#[export] Instance IE_wf_dec i : Decision (IE_wf i).
Proof. unfold IE_wf. apply _. Defined.

Lemma length_IE_Marshal i : length (IE_Marshal i) = (4 + length (IE_Value i))%nat.
Proof. unfold IE_Marshal. by rewrite !length_app, !length_be_bytes. Qed.

Lemma parse_marshalled fuel i rest :
  IE_wf i ->
  ParseIEs_loop (S fuel) (IE_Marshal i ++ rest)
  = (let? ies := ParseIEs_loop fuel rest in Ok (i :: ies)).
Proof.
  intros (Ht & Hv & Hl). destruct i as [t v]. simpl in Ht, Hv, Hl.
  set (L := u16 (Z.of_nat (length v))). set (b := IE_Marshal (mkIE t v) ++ rest).
  assert (b = be_bytes 2 t ++ be_bytes 2 L ++ v ++ rest) as Hb.
  { unfold b, IE_Marshal. cbn [IE_Type IE_Value]. by rewrite <- !app_assoc. }
  assert (length b = 4 + length v + length rest)%nat as Hlb.
  { by rewrite Hb, !length_app, !length_be_bytes, Nat.add_assoc, Nat.add_assoc. }
  assert (be_val (slice 0 2 b) = t) as E1.
  { rewrite Hb. change (slice 0 2 _) with (be_bytes 2 t). by apply be_val_be_bytes_small. }
  assert (be_val (slice 2 4 b) = Z.of_nat (length v)) as E2.
  { rewrite Hb. change (slice 2 4 _) with (be_bytes 2 L). apply be16_u16. unfold in_u. lia. }
  cbn [ParseIEs_loop]. rewrite decide_False by lia. rewrite E1, E2, Nat2Z.id.
  rewrite decide_False by lia.
  assert (drop (4 + length v) b = rest) as ->.
  { rewrite Hb. change (drop (4 + length v) _) with (drop (length v) (v ++ rest)).
    by rewrite drop_app_length. }
  assert (slice 4 (4 + length v) b = v) as ->; [|done].
  rewrite Hb. unfold slice. change (drop 4 _) with (v ++ rest).
  replace (4 + length v - 4)%nat with (length v) by lia. apply take_app_length.
Qed.

Lemma ParseIEs_loop_complete fuel ies :
  (length ies <= fuel)%nat -> Forall IE_wf ies ->
  ParseIEs_loop fuel (flat_map IE_Marshal ies) = Ok ies.
Proof.
  revert fuel. induction ies as [|i ies IH]; intros fuel Hf Hw; [by destruct fuel|].
  apply Forall_cons in Hw as [Hi Hw]. destruct fuel as [|fuel]; simpl in Hf; [lia|].
  change (flat_map _ (i :: ies)) with (IE_Marshal i ++ flat_map IE_Marshal ies).
  rewrite parse_marshalled by done. by rewrite IH by (done || lia).
Qed.

Lemma length_flat_marshal ies : (4 * length ies <= length (flat_map IE_Marshal ies))%nat.
Proof.
  induction ies as [|i ies IH]; [simpl; lia|].
  change (flat_map _ (i :: ies)) with (IE_Marshal i ++ flat_map IE_Marshal ies).
  rewrite length_app, length_IE_Marshal. simpl length. lia.
Qed.

Lemma ParseIEs_Marshal ies : Forall IE_wf ies -> ParseIEs (flat_map IE_Marshal ies) = Ok ies.
Proof.
  intros H. apply ParseIEs_loop_complete; [|done]. pose proof (length_flat_marshal ies). lia.
Qed.

Lemma bytes_ok_pair x y : is_byte x -> is_byte y -> bytes_ok [x; y].
Proof. intros. apply bytes_ok_cons. split; [done|]. apply bytes_ok_cons. by split; [|apply Forall_nil]. Qed.

Lemma bytes_split4 (b : bytes) : bytes_ok b -> (4 <= length b)%nat ->
  in_u 16 (be_val (slice 0 2 b)) /\ in_u 16 (be_val (slice 2 4 b)) /\
  b = be_bytes 2 (be_val (slice 0 2 b)) ++ be_bytes 2 (be_val (slice 2 4 b)) ++ drop 4 b.
Proof.
  intros Hb Hl. destruct b as [|x1 [|x2 [|x3 [|x4 b]]]]; simpl in Hl; try lia.
  change (slice 0 2 _) with [x1; x2]. change (slice 2 4 _) with [x3; x4].
  change (drop 4 _) with b. change (bytes_ok (x1 :: x2 :: x3 :: x4 :: b)) in Hb.
  rewrite !bytes_ok_cons in Hb. destruct Hb as (B1 & B2 & B3 & B4 & _).
  refine (conj _ (conj _ _)).
  - by apply (be_val_range [x1; x2]), bytes_ok_pair.
  - by apply (be_val_range [x3; x4]), bytes_ok_pair.
  - by rewrite !be_bytes_be_val by (done || by apply bytes_ok_pair).
Qed.

Lemma ParseIEs_loop_sound fuel b ies :
  bytes_ok b -> ParseIEs_loop fuel b = Ok ies ->
  Forall IE_wf ies /\ flat_map IE_Marshal ies = b.
Proof.
  revert b ies. induction fuel as [|fuel IH]; intros b ies Hb H; cbn [ParseIEs_loop] in H.
  - case_decide; [|done]. destruct b; [|done]. by injection H as <-.
  - case_decide as Hl; [destruct b; [by injection H as <-|done]|].
    destruct (bytes_split4 b Hb) as (B1 & B2 & Eb); [lia|].
    set (t := be_val (slice 0 2 b)) in *. set (L := be_val (slice 2 4 b)) in *.
    case_decide as Hd; [done|]. set (v := slice 4 (4 + Z.to_nat L) b) in H.
    apply rbind_Ok in H as (ies' & Hr & [= <-]).
    apply IH in Hr as [Hw Hr]; [|by apply bytes_ok_drop].
    assert (Hv : length v = Z.to_nat L) by (unfold v; rewrite length_slice; lia).
    assert (Hvb : bytes_ok v) by (by apply bytes_ok_slice).
    split.
    + apply Forall_cons. split; [|done]. split; [done|]. cbn [IE_Value].
      split; [done|]. rewrite Hv. unfold in_u in B2. lia.
    + match goal with |- flat_map _ (?i :: _) = _ =>
        change (IE_Marshal i ++ flat_map IE_Marshal ies' = b) end.
      rewrite Hr. unfold IE_Marshal. cbn [IE_Type IE_Value].
      rewrite Hv, Z2Nat.id by (unfold in_u in B2; lia).
      replace (u16 L) with L by (symmetry; by apply uN_small).
      transitivity (be_bytes 2 t ++ be_bytes 2 L ++ drop 4 b); [|done].
      rewrite <- !app_assoc. do 2 f_equal. unfold v, slice.
      replace (4 + Z.to_nat L - 4)%nat with (Z.to_nat L) by lia.
      replace (drop (4 + Z.to_nat L) b) with (drop (Z.to_nat L) (drop 4 b)) by apply drop_drop.
      apply take_drop.
Qed.

(** The parser is total: its loop never runs out of iterations. *)
Lemma ParseIEs_loop_total fuel b : (length b <= fuel)%nat -> ParseIEs_loop fuel b <> Err ParseOutOfFuel.
Proof.
  revert b. induction fuel as [|fuel IH]; intros b Hf; cbn [ParseIEs_loop].
  - case_decide; [|lia]. destruct b; done.
  - case_decide; [destruct b; done|]. case_decide; [done|].
    specialize (IH (drop (4 + Z.to_nat (be_val (slice 2 4 b))) b)).
    destruct (ParseIEs_loop _ _); simpl; [done|]. rewrite length_drop in IH.
    intros [= ->]. by apply IH; [lia|].
Qed.

Lemma ParseIEs_exact b ies : bytes_ok b ->
  ParseIEs b = Ok ies <-> Forall IE_wf ies /\ flat_map IE_Marshal ies = b.
Proof.
  intros Hb. split; [by apply ParseIEs_loop_sound|]. intros [Hw <-]. by apply ParseIEs_Marshal.
Qed.

Lemma Children_newGrouped t ies : Forall IE_wf ies -> Children (newGrouped t ies) = Ok ies.
Proof. apply ParseIEs_Marshal. Qed.

Lemma Find_app pre i post t :
  Forall (fun j => IE_Type j <> t) pre -> IE_Type i = t -> Find (pre ++ i :: post) t = Some i.
Proof.
  intros Hp Hi. induction Hp as [|j pre Hj _ IH]; simpl.
  - by rewrite (proj2 (Z.eqb_eq _ _) Hi).
  - by rewrite (proj2 (Z.eqb_neq _ _) Hj).
Qed.

Lemma Find_Some ies t i : Find ies t = Some i -> i ∈ ies /\ IE_Type i = t.
Proof.
  induction ies as [|j ies IH]; simpl; [done|]. case_match eqn:E.
  - intros [= ->]. split; [left|by apply Z.eqb_eq].
  - intros [? ?]%IH. split; [by right|done].
Qed.

Lemma FindAll_filter ies t : FindAll ies t = filter (fun i => IE_Type i = t) ies.
Proof.
  induction ies as [|i ies IH]; [done|]. rewrite filter_cons. simpl. rewrite IH.
  destruct (Z.eqb_spec (IE_Type i) t); case_decide; done.
Qed.

(** ** Value codecs

    What every constructor/decoder pair promises to the message layer: a valid value
    is encoded by a well-formed IE of the right type that decodes to it, and the
    decoder accepts no other type. *)

Class IECodec {A} (T : Z) (new : A -> option IE) (value : IE -> result IEError A)
    (valid : A -> Prop) : Prop := mkIECodec {
  codec_encodes : forall a, valid a ->
    exists i, new a = Some i /\ IE_wf i /\ IE_Type i = T /\ value i = Ok a;
  codec_only : forall i a, value i = Ok a -> IE_Type i = T }.

Lemma of_type_Ok T i u : of_type T i = Ok u -> IE_Type i = T.
Proof. unfold of_type. intros ->%guard_Ok%Z.eqb_eq. done. Qed.

Lemma of_type_bind {A} T i (k : unit -> result IEError A) a :
  (let? u := of_type T i in k u) = Ok a -> IE_Type i = T.
Proof. intros (u & ?%of_type_Ok & _)%rbind_Ok. done. Qed.

#[export] Hint Extern 1 (is_byte _) => by_compute : sgw_bytes.

Lemma is_byte_flag (b : bool) : is_byte (if b then 0x01 else 0).
Proof. by destruct b. Qed.
Lemma bytes_ok_copy_into n l : bytes_ok l -> bytes_ok (copy_into n l).
Proof.
  intros H. apply bytes_ok_app. split; [by apply bytes_ok_take|].
  by apply Forall_replicate.
Qed.
#[export] Hint Resolve is_byte_flag bytes_ok_copy_into : sgw_bytes.

Ltac codec_wf :=
  match goal with |- IE_wf ?i => let j := eval hnf in i in change (IE_wf j) end;
  match goal with |- IE_wf (mkIE ?t ?v) =>
    split; [change (in_u 16 t); by_compute|
    split; [change (bytes_ok v); by auto 30 with sgw_bytes|vm_compute; reflexivity]] end.
(** A codec: build the IE, check it is well formed, decode it by computation; what
    is left is that each field reads back. *)
Ltac codec :=
  constructor; [|intros ? ?; apply of_type_bind];
  intros; eexists; split; [reflexivity|split; [unfold is_byte in *; codec_wf|split; [reflexivity|]]].

#[export] Instance Cause_codec : IECodec TypeCause (fun c => Some (NewCause c)) CauseValue is_byte.
Proof. codec. done. Qed.
#[export] Instance ApplyAction_codec :
  IECodec TypeApplyAction (fun f => Some (NewApplyAction f)) ApplyActionValue is_byte.
Proof. codec. done. Qed.
#[export] Instance UPFunctionFeatures_codec :
  IECodec TypeUPFunctionFeatures (fun f => Some (NewUPFunctionFeatures f)) UPFunctionFeaturesValue is_byte.
Proof. codec. done. Qed.
#[export] Instance NodeReportType_codec :
  IECodec TypeNodeReportType (fun f => Some (NewNodeReportType f)) NodeReportTypeFlags is_byte.
Proof. codec. done. Qed.
#[export] Instance PFCPAssocReleaseRequest_codec :
  IECodec TypePFCPAssocReleaseRequest (fun f => Some (NewPFCPAssocReleaseRequest f))
    PFCPAssocReleaseRequestFlags is_byte.
Proof. codec. done. Qed.

(** [Ok (f (be_val (be_bytes n z)) ..)] against [Ok (f z ..)]. *)
Ltac reads_back :=
  repeat match goal with
  | |- context [be_val (be_bytes ?n ?z)] =>
      rewrite (be_val_be_bytes_small n z) by done
  end; try done.

#[export] Instance RecoveryTimeStamp_codec :
  IECodec TypeRecoveryTimeStamp (fun t => Some (NewRecoveryTimeStamp t)) RecoveryTimeStampValue (in_u 32).
Proof.
  codec. change (Ok (be_val (be_bytes 4 a)) = (Ok a : result IEError Z)). reads_back.
Qed.
#[export] Instance PDRID_codec :
  IECodec TypePDRID (fun i => Some (NewPDRID i)) PDRIDValue (in_u 16).
Proof. codec. change (Ok (be_val (be_bytes 2 a)) = (Ok a : result IEError Z)). reads_back. Qed.
#[export] Instance FARID_codec :
  IECodec TypeFARID (fun i => Some (NewFARID i)) FARIDValue (in_u 32).
Proof. codec. change (Ok (be_val (be_bytes 4 a)) = (Ok a : result IEError Z)). reads_back. Qed.
#[export] Instance QERID_codec :
  IECodec TypeQERID (fun i => Some (NewQERID i)) QERIDValue (in_u 32).
Proof. codec. change (Ok (be_val (be_bytes 4 a)) = (Ok a : result IEError Z)). reads_back. Qed.

Lemma land_15_codec (v : Z) : in_u 4 v -> is_byte (Z.land v 0x0F) /\ Z.land (Z.land v 0x0F) 0x0F = v.
Proof.
  intros Hv. rewrite !land_15_small; [|done..]. split; [|done]. by apply (in_u_mono 4 8).
Qed.
#[export] Instance SourceInterface_codec :
  IECodec TypeSourceInterface (fun f => Some (NewSourceInterface f)) SourceInterfaceValue (in_u 4).
Proof.
  constructor; [|intros ? ?; apply of_type_bind].
  intros v [Hb Hv]%land_15_codec. eexists. split; [reflexivity|]. split; [codec_wf|].
  split; [reflexivity|]. by rewrite <- Hv at 2.
Qed.
#[export] Instance DestinationInterface_codec :
  IECodec TypeDestinationInterface (fun f => Some (NewDestinationInterface f))
    DestinationInterfaceValue (in_u 4).
Proof.
  constructor; [|intros ? ?; apply of_type_bind].
  intros v [Hb Hv]%land_15_codec. eexists. split; [reflexivity|]. split; [codec_wf|].
  split; [reflexivity|]. by rewrite <- Hv at 2.
Qed.

Definition QoS_valid (q : Z * Z * bool) : Prop := is_byte q.1.1 /\ is_byte q.1.2.
#[export] Instance QoSMarking_codec :
  IECodec TypeVectorCoreQoSMarking (fun q => Some (NewVectorCoreQoSMarking q.1.1 q.1.2 q.2))
    VectorCoreQoSMarkingValue QoS_valid.
Proof.
  constructor; [|intros ? ?; apply of_type_bind].
  intros [[e q] v] [? ?]. eexists. split; [reflexivity|]. split; [codec_wf|].
  split; [reflexivity|]. by destruct v.
Qed.

Definition Report_valid (r : VectorCoreIdleDownlinkReport) : Prop :=
  in_u 64 (CPSEID r) /\ in_u 64 (UPSEID r) /\ in_u 16 (R_PDRID r) /\ in_u 32 (R_FARID r) /\
  in_u 32 (R_LocalTEID r) /\ is_byte (EBI r) /\ is_byte (QCI r) /\ is_byte (R_SourceInterface r) /\
  is_byte (R_DropReason r).
#[export] Instance Report_codec :
  IECodec TypeVectorCoreIdleDownlinkReport (fun r => Some (NewVectorCoreIdleDownlinkReport r))
    VectorCoreIdleDownlinkReportValue Report_valid.
Proof.
  constructor; [|intros ? ?; apply of_type_bind].
  intros [cs us p f lt e q si v d] (? & ? & ? & ? & ? & ? & ? & ? & ?); simpl in *.
  eexists. split; [reflexivity|]. split; [codec_wf|]. split; [reflexivity|].
  transitivity (Ok (mkReport (be_val (be_bytes 8 cs)) (be_val (be_bytes 8 us)) (be_val (be_bytes 2 p))
    (be_val (be_bytes 4 f)) (be_val (be_bytes 4 lt)) e q si v d) : result IEError _).
  - by destruct v.
  - reads_back.
Qed.

Definition v4_valid (a : Addr) : Prop := exists v, a = AddrV4 v /\ in_u 32 v.
Definition FSEID_valid (f : FSEID) : Prop := in_u 64 (FSEID_SEID f) /\ v4_valid (FSEID_IPv4 f).
#[export] Instance FSEID_codec :
  IECodec TypeFSEID (fun f => NewFSEID (FSEID_SEID f) (FSEID_IPv4 f)) FSEIDValue FSEID_valid.
Proof.
  constructor; [|intros ? ?; apply of_type_bind].
  intros [s a] [Hs (v & Ha & Hv)]; simpl in *; subst a.
  eexists. split; [reflexivity|]. split; [codec_wf|]. split; [reflexivity|].
  change (Ok (mkFSEID (be_val (be_bytes 8 s)) (AddrV4 (be_val (be_bytes 4 v))))
    = (Ok (mkFSEID s (AddrV4 v)) : result IEError _)). reads_back.
Qed.

Definition FTEID_valid (f : FTEIDPFCP * bool) : Prop :=
  if f.2 then f.1 = mkFTEIDPFCP 0 AddrZero
  else in_u 32 (FTEID_TEID f.1) /\ v4_valid (FTEID_IPv4 f.1).
Definition NewFTEIDOf (f : FTEIDPFCP * bool) : option IE :=
  if f.2 then Some NewFTEIDChoose else NewFTEIDv4 (FTEID_TEID f.1) (FTEID_IPv4 f.1).
#[export] Instance FTEID_codec : IECodec TypeFTEID NewFTEIDOf FTEIDPFCPValue FTEID_valid.
Proof.
  constructor; [|intros ? ?; apply of_type_bind].
  intros [[t a] [|]]; unfold FTEID_valid; simpl.
  { intros [= -> ->]. eexists. split; [reflexivity|]. split; [codec_wf|done]. }
  intros [Ht (v & Ha & Hv)]; simpl in *; subst a.
  eexists. split; [reflexivity|]. split; [codec_wf|]. split; [reflexivity|].
  change (Ok (mkFTEIDPFCP (be_val (be_bytes 4 t)) (AddrV4 (be_val (be_bytes 4 v))), false)
    = (Ok (mkFTEIDPFCP t (AddrV4 v), false) : result IEError _)). reads_back.
Qed.

Definition OHC_valid (o : OuterHeaderCreation) : Prop :=
  in_u 32 (OHC_TEID o) /\
  if OHC_Description o =? OHCDescGTPUUDPIPv4 then v4_valid (OHC_IPv4 o)
  else in_u 16 (OHC_Description o) /\ OHC_IPv4 o = AddrZero.
#[export] Instance OHC_codec :
  IECodec TypeOuterHeaderCreation
    (fun o => NewOuterHeaderCreation (OHC_Description o) (OHC_TEID o) (OHC_IPv4 o))
    OuterHeaderCreationValue OHC_valid.
Proof.
  constructor; [|intros ? ?; apply of_type_bind].
  intros [d t a] [Ht Hd]; simpl in *. destruct (Z.eqb_spec d OHCDescGTPUUDPIPv4) as [->|Hne].
  - destruct Hd as (v & -> & Hv). eexists. split; [reflexivity|]. split; [codec_wf|].
    split; [reflexivity|].
    change (Ok (mkOHC OHCDescGTPUUDPIPv4 (be_val (be_bytes 4 t)) (AddrV4 (be_val (be_bytes 4 v))))
      = (Ok (mkOHC OHCDescGTPUUDPIPv4 t (AddrV4 v)) : result IEError _)). reads_back.
  - destruct Hd as [Hd ->]. eexists. split; [reflexivity|]. split; [codec_wf|].
    split; [reflexivity|].
    change ((if be_val (be_bytes 2 d) =? OHCDescGTPUUDPIPv4 then Err (TooShort TypeOuterHeaderCreation 6)
       else Ok (mkOHC (be_val (be_bytes 2 d)) (be_val (be_bytes 4 t)) AddrZero))
      = (Ok (mkOHC d t AddrZero) : result IEError _)). reads_back.
    by rewrite (proj2 (Z.eqb_neq _ _) Hne).
Qed.

(** IPv4 identities are carried as [net.IP]: sixteen-byte forms are reduced. *)
Lemma NodeID_roundtrip ip : length ip = 4%nat -> NodeIDIPv4 (NewNodeIDIPv4 ip) = Some ip.
Proof. intros H. by destruct ip as [|? [|? [|? [|? [|]]]]]. Qed.
Lemma RemoteGTPUPeer_roundtrip ip : length ip = 4%nat ->
  RemoteGTPUPeerIPv4 (NewRemoteGTPUPeerIPv4 ip) = Some ip.
Proof. intros H. by destruct ip as [|? [|? [|? [|? [|]]]]]. Qed.

(** An encoded value is found again in the group it was put in. *)
Lemma codec_in_group {A} T (new : A -> option IE) (value : IE -> result IEError A) valid
    `{C : !IECodec T new value valid} g pre a i post :
  valid a -> new a = Some i -> Forall IE_wf pre -> Forall IE_wf post ->
  Forall (fun j => IE_Type j <> T) pre ->
  exists ies j, Children (newGrouped g (pre ++ i :: post)) = Ok ies /\
    Find ies T = Some j /\ value j = Ok a.
Proof.
  intros Ha Hn Hpre Hpost Hne. destruct (codec_encodes a Ha) as (i' & Hn' & Hw & Ht & Hv).
  assert (i' = i) as -> by congruence. exists (pre ++ i :: post), i. split_and!; [|by apply Find_app|done].
  apply Children_newGrouped. apply Forall_app. split; [done|]. by apply Forall_cons.
Qed.

(** ** Properties *)

(** [ParseIEs] is exactly the inverse of [Marshal]: it always returns, and it
    accepts a byte string with a given list of IEs if and only if these are
    well-formed and the string is their concatenated encoding, so no two IE lists
    share an encoding and nothing is dropped or ignored.  [Children] of a grouped IE
    returns the IEs it was built from. *)
Lemma ParseIEs_inverse b ies g :
  bytes_ok b ->
  ParseIEs b <> Err ParseOutOfFuel /\
  (ParseIEs b = Ok ies <-> Forall IE_wf ies /\ flat_map IE_Marshal ies = b) /\
  (Forall IE_wf ies -> Children (newGrouped g ies) = Ok ies).
Proof.
  intros Hb. split; [by apply ParseIEs_loop_total|].
  split; [by apply ParseIEs_exact|apply Children_newGrouped].
Qed.

(** Every value a PFCP message carries survives its coding, alone or anywhere in
    a grouped IE behind IEs of other types: causes, features, identifiers, interfaces,
    time stamps, F-SEIDs, F-TEIDs (static or to be chosen), outer headers, and the two
    private IEs of VectorCore.  The one constructor that can produce an IE its decoder
    rejects is [NewFSEID]: it always sets the V4 flag, so without an address its IE is
    refused as too short. *)
Lemma value_codecs {A} T (new : A -> option IE) (value : IE -> result IEError A) valid :
  (IECodec T new value valid ->
   forall g pre a i post, valid a -> new a = Some i -> Forall IE_wf pre -> Forall IE_wf post ->
   Forall (fun j => IE_Type j <> T) pre ->
   value i = Ok a /\ exists ies j, Children (newGrouped g (pre ++ i :: post)) = Ok ies /\
     Find ies T = Some j /\ value j = Ok a) /\
  IECodec TypeCause (fun c => Some (NewCause c)) CauseValue is_byte /\
  IECodec TypeApplyAction (fun f => Some (NewApplyAction f)) ApplyActionValue is_byte /\
  IECodec TypeUPFunctionFeatures (fun f => Some (NewUPFunctionFeatures f)) UPFunctionFeaturesValue is_byte /\
  IECodec TypeNodeReportType (fun f => Some (NewNodeReportType f)) NodeReportTypeFlags is_byte /\
  IECodec TypePFCPAssocReleaseRequest (fun f => Some (NewPFCPAssocReleaseRequest f))
    PFCPAssocReleaseRequestFlags is_byte /\
  IECodec TypeRecoveryTimeStamp (fun t => Some (NewRecoveryTimeStamp t)) RecoveryTimeStampValue (in_u 32) /\
  IECodec TypePDRID (fun i => Some (NewPDRID i)) PDRIDValue (in_u 16) /\
  IECodec TypeFARID (fun i => Some (NewFARID i)) FARIDValue (in_u 32) /\
  IECodec TypeQERID (fun i => Some (NewQERID i)) QERIDValue (in_u 32) /\
  IECodec TypeSourceInterface (fun f => Some (NewSourceInterface f)) SourceInterfaceValue (in_u 4) /\
  IECodec TypeDestinationInterface (fun f => Some (NewDestinationInterface f))
    DestinationInterfaceValue (in_u 4) /\
  IECodec TypeVectorCoreQoSMarking (fun q => Some (NewVectorCoreQoSMarking q.1.1 q.1.2 q.2))
    VectorCoreQoSMarkingValue QoS_valid /\
  IECodec TypeVectorCoreIdleDownlinkReport (fun r => Some (NewVectorCoreIdleDownlinkReport r))
    VectorCoreIdleDownlinkReportValue Report_valid /\
  IECodec TypeFSEID (fun f => NewFSEID (FSEID_SEID f) (FSEID_IPv4 f)) FSEIDValue FSEID_valid /\
  IECodec TypeFTEID NewFTEIDOf FTEIDPFCPValue FTEID_valid /\
  IECodec TypeOuterHeaderCreation
    (fun o => NewOuterHeaderCreation (OHC_Description o) (OHC_TEID o) (OHC_IPv4 o))
    OuterHeaderCreationValue OHC_valid /\
  (forall ip, length ip = 4%nat -> NodeIDIPv4 (NewNodeIDIPv4 ip) = Some ip /\
     RemoteGTPUPeerIPv4 (NewRemoteGTPUPeerIPv4 ip) = Some ip) /\
  (forall seid, exists i, NewFSEID seid AddrZero = Some i /\
     FSEIDValue i = Err (TooShort TypeFSEID 9)).
Proof.
  split; [|repeat (split; [apply _|]); split].
  - intros HC g pre a i post Ha Hn Hpre Hpost Hne. split; [|by apply (codec_in_group T new value valid g pre a i post)].
    destruct (codec_encodes a Ha) as (i' & Hn' & _ & _ & Hv). congruence.
  - intros ip Hip. by split; [apply NodeID_roundtrip|apply RemoteGTPUPeer_roundtrip].
  - intros seid. eexists. by split.
Qed.
