(* ===== verification/Compiler.v ===== *)
(** * SGW-U rule compiler ([internal/dataplane/bpf/compiler.go], [loader.go])

    The PFCP server hands every session to the compiler, which programs the forwarding
    map of the XDP fast path: one rule per detection rule with a local TEID, keyed by
    TEID and ingress interface.  The kernel maps are finite maps; every map call may fail
    in the kernel, which [faults] decides for the calls made for the [i]-th PDR.  [As4] of
    an address that is not IPv4 is a panic, here [None]. *)

From S2P Require Import Prelude GoLib PfcpIe SgwuStore Gtpu Forwarder.
#[local] Open Scope list_scope.
#[local] Open Scope Z_scope.

(** ** The kernel maps *)

Record RuleKey := mkRuleKey { Teid : Z; Ifindex : Z }.
#[export] Instance RuleKey_eq_dec : EqDecision RuleKey.
Proof. solve_decision. Defined.
#[export] Instance RuleKey_countable : Countable RuleKey.
Proof.
  apply (inj_countable' (fun k => (Teid k, Ifindex k)) (fun p => mkRuleKey p.1 p.2)). by intros [].
Defined.

Record RuleValue := mkRuleValue {
  Action : Z; Ebi : Z; Qci : Z; QosValid : Z; EgressIfindex : Z;
  OuterSrcIp : bytes; OuterDstIp : bytes; NewTeid : Z; CounterId : Z; OuterDscp : Z }.
#[export] Instance RuleValue_eq_dec : EqDecision RuleValue.
Proof. solve_decision. Defined.
#[export] Instance eta_RuleValue : Eta RuleValue := fun v =>
  mkRuleValue (Action v) (Ebi v) (Qci v) (QosValid v) (EgressIfindex v) (OuterSrcIp v)
    (OuterDstIp v) (NewTeid v) (CounterId v) (OuterDscp v).
Definition zeroValue : RuleValue := mkRuleValue 0 0 0 0 0 [0;0;0;0] [0;0;0;0] 0 0 0.

Record XDPDataplane := mkDataplane {
  s1uIfindex : Z; s5uIfindex : Z; fwdMap : gmap RuleKey RuleValue; ruleStats : gset Z }.
#[export] Instance eta_XDPDataplane : Eta XDPDataplane := fun d =>
  mkDataplane (s1uIfindex d) (s5uIfindex d) (fwdMap d) (ruleStats d).

(** Which calls on the kernel maps succeed while one PDR is synchronised. *)
Record Faults := mkFaults { lookup_ok : bool; put_ok : bool; delete_ok : bool; stats_ok : bool }.
Definition no_faults : Faults := mkFaults true true true true.

Inductive CompilerError := UnsupportedSourceInterface (i : Z) | MapLookup | MapPut | MapDelete.

Definition InstallRule (w : Faults) (key : RuleKey) (val : RuleValue) (d : XDPDataplane)
    : option CompilerError * XDPDataplane :=
  if put_ok w then (None, d <| fwdMap := <[key := val]> (fwdMap d) |>) else (Some MapPut, d).
Definition LookupRule (w : Faults) (key : RuleKey) (d : XDPDataplane)
    : result CompilerError (option RuleValue) :=
  if lookup_ok w then Ok (fwdMap d !! key) else Err MapLookup.
Definition RemoveRule (w : Faults) (key : RuleKey) (d : XDPDataplane)
    : option CompilerError * XDPDataplane :=
  if delete_ok w then (None, d <| fwdMap := delete key (fwdMap d) |>) else (Some MapDelete, d).
(** [UpdateNoExist]: an existing entry is kept. *)
Definition InitStats (w : Faults) (counterID : Z) (d : XDPDataplane) : XDPDataplane :=
  if stats_ok w then d <| ruleStats := {[ counterID ]} ∪ ruleStats d |> else d.
Definition RemoveStats (w : Faults) (counterID : Z) (d : XDPDataplane) : XDPDataplane :=
  if stats_ok w then d <| ruleStats := ruleStats d ∖ {[ counterID ]} |> else d.
Definition RuleCount (d : XDPDataplane) : nat := size (fwdMap d).

(** ** The compiler *)

Record QCIMarkingConfig := mkQCIMarking {
  Enabled : bool; OverrideDefaultGTPU : bool; DefaultGTPUDSCP : Z; QCIToDSCP : gmap Z Z }.
Record Compiler := mkCompiler { s1uLocalIP : Addr; s5uLocalIP : Addr; qos : QCIMarkingConfig }.

Definition actionForward : Z := 1.
Definition actionDrop : Z := 2.
Definition actionPunt : Z := 3.
Definition ActionName (action : Z) : string :=
  if action =? actionForward then "FORWARD" else if action =? actionDrop then "DROP"
  else if action =? actionPunt then "PUNT" else ("UNKNOWN(" +:+ Itoa action +:+ ")")%string.
Definition sourceInterfaceDirection (i : Z) : string :=
  if i =? SourceInterfaceAccess then "uplink"
  else if i =? SourceInterfaceCore then "downlink" else "unknown".

Definition buildKey (pdr : PDR) (d : XDPDataplane) : result CompilerError RuleKey :=
  if SourceInterface pdr =? SourceInterfaceAccess then Ok (mkRuleKey (LocalTEID pdr) (s1uIfindex d))
  else if SourceInterface pdr =? SourceInterfaceCore then Ok (mkRuleKey (LocalTEID pdr) (s5uIfindex d))
  else Err (UnsupportedSourceInterface (SourceInterface pdr)).

Definition applyQoSMetadata (c : Compiler) (pdr : PDR) (val : RuleValue) : RuleValue :=
  if negb (Enabled (qos c)) || negb (OverrideDefaultGTPU (qos c)) || negb (pd_QoSValid pdr)
     || (pd_QCI pdr =? 0)
  then val
  else val <| Ebi := pd_EBI pdr |> <| Qci := pd_QCI pdr |> <| QosValid := 1 |>
           <| OuterDscp := default (DefaultGTPUDSCP (qos c)) (QCIToDSCP (qos c) !! pd_QCI pdr) |>.

(** The source address and egress interface, by the side the packet comes from. *)
Definition set_egress (c : Compiler) (pdr : PDR) (d : XDPDataplane) (val : RuleValue) : option RuleValue :=
  if SourceInterface pdr =? SourceInterfaceAccess then
    srcIP ← As4 (s5uLocalIP c);
    Some (val <| OuterSrcIp := srcIP |> <| EgressIfindex := s5uIfindex d |>)
  else if SourceInterface pdr =? SourceInterfaceCore then
    srcIP ← As4 (s1uLocalIP c);
    Some (val <| OuterSrcIp := srcIP |> <| EgressIfindex := s1uIfindex d |>)
  else Some val.

Definition buildValue (c : Compiler) (pdr : PDR) (far : FAR) (d : XDPDataplane) : option RuleValue :=
  let val := zeroValue <| CounterId := LocalTEID pdr |> in
  if negb (Z.land (ApplyAction far) ApplyActionFORW =? 0) then
    if negb (IsValid (OuterIP far)) then Some (val <| Action := actionPunt |>)
    else
      dstIP ← As4 (OuterIP far);
      val' ← set_egress c pdr d
        (val <| Action := actionForward |> <| OuterDstIp := dstIP |> <| NewTeid := OuterTEID far |>);
      Some (applyQoSMetadata c pdr val')
  else if negb (Z.land (ApplyAction far) ApplyActionDROP =? 0) then
    Some (val <| Action := if (SourceInterface pdr =? SourceInterfaceCore)
                              && String.eqb (fa_DropReason far) DropReasonReleaseAccessBearers
                           then actionPunt else actionDrop |>)
  else Some (val <| Action := actionPunt |>).

Record Counts := mkCounts { added : nat; updated : nat; removed : nat; unchanged : nat }.
Definition no_counts : Counts := mkCounts 0 0 0 0.
Definition plus (a b : Counts) : Counts :=
  mkCounts (added a + added b) (updated a + updated b) (removed a + removed b)
    (unchanged a + unchanged b).

(** What synchronising one PDR yields; [None] is a panic. *)
Definition outcome : Type := option CompilerError * Counts * XDPDataplane.

Definition installRuleIfChanged (w : Faults) (key : RuleKey) (val : RuleValue) (d : XDPDataplane)
    : outcome :=
  match LookupRule w key d with
  | Err e => (Some e, no_counts, d)
  | Ok current =>
      if bool_decide (current = Some val) then (None, mkCounts 0 0 0 1, d)
      else
        match InstallRule w key val d with
        | (Some e, d) => (Some e, no_counts, d)
        | (None, d) =>
            (None, if current then mkCounts 0 1 0 0 else mkCounts 1 0 0 0, d)
        end
  end.

Definition remove_pdr (w : Faults) (key : RuleKey) (pdr : PDR) (d : XDPDataplane) : outcome :=
  match LookupRule w key d with
  | Err e => (Some e, no_counts, d)
  | Ok current =>
      let '(err, d) := RemoveRule w key d in
      let cnt := match err, current with
                 | Some _, _ => no_counts
                 | None, Some _ => mkCounts 0 0 1 0
                 | None, None => mkCounts 0 0 0 1
                 end in
      (err, cnt, RemoveStats w (LocalTEID pdr) d)
  end.

Definition install_pdr (w : Faults) (c : Compiler) (farByID : gmap Z FAR) (key : RuleKey) (pdr : PDR)
    (d : XDPDataplane) : option outcome :=
  match farByID !! pd_FARID pdr with
  | None =>
      Some (installRuleIfChanged w key
              (zeroValue <| Action := actionDrop |> <| CounterId := LocalTEID pdr |>) d)
  | Some far =>
      val ← buildValue c pdr far d;
      let d := if Action val =? actionForward then InitStats w (CounterId val) d else d in
      Some (installRuleIfChanged w key val d)
  end.

Definition sync_pdr (w : Faults) (c : Compiler) (farByID : gmap Z FAR) (remove : bool) (pdr : PDR)
    (d : XDPDataplane) : option outcome :=
  if LocalTEID pdr =? 0 then Some (None, no_counts, d)
  else
    match buildKey pdr d with
    | Err e => Some (Some e, no_counts, d)
    | Ok key => if remove then Some (remove_pdr w key pdr d) else install_pdr w c farByID key pdr d
    end.

Fixpoint sync_loop (faults : nat -> Faults) (c : Compiler) (farByID : gmap Z FAR) (remove : bool)
    (i : nat) (pdrs : list PDR) (d : XDPDataplane) : option outcome :=
  match pdrs with
  | [] => Some (None, no_counts, d)
  | pdr :: pdrs =>
      match sync_pdr (faults i) c farByID remove pdr d with
      | None => None
      | Some (err, cnt, d) =>
          match sync_loop faults c farByID remove (S i) pdrs d with
          | None => None
          | Some (err', cnt', d) => Some (if err then err else err', plus cnt cnt', d)
          end
      end
  end.

(** [farByID[fars[i].ID] = &fars[i]]: the last rule with an ID wins. *)
Definition far_by_id (fars : list FAR) : gmap Z FAR :=
  fold_left (fun m f => <[fa_ID f := f]> m) fars ∅.

Definition syncRules (faults : nat -> Faults) (c : Compiler) (sess : Session) (remove : bool)
    (d : XDPDataplane) : option outcome :=
  sync_loop faults c (far_by_id (FARs sess)) remove 0 (PDRs sess) d.

Definition InstallSession (faults : nat -> Faults) (c : Compiler) (sess : Session) (d : XDPDataplane)
    : option outcome := syncRules faults c sess false d.
Definition UpdateSession (faults : nat -> Faults) (c : Compiler) (sess : Session) (d : XDPDataplane)
    : option outcome := syncRules faults c sess false d.
Definition RemoveSession (faults : nat -> Faults) (c : Compiler) (sess : Session) (d : XDPDataplane)
    : option outcome := syncRules faults c sess true d.

(** ** What the map holds for a session *)

(** What one detection rule compiles to. *)
Definition rule_for (c : Compiler) (d : XDPDataplane) (fars : list FAR) (p : PDR) : option RuleValue :=
  match far_by_id fars !! pd_FARID p with
  | None => Some (zeroValue <| Action := actionDrop |> <| CounterId := LocalTEID p |>)
  | Some far => buildValue c p far d
  end.
Definition key_of (d : XDPDataplane) (p : PDR) : option RuleKey :=
  if LocalTEID p =? 0 then None
  else match buildKey p d with Ok k => Some k | Err _ => None end.
Definition keys (d : XDPDataplane) (pdrs : list PDR) : list RuleKey := omap (key_of d) pdrs.

(** The kernel program's decision on a G-PDU, given the entry under its TEID and
    ingress interface. *)
Inductive verdict := Relay (dst : bytes) (teid : Z) | Discard | ToUserspace.
Definition xdp_verdict (v : option RuleValue) : verdict :=
  match v with
  | None => ToUserspace
  | Some v =>
      if Action v =? actionDrop then Discard
      else if negb (Action v =? actionForward) then ToUserspace
      else Relay (OuterDstIp v) (NewTeid v)
  end.

(** ** Lemmas *)

Definition same_ifaces (d d' : XDPDataplane) : Prop :=
  s1uIfindex d = s1uIfindex d' /\ s5uIfindex d = s5uIfindex d'.
#[export] Instance same_ifaces_equiv : Equivalence same_ifaces.
Proof.
  split; [by intros d|by intros d d' []|]. intros d1 d2 d3 [] []. split; congruence.
Qed.

Lemma buildKey_ifaces p d d' : same_ifaces d d' -> buildKey p d = buildKey p d'.
Proof. intros [E1 E2]. unfold buildKey. by rewrite E1, E2. Qed.
Lemma key_of_ifaces p d d' : same_ifaces d d' -> key_of d p = key_of d' p.
Proof. intros H. unfold key_of. by rewrite (buildKey_ifaces p d d'). Qed.
Lemma keys_ifaces pdrs d d' : same_ifaces d d' -> keys d pdrs = keys d' pdrs.
Proof. intros H. apply list_omap_ext, Forall_Forall2_diag, Forall_true. intros p. by apply key_of_ifaces. Qed.
Lemma buildValue_ifaces c p far d d' : same_ifaces d d' -> buildValue c p far d = buildValue c p far d'.
Proof. intros [E1 E2]. unfold buildValue, set_egress. by rewrite E1, E2. Qed.
Lemma rule_for_ifaces c p fars d d' : same_ifaces d d' -> rule_for c d fars p = rule_for c d' fars p.
Proof. intros H. unfold rule_for. case_match; [|done]. by apply buildValue_ifaces. Qed.

Lemma far_by_id_spec fars id :
  far_by_id fars !! id = last (filter (fun f => fa_ID f = id) fars).
Proof.
  unfold far_by_id. induction fars as [|f fars IH] using rev_ind; [done|].
  rewrite fold_left_app. cbn. rewrite filter_app, filter_cons, filter_nil.
  destruct (decide (fa_ID f = id)) as [<-|Hne].
  - by rewrite lookup_insert_eq, last_snoc.
  - by rewrite lookup_insert_ne, app_nil_r.
Qed.

Lemma far_by_id_find fars id : NoDup (fa_ID <$> fars) -> far_by_id fars !! id = find_far id fars.
Proof.
  rewrite far_by_id_spec. unfold find_far. intros Hn.
  destruct (filter (fun f => fa_ID f = id) fars) as [|f [|f' l]] eqn:E; [done|done|]. exfalso.
  assert (Hs : sublist [f; f'] fars).
  { transitivity (filter (fun f => fa_ID f = id) fars); [rewrite E|apply sublist_filter].
    do 2 constructor. apply sublist_nil_l. }
  assert (Hid : forall g, g ∈ [f; f'] -> fa_ID g = id).
  { intros g Hg. assert (g ∈ filter (fun f => fa_ID f = id) fars) as [? _]%list_elem_of_filter; [|done].
    rewrite E. set_solver. }
  apply (fmap_sublist fa_ID) in Hs. apply (sublist_NoDup _ _ Hn) in Hs as Hn2. clear Hn. rename Hn2 into Hn. cbn in Hn.
  rewrite (Hid f), (Hid f') in Hn by set_solver. apply NoDup_cons in Hn as [Hn _]. set_solver.
Qed.

(** One PDR. *)
Lemma installRuleIfChanged_spec w k v d err cnt d' :
  installRuleIfChanged w k v d = (err, cnt, d') ->
  same_ifaces d d' /\
  (err = None /\ fwdMap d' = <[k := v]> (fwdMap d) \/ err <> None /\ fwdMap d' = fwdMap d) /\
  (w = no_faults -> err = None).
Proof.
  unfold installRuleIfChanged, LookupRule, InstallRule.
  destruct (lookup_ok w) eqn:El; [|intros; simplify_eq; by split_and!; [|right|intros ->]].
  case_bool_decide as Hb; [|].
  { intros. simplify_eq. split; [done|]. split; [|done]. left. split; [done|]. by rewrite insert_id. }
  destruct (put_ok w) eqn:Ep; intros; simplify_eq; split_and!; try done.
  - by left.
  - by right.
  - by intros ->.
Qed.

Lemma sync_pdr_install w c fars p d v :
  (LocalTEID p <> 0 -> rule_for c d fars p = Some v) ->
  exists err cnt d', sync_pdr w c (far_by_id fars) false p d = Some (err, cnt, d') /\
    same_ifaces d d' /\
    match key_of d p with
    | Some k => err = None /\ fwdMap d' = <[k := v]> (fwdMap d) \/ err <> None /\ fwdMap d' = fwdMap d
    | None => fwdMap d' = fwdMap d /\ (err = None <-> LocalTEID p = 0)
    end /\
    (w = no_faults -> is_Some (key_of d p) -> err = None).
Proof.
  unfold key_of, sync_pdr. intros Hv. destruct (Z.eqb_spec (LocalTEID p) 0) as [E|Hne].
  { by exists None, no_counts, d. }
  specialize (Hv Hne).
  destruct (buildKey p d) as [k|e] eqn:Ek.
  2: { exists (Some e), no_counts, d. by split_and!. }
  unfold install_pdr. unfold rule_for in Hv.
  destruct (far_by_id fars !! pd_FARID p) as [far|].
  - rewrite Hv. cbn.
    set (d0 := if Action v =? actionForward then InitStats w (CounterId v) d else d).
    assert (same_ifaces d d0 /\ fwdMap d0 = fwdMap d) as [Hi Hm].
    { unfold d0, InitStats. by destruct (Action v =? _), (stats_ok w). }
    destruct (installRuleIfChanged w k v d0) as [[err cnt] d'] eqn:E.
    apply installRuleIfChanged_spec in E as (Hi' & Hc & Hn). rewrite Hm in Hc.
    exists err, cnt, d'. split; [done|]. split; [by etransitivity|]. split; [done|]. intros Hw _. auto.
  - simplify_eq. match goal with |- context [installRuleIfChanged w k ?v d] =>
      destruct (installRuleIfChanged w k v d) as [[err cnt] d'] eqn:E end.
    apply installRuleIfChanged_spec in E as (Hi' & Hc & Hn).
    exists err, cnt, d'. split; [done|]. split; [done|]. split; [done|]. intros Hw _. auto.
Qed.

Lemma sync_pdr_remove w c m p d :
  exists err cnt d', sync_pdr w c m true p d = Some (err, cnt, d') /\ same_ifaces d d' /\
    match key_of d p with
    | Some k => err = None /\ fwdMap d' = delete k (fwdMap d) \/ err <> None /\ fwdMap d' = fwdMap d
    | None => fwdMap d' = fwdMap d /\ (err = None <-> LocalTEID p = 0)
    end /\
    (w = no_faults -> is_Some (key_of d p) -> err = None).
Proof.
  unfold key_of, sync_pdr. destruct (Z.eqb_spec (LocalTEID p) 0) as [E|Hne].
  { by exists None, no_counts, d. }
  destruct (buildKey p d) as [k|e] eqn:Ek.
  2: { exists (Some e), no_counts, d. by split_and!. }
  unfold remove_pdr, LookupRule, RemoveRule, RemoveStats.
  destruct (lookup_ok w) eqn:El.
  2: { exists (Some MapLookup), no_counts, d. split_and!; try done; [by right|by intros ->]. }
  destruct (delete_ok w) eqn:Ed, (stats_ok w) eqn:Es; (eexists _, _, _; split; [reflexivity|]);
    (split; [done|]); (split; [by first [left; done|right; done]|]); intros -> _; done.
Qed.

(** The rules of a session compile without a panic. *)
Definition compiles (c : Compiler) (d : XDPDataplane) (sess : Session) : Prop :=
  forall p, p ∈ PDRs sess -> LocalTEID p <> 0 -> is_Some (rule_for c d (FARs sess) p).

Definition all_supported (d : XDPDataplane) (pdrs : list PDR) : Prop :=
  forall p, p ∈ pdrs -> LocalTEID p <> 0 -> is_Some (key_of d p).

Lemma sync_loop_install faults c fars i pdrs d :
  (forall p, p ∈ pdrs -> LocalTEID p <> 0 -> is_Some (rule_for c d fars p)) ->
  NoDup (keys d pdrs) ->
  exists err cnt d', sync_loop faults c (far_by_id fars) false i pdrs d = Some (err, cnt, d') /\
    same_ifaces d d' /\
    (forall k, k ∉ keys d pdrs -> fwdMap d' !! k = fwdMap d !! k) /\
    (forall p k, p ∈ pdrs -> key_of d p = Some k ->
       fwdMap d' !! k = rule_for c d fars p \/ err <> None /\ fwdMap d' !! k = fwdMap d !! k) /\
    (err = None -> all_supported d pdrs) /\
    ((forall j, faults j = no_faults) -> all_supported d pdrs -> err = None).
Proof.
  revert i d. induction pdrs as [|p pdrs IH]; intros i d Hr Hn.
  { exists None, no_counts, d. split_and!; try done; by set_solver. }
  assert (exists v, LocalTEID p <> 0 -> rule_for c d fars p = Some v) as [v Hv].
  { destruct (decide (LocalTEID p = 0)); [by exists zeroValue|].
    destruct (Hr p) as [v Hv]; [by left|done|]. by exists v. }
  destruct (sync_pdr_install (faults i) c fars p d v Hv) as (err & cnt & d1 & E1 & Hi & Hk & Hnf).
  cbn [sync_loop]. rewrite E1.
  assert (Hkeys : keys d (p :: pdrs) = match key_of d p with Some k => k :: keys d pdrs | None => keys d pdrs end)
    by done.
  rewrite Hkeys in *.
  assert (Hn1 : NoDup (keys d1 pdrs)).
  { rewrite <- (keys_ifaces _ d d1 Hi). destruct (key_of d p); [by apply NoDup_cons in Hn as [_ ?]|done]. }
  destruct (IH (S i) d1) as (err' & cnt' & d2 & E2 & Hi2 & Hout & Hin & Hsup & Hok); [|done|].
  { intros q Hq Hqt. rewrite <- (rule_for_ifaces c q fars d d1 Hi). apply Hr; [by right|done]. }
  rewrite <- (keys_ifaces _ d d1 Hi) in Hout. rewrite E2.
  exists (if err then err else err'), (plus cnt cnt'), d2.
  split; [done|]. split; [by etransitivity|].
  assert (Hall : forall q, q ∈ pdrs -> key_of d1 q = key_of d q)
    by (intros; by rewrite (key_of_ifaces q d d1)).
  split; [|split; [|split]].
  - intros k Hk'. rewrite Hout by (destruct (key_of d p); set_solver).
    destruct (key_of d p) as [k0|]; [|by destruct Hk as [-> _]].
    destruct Hk as [[_ ->]|[_ ->]]; [|done]. rewrite lookup_insert_ne; [done|set_solver].
  - intros q k [->|Hq]%elem_of_cons Hqk.
    + rewrite Hqk in *. apply NoDup_cons in Hn as [Hnot _]. rewrite (Hout k Hnot).
      assert (LocalTEID p <> 0) as Ht.
      { unfold key_of in Hqk. by destruct (Z.eqb_spec (LocalTEID p) 0). }
      destruct Hk as [[-> ->]|[Hne ->]]; [left; rewrite Hv by done; apply lookup_insert_eq|right].
      split; [by destruct err|done].
    + rewrite <- (Hall q Hq) in Hqk. destruct (Hin q k Hq Hqk) as [Hq'|[Hne Hq']].
      * left. rewrite Hq'. by rewrite (rule_for_ifaces c q fars d d1 Hi).
      * right. split; [by destruct err|]. rewrite Hq'.
        destruct (key_of d p) as [k0|]; [|by destruct Hk as [-> _]].
        destruct Hk as [[_ ->]|[_ ->]]; [|done]. apply lookup_insert_ne. intros ->.
        apply NoDup_cons in Hn as [Hnot _]. apply Hnot. apply list_elem_of_omap. exists q.
        split; [done|]. by rewrite <- (Hall q Hq).
  - intros He q [->|Hq]%elem_of_cons Ht.
    + destruct (key_of d p); [by eexists|]. destruct Hk as [_ Hk]. destruct err; [done|].
      by destruct Ht; apply Hk.
    + rewrite <- (Hall q Hq). apply Hsup; [|done|done]. by destruct err.
  - intros Hf Hs. assert (err = None) as ->.
    { destruct (decide (LocalTEID p = 0)) as [E|Hne].
      - destruct (key_of d p) as [k0|] eqn:Ekp; [|by apply Hk]. unfold key_of in Ekp. rewrite E in Ekp. done.
      - apply Hnf; [done|]. apply Hs; [by left|done]. }
    apply Hok; [done|]. intros q Hq Ht. rewrite (Hall q Hq). apply Hs; [by right|done].
Qed.

Lemma sync_loop_remove faults c m i pdrs d :
  exists err cnt d', sync_loop faults c m true i pdrs d = Some (err, cnt, d') /\ same_ifaces d d' /\
    (forall k, k ∉ keys d pdrs -> fwdMap d' !! k = fwdMap d !! k) /\
    (forall k, k ∈ keys d pdrs -> fwdMap d' !! k = None \/ err <> None /\ fwdMap d' !! k = fwdMap d !! k) /\
    ((forall j, faults j = no_faults) -> all_supported d pdrs -> err = None).
Proof.
  revert i d. induction pdrs as [|p pdrs IH]; intros i d.
  { exists None, no_counts, d. split_and!; try done; by set_solver. }
  destruct (sync_pdr_remove (faults i) c m p d) as (err & cnt & d1 & E1 & Hi & Hk & Hnf).
  destruct (IH (S i) d1) as (err' & cnt' & d2 & E2 & Hi2 & Hout & Hin & Hok).
  rewrite <- (keys_ifaces _ d d1 Hi) in Hout, Hin. cbn [sync_loop]. rewrite E1, E2.
  assert (Hkeys : keys d (p :: pdrs) = match key_of d p with Some k => k :: keys d pdrs | None => keys d pdrs end)
    by done. rewrite Hkeys.
  assert (Hsome : forall k, fwdMap d1 !! k = fwdMap d !! k \/ fwdMap d1 !! k = None /\ key_of d p = Some k).
  { intros k. destruct (key_of d p) as [k0|]; [|left; by destruct Hk as [-> _]].
    destruct Hk as [[_ ->]|[_ ->]]; [|by left]. destruct (decide (k = k0)) as [->|Hne].
    - right. by rewrite lookup_delete_eq.
    - left. by rewrite lookup_delete_ne. }
  exists (if err then err else err'), (plus cnt cnt'), d2.
  split; [done|]. split; [by etransitivity|]. split; [|split].
  - intros k Hnot. rewrite Hout by (destruct (key_of d p); set_solver).
    destruct (Hsome k) as [?|[_ E]]; [done|]. rewrite E in Hnot. set_solver.
  - intros k Hin'. destruct (decide (k ∈ keys d pdrs)) as [Hkp|Hkp].
    + destruct (Hin k Hkp) as [?|[He Hl]]; [by left|]. destruct (Hsome k) as [E|[E _]].
      * right. split; [by destruct err|congruence].
      * left. congruence.
    + rewrite (Hout k Hkp). destruct (key_of d p) as [k0|] eqn:Ek; [|done].
      assert (k = k0) as -> by set_solver.
      destruct Hk as [[-> ->]|[Hne ->]]; [left; apply lookup_delete_eq|right].
      split; [by destruct err|done].
  - intros Hf Hs. assert (err = None) as ->.
    { destruct (decide (LocalTEID p = 0)) as [E|Hne].
      - destruct (key_of d p) as [k0|] eqn:Ekp; [|by apply Hk]. unfold key_of in Ekp. by rewrite E in Ekp.
      - apply Hnf; [done|]. apply Hs; [by left|done]. }
    apply Hok; [done|]. intros q Hq Ht. rewrite <- (key_of_ifaces q d d1 Hi). apply Hs; [by right|done].
Qed.

Lemma set_egress_fields c p d v v' : set_egress c p d v = Some v' ->
  Action v' = Action v /\ OuterDstIp v' = OuterDstIp v /\ NewTeid v' = NewTeid v.
Proof.
  unfold set_egress. destruct (_ =? SourceInterfaceAccess); [destruct (As4 (s5uLocalIP c)); cbn; intros; by simplify_eq|].
  destruct (_ =? SourceInterfaceCore); [destruct (As4 (s1uLocalIP c)); cbn; intros; by simplify_eq|].
  by intros [= ->].
Qed.
Lemma applyQoS_fields c p v :
  Action (applyQoSMetadata c p v) = Action v /\ OuterDstIp (applyQoSMetadata c p v) = OuterDstIp v /\
  NewTeid (applyQoSMetadata c p v) = NewTeid v.
Proof. unfold applyQoSMetadata. by case_match. Qed.

(** The verdict a compiled rule stands for. *)
Lemma buildValue_verdict c p far d v : buildValue c p far d = Some v ->
  xdp_verdict (Some v) =
    if forwards far then
      match OuterIP far with
      | AddrZero => ToUserspace
      | a => match As4 a with Some dst => Relay dst (OuterTEID far) | None => ToUserspace end
      end
    else if negb (Z.land (ApplyAction far) ApplyActionDROP =? 0) then
      if (SourceInterface p =? SourceInterfaceCore)
         && String.eqb (fa_DropReason far) DropReasonReleaseAccessBearers
      then ToUserspace else Discard
    else ToUserspace.
Proof.
  unfold buildValue, forwards. change applyActionFORW with ApplyActionFORW.
  destruct (negb (Z.land (ApplyAction far) ApplyActionFORW =? 0)).
  - destruct (IsValid (OuterIP far)) eqn:Ev; cbn [negb].
    + destruct (As4 (OuterIP far)) as [dst|] eqn:E4; [|done]. cbn [mbind option_bind].
      destruct (set_egress _ _ _ _) as [v'|] eqn:Es; [|done]. cbn. intros [= <-].
      apply set_egress_fields in Es as (Ha & Hd & Ht).
      destruct (applyQoS_fields c p v') as (Ha' & Hd' & Ht').
      unfold xdp_verdict. rewrite Ha', Hd', Ht', Ha, Hd, Ht. revert Ev E4. destruct (OuterIP far); cbn; [done|by intros _ [= ->]|by intros _ ->].
    + intros [= <-]. by destruct (OuterIP far).
  - destruct (negb (Z.land (ApplyAction far) ApplyActionDROP =? 0)); intros [= <-]; [|done].
    cbn. by destruct (_ && _).
Qed.

Lemma buildValue_As4 c p far d v : buildValue c p far d = Some v ->
  forwards far = true -> IsValid (OuterIP far) = true -> As4 (OuterIP far) <> None.
Proof.
  unfold buildValue, forwards. change applyActionFORW with ApplyActionFORW. intros H Hf Hv.
  rewrite Hf, Hv in H. by destruct (As4 (OuterIP far)).
Qed.

(** ** Example data *)

Definition example_compiler : Compiler :=
  mkCompiler (AddrV4 0x0A000009) (AddrV4 0x0A00000A) (mkQCIMarking true true 0 ∅).
Definition example_dataplane : XDPDataplane := mkDataplane 3 4 ∅ ∅.
Definition example_core_pdr : PDR := mkPDR 2 100 1 0x1001 (AddrV4 0x0A00000A) 1 5 9 true.
Definition example_two : Session :=
  mkSession 7 1 "ipv4:a" [example_pdr 0x1000; example_core_pdr] [example_far].
Definition example_one : Session := mkSession 7 1 "ipv4:a" [example_core_pdr] [example_far].
Definition example_key : RuleKey := mkRuleKey 0x1000 3.
Definition example_rule : RuleValue :=
  mkRuleValue actionForward 5 9 1 4 [10; 0; 0; 10] [10; 0; 0; 2] 0x55 0x1000 0.

Lemma example_compiles sess : sess = example_two \/ sess = example_one ->
  compiles example_compiler example_dataplane sess.
Proof.
  intros [->| ->] p Hp _; repeat (apply elem_of_cons in Hp as [->|Hp]; [by eexists; vm_compute|]); set_solver.
Qed.
Lemma example_supported : all_supported example_dataplane (PDRs example_two).
Proof.
  intros p Hp _; repeat (apply elem_of_cons in Hp as [->|Hp]; [by eexists; vm_compute|]); set_solver.
Qed.

(** ** Properties *)



(** Rules outlive the detection rules they were compiled from.  An update programs the
    rules of the new session and removes none, and deletion removes the rules of the
    session as it is then: the rule of a detection rule that a modification took out, or
    whose TEID it changed, stays in the map for good, even when no map call fails. *)
Lemma stale_rules c sess sess' d p k :
  compiles c d sess -> compiles c d sess' ->
  NoDup (keys d (PDRs sess)) -> NoDup (keys d (PDRs sess')) ->
  all_supported d (PDRs sess) ->
  p ∈ PDRs sess -> key_of d p = Some k -> k ∉ keys d (PDRs sess') ->
  exists cnt1 d1 err2 cnt2 d2 err3 cnt3 d3,
    InstallSession (fun _ => no_faults) c sess d = Some (None, cnt1, d1) /\
    UpdateSession (fun _ => no_faults) c sess' d1 = Some (err2, cnt2, d2) /\
    RemoveSession (fun _ => no_faults) c sess' d2 = Some (err3, cnt3, d3) /\
    is_Some (fwdMap d3 !! k) /\ fwdMap d3 !! k = rule_for c d (FARs sess) p.
Proof.
  intros Hc Hc' Hn Hn' Hs Hp Hk Hnot.
  destruct (sync_loop_install (fun _ => no_faults) c (FARs sess) 0 (PDRs sess) d Hc Hn)
    as (err1 & cnt1 & d1 & E1 & Hi1 & _ & Hin1 & _ & Hok1).
  rewrite (Hok1 ltac:(done) Hs) in *.
  assert (Hc1 : forall q, q ∈ PDRs sess' -> LocalTEID q <> 0 -> is_Some (rule_for c d1 (FARs sess') q))
    by (intros q Hq Ht; rewrite <- (rule_for_ifaces c q (FARs sess') d d1 Hi1); by apply Hc').
  assert (Hn1 : NoDup (keys d1 (PDRs sess'))) by (by rewrite <- (keys_ifaces _ d d1 Hi1)).
  destruct (sync_loop_install (fun _ => no_faults) c (FARs sess') 0 (PDRs sess') d1 Hc1 Hn1)
    as (err2 & cnt2 & d2 & E2 & Hi2 & Hout2 & _).
  destruct (sync_loop_remove (fun _ => no_faults) c (far_by_id (FARs sess')) 0 (PDRs sess') d2)
    as (err3 & cnt3 & d3 & E3 & _ & Hout3 & _).
  exists cnt1, d1, err2, cnt2, d2, err3, cnt3, d3. split; [done|]. split; [done|]. split; [done|].
  rewrite Hout3 by (rewrite <- (keys_ifaces _ d1 d2 Hi2), <- (keys_ifaces _ d d1 Hi1); done).
  rewrite Hout2 by (rewrite <- (keys_ifaces _ d d1 Hi1); done).
  destruct (Hin1 p k Hp Hk) as [->|[? _]]; [|done]. split; [|done]. apply Hc; [done|].
  unfold key_of in Hk. by destruct (Z.eqb_spec (LocalTEID p) 0).
Qed.


