(* ===== verification/PfcpMessage.v ===== *)
(** * PFCP messages ([internal/pfcp/message/message.go])

    The node-level and session-level headers, [Marshal] and [Parse], and the sixteen
    typed messages with their parsers.  Each [Parse<Message>] is the source's: the
    level and type checks, the loop over the IEs as a fold whose step is the [switch]
    (a repeated single IE overwrites, a repeated list IE appends), then the presence
    checks in the order of the code.  A missing IE pointer is [None]. *)

From S2P Require Import Prelude GoLib PfcpIe.

Definition MsgTypeHeartbeatRequest : Z := 1.
Definition MsgTypeHeartbeatResponse : Z := 2.
Definition MsgTypeAssociationSetupRequest : Z := 5.
Definition MsgTypeAssociationSetupResponse : Z := 6.
Definition MsgTypeAssociationReleaseRequest : Z := 9.
Definition MsgTypeAssociationReleaseResponse : Z := 10.
Definition MsgTypeNodeReportRequest : Z := 12.
Definition MsgTypeNodeReportResponse : Z := 13.
Definition MsgTypeSessionEstablishmentRequest : Z := 50.
Definition MsgTypeSessionEstablishmentResponse : Z := 51.
Definition MsgTypeSessionModificationRequest : Z := 52.
Definition MsgTypeSessionModificationResponse : Z := 53.
Definition MsgTypeSessionDeletionRequest : Z := 54.
Definition MsgTypeSessionDeletionResponse : Z := 55.
Definition MsgTypeSessionReportRequest : Z := 56.
Definition MsgTypeSessionReportResponse : Z := 57.

Definition pfcpVersion : Z := 1.
Definition headerLenNodeLevel : nat := 8.
Definition headerLenSessionLevel : nat := 16.

Record Header := mkHeader {
  Version : Z; HasSEID : bool; MessageType : Z; Length : Z; SEID : Z; SequenceNumber : Z }.
#[export] Instance eta_Header : Eta Header := fun h =>
  mkHeader (Version h) (HasSEID h) (MessageType h) (Length h) (SEID h) (SequenceNumber h).
#[export] Instance Header_eq_dec : EqDecision Header.
Proof. solve_decision. Defined.

Inductive MessageError : Type :=
| HeaderTooShort (have : nat)
| UnsupportedVersion (v : Z)
| HeaderWithSEIDTooShort (have : nat)
| LengthTooSmall (len : Z)
| MessageTruncated (declared have : nat)
| IEParse (e : IEError)
| WrongLevel (session : bool)
| WrongMessageType (typ want : Z)
| SEIDNotZero (seid : Z)
| MissingIE (typ : Z).

(** ** Header and message *)

Definition parse_fields (b : bytes) (hasSEID : bool) : Header :=
  if hasSEID then
    mkHeader pfcpVersion true (nth 1 b 0) (be_val (slice 2 4 b)) (be_val (slice 4 12 b))
      (be_val (slice 12 15 b))
  else
    mkHeader pfcpVersion false (nth 1 b 0) (be_val (slice 2 4 b)) 0 (be_val (slice 4 7 b)).

Definition ParseHeader (b : bytes) : result MessageError (Header * bytes) :=
  let? _ := guard (bool_decide (headerLenNodeLevel <= length b)%nat) (HeaderTooShort (length b)) in
  let version := Z.land (Z.shiftr (nth 0 b 0) 5) 0x07 in
  let? _ := guard (version =? pfcpVersion) (UnsupportedVersion version) in
  let hasSEID := flag (nth 0 b 0) 0x01 in
  let? _ := guard (negb hasSEID || bool_decide (headerLenSessionLevel <= length b)%nat)
              (HeaderWithSEIDTooShort (length b)) in
  let h := parse_fields b hasSEID in
  let bodyStart := if hasSEID then headerLenSessionLevel else headerLenNodeLevel in
  let declaredTotal := (4 + Z.to_nat (Length h))%nat in
  let? _ := guard (bool_decide (bodyStart <= declaredTotal)%nat) (LengthTooSmall (Length h)) in
  let? _ := guard (bool_decide (declaredTotal <= length b)%nat)
              (MessageTruncated declaredTotal (length b)) in
  Ok (h, slice bodyStart declaredTotal b).

Definition MarshalHeader (h : Header) (bodyLen : nat) : bytes :=
  [Z.shiftl pfcpVersion 5; MessageType h]
  ++ be_bytes 2 (u16 (Z.of_nat headerLenNodeLevel - 4 + Z.of_nat bodyLen))
  ++ be_bytes 3 (SequenceNumber h) ++ [0].

Definition MarshalSessionHeader (h : Header) (bodyLen : nat) : bytes :=
  [Z.lor (Z.shiftl pfcpVersion 5) 0x01; MessageType h]
  ++ be_bytes 2 (u16 (Z.of_nat headerLenSessionLevel - 4 + Z.of_nat bodyLen))
  ++ be_bytes 8 (SEID h) ++ be_bytes 3 (SequenceNumber h) ++ [0].

Definition Marshal (h : Header) (ies : list IE) : bytes :=
  let body := flat_map IE_Marshal ies in
  let hdr := if HasSEID h then MarshalSessionHeader h (length body)
             else MarshalHeader h (length body) in
  hdr ++ body.

Definition Parse (b : bytes) : result MessageError (Header * list IE) :=
  let? (h, body) := ParseHeader b in
  match ParseIEs body with
  | Ok ies => Ok (h, ies)
  | Err e => Err (IEParse e)
  end.

(** ** The checks the typed parsers share *)

Definition level (session : bool) (h : Header) : result MessageError unit :=
  guard (Bool.eqb (HasSEID h) session) (WrongLevel (HasSEID h)).
Definition of_message (want : Z) (h : Header) : result MessageError unit :=
  guard (MessageType h =? want) (WrongMessageType (MessageType h) want).
Definition present (typ : Z) (i : option IE) : result MessageError unit :=
  guard (bool_decide (is_Some i)) (MissingIE typ).
Definition nonempty (typ : Z) (l : list IE) : result MessageError unit :=
  guard (bool_decide (l <> [])) (MissingIE typ).

(** [causeVal, _ := resp.Cause.CauseValue(); causeVal == CauseRequestAccepted]: an
    undecodable cause reads as zero. *)
Definition cause_accepted (cause : option IE) : bool :=
  match cause with
  | Some i => match CauseValue i with Ok v => v =? CauseRequestAccepted | Err _ => false end
  | None => false
  end.
Definition reports_path_failure (typ : option IE) : bool :=
  match typ with
  | Some i => match NodeReportTypeFlags i with Ok f => flag f NodeReportTypeUPFR | Err _ => false end
  | None => false
  end.

(** ** The typed messages *)

Record AssociationSetupRequest := mkASReq {
  ASReq_Header : Header; ASReq_NodeID : option IE; ASReq_RecoveryTimeStamp : option IE;
  ASReq_CPFeatures : option IE }.
#[export] Instance eta_ASReq : Eta AssociationSetupRequest := fun r =>
  mkASReq (ASReq_Header r) (ASReq_NodeID r) (ASReq_RecoveryTimeStamp r) (ASReq_CPFeatures r).
Definition ASReq_set (r : AssociationSetupRequest) (i : IE) : AssociationSetupRequest :=
  if IE_Type i =? TypeNodeID then r <| ASReq_NodeID := Some i |>
  else if IE_Type i =? TypeRecoveryTimeStamp then r <| ASReq_RecoveryTimeStamp := Some i |>
  else if IE_Type i =? TypeCPFunctionFeatures then r <| ASReq_CPFeatures := Some i |>
  else r.
Definition ParseAssociationSetupRequest (b : bytes) : result MessageError AssociationSetupRequest :=
  let? (h, ies) := Parse b in
  let? _ := level false h in
  let? _ := of_message MsgTypeAssociationSetupRequest h in
  let r := fold_left ASReq_set ies (mkASReq h None None None) in
  let? _ := present TypeNodeID (ASReq_NodeID r) in
  let? _ := present TypeRecoveryTimeStamp (ASReq_RecoveryTimeStamp r) in
  Ok r.

Record AssociationSetupResponse := mkASResp {
  ASResp_Header : Header; ASResp_NodeID : option IE; ASResp_Cause : option IE;
  ASResp_RecoveryTimeStamp : option IE; ASResp_UPFeatures : option IE; ASResp_CPFeatures : option IE }.
#[export] Instance eta_ASResp : Eta AssociationSetupResponse := fun r =>
  mkASResp (ASResp_Header r) (ASResp_NodeID r) (ASResp_Cause r) (ASResp_RecoveryTimeStamp r) (ASResp_UPFeatures r) (ASResp_CPFeatures r).
Definition ASResp_set (r : AssociationSetupResponse) (i : IE) : AssociationSetupResponse :=
  if IE_Type i =? TypeNodeID then r <| ASResp_NodeID := Some i |>
  else if IE_Type i =? TypeCause then r <| ASResp_Cause := Some i |>
  else if IE_Type i =? TypeRecoveryTimeStamp then r <| ASResp_RecoveryTimeStamp := Some i |>
  else if IE_Type i =? TypeUPFunctionFeatures then r <| ASResp_UPFeatures := Some i |>
  else if IE_Type i =? TypeCPFunctionFeatures then r <| ASResp_CPFeatures := Some i |>
  else r.
Definition ParseAssociationSetupResponse (b : bytes) : result MessageError AssociationSetupResponse :=
  let? (h, ies) := Parse b in
  let? _ := level false h in
  let? _ := of_message MsgTypeAssociationSetupResponse h in
  let r := fold_left ASResp_set ies (mkASResp h None None None None None) in
  let? _ := present TypeNodeID (ASResp_NodeID r) in
  let? _ := present TypeCause (ASResp_Cause r) in
  let? _ := present TypeRecoveryTimeStamp (ASResp_RecoveryTimeStamp r) in
  Ok r.

Record HeartbeatRequest := mkHBReq {
  HBReq_Header : Header; HBReq_RecoveryTimeStamp : option IE }.
#[export] Instance eta_HBReq : Eta HeartbeatRequest := fun r =>
  mkHBReq (HBReq_Header r) (HBReq_RecoveryTimeStamp r).
Definition HBReq_set (r : HeartbeatRequest) (i : IE) : HeartbeatRequest :=
  if IE_Type i =? TypeRecoveryTimeStamp then r <| HBReq_RecoveryTimeStamp := Some i |>
  else r.
Definition ParseHeartbeatRequest (b : bytes) : result MessageError HeartbeatRequest :=
  let? (h, ies) := Parse b in
  let? _ := level false h in
  let? _ := of_message MsgTypeHeartbeatRequest h in
  let r := fold_left HBReq_set ies (mkHBReq h None) in
  let? _ := present TypeRecoveryTimeStamp (HBReq_RecoveryTimeStamp r) in
  Ok r.

Record HeartbeatResponse := mkHBResp {
  HBResp_Header : Header; HBResp_RecoveryTimeStamp : option IE }.
#[export] Instance eta_HBResp : Eta HeartbeatResponse := fun r =>
  mkHBResp (HBResp_Header r) (HBResp_RecoveryTimeStamp r).
Definition HBResp_set (r : HeartbeatResponse) (i : IE) : HeartbeatResponse :=
  if IE_Type i =? TypeRecoveryTimeStamp then r <| HBResp_RecoveryTimeStamp := Some i |>
  else r.
Definition ParseHeartbeatResponse (b : bytes) : result MessageError HeartbeatResponse :=
  let? (h, ies) := Parse b in
  let? _ := level false h in
  let? _ := of_message MsgTypeHeartbeatResponse h in
  let r := fold_left HBResp_set ies (mkHBResp h None) in
  let? _ := present TypeRecoveryTimeStamp (HBResp_RecoveryTimeStamp r) in
  Ok r.

Record SessionEstablishmentRequest := mkSEReq {
  SEReq_Header : Header; SEReq_NodeID : option IE; SEReq_CPSEID : option IE;
  SEReq_CreatePDRs : list IE; SEReq_CreateFARs : list IE }.
#[export] Instance eta_SEReq : Eta SessionEstablishmentRequest := fun r =>
  mkSEReq (SEReq_Header r) (SEReq_NodeID r) (SEReq_CPSEID r) (SEReq_CreatePDRs r) (SEReq_CreateFARs r).
Definition SEReq_set (r : SessionEstablishmentRequest) (i : IE) : SessionEstablishmentRequest :=
  if IE_Type i =? TypeNodeID then r <| SEReq_NodeID := Some i |>
  else if IE_Type i =? TypeFSEID then r <| SEReq_CPSEID := Some i |>
  else if IE_Type i =? TypeCreatePDR then r <| SEReq_CreatePDRs := SEReq_CreatePDRs r ++ [i] |>
  else if IE_Type i =? TypeCreateFAR then r <| SEReq_CreateFARs := SEReq_CreateFARs r ++ [i] |>
  else r.
Definition ParseSessionEstablishmentRequest (b : bytes) : result MessageError SessionEstablishmentRequest :=
  let? (h, ies) := Parse b in
  let? _ := level true h in
  let? _ := of_message MsgTypeSessionEstablishmentRequest h in
  let? _ := guard (SEID h =? 0) (SEIDNotZero (SEID h)) in
  let r := fold_left SEReq_set ies (mkSEReq h None None [] []) in
  let? _ := present TypeNodeID (SEReq_NodeID r) in
  let? _ := present TypeFSEID (SEReq_CPSEID r) in
  let? _ := nonempty TypeCreatePDR (SEReq_CreatePDRs r) in
  let? _ := nonempty TypeCreateFAR (SEReq_CreateFARs r) in
  Ok r.

Record SessionEstablishmentResponse := mkSEResp {
  SEResp_Header : Header; SEResp_NodeID : option IE; SEResp_Cause : option IE;
  SEResp_UPSEID : option IE; SEResp_CreatedPDRs : list IE }.
#[export] Instance eta_SEResp : Eta SessionEstablishmentResponse := fun r =>
  mkSEResp (SEResp_Header r) (SEResp_NodeID r) (SEResp_Cause r) (SEResp_UPSEID r) (SEResp_CreatedPDRs r).
Definition SEResp_set (r : SessionEstablishmentResponse) (i : IE) : SessionEstablishmentResponse :=
  if IE_Type i =? TypeNodeID then r <| SEResp_NodeID := Some i |>
  else if IE_Type i =? TypeCause then r <| SEResp_Cause := Some i |>
  else if IE_Type i =? TypeFSEID then r <| SEResp_UPSEID := Some i |>
  else if IE_Type i =? TypeCreatedPDR then r <| SEResp_CreatedPDRs := SEResp_CreatedPDRs r ++ [i] |>
  else r.
Definition ParseSessionEstablishmentResponse (b : bytes) : result MessageError SessionEstablishmentResponse :=
  let? (h, ies) := Parse b in
  let? _ := level true h in
  let? _ := of_message MsgTypeSessionEstablishmentResponse h in
  let r := fold_left SEResp_set ies (mkSEResp h None None None []) in
  let? _ := present TypeNodeID (SEResp_NodeID r) in
  let? _ := present TypeCause (SEResp_Cause r) in
  let? _ := (if cause_accepted (SEResp_Cause r) then present TypeFSEID (SEResp_UPSEID r) else Ok tt) in
  Ok r.

Record SessionModificationRequest := mkSMReq {
  SMReq_Header : Header; SMReq_CPSEID : option IE; SMReq_UpdateFARs : list IE;
  SMReq_UpdatePDRs : list IE; SMReq_CreatePDRs : list IE; SMReq_CreateFARs : list IE;
  SMReq_RemovePDRs : list IE; SMReq_RemoveFARs : list IE }.
#[export] Instance eta_SMReq : Eta SessionModificationRequest := fun r =>
  mkSMReq (SMReq_Header r) (SMReq_CPSEID r) (SMReq_UpdateFARs r) (SMReq_UpdatePDRs r) (SMReq_CreatePDRs r) (SMReq_CreateFARs r) (SMReq_RemovePDRs r) (SMReq_RemoveFARs r).
Definition SMReq_set (r : SessionModificationRequest) (i : IE) : SessionModificationRequest :=
  if IE_Type i =? TypeFSEID then r <| SMReq_CPSEID := Some i |>
  else if IE_Type i =? TypeUpdateFAR then r <| SMReq_UpdateFARs := SMReq_UpdateFARs r ++ [i] |>
  else if IE_Type i =? TypeUpdatePDR then r <| SMReq_UpdatePDRs := SMReq_UpdatePDRs r ++ [i] |>
  else if IE_Type i =? TypeCreatePDR then r <| SMReq_CreatePDRs := SMReq_CreatePDRs r ++ [i] |>
  else if IE_Type i =? TypeCreateFAR then r <| SMReq_CreateFARs := SMReq_CreateFARs r ++ [i] |>
  else if IE_Type i =? TypeRemovePDR then r <| SMReq_RemovePDRs := SMReq_RemovePDRs r ++ [i] |>
  else if IE_Type i =? TypeRemoveFAR then r <| SMReq_RemoveFARs := SMReq_RemoveFARs r ++ [i] |>
  else r.
Definition ParseSessionModificationRequest (b : bytes) : result MessageError SessionModificationRequest :=
  let? (h, ies) := Parse b in
  let? _ := level true h in
  let? _ := of_message MsgTypeSessionModificationRequest h in
  let r := fold_left SMReq_set ies (mkSMReq h None [] [] [] [] [] []) in
  Ok r.

Record SessionModificationResponse := mkSMResp {
  SMResp_Header : Header; SMResp_Cause : option IE; SMResp_CreatedPDRs : list IE }.
#[export] Instance eta_SMResp : Eta SessionModificationResponse := fun r =>
  mkSMResp (SMResp_Header r) (SMResp_Cause r) (SMResp_CreatedPDRs r).
Definition SMResp_set (r : SessionModificationResponse) (i : IE) : SessionModificationResponse :=
  if IE_Type i =? TypeCause then r <| SMResp_Cause := Some i |>
  else if IE_Type i =? TypeCreatedPDR then r <| SMResp_CreatedPDRs := SMResp_CreatedPDRs r ++ [i] |>
  else r.
Definition ParseSessionModificationResponse (b : bytes) : result MessageError SessionModificationResponse :=
  let? (h, ies) := Parse b in
  let? _ := level true h in
  let? _ := of_message MsgTypeSessionModificationResponse h in
  let r := fold_left SMResp_set ies (mkSMResp h None []) in
  let? _ := present TypeCause (SMResp_Cause r) in
  Ok r.

Record SessionDeletionRequest := mkSDReq {
  SDReq_Header : Header }.
Definition ParseSessionDeletionRequest (b : bytes) : result MessageError SessionDeletionRequest :=
  let? (h, ies) := Parse b in
  let? _ := level true h in
  let? _ := of_message MsgTypeSessionDeletionRequest h in
  Ok (mkSDReq h).

Record SessionDeletionResponse := mkSDResp {
  SDResp_Header : Header; SDResp_Cause : option IE }.
#[export] Instance eta_SDResp : Eta SessionDeletionResponse := fun r =>
  mkSDResp (SDResp_Header r) (SDResp_Cause r).
Definition SDResp_set (r : SessionDeletionResponse) (i : IE) : SessionDeletionResponse :=
  if IE_Type i =? TypeCause then r <| SDResp_Cause := Some i |>
  else r.
Definition ParseSessionDeletionResponse (b : bytes) : result MessageError SessionDeletionResponse :=
  let? (h, ies) := Parse b in
  let? _ := level true h in
  let? _ := of_message MsgTypeSessionDeletionResponse h in
  let r := fold_left SDResp_set ies (mkSDResp h None) in
  let? _ := present TypeCause (SDResp_Cause r) in
  Ok r.

Record AssociationReleaseRequest := mkARReq {
  ARReq_Header : Header; ARReq_NodeID : option IE }.
#[export] Instance eta_ARReq : Eta AssociationReleaseRequest := fun r =>
  mkARReq (ARReq_Header r) (ARReq_NodeID r).
Definition ARReq_set (r : AssociationReleaseRequest) (i : IE) : AssociationReleaseRequest :=
  if IE_Type i =? TypeNodeID then r <| ARReq_NodeID := Some i |>
  else r.
Definition ParseAssociationReleaseRequest (b : bytes) : result MessageError AssociationReleaseRequest :=
  let? (h, ies) := Parse b in
  let? _ := level false h in
  let? _ := of_message MsgTypeAssociationReleaseRequest h in
  let r := fold_left ARReq_set ies (mkARReq h None) in
  let? _ := present TypeNodeID (ARReq_NodeID r) in
  Ok r.

Record AssociationReleaseResponse := mkARResp {
  ARResp_Header : Header; ARResp_NodeID : option IE; ARResp_Cause : option IE }.
#[export] Instance eta_ARResp : Eta AssociationReleaseResponse := fun r =>
  mkARResp (ARResp_Header r) (ARResp_NodeID r) (ARResp_Cause r).
Definition ARResp_set (r : AssociationReleaseResponse) (i : IE) : AssociationReleaseResponse :=
  if IE_Type i =? TypeNodeID then r <| ARResp_NodeID := Some i |>
  else if IE_Type i =? TypeCause then r <| ARResp_Cause := Some i |>
  else r.
Definition ParseAssociationReleaseResponse (b : bytes) : result MessageError AssociationReleaseResponse :=
  let? (h, ies) := Parse b in
  let? _ := level false h in
  let? _ := of_message MsgTypeAssociationReleaseResponse h in
  let r := fold_left ARResp_set ies (mkARResp h None None) in
  let? _ := present TypeNodeID (ARResp_NodeID r) in
  let? _ := present TypeCause (ARResp_Cause r) in
  Ok r.

Record NodeReportRequest := mkNRReq {
  NRReq_Header : Header; NRReq_NodeID : option IE; NRReq_NodeReportType : option IE;
  NRReq_UserPlanPathFailureReport : option IE }.
#[export] Instance eta_NRReq : Eta NodeReportRequest := fun r =>
  mkNRReq (NRReq_Header r) (NRReq_NodeID r) (NRReq_NodeReportType r) (NRReq_UserPlanPathFailureReport r).
Definition NRReq_set (r : NodeReportRequest) (i : IE) : NodeReportRequest :=
  if IE_Type i =? TypeNodeID then r <| NRReq_NodeID := Some i |>
  else if IE_Type i =? TypeNodeReportType then r <| NRReq_NodeReportType := Some i |>
  else if IE_Type i =? TypeUserPlanPathFailureReport then r <| NRReq_UserPlanPathFailureReport := Some i |>
  else r.
Definition ParseNodeReportRequest (b : bytes) : result MessageError NodeReportRequest :=
  let? (h, ies) := Parse b in
  let? _ := level false h in
  let? _ := of_message MsgTypeNodeReportRequest h in
  let r := fold_left NRReq_set ies (mkNRReq h None None None) in
  let? _ := present TypeNodeID (NRReq_NodeID r) in
  let? _ := present TypeNodeReportType (NRReq_NodeReportType r) in
  let? _ := (if reports_path_failure (NRReq_NodeReportType r)
             then present TypeUserPlanPathFailureReport (NRReq_UserPlanPathFailureReport r) else Ok tt) in
  Ok r.

Record NodeReportResponse := mkNRResp {
  NRResp_Header : Header; NRResp_NodeID : option IE; NRResp_Cause : option IE;
  NRResp_OffendingIE : option IE }.
#[export] Instance eta_NRResp : Eta NodeReportResponse := fun r =>
  mkNRResp (NRResp_Header r) (NRResp_NodeID r) (NRResp_Cause r) (NRResp_OffendingIE r).
Definition NRResp_set (r : NodeReportResponse) (i : IE) : NodeReportResponse :=
  if IE_Type i =? TypeNodeID then r <| NRResp_NodeID := Some i |>
  else if IE_Type i =? TypeCause then r <| NRResp_Cause := Some i |>
  else r.
Definition ParseNodeReportResponse (b : bytes) : result MessageError NodeReportResponse :=
  let? (h, ies) := Parse b in
  let? _ := level false h in
  let? _ := of_message MsgTypeNodeReportResponse h in
  let r := fold_left NRResp_set ies (mkNRResp h None None None) in
  let? _ := present TypeNodeID (NRResp_NodeID r) in
  let? _ := present TypeCause (NRResp_Cause r) in
  Ok r.

Record SessionReportRequest := mkSRReq {
  SRReq_Header : Header; SRReq_VectorCoreIdleDownlinkReport : option IE }.
#[export] Instance eta_SRReq : Eta SessionReportRequest := fun r =>
  mkSRReq (SRReq_Header r) (SRReq_VectorCoreIdleDownlinkReport r).
Definition SRReq_set (r : SessionReportRequest) (i : IE) : SessionReportRequest :=
  if IE_Type i =? TypeVectorCoreIdleDownlinkReport then r <| SRReq_VectorCoreIdleDownlinkReport := Some i |>
  else r.
Definition ParseSessionReportRequest (b : bytes) : result MessageError SessionReportRequest :=
  let? (h, ies) := Parse b in
  let? _ := level true h in
  let? _ := of_message MsgTypeSessionReportRequest h in
  let r := fold_left SRReq_set ies (mkSRReq h None) in
  let? _ := present TypeVectorCoreIdleDownlinkReport (SRReq_VectorCoreIdleDownlinkReport r) in
  Ok r.

Record SessionReportResponse := mkSRResp {
  SRResp_Header : Header; SRResp_Cause : option IE }.
#[export] Instance eta_SRResp : Eta SessionReportResponse := fun r =>
  mkSRResp (SRResp_Header r) (SRResp_Cause r).
Definition SRResp_set (r : SessionReportResponse) (i : IE) : SessionReportResponse :=
  if IE_Type i =? TypeCause then r <| SRResp_Cause := Some i |>
  else r.
Definition ParseSessionReportResponse (b : bytes) : result MessageError SessionReportResponse :=
  let? (h, ies) := Parse b in
  let? _ := level true h in
  let? _ := of_message MsgTypeSessionReportResponse h in
  let r := fold_left SRResp_set ies (mkSRResp h None) in
  let? _ := present TypeCause (SRResp_Cause r) in
  Ok r.


(** ** Specification: one row of the message tables of TS 29.244 per message

    A layout says at which level a message travels, its type, which IEs are mandatory
    and what further condition it must meet. *)

Definition last_of (ies : list IE) (t : Z) : option IE := last (FindAll ies t).
Definition has (ies : list IE) (t : Z) : bool := bool_decide (FindAll ies t <> []).

Record layout := mkLayout {
  L_session : bool; L_type : Z; L_mandatory : list Z; L_condition : Header -> list IE -> bool }.

Definition accepts (L : layout) (h : Header) (ies : list IE) : bool :=
  Bool.eqb (HasSEID h) (L_session L) && ((MessageType h =? L_type L)
  && (L_condition L h ies && forallb (has ies) (L_mandatory L))).

(** What a typed parser promises: it returns exactly on the datagrams whose header
    and IEs its layout accepts, with the last IE of each single type and all IEs of
    each list type in order. *)
Class MessageParser {R} (parse : bytes -> result MessageError R) (L : layout)
    (build : Header -> list IE -> R) : Prop :=
  parser_spec b r : parse b = Ok r <->
    exists h ies, Parse b = Ok (h, ies) /\ accepts L h ies = true /\ r = build h ies.

Definition ASReq_layout : layout :=
  mkLayout false MsgTypeAssociationSetupRequest [TypeNodeID; TypeRecoveryTimeStamp] (fun _ _ => true).
Definition ASReq_build (h : Header) (ies : list IE) : AssociationSetupRequest :=
  mkASReq h (last_of ies TypeNodeID) (last_of ies TypeRecoveryTimeStamp) (last_of ies TypeCPFunctionFeatures).
Definition ASResp_layout : layout :=
  mkLayout false MsgTypeAssociationSetupResponse [TypeNodeID; TypeCause; TypeRecoveryTimeStamp] (fun _ _ => true).
Definition ASResp_build (h : Header) (ies : list IE) : AssociationSetupResponse :=
  mkASResp h (last_of ies TypeNodeID) (last_of ies TypeCause) (last_of ies TypeRecoveryTimeStamp) (last_of ies TypeUPFunctionFeatures) (last_of ies TypeCPFunctionFeatures).
Definition HBReq_layout : layout :=
  mkLayout false MsgTypeHeartbeatRequest [TypeRecoveryTimeStamp] (fun _ _ => true).
Definition HBReq_build (h : Header) (ies : list IE) : HeartbeatRequest :=
  mkHBReq h (last_of ies TypeRecoveryTimeStamp).
Definition HBResp_layout : layout :=
  mkLayout false MsgTypeHeartbeatResponse [TypeRecoveryTimeStamp] (fun _ _ => true).
Definition HBResp_build (h : Header) (ies : list IE) : HeartbeatResponse :=
  mkHBResp h (last_of ies TypeRecoveryTimeStamp).
Definition SEReq_layout : layout :=
  mkLayout true MsgTypeSessionEstablishmentRequest [TypeNodeID; TypeFSEID; TypeCreatePDR; TypeCreateFAR] (fun h _ => SEID h =? 0).
Definition SEReq_build (h : Header) (ies : list IE) : SessionEstablishmentRequest :=
  mkSEReq h (last_of ies TypeNodeID) (last_of ies TypeFSEID) (FindAll ies TypeCreatePDR) (FindAll ies TypeCreateFAR).
Definition SEResp_layout : layout :=
  mkLayout true MsgTypeSessionEstablishmentResponse [TypeNodeID; TypeCause] (fun _ ies => implb (cause_accepted (last_of ies TypeCause)) (has ies TypeFSEID)).
Definition SEResp_build (h : Header) (ies : list IE) : SessionEstablishmentResponse :=
  mkSEResp h (last_of ies TypeNodeID) (last_of ies TypeCause) (last_of ies TypeFSEID) (FindAll ies TypeCreatedPDR).
Definition SMReq_layout : layout :=
  mkLayout true MsgTypeSessionModificationRequest [] (fun _ _ => true).
Definition SMReq_build (h : Header) (ies : list IE) : SessionModificationRequest :=
  mkSMReq h (last_of ies TypeFSEID) (FindAll ies TypeUpdateFAR) (FindAll ies TypeUpdatePDR) (FindAll ies TypeCreatePDR) (FindAll ies TypeCreateFAR) (FindAll ies TypeRemovePDR) (FindAll ies TypeRemoveFAR).
Definition SMResp_layout : layout :=
  mkLayout true MsgTypeSessionModificationResponse [TypeCause] (fun _ _ => true).
Definition SMResp_build (h : Header) (ies : list IE) : SessionModificationResponse :=
  mkSMResp h (last_of ies TypeCause) (FindAll ies TypeCreatedPDR).
Definition SDReq_layout : layout :=
  mkLayout true MsgTypeSessionDeletionRequest [] (fun _ _ => true).
Definition SDReq_build (h : Header) (ies : list IE) : SessionDeletionRequest :=
  mkSDReq h.
Definition SDResp_layout : layout :=
  mkLayout true MsgTypeSessionDeletionResponse [TypeCause] (fun _ _ => true).
Definition SDResp_build (h : Header) (ies : list IE) : SessionDeletionResponse :=
  mkSDResp h (last_of ies TypeCause).
Definition ARReq_layout : layout :=
  mkLayout false MsgTypeAssociationReleaseRequest [TypeNodeID] (fun _ _ => true).
Definition ARReq_build (h : Header) (ies : list IE) : AssociationReleaseRequest :=
  mkARReq h (last_of ies TypeNodeID).
Definition ARResp_layout : layout :=
  mkLayout false MsgTypeAssociationReleaseResponse [TypeNodeID; TypeCause] (fun _ _ => true).
Definition ARResp_build (h : Header) (ies : list IE) : AssociationReleaseResponse :=
  mkARResp h (last_of ies TypeNodeID) (last_of ies TypeCause).
Definition NRReq_layout : layout :=
  mkLayout false MsgTypeNodeReportRequest [TypeNodeID; TypeNodeReportType] (fun _ ies =>
    implb (reports_path_failure (last_of ies TypeNodeReportType)) (has ies TypeUserPlanPathFailureReport)).
Definition NRReq_build (h : Header) (ies : list IE) : NodeReportRequest :=
  mkNRReq h (last_of ies TypeNodeID) (last_of ies TypeNodeReportType) (last_of ies TypeUserPlanPathFailureReport).
Definition NRResp_layout : layout :=
  mkLayout false MsgTypeNodeReportResponse [TypeNodeID; TypeCause] (fun _ _ => true).
Definition NRResp_build (h : Header) (ies : list IE) : NodeReportResponse :=
  mkNRResp h (last_of ies TypeNodeID) (last_of ies TypeCause) None.
Definition SRReq_layout : layout :=
  mkLayout true MsgTypeSessionReportRequest [TypeVectorCoreIdleDownlinkReport] (fun _ _ => true).
Definition SRReq_build (h : Header) (ies : list IE) : SessionReportRequest :=
  mkSRReq h (last_of ies TypeVectorCoreIdleDownlinkReport).
Definition SRResp_layout : layout :=
  mkLayout true MsgTypeSessionReportResponse [TypeCause] (fun _ _ => true).
Definition SRResp_build (h : Header) (ies : list IE) : SessionReportResponse :=
  mkSRResp h (last_of ies TypeCause).

(** ** The loops collect the last or all IEs of a type *)

Lemma FindAll_snoc ies i t :
  FindAll (ies ++ [i]) t = if IE_Type i =? t then FindAll ies t ++ [i] else FindAll ies t.
Proof.
  induction ies as [|j ies IH]; simpl; [by case_match|]. rewrite IH. by repeat case_match.
Qed.
Lemma last_of_snoc ies i t :
  last_of (ies ++ [i]) t = if IE_Type i =? t then Some i else last_of ies t.
Proof. unfold last_of. rewrite FindAll_snoc. case_match; [apply last_snoc|done]. Qed.
Lemma present_has ies t : present t (last_of ies t) = guard (has ies t) (MissingIE t).
Proof.
  unfold present, has, last_of. f_equal. apply bool_decide_ext. rewrite last_is_Some. done.
Qed.
Lemma nonempty_has ies t : nonempty t (FindAll ies t) = guard (has ies t) (MissingIE t).
Proof. done. Qed.

Ltac next_type :=
  match goal with |- context [IE_Type ?i =? ?t] =>
    let E := fresh "E" in
    destruct (Z.eqb_spec (IE_Type i) t) as [E|_]; [rewrite ?E; reflexivity|]
  end.
Ltac collect :=
  intros h ies; induction ies as [|i ies IH] using rev_ind; [reflexivity|];
  rewrite fold_left_app, IH; cbn [fold_left];
  match goal with |- ?set (?build h ies) i = _ => unfold set, build end;
  rewrite ?last_of_snoc, ?FindAll_snoc; repeat next_type; reflexivity.

Lemma ASReq_collect : forall h ies, fold_left ASReq_set ies (mkASReq h None None None) = ASReq_build h ies.
Proof. collect. Qed.
Lemma ASResp_collect : forall h ies, fold_left ASResp_set ies (mkASResp h None None None None None) = ASResp_build h ies.
Proof. collect. Qed.
Lemma HBReq_collect : forall h ies, fold_left HBReq_set ies (mkHBReq h None) = HBReq_build h ies.
Proof. collect. Qed.
Lemma HBResp_collect : forall h ies, fold_left HBResp_set ies (mkHBResp h None) = HBResp_build h ies.
Proof. collect. Qed.
Lemma SEReq_collect : forall h ies, fold_left SEReq_set ies (mkSEReq h None None [] []) = SEReq_build h ies.
Proof. collect. Qed.
Lemma SEResp_collect : forall h ies, fold_left SEResp_set ies (mkSEResp h None None None []) = SEResp_build h ies.
Proof. collect. Qed.
Lemma SMReq_collect : forall h ies, fold_left SMReq_set ies (mkSMReq h None [] [] [] [] [] []) = SMReq_build h ies.
Proof. collect. Qed.
Lemma SMResp_collect : forall h ies, fold_left SMResp_set ies (mkSMResp h None []) = SMResp_build h ies.
Proof. collect. Qed.
Lemma SDResp_collect : forall h ies, fold_left SDResp_set ies (mkSDResp h None) = SDResp_build h ies.
Proof. collect. Qed.
Lemma ARReq_collect : forall h ies, fold_left ARReq_set ies (mkARReq h None) = ARReq_build h ies.
Proof. collect. Qed.
Lemma ARResp_collect : forall h ies, fold_left ARResp_set ies (mkARResp h None None) = ARResp_build h ies.
Proof. collect. Qed.
Lemma NRReq_collect : forall h ies, fold_left NRReq_set ies (mkNRReq h None None None) = NRReq_build h ies.
Proof. collect. Qed.
Lemma NRResp_collect : forall h ies, fold_left NRResp_set ies (mkNRResp h None None None) = NRResp_build h ies.
Proof. collect. Qed.
Lemma SRReq_collect : forall h ies, fold_left SRReq_set ies (mkSRReq h None) = SRReq_build h ies.
Proof. collect. Qed.
Lemma SRResp_collect : forall h ies, fold_left SRResp_set ies (mkSRResp h None) = SRResp_build h ies.
Proof. collect. Qed.

(** ** The typed parsers implement their layouts *)

Lemma accepted {R} (g : result MessageError R) (build : Header -> list IE -> R) L h ies r :
  (g = Ok r <-> accepts L h ies = true /\ r = build h ies) ->
  g = Ok r <-> exists h' ies', @Ok MessageError _ (h, ies) = Ok (h', ies') /\
    accepts L h' ies' = true /\ r = build h' ies'.
Proof.
  intros H. split; intros Hg.
  - apply H in Hg as [? ?]. by exists h, ies.
  - destruct Hg as (h' & ies' & E & ? & ?). injection E as <- <-. by apply H.
Qed.

Ltac guards :=
  repeat match goal with
  | |- context [guard ?c _] => destruct c; cbn [guard rbind andb];
      [|by split; [|intros [A _]; rewrite ?andb_false_r in A]]
  end.
Ltac parser parse collect layout :=
  intros b r; unfold parse;
  destruct (Parse b) as [[h ies]|e]; cbn [rbind]; [|by split; [|intros (? & ? & ? & _)]];
  apply accepted; unfold level, of_message, accepts, layout; rewrite ?collect;
  cbn [L_session L_type L_mandatory L_condition forallb].

#[export] Instance ASReq_parser : MessageParser ParseAssociationSetupRequest ASReq_layout ASReq_build.
Proof.
  parser ParseAssociationSetupRequest ASReq_collect ASReq_layout.
  unfold ASReq_build; cbn [ASReq_Header ASReq_NodeID ASReq_RecoveryTimeStamp ASReq_CPFeatures]; rewrite ?present_has, ?nonempty_has.
  guards. by split; [intros [= <-]|intros [_ ->]].
Qed.
#[export] Instance ASResp_parser : MessageParser ParseAssociationSetupResponse ASResp_layout ASResp_build.
Proof.
  parser ParseAssociationSetupResponse ASResp_collect ASResp_layout.
  unfold ASResp_build; cbn [ASResp_Header ASResp_NodeID ASResp_Cause ASResp_RecoveryTimeStamp ASResp_UPFeatures ASResp_CPFeatures]; rewrite ?present_has, ?nonempty_has.
  guards. by split; [intros [= <-]|intros [_ ->]].
Qed.
#[export] Instance HBReq_parser : MessageParser ParseHeartbeatRequest HBReq_layout HBReq_build.
Proof.
  parser ParseHeartbeatRequest HBReq_collect HBReq_layout.
  unfold HBReq_build; cbn [HBReq_Header HBReq_RecoveryTimeStamp]; rewrite ?present_has, ?nonempty_has.
  guards. by split; [intros [= <-]|intros [_ ->]].
Qed.
#[export] Instance HBResp_parser : MessageParser ParseHeartbeatResponse HBResp_layout HBResp_build.
Proof.
  parser ParseHeartbeatResponse HBResp_collect HBResp_layout.
  unfold HBResp_build; cbn [HBResp_Header HBResp_RecoveryTimeStamp]; rewrite ?present_has, ?nonempty_has.
  guards. by split; [intros [= <-]|intros [_ ->]].
Qed.
#[export] Instance SEReq_parser : MessageParser ParseSessionEstablishmentRequest SEReq_layout SEReq_build.
Proof.
  parser ParseSessionEstablishmentRequest SEReq_collect SEReq_layout.
  unfold SEReq_build; cbn [SEReq_Header SEReq_NodeID SEReq_CPSEID SEReq_CreatePDRs SEReq_CreateFARs]; rewrite ?present_has, ?nonempty_has.
  guards. by split; [intros [= <-]|intros [_ ->]].
Qed.
#[export] Instance SEResp_parser : MessageParser ParseSessionEstablishmentResponse SEResp_layout SEResp_build.
Proof.
  parser ParseSessionEstablishmentResponse SEResp_collect SEResp_layout.
  unfold SEResp_build; cbn [SEResp_Header SEResp_NodeID SEResp_Cause SEResp_UPSEID SEResp_CreatedPDRs]; rewrite ?present_has, ?nonempty_has.
  destruct (cause_accepted _); cbn [implb rbind].
  all: guards; by split; [intros [= <-]|intros [_ ->]].
Qed.
#[export] Instance SMReq_parser : MessageParser ParseSessionModificationRequest SMReq_layout SMReq_build.
Proof.
  parser ParseSessionModificationRequest SMReq_collect SMReq_layout.
  unfold SMReq_build; cbn [SMReq_Header SMReq_CPSEID SMReq_UpdateFARs SMReq_UpdatePDRs SMReq_CreatePDRs SMReq_CreateFARs SMReq_RemovePDRs SMReq_RemoveFARs]; rewrite ?present_has, ?nonempty_has.
  guards. by split; [intros [= <-]|intros [_ ->]].
Qed.
#[export] Instance SMResp_parser : MessageParser ParseSessionModificationResponse SMResp_layout SMResp_build.
Proof.
  parser ParseSessionModificationResponse SMResp_collect SMResp_layout.
  unfold SMResp_build; cbn [SMResp_Header SMResp_Cause SMResp_CreatedPDRs]; rewrite ?present_has, ?nonempty_has.
  guards. by split; [intros [= <-]|intros [_ ->]].
Qed.
#[export] Instance SDReq_parser : MessageParser ParseSessionDeletionRequest SDReq_layout SDReq_build.
Proof.
  parser ParseSessionDeletionRequest (@eq_refl nat 0%nat) SDReq_layout.
  guards. by split; [intros [= <-]|intros [_ ->]].
Qed.
#[export] Instance SDResp_parser : MessageParser ParseSessionDeletionResponse SDResp_layout SDResp_build.
Proof.
  parser ParseSessionDeletionResponse SDResp_collect SDResp_layout.
  unfold SDResp_build; cbn [SDResp_Header SDResp_Cause]; rewrite ?present_has, ?nonempty_has.
  guards. by split; [intros [= <-]|intros [_ ->]].
Qed.
#[export] Instance ARReq_parser : MessageParser ParseAssociationReleaseRequest ARReq_layout ARReq_build.
Proof.
  parser ParseAssociationReleaseRequest ARReq_collect ARReq_layout.
  unfold ARReq_build; cbn [ARReq_Header ARReq_NodeID]; rewrite ?present_has, ?nonempty_has.
  guards. by split; [intros [= <-]|intros [_ ->]].
Qed.
#[export] Instance ARResp_parser : MessageParser ParseAssociationReleaseResponse ARResp_layout ARResp_build.
Proof.
  parser ParseAssociationReleaseResponse ARResp_collect ARResp_layout.
  unfold ARResp_build; cbn [ARResp_Header ARResp_NodeID ARResp_Cause]; rewrite ?present_has, ?nonempty_has.
  guards. by split; [intros [= <-]|intros [_ ->]].
Qed.
#[export] Instance NRReq_parser : MessageParser ParseNodeReportRequest NRReq_layout NRReq_build.
Proof.
  parser ParseNodeReportRequest NRReq_collect NRReq_layout.
  unfold NRReq_build; cbn [NRReq_Header NRReq_NodeID NRReq_NodeReportType NRReq_UserPlanPathFailureReport]; rewrite ?present_has, ?nonempty_has.
  destruct (reports_path_failure _); cbn [implb rbind].
  all: guards; by split; [intros [= <-]|intros [_ ->]].
Qed.
#[export] Instance NRResp_parser : MessageParser ParseNodeReportResponse NRResp_layout NRResp_build.
Proof.
  parser ParseNodeReportResponse NRResp_collect NRResp_layout.
  unfold NRResp_build; cbn [NRResp_Header NRResp_NodeID NRResp_Cause NRResp_OffendingIE]; rewrite ?present_has, ?nonempty_has.
  guards. by split; [intros [= <-]|intros [_ ->]].
Qed.
#[export] Instance SRReq_parser : MessageParser ParseSessionReportRequest SRReq_layout SRReq_build.
Proof.
  parser ParseSessionReportRequest SRReq_collect SRReq_layout.
  unfold SRReq_build; cbn [SRReq_Header SRReq_VectorCoreIdleDownlinkReport]; rewrite ?present_has, ?nonempty_has.
  guards. by split; [intros [= <-]|intros [_ ->]].
Qed.
#[export] Instance SRResp_parser : MessageParser ParseSessionReportResponse SRResp_layout SRResp_build.
Proof.
  parser ParseSessionReportResponse SRResp_collect SRResp_layout.
  unfold SRResp_build; cbn [SRResp_Header SRResp_Cause]; rewrite ?present_has, ?nonempty_has.
  guards. by split; [intros [= <-]|intros [_ ->]].
Qed.

(** ** Wire coding *)

Definition Header_wf (h : Header) : Prop :=
  Version h = pfcpVersion /\ is_byte (MessageType h) /\ in_u 24 (SequenceNumber h) /\
  if HasSEID h then in_u 64 (SEID h) else SEID h = 0.
#[export] Instance Header_wf_dec h : Decision (Header_wf h).
Proof. unfold Header_wf. destruct (HasSEID h); apply _. Defined.

Definition header_len (h : Header) : nat :=
  if HasSEID h then headerLenSessionLevel else headerLenNodeLevel.
(** What [Marshal] writes in the length field before it is cut to 16 bits. *)
Definition message_length (h : Header) (ies : list IE) : Z :=
  Z.of_nat (header_len h) - 4 + Z.of_nat (length (flat_map IE_Marshal ies)).
Definition with_length (h : Header) (ies : list IE) : Header :=
  h <| Length := u16 (message_length h ies) |>.

(** The first checks of [ParseHeader] on a marshalled header with first octet [o], and
    its last ones, which only concern lengths. *)
Ltac header_fields o :=
  unfold ParseHeader;
  rewrite bool_decide_true by (rewrite !length_app; simpl; unfold headerLenNodeLevel; lia);
  cbn [guard rbind nth app];
  change (Z.land (Z.shiftr o 5) 7 =? pfcpVersion) with true;
  let s := eval vm_compute in (flag o 0x01) in change (flag o 0x01) with s;
  cbn [guard rbind negb orb];
  try (rewrite bool_decide_true by (simpl; unfold headerLenSessionLevel; lia); cbn [guard rbind]);
  unfold parse_fields.
Ltac body_bounds n :=
  fold n; case_decide as Hd;
  [rewrite bool_decide_true by done; cbn [guard rbind];
   rewrite bool_decide_true
     by (rewrite !length_cons, !length_app, !length_be_bytes; simpl length;
         unfold n, headerLenSessionLevel, headerLenNodeLevel in *; lia);
   cbn [guard rbind]; reflexivity
  |by rewrite bool_decide_false].

Lemma ParseHeader_Marshal h ies :
  Header_wf h ->
  let n := (4 + Z.to_nat (u16 (message_length h ies)))%nat in
  ParseHeader (Marshal h ies) =
    if decide (header_len h <= n)%nat
    then Ok (with_length h ies, take (n - header_len h) (flat_map IE_Marshal ies))
    else Err (LengthTooSmall (u16 (message_length h ies))).
Proof.
  intros (Hv & Ht & Hs & Hseid) n. set (body := flat_map IE_Marshal ies).
  set (L := u16 (message_length h ies)).
  assert (HL : in_u 16 L) by (by apply uN_range).
  assert (Hn : (Z.to_nat L + 4 <= header_len h + length body)%nat).
  { unfold in_u, L, u16, uN in HL |- *. unfold message_length. fold body.
    pose proof (Z.mod_le (Z.of_nat (header_len h) - 4 + Z.of_nat (length body)) (2 ^ 16)).
    unfold header_len, headerLenSessionLevel, headerLenNodeLevel in *.
    destruct (HasSEID h); lia. }
  assert (Hseq : be_val (be_bytes 3 (SequenceNumber h)) = SequenceNumber h)
    by (by apply be_val_be_bytes_small).
  assert (HLb : be_val (be_bytes 2 L) = L) by (by apply be_val_be_bytes_small).
  destruct h as [v s t len seid seq]. unfold with_length. simpl in Hv, Ht, Hs, Hseid, Hseq. subst v.
  destruct s; [|simpl in Hseid; subst seid].
  - assert (Marshal (mkHeader pfcpVersion true t len seid seq) ies
      = [33; t] ++ be_bytes 2 L ++ be_bytes 8 seid ++ be_bytes 3 seq ++ [0] ++ body) as ->.
    { unfold Marshal, MarshalSessionHeader. simpl HasSEID. cbv iota. by rewrite <- !app_assoc. }
    assert (be_val (be_bytes 8 seid) = seid) as Hs8 by (by apply be_val_be_bytes_small).
    header_fields 33.
    change (slice 2 4 _) with (be_bytes 2 L). change (slice 4 12 _) with (be_bytes 8 seid).
    change (slice 12 15 _) with (be_bytes 3 seq).
    cbn [nth Length]. rewrite HLb, Hseq, Hs8.
    change (header_len _) with headerLenSessionLevel in Hn |- *. body_bounds n.
  - assert (Marshal (mkHeader pfcpVersion false t len 0 seq) ies
      = [32; t] ++ be_bytes 2 L ++ be_bytes 3 seq ++ [0] ++ body) as ->.
    { unfold Marshal, MarshalHeader. simpl HasSEID. cbv iota. by rewrite <- !app_assoc. }
    header_fields 32.
    change (slice 2 4 _) with (be_bytes 2 L). change (slice 4 7 _) with (be_bytes 3 seq).
    cbn [nth Length]. rewrite HLb, Hseq.
    change (header_len _) with headerLenNodeLevel in Hn |- *. body_bounds n.
Qed.

(** A message fits when its length field does not wrap. *)
Definition fits (h : Header) (ies : list IE) : Prop := message_length h ies < 2 ^ 16.
#[export] Instance fits_dec h ies : Decision (fits h ies).
Proof. unfold fits. apply _. Defined.

Lemma message_length_range h ies : 4 <= message_length h ies.
Proof.
  unfold message_length, header_len, headerLenSessionLevel, headerLenNodeLevel.
  destruct (HasSEID h); lia.
Qed.

Lemma Parse_marshalled_message h ies :
  Header_wf h -> Forall IE_wf ies -> fits h ies ->
  Parse (Marshal h ies) = Ok (with_length h ies, ies).
Proof.
  intros Hh Hi Hf. pose proof (message_length_range h ies) as Hr.
  unfold Parse. rewrite ParseHeader_Marshal by done.
  assert (u16 (message_length h ies) = message_length h ies) as -> by (apply uN_small; unfold in_u, fits in *; lia).
  unfold message_length.
  assert (4 <= header_len h)%nat by (unfold header_len; by destruct (HasSEID h); vm_compute; lia).
  rewrite decide_True by lia. cbn [rbind]. rewrite take_ge by lia. by rewrite ParseIEs_Marshal.
Qed.

Lemma Parse_Marshal_wraps h ies h' :
  Header_wf h -> Forall IE_wf ies -> ~ fits h ies -> Parse (Marshal h ies) <> Ok (h', ies).
Proof.
  intros Hh Hi Hf. unfold Parse. rewrite ParseHeader_Marshal by done.
  case_decide as Hd; [|done]. cbn [rbind].
  destruct (ParseIEs _) as [ies'|e] eqn:E; [|done]. intros [= _ ->].
  apply ParseIEs_exact in E as [_ E].
  - apply (f_equal length) in E. rewrite length_take in E.
    pose proof (uN_range 16 (message_length h ies)) as HL. unfold fits, in_u, message_length in *. lia.
  - apply bytes_ok_take, Forall_flat_map, (Forall_impl _ _ _ Hi).
    intros i (_ & Hv & _). unfold IE_Marshal.
    repeat (apply bytes_ok_app; split); [apply be_bytes_ok..|done].
Qed.

(** ** Properties *)

(** C35: a PFCP message, node-level or session-level, that fits the 16-bit length
    field parses back to its header (with the length filled in) and its IEs.
    [Marshal] does not check that it fits: a longer message is sent with a wrapped
    length, and no receiver gets its IEs back from it. *)
Theorem wire_roundtrip h ies :
  Header_wf h -> Forall IE_wf ies ->
  (fits h ies -> Parse (Marshal h ies) = Ok (with_length h ies, ies)) /\
  (~ fits h ies -> forall h', Parse (Marshal h ies) <> Ok (h', ies)).
Proof.
  intros Hh Hi. split; [by apply Parse_marshalled_message|]. intros Hf h'. by apply Parse_Marshal_wraps.
Qed.

Lemma wire_roundtrip_witness :
  let h := mkHeader 1 true 50 0 0x1122334455667788 0x010203 in
  Parse (Marshal h [NewPDRID 7; NewCause 1]) = Ok (h <| Length := 23 |>, [NewPDRID 7; NewCause 1]).
Proof.
  intros h. apply (wire_roundtrip h [NewPDRID 7; NewCause 1]); by_compute.
Defined.

(** Each of the sixteen typed parsers implements its row of the message tables of
    TS 29.244: it returns on a datagram exactly when the header is at the right level
    with the right type (and SEID zero in an establishment request), every mandatory
    IE is present, and so are the UP F-SEID of an accepted establishment and the path
    failure report announced by a node report; what it returns are the last IE of
    each single type and all IEs of each list type.  Hence whatever a peer marshals
    with these IEs is received as such. *)
Lemma typed_parsers {R} (parse : bytes -> result MessageError R) L build :
  (MessageParser parse L build -> forall h ies,
     Header_wf h -> Forall IE_wf ies -> fits h ies -> accepts L (with_length h ies) ies = true ->
     parse (Marshal h ies) = Ok (build (with_length h ies) ies)) /\
  MessageParser ParseAssociationSetupRequest ASReq_layout ASReq_build /\
  MessageParser ParseAssociationSetupResponse ASResp_layout ASResp_build /\
  MessageParser ParseHeartbeatRequest HBReq_layout HBReq_build /\
  MessageParser ParseHeartbeatResponse HBResp_layout HBResp_build /\
  MessageParser ParseSessionEstablishmentRequest SEReq_layout SEReq_build /\
  MessageParser ParseSessionEstablishmentResponse SEResp_layout SEResp_build /\
  MessageParser ParseSessionModificationRequest SMReq_layout SMReq_build /\
  MessageParser ParseSessionModificationResponse SMResp_layout SMResp_build /\
  MessageParser ParseSessionDeletionRequest SDReq_layout SDReq_build /\
  MessageParser ParseSessionDeletionResponse SDResp_layout SDResp_build /\
  MessageParser ParseAssociationReleaseRequest ARReq_layout ARReq_build /\
  MessageParser ParseAssociationReleaseResponse ARResp_layout ARResp_build /\
  MessageParser ParseNodeReportRequest NRReq_layout NRReq_build /\
  MessageParser ParseNodeReportResponse NRResp_layout NRResp_build /\
  MessageParser ParseSessionReportRequest SRReq_layout SRReq_build /\
  MessageParser ParseSessionReportResponse SRResp_layout SRResp_build.
Proof.
  split; [|repeat (split; [apply _|]); apply _].
  intros HP h ies Hh Hi Hf Ha. apply parser_spec. exists (with_length h ies), ies.
  split; [by apply Parse_marshalled_message|done].
Qed.
