(* ===== verification/PfcpTransport.v ===== *)
(** * PFCP transport ([internal/pfcp/transport/transport.go])

    The transaction layer of a PFCP socket: the sequence counter, the pending table of
    outbound requests, the response cache and the in-flight set.  Unlike the GTPv2-C
    transport its keys are only the peer address and the sequence number, and a
    datagram is first offered to the pending table whatever its message type.  Each
    critical section is a function on the connection state; the clock, the outcome of
    a socket write and the registered handler are arguments, writes and handler calls
    are emitted. *)

From S2P Require Import Prelude GoLib PfcpIe PfcpMessage.

(** ** State *)

Record retransmitKey := mkRetransmitKey { rk_addr : string; rk_seq : Z }.
#[export] Instance retransmitKey_eq_dec : EqDecision retransmitKey.
Proof. solve_decision. Defined.
#[export] Instance retransmitKey_countable : Countable retransmitKey.
Proof.
  refine (inj_countable' (fun k => (rk_addr k, rk_seq k)) (fun '(a, s) => mkRetransmitKey a s) _).
  by intros [].
Defined.

Record transactionKey := mkTransactionKey { tk_addr : string; tk_seq : Z }.
#[export] Instance transactionKey_eq_dec : EqDecision transactionKey.
Proof. solve_decision. Defined.
#[export] Instance transactionKey_countable : Countable transactionKey.
Proof.
  refine (inj_countable' (fun k => (tk_addr k, tk_seq k)) (fun '(a, s) => mkTransactionKey a s) _).
  by intros [].
Defined.

Record cachedResponse := mkCachedResponse { cr_raw : bytes; cr_expires : time }.
Record pendingResult := mkPendingResult { res_raw : bytes }.

(** A pending request: its one-place result channel and whether its context was
    cancelled. *)
Record pendingRequest := mkPendingRequest {
  pr_addr : string; pr_raw : bytes; pr_result : list pendingResult; pr_cancelled : bool }.
#[export] Instance eta_pendingRequest : Eta pendingRequest := fun p =>
  mkPendingRequest (pr_addr p) (pr_raw p) (pr_result p) (pr_cancelled p).

(** [preqs] is the heap of request objects, which outlive their table entry. *)
Record Conn := mkConn {
  n1 : nat; seqVal : Z;
  pending : gmap transactionKey nat; preqs : gmap nat pendingRequest;
  inboundCache : gmap retransmitKey cachedResponse; inFlight : gset retransmitKey;
  handler_set : bool }.
#[export] Instance eta_Conn : Eta Conn := fun c =>
  mkConn (n1 c) (seqVal c) (pending c) (preqs c) (inboundCache c) (inFlight c) (handler_set c).

Definition inboundCacheTTL : duration := 30 * Second.

Definition Listen (n1 : nat) : Conn := mkConn n1 0 ∅ ∅ ∅ ∅ false.
Definition SetHandler (c : Conn) : Conn := c <| handler_set := true |>.

Inductive output :=
| WriteToUDP (addr : string) (raw : bytes)
| CallHandler (addr : string) (hdr : Header) (raw : bytes).

Definition AllocSeq (c : Conn) : Z * Conn :=
  let v := Z.land (u32 (seqVal c + 1)) 0xFFFFFF in (v, c <| seqVal := v |>).

Definition extractSeq (raw : bytes) : result MessageError Z :=
  let? (h, _) := ParseHeader raw in Ok (SequenceNumber h).

(** ** Inbound *)

Definition deliverResponse (addr : string) (seq : Z) (raw : bytes) (c : Conn) : bool * Conn :=
  let key := mkTransactionKey addr seq in
  match pending c !! key with
  | None => (false, c)
  | Some id =>
      let send pr := pr <| pr_result := pr_result pr ++ [mkPendingResult raw] |>
                        <| pr_cancelled := true |> in
      (true, c <| pending := delete key (pending c) |> <| preqs := alter send id (preqs c) |>)
  end.

Definition checkAndMarkInFlight (now : time) (key : retransmitKey) (c : Conn)
    : option bytes * bool * Conn :=
  let mark (c : Conn) :=
    if decide (key ∈ inFlight c) then (None, true, c)
    else (None, false, c <| inFlight := {[ key ]} ∪ inFlight c |>) in
  match inboundCache c !! key with
  | Some entry =>
      if negb (After now (cr_expires entry)) then (Some (cr_raw entry), false, c)
      else mark (c <| inboundCache := delete key (inboundCache c) |>)
  | None => mark c
  end.

Definition clearInFlight (key : retransmitKey) (c : Conn) : Conn :=
  c <| inFlight := inFlight c ∖ {[ key ]} |>.

Definition storeInboundCache (now : time) (key : retransmitKey) (resp : bytes) (c : Conn) : Conn :=
  let live := filter (fun kv => After now (cr_expires kv.2) = false) (inboundCache c) in
  c <| inboundCache :=
         <[key := mkCachedResponse (copy_into (length resp) resp) (Add now inboundCacheTTL)]> live |>.

(** [Reply]; [ok] is the outcome of the write. *)
Definition Reply (ok : bool) (now : time) (addr : string) (raw : bytes) (c : Conn)
    : list output * Conn :=
  ([WriteToUDP addr raw],
   if ok then
     match ParseHeader raw with
     | Ok (h, _) => storeInboundCache now (mkRetransmitKey addr (SequenceNumber h)) raw c
     | Err _ => c
     end
   else c).

(** [run] is the registered handler, called by the dispatching goroutine. *)
Definition dispatch (run : string -> Header -> bytes -> Conn -> list output * Conn)
    (now : time) (addr : string) (raw : bytes) (c : Conn) : list output * Conn :=
  match ParseHeader raw with
  | Err _ => ([], c)
  | Ok (h, _) =>
      match deliverResponse addr (SequenceNumber h) raw c with
      | (true, c) => ([], c)
      | (false, c) =>
          let key := mkRetransmitKey addr (SequenceNumber h) in
          match checkAndMarkInFlight now key c with
          | (Some cached, _, c) => ([WriteToUDP addr cached], c)
          | (None, true, c) => ([], c)
          | (None, false, c) =>
              if handler_set c then
                let '(out, c) := run addr h raw c in
                (CallHandler addr h raw :: out, clearInFlight key c)
              else ([], clearInFlight key c)
          end
      end
  end.

(** ** Outbound *)

Inductive SendError :=
| SendBadHeader (e : MessageError)
| SendWriteError
| SendCancelled (ctxErr : string)
| SendNoResponse (attempts : nat) (seq : Z).

(** The registration of [Send]: the map entry is overwritten without a test. *)
Definition Send_register (id : nat) (addr : string) (raw : bytes) (c : Conn)
    : result SendError (transactionKey * Conn) :=
  match extractSeq raw with
  | Err e => Err (SendBadHeader e)
  | Ok seq =>
      let key := mkTransactionKey addr seq in
      Ok (key, c <| pending := <[key := id]> (pending c) |>
                 <| preqs := <[id := mkPendingRequest addr raw [] false]> (preqs c) |>)
  end.
Definition Send_cleanup (key : transactionKey) (c : Conn) : Conn :=
  c <| pending := delete key (pending c) |>.

Inductive attempt :=
| WriteFails
| Responds (r : pendingResult)
| ContextDone (ctxErr : option string)
| T1Expires.

(** The T1/N1 loop: [n] attempts are left and the script says how they end, an
    exhausted script standing for timer expiries.  [Ok None] is a nil response with a
    nil error: the loop waits on the child context, which the delivery cancels, but
    returns the error of the caller's context. *)
Fixpoint Send_loop (n : nat) (n1 : nat) (seq : Z) (addr : string) (raw : bytes)
    (script : list attempt) : list output * result SendError (option bytes) :=
  match n with
  | O => ([], Err (SendNoResponse n1 seq))
  | S n =>
      match script with
      | WriteFails :: _ => ([], Err SendWriteError)
      | Responds r :: _ => ([WriteToUDP addr raw], Ok (Some (res_raw r)))
      | ContextDone (Some e) :: _ => ([WriteToUDP addr raw], Err (SendCancelled e))
      | ContextDone None :: _ => ([WriteToUDP addr raw], Ok None)
      | T1Expires :: script' =>
          let '(out, r) := Send_loop n n1 seq addr raw script' in
          (WriteToUDP addr raw :: out, r)
      | [] =>
          let '(out, r) := Send_loop n n1 seq addr raw [] in
          (WriteToUDP addr raw :: out, r)
      end
  end.

Definition select_ready (ctxErr : option string) (pr : pendingRequest) : list attempt :=
  (Responds <$> take 1 (pr_result pr))
  ++ (if pr_cancelled pr || bool_decide (is_Some ctxErr) then [ContextDone ctxErr] else []).

(** ** Lemmas *)

(** A live cache entry for the key. *)
Definition live (now : time) (key : retransmitKey) (c : Conn) : option bytes :=
  match inboundCache c !! key with
  | Some e => if negb (After now (cr_expires e)) then Some (cr_raw e) else None
  | None => None
  end.

Lemma checkAndMark_live now key c raw :
  live now key c = Some raw -> checkAndMarkInFlight now key c = (Some raw, false, c).
Proof.
  unfold live, checkAndMarkInFlight. destruct (inboundCache c !! key); [|done].
  destruct (negb _); [|done]. by intros [= <-].
Qed.

Lemma checkAndMark_dead now key c :
  live now key c = None ->
  exists c', checkAndMarkInFlight now key c = (None, bool_decide (key ∈ inFlight c), c') /\
    inFlight c' = {[ key ]} ∪ inFlight c /\ pending c' = pending c /\ preqs c' = preqs c /\
    handler_set c' = handler_set c.
Proof.
  unfold live, checkAndMarkInFlight. intros H.
  assert (Hset : key ∈ inFlight c -> inFlight c = {[ key ]} ∪ inFlight c) by set_solver.
  destruct (inboundCache c !! key) as [e|]; [destruct (negb _); [done|]|]; cbn;
    (destruct (decide (key ∈ inFlight c)); [rewrite bool_decide_true by done|rewrite bool_decide_false by done]);
    eexists; (split; [reflexivity|]); cbn; auto.
Qed.

Lemma Reply_live ok now now' addr raw h body c :
  ok = true -> ParseHeader raw = Ok (h, body) -> now' <= now + inboundCacheTTL ->
  live now' (mkRetransmitKey addr (SequenceNumber h)) (Reply ok now addr raw c).2 = Some raw.
Proof.
  intros -> Hh Hn. unfold Reply, live. rewrite Hh. cbn. rewrite lookup_insert_eq. cbn.
  unfold After, Add. rewrite (proj2 (Z.ltb_ge _ _)) by lia. by rewrite copy_into_length.
Qed.

Lemma deliverResponse_None addr seq raw c :
  pending c !! mkTransactionKey addr seq = None -> deliverResponse addr seq raw c = (false, c).
Proof. unfold deliverResponse. by intros ->. Qed.

Lemma dispatch_request run now addr raw h body c :
  ParseHeader raw = Ok (h, body) ->
  pending c !! mkTransactionKey addr (SequenceNumber h) = None ->
  let key := mkRetransmitKey addr (SequenceNumber h) in
  dispatch run now addr raw c =
    match checkAndMarkInFlight now key c with
    | (Some cached, _, c) => ([WriteToUDP addr cached], c)
    | (None, true, c) => ([], c)
    | (None, false, c) =>
        if handler_set c then
          let '(out, c) := run addr h raw c in
          (CallHandler addr h raw :: out, clearInFlight key c)
        else ([], clearInFlight key c)
    end.
Proof. intros Hh Hp. unfold dispatch. by rewrite Hh, deliverResponse_None. Qed.

Lemma Send_loop_outcome n n1 seq addr raw script :
  exists k, (k <= n)%nat /\ (Send_loop n n1 seq addr raw script).1 = replicate k (WriteToUDP addr raw) /\
  (forall m s, (Send_loop n n1 seq addr raw script).2 = Err (SendNoResponse m s) ->
     k = n /\ m = n1 /\ s = seq).
Proof.
  revert script. induction n as [|n IH]; intros script; cbn [Send_loop].
  { exists O. split_and!; try done. by intros m s [= <- <-]. }
  assert (Hrec : forall sc, exists k, (k <= S n)%nat /\
     (let '(out, r) := Send_loop n n1 seq addr raw sc in (WriteToUDP addr raw :: out, r)).1
       = replicate k (WriteToUDP addr raw) /\
     (forall m s, (let '(out, r) := Send_loop n n1 seq addr raw sc in (WriteToUDP addr raw :: out, r)).2
        = Err (SendNoResponse m s) -> k = S n /\ m = n1 /\ s = seq)).
  { intros sc. destruct (IH sc) as (k & Hk & E & Hr).
    destruct (Send_loop n n1 seq addr raw sc) as [out r]; cbn in *. exists (S k).
    split; [lia|]. split; [by rewrite E|]. intros m s ->. destruct (Hr m s eq_refl) as (-> & ?). done. }
  destruct script as [|[|r|[e|]|] script]; [apply Hrec| | | | |apply Hrec].
  - exists O. split; [lia|]. by split.
  - exists 1%nat. split; [lia|]. by split.
  - exists 1%nat. split; [lia|]. by split.
  - exists 1%nat. split; [lia|]. by split.
Qed.

(** ** Properties *)

(** The handler answers [addr] with [resp], for the sequence number it was called
    with, and leaves the pending table of that peer and number alone. *)
Definition answers (run : string -> Header -> bytes -> Conn -> list output * Conn)
    (addr : string) (h : Header) (now : time) (resp : bytes) : Prop :=
  forall raw c, exists c1,
    pending (run addr h raw c).2 = pending c /\
    run addr h raw c = Reply true now addr resp c1 /\
    exists hr body, ParseHeader resp = Ok (hr, body) /\ SequenceNumber hr = SequenceNumber h.

(** What a PFCP socket does with a datagram, by cases in the order of the code.
    When a request to that peer with the same sequence number is pending the datagram
    is handed to it, whatever its message type: so a request the peer happens to send
    with that number is never handled, and the waiting send returns it as its
    response.  Otherwise a live cached response is sent again; a request that is being
    handled is dropped; any other is given to the handler once, and when the handler
    replies, every retransmission within the cache lifetime is answered with the very
    same response and leaves the state as it is. *)
Lemma datagram_handling run now addr raw h body c :
  ParseHeader raw = Ok (h, body) ->
  let seq := SequenceNumber h in
  let key := mkRetransmitKey addr seq in
  (forall id pr, pending c !! mkTransactionKey addr seq = Some id -> preqs c !! id = Some pr ->
     pr_result pr = [] ->
     exists c', dispatch run now addr raw c = ([], c') /\
       pending c' = delete (mkTransactionKey addr seq) (pending c) /\
       exists pr', preqs c' !! id = Some pr' /\
         select_ready None pr' = [Responds (mkPendingResult raw); ContextDone None] /\
         forall n req, (Send_loop (S n) (S n) seq addr req [Responds (mkPendingResult raw)]).2
           = Ok (Some raw)) /\
  (pending c !! mkTransactionKey addr seq = None ->
     (forall resp, live now key c = Some resp ->
        dispatch run now addr raw c = ([WriteToUDP addr resp], c)) /\
     (live now key c = None -> key ∈ inFlight c ->
        exists c', dispatch run now addr raw c = ([], c') /\ inFlight c' = inFlight c) /\
     (live now key c = None -> key ∉ inFlight c -> handler_set c = true ->
        (exists out c1 c2, dispatch run now addr raw c = (CallHandler addr h raw :: out, clearInFlight key c2) /\
           inFlight c1 = {[ key ]} ∪ inFlight c /\ run addr h raw c1 = (out, c2)) /\
        forall resp, answers run addr h now resp ->
        forall now', now' <= now + inboundCacheTTL ->
          let c' := (dispatch run now addr raw c).2 in
          dispatch run now' addr raw c' = ([WriteToUDP addr resp], c'))).
Proof.
  intros Hh seq key. split.
  - intros id pr Hp Hpr Hr. unfold dispatch. rewrite Hh. fold seq. unfold deliverResponse. rewrite Hp.
    eexists. split; [done|]. split; [done|]. cbn. rewrite lookup_alter_eq, Hpr. eexists. split; [done|].
    unfold select_ready. cbn. by rewrite Hr.
  - intros Hp. pose proof (dispatch_request run now addr raw h body c Hh Hp) as Hd. fold seq key in Hd.
    rewrite Hd. split; [intros resp Hl; by rewrite (checkAndMark_live _ _ _ _ Hl)|].
    split; intros Hl Hin; destruct (checkAndMark_dead _ _ _ Hl) as (c1 & E & Hf & Hp1 & _ & Hs).
    + rewrite E, bool_decide_true by done. exists c1. split; [done|]. rewrite Hf. set_solver.
    + rewrite E, bool_decide_false, Hs by done. intros ->.
      destruct (run addr h raw c1) as [out c2] eqn:Er. split; [by exists out, c1, c2|].
      intros resp Ha now' Hn. destruct (Ha raw c1) as (c3 & Hpend & Er' & hr & b' & Hhr & Hseq).
      rewrite Er in Er', Hpend. cbn [snd] in *.
      assert (Hlv : live now' key (clearInFlight key c2) = Some resp).
      { change c2 with (out, c2).2. rewrite Er'. unfold key, seq. rewrite <- Hseq.
        by apply (Reply_live true now now' addr resp hr b' c3). }
      rewrite (dispatch_request run now' addr raw h body) by (done || by cbn; rewrite Hpend, Hp1).
      fold seq key. by rewrite (checkAndMark_live _ _ _ _ Hlv).
Qed.

Definition example_request : bytes :=
  Marshal (mkHeader 1 false MsgTypeHeartbeatRequest 0 0 9) [NewRecoveryTimeStamp 77].
Definition example_response : bytes :=
  Marshal (mkHeader 1 false MsgTypeHeartbeatResponse 0 0 9) [NewRecoveryTimeStamp 78].
Definition example_run (addr : string) (h : Header) (raw : bytes) (c : Conn) : list output * Conn :=
  Reply true 100 addr example_response c.
Definition example_conn : Conn := SetHandler (Listen 3).

Lemma example_answers h : SequenceNumber h = 9 ->
  answers example_run "10.0.0.1:8805" h 100 example_response.
Proof.
  intros Hs raw c. exists c. split; [done|]. split; [done|].
  eexists _, _. split; [by vm_compute|]. by rewrite Hs.
Qed.

Lemma example_not_pending : pending example_conn !! mkTransactionKey "10.0.0.1:8805" 9 = None.
Proof. by vm_compute. Qed.
Lemma example_not_live :
  live 100 (mkRetransmitKey "10.0.0.1:8805" 9) example_conn = None /\
  mkRetransmitKey "10.0.0.1:8805" 9 ∉ inFlight example_conn.
Proof. split; [by vm_compute|]. cbn. set_solver. Qed.
