(* ===== verification/PfcpServer.v ===== *)
(** * SGW-U PFCP server ([internal/sgwu/pfcpserver/server.go])

    The server state, every message handler as one function from a datagram and the
    state to the effects it has (replies, dataplane calls, end markers, path peers) and
    the new state, and the node reports it originates.  The peer table is a map of
    pointers to peer records, because one record is registered under two keys.  What
    the handlers read from outside is gathered in [env]: the clock, addresses for new
    objects, map iteration orders, the outcome of the dataplane calls and the random
    words of the TEID allocations.  A nil-pointer dereference, a failed random source or
    [As4] of an address that is not IPv4 is [Panic]. *)

From S2P Require Import Prelude GoLib PfcpIe PfcpMessage SgwuStore.
#[local] Open Scope string_scope.
#[local] Open Scope list_scope.
#[local] Open Scope Z_scope.

(** ** State *)

Record PeerRecord := mkPeerRecord {
  pr_nodeIDKey : string; recoveryTS : Z; lastSeen : time; lastAddr : option UDPAddr }.
#[export] Instance eta_PeerRecord : Eta PeerRecord := fun p =>
  mkPeerRecord (pr_nodeIDKey p) (recoveryTS p) (lastSeen p) (lastAddr p).

Record Server := mkServer {
  localNodeID : bytes; localIP : Addr; accessIP : Addr; coreIP : Addr; localTS : Z;
  allowedNets : list IPNet;
  peers : gmap string nat; records : gmap nat PeerRecord;
  sessions : Store;
  has_emSender : bool; has_bpfInstall : bool; has_pathPeers : bool }.
#[export] Instance eta_Server : Eta Server := fun s =>
  mkServer (localNodeID s) (localIP s) (accessIP s) (coreIP s) (localTS s) (allowedNets s)
    (peers s) (records s) (sessions s) (has_emSender s) (has_bpfInstall s) (has_pathPeers s).
#[export] Instance eta_PDR : Eta PDR := fun p =>
  mkPDR (pd_ID p) (Precedence p) (SourceInterface p) (LocalTEID p) (LocalIP p) (pd_FARID p)
    (pd_EBI p) (pd_QCI p) (pd_QoSValid p).
#[export] Instance eta_FAR : Eta FAR := fun f =>
  mkFAR (fa_ID f) (ApplyAction f) (DestInterface f) (OuterTEID f) (OuterIP f) (fa_DropReason f).

Record env := mkEnv {
  e_now : time;
  e_session : nat; e_peer : nat;             (* addresses of new objects *)
  e_session_order : list Z; e_peer_order : list string;
  e_install_ok : bool; e_update_ok : bool;   (* outcomes of the dataplane calls *)
  e_fuel : nat; e_random : nat -> nat -> option Z (* words of the k-th TEID allocation *) }.

Inductive effect :=
| Reply (addr : UDPAddr) (raw : bytes)
| InstallSession (sess : Session)
| UpdateSession (sess : Session)
| RemoveSession (sess : Session)
| SendEndMarker (teid : Z) (dstIP : Addr)
| AddPathPeer (peer : Addr)
| Send (addr : UDPAddr) (raw : bytes).

Inductive stop := Panic | OutOfFuel.
(** An error of a helper, with the cause its caller answers. *)
Inductive failure := Stop (p : stop) | Reject (cause : Z).

Record parsedFARUpdate := mkFARUpdate { u_farID : Z; applyAction : option IE; ufpIE : option IE }.
Record endMarkerEvent := mkEndMarkerEvent { em_farID : Z; em_teid : Z; em_dstIP : Addr }.

Definition ntpEpochOffset : Z := 2208988800.

(** ** Go idioms: [v, _ := f()], a method on a pointer, a loop that returns early *)

Definition or_zero {E} (r : result E Z) : Z := match r with Ok v => v | Err _ => 0 end.
Definition or_nil {E A} (r : result E (list A)) : list A := match r with Ok l => l | Err _ => [] end.
Definition deref (i : option IE) : result failure IE :=
  match i with Some i => Ok i | None => Err (Stop Panic) end.
Definition or_reject {E A} (cause : Z) (r : result E A) : result failure A :=
  match r with Ok a => Ok a | Err _ => Err (Reject cause) end.
Definition nil (ies : list IE) (t : Z) : bool :=
  match Find ies t with Some _ => false | None => true end.
Fixpoint for_each {A} (f : A -> result failure unit) (l : list A) : result failure unit :=
  match l with [] => Ok tt | x :: l => let? _ := f x in for_each f l end.
Fixpoint collect {A B} (f : A -> result failure B) (l : list A) : result failure (list B) :=
  match l with
  | [] => Ok []
  | x :: l => let? y := f x in let? ys := collect f l in Ok (y :: ys)
  end.

(** ** Peers *)

Definition isAllowed (ip : bytes) (s : Server) : bool :=
  match allowedNets s with [] => true | nets => existsb (fun n => Contains n ip) nets end.

Definition nodeIDKey (nodeID : option IE) : string :=
  match nodeID with
  | None => ""
  | Some i => match NodeIDIPv4 i with Some ip => "ipv4:" +:+ IP_String ip | None => "" end
  end.
Definition sourceKey (addr : UDPAddr) : string := "ipv4:" +:+ IP_String (ua_IP addr).
Definition cpNodeKey (nodeID : option IE) (addr : UDPAddr) : string :=
  let key := nodeIDKey nodeID in if String.eqb key "" then sourceKey addr else key.

Definition hasAssociation (addr : UDPAddr) (s : Server) : bool :=
  bool_decide (is_Some (peers s !! sourceKey addr)).

(** ** Responses *)

Definition node_response (typ seq : Z) (ies : list IE) : bytes :=
  Marshal (mkHeader 1 false typ 0 0 seq) ies.
Definition session_response (typ seid seq : Z) (ies : list IE) : bytes :=
  Marshal (mkHeader 1 true typ 0 seid seq) ies.

Definition session_est_refusal (cause : Z) (hdr : Header) (s : Server) : bytes :=
  session_response MsgTypeSessionEstablishmentResponse 0 (SequenceNumber hdr)
    [NewNodeIDIPv4 (localNodeID s); NewCause cause].
Definition replySessionEstRejection (addr : UDPAddr) (hdr : Header) (s : Server) : effect :=
  Reply addr (session_est_refusal CauseRequestRejected hdr s).
Definition replySessionEstNoAssoc (addr : UDPAddr) (hdr : Header) (s : Server) : effect :=
  Reply addr (session_est_refusal CauseNoEstablishedAssociation hdr s).
Definition replySessionEstRuleFailure (addr : UDPAddr) (hdr : Header) (s : Server) : effect :=
  Reply addr (session_est_refusal CauseRuleCreationFailure hdr s).
Definition session_mod_refusal (cause seq : Z) : bytes :=
  session_response MsgTypeSessionModificationResponse 0 seq [NewCause cause].
Definition replySessionModRejection (addr : UDPAddr) (req : SessionModificationRequest) : effect :=
  Reply addr (session_mod_refusal CauseRequestRejected (SequenceNumber (SMReq_Header req))).
Definition replySessionModRuleFailure (addr : UDPAddr) (req : SessionModificationRequest) : effect :=
  Reply addr (session_mod_refusal CauseRuleCreationFailure (SequenceNumber (SMReq_Header req))).

Definition step : Type := result stop (list effect * Server).

(** ** Association setup, heartbeat, release *)

Definition handleAssocSetup (e : env) (addr : UDPAddr) (hdr : Header) (raw : bytes) (s : Server)
    : step :=
  match ParseAssociationSetupRequest raw with
  | Err _ =>
      Ok ([Reply addr (node_response MsgTypeAssociationSetupResponse (SequenceNumber hdr)
             [NewNodeIDIPv4 (localNodeID s); NewCause CauseRequestRejected;
              NewRecoveryTimeStamp (localTS s)])], s)
  | Ok req =>
      match ASReq_RecoveryTimeStamp req with
      | None => Err Panic
      | Some ts =>
          let peerTS := or_zero (RecoveryTimeStampValue ts) in
          let key := nodeIDKey (ASReq_NodeID req) in
          let peerKey := if String.eqb key "" then "addr:" +:+ UDPAddr_String addr else key in
          let alias r s :=
            if String.eqb (sourceKey addr) peerKey then s
            else s <| peers := <[sourceKey addr := r]> (peers s) |> in
          let s' :=
            match peers s !! peerKey with
            | Some r =>
                let touch pr := pr <| recoveryTS := peerTS |> <| lastSeen := e_now e |>
                                   <| lastAddr := Some addr |> in
                alias r (s <| records := alter touch r (records s) |>)
            | None =>
                let r := e_peer e in
                alias r (s <| records := <[r := mkPeerRecord peerKey peerTS (e_now e) (Some addr)]>
                                           (records s) |>
                           <| peers := <[peerKey := r]> (peers s) |>)
            end in
          Ok ([Reply addr (node_response MsgTypeAssociationSetupResponse
                 (SequenceNumber (ASReq_Header req))
                 [NewNodeIDIPv4 (localNodeID s); NewCause CauseRequestAccepted;
                  NewRecoveryTimeStamp (localTS s); NewUPFunctionFeatures UPFunctionFeaturesFTUP])], s')
      end
  end.

(** The sessions removed from the store, which the dataplane then forgets. *)
Definition removals (deleted : list sref) (s : Server) : list effect :=
  if has_bpfInstall s
  then RemoveSession <$> omap (fun l => objects (sessions s) !! l) deleted else [].

Definition deletePeerSessions (e : env) (peerKey : string) (s : Server) : list effect * Server :=
  let '(deleted, st) := DeleteByCPNodeKey (e_session_order e) peerKey (sessions s) in
  (removals deleted s, s <| sessions := st |>).

Definition handleHeartbeat (e : env) (addr : UDPAddr) (raw : bytes) (s : Server) : step :=
  match ParseHeartbeatRequest raw with
  | Err _ => Ok ([], s)
  | Ok req =>
      match HBReq_RecoveryTimeStamp req with
      | None => Err Panic
      | Some ts =>
          let peerTS := or_zero (RecoveryTimeStampValue ts) in
          let key := sourceKey addr in
          let '(out, s') :=
            match peers s !! key with
            | None => ([], s)
            | Some r =>
                let touch pr := pr <| recoveryTS := peerTS |> <| lastSeen := e_now e |> in
                let restarted :=
                  match records s !! r with
                  | Some pr => negb (recoveryTS pr =? 0) && negb (peerTS =? recoveryTS pr)
                  | None => false
                  end in
                let '(out, s') := if restarted then deletePeerSessions e key s else ([], s) in
                (out, s' <| records := alter touch r (records s') |>)
            end in
          Ok (out ++ [Reply addr (node_response MsgTypeHeartbeatResponse
                        (SequenceNumber (HBReq_Header req)) [NewRecoveryTimeStamp (localTS s)])], s')
      end
  end.

Definition handleAssociationRelease (e : env) (addr : UDPAddr) (raw : bytes) (s : Server) : step :=
  match ParseAssociationReleaseRequest raw with
  | Err _ => Ok ([], s)
  | Ok req =>
      let peerKey := cpNodeKey (ARReq_NodeID req) addr in
      let '(out, s') := deletePeerSessions e peerKey s in
      Ok (out ++ [Reply addr (node_response MsgTypeAssociationReleaseResponse
                    (SequenceNumber (ARReq_Header req))
                    [NewNodeIDIPv4 (localNodeID s); NewCause CauseRequestAccepted])],
          s' <| peers := delete peerKey (peers s') |>)
  end.

(** ** Local F-TEIDs *)

Definition localGTPUIPForSource (sourceInterface : Z) (s : Server) : option Addr :=
  if sourceInterface =? SourceInterfaceAccess then Some (accessIP s)
  else if sourceInterface =? SourceInterfaceCore then Some (coreIP s)
  else None.

Definition newCreatedPDRForSource (pdrID teid sourceInterface : Z) (s : Server)
    : result failure (Addr * IE) :=
  match localGTPUIPForSource sourceInterface s with
  | None => Err (Reject CauseRuleCreationFailure)
  | Some ip =>
      match NewFTEIDv4 teid ip with
      | None => Err (Stop Panic)
      | Some fteid => Ok (ip, NewCreatedPDR [NewPDRID pdrID; fteid])
      end
  end.

Definition alloc_teid (e : env) (k : nat) (s : Server) : result failure Z :=
  match AllocTEID (e_fuel e) (e_random e k) 0 (sessions s) with
  | None => Err (Stop OutOfFuel)
  | Some None => Err (Stop Panic)
  | Some (Some v) => Ok v
  end.

(** The TEID, address and Created PDR IE of the [k]-th rule with CHOOSE. *)
Definition chosen (e : env) (k : nat) (pdr : PDR) (s : Server) : result failure (PDR * list IE) :=
  let? teid := alloc_teid e k s in
  let? (ip, created) := newCreatedPDRForSource (pd_ID pdr) teid (SourceInterface pdr) s in
  Ok (pdr <| LocalTEID := teid |> <| LocalIP := ip |>, [created]).

Definition with_qos (children : list IE) (pdr : PDR) : result failure PDR :=
  match Find children TypeVectorCoreQoSMarking with
  | None => Ok pdr
  | Some i =>
      let? (ebi, qci, valid) := or_reject CauseRuleCreationFailure (VectorCoreQoSMarkingValue i) in
      Ok (pdr <| pd_EBI := ebi |> <| pd_QCI := qci |> <| pd_QoSValid := valid |>)
  end.
Definition with_precedence (prec : option IE) (pdr : PDR) : PDR :=
  match prec with
  | Some i => if bool_decide (4 <= length (IE_Value i))%nat
              then pdr <| Precedence := field 0 4 i |> else pdr
  | None => pdr
  end.

(** ** Session establishment *)

Definition rule_check (c : bool) : result failure unit := guard c (Reject CauseRuleCreationFailure).

(** The validation pass over one Create PDR. *)
Definition validate_pdr (i : IE) : result failure unit :=
  let? children := or_reject CauseRequestRejected (Children i) in
  let? _ := rule_check (negb (nil children TypePDRID || nil children TypePrecedence
                              || nil children TypePDI)) in
  let? _ := rule_check (negb (nil children TypeFARID && nil children TypeActivatePredefinedRules)) in
  let? pdiIE := deref (Find children TypePDI) in
  let? pdiChildren := or_reject CauseRuleCreationFailure (Children pdiIE) in
  rule_check (negb (nil pdiChildren TypeSourceInterface)).

(** The validation pass over one Create FAR. *)
Definition validate_far (i : IE) : result failure unit :=
  let? children := or_reject CauseRequestRejected (Children i) in
  let? _ := rule_check (negb (nil children TypeFARID || nil children TypeApplyAction)) in
  let? aaIE := deref (Find children TypeApplyAction) in
  if flag (or_zero (ApplyActionValue aaIE)) ApplyActionFORW then
    match Find children TypeForwardingParameters with
    | None => Err (Reject CauseRuleCreationFailure)
    | Some fpIE =>
        let? fpChildren := or_reject CauseRuleCreationFailure (Children fpIE) in
        rule_check (negb (nil fpChildren TypeDestinationInterface))
    end
  else Ok tt.

(** The allocation pass over one Create PDR; [k] allocations were made before. *)
Definition build_pdr (e : env) (s : Server) (k : nat) (i : IE) : result failure (PDR * list IE) :=
  let children := or_nil (Children i) in
  let? pdrIDIE := deref (Find children TypePDRID) in
  let? farIDIE := deref (Find children TypeFARID) in
  let? pdiIE := deref (Find children TypePDI) in
  let pdiChildren := or_nil (Children pdiIE) in
  let? srcIfaceIE := deref (Find pdiChildren TypeSourceInterface) in
  let? pdr := with_qos children
    (mkPDR (or_zero (PDRIDValue pdrIDIE)) 0 (or_zero (SourceInterfaceValue srcIfaceIE)) 0 AddrZero
       (or_zero (FARIDValue farIDIE)) 0 0 false) in
  let pdr := with_precedence (Find children TypePrecedence) pdr in
  match Find pdiChildren TypeFTEID with
  | None => Ok (pdr, [])
  | Some fteidIE =>
      let? (_, isCH) := or_reject CauseRuleCreationFailure (FTEIDPFCPValue fteidIE) in
      if isCH then chosen e k pdr s else Ok (pdr, [])
  end.

Fixpoint build_pdrs (e : env) (s : Server) (k : nat) (ies : list IE)
    : result failure (list PDR * list IE) :=
  match ies with
  | [] => Ok ([], [])
  | i :: ies =>
      let? (pdr, created) := build_pdr e s k i in
      let? (pdrs, createds) := build_pdrs e s (k + length created) ies in
      Ok (pdr :: pdrs, created ++ createds)
  end.

Definition build_far (i : IE) : result failure FAR :=
  let children := or_nil (Children i) in
  let? farIDIE := deref (Find children TypeFARID) in
  let? aaIE := deref (Find children TypeApplyAction) in
  let applyAction := or_zero (ApplyActionValue aaIE) in
  let far := mkFAR (or_zero (FARIDValue farIDIE)) applyAction 0 0 AddrZero DropReasonNone in
  match Find children TypeForwardingParameters with
  | Some fpIE =>
      if flag applyAction ApplyActionFORW then
        match Children fpIE with
        | Err _ => Ok far
        | Ok fpChildren =>
            let far :=
              match Find fpChildren TypeDestinationInterface with
              | Some i => far <| DestInterface := or_zero (DestinationInterfaceValue i) |>
              | None => far
              end in
            Ok match Find fpChildren TypeOuterHeaderCreation with
               | Some i =>
                   match OuterHeaderCreationValue i with
                   | Ok ohc => far <| OuterTEID := OHC_TEID ohc |> <| OuterIP := OHC_IPv4 ohc |>
                   | Err _ => far
                   end
               | None => far
               end
        end
      else Ok far
  | None => Ok far
  end.

(** Validation, then allocation: the session to store and its Created PDR IEs. *)
Definition build_session (e : env) (addr : UDPAddr) (s : Server) (cpSEID upSEID : Z)
    (req : SessionEstablishmentRequest) : result failure (Session * list IE) :=
  let? _ := for_each validate_pdr (SEReq_CreatePDRs req) in
  let? _ := for_each validate_far (SEReq_CreateFARs req) in
  let? (pdrs, created) := build_pdrs e s 0 (SEReq_CreatePDRs req) in
  let? fars := collect build_far (SEReq_CreateFARs req) in
  Ok (mkSession cpSEID upSEID (sourceKey addr) pdrs fars, created).

Definition Is4 (a : Addr) : bool := match a with AddrV4 _ => true | _ => false end.
Fixpoint path_peers (seen : list Addr) (fars : list FAR) : list Addr :=
  match fars with
  | [] => []
  | f :: fars =>
      if negb (IsValid (OuterIP f)) || negb (Is4 (OuterIP f)) || bool_decide (OuterIP f ∈ seen)
      then path_peers seen fars
      else OuterIP f :: path_peers (OuterIP f :: seen) fars
  end.
Definition trackSessionPathPeers (sess : Session) (s : Server) : list effect :=
  if has_pathPeers s then AddPathPeer <$> path_peers [] (FARs sess) else [].

Definition handleSessionEstablishment (e : env) (addr : UDPAddr) (hdr : Header) (raw : bytes)
    (s : Server) : step :=
  if negb (hasAssociation addr s) then Ok ([replySessionEstNoAssoc addr hdr s], s)
  else
    match ParseSessionEstablishmentRequest raw with
    | Err _ => Ok ([replySessionEstRejection addr hdr s], s)
    | Ok req =>
        match SEReq_CPSEID req with
        | None => Err Panic
        | Some cpIE =>
            match FSEIDValue cpIE with
            | Err _ => Ok ([replySessionEstRejection addr hdr s], s)
            | Ok cpFSEID =>
                let '(upSEID, st) := AllocSEID (sessions s) in
                let s := s <| sessions := st |> in
                match build_session e addr s (FSEID_SEID cpFSEID) upSEID req with
                | Err (Stop p) => Err p
                | Err (Reject cause) => Ok ([Reply addr (session_est_refusal cause hdr s)], s)
                | Ok (sess, created) =>
                    match Create (e_session e) sess (sessions s) with
                    | (Some _, _) => Ok ([replySessionEstRejection addr hdr s], s)
                    | (None, st) =>
                        let s := s <| sessions := st |> in
                        if has_bpfInstall s && negb (e_install_ok e) then
                          Ok ([InstallSession sess; replySessionEstRuleFailure addr hdr s],
                              s <| sessions := DeleteByCPSEID (FSEID_SEID cpFSEID) (sessions s) |>)
                        else
                          match NewFSEID upSEID (localIP s) with
                          | None => Err Panic
                          | Some upFSEID =>
                              Ok ((if has_bpfInstall s then [InstallSession sess] else [])
                                  ++ trackSessionPathPeers sess s
                                  ++ [Reply addr (session_response
                                        MsgTypeSessionEstablishmentResponse (FSEID_SEID cpFSEID)
                                        (SequenceNumber (SEReq_Header req))
                                        ([NewNodeIDIPv4 (localNodeID s);
                                          NewCause CauseRequestAccepted; upFSEID] ++ created))], s)
                          end
                    end
                end
            end
        end
    end.

(** ** Session modification *)

Definition fail : failure := Reject CauseRuleCreationFailure.
(** An error return of a modification helper; every one is answered the same way. *)
Definition or_fail {E A} (r : result E A) : result failure A := or_reject CauseRuleCreationFailure r.
Definition need (i : option IE) : result failure IE :=
  match i with Some i => Ok i | None => Err fail end.

Definition parseCreatePDR (cpdrIE : IE) : result failure (PDR * bool) :=
  let? children := or_fail (Children cpdrIE) in
  let precIE := Find children TypePrecedence in
  let? _ := rule_check (negb (nil children TypePDRID || nil children TypePrecedence
                              || nil children TypeFARID || nil children TypePDI)) in
  let? pdrIDIE := deref (Find children TypePDRID) in
  let? farIDIE := deref (Find children TypeFARID) in
  let? pdiIE := deref (Find children TypePDI) in
  let? pdiChildren := or_fail (Children pdiIE) in
  let? srcIfaceIE := need (Find pdiChildren TypeSourceInterface) in
  let? pdr := with_qos children
    (mkPDR (or_zero (PDRIDValue pdrIDIE)) 0 (or_zero (SourceInterfaceValue srcIfaceIE)) 0 AddrZero
       (or_zero (FARIDValue farIDIE)) 0 0 false) in
  let pdr := with_precedence precIE pdr in
  match Find pdiChildren TypeFTEID with
  | None => Ok (pdr, false)
  | Some fteidIE =>
      let? (fteid, isCH) := or_fail (FTEIDPFCPValue fteidIE) in
      if isCH then Ok (pdr, true)
      else Ok (pdr <| LocalTEID := FTEID_TEID fteid |> <| LocalIP := FTEID_IPv4 fteid |>, false)
  end.

Definition parseCreateFAR (cfarIE : IE) : result failure FAR :=
  let? children := or_fail (Children cfarIE) in
  let? _ := rule_check (negb (nil children TypeFARID || nil children TypeApplyAction)) in
  let? farIDIE := deref (Find children TypeFARID) in
  let? aaIE := deref (Find children TypeApplyAction) in
  let applyAction := or_zero (ApplyActionValue aaIE) in
  let far := mkFAR (or_zero (FARIDValue farIDIE)) applyAction 0 0 AddrZero DropReasonNone in
  if negb (flag applyAction ApplyActionFORW) then Ok far
  else
    let? fpIE := need (Find children TypeForwardingParameters) in
    let? fpChildren := or_fail (Children fpIE) in
    let? dstIfaceIE := need (Find fpChildren TypeDestinationInterface) in
    let far := far <| DestInterface := or_zero (DestinationInterfaceValue dstIfaceIE) |> in
    match Find fpChildren TypeOuterHeaderCreation with
    | None => Ok far
    | Some ohcIE =>
        let? ohc := or_fail (OuterHeaderCreationValue ohcIE) in
        Ok (far <| OuterTEID := OHC_TEID ohc |> <| OuterIP := OHC_IPv4 ohc |>)
    end.

Definition has_pdr (id : Z) (pdrs : list PDR) : bool := existsb (fun p => pd_ID p =? id) pdrs.
Definition has_far (id : Z) (fars : list FAR) : bool := existsb (fun f => fa_ID f =? id) fars.

Fixpoint create_fars (ies : list IE) (fars : list FAR) : result failure (list FAR) :=
  match ies with
  | [] => Ok fars
  | i :: ies =>
      let? far := parseCreateFAR i in
      let? _ := rule_check (negb (has_far (fa_ID far) fars)) in
      create_fars ies (fars ++ [far])
  end.

Fixpoint create_pdrs (e : env) (s : Server) (k : nat) (ies : list IE) (pdrs : list PDR)
    : result failure (list PDR * list IE) :=
  match ies with
  | [] => Ok (pdrs, [])
  | i :: ies =>
      let? (pdr, choose) := parseCreatePDR i in
      let? _ := rule_check (negb (has_pdr (pd_ID pdr) pdrs)) in
      let? (pdr, created) := if (choose : bool) then chosen e k pdr s else Ok (pdr, []) in
      let? (pdrs', createds) := create_pdrs e s (k + length created) ies (pdrs ++ [pdr]) in
      Ok (pdrs', created ++ createds)
  end.

Fixpoint remove_pdrs (ies : list IE) (pdrs : list PDR) : result failure (list PDR) :=
  match ies with
  | [] => Ok pdrs
  | i :: ies =>
      let? children := or_fail (Children i) in
      let? pdrIDIE := need (Find children TypePDRID) in
      let pdrID := or_zero (PDRIDValue pdrIDIE) in
      let? _ := rule_check (has_pdr pdrID pdrs) in
      remove_pdrs ies (filter (fun p => pd_ID p <> pdrID) pdrs)
  end.

Fixpoint remove_fars (ies : list IE) (fars : list FAR) : result failure (list FAR) :=
  match ies with
  | [] => Ok fars
  | i :: ies =>
      let? children := or_fail (Children i) in
      let? farIDIE := need (Find children TypeFARID) in
      let farID := or_zero (FARIDValue farIDIE) in
      let? _ := rule_check (has_far farID fars) in
      remove_fars ies (filter (fun f => fa_ID f <> farID) fars)
  end.

Fixpoint parseUpdateFARs (updateFARs : list IE) (fars : list FAR)
    : result failure (list parsedFARUpdate) :=
  match updateFARs with
  | [] => Ok []
  | i :: ies =>
      let? children := or_fail (Children i) in
      let? farIDIE := need (Find children TypeFARID) in
      let farID := or_zero (FARIDValue farIDIE) in
      let? _ := rule_check (has_far farID fars) in
      let? updates := parseUpdateFARs ies fars in
      Ok (mkFARUpdate farID (Find children TypeApplyAction)
            (Find children TypeUpdateForwardingParameters) :: updates)
  end.

Definition drop_reason (action oldAction oldDestInterface : Z) (old : string) : string :=
  if flag action ApplyActionFORW then DropReasonNone
  else if flag action ApplyActionDROP && flag oldAction ApplyActionFORW
          && (oldDestInterface =? DestInterfaceAccess)
  then DropReasonReleaseAccessBearers
  else if flag action ApplyActionDROP && String.eqb old "" then DropReasonPolicy
  else old.

Definition update_action (u : parsedFARUpdate) (far : FAR) : result failure FAR :=
  match applyAction u with
  | None => Ok far
  | Some i =>
      let? action := or_fail (ApplyActionValue i) in
      Ok (far <| ApplyAction := action |>
              <| fa_DropReason := drop_reason action (ApplyAction far) (DestInterface far)
                                    (fa_DropReason far) |>)
  end.

Definition update_forwarding (u : parsedFARUpdate) (far : FAR) : result failure FAR :=
  match ufpIE u with
  | None => Ok far
  | Some i =>
      let? fpChildren := or_fail (Children i) in
      let? far :=
        match Find fpChildren TypeDestinationInterface with
        | None => Ok far
        | Some dstIE =>
            let? dst := or_fail (DestinationInterfaceValue dstIE) in
            Ok (far <| DestInterface := dst |>)
        end in
      match Find fpChildren TypeOuterHeaderCreation with
      | None => Ok far
      | Some ohcIE =>
          let? ohc := or_fail (OuterHeaderCreationValue ohcIE) in
          Ok (far <| OuterTEID := OHC_TEID ohc |> <| OuterIP := OHC_IPv4 ohc |>)
      end
  end.

(** The old tunnel of a rule whose outer header changed gets an End Marker. *)
Definition end_marker (u : parsedFARUpdate) (old new : FAR) : list endMarkerEvent :=
  if negb (OuterTEID old =? 0) && IsValid (OuterIP old)
     && (negb (OuterTEID old =? OuterTEID new) || negb (bool_decide (OuterIP old = OuterIP new)))
  then [mkEndMarkerEvent (u_farID u) (OuterTEID old) (OuterIP old)] else [].

(** The inner loop: the first rule with the ID is updated, its absence is an error. *)
Fixpoint update_far (u : parsedFARUpdate) (fars : list FAR)
    : result failure (list FAR * list endMarkerEvent) :=
  match fars with
  | [] => Err fail
  | far :: rest =>
      if negb (fa_ID far =? u_farID u) then
        let? (rest', ems) := update_far u rest in Ok (far :: rest', ems)
      else
        let? far1 := update_action u far in
        let? far2 := update_forwarding u far1 in
        Ok (far2 :: rest, end_marker u far far2)
  end.

Fixpoint applyFARUpdatesToCandidate (fars : list FAR) (updates : list parsedFARUpdate)
    : result failure (list FAR * list endMarkerEvent) :=
  match updates with
  | [] => Ok (fars, [])
  | u :: updates =>
      let? (fars', ems) := update_far u fars in
      let? (fars'', ems') := applyFARUpdatesToCandidate fars' updates in
      Ok (fars'', ems ++ ems')
  end.

(** The candidate copy of the session with every requested change applied. *)
Definition candidate (e : env) (s : Server) (sess : Session) (req : SessionModificationRequest)
    : result failure (Session * list IE * list endMarkerEvent) :=
  let? fars := create_fars (SMReq_CreateFARs req) (FARs sess) in
  let? (pdrs, created) := create_pdrs e s 0 (SMReq_CreatePDRs req) (PDRs sess) in
  let? pdrs := remove_pdrs (SMReq_RemovePDRs req) pdrs in
  let? fars := remove_fars (SMReq_RemoveFARs req) fars in
  let? updates := parseUpdateFARs (SMReq_UpdateFARs req) fars in
  let? (fars, endMarkers) := applyFARUpdatesToCandidate fars updates in
  Ok (sess <| PDRs := pdrs |> <| FARs := fars |>, created, endMarkers).

(** The dataplane is updated with the candidate before anything is committed. *)
Definition applySessionModification (e : env) (s : Server) (l : sref) (sess : Session)
    (req : SessionModificationRequest)
    : list effect * result failure (Session * list IE * list endMarkerEvent * Server) :=
  match candidate e s sess req with
  | Err f => ([], Err f)
  | Ok (cand, created, endMarkers) =>
      let updates := if has_bpfInstall s then [UpdateSession cand] else [] in
      if has_bpfInstall s && negb (e_update_ok e) then (updates, Err fail)
      else (updates, Ok (cand, created, endMarkers,
              s <| sessions := set_rules l (PDRs cand) (FARs cand) (sessions s) |>))
  end.

(** [applyFARUpdates]: the same transaction for FAR changes only. *)
Definition applyFARUpdates (e : env) (s : Server) (l : sref) (sess : Session)
    (updates : list parsedFARUpdate)
    : list effect * result failure (list endMarkerEvent * Server) :=
  match applyFARUpdatesToCandidate (FARs sess) updates with
  | Err f => ([], Err f)
  | Ok (fars, endMarkers) =>
      let out := if has_bpfInstall s then [UpdateSession (sess <| FARs := fars |>)] else [] in
      if has_bpfInstall s && negb (e_update_ok e) then (out, Err fail)
      else (out, Ok (endMarkers,
              s <| sessions := set_rules l (PDRs sess) fars (sessions s) |>))
  end.

Definition handleSessionModification (e : env) (addr : UDPAddr) (hdr : Header) (raw : bytes)
    (s : Server) : step :=
  if negb (hasAssociation addr s) then
    Ok ([Reply addr (session_mod_refusal CauseNoEstablishedAssociation (SequenceNumber hdr))], s)
  else
    match ParseSessionModificationRequest raw with
    | Err _ => Ok ([], s)
    | Ok req =>
        let hdr := SMReq_Header req in
        match FindByUPSEID (SEID hdr) (sessions s) with
        | None => Ok ([replySessionModRejection addr req], s)
        | Some l =>
            match objects (sessions s) !! l with
            | None => Err Panic
            | Some sess =>
                match applySessionModification e s l sess req with
                | (_, Err (Stop p)) => Err p
                | (out, Err (Reject _)) => Ok (out ++ [replySessionModRuleFailure addr req], s)
                | (out, Ok (sess', created, endMarkers, s')) =>
                    Ok (out ++ trackSessionPathPeers sess' s'
                        ++ (if has_emSender s'
                            then (fun ev => SendEndMarker (em_teid ev) (em_dstIP ev)) <$> endMarkers
                            else [])
                        ++ [Reply addr (session_response MsgTypeSessionModificationResponse
                              (SgwuStore.CPSEID sess') (SequenceNumber hdr)
                              (NewCause CauseRequestAccepted :: created))], s')
                end
            end
        end
    end.

(** ** Session deletion *)

Definition session_del_response (seid seq cause : Z) : bytes :=
  session_response MsgTypeSessionDeletionResponse seid seq [NewCause cause].

Definition handleSessionDeletion (e : env) (addr : UDPAddr) (hdr : Header) (raw : bytes)
    (s : Server) : step :=
  if negb (hasAssociation addr s) then
    Ok ([Reply addr (session_del_response 0 (SequenceNumber hdr) CauseNoEstablishedAssociation)], s)
  else
    match ParseSessionDeletionRequest raw with
    | Err _ => Ok ([], s)
    | Ok req =>
        let hdr := SDReq_Header req in
        match FindByUPSEID (SEID hdr) (sessions s) with
        | None =>
            Ok ([Reply addr (session_del_response 0 (SequenceNumber hdr) CauseRequestRejected)], s)
        | Some l =>
            match objects (sessions s) !! l with
            | None => Err Panic
            | Some sess =>
                Ok ((if has_bpfInstall s then [RemoveSession sess] else [])
                    ++ [Reply addr (session_del_response (SgwuStore.CPSEID sess) (SequenceNumber hdr)
                          CauseRequestAccepted)],
                    s <| sessions := DeleteByUPSEID (SEID hdr) (sessions s) |>)
            end
        end
    end.

(** ** Dispatch *)

Definition handle (e : env) (addr : UDPAddr) (hdr : Header) (raw : bytes) (s : Server) : step :=
  if negb (isAllowed (ua_IP addr) s) then Ok ([], s)
  else
    let t := MessageType hdr in
    if t =? MsgTypeAssociationSetupRequest then handleAssocSetup e addr hdr raw s
    else if t =? MsgTypeHeartbeatRequest then handleHeartbeat e addr raw s
    else if t =? MsgTypeSessionEstablishmentRequest then handleSessionEstablishment e addr hdr raw s
    else if t =? MsgTypeSessionModificationRequest then handleSessionModification e addr hdr raw s
    else if t =? MsgTypeSessionDeletionRequest then handleSessionDeletion e addr hdr raw s
    else if t =? MsgTypeAssociationReleaseRequest then handleAssociationRelease e addr raw s
    else Ok ([], s).

(** ** Reports to the control plane

    Both reports visit every entry of the peer table, [order] being the order of its
    range and [seq] the sequence number allocated at each step; the answers are only
    logged. *)

Definition peer_addr (s : Server) (key : string) : option UDPAddr :=
  match peers s !! key with
  | Some r => match records s !! r with Some pr => lastAddr pr | None => None end
  | None => None
  end.
Definition reachable_peers (order : list string) (s : Server) : list UDPAddr :=
  omap (peer_addr s) order.

Definition node_report (seq : Z) (failedPeerIP : bytes) (s : Server) : bytes :=
  node_response MsgTypeNodeReportRequest seq
    [NewNodeIDIPv4 (localNodeID s); NewNodeReportType NodeReportTypeUPFR;
     NewUserPlanPathFailureReport [NewRemoteGTPUPeerIPv4 failedPeerIP]].
Definition HandlePathFailure (order : list string) (seq : nat -> Z) (failedPeer : Addr) (s : Server)
    : result stop (list effect) :=
  match As4 failedPeer with
  | None => Err Panic
  | Some ip4 =>
      Ok (imap (fun k a => Send a (node_report (seq k) ip4 s)) (reachable_peers order s))
  end.

Definition idleDownlinkDropReasonCode (reason : string) : Z :=
  if String.eqb reason DropReasonReleaseAccessBearers
  then VectorCoreIdleDownlinkDropReleaseAccessBearers else 0.
Definition idle_report (ev : IdleDownlinkEvent) : VectorCoreIdleDownlinkReport :=
  mkReport (ev_CPSEID ev) (ev_UPSEID ev) (ev_PDRID ev) (ev_FARID ev) (ev_LocalTEID ev)
    (ev_EBI ev) (ev_QCI ev) (ev_SourceInterface ev) (ev_QoSValid ev)
    (idleDownlinkDropReasonCode (ev_DropReason ev)).
Definition reportIdleDownlink (order : list string) (seq : nat -> Z) (ev : IdleDownlinkEvent)
    (s : Server) : list effect :=
  imap (fun k a => Send a (session_response MsgTypeSessionReportRequest (ev_CPSEID ev) (seq k)
                             [NewVectorCoreIdleDownlinkReport (idle_report ev)]))
    (reachable_peers order s).

(** ** Peer views *)

Record PeerView := mkPeerView {
  NodeIDKey : string; State : string; RecoveryTimestamp : Z; LastSeen : time;
  LastAddr : string; SessionCount : nat }.
Definition peer_view (pr : PeerRecord) (s : Server) : PeerView :=
  mkPeerView (pr_nodeIDKey pr) "Established" (recoveryTS pr) (lastSeen pr)
    match lastAddr pr with Some a => UDPAddr_String a | None => "" end
    (CountByCPNodeKey (pr_nodeIDKey pr) (sessions s)).
Fixpoint peer_views (seen : list nat) (order : list string) (s : Server) : list PeerView :=
  match order with
  | [] => []
  | key :: order =>
      match peers s !! key with
      | None => peer_views seen order s
      | Some r =>
          if decide (r ∈ seen) then peer_views seen order s
          else
            match records s !! r with
            | None => peer_views seen order s
            | Some pr => peer_view pr s :: peer_views (r :: seen) order s
            end
      end
  end.
Definition Peers (order : list string) (s : Server) : list PeerView := peer_views [] order s.
