(* ===== verification/PfcpServerRules.v ===== *)
(** * The rules of SGW-U sessions

    What the PFCP server makes of the rule IEs of a request: the rules of a new session
    and the candidate of a modification, related to the IEs by rule ID. *)

From S2P Require Import Prelude GoLib PfcpIe PfcpMessage SgwuStore PfcpServer.
#[local] Open Scope list_scope.
#[local] Open Scope Z_scope.

Lemma candidate_shape e s sess req cand created ems :
  candidate e s sess req = Ok (cand, created, ems) ->
  cand = sess <| PDRs := PDRs cand |> <| FARs := FARs cand |>.
Proof.
  unfold candidate. intros (? & _ & H)%rbind_Ok.
  apply rbind_Ok in H as ([? ?] & _ & H). do 3 (apply rbind_Ok in H as (? & _ & H)).
  apply rbind_Ok in H as ([? ?] & _ & H). by simplify_eq.
Qed.


(** ** The rules of a modified session *)

(** The ID a rule IE names; an unreadable one reads as zero. *)
Definition rule_id (T : Z) (value : IE -> result IEError Z) (i : IE) : Z :=
  match Children i with
  | Ok children => match Find children T with Some j => or_zero (value j) | None => 0 end
  | Err _ => 0
  end.
Definition pdr_id : IE -> Z := rule_id TypePDRID PDRIDValue.
Definition far_id : IE -> Z := rule_id TypeFARID FARIDValue.

Lemma or_reject_Ok {E A} c (r : result E A) a : or_reject c r = Ok a -> r = Ok a.
Proof. destruct r; cbn; [by intros [= ->]|done]. Qed.
Lemma need_Ok i j : need i = Ok j -> i = Some j.
Proof. destruct i; cbn; [by intros [= ->]|done]. Qed.
Lemma deref_Ok i j : deref i = Ok j -> i = Some j.
Proof. destruct i; cbn; [by intros [= ->]|done]. Qed.
Lemma rule_check_Ok b u : rule_check b = Ok u -> b = true.
Proof. intros H. by apply guard_Ok in H. Qed.

(** Peel one step off a computation that returned. *)
Ltac peel H :=
  let a := fresh "a" in let E := fresh "E" in
  apply rbind_Ok in H as (a & E & H);
  first [apply or_reject_Ok in E | apply need_Ok in E | apply deref_Ok in E
        | apply rule_check_Ok in E | idtac].

Lemma with_qos_id children pdr pdr' : with_qos children pdr = Ok pdr' ->
  pd_ID pdr' = pd_ID pdr /\ LocalTEID pdr' = LocalTEID pdr /\ SourceInterface pdr' = SourceInterface pdr.
Proof.
  unfold with_qos. destruct (Find _ _); [|by intros [= ->]]. intros H. peel H.
  destruct a as [[? ?] ?]. by simplify_eq.
Qed.
Lemma with_precedence_id prec pdr :
  pd_ID (with_precedence prec pdr) = pd_ID pdr /\
  LocalTEID (with_precedence prec pdr) = LocalTEID pdr /\
  SourceInterface (with_precedence prec pdr) = SourceInterface pdr.
Proof. unfold with_precedence. destruct prec; [|done]. by case_match. Qed.

Lemma chosen_id e k pdr s pdr' created : chosen e k pdr s = Ok (pdr', created) ->
  pd_ID pdr' = pd_ID pdr.
Proof.
  unfold chosen. intros H. do 2 peel H. destruct a0. by simplify_eq.
Qed.

Lemma parseCreatePDR_id i pdr choose : parseCreatePDR i = Ok (pdr, choose) -> pd_ID pdr = pdr_id i.
Proof.
  unfold parseCreatePDR. intros H. peel H. peel H. peel H. peel H. peel H. peel H. peel H. peel H.
  apply with_qos_id in E6 as (Hid & _).
  destruct (with_precedence_id (Find a TypePrecedence) a6) as (Hp & _).
  unfold pdr_id, rule_id. rewrite E, E1. rewrite <- Hp, Hid in *. cbn in Hid.
  destruct (Find a4 TypeFTEID); [|by simplify_eq]. peel H. destruct a7 as [? []]; by simplify_eq.
Qed.

Lemma parseCreateFAR_id i far : parseCreateFAR i = Ok far -> fa_ID far = far_id i.
Proof.
  unfold parseCreateFAR. intros H. peel H. peel H. peel H. peel H. unfold far_id, rule_id.
  rewrite E, E1. destruct (flag _ _); cbn [negb] in H; [|by simplify_eq]. do 3 peel H.
  destruct (Find a4 TypeOuterHeaderCreation); [|by simplify_eq]. peel H. by simplify_eq.
Qed.

Lemma has_pdr_spec id pdrs : has_pdr id pdrs = true <-> id ∈ pd_ID <$> pdrs.
Proof.
  unfold has_pdr. rewrite existsb_exists, list_elem_of_fmap. split.
  - intros (p & Hp%list_elem_of_In & E%Z.eqb_eq). eauto.
  - intros (p & -> & Hp). exists p. by rewrite <- list_elem_of_In, Z.eqb_refl.
Qed.
Lemma has_far_spec id fars : has_far id fars = true <-> id ∈ fa_ID <$> fars.
Proof.
  unfold has_far. rewrite existsb_exists, list_elem_of_fmap. split.
  - intros (p & Hp%list_elem_of_In & E%Z.eqb_eq). eauto.
  - intros (p & -> & Hp). exists p. by rewrite <- list_elem_of_In, Z.eqb_refl.
Qed.

Lemma NoDup_snoc {A} (l : list A) x : NoDup l -> x ∉ l -> NoDup (l ++ [x]).
Proof.
  intros Hl Hx. apply NoDup_app. split; [done|]. split; [set_solver|apply NoDup_singleton].
Qed.

Lemma create_fars_spec ies fars fars' : create_fars ies fars = Ok fars' ->
  (exists new, fars' = fars ++ new /\ Forall2 (fun i f => parseCreateFAR i = Ok f) ies new) /\
  fa_ID <$> fars' = (fa_ID <$> fars) ++ (far_id <$> ies) /\
  (NoDup (fa_ID <$> fars) -> NoDup (fa_ID <$> fars')).
Proof.
  revert fars. induction ies as [|i ies IH]; intros fars H; cbn [create_fars] in H.
  { simplify_eq. split; [exists []; by rewrite app_nil_r|]. by rewrite app_nil_r. }
  peel H. peel H. apply negb_true_iff, not_true_iff_false in E0. rewrite has_far_spec in E0.
  destruct (IH _ H) as ((new & -> & Hnew) & Hids & Hnd). apply parseCreateFAR_id in E as Hid.
  split; [exists (a :: new); rewrite <- app_assoc; by split; [|constructor]|]. split.
  - rewrite Hids, fmap_app, <- app_assoc. cbn. by rewrite Hid.
  - intros Hold. apply Hnd. rewrite fmap_app. by apply NoDup_snoc.
Qed.

Lemma create_pdrs_spec e s k ies pdrs pdrs' created : create_pdrs e s k ies pdrs = Ok (pdrs', created) ->
  (exists new, pdrs' = pdrs ++ new) /\
  pd_ID <$> pdrs' = (pd_ID <$> pdrs) ++ (pdr_id <$> ies) /\
  (NoDup (pd_ID <$> pdrs) -> NoDup (pd_ID <$> pdrs')).
Proof.
  revert k pdrs created. induction ies as [|i ies IH]; intros k pdrs created H; cbn [create_pdrs] in H.
  { simplify_eq. split; [exists []; by rewrite app_nil_r|]. by rewrite app_nil_r. }
  peel H. destruct a as [pdr choose]. peel H. apply negb_true_iff, not_true_iff_false in E0.
  rewrite has_pdr_spec in E0. peel H. destruct a0 as [pdr1 c1]. peel H. destruct a0 as [pdrs2 c2].
  simplify_eq. apply parseCreatePDR_id in E as Hid.
  assert (Hid1 : pd_ID pdr1 = pd_ID pdr) by (destruct choose; [by apply chosen_id in E1|by simplify_eq]).
  destruct (IH _ _ _ E2) as ((new & ->) & Hids & Hnd).
  split; [exists (pdr1 :: new); by rewrite <- app_assoc|]. split.
  - rewrite Hids, fmap_app, <- app_assoc. cbn. by rewrite Hid1, Hid.
  - intros Hold. apply Hnd. rewrite fmap_app. apply NoDup_snoc; [done|]. cbn. by rewrite Hid1.
Qed.

Lemma filter_notin_cons {A} (f : A -> Z) x xs (l : list A) :
  filter (fun p => f p ∉ xs) (filter (fun p => f p <> x) l) = filter (fun p => f p ∉ x :: xs) l.
Proof.
  rewrite list_filter_filter. apply list_filter_iff. intros p. rewrite not_elem_of_cons. tauto.
Qed.

Lemma remove_pdrs_spec ies pdrs pdrs' : remove_pdrs ies pdrs = Ok pdrs' ->
  pdrs' = filter (fun p => pd_ID p ∉ (pdr_id <$> ies)) pdrs.
Proof.
  revert pdrs. induction ies as [|i ies IH]; intros pdrs H; cbn [remove_pdrs] in H.
  { simplify_eq. symmetry. apply list_filter_all. intros p _. cbn. set_solver. }
  peel H. peel H. peel H. apply IH in H as ->.
  replace (or_zero (PDRIDValue a0)) with (pdr_id i) by (unfold pdr_id, rule_id; by rewrite E, E0).
  apply (filter_notin_cons pd_ID).
Qed.
Lemma remove_fars_spec ies fars fars' : remove_fars ies fars = Ok fars' ->
  fars' = filter (fun f => fa_ID f ∉ (far_id <$> ies)) fars.
Proof.
  revert fars. induction ies as [|i ies IH]; intros fars H; cbn [remove_fars] in H.
  { simplify_eq. symmetry. apply list_filter_all. intros p _. cbn. set_solver. }
  peel H. peel H. peel H. apply IH in H as ->.
  replace (or_zero (FARIDValue a0)) with (far_id i) by (unfold far_id, rule_id; by rewrite E, E0).
  apply (filter_notin_cons fa_ID).
Qed.

(** *** FAR updates and end markers *)

Lemma parseUpdateFARs_ids ies fars updates : parseUpdateFARs ies fars = Ok updates ->
  u_farID <$> updates = far_id <$> ies.
Proof.
  revert updates. induction ies as [|i ies IH]; intros updates H; cbn [parseUpdateFARs] in H.
  { by simplify_eq. }
  do 4 peel H. simplify_eq. cbn. f_equal; [|by apply IH].
  unfold far_id, rule_id. by rewrite E, E0.
Qed.

Definition update_rule (u : parsedFARUpdate) (f : FAR) : result failure FAR :=
  let? f1 := update_action u f in update_forwarding u f1.

Lemma update_rule_id u f f' : update_rule u f = Ok f' -> fa_ID f' = fa_ID f.
Proof.
  unfold update_rule, update_action, update_forwarding. intros H. peel H.
  assert (fa_ID a = fa_ID f) as <- by (destruct (applyAction u); [peel E|]; by simplify_eq).
  destruct (ufpIE u); [|by simplify_eq]. peel H. peel H.
  assert (fa_ID a1 = fa_ID a) as <- by
    (destruct (Find a0 TypeDestinationInterface); [peel E1|]; by simplify_eq).
  destruct (Find a0 TypeOuterHeaderCreation); [peel H|]; by simplify_eq.
Qed.

Lemma update_far_spec u fars fars' ems : update_far u fars = Ok (fars', ems) ->
  exists i f f', fars !! i = Some f /\ fa_ID f = u_farID u /\ update_rule u f = Ok f' /\
    fars' = <[i := f']> fars /\ ems = end_marker u f f'.
Proof.
  revert fars' ems. induction fars as [|f fars IH]; intros fars' ems H; cbn [update_far] in H; [done|].
  destruct (Z.eqb_spec (fa_ID f) (u_farID u)) as [E|Hne]; cbn [negb] in H.
  - peel H. peel H. simplify_eq. exists O, f, a0. split_and!; try done.
    unfold update_rule. by rewrite E0.
  - peel H. destruct a as [rest ems']. simplify_eq. destruct (IH _ _ E) as (i & g & g' & ? & ? & ? & -> & ->).
    by exists (S i), g, g'.
Qed.

(** Whether updating [f] to [f'] moves a live tunnel, and the end marker it is due. *)
Definition tunnel_moved (f f' : FAR) : Prop :=
  OuterTEID f <> 0 /\ IsValid (OuterIP f) = true /\
  (OuterTEID f, OuterIP f) <> (OuterTEID f', OuterIP f').
Definition marker (f : FAR) : endMarkerEvent := mkEndMarkerEvent (fa_ID f) (OuterTEID f) (OuterIP f).

Lemma end_marker_spec u f f' : fa_ID f = u_farID u ->
  end_marker u f f' = if decide (tunnel_moved f f') then [marker f] else [].
Proof.
  intros Hid. unfold end_marker, marker. rewrite Hid.
  assert ((negb (OuterTEID f =? 0) && IsValid (OuterIP f)
     && (negb (OuterTEID f =? OuterTEID f') || negb (bool_decide (OuterIP f = OuterIP f')))) = true
     <-> tunnel_moved f f') as Hb.
  { unfold tunnel_moved.
    rewrite !andb_true_iff, orb_true_iff, !negb_true_iff, !Z.eqb_neq, bool_decide_eq_false.
    split; [|intros (? & ? & Hne)].
    - intros [[? ?] [?|?]]; split_and!; try done; congruence.
    - split; [done|]. destruct (decide (OuterTEID f = OuterTEID f')); [right|by left]. congruence. }
  match goal with |- (if ?b then _ else _) = _ => destruct b end;
    destruct (decide (tunnel_moved f f')) as [Hm|Hm]; try done; exfalso.
  - by apply Hm, Hb.
  - by apply Hb in Hm.
Qed.

Lemma applyFARUpdates_spec fars us fars' ems :
  applyFARUpdatesToCandidate fars us = Ok (fars', ems) ->
  fa_ID <$> fars' = fa_ID <$> fars /\
  (forall ev, ev ∈ ems -> em_farID ev ∈ u_farID <$> us) /\
  (forall i f f', fars !! i = Some f -> fars' !! i = Some f' ->
     (fa_ID f ∉ u_farID <$> us -> f' = f) /\
     (NoDup (fa_ID <$> fars) -> NoDup (u_farID <$> us) -> marker f ∈ ems <-> tunnel_moved f f')).
Proof.
  revert fars fars' ems. induction us as [|u us IH]; intros fars fars' ems H; cbn in H.
  { simplify_eq. split; [done|]. split; [set_solver|]. intros i f f' H1 H2. simplify_eq.
    split; [done|]. intros _ _. split; [set_solver|]. by intros (_ & _ & []). }
  peel H. destruct a as [fars1 ems1]. peel H. destruct a as [fars2 ems2]. simplify_eq.
  apply update_far_spec in E as (j & g & g' & Hj & Hid & Hup & -> & ->).
  apply update_rule_id in Hup as Hid'. destruct (IH _ _ _ E0) as (Hids & Hevs & Hrules).
  assert (Hmap : fa_ID <$> <[j:=g']> fars = fa_ID <$> fars).
  { rewrite list_fmap_insert, Hid'. apply list_insert_id. by rewrite list_lookup_fmap, Hj. }
  split; [by rewrite Hids|].
  assert (Hown : forall ev, ev ∈ end_marker u g g' -> em_farID ev = u_farID u).
  { intros ev. unfold end_marker. case_match; [|set_solver]. by intros ->%list_elem_of_singleton. }
  split.
  { intros ev [Hin|Hin]%elem_of_app; cbn; [apply Hown in Hin as ->; left|right; by apply Hevs]. }
  intros i f f' Hf Hf'. destruct (decide (i = j)) as [->|Hne].
  - assert (f = g) as -> by congruence.
    assert (Hl : <[j:=g']> fars !! j = Some g')
      by (apply list_lookup_insert_eq; by eapply lookup_lt_Some).
    destruct (Hrules j g' f' Hl Hf') as [Hframe _]. split; [cbn; set_solver|].
    intros Hnd [Hnot Hnds]%NoDup_cons. rewrite Hid', Hid in Hframe. rewrite (Hframe Hnot).
    rewrite elem_of_app, end_marker_spec by done. split.
    + intros [Hin|Hin]; [|by apply Hevs in Hin; cbn in Hin; rewrite Hid in Hin].
      case_decide; [done|set_solver].
    + intros Hm. left. rewrite decide_True by done. by left.
  - assert (Hl : <[j:=g']> fars !! i = Some f) by (by rewrite list_lookup_insert_ne).
    destruct (Hrules i f f' Hl Hf') as [Hframe Hev]. split; [cbn; set_solver|].
    intros Hnd [Hnot Hnds]%NoDup_cons. rewrite <- Hev by (by rewrite ?Hmap).
    rewrite elem_of_app. split; [|by right]. intros [Hin|Hin]; [|done]. exfalso.
    apply Hown in Hin. cbn in Hin. rewrite <- Hid in Hin. apply Hne.
    eapply (NoDup_lookup (fa_ID <$> fars)); [done|..]; rewrite list_lookup_fmap.
    + rewrite Hf. cbn. by rewrite Hin.
    + by rewrite Hj.
Qed.

Lemma fmap_filter_notin {A} (f : A -> Z) (xs : list Z) (l : list A) :
  f <$> filter (fun p => f p ∉ xs) l = filter (fun i => i ∉ xs) (f <$> l).
Proof.
  induction l as [|x l IH]; [done|]. rewrite fmap_cons, !filter_cons.
  case_decide; [rewrite fmap_cons|]; by rewrite IH.
Qed.
Lemma NoDup_fmap_filter {A} (f : A -> Z) (P : A -> Prop) `{!forall x, Decision (P x)} (l : list A) :
  NoDup (f <$> l) -> NoDup (f <$> filter P l).
Proof.
  induction l as [|x l IH]; [done|]. rewrite fmap_cons, filter_cons. intros [Hx Hl]%NoDup_cons.
  case_decide; [|by apply IH]. rewrite fmap_cons. apply NoDup_cons. split; [|by apply IH].
  intros (y & E & [_ Hy]%list_elem_of_filter)%list_elem_of_fmap. apply Hx. rewrite E.
  by apply list_elem_of_fmap_2.
Qed.

(** What the candidate of a modification looks like. *)
Lemma candidate_rules e s sess req cand created ems :
  candidate e s sess req = Ok (cand, created, ems) ->
  let rp := pdr_id <$> SMReq_RemovePDRs req in
  let rf := far_id <$> SMReq_RemoveFARs req in
  let uf := far_id <$> SMReq_UpdateFARs req in
  pd_ID <$> PDRs cand
    = filter (fun i => i ∉ rp) ((pd_ID <$> PDRs sess) ++ (pdr_id <$> SMReq_CreatePDRs req)) /\
  fa_ID <$> FARs cand
    = filter (fun i => i ∉ rf) ((fa_ID <$> FARs sess) ++ (far_id <$> SMReq_CreateFARs req)) /\
  (NoDup (pd_ID <$> PDRs sess) -> NoDup (pd_ID <$> PDRs cand)) /\
  (NoDup (fa_ID <$> FARs sess) -> NoDup (fa_ID <$> FARs cand)) /\
  (forall p, p ∈ PDRs sess -> pd_ID p ∉ rp -> p ∈ PDRs cand) /\
  (forall f, f ∈ FARs sess -> fa_ID f ∉ rf -> fa_ID f ∉ uf -> f ∈ FARs cand) /\
  (forall ev, ev ∈ ems -> em_farID ev ∈ uf) /\
  (NoDup (fa_ID <$> FARs sess) -> NoDup uf -> forall f f',
     f ∈ FARs sess -> f' ∈ FARs cand -> fa_ID f' = fa_ID f ->
     marker f ∈ ems <-> tunnel_moved f f').
Proof.
  intros H rp rf uf. unfold candidate in H. peel H. peel H. destruct a0 as [pdrs0 cr0]. peel H. peel H.
  peel H. peel H. destruct a3 as [fars2 ems2]. simplify_eq. cbn.
  apply create_fars_spec in E as ((newf & -> & _) & Hfid & Hfnd).
  apply create_pdrs_spec in E0 as ((newp & ->) & Hpid & Hpnd).
  apply remove_pdrs_spec in E1 as ->. apply remove_fars_spec in E2 as ->.
  apply parseUpdateFARs_ids in E3. fold uf in E3.
  apply applyFARUpdates_spec in E4 as (Hids & Hevs & Hrules). rewrite E3 in Hevs, Hrules.
  fold rf in Hids, Hrules. fold rp.
  assert (Hnd : NoDup (fa_ID <$> FARs sess) ->
    NoDup (fa_ID <$> filter (fun f => fa_ID f ∉ rf) (FARs sess ++ newf)))
    by (intros ?; by apply NoDup_fmap_filter, Hfnd).
  assert (Hin : forall f, f ∈ FARs sess -> fa_ID f ∉ rf ->
    f ∈ filter (fun f => fa_ID f ∉ rf) (FARs sess ++ newf)).
  { intros f Hf Hr. apply list_elem_of_filter. split; [done|]. apply elem_of_app. by left. }
  assert (Hlen : length fars2 = length (filter (fun f => fa_ID f ∉ rf) (FARs sess ++ newf)))
    by (by rewrite <- (length_fmap fa_ID fars2), Hids, length_fmap).
  rewrite Hids, (fmap_filter_notin fa_ID rf), (fmap_filter_notin pd_ID rp), Hfid, Hpid. split; [done|]. split; [done|].
  split; [intros Hn; rewrite <- Hpid, <- (fmap_filter_notin pd_ID rp); by apply NoDup_fmap_filter, Hpnd|].
  split; [intros Hn; rewrite <- Hfid, <- (fmap_filter_notin fa_ID rf); by apply Hnd|].
  split; [|split; [|split; [done|]]].
  - intros p Hp Hr. apply list_elem_of_filter. split; [done|]. apply elem_of_app. by left.
  - intros f Hf Hr Hu. apply (Hin f Hf), list_elem_of_lookup in Hr as [i Hi].
    destruct (lookup_lt_is_Some_2 fars2 i) as [f' Hi'].
    { rewrite Hlen. by eapply lookup_lt_Some. }
    destruct (Hrules i f f' Hi Hi') as [Hframe _]. rewrite <- (Hframe Hu) at 1.
    by eapply list_elem_of_lookup_2.
  - intros Hn Hnu f f' Hf Hf' Hid. apply list_elem_of_lookup in Hf' as [i Hi'].
    destruct (lookup_lt_is_Some_2 (filter (fun f => fa_ID f ∉ rf) (FARs sess ++ newf)) i) as [g Hi].
    { rewrite <- Hlen. by eapply lookup_lt_Some. }
    assert (Hg : fa_ID g = fa_ID f).
    { pose proof (f_equal (fun l => l !! i) Hids) as E. cbn in E.
      rewrite !list_lookup_fmap, Hi, Hi' in E. cbn in E. congruence. }
    assert (g = f) as ->.
    { apply list_elem_of_lookup_2 in Hi as Hgin. apply list_elem_of_filter in Hgin as [Hgr _].
      assert (Hfr : fa_ID f ∉ rf) by (by rewrite <- Hg).
      apply (Hin f Hf), list_elem_of_lookup in Hfr as [j Hj].
      assert (i = j) as ->; [|congruence].
      eapply (NoDup_lookup _ _ _ (fa_ID f) (Hnd Hn)); rewrite list_lookup_fmap; [rewrite Hi|rewrite Hj];
        cbn; congruence. }
    destruct (Hrules i f f' Hi Hi') as [_ Hev]. apply Hev; [by apply Hnd|done].
Qed.


(** ** The rules of a new session *)

Lemma AllocTEID_counter c fuel rnd i st : AllocTEID fuel rnd i (st <| seidCounter := c |>) = AllocTEID fuel rnd i st.
Proof.
  revert i. induction fuel as [|fuel IH]; intros i; cbn; [done|]. destruct (rnd i); [|done].
  change (localTEIDInUseLocked z (st <| seidCounter := c |>)) with (localTEIDInUseLocked z st).
  by rewrite IH.
Qed.

Lemma AllocTEID_sound P st fuel rnd i v : store_wf P st ->
  AllocTEID fuel rnd i st = Some (Some v) -> usable_teid st v.
Proof.
  intros H. revert i. induction fuel as [|fuel IH]; intros i Ha; cbn in Ha; [done|].
  destruct (rnd i) as [w|]; [|done].
  destruct (Z.eqb_spec w 0) as [|Hw]; cbn [negb andb] in Ha; [by eapply IH|].
  destruct (localTEIDInUseLocked w st) eqn:E; cbn [negb] in Ha; [by eapply IH|].
  simplify_eq. split; [done|]. intros l s p Hs Hp Ht.
  assert (localTEIDInUseLocked v st = true) by (apply (localTEIDInUse_spec P); [done|by exists l, s, p]).
  congruence.
Qed.

(** [c] tells the control plane the local F-TEID chosen for [pdr]: a TEID that no stored
    rule uses, at the address of the interface the rule detects packets on. *)
Definition created_for (s : Server) (pdr : PDR) (c : IE) : Prop :=
  usable_teid (sessions s) (LocalTEID pdr) /\
  localGTPUIPForSource (SourceInterface pdr) s = Some (LocalIP pdr) /\
  exists fteid, NewFTEIDv4 (LocalTEID pdr) (LocalIP pdr) = Some fteid /\
    c = NewCreatedPDR [NewPDRID (pd_ID pdr); fteid].

Lemma chosen_spec P e k pdr s pdr' created : store_wf P (sessions s) ->
  chosen e k pdr s = Ok (pdr', created) -> exists c, created = [c] /\ created_for s pdr' c.
Proof.
  unfold chosen, alloc_teid. intros Hw H. peel H. peel H. destruct a0 as [ip c].
  destruct (AllocTEID _ _ _ _) as [[v|]|] eqn:Ea; [|done|done]. simplify_eq.
  apply (AllocTEID_sound P) in Ea; [|done].
  unfold newCreatedPDRForSource in E0. destruct (localGTPUIPForSource _ _) as [a'|] eqn:El; [|done].
  destruct (NewFTEIDv4 a a') as [fteid|] eqn:En; [|done]. simplify_eq.
  eexists. split; [done|]. split; [done|]. split; [done|]. by exists fteid.
Qed.

Lemma build_pdr_spec P e s k i pdr created : store_wf P (sessions s) ->
  build_pdr e s k i = Ok (pdr, created) ->
  pd_ID pdr = pdr_id i /\
  (created = [] /\ LocalTEID pdr = 0 \/ exists c, created = [c] /\ created_for s pdr c).
Proof.
  unfold build_pdr. intros Hw H. do 5 peel H.
  apply with_qos_id in E3 as (Hid & Ht & _).
  destruct (with_precedence_id (Find (or_nil (Children i)) TypePrecedence) a3) as (Hp & Hpt & _).
  cbn in Hid, Ht.
  assert (pdr_id i = or_zero (PDRIDValue a)) as Hi.
  { unfold pdr_id, rule_id. destruct (Children i) as [ch|]; [|done]. cbn in E. by rewrite E. }
  rewrite Hi. set (pdr0 := with_precedence _ a3) in *.
  assert (pd_ID pdr0 = or_zero (PDRIDValue a)) as Hid0 by congruence.
  assert (LocalTEID pdr0 = 0) as Ht0 by congruence.
  destruct (Find (or_nil (Children a1)) TypeFTEID); [|simplify_eq; split; [done|by left]].
  peel H. destruct a4 as [? []]; [|simplify_eq; split; [done|by left]].
  split; [apply chosen_id in H; congruence|]. right. by eapply chosen_spec.
Qed.

Definition created_all (s : Server) (pdrs : list PDR) (created : list IE) : Prop :=
  Forall2 (created_for s) (filter (fun p => LocalTEID p <> 0) pdrs) created.

Lemma build_pdrs_spec P e s k ies pdrs created : store_wf P (sessions s) ->
  build_pdrs e s k ies = Ok (pdrs, created) ->
  pd_ID <$> pdrs = pdr_id <$> ies /\ created_all s pdrs created.
Proof.
  intros Hw. revert k pdrs created. induction ies as [|i ies IH]; intros k pdrs created H; cbn in H.
  { simplify_eq. split; [done|constructor]. }
  peel H. destruct a as [pdr c]. peel H. destruct a as [pdrs' c']. simplify_eq.
  destruct (build_pdr_spec P _ _ _ _ _ _ Hw E) as [Hid Hc]. destruct (IH _ _ _ E0) as [Hids Hall].
  split; [by rewrite !fmap_cons, Hid, Hids|]. unfold created_all. rewrite filter_cons.
  destruct Hc as [[-> Ht]|(c0 & -> & Hc)].
  - rewrite decide_False by congruence. done.
  - rewrite decide_True by (destruct Hc as [[? _] _]; done). by constructor.
Qed.

Lemma build_far_id i far : build_far i = Ok far -> fa_ID far = far_id i.
Proof.
  unfold build_far. intros H. peel H. peel H.
  assert (far_id i = or_zero (FARIDValue a)) as ->.
  { unfold far_id, rule_id. destruct (Children i) as [ch|]; [|done]. cbn in E. by rewrite E. }
  destruct (Find (or_nil (Children i)) TypeForwardingParameters) as [fp|]; [|by simplify_eq].
  destruct (flag _ _); [|by simplify_eq]. destruct (Children fp) as [ch|]; [|by simplify_eq].
  destruct (Find ch TypeDestinationInterface); destruct (Find ch TypeOuterHeaderCreation) as [o|];
    try destruct (OuterHeaderCreationValue o); by simplify_eq.
Qed.

Lemma collect_spec {A B} (f : A -> result failure B) l ys :
  collect f l = Ok ys -> Forall2 (fun x y => f x = Ok y) l ys.
Proof.
  revert ys. induction l as [|x l IH]; intros ys H; cbn in H; [simplify_eq; constructor|].
  peel H. peel H. simplify_eq. constructor; [done|by apply IH].
Qed.

(** The session an establishment stores has the requested rules in order, and a
    Created PDR for every rule that was given a local TEID. *)
Lemma build_session_rules P e addr s cp up req sess created : store_wf P (sessions s) ->
  build_session e addr s cp up req = Ok (sess, created) ->
  pd_ID <$> PDRs sess = pdr_id <$> SEReq_CreatePDRs req /\
  fa_ID <$> FARs sess = far_id <$> SEReq_CreateFARs req /\
  created_all s (PDRs sess) created.
Proof.
  unfold build_session. intros Hw H. do 3 peel H. destruct a1 as [pdrs c]. peel H. simplify_eq. cbn.
  apply (build_pdrs_spec P) in E1 as [-> ?]; [|done]. split; [done|]. split; [|done].
  apply collect_spec in E2. clear -E2. induction E2 as [|i f ies fars Hf _ IH]; [done|].
  rewrite !fmap_cons, IH. by rewrite (build_far_id _ _ Hf).
Qed.
