(* ===== verification/PfcpServerSpec.v ===== *)
(** * The SGW-U PFCP server implements its specification

    The abstract view of the server: the keys under which an association is known, and
    the sessions by UP-SEID.  Every message changes it by one [spec_step], which is what
    TS 29.244 asks of the UP function; the heap of session objects, the second index
    and the peer records do not show. *)

From S2P Require Import Prelude GoLib PfcpIe PfcpMessage SgwuStore PfcpServer PfcpServerRules.
#[local] Open Scope list_scope.
#[local] Open Scope Z_scope.

(** ** The view of the session store *)

Definition view (st : Store) : gmap Z Session := omap (fun l => objects st !! l) (byUPSEID st).

Lemma view_lookup P st u s : store_wf P st ->
  view st !! u = Some s <-> exists l, stored st l s /\ SgwuStore.UPSEID s = u.
Proof.
  intros H. unfold view. rewrite lookup_omap. split.
  - destruct (byUPSEID st !! u) as [l|] eqn:Eu; [|done]. simpl. intros Ho.
    destruct (up_stored _ _ _ _ H Eu) as (s' & [Ho' Hc] & <-). exists l.
    assert (s' = s) as -> by congruence. done.
  - intros (l & Hs & <-). rewrite (stored_up _ _ _ _ H Hs). by destruct Hs.
Qed.

(** Two stores agree on their views when they store the same sessions. *)
Lemma view_ext P Q st st' (keep : Session -> Prop) `{!forall s, Decision (keep s)} :
  store_wf P st -> store_wf Q st' ->
  (forall l s, stored st' l s <-> stored st l s /\ keep s) ->
  view st' = filter (fun kv => keep kv.2) (view st).
Proof.
  intros Hw Hw' Hs. apply map_eq. intros u. apply option_eq. intros s.
  rewrite map_lookup_filter_Some, (view_lookup _ _ _ _ Hw), (view_lookup _ _ _ _ Hw'). simpl.
  split; [intros (l & [? ?]%Hs & ?); eauto|]. intros [(l & ? & ?) ?]. exists l. by rewrite Hs.
Qed.

Lemma view_alloc st : view (AllocSEID st).2 = view st.
Proof. done. Qed.

Lemma view_create P st (l : sref) s : store_wf P st -> objects st !! l = None ->
  byCPSEID st !! SgwuStore.CPSEID s = None ->
  (Create l s st).1 = None /\ view (Create l s st).2 = <[SgwuStore.UPSEID s := s]> (view st).
Proof.
  intros H Hl Hc. unfold Create. rewrite Hc. split; [done|]. apply map_eq. intros u.
  unfold view. cbn. destruct (decide (u = SgwuStore.UPSEID s)) as [->|Hne].
  - rewrite lookup_omap, !lookup_insert_eq. cbn. apply lookup_insert_eq.
  - rewrite (lookup_insert_ne _ (SgwuStore.UPSEID s)) by done.
    rewrite !lookup_omap, lookup_insert_ne by done.
    destruct (byUPSEID st !! u) as [l'|] eqn:Eu; [|done]. cbn.
    apply lookup_insert_ne. intros ->. destruct (wf_up _ _ H _ _ Eu) as (? & ? & _). congruence.
Qed.

Lemma Create_cp P st s : store_wf P st ->
  byCPSEID st !! SgwuStore.CPSEID s = None <->
  (forall u s', view st !! u = Some s' -> SgwuStore.CPSEID s' <> SgwuStore.CPSEID s).
Proof.
  intros H. split.
  - intros Hc u s' (l' & [_ Hs] & _)%(view_lookup _ _ _ _ H) E. congruence.
  - intros Hv. destruct (byCPSEID st !! SgwuStore.CPSEID s) as [l'|] eqn:E; [|done].
    destruct (stored_lookup _ _ _ _ H E) as (s' & Hs & Hcp).
    destruct (Hv (SgwuStore.UPSEID s') s'); [|done]. apply (view_lookup _ _ _ _ H). eauto.
Qed.

Lemma view_delete_up P st u : store_wf P st -> view (DeleteByUPSEID u st) = delete u (view st).
Proof.
  intros H. destruct (DeleteByUPSEID_spec _ _ u H) as [H' Hs]. apply map_eq. intros v.
  apply option_eq. intros s. rewrite lookup_delete_Some, (view_lookup _ _ _ _ H), (view_lookup _ _ _ _ H').
  split.
  - intros (l & [? Hne]%Hs & <-). split; [done|]. eauto.
  - intros [Hne (l & ? & <-)]. exists l. rewrite Hs. auto.
Qed.

Lemma view_delete_cp P st c : store_wf P st ->
  view (DeleteByCPSEID c st) = filter (fun kv => SgwuStore.CPSEID kv.2 <> c) (view st).
Proof.
  intros H. destruct (DeleteByCPSEID_spec _ _ c H) as (H' & Hs & _).
  exact (view_ext P P st _ (fun s => SgwuStore.CPSEID s <> c) H H' Hs).
Qed.

Lemma delete_all_frame cs st deleted st' :
  delete_all cs st = (deleted, st') ->
  seidCounter st' = seidCounter st /\ objects st' = objects st.
Proof.
  revert st deleted. induction cs as [|c cs IH]; intros st deleted E; cbn in E; [by simplify_eq|].
  destruct (byCPSEID st !! c); [|by eapply IH].
  destruct (delete_all cs _) as [d st0] eqn:E'. simplify_eq. apply IH in E' as [-> ->].
  unfold DeleteByCPSEID. by destruct (_ ≫= _).
Qed.

Lemma view_delete_node P st order key : store_wf P st ->
  Permutation order (elements (dom (byCPSEID st))) ->
  let '(deleted, st') := DeleteByCPNodeKey order key st in
  store_wf P st' /\ seidCounter st' = seidCounter st /\ objects st' = objects st /\
  view st' = filter (fun kv => CPNodeKey kv.2 <> key) (view st) /\
  (forall l, l ∈ deleted -> exists s, stored st l s /\ CPNodeKey s = key).
Proof.
  intros H Hord. pose proof (DeleteByCPNodeKey_spec P order key st H Hord) as Hd.
  destruct (DeleteByCPNodeKey order key st) as [deleted st'] eqn:E. destruct Hd as (H' & Hs & Hl).
  destruct (delete_all_frame _ _ _ _ E) as [? ?].
  split; [done|]. split; [done|]. split; [done|].
  split; [|intros l; apply Hl].
  exact (view_ext P P st st' (fun s => CPNodeKey s <> key) H H' Hs).
Qed.

Lemma view_set_rules P st l sess pdrs fars : store_wf P st -> stored st l sess ->
  view (set_rules l pdrs fars st)
  = <[SgwuStore.UPSEID sess := sess <| PDRs := pdrs |> <| FARs := fars |>]> (view st).
Proof.
  intros H Hs. unfold set_rules. rewrite (proj1 Hs). apply map_eq. intros u.
  unfold view. cbn. destruct (decide (u = SgwuStore.UPSEID sess)) as [->|Hne].
  - rewrite lookup_insert_eq, lookup_omap, (stored_up _ _ _ _ H Hs). cbn. by rewrite lookup_insert_eq.
  - rewrite lookup_insert_ne by done. rewrite !lookup_omap.
    destruct (byUPSEID st !! u) as [l'|] eqn:Eu; [|done]. cbn. apply lookup_insert_ne.
    intros ->. destruct (wf_up _ _ H _ _ Eu) as (s' & Ho & <- & _). destruct Hs as [Ho' _].
    congruence.
Qed.

(** ** Invariant of the server and its environment *)

Record server_ok (s : Server) : Prop := mkServerOk {
  so_store : exists P, store_wf P (sessions s);
  so_peers : forall key r, peers s !! key = Some r -> is_Some (records s !! r) }.

Record env_ok (e : env) (s : Server) : Prop := mkEnvOk {
  eo_session : objects (sessions s) !! e_session e = None;
  eo_peer : records s !! e_peer e = None;
  eo_order : Permutation (e_session_order e) (elements (dom (byCPSEID (sessions s))));
  eo_seid : seidCounter (sessions s) + 1 < 2 ^ 64 }.

Definition abstract (s : Server) : gset string * gmap Z Session :=
  (dom (peers s), view (sessions s)).

(** ** Specification *)

Definition same_session (s s' : Session) : Prop :=
  SgwuStore.CPSEID s' = SgwuStore.CPSEID s /\ SgwuStore.UPSEID s' = SgwuStore.UPSEID s /\
  CPNodeKey s' = CPNodeKey s.

(** How a datagram is answered: not at all, with a refusal cause, or with acceptance
    (a heartbeat answer has no cause). *)
Inductive answer := Silent | Refused | Accepted.
Definition quiet (out : list effect) : Prop :=
  Forall (fun f => match f with Reply _ _ => False | _ => True end) out.
Definition answers (addr : UDPAddr) (out : list effect) (a : answer) : Prop :=
  match a with
  | Silent => quiet out
  | Refused => exists pre h ies c, quiet pre /\ out = pre ++ [Reply addr (Marshal h ies)] /\
      NewCause c ∈ ies /\ c <> CauseRequestAccepted
  | Accepted => exists pre h ies, quiet pre /\ out = pre ++ [Reply addr (Marshal h ies)] /\
      Forall (fun i => IE_Type i = TypeCause -> i = NewCause CauseRequestAccepted) ies
  end.

(** [spec_step addr typ a (A, V) (A', V')]: a message of type [typ] from [addr] may be
    answered by [a] and take the associations [A] and sessions [V] to [A'] and [V'].
    Only a message that is not accepted, or a heartbeat, changes nothing. *)
Inductive spec_step (addr : UDPAddr) :
    Z -> answer -> gset string * gmap Z Session -> gset string * gmap Z Session -> Prop :=
| spec_refused typ a A V : a <> Accepted -> spec_step addr typ a (A, V) (A, V)
| spec_associated key A V :
    spec_step addr MsgTypeAssociationSetupRequest Accepted (A, V) ({[ sourceKey addr; key ]} ∪ A, V)
| spec_alive A V :
    spec_step addr MsgTypeHeartbeatRequest Accepted (A, V) (A, V)
| spec_restarted A V :
    sourceKey addr ∈ A ->
    spec_step addr MsgTypeHeartbeatRequest Accepted (A, V)
      (A, filter (fun kv => CPNodeKey kv.2 <> sourceKey addr) V)
| spec_established u sess A V :
    sourceKey addr ∈ A -> V !! u = None -> 0 < u < 2 ^ 64 ->
    (forall v sess', V !! v = Some sess' -> SgwuStore.CPSEID sess' <> SgwuStore.CPSEID sess) ->
    SgwuStore.UPSEID sess = u -> CPNodeKey sess = sourceKey addr ->
    spec_step addr MsgTypeSessionEstablishmentRequest Accepted (A, V) (A, <[u := sess]> V)
| spec_modified u sess sess' A V :
    sourceKey addr ∈ A -> V !! u = Some sess -> same_session sess sess' ->
    spec_step addr MsgTypeSessionModificationRequest Accepted (A, V) (A, <[u := sess']> V)
| spec_deleted u sess A V :
    sourceKey addr ∈ A -> V !! u = Some sess ->
    spec_step addr MsgTypeSessionDeletionRequest Accepted (A, V) (A, delete u V)
| spec_released key A V :
    spec_step addr MsgTypeAssociationReleaseRequest Accepted (A, V)
      (A ∖ {[ key ]}, filter (fun kv => CPNodeKey kv.2 <> key) V).

Create HintDb answers.
Lemma quiet_app out out' : quiet out -> quiet out' -> quiet (out ++ out').
Proof. intros. by apply Forall_app. Qed.
Lemma quiet_fmap {A} (f : A -> effect) l : (forall x, quiet [f x]) -> quiet (f <$> l).
Proof. intros H. apply Forall_fmap, Forall_true. intros x. exact (proj1 (Forall_singleton _ _) (H x)). Qed.
Lemma quiet_nil : quiet [].
Proof. constructor. Qed.
Lemma quiet_removals deleted s : quiet (removals deleted s).
Proof. unfold removals. case_match; [|apply quiet_nil]. apply quiet_fmap. intros ?. by apply Forall_singleton. Qed.
Lemma quiet_path_peers sess s : quiet (trackSessionPathPeers sess s).
Proof.
  unfold trackSessionPathPeers. case_match; [|apply quiet_nil]. apply quiet_fmap. intros ?.
  by apply Forall_singleton.
Qed.
#[export] Hint Resolve quiet_app quiet_nil quiet_removals quiet_path_peers : answers.
Lemma quiet_if (b : bool) out out' : quiet out -> quiet out' -> quiet (if b then out else out').
Proof. by destruct b. Qed.
Lemma quiet_install sess : quiet [InstallSession sess].
Proof. by apply Forall_singleton. Qed.
Lemma quiet_update sess : quiet [UpdateSession sess].
Proof. by apply Forall_singleton. Qed.
Lemma quiet_remove sess : quiet [RemoveSession sess].
Proof. by apply Forall_singleton. Qed.
Lemma quiet_end_markers ems : quiet ((fun ev => SendEndMarker (em_teid ev) (em_dstIP ev)) <$> ems).
Proof. apply quiet_fmap. intros ?. by apply Forall_singleton. Qed.
#[export] Hint Resolve quiet_if quiet_install quiet_update quiet_remove quiet_end_markers : answers.

Lemma answers_refused addr pre h ies c : quiet pre -> NewCause c ∈ ies -> c <> CauseRequestAccepted ->
  answers addr (pre ++ [Reply addr (Marshal h ies)]) Refused.
Proof. intros. by exists pre, h, ies, c. Qed.
Lemma answers_accepted addr pre h ies : quiet pre ->
  Forall (fun i => IE_Type i = TypeCause -> i = NewCause CauseRequestAccepted) ies ->
  answers addr (pre ++ [Reply addr (Marshal h ies)]) Accepted.
Proof. intros. by exists pre, h, ies. Qed.

(** ** Each handler refines the specification *)

Lemma Ok_pair {E A B} (a a' : A) (b b' : B) : Ok (a, b) = (Ok (a', b') : result E (A * B)) -> a = a' /\ b = b'.
Proof. by intros [= -> ->]. Qed.
Definition refines (typ : Z) (addr : UDPAddr) (a : answer) (s s' : Server) : Prop :=
  server_ok s' /\ seidCounter (sessions s') <= seidCounter (sessions s) + 1 /\
  spec_step addr typ a (abstract s) (abstract s').
Definition handled (typ : Z) (addr : UDPAddr) (s : Server) (out : list effect) (s' : Server) : Prop :=
  exists a, answers addr out a /\ refines typ addr a s s'.

Lemma refines_same typ addr a s : server_ok s -> a <> Accepted -> refines typ addr a s s.
Proof. intros H Ha. split; [done|]. split; [lia|]. by apply spec_refused. Qed.
Lemma handled_silent typ addr s : server_ok s -> handled typ addr s [] s.
Proof. intros H. exists Silent. split; [apply quiet_nil|by apply refines_same]. Qed.
Lemma handled_refused typ addr s pre h ies c : server_ok s -> quiet pre -> NewCause c ∈ ies ->
  c <> CauseRequestAccepted -> handled typ addr s (pre ++ [Reply addr (Marshal h ies)]) s.
Proof.
  intros H Hp Hc Hne. exists Refused. split; [by eapply answers_refused|by apply refines_same].
Qed.

(** Only the sessions changed. *)
Lemma refines_sessions typ addr a s st P :
  server_ok s -> store_wf P st -> seidCounter st <= seidCounter (sessions s) + 1 ->
  spec_step addr typ a (abstract s) (dom (peers s), view st) ->
  refines typ addr a s (s <| sessions := st |>).
Proof. intros [_ Hp] Hw Hc Hs. split; [split; [by exists P|done]|]. by split. Qed.

Lemma hasAssociation_dom addr s : hasAssociation addr s = true <-> sourceKey addr ∈ dom (peers s).
Proof. unfold hasAssociation. by rewrite bool_decide_eq_true, elem_of_dom. Qed.

Lemma alias_refines addr typ r key s s0 :
  server_ok s0 -> is_Some (records s0 !! r) -> sessions s0 = sessions s ->
  dom (peers s0) = {[ key ]} ∪ dom (peers s) ->
  typ = MsgTypeAssociationSetupRequest ->
  refines typ addr Accepted s
    (if String.eqb (sourceKey addr) key then s0
     else s0 <| peers := <[sourceKey addr := r]> (peers s0) |>).
Proof.
  intros [Hst Hp] Hr Hses Hdom ->.
  assert (forall A, A = {[ sourceKey addr; key ]} ∪ dom (peers s) ->
    spec_step addr MsgTypeAssociationSetupRequest Accepted (abstract s) (A, view (sessions s)))
    as Hspec by (intros A ->; apply spec_associated).
  destruct (String.eqb_spec (sourceKey addr) key) as [E|Hne].
  - split; [by split|]. split; [rewrite Hses; lia|]. unfold abstract at 2. rewrite Hses.
    apply Hspec. rewrite Hdom. subst key. set_solver.
  - split; [split; [done|]|]; cbn.
    { intros k r' [[<- <-]|[_ Hk]]%lookup_insert_Some; [done|]. by apply Hp in Hk. }
    split; [rewrite Hses; lia|]. unfold abstract at 2. cbn. rewrite Hses. apply Hspec.
    rewrite dom_insert_L, Hdom. set_solver.
Qed.

Lemma handleAssocSetup_refines e addr hdr raw s out s' :
  server_ok s -> env_ok e s -> handleAssocSetup e addr hdr raw s = Ok (out, s') ->
  handled MsgTypeAssociationSetupRequest addr s out s'.
Proof.
  intros Hok He. unfold handleAssocSetup.
  destruct (ParseAssociationSetupRequest raw) as [req|].
  2: { intros [<- <-]%Ok_pair. apply (handled_refused _ _ _ [] _ _ CauseRequestRejected);
       [done|auto with answers|set_solver|done]. }
  destruct (ASReq_RecoveryTimeStamp req) as [ts|]; [|done]. cbv zeta.
  set (key := if String.eqb (nodeIDKey _) "" then _ else _).
  intros [<- <-]%Ok_pair. exists Accepted.
  split; [apply (answers_accepted _ []); [auto with answers|repeat constructor; done]|].
  destruct (peers s !! key) as [r|] eqn:Ek.
  - match goal with |- refines _ _ _ _ (if _ then ?s0 else _) =>
      apply (alias_refines addr _ r key s s0); cbn; try done end.
    + split; cbn; [apply Hok|]. intros k r' Hk. apply lookup_alter_is_Some.
      by apply (so_peers _ Hok) in Hk.
    + apply lookup_alter_is_Some. by apply (so_peers _ Hok) in Ek.
    + apply elem_of_dom_2 in Ek. set_solver.
  - match goal with |- refines _ _ _ _ (if _ then ?s0 else _) =>
      apply (alias_refines addr _ (e_peer e) key s s0); cbn; try done end.
    + split; cbn; [apply Hok|].
      intros k r' [[<- <-]|[_ Hk]]%lookup_insert_Some; [by rewrite lookup_insert_eq|].
      apply (so_peers _ Hok) in Hk. rewrite lookup_insert_ne; [done|].
      intros <-. rewrite (eo_peer _ _ He) in Hk. by destruct Hk.
    + by rewrite lookup_insert_eq.
    + by rewrite dom_insert_L.
Qed.

Lemma deletePeerSessions_spec e key s :
  server_ok s -> env_ok e s ->
  exists P st, (deletePeerSessions e key s).2 = s <| sessions := st |> /\
    quiet (deletePeerSessions e key s).1 /\ store_wf P st /\ seidCounter st = seidCounter (sessions s) /\
    view st = filter (fun kv => CPNodeKey kv.2 <> key) (view (sessions s)).
Proof.
  intros [[P Hw] _] [_ _ Ho _]. unfold deletePeerSessions.
  pose proof (view_delete_node P _ _ key Hw Ho) as Hd.
  destruct (DeleteByCPNodeKey _ _ _) as [deleted st]. destruct Hd as (? & ? & _ & ? & _).
  exists P, st. cbn. auto with answers.
Qed.

Lemma touch_refines typ addr a s s' rs r f :
  rs = records s' -> refines typ addr a s s' ->
  refines typ addr a s (s' <| records := alter f r rs |>).
Proof.
  intros -> ([Hst Hp] & Hc & Hs). split; [|by split]. split; [done|]. cbn.
  intros k r' Hk. apply lookup_alter_is_Some. by apply Hp in Hk.
Qed.

Lemma handleHeartbeat_refines e addr raw s out s' :
  server_ok s -> env_ok e s -> handleHeartbeat e addr raw s = Ok (out, s') ->
  handled MsgTypeHeartbeatRequest addr s out s'.
Proof.
  intros Hok He. unfold handleHeartbeat.
  destruct (ParseHeartbeatRequest raw) as [req|]; [|intros [<- <-]%Ok_pair; by apply handled_silent].
  destruct (HBReq_RecoveryTimeStamp req) as [ts|]; [|done]. cbv zeta.
  assert (Hans : forall out0 h, quiet out0 ->
    answers addr (out0 ++ [Reply addr (Marshal h [NewRecoveryTimeStamp (localTS s)])]) Accepted)
    by (intros; by apply answers_accepted; [|repeat constructor]).
  assert (Hsame : refines MsgTypeHeartbeatRequest addr Accepted s s)
    by (split; [done|]; split; [lia|]; apply spec_alive).
  destruct (peers s !! sourceKey addr) as [r|] eqn:Ek.
  2: { intros [<- <-]%Ok_pair. exists Accepted. split; [apply (Hans []), quiet_nil|done]. }
  destruct (match records s !! r with Some _ => _ | None => _ end).
  2: { intros [<- <-]%Ok_pair. exists Accepted. split; [apply (Hans []), quiet_nil|].
       by apply (touch_refines _ addr _ s s). }
  destruct (deletePeerSessions_spec e (sourceKey addr) s Hok He) as (P & st & E & Hq & Hw & Hc & Hv).
  destruct (deletePeerSessions e (sourceKey addr) s) as [out0 s0]. cbn [fst snd] in E, Hq. subst s0.
  intros [<- <-]%Ok_pair. exists Accepted. split; [by apply Hans|].
  apply (touch_refines _ addr _ s (s <| sessions := st |>)); [done|].
  apply (refines_sessions _ _ _ _ _ P); try done; [lia|].
  rewrite Hv. apply spec_restarted. by eapply elem_of_dom_2.
Qed.

Lemma handleAssociationRelease_refines e addr raw s out s' :
  server_ok s -> env_ok e s -> handleAssociationRelease e addr raw s = Ok (out, s') ->
  handled MsgTypeAssociationReleaseRequest addr s out s'.
Proof.
  intros Hok He. unfold handleAssociationRelease.
  destruct (ParseAssociationReleaseRequest raw) as [req|]; [|intros [<- <-]%Ok_pair; by apply handled_silent].
  set (key := cpNodeKey _ _).
  destruct (deletePeerSessions_spec e key s Hok He) as (P & st & E & Hq & Hw & Hc & Hv).
  destruct (deletePeerSessions e key s) as [out0 s0]. cbn [fst snd] in E, Hq. subst s0.
  intros [<- <-]%Ok_pair. exists Accepted.
  split; [by apply answers_accepted; [|repeat constructor]|].
  split; [split; cbn; [by exists P|]|].
  { intros k r [_ Hk]%lookup_delete_Some. by apply (so_peers _ Hok) in Hk. }
  cbn. split; [lia|]. unfold abstract at 2. cbn. rewrite dom_delete_L, Hv. apply spec_released.
Qed.

Lemma handleSessionDeletion_refines e addr hdr raw s out s' :
  server_ok s -> handleSessionDeletion e addr hdr raw s = Ok (out, s') ->
  handled MsgTypeSessionDeletionRequest addr s out s'.
Proof.
  intros Hok. unfold handleSessionDeletion.
  destruct (hasAssociation addr s) eqn:Ha; cbn [negb].
  2: { intros [<- <-]%Ok_pair.
       by apply (handled_refused _ _ _ [] _ _ CauseNoEstablishedAssociation);
         [|auto with answers|set_solver|]. }
  apply hasAssociation_dom in Ha.
  destruct (ParseSessionDeletionRequest raw) as [req|]; [|intros [<- <-]%Ok_pair; by apply handled_silent].
  destruct (FindByUPSEID _ _) as [l|] eqn:Ef.
  2: { intros [<- <-]%Ok_pair.
       by apply (handled_refused _ _ _ [] _ _ CauseRequestRejected); [|auto with answers|set_solver|]. }
  destruct (objects (sessions s) !! l) as [sess|] eqn:El; [|done]. intros [<- <-]%Ok_pair.
  pose proof Hok as [[P Hw] _]. destruct (DeleteByUPSEID_spec P (sessions s) (SEID (SDReq_Header req)) Hw) as [Hw' _].
  exists Accepted. split; [apply answers_accepted; [auto with answers|repeat constructor; done]|].
  apply (refines_sessions _ _ _ _ _ P); [done|done| |].
  - unfold DeleteByUPSEID. destruct (_ ≫= _); cbn; lia.
  - rewrite (view_delete_up _ _ _ Hw). apply (spec_deleted addr _ sess); [done|].
    unfold view. rewrite lookup_omap. unfold FindByUPSEID in Ef. by rewrite Ef.
Qed.

(** A modification that is committed replaces the rules of the session by those of the
    candidate, one that is not leaves the server as it was. *)
Lemma applySessionModification_cases e s l sess req :
  (exists cand created ems,
     candidate e s sess req = Ok (cand, created, ems) /\
     (has_bpfInstall s = true -> e_update_ok e = true) /\
     (applySessionModification e s l sess req).2
       = Ok (cand, created, ems, s <| sessions := set_rules l (PDRs cand) (FARs cand) (sessions s) |>)) \/
  (exists f, (applySessionModification e s l sess req).2 = Err f /\
     ((exists p, f = Stop p) -> candidate e s sess req = Err f)).
Proof.
  unfold applySessionModification. destruct (candidate e s sess req) as [[[cand created] ems]|f] eqn:E.
  - destruct (has_bpfInstall s && negb (e_update_ok e)) eqn:B; cbn.
    + right. eexists. split; [done|]. intros [p Hp]. discriminate.
    + left. exists cand, created, ems. split; [done|]. split; [|done]. intros Hb. rewrite Hb in B.
      by destruct (e_update_ok e).
  - right. cbn. eauto.
Qed.

Lemma quiet_applySessionModification e s l sess req :
  quiet (applySessionModification e s l sess req).1.
Proof.
  unfold applySessionModification. destruct (candidate _ _ _ _) as [[[? ?] ?]|]; [|apply quiet_nil].
  destruct (_ && _); cbn; auto with answers.
Qed.

(** No Created PDR is a Cause. *)
Lemma create_pdrs_created e s k ies pdrs pdrs' created :
  create_pdrs e s k ies pdrs = Ok (pdrs', created) -> Forall (fun i => IE_Type i = TypeCreatedPDR) created.
Proof.
  revert k pdrs created. induction ies as [|i ies IH]; intros k pdrs created H; cbn in H; [by simplify_eq|].
  peel H. destruct a as [pdr choose]. peel H. peel H. destruct a0 as [pdr1 c1]. peel H.
  destruct a0 as [pdrs2 c2]. simplify_eq. apply IH in E2. apply Forall_app. split; [|done].
  destruct choose; [|by simplify_eq]. unfold chosen in E1. do 2 peel E1. destruct a1 as [ip c].
  simplify_eq. apply Forall_singleton. unfold newCreatedPDRForSource in E4.
  by repeat (case_match; simplify_eq).
Qed.
Lemma candidate_created e s sess req cand created ems :
  candidate e s sess req = Ok (cand, created, ems) -> Forall (fun i => IE_Type i = TypeCreatedPDR) created.
Proof.
  unfold candidate. intros H. peel H. peel H. destruct a0 as [pdrs0 cr0]. do 3 peel H. peel H.
  destruct a3. simplify_eq. by apply create_pdrs_created in E0.
Qed.
Lemma created_no_cause created : Forall (fun i => IE_Type i = TypeCreatedPDR) created ->
  Forall (fun i => IE_Type i = TypeCause -> i = NewCause CauseRequestAccepted) created.
Proof. intros H. eapply Forall_impl; [exact H|]. cbn. intros i -> ?. done. Qed.

Lemma handleSessionModification_refines e addr hdr raw s out s' :
  server_ok s -> handleSessionModification e addr hdr raw s = Ok (out, s') ->
  handled MsgTypeSessionModificationRequest addr s out s'.
Proof.
  intros Hok. unfold handleSessionModification.
  destruct (hasAssociation addr s) eqn:Ha; cbn [negb].
  2: { intros [<- <-]%Ok_pair.
       by apply (handled_refused _ _ _ [] _ _ CauseNoEstablishedAssociation);
         [|auto with answers|set_solver|]. }
  apply hasAssociation_dom in Ha.
  destruct (ParseSessionModificationRequest raw) as [req|]; [|intros [<- <-]%Ok_pair; by apply handled_silent].
  destruct (FindByUPSEID _ _) as [l|] eqn:Ef.
  2: { intros [<- <-]%Ok_pair.
       by apply (handled_refused _ _ _ [] _ _ CauseRequestRejected); [|auto with answers|set_solver|]. }
  destruct (objects (sessions s) !! l) as [sess|] eqn:El; [|done].
  pose proof (quiet_applySessionModification e s l sess req) as Hq.
  pose proof (applySessionModification_cases e s l sess req) as Hc.
  destruct (applySessionModification e s l sess req) as [out0 r]. cbn [fst snd] in Hc, Hq.
  destruct Hc as [(cand & created & ems & Hcand & _ & ->)|(f & -> & _)].
  2: { destruct f; [done|]. intros [<- <-]%Ok_pair.
       by apply (handled_refused _ _ _ _ _ _ CauseRuleCreationFailure); [| |set_solver|]. }
  intros [<- <-]%Ok_pair. pose proof Hok as [[P Hw] _].
  unfold FindByUPSEID in Ef. destruct (wf_up _ _ Hw _ _ Ef) as (sess0 & Ho & Hu & Hcp).
  assert (sess0 = sess) as -> by congruence.
  exists Accepted. split.
  { rewrite !app_assoc. apply answers_accepted; [auto 10 with answers|]. constructor; [done|].
    by apply created_no_cause; eapply candidate_created. }
  apply (refines_sessions _ _ _ _ _ P); [done|by apply set_rules_wf| |].
  - unfold set_rules. rewrite El. cbn. lia.
  - rewrite (view_set_rules P _ _ sess) by done. rewrite Hu.
    apply (spec_modified addr _ sess); [done| |by split_and!].
    unfold view. rewrite lookup_omap, Ef. done.
Qed.

Lemma build_session_ids e addr s cp up req sess created :
  build_session e addr s cp up req = Ok (sess, created) ->
  SgwuStore.CPSEID sess = cp /\ SgwuStore.UPSEID sess = up /\ CPNodeKey sess = sourceKey addr.
Proof.
  unfold build_session. do 2 (intros (? & _ & H)%rbind_Ok; revert H).
  intros ([? ?] & _ & H)%rbind_Ok. apply rbind_Ok in H as (? & _ & H). by simplify_eq.
Qed.

(** The two outcomes of an establishment: refused, the stored sessions being what they
    were (only the UP-SEID counter may have advanced); or stored. *)
Definition est_refused (e : env) (addr : UDPAddr) (hdr : Header) (s : Server) (out : list effect)
    (s' : Server) : Prop :=
  exists cause installs st,
    cause <> CauseRequestAccepted /\ Forall (fun f => exists sess, f = InstallSession sess) installs /\
    out = installs ++ [Reply addr (session_est_refusal cause hdr s)] /\
    s' = s <| sessions := st |> /\ view st = view (sessions s).

Definition est_accepted (e : env) (addr : UDPAddr) (raw : bytes) (s : Server) (out : list effect)
    (s' : Server) : Prop :=
  exists req cpIE cp sess created upIE,
    let s1 := s <| sessions := (AllocSEID (sessions s)).2 |> in
    let up := seidCounter (sessions s) + 1 in
    sourceKey addr ∈ dom (peers s) /\
    ParseSessionEstablishmentRequest raw = Ok req /\ SEReq_CPSEID req = Some cpIE /\
    FSEIDValue cpIE = Ok cp /\
    build_session e addr s1 (FSEID_SEID cp) up req = Ok (sess, created) /\
    (forall v sess', view (sessions s) !! v = Some sess' ->
       SgwuStore.CPSEID sess' <> SgwuStore.CPSEID sess) /\
    (has_bpfInstall s = true -> e_install_ok e = true) /\
    pd_ID <$> PDRs sess = pdr_id <$> SEReq_CreatePDRs req /\
    fa_ID <$> FARs sess = far_id <$> SEReq_CreateFARs req /\
    created_all s1 (PDRs sess) created /\
    NewFSEID up (localIP s) = Some upIE /\
    view (sessions s') = <[up := sess]> (view (sessions s)) /\
    (exists st, s' = s <| sessions := st |>) /\
    out = (if has_bpfInstall s then [InstallSession sess] else [])
      ++ trackSessionPathPeers sess s
      ++ [Reply addr (session_response MsgTypeSessionEstablishmentResponse (FSEID_SEID cp)
            (SequenceNumber (SEReq_Header req))
            ([NewNodeIDIPv4 (localNodeID s); NewCause CauseRequestAccepted; upIE] ++ created))].

(** Every error of a helper is a refusal. *)
Definition refusing {A} (r : result failure A) : Prop :=
  forall c, r = Err (Reject c) -> c <> CauseRequestAccepted.
Create HintDb refusals.
Lemma refusing_Ok {A} (a : A) : refusing (Ok a).
Proof. by intros c. Qed.
Lemma refusing_Stop {A} p : refusing (Err (Stop p) : result failure A).
Proof. by intros c. Qed.
Lemma refusing_Reject {A} c : c <> CauseRequestAccepted -> refusing (Err (Reject c) : result failure A).
Proof. by intros ? ? [= <-]. Qed.
Lemma refusing_bind {A B} (r : result failure A) (k : A -> result failure B) :
  refusing r -> (forall a, refusing (k a)) -> refusing (rbind r k).
Proof. intros Hr Hk. destruct r as [a|f]; cbn; [apply Hk|]. intros c [= ->]. by apply Hr. Qed.
Lemma refusing_deref i : refusing (deref i).
Proof. by destruct i; intros c. Qed.
Lemma refusing_guard b c : c <> CauseRequestAccepted -> refusing (guard b (Reject c)).
Proof. intros Hc. destruct b; [by intros ?|by apply refusing_Reject]. Qed.
Lemma refusing_or_reject {E A} c (r : result E A) : c <> CauseRequestAccepted -> refusing (or_reject c r).
Proof. intros Hc. destruct r; [by intros ?|by apply refusing_Reject]. Qed.
Lemma refusing_rule_check b : refusing (rule_check b).
Proof. by apply refusing_guard. Qed.
#[export] Hint Resolve refusing_Ok refusing_Stop refusing_bind refusing_deref refusing_rule_check : refusals.
#[export] Hint Extern 1 (refusing (or_reject _ _)) => by apply refusing_or_reject : refusals.
#[export] Hint Extern 1 (refusing (Err (Reject _))) => by apply refusing_Reject : refusals.
#[export] Hint Extern 2 (refusing match ?x with _ => _ end) => destruct x : refusals.

Lemma refusing_for_each {A} (f : A -> result failure unit) l :
  (forall x, refusing (f x)) -> refusing (for_each f l).
Proof. intros Hf. induction l as [|x l IH]; cbn; auto with refusals. Qed.
Lemma refusing_collect {A B} (f : A -> result failure B) l :
  (forall x, refusing (f x)) -> refusing (collect f l).
Proof. intros Hf. induction l as [|x l IH]; cbn; auto 10 with refusals. Qed.

Lemma refusing_validate_pdr i : refusing (validate_pdr i).
Proof. unfold validate_pdr. auto 20 with refusals. Qed.
Lemma refusing_validate_far i : refusing (validate_far i).
Proof. unfold validate_far. auto 20 with refusals. Qed.
Lemma refusing_chosen e k pdr s : refusing (chosen e k pdr s).
Proof.
  unfold chosen, alloc_teid, newCreatedPDRForSource. auto 20 with refusals.
Qed.
Lemma refusing_with_qos children pdr : refusing (with_qos children pdr).
Proof. unfold with_qos. auto 20 with refusals. Qed.
#[export] Hint Resolve refusing_chosen refusing_with_qos : refusals.
Lemma refusing_build_pdr e s k i : refusing (build_pdr e s k i).
Proof. unfold build_pdr. auto 40 with refusals. Qed.
#[export] Hint Resolve refusing_build_pdr : refusals.
Lemma refusing_build_pdrs e s k ies : refusing (build_pdrs e s k ies).
Proof. revert k. induction ies; intros k; cbn; auto 20 with refusals. Qed.
Lemma refusing_build_far i : refusing (build_far i).
Proof. unfold build_far. auto 30 with refusals. Qed.

Lemma refusing_build_session e addr s cp up req : refusing (build_session e addr s cp up req).
Proof.
  unfold build_session.
  apply refusing_bind; [apply refusing_for_each, refusing_validate_pdr|intros _].
  apply refusing_bind; [apply refusing_for_each, refusing_validate_far|intros _].
  apply refusing_bind; [apply refusing_build_pdrs|intros [? ?]].
  apply refusing_bind; [apply refusing_collect, refusing_build_far|]. auto with refusals.
Qed.

Lemma NewFSEID_type seid a i : NewFSEID seid a = Some i -> IE_Type i = TypeFSEID.
Proof. unfold NewFSEID. destruct (IsValid a), (As4 a); cbn; intros; by simplify_eq. Qed.
Lemma created_all_type s pdrs created : created_all s pdrs created ->
  Forall (fun i => IE_Type i = TypeCreatedPDR) created.
Proof.
  unfold created_all. induction 1 as [|p c ps cs (_ & _ & f & _ & ->) _ IH]; by constructor.
Qed.

Lemma establishment_cases e addr hdr raw s out s' :
  server_ok s -> env_ok e s -> handleSessionEstablishment e addr hdr raw s = Ok (out, s') ->
  handled MsgTypeSessionEstablishmentRequest addr s out s' /\
  (est_refused e addr hdr s out s' \/ est_accepted e addr raw s out s').
Proof.
  intros Hok [El _ _ Hseid]. pose proof Hok as [[P Hw] _]. pose proof (wf_counter _ _ Hw) as Hnn.
  assert (Hsame : forall cause installs st, cause <> CauseRequestAccepted ->
    Forall (fun f => exists sess, f = InstallSession sess) installs -> (exists Q, store_wf Q st) ->
    seidCounter st <= seidCounter (sessions s) + 1 -> view st = view (sessions s) ->
    Ok (installs ++ [Reply addr (session_est_refusal cause hdr s)], s <| sessions := st |>)
      = (Ok (out, s') : step) ->
    handled MsgTypeSessionEstablishmentRequest addr s out s' /\
    (est_refused e addr hdr s out s' \/ est_accepted e addr raw s out s')).
  { intros cause installs st Hc Hi [Q HQ] Hn Hv [<- <-]%Ok_pair. split.
    - exists Refused. split.
      { apply (answers_refused _ _ _ _ cause); [|set_solver|done].
        eapply Forall_impl; [exact Hi|]. by intros ? [? ->]. }
      apply (refines_sessions _ _ _ _ _ Q); try done. rewrite Hv. by apply spec_refused.
    - left. by exists cause, installs, st. }
  assert (Hs : s = s <| sessions := sessions s |>) by (by destruct s).
  unfold handleSessionEstablishment.
  destruct (hasAssociation addr s) eqn:Ha; cbn [negb]; [apply hasAssociation_dom in Ha|].
  2: { rewrite Hs at 2. apply (Hsame CauseNoEstablishedAssociation []); eauto; lia. }
  destruct (ParseSessionEstablishmentRequest raw) as [req|] eqn:Ereq.
  2: { rewrite Hs at 2. apply (Hsame CauseRequestRejected []); eauto; lia. }
  destruct (SEReq_CPSEID req) as [cpIE|] eqn:Ecp; [|done].
  destruct (FSEIDValue cpIE) as [cp|] eqn:Efs.
  2: { rewrite Hs at 2. apply (Hsame CauseRequestRejected []); eauto; lia. }
  pose proof (AllocSEID_wf P (sessions s) Hw Hseid) as Hw1.
  destruct (AllocSEID (sessions s)) as [up st1] eqn:Ea. cbn [fst snd] in Hw1.
  assert (up = seidCounter (sessions s) + 1 /\
          st1 = (sessions s) <| seidCounter := seidCounter (sessions s) + 1 |>) as [Eup Est].
  { unfold AllocSEID in Ea. rewrite uN_small in Ea by (unfold in_u; lia). by simplify_eq. }
  assert (Hv1 : view st1 = view (sessions s)) by (by rewrite Est).
  assert (Hn1 : seidCounter st1 = seidCounter (sessions s) + 1) by (by rewrite Est).
  assert (Ho1 : objects st1 !! e_session e = None) by (by rewrite Est).
  assert (Hss : forall st, s <| sessions := st1 |> <| sessions := st |> = s <| sessions := st |>)
    by (by destruct s).
  destruct (build_session _ _ _ _ _ _) as [[sess created]|[p|c]] eqn:Eb; [|done|].
  2: { apply (Hsame c []); [|done|eauto|lia|done].
       by apply (refusing_build_session _ _ _ _ _ _ _ Eb). }
  destruct (build_session_ids _ _ _ _ _ _ _ _ Eb) as (Hcp & Hup & Hkey).
  assert (Hws : store_wf ({[up]} ∪ P) (sessions (s <| sessions := st1 |>))) by done.
  destruct (build_session_rules _ _ _ _ _ _ _ _ _ Hws Eb) as (Hpid & Hfid & Hcr).
  cbn [sessions]. change (sessions (s <| sessions := st1 |>)) with st1.
  destruct (Create (e_session e) sess st1) as [[err|] st2] eqn:Ec.
  { apply (Hsame CauseRequestRejected []); eauto; lia. }
  assert (Hfree : byCPSEID st1 !! SgwuStore.CPSEID sess = None).
  { unfold Create in Ec. by destruct (byCPSEID st1 !! _). }
  destruct (view_create _ _ _ sess Hw1 Ho1 Hfree) as [_ Hv2]. rewrite Ec, Hv1, Hup in Hv2. cbn in Hv2.
  destruct (wf_issued _ _ Hw1 up) as [Hupf Hupr]; [set_solver|].
  assert (Hw2 : store_wf (({[up]} ∪ P) ∖ {[up]}) st2 /\ seidCounter st2 = seidCounter st1).
  { unfold Create in Ec. rewrite Hfree in Ec. injection Ec as <-. rewrite <- Hup.
    split; [|done]. rewrite <- Hup in Hw1, Hupf, Hupr. by apply index_wf. }
  destruct Hw2 as [Hw2 Hn2].
  pose proof (proj1 (Create_cp _ _ _ Hw1) Hfree) as Hnone. rewrite Hv1 in Hnone.
  assert (Hnew : view (sessions s) !! up = None).
  { rewrite <- Hv1. unfold view. by rewrite lookup_omap, Hupf. }
  rewrite Hss. change (has_bpfInstall (s <| sessions := st2 |>)) with (has_bpfInstall s).
  destruct (has_bpfInstall s && negb (e_install_ok e)) eqn:Eb2.
  - change (s <| sessions := st2 |> <| sessions := ?x |>) with (s <| sessions := x |>).
    change (sessions (s <| sessions := st2 |>)) with st2.
    destruct (DeleteByCPSEID_spec _ st2 (FSEID_SEID cp) Hw2) as (Hw3 & _ & _).
    apply (Hsame CauseRuleCreationFailure [InstallSession sess]); [done|by eauto|by eauto| |].
    + transitivity (seidCounter st2); [|lia]. unfold DeleteByCPSEID. destruct (_ ≫= _); cbn; lia.
    + rewrite (view_delete_cp _ _ _ Hw2), Hv2. apply map_eq. intros u. apply option_eq. intros s0.
      rewrite map_lookup_filter_Some, lookup_insert_Some. cbn. split.
      * intros [[[<- <-]|[_ ?]] Hne]; [by rewrite Hcp in Hne|done].
      * intros Hu. split; [|rewrite <- Hcp; by apply (Hnone u)].
        right. split; [|done]. intros ->. congruence.
  - destruct (NewFSEID up (localIP (s <| sessions := st2 |>))) as [upIE|] eqn:Efi; [|done].
    intros [<- <-]%Ok_pair. split.
    + exists Accepted. split.
      { rewrite !app_assoc. apply answers_accepted; [auto 10 with answers|].
        apply Forall_app. split; [|by apply created_no_cause; eapply created_all_type].
        constructor; [done|]. constructor; [done|]. constructor; [|done].
        intros Ht. by rewrite (NewFSEID_type _ _ _ Efi) in Ht. }
      apply (refines_sessions _ _ _ _ _ _ Hok Hw2); [lia|]. rewrite Hv2.
      apply spec_established; try done. unfold in_u in *. lia.
    + right. exists req, cpIE, cp, sess, created, upIE. rewrite Ea, <- Eup. cbn [snd].
      split_and!; try done; [|by exists st2].
      intros Hb. rewrite Hb in Eb2. by destruct (e_install_ok e).
Qed.

(** ** Example data for the witnesses *)

Definition example_addr : UDPAddr := mkUDPAddr [10; 0; 0; 1] 8805.
Definition example_server : Server :=
  mkServer [10; 0; 0; 9] (AddrV4 0x0A000009) (AddrV4 0x0A000009) (AddrV4 0x0A00000A) 500 []
    {[ "ipv4:10.0.0.1"%string := O ]}
    {[ O := mkPeerRecord "ipv4:10.0.0.1" 77 0 (Some example_addr) ]} example_store true true true.
Definition example_env : env :=
  mkEnv 0 1 1 [7] ["ipv4:10.0.0.1"%string] true true 3 (fun k i => Some (0x2000 + Z.of_nat k)).
Definition example_header (typ seid : Z) : Header := mkHeader 1 (0 <? seid) typ 0 seid 9.

(** Session 1 moves its downlink tunnel from TEID 0x55 to 0x66. *)
Definition example_modification : bytes :=
  Marshal (example_header MsgTypeSessionModificationRequest 1)
    (match NewOuterHeaderCreation OHCDescGTPUUDPIPv4 0x66 (AddrV4 0x0A000003) with
     | Some ohc => [NewUpdateFAR [NewFARID 1; NewUpdateForwardingParameters [ohc]]]
     | None => []
     end).
(** A second session, with one rule whose TEID the server chooses. *)
Definition example_establishment (farID : list IE) : bytes :=
  Marshal (mkHeader 1 true MsgTypeSessionEstablishmentRequest 0 0 9)
    (match NewFSEID 8 (AddrV4 0x0A000001) with
     | Some cp =>
         [NewNodeIDIPv4 [10; 0; 0; 1]; cp;
          NewCreatePDR ([NewPDRID 4; NewPrecedence 100;
            NewPDI [NewSourceInterface SourceInterfaceAccess; NewFTEIDChoose]] ++ farID);
          NewCreateFAR [NewFARID 2; NewApplyAction ApplyActionFORW;
            NewForwardingParameters [NewDestinationInterface 1]]]
     | None => []
     end).
(** The association of a node whose Node ID is not its source address. *)
Definition example_setup : bytes :=
  Marshal (example_header MsgTypeAssociationSetupRequest 0)
    [NewNodeIDIPv4 [10; 0; 0; 2]; NewRecoveryTimeStamp 77].
Definition example_release : bytes :=
  Marshal (example_header MsgTypeAssociationReleaseRequest 0) [NewNodeIDIPv4 [10; 0; 0; 2]].

Lemma example_server_ok : server_ok example_server.
Proof.
  split; [exists ∅; apply example_store_wf|]. cbn. intros key r H.
  apply lookup_singleton_Some in H as [_ <-]. by rewrite lookup_singleton_eq.
Qed.
Lemma example_env_ok : env_ok example_env example_server.
Proof.
  split; [by vm_compute|by vm_compute| |by vm_compute].
  replace (elements _) with [7] by (by vm_compute). done.
Qed.

(** ** Properties *)

(** C5: The PFCP server implements its specification.  From a consistent state and for
    every datagram, clock, map order, dataplane outcome and random source, handling
    the datagram keeps the server consistent (both SEID indexes of its sessions agree,
    every peer key leads to a peer record), sends at most one answer, and changes the
    associations and sessions by the one step of the specification that answer stands
    for: an accepted request has had its effect (a new session under a fresh UP-SEID and
    a free CP-SEID, a session with other rules and the same identity, one session less,
    or all sessions of one node less) and one that was refused or dropped has had none.
    Session procedures are accepted only from a source with an association, and a
    disallowed source changes and receives nothing. *)
Theorem handle_refines e addr hdr raw s out s' :
  server_ok s -> env_ok e s -> handle e addr hdr raw s = Ok (out, s') ->
  server_ok s' /\ seidCounter (sessions s') <= seidCounter (sessions s) + 1 /\
  (exists a, answers addr out a /\ spec_step addr (MessageType hdr) a (abstract s) (abstract s')) /\
  (isAllowed (ua_IP addr) s = false -> out = [] /\ s' = s).
Proof.
  intros Hok He H. assert (handled (MessageType hdr) addr s out s' /\
    (isAllowed (ua_IP addr) s = false -> out = [] /\ s' = s)) as [(a & ? & ? & ? & ?) ?]; [|by eauto 6].
  unfold handle in H. destruct (isAllowed (ua_IP addr) s); cbn [negb] in H.
  2: { apply Ok_pair in H as [<- <-]. split; [by apply handled_silent|done]. }
  split; [|done].
  repeat match type of H with
  | (if ?t =? ?c then _ else _) = _ =>
      destruct (Z.eqb_spec t c) as [->|_]
  end.
  - by eapply handleAssocSetup_refines.
  - by eapply handleHeartbeat_refines.
  - by eapply establishment_cases.
  - by eapply handleSessionModification_refines.
  - by eapply handleSessionDeletion_refines.
  - by eapply handleAssociationRelease_refines.
  - apply Ok_pair in H as [<- <-]. by apply handled_silent.
Qed.

Lemma handle_refines_witness :
  exists out s', handle example_env example_addr (mkHeader 1 true MsgTypeSessionEstablishmentRequest 0 0 9)
      (example_establishment [NewFARID 2]) example_server = Ok (out, s') /\
    exists a, answers example_addr out a /\
      spec_step example_addr MsgTypeSessionEstablishmentRequest a (abstract example_server) (abstract s').
Proof.
  destruct (handle example_env example_addr (mkHeader 1 true MsgTypeSessionEstablishmentRequest 0 0 9)
    (example_establishment [NewFARID 2]) example_server) as [[out s']|p] eqn:E.
  2: { exfalso. vm_compute in E. done. }
  exists out, s'. split; [done|].
  apply (handle_refines example_env example_addr _ _ example_server out s'
    example_server_ok example_env_ok E).
Defined.





(** The keys an accepted setup adds. *)
Lemma setup_keys e addr hdr raw s out s' req :
  ParseAssociationSetupRequest raw = Ok req -> nodeIDKey (ASReq_NodeID req) <> ""%string ->
  handleAssocSetup e addr hdr raw s = Ok (out, s') ->
  dom (peers s') = {[ sourceKey addr; nodeIDKey (ASReq_NodeID req) ]} ∪ dom (peers s) /\
  sessions s' = sessions s.
Proof.
  intros Hp Hne. unfold handleAssocSetup. rewrite Hp. apply String.eqb_neq in Hne. rewrite Hne.
  destruct (ASReq_RecoveryTimeStamp req) as [ts|]; [|done]. cbv zeta.
  set (key := nodeIDKey _). intros [_ <-]%Ok_pair.
  destruct (peers s !! key) as [r|] eqn:Ek; destruct (String.eqb_spec (sourceKey addr) key) as [E|Hn];
    (split; [|done]); cbn; rewrite ?dom_insert_L; try (apply elem_of_dom_2 in Ek); rewrite ?E; set_solver.
Qed.
Definition example_env2 : env :=
  mkEnv 0 1 2 [7] ["ipv4:10.0.0.1"%string; "ipv4:10.0.0.2"%string] true true 3 (fun k i => Some 1).

Lemma example_env2_ok out s1 :
  handleAssocSetup example_env example_addr (example_header MsgTypeAssociationSetupRequest 0)
    example_setup example_server = Ok (out, s1) -> env_ok example_env2 s1.
Proof.
  intros E. vm_compute in E. injection E as _ <-.
  split; [by vm_compute|by vm_compute| |by vm_compute].
  replace (elements _) with [7] by (by vm_compute). done.
Qed.

(** Association setup and release.  Setup registers the peer under its Node ID and
    under its source address and touches no session.  Release by the same Node ID takes
    out the Node ID's key only, and the sessions stored under it: if the Node ID is the
    source address the association and every session of the source are gone, but if it
    is not, the source keeps its association and, its sessions being stored under the
    source key, all of them. *)
Lemma association_release e e' addr hdr raw raw' s out1 s1 out2 s2 req req' :
  server_ok s -> env_ok e s -> env_ok e' s1 ->
  ParseAssociationSetupRequest raw = Ok req -> ParseAssociationReleaseRequest raw' = Ok req' ->
  nodeIDKey (ARReq_NodeID req') = nodeIDKey (ASReq_NodeID req) ->
  nodeIDKey (ASReq_NodeID req) <> ""%string ->
  handleAssocSetup e addr hdr raw s = Ok (out1, s1) ->
  handleAssociationRelease e' addr raw' s1 = Ok (out2, s2) ->
  let key := nodeIDKey (ASReq_NodeID req) in
  hasAssociation addr s1 = true /\ key ∈ dom (peers s1) /\
  view (sessions s1) = view (sessions s) /\
  key ∉ dom (peers s2) /\ hasAssociation addr s2 = negb (String.eqb (sourceKey addr) key) /\
  view (sessions s2) = filter (fun kv => CPNodeKey kv.2 <> key) (view (sessions s)).
Proof.
  intros Hok He He' Hp Hp' Hk Hne Hs Hr key.
  destruct (handleAssocSetup_refines _ _ _ _ _ _ _ Hok He Hs) as (_ & _ & Hok1 & _ & _).
  destruct (setup_keys _ _ _ _ _ _ _ _ Hp Hne Hs) as (Hdom & Hses). fold key in Hdom.
  unfold handleAssociationRelease in Hr. rewrite Hp' in Hr. unfold cpNodeKey in Hr.
  rewrite Hk in Hr. fold key in Hr. apply String.eqb_neq in Hne. fold key in Hne. rewrite Hne in Hr.
  destruct (deletePeerSessions_spec e' key s1 Hok1 He') as (P & st & E & _ & _ & _ & Hv).
  destruct (deletePeerSessions e' key s1) as [o s0]. cbn [snd] in E. subst s0. injection Hr as _ <-.
  split; [apply hasAssociation_dom; rewrite Hdom; set_solver|]. split; [rewrite Hdom; set_solver|].
  split; [by rewrite Hses|]. cbn. rewrite dom_delete_L. split; [set_solver|].
  split; [|by rewrite Hv, Hses].
  apply eq_true_iff_eq. rewrite hasAssociation_dom. cbn. rewrite dom_delete_L, Hdom.
  destruct (String.eqb_spec (sourceKey addr) key) as [->|Hn]; cbn; set_solver.
Qed.
