(* ===== verification/PfcpServerStops.v ===== *)
(** * Where the SGW-U PFCP server can stop

    A goroutine that panics takes the process with it.  This file shows for which
    datagrams a handler of [internal/sgwu/pfcpserver/server.go] reaches a nil-pointer
    dereference (or a failing allocation) and for which it runs to its reply. *)

From S2P Require Import Prelude GoLib PfcpIe PfcpMessage SgwuStore PfcpServer PfcpServerRules.
From S2P Require Import PfcpServerSpec.
#[local] Open Scope list_scope.
#[local] Open Scope Z_scope.

(** ** Helpers *)

Definition config_ok (s : Server) : Prop :=
  Is4 (localIP s) = true /\ Is4 (accessIP s) = true /\ Is4 (coreIP s) = true.
(** Every TEID allocation draws a usable word within the fuel. *)
Definition random_ok (e : env) (s : Server) : Prop :=
  forall k, exists v, AllocTEID (e_fuel e) (e_random e k) 0 (sessions s) = Some (Some v).

Definition runs {A} (r : result failure A) : Prop := forall p, r <> Err (Stop p).
Create HintDb runs.
Lemma runs_Ok {A} (a : A) : runs (Ok a).
Proof. by intros p. Qed.
Lemma runs_Reject {A} c : runs (Err (Reject c) : result failure A).
Proof. by intros p. Qed.
Lemma runs_bind {A B} (r : result failure A) (k : A -> result failure B) :
  runs r -> (forall a, r = Ok a -> runs (k a)) -> runs (rbind r k).
Proof. intros Hr Hk. destruct r as [a|f]; cbn; [by apply Hk|]. intros p [= ->]. by apply (Hr p). Qed.
Lemma runs_guard b c : runs (guard b (Reject c)).
Proof. by destruct b; intros p. Qed.
Lemma runs_rule_check b : runs (rule_check b).
Proof. apply runs_guard. Qed.
Lemma runs_or_reject {E A} c (r : result E A) : runs (or_reject c r).
Proof. by destruct r; intros p. Qed.
Lemma runs_or_fail {E A} (r : result E A) : runs (or_fail r).
Proof. apply runs_or_reject. Qed.
Lemma runs_need i : runs (need i).
Proof. by destruct i; intros p. Qed.
Lemma runs_deref i : is_Some i -> runs (deref i).
Proof. by intros [j ->] p. Qed.
#[export] Hint Resolve runs_Ok runs_Reject runs_rule_check runs_or_reject runs_or_fail runs_need : runs.

Lemma nil_false ies t : nil ies t = false <-> is_Some (Find ies t).
Proof. unfold nil. destruct (Find ies t); split; (done || by intros []). Qed.
Lemma nil_true ies t : nil ies t = true <-> Find ies t = None.
Proof. unfold nil. by destruct (Find ies t). Qed.

(** Run through the steps of a helper; a dereference follows from the checks before. *)
Ltac checks :=
  repeat match goal with
  | H : or_reject _ _ = Ok _ |- _ => apply or_reject_Ok in H
  | H : or_fail _ = Ok _ |- _ => apply or_reject_Ok in H
  | H : rule_check _ = Ok _ |- _ => apply rule_check_Ok in H
  | H : negb _ = true |- _ => apply negb_true_iff in H
  | H : _ || _ = false |- _ => apply orb_false_iff in H as [? ?]
  | H : nil _ _ = false |- _ => apply nil_false in H
  | H : deref _ = Ok _ |- _ => apply deref_Ok in H
  | H : need _ = Ok _ |- _ => apply need_Ok in H
  end.
Ltac run :=
  repeat match goal with
  | |- runs (rbind _ _) => apply runs_bind; [|intros ? ?]; checks
  | |- runs (deref _) => apply runs_deref; done
  | |- runs (match ?x with _ => _ end) => destruct x eqn:?; checks
  | |- runs _ => solve [auto with runs]
  end.

Lemma validate_pdr_runs i : runs (validate_pdr i).
Proof. unfold validate_pdr. run. Qed.
Lemma validate_far_runs i : runs (validate_far i).
Proof. unfold validate_far. run. Qed.

Lemma for_each_Ok {A} (f : A -> result failure unit) l u :
  for_each f l = Ok u -> Forall (fun x => f x = Ok tt) l.
Proof.
  induction l as [|x l IH]; cbn; intros H; [constructor|]. peel H. destruct a.
  constructor; [done|by apply IH].
Qed.
Lemma runs_for_each {A} (f : A -> result failure unit) l : (forall x, runs (f x)) -> runs (for_each f l).
Proof. intros Hf. induction l as [|x l IH]; cbn; [apply runs_Ok|]. by apply runs_bind. Qed.

Lemma with_qos_runs children pdr : runs (with_qos children pdr).
Proof. unfold with_qos. run. Qed.
#[export] Hint Resolve with_qos_runs : runs.

Lemma newCreatedPDR_runs id teid src s : config_ok s -> runs (newCreatedPDRForSource id teid src s).
Proof.
  intros (_ & Ha & Hc). unfold newCreatedPDRForSource, localGTPUIPForSource.
  destruct (_ =? SourceInterfaceAccess); [by destruct (accessIP s)|].
  destruct (_ =? SourceInterfaceCore); [by destruct (coreIP s)|done].
Qed.
Lemma chosen_runs e k pdr s : config_ok s -> random_ok e s -> runs (chosen e k pdr s).
Proof.
  intros Hc Hr. unfold chosen, alloc_teid. destruct (Hr k) as [v ->]. cbn [rbind].
  apply runs_bind; [by apply newCreatedPDR_runs|]. intros [? ?] _. apply runs_Ok.
Qed.

(** A Create PDR with a FAR ID is built without stopping once it is validated. *)
Lemma build_pdr_runs e s k i children : config_ok s -> random_ok e s ->
  validate_pdr i = Ok tt -> Children i = Ok children -> is_Some (Find children TypeFARID) ->
  runs (build_pdr e s k i).
Proof.
  intros Hc Hr Hv Hch Hfar. unfold validate_pdr in Hv. rewrite Hch in Hv. cbn [or_reject rbind] in Hv.
  do 4 peel Hv. checks. unfold build_pdr. rewrite Hch. cbn [or_nil].
  apply runs_bind; [by apply runs_deref|intros pi _]. apply runs_bind; [by apply runs_deref|intros fi _].
  apply runs_bind; [by apply runs_deref|intros pd Hpd]. checks.
  assert (pd = a1) as -> by congruence. rewrite E2. cbn [or_nil].
  apply runs_bind; [by apply runs_deref|intros si _].
  apply runs_bind; [apply with_qos_runs|intros pdr _].
  destruct (Find a2 TypeFTEID); [|apply runs_Ok]. apply runs_bind; [apply runs_or_reject|].
  intros [? []] _; [by apply chosen_runs|apply runs_Ok].
Qed.

Lemma build_far_runs i : validate_far i = Ok tt -> runs (build_far i).
Proof.
  unfold validate_far. intros Hv. do 3 peel Hv. checks. unfold build_far. rewrite E. cbn [or_nil].
  apply runs_bind; [by apply runs_deref|intros ? _]. apply runs_bind; [by apply runs_deref|intros ? _].
  run.
Qed.

(** A rule for which the server dereferences a nil FAR ID. *)
Definition without_far (i : IE) : Prop :=
  exists children, Children i = Ok children /\ Find children TypeFARID = None /\
    is_Some (Find children TypeActivatePredefinedRules).

Lemma validated_cases i : validate_pdr i = Ok tt ->
  without_far i \/ exists children, Children i = Ok children /\ is_Some (Find children TypeFARID).
Proof.
  unfold validate_pdr. intros Hv. do 3 peel Hv. checks.
  destruct (Find a TypeFARID) as [f|] eqn:Ef; [right; eauto|left].
  exists a. split; [done|]. split; [done|]. apply nil_false.
  unfold nil in E1 at 1. rewrite Ef in E1. exact E1.
Qed.

Lemma build_pdrs_stop e s k ies p : config_ok s -> random_ok e s ->
  Forall (fun i => validate_pdr i = Ok tt) ies -> build_pdrs e s k ies = Err (Stop p) ->
  p = Panic /\ Exists without_far ies.
Proof.
  intros Hc Hr Hv. revert k. induction Hv as [|i ies Hi Hv IH]; intros k H; cbn in H; [done|].
  destruct (validated_cases i Hi) as [Hw|(children & Hch & Hf)].
  - destruct (build_pdr e s k i) as [[pdr c]|f] eqn:E; cbn in H.
    { destruct (build_pdrs e s (k + length c) ies) as [[? ?]|f] eqn:E2; cbn in H; [done|].
      simplify_eq. apply IH in E2 as [-> ?]. split; [done|by right]. }
    simplify_eq. split; [|by left]. destruct Hw as (children & Hch & Hf & _).
    unfold build_pdr in E. rewrite Hch in E. cbn [or_nil] in E. rewrite Hf in E.
    destruct (Find children TypePDRID); cbn in E; congruence.
  - pose proof (build_pdr_runs e s k i children Hc Hr Hi Hch Hf) as Hrun.
    destruct (build_pdr e s k i) as [[pdr c]|f]; cbn in H.
    + destruct (build_pdrs e s (k + length c) ies) as [[? ?]|f] eqn:E2; cbn in H; [done|].
      simplify_eq. apply IH in E2 as [-> ?]. split; [done|by right].
    + simplify_eq. by destruct (Hrun p).
Qed.

Lemma collect_build_far_runs ies : Forall (fun i => validate_far i = Ok tt) ies ->
  runs (collect build_far ies).
Proof.
  induction 1 as [|i ies Hi _ IH]; cbn; [apply runs_Ok|].
  apply runs_bind; [by apply build_far_runs|intros ? _]. by apply runs_bind; [|intros; apply runs_Ok].
Qed.

Lemma build_session_stop e addr s cp up req p : config_ok s -> random_ok e s ->
  build_session e addr s cp up req = Err (Stop p) ->
  p = Panic /\ Exists without_far (SEReq_CreatePDRs req).
Proof.
  intros Hc Hr. unfold build_session. intros H.
  destruct (for_each validate_pdr _) as [u|f] eqn:E1; cbn in H.
  2: { simplify_eq. by destruct (runs_for_each _ (SEReq_CreatePDRs req) validate_pdr_runs p). }
  destruct (for_each validate_far _) as [u'|f] eqn:E2; cbn in H.
  2: { simplify_eq. by destruct (runs_for_each _ (SEReq_CreateFARs req) validate_far_runs p). }
  apply for_each_Ok in E1, E2.
  destruct (build_pdrs _ _ _ _) as [[pdrs c]|f] eqn:E3; cbn in H.
  2: { simplify_eq. by apply build_pdrs_stop in E3. }
  pose proof (collect_build_far_runs _ E2) as Hrun.
  destruct (collect build_far _); cbn in H; [done|]. simplify_eq. by destruct (Hrun p).
Qed.

(** ** Modification *)

Lemma parseCreatePDR_runs i : runs (parseCreatePDR i).
Proof. unfold parseCreatePDR. run. Qed.
Lemma parseCreateFAR_runs i : runs (parseCreateFAR i).
Proof. unfold parseCreateFAR. run. Qed.
Lemma create_fars_runs ies fars : runs (create_fars ies fars).
Proof.
  revert fars. induction ies as [|i ies IH]; intros fars; cbn; [apply runs_Ok|].
  apply runs_bind; [apply parseCreateFAR_runs|intros ? _]. apply runs_bind; auto with runs.
Qed.
Lemma create_pdrs_runs e s k ies pdrs : config_ok s -> random_ok e s ->
  runs (create_pdrs e s k ies pdrs).
Proof.
  intros Hc Hr. revert k pdrs. induction ies as [|i ies IH]; intros k pdrs; cbn; [apply runs_Ok|].
  apply runs_bind; [apply parseCreatePDR_runs|intros [pdr choose] _].
  apply runs_bind; [auto with runs|intros _ _].
  apply runs_bind; [destruct choose; [by apply chosen_runs|apply runs_Ok]|intros [? ?] _].
  apply runs_bind; [apply IH|intros [? ?] _; apply runs_Ok].
Qed.
Lemma remove_pdrs_runs ies pdrs : runs (remove_pdrs ies pdrs).
Proof.
  revert pdrs. induction ies as [|i ies IH]; intros pdrs; cbn; [apply runs_Ok|].
  repeat (apply runs_bind; [auto with runs|intros ? _]). apply IH.
Qed.
Lemma remove_fars_runs ies fars : runs (remove_fars ies fars).
Proof.
  revert fars. induction ies as [|i ies IH]; intros fars; cbn; [apply runs_Ok|].
  repeat (apply runs_bind; [auto with runs|intros ? _]). apply IH.
Qed.
Lemma parseUpdateFARs_runs ies fars : runs (parseUpdateFARs ies fars).
Proof.
  induction ies as [|i ies IH]; cbn; [apply runs_Ok|].
  do 3 (apply runs_bind; [auto with runs|intros ? _]). by apply runs_bind; [|intros; apply runs_Ok].
Qed.
Lemma update_far_runs u fars : runs (update_far u fars).
Proof.
  induction fars as [|f fars IH]; cbn; [apply runs_Reject|]. destruct (negb _).
  - by apply runs_bind; [|intros [? ?] _; apply runs_Ok].
  - unfold update_action, update_forwarding. run.
Qed.
Lemma applyFARUpdates_runs us fars : runs (applyFARUpdatesToCandidate fars us).
Proof.
  revert fars. induction us as [|u us IH]; intros fars; cbn; [apply runs_Ok|].
  apply runs_bind; [apply update_far_runs|intros [? ?] _].
  by apply runs_bind; [|intros [? ?] _; apply runs_Ok].
Qed.
Lemma candidate_runs e s sess req : config_ok s -> random_ok e s -> runs (candidate e s sess req).
Proof.
  intros Hc Hr. unfold candidate.
  apply runs_bind; [apply create_fars_runs|intros ? _].
  apply runs_bind; [by apply create_pdrs_runs|intros [? ?] _].
  apply runs_bind; [apply remove_pdrs_runs|intros ? _].
  apply runs_bind; [apply remove_fars_runs|intros ? _].
  apply runs_bind; [apply parseUpdateFARs_runs|intros ? _].
  apply runs_bind; [apply applyFARUpdates_runs|intros [? ?] _; apply runs_Ok].
Qed.

(** ** Handlers *)

Lemma has_last ies t : has ies t = true -> is_Some (last_of ies t).
Proof. unfold has, last_of. intros H%bool_decide_eq_true. by apply last_is_Some. Qed.

(** A parsed message has its mandatory IEs. *)
Lemma mandatory {R} {parse L} {build : Header -> list IE -> R} `{!MessageParser parse L build} b r :
  parse b = Ok r -> exists h ies, r = build h ies /\ forall t, t ∈ L_mandatory L -> is_Some (last_of ies t).
Proof.
  intros (h & ies & _ & Ha & ->)%parser_spec. exists h, ies. split; [done|]. intros t Ht.
  unfold accepts in Ha. rewrite !andb_true_iff, forallb_forall in Ha. destruct Ha as (_ & _ & _ & Ha).
  apply has_last, Ha. by apply list_elem_of_In.
Qed.

Lemma establishment_stops e addr hdr raw s p :
  server_ok s -> config_ok s -> random_ok e s ->
  handleSessionEstablishment e addr hdr raw s = Err p ->
  p = Panic /\ exists req, ParseSessionEstablishmentRequest raw = Ok req /\
    Exists without_far (SEReq_CreatePDRs req).
Proof.
  intros Hok Hc Hr. unfold handleSessionEstablishment. destruct (negb _); [done|].
  destruct (ParseSessionEstablishmentRequest raw) as [req|] eqn:E; [|done].
  destruct (mandatory _ _ E) as (h & ies & -> & Hm).
  destruct (Hm TypeFSEID) as [i Hi]; [cbn; set_solver|]. cbn [SEReq_build SEReq_CPSEID]. rewrite Hi.
  destruct (FSEIDValue i) as [cp|]; [|done].
  destruct (AllocSEID (sessions s)) as [up st] eqn:Ea.
  assert (st = (sessions s) <| seidCounter := seidCounter st |>) as Est
    by (unfold AllocSEID in Ea; by simplify_eq).
  destruct (build_session _ _ _ _ _ _) as [[sess created]|[q|c]] eqn:Eb; [|intros [= <-]|done].
  - destruct (Create _ _ _) as [[?|] st2]; [done|]. destruct (_ && _); [done|].
    destruct Hc as (Hl & _). cbn. destruct (localIP s) as [| |]; done.
  - apply build_session_stop in Eb as [-> ?]; [eauto|done|].
    intros k. destruct (Hr k) as [v Hv]. exists v. cbn. rewrite Est. by rewrite AllocTEID_counter.
Qed.

Lemma modification_runs e addr hdr raw s p :
  server_ok s -> config_ok s -> random_ok e s ->
  handleSessionModification e addr hdr raw s <> Err p.
Proof.
  intros [[P Hw] _] Hc Hr. unfold handleSessionModification. destruct (negb _); [done|].
  destruct (ParseSessionModificationRequest raw) as [req|]; [|done].
  destruct (FindByUPSEID _ _) as [l|] eqn:El; [|done].
  destruct (wf_up _ _ Hw _ _ El) as (sess & -> & _). unfold applySessionModification.
  pose proof (candidate_runs e s sess req Hc Hr) as Hrun.
  destruct (candidate e s sess req) as [[[? ?] ?]|[q|c]]; [|by destruct (Hrun q)|done].
  by destruct (_ && _).
Qed.

Lemma deletion_runs e addr hdr raw s p :
  server_ok s -> handleSessionDeletion e addr hdr raw s <> Err p.
Proof.
  intros [[P Hw] _]. unfold handleSessionDeletion. destruct (negb _); [done|].
  destruct (ParseSessionDeletionRequest raw) as [req|]; [|done].
  destruct (FindByUPSEID _ _) as [l|] eqn:El; [|done].
  by destruct (wf_up _ _ Hw _ _ El) as (sess & -> & _).
Qed.

Lemma association_runs e addr hdr raw s p :
  handleAssocSetup e addr hdr raw s <> Err p /\ handleHeartbeat e addr raw s <> Err p /\
  handleAssociationRelease e addr raw s <> Err p.
Proof.
  split; [|split].
  - unfold handleAssocSetup. destruct (ParseAssociationSetupRequest raw) as [req|] eqn:E; [|done].
    destruct (mandatory _ _ E) as (h & ies & -> & Hm).
    destruct (Hm TypeRecoveryTimeStamp) as [i Hi]; [cbn; set_solver|]. cbn. by rewrite Hi.
  - unfold handleHeartbeat. destruct (ParseHeartbeatRequest raw) as [req|] eqn:E; [|done].
    destruct (mandatory _ _ E) as (h & ies & -> & Hm).
    destruct (Hm TypeRecoveryTimeStamp) as [i Hi]; [cbn; set_solver|]. cbn. rewrite Hi.
    destruct (peers s !! sourceKey addr); [|done].
    by destruct (match records s !! _ with Some _ => _ | None => _ end); [destruct (deletePeerSessions _ _ _)|].
  - unfold handleAssociationRelease. destruct (ParseAssociationReleaseRequest raw); [|done].
    by destruct (deletePeerSessions _ _ _).
Qed.

(** An establishment whose first rule passes validation without a FAR ID panics. *)
Lemma establishment_panics e addr hdr raw s req cpIE cp i rest :
  hasAssociation addr s = true -> ParseSessionEstablishmentRequest raw = Ok req ->
  SEReq_CPSEID req = Some cpIE -> FSEIDValue cpIE = Ok cp ->
  SEReq_CreatePDRs req = i :: rest -> without_far i ->
  for_each validate_pdr (i :: rest) = Ok tt -> for_each validate_far (SEReq_CreateFARs req) = Ok tt ->
  handleSessionEstablishment e addr hdr raw s = Err Panic.
Proof.
  intros Ha Hp Hcp Hv Hpdrs (children & Hch & Hf & _) Hvp Hvf.
  unfold handleSessionEstablishment. rewrite Ha, Hp, Hcp, Hv. cbn [negb].
  destruct (AllocSEID (sessions s)) as [up st]. unfold build_session.
  rewrite Hpdrs, Hvp, Hvf. cbn [rbind build_pdrs]. unfold build_pdr. rewrite Hch. cbn [or_nil].
  rewrite Hf. by destruct (Find children TypePDRID).
Qed.

(** ** Property *)

(** C37: The PFCP server answers every datagram, with one exception.  With IPv4 addresses
    configured and a working random source, the only way a handler stops without its
    reply is a panic in session establishment caused by a Create PDR that carries
    Activate Predefined Rules and no FAR ID; no message of another type and no other
    content stops the server.  The exception is real: from an associated source such a
    request, once it passes the validation pass, does panic, because the allocation
    pass dereferences the FAR ID the validation pass did not ask for. *)
Theorem handle_stops e addr hdr raw s :
  server_ok s -> config_ok s -> random_ok e s ->
  (forall p, handle e addr hdr raw s = Err p ->
     p = Panic /\ MessageType hdr = MsgTypeSessionEstablishmentRequest /\
     exists req, ParseSessionEstablishmentRequest raw = Ok req /\
       Exists without_far (SEReq_CreatePDRs req)) /\
  (forall req cpIE cp i rest,
     isAllowed (ua_IP addr) s = true -> hasAssociation addr s = true ->
     MessageType hdr = MsgTypeSessionEstablishmentRequest ->
     ParseSessionEstablishmentRequest raw = Ok req ->
     SEReq_CPSEID req = Some cpIE -> FSEIDValue cpIE = Ok cp ->
     SEReq_CreatePDRs req = i :: rest -> without_far i ->
     for_each validate_pdr (i :: rest) = Ok tt ->
     for_each validate_far (SEReq_CreateFARs req) = Ok tt ->
     handle e addr hdr raw s = Err Panic).
Proof.
  intros Hok Hc Hr. split.
  - intros p. unfold handle. destruct (negb _); [done|].
    destruct (association_runs e addr hdr raw s p) as (H1 & H2 & H3).
    repeat match goal with |- (if ?t =? ?c then _ else _) = _ -> _ => destruct (Z.eqb_spec t c) end;
      intros H; try done.
    + destruct (establishment_stops _ _ _ _ _ _ Hok Hc Hr H) as (-> & ?). done.
    + by apply modification_runs in H.
    + by apply deletion_runs in H.
  - intros req cpIE cp i rest Hal Ha Ht Hp Hcp Hv Hpdrs Hw Hvp Hvf.
    unfold handle. rewrite Hal, Ht. cbn [negb Z.eqb Pos.eqb]. by eapply establishment_panics.
Qed.

Lemma example_config_ok : config_ok example_server.
Proof. by_compute. Qed.
Lemma example_random_ok : random_ok example_env example_server.
Proof.
  intros k. exists (0x2000 + Z.of_nat k). cbn [e_fuel e_random example_env AllocTEID].
  assert (localTEIDInUseLocked (0x2000 + Z.of_nat k) (sessions example_server) = false) as ->.
  { apply not_true_iff_false. rewrite (localTEIDInUse_spec ∅) by apply example_store_wf.
    intros (l & s & p & Hs & Hp & Ht).
    assert (s ∈ stored_sessions example_store) as Hin
      by (apply (stored_sessions_spec ∅); [apply example_store_wf|eauto]).
    replace (stored_sessions example_store) with [example_session 7 "ipv4:a"] in Hin by (by vm_compute).
    apply list_elem_of_singleton in Hin as ->. cbn in Hp. apply list_elem_of_singleton in Hp as ->.
    cbn in Ht. lia. }
  rewrite (proj2 (Z.eqb_neq _ _)) by lia. done.
Qed.

Lemma handle_stops_witness :
  let raw := example_establishment [mkIE TypeActivatePredefinedRules [1]] in
  let hdr := mkHeader 1 true MsgTypeSessionEstablishmentRequest 0 0 9 in
  handle example_env example_addr hdr raw example_server = Err Panic /\
  exists req, ParseSessionEstablishmentRequest raw = Ok req /\
    Exists without_far (SEReq_CreatePDRs req).
Proof.
  intros raw hdr.
  destruct (handle_stops example_env example_addr hdr raw example_server example_server_ok
    example_config_ok example_random_ok) as [H1 H2].
  assert (handle example_env example_addr hdr raw example_server = Err Panic) as E.
  { destruct (ParseSessionEstablishmentRequest raw) as [req|] eqn:Er; [|by vm_compute in Er].
    vm_compute in Er. injection Er as <-.
    eapply H2; try reflexivity.
    eexists. split; [vm_compute; reflexivity|]. split; [done|]. by eexists. }
  split; [exact E|]. by destruct (H1 _ E) as (_ & _ & H).
Defined.
