(* ===== verification/SgwuConfig.v ===== *)
(** * SGW-U configuration ([internal/config/sgwu])

    The configuration file's structures, its defaults, the interfaces the runtime reads,
    and the validation.  A structure's fields keep their Go names, with a prefix where two
    structures share one.  The YAML decoder is a parameter of [Load]. *)

From S2P Require Import Prelude GoLib.
From S2P Require PfcpServer.
From S2P Require Import Forwarder.
#[local] Open Scope string_scope.
#[local] Open Scope Z_scope.

(** ** Structures ([config.go]) *)

Record SGWUConfig := mkSGWU { NodeID : string }.
Record PFCPConfig := mkPFCP { p_Listen : string; AllowedSGWC : list string }.
Record UserInterfaceConfig := mkUserInterface { Ifname : string; Listen : string }.
Record InterfaceConfig := mkInterfaces { User : gmap string UserInterfaceConfig }.
Record GTPULogical := mkGTPULogical { Bind : string }.
Record GTPUConfig := mkGTPU { S1U : GTPULogical; S5U : GTPULogical }.
Record DataplaneConfig := mkDataplane {
  DriverMode : string; UnknownTEID : string; AttachOnStart : bool; CleanupOnExit : bool; MapMaxEntries : Z
}.
Record ProtocolMarkingConfig := mkProtocolMarking { pm_Enabled : bool; DSCP : Z }.
Record OuterMarkingConfig := mkOuterMarking {
  om_Enabled : bool; om_GTPU : ProtocolMarkingConfig; om_PFCP : ProtocolMarkingConfig
}.
Record QCIMarkingConfig := mkQCIMarking {
  qm_Enabled : bool; OverrideDefaultGTPU : bool; DefaultGTPUDSCP : Z; UnknownTEIDDSCP : Z;
  TrustInnerDSCP : bool; QCIToDSCP : gmap Z Z
}.
Record QoSConfig := mkQoS { OuterMarking : OuterMarkingConfig; QCIMarking : QCIMarkingConfig }.
Record LoggingConfig := mkLogging { Level : string; File : string }.
Record APIConfig := mkAPI { a_Listen : string }.
Record MetricsConfig := mkMetrics { m_Listen : string }.
Record ShutdownConfig := mkShutdown { TimeoutSeconds : Z }.
Record Config := mkConfig {
  SGWU : SGWUConfig; PFCP : PFCPConfig; Interfaces : InterfaceConfig; GTPU : GTPUConfig;
  Dataplane : DataplaneConfig; QoS : QoSConfig; Logging : LoggingConfig; API : APIConfig;
  Metrics : MetricsConfig; Shutdown : ShutdownConfig
}.
#[export] Instance eta_Config : Eta Config := fun c =>
  mkConfig (SGWU c) (PFCP c) (Interfaces c) (GTPU c) (Dataplane c) (QoS c) (Logging c) (API c)
    (Metrics c) (Shutdown c).

Definition Default : Config :=
  mkConfig (mkSGWU "") (mkPFCP "" []) (mkInterfaces ∅) (mkGTPU (mkGTPULogical "") (mkGTPULogical ""))
    (mkDataplane "xdp-generic" "punt" true true 65536)
    (mkQoS (mkOuterMarking true (mkProtocolMarking true 0) (mkProtocolMarking true 40))
       (mkQCIMarking true true 0 0 false
          (list_to_map [(1, 46); (2, 34); (3, 26); (4, 26); (5, 40); (6, 18); (7, 26); (8, 0); (9, 0)])))
    (mkLogging "info" "") (mkAPI "127.0.0.1:8081") (mkMetrics "127.0.0.1:9091") (mkShutdown 5).

(** A key that the map does not have reads as the zero value. *)
Definition interface_of (c : Config) (bind : string) : UserInterfaceConfig :=
  default (mkUserInterface "" "") (User (Interfaces c) !! bind).
Definition S1UInterface (c : Config) : UserInterfaceConfig := interface_of c (Bind (S1U (GTPU c))).
Definition S5UInterface (c : Config) : UserInterfaceConfig := interface_of c (Bind (S5U (GTPU c))).
Definition GTPUListen (c : Config) : string := Listen (S1UInterface c).

Inductive ListenError := SplitFailed (e : AddrError) | ParseFailed (host : string).
Definition listenHostAddr (listen : string) : result ListenError Addr :=
  match SplitHostPort listen with
  | Err e => Err (SplitFailed e)
  | Ok (host, _) =>
      match ParseAddr host with
      | None => Err (ParseFailed host)
      | Some a => Ok (Unmap a)
      end
  end.
Definition S1ULocalAddr (c : Config) : result ListenError Addr := listenHostAddr (Listen (S1UInterface c)).
Definition S5ULocalAddr (c : Config) : result ListenError Addr := listenHostAddr (Listen (S5UInterface c)).

(** ** Validation ([validate.go]) *)

Inductive ValidationError :=
| Required (path : string)
| BadListen (name : string) (e : ListenError)
| UnknownBind (path bind : string)
| BadBindListen (path bind : string) (e : ListenError)
| Unspecified (path bind : string)
| NotIPv4 (path bind : string)
| BadDriverMode (mode : string)
| BadUnknownTEID (value : string)
| MustBePositive (path : string)
| NotSupported (path : string)
| DSCPRange (path : string) (dscp : Z)
| QCIRange (qci : Z).

Notation verdict := (result ValidationError unit).
#[local] Notation reject e := (Err e : verdict).
#[local] Notation accept := (Ok tt : verdict).

(** [netip.Addr.IsUnspecified] *)
Definition IsUnspecified (a : Addr) : bool :=
  bool_decide (a = AddrV4 0) || bool_decide (a = AddrV6 0 "").

Definition required (value path : string) : verdict :=
  if String.eqb value "" then reject (Required path) else accept.
(** The interfaces, in the order the map is ranged over. *)
Fixpoint check_interfaces (order : list string) (ifs : gmap string UserInterfaceConfig) : verdict :=
  match order with
  | [] => accept
  | name :: order =>
      match ifs !! name with
      | None => check_interfaces order ifs
      | Some i =>
          if String.eqb (Ifname i) "" then reject (Required ("interfaces.user." ++ name ++ ".ifname"))
          else if String.eqb (Listen i) "" then reject (Required ("interfaces.user." ++ name ++ ".listen"))
          else match listenHostAddr (Listen i) with
               | Err e => reject (BadListen name e)
               | Ok _ => check_interfaces order ifs
               end
      end
  end.
Definition check_bind (path bind : string) (addr : result ListenError Addr) (c : Config) : verdict :=
  if String.eqb bind "" then reject (Required path)
  else match User (Interfaces c) !! bind with
       | None => reject (UnknownBind path bind)
       | Some _ =>
           match addr with
           | Err e => reject (BadBindListen path bind e)
           | Ok a =>
               if IsUnspecified a then reject (Unspecified path bind)
               else if negb (PfcpServer.Is4 a) then reject (NotIPv4 path bind)
               else accept
           end
       end.
Definition driver_modes : list string := [""; "generic"; "native"; "xdp-generic"; "xdp-native"; "xdp-offload"].

Definition validateDSCP (path : string) (dscp : Z) : verdict :=
  if (dscp <? 0) || (63 <? dscp) then reject (DSCPRange path dscp) else accept.
Fixpoint check_qcis (order : list Z) (m : gmap Z Z) : verdict :=
  match order with
  | [] => accept
  | qci :: order =>
      match m !! qci with
      | None => check_qcis order m
      | Some dscp =>
          if (qci <? 1) || (255 <? qci) then reject (QCIRange qci)
          else let? _ := validateDSCP ("qos.qci_marking.qci_to_dscp[" ++ Itoa qci ++ "]") dscp in
               check_qcis order m
      end
  end.
Definition validateQCIMarking (order : list Z) (c : Config) : verdict :=
  let qci := QCIMarking (QoS c) in
  if TrustInnerDSCP qci then reject (NotSupported "qos.qci_marking.trust_inner_dscp")
  else
    let? _ := validateDSCP "qos.qci_marking.default_gtpu_dscp" (DefaultGTPUDSCP qci) in
    let? _ := validateDSCP "qos.qci_marking.unknown_teid_dscp" (UnknownTEIDDSCP qci) in
    check_qcis order (QCIToDSCP qci).

(** The orders of the maps one validation ranges over. *)
Record map_orders := mkOrders { interfaces_order : list string; qcis_order : list Z }.

Definition Validate (o : map_orders) (c : Config) : verdict :=
  let? _ := required (NodeID (SGWU c)) "sgwu.node_id" in
  let? _ := required (p_Listen (PFCP c)) "pfcp.listen" in
  if bool_decide (AllowedSGWC (PFCP c) = []) then reject (Required "pfcp.allowed_sgwc") else
  let? _ := check_interfaces (interfaces_order o) (User (Interfaces c)) in
  let? _ := check_bind "gtpu.s1u.bind" (Bind (S1U (GTPU c))) (S1ULocalAddr c) c in
  let? _ := check_bind "gtpu.s5u.bind" (Bind (S5U (GTPU c))) (S5ULocalAddr c) c in
  if bool_decide (DriverMode (Dataplane c) ∉ driver_modes)
  then reject (BadDriverMode (DriverMode (Dataplane c))) else
  if negb (String.eqb (UnknownTEID (Dataplane c)) "punt") && negb (String.eqb (UnknownTEID (Dataplane c)) "drop")
  then reject (BadUnknownTEID (UnknownTEID (Dataplane c))) else
  if MapMaxEntries (Dataplane c) <=? 0 then reject (MustBePositive "dataplane.map_max_entries") else
  let? _ := validateDSCP "qos.outer_marking.gtpu.dscp" (DSCP (om_GTPU (OuterMarking (QoS c)))) in
  let? _ := validateDSCP "qos.outer_marking.pfcp.dscp" (DSCP (om_PFCP (OuterMarking (QoS c)))) in
  validateQCIMarking (qcis_order o) c.

(** [Load]: [decode] is the YAML decoder on the opened file, which fills in the
    configuration it is given. *)
Inductive LoadError := OpenFailed | DecodeFailed | InvalidConfig (e : ValidationError).
Definition Load (file : option (Config -> option Config)) (order : Config -> map_orders)
    : result LoadError Config :=
  match file with
  | None => Err OpenFailed
  | Some decode =>
      match decode Default with
      | None => Err DecodeFailed
      | Some c => match Validate (order c) c with Err e => Err (InvalidConfig e) | Ok _ => Ok c end
      end
  end.

(** ** What a valid configuration is *)

(** The address of a GTP-U interface: IPv4, and not 0.0.0.0. *)
Definition gtpu_address (c : Config) (bind : string) (a : Addr) : Prop :=
  exists i v, User (Interfaces c) !! bind = Some i /\ listenHostAddr (Listen i) = Ok a
    /\ a = AddrV4 v /\ v <> 0.
Definition dscp_ok (d : Z) : Prop := 0 <= d <= 63.
Definition qci_marking_ok (q : QCIMarkingConfig) : Prop :=
  TrustInnerDSCP q = false /\ dscp_ok (DefaultGTPUDSCP q) /\ dscp_ok (UnknownTEIDDSCP q)
  /\ map_Forall (fun qci dscp => 1 <= qci <= 255 /\ dscp_ok dscp) (QCIToDSCP q).
Definition valid (c : Config) : Prop :=
  NodeID (SGWU c) <> "" /\ p_Listen (PFCP c) <> "" /\ AllowedSGWC (PFCP c) <> []
  /\ map_Forall (fun _ i => Ifname i <> "" /\ Listen i <> "" /\ exists a, listenHostAddr (Listen i) = Ok a)
       (User (Interfaces c))
  /\ (Bind (S1U (GTPU c)) <> "" /\ exists a, gtpu_address c (Bind (S1U (GTPU c))) a)
  /\ (Bind (S5U (GTPU c)) <> "" /\ exists a, gtpu_address c (Bind (S5U (GTPU c))) a)
  /\ DriverMode (Dataplane c) ∈ driver_modes
  /\ (UnknownTEID (Dataplane c) = "punt" \/ UnknownTEID (Dataplane c) = "drop")
  /\ 0 < MapMaxEntries (Dataplane c)
  /\ dscp_ok (DSCP (om_GTPU (OuterMarking (QoS c)))) /\ dscp_ok (DSCP (om_PFCP (OuterMarking (QoS c))))
  /\ qci_marking_ok (QCIMarking (QoS c)).

(** The iteration orders name every key. *)
Definition covers (o : map_orders) (c : Config) : Prop :=
  (forall name, is_Some (User (Interfaces c) !! name) -> name ∈ interfaces_order o)
  /\ (forall qci, is_Some (QCIToDSCP (QCIMarking (QoS c)) !! qci) -> qci ∈ qcis_order o).

Lemma accepted_then (a b : verdict) : (let? _ := a in b) = accept <-> a = accept /\ b = accept.
Proof. destruct a as [[]|]; naive_solver. Qed.
Lemma rejected_if (b : bool) e (k : verdict) : (if b then reject e else k) = accept <-> b = false /\ k = accept.
Proof. destruct b; naive_solver. Qed.
Lemma dscp_accepted path d : validateDSCP path d = accept <-> dscp_ok d.
Proof. unfold validateDSCP, dscp_ok. rewrite rejected_if, orb_false_iff, !Z.ltb_ge. naive_solver lia. Qed.
Lemma required_accepted value path : required value path = accept <-> value <> "".
Proof. unfold required. rewrite rejected_if, String.eqb_neq. naive_solver. Qed.

Lemma interfaces_accepted order ifs : (forall name, is_Some (ifs !! name) -> name ∈ order) ->
  check_interfaces order ifs = accept
  <-> map_Forall (fun _ i => Ifname i <> "" /\ Listen i <> "" /\ exists a, listenHostAddr (Listen i) = Ok a) ifs.
Proof.
  intros Hall. set (ok i := Ifname i <> "" /\ Listen i <> "" /\ exists a, listenHostAddr (Listen i) = Ok a).
  transitivity (forall name i, name ∈ order -> ifs !! name = Some i -> ok i).
  - clear Hall. induction order as [|name order IH]; cbn [check_interfaces]; [set_solver|].
    destruct (ifs !! name) as [i|] eqn:E; [|rewrite IH; set_solver].
    rewrite !rejected_if, !String.eqb_neq. unfold ok in *.
    destruct (listenHostAddr (Listen i)) as [a|e] eqn:El.
    + rewrite IH. split.
      * intros (H1 & H2 & H3) name' i' Hn Hi. apply elem_of_cons in Hn as [->|Hn]; [|by eapply H3].
        rewrite E in Hi. injection Hi as <-. eauto.
      * intros Ho. destruct (Ho name i) as (H1 & H2 & _); [left|done|]. split_and!; [done|done|].
        intros name' i' Hn Hi. apply (Ho name' i'); [by right|done].
    + split; [by intros (_ & _ & ?)|]. intros Ho. destruct (Ho name i) as (_ & _ & a & Ha); [left|done|]. congruence.
  - unfold map_Forall. split; [|naive_solver]. intros Ho name i Hi. apply (Ho name); [|done]. by apply Hall.
Qed.

Lemma unspecified_v4 v : IsUnspecified (AddrV4 v) = (v =? 0).
Proof.
  unfold IsUnspecified. rewrite (bool_decide_eq_false_2 (AddrV4 v = AddrV6 0 "")) by done.
  rewrite orb_false_r. destruct (Z.eqb_spec v 0) as [->|Hv]; [done|].
  apply bool_decide_eq_false_2. congruence.
Qed.
Lemma bind_accepted path bind c : bind <> "" ->
  check_bind path bind (listenHostAddr (Listen (interface_of c bind))) c = accept
  <-> exists a, gtpu_address c bind a.
Proof.
  intros Hb. unfold check_bind, gtpu_address, interface_of. rewrite (proj2 (String.eqb_neq _ _) Hb).
  destruct (User (Interfaces c) !! bind) as [i|]; [|by split; [done|intros (a & i & v & [=] & _)]].
  cbn [default from_option id].
  destruct (listenHostAddr (Listen i)) as [a|e] eqn:El.
  2: { split; [done|]. intros (a & i' & v & [= <-] & Ha & _). congruence. }
  destruct a as [|v|v z].
  { split; [done|]. intros (a & i' & v & [= <-] & Ha & -> & _). congruence. }
  - rewrite unspecified_v4, !rejected_if, Z.eqb_neq. split.
    + intros (Hv & _ & _). exists (AddrV4 v), i, v. by split_and!.
    + intros (a & i' & v' & [= <-] & Ha & -> & Hv). rewrite El in Ha. injection Ha as <-. by split_and!.
  - split; [by destruct (IsUnspecified _)|]. intros (a & i' & v' & [= <-] & Ha & -> & _). congruence.
Qed.

Lemma qcis_accepted order m : (forall qci, is_Some (m !! qci) -> qci ∈ order) ->
  check_qcis order m = accept <-> map_Forall (fun qci dscp => 1 <= qci <= 255 /\ dscp_ok dscp) m.
Proof.
  intros Hall. transitivity (forall qci dscp, qci ∈ order -> m !! qci = Some dscp -> 1 <= qci <= 255 /\ dscp_ok dscp).
  - clear Hall. induction order as [|qci order IH]; cbn [check_qcis]; [set_solver|].
    destruct (m !! qci) as [d|] eqn:E; [|rewrite IH; set_solver].
    rewrite rejected_if, accepted_then, dscp_accepted, IH, orb_false_iff, !Z.ltb_ge. split.
    + intros (Hq & Hd & Ho) qci' d' Hn Hi. apply elem_of_cons in Hn as [->|Hn]; [|by eapply Ho].
      rewrite E in Hi. injection Hi as <-. split; [lia|done].
    + intros Ho. destruct (Ho qci d) as [Hq Hd]; [left|done|]. split_and!; [lia|lia|done|].
      intros qci' d' Hn Hi. apply (Ho qci' d'); [by right|done].
  - unfold map_Forall. split; [|naive_solver]. intros Ho qci d Hi. apply (Ho qci); [|done]. by apply Hall.
Qed.

Lemma sgwu_Validate_accepts o c : covers o c -> Validate o c = Ok tt <-> valid c.
Proof.
  intros [Hi Hq]. unfold Validate, valid, validateQCIMarking, qci_marking_ok.
  rewrite !accepted_then, !required_accepted, rejected_if, bool_decide_eq_false, accepted_then.
  rewrite (interfaces_accepted _ _ Hi), !accepted_then, !rejected_if, bool_decide_eq_false, !accepted_then, rejected_if.
  rewrite !accepted_then, !dscp_accepted, (qcis_accepted _ _ Hq), andb_false_iff, !negb_false_iff, !String.eqb_eq.
  rewrite Z.leb_gt.
  assert (forall path bind, check_bind path bind (listenHostAddr (Listen (interface_of c bind))) c = accept
    <-> bind <> "" /\ exists a, gtpu_address c bind a) as Hb.
  { intros path bind. destruct (String.eqb_spec bind "") as [->|Hne]; [by split; [|intros [? _]]|].
    rewrite bind_accepted by done. naive_solver. }
  unfold S1ULocalAddr, S5ULocalAddr, S1UInterface, S5UInterface. rewrite !Hb.
  assert (~ (DriverMode (Dataplane c) ∉ driver_modes) <-> DriverMode (Dataplane c) ∈ driver_modes) as ->.
  { split; [apply dec_stable|tauto]. }
  tauto.
Qed.

Lemma sgwu_Load_valid file order c : (forall d, covers (order d) d) -> Load file order = Ok c -> valid c.
Proof.
  unfold Load. intros Hc. destruct file as [decode|]; [|done]. destruct (decode Default) as [d|]; [|done].
  destruct (Validate _ _) as [[]|] eqn:E; [|done]. intros [= <-]. by apply sgwu_Validate_accepts in E.
Qed.
(** The GTP-U addresses of a valid configuration. *)
Lemma valid_addresses c : valid c ->
  exists s1u s5u, S1ULocalAddr c = Ok (AddrV4 s1u) /\ S5ULocalAddr c = Ok (AddrV4 s5u) /\ s1u <> 0 /\ s5u <> 0.
Proof.
  intros (_ & _ & _ & _ & [_ (a & i & v & Hi & Ha & -> & Hv)] & [_ (b & j & u & Hj & Hb & -> & Hu)] & _).
  exists v, u. unfold S1ULocalAddr, S5ULocalAddr, S1UInterface, S5UInterface, interface_of. rewrite Hi, Hj.
  by split_and!.
Qed.
