(* ===== verification/SgwuMain.v ===== *)
(** * SGW-U start-up ([cmd/vectorcore-sgw-u], [pfcpserver.New], [gtpu.NewGroup])

    From a loaded configuration to the parts that run: the PFCP server with its allow-list,
    the GTP-U sockets with their forwarders and path probers, and the marking of the rule
    compiler.  What the operating system answers (a socket that opens, a DSCP that is set,
    the dataplane that attaches) is an argument. *)

From S2P Require Import Prelude GoLib.
From S2P Require SgwuStore Gtpu Forwarder PathProber Compiler PfcpServerSpec PfcpServerStops.
From S2P Require Import PfcpServer SgwuConfig.
#[local] Open Scope string_scope.
#[local] Open Scope list_scope.
#[local] Open Scope Z_scope.

(** ** Go's [net] package: addresses and networks in text *)

(** [netip.Addr.As16] *)
Definition As16 (a : Addr) : bytes :=
  match a with
  | AddrZero => replicate 16 0
  | AddrV4 v => replicate 10 0 ++ [0xFF; 0xFF] ++ be_bytes 4 v
  | AddrV6 v _ => be_bytes 16 v
  end.
Definition has_zone (a : Addr) : bool :=
  match a with AddrV6 _ z => negb (String.eqb z "") | _ => false end.
Definition BitLen (a : Addr) : Z := match a with AddrZero => 0 | AddrV4 _ => 32 | AddrV6 _ _ => 128 end.
(** [net.ParseIP]: nil is [None]. *)
Definition ParseIP (s : string) : option bytes :=
  match ParseAddr s with
  | Some a => if has_zone a then None else Some (As16 a)
  | None => None
  end.

(** [dtoi] on the whole text: digits only, below 0xFFFFFF. *)
Fixpoint dtoi_from (n : Z) (s : bytes) : option Z :=
  match s with
  | [] => Some n
  | c :: s =>
      if is_digit c then
        let n := n * 10 + (c - 48) in if 0xFFFFFF <=? n then None else dtoi_from n s
      else None
  end.
Definition dtoi (s : bytes) : option Z := match s with [] => None | _ => dtoi_from 0 s end.
(** [net.CIDRMask ones (8 * len)] *)
Fixpoint CIDRMask (ones : Z) (len : nat) : bytes :=
  match len with
  | O => []
  | S len =>
      if 8 <=? ones then 0xFF :: CIDRMask (ones - 8) len
      else (0xFF - Z.shiftr 0xFF ones) :: CIDRMask 0 len
  end.
(** [net.IP.Mask]; nil is the empty list. *)
Definition Mask (ip mask : bytes) : bytes :=
  let mask := if bool_decide (length mask = 16%nat /\ length ip = 4%nat /\ take 12 mask = replicate 12 0xFF)
              then drop 12 mask else mask in
  let ip := if bool_decide (length mask = 4%nat /\ length ip = 16%nat /\ take 12 ip = replicate 10 0 ++ [0xFF; 0xFF])
            then drop 12 ip else ip in
  if bool_decide (length ip = length mask) then zip_with Z.land ip mask else [].
(** [net.ParseCIDR] *)
Definition ParseCIDR (s : string) : option IPNet :=
  let b := string_bytes s in
  match list_find (fun c => c = 47) b with
  | None => None
  | Some (i, _) =>
      match ParseAddr (bytes_string (take i b)), dtoi (drop (S i) b) with
      | Some a, Some n =>
          if has_zone a || (BitLen a <? n) then None
          else let m := CIDRMask n (Z.to_nat (BitLen a / 8)) in Some (mkIPNet (Mask (As16 a) m) m)
      | _, _ => None
      end
  end.

(** ** [pfcpserver.New] *)

Inductive NodeIDError := NodeIDSplit (e : AddrError) | InvalidIP (host : string) | RequiresIPv4 (host : string).
Definition extractIPv4 (addrPort : string) : result NodeIDError bytes :=
  match SplitHostPort addrPort with
  | Err e => Err (NodeIDSplit e)
  | Ok (host, _) =>
      match ParseIP host with
      | None => Err (InvalidIP host)
      | Some ip => match To4 ip with None => Err (RequiresIPv4 host) | Some v4 => Ok v4 end
      end
  end.

Definition allowed_entry (entry : string) : option IPNet :=
  match ParseCIDR entry with
  | Some n => Some n
  | None =>
      match ParseIP entry with
      | Some ip => let mask := CIDRMask 32 4 in Some (mkIPNet (Mask ip mask) mask)
      | None => None
      end
  end.
Fixpoint allowlist (entries : list string) : result string (list IPNet) :=
  match entries with
  | [] => Ok []
  | entry :: entries =>
      match allowed_entry entry with
      | None => Err entry
      | Some n => let? ns := allowlist entries in Ok (n :: ns)
      end
  end.

Inductive conn_call := ConnListen (addr : string) | ConnSetDSCP (dscp : Z) | ConnClose | ConnSetHandler.
Inductive NewError :=
| ListenFailed | MarkingFailed | BadNodeID (e : NodeIDError) | BadAllowed (entry : string)
| BadS1U (e : ListenError) | BadS5U (e : ListenError).
Definition start_server (startTime : Z) (id : bytes) (nets : list IPNet) (access core : Addr) : Server :=
  mkServer id (AddrFrom4 id) access core (u32 (u32 startTime + ntpEpochOffset)) nets ∅ ∅
    SgwuStore.NewStore false false false.
Definition New (listen_ok dscp_ok : bool) (startTime : Z) (cfg : Config)
    : list conn_call * result NewError Server :=
  let listen := ConnListen (p_Listen (PFCP cfg)) in
  if negb listen_ok then ([listen], Err ListenFailed)
  else
    let om := OuterMarking (QoS cfg) in
    let marks := om_Enabled om && pm_Enabled (om_PFCP om) in
    let pre := listen :: (if marks then [ConnSetDSCP (u8 (DSCP (om_PFCP om)))] else []) in
    if marks && negb dscp_ok then (pre ++ [ConnClose], Err MarkingFailed)
    else match extractIPv4 (p_Listen (PFCP cfg)) with
    | Err e => (pre ++ [ConnClose], Err (BadNodeID e))
    | Ok id =>
        match allowlist (AllowedSGWC (PFCP cfg)) with
        | Err entry => (pre ++ [ConnClose], Err (BadAllowed entry))
        | Ok nets =>
            match S1ULocalAddr cfg with
            | Err e => (pre ++ [ConnClose], Err (BadS1U e))
            | Ok access =>
                match S5ULocalAddr cfg with
                | Err e => (pre ++ [ConnClose], Err (BadS5U e))
                | Ok core => (pre ++ [ConnSetHandler], Ok (start_server startTime id nets access core))
                end
            end
        end
    end.

Definition SetEndMarkerSender (s : Server) : Server := s <| has_emSender := true |>.
Definition SetBPFInstaller (s : Server) : Server := s <| has_bpfInstall := true |>.
Definition SetPathPeerTracker (s : Server) : Server := s <| has_pathPeers := true |>.

(** ** [gtpu.ForwarderGroup] and [PathProberGroup] *)

Record Endpoint := mkEndpoint { ep_Listen : string; ep_LocalIP : Addr }.
(** A socket with the forwarder that reads it, its counters and its prober. *)
Record Socket := mkSocket {
  sk_listen : string; sk_forwarder : Forwarder.Forwarder; sk_counters : Forwarder.Counters;
  sk_prober : option PathProber.PathProber }.
Definition no_counters : Forwarder.Counters := Forwarder.mkCounters 0 0 0 0 0 0 0.
Definition New_forwarder (listen : string) (localIP : Addr) (st : SgwuStore.Store) : Socket :=
  mkSocket listen (Forwarder.mkForwarder st localIP false false) no_counters None.

Inductive GroupError := OpenSocketFailed (listen : string) (closed : list string) | NoEndpoints.
Fixpoint open_endpoints (opens : string -> bool) (st : SgwuStore.Store) (endpoints : list Endpoint)
    (seen : gset string) (forwarders : list Socket) : result GroupError (list Socket) :=
  match endpoints with
  | [] => Ok forwarders
  | ep :: endpoints =>
      if String.eqb (ep_Listen ep) "" || bool_decide (ep_Listen ep ∈ seen)
      then open_endpoints opens st endpoints seen forwarders
      else if negb (opens (ep_Listen ep))
      then Err (OpenSocketFailed (ep_Listen ep) (sk_listen <$> forwarders))
      else open_endpoints opens st endpoints ({[ ep_Listen ep ]} ∪ seen)
             (forwarders ++ [New_forwarder (ep_Listen ep) (ep_LocalIP ep) st])
  end.
Definition NewGroup (opens : string -> bool) (endpoints : list Endpoint) (st : SgwuStore.Store)
    : result GroupError (list Socket) :=
  let? forwarders := open_endpoints opens st endpoints ∅ [] in
  if decide (forwarders = []) then Err NoEndpoints else Ok forwarders.

Definition with_reporter (f : Forwarder.Forwarder) : Forwarder.Forwarder :=
  Forwarder.mkForwarder (Forwarder.store f) (Forwarder.localIP f) (Forwarder.hasProber f) true.
Definition SetIdleDownlinkReporter (g : list Socket) : list Socket :=
  (fun s => mkSocket (sk_listen s) (with_reporter (sk_forwarder s)) (sk_counters s) (sk_prober s)) <$> g.
Definition add_counters (a b : Forwarder.Counters) : Forwarder.Counters :=
  Forwarder.mkCounters
    (u64 (Forwarder.RxPackets a + Forwarder.RxPackets b)) (u64 (Forwarder.TxPackets a + Forwarder.TxPackets b))
    (u64 (Forwarder.RxBytes a + Forwarder.RxBytes b)) (u64 (Forwarder.TxBytes a + Forwarder.TxBytes b))
    (u64 (Forwarder.UnknownTEID a + Forwarder.UnknownTEID b)) (u64 (Forwarder.Dropped a + Forwarder.Dropped b))
    (u64 (Forwarder.IdleDownlink a + Forwarder.IdleDownlink b)).
Definition Counters (g : list Socket) : Forwarder.Counters :=
  fold_left (fun out s => add_counters out (sk_counters s)) g no_counters.
(** An End Marker goes out of the first socket. *)
Definition SendEndMarker (ok : bool) (teid : Z) (dstIP : Addr) (g : list Socket)
    : option (list Forwarder.effect * list Socket) :=
  match g with
  | [] => Some ([], [])
  | s :: g =>
      match Forwarder.sendEndMarker ok teid dstIP (sk_counters s) with
      | None => None
      | Some (out, c) => Some (out, mkSocket (sk_listen s) (sk_forwarder s) c (sk_prober s) :: g)
      end
  end.

(** [NewPathProber] for every socket, and [SetPathProber]. *)
Definition with_prober (s : Socket) : Socket :=
  mkSocket (sk_listen s)
    (Forwarder.mkForwarder (Forwarder.store (sk_forwarder s)) (Forwarder.localIP (sk_forwarder s)) true
       (Forwarder.hasReporter (sk_forwarder s)))
    (sk_counters s) (Some (PathProber.NewPathProber PathProber.EchoMinInterval (3 * Second) 3)).
Definition AddPeer (peer : Addr) (g : list Socket) : list Socket :=
  if negb (PfcpServer.Is4 peer) then g
  else (fun s => mkSocket (sk_listen s) (sk_forwarder s) (sk_counters s)
                   (PathProber.Add peer <$> sk_prober s)) <$> g.

(** ** [bpf.NewWithMode] and the marking map ([internal/dataplane/bpf/loader.go]) *)

Inductive XDPAttachFlags := XDPGenericMode | XDPDriverMode | XDPOffloadMode.
Definition xdpAttachFlags (driverMode : string) : option XDPAttachFlags :=
  if bool_decide (driverMode ∈ [""; "xdp-generic"; "generic"]) then Some XDPGenericMode
  else if bool_decide (driverMode ∈ ["xdp-native"; "native"]) then Some XDPDriverMode
  else if String.eqb driverMode "xdp-offload" then Some XDPOffloadMode
  else None.

(** What the kernel answers: interface indices, loading, attaching, a map update. *)
Record kernel := mkKernel {
  k_index : string -> option Z; k_spec : bool; k_load : bool; k_attach : Z -> XDPAttachFlags -> bool;
  k_update : bool }.
Inductive DataplaneError :=
| InterfaceNotFound (ifname : string) | SpecFailed | UnsupportedMode (mode : string) | LoadFailed
| AttachXDPFailed (index : Z) (detached : list Z).
(** A loaded program: its maps, their capacity (zero: what the program was compiled with)
    and the interfaces it is attached to. *)
Record Loaded := mkLoaded {
  ld_maps : Compiler.XDPDataplane; ld_capacity : Z; ld_hooks : list (Z * XDPAttachFlags) }.
Definition SharedInterface (d : Loaded) : bool :=
  Compiler.s1uIfindex (ld_maps d) =? Compiler.s5uIfindex (ld_maps d).
Definition NewWithMode (k : kernel) (s1uIfname s5uIfname : string) (maxEntries : Z) (driverMode : string)
    : result DataplaneError Loaded :=
  match k_index k s1uIfname, k_index k s5uIfname with
  | None, _ => Err (InterfaceNotFound s1uIfname)
  | _, None => Err (InterfaceNotFound s5uIfname)
  | Some s1u, Some s5u =>
      if negb (k_spec k) then Err SpecFailed
      else
        let capacity := if 0 <? maxEntries then u32 maxEntries else 0 in
        match xdpAttachFlags driverMode with
        | None => Err (UnsupportedMode driverMode)
        | Some flags =>
            let maps := Compiler.mkDataplane (u32 s1u) (u32 s5u) ∅ ∅ in
            if negb (k_load k) then Err LoadFailed
            else if negb (k_attach k s1u flags) then Err (AttachXDPFailed s1u [])
            else if s1u =? s5u then Ok (mkLoaded maps capacity [(s1u, flags)])
            else if negb (k_attach k s5u flags) then Err (AttachXDPFailed s5u [s1u])
            else Ok (mkLoaded maps capacity [(s1u, flags); (s5u, flags)])
        end
  end.

Record QoSOuterMarkingConfig := mkQoSOuterMarking {
  qo_Enabled : bool; qo_GTPUEnabled : bool; qo_GTPUDSCP : Z; qo_QCIEnabled : bool; qo_QCIDefaultDSCP : Z }.
Inductive MarkingError := DSCPOutOfRange (dscp : Z) | MapUpdateFailed.
Definition boolToU8 (v : bool) : Z := if v then 1 else 0.
(** The bytes of the map's only entry, up to the reserved ones. *)
Definition ConfigureQoSOuterMarking (k : kernel) (c : QoSOuterMarkingConfig) : result MarkingError bytes :=
  if 63 <? qo_GTPUDSCP c then Err (DSCPOutOfRange (qo_GTPUDSCP c))
  else if 63 <? qo_QCIDefaultDSCP c then Err (DSCPOutOfRange (qo_QCIDefaultDSCP c))
  else if negb (k_update k) then Err MapUpdateFailed
  else Ok [boolToU8 (qo_Enabled c); boolToU8 (qo_GTPUEnabled c); qo_GTPUDSCP c; boolToU8 (qo_QCIEnabled c);
           qo_QCIDefaultDSCP c].

(** ** The program *)

Definition qciToDSCPMap (order : list (Z * Z)) : gmap Z Z :=
  fold_left (fun out e => <[u8 e.1 := u8 e.2]> out) order ∅.
(** The marking given to the compiler; [order] is the configured map as it is ranged over. *)
Definition compiler_marking (order : list (Z * Z)) (cfg : Config) : Compiler.QCIMarkingConfig :=
  let q := QCIMarking (QoS cfg) in
  Compiler.mkQCIMarking (qm_Enabled q) (OverrideDefaultGTPU q) (u8 (DefaultGTPUDSCP q)) (qciToDSCPMap order).

Definition outer_marking (cfg : Config) : QoSOuterMarkingConfig :=
  let om := OuterMarking (QoS cfg) in
  let q := QCIMarking (QoS cfg) in
  mkQoSOuterMarking (om_Enabled om) (pm_Enabled (om_GTPU om)) (u8 (DSCP (om_GTPU om)))
    (qm_Enabled q && OverrideDefaultGTPU q) (u8 (DefaultGTPUDSCP q)).

Record world_answers := mkAnswers {
  w_listen_ok : bool; w_dscp_ok : bool; w_kernel : kernel; w_opens : string -> bool;
  w_startTime : Z; w_qci_order : list (Z * Z) }.
(** [Some] loaded program, its marking entry and the compiler that fills its maps. *)
Record Gateway := mkGateway {
  gw_server : Server; gw_dataplane : option (Loaded * bytes * Compiler.Compiler); gw_sockets : list Socket }.
Inductive StartError := ServerFailed (e : NewError) | BadAddress (e : ListenError)
  | DataplaneFailed (e : DataplaneError) | MarkingMapFailed (e : MarkingError) | SocketsFailed (e : GroupError).

(** The fast path, unless it is switched off. *)
Definition start_dataplane (w : world_answers) (cfg : Config) (s1u s5u : Addr)
    : result StartError (option (Loaded * bytes * Compiler.Compiler)) :=
  let dp := Dataplane cfg in
  if negb (AttachOnStart dp) then Ok None
  else
    match NewWithMode (w_kernel w) (Ifname (S1UInterface cfg)) (Ifname (S5UInterface cfg))
            (MapMaxEntries dp) (DriverMode dp) with
    | Err e => Err (DataplaneFailed e)
    | Ok d =>
        match ConfigureQoSOuterMarking (w_kernel w) (outer_marking cfg) with
        | Err e => Err (MarkingMapFailed e)
        | Ok entry =>
            Ok (Some (d, entry, Compiler.mkCompiler s1u s5u (compiler_marking (w_qci_order w) cfg)))
        end
    end.

Definition start (w : world_answers) (cfg : Config) : result StartError Gateway :=
  match (New (w_listen_ok w) (w_dscp_ok w) (w_startTime w) cfg).2 with
  | Err e => Err (ServerFailed e)
  | Ok srv =>
      match S1ULocalAddr cfg, S5ULocalAddr cfg with
      | Err e, _ => Err (BadAddress e)
      | _, Err e => Err (BadAddress e)
      | Ok s1u, Ok s5u =>
          let? dataplane := start_dataplane w cfg s1u s5u in
          let srv := match dataplane with Some _ => SetBPFInstaller srv | None => srv end in
          match NewGroup (w_opens w) [mkEndpoint (Listen (S1UInterface cfg)) s1u;
                                      mkEndpoint (Listen (S5UInterface cfg)) s5u] (sessions srv) with
          | Err e => Err (SocketsFailed e)
          | Ok group =>
              let srv := SetPathPeerTracker (SetEndMarkerSender srv) in
              let group := with_prober <$> SetIdleDownlinkReporter group in
              Ok (mkGateway srv dataplane group)
          end
      end
  end.

(** ** Lemmas: masks *)

Definition mask_byte (n : Z) : Z := if 8 <=? n then 0xFF else 0xFF - Z.shiftr 0xFF n.
Lemma mask_byte_bit n j : 0 <= n -> 0 <= j < 8 -> Z.testbit (mask_byte n) j = (8 - n <=? j).
Proof.
  intros Hn Hj. unfold mask_byte. destruct (Z.leb_spec 8 n) as [H8|H8].
  - rewrite (proj2 (Z.leb_le _ _)) by lia.
    assert (j = 0 \/ j = 1 \/ j = 2 \/ j = 3 \/ j = 4 \/ j = 5 \/ j = 6 \/ j = 7) as Hc by lia.
    repeat destruct Hc as [->|Hc]; try (subst j); done.
  - assert (n = 0 \/ n = 1 \/ n = 2 \/ n = 3 \/ n = 4 \/ n = 5 \/ n = 6 \/ n = 7) as Hc by lia.
    assert (j = 0 \/ j = 1 \/ j = 2 \/ j = 3 \/ j = 4 \/ j = 5 \/ j = 6 \/ j = 7) as Hd by lia.
    repeat destruct Hc as [->|Hc]; try (subst n); repeat destruct Hd as [->|Hd]; try (subst j); done.
Qed.
Lemma u8_bit x j : 0 <= j < 8 -> Z.testbit (u8 x) j = Z.testbit x j.
Proof. intros. unfold u8. rewrite Z.mod_pow2_bits_low; [done|lia]. Qed.
Lemma masked_byte_eq x y n : 0 <= n ->
  Z.land (u8 x) (mask_byte n) = Z.land (u8 y) (mask_byte n)
  <-> forall j, 0 <= j < 8 -> 8 - n <= j -> Z.testbit x j = Z.testbit y j.
Proof.
  intros Hn. split.
  - intros H j Hj Hnj. apply (f_equal (fun z => Z.testbit z j)) in H.
    rewrite !Z.land_spec, mask_byte_bit, (proj2 (Z.leb_le _ _)), !andb_true_r, !u8_bit in H by lia. done.
  - intros H. apply Z.bits_inj'. intros j Hj. rewrite !Z.land_spec.
    destruct (Z.ltb_spec j 8) as [H8|H8].
    + rewrite mask_byte_bit, !u8_bit by lia. destruct (Z.leb_spec (8 - n) j); [|by rewrite !andb_false_r].
      by rewrite H by lia.
    + assert (forall z, Z.testbit (u8 z) j = false) as Hz; [|by rewrite !Hz].
      intros z. unfold u8. rewrite Z.mod_pow2_bits_high; [done|lia].
Qed.

Lemma CIDRMask_cons n L : CIDRMask n (S L) = mask_byte n :: CIDRMask (Z.max 0 (n - 8)) L.
Proof.
  cbn [CIDRMask]. unfold mask_byte. destruct (Z.leb_spec 8 n); f_equal; f_equal; lia.
Qed.
Lemma length_CIDRMask n L : length (CIDRMask n L) = L.
Proof. revert n. induction L as [|L IH]; intros n; [done|]. rewrite CIDRMask_cons. cbn. by rewrite IH. Qed.

Lemma be_bytes_S k z : be_bytes (S k) z = u8 (Z.shiftr z (8 * Z.of_nat k)) :: be_bytes k z.
Proof. done. Qed.
(** Two values share the leading [n] of [w] bits. *)
Definition shares_prefix (w n a b : Z) : Prop :=
  forall i, w - n <= i < w -> 0 <= i -> Z.testbit a i = Z.testbit b i.

Lemma masked_eq L n a b : 0 <= n ->
  zip_with Z.land (be_bytes L a) (CIDRMask n L) = zip_with Z.land (be_bytes L b) (CIDRMask n L)
  <-> shares_prefix (8 * Z.of_nat L) n a b.
Proof.
  revert n. induction L as [|L IH]; intros n Hn.
  - split; [|done]. intros _ i Hi ?. lia.
  - rewrite CIDRMask_cons, !be_bytes_S. cbn [zip_with].
    transitivity (Z.land (u8 (Z.shiftr a (8 * Z.of_nat L))) (mask_byte n)
      = Z.land (u8 (Z.shiftr b (8 * Z.of_nat L))) (mask_byte n)
      /\ shares_prefix (8 * Z.of_nat L) (Z.max 0 (n - 8)) a b).
    { rewrite <- IH by lia. split; [|by intros [-> ->]]. cbn. intros [= H1 H2]. by rewrite H1, H2. }
    rewrite masked_byte_eq by done. unfold shares_prefix. split.
    + intros [H1 H2] i Hi Hi0. destruct (Z.leb_spec (8 * Z.of_nat L) i) as [Hl|Hl].
      * specialize (H1 (i - 8 * Z.of_nat L)). rewrite !Z.shiftr_spec in H1 by lia.
        replace (i - 8 * Z.of_nat L + 8 * Z.of_nat L) with i in H1 by lia. apply H1; lia.
      * apply H2; lia.
    + intros H. split.
      * intros j Hj Hnj. rewrite !Z.shiftr_spec by lia. apply H; lia.
      * intros i Hi Hi0. apply H; lia.
Qed.

Lemma same_network_iff nn m ip : length nn = length m -> length ip = length m ->
  same_network nn m ip = true <-> zip_with Z.land nn m = zip_with Z.land ip m.
Proof.
  revert m ip. induction nn as [|a nn IH]; intros [|k m] [|i ip]; cbn; try done; intros [= H1] [= H2].
  rewrite andb_true_iff, Z.eqb_eq, IH by done. split; [by intros [-> ->]|]. by intros [= -> ->].
Qed.
Lemma masked_twice x m : zip_with Z.land (zip_with Z.land x m) m = zip_with Z.land x m.
Proof.
  revert m. induction x as [|a x IH]; intros [|k m]; cbn; [done..|].
  by rewrite <- Z.land_assoc, Z.land_diag, IH.
Qed.

(** ** Lemmas: the allow-list *)

Definition slash : Z := 47.
Definition network (base bits : Z) : IPNet :=
  mkIPNet (zip_with Z.land (be_bytes 4 base) (CIDRMask bits 4)) (CIDRMask bits 4).
(** The IPv4 network an entry names: an address, or an address and a prefix length. *)
Definition ipv4_network (entry : string) (base bits : Z) : Prop :=
  (ParseAddr entry = Some (AddrV4 base) /\ bits = 32)
  \/ exists host mask, string_bytes entry = string_bytes host ++ slash :: mask /\ slash ∉ string_bytes host
       /\ ParseAddr host = Some (AddrV4 base) /\ dtoi mask = Some bits /\ bits <= 32.

Lemma dtoi_from_nonneg n s r : 0 <= n -> dtoi_from n s = Some r -> 0 <= r.
Proof.
  revert n. induction s as [|c s IH]; intros n Hn; cbn; [by intros [= <-]|].
  destruct (is_digit c) eqn:Ec; [|done]. apply andb_true_iff in Ec as [Ec%Z.leb_le _].
  destruct (_ <=? _); [done|]. intros H. eapply IH; [|exact H]. lia.
Qed.
Lemma dtoi_nonneg s r : dtoi s = Some r -> 0 <= r.
Proof. destruct s; [done|]. by apply dtoi_from_nonneg. Qed.
Lemma fields_no_slash prev val len fields s l :
  parseIPv4Fields prev val len fields s = Some l -> slash ∉ s.
Proof.
  revert prev val len fields. induction s as [|c s IH]; intros prev val len fields; [by intros _ ?%not_elem_of_nil|].
  cbn. intros H. apply not_elem_of_cons. destruct (is_digit c) eqn:Ec.
  - destruct (_ && _); [done|]. destruct (_ <? _); [done|]. split; [by intros <-|]. by eapply IH.
  - destruct (Z.eqb_spec c dot) as [->|]; [|done]. destruct (_ || _); [done|].
    destruct (length fields =? 3)%nat; [done|]. split; [done|]. by eapply IH.
Qed.
Lemma parseIPv6_v6 b a : parseIPv6 b = Some a -> exists v z, a = AddrV6 v z.
Proof.
  unfold parseIPv6. intros H. repeat case_match; simplify_eq; cbn in *; simplify_option_eq; eauto.
Qed.
Lemma v4_no_slash s v : ParseAddr s = Some (AddrV4 v) -> slash ∉ string_bytes s.
Proof.
  unfold ParseAddr. destruct (list_find _ _) as [[i c]|]; [|done].
  destruct (c =? dot); [|destruct (c =? colon_byte); [|done]; by intros (? & ? & [=])%parseIPv6_v6].
  unfold parseIPv4. destruct (parseIPv4Fields _ _ _ _ _) as [l|] eqn:E; [|done]. intros _. by eapply fields_no_slash.
Qed.
Lemma find_none {A} (P : A -> Prop) `{forall x, Decision (P x)} l :
  (forall x, x ∈ l -> ~ P x) -> list_find P l = None.
Proof. intros Hl. apply list_find_None. by apply Forall_forall. Qed.

Lemma length_4 v : length (be_bytes 4 v) = 4%nat.
Proof. apply length_be_bytes. Qed.
Lemma masked_v4 v n : length (CIDRMask n 4) = 4%nat ->
  Mask (As16 (AddrV4 v)) (CIDRMask n 4) = zip_with Z.land (be_bytes 4 v) (CIDRMask n 4).
Proof.
  intros Hl. unfold Mask. rewrite Hl.
  rewrite (bool_decide_eq_false_2 (4 = 16 /\ _)%nat) by (by intros [? _]).
  assert (length (As16 (AddrV4 v)) = 16%nat) as H16 by (unfold As16; by rewrite !length_app, length_4).
  rewrite Hl, H16, (bool_decide_eq_true_2 (4%nat = 4%nat /\ _)) by (split; [done|by split]).
  change (drop 12 (As16 (AddrV4 v))) with (be_bytes 4 v).
  by rewrite bool_decide_eq_true_2 by apply length_4.
Qed.

Lemma ipv4_entry entry base bits : ipv4_network entry base bits ->
  0 <= bits /\ allowed_entry entry = Some (network base bits).
Proof.
  intros [[Ha ->]|(host & mask & He & Hns & Ha & Hm & Hb)]; unfold allowed_entry, ParseCIDR.
  - split; [done|]. rewrite find_none by (intros x Hx ->; by apply v4_no_slash in Ha).
    unfold ParseIP. rewrite Ha. cbn [has_zone]. by rewrite masked_v4 by apply length_CIDRMask.
  - pose proof (dtoi_nonneg _ _ Hm) as H0. split; [done|].
    assert (list_find (fun c => c = 47) (string_bytes host ++ slash :: mask)
      = Some (length (string_bytes host), slash)) as Hf.
    { rewrite list_find_app_r by (apply find_none; by intros x Hx ->). done. }
    rewrite He, Hf, take_app_length, bytes_string_bytes, Ha.
    replace (drop (S (length (string_bytes host))) (string_bytes host ++ slash :: mask)) with mask
      by (rewrite <- Nat.add_1_r, <- drop_drop, drop_app_length; done).
    rewrite Hm. cbn [has_zone BitLen orb]. rewrite (proj2 (Z.ltb_ge _ _)) by lia.
    by rewrite masked_v4 by apply length_CIDRMask.
Qed.

(** The sources an allow-list of IPv4 entries lets through. *)
Definition permits (entries : list string) (v : Z) : Prop :=
  exists entry base bits, entry ∈ entries /\ ipv4_network entry base bits /\ shares_prefix 32 bits base v.

Lemma entry_contains bits base ip v : 0 <= bits -> To4 ip = Some (be_bytes 4 v) ->
  Contains (network base bits) ip = true
  <-> shares_prefix 32 bits base v.
Proof.
  intros Hb Hip. unfold network. set (m := CIDRMask bits 4). set (nn := zip_with Z.land (be_bytes 4 base) m).
  assert (length m = 4%nat) as Hm by apply length_CIDRMask.
  assert (length nn = 4%nat) as Hn by (unfold nn; rewrite length_zip_with, length_be_bytes, Hm; done).
  assert (networkNumberAndMask (mkIPNet nn m) = Some (nn, m)) as Hnm.
  { unfold networkNumberAndMask. cbn [net_IP net_Mask].
    assert (To4 nn = Some nn) as -> by (unfold To4; by rewrite decide_True by done).
    cbn [default from_option id]. rewrite !Hn, Hm. by vm_compute. }
  unfold Contains. rewrite Hnm, Hip. cbn [default from_option id].
  rewrite Hn, length_4, bool_decide_eq_true_2 by done. cbn [andb].
  rewrite same_network_iff by (rewrite ?Hn, ?Hm, ?length_4; done). unfold nn. rewrite masked_twice.
  exact (masked_eq 4 bits base v Hb).
Qed.

Lemma allowlist_spec entries nets ip v :
  Forall (fun e => exists base bits, ipv4_network e base bits) entries ->
  allowlist entries = Ok nets -> To4 ip = Some (be_bytes 4 v) ->
  existsb (fun n => Contains n ip) nets = true <-> permits entries v.
Proof.
  intros HF. revert nets. induction HF as [|e entries (base & bits & He) HF IH]; intros nets; cbn [allowlist].
  - intros [= <-] _. split; [done|]. intros (? & ? & ? & ?%not_elem_of_nil & _). done.
  - destruct (ipv4_entry _ _ _ He) as [Hb Hn]. rewrite Hn.
    destruct (allowlist entries) as [ns|] eqn:E; [|done]. intros [= <-] Hip.
    cbn [existsb]. rewrite orb_true_iff, (entry_contains bits base ip v Hb Hip), (IH ns eq_refl Hip). split.
    + intros [Hs|(e' & b' & n' & Hin & ?)]; [exists e, base, bits|exists e', b', n'];
        (split; [by constructor|done]).
    + intros (e' & b' & n' & [->|Hin]%elem_of_cons & Hn' & Hs); [|right; by exists e', b', n'].
      destruct (ipv4_entry _ _ _ Hn') as [Hb' Hn2]. rewrite Hn in Hn2. apply (inj Some) in Hn2. left.
      apply (entry_contains bits base ip v Hb Hip). rewrite Hn2.
      by apply (entry_contains n' b' ip v Hb' Hip).
Qed.
Lemma allowlist_nonempty entries nets : entries <> [] -> allowlist entries = Ok nets -> nets <> [].
Proof.
  destruct entries as [|e entries]; [done|]. intros _. cbn. destruct (allowed_entry e); [|done].
  by destruct (allowlist entries); intros [= <-].
Qed.

(** ** Lemmas: the rest of the start-up *)

Lemma fold_insert_map (l : list (Z * Z)) (m : gmap Z Z) : NoDup l.*1 ->
  fold_left (fun out e => <[e.1 := e.2]> out) l m = list_to_map l ∪ m.
Proof.
  revert m. induction l as [|[k v] l IH]; intros m; cbn; [by rewrite (left_id_L ∅ _)|].
  rewrite NoDup_cons. intros [Hk Hd]. rewrite IH by done. apply map_eq. intros j.
  rewrite <- insert_union_l. destruct (decide (j = k)) as [->|Hne].
  - rewrite lookup_insert_eq, lookup_union_r by (by apply not_elem_of_list_to_map_1). apply lookup_insert_eq.
  - rewrite lookup_insert_ne by done. rewrite !lookup_union, lookup_insert_ne by done. done.
Qed.
(** The conversions to eight bits lose nothing, whatever order the map is ranged over. *)
Lemma marking_lossless order (m : gmap Z Z) : Permutation order (map_to_list m) ->
  map_Forall (fun qci dscp => 1 <= qci <= 255 /\ dscp_ok dscp) m -> qciToDSCPMap order = m.
Proof.
  intros Hp Hm. unfold qciToDSCPMap.
  assert (Forall (fun e : Z * Z => u8 e.1 = e.1 /\ u8 e.2 = e.2) order) as Hr.
  { rewrite Hp. apply Forall_forall. intros [k v] Hk%elem_of_map_to_list. destruct (Hm _ _ Hk) as [? [? ?]].
    cbn. split; apply uN_small; unfold in_u; lia. }
  transitivity (fold_left (fun (out : gmap Z Z) (e : Z * Z) => <[e.1 := e.2]> out) order ∅).
  - clear -Hr. generalize (∅ : gmap Z Z). induction Hr as [|e order [H1 H2] Hr IH]; intros acc; cbn; [done|].
    by rewrite H1, H2.
  - assert (NoDup order.*1) as Hd by (rewrite Hp; apply NoDup_fst_map_to_list).
    rewrite fold_insert_map, (right_id_L ∅ _) by done.
    rewrite (list_to_map_proper order (map_to_list m)) by done. apply list_to_map_to_list.
Qed.

(** The socket call log of [New] ends with the socket served or closed. *)
Lemma New_calls lok dok t cfg : 
  let '(calls, r) := New lok dok t cfg in
  match r with
  | Err ListenFailed => calls = [ConnListen (p_Listen (PFCP cfg))]
  | Err _ => last calls = Some ConnClose
  | Ok _ => last calls = Some ConnSetHandler /\ ConnClose ∉ calls
  end.
Proof.
  unfold New. destruct lok; [|done]. cbn [negb].
  set (pre := ConnListen _ :: _). assert (ConnClose ∉ pre) as Hpre by (unfold pre; case_match; set_solver).
  clearbody pre. destruct (_ && negb dok); [apply last_snoc|].
  destruct (extractIPv4 _); [|apply last_snoc]. destruct (allowlist _); [|apply last_snoc].
  destruct (S1ULocalAddr cfg); [|apply last_snoc]. destruct (S5ULocalAddr cfg); [|apply last_snoc].
  split; [apply last_snoc|set_solver].
Qed.

(** ** Property *)

(** The loaded fast path: its hooks, capacity and marking are the configured ones. *)
Definition fast_path (w : world_answers) (cfg : Config) (s1u s5u : Z)
    (d : Loaded * bytes * Compiler.Compiler) : Prop :=
  let '(l, entry, comp) := d in
  let q := QCIMarking (QoS cfg) in
  let om := OuterMarking (QoS cfg) in
  (exists i1 i5 flags, k_index (w_kernel w) (Ifname (S1UInterface cfg)) = Some i1
     /\ k_index (w_kernel w) (Ifname (S5UInterface cfg)) = Some i5
     /\ xdpAttachFlags (DriverMode (Dataplane cfg)) = Some flags
     /\ ld_maps l = Compiler.mkDataplane (u32 i1) (u32 i5) ∅ ∅
     /\ ld_hooks l = (if decide (i1 = i5) then [(i1, flags)] else [(i1, flags); (i5, flags)]))
  /\ ld_capacity l = u32 (MapMaxEntries (Dataplane cfg))
  /\ entry = [boolToU8 (om_Enabled om); boolToU8 (pm_Enabled (om_GTPU om)); DSCP (om_GTPU om);
              boolToU8 (qm_Enabled q && OverrideDefaultGTPU q); DefaultGTPUDSCP q]
  /\ comp = Compiler.mkCompiler (AddrV4 s1u) (AddrV4 s5u)
       (Compiler.mkQCIMarking (qm_Enabled q) (OverrideDefaultGTPU q) (DefaultGTPUDSCP q) (QCIToDSCP q)).

(** What a started gateway consists of. *)
Record ready (w : world_answers) (cfg : Config) (gw : Gateway) : Prop := mkReady {
  rd_invariants : PfcpServerSpec.server_ok (gw_server gw) /\ PfcpServerStops.config_ok (gw_server gw);
  rd_fresh : sessions (gw_server gw) = SgwuStore.NewStore /\ peers (gw_server gw) = ∅
    /\ in_u 32 (localTS (gw_server gw));
  rd_sources : forall ip v, To4 ip = Some (be_bytes 4 v) ->
    Forall (fun e => exists base bits, ipv4_network e base bits) (AllowedSGWC (PFCP cfg)) ->
    isAllowed ip (gw_server gw) = true <-> permits (AllowedSGWC (PFCP cfg)) v;
  rd_wiring : has_emSender (gw_server gw) = true /\ has_pathPeers (gw_server gw) = true
    /\ has_bpfInstall (gw_server gw) = AttachOnStart (Dataplane cfg);
  rd_tunnels : exists s1u s5u, S1ULocalAddr cfg = Ok (AddrV4 s1u) /\ S5ULocalAddr cfg = Ok (AddrV4 s5u)
    /\ s1u <> 0 /\ s5u <> 0
    /\ accessIP (gw_server gw) = AddrV4 s1u /\ coreIP (gw_server gw) = AddrV4 s5u
    /\ match gw_dataplane gw with
       | Some d => AttachOnStart (Dataplane cfg) = true /\ fast_path w cfg s1u s5u d
       | None => AttachOnStart (Dataplane cfg) = false
       end
    /\ let socket listen ip := mkSocket listen (Forwarder.mkForwarder SgwuStore.NewStore ip true true) no_counters
         (Some (PathProber.NewPathProber PathProber.EchoMinInterval (3 * Second) 3)) in
       let l1 := Listen (S1UInterface cfg) in let l2 := Listen (S5UInterface cfg) in
       gw_sockets gw = socket l1 (AddrV4 s1u) :: (if decide (l2 = l1) then [] else [socket l2 (AddrV4 s5u)])
}.
(** Why a start-up with a valid configuration stops: the outside refuses, or the PFCP
    address or an entry of the allow-list does not parse. *)
Definition refused (w : world_answers) (cfg : Config) (e : StartError) : Prop :=
  match e with
  | ServerFailed ListenFailed => w_listen_ok w = false
  | ServerFailed MarkingFailed => w_dscp_ok w = false
  | ServerFailed (BadNodeID e) => extractIPv4 (p_Listen (PFCP cfg)) = Err e
  | ServerFailed (BadAllowed entry) => entry ∈ AllowedSGWC (PFCP cfg) /\ allowed_entry entry = None
  | DataplaneFailed (InterfaceNotFound i) => k_index (w_kernel w) i = None
  | DataplaneFailed SpecFailed => k_spec (w_kernel w) = false
  | DataplaneFailed LoadFailed => k_load (w_kernel w) = false
  | DataplaneFailed (AttachXDPFailed i _) => exists flags, k_attach (w_kernel w) i flags = false
  | MarkingMapFailed MapUpdateFailed => k_update (w_kernel w) = false
  | SocketsFailed (OpenSocketFailed l _) => w_opens w l = false
  | _ => False
  end.

Lemma allowlist_refuses entries e : allowlist entries = Err e -> e ∈ entries /\ allowed_entry e = None.
Proof.
  induction entries as [|x entries IH]; [done|]. cbn. destruct (allowed_entry x) eqn:E.
  - destruct (allowlist entries); [done|]. intros [= <-]. destruct IH; [done|]. split; [by right|done].
  - intros [= <-]. split; [left|done].
Qed.
Lemma New_result w cfg : valid cfg ->
  match (New (w_listen_ok w) (w_dscp_ok w) (w_startTime w) cfg).2 with
  | Err e => refused w cfg (ServerFailed e)
  | Ok s => exists id nets s1u s5u, allowlist (AllowedSGWC (PFCP cfg)) = Ok nets
      /\ S1ULocalAddr cfg = Ok (AddrV4 s1u) /\ S5ULocalAddr cfg = Ok (AddrV4 s5u) /\ s1u <> 0 /\ s5u <> 0
      /\ s = start_server (w_startTime w) id nets (AddrV4 s1u) (AddrV4 s5u)
  end.
Proof.
  intros Hv. destruct (valid_addresses cfg Hv) as (s1u & s5u & H1 & H5 & ? & ?). unfold New.
  destruct (w_listen_ok w) eqn:El; [|done]. cbn [negb].
  destruct (w_dscp_ok w) eqn:Ed; cbn [negb]; rewrite ?andb_false_r, ?andb_true_r.
  2: destruct (_ && _); [done|].
  all: destruct (extractIPv4 _) as [id|e] eqn:Ei; [|exact Ei].
  all: destruct (allowlist _) as [nets|e] eqn:Ea; [|exact (allowlist_refuses _ _ Ea)].
  all: rewrite H1, H5; cbn [snd]; by exists id, nets, s1u, s5u.
Qed.
Lemma valid_listens cfg : valid cfg -> Listen (S1UInterface cfg) <> "" /\ Listen (S5UInterface cfg) <> "".
Proof.
  intros (_ & _ & _ & Hi & [_ (a & i & v & Hl & _)] & [_ (b & j & u & Hj & _)] & _).
  unfold S1UInterface, S5UInterface, interface_of. rewrite Hl, Hj.
  split; [by apply (Hi _ _ Hl)|by apply (Hi _ _ Hj)].
Qed.
Lemma two_sockets opens l1 l2 a1 a2 st : l1 <> "" -> l2 <> "" ->
  match NewGroup opens [mkEndpoint l1 a1; mkEndpoint l2 a2] st with
  | Ok g => g = New_forwarder l1 a1 st :: (if decide (l2 = l1) then [] else [New_forwarder l2 a2 st])
  | Err (OpenSocketFailed l closed) => opens l = false /\ (closed = [] \/ closed = [l1] /\ l = l2)
  | Err NoEndpoints => False
  end.
Proof.
  intros H1%String.eqb_neq H2%String.eqb_neq. unfold NewGroup. cbn [open_endpoints ep_Listen ep_LocalIP].
  rewrite H1, H2, bool_decide_eq_false_2 by set_solver. cbn [orb].
  destruct (opens l1) eqn:E1; cbn [negb]; [|by split; [|left]].
  destruct (decide (l2 = l1)) as [->|Hne].
  - rewrite bool_decide_eq_true_2 by set_solver. cbn [rbind app]. by rewrite decide_False by done.
  - rewrite bool_decide_eq_false_2 by set_solver. destruct (opens l2) eqn:E2; cbn; [done|].
    split; [done|]. by right.
Qed.
Lemma fresh_ok t id nets s1u s5u em bpf pp :
  let s := (start_server t id nets (AddrV4 s1u) (AddrV4 s5u)) <| has_emSender := em |> <| has_bpfInstall := bpf |>
             <| has_pathPeers := pp |> in
  PfcpServerSpec.server_ok s /\ PfcpServerStops.config_ok s /\ in_u 32 (localTS s).
Proof.
  split_and!; [|done|apply uN_range; lia]. split; [exists ∅; apply SgwuStore.NewStore_wf|].
  intros key r. cbn. by rewrite lookup_empty.
Qed.

Lemma modes_known mode : mode ∈ driver_modes -> is_Some (xdpAttachFlags mode).
Proof. intros Hm. unfold driver_modes in Hm. repeat (apply elem_of_cons in Hm as [->|Hm]; [by eexists|]). by apply not_elem_of_nil in Hm. Qed.
Lemma start_dataplane_result w cfg s1u s5u : valid cfg ->
  Permutation (w_qci_order w) (map_to_list (QCIToDSCP (QCIMarking (QoS cfg)))) ->
  match start_dataplane w cfg (AddrV4 s1u) (AddrV4 s5u) with
  | Ok (Some d) => AttachOnStart (Dataplane cfg) = true /\ fast_path w cfg s1u s5u d
  | Ok None => AttachOnStart (Dataplane cfg) = false
  | Err e => refused w cfg e
  end.
Proof.
  intros (_ & _ & _ & _ & _ & _ & Hmode & _ & Hmax & Hg & _ & (_ & Hd & _ & Hqci)) Hq.
  unfold start_dataplane. destruct (AttachOnStart (Dataplane cfg)); [|done]. cbn [negb].
  assert (u8 (DSCP (om_GTPU (OuterMarking (QoS cfg)))) = DSCP (om_GTPU (OuterMarking (QoS cfg)))) as Eg
    by (apply uN_small; unfold in_u, dscp_ok in *; lia).
  assert (u8 (DefaultGTPUDSCP (QCIMarking (QoS cfg))) = DefaultGTPUDSCP (QCIMarking (QoS cfg))) as Ed
    by (apply uN_small; unfold in_u, dscp_ok in *; lia).
  assert (compiler_marking (w_qci_order w) cfg
    = Compiler.mkQCIMarking (qm_Enabled (QCIMarking (QoS cfg))) (OverrideDefaultGTPU (QCIMarking (QoS cfg)))
        (DefaultGTPUDSCP (QCIMarking (QoS cfg))) (QCIToDSCP (QCIMarking (QoS cfg)))) as Hm
    by (unfold compiler_marking; by rewrite (marking_lossless _ _ Hq Hqci), Ed).
  unfold NewWithMode. destruct (k_index _ (Ifname (S1UInterface cfg))) as [i1|] eqn:E1; [|exact E1].
  destruct (k_index _ (Ifname (S5UInterface cfg))) as [i5|] eqn:E5; [|exact E5].
  destruct (k_spec _) eqn:Es; [|exact Es]. cbn [negb].
  destruct (modes_known _ Hmode) as [flags Hf]. rewrite Hf.
  destruct (k_load _) eqn:El; [|exact El]. cbn [negb].
  destruct (k_attach _ i1 flags) eqn:Ea; [|by exists flags]. cbn [negb].
  rewrite (proj2 (Z.ltb_lt _ _) Hmax).
  assert (ConfigureQoSOuterMarking (w_kernel w) (outer_marking cfg)
    = if k_update (w_kernel w)
      then Ok [boolToU8 (om_Enabled (OuterMarking (QoS cfg))); boolToU8 (pm_Enabled (om_GTPU (OuterMarking (QoS cfg))));
               DSCP (om_GTPU (OuterMarking (QoS cfg)));
               boolToU8 (qm_Enabled (QCIMarking (QoS cfg)) && OverrideDefaultGTPU (QCIMarking (QoS cfg)));
               DefaultGTPUDSCP (QCIMarking (QoS cfg))]
      else Err MapUpdateFailed) as Hmk.
  { unfold ConfigureQoSOuterMarking, outer_marking. cbn. rewrite Eg, Ed. unfold dscp_ok in *.
    rewrite !(proj2 (Z.ltb_ge 63 _)) by lia. by destruct (k_update _). }
  rewrite Hmk, Hm. clear Hmk Hm. destruct (Z.eqb_spec i1 i5) as [He|He].
  2: destruct (k_attach _ i5 flags) eqn:Ea5; cbn [negb]; [|by exists flags].
  all: destruct (k_update _) eqn:Eu; [|exact Eu].
  all: split; [done|]; split_and!; try done; exists i1, i5, flags; split_and!; try done; by case_decide.
Qed.


Definition example_config : Config :=
  mkConfig (mkSGWU "sgwu-1") (mkPFCP "10.0.0.9:8805" ["10.0.0.1"; "192.168.4.0/22"])
    (mkInterfaces {[ "access" := mkUserInterface "eth0" "10.0.1.1:2152"; "core" := mkUserInterface "eth1" "10.0.2.1:2152" ]})
    (mkGTPU (mkGTPULogical "access") (mkGTPULogical "core"))
    (Dataplane Default) (QoS Default) (Logging Default) (API Default) (Metrics Default) (Shutdown Default).
Definition example_world : world_answers :=
  mkAnswers true true (mkKernel (fun i => Some (if String.eqb i "eth0" then 3 else 4)) true true (fun _ _ => true) true)
    (fun _ => true) 1700000000 (rev (map_to_list (QCIToDSCP (QCIMarking (QoS Default))))).
Definition example_map_orders : map_orders := mkOrders ["core"; "access"] [9; 8; 7; 6; 5; 4; 3; 2; 1].
Lemma example_valid : valid example_config.
Proof.
  apply (sgwu_Validate_accepts example_map_orders); [|by vm_compute]. split.
  - intros name [i Hi]. cbn in Hi. apply lookup_insert_Some in Hi as [[<- _]|[_ Hi]]; [set_solver|].
    apply lookup_singleton_Some in Hi as [<- _]. set_solver.
  - intros q [d Hd]. apply elem_of_list_to_map_2 in Hd. cbn in Hd.
    repeat (apply elem_of_cons in Hd as [[= -> ->]|Hd]; [set_solver|]). by apply not_elem_of_nil in Hd.
Qed.
(** The mapped prefix decides: 192.168.7.255 is let in, 192.168.8.0 is not. *)
Example example_sources :
  let s := match start example_world example_config with Ok gw => gw_server gw | Err _ => start_server 0 [] [] AddrZero AddrZero end in
  isAllowed [192; 168; 7; 255] s = true /\ isAllowed [192; 168; 8; 0] s = false /\ isAllowed [10; 0; 0; 1] s = true
  /\ isAllowed [10; 0; 0; 2] s = false.
Proof. by vm_compute. Qed.

