(* ===== verification/PfcpClient.v ===== *)
(** * SGW-C PFCP client ([internal/sgwc/pfcpclient/client.go])

    The associations of the SGW-C with its SGW-Us: association setup, heartbeats and
    restart detection, the choice of an SGW-U for a session, the session procedures and
    the answers to reports.  [Send] of the transport blocks until an answer, an error or
    a cancellation: it is a function [send] of an environment [W] that answers a request
    and goes on, so that a peer can be put in its place.  The supervision of a peer is
    cut at its blocking calls.  [As4] of an address that is not IPv4 and a negative
    slice index are [Panics]. *)

From S2P Require Import Prelude GoLib PfcpIe PfcpMessage.
From S2P Require Checkpoint PfcpTransport.
#[local] Open Scope string_scope.
#[local] Open Scope list_scope.
#[local] Open Scope Z_scope.

(** ** State *)

Definition PeerStatePending : string := "Pending".
Definition PeerStateEstablished : string := "Established".
Definition PeerStateDown : string := "Down".

Record peer := mkPeer {
  cfg_Name : string; cfg_Addr : string; addr : UDPAddr; state : string;
  peerNodeID : option bytes; peerRecoveryTS : Z; lastSeen : time }.
#[export] Instance eta_peer : Eta peer := fun p =>
  mkPeer (cfg_Name p) (cfg_Addr p) (addr p) (state p) (peerNodeID p) (peerRecoveryTS p) (lastSeen p).

(** The flags tell which callbacks and whether a sink are registered. *)
Record Client := mkClient {
  conn : PfcpTransport.Conn; localNodeID : bytes; localTS : Z; peers : list peer;
  hbInterval : duration; hbTimeout : duration; seidCounter : Z; nextPeer : Z;
  has_onPeerStateChange : bool; has_onPeerRestart : bool; has_onIdleDownlinkReport : bool;
  has_checkpointSink : bool }.
#[export] Instance eta_Client : Eta Client := fun c =>
  mkClient (conn c) (localNodeID c) (localTS c) (peers c) (hbInterval c) (hbTimeout c)
    (seidCounter c) (nextPeer c) (has_onPeerStateChange c) (has_onPeerRestart c)
    (has_onIdleDownlinkReport c) (has_checkpointSink c).

Inductive ClientError :=
| NoPeerConfigured | NoPeerEstablished
| PeerNotEstablished (peerAddr : string) | PeerNotConfigured (peerAddr : string)
| SendFailed (e : PfcpTransport.SendError) | BadResponse (e : MessageError)
| Rejected (cause : Z) | BadUPSEID (e : IEError) | PeerRestarted (oldTS newTS : Z)
| Panics.

(** What [Send] returns: the response, or nil with a nil error (a cancelled call). *)
Definition answer : Type := result PfcpTransport.SendError (option bytes).
(** Parsing a nil slice is parsing no octets. *)
Definition parsed {R} (parse : bytes -> result MessageError R) (a : answer) : result ClientError R :=
  match a with
  | Err e => Err (SendFailed e)
  | Ok raw => match parse (default [] raw) with Ok r => Ok r | Err e => Err (BadResponse e) end
  end.

Inductive event :=
| SavePeerSnapshot (snapshot : Checkpoint.PeerSnapshot)
| OnPeerStateChange (name peerAddr state : string)
| OnPeerRestart (name peerAddr : string) (oldTS newTS : Z)
| OnIdleDownlinkReport (peerAddr : string) (report : VectorCoreIdleDownlinkReport)
| Reply (peerAddr : UDPAddr) (raw : bytes).

Definition when {A} (b : bool) (x : A) : list A := if b then [x] else [].

(** [v, _ := i.Value()] on an IE pointer. *)
Definition value_of (value : IE -> result IEError Z) (i : option IE) : result ClientError Z :=
  match i with
  | None => Err Panics
  | Some i => Ok match value i with Ok v => v | Err _ => 0 end
  end.

(** ** Construction *)

Definition ntpEpochOffset : Z := 2208988800.

(** [net.ParseIP(host).To4()]. *)
Definition host_v4 (host : string) : option bytes :=
  match ParseAddr host with
  | Some (AddrV4 v) => Some (be_bytes 4 v)
  | Some (AddrV6 v "") => To4 (be_bytes 16 v)
  | _ => None
  end.
Definition extractIPv4 (addrPort : string) : option bytes :=
  match SplitHostPort addrPort with
  | Ok (host, _) => host_v4 host
  | Err _ => None
  end.

Definition seconds_or (n dflt : Z) : duration :=
  let d := i64 (i64 n * Second) in if d =? 0 then dflt * Second else d.

Inductive NewError := ListenFailed | MarkingFailed | BadLocalAddr | BadPeerAddr (name : string).

Fixpoint new_peers (resolve : string -> option UDPAddr) (sgwu : list (string * string))
    : result NewError (list peer) :=
  match sgwu with
  | [] => Ok []
  | (name, a) :: sgwu =>
      match resolve a with
      | None => Err (BadPeerAddr name)
      | Some ua =>
          let? ps := new_peers resolve sgwu in
          Ok (mkPeer name a ua PeerStatePending None 0 zero_time :: ps)
      end
  end.

(** [listen] is the socket, [marking] the outcome of setting the DSCP if configured,
    [resolve] is [net.ResolveUDPAddr], [unix] the start time in seconds. *)
Definition New (listen : option PfcpTransport.Conn) (marking : bool)
    (resolve : string -> option UDPAddr) (localAddr : string) (sgwu : list (string * string))
    (heartbeatInterval heartbeatTimeout unix : Z) : result NewError Client :=
  match listen with
  | None => Err ListenFailed
  | Some conn =>
      if negb marking then Err MarkingFailed
      else
        match extractIPv4 localAddr with
        | None => Err BadLocalAddr
        | Some ip =>
            let? ps := new_peers resolve sgwu in
            Ok (mkClient conn ip (u32 (u32 unix + ntpEpochOffset)) ps
                  (seconds_or heartbeatInterval 10) (seconds_or heartbeatTimeout 30)
                  0 0 false false false false)
        end
  end.

Definition SetPeerStateCallback (c : Client) : Client := c <| has_onPeerStateChange := true |>.
Definition SetPeerRestartCallback (c : Client) : Client := c <| has_onPeerRestart := true |>.
Definition SetCheckpointSink (c : Client) : Client := c <| has_checkpointSink := true |>.
Definition SetIdleDownlinkReportHandler (c : Client) : Client :=
  c <| has_onIdleDownlinkReport := true |>.

(** ** Peers *)

Record PeerView := mkPeerView {
  v_Name : string; v_Addr : string; v_State : string; v_PeerNodeID : string;
  v_PeerRecoveryTimestamp : Z; v_LastSeen : time }.
Definition Peers (c : Client) : list PeerView :=
  (fun p => mkPeerView (cfg_Name p) (cfg_Addr p) (state p)
              match peerNodeID p with Some ip => IP_String ip | None => "" end
              (peerRecoveryTS p) (lastSeen p)) <$> peers c.

Definition peerCheckpointSnapshotLocked (p : peer) (now : time) : Checkpoint.PeerSnapshot :=
  Checkpoint.mkPeerSnapshot 0 "sgwu" (cfg_Addr p) (cfg_Name p) (state p)
    (negb (peerRecoveryTS p =? 0)) 0 (peerRecoveryTS p) zero_time 0
    (or_now (lastSeen p) now).

Definition emitPeerCheckpoint (snapshot : Checkpoint.PeerSnapshot) (c : Client) : list event :=
  when (has_checkpointSink c && negb (String.eqb (Checkpoint.ps_Role snapshot) "")
        && negb (String.eqb (Checkpoint.ps_Addr snapshot) "")) (SavePeerSnapshot snapshot).

Definition notifyPeerRestart (p : peer) (oldTS newTS : Z) (c : Client) : list event :=
  when (has_onPeerRestart c) (OnPeerRestart (cfg_Name p) (cfg_Addr p) oldTS newTS).
Definition notifyPeerState (p : peer) (c : Client) : list event :=
  when (has_onPeerStateChange c) (OnPeerStateChange (cfg_Name p) (cfg_Addr p) (state p)).

Definition isRecoveryRestart (oldTS newTS : Z) : bool :=
  negb (oldTS =? 0) && negb (newTS =? oldTS).

Definition CheckpointSnapshots (now : time) (c : Client) : list Checkpoint.PeerSnapshot :=
  (fun p => peerCheckpointSnapshotLocked p now) <$> peers c.

Definition restore_peer (s : Checkpoint.PeerSnapshot) (p : peer) : peer :=
  let p := p <| peerRecoveryTS := Checkpoint.ps_RecoveryTimestamp s |> in
  let p := if String.eqb (Checkpoint.ps_State s) "" then p
           else p <| state := Checkpoint.ps_State s |> in
  if IsZero (Checkpoint.ps_UpdatedAt s) then p else p <| lastSeen := Checkpoint.ps_UpdatedAt s |>.

(** The first peer with the address or the name of the snapshot. *)
Fixpoint restore_first (s : Checkpoint.PeerSnapshot) (ps : list peer) : nat * list peer :=
  match ps with
  | [] => (0%nat, [])
  | p :: ps =>
      if negb (String.eqb (cfg_Addr p) (Checkpoint.ps_Addr s))
         && negb (String.eqb (cfg_Name p) (Checkpoint.ps_Name s))
      then let '(n, ps) := restore_first s ps in (n, p :: ps)
      else (1%nat, restore_peer s p :: ps)
  end.
Fixpoint restore_loop (snapshots : list Checkpoint.PeerSnapshot) (ps : list peer)
    : nat * list peer :=
  match snapshots with
  | [] => (0%nat, ps)
  | s :: snapshots =>
      if negb (String.eqb (Checkpoint.ps_Role s) "sgwu") || String.eqb (Checkpoint.ps_Addr s) ""
      then restore_loop snapshots ps
      else
        let '(n, ps) := restore_first s ps in
        let '(k, ps) := restore_loop snapshots ps in ((n + k)%nat, ps)
  end.
Definition RestoreCheckpointSnapshots (snapshots : list Checkpoint.PeerSnapshot) (c : Client)
    : nat * Client :=
  let '(n, ps) := restore_loop snapshots (peers c) in (n, c <| peers := ps |>).

(** ** Association and heartbeats *)

Definition AllocSeq (c : Client) : Z * Client :=
  let '(seq, k) := PfcpTransport.AllocSeq (conn c) in (seq, c <| conn := k |>).

Definition node_request (typ seq : Z) (ies : list IE) : bytes :=
  Marshal (mkHeader 1 false typ 0 0 seq) ies.
Definition session_request (typ seid seq : Z) (ies : list IE) : bytes :=
  Marshal (mkHeader 1 true typ 0 seid seq) ies.

Definition associate_request (c : Client) : bytes * Client :=
  let '(seq, c) := AllocSeq c in
  (node_request MsgTypeAssociationSetupRequest seq
     [NewNodeIDIPv4 (localNodeID c); NewRecoveryTimeStamp (localTS c)], c).

(** The peer is down after a failed [Send]. *)
Definition down (now : time) (p : peer) (c : Client) : peer * list event :=
  let p := p <| state := PeerStateDown |> in
  (p, emitPeerCheckpoint (peerCheckpointSnapshotLocked p now) c).

Definition associate (now : time) (a : answer) (p : peer) (c : Client)
    : result ClientError unit * peer * list event :=
  match a with
  | Err e => let '(p, evs) := down now p c in (Err (SendFailed e), p, evs)
  | Ok _ =>
      let accepted :=
        let? resp := parsed ParseAssociationSetupResponse a in
        let? cause := value_of CauseValue (ASResp_Cause resp) in
        let? _ := guard (cause =? CauseRequestAccepted) (Rejected cause) in
        let? peerTS := value_of RecoveryTimeStampValue (ASResp_RecoveryTimeStamp resp) in
        Ok (peerTS, ASResp_NodeID resp) in
      match accepted with
      | Err e => (Err e, p, [])
      | Ok (_, None) => (Err Panics, p, [])
      | Ok (peerTS, Some nodeID) =>
          let oldTS := peerRecoveryTS p in
          let p := p <| state := PeerStateEstablished |> <| peerNodeID := NodeIDIPv4 nodeID |>
                     <| peerRecoveryTS := peerTS |> <| lastSeen := now |> in
          (Ok tt, p,
           emitPeerCheckpoint (peerCheckpointSnapshotLocked p now) c
           ++ (if isRecoveryRestart oldTS peerTS then notifyPeerRestart p oldTS peerTS c else [])
           ++ notifyPeerState p c)
      end
  end.

Definition heartbeat_request (c : Client) : bytes * Client :=
  let '(seq, c) := AllocSeq c in
  (node_request MsgTypeHeartbeatRequest seq [NewRecoveryTimeStamp (localTS c)], c).

Definition heartbeat (now : time) (a : answer) (p : peer) (c : Client)
    : result ClientError unit * peer * list event :=
  match parsed ParseHeartbeatResponse a with
  | Err e => (Err e, p, [])
  | Ok resp =>
      let seen p := p <| lastSeen := now |> in
      let saved p := emitPeerCheckpoint (peerCheckpointSnapshotLocked p now) c in
      match HBResp_RecoveryTimeStamp resp with
      | None => let p := seen p in (Ok tt, p, saved p)
      | Some i =>
          let peerTS := match RecoveryTimeStampValue i with Ok v => v | Err _ => 0 end in
          let oldTS := peerRecoveryTS p in
          let p := seen (p <| peerRecoveryTS := peerTS |>) in
          if isRecoveryRestart oldTS peerTS
          then (Err (PeerRestarted oldTS peerTS), p, saved p ++ notifyPeerRestart p oldTS peerTS c)
          else (Ok tt, p, saved p)
      end
  end.

(** One tick of the heartbeat loop: a failure takes the peer down and ends the loop. *)
Definition heartbeatLoop_tick (now1 now2 : time) (a : answer) (p : peer) (c : Client)
    : bool * peer * list event :=
  match heartbeat now1 a p c with
  | (Ok _, p, evs) => (true, p, evs)
  | (Err _, p, evs) =>
      let '(p, saved) := down now2 p c in
      (false, p, evs ++ saved ++ notifyPeerState p c)
  end.

(** Where the goroutine of a peer is: it waits for an association answer or for the
    answer of the next heartbeat. *)
Inductive phase := Associating | Heartbeating.
Definition managePeer (now1 now2 : time) (a : answer) (c : Client) (q : phase * peer)
    : phase * peer * list event :=
  match q with
  | (Associating, p) =>
      match associate now1 a p c with
      | (Ok _, p, evs) => (Heartbeating, p, evs)
      | (Err _, p, evs) => (Associating, p, evs)
      end
  | (Heartbeating, p) =>
      match heartbeatLoop_tick now1 now2 a p c with
      | (true, p, evs) => (Heartbeating, p, evs)
      | (false, p, evs) => (Associating, p, evs)
      end
  end.

(** ** Choosing a peer *)

Definition AllocCPSEID (c : Client) : Z * Client :=
  let v := u64 (seidCounter c + 1) in (v, c <| seidCounter := v |>).

Definition peerEstablished (p : peer) : bool := String.eqb (state p) PeerStateEstablished.

(** [c.peers[(start+i)%len(c.peers)]] for [i] from [i] on, [n] peers being left.  The
    remainder of a negative dividend is negative. *)
Fixpoint select_from (ps : list peer) (start i : Z) (n : nat) : result ClientError peer :=
  match n with
  | O => Err NoPeerEstablished
  | S n =>
      let k := Z.rem (start + i) (Z.of_nat (length ps)) in
      if k <? 0 then Err Panics
      else match ps !! Z.to_nat k with
           | None => Err Panics
           | Some p => if peerEstablished p then Ok p else select_from ps start (i + 1) n
           end
  end.

Definition SelectPeer (c : Client) : result ClientError peer * Client :=
  match peers c with
  | [] => (Err NoPeerConfigured, c)
  | ps =>
      let v := u64 (nextPeer c + 1) in
      let start := Z.rem (i64 (u64 (v - 1))) (Z.of_nat (length ps)) in
      (select_from ps start 0 (length ps), c <| nextPeer := v |>)
  end.

Definition selectPeerByAddr (peerAddr : string) (c : Client) : result ClientError peer * Client :=
  if String.eqb peerAddr "" then SelectPeer c
  else
    (match List.find (fun p => String.eqb (cfg_Addr p) peerAddr) (peers c) with
     | None => Err (PeerNotConfigured peerAddr)
     | Some p => if negb (peerEstablished p) then Err (PeerNotEstablished peerAddr) else Ok p
     end, c).

(** ** Session procedures *)

Record SessionParams := mkSessionParams {
  LocalIP : Addr; CPFSEID : Z; sp_CreatePDRs : list IE; sp_CreateFARs : list IE }.
Record SessionResult := mkSessionResult {
  PeerName : string; PeerAddr : string; UPSEID : Z; sr_CreatedPDRs : list IE }.
Record FARUpdate := mkFARUpdate {
  fu_FARID : Z; fu_PDRID : Z; fu_ApplyAction : Z; fu_DestInterface : Z; fu_OuterTEID : Z;
  fu_OuterIP : Addr; fu_OuterHeaderRemoval : bool }.

Section Procedures.
Context {W : Type} (send : UDPAddr -> bytes -> W -> answer * W).

(** The common part of every session procedure: a new sequence number, the request,
    the answer and its cause. *)
Definition transaction {R} (p : peer) (typ seid : Z) (ies : list IE)
    (parse : bytes -> result MessageError R) (cause_of : R -> option IE) (c : Client) (w : W)
    : result ClientError R * Client * W :=
  let '(seq, c) := AllocSeq c in
  let '(a, w) := send (addr p) (session_request typ seid seq ies) w in
  let r :=
    let? resp := parsed parse a in
    let? cause := value_of CauseValue (cause_of resp) in
    let? _ := guard (cause =? CauseRequestAccepted) (Rejected cause) in
    Ok resp in
  (r, c, w).

(** A transaction with the peer a lookup found, if any. *)
Definition on_peer {R} (lookup : result ClientError peer * Client)
    (run : peer -> Client -> W -> result ClientError R * Client * W) (w : W)
    : result ClientError R * Client * W :=
  match lookup with
  | (Err e, c) => (Err e, c, w)
  | (Ok p, c) => run p c w
  end.

Definition EstablishSession (params : SessionParams) (c : Client) (w : W)
    : result ClientError SessionResult * Client * W :=
  on_peer (SelectPeer c) (fun p c w =>
    match NewFSEID (CPFSEID params) (LocalIP params) with
    | None => (Err Panics, (AllocSeq c).2, w)
    | Some cpFSEID =>
        let '(r, c, w) :=
          transaction p MsgTypeSessionEstablishmentRequest 0
            (NewNodeIDIPv4 (localNodeID c) :: cpFSEID
               :: sp_CreatePDRs params ++ sp_CreateFARs params)
            ParseSessionEstablishmentResponse SEResp_Cause c w in
        let r :=
          let? resp := r in
          match SEResp_UPSEID resp with
          | None => Err Panics
          | Some i =>
              match FSEIDValue i with
              | Err e => Err (BadUPSEID e)
              | Ok upFSEID =>
                  Ok (mkSessionResult (cfg_Name p) (cfg_Addr p) (FSEID_SEID upFSEID)
                        (SEResp_CreatedPDRs resp))
              end
          end in
        (r, c, w)
    end) w.

(** The IEs of one FAR update. *)
Definition update_ies (u : FARUpdate) : option (list IE) :=
  let pdr := when (fu_OuterHeaderRemoval u && negb (fu_PDRID u =? 0))
               (NewUpdatePDR [NewPDRID (fu_PDRID u); NewOuterHeaderRemoval OHRDescGTPUUDPIPv4]) in
  let far ohc := NewUpdateFAR [NewFARID (fu_FARID u); NewApplyAction (fu_ApplyAction u);
                   NewUpdateForwardingParameters
                     (NewDestinationInterface (fu_DestInterface u) :: ohc)] in
  if negb (fu_OuterTEID u =? 0) && IsValid (fu_OuterIP u) then
    match NewOuterHeaderCreation OHCDescGTPUUDPIPv4 (fu_OuterTEID u) (fu_OuterIP u) with
    | None => None
    | Some ohc => Some (pdr ++ [far [ohc]])
    end
  else Some (pdr ++ [far []]).
Fixpoint updates_ies (us : list FARUpdate) : option (list IE) :=
  match us with
  | [] => Some []
  | u :: us =>
      match update_ies u with
      | None => None
      | Some ies => match updates_ies us with None => None | Some rest => Some (ies ++ rest) end
      end
  end.

Definition modification (peerAddr : string) (upSEID : Z) (ies : list IE) (c : Client) (w : W)
    : result ClientError SessionModificationResponse * Client * W :=
  on_peer (selectPeerByAddr peerAddr c) (fun p c w =>
    transaction p MsgTypeSessionModificationRequest upSEID ies
      ParseSessionModificationResponse SMResp_Cause c w) w.

Definition ignore {R} (r : result ClientError R * Client * W) : result ClientError unit * Client * W :=
  let '(r, c, w) := r in (let? _ := r in Ok tt, c, w).

Definition ModifySessionOnPeer (peerAddr : string) (upSEID : Z) (updates : list FARUpdate)
    (c : Client) (w : W) : result ClientError unit * Client * W :=
  match updates_ies updates with
  | Some ies => ignore (modification peerAddr upSEID ies c w)
  | None =>
      match selectPeerByAddr peerAddr c with
      | (Err e, c) => (Err e, c, w)
      | (Ok _, c) => (Err Panics, c, w)
      end
  end.
Definition ModifySession := ModifySessionOnPeer "".

Definition AddBearerRulesOnPeer (peerAddr : string) (upSEID : Z) (createPDRs createFARs : list IE)
    (c : Client) (w : W) : result ClientError (list IE) * Client * W :=
  let '(r, c, w) := modification peerAddr upSEID (createPDRs ++ createFARs) c w in
  (let? resp := r in Ok (SMResp_CreatedPDRs resp), c, w).
Definition AddBearerRules := AddBearerRulesOnPeer "".

Definition RemoveBearerRulesOnPeer (peerAddr : string) (upSEID : Z) (pdrIDs farIDs : list Z)
    (c : Client) (w : W) : result ClientError unit * Client * W :=
  ignore (modification peerAddr upSEID
    (((fun id => NewRemovePDR [NewPDRID (u16 id)]) <$> pdrIDs)
     ++ ((fun id => NewRemoveFAR [NewFARID id]) <$> farIDs)) c w).
Definition RemoveBearerRules := RemoveBearerRulesOnPeer "".

Definition DeleteSessionOnPeer (peerAddr : string) (upSEID : Z) (c : Client) (w : W)
    : result ClientError unit * Client * W :=
  ignore (on_peer (selectPeerByAddr peerAddr c) (fun p c w =>
    transaction p MsgTypeSessionDeletionRequest upSEID [] ParseSessionDeletionResponse
      SDResp_Cause c w) w).
Definition DeleteSession := DeleteSessionOnPeer "".

End Procedures.

(** ** Reports from an SGW-U *)

Definition handleNodeReportRequest (a : UDPAddr) (raw : bytes) (c : Client) : list event :=
  match ParseNodeReportRequest raw with
  | Err _ => []
  | Ok req =>
      [Reply a (node_request MsgTypeNodeReportResponse (SequenceNumber (NRReq_Header req))
         [NewNodeIDIPv4 (localNodeID c); NewCause CauseRequestAccepted])]
  end.

(** [None]: the report IE is a nil pointer, which the parser excludes. *)
Definition handleSessionReportRequest (a : UDPAddr) (hdr : Header) (raw : bytes) (c : Client)
    : option (list event) :=
  match ParseSessionReportRequest raw with
  | Err _ => Some []
  | Ok req =>
      match SRReq_VectorCoreIdleDownlinkReport req with
      | None => None
      | Some i =>
          match VectorCoreIdleDownlinkReportValue i with
          | Err _ => Some []
          | Ok report =>
              Some (when (has_onIdleDownlinkReport c) (OnIdleDownlinkReport (UDPAddr_String a) report)
                    ++ [Reply a (session_request MsgTypeSessionReportResponse (SEID hdr)
                          (SequenceNumber (SRReq_Header req)) [NewCause CauseRequestAccepted])])
          end
      end
  end.

Definition handle (a : UDPAddr) (hdr : Header) (raw : bytes) (c : Client) : option (list event) :=
  if MessageType hdr =? MsgTypeNodeReportRequest then Some (handleNodeReportRequest a raw c)
  else if MessageType hdr =? MsgTypeSessionReportRequest
  then handleSessionReportRequest a hdr raw c
  else Some [].

(** ** Lemmas: the choice of a peer *)

Definition nth_peer (ps : list peer) (k : Z) : option peer :=
  ps !! Z.to_nat (k mod Z.of_nat (length ps)).

Lemma nth_peer_some ps k : ps <> [] -> is_Some (nth_peer ps k).
Proof.
  intros Hne. apply lookup_lt_is_Some. destruct ps; [done|]. cbn [length].
  pose proof (Z.mod_pos_bound k (Z.of_nat (S (length ps)))). lia.
Qed.

(** The first established peer from index [start + i] on, going round. *)
Lemma select_from_spec ps start i n :
  ps <> [] -> 0 <= start + i ->
  match select_from ps start i n with
  | Ok p => exists j, 0 <= j < Z.of_nat n /\ nth_peer ps (start + i + j) = Some p /\
      peerEstablished p = true /\
      forall j' p', 0 <= j' < j -> nth_peer ps (start + i + j') = Some p' -> peerEstablished p' = false
  | Err e => e = NoPeerEstablished /\
      forall j p, 0 <= j < Z.of_nat n -> nth_peer ps (start + i + j) = Some p -> peerEstablished p = false
  end.
Proof.
  intros Hne. revert i. induction n as [|n IH]; intros i Hi; cbn [select_from]; [split; [done|lia]|].
  assert (0 < Z.of_nat (length ps)) by (destruct ps; [done|cbn; lia]).
  rewrite Z.rem_mod_nonneg by lia.
  pose proof (Z.mod_pos_bound (start + i) (Z.of_nat (length ps))).
  rewrite (proj2 (Z.ltb_ge _ _)) by lia.
  destruct (nth_peer_some ps (start + i) Hne) as [p Hp]. unfold nth_peer in Hp. rewrite Hp.
  destruct (peerEstablished p) eqn:Ep.
  - exists 0. rewrite Z.add_0_r. split_and!; [lia|lia|done|done|]. intros; lia.
  - specialize (IH (i + 1) ltac:(lia)).
    assert (Hshift : forall j, start + (i + 1) + j = start + i + (1 + j)) by (intros; lia).
    destruct (select_from ps start (i + 1) n) as [p1|e].
    + destruct IH as (j & Hj & H1 & H2 & H3). exists (1 + j). rewrite <- Hshift.
      split_and!; [lia|lia|done|done|]. intros j' p' Hj' Hp'.
      destruct (decide (j' = 0)) as [->|].
      * rewrite Z.add_0_r in Hp'. unfold nth_peer in Hp'. congruence.
      * apply (H3 (j' - 1)); [lia|]. rewrite Hshift. by replace (1 + (j' - 1)) with j' by lia.
    + destruct IH as [-> H3]. split; [done|]. intros j' p' Hj' Hp'.
      destruct (decide (j' = 0)) as [->|].
      * rewrite Z.add_0_r in Hp'. unfold nth_peer in Hp'. congruence.
      * apply (H3 (j' - 1)); [lia|]. rewrite Hshift. by replace (1 + (j' - 1)) with j' by lia.
Qed.

Lemma nth_peer_all ps p start : p ∈ ps -> exists j, 0 <= j < Z.of_nat (length ps) /\ nth_peer ps (start + j) = Some p.
Proof.
  intros [k Hk]%list_elem_of_lookup. pose proof (lookup_lt_Some _ _ _ Hk) as Hlt.
  set (n := Z.of_nat (length ps)). assert (0 < n) by (unfold n; lia).
  exists ((Z.of_nat k - start) mod n). pose proof (Z.mod_pos_bound (Z.of_nat k - start) n ltac:(lia)).
  split; [lia|]. unfold nth_peer. fold n. rewrite Z.add_mod_idemp_r by lia.
  replace (start + (Z.of_nat k - start)) with (Z.of_nat k) by lia.
  rewrite Z.mod_small by (unfold n; lia). by rewrite Nat2Z.id.
Qed.

(** The cursor while it has not left the signed range. *)
Definition cursor_ok (c : Client) : Prop := 0 <= nextPeer c < 2 ^ 63.

Lemma SelectPeer_unfold c :
  peers c <> [] -> cursor_ok c ->
  SelectPeer c = (select_from (peers c) (Z.rem (nextPeer c) (Z.of_nat (length (peers c)))) 0
                    (length (peers c)), c <| nextPeer := nextPeer c + 1 |>).
Proof.
  intros Hne [H0 H1]. unfold SelectPeer. destruct (peers c) as [|p ps] eqn:E; [done|].
  rewrite (uN_small 64 (nextPeer c + 1)) by (unfold in_u; lia).
  replace (nextPeer c + 1 - 1) with (nextPeer c) by lia.
  rewrite uN_small by (unfold in_u; lia). unfold i64. by rewrite Z.mod_small, Z.add_simpl_r by lia.
Qed.

Lemma nth_peer_rem ps n j : ps <> [] -> 0 <= n -> nth_peer ps (Z.rem n (Z.of_nat (length ps)) + j) = nth_peer ps (n + j).
Proof.
  intros Hne Hn. assert (0 < Z.of_nat (length ps)) by (destruct ps; [done|cbn; lia]).
  unfold nth_peer. by rewrite Z.rem_mod_nonneg, Z.add_mod_idemp_l by lia.
Qed.

(** ** Lemmas: the supervision of a peer *)

Fixpoint manage (c : Client) (inputs : list (time * time * answer)) (q : phase * peer)
    : phase * peer * list event :=
  match inputs with
  | [] => (q.1, q.2, [])
  | (now1, now2, a) :: inputs =>
      let '(q1, p1, evs) := managePeer now1 now2 a c q in
      let '(q2, p2, evs') := manage c inputs (q1, p1) in (q2, p2, evs ++ evs')
  end.

Definition restart_events (evs : list event) : list (Z * Z) :=
  omap (fun e => match e with OnPeerRestart _ _ o n => Some (o, n) | _ => None end) evs.
Definition state_events (evs : list event) : list string :=
  omap (fun e => match e with OnPeerStateChange _ _ s => Some s | _ => None end) evs.
Definition saves (evs : list event) : list Checkpoint.PeerSnapshot :=
  omap (fun e => match e with SavePeerSnapshot s => Some s | _ => None end) evs.

(** The Recovery Time Stamp an answer reports in a phase, if the answer counts. *)
Definition stamp (i : option IE) : Z :=
  match i with
  | Some i => match RecoveryTimeStampValue i with Ok v => v | Err _ => 0 end
  | None => 0
  end.
Definition heard (q : phase) (a : answer) : list Z :=
  match q with
  | Associating =>
      match parsed ParseAssociationSetupResponse a with
      | Ok r => when (cause_accepted (ASResp_Cause r)) (stamp (ASResp_RecoveryTimeStamp r))
      | Err _ => []
      end
  | Heartbeating =>
      match parsed ParseHeartbeatResponse a with
      | Ok r => [stamp (HBResp_RecoveryTimeStamp r)]
      | Err _ => []
      end
  end.
Fixpoint all_heard (c : Client) (inputs : list (time * time * answer)) (q : phase * peer) : list Z :=
  match inputs with
  | [] => []
  | (now1, now2, a) :: inputs =>
      heard q.1 a ++ all_heard c inputs (managePeer now1 now2 a c q).1
  end.

(** The changes of a known time stamp in a sequence of reports. *)
Fixpoint restarts (old : Z) (reports : list Z) : list (Z * Z) :=
  match reports with
  | [] => []
  | t :: reports =>
      if negb (old =? 0) && negb (t =? old) then (old, t) :: restarts t reports
      else restarts t reports
  end.
Definition latest (old : Z) (reports : list Z) : Z := default old (last reports).

(** State changes that alternate, [up] telling the state before. *)
Fixpoint alternates (up : bool) (changes : list string) (up' : bool) : Prop :=
  match changes with
  | [] => up = up'
  | s :: changes =>
      s = (if up then PeerStateDown else PeerStateEstablished) /\ alternates (negb up) changes up'
  end.
Definition is_up (q : phase) : bool := match q with Heartbeating => true | Associating => false end.

Lemma latest_app old xs ys : latest old (xs ++ ys) = latest (latest old xs) ys.
Proof.
  unfold latest. rewrite last_app. destruct (last ys); [done|]. by destruct (last xs).
Qed.
Lemma restarts_app old xs ys : restarts old (xs ++ ys) = restarts old xs ++ restarts (latest old xs) ys.
Proof.
  revert old. induction xs as [|x xs IH]; intros old; [done|]. cbn [restarts app].
  assert (latest old (x :: xs) = latest x xs) as ->.
  { change (x :: xs) with ([x] ++ xs). by rewrite latest_app. }
  destruct (_ && _); rewrite IH; done.
Qed.
Lemma alternates_app up up' up'' xs ys :
  alternates up xs up' -> alternates up' ys up'' -> alternates up (xs ++ ys) up''.
Proof.
  revert up. induction xs as [|x xs IH]; intros up; cbn; [by intros ->|].
  intros [-> H] H'. split; [done|by apply IH].
Qed.

(** What one answer does to a peer that is in step with its goroutine. *)
Record step_ok (c : Client) (q : phase) (p : peer) (a : answer) (q' : phase) (p' : peer)
    (evs : list event) : Prop := mkStepOk {
  step_state : q' = Heartbeating <-> state p' = PeerStateEstablished;
  step_stamp : peerRecoveryTS p' = latest (peerRecoveryTS p) (heard q a);
  step_restart : has_onPeerRestart c = true ->
    restart_events evs = restarts (peerRecoveryTS p) (heard q a);
  step_changes : has_onPeerStateChange c = true -> alternates (is_up q) (state_events evs) (is_up q');
  step_names : cfg_Name p' = cfg_Name p /\ cfg_Addr p' = cfg_Addr p /\ addr p' = addr p;
  step_saved : has_checkpointSink c = true -> cfg_Addr p <> "" ->
    evs = [] /\ p' = p \/ exists t, last (saves evs) = Some (peerCheckpointSnapshotLocked p' t) }.

Lemma parsed_Ok {R} (parse : bytes -> result MessageError R) L build a r :
  MessageParser parse L build -> parsed parse a = Ok r ->
  exists h ies, accepts L h ies = true /\ r = build h ies.
Proof.
  intros HP. unfold parsed. destruct a as [raw|]; [|done].
  destruct (parse (default [] raw)) as [r'|] eqn:E; [|done]. intros [= <-].
  apply parser_spec in E as (h & ies & _ & ? & ->). by exists h, ies.
Qed.

Lemma last_of_has ies t : has ies t = true -> is_Some (last_of ies t).
Proof.
  unfold has, last_of. intros H%bool_decide_eq_true. rewrite last_is_Some. done.
Qed.

(** An accepted answer has the mandatory IEs. *)
Lemma association_IEs a r : parsed ParseAssociationSetupResponse a = Ok r ->
  is_Some (ASResp_NodeID r) /\ is_Some (ASResp_Cause r) /\ is_Some (ASResp_RecoveryTimeStamp r).
Proof.
  intros (h & ies & Ha & ->)%(parsed_Ok _ ASResp_layout ASResp_build); [|apply _].
  unfold accepts in Ha. cbn in Ha.
  repeat (apply andb_true_iff in Ha as [? Ha]). cbn. by repeat split; apply last_of_has.
Qed.
Lemma heartbeat_IE a r : parsed ParseHeartbeatResponse a = Ok r -> is_Some (HBResp_RecoveryTimeStamp r).
Proof.
  intros (h & ies & Ha & ->)%(parsed_Ok _ HBResp_layout HBResp_build); [|apply _].
  unfold accepts in Ha. cbn in Ha. repeat (apply andb_true_iff in Ha as [? Ha]). by apply last_of_has.
Qed.

(** The outcomes of an association: a failed send, an answer that does not count, or
    an accepted one. *)
Lemma associate_cases now a p c :
  (exists e, a = Err e /\ associate now a p c = (Err (SendFailed e), (down now p c).1, (down now p c).2)) \/
  heard Associating a = [] /\ (exists e, associate now a p c = (Err e, p, []) /\ e <> Panics) \/
  exists ip ts, heard Associating a = [ts] /\
    let p' := p <| state := PeerStateEstablished |> <| peerNodeID := ip |>
                <| peerRecoveryTS := ts |> <| lastSeen := now |> in
    associate now a p c = (Ok tt, p',
      emitPeerCheckpoint (peerCheckpointSnapshotLocked p' now) c
      ++ (if isRecoveryRestart (peerRecoveryTS p) ts then notifyPeerRestart p' (peerRecoveryTS p) ts c else [])
      ++ notifyPeerState p' c).
Proof.
  destruct a as [raw|e]; [right|left; exists e; split; [done|]; cbn; by destruct (down now p c)].
  unfold associate, heard. destruct (parsed ParseAssociationSetupResponse (Ok raw)) as [r|e] eqn:E.
  2: { left. split; [done|]. exists e. split; [done|]. intros ->. unfold parsed in E. by case_match. }
  destruct (association_IEs _ _ E) as ([n Hn] & [i Hi] & [t Ht]). unfold cause_accepted.
  cbn [rbind]. rewrite Hi, Ht, Hn. cbn. destruct (CauseValue i) as [v|]; cbn.
  - destruct (Z.eqb_spec v CauseRequestAccepted) as [->|Hne]; cbn.
    + right. exists (NodeIDIPv4 n), (stamp (Some t)). done.
    + left. split; [done|]. eauto.
  - left. split; [done|]. eauto.
Qed.

Lemma saves_emit now p c evs : has_checkpointSink c = true -> cfg_Addr p <> "" ->
  saves (emitPeerCheckpoint (peerCheckpointSnapshotLocked p now) c ++ evs)
  = peerCheckpointSnapshotLocked p now :: saves evs.
Proof.
  intros Hs Ha%String.eqb_neq. unfold emitPeerCheckpoint. rewrite Hs. cbn. by rewrite Ha.
Qed.
Lemma emit_quiet p now c evs :
  restart_events (emitPeerCheckpoint (peerCheckpointSnapshotLocked p now) c ++ evs) = restart_events evs /\
  state_events (emitPeerCheckpoint (peerCheckpointSnapshotLocked p now) c ++ evs) = state_events evs.
Proof. unfold emitPeerCheckpoint. by destruct (_ && _). Qed.
Lemma restart_quiet p o n c evs :
  restart_events (notifyPeerRestart p o n c ++ evs) = when (has_onPeerRestart c) (o, n) ++ restart_events evs /\
  state_events (notifyPeerRestart p o n c ++ evs) = state_events evs /\
  saves (notifyPeerRestart p o n c ++ evs) = saves evs.
Proof. unfold notifyPeerRestart, when. by destruct (has_onPeerRestart c). Qed.
Lemma state_quiet p c :
  restart_events (notifyPeerState p c) = [] /\ saves (notifyPeerState p c) = [] /\
  state_events (notifyPeerState p c) = when (has_onPeerStateChange c) (state p).
Proof. unfold notifyPeerState, when. by destruct (has_onPeerStateChange c). Qed.

(** Peers whose goroutine waits for the next heartbeat are the established ones. *)
Definition in_step (q : phase) (p : peer) : Prop := q = Heartbeating <-> state p = PeerStateEstablished.

Lemma latest_nil old : latest old [] = old.
Proof. done. Qed.
Lemma restarts_one old t : restarts old [t] = if isRecoveryRestart old t then [(old, t)] else [].
Proof. cbn. unfold isRecoveryRestart. by destruct (_ && _). Qed.

Lemma associate_step now1 now2 a c p q' p' evs :
  in_step Associating p -> managePeer now1 now2 a c (Associating, p) = (q', p', evs) ->
  step_ok c Associating p a q' p' evs.
Proof.
  intros Hs H. unfold managePeer in H.
  destruct (associate_cases now1 a p c) as [(e & -> & E)|[[Hh (e & E & _)]|(ip & ts & Hh & E)]];
    rewrite E in H; injection H as <- <- <-; rewrite ?Hh.
  - split; cbn -[emitPeerCheckpoint].
    + split; [done|]. by intros [=].
    + done.
    + intros _. rewrite <- (app_nil_r (emitPeerCheckpoint _ _)). by rewrite (proj1 (emit_quiet _ _ _ _)).
    + intros _. rewrite <- (app_nil_r (emitPeerCheckpoint _ _)). by rewrite (proj2 (emit_quiet _ _ _ _)).
    + done.
    + intros Hc Ha. right. exists now1.
      rewrite <- (app_nil_r (emitPeerCheckpoint _ _)). by rewrite saves_emit.
  - split; try rewrite Hh; try done; intros; by left.
  - cbv zeta. set (p1 := _ <| lastSeen := _ |>) in *.
    destruct (emit_quiet p1 now1 c ((if isRecoveryRestart (peerRecoveryTS p) ts
        then notifyPeerRestart p1 (peerRecoveryTS p) ts c else []) ++ notifyPeerState p1 c)) as [E1 E2].
    destruct (restart_quiet p1 (peerRecoveryTS p) ts c (notifyPeerState p1 c)) as (R1 & R2 & R3).
    destruct (state_quiet p1 c) as (S1 & S2 & S3).
    split; cbn -[emitPeerCheckpoint restarts heard]; rewrite ?Hh.
    + by split.
    + done.
    + intros Hc. rewrite E1, restarts_one. destruct (isRecoveryRestart _ _); [rewrite R1, Hc, S1|]; done.
    + intros Hc. rewrite E2. destruct (isRecoveryRestart _ _); [rewrite R2|cbn [app]]; by rewrite S3, Hc.
    + done.
    + intros Hc Ha. right. exists now1. rewrite saves_emit by done.
      destruct (isRecoveryRestart _ _); [rewrite R3|cbn [app]]; by rewrite S2.
Qed.

Lemma events_app xs ys :
  restart_events (xs ++ ys) = restart_events xs ++ restart_events ys /\
  state_events (xs ++ ys) = state_events xs ++ state_events ys /\
  saves (xs ++ ys) = saves xs ++ saves ys.
Proof. unfold restart_events, state_events, saves. by rewrite !omap_app. Qed.

(** What taking the peer down adds to the events. *)
Lemma down_events now p c evs :
  let p1 := (down now p c).1 in
  let evs' := evs ++ (down now p c).2 ++ notifyPeerState p1 c in
  state_events evs' = state_events evs ++ when (has_onPeerStateChange c) PeerStateDown /\
  restart_events evs' = restart_events evs /\
  (has_checkpointSink c = true -> cfg_Addr p <> "" ->
   last (saves evs') = Some (peerCheckpointSnapshotLocked p1 now)).
Proof.
  cbn [down fst snd]. set (p1 := p <| state := PeerStateDown |>).
  destruct (emit_quiet p1 now c (notifyPeerState p1 c)) as [E1 E2].
  destruct (state_quiet p1 c) as (S1 & S2 & S3).
  destruct (events_app evs (emitPeerCheckpoint (peerCheckpointSnapshotLocked p1 now) c ++ notifyPeerState p1 c))
    as (-> & -> & ->).
  rewrite E1, E2, S1, S3, app_nil_r. split; [done|]. split; [done|]. intros Hc Ha.
  rewrite saves_emit by done. by rewrite S2, last_snoc.
Qed.

(** The outcomes of a heartbeat. *)
Lemma heartbeat_cases now a p c :
  (heard Heartbeating a = [] /\ exists e, heartbeat now a p c = (Err e, p, [])) \/
  exists ts, heard Heartbeating a = [ts] /\
    let p' := p <| peerRecoveryTS := ts |> <| lastSeen := now |> in
    let saved := emitPeerCheckpoint (peerCheckpointSnapshotLocked p' now) c in
    heartbeat now a p c =
      if isRecoveryRestart (peerRecoveryTS p) ts
      then (Err (PeerRestarted (peerRecoveryTS p) ts), p',
            saved ++ notifyPeerRestart p' (peerRecoveryTS p) ts c)
      else (Ok tt, p', saved).
Proof.
  unfold heartbeat, heard. destruct (parsed ParseHeartbeatResponse a) as [r|e] eqn:E; [right|left; eauto].
  destruct (heartbeat_IE _ _ E) as [i Hi]. rewrite Hi. eexists. split; [done|].
  cbn. by destruct (isRecoveryRestart _ _).
Qed.

Lemma heartbeat_step now1 now2 a c p q' p' evs :
  in_step Heartbeating p -> managePeer now1 now2 a c (Heartbeating, p) = (q', p', evs) ->
  step_ok c Heartbeating p a q' p' evs.
Proof.
  intros Hs H. cbn [managePeer] in H. unfold heartbeatLoop_tick in H.
  destruct (heartbeat_cases now1 a p c) as [[Hh (e & E)]|(ts & Hh & E)]; rewrite E in H.
  - pose proof (down_events now2 p c []) as (D1 & D2 & D3).
    destruct (down now2 p c) as [p1 sv] eqn:Ed. injection H as <- <- <-.
    unfold down in Ed. injection Ed as <- <-. cbn [app fst snd] in *.
    split; rewrite ?Hh.
    + split; [done|]. by intros [=].
    + done.
    + intros _. by rewrite D2.
    + intros Hc. by rewrite D1, Hc.
    + done.
    + intros Hc Ha. right. exists now2. by apply D3.
  - cbv zeta in E. set (p1 := p <| peerRecoveryTS := ts |> <| lastSeen := now1 |>) in *.
    set (sv := emitPeerCheckpoint (peerCheckpointSnapshotLocked p1 now1) c) in *.
    destruct (emit_quiet p1 now1 c []) as [E1 E2]. rewrite app_nil_r in E1, E2. fold sv in E1, E2.
    destruct (isRecoveryRestart (peerRecoveryTS p) ts) eqn:Er.
    + pose proof (down_events now2 p1 c (sv ++ notifyPeerRestart p1 (peerRecoveryTS p) ts c)) as (D1 & D2 & D3).
      destruct (emit_quiet p1 now1 c (notifyPeerRestart p1 (peerRecoveryTS p) ts c)) as [F1 F2].
      destruct (restart_quiet p1 (peerRecoveryTS p) ts c []) as (R1 & R2 & _).
      rewrite !app_nil_r in R1, R2. fold sv in F1, F2.
      destruct (down now2 p1 c) as [p2 sv2] eqn:Ed. injection H as <- <- <-.
      unfold down in Ed. injection Ed as <- <-. cbn [fst snd] in *. split; rewrite ?Hh.
      * split; [done|]. by intros [=].
      * done.
      * intros Hc. rewrite restarts_one, Er, D2, F1, R1, Hc. done.
      * intros Hc. rewrite D1, F2, R2, Hc. done.
      * done.
      * intros Hc Ha. right. exists now2. by apply D3.
    + injection H as <- <- <-. split; rewrite ?Hh.
      * split; [|done]. intros _. by apply Hs.
      * done.
      * intros _. by rewrite restarts_one, Er, E1.
      * intros _. by rewrite E2.
      * done.
      * intros Hc Ha. right. exists now1. unfold sv. rewrite <- (app_nil_r (emitPeerCheckpoint _ _)).
        by rewrite saves_emit.
Qed.

Lemma manage_trace c inputs : forall q p q' p' evs,
  in_step q p -> manage c inputs (q, p) = (q', p', evs) ->
  let reports := all_heard c inputs (q, p) in
  in_step q' p' /\ peerRecoveryTS p' = latest (peerRecoveryTS p) reports /\
  (has_onPeerRestart c = true -> restart_events evs = restarts (peerRecoveryTS p) reports) /\
  (has_onPeerStateChange c = true -> alternates (is_up q) (state_events evs) (is_up q')) /\
  (has_checkpointSink c = true -> cfg_Addr p <> "" ->
     saves evs = [] /\ p' = p \/ exists t, last (saves evs) = Some (peerCheckpointSnapshotLocked p' t)).
Proof.
  induction inputs as [|[[now1 now2] a] inputs IH]; intros q p q' p' evs Hs H; cbn [manage all_heard] in *.
  { injection H as <- <- <-. cbn. split_and!; auto. }
  destruct (managePeer now1 now2 a c (q, p)) as [[q1 p1] evs1] eqn:E1.
  destruct (manage c inputs (q1, p1)) as [[q2 p2] evs2] eqn:E2. injection H as <- <- <-.
  assert (Hst : step_ok c q p a q1 p1 evs1)
    by (destruct q; eauto using associate_step, heartbeat_step).
  destruct Hst as [H1 H2 H3 H4 (H5 & H5' & _) H6].
  destruct (IH q1 p1 q2 p2 evs2 H1 E2) as (I1 & I2 & I3 & I4 & I5). cbn [fst].
  rewrite latest_app, <- H2, restarts_app, <- H2.
  destruct (events_app evs1 evs2) as (-> & -> & ->). split; [done|]. split; [done|].
  split; [intros Hc; f_equal; [by apply H3|by apply I3]|].
  split; [intros Hc; by eapply alternates_app; [apply H4|apply I4]|].
  intros Hc Ha. rewrite last_app. rewrite H5' in I5. destruct (I5 Hc Ha) as [[Hn ->]|[t Ht]].
  - rewrite Hn. cbn. destruct (H6 Hc Ha) as [[-> ->]|[t Ht]].
    + by left.
    + right. exists t. done.
  - right. exists t. by rewrite Ht.
Qed.

(** What a choice returns. *)
Definition chosen_from (c : Client) (r : result ClientError peer) : Prop :=
  let n := nextPeer c in
  (r = Err NoPeerEstablished /\ forall p, p ∈ peers c -> peerEstablished p = false) \/
  exists j p, r = Ok p /\ 0 <= j < Z.of_nat (length (peers c)) /\
    nth_peer (peers c) (n + j) = Some p /\ peerEstablished p = true /\
    forall j' p', 0 <= j' < j -> nth_peer (peers c) (n + j') = Some p' -> peerEstablished p' = false.

Lemma SelectPeer_spec c : peers c <> [] -> cursor_ok c -> chosen_from c (SelectPeer c).1.
Proof.
  intros Hne Hc. rewrite SelectPeer_unfold by done. cbn [fst]. unfold chosen_from.
  set (n := nextPeer c). assert (0 <= n) as Hn by apply Hc.
  assert (0 < Z.of_nat (length (peers c))) as Hlen by (destruct (peers c); [done|cbn; lia]).
  assert (0 <= Z.rem n (Z.of_nat (length (peers c)))) as Hst by (apply Z.rem_nonneg; lia).
  pose proof (select_from_spec (peers c) (Z.rem n (Z.of_nat (length (peers c)))) 0 (length (peers c)) Hne ltac:(lia)) as Hsp.
  rewrite !Z.add_0_r in Hsp. destruct (select_from _ _ _ _) as [p|e].
  - destruct Hsp as (j & Hj & H1 & H2 & H3). rewrite nth_peer_rem in H1 by done.
    right. exists j, p. split_and!; [done|lia|lia|done|done|]. intros j' p' Hj' Hp'.
    apply (H3 j' p' Hj'). by rewrite nth_peer_rem.
  - destruct Hsp as [-> H3]. left. split; [done|]. intros p Hp.
    destruct (nth_peer_all (peers c) p n Hp) as (j & Hj & Hpj). apply (H3 j p Hj). by rewrite nth_peer_rem.
Qed.

Lemma SelectPeer_negative c : peers c <> [] -> 2 ^ 63 <= nextPeer c < 2 ^ 64 - 1 ->
  Z.rem (nextPeer c - 2 ^ 64) (Z.of_nat (length (peers c))) <> 0 -> (SelectPeer c).1 = Err Panics.
Proof.
  intros Hne Hn Hr. unfold SelectPeer. destruct (peers c) as [|p ps] eqn:E; [done|]. rewrite <- E in *.
  rewrite (uN_small 64 (nextPeer c + 1)), Z.add_simpl_r, uN_small by (unfold in_u; lia).
  assert (i64 (nextPeer c) = nextPeer c - 2 ^ 64) as ->.
  { unfold i64. replace (nextPeer c + 2 ^ 63) with (nextPeer c - 2 ^ 63 + 1 * 2 ^ 64) by lia.
    rewrite Z.mod_add, Z.mod_small by lia. lia. }
  set (m := nextPeer c - 2 ^ 64) in *. set (len := Z.of_nat (length (peers c))) in *.
  assert (0 < len) by (unfold len; rewrite E; cbn; lia).
  assert (Z.rem m len < 0) by (pose proof (Z.rem_nonpos m len); unfold m in *; lia).
  cbn [fst]. assert (length (peers c) = S (length ps)) as -> by (by rewrite E). cbn [select_from].
  change (Z.of_nat (length (peers c))) with len. rewrite Z.add_0_r, Z.rem_rem by lia.
  by rewrite (proj2 (Z.ltb_lt _ _)) by lia.
Qed.

(** ** Properties *)


(** The choice of an SGW-U for a new session.  The cursor advances by one at each
    choice, and the peer chosen is the first Established one from the cursor on, going
    round; the choice fails only when no configured peer is Established, so established
    peers are used in turn.  The cursor is converted to a signed integer: from 2^63
    choices on, a remainder below zero indexes the slice and the program panics. *)
Lemma SelectPeer_round_robin c :
  peers c <> [] ->
  (cursor_ok c ->
   let n := nextPeer c in
   (SelectPeer c).2 = c <| nextPeer := n + 1 |> /\
   chosen_from c (SelectPeer c).1 /\
   ((forall p, p ∈ peers c -> peerEstablished p = true) ->
    exists p, (SelectPeer c).1 = Ok p /\ nth_peer (peers c) n = Some p)) /\
  (2 ^ 63 <= nextPeer c < 2 ^ 64 - 1 -> Z.rem (nextPeer c - 2 ^ 64) (Z.of_nat (length (peers c))) <> 0 ->
   (SelectPeer c).1 = Err Panics).
Proof.
  intros Hne. split; [|by apply SelectPeer_negative]. intros Hc n.
  pose proof (SelectPeer_spec c Hne Hc) as Hd. split; [by rewrite SelectPeer_unfold|]. split; [done|].
  intros Hall. destruct (nth_peer_some (peers c) n Hne) as [p0 Hp0].
  pose proof (Hall p0 ltac:(unfold nth_peer in Hp0; by eapply list_elem_of_lookup_2)) as H0.
  destruct Hd as [[_ Hno]|(j & p & Hr & Hj & Hp & _ & Hfirst)].
  - unfold nth_peer in Hp0. apply list_elem_of_lookup_2 in Hp0. by rewrite Hno in H0.
  - exists p. split; [done|]. destruct (decide (j = 0)) as [->|]; [by rewrite Z.add_0_r in Hp|].
    rewrite (Hfirst 0 p0) in H0; [done|lia|by rewrite Z.add_0_r].
Qed.

Definition example_peer (k : Z) (st : string) : peer :=
  mkPeer "u" "10.0.0.2:8805" (mkUDPAddr [10; 0; 0; k] 8805) st None 0 zero_time.
Definition example_client (n : Z) (ps : list peer) : Client :=
  mkClient (PfcpTransport.Listen 3) [10; 0; 0; 1] 77 ps (10 * Second) (30 * Second) 0 n
    true true true true.
Definition example_association (ts : Z) : answer :=
  Ok (Some (node_request MsgTypeAssociationSetupResponse 1
    [NewNodeIDIPv4 [10; 0; 0; 2]; NewCause CauseRequestAccepted; NewRecoveryTimeStamp ts])).
Definition example_heartbeat (ts : Z) : answer :=
  Ok (Some (node_request MsgTypeHeartbeatResponse 1 [NewRecoveryTimeStamp ts])).
(** Associated, alive, restarted (which ends the association), associated again. *)
Definition example_inputs : list (time * time * answer) :=
  [(10, 11, example_association 5); (20, 21, example_heartbeat 5);
   (30, 31, example_heartbeat 6); (40, 41, example_association 6)].

