(* ===== verification/S11Pfcp.v ===== *)
(** * The user plane of the default bearer ([internal/sgwc/s11/handler.go], PFCP helpers)

    What the S11 handlers ask of the SGW-U for a new session: two detection rules whose
    TEIDs the SGW-U chooses and two forwarding rules that drop, made before the PDN
    gateway is asked; then the uplink rule is turned to forwarding, when the gateway has
    answered with its tunnel endpoint. *)

From S2P Require Import Prelude GoLib PfcpIe PfcpMessage PfcpClient.
From S2P Require Bearer SessionData Session.
#[local] Open Scope list_scope.
#[local] Open Scope Z_scope.

Record pfcpSessionResult := mkPfcpSessionResult {
  peerName : string; peerAddr : string; cpSEID : Z; upSEID : Z;
  sgwUS1UFTEID : Bearer.FTEID; sgwUS5UFTEID : Bearer.FTEID }.
#[export] Instance eta_pfcpSessionResult : Eta pfcpSessionResult := fun r =>
  mkPfcpSessionResult (peerName r) (peerAddr r) (cpSEID r) (upSEID r) (sgwUS1UFTEID r)
    (sgwUS5UFTEID r).

(** The QoS of the default bearer, when it is known. *)
Definition default_qos (sess : SessionData.SGWSession) : IE :=
  match Session.GetBearer (SessionData.DefaultBearerID sess) sess with
  | Some b => if negb (Bearer.QCI b =? 0)
              then NewVectorCoreQoSMarking (Bearer.EBI b) (Bearer.QCI b) true
              else NewVectorCoreQoSMarking (SessionData.DefaultBearerID sess) 0 false
  | None => NewVectorCoreQoSMarking (SessionData.DefaultBearerID sess) 0 false
  end.

Definition bearer_pdr (id precedence iface far : Z) (qos : IE) : IE :=
  NewCreatePDR [NewPDRID id; NewPrecedence precedence;
                NewPDI [NewSourceInterface iface; NewFTEIDChoose]; NewFARID far; qos].
Definition drop_far (id : Z) : IE := NewCreateFAR [NewFARID id; NewApplyAction ApplyActionDROP].

Definition default_bearer_pdrs (qos : IE) : list IE :=
  [bearer_pdr 1 100 SourceInterfaceAccess 1 qos; bearer_pdr 2 200 SourceInterfaceCore 2 qos].
Definition default_bearer_fars : list IE := [drop_far 1; drop_far 2].

(** The loop over the Created PDR IEs. *)
Definition record_created (out : pfcpSessionResult) (cpdrIE : IE) : pfcpSessionResult :=
  match Children cpdrIE with
  | Err _ => out
  | Ok children =>
      match Find children TypePDRID, Find children TypeFTEID with
      | Some pdrIDIE, Some fteidIE =>
          let pdrID := match PDRIDValue pdrIDIE with Ok v => v | Err _ => 0 end in
          match FTEIDPFCPValue fteidIE with
          | Err _ => out
          | Ok (fteid, _) =>
              let f := Bearer.mkFTEID (FTEID_TEID fteid) (FTEID_IPv4 fteid) in
              if pdrID =? 1 then out <| sgwUS1UFTEID := f |>
              else if pdrID =? 2 then out <| sgwUS5UFTEID := f |>
              else out
          end
      | _, _ => out
      end
  end.

Section Helpers.
Context {W : Type} (send : UDPAddr -> bytes -> W -> answer * W).

Definition establishProvisionalPFCPSession (localIP : Addr) (sess : SessionData.SGWSession)
    (c : Client) (w : W) : result ClientError pfcpSessionResult * Client * W :=
  let '(cp, c) := AllocCPSEID c in
  let '(r, c, w) :=
    EstablishSession send
      (mkSessionParams localIP cp (default_bearer_pdrs (default_qos sess)) default_bearer_fars) c w in
  let r :=
    let? result := r in
    Ok (fold_left record_created (sr_CreatedPDRs result)
          (mkPfcpSessionResult (PeerName result) (PeerAddr result) cp (UPSEID result)
             Bearer.no_FTEID Bearer.no_FTEID)) in
  (r, c, w).

Definition modifyPFCPUplinkFAR (peerAddr : string) (upSEID : Z) (pgwS5UFTEID : Bearer.FTEID)
    (c : Client) (w : W) : result ClientError unit * Client * W :=
  ModifySessionOnPeer send peerAddr upSEID
    [mkFARUpdate 1 1 ApplyActionFORW DestInterfaceCore (Bearer.TEID pgwS5UFTEID)
       (Bearer.IPv4 pgwS5UFTEID) true] c w.

End Helpers.
