(* ===== verification/Sxa.v ===== *)
(** * A session across both planes (the Sxa interface)

    The PFCP client of the SGW-C ([PfcpClient], [S11Pfcp]) run against the PFCP server of
    the SGW-U ([PfcpServer]): [sgwu] is the server as the client's environment, one call
    of its handler per datagram, so that what one side writes is what the other parses.
    The lemmas follow the two transactions that set up the user plane of a default bearer,
    byte by byte; the properties say what both sides and the forwarder make of them, and
    what remains of it when the SGW-C restarts. *)

From S2P Require Import Prelude GoLib PfcpIe PfcpMessage SgwuStore PfcpServer PfcpServerRules PfcpServerSpec.
From S2P Require Bearer SessionData Session Gtpu Forwarder PfcpTransport PfcpClient S11Pfcp.
#[local] Existing Instance PfcpClient.eta_Client.
#[local] Existing Instance S11Pfcp.eta_pfcpSessionResult.
#[local] Existing Instance Forwarder.eta_Counters.
#[local] Open Scope list_scope.
#[local] Open Scope Z_scope.

(** ** An SGW-U at the other end *)

Definition replies (out : list effect) : list bytes :=
  omap (fun f => match f with Reply _ raw => Some raw | _ => None end) out.

(** A request that arrives from [src]: the handler's reply is the answer; without one
    the sender's timers expire. *)
Definition sgwu (e : env) (src dst : UDPAddr) (raw : bytes) (s : Server)
    : PfcpClient.answer * Server :=
  let silent := Err (PfcpTransport.SendNoResponse 0 0) in
  match ParseHeader raw with
  | Err _ => (silent, s)
  | Ok (h, _) =>
      match handle e src h raw s with
      | Err _ => (silent, s)
      | Ok (out, s') => (match replies out with r :: _ => Ok (Some r) | [] => silent end, s')
      end
  end.

Lemma replies_quiet pre addr raw : quiet pre -> replies (pre ++ [Reply addr raw]) = [raw].
Proof.
  intros Hq. induction pre as [|f pre IH]; [done|].
  apply Forall_cons in Hq as [Hf Hq]. specialize (IH Hq). by destruct f.
Qed.

Lemma AllocSeq_range c : in_u 24 (PfcpClient.AllocSeq c).1.
Proof.
  unfold PfcpClient.AllocSeq, PfcpTransport.AllocSeq. cbn.
  change 0xFFFFFF with (Z.ones 24). rewrite Z.land_ones by lia. by apply Z.mod_pos_bound.
Qed.

Definition session_header (typ seid : Z) (c : PfcpClient.Client) : Header :=
  mkHeader 1 true typ 0 seid (PfcpClient.AllocSeq c).1.

(** What the client makes of an answer. *)
Definition verdict {R} (parse : bytes -> result MessageError R) (cause_of : R -> option IE)
    (resp : bytes) : result PfcpClient.ClientError R :=
  let? r := PfcpClient.parsed parse (Ok (Some resp)) in
  let? cause := PfcpClient.value_of CauseValue (cause_of r) in
  let? _ := guard (cause =? CauseRequestAccepted) (PfcpClient.Rejected cause) in
  Ok r.

Lemma verdict_accepted {R} (parse : bytes -> result MessageError R) cause_of resp r :
  parse resp = Ok r -> cause_of r = Some (NewCause CauseRequestAccepted) ->
  verdict parse cause_of resp = Ok r.
Proof. intros Hp Hc. unfold verdict. cbn. rewrite Hp. cbn. by rewrite Hc. Qed.
Lemma verdict_refused {R} (parse : bytes -> result MessageError R) cause_of resp r :
  parse resp = Ok r -> cause_of r = Some (NewCause CauseRequestRejected) ->
  verdict parse cause_of resp = Err (PfcpClient.Rejected CauseRequestRejected).
Proof. intros Hp Hc. unfold verdict. cbn. rewrite Hp. cbn. by rewrite Hc. Qed.

(** A transaction the SGW-U answers. *)
Lemma transaction_answered {R} e src p typ seid ies (parse : bytes -> result MessageError R)
    (cause_of : R -> option IE) c s pre resp s' :
  let h := session_header typ seid c in
  is_byte typ -> in_u 64 seid -> Forall IE_wf ies -> fits h ies -> quiet pre ->
  handle e src (with_length h ies) (Marshal h ies) s = Ok (pre ++ [Reply src resp], s') ->
  PfcpClient.transaction (sgwu e src) p typ seid ies parse cause_of c s
  = (verdict parse cause_of resp, (PfcpClient.AllocSeq c).2, s').
Proof.
  intros h Ht Hs Hi Hf Hq Hh. unfold PfcpClient.transaction.
  destruct (PfcpClient.AllocSeq c) as [seq c'] eqn:E.
  assert (h = mkHeader 1 true typ 0 seid seq) as Eh by (unfold h, session_header; by rewrite E).
  unfold PfcpClient.session_request. rewrite <- Eh.
  assert (Header_wf h) as Hw.
  { rewrite Eh. split; [done|]. split; [done|]. split; [|done].
    cbn. pose proof (AllocSeq_range c). by rewrite E in H. }
  assert (exists body, ParseHeader (Marshal h ies) = Ok (with_length h ies, body)) as [body Hb].
  { pose proof (Parse_marshalled_message h ies Hw Hi Hf) as H. unfold Parse in H.
    destruct (ParseHeader (Marshal h ies)) as [[h' b]|]; [|done]. cbn in H.
    destruct (ParseIEs b); [|done]. injection H as -> _. by eexists. }
  unfold sgwu. by rewrite Hb, Hh, replies_quiet by done.
Qed.

(** One that it accepts. *)
Lemma transaction_accepted {R} e src p typ seid ies (parse : bytes -> result MessageError R)
    (cause_of : R -> option IE) c s pre resp s' r :
  let h := session_header typ seid c in
  is_byte typ -> in_u 64 seid -> Forall IE_wf ies -> fits h ies -> quiet pre ->
  handle e src (with_length h ies) (Marshal h ies) s = Ok (pre ++ [Reply src resp], s') ->
  parse resp = Ok r -> cause_of r = Some (NewCause CauseRequestAccepted) ->
  PfcpClient.transaction (sgwu e src) p typ seid ies parse cause_of c s
  = (Ok r, (PfcpClient.AllocSeq c).2, s').
Proof.
  intros h Ht Hs Hi Hf Hq Hh Hp Hc.
  rewrite (transaction_answered e src p typ seid ies parse cause_of c s pre resp s') by done.
  by rewrite (verdict_accepted _ _ _ r).
Qed.

(** ** The requests of the default bearer on the wire *)

Lemma IE_wf_grouped t ies :
  in_u 16 t -> Forall IE_wf ies -> Z.of_nat (length (flat_map IE_Marshal ies)) < 2 ^ 16 ->
  IE_wf (newGrouped t ies).
Proof.
  intros Ht Hi Hl. split; [done|]. split; [|unfold in_u; cbn; lia]. cbn.
  apply Forall_flat_map, (Forall_impl _ _ _ Hi). intros i (_ & Hv & _). unfold IE_Marshal.
  repeat (apply bytes_ok_app; split); [apply be_bytes_ok..|done].
Qed.

Definition qos_ie (q : Z * Z * bool) : IE := NewVectorCoreQoSMarking q.1.1 q.1.2 q.2.
Lemma qos_ie_wf q : QoS_valid q -> IE_wf (qos_ie q).
Proof. intros H. destruct (codec_encodes (IECodec := QoSMarking_codec) q H) as (i & [= <-] & ? & _). done. Qed.

Lemma bearer_pdr_children id prec iface far q :
  QoS_valid q -> in_u 16 id -> in_u 32 prec -> in_u 4 iface -> in_u 32 far ->
  let children := [NewPDRID id; NewPrecedence prec;
    NewPDI [NewSourceInterface iface; NewFTEIDChoose]; NewFARID far; qos_ie q] in
  Forall IE_wf children /\ Children (S11Pfcp.bearer_pdr id prec iface far (qos_ie q)) = Ok children.
Proof.
  intros Hq Hid Hp Hi Hf children.
  assert (Hsi : IE_wf (NewSourceInterface iface)).
  { destruct (codec_encodes (IECodec := SourceInterface_codec) iface Hi) as (i & [= <-] & ? & _). done. }
  assert (Forall IE_wf children) as Hw.
  { apply Forall_cons; split; [codec_wf|]. apply Forall_cons; split; [codec_wf|].
    apply Forall_cons; split.
    { apply IE_wf_grouped; [by_compute| |by vm_compute].
      apply Forall_cons; split; [done|]. apply Forall_singleton. by_compute. }
    apply Forall_cons; split; [codec_wf|]. by apply Forall_singleton, qos_ie_wf. }
  split; [done|]. by apply Children_newGrouped.
Qed.

Definition request_ies (ip : bytes) (fseid : IE) (q : Z * Z * bool) : list IE :=
  NewNodeIDIPv4 ip :: fseid :: S11Pfcp.default_bearer_pdrs (qos_ie q) ++ S11Pfcp.default_bearer_fars.

Lemma NodeID_wf ip : length ip = 4%nat -> bytes_ok ip -> IE_wf (NewNodeIDIPv4 ip).
Proof.
  intros Hl Hb. destruct ip as [|a [|b [|x [|d [|]]]]]; try done.
  apply bytes_ok_cons in Hb as [? Hb]. apply bytes_ok_cons in Hb as [? Hb].
  apply bytes_ok_cons in Hb as [? Hb]. apply bytes_ok_cons in Hb as [? Hb].
  split; [by_compute|]. split; [|by vm_compute]. cbn. repeat (apply Forall_cons; split; [done || by_compute|]). done.
Qed.

Lemma bearer_pdr_wf id prec iface far q :
  QoS_valid q -> in_u 16 id -> in_u 32 prec -> in_u 4 iface -> in_u 32 far ->
  IE_wf (S11Pfcp.bearer_pdr id prec iface far (qos_ie q)).
Proof.
  intros Hq Hid Hp Hi Hf. destruct (bearer_pdr_children id prec iface far q) as [Hw _]; [done..|].
  apply IE_wf_grouped; [by_compute|done|]. destruct q as [[? ?] ?]. by vm_compute.
Qed.

Lemma FSEID_wf cp v i : in_u 64 cp -> in_u 32 v -> NewFSEID cp (AddrV4 v) = Some i ->
  IE_wf i /\ IE_Type i = TypeFSEID /\ length (IE_Value i) = 13%nat /\ FSEIDValue i = Ok (mkFSEID cp (AddrV4 v)).
Proof.
  intros Hc Hv Hi. destruct (codec_encodes (IECodec := FSEID_codec) (mkFSEID cp (AddrV4 v))) as (j & Hj & ? & ? & ?).
  { split; [done|]. by exists v. }
  change (NewFSEID cp (AddrV4 v) = Some j) in Hj. assert (j = i) as -> by congruence. split_and!; try done. by injection Hi as <-.
Qed.

Lemma request_wf h ip fseid q :
  HasSEID h = true -> length ip = 4%nat -> bytes_ok ip -> IE_wf fseid -> length (IE_Value fseid) = 13%nat ->
  QoS_valid q -> Forall IE_wf (request_ies ip fseid q) /\ fits h (request_ies ip fseid q).
Proof.
  intros Hh Hl Hb Hf Hfl Hq. split.
  - apply Forall_cons; split; [by apply NodeID_wf|]. apply Forall_cons; split; [done|].
    repeat (apply Forall_cons; split; [by apply bearer_pdr_wf; by_compute || done|]).
    by_compute.
  - unfold fits, message_length, header_len. rewrite Hh. unfold request_ies. cbn [flat_map].
    rewrite !length_app, !length_IE_Marshal, Hfl.
    assert (length (IE_Value (NewNodeIDIPv4 ip)) = 5%nat) as ->
      by (by destruct ip as [|? [|? [|? [|? [|]]]]]).
    destruct q as [[? ?] ?]. by vm_compute.
Qed.

Lemma request_parsed h ip fseid q :
  Header_wf h -> HasSEID h = true -> MessageType h = MsgTypeSessionEstablishmentRequest -> SEID h = 0 ->
  length ip = 4%nat -> bytes_ok ip -> IE_wf fseid -> IE_Type fseid = TypeFSEID ->
  length (IE_Value fseid) = 13%nat -> QoS_valid q ->
  let ies := request_ies ip fseid q in
  ParseSessionEstablishmentRequest (Marshal h ies)
  = Ok (mkSEReq (with_length h ies) (Some (NewNodeIDIPv4 ip)) (Some fseid)
          (S11Pfcp.default_bearer_pdrs (qos_ie q)) S11Pfcp.default_bearer_fars).
Proof.
  intros Hw Hh Ht Hs Hl Hb Hf Hft Hfl Hq ies.
  destruct (request_wf h ip fseid q) as [Hi Hfit]; [done..|].
  apply (parser_spec (L := SEReq_layout) (build := SEReq_build)).
  exists (with_length h ies), ies. split; [by apply Parse_marshalled_message|].
  destruct fseid as [ft fv]. cbn in Hft. subst ft.
  destruct h as [v hs t len seid seq]. cbn in Hh, Ht, Hs. subst hs t seid. by split.
Qed.

(** ** What the SGW-U makes of it *)

Definition bearer_rule (id prec iface far t : Z) (ip : Addr) (q : Z * Z * bool) : PDR :=
  mkPDR id prec iface t ip far q.1.1 q.1.2 q.2.
Definition created_pdr (id : Z) (fteid : IE) : IE := NewCreatedPDR [NewPDRID id; fteid].

Lemma with_qos_marking children q pdr :
  QoS_valid q -> Find children TypeVectorCoreQoSMarking = Some (qos_ie q) ->
  with_qos children pdr = Ok (pdr <| pd_EBI := q.1.1 |> <| pd_QCI := q.1.2 |> <| pd_QoSValid := q.2 |>).
Proof.
  intros Hq Hf. destruct (codec_encodes (IECodec := QoSMarking_codec) q Hq) as (i & Hi & _ & _ & Hv).
  injection Hi as <-. unfold with_qos. rewrite Hf. unfold qos_ie. rewrite Hv. by destruct q as [[? ?] ?].
Qed.

Lemma with_precedence_value prec pdr : in_u 32 prec ->
  with_precedence (Some (NewPrecedence prec)) pdr = pdr <| Precedence := prec |>.
Proof.
  intros H. unfold with_precedence. cbn -[field].
  change (field 0 4 (NewPrecedence prec)) with (be_val (be_bytes 4 prec)).
  rewrite be_val_be_bytes_small by done. by rewrite bool_decide_true by done.
Qed.

Lemma choose_pdi iface : in_u 4 iface ->
  Children (NewPDI [NewSourceInterface iface; NewFTEIDChoose]) = Ok [NewSourceInterface iface; NewFTEIDChoose] /\
  SourceInterfaceValue (NewSourceInterface iface) = Ok iface.
Proof.
  intros Hi. destruct (codec_encodes (IECodec := SourceInterface_codec) iface Hi) as (i & Hn & Hw & _ & Hv).
  injection Hn as <-. split; [|done]. apply Children_newGrouped.
  apply Forall_cons; split; [done|]. apply Forall_singleton. by_compute.
Qed.

Section Built.
Context (e : env) (s : Server) (q : Z * Z * bool) (Hq : QoS_valid q).
Context (id prec iface far : Z) (Hid : in_u 16 id) (Hprec : in_u 32 prec) (Hif : in_u 4 iface)
  (Hfar : in_u 32 far).

Lemma bearer_pdr_valid : validate_pdr (S11Pfcp.bearer_pdr id prec iface far (qos_ie q)) = Ok tt.
Proof using Hq Hid Hprec Hif Hfar.
  unfold validate_pdr. destruct (bearer_pdr_children id prec iface far q) as [_ ->]; [done..|].
  cbn -[Children]. by rewrite (proj1 (choose_pdi iface Hif)).
Qed.

Lemma bearer_pdr_built k t ip fteid :
  alloc_teid e k s = Ok t -> localGTPUIPForSource iface s = Some ip -> NewFTEIDv4 t ip = Some fteid ->
  build_pdr e s k (S11Pfcp.bearer_pdr id prec iface far (qos_ie q))
  = Ok (bearer_rule id prec iface far t ip q, [created_pdr id fteid]).
Proof using Hq Hid Hprec Hif Hfar.
  intros Ht Hip Hf. unfold build_pdr.
  destruct (bearer_pdr_children id prec iface far q) as [_ ->]; [done..|].
  destruct (choose_pdi iface Hif) as [Hc Hv].
  destruct (codec_encodes (IECodec := PDRID_codec) id Hid) as (i1 & Hn1 & _ & _ & Hv1). injection Hn1 as <-.
  destruct (codec_encodes (IECodec := FARID_codec) far Hfar) as (i2 & Hn2 & _ & _ & Hv2). injection Hn2 as <-.
  cbn -[Children with_qos with_precedence PDRIDValue FARIDValue SourceInterfaceValue FTEIDPFCPValue chosen].
  rewrite Hc. cbn -[with_qos with_precedence PDRIDValue FARIDValue SourceInterfaceValue FTEIDPFCPValue chosen].
  rewrite Hv, Hv1, Hv2, (with_qos_marking _ q) by done.
  change (FTEIDPFCPValue NewFTEIDChoose) with (Ok (mkFTEIDPFCP 0 AddrZero, true) : result IEError _).
  cbn -[with_precedence chosen]. rewrite with_precedence_value by done. unfold chosen.
  rewrite Ht. cbn. unfold newCreatedPDRForSource. cbn. by rewrite Hip, Hf.
Qed.
End Built.

(** Two rules with chosen TEIDs and two that drop. *)
Definition default_session (cp up t1 t2 : Z) (src : UDPAddr) (s : Server) (q : Z * Z * bool) : Session :=
  mkSession cp up (sourceKey src)
    [bearer_rule 1 100 SourceInterfaceAccess 1 t1 (accessIP s) q;
     bearer_rule 2 200 SourceInterfaceCore 2 t2 (coreIP s) q]
    [mkFAR 1 ApplyActionDROP 0 0 AddrZero DropReasonNone;
     mkFAR 2 ApplyActionDROP 0 0 AddrZero DropReasonNone].

Lemma default_session_built e src s cp up req q t1 t2 f1 f2 :
  SEReq_CreatePDRs req = S11Pfcp.default_bearer_pdrs (qos_ie q) ->
  SEReq_CreateFARs req = S11Pfcp.default_bearer_fars -> QoS_valid q ->
  alloc_teid e 0 s = Ok t1 -> alloc_teid e 1 s = Ok t2 ->
  NewFTEIDv4 t1 (accessIP s) = Some f1 -> NewFTEIDv4 t2 (coreIP s) = Some f2 ->
  build_session e src s cp up req
  = Ok (default_session cp up t1 t2 src s q, [created_pdr 1 f1; created_pdr 2 f2]).
Proof.
  intros Hp Hf Hq Ht1 Ht2 Hf1 Hf2. unfold build_session. rewrite Hp, Hf.
  cbn [for_each S11Pfcp.default_bearer_pdrs]. rewrite !bearer_pdr_valid by (done || by_compute).
  cbn -[build_pdr]. rewrite (bearer_pdr_built e s q Hq 1 100 SourceInterfaceAccess 1 ltac:(by_compute)
    ltac:(by_compute) ltac:(by_compute) ltac:(by_compute) 0 t1 (accessIP s) f1) by done.
  cbn -[build_pdr]. rewrite (bearer_pdr_built e s q Hq 2 200 SourceInterfaceCore 2 ltac:(by_compute)
    ltac:(by_compute) ltac:(by_compute) ltac:(by_compute) 1 t2 (coreIP s) f2) by done.
  done.
Qed.

(** ** Establishment *)

(** An SGW-U that knows the peer, has addresses and free identifiers, and whose
    dataplane takes the rules. *)
Record sgwu_ready (e : env) (src : UDPAddr) (s : Server) (t1 t2 : Z) : Prop := mkSgwuReady {
  sr_ok : server_ok s;
  sr_env : env_ok e s;
  sr_allowed : isAllowed (ua_IP src) s = true;
  sr_assoc : hasAssociation src s = true;
  sr_node : length (localNodeID s) = 4%nat /\ bytes_ok (localNodeID s);
  sr_ips : v4_valid (localIP s) /\ v4_valid (accessIP s) /\ v4_valid (coreIP s);
  sr_install : has_bpfInstall s = true -> e_install_ok e = true;
  sr_teid1 : alloc_teid e 0 s = Ok t1;
  sr_teid2 : alloc_teid e 1 s = Ok t2;
  sr_range : in_u 32 t1 /\ in_u 32 t2 }.

Lemma alloc_teid_counter e k s n :
  alloc_teid e k (s <| sessions := (sessions s) <| seidCounter := n |> |>) = alloc_teid e k s.
Proof.
  unfold alloc_teid. change (sessions (s <| sessions := ?x |>)) with x. by rewrite AllocTEID_counter.
Qed.

Lemma NewFTEIDv4_valid t a : in_u 32 t -> v4_valid a -> exists i, NewFTEIDv4 t a = Some i /\
  IE_wf i /\ IE_Type i = TypeFTEID /\ length (IE_Value i) = 9%nat /\
  FTEIDPFCPValue i = Ok (mkFTEIDPFCP t a, false).
Proof.
  intros Ht (v & -> & Hv).
  destruct (codec_encodes (IECodec := FTEID_codec) (mkFTEIDPFCP t (AddrV4 v), false)) as (i & Hi & Hw & Hty & Hval).
  { split; [done|]. by exists v. }
  change (NewFTEIDv4 t (AddrV4 v) = Some i) in Hi. exists i. split_and!; try done.
  by injection Hi as <-.
Qed.

Definition established (e : env) (sess : Session) (s : Server) : Server :=
  s <| sessions := (Create (e_session e) sess (AllocSEID (sessions s)).2).2 |>.

Definition response_ies (s : Server) (upF f1 f2 : IE) : list IE :=
  [NewNodeIDIPv4 (localNodeID s); NewCause CauseRequestAccepted; upF; created_pdr 1 f1; created_pdr 2 f2].

(** What the server reads in the request, up to the point where it stores the session. *)
Section Handled.
Context (e : env) (src : UDPAddr) (s : Server) (cp t1 t2 : Z) (h : Header) (ip : bytes) (fseid : IE)
  (q : Z * Z * bool) (f1 f2 upF : IE) (v : Z).
Context (R : sgwu_ready e src s t1 t2)
  (Hw : Header_wf h) (Hh : HasSEID h = true) (Ht : MessageType h = MsgTypeSessionEstablishmentRequest)
  (Hs : SEID h = 0) (Hl : length ip = 4%nat) (Hb : bytes_ok ip) (Hcp : in_u 64 cp) (Hv : in_u 32 v)
  (Hfs : NewFSEID cp (AddrV4 v) = Some fseid) (Hq : QoS_valid q)
  (Hf1 : NewFTEIDv4 t1 (accessIP s) = Some f1) (Hf2 : NewFTEIDv4 t2 (coreIP s) = Some f2).

Let up : Z := seidCounter (sessions s) + 1.
Let ies : list IE := request_ies ip fseid q.
Let sess : Session := default_session cp up t1 t2 src s q.
Let numbered : Server := s <| sessions := (sessions s) <| seidCounter := up |> |>.

Lemma AllocSEID_next : AllocSEID (sessions s) = (up, (sessions s) <| seidCounter := up |>).
Proof using R.
  clear - R. pose proof (eo_seid _ _ (sr_env _ _ _ _ _ R)).
  destruct (so_store _ (sr_ok _ _ _ _ _ R)) as [P HP].
  pose proof (wf_counter _ _ HP). unfold AllocSEID. rewrite uN_small by (unfold in_u; lia). done.
Qed.

Lemma establishment_read :
  handle e src (with_length h ies) (Marshal h ies) s
  = match Create (e_session e) sess (sessions numbered) with
    | (Some _, _) => Ok ([replySessionEstRejection src h numbered], numbered)
    | (None, st) =>
        let s := numbered <| sessions := st |> in
        if has_bpfInstall s && negb (e_install_ok e) then
          Ok ([InstallSession sess; replySessionEstRuleFailure src h s],
              s <| sessions := DeleteByCPSEID cp (sessions s) |>)
        else
          match NewFSEID up (localIP s) with
          | None => Err Panic
          | Some upFSEID =>
              Ok ((if has_bpfInstall s then [InstallSession sess] else []) ++ trackSessionPathPeers sess s
                  ++ [Reply src (session_response MsgTypeSessionEstablishmentResponse cp (SequenceNumber h)
                        (response_ies s upFSEID f1 f2))], s)
          end
    end.
Proof using R Hw Hh Ht Hs Hl Hb Hcp Hv Hfs Hq Hf1 Hf2.
  destruct (FSEID_wf cp v fseid Hcp Hv Hfs) as (Hwf & Hft & Hfl & Hval).
  unfold handle. rewrite (sr_allowed _ _ _ _ _ R). cbn [negb].
  change (MessageType (with_length h ies)) with (MessageType h). rewrite Ht.
  change (MsgTypeSessionEstablishmentRequest =? MsgTypeAssociationSetupRequest) with false.
  change (MsgTypeSessionEstablishmentRequest =? MsgTypeHeartbeatRequest) with false.
  change (MsgTypeSessionEstablishmentRequest =? MsgTypeSessionEstablishmentRequest) with true. cbv iota.
  unfold handleSessionEstablishment. rewrite (sr_assoc _ _ _ _ _ R). cbn [negb].
  unfold ies. rewrite request_parsed by done. fold ies. cbn [SEReq_CPSEID]. rewrite Hval, AllocSEID_next.
  fold numbered. rewrite (default_session_built e src numbered _ _ _ q t1 t2 f1 f2);
    [reflexivity|done|done|done| | |done|done]; unfold numbered; rewrite alloc_teid_counter;
    [apply (sr_teid1 _ _ _ _ _ R)|apply (sr_teid2 _ _ _ _ _ R)].
Qed.

Lemma establishment_handled :
  byCPSEID (sessions s) !! cp = None -> NewFSEID up (localIP s) = Some upF ->
  exists pre, quiet pre /\
    handle e src (with_length h ies) (Marshal h ies) s
    = Ok (pre ++ [Reply src (session_response MsgTypeSessionEstablishmentResponse cp
                    (SequenceNumber h) (response_ies s upF f1 f2))], established e sess s).
Proof using R Hw Hh Ht Hs Hl Hb Hcp Hv Hfs Hq Hf1 Hf2.
  intros Hfree Hup. rewrite establishment_read. unfold established. rewrite AllocSEID_next.
  unfold Create. change (byCPSEID (sessions numbered) !! SgwuStore.CPSEID sess) with (byCPSEID (sessions s) !! cp).
  change (byCPSEID _ !! SgwuStore.CPSEID sess) with (byCPSEID (sessions s) !! cp). rewrite Hfree.
  cbv zeta. change (has_bpfInstall (numbered <| sessions := ?x |>)) with (has_bpfInstall s).
  change (localIP (numbered <| sessions := ?x |>)) with (localIP s). rewrite Hup.
  assert (has_bpfInstall s && negb (e_install_ok e) = false) as ->.
  { destruct (has_bpfInstall s) eqn:E; [|done]. by rewrite (sr_install _ _ _ _ _ R E). }
  eexists. split; [|by rewrite app_assoc].
  apply quiet_app; [|apply quiet_path_peers]. destruct (has_bpfInstall s); [apply quiet_install|apply quiet_nil].
Qed.

(** A CP-SEID that a session already has is refused. *)
Lemma establishment_refused l :
  byCPSEID (sessions s) !! cp = Some l ->
  handle e src (with_length h ies) (Marshal h ies) s
  = Ok ([] ++ [Reply src (session_est_refusal CauseRequestRejected h s)], numbered).
Proof using R Hw Hh Ht Hs Hl Hb Hcp Hv Hfs Hq Hf1 Hf2.
  intros Hused. rewrite establishment_read. unfold Create.
  change (byCPSEID (sessions numbered) !! SgwuStore.CPSEID sess) with (byCPSEID (sessions s) !! cp).
  by rewrite Hused.
Qed.
End Handled.

(** ** The answer, as the client reads it *)

Lemma created_pdr_wf id t a f : in_u 16 id -> in_u 32 t -> v4_valid a -> NewFTEIDv4 t a = Some f ->
  IE_wf (created_pdr id f) /\ length (IE_Value (created_pdr id f)) = 19%nat /\
  forall out, S11Pfcp.record_created out (created_pdr id f)
    = (if id =? 1 then out <| S11Pfcp.sgwUS1UFTEID := Bearer.mkFTEID t a |>
       else if id =? 2 then out <| S11Pfcp.sgwUS5UFTEID := Bearer.mkFTEID t a |> else out).
Proof.
  intros Hid Ht Ha Hf. destruct (NewFTEIDv4_valid t a Ht Ha) as (i & Hi & Hw & Hty & Hl & Hv).
  assert (i = f) as -> by congruence.
  destruct (codec_encodes (IECodec := PDRID_codec) id Hid) as (j & Hj & Hjw & _ & Hjv). injection Hj as <-.
  assert (Forall IE_wf [NewPDRID id; f]) as Hch by (apply Forall_cons; split; [done|by apply Forall_singleton]).
  split.
  { apply IE_wf_grouped; [by_compute|done|]. cbn [flat_map]. rewrite !length_app, !length_IE_Marshal, Hl. by vm_compute. }
  split; [cbn [created_pdr NewCreatedPDR newGrouped IE_Value flat_map]; rewrite !length_app, !length_IE_Marshal, Hl; done|].
  intros out. unfold S11Pfcp.record_created, created_pdr.
  rewrite (Children_newGrouped TypeCreatedPDR _ Hch : Children (NewCreatedPDR _) = _).
  destruct f as [ft fv]. cbn in Hty. subst ft. cbn -[PDRIDValue FTEIDPFCPValue]. by rewrite Hjv, Hv.
Qed.

Lemma response_parsed s cp seq upF t1 t2 f1 f2 :
  in_u 64 cp -> in_u 24 seq -> length (localNodeID s) = 4%nat -> bytes_ok (localNodeID s) ->
  IE_wf upF -> IE_Type upF = TypeFSEID -> length (IE_Value upF) = 13%nat ->
  in_u 32 t1 -> in_u 32 t2 -> v4_valid (accessIP s) -> v4_valid (coreIP s) ->
  NewFTEIDv4 t1 (accessIP s) = Some f1 -> NewFTEIDv4 t2 (coreIP s) = Some f2 ->
  exists h, ParseSessionEstablishmentResponse
      (session_response MsgTypeSessionEstablishmentResponse cp seq (response_ies s upF f1 f2))
    = Ok (mkSEResp h (Some (NewNodeIDIPv4 (localNodeID s))) (Some (NewCause CauseRequestAccepted))
            (Some upF) [created_pdr 1 f1; created_pdr 2 f2]).
Proof.
  intros Hcp Hseq Hl Hb Hw Hty Hul Ht1 Ht2 Ha1 Ha2 Hf1 Hf2.
  destruct (created_pdr_wf 1 t1 _ f1 ltac:(by_compute) Ht1 Ha1 Hf1) as (Hw1 & Hl1 & _).
  destruct (created_pdr_wf 2 t2 _ f2 ltac:(by_compute) Ht2 Ha2 Hf2) as (Hw2 & Hl2 & _).
  set (h := mkHeader 1 true MsgTypeSessionEstablishmentResponse 0 cp seq).
  exists (with_length h (response_ies s upF f1 f2)).
  apply (parser_spec (L := SEResp_layout) (build := SEResp_build)).
  exists (with_length h (response_ies s upF f1 f2)), (response_ies s upF f1 f2).
  split; [|destruct upF as [ut uv]; cbn in Hty; subst ut; by split].
  apply Parse_marshalled_message.
  - split; [done|]. split; [by_compute|]. by split.
  - apply Forall_cons; split; [by apply NodeID_wf|]. apply Forall_cons; split; [by_compute|].
    apply Forall_cons; split; [done|]. apply Forall_cons; split; [done|]. by apply Forall_singleton.
  - unfold fits, message_length, header_len, response_ies. cbn [HasSEID h flat_map].
    rewrite !length_app, !length_IE_Marshal, Hul, Hl1, Hl2.
    assert (length (IE_Value (NewNodeIDIPv4 (localNodeID s))) = 5%nat) as ->
      by (by destruct (localNodeID s) as [|? [|? [|? [|? [|]]]]]).
    by vm_compute.
Qed.

(** A refusal carries the Node ID and the cause. *)
Lemma refusal_parsed s cause h :
  length (localNodeID s) = 4%nat -> bytes_ok (localNodeID s) -> is_byte cause ->
  cause_accepted (Some (NewCause cause)) = false -> in_u 24 (SequenceNumber h) ->
  exists h', ParseSessionEstablishmentResponse (session_est_refusal cause h s)
    = Ok (mkSEResp h' (Some (NewNodeIDIPv4 (localNodeID s))) (Some (NewCause cause)) None []).
Proof.
  intros Hl Hb Hc Hna Hseq.
  set (hr := mkHeader 1 true MsgTypeSessionEstablishmentResponse 0 0 (SequenceNumber h)).
  set (ies := [NewNodeIDIPv4 (localNodeID s); NewCause cause]).
  exists (with_length hr ies).
  apply (parser_spec (L := SEResp_layout) (build := SEResp_build)).
  exists (with_length hr ies), ies. split.
  - apply Parse_marshalled_message.
    + split; [done|]. split; [by_compute|]. by split.
    + apply Forall_cons; split; [by apply NodeID_wf|]. apply Forall_singleton. codec_wf.
    + unfold fits, message_length, header_len, ies. cbn [HasSEID hr flat_map].
      rewrite !length_app, !length_IE_Marshal.
      assert (length (IE_Value (NewNodeIDIPv4 (localNodeID s))) = 5%nat) as ->
        by (by destruct (localNodeID s) as [|? [|? [|? [|? [|]]]]]).
      by vm_compute.
  - split; [|done]. unfold accepts, SEResp_layout. cbn [L_condition L_session L_type L_mandatory].
    change (last_of ies TypeCause) with (Some (NewCause cause)). by rewrite Hna.
Qed.

(** The QoS of the default bearer as the marking IE carries it. *)
Definition qos_of (sess : SessionData.SGWSession) : Z * Z * bool :=
  match Session.GetBearer (SessionData.DefaultBearerID sess) sess with
  | Some b => if negb (Bearer.QCI b =? 0) then (Bearer.EBI b, Bearer.QCI b, true)
              else (SessionData.DefaultBearerID sess, 0, false)
  | None => (SessionData.DefaultBearerID sess, 0, false)
  end.
Lemma default_qos_ie sess : S11Pfcp.default_qos sess = qos_ie (qos_of sess).
Proof. unfold S11Pfcp.default_qos, qos_of. by repeat case_match. Qed.

(** A client that can choose the peer [p], its address and Node ID being IPv4. *)
Record client_ready (c : PfcpClient.Client) (p : PfcpClient.peer) (c1 : PfcpClient.Client) : Prop :=
  mkClientReady {
  cr_select : PfcpClient.SelectPeer (PfcpClient.AllocCPSEID c).2 = (Ok p, c1);
  cr_node : length (PfcpClient.localNodeID c) = 4%nat /\ bytes_ok (PfcpClient.localNodeID c);
  cr_seid : 0 <= PfcpClient.seidCounter c /\ PfcpClient.seidCounter c + 1 < 2 ^ 64 }.

Lemma SelectPeer_frame c :
  PfcpClient.localNodeID (PfcpClient.SelectPeer c).2 = PfcpClient.localNodeID c /\
  PfcpClient.peers (PfcpClient.SelectPeer c).2 = PfcpClient.peers c.
Proof. unfold PfcpClient.SelectPeer. by destruct (PfcpClient.peers c) eqn:E. Qed.

(** What the client takes from an accepted answer. *)
Definition endpoints (cp : Z) (p : PfcpClient.peer) (r : result PfcpClient.ClientError SessionEstablishmentResponse)
    : result PfcpClient.ClientError S11Pfcp.pfcpSessionResult :=
  let? resp := r in
  match SEResp_UPSEID resp with
  | None => Err PfcpClient.Panics
  | Some i =>
      match FSEIDValue i with
      | Err e => Err (PfcpClient.BadUPSEID e)
      | Ok f => Ok (fold_left S11Pfcp.record_created (SEResp_CreatedPDRs resp)
                      (S11Pfcp.mkPfcpSessionResult (PfcpClient.cfg_Name p) (PfcpClient.cfg_Addr p) cp
                         (FSEID_SEID f) Bearer.no_FTEID Bearer.no_FTEID))
      end
  end.

Section Provisional.
Context (e : env) (src : UDPAddr) (s : Server) (c : PfcpClient.Client) (p : PfcpClient.peer)
  (c1 : PfcpClient.Client) (v : Z) (sess : SessionData.SGWSession) (t1 t2 : Z).
Context (Hc : client_ready c p c1) (Hv : in_u 32 v) (Hq : QoS_valid (qos_of sess))
  (R : sgwu_ready e src s t1 t2).

Let cp : Z := PfcpClient.seidCounter c + 1.
Let up : Z := seidCounter (sessions s) + 1.
Let h : Header := session_header MsgTypeSessionEstablishmentRequest 0 c1.
Let made : Session := default_session cp up t1 t2 src s (qos_of sess).

Lemma cp_range : in_u 64 cp.
Proof using Hc. clear - Hc. destruct Hc as [_ _ Hn]. unfold in_u, cp. lia. Qed.

Lemma provisional_wf : Header_wf h.
Proof using. clear. split; [done|]. split; [by_compute|]. split; [apply AllocSeq_range|by_compute]. Qed.

Lemma provisional_answered pre resp s' fseid :
  let ies := request_ies (PfcpClient.localNodeID c) fseid (qos_of sess) in
  NewFSEID cp (AddrV4 v) = Some fseid -> quiet pre ->
  handle e src (with_length h ies) (Marshal h ies) s = Ok (pre ++ [Reply src resp], s') ->
  S11Pfcp.establishProvisionalPFCPSession (sgwu e src) (AddrV4 v) sess c s
  = (endpoints cp p (verdict ParseSessionEstablishmentResponse SEResp_Cause resp),
     (PfcpClient.AllocSeq c1).2, s').
Proof using Hc Hv Hq.
  intros ies Hfs Hpre Hh. pose proof cp_range as Hcp. destruct Hc as [Hsel [Hn Hnb] _].
  destruct (FSEID_wf cp v fseid Hcp Hv Hfs) as (Hwf & Hft & Hfl & _).
  destruct (request_wf h (PfcpClient.localNodeID c) fseid (qos_of sess)) as [Hies Hfit]; [done..|].
  unfold S11Pfcp.establishProvisionalPFCPSession. unfold PfcpClient.AllocCPSEID in Hsel |- *.
  rewrite uN_small in Hsel |- * by done. fold cp in Hsel |- *. cbn [snd] in Hsel.
  unfold PfcpClient.EstablishSession. rewrite Hsel. cbn [PfcpClient.on_peer PfcpClient.CPFSEID PfcpClient.LocalIP].
  rewrite Hfs.
  assert (Hid : PfcpClient.localNodeID c1 = PfcpClient.localNodeID c).
  { destruct (SelectPeer_frame (c <| PfcpClient.seidCounter := cp |>)) as [Hfr _]. by rewrite Hsel in Hfr. }
  cbn [PfcpClient.sp_CreatePDRs PfcpClient.sp_CreateFARs]. rewrite default_qos_ie, Hid.
  change (NewNodeIDIPv4 (PfcpClient.localNodeID c) :: fseid :: _) with ies.
  rewrite (transaction_answered e src p MsgTypeSessionEstablishmentRequest 0 ies _ _ c1 s pre resp s'
    ltac:(by_compute) ltac:(by_compute) Hies Hfit Hpre Hh).
  destruct (verdict _ _ resp) as [r|]; [|done]. unfold endpoints. cbn [rbind].
  destruct (SEResp_UPSEID r) as [i|]; [|done]. by destruct (FSEIDValue i).
Qed.

Lemma provisional_session :
  byCPSEID (sessions s) !! cp = None ->
  S11Pfcp.establishProvisionalPFCPSession (sgwu e src) (AddrV4 v) sess c s
  = (Ok (S11Pfcp.mkPfcpSessionResult (PfcpClient.cfg_Name p) (PfcpClient.cfg_Addr p) cp up
           (Bearer.mkFTEID t1 (accessIP s)) (Bearer.mkFTEID t2 (coreIP s))),
     (PfcpClient.AllocSeq c1).2, established e made s).
Proof using Hc Hv Hq R.
  intros Hfree. pose proof cp_range as Hcp.
  pose proof R as [_ [_ _ _ Hseid] _ _ [Hsn Hsnb] (Hlip & Hacc & Hcore) _ _ _ [Ht1 Ht2]].
  destruct (so_store _ (sr_ok _ _ _ _ _ R)) as [P HP]. pose proof (wf_counter _ _ HP) as Hnn.
  assert (Hup : in_u 64 up) by (unfold in_u, up; lia).
  destruct (NewFSEID cp (AddrV4 v)) as [fseid|] eqn:Hfs; [|done].
  destruct Hlip as (lv & El & Hlv).
  destruct (NewFSEID up (localIP s)) as [upF|] eqn:Hupf; [|by rewrite El in Hupf].
  rewrite El in Hupf. destruct (FSEID_wf up lv upF Hup Hlv Hupf) as (Huw & Hut & Hul & Huv).
  rewrite <- El in Hupf.
  destruct (NewFTEIDv4_valid t1 (accessIP s) Ht1 Hacc) as (f1 & Hf1 & _).
  destruct (NewFTEIDv4_valid t2 (coreIP s) Ht2 Hcore) as (f2 & Hf2 & _).
  destruct (establishment_handled e src s cp t1 t2 h (PfcpClient.localNodeID c) fseid (qos_of sess) f1 f2 upF v)
    as (pre & Hpre & Hhandle); 
    [done|exact provisional_wf|done|done|done|apply Hc|apply Hc|done..|].
  rewrite (provisional_answered _ _ _ fseid Hfs Hpre Hhandle).
  destruct (response_parsed s cp (SequenceNumber h) upF t1 t2 f1 f2) as [h' Hresp];
    [done|apply AllocSeq_range|done..|].
  rewrite (verdict_accepted _ _ _ _ Hresp eq_refl). unfold endpoints. cbn -[FSEIDValue S11Pfcp.record_created].
  rewrite Huv. cbn [fold_left FSEID_SEID].
  destruct (created_pdr_wf 1 t1 _ f1 ltac:(by_compute) Ht1 Hacc Hf1) as (_ & _ & ->).
  destruct (created_pdr_wf 2 t2 _ f2 ltac:(by_compute) Ht2 Hcore Hf2) as (_ & _ & ->).
  done.
Qed.

Lemma provisional_refused l :
  byCPSEID (sessions s) !! cp = Some l ->
  S11Pfcp.establishProvisionalPFCPSession (sgwu e src) (AddrV4 v) sess c s
  = (Err (PfcpClient.Rejected CauseRequestRejected), (PfcpClient.AllocSeq c1).2,
     s <| sessions := (sessions s) <| seidCounter := up |> |>).
Proof using Hc Hv Hq R.
  intros Hused. pose proof cp_range as Hcp.
  pose proof R as [_ _ _ _ [Hsn Hsnb] (_ & Hacc & Hcore) _ _ _ [Ht1 Ht2]].
  destruct (NewFSEID cp (AddrV4 v)) as [fseid|] eqn:Hfs; [|done].
  destruct (NewFTEIDv4_valid t1 (accessIP s) Ht1 Hacc) as (f1 & Hf1 & _).
  destruct (NewFTEIDv4_valid t2 (coreIP s) Ht2 Hcore) as (f2 & Hf2 & _).
  assert (Hhandle := establishment_refused e src s cp t1 t2 h (PfcpClient.localNodeID c) fseid (qos_of sess)
    f1 f2 v R provisional_wf eq_refl eq_refl eq_refl
    (proj1 (cr_node _ _ _ Hc)) (proj2 (cr_node _ _ _ Hc)) Hcp Hv Hfs Hq Hf1 Hf2 l Hused).
  rewrite (provisional_answered [] _ _ fseid Hfs quiet_nil Hhandle).
  destruct (refusal_parsed s CauseRequestRejected h) as [h' Hresp]; 
    [done|done|by_compute|by vm_compute|apply AllocSeq_range|].
  by rewrite (verdict_refused _ _ _ _ Hresp eq_refl).
Qed.
End Provisional.

(** ** The uplink rule is opened *)

Definition uplink_update (ohc : IE) : list IE :=
  [NewUpdatePDR [NewPDRID 1; NewOuterHeaderRemoval OHRDescGTPUUDPIPv4];
   NewUpdateFAR [NewFARID 1; NewApplyAction ApplyActionFORW;
     NewUpdateForwardingParameters [NewDestinationInterface DestInterfaceCore; ohc]]].

Definition opened_far (pt : Z) (pgw : Addr) : FAR :=
  mkFAR 1 ApplyActionFORW DestInterfaceCore pt pgw DropReasonNone.
Definition opened_session (cp up t1 t2 : Z) (src : UDPAddr) (s : Server) (q : Z * Z * bool)
    (pt : Z) (pgw : Addr) : Session :=
  (default_session cp up t1 t2 src s q)
    <| FARs := [opened_far pt pgw; mkFAR 2 ApplyActionDROP 0 0 AddrZero DropReasonNone] |>.

Lemma OHC_wf pt pgw : in_u 32 pt -> v4_valid pgw -> exists ohc,
  NewOuterHeaderCreation OHCDescGTPUUDPIPv4 pt pgw = Some ohc /\ IE_wf ohc /\
  IE_Type ohc = TypeOuterHeaderCreation /\ length (IE_Value ohc) = 10%nat /\
  OuterHeaderCreationValue ohc = Ok (mkOHC OHCDescGTPUUDPIPv4 pt pgw).
Proof.
  intros Ht (v & -> & Hv).
  destruct (codec_encodes (IECodec := OHC_codec) (mkOHC OHCDescGTPUUDPIPv4 pt (AddrV4 v))) as (i & Hi & Hw & Hty & Hval).
  { split; [done|]. by exists v. }
  change (NewOuterHeaderCreation OHCDescGTPUUDPIPv4 pt (AddrV4 v) = Some i) in Hi.
  exists i. split_and!; try done. by injection Hi as <-.
Qed.

Section Update.
Context (ohc : IE) (Hw : IE_wf ohc) (Hty : IE_Type ohc = TypeOuterHeaderCreation)
  (Hl : length (IE_Value ohc) = 10%nat).

Let params : list IE := [NewDestinationInterface DestInterfaceCore; ohc].
Let far_children : list IE := [NewFARID 1; NewApplyAction ApplyActionFORW; NewUpdateForwardingParameters params].

Lemma params_wf : Forall IE_wf params.
Proof using Hw. apply Forall_cons; split; [by_compute|by apply Forall_singleton]. Qed.
Lemma params_length : length (flat_map IE_Marshal params) = 19%nat.
Proof using Hl. cbn [flat_map params]. rewrite !length_app, !length_IE_Marshal, Hl. done. Qed.
Lemma far_children_wf : Forall IE_wf far_children.
Proof using Hw Hl.
  apply Forall_cons; split; [by_compute|]. apply Forall_cons; split; [by_compute|].
  apply Forall_singleton, IE_wf_grouped; [by_compute|apply params_wf|].
  change (Z.of_nat (length (flat_map IE_Marshal params)) < 2 ^ 16). rewrite params_length. by vm_compute.
Qed.
Lemma far_children_length : length (flat_map IE_Marshal far_children) = 36%nat.
Proof using Hl.
  cbn [flat_map far_children]. rewrite !length_app, !length_IE_Marshal.
  change (IE_Value (NewUpdateForwardingParameters params)) with (flat_map IE_Marshal params).
  by rewrite params_length.
Qed.

Lemma uplink_update_wf h : HasSEID h = true ->
  Forall IE_wf (uplink_update ohc) /\ fits h (uplink_update ohc).
Proof using Hw Hl.
  intros Hh. split.
  - apply Forall_cons; split; [by_compute|]. apply Forall_singleton, IE_wf_grouped; [by_compute|apply far_children_wf|].
    change (Z.of_nat (length (flat_map IE_Marshal far_children)) < 2 ^ 16).
    rewrite far_children_length. by vm_compute.
  - unfold fits, message_length, header_len, uplink_update. rewrite Hh. cbn [flat_map].
    rewrite !length_app, !length_IE_Marshal.
    pose proof (far_children_length : length (IE_Value (NewUpdateFAR far_children)) = 36%nat) as E.
    unfold far_children, params in E. rewrite E. by vm_compute.
Qed.

Lemma uplink_update_parsed h :
  Header_wf h -> HasSEID h = true -> MessageType h = MsgTypeSessionModificationRequest ->
  ParseSessionModificationRequest (Marshal h (uplink_update ohc))
  = Ok (SMReq_build (with_length h (uplink_update ohc)) (uplink_update ohc)).
Proof using Hw Hl.
  intros Hwf Hh Ht. destruct (uplink_update_wf h Hh) as [Hi Hf].
  apply (parser_spec (L := SMReq_layout) (build := SMReq_build)).
  exists (with_length h (uplink_update ohc)), (uplink_update ohc).
  split; [by apply Parse_marshalled_message|]. split; [|done].
  destruct h as [v hs t len seid seq]. cbn in Hh, Ht. by subst hs t.
Qed.

Lemma uplink_candidate e s h sess pt pgw far2 rest :
  OuterHeaderCreationValue ohc = Ok (mkOHC OHCDescGTPUUDPIPv4 pt pgw) ->
  FARs sess = mkFAR 1 ApplyActionDROP 0 0 AddrZero DropReasonNone :: far2 :: rest ->
  candidate e s sess (SMReq_build h (uplink_update ohc))
  = Ok (sess <| PDRs := PDRs sess |> <| FARs := opened_far pt pgw :: far2 :: rest |>, [], []).
Proof using Hw Hl Hty.
  intros Hv Hf. unfold candidate, SMReq_build. cbn [uplink_update].
  cbn -[Children]. rewrite Hf.
  change (Children (NewUpdateFAR _)) with (Children (newGrouped TypeUpdateFAR far_children)).
  rewrite Children_newGrouped by apply far_children_wf.
  cbn -[Children FARIDValue applyFARUpdatesToCandidate has_far].
  change (FARIDValue (NewFARID 1)) with (Ok 1 : result IEError Z). cbn -[Children update_forwarding].
  unfold update_forwarding. cbn [ufpIE].
  rewrite (Children_newGrouped TypeUpdateForwardingParameters params params_wf
    : Children (NewUpdateForwardingParameters _) = _).
  destruct ohc as [ot ov]. cbn in Hty. subst ot. cbn -[OuterHeaderCreationValue].
  rewrite Hv. done.
Qed.
End Update.

Lemma modification_handled e src s h ohc l sess pt pgw far2 rest :
  isAllowed (ua_IP src) s = true -> hasAssociation src s = true ->
  (has_bpfInstall s = true -> e_update_ok e = true) ->
  Header_wf h -> HasSEID h = true -> MessageType h = MsgTypeSessionModificationRequest ->
  IE_wf ohc -> IE_Type ohc = TypeOuterHeaderCreation -> length (IE_Value ohc) = 10%nat ->
  OuterHeaderCreationValue ohc = Ok (mkOHC OHCDescGTPUUDPIPv4 pt pgw) ->
  FindByUPSEID (SEID h) (sessions s) = Some l -> objects (sessions s) !! l = Some sess ->
  FARs sess = mkFAR 1 ApplyActionDROP 0 0 AddrZero DropReasonNone :: far2 :: rest ->
  exists pre, quiet pre /\
    handle e src (with_length h (uplink_update ohc)) (Marshal h (uplink_update ohc)) s
    = Ok (pre ++ [Reply src (session_response MsgTypeSessionModificationResponse (SgwuStore.CPSEID sess)
                    (SequenceNumber h) [NewCause CauseRequestAccepted])],
          s <| sessions := set_rules l (PDRs sess) (opened_far pt pgw :: far2 :: rest) (sessions s) |>).
Proof.
  intros Ha Has Hu Hw Hh Ht Ho Hty Hl Hv Hf Hob Hfars.
  unfold handle. rewrite Ha. cbn [negb].
  change (MessageType (with_length h ?ies)) with (MessageType h). rewrite Ht.
  change (MsgTypeSessionModificationRequest =? MsgTypeAssociationSetupRequest) with false.
  change (MsgTypeSessionModificationRequest =? MsgTypeHeartbeatRequest) with false.
  change (MsgTypeSessionModificationRequest =? MsgTypeSessionEstablishmentRequest) with false.
  change (MsgTypeSessionModificationRequest =? MsgTypeSessionModificationRequest) with true. cbv iota.
  unfold handleSessionModification. rewrite Has. cbn [negb]. rewrite uplink_update_parsed by done.
  change (SEID (SMReq_Header (SMReq_build (with_length h ?ies) _))) with (SEID h). rewrite Hf, Hob.
  unfold applySessionModification. rewrite (uplink_candidate ohc Ho Hty Hl e s _ sess pt pgw far2 rest Hv Hfars).
  assert (has_bpfInstall s && negb (e_update_ok e) = false) as ->.
  { destruct (has_bpfInstall s) eqn:E; [|done]. by rewrite (Hu eq_refl). }
  eexists. split; [|by rewrite !app_assoc].
  repeat apply quiet_app; [|apply quiet_path_peers|].
  - destruct (has_bpfInstall s); [apply quiet_update|apply quiet_nil].
  - apply quiet_if; apply quiet_nil.
Qed.

Lemma modification_response_parsed cp seq :
  in_u 64 cp -> in_u 24 seq -> exists h,
  ParseSessionModificationResponse
    (session_response MsgTypeSessionModificationResponse cp seq [NewCause CauseRequestAccepted])
  = Ok (mkSMResp h (Some (NewCause CauseRequestAccepted)) []).
Proof.
  intros Hcp Hseq. set (h := mkHeader 1 true MsgTypeSessionModificationResponse 0 cp seq).
  exists (with_length h [NewCause CauseRequestAccepted]).
  apply (parser_spec (L := SMResp_layout) (build := SMResp_build)).
  exists (with_length h [NewCause CauseRequestAccepted]), [NewCause CauseRequestAccepted].
  split; [|by split]. apply Parse_marshalled_message; [|by_compute|by vm_compute].
  split; [done|]. split; [by_compute|]. by split.
Qed.

(** The owner of a session finds its peer again by the address it recorded. *)
Lemma selectPeerByAddr_found c p :
  p ∈ PfcpClient.peers c -> PfcpClient.peerEstablished p = true ->
  NoDup (PfcpClient.cfg_Addr <$> PfcpClient.peers c) -> PfcpClient.cfg_Addr p <> ""%string ->
  PfcpClient.selectPeerByAddr (PfcpClient.cfg_Addr p) c = (Ok p, c).
Proof.
  intros Hp He Hnd Hne. unfold PfcpClient.selectPeerByAddr.
  rewrite (proj2 (String.eqb_neq _ _) Hne).
  assert (List.find (fun p' => String.eqb (PfcpClient.cfg_Addr p') (PfcpClient.cfg_Addr p)) (PfcpClient.peers c) = Some p) as ->.
  { revert Hp Hnd. generalize (PfcpClient.peers c). induction l as [|x l IH]; [by intros ?%not_elem_of_nil|].
    intros Hin [Hnx Hnd]%NoDup_cons. cbn. destruct (String.eqb_spec (PfcpClient.cfg_Addr x) (PfcpClient.cfg_Addr p)) as [E|E].
    - apply elem_of_cons in Hin as [->|Hin]; [done|]. exfalso. apply Hnx. rewrite E. by apply list_elem_of_fmap_2.
    - apply elem_of_cons in Hin as [->|Hin]; [done|]. by apply IH. }
  by rewrite He.
Qed.

Lemma uplink_opened e src s c p h0 l sess pt pgw far2 rest :
  p ∈ PfcpClient.peers c -> PfcpClient.peerEstablished p = true ->
  NoDup (PfcpClient.cfg_Addr <$> PfcpClient.peers c) -> PfcpClient.cfg_Addr p <> ""%string ->
  isAllowed (ua_IP src) s = true -> hasAssociation src s = true ->
  (has_bpfInstall s = true -> e_update_ok e = true) ->
  in_u 64 h0 -> in_u 64 (SgwuStore.CPSEID sess) -> in_u 32 pt -> pt <> 0 -> v4_valid pgw ->
  FindByUPSEID h0 (sessions s) = Some l -> objects (sessions s) !! l = Some sess ->
  FARs sess = mkFAR 1 ApplyActionDROP 0 0 AddrZero DropReasonNone :: far2 :: rest ->
  S11Pfcp.modifyPFCPUplinkFAR (sgwu e src) (PfcpClient.cfg_Addr p) h0 (Bearer.mkFTEID pt pgw) c s
  = (Ok tt, (PfcpClient.AllocSeq c).2,
     s <| sessions := set_rules l (PDRs sess) (opened_far pt pgw :: far2 :: rest) (sessions s) |>).
Proof.
  intros Hp He Hnd Hne Ha Has Hu Hh0 Hcp Hpt Hpt0 Hpgw Hf Hob Hfars.
  destruct (OHC_wf pt pgw Hpt Hpgw) as (ohc & Hn & Ho & Hty & Hl & Hv).
  unfold S11Pfcp.modifyPFCPUplinkFAR, PfcpClient.ModifySessionOnPeer.
  assert (PfcpClient.updates_ies [PfcpClient.mkFARUpdate 1 1 ApplyActionFORW DestInterfaceCore pt pgw true]
    = Some (uplink_update ohc)) as Hies.
  { cbn. unfold PfcpClient.update_ies. cbn -[NewOuterHeaderCreation].
    rewrite (proj2 (Z.eqb_neq _ _) Hpt0). destruct Hpgw as (v & -> & Hv4). cbn -[NewOuterHeaderCreation].
    by rewrite Hn. }
  cbn [Bearer.TEID Bearer.IPv4]. rewrite Hies. unfold PfcpClient.modification.
  rewrite selectPeerByAddr_found by done. cbn [PfcpClient.on_peer].
  set (h := session_header MsgTypeSessionModificationRequest h0 c).
  assert (Hh : Header_wf h).
  { split; [done|]. split; [by_compute|]. split; [apply AllocSeq_range|done]. }
  destruct (uplink_update_wf ohc Ho Hl h eq_refl) as [Hiw Hfit].
  destruct (modification_handled e src s h ohc l sess pt pgw far2 rest) as (pre & Hq & Hhandle); [done..|].
  destruct (modification_response_parsed (SgwuStore.CPSEID sess) (SequenceNumber h)) as [h' Hresp];
    [done|apply AllocSeq_range|].
  by rewrite (transaction_accepted e src p MsgTypeSessionModificationRequest h0 _ _ _ c s pre _ _ _
    ltac:(by_compute) Hh0 Hiw Hfit Hq Hhandle Hresp eq_refl).
Qed.

(** ** The rules in the user plane *)

(** The store after a session was created under a free CP-SEID and given new FARs. *)
Definition opened_store (e : env) (sess : Session) (fars : list FAR) (st : Store) : Store :=
  set_rules (e_session e) (PDRs sess) fars (Create (e_session e) sess (AllocSEID st).2).2.

Lemma opened_store_spec P e sess fars st :
  store_wf P st -> objects st !! e_session e = None -> seidCounter st + 1 < 2 ^ 64 ->
  byCPSEID st !! SgwuStore.CPSEID sess = None -> SgwuStore.UPSEID sess = seidCounter st + 1 ->
  let st1 := (Create (e_session e) sess (AllocSEID st).2).2 in
  let sess' := sess <| FARs := fars |> in
  store_wf P st1 /\ stored st1 (e_session e) sess /\
  store_wf P (opened_store e sess fars st) /\
  view (opened_store e sess fars st) = <[SgwuStore.UPSEID sess := sess']> (view st) /\
  stored (opened_store e sess fars st) (e_session e) sess' /\
  forall l s, stored (opened_store e sess fars st) l s -> l <> e_session e -> stored st l s.
Proof.
  intros H Hl Hn Hc Hu. pose proof (AllocSEID_wf P st H Hn) as Hw1.
  set (st0 := (AllocSEID st).2) in *. pose proof (wf_counter _ _ H) as H0.
  assert (Hcnt : seidCounter st0 = seidCounter st + 1)
    by (cbn; apply uN_small; unfold in_u; lia).
  assert (E0 : (AllocSEID st).1 = SgwuStore.UPSEID sess)
    by (cbn; rewrite uN_small by (unfold in_u; lia); done).
  rewrite E0 in Hw1.
  assert (Huf : byUPSEID st0 !! SgwuStore.UPSEID sess = None)
    by (apply (wf_issued _ _ Hw1); set_solver).
  assert (Hfresh : SgwuStore.UPSEID sess ∉ P).
  { intros Hin. apply (wf_issued _ _ H) in Hin. lia. }
  destruct (view_create _ st0 (e_session e) sess Hw1 Hl Hc) as [_ Hv].
  assert (Hcreate : (Create (e_session e) sess st0).2
    = st0 <| objects := <[e_session e := sess]> (objects st0) |>
          <| byCPSEID := <[SgwuStore.CPSEID sess := e_session e]> (byCPSEID st0) |>
          <| byUPSEID := <[SgwuStore.UPSEID sess := e_session e]> (byUPSEID st0) |>).
  { unfold Create. change (byCPSEID st0) with (byCPSEID st) at 1. by rewrite Hc. }
  assert (Hw2 : store_wf P (Create (e_session e) sess st0).2).
  { rewrite Hcreate. pose proof (index_wf _ st0 (e_session e) sess Hw1 Hl Hc Huf ltac:(lia)) as Hi.
    by replace (({[SgwuStore.UPSEID sess]} ∪ P) ∖ {[SgwuStore.UPSEID sess]}) with P in Hi by set_solver. }
  assert (Hs2 : stored (Create (e_session e) sess st0).2 (e_session e) sess).
  { rewrite Hcreate. split; apply lookup_insert_eq. }
  cbv zeta. split; [done|]. split; [done|]. split; [by apply set_rules_wf|].
  split.
  { unfold opened_store. fold st0. rewrite (view_set_rules P _ _ sess) by done.
    rewrite Hv, insert_insert_eq. by destruct sess. }
  unfold opened_store, set_rules. fold st0. rewrite (proj1 Hs2), Hcreate. split.
  - split; [cbn; rewrite lookup_insert_eq; by destruct sess|]. cbn. by rewrite lookup_insert_eq.
  - intros l s [Ho Hcp] Hne. cbn in Ho, Hcp. rewrite !lookup_insert_ne in Ho by done.
    apply lookup_insert_Some in Hcp as [[_ E]|[_ Hcp]]; [congruence|]. by split.
Qed.

(** The detection rule of a TEID that one rule of one session has. *)
Lemma FindByLocalTEID_unique P order st l sess p :
  store_wf P st -> Permutation order (elements (dom (byCPSEID st))) ->
  stored st l sess -> p ∈ PDRs sess -> LocalTEID p <> 0 ->
  (forall p', p' ∈ PDRs sess -> LocalTEID p' = LocalTEID p -> p' = p) ->
  (forall l' s' p', stored st l' s' -> l' <> l -> p' ∈ PDRs s' -> LocalTEID p' <> LocalTEID p) ->
  FindByLocalTEID order (LocalTEID p) st = Some (l, p).
Proof.
  intros H Hord Hs Hp H0 Hone Hother.
  pose proof (FindByLocalTEID_spec P order st (LocalTEID p) H Hord) as Hf.
  destruct (FindByLocalTEID order (LocalTEID p) st) as [[l' p']|].
  - destruct Hf as (_ & s' & Hs' & Hp' & Ht). destruct (decide (l' = l)) as [->|Hne].
    + assert (s' = sess) as -> by (destruct Hs, Hs'; congruence). by rewrite (Hone p').
    + by destruct (Hother l' s' p').
  - destruct Hf as [|Hf]; [done|]. by destruct (Hf l sess p).
Qed.


(** The rules of the opened session: the uplink one relays to the PGW, the downlink one
    drops until an eNodeB is known. *)
Lemma opened_session_found P order st l cp up t1 t2 src s q pt pgw old :
  let sess := opened_session cp up t1 t2 src s q pt pgw in
  store_wf P st -> Permutation order (elements (dom (byCPSEID st))) -> stored st l sess ->
  usable_teid old t1 -> usable_teid old t2 -> t1 <> t2 ->
  (forall l' s', stored st l' s' -> l' <> l -> stored old l' s') ->
  FindByLocalTEID order t1 st = Some (l, bearer_rule 1 100 SourceInterfaceAccess 1 t1 (accessIP s) q) /\
  FindByLocalTEID order t2 st = Some (l, bearer_rule 2 200 SourceInterfaceCore 2 t2 (coreIP s) q).
Proof.
  intros sess H Hord Hs [H1 Hu1] [H2 Hu2] Hne Hold.
  pose proof (FindByLocalTEID_unique P order st l sess) as Hf. split.
  - apply (Hf (bearer_rule 1 100 SourceInterfaceAccess 1 t1 (accessIP s) q)); try done; [left| |].
    + intros p' [->|[->|[]%not_elem_of_nil]%elem_of_cons]%elem_of_cons; [done|]. cbn. congruence.
    + intros l' s' p' Hs' Hl'. by apply (Hu1 l'), Hold.
  - apply (Hf (bearer_rule 2 200 SourceInterfaceCore 2 t2 (coreIP s) q)); try done; [right; left| |].
    + intros p' [->|[->|[]%not_elem_of_nil]%elem_of_cons]%elem_of_cons; [|done]. cbn. congruence.
    + intros l' s' p' Hs' Hl'. by apply (Hu2 l'), Hold.
Qed.

Lemma opened_session_forwarding P ok order f pkt srcp pktIP ctr h n l cp up t1 t2 src s q pt v old :
  let sess := opened_session cp up t1 t2 src s q pt (AddrV4 v) in
  let st := Forwarder.store f in
  let result := Forwarder.handleWithLocalIP ok order f pkt srcp pktIP ctr in
  store_wf P st -> Permutation order (elements (dom (byCPSEID st))) -> stored st l sess ->
  usable_teid old t1 -> usable_teid old t2 -> t1 <> t2 ->
  (forall l' s', stored st l' s' -> l' <> l -> stored old l' s') -> pt <> 0 ->
  bytes_ok pkt -> Gtpu.Parse pkt = Ok (h, n) -> Gtpu.MsgType h = Gtpu.MsgTypeGPDU ->
  (Gtpu.TEID h = t1 -> result = Forwarder.send ok (mkUDPAddr (be_bytes 4 v) Gtpu.Port)
     (Forwarder.relayed pt (Gtpu.MinLen + Z.to_nat (Gtpu.Length h)) pkt) ctr) /\
  (Gtpu.TEID h = t2 -> result = Some ([], Forwarder.count Forwarder.Dropped 1 ctr)).
Proof.
  intros sess st result H Hord Hs Hu1 Hu2 Hne Hold Hpt Hb Hp Hm.
  destruct (opened_session_found P order st l cp up t1 t2 src s q pt (AddrV4 v) old) as [F1 F2]; [done..|].
  subst result. unfold Forwarder.handleWithLocalIP. rewrite Hp, Hm, Z.eqb_refl.
  unfold Forwarder.handleGPDU. fold st. split; intros ->.
  - rewrite F1. unfold Forwarder.fars_of. rewrite (proj1 Hs). cbn -[Forwarder.forwardGPDU].
    etransitivity; [apply Forwarder.forwardGPDU_spec; [done..| |done]; right; by eexists|].
    unfold Forwarder.next_hop. cbn. by rewrite (proj2 (Z.eqb_neq _ _) Hpt).
  - rewrite F2. unfold Forwarder.fars_of. by rewrite (proj1 Hs).
Qed.

Lemma select_from_established ps start i n p :
  PfcpClient.select_from ps start i n = Ok p -> p ∈ ps /\ PfcpClient.peerEstablished p = true.
Proof.
  revert i. induction n as [|n IH]; intros i; cbn; [done|].
  destruct (Z.rem _ _ <? 0); [done|]. destruct (ps !! _) as [p'|] eqn:E; [|done].
  destruct (PfcpClient.peerEstablished p') eqn:Ep; [|apply IH].
  intros E'. injection E' as <-. split; [by eapply list_elem_of_lookup_2|done].
Qed.

Lemma SelectPeer_established c p c1 : PfcpClient.SelectPeer c = (Ok p, c1) ->
  p ∈ PfcpClient.peers c1 /\ PfcpClient.peerEstablished p = true.
Proof.
  intros H. pose proof (proj2 (SelectPeer_frame c)) as Hf. rewrite H in Hf. cbn in Hf. rewrite Hf.
  revert H. unfold PfcpClient.SelectPeer. destruct (PfcpClient.peers c) as [|p0 ps]; [done|].
  destruct (PfcpClient.select_from _ _ _ _) as [p'|] eqn:E; [|done]. intros H.
  injection H as <- _. by apply select_from_established in E.
Qed.

(** The two transactions leave the session of the uplink path in the store. *)
Lemma opened_by_client e1 e2 src s c p c1 v sess t1 t2 pt pgw :
  client_ready c p c1 ->
  NoDup (PfcpClient.cfg_Addr <$> PfcpClient.peers c) -> PfcpClient.cfg_Addr p <> ""%string ->
  in_u 32 v -> QoS_valid (qos_of sess) ->
  let cp := PfcpClient.seidCounter c + 1 in
  let up := seidCounter (sessions s) + 1 in
  let made := default_session cp up t1 t2 src s (qos_of sess) in
  sgwu_ready e1 src s t1 t2 -> byCPSEID (sessions s) !! cp = None -> (has_bpfInstall s = true -> e_update_ok e2 = true) ->
  in_u 32 pt -> pt <> 0 -> v4_valid pgw ->
  S11Pfcp.modifyPFCPUplinkFAR (sgwu e2 src) (PfcpClient.cfg_Addr p) up (Bearer.mkFTEID pt pgw)
    (PfcpClient.AllocSeq c1).2 (established e1 made s)
  = (Ok tt, (PfcpClient.AllocSeq (PfcpClient.AllocSeq c1).2).2,
     s <| sessions := opened_store e1 made (FARs (opened_session cp up t1 t2 src s (qos_of sess) pt pgw))
            (sessions s) |>).
Proof.
  intros [Hsel Hn [Hc0 Hc]] Hnd Hne Hv Hq cp up made R Hfree Hu Hpt Hpt0 Hpgw.
  pose proof R as [Hok [Hl _ _ Hseid] Ha Has _ _ _ _ _ _].
  destruct (so_store _ Hok) as [P HP]. pose proof (wf_counter _ _ HP) as H0.
  destruct (SelectPeer_established _ _ _ Hsel) as [Hin He].
  pose proof (proj2 (SelectPeer_frame (PfcpClient.AllocCPSEID c).2)) as Hps. rewrite Hsel in Hps.
  change (PfcpClient.peers c1 = PfcpClient.peers c) in Hps.
  destruct (opened_store_spec P e1 made (FARs (opened_session cp up t1 t2 src s (qos_of sess) pt pgw))
    (sessions s) HP Hl Hseid Hfree eq_refl) as (Hw1 & Hs1 & _).
  rewrite (uplink_opened e2 src (established e1 made s) (PfcpClient.AllocSeq c1).2 p up (e_session e1) made pt pgw
    (mkFAR 2 ApplyActionDROP 0 0 AddrZero DropReasonNone) []); try done.
  - change (PfcpClient.peers (PfcpClient.AllocSeq c1).2) with (PfcpClient.peers c1). by rewrite Hps.
  - unfold in_u, up. lia.
  - change (in_u 64 cp). unfold in_u, cp. lia.
  - exact (stored_up P _ _ _ Hw1 Hs1).
  - apply Hs1.
Qed.

(** C9: The set-up of a default bearer's user plane, run through both programs.  When the
    SGW-C's PFCP client can choose an SGW-U and that server knows it, has free
    identifiers and addresses, and its dataplane takes the rules, then the provisional
    establishment and the opening of the uplink rule succeed: the SGW-C learns exactly
    the session endpoint and the two tunnel endpoints that the SGW-U allocated; the
    SGW-U's sessions are those it had and the new one; and its forwarder, for every
    packet and iteration order, relays uplink packets of the new S1-U TEID to the PDN
    gateway under the gateway's TEID, octet for octet, while downlink packets on the new
    S5-U TEID are dropped as long as no eNodeB is known. *)
Theorem default_bearer_path e1 e2 src s c p c1 v sess t1 t2 pt pgw :
  client_ready c p c1 ->
  NoDup (PfcpClient.cfg_Addr <$> PfcpClient.peers c) -> PfcpClient.cfg_Addr p <> ""%string ->
  in_u 32 v -> QoS_valid (qos_of sess) ->
  let cp := PfcpClient.seidCounter c + 1 in
  let up := seidCounter (sessions s) + 1 in
  sgwu_ready e1 src s t1 t2 -> byCPSEID (sessions s) !! cp = None -> t1 <> t2 ->
  (has_bpfInstall s = true -> e_update_ok e2 = true) ->
  in_u 32 pt -> pt <> 0 -> in_u 32 pgw ->
  exists c2 s1 c3 s2,
    S11Pfcp.establishProvisionalPFCPSession (sgwu e1 src) (AddrV4 v) sess c s
    = (Ok (S11Pfcp.mkPfcpSessionResult (PfcpClient.cfg_Name p) (PfcpClient.cfg_Addr p) cp up
             (Bearer.mkFTEID t1 (accessIP s)) (Bearer.mkFTEID t2 (coreIP s))), c2, s1) /\
    S11Pfcp.modifyPFCPUplinkFAR (sgwu e2 src) (PfcpClient.cfg_Addr p) up
      (Bearer.mkFTEID pt (AddrV4 pgw)) c2 s1 = (Ok tt, c3, s2) /\
    view (sessions s2)
    = <[up := opened_session cp up t1 t2 src s (qos_of sess) pt (AddrV4 pgw)]> (view (sessions s)) /\
    forall ok order f pkt from pktIP ctr h n,
      Forwarder.store f = sessions s2 ->
      Permutation order (elements (dom (byCPSEID (sessions s2)))) ->
      bytes_ok pkt -> Gtpu.Parse pkt = Ok (h, n) -> Gtpu.MsgType h = Gtpu.MsgTypeGPDU ->
      let result := Forwarder.handleWithLocalIP ok order f pkt from pktIP ctr in
      (Gtpu.TEID h = t1 -> result = Forwarder.send ok (mkUDPAddr (be_bytes 4 pgw) Gtpu.Port)
         (Forwarder.relayed pt (Gtpu.MinLen + Z.to_nat (Gtpu.Length h)) pkt) ctr) /\
      (Gtpu.TEID h = t2 -> result = Some ([], Forwarder.count Forwarder.Dropped 1 ctr)).
Proof.
  intros Hc Hnd Hne Hv Hq cp up R Hfree Ht Hu Hpt Hpt0 Hpgw.
  pose proof R as [Hok [Hl _ _ Hseid] _ _ _ _ _ Ha1 Ha2 _].
  destruct (so_store _ Hok) as [P HP].
  set (made := default_session cp up t1 t2 src s (qos_of sess)).
  destruct (opened_store_spec P e1 made (FARs (opened_session cp up t1 t2 src s (qos_of sess) pt (AddrV4 pgw)))
    (sessions s) HP Hl Hseid Hfree eq_refl) as (_ & _ & Hw2 & Hview & Hs2 & Hold).
  do 4 eexists. split; [by apply (provisional_session e1 src s c p c1 v sess t1 t2)|].
  split; [apply (opened_by_client e1 e2 src s c p c1 v); try done; by exists pgw|].
  split; [exact Hview|].
  intros ok order f pkt from pktIP ctr h n Hf Hord Hb Hp Hm.
  apply (opened_session_forwarding P ok order f pkt from pktIP ctr h n (e_session e1) cp up t1 t2 src s
    (qos_of sess) pt pgw (sessions s)); rewrite ?Hf; try done.
  - unfold alloc_teid in Ha1. destruct (AllocTEID _ _ _ _) as [[?|]|] eqn:E; simplify_eq. by eapply AllocTEID_sound.
  - unfold alloc_teid in Ha2. destruct (AllocTEID _ _ _ _) as [[?|]|] eqn:E; simplify_eq. by eapply AllocTEID_sound.
Qed.

Definition example_client : PfcpClient.Client :=
  (PfcpClient.example_client 0 [PfcpClient.example_peer 9 PfcpClient.PeerStateEstablished])
    <| PfcpClient.seidCounter := 7 |>.

Lemma example_ready : sgwu_ready example_env example_addr example_server 0x2000 0x2001.
Proof.
  split.
  - apply example_server_ok.
  - apply example_env_ok.
  - by_compute.
  - by_compute.
  - split; [done|by_compute].
  - split; [|split]; (eexists; split; [reflexivity|by_compute]).
  - done.
  - by vm_compute.
  - by vm_compute.
  - split; by_compute.
Qed.

Lemma default_bearer_path_witness :
  exists c2 s1 c3 s2,
    (S11Pfcp.establishProvisionalPFCPSession (sgwu example_env example_addr) (AddrV4 0x0A000001)
       Session.example_session example_client example_server).1.2 = c2 /\
    S11Pfcp.modifyPFCPUplinkFAR (sgwu example_env example_addr) "10.0.0.2:8805" 2
      (Bearer.mkFTEID 0x77 (AddrV4 0x0A000007)) c2 s1 = (Ok tt, c3, s2) /\
    dom (view (sessions s2)) = {[1; 2]}.
Proof.
  destruct (default_bearer_path example_env example_env example_addr example_server example_client
    (PfcpClient.example_peer 9 PfcpClient.PeerStateEstablished)
    (PfcpClient.SelectPeer (PfcpClient.AllocCPSEID example_client).2).2 0x0A000001
    Session.example_session 0x2000 0x2001 0x77 0x0A000007) as (c2 & s1 & c3 & s2 & He & Hm & Hv & _).
  - split; [by vm_compute|split; [done|by_compute]|by_compute].
  - by_compute.
  - done.
  - by_compute.
  - by_compute.
  - exact example_ready.
  - by_compute.
  - done.
  - done.
  - by_compute.
  - done.
  - by_compute.
  - exists c2, s1, c3, s2. change (seidCounter (sessions example_server) + 1) with 2 in *.
    split; [by rewrite He|]. split; [exact Hm|]. rewrite Hv, dom_insert_L. by vm_compute.
Defined.

(** ** A restart of the SGW-C *)

(** Setup records the time stamp of the peer under its source address. *)
Lemma setup_records e src hdr raw s out s' req ts :
  server_ok s -> ParseAssociationSetupRequest raw = Ok req -> ASReq_RecoveryTimeStamp req = Some ts ->
  handleAssocSetup e src hdr raw s = Ok (out, s') ->
  sessions s' = sessions s /\ exists r pr, peers s' !! sourceKey src = Some r /\
    records s' !! r = Some pr /\ recoveryTS pr = or_zero (RecoveryTimeStampValue ts).
Proof.
  intros [_ Hp] Hr Hts. unfold handleAssocSetup. rewrite Hr, Hts. cbv zeta.
  set (peerKey := if String.eqb _ "" then _ else _). intros [_ <-]%Ok_pair.
  destruct (peers s !! peerKey) as [r|] eqn:Ek.
  - destruct (Hp _ _ Ek) as [pr Hpr].
    destruct (String.eqb_spec (sourceKey src) peerKey) as [E|Hn]; (split; [done|]); exists r; eexists;
      (split; [cbn; rewrite ?E, ?lookup_insert_eq; done|]); (split; [cbn; by rewrite lookup_alter_eq, Hpr|done]).
  - destruct (String.eqb_spec (sourceKey src) peerKey) as [E|Hn]; (split; [done|]); exists (e_peer e); eexists;
      (split; [cbn; rewrite ?E, ?lookup_insert_eq; done|]); (split; [cbn; by rewrite lookup_insert_eq|done]).
Qed.

(** A heartbeat with the recorded time stamp touches no session. *)
Lemma heartbeat_unchanged e src raw s out s' req ts r pr :
  ParseHeartbeatRequest raw = Ok req -> HBReq_RecoveryTimeStamp req = Some ts ->
  peers s !! sourceKey src = Some r -> records s !! r = Some pr ->
  recoveryTS pr = or_zero (RecoveryTimeStampValue ts) ->
  handleHeartbeat e src raw s = Ok (out, s') -> sessions s' = sessions s.
Proof.
  intros Hr Hts Hk Hpr Ht. unfold handleHeartbeat. rewrite Hr, Hts, Hk, Hpr, Ht, Z.eqb_refl.
  cbn [negb]. rewrite andb_false_r. by intros [_ <-]%Ok_pair.
Qed.

(** C12: What an SGW-C restart leaves behind.  The restarted SGW-C sets up its association
    with a new recovery time stamp and then sends heartbeats with the same one; the
    setup already stores that time stamp, so the heartbeat sees no change and the SGW-U
    keeps every session of the previous run.  The client's CP-SEID counter starts again
    at zero: as long as the SGW-U still holds a session under the next CP-SEID, the
    establishment of a new session is refused, whatever its subscriber, and no session
    is added. *)
Theorem restart_strands_sessions e1 e2 e3 src s hdr raw1 req1 raw2 req2 ts1 ts2 out1 s1 out2 s2
    c p c1 v sess t1 t2 :
  server_ok s ->
  ParseAssociationSetupRequest raw1 = Ok req1 -> ASReq_RecoveryTimeStamp req1 = Some ts1 ->
  ParseHeartbeatRequest raw2 = Ok req2 -> HBReq_RecoveryTimeStamp req2 = Some ts2 ->
  RecoveryTimeStampValue ts2 = RecoveryTimeStampValue ts1 ->
  handleAssocSetup e1 src hdr raw1 s = Ok (out1, s1) ->
  handleHeartbeat e2 src raw2 s1 = Ok (out2, s2) ->
  client_ready c p c1 -> in_u 32 v -> QoS_valid (qos_of sess) -> sgwu_ready e3 src s2 t1 t2 ->
  view (sessions s2) = view (sessions s) /\
  (is_Some (byCPSEID (sessions s) !! (PfcpClient.seidCounter c + 1)) ->
   exists c3 s3,
     S11Pfcp.establishProvisionalPFCPSession (sgwu e3 src) (AddrV4 v) sess c s2
     = (Err (PfcpClient.Rejected CauseRequestRejected), c3, s3) /\
     view (sessions s3) = view (sessions s)).
Proof.
  intros Hok Hp1 Ht1 Hp2 Ht2 Hts Hs Hh Hc Hv Hq R.
  destruct (setup_records _ _ _ _ _ _ _ _ _ Hok Hp1 Ht1 Hs) as (E1 & r & pr & Hr & Hpr & Hrec).
  rewrite <- Hts in Hrec.
  pose proof (heartbeat_unchanged _ _ _ _ _ _ _ _ _ _ Hp2 Ht2 Hr Hpr Hrec Hh) as E2.
  rewrite E1 in E2. split; [by rewrite E2|]. intros [l Hl].
  do 2 eexists. split.
  - apply (provisional_refused e3 src s2 c p c1 v sess t1 t2 Hc Hv Hq R l). by rewrite E2.
  - change (view (sessions s2) = view (sessions s)). by rewrite E2.
Qed.

(** An SGW-U that holds the session with CP-SEID 1 of the previous run. *)
Definition example_old : Server :=
  example_server <| sessions := (Create 0 (default_session 1 1 0x1000 0x1001 example_addr example_server (5, 9, true))
    (AllocSEID NewStore).2).2 |>.
Definition example_restart (typ : Z) (ies : list IE) : bytes :=
  Marshal (example_header typ 0) (ies ++ [NewRecoveryTimeStamp 99]).
Definition example_rebooted : PfcpClient.Client :=
  PfcpClient.example_client 0 [PfcpClient.example_peer 9 PfcpClient.PeerStateEstablished].

Definition example_restart_env : env :=
  mkEnv 1 1 1 [1] ["ipv4:10.0.0.1"%string] true true 3 (fun k i => Some (0x2000 + Z.of_nat k)).

Lemma example_old_wf : store_wf ∅ (sessions example_old).
Proof.
  pose proof (AllocSEID_wf ∅ NewStore NewStore_wf ltac:(by vm_compute)) as H1.
  pose proof (index_wf _ _ 0%nat (default_session 1 1 0x1000 0x1001 example_addr example_server (5, 9, true))
    H1 eq_refl eq_refl eq_refl ltac:(by vm_compute)) as H2.
  by replace (_ ∖ _) with (∅ : gset Z) in H2 by (by vm_compute).
Qed.

Lemma example_restart_ready out1 s1 out2 s2 :
  handleAssocSetup example_restart_env example_addr (example_header MsgTypeAssociationSetupRequest 0)
    (example_restart MsgTypeAssociationSetupRequest [NewNodeIDIPv4 [10; 0; 0; 1]]) example_old = Ok (out1, s1) ->
  handleHeartbeat example_restart_env example_addr (example_restart MsgTypeHeartbeatRequest []) s1
  = Ok (out2, s2) ->
  sgwu_ready example_restart_env example_addr s2 0x2000 0x2001.
Proof.
  intros E1 E2. vm_compute in E1. injection E1 as _ <-. vm_compute in E2. injection E2 as _ <-.
  match goal with |- sgwu_ready _ _ ?x _ _ => set (s2 := x) end.
  assert (Es : sessions s2 = sessions example_old) by (vm_compute; reflexivity).
  assert (Ep : peers s2 = peers example_server) by (vm_compute; reflexivity).
  split.
  - split; [exists ∅; rewrite Es; apply example_old_wf|]. rewrite Ep. intros key r H.
    unfold example_server in H. cbn in H. apply lookup_singleton_Some in H as [_ <-]. by_compute.
  - split; [by vm_compute|by vm_compute| |by vm_compute]. rewrite Es. by vm_compute.
  - by_compute.
  - by_compute.
  - split; [done|by_compute].
  - split; [|split]; (eexists; split; [reflexivity|by_compute]).
  - done.
  - by vm_compute.
  - by vm_compute.
  - split; by_compute.
Qed.

Lemma restart_strands_sessions_witness :
  exists out1 s1 out2 s2 c3 s3,
    handleAssocSetup example_restart_env example_addr (example_header MsgTypeAssociationSetupRequest 0)
      (example_restart MsgTypeAssociationSetupRequest [NewNodeIDIPv4 [10; 0; 0; 1]]) example_old = Ok (out1, s1) /\
    handleHeartbeat example_restart_env example_addr (example_restart MsgTypeHeartbeatRequest []) s1
    = Ok (out2, s2) /\
    S11Pfcp.establishProvisionalPFCPSession (sgwu example_restart_env example_addr) (AddrV4 0x0A000001)
      Session.example_session example_rebooted s2
    = (Err (PfcpClient.Rejected CauseRequestRejected), c3, s3).
Proof.
  destruct (handleAssocSetup example_restart_env example_addr (example_header MsgTypeAssociationSetupRequest 0)
      (example_restart MsgTypeAssociationSetupRequest [NewNodeIDIPv4 [10; 0; 0; 1]]) example_old)
    as [[out1 s1]|f] eqn:E1; [|by vm_compute in E1].
  destruct (handleHeartbeat example_restart_env example_addr (example_restart MsgTypeHeartbeatRequest []) s1)
    as [[out2 s2]|f] eqn:E2; [|exfalso; vm_compute in E1; injection E1 as _ <-; by vm_compute in E2].
  destruct (ParseAssociationSetupRequest (example_restart MsgTypeAssociationSetupRequest [NewNodeIDIPv4 [10; 0; 0; 1]]))
    as [req1|] eqn:P1; [|by vm_compute in P1].
  destruct (ParseHeartbeatRequest (example_restart MsgTypeHeartbeatRequest [])) as [req2|] eqn:P2; [|by vm_compute in P2].
  destruct (proj2 (restart_strands_sessions example_restart_env example_restart_env example_restart_env example_addr
    example_old (example_header MsgTypeAssociationSetupRequest 0) _ req1 _ req2
    (NewRecoveryTimeStamp 99) (NewRecoveryTimeStamp 99) out1 s1 out2 s2
    example_rebooted (PfcpClient.example_peer 9 PfcpClient.PeerStateEstablished)
    (PfcpClient.SelectPeer (PfcpClient.AllocCPSEID example_rebooted).2).2 0x0A000001
    Session.example_session 0x2000 0x2001
    ltac:(split; [exists ∅; apply example_old_wf|apply example_server_ok]) P1
    ltac:(vm_compute in P1; by injection P1 as <-) P2
    ltac:(vm_compute in P2; by injection P2 as <-) eq_refl E1 E2
    ltac:(split; [by vm_compute|split; [done|by_compute]|by_compute])
    ltac:(by_compute) ltac:(by_compute)
    (example_restart_ready out1 s1 out2 s2 E1 E2)) ltac:(by_compute)) as (c3 & s3 & He & _).
  exists out1, s1, out2, s2, c3, s3. by split_and!.
Defined.
