(* ===== verification/PeerHealth.v ===== *)
(** * GTP-C peer health ([internal/sgwc/peerhealth])

    The table of GTPv2-C peers: one record per role and address, driven by the messages
    received from the peer and by the outcome of its Echo procedures, with the Echo
    prober that drives it.  Every operation reads the clock once ([now]) and returns the
    calls it makes after it has released the lock, in their order: the checkpoint first,
    then the state change, then the restart.  [events_replay_table] and the lemmas around
    it state that these calls tell a handler the whole history of a peer. *)

From stdpp Require Import sorting.
From S2P Require Import Prelude GoLib.
From S2P Require Checkpoint.

#[local] Open Scope string_scope.
#[local] Open Scope Z_scope.

Definition GTPControlPort : Z := 2123.
Definition RoleMME := "mme".
Definition RolePGW := "pgw".
Definition StateUnknown := "unknown".
Definition StateUp := "up".
Definition StateDegraded := "degraded".
Definition StateSuspect := "suspect".
Definition StateDown := "down".

(** [Key], which is also the [Target] of a probe. *)
Record Key := mkKey { Role : string; Addr : string }.
#[export] Instance Key_eq_dec : EqDecision Key.
Proof. solve_decision. Defined.
#[export] Instance Key_countable : Countable Key.
Proof.
  refine (inj_countable' (fun k => (Role k, Addr k)) (fun '(r, a) => mkKey r a) _).
  by intros [].
Defined.

Record StateChangeEvent := mkStateChangeEvent {
  sc_Role : string; sc_Addr : string; OldState : string; NewState : string;
  Reason : string; sc_At : time
}.
Record RestartEvent := mkRestartEvent {
  re_Role : string; re_Addr : string; OldRecovery : Z; NewRecovery : Z; re_At : time
}.
#[export] Instance StateChangeEvent_eq_dec : EqDecision StateChangeEvent.
Proof. solve_decision. Defined.
#[export] Instance RestartEvent_eq_dec : EqDecision RestartEvent.
Proof. solve_decision. Defined.

(** Calls on the checkpoint sink and on the event handler. *)
Inductive call :=
| SavePeerSnapshot (snapshot : Checkpoint.PeerSnapshot)
| OnPeerStateChange (event : StateChangeEvent)
| OnPeerRestart (event : RestartEvent).

Record ProbeConfig := mkProbeConfig {
  SuspectAfterMissed : Z; DownAfterMissed : Z; DegradedRTT : duration
}.

Record peer := mkPeer {
  key : Key;
  state : string;
  lastStateChange : time;
  lastSeenAt : time;
  lastMsgType : Z;
  lastSeq : Z;
  lastEchoSentAt : time;
  lastEchoResponseAt : time;
  lastRTT : duration;
  smoothedRTT : duration;
  maxRTT : duration;
  consecutiveMisses : Z;
  echoSent : Z;
  echoResponses : Z;
  echoTimeouts : Z;
  recoverySeen : bool;
  recoveryCounter : Z;
  restartDetectedAt : time;
  restarts : Z
}.
#[export] Instance eta_peer : Eta peer := fun p =>
  mkPeer (key p) (state p) (lastStateChange p) (lastSeenAt p) (lastMsgType p) (lastSeq p)
    (lastEchoSentAt p) (lastEchoResponseAt p) (lastRTT p) (smoothedRTT p) (maxRTT p)
    (consecutiveMisses p) (echoSent p) (echoResponses p) (echoTimeouts p) (recoverySeen p)
    (recoveryCounter p) (restartDetectedAt p) (restarts p).
#[export] Instance peer_eq_dec : EqDecision peer.
Proof. solve_decision. Defined.

(** [eventHandler] and [checkpointSink] say whether one is installed. *)
Record Table := mkTable {
  peers : gmap Key peer;
  eventHandler : bool;
  checkpointSink : bool
}.
#[export] Instance eta_Table : Eta Table := fun t =>
  mkTable (peers t) (eventHandler t) (checkpointSink t).

Definition NewTable : Table := mkTable ∅ false false.
Definition SetEventHandler (handler : bool) (t : Table) : Table := t <| eventHandler := handler |>.
Definition SetCheckpointSink (sink : bool) (t : Table) : Table := t <| checkpointSink := sink |>.

(** ** Addresses *)

(** [None] is the nil address. *)
Definition NormalizeUDPAddr (addr : option UDPAddr) : string :=
  match addr with
  | None => ""
  | Some a => JoinHostPort (IP_String (ua_IP a)) (Itoa GTPControlPort)
  end.

Definition NormalizeEndpoint (addr : string) : string :=
  match SplitHostPort addr with
  | Err _ => addr
  | Ok (host, _) =>
      if String.eqb host "" then addr else JoinHostPort host (Itoa GTPControlPort)
  end.

(** ** Helpers of the operations *)

Definition new_peer (k : Key) (now : time) : peer :=
  mkPeer k StateUnknown now zero_time 0 0 zero_time zero_time 0 0 0 0 0 0 0 false 0 zero_time 0.

(** The peer; the caller stores the record it makes of it. *)
Definition getOrCreateLocked (k : Key) (now : time) (t : Table) : peer :=
  default (new_peer k now) (peers t !! k).

Definition applyRecoveryLocked (recovery : option Z) (now : time) (p : peer)
    : option (Z * Z) * peer :=
  match recovery with
  | None => (None, p)
  | Some r =>
      let restarted := recoverySeen p && negb (recoveryCounter p =? r) in
      let log := if restarted then Some (recoveryCounter p, r) else None in
      let p := if restarted
               then p <| restartDetectedAt := now |> <| restarts := u64 (restarts p + 1) |>
               else p in
      (log, p <| recoverySeen := true |> <| recoveryCounter := r |>)
  end.

Definition stateChangeTime (oldTime : time) (oldState newState : string) (now : time) : time :=
  if negb (String.eqb oldState newState) then now else oldTime.

Definition checkpointSnapshotLocked (p : peer) (now : time) : Checkpoint.PeerSnapshot :=
  Checkpoint.mkPeerSnapshot 0 (Role (key p)) (Addr (key p)) "" (state p) (recoverySeen p)
    (recoveryCounter p) 0 (restartDetectedAt p) (restarts p) (or_now (lastSeenAt p) now).

Definition emitPeerCheckpoint (sink : bool) (s : Checkpoint.PeerSnapshot) : list call :=
  if negb sink || String.eqb (Checkpoint.ps_Role s) "" || String.eqb (Checkpoint.ps_Addr s) ""
  then [] else [SavePeerSnapshot s].

Definition notifyStateChange (handler : bool) (event : StateChangeEvent) : list call :=
  if negb handler || String.eqb (OldState event) (NewState event) then []
  else [OnPeerStateChange event].

Definition notifyRestart (handler : bool) (role addr : string) (change : option (Z * Z))
    (at_ : time) : list call :=
  match change with
  | Some (o, n) => if handler then [OnPeerRestart (mkRestartEvent role addr o n at_)] else []
  | None => []
  end.

(** ** Operations *)

Definition MarkEchoSent (now : time) (role addr : string) (seq : Z) (t : Table)
    : Table * list call :=
  if String.eqb addr "" then (t, [])
  else
    let k := mkKey role (NormalizeEndpoint addr) in
    let p := getOrCreateLocked k now t in
    let p := p <| lastEchoSentAt := now |> <| lastSeq := seq |>
               <| echoSent := u64 (echoSent p + 1) |> in
    (t <| peers := <[k := p]> (peers t) |>,
     emitPeerCheckpoint (checkpointSink t) (checkpointSnapshotLocked p now)).

(** The record after an Echo response, before the recovery counter is looked at. *)
Definition echo_answered (now : time) (seq : Z) (rtt : duration) (cfg : ProbeConfig) (p : peer)
    : peer :=
  let oldState := state p in
  let p := p <| state := StateUp |>
             <| lastStateChange := stateChangeTime (lastStateChange p) oldState StateUp now |>
             <| lastSeenAt := now |> <| lastEchoResponseAt := now |> <| lastSeq := seq |>
             <| lastRTT := rtt |>
             <| smoothedRTT := if smoothedRTT p =? 0 then rtt
                               else Z.quot (i64 (i64 (smoothedRTT p * 7) + rtt)) 8 |>
             <| maxRTT := if maxRTT p <? rtt then rtt else maxRTT p |>
             <| consecutiveMisses := 0 |> <| echoResponses := u64 (echoResponses p + 1) |> in
  if (0 <? DegradedRTT cfg) && (DegradedRTT cfg <? rtt)
  then p <| state := StateDegraded |>
         <| lastStateChange := stateChangeTime (lastStateChange p) oldState StateDegraded now |>
  else p.

Definition MarkEchoResponse (now : time) (role addr : string) (seq : Z) (rtt : duration)
    (recovery : option Z) (cfg : ProbeConfig) (t : Table) : Table * list call :=
  if String.eqb addr "" then (t, [])
  else
    let addr := NormalizeEndpoint addr in
    let k := mkKey role addr in
    let p := getOrCreateLocked k now t in
    let oldState := state p in
    let '(restartLog, p) := applyRecoveryLocked recovery now (echo_answered now seq rtt cfg p) in
    (t <| peers := <[k := p]> (peers t) |>,
     (emitPeerCheckpoint (checkpointSink t) (checkpointSnapshotLocked p now)
      ++ notifyStateChange (eventHandler t)
           (mkStateChangeEvent role addr oldState (state p) "echo_response" now)
      ++ notifyRestart (eventHandler t) role addr restartLog now)%list).

(** The state after a number of missed Echoes. *)
Definition missed_state (cfg : ProbeConfig) (misses : Z) : string :=
  if (0 <? DownAfterMissed cfg) && (DownAfterMissed cfg <=? misses) then StateDown
  else if (0 <? SuspectAfterMissed cfg) && (SuspectAfterMissed cfg <=? misses) then StateSuspect
  else StateDegraded.

Definition MarkEchoTimeout (now : time) (role addr : string) (seq : Z) (cfg : ProbeConfig)
    (t : Table) : Table * list call :=
  if String.eqb addr "" then (t, [])
  else
    let addr := NormalizeEndpoint addr in
    let k := mkKey role addr in
    let p := getOrCreateLocked k now t in
    let oldState := state p in
    let p := p <| lastSeq := seq |> <| consecutiveMisses := i64 (consecutiveMisses p + 1) |>
               <| echoTimeouts := u64 (echoTimeouts p + 1) |> in
    let p := p <| state := missed_state cfg (consecutiveMisses p) |> in
    let p := p <| lastStateChange := stateChangeTime (lastStateChange p) oldState (state p) now |> in
    (t <| peers := <[k := p]> (peers t) |>,
     (emitPeerCheckpoint (checkpointSink t) (checkpointSnapshotLocked p now)
      ++ notifyStateChange (eventHandler t)
           (mkStateChangeEvent role addr oldState (state p) "echo_timeout" now))%list).

Definition observe (now : time) (role addr : string) (msgType seq : Z) (recovery : option Z)
    (t : Table) : Table * list call :=
  let k := mkKey role addr in
  let p := getOrCreateLocked k now t in
  let oldState := state p in
  let p := if negb (String.eqb (state p) StateUp)
           then p <| state := StateUp |> <| lastStateChange := now |> else p in
  let p := p <| lastSeenAt := now |> <| lastMsgType := msgType |> <| lastSeq := seq |> in
  let '(restartLog, p) := applyRecoveryLocked recovery now p in
  (t <| peers := <[k := p]> (peers t) |>,
   (emitPeerCheckpoint (checkpointSink t) (checkpointSnapshotLocked p now)
    ++ notifyStateChange (eventHandler t)
         (mkStateChangeEvent role addr oldState StateUp "valid_gtpc_message" now)
    ++ notifyRestart (eventHandler t) role addr restartLog now)%list).

Definition Observe (now : time) (role : string) (addr : option UDPAddr) (msgType seq : Z)
    (recovery : option Z) (t : Table) : Table * list call :=
  match addr with
  | None => (t, [])
  | Some _ => observe now role (NormalizeUDPAddr addr) msgType seq recovery t
  end.

Definition ObserveAddr (now : time) (role addr : string) (msgType seq : Z) (recovery : option Z)
    (t : Table) : Table * list call :=
  if String.eqb addr "" then (t, [])
  else observe now role (NormalizeEndpoint addr) msgType seq recovery t.

Definition State (role addr : string) (t : Table) : string * bool :=
  if String.eqb addr "" then (StateUnknown, false)
  else match peers t !! mkKey role (NormalizeEndpoint addr) with
       | None => (StateUnknown, false)
       | Some p => (state p, true)
       end.

(** ** Listings: sorted by role, then address *)

Definition key_le (a b : Key) : Prop :=
  if String.eqb (Role a) (Role b) then String.leb (Addr a) (Addr b) = true
  else String.ltb (Role a) (Role b) = true.
#[export] Instance key_le_dec : RelDecision key_le.
Proof. intros a b. unfold key_le. destruct (String.eqb _ _); apply _. Defined.

Definition probed (probeMME probePGW : bool) (k : Key) : bool :=
  negb (String.eqb (Role k) RoleMME && negb probeMME)
  && negb (String.eqb (Role k) RolePGW && negb probePGW).

Definition ProbeTargets (probeMME probePGW : bool) (t : Table) : list Key :=
  merge_sort key_le (filter (fun k => probed probeMME probePGW k = true) (elements (dom (peers t)))).

(** The records in the order of the listings. *)
Definition sorted_peers (t : Table) : list peer :=
  omap (fun k => peers t !! k) (merge_sort key_le (elements (dom (peers t)))).

(** [Snapshot] copies every field of the record. *)
Definition Snapshot (t : Table) : list peer := sorted_peers t.

Definition CheckpointSnapshots (now : time) (t : Table) : list Checkpoint.PeerSnapshot :=
  (fun p => checkpointSnapshotLocked p now) <$> sorted_peers t.

(** ** Restoring checkpoints *)

Definition restore_peer (s : Checkpoint.PeerSnapshot) (now : time) (p : peer) : peer :=
  p <| state := if String.eqb (Checkpoint.ps_State s) "" then StateUnknown
                else Checkpoint.ps_State s |>
    <| lastStateChange := or_now (Checkpoint.ps_UpdatedAt s) now |>
    <| recoverySeen := Checkpoint.ps_RecoverySeen s |>
    <| recoveryCounter := Checkpoint.ps_RecoveryCounter s |>
    <| restartDetectedAt := Checkpoint.ps_RestartDetectedAt s |>
    <| restarts := Checkpoint.ps_Restarts s |>.

Definition restorable (s : Checkpoint.PeerSnapshot) : bool :=
  (String.eqb (Checkpoint.ps_Role s) RoleMME || String.eqb (Checkpoint.ps_Role s) RolePGW)
  && negb (String.eqb (Checkpoint.ps_Addr s) "").

Fixpoint RestoreCheckpointSnapshots (now : time) (snapshots : list Checkpoint.PeerSnapshot)
    (t : Table) : Z * Table :=
  match snapshots with
  | [] => (0, t)
  | s :: rest =>
      if restorable s then
        let k := mkKey (Checkpoint.ps_Role s) (NormalizeEndpoint (Checkpoint.ps_Addr s)) in
        let p := restore_peer s now (getOrCreateLocked k now t) in
        let '(n, t) := RestoreCheckpointSnapshots now rest (t <| peers := <[k := p]> (peers t) |>) in
        (n + 1, t)
      else RestoreCheckpointSnapshots now rest t
  end.

(** ** MultiHandler: the calls of an event reach every handler, in order *)

Section MultiHandler.
Context {W : Type}.
(** A handler acts on the world; [None] is a nil entry. *)
Definition EventHandler : Type := call -> W -> W.
Definition MultiHandler (m : list (option EventHandler)) : EventHandler := fun c w =>
  fold_left (fun w h => match h with Some h => h c w | None => w end) m w.
Definition deliver (h : EventHandler) (calls : list call) (w : W) : W :=
  fold_left (fun w c => h c w) calls w.
End MultiHandler.

(** ** The Echo prober

    [send] runs one Echo procedure within the timeout and yields the round trip time and
    the recovery counter, or [None] for an error; it and [nextSeq] are the functions the
    prober is built with, the clock is the world's. *)

Record ProberConfig := mkProberConfig {
  Enabled : bool; EchoInterval : duration; EchoTimeout : duration;
  pc_SuspectAfterMissed : Z; pc_DownAfterMissed : Z; pc_DegradedRTT : duration;
  ProbeMMEPeers : bool; ProbePGWPeers : bool
}.
#[export] Instance eta_ProberConfig : Eta ProberConfig := fun c =>
  mkProberConfig (Enabled c) (EchoInterval c) (EchoTimeout c) (pc_SuspectAfterMissed c)
    (pc_DownAfterMissed c) (pc_DegradedRTT c) (ProbeMMEPeers c) (ProbePGWPeers c).

Definition probe_config (c : ProberConfig) : ProbeConfig :=
  mkProbeConfig (pc_SuspectAfterMissed c) (pc_DownAfterMissed c) (pc_DegradedRTT c).

(** The intervals [Run] falls back to; [None] when it does not start. *)
Definition Run_config (table_set send_set nextSeq_set : bool) (c : ProberConfig)
    : option ProberConfig :=
  if negb (Enabled c) || negb table_set || negb send_set || negb nextSeq_set then None
  else
    let c := if EchoInterval c <=? 0 then c <| EchoInterval := 30 * Second |> else c in
    Some (if EchoTimeout c <=? 0 then c <| EchoTimeout := 3 * Second |> else c).

Section Prober.
Context {W : Type}.
Variable now : W -> time * W.
Variable nextSeq : Key -> W -> Z * W.
Variable send : duration -> Key -> Z -> W -> option (duration * option Z) * W.
Variable cfg : ProberConfig.

(** One target: the Echo is marked as sent before it is sent. *)
Definition probe_target (target : Key) (t : Table) (w : W) : Table * list call * W :=
let '(seq, w) := nextSeq target w in
let '(at1, w) := now w in
let '(t, calls1) := MarkEchoSent at1 (Role target) (Addr target) seq t in
let '(res, w) := send (EchoTimeout cfg) target seq w in
let '(at2, w) := now w in
let '(t, calls2) :=
  match res with
  | None => MarkEchoTimeout at2 (Role target) (Addr target) seq (probe_config cfg) t
  | Some (rtt, recovery) =>
      MarkEchoResponse at2 (Role target) (Addr target) seq rtt recovery (probe_config cfg) t
  end in
(t, (calls1 ++ calls2)%list, w).

Fixpoint probe_targets (targets : list Key) (t : Table) (w : W) : Table * list call * W :=
match targets with
| [] => (t, [], w)
| target :: rest =>
    let '(t, calls1, w) := probe_target target t w in
    let '(t, calls2, w) := probe_targets rest t w in
    (t, (calls1 ++ calls2)%list, w)
end.

Definition probeOnce (t : Table) (w : W) : Table * list call * W :=
probe_targets (ProbeTargets (ProbeMMEPeers cfg) (ProbePGWPeers cfg) t) t w.
End Prober.

(** ** Histories of operations *)

Inductive op :=
| OpEchoSent (now : time) (role addr : string) (seq : Z)
| OpEchoResponse (now : time) (role addr : string) (seq : Z) (rtt : duration)
    (recovery : option Z) (cfg : ProbeConfig)
| OpEchoTimeout (now : time) (role addr : string) (seq : Z) (cfg : ProbeConfig)
| OpObserve (now : time) (role : string) (addr : option UDPAddr) (msgType seq : Z)
    (recovery : option Z)
| OpObserveAddr (now : time) (role addr : string) (msgType seq : Z) (recovery : option Z).

Definition exec (o : op) (t : Table) : Table * list call :=
  match o with
  | OpEchoSent now role addr seq => MarkEchoSent now role addr seq t
  | OpEchoResponse now role addr seq rtt recovery cfg =>
      MarkEchoResponse now role addr seq rtt recovery cfg t
  | OpEchoTimeout now role addr seq cfg => MarkEchoTimeout now role addr seq cfg t
  | OpObserve now role addr mt seq recovery => Observe now role addr mt seq recovery t
  | OpObserveAddr now role addr mt seq recovery => ObserveAddr now role addr mt seq recovery t
  end.

Fixpoint run (ops : list op) (t : Table) : Table * list call :=
  match ops with
  | [] => (t, [])
  | o :: ops =>
      let '(t, calls1) := exec o t in
      let '(t, calls2) := run ops t in
      (t, (calls1 ++ calls2)%list)
  end.

(** What the table says of one peer; an unknown peer is in the unknown state. *)
Definition state_of (t : Table) (k : Key) : string := from_option state StateUnknown (peers t !! k).
Definition recovery_of (t : Table) (k : Key) : option Z :=
  p ← peers t !! k; if recoverySeen p then Some (recoveryCounter p) else None.
Definition restarts_of (t : Table) (k : Key) : Z := from_option restarts 0 (peers t !! k).

(** The calls about one peer. *)
Definition changes_of (k : Key) : list call -> list (string * string) :=
  omap (fun c => match c with
                 | OnPeerStateChange e =>
                     if decide (mkKey (sc_Role e) (sc_Addr e) = k)
                     then Some (OldState e, NewState e) else None
                 | _ => None end).
Definition restart_events_of (k : Key) : list call -> list (Z * Z) :=
  omap (fun c => match c with
                 | OnPeerRestart e =>
                     if decide (mkKey (re_Role e) (re_Addr e) = k)
                     then Some (OldRecovery e, NewRecovery e) else None
                 | _ => None end).
Definition snapshots_of (k : Key) : list call -> list Checkpoint.PeerSnapshot :=
  omap (fun c => match c with
                 | SavePeerSnapshot s =>
                     if decide (mkKey (Checkpoint.ps_Role s) (Checkpoint.ps_Addr s) = k)
                     then Some s else None
                 | _ => None end).

(** A handler that only knows the notifications: each must start where the previous one
    ended and must change something; the result is the last value. *)
Fixpoint follow {A} `{EqDecision A} (changes : list (A * A)) (a : A) : option A :=
  match changes with
  | [] => Some a
  | (o, n) :: rest => if decide (o = a /\ n <> a) then follow rest n else None
  end.

Lemma changes_of_app k c1 c2 : changes_of k (c1 ++ c2) = (changes_of k c1 ++ changes_of k c2)%list.
Proof. apply omap_app. Qed.

(** Every record is stored under its own key. *)
Definition keyed (t : Table) : Prop := forall k p, peers t !! k = Some p -> key p = k.

(** The peer an operation is about. *)
Definition target_of (o : op) : option Key :=
  match o with
  | OpEchoSent _ role addr _ | OpEchoResponse _ role addr _ _ _ _ | OpEchoTimeout _ role addr _ _
  | OpObserveAddr _ role addr _ _ _ =>
      if String.eqb addr "" then None else Some (mkKey role (NormalizeEndpoint addr))
  | OpObserve _ role addr _ _ _ =>
      (fun a => mkKey role (NormalizeUDPAddr (Some a))) <$> addr
  end.

(** One operation: nothing, or one record replaced and the calls that tell so. *)
Record committed (t t' : Table) (calls : list call) (k : Key) (now : time)
    (p p' : peer) (log : option (Z * Z)) : Prop := mkCommitted {
  cm_old : p = getOrCreateLocked k now t;
  cm_table : t' = t <| peers := <[k := p']> (peers t) |>;
  cm_key : key p' = key p;
  cm_calls : exists reason,
    calls = (emitPeerCheckpoint (checkpointSink t) (checkpointSnapshotLocked p' now)
      ++ notifyStateChange (eventHandler t)
           (mkStateChangeEvent (Role k) (Addr k) (state p) (state p') reason now)
      ++ notifyRestart (eventHandler t) (Role k) (Addr k) log now)%list;
  cm_log : match log with
           | None => restarts p' = restarts p /\
               (recoverySeen p = true ->
                recoverySeen p' = true /\ recoveryCounter p' = recoveryCounter p)
           | Some (o, n) => recoverySeen p = true /\ recoveryCounter p = o /\ o <> n /\
               recoverySeen p' = true /\ recoveryCounter p' = n /\
               restarts p' = u64 (restarts p + 1)
           end
}.

(** ** Lemmas: one operation *)

Lemma follow_app {A} `{EqDecision A} (c1 c2 : list (A * A)) a :
  follow (c1 ++ c2) a = (b ← follow c1 a; follow c2 b).
Proof.
  revert a. induction c1 as [|[o n] c1 IH]; intros a; simpl; [done|].
  case_decide; [apply IH|done].
Qed.

Lemma applyRecovery_spec r now q log q' :
  applyRecoveryLocked r now q = (log, q') ->
  key q' = key q /\ state q' = state q /\ consecutiveMisses q' = consecutiveMisses q /\
  match log with
  | None => restarts q' = restarts q /\
      (recoverySeen q = true -> recoverySeen q' = true /\ recoveryCounter q' = recoveryCounter q)
  | Some (o, n) => recoverySeen q = true /\ recoveryCounter q = o /\ o <> n /\
      recoverySeen q' = true /\ recoveryCounter q' = n /\ restarts q' = u64 (restarts q + 1)
  end.
Proof.
  unfold applyRecoveryLocked. intros E. destruct r as [r|]; [|by simplify_eq].
  destruct (recoverySeen q) eqn:Es, (recoveryCounter q =? r) eqn:Er; simpl in E; simplify_eq;
    cbn; rewrite ?Z.eqb_eq, ?Z.eqb_neq in Er; repeat split; try done; by intros.
Qed.

Lemma echo_answered_spec now seq rtt cfg p :
  let q := echo_answered now seq rtt cfg p in
  key q = key p /\ recoverySeen q = recoverySeen p /\ recoveryCounter q = recoveryCounter p /\
  restarts q = restarts p /\ consecutiveMisses q = 0 /\
  state q = (if (0 <? DegradedRTT cfg) && (DegradedRTT cfg <? rtt) then StateDegraded else StateUp).
Proof. cbv zeta. unfold echo_answered. by destruct ((0 <? _) && _). Qed.

Lemma observe_committed now role addr mt seq r t :
  exists p p' log, committed t (observe now role addr mt seq r t).1
    (observe now role addr mt seq r t).2 (mkKey role addr) now p p' log.
Proof.
  unfold observe. set (p := getOrCreateLocked _ _ _).
  set (q := if negb _ then _ else p). set (q' := q <| lastSeenAt := _ |> <| lastMsgType := _ |> <| lastSeq := _ |>).
  destruct (applyRecoveryLocked r now q') as [log p'] eqn:E. cbn [fst snd].
  destruct (applyRecovery_spec _ _ _ _ _ E) as (Hk & Hs & _ & Hl).
  assert (key q' = key p /\ state q' = StateUp /\ recoverySeen q' = recoverySeen p /\
          recoveryCounter q' = recoveryCounter p /\ restarts q' = restarts p) as (Hk' & Hs' & H1 & H2 & H3).
  { subst q' q. destruct (String.eqb_spec (state p) StateUp); cbn; done. }
  exists p, p', log. split; [done|done|congruence| |].
  - exists "valid_gtpc_message". by rewrite Hs, Hs'.
  - by rewrite H1, H2, H3 in Hl.
Qed.

Lemma MarkEchoResponse_committed now role addr seq rtt r cfg t : addr <> "" ->
  exists p p' log, committed t (MarkEchoResponse now role addr seq rtt r cfg t).1
    (MarkEchoResponse now role addr seq rtt r cfg t).2 (mkKey role (NormalizeEndpoint addr)) now p p' log.
Proof.
  intros Ha. unfold MarkEchoResponse. rewrite (proj2 (String.eqb_neq _ _) Ha). cbv zeta.
  set (p := getOrCreateLocked _ _ _).
  destruct (applyRecoveryLocked r now _) as [log p'] eqn:E. cbn [fst snd].
  destruct (applyRecovery_spec _ _ _ _ _ E) as (Hk & Hs & _ & Hl).
  destruct (echo_answered_spec now seq rtt cfg p) as (H0 & H1 & H2 & H3 & _).
  rewrite H1, H2, H3 in Hl. exists p, p', log. split; [done|done|congruence| |done].
  by exists "echo_response".
Qed.

Lemma MarkEchoTimeout_committed now role addr seq cfg t : addr <> "" ->
  exists p p' log, committed t (MarkEchoTimeout now role addr seq cfg t).1
    (MarkEchoTimeout now role addr seq cfg t).2 (mkKey role (NormalizeEndpoint addr)) now p p' log.
Proof.
  intros Ha. unfold MarkEchoTimeout. rewrite (proj2 (String.eqb_neq _ _) Ha). cbv zeta.
  set (p := getOrCreateLocked _ _ _). eexists p, _, None. split; [done..| |done].
  exists "echo_timeout". cbn [notifyRestart]. by rewrite app_nil_r.
Qed.

Lemma MarkEchoSent_committed now role addr seq t : addr <> "" ->
  exists p p' log, committed t (MarkEchoSent now role addr seq t).1
    (MarkEchoSent now role addr seq t).2 (mkKey role (NormalizeEndpoint addr)) now p p' log.
Proof.
  intros Ha. unfold MarkEchoSent. rewrite (proj2 (String.eqb_neq _ _) Ha). cbv zeta.
  set (p := getOrCreateLocked _ _ _). eexists p, _, None. split; [done..| |done].
  exists "". unfold notifyStateChange. cbn [OldState NewState state notifyRestart].
  rewrite String.eqb_refl, orb_true_r, !app_nil_r. done.
Qed.

Lemma exec_committed o t :
  exec o t = (t, []) \/
  exists k, target_of o = Some k /\
    exists now p p' log, committed t (exec o t).1 (exec o t).2 k now p p' log.
Proof.
  destruct o as [now role addr seq|now role addr seq rtt r cfg|now role addr seq cfg
                |now role addr mt seq r|now role addr mt seq r]; cbn [exec target_of].
  1-3: destruct (String.eqb_spec addr "") as [->|Ha]; [by left|right; do 2 eexists; [done|]; eexists].
  - by apply MarkEchoSent_committed.
  - by apply MarkEchoResponse_committed.
  - by apply MarkEchoTimeout_committed.
  - destruct addr as [a|]; [|by left]. right. do 2 eexists; [done|]. eexists. apply observe_committed.
  - unfold ObserveAddr. destruct (String.eqb_spec addr ""); [by left|].
    right. do 2 eexists; [done|]. eexists. apply observe_committed.
Qed.

(** ** Lemmas: what one operation tells of each peer *)

Section Committed.
Context {t t' : Table} {calls : list call} {k : Key} {now : time} {p p' : peer}
  {log : option (Z * Z)} (C : committed t t' calls k now p p' log).

Lemma committed_flags : eventHandler t' = eventHandler t /\ checkpointSink t' = checkpointSink t.
Proof using C. by rewrite (cm_table _ _ _ _ _ _ _ _ C). Qed.

Lemma committed_lookup : peers t' !! k = Some p'.
Proof using C. rewrite (cm_table _ _ _ _ _ _ _ _ C). apply lookup_insert_eq. Qed.

Lemma committed_frame k' : k' <> k -> peers t' !! k' = peers t !! k'.
Proof using C. intros. rewrite (cm_table _ _ _ _ _ _ _ _ C). by apply lookup_insert_ne. Qed.

Lemma committed_old_state : state_of t k = state p.
Proof using C.
  rewrite (cm_old _ _ _ _ _ _ _ _ C). unfold state_of, getOrCreateLocked.
  by destruct (peers t !! k).
Qed.

Lemma committed_old_recovery :
  recovery_of t k = (if recoverySeen p then Some (recoveryCounter p) else None) /\
  restarts_of t k = restarts p.
Proof using C.
  rewrite (cm_old _ _ _ _ _ _ _ _ C). unfold recovery_of, restarts_of, getOrCreateLocked.
  by destruct (peers t !! k).
Qed.

Lemma committed_keyed : keyed t -> keyed t' /\ key p' = k.
Proof using C.
  intros H. assert (key p' = k) as E.
  { rewrite (cm_key _ _ _ _ _ _ _ _ C), (cm_old _ _ _ _ _ _ _ _ C). unfold getOrCreateLocked.
    destruct (peers t !! k) eqn:Hp; [by apply H|done]. }
  split; [|done]. intros k0 q Hq. destruct (decide (k0 = k)) as [->|].
  - rewrite committed_lookup in Hq. by simplify_eq.
  - rewrite committed_frame in Hq by done. by apply H.
Qed.

Lemma committed_changes k' : eventHandler t = true ->
  changes_of k' calls = if decide (k = k' /\ state p <> state p') then [(state p, state p')] else [].
Proof using C.
  intros Hh. destruct (cm_calls _ _ _ _ _ _ _ _ C) as [reason ->].
  unfold changes_of. rewrite !omap_app.
  assert (forall c, omap (fun c => match c with
    | OnPeerStateChange e => if decide (mkKey (sc_Role e) (sc_Addr e) = k')
        then Some (OldState e, NewState e) else None | _ => None end)
    (notifyRestart (eventHandler t) (Role k) (Addr k) c now) = []) as ->.
  { intros [[o n]|]; simpl; [by destruct (eventHandler t)|done]. }
  unfold emitPeerCheckpoint, notifyStateChange. rewrite Hh. cbn [negb orb OldState NewState].
  assert (mkKey (Role k) (Addr k) = k) as Ek by by destruct k.
  destruct (negb _ || _ || _), (String.eqb_spec (state p) (state p')); simpl; rewrite ?Ek;
    repeat case_decide; naive_solver.
Qed.

Lemma committed_restarts k' : eventHandler t = true ->
  restart_events_of k' calls
    = match log with Some on => if decide (k = k') then [on] else [] | None => [] end.
Proof using C.
  intros Hh. destruct (cm_calls _ _ _ _ _ _ _ _ C) as [reason ->].
  unfold restart_events_of. rewrite !omap_app.
  unfold emitPeerCheckpoint, notifyStateChange. rewrite Hh. cbn [negb orb OldState NewState].
  assert (mkKey (Role k) (Addr k) = k) as Ek by by destruct k.
  destruct (negb _ || _ || _), (String.eqb_spec (state p) (state p')), log as [[lo ln]|];
    simpl; rewrite ?Ek; repeat case_decide; naive_solver.
Qed.

Lemma committed_snapshots k' : checkpointSink t = true -> key p' = k ->
  snapshots_of k' calls
    = if decide (k = k' /\ Role k <> "" /\ Addr k <> "") then [checkpointSnapshotLocked p' now] else [].
Proof using C.
  intros Hs Hk. destruct (cm_calls _ _ _ _ _ _ _ _ C) as [reason ->].
  unfold snapshots_of. rewrite !omap_app.
  unfold emitPeerCheckpoint, notifyStateChange. rewrite Hs. cbn [negb orb].
  assert (Checkpoint.ps_Role (checkpointSnapshotLocked p' now) = Role k) as -> by by rewrite <- Hk.
  assert (Checkpoint.ps_Addr (checkpointSnapshotLocked p' now) = Addr k) as -> by by rewrite <- Hk.
  assert (mkKey (Role k) (Addr k) = k) as Ek by by destruct k.
  destruct (String.eqb_spec (Role k) ""), (String.eqb_spec (Addr k) ""),
    (negb (eventHandler t) || _), log as [[lo ln]|], (eventHandler t);
    simpl; rewrite ?Hk, ?Ek; repeat case_decide; naive_solver.
Qed.
End Committed.

(** ** Histories: the calls replay the table *)

(** What the calls of a history tell about one peer, between two tables. *)
Record tells (t t' : Table) (calls : list call) (k : Key) : Prop := mkTells {
  tl_state : follow (changes_of k calls) (state_of t k) = Some (state_of t' k);
  tl_restarts : restarts_of t' k = u64 (restarts_of t k + Z.of_nat (length (restart_events_of k calls)));
  tl_recovery : match recovery_of t' k with
    | Some c' => exists c, follow (restart_events_of k calls) c = Some c' /\
        (forall c0, recovery_of t k = Some c0 -> c = c0)
    | None => restart_events_of k calls = [] /\ recovery_of t k = None
    end;
  tl_checkpoint : Role k <> "" -> Addr k <> "" ->
    match last (snapshots_of k calls) with
    | Some s => exists p at_, peers t' !! k = Some p /\ s = checkpointSnapshotLocked p at_
    | None => peers t' !! k = peers t !! k
    end
}.

Lemma tells_nil t k : in_u 64 (restarts_of t k) -> tells t t [] k.
Proof.
  intros H. split; simpl; [done|by rewrite Z.add_0_r, uN_small| |done].
  destruct (recovery_of t k) as [c|]; [|done]. exists c. split; [done|]. congruence.
Qed.

Lemma tells_app t1 t2 t3 c1 c2 k :
  tells t1 t2 c1 k -> tells t2 t3 c2 k -> tells t1 t3 (c1 ++ c2) k.
Proof.
  intros [S1 N1 R1 P1] [S2 N2 R2 P2].
  split; unfold changes_of, restart_events_of, snapshots_of in *; rewrite ?omap_app.
  - by rewrite follow_app, S1.
  - rewrite N2, N1, length_app, Nat2Z.inj_add. unfold uN.
    rewrite Zplus_mod_idemp_l. f_equal. lia.
  - destruct (recovery_of t3 k) as [c3|].
    + destruct R2 as (b & Hb & Hb2). destruct (recovery_of t2 k) as [c2'|].
      * destruct R1 as (a & Ha & Ha2). exists a. split; [|done].
        rewrite follow_app, Ha. simpl. by rewrite <- (Hb2 _ eq_refl).
      * destruct R1 as [E1 E2]. exists b. rewrite follow_app, E1. split; [done|]. congruence.
    + destruct R2 as [E2 E2']. rewrite E2' in R1. destruct R1 as [-> ->]. by rewrite E2.
  - intros Hr Ha. specialize (P1 Hr Ha). specialize (P2 Hr Ha). rewrite last_app.
    destruct (last (omap _ c2)); [done|]. by rewrite P2.
Qed.

Lemma committed_tells t t' calls k now p p' log k' :
  committed t t' calls k now p p' log -> keyed t -> eventHandler t = true ->
  checkpointSink t = true -> in_u 64 (restarts_of t k') -> tells t t' calls k'.
Proof.
  intros C Hk Hh Hs Hu. destruct (committed_keyed C Hk) as [_ Hp'].
  pose proof (committed_changes C k' Hh) as Hc. pose proof (committed_restarts C k' Hh) as Hr.
  pose proof (committed_snapshots C k' Hs Hp') as Hn.
  pose proof (committed_lookup C) as Hl.
  destruct (decide (k = k')) as [<-|Hne].
  - destruct (committed_old_recovery C) as [Or On]. rewrite On in Hu.
    pose proof (committed_old_state C) as Os. pose proof (cm_log _ _ _ _ _ _ _ _ C) as Lg.
    split; rewrite ?Hc, ?Hr, ?Hn, ?Or, ?On, ?Os; unfold state_of, restarts_of, recovery_of; rewrite Hl; cbn [from_option mbind option_bind].
    + destruct (decide (k = k /\ state p <> state p')) as [[_ ?]|]; cbn [follow];
        [by rewrite decide_True by naive_solver|].
      f_equal. destruct (decide (state p = state p')); naive_solver.
    + destruct log as [[o n]|]; [naive_solver|].
      simpl. rewrite Z.add_0_r, uN_small by done. naive_solver.
    + destruct log as [[o n]|].
      * destruct Lg as (E1 & E2 & E3 & E4 & E5 & _). rewrite E1, E2, E4, E5.
        exists o. cbn [follow]. rewrite decide_True by naive_solver. split; [done|]. congruence.
      * destruct (recoverySeen p), (recoverySeen p'); naive_solver.
    + intros H1 H2. rewrite decide_True by done. cbn [last]. eauto.
  - pose proof (committed_frame C k' (not_eq_sym Hne)) as Hf.
    assert (restart_events_of k' calls = []) as Hr0 by (rewrite Hr; by destruct log).
    assert (changes_of k' calls = []) as Hc0 by (rewrite Hc; by rewrite ?decide_False by naive_solver).
    split; rewrite ?Hc0, ?Hr0, ?Hn; unfold state_of, restarts_of, recovery_of in *; rewrite ?Hf.
    + done.
    + simpl. by rewrite Z.add_0_r, uN_small.
    + destruct (_ ≫= _) as [c|]; [|done]. exists c. split; [done|]. congruence.
    + intros _ _. by rewrite ?decide_False by naive_solver.
Qed.

Lemma exec_tells o t k : keyed t -> eventHandler t = true -> checkpointSink t = true ->
  in_u 64 (restarts_of t k) -> tells t (exec o t).1 (exec o t).2 k.
Proof.
  intros. destruct (exec_committed o t) as [->|(k0 & _ & now & p & p' & log & C)].
  - by apply tells_nil.
  - by eapply committed_tells.
Qed.

Lemma exec_keyed o t : keyed t -> keyed (exec o t).1 /\
  eventHandler (exec o t).1 = eventHandler t /\ checkpointSink (exec o t).1 = checkpointSink t.
Proof.
  intros Hk. destruct (exec_committed o t) as [->|(k0 & _ & now & p & p' & log & C)]; [done|].
  split; [by apply (committed_keyed C)|by apply (committed_flags C)].
Qed.

Lemma run_tells ops : forall t k, keyed t -> eventHandler t = true -> checkpointSink t = true ->
  in_u 64 (restarts_of t k) -> tells t (run ops t).1 (run ops t).2 k.
Proof.
  induction ops as [|o ops IH]; intros t k Hk Hh Hs Hu; simpl; [by apply tells_nil|].
  pose proof (exec_tells o t k Hk Hh Hs Hu) as T1. destruct (exec_keyed o t Hk) as (Hk1 & Hh1 & Hs1).
  destruct (exec o t) as [t1 c1]. cbn [fst snd] in *.
  assert (in_u 64 (restarts_of t1 k)) as Hu1
    by (rewrite (tl_restarts _ _ _ _ T1); by apply uN_range).
  specialize (IH t1 k Hk1 ltac:(congruence) ltac:(congruence) Hu1).
  destruct (run ops t1) as [t2 c2]. by eapply tells_app.
Qed.

(** The notifications are about the peers of the operations. *)
Definition event_key (c : call) : option Key :=
  match c with
  | SavePeerSnapshot _ => None
  | OnPeerStateChange e => Some (mkKey (sc_Role e) (sc_Addr e))
  | OnPeerRestart e => Some (mkKey (re_Role e) (re_Addr e))
  end.

Lemma exec_event_key o t c k : c ∈ (exec o t).2 -> event_key c = Some k -> target_of o = Some k.
Proof.
  intros Hc Ek. destruct (exec_committed o t) as [E|(k0 & Ht & now & p & p' & log & C)].
  { rewrite E in Hc. by apply not_elem_of_nil in Hc. }
  destruct (cm_calls _ _ _ _ _ _ _ _ C) as [reason E]. rewrite E in Hc. rewrite Ht. f_equal.
  unfold emitPeerCheckpoint, notifyStateChange, notifyRestart in Hc.
  destruct k0, (negb _ || _ || _), (negb _ || _), log as [[lo ln]|], (eventHandler t);
    repeat (apply elem_of_app in Hc as [Hc|Hc]); repeat (apply elem_of_cons in Hc as [Hc|Hc]);
    try (by apply not_elem_of_nil in Hc); subst c; cbn in Ek; by simplify_eq.
Qed.

Lemma run_event_key ops : forall t c k, c ∈ (run ops t).2 -> event_key c = Some k ->
  exists o, o ∈ ops /\ target_of o = Some k.
Proof.
  induction ops as [|o ops IH]; intros t c k Hc Ek; simpl in Hc; [by apply not_elem_of_nil in Hc|].
  pose proof (exec_event_key o t c k) as H1. destruct (exec o t) as [t1 c1].
  specialize (IH t1 c k). destruct (run ops t1) as [t2 c2]. cbn [snd] in *.
  apply elem_of_app in Hc as [Hc|Hc].
  - exists o. split; [set_solver|auto].
  - destruct (IH Hc Ek) as (o' & ? & ?). exists o'. split; [set_solver|done].
Qed.

(** ** Histories: the state of a peer is a function of what happened *)

(** The state and the missed Echoes after one operation on the peer: a message leaves the
    misses alone, only an Echo response clears them. *)
Definition supervise (o : op) (sm : string * Z) : string * Z :=
  match o with
  | OpEchoSent _ _ _ _ => sm
  | OpEchoResponse _ _ _ _ rtt _ cfg =>
      (if (0 <? DegradedRTT cfg) && (DegradedRTT cfg <? rtt) then StateDegraded else StateUp, 0)
  | OpEchoTimeout _ _ _ _ cfg => (missed_state cfg (i64 (sm.2 + 1)), i64 (sm.2 + 1))
  | OpObserve _ _ _ _ _ _ | OpObserveAddr _ _ _ _ _ _ => (StateUp, sm.2)
  end.

Definition supervised (k : Key) (ops : list op) (sm : string * Z) : string * Z :=
  fold_left (fun sm o => if decide (target_of o = Some k) then supervise o sm else sm) ops sm.

Definition supervision_of (t : Table) (k : Key) : string * Z :=
  (state_of t k, from_option consecutiveMisses 0 (peers t !! k)).

Lemma supervision_insert t k p k' : supervision_of (t <| peers := <[k := p]> (peers t) |>) k'
  = if decide (k = k') then (state p, consecutiveMisses p) else supervision_of t k'.
Proof.
  unfold supervision_of, state_of. cbn. case_decide as E.
  - by rewrite <- E, lookup_insert_eq.
  - by rewrite lookup_insert_ne.
Qed.

Lemma supervision_get t k now :
  supervision_of t k = (state (getOrCreateLocked k now t), consecutiveMisses (getOrCreateLocked k now t)).
Proof. unfold supervision_of, state_of, getOrCreateLocked. by destruct (peers t !! k). Qed.

Lemma observe_supervision now role addr mt seq r t k :
  supervision_of (observe now role addr mt seq r t).1 k
  = if decide (mkKey role addr = k) then (StateUp, (supervision_of t k).2) else supervision_of t k.
Proof.
  unfold observe. rewrite (supervision_get t k now).
  destruct (applyRecoveryLocked r now _) as [log p'] eqn:E. cbn [fst].
  destruct (applyRecovery_spec _ _ _ _ _ E) as (_ & Hs & Hm & _).
  rewrite supervision_insert, <- (supervision_get t k now). case_decide as Ek; [|done].
  rewrite <- Ek, (supervision_get t _ now), Hs, Hm.
  destruct (String.eqb_spec (state (getOrCreateLocked (mkKey role addr) now t)) StateUp) as [Es|]; cbn;
    [by rewrite Es|done].
Qed.

Lemma exec_supervision o t k : supervision_of (exec o t).1 k
  = if decide (target_of o = Some k) then supervise o (supervision_of t k) else supervision_of t k.
Proof.
  destruct o as [now role addr seq|now role addr seq rtt r cfg|now role addr seq cfg
                |now role addr mt seq r|now role addr mt seq r]; cbn [exec target_of supervise].
  - unfold MarkEchoSent. destruct (String.eqb addr ""); [done|]. cbv zeta. cbn [fst].
    rewrite supervision_insert. cbn. rewrite <- (supervision_get t _ now).
    repeat case_decide; naive_solver.
  - unfold MarkEchoResponse. destruct (String.eqb addr ""); [done|]. cbv zeta.
    destruct (applyRecoveryLocked r now _) as [log p'] eqn:E. cbn [fst].
    destruct (applyRecovery_spec _ _ _ _ _ E) as (_ & Hs & Hm & _).
    destruct (echo_answered_spec now seq rtt cfg (getOrCreateLocked (mkKey role (NormalizeEndpoint addr)) now t))
      as (_ & _ & _ & _ & Hm' & Hs').
    rewrite supervision_insert, Hs, Hm, Hs', Hm'. repeat case_decide; naive_solver.
  - unfold MarkEchoTimeout. destruct (String.eqb addr ""); [done|]. cbv zeta. cbn [fst].
    rewrite supervision_insert, (supervision_get t k now). cbn. repeat case_decide; naive_solver.
  - destruct addr as [a|]; cbn [Observe fmap option_fmap option_map]; [|by rewrite decide_False].
    rewrite observe_supervision. repeat case_decide; naive_solver.
  - unfold ObserveAddr. destruct (String.eqb addr ""); [by rewrite decide_False|].
    rewrite observe_supervision. repeat case_decide; naive_solver.
Qed.

Lemma run_supervision ops : forall t k,
  supervision_of (run ops t).1 k = supervised k ops (supervision_of t k).
Proof.
  induction ops as [|o ops IH]; intros t k; simpl; [done|]. unfold supervised in IH.
  rewrite <- exec_supervision. destruct (exec o t) as [t1 c1]. cbn [fst].
  specialize (IH t1 k). by destruct (run ops t1).
Qed.

(** ** The prober is such a history *)

Section ProberRun.
Context {W : Type}.
Variable now : W -> time * W.
Variable nextSeq : Key -> W -> Z * W.
Variable send : duration -> Key -> Z -> W -> option (duration * option Z) * W.
Variable cfg : ProberConfig.

(** Per target, in order: an Echo sent, then its response or its timeout, under the
    same sequence number. *)
Inductive probe_ops : list Key -> list op -> Prop :=
| probe_ops_nil : probe_ops [] []
| probe_ops_timeout k ks n1 n2 seq ops : probe_ops ks ops ->
    probe_ops (k :: ks) (OpEchoSent n1 (Role k) (Addr k) seq
      :: OpEchoTimeout n2 (Role k) (Addr k) seq (probe_config cfg) :: ops)
| probe_ops_response k ks n1 n2 seq rtt r ops : probe_ops ks ops ->
    probe_ops (k :: ks) (OpEchoSent n1 (Role k) (Addr k) seq
      :: OpEchoResponse n2 (Role k) (Addr k) seq rtt r (probe_config cfg) :: ops).

Lemma probe_targets_run ks : forall t w t' calls w',
  probe_targets now nextSeq send cfg ks t w = (t', calls, w') ->
  exists ops, probe_ops ks ops /\ run ops t = (t', calls).
Proof using.
  induction ks as [|k ks IH]; intros t w t' calls w' E; cbn [probe_targets] in E.
  { simplify_eq. eexists. by split; [constructor|]. }
  unfold probe_target in E. destruct (nextSeq k w) as [seq w1]. destruct (now w1) as [n1 w2].
  destruct (MarkEchoSent n1 (Role k) (Addr k) seq t) as [t1 c1] eqn:E1.
  destruct (send (EchoTimeout cfg) k seq w2) as [res w3]. destruct (now w3) as [n2 w4].
  destruct res as [[rtt r]|].
  1: destruct (MarkEchoResponse n2 (Role k) (Addr k) seq rtt r (probe_config cfg) t1)
    as [t2 c2] eqn:E2.
  2: destruct (MarkEchoTimeout n2 (Role k) (Addr k) seq (probe_config cfg) t1) as [t2 c2] eqn:E2.
  all: destruct (probe_targets now nextSeq send cfg ks t2 w4) as [[t3 c3] w5] eqn:E3; simplify_eq;
    destruct (IH _ _ _ _ _ E3) as (ops & Ho & Hr).
  - eexists. split; [by apply (probe_ops_response k ks n1 n2 seq rtt r)|].
    cbn [run exec]. by rewrite E1, E2, Hr, <- app_assoc.
  - eexists. split; [by apply (probe_ops_timeout k ks n1 n2 seq)|].
    cbn [run exec]. by rewrite E1, E2, Hr, <- app_assoc.
Qed.
End ProberRun.

(** ** Properties *)

(** C29: From a table whose handler and checkpoint sink are installed, and for every
    sequence of observed messages, Echo transmissions, answers and timeouts, the calls of
    the table tell the whole history of each peer: its state changes chain without a gap
    from the state before to the state after, its restart events chain the reported
    recovery counters and their number is the number of restarts counted, and the last
    checkpoint is the current record (no checkpoint means no change).  The state and the
    missed Echoes themselves are a function of what happened: a message makes the peer up
    and leaves the count of missed Echoes alone, only an Echo response clears it, and a
    timeout grades the peer by the thresholds. *)
Theorem peer_history ops t t' calls k :
  keyed t -> eventHandler t = true -> checkpointSink t = true -> in_u 64 (restarts_of t k) ->
  run ops t = (t', calls) ->
  follow (changes_of k calls) (state_of t k) = Some (state_of t' k) /\
  restarts_of t' k = u64 (restarts_of t k + Z.of_nat (length (restart_events_of k calls))) /\
  match recovery_of t' k with
  | Some c' => exists c, follow (restart_events_of k calls) c = Some c' /\
      (forall c0, recovery_of t k = Some c0 -> c = c0)
  | None => restart_events_of k calls = [] /\ recovery_of t k = None
  end /\
  (Role k <> "" -> Addr k <> "" ->
    match last (snapshots_of k calls) with
    | Some s => exists p at_, peers t' !! k = Some p /\ s = checkpointSnapshotLocked p at_
    | None => peers t' !! k = peers t !! k
    end) /\
  supervision_of t' k = supervised k ops (supervision_of t k).
Proof.
  intros Hk Hh Hs Hu E. pose proof (run_tells ops t k Hk Hh Hs Hu) as [T1 T2 T3 T4].
  pose proof (run_supervision ops t k) as T5. rewrite E in *. cbn [fst snd] in *. by split_and!.
Qed.

(** A PDN gateway that misses three Echoes, sends a message and misses one more Echo is
    down again at once; then it answers with another recovery counter. *)
Definition example_addr : string := "10.0.0.9:2123".
Definition example_cfg : ProbeConfig := mkProbeConfig 2 3 (500 * 1000000).
Definition example_ops : list op :=
  [OpEchoResponse 100 RolePGW "10.0.0.9" 1 5000 (Some 7) example_cfg;
   OpEchoResponse 100 RolePGW example_addr 1 5000 (Some 7) example_cfg;
   OpEchoTimeout 200 RolePGW example_addr 2 example_cfg;
   OpEchoTimeout 300 RolePGW example_addr 3 example_cfg;
   OpEchoTimeout 400 RolePGW example_addr 4 example_cfg;
   OpObserve 450 RolePGW (Some (mkUDPAddr [10; 0; 0; 9] 40000)) 33 77 None;
   OpEchoTimeout 500 RolePGW example_addr 5 example_cfg;
   OpEchoResponse 600 RolePGW example_addr 6 5000 (Some 8) example_cfg].
Definition example_table : Table := mkTable ∅ true true.

Lemma peer_history_witness :
  changes_of (mkKey RolePGW example_addr) (run example_ops example_table).2
    = [(StateUnknown, StateUp); (StateUp, StateDegraded); (StateDegraded, StateSuspect);
       (StateSuspect, StateDown); (StateDown, StateUp); (StateUp, StateDown); (StateDown, StateUp)] /\
  restart_events_of (mkKey RolePGW example_addr) (run example_ops example_table).2 = [(7, 8)] /\
  restarts_of (run example_ops example_table).1 (mkKey RolePGW example_addr) = 1 /\
  supervised (mkKey RolePGW example_addr) (take 7 example_ops) (StateUnknown, 0) = (StateDown, 4) /\
  follow (changes_of (mkKey RolePGW example_addr) (run example_ops example_table).2)
      (state_of example_table (mkKey RolePGW example_addr))
    = Some (state_of (run example_ops example_table).1 (mkKey RolePGW example_addr)).
Proof.
  split; [by vm_compute|]. split; [by vm_compute|]. split; [by vm_compute|]. split; [by vm_compute|].
  refine (proj1 (peer_history example_ops example_table _ _ (mkKey RolePGW example_addr) _
    eq_refl eq_refl _ (surjective_pairing _))).
  - intros k p. cbn [peers example_table]. by rewrite lookup_empty.
  - by vm_compute.
Defined.

(** An answer slower than the degraded threshold restarts the time of the last state
    change of a peer that is degraded already. *)
Example degraded_answer_moves_change_time :
  let slow at_ := OpEchoResponse at_ RolePGW example_addr 1 (600 * 1000000) None example_cfg in
  lastStateChange <$> peers (run [slow 100] example_table).1 !! mkKey RolePGW example_addr = Some 100 /\
  lastStateChange <$> peers (run [slow 100; slow 200] example_table).1 !! mkKey RolePGW example_addr
    = Some 200.
Proof. by vm_compute. Qed.
