(* ===== verification/PgwFailure.v ===== *)
(** * PGW failure handling ([internal/sgwc/pgwfailure/handler.go])

    The handler that the peer health table notifies: it marks the sessions of a PDN
    gateway whose path changed or that restarted, and keeps one record per gateway.  The
    world of the handler is its own record, the session manager and the calls that reach
    the checkpoint sink; [failure_follows_peers] composes it with the peer table. *)

From stdpp Require Import sorting.
From S2P Require Import Prelude GoLib SessionData Session SessionManager.
From S2P Require PeerHealth.

#[local] Open Scope string_scope.
#[local] Open Scope Z_scope.

Record Config := mkConfig {
  Enabled : bool; MarkSessionsOnPathDown : bool; MarkSessionsOnRestart : bool
}.

Record pgwState := mkPgwState {
  addr : string;
  state : string;
  lastStateChange : time;
  recoverySeen : bool;
  recoveryCounter : Z;
  restartDetectedAt : time;
  affectedSessions : nat;
  restarts : Z;
  pathDownEvents : Z
}.
#[export] Instance eta_pgwState : Eta pgwState := fun r =>
  mkPgwState (addr r) (state r) (lastStateChange r) (recoverySeen r) (recoveryCounter r)
    (restartDetectedAt r) (affectedSessions r) (restarts r) (pathDownEvents r).

Record Handler := mkHandler { cfg : Config; pgws : gmap string pgwState }.
#[export] Instance eta_Handler : Eta Handler := fun h => mkHandler (cfg h) (pgws h).

Definition NewHandler (c : Config) : Handler := mkHandler c ∅.

Definition pgwPathState (s : string) : string :=
  if String.eqb s PeerHealth.StateUp then PGWPathStateUp
  else if String.eqb s PeerHealth.StateDegraded then PGWPathStateDegraded
  else if String.eqb s PeerHealth.StateSuspect then PGWPathStateSuspect
  else if String.eqb s PeerHealth.StateDown then PGWPathStateDown
  else PGWPathStateUnknown.

Definition getOrCreateLocked (a : string) (h : Handler) : pgwState :=
  default (mkPgwState a PGWPathStateUnknown zero_time false 0 zero_time 0 0 0) (pgws h !! a).

Definition recordStateChange (now : time) (event : PeerHealth.StateChangeEvent) (st : string)
    (affected : nat) (h : Handler) : Handler :=
  let canonical := CanonicalGTPCEndpoint (PeerHealth.sc_Addr event) in
  if String.eqb canonical "" then h
  else
    let pgw := getOrCreateLocked canonical h in
    let at_ := or_now (PeerHealth.sc_At event) now in
    let pgw :=
      if negb (String.eqb (state pgw) st) then
        let pgw := if String.eqb st PGWPathStateDown
                   then pgw <| pathDownEvents := u64 (pathDownEvents pgw + 1) |> else pgw in
        pgw <| lastStateChange := at_ |>
      else pgw in
    let pgw := pgw <| state := st |> <| affectedSessions := affected |> in
    h <| pgws := <[canonical := pgw]> (pgws h) |>.

Definition recordRestart (now : time) (event : PeerHealth.RestartEvent) (affected : nat)
    (h : Handler) : Handler :=
  let canonical := CanonicalGTPCEndpoint (PeerHealth.re_Addr event) in
  if String.eqb canonical "" then h
  else
    let pgw := getOrCreateLocked canonical h in
    let at_ := or_now (PeerHealth.re_At event) now in
    let pgw := pgw <| state := PGWPathStateRestarted |> <| recoverySeen := true |>
                   <| recoveryCounter := PeerHealth.NewRecovery event |>
                   <| restartDetectedAt := at_ |> <| lastStateChange := at_ |>
                   <| affectedSessions := affected |> <| restarts := u64 (restarts pgw + 1) |> in
    h <| pgws := <[canonical := pgw]> (pgws h) |>.

(** The handler's record, the session manager, the checkpoint calls so far. *)
Definition world : Type := (Handler * Manager * list sink_call)%type.

(** [now] is the clock of the calls that need one, [order] the iteration order over the
    sessions of a gateway. *)
Definition OnPeerStateChange (now : time) (order : list string)
    (event : PeerHealth.StateChangeEvent) (w : world) : world :=
  let '(h, m, calls) := w in
  if negb (Enabled (cfg h)) || negb (MarkSessionsOnPathDown (cfg h)) then w
  else if negb (String.eqb (PeerHealth.sc_Role event) PeerHealth.RolePGW) then w
  else
    let st := pgwPathState (PeerHealth.NewState event) in
    let '(affected, (m, calls')) :=
      MarkPGWPathState now order (PeerHealth.sc_Addr event) st (PeerHealth.sc_At event) m in
    (recordStateChange now event st affected h, m, (calls ++ calls')%list).

Definition OnPeerRestart (now : time) (order : list string) (event : PeerHealth.RestartEvent)
    (w : world) : world :=
  let '(h, m, calls) := w in
  if negb (Enabled (cfg h)) || negb (MarkSessionsOnRestart (cfg h)) then w
  else if negb (String.eqb (PeerHealth.re_Role event) PeerHealth.RolePGW) then w
  else
    let '(affected, (m, calls')) :=
      Manager_MarkPGWRestart now order (PeerHealth.re_Addr event) (PeerHealth.NewRecovery event)
        (PeerHealth.re_At event) m in
    (recordRestart now event affected h, m, (calls ++ calls')%list).

Definition addr_le (a b : pgwState) : Prop := String.leb (addr a) (addr b) = true.
#[export] Instance addr_le_dec : RelDecision addr_le.
Proof. intros a b. unfold addr_le. apply _. Defined.

Definition Snapshot (h : Handler) : list pgwState :=
  merge_sort addr_le ((map_to_list (pgws h)).*2).

(** The handler as the event handler of the peer table. *)
Definition handle (now : time) (order : list string) : PeerHealth.EventHandler (W := world) :=
  fun c w =>
    match c with
    | PeerHealth.SavePeerSnapshot _ => w
    | PeerHealth.OnPeerStateChange e => OnPeerStateChange now order e w
    | PeerHealth.OnPeerRestart e => OnPeerRestart now order e w
    end.

(** ** Specification *)

(** What a call means for the path of the gateway [c] (a canonical endpoint). *)
Definition mark_of (c : string) (e : PeerHealth.call) : option string :=
  match e with
  | PeerHealth.SavePeerSnapshot _ => None
  | PeerHealth.OnPeerStateChange e =>
      if decide (PeerHealth.sc_Role e = PeerHealth.RolePGW
                 /\ CanonicalGTPCEndpoint (PeerHealth.sc_Addr e) = c)
      then Some (pgwPathState (PeerHealth.NewState e)) else None
  | PeerHealth.OnPeerRestart e =>
      if decide (PeerHealth.re_Role e = PeerHealth.RolePGW
                 /\ CanonicalGTPCEndpoint (PeerHealth.re_Addr e) = c)
      then Some PGWPathStateRestarted else None
  end.
Definition marks (c : string) (calls : list PeerHealth.call) : list string := omap (mark_of c) calls.

(** The registered sessions of a gateway, and the path state each of them carries. *)
Definition pgw_sessions (m : Manager) (c : string) : gmap string loc := default ∅ (byPGW m !! c).
Definition path_of (m : Manager) (l : loc) : option string :=
  (fun s => pf_PathState (PGWFailure s)) <$> heap m !! l.

(** The iteration order names the sessions of every gateway. *)
Definition order_covers (order : list string) (m : Manager) : Prop :=
  forall c id l, pgw_sessions m c !! id = Some l -> id ∈ order.

(** ** Lemmas *)

Lemma on_session_heap l f m l' :
  heap (on_session l f m).1 !! l' = if decide (l' = l) then (fun s => (f s).1) <$> heap m !! l'
                                    else heap m !! l'.
Proof.
  unfold on_session. case_decide as E.
  - subst l'. destruct (heap m !! l) as [s|] eqn:Hs; [|done].
    destruct (f s) as [s' c] eqn:Hf. cbn. by rewrite lookup_insert_eq, Hf.
  - destruct (heap m !! l) as [s|]; [|done]. destruct (f s). cbn. by rewrite lookup_insert_ne.
Qed.

Lemma on_session_byPGW l f m : byPGW (on_session l f m).1 = byPGW m.
Proof. unfold on_session. destruct (heap m !! l) as [s|]; [|done]. by destruct (f s). Qed.

Lemma on_sessions_byPGW ls f : forall m, byPGW (on_sessions ls f m).1 = byPGW m.
Proof.
  induction ls as [|l ls IH]; intros m; [done|]. cbn [on_sessions].
  pose proof (on_session_byPGW l f m) as E. destruct (on_session l f m) as [m1 c1].
  specialize (IH m1). destruct (on_sessions ls f m1). cbn in *. congruence.
Qed.

(** An operation that sets the path state to [st] whatever it was. *)
Lemma on_sessions_path ls f st : forall m l,
  (forall s, pf_PathState (PGWFailure (f s).1) = st) ->
  path_of (on_sessions ls f m).1 l
    = if decide (l ∈ ls) then (fun _ => st) <$> heap m !! l else path_of m l.
Proof.
  intros m l Hf. revert m. induction ls as [|l0 ls IH]; intros m; [done|]. cbn [on_sessions].
  pose proof (on_session_heap l0 f m l) as E. destruct (on_session l0 f m) as [m1 c1].
  specialize (IH m1). destruct (on_sessions ls f m1) as [m2 c2]. cbn [fst] in *. rewrite IH.
  unfold path_of in *. rewrite E. destruct (decide (l = l0)) as [->|Hne].
  - rewrite (decide_True (P := l0 ∈ l0 :: ls)) by set_solver.
    destruct (heap m !! l0) as [s|]; cbn; [|by case_decide]. case_decide; [done|]. by rewrite Hf.
  - destruct (decide (l ∈ ls)) as [Hi|Hi].
    + by rewrite decide_True by set_solver.
    + by rewrite decide_False by set_solver.
Qed.

Lemma FindByPGW_covers order addr m c id l :
  CanonicalGTPCEndpoint addr = c -> c <> "" -> order_covers order m ->
  pgw_sessions m c !! id = Some l -> l ∈ FindByPGW order addr m.
Proof.
  intros Hc Hne Ho Hl. unfold FindByPGW. rewrite Hc, (proj2 (String.eqb_neq _ _) Hne).
  apply list_elem_of_omap. exists id. split; [by apply (Ho c id l)|done].
Qed.

(** Every index that leads to a session of [c] leads nowhere else. *)
Definition pgw_disjoint (m : Manager) : Prop := forall c c' id id' l,
  pgw_sessions m c !! id = Some l -> pgw_sessions m c' !! id' = Some l -> c = c'.

Lemma FindByPGW_other order addr m c id l : pgw_disjoint m ->
  CanonicalGTPCEndpoint addr <> c -> pgw_sessions m c !! id = Some l -> l ∉ FindByPGW order addr m.
Proof.
  intros Hd Hne Hl Hin. unfold FindByPGW in Hin.
  destruct (String.eqb (CanonicalGTPCEndpoint addr) ""); [by apply not_elem_of_nil in Hin|].
  apply list_elem_of_omap in Hin as (id' & _ & Hl').
  by pose proof (Hd _ _ _ _ _ Hl Hl').
Qed.

(** The record of a gateway. *)
Definition gateway_state (h : Handler) (c : string) : string :=
  from_option state PGWPathStateUnknown (pgws h !! c).

(** Between two worlds, the gateway [c] was marked [mark]. *)
Record marked (c : string) (w w' : world) (mark : option string) : Prop := mkMarked {
  mk_cfg : cfg w'.1.1 = cfg w.1.1;
  mk_index : byPGW w'.1.2 = byPGW w.1.2;
  mk_state : gateway_state w'.1.1 c = default (gateway_state w.1.1 c) mark;
  mk_paths : forall id l, pgw_sessions w.1.2 c !! id = Some l ->
    path_of w'.1.2 l = (fun old => default old mark) <$> path_of w.1.2 l
}.

Lemma marked_none c w : marked c w w None.
Proof. split; try done. intros. by destruct (path_of w.1.2 l). Qed.

Lemma marked_trans c w1 w2 w3 a b :
  marked c w1 w2 a -> marked c w2 w3 b -> marked c w1 w3 (from_option Some a b).
Proof.
  intros [A1 A2 A3 A4] [B1 B2 B3 B4]. split; [congruence..| |].
  - rewrite B3, A3. by destruct a, b.
  - intros id l Hl. rewrite (B4 id l), (A4 id l) by (done || (unfold pgw_sessions; by rewrite A2)).
    by destruct (path_of w1.1.2 l), a, b.
Qed.

(** Marking the sessions of [addr] with [st], seen from the gateway [c]. *)
Lemma mark_sessions_paths order addr f st c m id l :
  c <> "" -> order_covers order m -> pgw_disjoint m -> pgw_sessions m c !! id = Some l ->
  (forall s, pf_PathState (PGWFailure (f s).1) = st) ->
  path_of (on_sessions (FindByPGW order addr m) f m).1 l
    = (fun old => default old (if decide (CanonicalGTPCEndpoint addr = c) then Some st else None))
        <$> path_of m l.
Proof.
  intros Hc Ho Hd Hl Hf. rewrite (on_sessions_path _ _ st) by done. unfold path_of.
  destruct (decide (CanonicalGTPCEndpoint addr = c)) as [E|E].
  - rewrite decide_True by by eapply FindByPGW_covers. by destruct (heap m !! l).
  - rewrite decide_False by by eapply FindByPGW_other. by destruct (heap m !! l).
Qed.

Lemma gateway_insert h c c' p :
  gateway_state (h <| pgws := <[c := p]> (pgws h) |>) c'
  = if decide (c = c') then state p else gateway_state h c'.
Proof.
  unfold gateway_state. cbn. case_decide as E.
  - subst. by rewrite lookup_insert_eq.
  - by rewrite lookup_insert_ne.
Qed.

Lemma recordStateChange_state now e st n h c : c <> "" ->
  cfg (recordStateChange now e st n h) = cfg h /\
  gateway_state (recordStateChange now e st n h) c
  = if decide (CanonicalGTPCEndpoint (PeerHealth.sc_Addr e) = c) then st else gateway_state h c.
Proof.
  intros Hc. unfold recordStateChange.
  destruct (String.eqb_spec (CanonicalGTPCEndpoint (PeerHealth.sc_Addr e)) "") as [->|Hne].
  { by rewrite decide_False by congruence. }
  split; [done|]. rewrite gateway_insert.
  destruct (String.eqb (state (getOrCreateLocked _ h)) st), (String.eqb st PGWPathStateDown); done.
Qed.

Lemma recordRestart_state now e n h c : c <> "" ->
  cfg (recordRestart now e n h) = cfg h /\
  gateway_state (recordRestart now e n h) c
  = if decide (CanonicalGTPCEndpoint (PeerHealth.re_Addr e) = c) then PGWPathStateRestarted
    else gateway_state h c.
Proof.
  intros Hc. unfold recordRestart.
  destruct (String.eqb_spec (CanonicalGTPCEndpoint (PeerHealth.re_Addr e)) "") as [->|Hne].
  { by rewrite decide_False by congruence. }
  split; [done|]. by rewrite gateway_insert.
Qed.

(** The three switches of the configuration are on. *)
Definition all_enabled (c : Config) : Prop :=
  Enabled c = true /\ MarkSessionsOnPathDown c = true /\ MarkSessionsOnRestart c = true.

Section Delivery.
Context (now : time) (order : list string) (c : string) (Hc : c <> "").

Definition ready (w : world) : Prop :=
  all_enabled (cfg w.1.1) /\ order_covers order w.1.2 /\ pgw_disjoint w.1.2.

Lemma ready_marked w w' mark : ready w -> marked c w w' mark -> ready w'.
Proof using.
  intros (H1 & H2 & H3) [A1 A2 _ _]. unfold ready, order_covers, pgw_disjoint, pgw_sessions in *.
  rewrite A1, A2. done.
Qed.

Lemma handle_marked e w : ready w -> marked c w (handle now order e w) (mark_of c e).
Proof using Hc.
  destruct w as [[h m] k]. intros ((E1 & E2 & E3) & Ho & Hd). cbn [fst snd] in *.
  destruct e as [s|e|e]; cbn [handle mark_of]; [apply marked_none|..].
  - unfold OnPeerStateChange. rewrite E1, E2. cbn [negb orb].
    destruct (String.eqb_spec (PeerHealth.sc_Role e) PeerHealth.RolePGW) as [Er|Er]; cbn [negb].
    2: { rewrite decide_False by naive_solver. apply marked_none. }
    unfold MarkPGWPathState.
    pose proof (on_sessions_byPGW (FindByPGW order (PeerHealth.sc_Addr e) m)) as Hb.
    pose proof (fun f st => mark_sessions_paths order (PeerHealth.sc_Addr e) f st c m) as Hp.
    specialize (Hb (SetPGWPathState now (pgwPathState (PeerHealth.NewState e))
      (CanonicalGTPCEndpoint (PeerHealth.sc_Addr e)) (PeerHealth.sc_At e)) m).
    specialize (Hp (SetPGWPathState now (pgwPathState (PeerHealth.NewState e))
      (CanonicalGTPCEndpoint (PeerHealth.sc_Addr e)) (PeerHealth.sc_At e))
      (pgwPathState (PeerHealth.NewState e))).
    destruct (on_sessions _ _ m) as [m' k'].
    destruct (recordStateChange_state now e (pgwPathState (PeerHealth.NewState e))
      (length (FindByPGW order (PeerHealth.sc_Addr e) m)) h c Hc) as [R1 R2].
    split; cbn [fst snd] in *; [done|done| |].
    + rewrite R2. repeat case_decide; naive_solver.
    + intros id l Hl. rewrite (Hp id l Hc Ho Hd Hl).
      2: { intros s. unfold SetPGWPathState, saved. cbn. by destruct (String.eqb _ ""). }
      repeat case_decide; naive_solver.
  - unfold OnPeerRestart. rewrite E1, E3. cbn [negb orb].
    destruct (String.eqb_spec (PeerHealth.re_Role e) PeerHealth.RolePGW) as [Er|Er]; cbn [negb].
    2: { rewrite decide_False by naive_solver. apply marked_none. }
    unfold Manager_MarkPGWRestart.
    pose proof (on_sessions_byPGW (FindByPGW order (PeerHealth.re_Addr e) m)) as Hb.
    specialize (Hb (MarkPGWRestart now (CanonicalGTPCEndpoint (PeerHealth.re_Addr e))
      (PeerHealth.NewRecovery e) (PeerHealth.re_At e)) m).
    pose proof (mark_sessions_paths order (PeerHealth.re_Addr e)
      (MarkPGWRestart now (CanonicalGTPCEndpoint (PeerHealth.re_Addr e))
      (PeerHealth.NewRecovery e) (PeerHealth.re_At e)) PGWPathStateRestarted c m) as Hp.
    destruct (on_sessions _ _ m) as [m' k'].
    destruct (recordRestart_state now e
      (length (FindByPGW order (PeerHealth.re_Addr e) m)) h c Hc) as [R1 R2].
    split; cbn [fst snd] in *; [done|done| |].
    + rewrite R2. repeat case_decide; naive_solver.
    + intros id l Hl. rewrite (Hp id l Hc Ho Hd Hl) by done. repeat case_decide; naive_solver.
Qed.

Lemma last_cons_default {A} (x : option A) (l : list A) :
  last (from_option (fun y => [y]) [] x ++ l) = from_option Some x (last l).
Proof using. destruct x; cbn; [|by destruct (last l)]. rewrite last_cons. by destruct (last l). Qed.

Lemma deliver_marked calls : forall w, ready w ->
  marked c w (PeerHealth.deliver (handle now order) calls w) (last (marks c calls)).
Proof using Hc.
  induction calls as [|e calls IH]; intros w Hw; [apply marked_none|].
  pose proof (handle_marked e w Hw) as H1.
  pose proof (marked_trans _ _ _ _ _ _ H1 (IH _ (ready_marked _ _ _ Hw H1))) as H2.
  unfold marks in *. cbn [omap list_omap]. 
  rewrite <- last_cons_default in H2. by destruct (mark_of c e).
Qed.
End Delivery.

(** The last mark of a gateway against the last state of its peer. *)
Lemma last_mark_state c k calls a b :
  PeerHealth.Role k = PeerHealth.RolePGW -> CanonicalGTPCEndpoint (PeerHealth.Addr k) = c ->
  (forall e k', e ∈ calls -> PeerHealth.event_key e = Some k' ->
    PeerHealth.Role k' = PeerHealth.RolePGW -> CanonicalGTPCEndpoint (PeerHealth.Addr k') = c -> k' = k) ->
  PeerHealth.follow (PeerHealth.changes_of k calls) a = Some b ->
  match last (marks c calls) with
  | None => b = a
  | Some s => s = PGWPathStateRestarted \/ s = pgwPathState b
  end.
Proof.
  intros Hr Hc. revert b. induction calls as [|e calls IH] using rev_ind; intros b Hk Hf.
  { by simplify_eq/=. }
  rewrite PeerHealth.changes_of_app, PeerHealth.follow_app in Hf.
  unfold marks in *. rewrite omap_app, last_app.
  destruct (PeerHealth.follow (PeerHealth.changes_of k calls) a) as [b0|] eqn:E0; [|done]. cbn [mbind option_bind] in Hf.
  specialize (IH b0 (fun e0 k0 He => Hk e0 k0 (proj2 (elem_of_app _ _ _) (or_introl He))) eq_refl).
  assert (e ∈ (calls ++ [e])%list) as He by set_solver. specialize (Hk e).
  destruct e as [s|e|e]; cbn [PeerHealth.changes_of omap list_omap mark_of] in *; [by simplify_eq/=| |].
  - destruct (decide (PeerHealth.mkKey (PeerHealth.sc_Role e) (PeerHealth.sc_Addr e) = k)) as [Ek|Ek].
    + rewrite decide_True by by subst k. cbn [last]. cbn [PeerHealth.follow] in Hf.
      case_decide; [|done]. simplify_eq/=. by right.
    + rewrite decide_False; [by simplify_eq/=|]. intros [H1 H2]. apply Ek.
      by apply Hk.
  - simplify_eq/=. case_decide; [by left|done].
Qed.

(** ** Properties *)


(** The first session of the manager's example, registered at a gateway that goes down. *)
Definition example_ops : list PeerHealth.op :=
  [PeerHealth.OpEchoTimeout 200 PeerHealth.RolePGW PeerHealth.example_addr 2 PeerHealth.example_cfg;
   PeerHealth.OpEchoTimeout 300 PeerHealth.RolePGW PeerHealth.example_addr 3 PeerHealth.example_cfg;
   PeerHealth.OpEchoTimeout 400 PeerHealth.RolePGW PeerHealth.example_addr 4 PeerHealth.example_cfg].
Definition example_world : world :=
  (NewHandler (mkConfig true true true),
   (RegisterPGW 7 (SessionID example_s1) "10.0.0.9" example_m1).1, []).
Definition example_calls : list PeerHealth.call :=
  (PeerHealth.run example_ops PeerHealth.example_table).2.

Lemma example_byPGW : byPGW example_world.1.2
  = {[ PeerHealth.example_addr := {[ SessionID example_s1 := 0%nat ]} ]}.
Proof. by vm_compute. Qed.

Lemma example_pgw_sessions c id l : pgw_sessions example_world.1.2 c !! id = Some l ->
  c = PeerHealth.example_addr /\ id = SessionID example_s1 /\ l = 0%nat.
Proof.
  unfold pgw_sessions. rewrite example_byPGW. destruct (decide (c = PeerHealth.example_addr)) as [->|].
  - rewrite lookup_singleton_eq. cbn. intros [<- <-]%lookup_singleton_Some. done.
  - rewrite lookup_singleton_ne by done. cbn. by rewrite lookup_empty.
Qed.


(** The table releases its lock before it calls the handler, and the Echo prober and the
    receive loop run concurrently.  When the notification of the timeout that takes the
    peer down is overtaken by that of the message that brings it up again, the peer stays
    up in the table while the handler and the sessions say down. *)
Example late_notification :
  let down_up := PeerHealth.run
    (example_ops ++ [PeerHealth.OpObserve 450 PeerHealth.RolePGW
                       (Some (mkUDPAddr [10; 0; 0; 9] 2123)) 33 77 None])%list
    PeerHealth.example_table in
  let notified := filter (fun e => PeerHealth.event_key e <> None) down_up.2 in
  let late := (take 2 notified ++ rev (drop 2 notified))%list in
  let w := PeerHealth.deliver (handle 7 [SessionID example_s1]) late example_world in
  PeerHealth.state_of down_up.1 (PeerHealth.mkKey PeerHealth.RolePGW PeerHealth.example_addr)
    = PeerHealth.StateUp /\
  length notified = 4%nat /\
  path_of w.1.2 0%nat = Some PGWPathStateDown /\
  gateway_state w.1.1 PeerHealth.example_addr = PGWPathStateDown.
Proof. by vm_compute. Qed.
