(* ===== verification/DdnControl.v ===== *)
(** * Downlink data notification control ([internal/sgwc/ddncontrol/state.go])

    Which notifications the SGW-C may send to an MME now: a priority by rules, a pause per
    UE, the throttling an MME asks for, and a token bucket per MME with a bypass for high
    priority.  The clock ([now]) is read where the caller passes a zero time, and when a
    new MME record is made by a counter. *)

From stdpp Require Import sorting.
From S2P Require Import Prelude GoLib.
#[local] Open Scope string_scope.
#[local] Open Scope Z_scope.

Definition PriorityUnknown := "unknown".
Definition PriorityHigh := "high".
Definition PriorityNormal := "normal".
Definition PriorityLow := "low".
Definition ActionSendNow := "send_now".
Definition ActionDelay := "delay".
Definition ActionSuppress := "suppress".

Record PriorityRule := mkPriorityRule {
  pr_APN : string; pr_QCI : Z; ARPPriorityMin : Z; ARPPriorityMax : Z; pr_Reason : string
}.
Record Config := mkConfig {
  Enabled : bool; PerMMERateLimitPerSecond : Z; PerMMEBurst : Z; PerUESuppression : duration;
  HonorMMELowPriorityThrottling : bool; LowPriorityThrottle : duration; HighPriorityBypass : bool;
  HighPriority : list PriorityRule; LowPriority : list PriorityRule
}.
Record Candidate := mkCandidate {
  c_MMEAddr : string; c_IMSI : string; c_APN : string; c_EBI : Z; c_QCI : Z; c_ARPPriority : Z
}.
Record Decision := mkDecision {
  Action : string; Priority : string; d_Reason : string; RetryAfter : duration; Bypass : bool;
  d_candidate : Candidate; TokensBefore : Z; TokensAfter : Z
}.
#[export] Instance eta_Decision : Eta Decision := fun d =>
  mkDecision (Action d) (Priority d) (d_Reason d) (RetryAfter d) (Bypass d) (d_candidate d)
    (TokensBefore d) (TokensAfter d).

Record MMEState := mkMMEState {
  MMEAddr : string; Tokens : Z; Burst : Z; RateLimitPerSecond : Z; LastRefillAt : time;
  LowPriorityThrottledUntil : time; LowPriorityThrottleReceived : time;
  LowPriorityThrottleReason : string;
  m_Sent : Z; m_Delayed : Z; m_Suppressed : Z; HighPriorityBypassed : Z
}.
#[export] Instance eta_MMEState : Eta MMEState := fun m =>
  mkMMEState (MMEAddr m) (Tokens m) (Burst m) (RateLimitPerSecond m) (LastRefillAt m)
    (LowPriorityThrottledUntil m) (LowPriorityThrottleReceived m) (LowPriorityThrottleReason m)
    (m_Sent m) (m_Delayed m) (m_Suppressed m) (HighPriorityBypassed m).
Record UEState := mkUEState {
  u_IMSI : string; LastDDNAt : time; LastMMEAddr : string; LastAPN : string; LastEBI : Z;
  LastPriority : string; u_Suppressed : Z; u_Delayed : Z; u_Sent : Z
}.
#[export] Instance eta_UEState : Eta UEState := fun u =>
  mkUEState (u_IMSI u) (LastDDNAt u) (LastMMEAddr u) (LastAPN u) (LastEBI u) (LastPriority u)
    (u_Suppressed u) (u_Delayed u) (u_Sent u).

Record State := mkState { cfg : Config; mmes : gmap string MMEState; ues : gmap string UEState }.
#[export] Instance eta_State : Eta State := fun s => mkState (cfg s) (mmes s) (ues s).
Definition NewState (c : Config) : State := mkState c ∅ ∅.

(** ** strings.EqualFold

    ASCII letters fold to lower case; beyond ASCII, [fold] is the class of a rune under
    [unicode.SimpleFold], a table of the standard library. *)

Definition ascii_lower (r : Z) : Z := if (65 <=? r) && (r <=? 90) then r + 32 else r.
Definition rune_eq (fold : Z -> Z) (a b : Z) : bool :=
  if (a <? 0x80) && (b <? 0x80) then ascii_lower a =? ascii_lower b else fold a =? fold b.
Fixpoint runes_eq (fold : Z -> Z) (a b : list Z) : bool :=
  match a, b with
  | [], [] => true
  | x :: a, y :: b => rune_eq fold x y && runes_eq fold a b
  | _, _ => false
  end.
Definition EqualFold (fold : Z -> Z) (a b : string) : bool :=
  runes_eq fold (range_string a).*2 (range_string b).*2.

(** ** Priorities *)

Section Control.
Variable fold : Z -> Z.

Definition matches (r : PriorityRule) (c : Candidate) : bool :=
  if negb (String.eqb (pr_APN r) "") && negb (EqualFold fold (pr_APN r) (c_APN c)) then false
  else if negb (pr_QCI r =? 0) && negb (pr_QCI r =? c_QCI c) then false
  else if negb (ARPPriorityMin r =? 0) || negb (ARPPriorityMax r =? 0) then
    let lo := if ARPPriorityMin r =? 0 then 1 else ARPPriorityMin r in
    let hi := if ARPPriorityMax r =? 0 then 15 else ARPPriorityMax r in
    if hi <? lo then false
    else negb ((c_ARPPriority c <? lo) || (hi <? c_ARPPriority c))
  else true.

Definition priorityReason (r : PriorityRule) (fallback : string) : string :=
  if negb (String.eqb (pr_Reason r) "") then pr_Reason r else fallback.

Definition classifyLocked (c : Candidate) (s : State) : string * string :=
  match List.find (fun r => matches r c) (HighPriority (cfg s)) with
  | Some r => (PriorityHigh, priorityReason r "high-priority-rule")
  | None =>
      match List.find (fun r => matches r c) (LowPriority (cfg s)) with
      | Some r => (PriorityLow, priorityReason r "low-priority-rule")
      | None => (PriorityNormal, "default-normal")
      end
  end.
Definition Classify (c : Candidate) (s : option State) : string * string :=
  match s with None => (PriorityNormal, "default-normal") | Some s => classifyLocked c s end.

(** ** Records *)

Definition new_mme (a : string) (at_ : time) (c : Config) : MMEState :=
  mkMMEState a (PerMMEBurst c) (PerMMEBurst c) (PerMMERateLimitPerSecond c) at_
    zero_time zero_time "" 0 0 0 0.
(** The record of an MME, which the caller stores back. *)
Definition mmeLocked (a : string) (at_ : time) (s : State) : MMEState :=
  default (new_mme a at_ (cfg s)) (mmes s !! a).
Definition ueLocked (imsi : string) (s : State) : UEState :=
  default (mkUEState imsi zero_time "" "" 0 "" 0 0 0) (ues s !! imsi).
Definition set_mme (a : string) (m : MMEState) (s : State) : State :=
  s <| mmes := <[a := m]> (mmes s) |>.
Definition set_ue (imsi : string) (u : UEState) (s : State) : State :=
  s <| ues := <[imsi := u]> (ues s) |>.

(** The rate and the burst of the configuration, with their fallbacks. *)
Definition rate_of (c : Config) : Z :=
  if PerMMERateLimitPerSecond c <=? 0 then 1 else PerMMERateLimitPerSecond c.
Definition burst_of (c : Config) : Z := if PerMMEBurst c <=? 0 then rate_of c else PerMMEBurst c.

(** The tokens of an elapsed time: [int(elapsed.Seconds() * float64(rate))]. *)
Definition tokens_for (elapsed : duration) (rate : Z) : Z :=
  f64_to_int (f64_mul (Seconds elapsed) (f64_of_Z rate)).

(** The limits of a record made under other settings are repaired first. *)
Definition limits_repaired (c : Config) (m : MMEState) : MMEState :=
  let m := if Burst m <=? 0 then m <| Burst := burst_of c |> else m in
  let m := if RateLimitPerSecond m <=? 0 then m <| RateLimitPerSecond := rate_of c |> else m in
  if Burst m <? Tokens m then m <| Tokens := Burst m |> else m.

Definition refillMMELocked (c : Config) (at_ : time) (m : MMEState) : MMEState :=
  let rate := rate_of c in
  let m := limits_repaired c m in
  if IsZero (LastRefillAt m) then m <| LastRefillAt := at_ |>
  else if negb (After at_ (LastRefillAt m)) then m
  else
    let add := tokens_for (Sub at_ (LastRefillAt m)) rate in
    if add <=? 0 then m
    else
      let m := m <| Tokens := i64 (Tokens m + add) |> in
      let m := if Burst m <? Tokens m then m <| Tokens := Burst m |> else m in
      m <| LastRefillAt := Add (LastRefillAt m) (Z.quot (i64 (add * Second)) rate) |>.

Definition nextTokenDelayLocked (m : MMEState) (c : Config) : duration :=
  let rate := if 0 <? RateLimitPerSecond m then RateLimitPerSecond m
              else PerMMERateLimitPerSecond c in
  Z.quot Second (if rate <=? 0 then 1 else rate).

Definition touch_ue (c : Candidate) (priority : string) (u : UEState) : UEState :=
  u <| LastMMEAddr := c_MMEAddr c |> <| LastAPN := c_APN c |> <| LastEBI := c_EBI c |>
    <| LastPriority := priority |>.

Definition recordSentLocked (c : Candidate) (priority : string) (at_ : time) (s : State) : State :=
  let m := mmeLocked (c_MMEAddr c) at_ s in
  let m := m <| m_Sent := u64 (m_Sent m + 1) |> in
  let m := if String.eqb priority PriorityHigh && HighPriorityBypass (cfg s)
           then m <| HighPriorityBypassed := u64 (HighPriorityBypassed m + 1) |> else m in
  let u := (ueLocked (c_IMSI c) s) <| LastDDNAt := at_ |> in
  let u := touch_ue c priority u in
  set_ue (c_IMSI c) (u <| u_Sent := u64 (u_Sent u + 1) |>) (set_mme (c_MMEAddr c) m s).

Definition recordSuppressedLocked (now : time) (c : Candidate) (priority : string) (s : State) : State :=
  let m := mmeLocked (c_MMEAddr c) now s in
  let u := touch_ue c priority (ueLocked (c_IMSI c) s) in
  set_ue (c_IMSI c) (u <| u_Suppressed := u64 (u_Suppressed u + 1) |>)
    (set_mme (c_MMEAddr c) (m <| m_Suppressed := u64 (m_Suppressed m + 1) |>) s).

Definition recordDelayedLocked (now : time) (c : Candidate) (priority : string) (s : State) : State :=
  let m := mmeLocked (c_MMEAddr c) now s in
  let u := touch_ue c priority (ueLocked (c_IMSI c) s) in
  set_ue (c_IMSI c) (u <| u_Delayed := u64 (u_Delayed u + 1) |>)
    (set_mme (c_MMEAddr c) (m <| m_Delayed := u64 (m_Delayed m + 1) |>) s).

Definition RecordSent (now : time) (c : Candidate) (priority : string) (at_ : time) (s : State)
    : State := recordSentLocked c priority (or_now at_ now) s.
Definition RecordSuppressed (now : time) (c : Candidate) (priority : string) (at_ : time)
    (s : State) : State :=
  let s := set_mme (c_MMEAddr c) (mmeLocked (c_MMEAddr c) (or_now at_ now) s) s in
  recordSuppressedLocked now c priority s.
Definition RecordDelayed (now : time) (c : Candidate) (priority : string) (at_ : time) (s : State)
    : State :=
  let s := set_mme (c_MMEAddr c) (mmeLocked (c_MMEAddr c) (or_now at_ now) s) s in
  recordDelayedLocked now c priority s.

Definition MarkMMELowPriorityThrottled (now : time) (mmeAddr reason : string) (until at_ : time)
    (s : State) : State :=
  let at_ := or_now at_ now in
  let m := mmeLocked mmeAddr at_ s in
  set_mme mmeAddr (m <| LowPriorityThrottledUntil := until |>
                     <| LowPriorityThrottleReceived := at_ |>
                     <| LowPriorityThrottleReason := reason |>) s.

(** ** The decision *)

Definition base_decision (priority reason : string) (c : Candidate) : Decision :=
  mkDecision "" priority reason 0 false c 0 0.

(** The decision for an enabled control, once the bucket is refilled and both records
    exist. *)
Definition decide_refilled (now at_ : time) (c : Candidate) (priority reason : string) (s : State)
    : Decision * State :=
  let m := mmeLocked (c_MMEAddr c) at_ s in
  let u := ueLocked (c_IMSI c) s in
  let base := (base_decision priority reason c) <| TokensBefore := Tokens m |> in
  let until := Add (LastDDNAt u) (PerUESuppression (cfg s)) in
  if negb (String.eqb priority PriorityHigh) && (0 <? PerUESuppression (cfg s))
     && negb (IsZero (LastDDNAt u)) && Before at_ until then
    (base <| Action := ActionSuppress |> <| d_Reason := "per-ue-suppression" |>
       <| RetryAfter := Sub until at_ |> <| TokensAfter := Tokens m |>,
     recordSuppressedLocked now c priority s)
  else if String.eqb priority PriorityLow && HonorMMELowPriorityThrottling (cfg s)
     && negb (IsZero (LowPriorityThrottledUntil m)) && Before at_ (LowPriorityThrottledUntil m) then
    (base <| Action := ActionSuppress |> <| d_Reason := "mme-low-priority-throttling" |>
       <| RetryAfter := Sub (LowPriorityThrottledUntil m) at_ |> <| TokensAfter := Tokens m |>,
     recordSuppressedLocked now c priority s)
  else if 0 <? Tokens m then
    let m := m <| Tokens := Tokens m - 1 |> in
    (base <| Action := ActionSendNow |> <| TokensAfter := Tokens m |>,
     recordSentLocked c priority at_ (set_mme (c_MMEAddr c) m s))
  else if String.eqb priority PriorityHigh && HighPriorityBypass (cfg s) then
    (base <| Action := ActionSendNow |> <| Bypass := true |> <| d_Reason := "high-priority-bypass" |>
       <| TokensAfter := Tokens m |>,
     recordSentLocked c priority at_ s)
  else
    (base <| Action := ActionDelay |> <| d_Reason := "per-mme-rate-limit" |>
       <| RetryAfter := nextTokenDelayLocked m (cfg s) |> <| TokensAfter := Tokens m |>,
     recordDelayedLocked now c priority s).

Definition refill (c : Candidate) (at_ : time) (s : State) : State :=
  let m := refillMMELocked (cfg s) at_ (mmeLocked (c_MMEAddr c) at_ s) in
  let s := set_mme (c_MMEAddr c) m s in
  set_ue (c_IMSI c) (ueLocked (c_IMSI c) s) s.

Definition Decide_state (now : time) (c : Candidate) (at_ : time) (s : State) : Decision * State :=
  let at_ := or_now at_ now in
  let '(priority, reason) := classifyLocked c s in
  if negb (Enabled (cfg s)) then
    ((base_decision priority reason c) <| Action := ActionSendNow |>
       <| d_Reason := "ddn-control-disabled" |>,
     recordSentLocked c priority at_ s)
  else decide_refilled now at_ c priority reason (refill c at_ s).

(** Without a state everything may be sent. *)
Definition Decide (now : time) (c : Candidate) (at_ : time) (s : option State)
    : Decision * option State :=
  match s with
  | None => ((base_decision PriorityNormal "ddn-control-unavailable" c) <| Action := ActionSendNow |>,
             None)
  | Some s => let '(d, s) := Decide_state now c at_ s in (d, Some s)
  end.

Definition mme_le (a b : MMEState) : Prop := String.leb (MMEAddr a) (MMEAddr b) = true.
#[local] Instance mme_le_dec : RelDecision mme_le.
Proof using. intros a b. unfold mme_le. apply _. Defined.
Definition ue_le (a b : UEState) : Prop := String.leb (u_IMSI a) (u_IMSI b) = true.
#[local] Instance ue_le_dec : RelDecision ue_le.
Proof using. intros a b. unfold ue_le. apply _. Defined.
Definition Snapshot (s : State) : list MMEState * list UEState :=
  (merge_sort mme_le (map_to_list (mmes s)).*2, merge_sort ue_le (map_to_list (ues s)).*2).
End Control.

(** ** Runs of decisions *)

Section Spending.
Variable fold : Z -> Z.

(** A decision is asked for with the clock and the time of the event. *)
Record request := mkRequest { rq_now : time; rq_candidate : Candidate; rq_at : time }.
Definition time_of (r : request) : time := or_now (rq_at r) (rq_now r).

Fixpoint decisions (rs : list request) (s : State) : list Decision * State :=
  match rs with
  | [] => ([], s)
  | r :: rs =>
      let '(d, s) := Decide_state fold (rq_now r) (rq_candidate r) (rq_at r) s in
      let '(ds, s) := decisions rs s in (d :: ds, s)
  end.

(** The decisions that let a notification to [a] go on a token. *)
Definition paid (a : string) (d : Decision) : bool :=
  String.eqb (c_MMEAddr (d_candidate d)) a && String.eqb (Action d) ActionSendNow && negb (Bypass d).
Definition paid_sends (a : string) (ds : list Decision) : Z :=
  Z.of_nat (length (filter (fun d => paid a d = true) ds)).

(** The bucket of an MME: tokens, their limit, the time up to which they are counted. *)
Definition bucket_of (s : State) (a : string) : option (Z * Z * time) :=
  (fun m => (Tokens m, Burst m, LastRefillAt m)) <$> mmes s !! a.

(** The refill of a request to [a] computes no more tokens than the elapsed time is worth,
    and their price in nanoseconds fits 63 bits. *)
Definition refill_exact (c : Config) (a : string) (b : option (Z * Z * time)) (r : request) : bool :=
  match b with
  | Some (_, _, mark) =>
      let add := tokens_for (Sub (time_of r) mark) (rate_of c) in
      negb (String.eqb (c_MMEAddr (rq_candidate r)) a) || (time_of r <=? mark)
      || ((add * Second <=? (time_of r - mark) * rate_of c) && (add * Second <=? max_i64))
  | None => false
  end.
Fixpoint exact_run (a : string) (rs : list request) (s : State) : bool :=
  match rs with
  | [] => true
  | r :: rs =>
      refill_exact (cfg s) a (bucket_of s a) r
      && exact_run a rs (Decide_state fold (rq_now r) (rq_candidate r) (rq_at r) s).2
  end.

Record bucket_ok (c : Config) (b : Z * Z * time) (at_ : time) : Prop := mkBucketOk {
  bo_tokens : 0 <= b.1.1;
  bo_limit : b.1.1 <= b.1.2;
  bo_burst : 0 < b.1.2 < 2 ^ 62;
  bo_mark : 0 < b.2 <= at_
}.

(** What the bucket is worth in nanoseconds times the rate. *)
Definition worth (c : Config) (b : Z * Z * time) : Z := b.1.1 * Second - b.2 * rate_of c.

Lemma rate_pos c : 0 < rate_of c.
Proof using. unfold rate_of. destruct (Z.leb_spec (PerMMERateLimitPerSecond c) 0); lia. Qed.

Lemma i64_small z : - 2 ^ 63 <= z < 2 ^ 63 -> i64 z = z.
Proof using. intros. unfold i64. rewrite Z.mod_small by lia. lia. Qed.

Lemma limits_repaired_fields c m :
  0 < Burst m -> Tokens m <= Burst m ->
  Tokens (limits_repaired c m) = Tokens m /\ Burst (limits_repaired c m) = Burst m /\
  LastRefillAt (limits_repaired c m) = LastRefillAt m.
Proof using.
  intros H1 H2. unfold limits_repaired. destruct (Z.leb_spec (Burst m) 0); [lia|].
  destruct (RateLimitPerSecond m <=? 0); cbn; destruct (Z.ltb_spec (Burst m) (Tokens m)); done || lia.
Qed.

(** A refill cannot make the bucket worth more than before, up to the nanosecond the
    division drops. *)
Lemma refill_bucket c m at_ :
  let b := (Tokens m, Burst m, LastRefillAt m) in
  let m' := refillMMELocked c at_ m in
  let b' := (Tokens m', Burst m', LastRefillAt m') in
  let add := tokens_for (Sub at_ (LastRefillAt m)) (rate_of c) in
  bucket_ok c b at_ ->
  at_ <= LastRefillAt m \/
    (add * Second <= (at_ - LastRefillAt m) * rate_of c /\ add * Second <= max_i64) ->
  bucket_ok c b' at_ /\ worth c b' <= worth c b + (rate_of c - 1).
Proof using.
  intros b m' b' add [H1 H2 H3 H4] Hex. pose proof (rate_pos c) as Hr.
  unfold worth. subst b b' m'. cbn [fst snd] in *. unfold refillMMELocked. cbv zeta.
  destruct (limits_repaired_fields c m) as (E1 & E2 & E3); [lia..|].
  set (m1 := limits_repaired c m) in *. clearbody m1.
  destruct m as [a t bu rl mark ? ? ? ? ? ?]. destruct m1. cbn in *. subst.
  unfold IsZero. destruct (Z.eqb_spec mark 0); [lia|]. unfold After.
  destruct (Z.ltb_spec mark at_) as [Hlt|Hge]; cbn [negb]; [|split; [by split|cbn; lia]].
  fold add. destruct (Z.leb_spec add 0); [split; [by split|cbn; lia]|].
  destruct Hex as [Hex|[Hex Hmax]]; [lia|]. unfold max_i64, Second in *. cbn.
  rewrite (i64_small (t + add)) by lia.
  rewrite (i64_small (add * 1000000000)) by lia. rewrite Z.quot_div_nonneg by lia.
  pose proof (Z.mul_div_le (add * 1000000000) (rate_of c) Hr).
  pose proof (Z.mul_succ_div_gt (add * 1000000000) (rate_of c) Hr).
  set (q := add * 1000000000 / rate_of c) in *.
  assert (0 <= q) by (apply Z.div_pos; lia).
  assert (q <= at_ - mark) by nia. unfold Add.
  destruct (Z.ltb_spec bu (t + add)); cbn; (split; [split; cbn; lia|nia]).
Qed.

(** Records keep the buckets. *)
Lemma bucket_of_set_mme a b m s :
  bucket_of (set_mme b m s) a =
    if decide (a = b) then Some (Tokens m, Burst m, LastRefillAt m) else bucket_of s a.
Proof using.
  unfold bucket_of, set_mme. cbn. destruct (decide (a = b)) as [->|Hne].
  - by rewrite lookup_insert_eq.
  - by rewrite lookup_insert_ne.
Qed.

Lemma bucket_of_set_ue a imsi u s : bucket_of (set_ue imsi u s) a = bucket_of s a.
Proof using. done. Qed.

Lemma bucket_of_known s a m :
  mmes s !! a = Some m -> bucket_of s a = Some (Tokens m, Burst m, LastRefillAt m).
Proof using. unfold bucket_of. by intros ->. Qed.

(** A record of a decision: the MME's counters, not its bucket. *)
Lemma recorded_bucket s c m at_ f a imsi u :
  mmes s !! c_MMEAddr c = Some m ->
  (forall m, (Tokens (f m), Burst (f m), LastRefillAt (f m)) = (Tokens m, Burst m, LastRefillAt m)) ->
  bucket_of (set_ue imsi u (set_mme (c_MMEAddr c) (f (mmeLocked (c_MMEAddr c) at_ s)) s)) a
  = bucket_of s a.
Proof using.
  intros Hm Hf. rewrite bucket_of_set_ue, bucket_of_set_mme, Hf. unfold mmeLocked. rewrite Hm.
  cbn [default]. destruct (decide _) as [->|]; [|done]. by rewrite (bucket_of_known _ _ _ Hm).
Qed.

Lemma sent_bucket s c m p at_ a :
  mmes s !! c_MMEAddr c = Some m -> bucket_of (recordSentLocked c p at_ s) a = bucket_of s a.
Proof using.
  intros Hm. apply (recorded_bucket s c m at_
    (fun m => let m := m <| m_Sent := u64 (m_Sent m + 1) |> in
       if String.eqb p PriorityHigh && HighPriorityBypass (cfg s)
       then m <| HighPriorityBypassed := u64 (HighPriorityBypassed m + 1) |> else m)); [done|].
  intros m'. cbv zeta. by destruct (_ && _).
Qed.
Lemma suppressed_bucket s c m p now a :
  mmes s !! c_MMEAddr c = Some m -> bucket_of (recordSuppressedLocked now c p s) a = bucket_of s a.
Proof using.
  intros Hm. by apply (recorded_bucket s c m now (fun m => m <| m_Suppressed := u64 (m_Suppressed m + 1) |>)).
Qed.
Lemma delayed_bucket s c m p now a :
  mmes s !! c_MMEAddr c = Some m -> bucket_of (recordDelayedLocked now c p s) a = bucket_of s a.
Proof using.
  intros Hm. by apply (recorded_bucket s c m now (fun m => m <| m_Delayed := u64 (m_Delayed m + 1) |>)).
Qed.

(** A decision takes a token from the bucket of its MME exactly when it pays with one. *)
Lemma decide_refilled_bucket now at_ c p reason s m a d s' :
  mmes s !! c_MMEAddr c = Some m ->
  decide_refilled now at_ c p reason s = (d, s') ->
  cfg s' = cfg s /\
  bucket_of s' a = (if paid a d then Some (Tokens m - 1, Burst m, LastRefillAt m) else bucket_of s a) /\
  (paid a d = true -> a = c_MMEAddr c /\ 0 < Tokens m).
Proof using.
  intros Hm. unfold decide_refilled. cbv zeta. 
  assert (mmeLocked (c_MMEAddr c) at_ s = m) as -> by (unfold mmeLocked; by rewrite Hm).
  assert (forall act, paid a act = String.eqb (c_MMEAddr (d_candidate act)) a
            && String.eqb (Action act) ActionSendNow && negb (Bypass act)) as Hp by done.
  repeat match goal with |- context [if ?b then (_, _) else _] => destruct b eqn:? end;
    intros E; apply pair_equal_spec in E as [<- <-]; (split; [done|]); rewrite Hp; cbn;
    rewrite ?andb_false_r, ?andb_true_r.
  - by rewrite (suppressed_bucket _ _ m).
  - by rewrite (suppressed_bucket _ _ m).
  - rewrite (sent_bucket _ _ (m <| Tokens := Tokens m - 1 |>)) by apply lookup_insert_eq.
    rewrite bucket_of_set_mme. destruct (String.eqb_spec (c_MMEAddr c) a) as [->|Hne].
    + rewrite decide_True by done. split; [done|]. intros _. split; [done|lia].
    + by rewrite decide_False.
  - by rewrite (sent_bucket _ _ m).
  - by rewrite (delayed_bucket _ _ m).
Qed.

(** The requests to other MMEs leave the bucket; one to this MME refills it first. *)
Lemma Decide_bucket r s a b :
  Enabled (cfg s) = true -> bucket_of s a = Some b -> bucket_ok (cfg s) b (time_of r) ->
  refill_exact (cfg s) a (Some b) r = true ->
  let '(d, s') := Decide_state fold (rq_now r) (rq_candidate r) (rq_at r) s in
  cfg s' = cfg s /\
  exists b', bucket_of s' a = Some b' /\ bucket_ok (cfg s) b' (time_of r) /\
    Second * Z.b2z (paid a d) + worth (cfg s) b' <= worth (cfg s) b + (rate_of (cfg s) - 1).
Proof using.
  destruct r as [now c at0]. unfold refill_exact, time_of. cbn [rq_now rq_candidate rq_at].
  intros Hen Hb Hok Hex. unfold Decide_state. destruct (classifyLocked fold c s) as [p reason].
  rewrite Hen. cbn [negb]. set (at_ := or_now at0 now) in *.
  destruct (decide_refilled now at_ c p reason (refill c at_ s)) as [d s'] eqn:E.
  set (m := refillMMELocked (cfg s) at_ (mmeLocked (c_MMEAddr c) at_ s)).
  assert (Hm : mmes (refill c at_ s) !! c_MMEAddr c = Some m) by apply lookup_insert_eq.
  destruct (decide_refilled_bucket _ _ _ _ _ _ _ a _ _ Hm E) as (Hc & Hb' & Hpd).
  split; [done|]. pose proof (rate_pos (cfg s)) as Hr.
  assert (Hrf : exists b1, bucket_of (refill c at_ s) a = Some b1 /\ bucket_ok (cfg s) b1 at_ /\
            worth (cfg s) b1 <= worth (cfg s) b + (rate_of (cfg s) - 1)).
  { unfold refill. cbv zeta. rewrite bucket_of_set_ue, bucket_of_set_mme. fold m.
    destruct (decide (a = c_MMEAddr c)) as [->|Hne]; [|exists b; split; [done|]; split; [done|lia]].
    unfold bucket_of in Hb. destruct (mmes s !! c_MMEAddr c) as [m0|] eqn:Em; [|done].
    apply (inj Some) in Hb as <-. rewrite String.eqb_refl in Hex. cbn [negb orb] in Hex.
    subst m. unfold mmeLocked. rewrite Em. cbn [default]. eexists. split; [done|].
    apply refill_bucket; [done|]. apply orb_true_iff in Hex as [Hex|Hex]; [left; lia|right].
    apply andb_true_iff in Hex. lia. }
  destruct Hrf as (b1 & Eb1 & Hok1 & Hw). destruct (paid a d).
  - destruct Hpd as [-> Ht]; [done|]. rewrite (bucket_of_known _ _ _ Hm) in Eb1.
    apply (inj Some) in Eb1 as <-. eexists. split; [exact Hb'|]. destruct Hok1. cbn in *.
    split; [by split; cbn; lia|]. unfold worth in *. cbn in *. unfold Second in *. lia.
  - exists b1. rewrite Hb', Eb1. split; [done|]. split; [done|]. cbn. lia.
Qed.

Lemma paid_sends_cons a d ds : paid_sends a (d :: ds) = Z.b2z (paid a d) + paid_sends a ds.
Proof using.
  unfold paid_sends. rewrite filter_cons. destruct (decide (paid a d = true)) as [E|E].
  - rewrite E. cbn. lia.
  - apply not_true_is_false in E. rewrite E. cbn. lia.
Qed.

Lemma bucket_ok_later c b t t' : bucket_ok c b t -> t <= t' -> bucket_ok c b t'.
Proof using. intros [] ?. split; [done..|lia]. Qed.

Lemma last_indep {A} (l : list A) x d d' : List.last (x :: l) d = List.last (x :: l) d'.
Proof using. revert x. induction l as [|y l IH]; intros x; [done|exact (IH y)]. Qed.
Lemma last_of_cons {A} (x d : A) l : List.last (x :: l) d = List.last l x.
Proof using. destruct l as [|y l]; [done|exact (last_indep l y d x)]. Qed.

Lemma spent_worth a rs : forall s b t,
  Enabled (cfg s) = true -> bucket_of s a = Some b -> bucket_ok (cfg s) b t ->
  Sorted Z.le (t :: map time_of rs) -> exact_run a rs s = true ->
  exists b', bucket_of (decisions rs s).2 a = Some b' /\
    bucket_ok (cfg s) b' (List.last (map time_of rs) t) /\
    Second * paid_sends a (decisions rs s).1 + worth (cfg s) b'
    <= worth (cfg s) b + Z.of_nat (length rs) * (rate_of (cfg s) - 1).
Proof using.
  induction rs as [|r rs IH]; intros s b t Hen Hb Hok Hs Hex.
  { exists b. split; [done|]. split; [done|].
    change (paid_sends a (decisions [] s).1) with 0. change (Z.of_nat (length [])) with 0. lia. }
  cbn [exact_run] in Hex. rewrite Hb in Hex. apply andb_true_iff in Hex as [Hr Hex].
  apply Sorted_inv in Hs as [Hs Hle]. apply HdRel_inv in Hle.
  pose proof (Decide_bucket r s a b Hen Hb (bucket_ok_later _ _ _ _ Hok Hle) Hr) as Hd.
  cbn [decisions]. destruct (Decide_state _ _ _ _ s) as [d s'].
  destruct Hd as (Hc & b1 & Hb1 & Hok1 & Hw). cbn [snd] in Hex. rewrite <-Hc in Hok1, Hen.
  destruct (IH s' b1 (time_of r) Hen Hb1 Hok1 Hs Hex) as (b2 & Hb2 & Hok2 & Hw2).
  destruct (decisions rs s') as [ds s2]. cbn [fst snd] in *. rewrite Hc in Hok2, Hw2.
  exists b2. split; [done|]. cbn [map length]. split.
  - by rewrite last_of_cons.
  - rewrite paid_sends_cons, Nat2Z.inj_succ, Z.mul_add_distr_l, Z.mul_succ_l. lia.
Qed.

End Spending.

(** ** Concrete runs *)

Module Runs.
Definition config (per_second burst : Z) : Config :=
  mkConfig true per_second burst 0 true 0 true [mkPriorityRule "ims" 0 0 0 ""] [].
Definition ask (apn : string) (at_ : time) : request :=
  mkRequest at_ (mkCandidate "mme" "001" apn 5 9 8) at_.
Definition started (c : Config) (at_ : time) : State :=
  set_mme "mme" (new_mme "mme" at_ c) (NewState c).
(** Five requests at once, then one each half second, at two per second and a burst of two. *)
Definition requests : list request :=
  map (fun k => ask "internet" (Second + k)) [0; 0; 0; 0; 0; 500000000; 1000000000; 1100000000].
Definition final (c : Config) (rs : list request) : list string * State :=
  let '(ds, s) := decisions (fun r => r) rs (started c Second) in (map Action ds, s).

Example two_per_second : (final (config 2 2) requests).1 =
  [ActionSendNow; ActionSendNow; ActionDelay; ActionDelay; ActionDelay; ActionSendNow;
   ActionSendNow; ActionDelay].
Proof. by_compute. Qed.

(** A high-priority notification that pays with a token is counted as bypassing. *)
Example bypass_counted_without_bypass :
  let '(ds, s) := decisions (fun r => r) [ask "IMS" Second] (started (config 2 2) Second) in
  map Bypass ds = [false] /\ HighPriorityBypassed <$> mmes s !! "mme" = Some 1.
Proof. by_compute. Qed.

(** A second at a rate of ten thousand million is worth more tokens than nanoseconds fit:
    the product overflows and the mark moves back. *)
Example mark_moves_back :
  let '(_, s) := decisions (fun r => r) [ask "internet" (2 * Second)]
                   (started (config 10000000000 1) Second) in
  bool_decide (LastRefillAt <$> mmes s !! "mme" = Some (Second + -844674407)) = true.
Proof. by_compute. Qed.
End Runs.

