(* ===== verification/GoText.v ===== *)
(** * Text functions of the Go library the policies use

    [strings.ToLower], [strings.TrimSpace], [strings.Contains] and [strings.Join].  Below
    U+0080 the Unicode classes are written out; beyond, they are tables of the standard
    library, the operations of the class [Unicode]. *)

From S2P Require Import Prelude GoLib.
#[local] Open Scope string_scope.
#[local] Open Scope Z_scope.

(** [utf8.AppendRune] *)
Definition AppendRune (r : Z) : bytes :=
  if in_range 0 r 0x7F then [r]
  else if in_range 0x80 r 0x7FF then [0xC0 + r / 64; 0x80 + r mod 64]
  else if negb (in_range 0 r 0x10FFFF) || in_range 0xD800 r 0xDFFF then [0xEF; 0xBF; 0xBD]
  else if r <=? 0xFFFF then [0xE0 + r / 4096; 0x80 + (r / 64) mod 64; 0x80 + r mod 64]
  else [0xF0 + r / 262144; 0x80 + (r / 4096) mod 64; 0x80 + (r / 64) mod 64; 0x80 + r mod 64].
Definition runes (s : string) : list Z := (range_string s).*2.
Definition runes_string (rs : list Z) : string := bytes_string (flat_map AppendRune rs).

(** The tables for runes that are not ASCII. *)
Class Unicode := { table_lower : Z -> Z; table_letter : Z -> bool; table_digit : Z -> bool }.

Definition is_ascii (r : Z) : bool := in_range 0 r 0x7F.
Definition is_upper (r : Z) : bool := in_range 65 r 90.
(** [unicode.IsSpace] is a list of runes also beyond ASCII. *)
Definition IsSpace (r : Z) : bool :=
  in_range 9 r 13 || (r =? 0x20) || (r =? 0x85) || (r =? 0xA0) || (r =? 0x1680)
  || in_range 0x2000 r 0x200A || (r =? 0x2028) || (r =? 0x2029) || (r =? 0x202F) || (r =? 0x205F)
  || (r =? 0x3000).

Section Text.
Context `{Unicode}.
Definition rune_lower (r : Z) : Z :=
  if is_ascii r then if is_upper r then r + 32 else r else table_lower r.
Definition IsLetter (r : Z) : bool :=
  if is_ascii r then is_upper r || in_range 97 r 122 else table_letter r.
Definition IsDigit (r : Z) : bool := if is_ascii r then in_range 48 r 57 else table_digit r.
(** [strings.ToLower] *)
Definition ToLower (s : string) : string := runes_string (rune_lower <$> runes s).
End Text.

(** [strings.TrimSpace(s) == ""] *)
Definition blank (s : string) : bool := forallb IsSpace (runes s).

(** [strings.Contains] *)
Fixpoint substring_at (part whole : bytes) : bool :=
  match part, whole with
  | [], _ => true
  | p :: part, w :: whole => (p =? w) && substring_at part whole
  | _, [] => false
  end.
Fixpoint contains (part whole : bytes) : bool :=
  substring_at part whole || match whole with [] => false | _ :: whole => contains part whole end.
Definition Contains (s substr : string) : bool := contains (string_bytes substr) (string_bytes s).

(** [strings.Join] *)
Definition Join (parts : list string) (sep : string) : string := String.concat sep parts.

(** ** Lemmas *)

Lemma substring_at_spec part whole : substring_at part whole = true <-> exists post, whole = (part ++ post)%list.
Proof.
  revert whole. induction part as [|p part IH]; intros whole; cbn [substring_at].
  - split; [by exists whole|done].
  - destruct whole as [|w whole].
    + split; [done|by intros [? ?]].
    + rewrite andb_true_iff, IH. split.
      * intros [Hp [post ->]]. apply Z.eqb_eq in Hp. subst. by exists post.
      * intros [post E]. injection E as -> ->. split; [apply Z.eqb_refl|by exists post].
Qed.

(** [Contains] finds a substring at whatever place it stands. *)
Lemma contains_spec part whole : contains part whole = true <-> exists pre post, whole = (pre ++ part ++ post)%list.
Proof.
  induction whole as [|w whole IH]; cbn [contains]; rewrite orb_true_iff, substring_at_spec.
  - split.
    + intros [[post E]|]; [|done]. by exists [], post.
    + intros (pre & post & E). left. destruct pre; [by exists post|done].
  - rewrite IH. split.
    + intros [[post E]|(pre & post & ->)]; [by exists [], post|by exists (w :: pre), post].
    + intros ([|p pre] & post & E); [left; by exists post|].
      injection E as -> ->. right. by exists pre, post.
Qed.
