(* ===== verification/PolicyReason.v ===== *)
(** * Policy reasons ([internal/sgwc/policyreason/reason.go])

    The reason a policy rule is reported with, built from the rule's matchers. *)

From S2P Require Import Prelude GoLib GoText.
#[local] Open Scope string_scope.
#[local] Open Scope list_scope.
#[local] Open Scope Z_scope.

Record Rule := mkRule {
  r_APN : string; r_QCI : Z; r_ARPPriorityMin : Z; r_ARPPriorityMax : Z; r_BearerType : string;
  r_IdleSeconds : Z
}.

Definition dash : Z := 45.
Fixpoint drop_dashes (l : list Z) : list Z :=
  match l with r :: l' => if r =? dash then drop_dashes l' else l | [] => [] end.
(** [strings.Trim(s, "-")] *)
Definition trim_dashes (l : list Z) : list Z := rev (drop_dashes (rev (drop_dashes l))).

Section Reason.
Context `{Unicode}.

Definition alnum (r : Z) : bool := IsLetter r || IsDigit r.
(** The runes in the builder, whether the last is a separator. *)
Fixpoint sanitize_loop (rs : list Z) (b : list Z) (separator : bool) : list Z :=
  match rs with
  | [] => b
  | r :: rs =>
      if alnum r then sanitize_loop rs (b ++ [r]) false
      else if negb (bool_decide (b = [])) && negb separator then sanitize_loop rs (b ++ [dash]) true
      else sanitize_loop rs b separator
  end.
Definition sanitize (value : string) : string :=
  runes_string (trim_dashes (sanitize_loop (runes (ToLower value)) [] false)).

Definition when_set (value : string) (parts : list string) : list string :=
  if String.eqb value "" then [] else parts.

Definition Build (feature action : string) (rule : Rule) : string :=
  let num z := if z =? 0 then [] else [Itoa z] in
  let parts :=
    ([sanitize feature; sanitize action]
     ++ when_set (sanitize (r_APN rule)) ["apn"; sanitize (r_APN rule)]
     ++ (if r_QCI rule =? 0 then [] else ["qci"; Itoa (r_QCI rule)])
     ++ (if negb (r_ARPPriorityMin rule =? 0) || negb (r_ARPPriorityMax rule =? 0)
         then "arp" :: num (r_ARPPriorityMin rule) ++ num (r_ARPPriorityMax rule) else [])
     ++ when_set (sanitize (r_BearerType rule)) [sanitize (r_BearerType rule)]
     ++ (if r_IdleSeconds rule =? 0 then [] else ["idle"; Itoa (r_IdleSeconds rule)]))%list in
  Join (filter (fun p => p <> "") parts) "-".
End Reason.

(** ** The reference of [sanitize]

    The maximal groups of letters and digits, joined by single dashes. *)

Section Reference.
Context `{Unicode}.

(** [strings.FieldsFunc] with the letters and digits kept; [cur] is the group begun. *)
Fixpoint fields (cur rs : list Z) : list (list Z) :=
  let begun := if decide (cur = []) then [] else [cur] in
  match rs with
  | [] => begun
  | r :: rs => if alnum r then fields (cur ++ [r]) rs else begun ++ fields [] rs
  end.
Fixpoint join (ws : list (list Z)) : list Z :=
  match ws with
  | [] => []
  | w :: ws => match ws with [] => w | _ => w ++ dash :: join ws end
  end.

Definition word (w : list Z) : Prop := w <> [] /\ Forall (fun r => alnum r = true) w.

Lemma join_app ws vs : ws <> [] -> vs <> [] -> join (ws ++ vs) = join ws ++ dash :: join vs.
Proof.
  intros Hw Hv. induction ws as [|w ws IH]; [done|]. destruct ws as [|x ws].
  - cbn. by destruct vs.
  - cbn [app] in *. cbn [join]. cbn [join] in IH. rewrite IH by done. by rewrite <- app_assoc.
Qed.
Lemma join_snoc ws cur r : cur <> [] -> join (ws ++ [cur ++ [r]]) = join (ws ++ [cur]) ++ [r].
Proof.
  intros Hc. destruct ws as [|w ws]; [done|].
  rewrite !join_app by done. cbn [join]. by rewrite <- app_assoc.
Qed.

Lemma drop_dashes_alnum r l : alnum r = true -> drop_dashes (r :: l) = r :: l.
Proof. intros Hr. cbn. by destruct (Z.eqb_spec r dash) as [->|]. Qed.
(** A joined text starts with a letter or digit, and so does its reverse. *)
Lemma join_ends ws : Forall word ws -> ws <> [] ->
  exists a b x y, join ws = a :: x /\ join ws = y ++ [b] /\ alnum a = true /\ alnum b = true.
Proof.
  induction 1 as [|w ws [Hw Ha] _ IH]; [done|]. intros _.
  destruct w as [|a x]; [done|]. inversion Ha as [|? ? Hax Hx]; subst.
  destruct ws as [|v ws].
  - destruct (exists_last (l := a :: x)) as (y & b & E); [done|].
    exists a, b, x, y. split_and!; [done..|].
    rewrite E in Ha. apply Forall_app in Ha as [_ Hb]. by inversion Hb.
  - destruct IH as (c & b & z & y & E1 & E2 & _ & Hb); [done|].
    exists a, b, (x ++ dash :: join (v :: ws)), ((a :: x) ++ dash :: y).
    split_and!; try done. cbn [join] in *. rewrite E2. by rewrite <- app_assoc.
Qed.
Lemma trim_join ws : Forall word ws -> trim_dashes (join ws) = join ws.
Proof.
  intros Hw. destruct (decide (ws = [])) as [->|Hne]; [done|].
  destruct (join_ends ws Hw Hne) as (a & b & x & y & E1 & E2 & Ha & Hb).
  unfold trim_dashes. rewrite E1, drop_dashes_alnum by done. rewrite <- E1, E2, rev_app_distr. cbn [rev app].
  rewrite drop_dashes_alnum by done. cbn [rev]. by rewrite rev_involutive.
Qed.
Lemma trim_join_dash ws : Forall word ws -> ws <> [] -> trim_dashes (join ws ++ [dash]) = join ws.
Proof.
  intros Hw Hne. rewrite <- (trim_join ws) at 2 by done. unfold trim_dashes.
  destruct (join_ends ws Hw Hne) as (a & b & x & y & E1 & E2 & Ha & Hb).
  rewrite E1. cbn [app]. rewrite !drop_dashes_alnum by done.
  by rewrite (app_comm_cons x [dash] a), rev_app_distr.
Qed.

(** What the builder holds after the groups [ws] and the begun group [cur]. *)
Definition holds (ws : list (list Z)) (cur b : list Z) (separator : bool) : Prop :=
  if separator then cur = [] /\ ws <> [] /\ b = join ws ++ [dash]
  else (ws = [] \/ cur <> []) /\ b = join (ws ++ if decide (cur = []) then [] else [cur]).

Lemma loop_fields rs : forall ws cur b separator,
  Forall word ws -> Forall (fun r => alnum r = true) cur -> holds ws cur b separator ->
  trim_dashes (sanitize_loop rs b separator) = join (ws ++ fields cur rs).
Proof.
  induction rs as [|r rs IH]; intros ws cur b separator Hws Hcur Hb; cbn [sanitize_loop fields].
  { destruct separator; destruct Hb as [Hc Hb].
    - destruct Hb as [Hne ->]. subst cur. rewrite decide_True by done. rewrite app_nil_r. by apply trim_join_dash.
    - subst b. apply trim_join. case_decide; apply Forall_app; repeat constructor; done. }
  destruct (alnum r) eqn:Hr.
  - apply IH; [done|by apply Forall_app; repeat constructor|].
    destruct separator; destruct Hb as [Hc Hb].
    + destruct Hb as [Hne ->]. subst cur. split; [by right|]. cbn [app].
      rewrite decide_False by done. rewrite join_app by done. by rewrite <- app_assoc.
    + split; [right; by destruct cur|]. rewrite decide_False by (by destruct cur). subst b.
      case_decide as Hd.
      * subst cur. destruct Hc as [->|]; done.
      * by rewrite join_snoc.
  - destruct separator; destruct Hb as [Hc Hb].
    + destruct Hb as [Hne ->]. subst cur. rewrite andb_false_r, decide_True by done.
      apply IH; [done|constructor|done].
    + case_decide as Hd.
      * subst cur. destruct Hc as [->|]; [|done]. subst b. cbn [app].
        apply (IH [] [] [] false); [constructor..|]. split; [by left|done].
      * assert (b <> []) as Hne.
        { subst b. destruct (join_ends (ws ++ [cur])) as (?&?&?&?&E&_); [|by destruct ws|by rewrite E].
          apply Forall_app. repeat constructor; done. }
        rewrite bool_decide_false by done. cbn [negb andb].
        rewrite app_assoc. apply IH; [apply Forall_app; repeat constructor; done|constructor|].
        split_and!; [done|by destruct ws|by subst b].
Qed.

(** [sanitize] is the groups of letters and digits of the lower-cased text, joined. *)
Lemma sanitize_fields value :
  sanitize value = runes_string (join (fields [] (runes (ToLower value)))).
Proof.
  unfold sanitize. f_equal. apply (loop_fields _ [] []); [constructor..|]. split; [by left|done].
Qed.
End Reference.

(** ** Checked on a concrete rule *)

Definition no_tables : Unicode :=
  {| table_lower := fun r => r; table_letter := fun _ => false; table_digit := fun _ => false |}.
#[local] Existing Instance no_tables.
Example build_example :
  Build "bearer-inactivity" "cleanup" (mkRule " IMS__Voice. " 5 1 0 "dedicated" (-3))
  = "bearer-inactivity-cleanup-apn-ims-voice-qci-5-arp-1-dedicated-idle--3".
Proof. vm_compute. reflexivity. Qed.
