(* ===== verification/SgwcConfig.v ===== *)
(** * SGW-C configuration ([internal/config/sgwc])

    The configuration file's structures, its defaults, the aliases the runtime reads, and
    the validation.  A structure's fields keep their Go names, with a prefix where two
    structures share one.  The YAML decoder is a parameter of [Load]. *)

From S2P Require Import Prelude GoLib.
#[local] Open Scope string_scope.
#[local] Open Scope Z_scope.

(** ** Structures ([config.go]) *)

Record PLMNConfig := mkPLMN {
  MCC : string; MNC : string
}.
Record SGWCConfig := mkSGWC {
  NodeID : string; PLMN : PLMNConfig; StateDir : string; ControlPlaneIP : string
}.
Record S11Config := mkS11 {
  T3ResponseSeconds : Z; N3Requests : Z
}.
Record GTPCLogical := mkGTPCLogical {
  g_Bind : string
}.
Record S11Logical := mkS11Logical {
  s11_Bind : string; s11_Timers : S11Config
}.
Record CreateBearerRetryGuardConfig := mkRetryGuard {
  rg_Enabled : bool
}.
Record TransactionCollisionConfig := mkCollision {
  Mode : string; ActiveProcedureTimeoutSeconds : Z
}.
Record TransactionsConfig := mkTransactions {
  tx_CreateBearerRetryGuard : CreateBearerRetryGuardConfig;
  CollisionHandling : TransactionCollisionConfig
}.
Record NSADCNRConfig := mkNSADCNR {
  nsa_Enabled : bool; ForwardSecondaryRATUsageReports : bool
}.
Record PeerHealthTimersConfig := mkPHTimers {
  pht_EchoIntervalSeconds : Z; pht_EchoTimeoutSeconds : Z
}.
Record PeerHealthThresholdsConfig := mkPHThresholds {
  pht_SuspectAfterMissed : Z; pht_DownAfterMissed : Z; pht_DegradedRTTMS : Z
}.
Record PeerHealthProbeConfig := mkPHProbe {
  MME : bool; PGW : bool
}.
Record PeerHealthConfig := mkPeerHealth {
  ph_Enabled : bool; ph_Timers : PeerHealthTimersConfig;
  ph_Thresholds : PeerHealthThresholdsConfig; ph_Probe : PeerHealthProbeConfig;
  WarnOnDownPeerProcedure : bool; EchoIntervalSeconds : Z; EchoTimeoutSeconds : Z;
  SuspectAfterMissed : Z; DownAfterMissed : Z; DegradedRTTMS : Z; ProbeMMEPeers : bool;
  ProbePGWPeers : bool
}.
#[export] Instance eta_PeerHealthConfig : Eta PeerHealthConfig := fun r =>
  mkPeerHealth (ph_Enabled r) (ph_Timers r) (ph_Thresholds r) (ph_Probe r)
  (WarnOnDownPeerProcedure r) (EchoIntervalSeconds r) (EchoTimeoutSeconds r)
  (SuspectAfterMissed r) (DownAfterMissed r) (DegradedRTTMS r) (ProbeMMEPeers r)
  (ProbePGWPeers r).
Record PGWFailureDetectionConfig := mkPFDetection {
  pfd_MarkSessionsOnPathDown : bool; pfd_MarkSessionsOnRestart : bool
}.
Record PGWFailureActionsConfig := mkPFActions {
  pfa_BlockNewProceduresToDownPGW : bool; pfa_NotifyMMEOnPGWRestart : bool
}.
Record PGWFailureConfig := mkPGWFailure {
  pf_Enabled : bool; pf_Detection : PGWFailureDetectionConfig;
  pf_Actions : PGWFailureActionsConfig; pf_MarkSessionsOnPathDown : bool;
  pf_MarkSessionsOnRestart : bool; BlockNewProceduresToDownPGW : bool;
  NotifyMMEOnPGWRestart : bool
}.
#[export] Instance eta_PGWFailureConfig : Eta PGWFailureConfig := fun r =>
  mkPGWFailure (pf_Enabled r) (pf_Detection r) (pf_Actions r) (pf_MarkSessionsOnPathDown r)
  (pf_MarkSessionsOnRestart r) (BlockNewProceduresToDownPGW r) (NotifyMMEOnPGWRestart r).
Record ARPConfig := mkARPConfig {
  PriorityMin : Z; PriorityMax : Z
}.
Record MMERestorationDetectionConfig := mkMRDetection {
  mrd_MarkSessionsOnPathDown : bool; mrd_MarkSessionsOnRestart : bool
}.
Record MMERestorationActionsConfig := mkMRActions {
  mra_EnforceDeletePolicy : bool; mra_TriggerDDN : bool; mra_CleanupTimeoutSeconds : Z;
  mra_DefaultAction : string
}.
Record MMERestorationPolicyRuleConfig := mkMRRule {
  mrr_APN : string; mrr_QCI : Z; mrr_ARP : ARPConfig; mrr_ARPPriorityMin : Z;
  mrr_ARPPriorityMax : Z
}.
#[export] Instance eta_MMERestorationPolicyRuleConfig : Eta MMERestorationPolicyRuleConfig := fun r =>
  mkMRRule (mrr_APN r) (mrr_QCI r) (mrr_ARP r) (mrr_ARPPriorityMin r) (mrr_ARPPriorityMax r).
Record MMERestorationPolicyConfig := mkMRPolicy {
  mrp_Preserve : list MMERestorationPolicyRuleConfig;
  mrp_Delete : list MMERestorationPolicyRuleConfig
}.
Record MMERestorationConfig := mkMMERestoration {
  mr_Enabled : bool; mr_Detection : MMERestorationDetectionConfig;
  mr_Actions : MMERestorationActionsConfig; mr_Policy : MMERestorationPolicyConfig;
  mr_MarkSessionsOnPathDown : bool; mr_MarkSessionsOnRestart : bool; EnforceDeletePolicy : bool;
  mr_TriggerDDN : bool; CleanupTimeoutSeconds : Z; DefaultAction : string;
  mr_Preserve : list MMERestorationPolicyRuleConfig;
  mr_Delete : list MMERestorationPolicyRuleConfig
}.
Record DDNRateLimitConfig := mkDDNRateLimit {
  PerMMEPerSecond : Z; drl_PerMMEBurst : Z; drl_PerUESuppressionSeconds : Z
}.
Record DDNLowPriorityConfig := mkDDNLowPriority {
  HonorMMEThrottling : bool; ThrottleSeconds : Z; dlp_HighPriorityBypass : bool
}.
Record DDNDelayedQueueConfig := mkDDNDelayedQueue {
  MaxEntries : Z; MaxEntriesPerMME : Z; MaxAgeSeconds : Z
}.
Record DDNStopPagingConfig := mkDDNStopPaging {
  dsp_Enabled : bool; OnDDNAck : bool
}.
Record DDNControlPriorityRuleConfig := mkDDNRule {
  dcr_APN : string; dcr_QCI : Z; dcr_ARP : ARPConfig; dcr_ARPPriorityMin : Z;
  dcr_ARPPriorityMax : Z
}.
#[export] Instance eta_DDNControlPriorityRuleConfig : Eta DDNControlPriorityRuleConfig := fun r =>
  mkDDNRule (dcr_APN r) (dcr_QCI r) (dcr_ARP r) (dcr_ARPPriorityMin r) (dcr_ARPPriorityMax r).
Record DDNPolicyConfig := mkDDNPolicy {
  dp_HighPriority : list DDNControlPriorityRuleConfig;
  dp_LowPriority : list DDNControlPriorityRuleConfig
}.
Record DDNControlConfig := mkDDNControl {
  dc_Enabled : bool; RateLimit : DDNRateLimitConfig;
  LowPriorityThrottling : DDNLowPriorityConfig; DelayedQueue : DDNDelayedQueueConfig;
  StopPaging : DDNStopPagingConfig; dc_Policy : DDNPolicyConfig; PerMMERateLimitPerSecond : Z;
  PerMMEBurst : Z; PerUESuppressionSeconds : Z; HonorMMELowPriorityThrottling : bool;
  LowPriorityThrottleSeconds : Z; HighPriorityBypass : bool; DelayedQueueMax : Z;
  DelayedQueuePerMME : Z; DelayedMaxAgeSeconds : Z; StopPagingEnabled : bool;
  StopPagingOnDDNAck : bool; dc_HighPriority : list DDNControlPriorityRuleConfig;
  dc_LowPriority : list DDNControlPriorityRuleConfig
}.
Record IdleDownlinkActionsConfig := mkIDActions {
  ida_TriggerDDN : bool
}.
Record IdleDownlinkConditionsConfig := mkIDConditions {
  idc_RequireReleaseAccessDrop : bool
}.
Record IdleDownlinkThrottlingConfig := mkIDThrottling {
  idt_ReportThrottleSeconds : Z
}.
Record IdleDownlinkPolicyConfig := mkIDPolicy {
  idp_HighPriority : list DDNControlPriorityRuleConfig;
  idp_Suppress : list DDNControlPriorityRuleConfig
}.
Record IdleDownlinkConfig := mkIdleDownlink {
  id_Enabled : bool; id_Actions : IdleDownlinkActionsConfig;
  id_Conditions : IdleDownlinkConditionsConfig; id_Throttling : IdleDownlinkThrottlingConfig;
  id_Policy : IdleDownlinkPolicyConfig; id_TriggerDDN : bool; ReportThrottleSeconds : Z;
  RequireReleaseAccessDrop : bool; id_HighPriority : list DDNControlPriorityRuleConfig;
  Suppress : list DDNControlPriorityRuleConfig
}.
Record SessionRecoveryStorageConfig := mkSRStorage {
  srs_Backend : string; srs_SQLitePath : string
}.
Record SessionRecoveryStartupConfig := mkSRStartup {
  Restore : bool; Reconcile : bool
}.
Record SessionRecoveryConfig := mkSessionRecovery {
  sr_Enabled : bool; Storage : SessionRecoveryStorageConfig;
  Startup : SessionRecoveryStartupConfig; CheckpointIntervalSeconds : Z; Backend : string;
  SQLitePath : string; RestoreOnStartup : bool; ReconcileOnStartup : bool
}.
#[export] Instance eta_SessionRecoveryConfig : Eta SessionRecoveryConfig := fun r =>
  mkSessionRecovery (sr_Enabled r) (Storage r) (Startup r) (CheckpointIntervalSeconds r)
  (Backend r) (SQLitePath r) (RestoreOnStartup r) (ReconcileOnStartup r).
Record BearerInactivityTimersConfig := mkBITimers {
  bit_CheckIntervalSeconds : Z; bit_DedicatedBearerIdleSeconds : Z;
  bit_PendingBearerTimeoutSeconds : Z; bit_DefaultBearerIdleSeconds : Z
}.
Record BearerInactivityConditionsConfig := mkBIConditions {
  bic_RequireNoRecentControlActivity : bool
}.
Record BearerInactivityActionsConfig := mkBIActions {
  bia_DeleteDefaultBearers : bool
}.
Record BearerInactivityRuleConfig := mkBIRule {
  bir_APN : string; bir_QCI : Z; bir_BearerType : string; bir_IdleSeconds : Z;
  bir_ARP : ARPConfig; bir_ARPPriorityMin : Z; bir_ARPPriorityMax : Z
}.
#[export] Instance eta_BearerInactivityRuleConfig : Eta BearerInactivityRuleConfig := fun r =>
  mkBIRule (bir_APN r) (bir_QCI r) (bir_BearerType r) (bir_IdleSeconds r) (bir_ARP r)
  (bir_ARPPriorityMin r) (bir_ARPPriorityMax r).
Record BearerInactivityPolicyConfig := mkBIPolicy {
  bip_Preserve : list BearerInactivityRuleConfig; bip_Cleanup : list BearerInactivityRuleConfig
}.
Record BearerInactivityConfig := mkBearerInactivity {
  bi_Enabled : bool; bi_Timers : BearerInactivityTimersConfig;
  bi_Conditions : BearerInactivityConditionsConfig; bi_Actions : BearerInactivityActionsConfig;
  bi_Policy : BearerInactivityPolicyConfig; CheckIntervalSeconds : Z;
  DedicatedBearerIdleSeconds : Z; PendingBearerTimeoutSeconds : Z; DefaultBearerIdleSeconds : Z;
  DeleteDefaultBearers : bool; RequireNoRecentControlActivity : bool;
  bi_Preserve : list BearerInactivityRuleConfig; Cleanup : list BearerInactivityRuleConfig
}.
Record FeaturesConfig := mkFeatures {
  f_NSADCNR : NSADCNRConfig; f_PGWFailure : PGWFailureConfig;
  f_MMERestoration : MMERestorationConfig; DDN : DDNControlConfig;
  f_IdleDownlink : IdleDownlinkConfig; f_SessionRecovery : SessionRecoveryConfig;
  f_BearerInactivity : BearerInactivityConfig
}.
#[export] Instance eta_FeaturesConfig : Eta FeaturesConfig := fun r =>
  mkFeatures (f_NSADCNR r) (f_PGWFailure r) (f_MMERestoration r) (DDN r) (f_IdleDownlink r)
  (f_SessionRecovery r) (f_BearerInactivity r).
Record GTPCConfig := mkGTPC {
  g_S11 : S11Logical; S5C : GTPCLogical; Transactions : TransactionsConfig;
  PeerHealth : PeerHealthConfig; CreateBearerRetryGuard : CreateBearerRetryGuardConfig;
  TransactionCollision : TransactionCollisionConfig; NSADCNR : NSADCNRConfig;
  PGWFailure : PGWFailureConfig; MMERestoration : MMERestorationConfig;
  DDNControl : DDNControlConfig; IdleDownlink : IdleDownlinkConfig;
  SessionRecovery : SessionRecoveryConfig; BearerInactivity : BearerInactivityConfig
}.
#[export] Instance eta_GTPCConfig : Eta GTPCConfig := fun r =>
  mkGTPC (g_S11 r) (S5C r) (Transactions r) (PeerHealth r) (CreateBearerRetryGuard r)
  (TransactionCollision r) (NSADCNR r) (PGWFailure r) (MMERestoration r) (DDNControl r)
  (IdleDownlink r) (SessionRecovery r) (BearerInactivity r).
Record PFCPHeartbeatConfig := mkHeartbeat {
  HeartbeatIntervalSeconds : Z; HeartbeatTimeoutSeconds : Z
}.
Record SGWUPeer := mkSGWUPeer {
  Name : string; u_NodeID : string; u_Addr : string
}.
Record PFCPConfig := mkPFCP {
  LocalAddr : string; SGWU : list SGWUPeer; Heartbeat : PFCPHeartbeatConfig
}.
Record ProtocolMarkingConfig := mkMarking {
  pm_Enabled : bool; DSCP : Z
}.
Record OuterMarkingConfig := mkOuterMarking {
  om_Enabled : bool; om_GTPC : ProtocolMarkingConfig; om_PFCP : ProtocolMarkingConfig
}.
Record QoSConfig := mkQoS {
  OuterMarking : OuterMarkingConfig
}.
Record LoggingConfig := mkLogging {
  Level : string; File : string
}.
Record APIConfig := mkAPI {
  api_Listen : string
}.
Record MetricsConfig := mkMetrics {
  metrics_Listen : string
}.
Record ShutdownConfig := mkShutdown {
  TimeoutSeconds : Z
}.
Record ControlInterfaceConfig := mkControlInterface {
  Listen : string
}.
Record InterfaceConfig := mkInterfaces {
  Control : gmap string ControlInterfaceConfig
}.
Record Config := mkConfig {
  SGWC : SGWCConfig; Interfaces : InterfaceConfig; GTPC : GTPCConfig; PFCP : PFCPConfig;
  Features : FeaturesConfig; QoS : QoSConfig; Logging : LoggingConfig; API : APIConfig;
  Metrics : MetricsConfig; Shutdown : ShutdownConfig; S11 : S11Config
}.
#[export] Instance eta_Config : Eta Config := fun r =>
  mkConfig (SGWC r) (Interfaces r) (GTPC r) (PFCP r) (Features r) (QoS r) (Logging r) (API r)
  (Metrics r) (Shutdown r) (S11 r).

(** ** Defaults *)

Definition no_ARP : ARPConfig := mkARPConfig 0 0.
Definition ddn_rule (apn : string) (qci lo hi : Z) : DDNControlPriorityRuleConfig :=
  mkDDNRule apn qci (mkARPConfig lo hi) 0 0.
Definition ims_rules : list DDNControlPriorityRuleConfig :=
  [ddn_rule "ims" 0 0 0; ddn_rule "" 1 0 0; ddn_rule "" 0 1 3].

Definition default_gtpc : GTPCConfig :=
  mkGTPC (mkS11Logical "" (mkS11 3 5)) (mkGTPCLogical "")
    (mkTransactions (mkRetryGuard true) (mkCollision "strict" 120))
    (mkPeerHealth true (mkPHTimers 30 3) (mkPHThresholds 2 3 500) (mkPHProbe true true) true
       0 0 0 0 0 false false)
    (mkRetryGuard false) (mkCollision "" 0) (mkNSADCNR false false)
    (mkPGWFailure false (mkPFDetection false false) (mkPFActions false false) false false false false)
    (mkMMERestoration false (mkMRDetection false false) (mkMRActions false false 0 "")
       (mkMRPolicy [] []) false false false false 0 "" [] [])
    (mkDDNControl false (mkDDNRateLimit 0 0 0) (mkDDNLowPriority false 0 false)
       (mkDDNDelayedQueue 0 0 0) (mkDDNStopPaging false false) (mkDDNPolicy [] [])
       0 0 0 false 0 false 0 0 0 false false [] [])
    (mkIdleDownlink false (mkIDActions false) (mkIDConditions false) (mkIDThrottling 0)
       (mkIDPolicy [] []) false 0 false [] [])
    (mkSessionRecovery false (mkSRStorage "" "") (mkSRStartup false false) 0 "" "" false false)
    (mkBearerInactivity false (mkBITimers 0 0 0 0) (mkBIConditions false) (mkBIActions false)
       (mkBIPolicy [] []) 0 0 0 0 false false [] []).

Definition default_features : FeaturesConfig :=
  mkFeatures (mkNSADCNR true true)
    (mkPGWFailure true (mkPFDetection true true) (mkPFActions false false) false false false false)
    (mkMMERestoration true (mkMRDetection true true) (mkMRActions true true 30 "preserve")
       (mkMRPolicy [mkMRRule "ims" 0 no_ARP 0 0; mkMRRule "" 1 no_ARP 0 0;
                    mkMRRule "" 0 (mkARPConfig 1 3) 0 0] [])
       false false false false 0 "" [] [])
    (mkDDNControl true (mkDDNRateLimit 50 100 10) (mkDDNLowPriority true 30 true)
       (mkDDNDelayedQueue 1000 200 30) (mkDDNStopPaging false false)
       (mkDDNPolicy ims_rules [ddn_rule "internet" 9 0 0])
       0 0 0 false 0 false 0 0 0 false false [] [])
    (mkIdleDownlink false (mkIDActions true) (mkIDConditions true) (mkIDThrottling 10)
       (mkIDPolicy ims_rules [ddn_rule "internet" 9 0 0]) false 0 false [] [])
    (mkSessionRecovery false (mkSRStorage "sqlite" "") (mkSRStartup true true) 5 "" "" false false)
    (mkBearerInactivity false (mkBITimers 30 300 60 0) (mkBIConditions true) (mkBIActions false)
       (mkBIPolicy [mkBIRule "ims" 5 "default" 0 no_ARP 0 0; mkBIRule "" 1 "" 0 no_ARP 0 0]
                   [mkBIRule "" 0 "dedicated" 300 no_ARP 0 0])
       0 0 0 0 false false [] []).

(** ** The aliases the runtime reads *)

Definition linkMMERule (r : MMERestorationPolicyRuleConfig) : MMERestorationPolicyRuleConfig :=
  r <| mrr_ARPPriorityMin := PriorityMin (mrr_ARP r) |>
    <| mrr_ARPPriorityMax := PriorityMax (mrr_ARP r) |>.
Definition linkDDNRule (r : DDNControlPriorityRuleConfig) : DDNControlPriorityRuleConfig :=
  r <| dcr_ARPPriorityMin := PriorityMin (dcr_ARP r) |>
    <| dcr_ARPPriorityMax := PriorityMax (dcr_ARP r) |>.
Definition linkBearerRule (r : BearerInactivityRuleConfig) : BearerInactivityRuleConfig :=
  r <| bir_ARPPriorityMin := PriorityMin (bir_ARP r) |>
    <| bir_ARPPriorityMax := PriorityMax (bir_ARP r) |>.

Definition link_peer_health (p : PeerHealthConfig) : PeerHealthConfig :=
  p <| EchoIntervalSeconds := pht_EchoIntervalSeconds (ph_Timers p) |>
    <| EchoTimeoutSeconds := pht_EchoTimeoutSeconds (ph_Timers p) |>
    <| SuspectAfterMissed := pht_SuspectAfterMissed (ph_Thresholds p) |>
    <| DownAfterMissed := pht_DownAfterMissed (ph_Thresholds p) |>
    <| DegradedRTTMS := pht_DegradedRTTMS (ph_Thresholds p) |>
    <| ProbeMMEPeers := MME (ph_Probe p) |> <| ProbePGWPeers := PGW (ph_Probe p) |>.
Definition link_pgw_failure (f : PGWFailureConfig) : PGWFailureConfig :=
  f <| pf_MarkSessionsOnPathDown := pfd_MarkSessionsOnPathDown (pf_Detection f) |>
    <| pf_MarkSessionsOnRestart := pfd_MarkSessionsOnRestart (pf_Detection f) |>
    <| BlockNewProceduresToDownPGW := pfa_BlockNewProceduresToDownPGW (pf_Actions f) |>
    <| NotifyMMEOnPGWRestart := pfa_NotifyMMEOnPGWRestart (pf_Actions f) |>.
(** A rule list and its alias are one slice, so the rules are linked in both. *)
Definition link_mme_restoration (m : MMERestorationConfig) : MMERestorationConfig :=
  let det := mr_Detection m in
  let act := mr_Actions m in
  let preserve := linkMMERule <$> mrp_Preserve (mr_Policy m) in
  let delete := linkMMERule <$> mrp_Delete (mr_Policy m) in
  mkMMERestoration (mr_Enabled m) det act (mkMRPolicy preserve delete)
    (mrd_MarkSessionsOnPathDown det) (mrd_MarkSessionsOnRestart det)
    (mra_EnforceDeletePolicy act) (mra_TriggerDDN act) (mra_CleanupTimeoutSeconds act)
    (mra_DefaultAction act) preserve delete.
Definition link_ddn_control (d : DDNControlConfig) : DDNControlConfig :=
  let rate := RateLimit d in
  let low := LowPriorityThrottling d in
  let queue := DelayedQueue d in
  let high_rules := linkDDNRule <$> dp_HighPriority (dc_Policy d) in
  let low_rules := linkDDNRule <$> dp_LowPriority (dc_Policy d) in
  mkDDNControl (dc_Enabled d) rate low queue (StopPaging d) (mkDDNPolicy high_rules low_rules)
    (PerMMEPerSecond rate) (drl_PerMMEBurst rate) (drl_PerUESuppressionSeconds rate)
    (HonorMMEThrottling low) (ThrottleSeconds low) (dlp_HighPriorityBypass low)
    (MaxEntries queue) (MaxEntriesPerMME queue) (MaxAgeSeconds queue)
    (dsp_Enabled (StopPaging d)) (OnDDNAck (StopPaging d)) high_rules low_rules.
Definition link_idle_downlink (i : IdleDownlinkConfig) : IdleDownlinkConfig :=
  let high := linkDDNRule <$> idp_HighPriority (id_Policy i) in
  let suppress := linkDDNRule <$> idp_Suppress (id_Policy i) in
  mkIdleDownlink (id_Enabled i) (id_Actions i) (id_Conditions i) (id_Throttling i)
    (mkIDPolicy high suppress) (ida_TriggerDDN (id_Actions i))
    (idt_ReportThrottleSeconds (id_Throttling i)) (idc_RequireReleaseAccessDrop (id_Conditions i))
    high suppress.
Definition link_session_recovery (s : SessionRecoveryConfig) : SessionRecoveryConfig :=
  s <| Backend := srs_Backend (Storage s) |> <| SQLitePath := srs_SQLitePath (Storage s) |>
    <| RestoreOnStartup := Restore (Startup s) |> <| ReconcileOnStartup := Reconcile (Startup s) |>.
Definition link_bearer_inactivity (b : BearerInactivityConfig) : BearerInactivityConfig :=
  let timers := bi_Timers b in
  let preserve := linkBearerRule <$> bip_Preserve (bi_Policy b) in
  let cleanup := linkBearerRule <$> bip_Cleanup (bi_Policy b) in
  mkBearerInactivity (bi_Enabled b) timers (bi_Conditions b) (bi_Actions b) (mkBIPolicy preserve cleanup)
    (bit_CheckIntervalSeconds timers) (bit_DedicatedBearerIdleSeconds timers)
    (bit_PendingBearerTimeoutSeconds timers) (bit_DefaultBearerIdleSeconds timers)
    (bia_DeleteDefaultBearers (bi_Actions b)) (bic_RequireNoRecentControlActivity (bi_Conditions b))
    preserve cleanup.

Definition link_features (f : FeaturesConfig) : FeaturesConfig :=
  f <| f_PGWFailure := link_pgw_failure (f_PGWFailure f) |>
    <| f_MMERestoration := link_mme_restoration (f_MMERestoration f) |>
    <| DDN := link_ddn_control (DDN f) |> <| f_IdleDownlink := link_idle_downlink (f_IdleDownlink f) |>
    <| f_SessionRecovery := link_session_recovery (f_SessionRecovery f) |>
    <| f_BearerInactivity := link_bearer_inactivity (f_BearerInactivity f) |>.

(** The copies under [GTPC] are made last, of the linked features. *)
Definition mirror (f : FeaturesConfig) (c : Config) : Config :=
  let g := GTPC c in
  c <| S11 := s11_Timers (g_S11 g) |> <| Features := f |>
    <| GTPC := mkGTPC (g_S11 g) (S5C g) (Transactions g) (link_peer_health (PeerHealth g))
                 (tx_CreateBearerRetryGuard (Transactions g)) (CollisionHandling (Transactions g))
                 (f_NSADCNR f) (f_PGWFailure f) (f_MMERestoration f) (DDN f) (f_IdleDownlink f)
                 (f_SessionRecovery f) (f_BearerInactivity f) |>.
Definition linkRuntimeAliases (c : Config) : Config := mirror (link_features (Features c)) c.

Definition Default : Config :=
  linkRuntimeAliases
    (mkConfig (mkSGWC "" (mkPLMN "" "") "" "") (mkInterfaces ∅) default_gtpc
       (mkPFCP "" [] (mkHeartbeat 10 30)) default_features
       (mkQoS (mkOuterMarking true (mkMarking true 40) (mkMarking true 40)))
       (mkLogging "info" "") (mkAPI "127.0.0.1:8080") (mkMetrics "127.0.0.1:9090") (mkShutdown 5)
       (mkS11 0 0)).

(** The [Listen] of an interface that is not configured is empty. *)
Definition listen_of (c : Config) (bind : string) : string :=
  from_option Listen "" (Control (Interfaces c) !! bind).
Definition S11Listen (c : Config) : string := listen_of c (s11_Bind (g_S11 (GTPC c))).
Definition S5CListen (c : Config) : string := listen_of c (g_Bind (S5C (GTPC c))).

(** ** Validation ([validate.go]) *)

Inductive RuleError :=
| NoMatcher | QCIRange (qci : Z) | ARPRange | ARPOrder | BadBearerType (t : string) | NegativeIdle
| CleanupNotPositive | TargetsDefault.
(** An error of the validation; a rule error names the list and the index. *)
Inductive ValidationError :=
| Required (path : string)
| UnknownBind (path bind : string)
| MustBePositive (path : string)
| BadMode (mode : string)
| TimeoutNotBelowInterval
| DownBelowSuspect
| NotSupported (path : string)
| BadDefaultAction (action : string)
| MustBeNonnegative (path : string)
| RequiresEnabled | NoHighPriority | BadBackend (backend : string) | ReconcileRequiresRestore
| BadInactivityTimers | DefaultNeedsTimeout
| BadRule (path : string) (i : nat) (e : RuleError)
| DSCPRange (path : string) (dscp : Z).

Notation verdict := (result ValidationError unit).
#[local] Notation reject e := (Err e : verdict).
#[local] Notation accept := (Ok tt : verdict).

Definition validatePolicyRule (apn : string) (qci : Z) (arp : ARPConfig) (bearerType : string)
    (idle : Z) : option RuleError :=
  if String.eqb apn "" && (qci =? 0) && (PriorityMin arp =? 0) && (PriorityMax arp =? 0)
     && String.eqb bearerType "" && (idle =? 0) then Some NoMatcher
  else if 9 <? qci then Some (QCIRange qci)
  else if (15 <? PriorityMin arp) || (15 <? PriorityMax arp) then Some ARPRange
  else if negb (PriorityMin arp =? 0) && negb (PriorityMax arp =? 0)
          && (PriorityMax arp <? PriorityMin arp) then Some ARPOrder
  else if negb (String.eqb bearerType "") && negb (String.eqb bearerType "default")
          && negb (String.eqb bearerType "dedicated") then Some (BadBearerType bearerType)
  else if idle <? 0 then Some NegativeIdle
  else None.

(** The first rule that is rejected, with its index. *)
Fixpoint check_rules {R} (check : R -> option RuleError) (path : string) (i : nat) (rules : list R)
    : verdict :=
  match rules with
  | [] => accept
  | r :: rules =>
      match check r with
      | Some e => reject (BadRule path i e)
      | None => check_rules check path (S i) rules
      end
  end.
(** The two lists of a policy are values of a map: either may come first. *)
Definition in_either_order (swap : bool) (a b : verdict) : verdict :=
  if swap then let? _ := b in a else let? _ := a in b.

Definition check_mme_rule (r : MMERestorationPolicyRuleConfig) : option RuleError :=
  validatePolicyRule (mrr_APN r) (mrr_QCI r) (mrr_ARP r) "" 0.
Definition check_ddn_rule (r : DDNControlPriorityRuleConfig) : option RuleError :=
  validatePolicyRule (dcr_APN r) (dcr_QCI r) (dcr_ARP r) "" 0.
Definition check_bearer_rule (cleanup : bool) (deleteDefault : bool) (r : BearerInactivityRuleConfig)
    : option RuleError :=
  match validatePolicyRule (bir_APN r) (bir_QCI r) (bir_ARP r) (bir_BearerType r) (bir_IdleSeconds r) with
  | Some e => Some e
  | None =>
      if cleanup && (bir_IdleSeconds r <=? 0) then Some CleanupNotPositive
      else if String.eqb (bir_BearerType r) "default" && cleanup && negb deleteDefault then Some TargetsDefault
      else None
  end.

Definition validateBind (c : Config) (path bind : string) : verdict :=
  if String.eqb bind "" then reject (Required path)
  else match Control (Interfaces c) !! bind with
       | Some _ => accept
       | None => reject (UnknownBind path bind)
       end.

Definition validatePeerHealth (c : Config) : verdict :=
  let p := PeerHealth (GTPC c) in
  if (EchoIntervalSeconds p <=? 0) || (EchoTimeoutSeconds p <=? 0)
  then reject (MustBePositive "gtpc.peer_health timers")
  else if EchoIntervalSeconds p <=? EchoTimeoutSeconds p then reject TimeoutNotBelowInterval
  else if SuspectAfterMissed p <=? 0 then reject (MustBePositive "gtpc.peer_health.thresholds.suspect_after_missed")
  else if DownAfterMissed p <? SuspectAfterMissed p then reject DownBelowSuspect
  else if DegradedRTTMS p <=? 0 then reject (MustBePositive "gtpc.peer_health.thresholds.degraded_rtt_ms")
  else accept.

Definition validateMMERestoration (swap : bool) (c : Config) : verdict :=
  let m := MMERestoration (GTPC c) in
  if CleanupTimeoutSeconds m <=? 0
  then reject (MustBePositive "features.mme_restoration.actions.cleanup_timeout_seconds")
  else if negb (String.eqb (DefaultAction m) "") && negb (String.eqb (DefaultAction m) "preserve")
          && negb (String.eqb (DefaultAction m) "delete") then reject (BadDefaultAction (DefaultAction m))
  else in_either_order swap
         (check_rules check_mme_rule "features.mme_restoration.policy.preserve" 0 (mr_Preserve m))
         (check_rules check_mme_rule "features.mme_restoration.policy.delete" 0 (mr_Delete m)).

Definition validateDDN (swap : bool) (c : Config) : verdict :=
  let d := DDNControl (GTPC c) in
  if (PerMMERateLimitPerSecond d <=? 0) || (PerMMEBurst d <=? 0) || (PerUESuppressionSeconds d <? 0)
  then reject (MustBeNonnegative "features.ddn.rate_limit")
  else if LowPriorityThrottleSeconds d <? 0
  then reject (MustBeNonnegative "features.ddn.low_priority_throttling.throttle_seconds")
  else if (DelayedQueueMax d <=? 0) || (DelayedQueuePerMME d <=? 0) || (DelayedMaxAgeSeconds d <=? 0)
  then reject (MustBeNonnegative "features.ddn.delayed_queue")
  else if StopPagingOnDDNAck d && negb (StopPagingEnabled d) then reject RequiresEnabled
  else in_either_order swap
         (check_rules check_ddn_rule "features.ddn.policy.high_priority" 0 (dc_HighPriority d))
         (check_rules check_ddn_rule "features.ddn.policy.low_priority" 0 (dc_LowPriority d)).

Definition validateIdleDownlink (swap : bool) (c : Config) : verdict :=
  let i := IdleDownlink (GTPC c) in
  if ReportThrottleSeconds i <=? 0
  then reject (MustBeNonnegative "features.idle_downlink_notification.throttling.report_throttle_seconds")
  else
    let? _ := in_either_order swap
      (check_rules check_ddn_rule "features.idle_downlink_notification.policy.high_priority" 0 (id_HighPriority i))
      (check_rules check_ddn_rule "features.idle_downlink_notification.policy.suppress" 0 (Suppress i)) in
    if id_Enabled i && id_TriggerDDN i && bool_decide (id_HighPriority i = []) then reject NoHighPriority
    else accept.

Definition validateSessionRecovery (c : Config) : verdict :=
  let s := SessionRecovery (GTPC c) in
  if negb (String.eqb (Backend s) "") && negb (String.eqb (Backend s) "sqlite") then reject (BadBackend (Backend s))
  else if CheckpointIntervalSeconds s <=? 0
  then reject (MustBePositive "features.session_recovery.checkpoint_interval_seconds")
  else if ReconcileOnStartup s && negb (RestoreOnStartup s) then reject ReconcileRequiresRestore
  else accept.

Definition validateBearerInactivity (swap : bool) (c : Config) : verdict :=
  let b := BearerInactivity (GTPC c) in
  if (CheckIntervalSeconds b <=? 0) || (DedicatedBearerIdleSeconds b <=? 0)
     || (PendingBearerTimeoutSeconds b <=? 0) || (DefaultBearerIdleSeconds b <? 0)
  then reject BadInactivityTimers
  else if DeleteDefaultBearers b && (DefaultBearerIdleSeconds b =? 0) then reject DefaultNeedsTimeout
  else in_either_order swap
         (check_rules (check_bearer_rule false (DeleteDefaultBearers b))
            "features.bearer_inactivity.policy.preserve" 0 (bi_Preserve b))
         (check_rules (check_bearer_rule true (DeleteDefaultBearers b))
            "features.bearer_inactivity.policy.cleanup" 0 (Cleanup b)).

Definition validateDSCP (path : string) (dscp : Z) : verdict :=
  if (dscp <? 0) || (63 <? dscp) then reject (DSCPRange path dscp) else accept.

(** The control interfaces, in the order the map is ranged over. *)
Fixpoint check_interfaces (order : list string) (ifs : gmap string ControlInterfaceConfig) : verdict :=
  match order with
  | [] => accept
  | name :: order =>
      match ifs !! name with
      | Some i => if String.eqb (Listen i) ""
                  then reject (Required ("interfaces.control." ++ name ++ ".listen"))
                  else check_interfaces order ifs
      | None => check_interfaces order ifs
      end
  end.
Fixpoint check_peers (i : Z) (peers : list SGWUPeer) : verdict :=
  match peers with
  | [] => accept
  | p :: peers =>
      if String.eqb (Name p) "" then reject (Required ("pfcp.sgwu[" ++ Itoa i ++ "].name"))
      else if String.eqb (u_Addr p) "" then reject (Required ("pfcp.sgwu[" ++ Itoa i ++ "].addr"))
      else check_peers (i + 1) peers
  end.

(** The orders of the maps one validation ranges over. *)
Record map_orders := mkOrders {
  interfaces_order : list string; swap_mme : bool; swap_ddn : bool; swap_idle : bool; swap_bearer : bool
}.

Definition required (value path : string) : verdict :=
  if String.eqb value "" then reject (Required path) else accept.
Definition Validate (o : map_orders) (c : Config) : verdict :=
  let? _ := required (NodeID (SGWC c)) "sgwc.node_id" in
  let? _ := required (MCC (PLMN (SGWC c))) "sgwc.plmn.mcc" in
  let? _ := required (MNC (PLMN (SGWC c))) "sgwc.plmn.mnc" in
  let? _ := check_interfaces (interfaces_order o) (Control (Interfaces c)) in
  let? _ := validateBind c "gtpc.s11.bind" (s11_Bind (g_S11 (GTPC c))) in
  let? _ := validateBind c "gtpc.s5c.bind" (g_Bind (S5C (GTPC c))) in
  let? _ := required (LocalAddr (PFCP c)) "pfcp.local_addr" in
  if bool_decide (SGWU (PFCP c) = []) then reject (Required "pfcp.sgwu") else
  let? _ := check_peers 0 (SGWU (PFCP c)) in
  if T3ResponseSeconds (S11 c) <=? 0 then reject (MustBePositive "gtpc.s11.timers.t3_response_seconds") else
  if N3Requests (S11 c) <=? 0 then reject (MustBePositive "gtpc.s11.timers.n3_requests") else
  let collision := TransactionCollision (GTPC c) in
  if negb (String.eqb (Mode collision) "strict") && negb (String.eqb (Mode collision) "permissive")
  then reject (BadMode (Mode collision)) else
  if ActiveProcedureTimeoutSeconds collision <=? 0
  then reject (MustBePositive "gtpc.transactions.collision_handling.active_procedure_timeout_seconds") else
  let? _ := validatePeerHealth c in
  if NotifyMMEOnPGWRestart (PGWFailure (GTPC c))
  then reject (NotSupported "features.pgw_failure_handling.actions.notify_mme_on_pgw_restart") else
  let? _ := validateMMERestoration (swap_mme o) c in
  let? _ := validateDDN (swap_ddn o) c in
  let? _ := validateIdleDownlink (swap_idle o) c in
  let? _ := validateSessionRecovery c in
  let? _ := validateBearerInactivity (swap_bearer o) c in
  let? _ := validateDSCP "qos.outer_marking.gtpc.dscp" (DSCP (om_GTPC (OuterMarking (QoS c)))) in
  validateDSCP "qos.outer_marking.pfcp.dscp" (DSCP (om_PFCP (OuterMarking (QoS c)))).

(** [Load]: [decode] is the YAML decoder on the opened file, which fills in the
    configuration it is given; its error tells whether it is about a reason field. *)
Inductive LoadError := OpenFailed | ParseFailed (reason_field : bool) | InvalidConfig (e : ValidationError).
Definition Load (file : option (Config -> result bool Config)) (order : Config -> map_orders)
    : result LoadError Config :=
  match file with
  | None => Err OpenFailed
  | Some decode =>
      match decode Default with
      | Err reason_field => Err (ParseFailed reason_field)
      | Ok c =>
          let c := linkRuntimeAliases c in
          match Validate (order c) c with Err e => Err (InvalidConfig e) | Ok _ => Ok c end
      end
  end.

(** ** What a valid configuration is *)

(** A rule matches on something, within the ranges of its fields. *)
Definition rule_ok (apn : string) (qci : Z) (arp : ARPConfig) (bearerType : string) (idle : Z) : Prop :=
  (apn <> "" \/ qci <> 0 \/ PriorityMin arp <> 0 \/ PriorityMax arp <> 0 \/ bearerType <> "" \/ idle <> 0)
  /\ qci <= 9 /\ PriorityMin arp <= 15 /\ PriorityMax arp <= 15
  /\ (PriorityMin arp = 0 \/ PriorityMax arp = 0 \/ PriorityMin arp <= PriorityMax arp)
  /\ (bearerType = "" \/ bearerType = "default" \/ bearerType = "dedicated") /\ 0 <= idle.
Definition mme_rule_ok (r : MMERestorationPolicyRuleConfig) : Prop :=
  rule_ok (mrr_APN r) (mrr_QCI r) (mrr_ARP r) "" 0.
Definition ddn_rule_ok (r : DDNControlPriorityRuleConfig) : Prop :=
  rule_ok (dcr_APN r) (dcr_QCI r) (dcr_ARP r) "" 0.
Definition bearer_rule_ok (r : BearerInactivityRuleConfig) : Prop :=
  rule_ok (bir_APN r) (bir_QCI r) (bir_ARP r) (bir_BearerType r) (bir_IdleSeconds r).

Definition base_valid (c : Config) : Prop :=
  NodeID (SGWC c) <> "" /\ MCC (PLMN (SGWC c)) <> "" /\ MNC (PLMN (SGWC c)) <> ""
  /\ map_Forall (fun _ i => Listen i <> "") (Control (Interfaces c))
  /\ (s11_Bind (g_S11 (GTPC c)) <> "" /\ is_Some (Control (Interfaces c) !! s11_Bind (g_S11 (GTPC c))))
  /\ (g_Bind (S5C (GTPC c)) <> "" /\ is_Some (Control (Interfaces c) !! g_Bind (S5C (GTPC c))))
  /\ LocalAddr (PFCP c) <> "" /\ SGWU (PFCP c) <> []
  /\ Forall (fun p => Name p <> "" /\ u_Addr p <> "") (SGWU (PFCP c))
  /\ 0 < T3ResponseSeconds (S11 c) /\ 0 < N3Requests (S11 c)
  /\ (Mode (TransactionCollision (GTPC c)) = "strict" \/ Mode (TransactionCollision (GTPC c)) = "permissive")
  /\ 0 < ActiveProcedureTimeoutSeconds (TransactionCollision (GTPC c)).
Definition peer_health_valid (p : PeerHealthConfig) : Prop :=
  0 < EchoTimeoutSeconds p < EchoIntervalSeconds p
  /\ 0 < SuspectAfterMissed p <= DownAfterMissed p /\ 0 < DegradedRTTMS p.
Definition mme_restoration_valid (m : MMERestorationConfig) : Prop :=
  0 < CleanupTimeoutSeconds m
  /\ (DefaultAction m = "" \/ DefaultAction m = "preserve" \/ DefaultAction m = "delete")
  /\ Forall mme_rule_ok (mr_Preserve m) /\ Forall mme_rule_ok (mr_Delete m).
Definition ddn_valid (d : DDNControlConfig) : Prop :=
  0 < PerMMERateLimitPerSecond d /\ 0 < PerMMEBurst d /\ 0 <= PerUESuppressionSeconds d
  /\ 0 <= LowPriorityThrottleSeconds d
  /\ 0 < DelayedQueueMax d /\ 0 < DelayedQueuePerMME d /\ 0 < DelayedMaxAgeSeconds d
  /\ (StopPagingOnDDNAck d = true -> StopPagingEnabled d = true)
  /\ Forall ddn_rule_ok (dc_HighPriority d) /\ Forall ddn_rule_ok (dc_LowPriority d).
Definition idle_downlink_valid (i : IdleDownlinkConfig) : Prop :=
  0 < ReportThrottleSeconds i
  /\ Forall ddn_rule_ok (id_HighPriority i) /\ Forall ddn_rule_ok (Suppress i)
  /\ (id_Enabled i = true -> id_TriggerDDN i = true -> id_HighPriority i <> []).
Definition session_recovery_valid (s : SessionRecoveryConfig) : Prop :=
  (Backend s = "" \/ Backend s = "sqlite") /\ 0 < CheckpointIntervalSeconds s
  /\ (ReconcileOnStartup s = true -> RestoreOnStartup s = true).
Definition bearer_inactivity_valid (b : BearerInactivityConfig) : Prop :=
  0 < CheckIntervalSeconds b /\ 0 < DedicatedBearerIdleSeconds b /\ 0 < PendingBearerTimeoutSeconds b
  /\ 0 <= DefaultBearerIdleSeconds b
  /\ (DeleteDefaultBearers b = true -> 0 < DefaultBearerIdleSeconds b)
  /\ Forall bearer_rule_ok (bi_Preserve b)
  /\ Forall (fun r => bearer_rule_ok r /\ 0 < bir_IdleSeconds r
                      /\ (bir_BearerType r = "default" -> DeleteDefaultBearers b = true)) (Cleanup b).
Definition dscp_valid (c : Config) : Prop :=
  0 <= DSCP (om_GTPC (OuterMarking (QoS c))) <= 63 /\ 0 <= DSCP (om_PFCP (OuterMarking (QoS c))) <= 63.

Definition valid (c : Config) : Prop :=
  base_valid c /\ peer_health_valid (PeerHealth (GTPC c))
  /\ NotifyMMEOnPGWRestart (PGWFailure (GTPC c)) = false
  /\ mme_restoration_valid (MMERestoration (GTPC c)) /\ ddn_valid (DDNControl (GTPC c))
  /\ idle_downlink_valid (IdleDownlink (GTPC c)) /\ session_recovery_valid (SessionRecovery (GTPC c))
  /\ bearer_inactivity_valid (BearerInactivity (GTPC c)) /\ dscp_valid c.

(** *** Acceptance, check by check *)

Lemma accept_then (a b : verdict) : (let? _ := a in b) = accept <-> a = accept /\ b = accept.
Proof. destruct a as [[]|]; naive_solver. Qed.
Lemma reject_if (b : bool) e (k : verdict) : (if b then reject e else k) = accept <-> b = false /\ k = accept.
Proof. destruct b; naive_solver. Qed.
Lemma accept_if (b : bool) (e : ValidationError) : (if b then reject e else accept) = accept <-> b = false.
Proof. destruct b; naive_solver. Qed.
Lemma either_order swap a b : in_either_order swap a b = accept <-> a = accept /\ b = accept.
Proof. destruct swap; cbn [in_either_order]; rewrite accept_then; naive_solver. Qed.
Lemma eqb_false a b : String.eqb a b = false <-> a <> b.
Proof. apply String.eqb_neq. Qed.
Lemma bool_decide_is_false (A : Prop) `{Decision A} : bool_decide A = false <-> ~ A.
Proof. apply bool_decide_eq_false. Qed.

Create HintDb accepts.
#[local] Hint Rewrite accept_then reject_if accept_if either_order orb_false_iff andb_false_iff negb_false_iff
  negb_true_iff String.eqb_eq eqb_false Z.leb_gt Z.ltb_ge Z.eqb_neq Z.eqb_eq
  @bool_decide_is_false : accepts.

Lemma check_rules_ok {R} (check : R -> option RuleError) (ok : R -> Prop) path :
  (forall r, check r = None <-> ok r) ->
  forall rules i, check_rules check path i rules = accept <-> Forall ok rules.
Proof.
  intros Hc. induction rules as [|r rules IH]; intros i; cbn [check_rules]; [done|].
  rewrite Forall_cons, <- (Hc r). destruct (check r); [naive_solver|]. rewrite IH. naive_solver.
Qed.

Lemma refuse_if {A} (b : bool) (e : A) k : (if b then Some e else k) = None <-> b = false /\ k = None.
Proof. destruct b; naive_solver. Qed.
Lemma policy_rule_ok apn qci arp t idle : validatePolicyRule apn qci arp t idle = None <-> rule_ok apn qci arp t idle.
Proof.
  unfold validatePolicyRule, rule_ok. rewrite !refuse_if. autorewrite with accepts.
  naive_solver lia.
Qed.
Lemma check_bearer_ok cleanup deleteDefault r :
  check_bearer_rule cleanup deleteDefault r = None
  <-> bearer_rule_ok r /\ (cleanup = true -> 0 < bir_IdleSeconds r
                           /\ (bir_BearerType r = "default" -> deleteDefault = true)).
Proof.
  unfold check_bearer_rule, bearer_rule_ok. rewrite <- policy_rule_ok.
  destruct (validatePolicyRule _ _ _ _ _); [naive_solver|]. rewrite !refuse_if.
  autorewrite with accepts. destruct cleanup, deleteDefault; naive_solver lia.
Qed.

Lemma check_interfaces_ok order ifs : (forall name, is_Some (ifs !! name) -> name ∈ order) ->
  check_interfaces order ifs = accept <-> map_Forall (fun _ i => Listen i <> "") ifs.
Proof.
  intros Hall. transitivity (forall name i, name ∈ order -> ifs !! name = Some i -> Listen i <> "").
  - clear Hall. induction order as [|name order IH]; cbn [check_interfaces]; [set_solver|].
    destruct (ifs !! name) as [i|] eqn:E; [autorewrite with accepts|]; rewrite IH; set_solver.
  - unfold map_Forall. split; [|naive_solver]. intros Ho name i Hi. apply (Ho name); [|done]. by apply Hall.
Qed.
Lemma check_peers_ok peers : forall i, check_peers i peers = accept
  <-> Forall (fun p => Name p <> "" /\ u_Addr p <> "") peers.
Proof.
  induction peers as [|p peers IH]; intros i; cbn [check_peers]; [done|].
  autorewrite with accepts. rewrite IH, Forall_cons. naive_solver.
Qed.
Lemma bind_ok c path bind : validateBind c path bind = accept
  <-> bind <> "" /\ is_Some (Control (Interfaces c) !! bind).
Proof.
  unfold validateBind. autorewrite with accepts.
  destruct (Control (Interfaces c) !! bind); [naive_solver|]. split; [naive_solver|].
  intros [_ []]; done.
Qed.

Lemma peer_health_ok c : validatePeerHealth c = accept <-> peer_health_valid (PeerHealth (GTPC c)).
Proof. unfold validatePeerHealth, peer_health_valid. autorewrite with accepts. naive_solver lia. Qed.
Lemma session_recovery_ok c :
  validateSessionRecovery c = accept <-> session_recovery_valid (SessionRecovery (GTPC c)).
Proof.
  unfold validateSessionRecovery, session_recovery_valid. autorewrite with accepts.
  destruct (ReconcileOnStartup _), (RestoreOnStartup _); naive_solver.
Qed.
Lemma mme_restoration_ok swap c :
  validateMMERestoration swap c = accept <-> mme_restoration_valid (MMERestoration (GTPC c)).
Proof.
  unfold validateMMERestoration, mme_restoration_valid. autorewrite with accepts.
  rewrite !(check_rules_ok _ mme_rule_ok) by (intros; apply policy_rule_ok). naive_solver.
Qed.
Lemma ddn_rules_ok path rules i : check_rules check_ddn_rule path i rules = accept <-> Forall ddn_rule_ok rules.
Proof. apply check_rules_ok. intros. apply policy_rule_ok. Qed.
Lemma ddn_ok swap c : validateDDN swap c = accept <-> ddn_valid (DDNControl (GTPC c)).
Proof.
  unfold validateDDN, ddn_valid. autorewrite with accepts. rewrite !ddn_rules_ok.
  destruct (StopPagingOnDDNAck _), (StopPagingEnabled _); naive_solver lia.
Qed.
Lemma idle_downlink_ok swap c :
  validateIdleDownlink swap c = accept <-> idle_downlink_valid (IdleDownlink (GTPC c)).
Proof.
  unfold validateIdleDownlink, idle_downlink_valid. autorewrite with accepts. rewrite !ddn_rules_ok.
  destruct (id_Enabled _), (id_TriggerDDN _); naive_solver lia.
Qed.
Lemma bearer_inactivity_ok swap c :
  validateBearerInactivity swap c = accept <-> bearer_inactivity_valid (BearerInactivity (GTPC c)).
Proof.
  unfold validateBearerInactivity, bearer_inactivity_valid. autorewrite with accepts.
  set (b := BearerInactivity (GTPC c)).
  rewrite (check_rules_ok _ bearer_rule_ok).
  2: { intros r. rewrite check_bearer_ok. naive_solver. }
  rewrite (check_rules_ok _ (fun r => bearer_rule_ok r /\ 0 < bir_IdleSeconds r
                      /\ (bir_BearerType r = "default" -> DeleteDefaultBearers b = true))).
  2: { intros r. rewrite check_bearer_ok. naive_solver. }
  destruct (DeleteDefaultBearers b); naive_solver lia.
Qed.
Lemma dscp_ok path d : validateDSCP path d = accept <-> 0 <= d <= 63.
Proof. unfold validateDSCP. autorewrite with accepts. lia. Qed.

(** The iteration order names every control interface. *)
Definition covers (o : map_orders) (c : Config) : Prop :=
  forall name, is_Some (Control (Interfaces c) !! name) -> name ∈ interfaces_order o.

Lemma Validate_accepts o c : covers o c -> Validate o c = Ok tt <-> valid c.
Proof.
  intros Hc. unfold Validate, valid, base_valid, dscp_valid, required. autorewrite with accepts.
  rewrite check_interfaces_ok by exact Hc.
  rewrite !bind_ok, check_peers_ok, peer_health_ok, mme_restoration_ok, ddn_ok, idle_downlink_ok,
    session_recovery_ok, bearer_inactivity_ok, !dscp_ok.
  split; intros; destruct_and!; split_and!; try done; lia || tauto.
Qed.

(** ** The aliases *)

Lemma fmap_idempotent {A} (f : A -> A) (l : list A) : (forall a, f (f a) = f a) -> f <$> (f <$> l) = f <$> l.
Proof. intros Hf. induction l as [|a l IH]; [done|]. cbn. by rewrite Hf, IH. Qed.

Lemma link_mme_restoration_idempotent m : link_mme_restoration (link_mme_restoration m) = link_mme_restoration m.
Proof. unfold link_mme_restoration. cbn -[fmap]. rewrite !fmap_idempotent by (by intros []). reflexivity. Qed.
Lemma link_ddn_control_idempotent d : link_ddn_control (link_ddn_control d) = link_ddn_control d.
Proof. unfold link_ddn_control. cbn -[fmap]. rewrite !fmap_idempotent by (by intros []). reflexivity. Qed.
Lemma link_idle_downlink_idempotent i : link_idle_downlink (link_idle_downlink i) = link_idle_downlink i.
Proof. unfold link_idle_downlink. cbn -[fmap]. rewrite !fmap_idempotent by (by intros []). reflexivity. Qed.
Lemma link_bearer_inactivity_idempotent b : link_bearer_inactivity (link_bearer_inactivity b) = link_bearer_inactivity b.
Proof. unfold link_bearer_inactivity. cbn -[fmap]. rewrite !fmap_idempotent by (by intros []). reflexivity. Qed.
Lemma link_features_idempotent f : link_features (link_features f) = link_features f.
Proof.
  transitivity (f <| f_PGWFailure := link_pgw_failure (link_pgw_failure (f_PGWFailure f)) |>
    <| f_MMERestoration := link_mme_restoration (link_mme_restoration (f_MMERestoration f)) |>
    <| DDN := link_ddn_control (link_ddn_control (DDN f)) |>
    <| f_IdleDownlink := link_idle_downlink (link_idle_downlink (f_IdleDownlink f)) |>
    <| f_SessionRecovery := link_session_recovery (link_session_recovery (f_SessionRecovery f)) |>
    <| f_BearerInactivity := link_bearer_inactivity (link_bearer_inactivity (f_BearerInactivity f)) |>);
    [reflexivity|].
  by rewrite link_mme_restoration_idempotent, link_ddn_control_idempotent, link_idle_downlink_idempotent,
    link_bearer_inactivity_idempotent.
Qed.
(** [Load] links after decoding what [Default] linked before. *)
Lemma link_idempotent c : linkRuntimeAliases (linkRuntimeAliases c) = linkRuntimeAliases c.
Proof.
  unfold linkRuntimeAliases at 1. change (Features (linkRuntimeAliases c)) with (link_features (Features c)).
  rewrite link_features_idempotent. reflexivity.
Qed.

(** The runtime's copies agree with the file's structures. *)
Definition linked (c : Config) : Prop := linkRuntimeAliases c = c.

Lemma Load_linked file order c : Load file order = Ok c -> linked c.
Proof.
  unfold Load. destruct file as [decode|]; [|done]. destruct (decode Default) as [d|]; [|done].
  destruct (Validate _ _); [|done]. intros E. injection E as <-. exact (link_idempotent d).
Qed.
Lemma Load_valid file order c : (forall d, covers (order d) d) -> Load file order = Ok c -> valid c.
Proof.
  unfold Load. intros Hc. destruct file as [decode|]; [|done]. destruct (decode Default) as [d|]; [|done].
  destruct (Validate _ _) as [[]|] eqn:E; [|done]. intros [= <-]. by apply Validate_accepts in E.
Qed.

(** A linked rule carries its ARP range twice. *)
Lemma linked_all {A} (link : A -> A) (l1 l2 : list A) : (forall r, link (link r) = link r) ->
  Forall (fun r => link r = r) ((link <$> l1) ++ (link <$> l2)).
Proof. intros Hl. rewrite <- fmap_app. apply Forall_fmap, Forall_true. exact Hl. Qed.
Lemma linked_mme_rules c : linked c ->
  Forall (fun r => linkMMERule r = r) (mr_Preserve (MMERestoration (GTPC c)) ++ mr_Delete (MMERestoration (GTPC c))).
Proof. intros <-. by apply (linked_all linkMMERule (mrp_Preserve (mr_Policy (f_MMERestoration (Features c))))). Qed.
Lemma linked_ddn_rules c : linked c ->
  Forall (fun r => linkDDNRule r = r) (dc_HighPriority (DDNControl (GTPC c)) ++ dc_LowPriority (DDNControl (GTPC c))).
Proof. intros <-. by apply (linked_all linkDDNRule (dp_HighPriority (dc_Policy (DDN (Features c))))). Qed.

(** ** Property *)

(** C16: [Validate] accepts exactly the configurations that are [valid]: ids and interfaces
    are set, both GTP-C bindings name a configured interface, timers and limits are
    positive, thresholds ordered, every policy rule matches on something within range,
    no default bearer is a cleanup target unless that is enabled; the order in which maps
    are ranged over decides which error is reported, not whether there is one. *)
Theorem Validate_iff o c : covers o c -> Validate o c = Ok tt <-> valid c.
Proof. apply Validate_accepts. Qed.

Definition example_interfaces : gmap string ControlInterfaceConfig :=
  {[ "s11" := mkControlInterface "10.0.0.1:2123"; "s5c" := mkControlInterface "10.0.1.1:2123" ]}.
(** A minimal configuration file: the identity and two interfaces over the defaults. *)
Definition example_file (d : Config) : result bool Config :=
  Ok (mkConfig (mkSGWC "sgwc" (mkPLMN "001" "01") "" "10.0.0.1")
        (mkInterfaces example_interfaces)
        ((GTPC d) <| g_S11 := mkS11Logical "s11" (mkS11 3 5) |> <| S5C := mkGTPCLogical "s5c" |>)
        (mkPFCP "10.0.2.1:8805" [mkSGWUPeer "u1" "" "10.0.2.2:8805"] (mkHeartbeat 10 30))
        (Features d) (QoS d) (Logging d) (API d) (Metrics d) (Shutdown d) (S11 d)).
Definition example_orders : map_orders := mkOrders ["s5c"; "s11"] true false true false.
Definition example_config : Config :=
  match example_file Default with Ok c => linkRuntimeAliases c | Err _ => Default end.
Lemma example_covers : covers example_orders example_config.
Proof.
  intros name [i Hi].
  change (example_interfaces !! name = Some i) in Hi.
  unfold example_interfaces in Hi.
  apply lookup_insert_Some in Hi as [[<- _]|[_ Hi]].
  - right. left.
  - apply lookup_singleton_Some in Hi as [<- _]. left.
Defined.

Example example_loads : Load (Some example_file) (fun _ => example_orders) = Ok example_config.
Proof. vm_compute. reflexivity. Qed.

Lemma Validate_iff_witness :
  Validate example_orders example_config = Ok tt /\ valid example_config.
Proof.
  assert (Validate example_orders example_config = Ok tt) as E by (vm_compute; reflexivity).
  split; [exact E|]. exact (proj1 (Validate_iff example_orders example_config example_covers) E).
Defined.
