(* ===== verification/Effects.v ===== *)
(** * Programs over a state

    The control-plane handlers thread many pieces of state and can panic.  [M S A] is a
    program over the state [S] that yields an [A]; [None] is a Go panic, which nothing in
    the program recovers from.  stdpp's notations [x ← m; k] and [m ;; k] compose
    programs; [let! x := m in k] is the idiom [if err != nil { return err }].  [wp] is the
    weakest precondition, with the assertion a panic must satisfy as a parameter: [False]
    asks for no panic, [True] allows it. *)

From S2P Require Import Prelude.

Definition M (S A : Type) : Type := S -> option (A * S).

#[export] Instance M_ret {S} : MRet (M S) := fun A a s => Some (a, s).
#[export] Instance M_bind {S} : MBind (M S) := fun A B k m s =>
  match m s with Some (a, s) => k a s | None => None end.
#[export] Instance M_fmap {S} : FMap (M S) := fun A B f m s =>
  match m s with Some (a, s) => Some (f a, s) | None => None end.

Section Operations.
Context {S : Type}.
Definition gets {A} (f : S -> A) : M S A := fun s => Some (f s, s).
Definition modify (f : S -> S) : M S unit := fun s => Some (tt, f s).
Definition act {A} (f : S -> A * S) : M S A := fun s => Some (f s).
Definition panic {A} : M S A := fun _ => None.
Definition unwrap {A} (o : option A) : M S A := fun s => (fun a => (a, s)) <$> o.
(** Run a program over a part of the state. *)
Definition zoom {T A} (get : S -> T) (put : T -> S -> S) (m : M T A) : M S A := fun s =>
  match m (get s) with Some (a, t) => Some (a, put t s) | None => None end.
Definition try_bind {E A B} (m : M S (result E A)) (k : A -> M S (result E B))
    : M S (result E B) :=
  r ← m; match r with Ok a => k a | Err e => mret (Err e) end.
Definition whenM (b : bool) (m : M S unit) : M S unit := if b then m else mret tt.
Fixpoint for_each {A} (l : list A) (f : A -> M S unit) : M S unit :=
  match l with [] => mret tt | a :: l => f a ;; for_each l f end.
End Operations.

(** Run a program over one half of a pair. *)
Definition on_fst {S T A} (m : M S A) : M (S * T) A := zoom fst (fun s p => (s, p.2)) m.
Definition on_snd {S T A} (m : M T A) : M (S * T) A := zoom snd (fun t p => (p.1, t)) m.

Notation "'let!' x := m 'in' k" := (try_bind m (fun x => k))
  (at level 10, x pattern, m at level 100, k at level 200) : sgw_scope.

(** ** Weakest preconditions *)

Section Wp.
Context {S : Type}.
Definition wp {A} (P : Prop) (m : M S A) (Q : A -> S -> Prop) (s : S) : Prop :=
  match m s with Some (a, s') => Q a s' | None => P end.

Lemma wp_ret {A} P (a : A) Q s : Q a s -> wp P (mret a) Q s.
Proof. done. Qed.
Lemma wp_bind {A B} P (m : M S A) (k : A -> M S B) Q s :
  wp P m (fun a s' => wp P (k a) Q s') s -> wp P (m ≫= k) Q s.
Proof. unfold wp, mbind, M_bind. by destruct (m s) as [[a s']|]. Qed.
Lemma wp_gets {A} P (f : S -> A) Q s : Q (f s) s -> wp P (gets f) Q s.
Proof. done. Qed.
Lemma wp_modify P (f : S -> S) Q s : Q tt (f s) -> wp P (modify f) Q s.
Proof. done. Qed.
Lemma wp_act {A} P (f : S -> A * S) (Q : A -> S -> Prop) s :
  (forall a s', f s = (a, s') -> Q a s') -> wp P (act f) Q s.
Proof. unfold wp, act. destruct (f s) as [a s']. auto. Qed.
Lemma wp_panic {A} (P : Prop) Q s : P -> wp P (panic (A := A)) Q s.
Proof. done. Qed.
Lemma wp_unwrap {A} (P : Prop) (o : option A) (Q : A -> S -> Prop) s :
  (o = None -> P) -> (forall a, o = Some a -> Q a s) -> wp P (unwrap o) Q s.
Proof. unfold wp, unwrap. destruct o; cbn; auto. Qed.
Lemma wp_try {E A B} P (m : M S (result E A)) (k : A -> M S (result E B)) Q s :
  wp P m (fun r s' => match r with Ok a => wp P (k a) Q s' | Err e => Q (Err e) s' end) s ->
  wp P (try_bind m k) Q s.
Proof.
  intros H. apply wp_bind. unfold wp in *. destruct (m s) as [[[a|e] s']|]; done.
Qed.
Lemma wp_mono {A} (P P' : Prop) (m : M S A) (Q Q' : A -> S -> Prop) s :
  (P -> P') -> (forall a s', Q a s' -> Q' a s') -> wp P m Q s -> wp P' m Q' s.
Proof. unfold wp. destruct (m s) as [[a s']|]; auto. Qed.
Lemma wp_conj {A} (P : Prop) (m : M S A) (Q Q' : A -> S -> Prop) s :
  wp P m Q s -> wp P m Q' s -> wp P m (fun a s' => Q a s' /\ Q' a s') s.
Proof. unfold wp. by destruct (m s) as [[a s']|]. Qed.
Lemma wp_for_each {A} (P : Prop) (l : list A) (f : A -> M S unit) (I : S -> Prop) s :
  I s -> (forall a s', a ∈ l -> I s' -> wp P (f a) (fun _ => I) s') ->
  wp P (for_each l f) (fun _ => I) s.
Proof.
  intros Hs Hf. revert s Hs. induction l as [|a l IH]; intros s Hs; [done|].
  apply wp_bind. eapply wp_mono; [done| |apply Hf; [set_solver|done]].
  intros u s' Hs'. apply IH; [|exact Hs']. intros. apply Hf; set_solver.
Qed.
(** What a run did. *)
Lemma wp_of_runs {A} (m : M S A) (Q : A -> S -> Prop) s :
  (forall a s', m s = Some (a, s') -> Q a s') -> wp True m Q s.
Proof. unfold wp. intros Hm. destruct (m s) as [[a s']|]; auto. Qed.
Lemma wp_run {A} P (m : M S A) Q s a s' : wp P m Q s -> m s = Some (a, s') -> Q a s'.
Proof. unfold wp. intros H E. by rewrite E in H. Qed.
Lemma wp_no_panic {A} (m : M S A) Q s : wp False m Q s -> exists a s', m s = Some (a, s') /\ Q a s'.
Proof. unfold wp. destruct (m s) as [[a s']|]; [eauto|done]. Qed.
End Wp.

Lemma wp_zoom {S T A} P (get : S -> T) put (m : M T A) (Q : A -> S -> Prop) s :
  wp P m (fun a t => Q a (put t s)) (get s) -> wp P (zoom get put m) Q s.
Proof. unfold wp, zoom. by destruct (m (get s)) as [[a t]|]. Qed.

(** ** What programs keep

    [keeps R m]: every run of [m] that does not panic relates the states before and after
    by the preorder [R]. *)

Section Keeps.
Context {S : Type}.
Definition keeps {A} (R : S -> S -> Prop) (m : M S A) : Prop :=
  forall s a s', m s = Some (a, s') -> R s s'.

Context (R : S -> S -> Prop) `{!PreOrder R}.

Lemma keeps_ret {A} (a : A) : keeps R (mret a).
Proof. intros s a' s' E. by injection E as <- <-. Qed.
Lemma keeps_gets {A} (f : S -> A) : keeps R (gets f).
Proof. intros s a s' E. by injection E as <- <-. Qed.
Lemma keeps_unwrap {A} (o : option A) : keeps R (unwrap o).
Proof. intros s a s' E. unfold unwrap in E. destruct o; [|done]. by injection E as <- <-. Qed.
Lemma keeps_panic {A} : keeps R (panic (A := A)).
Proof. by intros s a s'. Qed.
Lemma keeps_bind {A B} (m : M S A) (k : A -> M S B) :
  keeps R m -> (forall a, keeps R (k a)) -> keeps R (m ≫= k).
Proof.
  intros Hm Hk s b s' E. unfold mbind, M_bind in E. destruct (m s) as [[a s1]|] eqn:Em; [|done].
  transitivity s1; [by eapply Hm|by eapply Hk].
Qed.
Lemma keeps_fmap {A B} (f : A -> B) (m : M S A) : keeps R m -> keeps R (f <$> m).
Proof.
  intros Hm s b s' E. unfold fmap, M_fmap in E. destruct (m s) as [[a s1]|] eqn:Em; [|done].
  injection E as <- <-. by eapply Hm.
Qed.
Lemma keeps_try {X A B} (m : M S (result X A)) (k : A -> M S (result X B)) :
  keeps R m -> (forall a, keeps R (k a)) -> keeps R (try_bind m k).
Proof. intros Hm Hk. apply keeps_bind; [done|]. intros [a|e]; [done|apply keeps_ret]. Qed.
Lemma keeps_when b (m : M S unit) : keeps R m -> keeps R (whenM b m).
Proof. intros Hm. destruct b; [done|apply keeps_ret]. Qed.
Lemma keeps_for_each {A} (l : list A) (f : A -> M S unit) :
  (forall a, keeps R (f a)) -> keeps R (for_each l f).
Proof. intros Hf. induction l; [apply keeps_ret|by apply keeps_bind]. Qed.
Lemma keeps_act {A} (f : S -> A * S) : (forall s, R s (f s).2) -> keeps R (act f).
Proof. intros Hf s a s' E. unfold act in E. specialize (Hf s). by injection E as E; rewrite E in Hf. Qed.
Lemma keeps_modify (f : S -> S) : (forall s, R s (f s)) -> keeps R (modify f).
Proof. intros Hf s a s' E. by injection E as <- <-. Qed.
End Keeps.

Lemma keeps_zoom {S T A} (R : S -> S -> Prop) (R' : T -> T -> Prop) get put (m : M T A) :
  keeps R' m -> (forall s t, R' (get s) t -> R s (put t s)) -> keeps R (zoom get put m).
Proof.
  intros Hm Hput s a s' E. unfold zoom in E. destruct (m (get s)) as [[b t]|] eqn:Em; [|done].
  injection E as <- <-. apply Hput. by eapply Hm.
Qed.

Lemma wp_on_fst {S T A} P (m : M S A) (Q : A -> S * T -> Prop) (p : S * T) :
  wp P m (fun a s => Q a (s, p.2)) p.1 -> wp P (on_fst m) Q p.
Proof. exact (wp_zoom P fst (fun s p => (s, p.2)) m Q p). Qed.
Lemma wp_on_snd {S T A} P (m : M T A) (Q : A -> S * T -> Prop) (p : S * T) :
  wp P m (fun a t => Q a (p.1, t)) p.2 -> wp P (on_snd m) Q p.
Proof. exact (wp_zoom P snd (fun t p => (p.1, t)) m Q p). Qed.
Lemma keeps_on_snd {S T A} (R : S * T -> S * T -> Prop) (R' : T -> T -> Prop) (m : M T A) :
  keeps R' m -> (forall s t t', R' t t' -> R (s, t) (s, t')) -> keeps R (on_snd m).
Proof. intros Hm Hr. eapply keeps_zoom; [exact Hm|]. intros [s t] t'. apply Hr. Qed.

Lemma wp_keeps {S A} (R : S -> S -> Prop) (m : M S A) (Q : A -> S -> Prop) s :
  keeps R m -> (forall a s', R s s' -> Q a s') -> wp True m Q s.
Proof. intros Hm HQ. apply wp_of_runs. intros a s' Er. apply HQ. by eapply Hm. Qed.

(** The states have the same image. *)
Definition same {S X} (f : S -> X) (s s' : S) : Prop := f s' = f s.
#[export] Instance same_preorder {S X} (f : S -> X) : PreOrder (same f).
Proof. split; [by intros ?|intros ? ? ?; unfold same; congruence]. Qed.

Create HintDb keeps.
(** Take a program apart; a leaf is a hint of the database. *)
Ltac keeps_step :=
  first
  [ apply keeps_ret; apply _ | apply keeps_gets; apply _ | apply keeps_unwrap; apply _
  | apply keeps_panic
  | solve [auto with keeps]
  | apply keeps_bind; [apply _| |intros ?]
  | apply keeps_try; [apply _| |intros ?]
  | apply keeps_when; [apply _|]
  | apply keeps_for_each; [apply _|intros ?]
  | match goal with
    | |- keeps _ (let '(_, _) := ?x in _) => destruct x eqn:?
    | |- keeps _ (match ?x with _ => _ end) => destruct x eqn:?
    end ].
Ltac keeps_tac := repeat (intros; keeps_step).

(** What a program returns, in every run. *)
Definition yields {S A} (m : M S A) (Q : A -> Prop) : Prop := forall s a s', m s = Some (a, s') -> Q a.
Lemma yields_ret {S A} (a : A) (Q : A -> Prop) : Q a -> yields (S := S) (mret a) Q.
Proof. intros Ha s b s' E. by injection E as <- <-. Qed.
Lemma yields_bind {S A B} (m : M S A) (k : A -> M S B) (Q : B -> Prop) :
  (forall a, yields (k a) Q) -> yields (m ≫= k) Q.
Proof. intros Hk s b s' E. unfold mbind, M_bind in E. destruct (m s) as [[a s1]|]; [by eapply Hk|done]. Qed.
Ltac yields_tac :=
  repeat (intros;
    first [ apply yields_ret | apply yields_bind
          | match goal with |- yields (match ?x with _ => _ end) _ => destruct x eqn:? end ]).
