(* ===== verification/SgwcIo.v ===== *)
(** * The surroundings of the control plane

    What the S5/S8 client and the S11 handlers take from the rest of the system: the two
    GTPv2-C transports, the PFCP transport, the clock, random bytes and the iteration
    order of maps.  They are the operations of the class [Environment] over an arbitrary
    state; every message handed over and every call on another component is recorded in
    the trace, in order.  The transports themselves are modelled in [Gtpv2Transport] and
    [PfcpTransport]. *)

From stdpp Require Import sorting.
From S2P Require Import Prelude GoLib Effects Gtpv2Ie Gtpv2Message.
From S2P Require Gtpv2Transport PfcpClient SessionData PeerHealth.
#[local] Open Scope list_scope.
#[local] Open Scope Z_scope.

(** The GTPv2-C interfaces; they may share one socket. *)
Inductive iface := S11 | S5C.
#[export] Instance iface_eq_dec : EqDecision iface.
Proof. solve_decision. Defined.

(** What [SendWithPiggybacks] returns. *)
Definition gtp_answer : Type := result Gtpv2Transport.SendError (bytes * list Frame).

Class Environment (E : Type) := {
  env_now : E -> time * E;
  env_seq : iface -> E -> Z * E;                                 (* AllocSeq *)
  env_send : iface -> UDPAddr -> bytes -> E -> gtp_answer * E;   (* SendWithPiggybacks *)
  env_reply : iface -> UDPAddr -> bytes -> E -> bool * E;        (* Reply; true is success *)
  env_pfcp : UDPAddr -> bytes -> E -> PfcpClient.answer * E;
  env_random : E -> (nat -> option bytes) * E;                   (* words of one TEID allocation *)
  env_session_id : E -> option bytes * E;
  env_order : E -> (string -> Z) * E;                            (* ranks of session ids *)
  env_order_Z : E -> (Z -> Z) * E;                               (* ranks of integer keys *)
  env_resolve : string -> E -> option UDPAddr * E                (* net.ResolveUDPAddr "udp4" *)
}.

(** The order in which a map is ranged over: any permutation of its keys, given by ranks. *)
Definition ranged {K} (rank : K -> Z) (keys : list K) : list K :=
  @merge_sort K (fun a b => rank a <= rank b) (fun a b => Z_le_dec (rank a) (rank b)) keys.
Lemma ranged_Permutation {K} (rank : K -> Z) keys : Permutation (ranged rank keys) keys.
Proof. apply merge_sort_Permutation. Qed.

Inductive action :=
| Sent (i : iface) (a : UDPAddr) (raw : bytes)
| Replied (i : iface) (a : UDPAddr) (raw : bytes)
| SentPFCP (a : UDPAddr) (raw : bytes)
| Sink (c : SessionData.sink_call)
| Health (c : PeerHealth.call)
| Dispatched (a : UDPAddr) (frames : list Frame).

Record IO (E : Type) := mkIO { env : E; trace : list action }.
Arguments mkIO {E}. Arguments env {E}. Arguments trace {E}.

(** [message.Marshal] over a slice that may hold nil pointers: the loop checks the length
    of each IE in turn, so a nil pointer panics unless an oversized IE comes before it. *)
Fixpoint deref_ies (ies : list (option IE)) : option (result MsgError (list IE)) :=
  match ies with
  | [] => Some (Ok [])
  | None :: _ => None
  | Some i :: ies =>
      if 65535 <? Z.of_nat (length (IE_Value i))
      then Some (Err (IETooLong (IE_Type i) (IE_Instance i) (length (IE_Value i))))
      else
        r ← deref_ies ies;
        Some (let? l := r in Ok (i :: l))
  end.
Definition MarshalPtrs (h : Header) (ies : list (option IE)) : option (result MsgError bytes) :=
  r ← deref_ies ies; Some (let? l := r in Marshal h l).

(** [recoveryValuePtr]: the restart counter a message carries. *)
Definition recoveryIEValuePtr (recIE : option IE) : option Z :=
  i ← recIE; match RecoveryValue i with Ok v => Some v | Err _ => None end.
Definition recoveryValuePtr (ies : list IE) : option Z :=
  recoveryIEValuePtr (FindFirst ies TypeRecovery).

Section Operations.
Context {E : Type} `{Environment E}.

Definition record (a : list action) : M (IO E) unit := modify (fun io => mkIO (env io) (trace io ++ a)).
Definition on_env {A} (f : E -> A * E) : M (IO E) A :=
  act (fun io => let '(a, e) := f (env io) in (a, mkIO e (trace io))).

Definition Now : M (IO E) time := on_env env_now.
Definition AllocSeq (i : iface) : M (IO E) Z := on_env (env_seq i).
Definition SendWithPiggybacks (i : iface) (a : UDPAddr) (raw : bytes) : M (IO E) gtp_answer :=
  record [Sent i a raw] ;; on_env (env_send i a raw).
(** [Send] drops the piggybacked frames. *)
Definition Send (i : iface) (a : UDPAddr) (raw : bytes)
    : M (IO E) (result Gtpv2Transport.SendError bytes) :=
  r ← SendWithPiggybacks i a raw;
  mret match r with Ok (resp, _) => Ok resp | Err e => Err e end.
Definition Reply (i : iface) (a : UDPAddr) (raw : bytes) : M (IO E) bool :=
  record [Replied i a raw] ;; on_env (env_reply i a raw).
(** The PFCP transport as the PFCP client uses it. *)
Definition pfcp_send (a : UDPAddr) (raw : bytes) (io : IO E) : PfcpClient.answer * IO E :=
  let '(r, e) := env_pfcp a raw (env io) in
  (r, mkIO e (trace io ++ [SentPFCP a raw])).

(** The peer table observes a message; its calls are made in this order. *)
Definition observe (role : string) (a : option UDPAddr) (h : Header) (ies : list IE)
    : M (PeerHealth.Table * IO E) unit :=
  now ← zoom snd (fun io s => (s.1, io)) Now;
  calls ← zoom fst (fun t s => (t, s.2))
    (act (fun t => let '(t, calls) := PeerHealth.Observe now role a (MessageType h)
                                        (SequenceNumber h) (recoveryValuePtr ies) t in (calls, t)));
  zoom snd (fun io s => (s.1, io)) (record (Health <$> calls)).
End Operations.

Lemma MarshalPtrs_Some h ies : MarshalPtrs h (Some <$> ies) = Some (Marshal h ies).
Proof.
  unfold MarshalPtrs, Marshal.
  assert (forall l, deref_ies (Some <$> l)
    = Some (match marshal_ies l with Ok _ => Ok l | Err e => Err e end)) as ->.
  { induction l as [|i l IH]; [done|]. cbn [fmap list_fmap deref_ies marshal_ies].
    destruct (65535 <? Z.of_nat (length (IE_Value i))); [done|].
    rewrite IH. cbn. by destruct (marshal_ies l). }
  cbn. destruct (marshal_ies ies) eqn:Em; cbn; by rewrite ?Em.
Qed.
