(* ===== verification/S5c.v ===== *)
(** * S5/S8-C client ([internal/sgwc/s5c/client.go])

    The requests of the SGW-C to the PDN gateway.  A client is its TEID allocator, its
    address, its restart counter and the counters already advertised to each peer; it runs
    over the peer table and the surroundings of [SgwcIo].  A session is read, never
    written: the S11 handlers store what the gateway answers. *)

From S2P Require Import Prelude GoLib Effects Gtpv2Ie Gtpv2Message Gtpv2Procedures SgwcIo Teid.
From S2P Require Bearer SessionData PeerHealth Gtpv2Transport.
#[local] Open Scope string_scope.
#[local] Open Scope list_scope.
#[local] Open Scope Z_scope.

(** [rc] is the value of the restart counter, [None] a nil counter; [peers] tells whether
    a peer table is installed. *)
Record Client := mkClient {
  teidAlloc : Allocator; localIP : Addr; rc : option Z; peerSeen : gmap string Z; peers : bool
}.
#[export] Instance eta_Client : Eta Client := fun c =>
  mkClient (teidAlloc c) (localIP c) (rc c) (peerSeen c) (peers c).

Inductive S5cError :=
| ErrResolve (a : string)
| ErrMarshal (e : MsgError)
| ErrBearerContext (e : IEError)
| ErrSend (e : Gtpv2Transport.SendError)
| ErrParse (e : MsgError)
| ErrMessageType (got want : Z)
| ErrDecode (e : TypedError)
| ErrNoPGWFTEID
| ErrNoBearerContext
| ErrNoPGWAddress
| ErrTeid (e : TeidError).

(** What [New] makes of a listening socket ([marking] is the outcome of setting the DSCP,
    where it is configured) and [NewWithConn] of a bound one. *)
Definition NewWithConn (ip : Addr) (counter : option Z) : Client :=
  mkClient NewAllocator ip counter ∅ false.
Inductive NewError := ListenFailed | MarkingFailed.
Definition New (listen_ok marking_ok : bool) (ip : Addr) (counter : option Z)
    : result NewError Client :=
  let? _ := guard listen_ok ListenFailed in
  let? _ := guard marking_ok MarkingFailed in
  Ok (NewWithConn ip counter).
Definition SetPeerHealth (table : bool) (c : Client) : Client := c <| peers := table |>.
Definition LocalIP (c : Client) : Addr := localIP c.

Record CreateSessionResult := mkCreateSessionResult {
  Cause : Z;
  SGWS5CTEID : Z;
  PGWControlFTEID : SessionData.FTEID;
  PGWS5UFTEID : Bearer.FTEID;
  DefaultEBI : Z;
  UEIP : Addr;
  AMBR : option IE;
  PCO : option IE;
  APNRestriction : option IE;
  ChargingID : option IE;
  BearerChargingID : option IE;
  Piggybacks : list Frame
}.
#[export] Instance eta_CreateSessionResult : Eta CreateSessionResult := fun r =>
  mkCreateSessionResult (Cause r) (SGWS5CTEID r) (PGWControlFTEID r) (PGWS5UFTEID r)
    (DefaultEBI r) (UEIP r) (AMBR r) (PCO r) (APNRestriction r) (ChargingID r)
    (BearerChargingID r) (Piggybacks r).

(** ** Messages *)

Definition PGWAddr (s11req : CreateSessionRequest) : result S5cError UDPAddr :=
  match CSReq_PGWFTEID s11req with
  | None => Err ErrNoPGWAddress
  | Some i =>
      match FTEIDValue i with
      | Err _ => Err ErrNoPGWAddress
      | Ok f => match As4 (FTEID_IPv4 f) with
                | Some ip4 => Ok (mkUDPAddr ip4 2123)
                | None => Err ErrNoPGWAddress
                end
      end
  end.

Definition opt_list {A} (o : option A) : list A := match o with Some a => [a] | None => [] end.

(** The bearer context of the request: EBI, QoS and the SGW-U endpoint once it is known. *)
Definition csreq_bearer_context (bc : IE) (sgwUS5UFTEID : Bearer.FTEID)
    : option (result S5cError IE) :=
  match ChildIEs bc with
  | Err e => Some (Err (ErrBearerContext e))
  | Ok children =>
      f ← (if negb (Bearer.TEID sgwUS5UFTEID =? 0) && IsValid (Bearer.IPv4 sgwUS5UFTEID)
           then i ← NewFTEID 2 IFTypeS5S8USGW (Bearer.TEID sgwUS5UFTEID) (Bearer.IPv4 sgwUS5UFTEID);
                Some [i]
           else Some []);
      Some (Ok (NewBearerContext 0 (opt_list (FindFirst children TypeEBI)
                                    ++ opt_list (FindFirst children TypeBearerQoS) ++ f)))
  end.

Definition buildCSReq (s11req : CreateSessionRequest) (sgwS5CTEID : Z) (sgwIP : Addr) (seq : Z)
    (recIE : option IE) (sgwUS5UFTEID : Bearer.FTEID) : option (result S5cError bytes) :=
  sender ← NewFTEID 0 IFTypeS5S8CSGW sgwS5CTEID sgwIP;
  bcs ← match CSReq_BearerContexts s11req with
        | [] => Some (Ok [])
        | bc :: _ => r ← csreq_bearer_context bc sgwUS5UFTEID; Some (let? i := r in Ok [Some i])
        end;
  match bcs with
  | Err e => Some (Err e)
  | Ok bcs =>
      let opts l := Some <$> (l ≫= opt_list) in
      let ies :=
        opts [CSReq_IMSI s11req; CSReq_MSISDN s11req; CSReq_MEI s11req]
        ++ [CSReq_RATType s11req]
        ++ opts [CSReq_ServingNetwork s11req; CSReq_ULI s11req]
        ++ [Some sender; CSReq_APN s11req; CSReq_PDNType s11req]
        ++ opts [CSReq_PAA s11req; CSReq_AMBR s11req; CSReq_PCO s11req; CSReq_APNRestriction s11req;
                 CSReq_UETimeZone s11req; CSReq_ChargingChars s11req; CSReq_SelectionMode s11req]
        ++ bcs ++ opts [CSReq_Indication s11req; recIE] in
      r ← MarshalPtrs (simple_header true MsgTypeCreateSessionRequest 0 seq) ies;
      Some (match r with Ok b => Ok b | Err e => Err (ErrMarshal e) end)
  end.

Definition buildMBReq (sess : SessionData.SGWSession) (req : ModifyBearerRequest) (seq : Z)
    (recIE : option IE) : result S5cError bytes :=
  match Marshal (simple_header true MsgTypeModifyBearerRequest
                   (SessionData.ft_TEID (SessionData.PGWControlFTEID sess)) seq)
          (MBReq_BearerContexts req ++ MBReq_SecondaryRATUsageDataReports req
           ++ opt_list (MBReq_Indication req) ++ opt_list recIE) with
  | Ok b => Ok b | Err e => Err (ErrMarshal e)
  end.

(** [req] is [None] where the deletion does not come from the MME. *)
Definition buildDSReq (sess : SessionData.SGWSession) (req : option DeleteSessionRequest) (seq : Z)
    (recIE : option IE) : result S5cError bytes :=
  let ebi := match req ≫= DSReq_EBI with
             | Some i => i | None => NewEBI (SessionData.DefaultBearerID sess) end in
  match Marshal (simple_header true MsgTypeDeleteSessionRequest
                   (SessionData.ft_TEID (SessionData.PGWControlFTEID sess)) seq)
          (opt_list (req ≫= DSReq_Cause) ++ [ebi] ++ opt_list (req ≫= DSReq_Indication)
           ++ opt_list recIE) with
  | Ok b => Ok b | Err e => Err (ErrMarshal e)
  end.

(** ** Causes in words *)

Record causeDescription := mkCauseDescription {
  CauseText : string; OffendingIEType : Z; OffendingIEName : string; OffendingIEInstance : Z
}.

Definition causeText (cause : Z) : string :=
  if cause =? CauseRequestAccepted then "Request accepted"
  else if cause =? CauseRequestAcceptedPartially then "Request accepted partially"
  else if cause =? CauseContextNotFound then "Context not found"
  else if cause =? CauseInvalidMessageFormat then "Invalid message format"
  else if cause =? CauseVersionNotSupported then "Version not supported by next peer"
  else if cause =? CauseInvalidLength then "Invalid length"
  else if cause =? CauseMandatoryIEIncorrect then "Mandatory IE incorrect"
  else if cause =? CauseMandatoryIEMissing then "Mandatory IE missing"
  else if cause =? CauseSystemFailure then "System failure"
  else if cause =? CauseNoResourcesAvailable then "No resources available"
  else if cause =? CauseMissingOrUnknownAPN then "Missing or unknown APN"
  else if cause =? 103 then "Conditional IE missing"
  else "Unknown cause".

Definition ie_names : list (Z * string) :=
  [(TypeIMSI, "IMSI"); (TypeCause, "Cause"); (TypeRecovery, "Recovery"); (TypeAPN, "APN");
   (TypeAMBR, "AMBR"); (TypeEBI, "EBI"); (TypeMEI, "MEI"); (TypeMSISDN, "MSISDN");
   (TypeIndication, "Indication"); (TypePCO, "PCO"); (TypePAA, "PAA");
   (TypeBearerQoS, "Bearer QoS"); (TypeRATType, "RAT Type");
   (TypeServingNetwork, "Serving Network"); (TypeULI, "ULI"); (TypeFTEID, "F-TEID");
   (TypeBearerContext, "Bearer Context"); (TypeChargingID, "Charging ID");
   (TypeChargingChars, "Charging Characteristics"); (TypePDNType, "PDN Type"); (TypePTI, "PTI");
   (TypeUETimeZone, "UE Time Zone"); (TypeAPNRestriction, "APN Restriction");
   (TypeSelectionMode, "Selection Mode")].
Definition name_in (names : list (Z * string)) (t : Z) : string :=
  match List.find (fun n => n.1 =? t) names with Some (_, s) => s | None => "Unknown IE" end.
Definition ieName (ieType : Z) : string := name_in ie_names ieType.

Definition describe (text name : Z -> string) (causeIE : option IE) : causeDescription :=
  match causeIE with
  | None => mkCauseDescription "" 0 "" 0
  | Some i =>
      match CauseValue i with
      | Err _ => mkCauseDescription "" 0 "" 0
      | Ok cause =>
          if (6 <=? length (IE_Value i))%nat then
            let t := nth 2 (IE_Value i) 0 in
            mkCauseDescription (text cause) t (name t) (Z.land (nth 5 (IE_Value i) 0) 0x0F)
          else mkCauseDescription (text cause) 0 "" 0
      end
  end.
Definition describeCause : option IE -> causeDescription := describe causeText ieName.

(** ** Procedures *)

Section Procedures.
Context {E : Type} `{Environment E}.

(** The client, the peer table and the surroundings. *)
Definition S : Type := (Client * (PeerHealth.Table * IO E))%type.
Definition on_client {A} (f : Client -> A * Client) : M S A :=
  act (fun s => let '(a, c) := f s.1 in (a, (c, s.2))).
Definition on_io {A} (m : M (IO E) A) : M S A :=
  zoom (fun s => s.2.2) (fun io s => (s.1, (s.2.1, io))) m.

Definition maybeRecoveryIE (a : UDPAddr) : M S (option IE) :=
  on_client (fun c =>
    match rc c with
    | None => (None, c)
    | Some val =>
        let cur := Value val in
        let k := UDPAddr_String a in
        if decide (peerSeen c !! k = Some cur) then (None, c)
        else (Some (NewRecovery cur), c <| peerSeen := <[k := cur]> (peerSeen c) |>)
    end).

Definition observePeer (a : UDPAddr) (h : Header) (ies : list IE) : M S unit :=
  set ← gets (fun s => peers s.1);
  if set : bool
  then zoom snd (fun t s => (s.1, t)) (observe PeerHealth.RolePGW (Some a) h ies)
  else mret tt.

(** Send a request and parse the response; only then is the peer observed. *)
Definition exchange (a : UDPAddr) (want : Z) (raw : bytes)
    : M S (result S5cError (Header * list IE * list Frame)) :=
  r ← on_io (SendWithPiggybacks S5C a raw);
  match r with
  | Err e => mret (Err (ErrSend e))
  | Ok (respRaw, piggybacks) =>
      match Parse respRaw with
      | Err e => mret (Err (ErrParse e))
      | Ok (h, ies) =>
          observePeer a h ies ;;
          mret (if MessageType h =? want then Ok (h, ies, piggybacks)
                else Err (ErrMessageType (MessageType h) want))
      end
  end.

(** [ie.Value()] with its error dropped: the zero value. *)
Definition value_or (v : result IEError Z) : Z := match v with Ok x => x | Err _ => 0 end.

(** What the accepted response says, after the presence of the mandatory IEs. *)
Definition accepted_result (cause sgwS5CTEID : Z) (resp : CreateSessionResponse)
    (pgwFTEID bc : IE) (piggybacks : list Frame) : CreateSessionResult :=
  let r := mkCreateSessionResult cause sgwS5CTEID SessionData.no_FTEID Bearer.no_FTEID 0 AddrZero
             (CSResp_AMBR resp) (CSResp_PCO resp) (CSResp_APNRestriction resp)
             (CSResp_ChargingID resp) None piggybacks in
  let r := match FTEIDValue pgwFTEID with
           | Ok f => r <| PGWControlFTEID := SessionData.mkFTEID (FTEID_TEID f) (FTEID_IPv4 f) |>
           | Err _ => r end in
  let r := match CSResp_PAA resp with
           | Some i => match PAAValue i with Ok paa => r <| UEIP := PAA_IPv4 paa |> | Err _ => r end
           | None => r end in
  match ChildIEs bc with
  | Err _ => r
  | Ok children =>
      let r := match FindFirst children TypeEBI with
               | Some i => r <| DefaultEBI := value_or (EBIValue i) |> | None => r end in
      let r := match FindInstance children TypeFTEID 2 with
               | Some i => match FTEIDValue i with
                           | Ok f => r <| PGWS5UFTEID := Bearer.mkFTEID (FTEID_TEID f) (FTEID_IPv4 f) |>
                           | Err _ => r end
               | None => r end in
      match FindFirst children TypeChargingID with
      | Some i => r <| BearerChargingID := Some i |> | None => r end
  end.

Definition CreateSession (pgwAddr : UDPAddr) (s11req : CreateSessionRequest) (sgwS5CTEID : Z)
    (sgwUS5UFTEID : Bearer.FTEID) : M S (result S5cError CreateSessionResult) :=
  seq ← on_io (AllocSeq S5C);
  recIE ← maybeRecoveryIE pgwAddr;
  ip ← gets (fun s => localIP s.1);
  raw ← unwrap (buildCSReq s11req sgwS5CTEID ip seq recIE sgwUS5UFTEID);
  match raw with
  | Err e => mret (Err e)
  | Ok raw =>
      let! (h, ies, piggybacks) := exchange pgwAddr MsgTypeCreateSessionResponse raw in
      match ParseCreateSessionResponse h ies with
      | Err e => mret (Err (ErrDecode e))
      | Ok resp =>
          causeIE ← unwrap (CSResp_Cause resp);
          let cause := value_or (CauseValue causeIE) in
          mret
            (if negb (cause =? CauseRequestAccepted)
             then Ok (mkCreateSessionResult cause 0 SessionData.no_FTEID Bearer.no_FTEID 0 AddrZero
                        None None None None None piggybacks)
             else match CSResp_PGWFTEID resp, CSResp_BearerContexts resp with
                  | None, _ => Err ErrNoPGWFTEID
                  | _, [] => Err ErrNoBearerContext
                  | Some f, bc :: _ => Ok (accepted_result cause sgwS5CTEID resp f bc piggybacks)
                  end)
      end
  end.

(** The address of the gateway of a session; [As4] panics unless it is IPv4. *)
Definition session_pgw (sess : SessionData.SGWSession) : option UDPAddr :=
  ip4 ← As4 (SessionData.ft_IPv4 (SessionData.PGWControlFTEID sess)); Some (mkUDPAddr ip4 2123).

Definition ModifyBearerFromS11 (sess : SessionData.SGWSession) (req : ModifyBearerRequest)
    : M S (result S5cError Z) :=
  if SessionData.ft_TEID (SessionData.PGWControlFTEID sess) =? 0
  then mret (Ok CauseRequestAccepted)
  else
    pgwAddr ← unwrap (session_pgw sess);
    seq ← on_io (AllocSeq S5C);
    recIE ← maybeRecoveryIE pgwAddr;
    match buildMBReq sess req seq recIE with
    | Err e => mret (Err e)
    | Ok raw =>
        let! (h, ies, _) := exchange pgwAddr MsgTypeModifyBearerResponse raw in
        match ParseModifyBearerResponse h ies with
        | Err e => mret (Err (ErrDecode e))
        | Ok resp => causeIE ← unwrap (MBResp_Cause resp); mret (Ok (value_or (CauseValue causeIE)))
        end
    end.

Definition FreeTEID (t : Z) : M S unit :=
  on_client (fun c => (tt, c <| teidAlloc := Free t (teidAlloc c) |>)).

Definition deleteSession (sess : SessionData.SGWSession) (req : option DeleteSessionRequest)
    : M S (result S5cError Z) :=
  if SessionData.ft_TEID (SessionData.PGWControlFTEID sess) =? 0
  then mret (Ok CauseRequestAccepted)
  else
    pgwAddr ← unwrap (session_pgw sess);
    seq ← on_io (AllocSeq S5C);
    recIE ← maybeRecoveryIE pgwAddr;
    match buildDSReq sess req seq recIE with
    | Err e => mret (Err e)
    | Ok raw =>
        let! (h, ies, _) := exchange pgwAddr MsgTypeDeleteSessionResponse raw in
        match ParseDeleteSessionResponse h ies with
        | Err e => mret (Err (ErrDecode e))
        | Ok resp =>
            causeIE ← unwrap (DSResp_Cause resp);
            let cause := value_or (CauseValue causeIE) in
            let t := SessionData.ft_TEID (SessionData.SGWS5CFTEID sess) in
            whenM ((cause =? CauseRequestAccepted) && negb (t =? 0)) (FreeTEID t) ;;
            mret (Ok cause)
        end
    end.
Definition DeleteSession (sess : SessionData.SGWSession) := deleteSession sess None.
Definition DeleteSessionFromS11 (sess : SessionData.SGWSession) (req : DeleteSessionRequest) :=
  deleteSession sess (Some req).

Definition AllocTEID : M S (result S5cError Z) :=
  rnd ← on_io (on_env env_random);
  r ← on_client (fun c => let '(r, a) := Alloc rnd (teidAlloc c) in (r, c <| teidAlloc := a |>));
  mret match r with Ok t => Ok t | Err e => Err (ErrTeid e) end.

Definition DispatchPiggybacks (pgwAddr : UDPAddr) (frames : list Frame) : M S unit :=
  on_io (record [Dispatched pgwAddr frames]).
Definition ReplyToPGW (pgwAddr : UDPAddr) (raw : bytes) : M S bool := on_io (Reply S5C pgwAddr raw).
Definition SendToPGW (pgwAddr : UDPAddr) (raw : bytes)
    : M S (result Gtpv2Transport.SendError bytes) := on_io (Send S5C pgwAddr raw).

(** One Echo: the round trip time and the counter of the answer. *)
Definition echo (i : iface) (counter : option Z) (a : string) (seq : Z)
    : M (IO E) (result S5cError (duration * option Z)) :=
  resolved ← on_env (env_resolve a);
  match resolved with
  | None => mret (Err (ErrResolve a))
  | Some udpAddr =>
      match MarshalEchoRequest seq (Value <$> counter) with
      | Err e => mret (Err (ErrMarshal e))
      | Ok raw =>
          start ← Now;
          r ← Send i udpAddr raw;
          match r with
          | Err e => mret (Err (ErrSend e))
          | Ok respRaw =>
              finish ← Now;
              mret
                match Parse respRaw with
                | Err e => Err (ErrParse e)
                | Ok (h, ies) =>
                    if negb (MessageType h =? MsgTypeEchoResponse)
                    then Err (ErrMessageType (MessageType h) MsgTypeEchoResponse)
                    else Ok (Sub finish start,
                             recoveryIEValuePtr (EchoResp_Recovery (ParseEchoResponse h ies)))
                end
          end
      end
  end.
Definition SendEcho (a : string) (seq : Z) : M S (result S5cError (duration * option Z)) :=
  counter ← gets (fun s => rc s.1);
  on_io (echo S5C counter a seq).
End Procedures.
