(* ===== verification/Sha256.v ===== *)
(** * SHA-256 ([crypto/sha256], as the Create Bearer tables use it)

    FIPS 180-4 over byte lists: the digest of the concatenation of everything written. *)

From S2P Require Import Prelude.
#[local] Open Scope Z_scope.

(** The constants are the first 32 bits of the fractional parts of the cube roots (rounds)
    and square roots (initial hash) of the first primes. *)
Definition first_primes : list Z :=
  List.filter (fun p => forallb (fun d => negb (p mod Z.of_nat d =? 0)) (List.seq 2 (Z.to_nat p - 2)))
    (Z.of_nat <$> List.seq 2 310).
(** The integer cube root, bit by bit. *)
Fixpoint cube_root (bits : nat) (acc x : Z) : Z :=
  match bits with
  | O => acc
  | S bits =>
      let up := acc + 2 ^ Z.of_nat bits in
      cube_root bits (if up ^ 3 <=? x then up else acc) x
  end.
Definition round_constants : list Z :=
  Eval vm_compute in (fun p => u32 (cube_root 36 0 (p * 2 ^ 96))) <$> first_primes.
Definition initial_hash : list Z :=
  Eval vm_compute in (fun p => u32 (Z.sqrt (p * 2 ^ 64))) <$> take 8 first_primes.

Definition rotr (k x : Z) : Z := Z.lor (Z.shiftr x k) (u32 (Z.shiftl x (32 - k))).
Definition xor3 (a b c : Z) : Z := Z.lxor (Z.lxor a b) c.

(** The message schedule: sixteen words, then 48 derived ones. *)
Fixpoint extend_schedule (n : nat) (w : list Z) : list Z :=
  match n with
  | O => w
  | S n =>
      let t := length w in
      let at_ k := nth (t - k) w 0 in
      let s0 := xor3 (rotr 7 (at_ 15%nat)) (rotr 18 (at_ 15%nat)) (Z.shiftr (at_ 15%nat) 3) in
      let s1 := xor3 (rotr 17 (at_ 2%nat)) (rotr 19 (at_ 2%nat)) (Z.shiftr (at_ 2%nat) 10) in
      extend_schedule n (w ++ [u32 (at_ 16%nat + s0 + at_ 7%nat + s1)])
  end.

Definition round (v : list Z) (kw : Z * Z) : list Z :=
  match v with
  | [a; b; c; d; e; f; g; h] =>
      let t1 := h + xor3 (rotr 6 e) (rotr 11 e) (rotr 25 e)
                + Z.lxor (Z.land e f) (Z.land (Z.lxor e (Z.ones 32)) g) + kw.1 + kw.2 in
      let t2 := xor3 (rotr 2 a) (rotr 13 a) (rotr 22 a)
                + xor3 (Z.land a b) (Z.land a c) (Z.land b c) in
      [u32 (t1 + t2); a; b; c; u32 (d + t1); e; f; g]
  | _ => v
  end.

Fixpoint words (n : nat) (b : bytes) : list Z :=
  match n with O => [] | S n => be_val (take 4 b) :: words n (drop 4 b) end.

Definition compress (h : list Z) (block : bytes) : list Z :=
  let w := extend_schedule 48 (words 16 block) in
  zip_with (fun x y => u32 (x + y)) h (fold_left round (zip round_constants w) h).

Fixpoint blocks (n : nat) (b : bytes) (h : list Z) : list Z :=
  match n with O => h | S n => blocks n (drop 64 b) (compress h (take 64 b)) end.

(** A one bit, zeroes up to 56 modulo 64 octets, the length in bits. *)
Definition pad (b : bytes) : bytes :=
  let n := Z.of_nat (length b) in
  b ++ 0x80 :: replicate (Z.to_nat ((55 - n) mod 64)) 0 ++ be_bytes 8 (u64 (8 * n)).

Definition Sum256 (b : bytes) : bytes :=
  let p := pad b in
  blocks (length p / 64) p initial_hash ≫= be_bytes 4.

Example Sum256_abc : Sum256 [97; 98; 99]
  = be_bytes 32 0xba7816bf8f01cfea414140de5dae2223b00361a396177a9cb410ff61f20015ad.
Proof. by vm_compute. Qed.
Example Sum256_two_blocks :
  Sum256 (string_bytes "abcdbcdecdefdefgefghfghighijhijkijkljklmklmnlmnomnopnopq")
  = be_bytes 32 0x248d6a61d20638b8e5c026930c3e6039a33ce45964ff2167f6ecedd419db06c1.
Proof. by vm_compute. Qed.

