(* ===== verification/CreateBearerTxn.v ===== *)
(** * Create Bearer transactions ([internal/sgwc/s11/bearer_handler.go], tables)

    What the SGW-C remembers of the Create Bearer procedures a PDN gateway starts: a
    transaction per request (gateway endpoint, local TEID, message type, sequence number),
    a second index by the content of the request, the requests waiting for the MME, and
    the procedures that failed.  A [*createBearerTxnState] is a location of [heap], since
    both indexes and the waiting requests share it.  Every operation is the one of the
    handler under its lock; [now] is its call of the clock. *)

From S2P Require Import Prelude GoLib Gtpv2Ie Gtpv2Message Gtpv2Procedures Sha256.
From S2P Require Bearer SessionData Collision SessionManager.
#[local] Open Scope string_scope.
#[local] Open Scope list_scope.
#[local] Open Scope Z_scope.

Definition createBearerTxnPending := "pending".
Definition createBearerTxnCompleted := "completed".
Definition createBearerTxnFailed := "failed".

Record createBearerTxnKey := mkTxnKey {
  peerIP : Addr; peerPort : Z; localS5CTEID : Z; msgType : Z; sequence : Z
}.
Record createBearerFingerprintKey := mkFingerprintKey {
  fp_peerIP : Addr; fp_peerPort : Z; fp_localS5CTEID : Z; fp_lbi : Z; bodyHash : bytes
}.
Record createBearerProcedureKey := mkProcedureKey {
  pk_sessionID : string; pk_imsi : string; pk_apn : string; pk_peerIP : Addr; pk_peerPort : Z;
  pk_localS5CTEID : Z; linkedEBI : Z; bearerCount : Z; sigHash : bytes
}.
#[export] Instance createBearerTxnKey_eq_dec : EqDecision createBearerTxnKey.
Proof. solve_decision. Defined.
#[export] Instance createBearerTxnKey_countable : Countable createBearerTxnKey.
Proof.
  refine (inj_countable' (fun k => (peerIP k, peerPort k, localS5CTEID k, msgType k, sequence k))
    (fun '(a, b, c, d, e) => mkTxnKey a b c d e) _). by intros [].
Defined.
#[export] Instance createBearerFingerprintKey_eq_dec : EqDecision createBearerFingerprintKey.
Proof. solve_decision. Defined.
#[export] Instance createBearerFingerprintKey_countable : Countable createBearerFingerprintKey.
Proof.
  refine (inj_countable' (fun k => (fp_peerIP k, fp_peerPort k, fp_localS5CTEID k, fp_lbi k, bodyHash k))
    (fun '(a, b, c, d, e) => mkFingerprintKey a b c d e) _). by intros [].
Defined.
#[export] Instance createBearerProcedureKey_eq_dec : EqDecision createBearerProcedureKey.
Proof. solve_decision. Defined.
#[export] Instance createBearerProcedureKey_countable : Countable createBearerProcedureKey.
Proof.
  refine (inj_countable' (fun k => (pk_sessionID k, pk_imsi k, pk_apn k, pk_peerIP k, pk_peerPort k,
      pk_localS5CTEID k, linkedEBI k, bearerCount k, sigHash k))
    (fun '(a, b, c, d, e, f, g, h, i) => mkProcedureKey a b c d e f g h i) _). by intros [].
Defined.

(** The zero values of the key structs. *)
Definition zero_hash : bytes := replicate 32 0.
Definition zero_fingerprint : createBearerFingerprintKey := mkFingerprintKey AddrZero 0 0 0 zero_hash.
Definition zero_procedure : createBearerProcedureKey :=
  mkProcedureKey "" "" "" AddrZero 0 0 0 0 zero_hash.

Record createBearerRuleKey := mkRuleKey { rk_pdrUL : Z; rk_pdrDL : Z; rk_farUL : Z; rk_farDL : Z }.
#[export] Instance createBearerRuleKey_eq_dec : EqDecision createBearerRuleKey.
Proof. solve_decision. Defined.
#[export] Instance createBearerRuleKey_countable : Countable createBearerRuleKey.
Proof.
  refine (inj_countable' (fun k => (rk_pdrUL k, rk_pdrDL k, rk_farUL k, rk_farDL k))
    (fun '(a, b, c, d) => mkRuleKey a b c d) _). by intros [].
Defined.

Record bearerProvisioning := mkProvisioning {
  qosIE : option IE; tftIE : option IE; pgwUS5UFTEID : Bearer.FTEID;
  pdrUL : Z; pdrDL : Z; farUL : Z; farDL : Z;
  sgwUS1UFTEID : Bearer.FTEID; sgwUS5UFTEID : Bearer.FTEID
}.
#[export] Instance eta_bearerProvisioning : Eta bearerProvisioning := fun p =>
  mkProvisioning (qosIE p) (tftIE p) (pgwUS5UFTEID p) (pdrUL p) (pdrDL p) (farUL p) (farDL p)
    (sgwUS1UFTEID p) (sgwUS5UFTEID p).

Record createBearerTxnState := mkTxn {
  key : createBearerTxnKey;
  fingerprint : createBearerFingerprintKey;
  procedureKey : createBearerProcedureKey;
  txn_sessionID : string;
  status : string;
  originalRequest : bytes;
  provisionedBearers : list bearerProvisioning;
  pfcpProvisionalDone : bool;
  pfcpRolledBack : gset createBearerRuleKey;
  s5cResponse : bytes;
  s5cCause : Z;
  createdAt : time;
  updatedAt : time
}.
#[export] Instance eta_createBearerTxnState : Eta createBearerTxnState := fun t =>
  mkTxn (key t) (fingerprint t) (procedureKey t) (txn_sessionID t) (status t) (originalRequest t)
    (provisionedBearers t) (pfcpProvisionalDone t) (pfcpRolledBack t) (s5cResponse t) (s5cCause t)
    (createdAt t) (updatedAt t).

Record createBearerProcedureFailure := mkFailure {
  f_key : createBearerProcedureKey; f_state : string; lastFailureCause : Z; lastFailureText : string;
  f_offendingIEType : Z; f_offendingIEName : string; firstSeen : time; lastSeen : time;
  lastSuppressLog : time; suppressedCount : Z; logSuppression : bool
}.
#[export] Instance eta_createBearerProcedureFailure : Eta createBearerProcedureFailure := fun f =>
  mkFailure (f_key f) (f_state f) (lastFailureCause f) (lastFailureText f) (f_offendingIEType f)
    (f_offendingIEName f) (firstSeen f) (lastSeen f) (lastSuppressLog f) (suppressedCount f)
    (logSuppression f).

(** [sess] and [txn] are pointers: a location of the session manager and one of [heap]. *)
Record pendingS11CreateBearer := mkPending {
  p_pgwAddr : UDPAddr; p_mmeAddr : string; p_hdr : Header; p_cbReq : CreateBearerRequest;
  p_sess : SessionManager.loc; p_txn : nat; p_activeProc : Collision.ActiveProcedure;
  p_bearerProvs : list bearerProvisioning; p_csrspSeq : Z; p_s11Seq : Z; p_linkedEBI : Z;
  p_createdAt : time
}.

(** [cbTxns], [cbFPs], [cbS11] (by MME endpoint and sequence number), [cbProcFailures]. *)
Record Tables := mkTables {
  heap : gmap nat createBearerTxnState;
  cbTxns : gmap createBearerTxnKey nat;
  cbFPs : gmap createBearerFingerprintKey nat;
  cbS11 : gmap (string * Z) pendingS11CreateBearer;
  cbProcFailures : gmap createBearerProcedureKey createBearerProcedureFailure
}.
#[export] Instance eta_Tables : Eta Tables := fun t =>
  mkTables (heap t) (cbTxns t) (cbFPs t) (cbS11 t) (cbProcFailures t).
Definition no_tables : Tables := mkTables ∅ ∅ ∅ ∅ ∅.

Inductive createBearerTxnAction :=
| ActionNew | ActionPending | ActionCached | ActionFingerprintPending | ActionFingerprintCached.
#[export] Instance createBearerTxnAction_eq_dec : EqDecision createBearerTxnAction.
Proof. solve_decision. Defined.
Definition createBearerTxnAction_String (a : createBearerTxnAction) : string :=
  match a with
  | ActionNew => "new" | ActionPending => "pending" | ActionCached => "cached"
  | ActionFingerprintPending => "fingerprint_pending" | ActionFingerprintCached => "fingerprint_cached"
  end.

(** ** Keys *)

(** The address of an endpoint, as IPv4 where it can be. *)
Definition endpoint_ip (a : UDPAddr) : Addr :=
  match To4 (ua_IP a) with
  | Some ip4 => AddrFrom4 ip4
  | None => if decide (length (ua_IP a) = 16%nat) then AddrV6 (be_val (ua_IP a)) "" else AddrZero
  end.

Definition newCreateBearerTxnKey (pgwAddr : UDPAddr) (h : Header) : createBearerTxnKey :=
  mkTxnKey (endpoint_ip pgwAddr) (u16 (ua_Port pgwAddr)) (TEID h) (MessageType h) (SequenceNumber h).

Definition newCreateBearerFingerprintKey (pgwAddr : UDPAddr) (h : Header) (lbi : Z)
    (bearerContexts : list IE) : createBearerFingerprintKey :=
  let k := newCreateBearerTxnKey pgwAddr h in
  mkFingerprintKey (peerIP k) (peerPort k) (localS5CTEID k) lbi (Sum256 (bearerContexts ≫= IE_Marshal)).

(** What the signature of a procedure hashes of one bearer context: TFT, QoS and the
    type and address of the gateway's tunnel endpoint, but not its TEID. *)
Definition signed_ie (children : list IE) (typ : Z) : bytes :=
  match FindFirst children typ with
  | Some i => [1; IE_Instance i] ++ IE_Value i
  | None => [0; typ]
  end.
Definition signed_fteid (children : list IE) : bytes :=
  match FindInstance children TypeFTEID 1 with
  | Some i =>
      match FTEIDValue i with
      | Ok f => [1; FTEID_IntfType f] ++ match FTEID_IPv4 f with AddrV4 v => be_bytes 4 v | _ => [] end
      | Err _ => []
      end
  | None => [0; TypeFTEID; 1]
  end.
Definition signed_context (bc : IE) : bytes :=
  match ChildIEs bc with
  | Err _ => IE_Marshal bc
  | Ok children => signed_ie children TypeBearerTFT ++ signed_ie children TypeBearerQoS
                   ++ signed_fteid children
  end.

Definition newCreateBearerProcedureKey (pgwAddr : UDPAddr) (h : Header)
    (sess : SessionData.SGWSession) (lbi : Z) (bearerContexts : list IE) : createBearerProcedureKey :=
  let k := newCreateBearerTxnKey pgwAddr h in
  mkProcedureKey (SessionData.SessionID sess) (SessionData.IMSI sess) (SessionData.APN sess)
    (peerIP k) (peerPort k) (localS5CTEID k) lbi (Z.of_nat (length bearerContexts))
    (Sum256 (bearerContexts ≫= signed_context)).

(** ** Transactions *)

(** The transaction a key leads to. *)
Definition txn_at (k : createBearerTxnKey) (t : Tables) : option (nat * createBearerTxnState) :=
  l ← cbTxns t !! k; x ← heap t !! l; Some (l, x).
Definition set_txn (l : nat) (x : createBearerTxnState) (t : Tables) : Tables :=
  t <| heap := <[l := x]> (heap t) |>.
(** Stamp the transaction and tell whether its response is known. *)
Definition touch (now : time) (l : nat) (x : createBearerTxnState) (pending cached : createBearerTxnAction)
    (t : Tables) : nat * createBearerTxnAction * Tables :=
  (l, if decide (s5cResponse x = []) then pending else cached, set_txn l (x <| updatedAt := now |>) t).

Definition findCreateBearerTxn (now : time) (pgwAddr : UDPAddr) (h : Header) (t : Tables)
    : option nat * createBearerTxnAction * Tables :=
  match txn_at (newCreateBearerTxnKey pgwAddr h) t with
  | None => (None, ActionNew, t)
  | Some (l, x) => let '(l, a, t) := touch now l x ActionPending ActionCached t in (Some l, a, t)
  end.

Definition new_txn (now : time) (k : createBearerTxnKey) (fp : createBearerFingerprintKey)
    (sessionID : string) (raw : bytes) : createBearerTxnState :=
  mkTxn k fp zero_procedure sessionID createBearerTxnPending raw [] false ∅ [] 0 now now.

Definition beginCreateBearerTxnWithFingerprint (now : time) (pgwAddr : UDPAddr) (h : Header)
    (raw : bytes) (sessionID : string) (fp : createBearerFingerprintKey) (t : Tables)
    : nat * createBearerTxnAction * Tables :=
  let k := newCreateBearerTxnKey pgwAddr h in
  match txn_at k t with
  | Some (l, x) => touch now l x ActionPending ActionCached t
  | None =>
      match (if decide (fp = zero_fingerprint) then None
             else l ← cbFPs t !! fp; x ← heap t !! l; Some (l, x)) with
      | Some (l, x) =>
          touch now l x ActionFingerprintPending ActionFingerprintCached
            (t <| cbTxns := <[k := l]> (cbTxns t) |>)
      | None =>
          let l := fresh (dom (heap t)) in
          let t := set_txn l (new_txn now k fp sessionID raw) t in
          let t := t <| cbTxns := <[k := l]> (cbTxns t) |> in
          (l, ActionNew,
           if decide (fp = zero_fingerprint) then t
           else t <| cbFPs := <[fp := l]> (cbFPs t) |>)
      end
  end.
Definition beginCreateBearerTxn (now : time) (pgwAddr : UDPAddr) (h : Header) (raw : bytes)
    (sessionID : string) (t : Tables) : nat * createBearerTxnAction * Tables :=
  beginCreateBearerTxnWithFingerprint now pgwAddr h raw sessionID zero_fingerprint t.

(** An update of the transaction a key leads to, if there is one. *)
Definition update_txn (k : createBearerTxnKey)
    (f : createBearerTxnState -> createBearerTxnState) (t : Tables) : Tables :=
  match txn_at k t with Some (l, x) => set_txn l (f x) t | None => t end.

Definition markCreateBearerTxnProvisioned (now : time) (k : createBearerTxnKey)
    (provs : list bearerProvisioning) : Tables -> Tables :=
  update_txn k (fun x => x <| provisionedBearers := provs |> <| pfcpProvisionalDone := true |>
                           <| updatedAt := now |>).
Definition setCreateBearerTxnProcedureKey (now : time) (k : createBearerTxnKey)
    (p : createBearerProcedureKey) : Tables -> Tables :=
  update_txn k (fun x => x <| procedureKey := p |> <| updatedAt := now |>).

Definition rule_key (p : bearerProvisioning) : createBearerRuleKey :=
  mkRuleKey (pdrUL p) (pdrDL p) (farUL p) (farDL p).
(** True for the caller that may remove the rules: the first one. *)
Definition markCreateBearerTxnRolledBack (now : time) (k : createBearerTxnKey)
    (prov : bearerProvisioning) (t : Tables) : bool * Tables :=
  match txn_at k t with
  | None => (true, t)
  | Some (l, x) =>
      (negb (bool_decide (rule_key prov ∈ pfcpRolledBack x)),
       set_txn l (x <| pfcpRolledBack := {[ rule_key prov ]} ∪ pfcpRolledBack x |>
                    <| updatedAt := now |>) t)
  end.

Definition completeCreateBearerTxn (now : time) (k : createBearerTxnKey) (response : bytes)
    (cause : Z) : Tables -> Tables :=
  update_txn k (fun x =>
    x <| s5cResponse := response |> <| s5cCause := cause |>
      <| status := if (cause =? CauseRequestAccepted) || (cause =? CauseRequestAcceptedPartially)
                   then createBearerTxnCompleted else createBearerTxnFailed |>
      <| updatedAt := now |>).

Definition cloneCreateBearerResponseForSequence (raw : bytes) (seq : Z) : result MsgError bytes :=
  let? (h, ies) := Parse raw in Marshal (h <| SequenceNumber := seq |>) ies.

(** ** Requests waiting for the MME *)

Definition registerPendingS11CreateBearer (k : string * Z) (p : pendingS11CreateBearer) (t : Tables)
    : Tables := t <| cbS11 := <[k := p]> (cbS11 t) |>.
(** [popPendingS11CreateBearer], and what the expiry timer does under the lock. *)
Definition popPendingS11CreateBearer (k : string * Z) (t : Tables)
    : option pendingS11CreateBearer * Tables :=
  (cbS11 t !! k, t <| cbS11 := delete k (cbS11 t) |>).

(** ** Failed procedures: [enabled] is [createBearerRetryGuardEnabled] *)

Definition createBearerRetryGuardEnabled (cfg : option bool) : bool := default true cfg.

Definition findLatchedCreateBearerProcedureFailure (now : time) (enabled : bool)
    (k : createBearerProcedureKey) (t : Tables) : option createBearerProcedureFailure * Tables :=
  if negb enabled || bool_decide (k = zero_procedure) then (None, t)
  else
    match cbProcFailures t !! k with
    | None => (None, t)
    | Some f =>
        let f := f <| lastSeen := now |> <| suppressedCount := u64 (suppressedCount f + 1) |> in
        let f := f <| logSuppression := (suppressedCount f <=? 3)
                                        || (5 * Second <=? Sub now (lastSuppressLog f)) |> in
        let f := if logSuppression f then f <| lastSuppressLog := now |> else f in
        (Some f, t <| cbProcFailures := <[k := f]> (cbProcFailures t) |>)
    end.

(** What the failure is described by: text, offending IE type and its name. *)
Definition rememberCreateBearerProcedureFailure (now : time) (enabled : bool)
    (k : createBearerProcedureKey) (cause : Z) (text : string) (offending : Z) (name : string)
    (t : Tables) : Tables :=
  if negb enabled || bool_decide (k = zero_procedure) then t
  else
    let f := match cbProcFailures t !! k with
             | Some f =>
                 f <| f_state := "failed_latched" |> <| lastFailureCause := cause |>
                   <| lastFailureText := text |> <| f_offendingIEType := offending |>
                   <| f_offendingIEName := name |> <| lastSeen := now |>
             | None => mkFailure k "failed_latched" cause text offending name now now zero_time 0 false
             end in
    t <| cbProcFailures := <[k := f]> (cbProcFailures t) |>.

Definition clearCreateBearerProcedureFailuresForSession (sessionID : string) (t : Tables) : Tables :=
  if String.eqb sessionID "" then t
  else t <| cbProcFailures := filter (fun kf => pk_sessionID kf.1 <> sessionID) (cbProcFailures t) |>.
