(* ===== verification/S11.v ===== *)
(** * S11 handler: state and common steps ([internal/sgwc/s11/handler.go], [collision.go])

    The handler of the MME's messages and of the gateway's.  [World] is everything one
    handler call can change: the handler itself, the session manager, the S5/S8 client,
    the PFCP client, the peer table and the surroundings.  A [*SGWSession] is a location
    of the session manager; a step of a handler reads or replaces the object there.
    Metrics and log lines are left out; contexts only carry the timeouts of the
    transports. *)

From S2P Require Import Prelude GoLib Effects Gtpv2Ie Gtpv2Message Gtpv2Procedures SgwcIo.
From S2P Require Bearer Collision SessionData Session SessionManager S5c PeerHealth.
From S2P Require PfcpClient CreateBearerTxn DdnControl S11Pfcp Teid.
#[local] Open Scope string_scope.
#[local] Open Scope list_scope.
#[local] Open Scope Z_scope.

#[local] Existing Instance SessionData.eta_SGWSession.
Notation loc := SessionManager.loc.
Notation SGWSession := SessionData.SGWSession.

(** ** Configuration, as far as the handler reads it *)

Record Config := mkConfig {
  T3ResponseSeconds : Z; N3Requests : Z;
  WarnOnDownPeerProcedure : bool;
  PGWFailureEnabled : bool; BlockNewProceduresToDownPGW : bool;
  NSADCNREnabled : bool; ForwardSecondaryRATUsageReports : bool;
  StopPagingEnabled : bool; StopPagingOnDDNAck : bool; LowPriorityThrottleSeconds : Z;
  CleanupTimeoutSeconds : Z;
  CreateBearerRetryGuardEnabled : bool;
  CollisionMode : string; ActiveProcedureTimeoutSeconds : Z
}.

Definition warnOnDownPeerProcedureFromConfig (cfg : option Config) : bool :=
  match cfg with None => true | Some c => WarnOnDownPeerProcedure c end.
Definition blockNewProceduresToDownPGWFromConfig (cfg : option Config) : bool :=
  match cfg with None => false | Some c => PGWFailureEnabled c && BlockNewProceduresToDownPGW c end.
Definition collisionModeFromConfig (cfg : option Config) : string :=
  match cfg with
  | None => Collision.ModeStrict
  | Some c => if String.eqb (CollisionMode c) "" then Collision.ModeStrict else CollisionMode c
  end.
(** [time.Duration(n) * time.Second] *)
Definition seconds (n : Z) : duration := i64 (n * Second).
Definition collisionTimeoutFromConfig (cfg : option Config) : duration :=
  match cfg with
  | None => Collision.DefaultActiveProcedureTimeout
  | Some c => if ActiveProcedureTimeoutSeconds c <=? 0 then Collision.DefaultActiveProcedureTimeout
              else seconds (ActiveProcedureTimeoutSeconds c)
  end.
Definition operationTimeout (cfg : option Config) : duration :=
  match cfg with
  | Some c => if (0 <? T3ResponseSeconds c) && (0 <? N3Requests c)
              then seconds (i64 (T3ResponseSeconds c * N3Requests c)) else 15 * Second
  | None => 15 * Second
  end.
Definition s11CreateBearerTimeout (cfg : option Config) : duration :=
  match cfg with
  | Some c => if (T3ResponseSeconds c <=? 0) || (N3Requests c <=? 0) then 10 * Second
              else seconds (i64 (T3ResponseSeconds c * N3Requests c))
  | None => 10 * Second
  end.

(** ** State *)

Record deleteBearerCommandPending := mkCommandPending {
  dc_sessionID : string; dc_imsi : string; dc_apn : string; dc_defaultEBI : Z; dc_ebi : Z;
  dc_sgwS11TEID : Z; dc_mmeS11TEID : Z; dc_sgwS5CTEID : Z; dc_pgwS5CTEID : Z; dc_seq : Z;
  dc_createdAt : time; dc_expiresAt : time
}.

(** [recovery] is the value of the restart counter, [None] a nil counter; [peerHealth]
    tells whether a peer table is installed; [dbCmds] is by session id and EBI. *)
Record Handler := mkHandler {
  cfg : option Config; recovery : option Z; ddnCtl : option DdnControl.State; peerHealth : bool;
  collisionMode : string; collisionTimeout : duration; localIP : Addr; peerSeen : gmap string Z;
  cb : CreateBearerTxn.Tables; dbCmds : gmap (string * Z) deleteBearerCommandPending
}.
#[export] Instance eta_Handler : Eta Handler := fun h =>
  mkHandler (cfg h) (recovery h) (ddnCtl h) (peerHealth h) (collisionMode h) (collisionTimeout h)
    (localIP h) (peerSeen h) (cb h) (dbCmds h).

(** [NewWithConn]; [New] binds a socket of its own first. *)
Definition NewWithConn (c : option Config) (rc : option Z) (ip : Addr) : Handler :=
  mkHandler c rc None false (collisionModeFromConfig c) (collisionTimeoutFromConfig c) ip ∅
    CreateBearerTxn.no_tables ∅.
Inductive NewError := ListenFailed | MarkingFailed.
Definition New (listen_ok marking_ok : bool) (c : option Config) (rc : option Z) (ip : Addr)
    : result NewError Handler :=
  let? _ := guard listen_ok ListenFailed in
  let? _ := guard marking_ok MarkingFailed in
  Ok (NewWithConn c rc ip).
Definition SetPeerHealth (table : bool) (h : Handler) : Handler := h <| peerHealth := table |>.
Definition SetDDNControl (state : option DdnControl.State) (h : Handler) : Handler :=
  h <| ddnCtl := state |>.

Record World (E : Type) := mkWorld {
  hs : Handler; mgr : SessionManager.Manager; s5c : S5c.Client; pfcp : PfcpClient.Client;
  table : PeerHealth.Table; io : IO E
}.
Arguments mkWorld {E}. Arguments hs {E}. Arguments mgr {E}. Arguments s5c {E}.
Arguments pfcp {E}. Arguments table {E}. Arguments io {E}.

(** ** Steps on the parts *)

Section Steps.
Context {E : Type} `{Environment E}.
Notation W := (World E).
Notation P A := (M W A).

Definition on_io {A} (m : M (IO E) A) : P A :=
  zoom io (fun i w => mkWorld (hs w) (mgr w) (s5c w) (pfcp w) (table w) i) m.
Definition get_h : P Handler := gets hs.
Definition on_h {A} (f : Handler -> A * Handler) : P A :=
  act (fun w => let '(a, h) := f (hs w) in
                (a, mkWorld h (mgr w) (s5c w) (pfcp w) (table w) (io w))).
Definition on_cb {A} (f : CreateBearerTxn.Tables -> A * CreateBearerTxn.Tables) : P A :=
  on_h (fun h => let '(a, t) := f (cb h) in (a, h <| cb := t |>)).

(** A step of the session manager, whose calls on the checkpoint sink are recorded. *)
Definition on_mgr {A} (f : SessionManager.Manager -> A * (SessionManager.Manager * list SessionData.sink_call))
    : P A :=
  calls ← act (fun w => let '(a, (m, calls)) := f (mgr w) in
                        ((a, calls), mkWorld (hs w) m (s5c w) (pfcp w) (table w) (io w)));
  on_io (record (Sink <$> calls.2)) ;; mret calls.1.
Definition mgr_do (f : SessionManager.Manager -> SessionManager.Manager * list SessionData.sink_call)
    : P unit := on_mgr (fun m => (tt, f m)).

Definition on_s5c {A} (m : M S5c.S A) : P A :=
  zoom (fun w => (s5c w, (table w, io w)))
    (fun s w => mkWorld (hs w) (mgr w) s.1 (pfcp w) s.2.1 s.2.2) m.

(** A PFCP procedure; a panic of the client is one of the handler. *)
Definition on_pfcp {R}
    (f : PfcpClient.Client -> IO E -> result PfcpClient.ClientError R * PfcpClient.Client * IO E)
    : P (result PfcpClient.ClientError R) :=
  r ← act (fun w => let '(r, c, i) := f (pfcp w) (io w) in
                    (r, mkWorld (hs w) (mgr w) (s5c w) c (table w) i));
  match r with Err PfcpClient.Panics => panic | _ => mret r end.

Definition now : P time := on_io Now.

(** The session at a location: what its fields are now. *)
Definition session (l : loc) : P SGWSession :=
  s ← gets (fun w => SessionManager.heap (mgr w) !! l); unwrap s.
(** A method of a session that reads the clock. *)
Definition on_sess (l : loc) (f : time -> SGWSession -> Session.outcome) : P unit :=
  t ← now; mgr_do (SessionManager.on_session l (f t)).
(** A change of a session without a checkpoint. *)
Definition edit_sess {A} (l : loc) (f : SGWSession -> A * SGWSession) : P A :=
  s ← session l;
  let '(a, s) := f s in
  mgr_do (SessionManager.on_session l (fun _ => (s, []))) ;; mret a.

(** Iteration orders: of the sessions but the one that leaves, of a session's bearers and
    of its procedures. *)
Definition sessions_order (gone : option string) : P (list string) :=
  rank ← on_io (on_env env_order);
  m ← gets mgr;
  let ids := SessionManager.byID m in
  mret (ranged rank (elements (dom (match gone with Some id => delete id ids | None => ids end)))).
Definition keys_order (keys : gset Z) : P (list Z) :=
  rank ← on_io (on_env env_order_Z); mret (ranged rank (elements keys)).
Definition BearerList (l : loc) : P (list Bearer.Bearer) :=
  s ← session l;
  order ← keys_order (dom (SessionData.Bearers s));
  mret (Session.BearerList order s).
Definition SetBearer (l : loc) (b : Bearer.Bearer) : P unit :=
  on_sess l (fun t => Session.SetBearer t b).

(** [h.sessions.Delete]. *)
Definition Delete (id : string) : P unit :=
  order ← sessions_order (Some id); mgr_do (SessionManager.Delete order id).

(** ** Peers *)

Definition observeGTPPeer (role : string) (a : UDPAddr) (h : Header) (ies : list IE) : P unit :=
  hd ← get_h;
  if peerHealth hd
  then zoom (fun w => (table w, io w))
         (fun s w => mkWorld (hs w) (mgr w) (s5c w) (pfcp w) s.1 s.2) (observe role (Some a) h ies)
  else mret tt.

(** The Recovery IE for a peer that has not been told the counter yet. *)
Definition maybeRecoveryIE (a : UDPAddr) : P (option IE) :=
  h ← get_h;
  val ← unwrap (recovery h);
  let cur := Teid.Value val in
  let k := UDPAddr_String a in
  if decide (peerSeen h !! k = Some cur) then mret None
  else
    on_h (fun h => (tt, h <| peerSeen := <[k := cur]> (peerSeen h) |>)) ;;
    mret (Some (NewRecovery cur)).

(** ** Collisions ([collision.go]) *)

Definition peerRoleForProcedureOwner (owner : string) : option string :=
  if String.eqb owner Collision.OwnerMME then Some PeerHealth.RoleMME
  else if String.eqb owner Collision.OwnerPGW then Some PeerHealth.RolePGW
  else None.

(** The session only appears in the warning. *)
Definition allowPeerProcedure (req : Collision.Request) : P bool :=
  h ← get_h;
  if negb (peerHealth h) then mret true
  else
    match peerRoleForProcedureOwner (Collision.rq_Owner req) with
    | None => mret true
    | Some role =>
        st ← gets (fun w => PeerHealth.State role (Collision.rq_Peer req) (table w));
        if negb st.2 || negb (String.eqb st.1 PeerHealth.StateDown) then mret true
        else mret (negb (blockNewProceduresToDownPGWFromConfig (cfg h)
                         && String.eqb (Collision.rq_Owner req) Collision.OwnerPGW))
    end.

(** The session's tracker, made if there is none. *)
Definition tracker (s : SGWSession) : option Collision.Tracker :=
  Some (Session.ProcedureTracker s).1.
Definition with_tracker (t : option Collision.Tracker) (s : SGWSession) : SGWSession :=
  s <| SessionData.Procedures := t |>.
Definition on_tracker {A} (l : loc)
    (f : option Collision.Tracker -> A * option Collision.Tracker) : P A :=
  edit_sess l (fun s => let '(a, t) := f (tracker s) in (a, with_tracker t s)).

Definition finishProcedure (l : loc) (proc : Collision.ActiveProcedure) : P unit :=
  if Collision.ap_ID proc =? 0 then mret tt
  else on_tracker l (fun t => (tt, Collision.Finish proc t)).

(** The procedure that was begun, or nothing when it may not start. *)
Definition beginProcedure (l : loc) (req : Collision.Request)
    : P (option Collision.ActiveProcedure) :=
  h ← get_h;
  t1 ← now;
  on_tracker l (fun t =>
    Collision.SweepExpired t1 (Collision.Configure (collisionMode h) (collisionTimeout h) t)) ;;
  t2 ← now;
  s ← session l;
  order ← keys_order (from_option (fun t => dom (Collision.active (Collision.refreshed t2 t))) ∅ (tracker s));
  begun ← on_tracker l (fun t =>
    let '(proc, decision, t) := Collision.Begin t2 order req t in ((proc, decision), t));
  if String.eqb (Collision.vd_Action begun.2) Collision.ActionAllow then
    ok ← allowPeerProcedure req;
    if ok : bool then mret (Some begun.1)
    else finishProcedure l begun.1 ;; mret None
  else mret None.

Definition mmeProcedureRequest (proc : string) (a : UDPAddr) (teid seq : Z) (ebis : list Z)
    : Collision.Request :=
  Collision.mkRequest proc Collision.OwnerMME (UDPAddr_String a) teid seq ebis "".
Definition pgwProcedureRequest (proc : string) (a : string) (teid seq : Z) (ebis : list Z)
    : Collision.Request :=
  Collision.mkRequest proc Collision.OwnerPGW a teid seq ebis "".

Definition pgwAddrFromSession (s : SGWSession) : string :=
  if negb (String.eqb (SessionData.pf_PGWAddr (SessionData.PGWFailure s)) "")
  then SessionData.pf_PGWAddr (SessionData.PGWFailure s)
  else if IsValid (SessionData.ft_IPv4 (SessionData.PGWControlFTEID s))
  then JoinHostPort (Addr_String (SessionData.ft_IPv4 (SessionData.PGWControlFTEID s))) "2123"
  else "".

(** EBIs in order of first occurrence. *)
Definition distinct_values (vs : list (option Z)) : list Z :=
  fold_left (fun ebis v => match v with
                           | Some e => if existsb (Z.eqb e) ebis then ebis else ebis ++ [e]
                           | None => ebis end) vs [].
Definition ebi_of (i : IE) : option Z := match EBIValue i with Ok e => Some e | Err _ => None end.
Definition bearerContextEBIs (bcs : list IE) : list Z :=
  distinct_values ((fun bc => match ChildIEs bc with
                              | Ok children => FindFirst children TypeEBI ≫= ebi_of
                              | Err _ => None end) <$> bcs).
Definition ebiIEsToValues (ies : list IE) : list Z := distinct_values (ebi_of <$> ies).

(** ** Replies *)

(** A response whose marshalling error is dropped: an empty datagram then. *)
Definition reply_raw (a : UDPAddr) (raw : result MsgError bytes) : P unit :=
  on_io (Reply S11 a match raw with Ok b => b | Err _ => [] end) ;; mret tt.
(** A response that is not sent when it cannot be marshalled. *)
Definition reply_checked (a : UDPAddr) (raw : result MsgError bytes) : P unit :=
  match raw with
  | Ok b => on_io (Reply S11 a b) ;; mret tt
  | Err _ => mret tt
  end.

Definition sendCauseWithOffending (a : UDPAddr) (h : Header) (peerTEID cause : Z)
    (offending : option IE) : P unit :=
  match ResponseTypeFor (MessageType h) with
  | None => mret tt
  | Some respType =>
      reply_checked a
        (Marshal (simple_header (HasTEID h) respType peerTEID (SequenceNumber h))
           [NewCause cause 0 0 0 offending])
  end.
Definition sendCause (a : UDPAddr) (h : Header) (peerTEID cause : Z) : P unit :=
  sendCauseWithOffending a h peerTEID cause None.
Definition sendMissingIECause (a : UDPAddr) (h : Header) (peerTEID : Z) (err : TypedError) : P unit :=
  match err with
  | MissingIE typ _ =>
      sendCauseWithOffending a h peerTEID CauseMandatoryIEMissing (Some (mkIE typ 0 []))
  | _ => sendCauseWithOffending a h peerTEID CauseInvalidMessageFormat None
  end.

Definition peerTEIDFromIEs (ies : list IE) : Z :=
  match FindInstance ies TypeFTEID 0 with
  | None => 0
  | Some i => match FTEIDValue i with Ok f => FTEID_TEID f | Err _ => 0 end
  end.

(** A value whose decoding error is dropped. *)
Definition dropped {A B} (zero : B) (r : result A B) : B := match r with Ok b => b | Err _ => zero end.

(** ** Echo *)

Definition handleEchoRequest (a : UDPAddr) (h : Header) (ies : list IE) : P unit :=
  hd ← get_h;
  val ← unwrap (recovery hd);
  reply_checked a (MarshalEchoResponse (ParseEchoRequest h ies) (Teid.Value val)).

Definition SendEcho (a : string) (seq : Z) : P (result S5c.S5cError (duration * option Z)) :=
  hd ← get_h;
  on_io (S5c.echo S11 (recovery hd) a seq).
End Steps.
