(* ===== verification/S11Relay.v ===== *)
(** * Create Bearer ([internal/sgwc/s11/bearer_handler.go])

    A Create Bearer Request of the PDN gateway: its checks, the rules asked of the SGW-U,
    the request relayed to the MME (piggybacked on a Create Session Response, or sent and
    awaited), the MME's answer and the response to the gateway.  The transaction tables
    are those of [CreateBearerTxn]. *)

From S2P Require Import Prelude GoLib Effects Gtpv2Ie Gtpv2Message Gtpv2Procedures SgwcIo.
From S2P Require Bearer Collision SessionData Session SessionManager S5c PfcpClient.
From S2P Require PfcpIe S11Pfcp.
From S2P Require Import CreateBearerTxn S11.
#[local] Open Scope string_scope.
#[local] Open Scope list_scope.
#[local] Open Scope Z_scope.
#[local] Existing Instance Bearer.eta_Bearer.

Record preparedCreateBearerRelay := mkPrepared {
  pr_pgwAddr : UDPAddr; pr_hdr : Header; pr_cbReq : CreateBearerRequest; pr_sess : loc;
  pr_txn : nat; pr_activeProc : Collision.ActiveProcedure;
  pr_bearerProvs : list bearerProvisioning; pr_s11Raw : bytes; pr_s11Seq : Z; pr_linkedEBI : Z
}.

(** ** Messages *)

Definition marshalBearerError (h : Header) (respType peerTEID cause : Z) : result MsgError bytes :=
  Marshal (simple_header true respType peerTEID (SequenceNumber h)) [NewCause cause 0 0 0 None].

Definition error_context (cause : Z) (reqBC : IE) : IE :=
  let ebi := match ChildIEs reqBC with
             | Ok children => match FindFirst children TypeEBI with
                              | Some i => dropped 0 (EBIValue i) | None => 0 end
             | Err _ => 0
             end in
  NewBearerContext 0 [NewEBI ebi; NewCause cause 0 0 0 None].
Definition marshalCreateBearerErrorResponse (h : Header) (peerTEID cause : Z)
    (cbReq : CreateBearerRequest) : result MsgError bytes :=
  match CBReq_BearerContexts cbReq with
  | [] => marshalBearerError h MsgTypeCreateBearerResponse peerTEID cause
  | bcs => MarshalCreateBearerResponse peerTEID (SequenceNumber h)
             (NewCause cause 0 0 0 None :: (error_context cause <$> bcs))
  end.

Definition known (f : Bearer.FTEID) : bool := negb (Bearer.TEID f =? 0) && IsValid (Bearer.IPv4 f).
(** [ie.NewFTEID] of an endpoint that is known. *)
Definition fteid_if_known (inst iftype : Z) (f : Bearer.FTEID) : option (list IE) :=
  if known f then i ← NewFTEID inst iftype (Bearer.TEID f) (Bearer.IPv4 f); Some [i] else Some [].

Definition buildCreateBearerS5CResponseContext (ebi cause : Z) (prov : option bearerProvisioning)
    : option IE :=
  ends ← match prov with
         | None => Some []
         | Some p =>
             a ← fteid_if_known 2 IFTypeS5S8USGW (sgwUS5UFTEID p);
             b ← fteid_if_known 3 IFTypeS5S8UPGW (pgwUS5UFTEID p);
             Some (a ++ b)
         end;
  Some (NewBearerContext 0 ([NewEBI ebi; NewCause cause 0 0 0 None] ++ ends)).

Inductive ResponseError :=
| ContextCount (got want : nat) | BadContext (idx : nat) (e : IEError)
| ContextWithout (idx : nat) (typ : Z).
Fixpoint validate_contexts (idx : nat) (bcs : list IE) : result ResponseError unit :=
  match bcs with
  | [] => Ok tt
  | bc :: bcs =>
      match ChildIEs bc with
      | Err e => Err (BadContext idx e)
      | Ok children =>
          let? _ := guard (bool_decide (is_Some (FindFirst children TypeEBI))) (ContextWithout idx TypeEBI) in
          let? _ := guard (bool_decide (is_Some (FindFirst children TypeCause))) (ContextWithout idx TypeCause) in
          validate_contexts (S idx) bcs
      end
  end.
Definition validateCreateBearerResponseResults (resp : CreateBearerResponse) (expected : nat)
    : result ResponseError unit :=
  let n := length (CBResp_BearerContexts resp) in
  let? _ := guard (n =? expected)%nat (ContextCount n expected) in
  validate_contexts 0 (CBResp_BearerContexts resp).

(** Causes in words: [gtpcCauseText] has the same table as the S5/S8 client. *)
Definition gtpcCauseText : Z -> string := S5c.causeText.
Definition gtpc_names : list (Z * string) :=
  map (fun n => if n.1 =? TypeEBI then (TypeEBI, "EPS Bearer ID") else n) S5c.ie_names
  ++ [(TypeBearerTFT, "Bearer TFT")].
Definition gtpcIEName (ieType : Z) : string := S5c.name_in gtpc_names ieType.
Definition describeGTPCause : option IE -> S5c.causeDescription := S5c.describe gtpcCauseText gtpcIEName.

Definition qciFromBearerQoSIE (qos : option IE) : Z :=
  match qos with
  | Some i => if (length (IE_Value i) <? 2)%nat then 0 else nth 1 (IE_Value i) 0
  | None => 0
  end.

(** ** The rules of the new bearers *)

(** The checks on one bearer context of the gateway; the rule ids come later. *)
Definition check_context (bc : IE) : result Z bearerProvisioning :=
  match ChildIEs bc with
  | Err _ => Err CauseInvalidMessageFormat
  | Ok children =>
      match FindFirst children TypeEBI with
      | None => Err CauseMandatoryIEMissing
      | Some ebiIE =>
          if negb (match EBIValue ebiIE with Ok e => e =? 0 | Err _ => false end)
          then Err CauseMandatoryIEIncorrect
          else
            match FindFirst children TypeBearerQoS, FindFirst children TypeBearerTFT with
            | Some qos, Some tft =>
                let pgw := match FindInstance children TypeFTEID 1 with
                           | Some i => match FTEIDValue i with
                                       | Ok f => Bearer.mkFTEID (FTEID_TEID f) (FTEID_IPv4 f)
                                       | Err _ => Bearer.no_FTEID end
                           | None => Bearer.no_FTEID
                           end in
                if negb (known pgw) then Err CauseMandatoryIEMissing
                else Ok (mkProvisioning (Some qos) (Some tft) pgw 0 0 0 0 Bearer.no_FTEID Bearer.no_FTEID)
            | _, _ => Err CauseMandatoryIEMissing
            end
      end
  end.

Definition bearer_pdrs (p : bearerProvisioning) : list PfcpIe.IE :=
  let qci := qciFromBearerQoSIE (qosIE p) in
  let qos := PfcpIe.NewVectorCoreQoSMarking 0 qci (negb (qci =? 0)) in
  [S11Pfcp.bearer_pdr (pdrUL p) 100 PfcpIe.SourceInterfaceAccess (farUL p) qos;
   S11Pfcp.bearer_pdr (pdrDL p) 200 PfcpIe.SourceInterfaceCore (farDL p) qos].
(** Uplink to the gateway's endpoint, downlink dropped until the MME answers. *)
Definition bearer_fars (p : bearerProvisioning) : option (list PfcpIe.IE) :=
  ohc ← PfcpIe.NewOuterHeaderCreation PfcpIe.OHCDescGTPUUDPIPv4
          (Bearer.TEID (pgwUS5UFTEID p)) (Bearer.IPv4 (pgwUS5UFTEID p));
  Some [PfcpIe.NewCreateFAR
          [PfcpIe.NewFARID (farUL p); PfcpIe.NewApplyAction PfcpIe.ApplyActionFORW;
           PfcpIe.NewForwardingParameters
             [PfcpIe.NewDestinationInterface PfcpIe.DestInterfaceCore; ohc]];
        S11Pfcp.drop_far (farDL p)].
Fixpoint all_fars (ps : list bearerProvisioning) : option (list PfcpIe.IE) :=
  match ps with
  | [] => Some []
  | p :: ps => a ← bearer_fars p; b ← all_fars ps; Some (a ++ b)
  end.

(** The TEIDs the SGW-U chose, from one Created PDR. *)
Definition record_bearer (cpdr : PfcpIe.IE) (ps : list bearerProvisioning) : list bearerProvisioning :=
  match PfcpIe.Children cpdr with
  | Err _ => ps
  | Ok children =>
      match PfcpIe.Find children PfcpIe.TypePDRID, PfcpIe.Find children PfcpIe.TypeFTEID with
      | Some pdrIDIE, Some fteidIE =>
          let pdrID := dropped 0 (PfcpIe.PDRIDValue pdrIDIE) in
          match PfcpIe.FTEIDPFCPValue fteidIE with
          | Err _ => ps
          | Ok (f, _) =>
              let e := Bearer.mkFTEID (PfcpIe.FTEID_TEID f) (PfcpIe.FTEID_IPv4 f) in
              (fun p => if pdrID =? pdrUL p then p <| sgwUS1UFTEID := e |>
                        else if pdrID =? pdrDL p then p <| sgwUS5UFTEID := e |> else p) <$> ps
          end
      | _, _ => ps
      end
  end.

(** One bearer context of the request to the MME. *)
Definition s11_context (p : bearerProvisioning) : option IE :=
  sgw ← fteid_if_known 0 IFTypeS1USGW (sgwUS1UFTEID p);
  pgw ← fteid_if_known 1 IFTypeS5S8UPGW (pgwUS5UFTEID p);
  Some (NewBearerContext 0
    ([NewEBI 0] ++ S5c.opt_list (tftIE p) ++ sgw ++ pgw ++ S5c.opt_list (qosIE p))).
Fixpoint s11_contexts (ps : list bearerProvisioning) : option (list IE) :=
  match ps with
  | [] => Some []
  | p :: ps => a ← s11_context p; b ← s11_contexts ps; Some (a :: b)
  end.

(** The bearer the MME accepted. *)
Definition new_bearer (ebi : Z) (enb : Bearer.FTEID) (p : bearerProvisioning) : Bearer.Bearer :=
  let v := match qosIE p with Some i => IE_Value i | None => [] end in
  let qos := (2 <=? length v)%nat in
  let v0 := nth 0 v 0 in
  Bearer.mkBearer ebi (if qos then nth 1 v 0 else 0)
    (if qos then Bearer.mkARP (Z.land (Z.shiftr v0 2) 0x0F) (negb (Z.land v0 0x40 =? 0))
                   (negb (Z.land v0 0x01 =? 0))
     else Bearer.mkARP 0 false false)
    enb (sgwUS1UFTEID p) (pgwUS5UFTEID p) (sgwUS5UFTEID p) 0 0 0 0
    ((fun i => Bearer.mkTFT (dropped [] (BearerTFTValue i))) <$> tftIE p)
    Bearer.BearerStateActive (pdrUL p, pdrDL p) (farUL p, farDL p) zero_time zero_time "" zero_time false.

Definition endpoint_of (children : list IE) (inst : Z) : Bearer.FTEID :=
  match FindInstance children TypeFTEID inst with
  | Some i => match FTEIDValue i with
              | Ok f => Bearer.mkFTEID (FTEID_TEID f) (FTEID_IPv4 f) | Err _ => Bearer.no_FTEID end
  | None => Bearer.no_FTEID
  end.

(** The provisioning a context of the MME's answer is about: by the echoed TEID, else by
    position; [single] is the fallback to the only provisioning. *)
Definition match_prov (single : bool) (ps : list bearerProvisioning) (respIndex : nat)
    (children : list IE) : option bearerProvisioning :=
  let by_teid := i ← FindInstance children TypeFTEID 1;
                 match FTEIDValue i with
                 | Ok f => List.find (fun p => Bearer.TEID (sgwUS1UFTEID p) =? FTEID_TEID f) ps
                 | Err _ => None
                 end in
  match by_teid with
  | Some p => Some p
  | None => if single && (length ps =? 1)%nat then head ps else nth_error ps respIndex
  end.

(** ** Steps *)

Section Relay.
Context {E : Type} `{Environment E}.
Notation P A := (M (World E) A).

Definition guard_enabled : P bool :=
  h ← get_h; mret (createBearerRetryGuardEnabled (CreateBearerRetryGuardEnabled <$> cfg h)).
Definition completeTxn (k : createBearerTxnKey) (response : bytes) (cause : Z) : P unit :=
  t ← now; on_cb (fun tb => (tt, completeCreateBearerTxn t k response cause tb)).
Definition rememberFailure (k : createBearerProcedureKey) (cause : Z) (d : S5c.causeDescription)
    : P unit :=
  enabled ← guard_enabled;
  t ← now;
  on_cb (fun tb => (tt, rememberCreateBearerProcedureFailure t enabled k cause (S5c.CauseText d)
                          (S5c.OffendingIEType d) (S5c.OffendingIEName d) tb)).
Definition described (cause : Z) : S5c.causeDescription :=
  S5c.mkCauseDescription (gtpcCauseText cause) 0 "" 0.
Definition txn_of (l : nat) : P createBearerTxnState :=
  x ← gets (fun w => CreateBearerTxn.heap (cb (hs w)) !! l); unwrap x.

Definition replyBearerError (pgwAddr : UDPAddr) (h : Header) (respType peerTEID cause : Z) : P unit :=
  match marshalBearerError h respType peerTEID cause with
  | Err _ => mret tt
  | Ok raw => on_s5c (S5c.ReplyToPGW pgwAddr raw) ;; mret tt
  end.
Definition replyCreateBearerTxnError (k : createBearerTxnKey) (pgwAddr : UDPAddr) (h : Header)
    (cbReq : CreateBearerRequest) (peerTEID cause : Z) : P unit :=
  match marshalCreateBearerErrorResponse h peerTEID cause cbReq with
  | Err _ => mret tt
  | Ok raw => on_s5c (S5c.ReplyToPGW pgwAddr raw) ;; completeTxn k raw cause
  end.
Definition replyCreateBearerRetryGuardFailure (pgwAddr : UDPAddr) (h : Header)
    (cbReq : CreateBearerRequest) (peerTEID : Z) (failure : createBearerProcedureFailure) : P unit :=
  let cause := if lastFailureCause failure =? 0 then CauseRequestRejected
               else lastFailureCause failure in
  match marshalCreateBearerErrorResponse h peerTEID cause cbReq with
  | Err _ => mret tt
  | Ok raw => on_s5c (S5c.ReplyToPGW pgwAddr raw) ;; mret tt
  end.

(** Remove rules at the session's SGW-U, failures ignored. *)
Definition remove_rules (l : loc) (pdrIDs farIDs : list Z) : P unit :=
  s ← session l;
  let b := SessionData.PFCP s in
  if negb (SessionData.pb_Established b) then mret tt
  else
    on_pfcp (PfcpClient.RemoveBearerRulesOnPeer pfcp_send (SessionData.pb_SGWUAddr b)
               (SessionData.fs_SEID (SessionData.pb_SGWUFSEID b)) pdrIDs farIDs) ;; mret tt.
Definition removeProvisionedBearerRules (l : loc) (p : bearerProvisioning) : P unit :=
  remove_rules l [pdrUL p; pdrDL p] [farUL p; farDL p].
Definition mark_rolled_back (k : createBearerTxnKey) (p : bearerProvisioning) : P bool :=
  t ← now; on_cb (markCreateBearerTxnRolledBack t k p).
Fixpoint not_rolled_back (k : createBearerTxnKey) (ps : list bearerProvisioning)
    : P (list bearerProvisioning) :=
  match ps with
  | [] => mret []
  | p :: ps =>
      first ← mark_rolled_back k p;
      rest ← not_rolled_back k ps;
      mret (if first : bool then p :: rest else rest)
  end.
Definition removeAllCreateBearerTxnProvisioning (k : createBearerTxnKey) (l : loc)
    (provs : list bearerProvisioning) : P unit :=
  ps ← not_rolled_back k provs;
  if decide (ps = []) then mret tt
  else remove_rules l (ps ≫= fun p => [pdrUL p; pdrDL p]) (ps ≫= fun p => [farUL p; farDL p]).
Definition removeCreateBearerTxnProvisioning (k : createBearerTxnKey) (l : loc)
    (prov : option bearerProvisioning) : P unit :=
  match prov with
  | None => mret tt
  | Some p => first ← mark_rolled_back k p;
              if first : bool then removeProvisionedBearerRules l p else mret tt
  end.

Fixpoint provision_contexts (l : loc) (bcs : list IE) : P (result Z (list bearerProvisioning)) :=
  match bcs with
  | [] => mret (Ok [])
  | bc :: bcs =>
      match check_context bc with
      | Err cause => mret (Err cause)
      | Ok p =>
          ids ← edit_sess l Session.AllocBearerRuleIDs;
          let '(pul, pdl, ful, fdl) := ids in
          let! ps := provision_contexts l bcs in
          mret (Ok ((p <| pdrUL := pul |> <| pdrDL := pdl |> <| farUL := ful |> <| farDL := fdl |>) :: ps))
      end
  end.

(** What follows once the procedure and its transaction are begun. *)
Definition relay_to_mme (pgwAddr : UDPAddr) (h : Header) (cbReq : CreateBearerRequest) (l : loc)
    (lbi : Z) (k : createBearerTxnKey) (txn : nat) (proc : Collision.ActiveProcedure)
    : P (option preparedCreateBearerRelay) :=
  s ← session l;
  let peer := SessionData.ft_TEID (SessionData.PGWControlFTEID s) in
  let fail cause := replyCreateBearerTxnError k pgwAddr h cbReq peer cause ;; mret None in
  provs ← provision_contexts l (CBReq_BearerContexts cbReq);
  match provs with
  | Err cause => fail cause
  | Ok [] => fail CauseInvalidMessageFormat
  | Ok provs =>
      fars ← unwrap (all_fars provs);
      let b := SessionData.PFCP s in
      created ← on_pfcp (PfcpClient.AddBearerRulesOnPeer pfcp_send (SessionData.pb_SGWUAddr b)
                           (SessionData.fs_SEID (SessionData.pb_SGWUFSEID b))
                           (provs ≫= bearer_pdrs) fars);
      match created with
      | Err _ => fail CauseSystemFailure
      | Ok created =>
          let provs := fold_left (fun ps c => record_bearer c ps) created provs in
          t ← now;
          on_cb (fun tb => (tt, markCreateBearerTxnProvisioned t k provs tb)) ;;
          bcs ← unwrap (s11_contexts provs);
          s11Seq ← on_io (AllocSeq SgwcIo.S11);
          match MarshalCreateBearerRequest (SessionData.ft_TEID (SessionData.MMEControlFTEID s)) s11Seq
                  (NewEBI lbi :: bcs) with
          | Err _ => removeAllCreateBearerTxnProvisioning k l provs ;; fail CauseSystemFailure
          | Ok raw => mret (Some (mkPrepared pgwAddr h cbReq l txn proc provs raw s11Seq lbi))
          end
      end
  end.

(** The transaction of a request that passed the checks: answered from the cache, ignored
    while one is pending, or begun. *)
Definition begin_and_relay (pgwAddr : UDPAddr) (h : Header) (raw : bytes)
    (cbReq : CreateBearerRequest) (l : loc) (lbi : Z) (fp : createBearerFingerprintKey)
    (procKey : createBearerProcedureKey) (proc : Collision.ActiveProcedure)
    : P (option preparedCreateBearerRelay) :=
  s ← session l;
  t ← now;
  began ← on_cb (beginCreateBearerTxnWithFingerprint t pgwAddr h raw (SessionData.SessionID s) fp);
  txn ← txn_of began.1;
  match began.2 with
  | ActionCached => on_s5c (S5c.ReplyToPGW pgwAddr (s5cResponse txn)) ;; mret None
  | ActionFingerprintCached =>
      match cloneCreateBearerResponseForSequence (s5cResponse txn) (SequenceNumber h) with
      | Ok resp => on_s5c (S5c.ReplyToPGW pgwAddr resp) ;; mret None
      | Err _ => mret None
      end
  | ActionPending | ActionFingerprintPending => mret None
  | ActionNew =>
      t ← now;
      on_cb (fun tb => (tt, setCreateBearerTxnProcedureKey t (key txn) procKey tb)) ;;
      relay_to_mme pgwAddr h cbReq l lbi (key txn) began.1 proc
  end.

Definition prepareCreateBearerRelay (pgwAddr : UDPAddr) (h : Header) (raw : bytes)
    : P (option preparedCreateBearerRelay) :=
  let refuse peer cause :=
    replyBearerError pgwAddr h MsgTypeCreateBearerResponse peer cause ;; mret None in
  match ParseCreateBearerRequest raw with
  | Err _ => refuse 0 CauseInvalidMessageFormat
  | Ok cbReq =>
      found ← gets (fun w => SessionManager.FindByS5CTEID (TEID h) (mgr w));
      match found with
      | None => refuse 0 CauseContextNotFound
      | Some l =>
          s ← session l;
          lbiIE ← unwrap (CBReq_LBI cbReq);
          let lbi := dropped 0 (EBIValue lbiIE) in
          let fp := newCreateBearerFingerprintKey pgwAddr h lbi (CBReq_BearerContexts cbReq) in
          let procKey := newCreateBearerProcedureKey pgwAddr h s lbi (CBReq_BearerContexts cbReq) in
          let peer := SessionData.ft_TEID (SessionData.PGWControlFTEID s) in
          t ← now;
          dup ← on_cb (findCreateBearerTxn t pgwAddr h);
          match dup with
          | (Some x, ActionCached) =>
              txn ← txn_of x; on_s5c (S5c.ReplyToPGW pgwAddr (s5cResponse txn)) ;; mret None
          | (Some _, ActionPending) => mret None
          | _ =>
              enabled ← guard_enabled;
              t ← now;
              failure ← on_cb (findLatchedCreateBearerProcedureFailure t enabled procKey);
              match failure with
              | Some f => replyCreateBearerRetryGuardFailure pgwAddr h cbReq peer f ;; mret None
              | None =>
                  proc ← beginProcedure l (pgwProcedureRequest Collision.ProcedureCreateBearer
                                             (UDPAddr_String pgwAddr) (TEID h) (SequenceNumber h) [lbi]);
                  match proc with
                  | None => refuse peer CauseRequestRejected
                  | Some proc =>
                      prep ← begin_and_relay pgwAddr h raw cbReq l lbi fp procKey proc;
                      match prep with
                      | Some p => mret (Some p)
                      | None => finishProcedure l proc ;; mret None
                      end
                  end
              end
          end
      end
  end.

(** ** The MME's answer *)

(** The loop over the bearer contexts of the answer. *)
Record results := mkResults {
  acceptedBearers : nat; failedBearers : nat; firstFailureCause : Z; s5cBCIEs : list IE
}.

(** One context that names a bearer and a cause; the cause it ends with. *)
Definition one_bearer (l : loc) (k : createBearerTxnKey) (full_reject : bool) (ebi cause : Z)
    (enb : Bearer.FTEID) (matched : option bearerProvisioning) : P Z :=
  let remove := removeCreateBearerTxnProvisioning k l matched in
  if negb (cause =? CauseRequestAccepted) then
    whenM (negb full_reject) remove ;; mret cause
  else
    match matched with
    | None => mret cause
    | Some p =>
        s ← session l;
        let b := SessionData.PFCP s in
        if negb (Bearer.TEID enb =? 0) && SessionData.pb_Established b then
          r ← on_pfcp (PfcpClient.ModifySessionOnPeer pfcp_send (SessionData.pb_SGWUAddr b)
                         (SessionData.fs_SEID (SessionData.pb_SGWUFSEID b))
                         [PfcpClient.mkFARUpdate (farDL p) (pdrDL p) PfcpIe.ApplyActionFORW
                            PfcpIe.DestInterfaceAccess (Bearer.TEID enb) (Bearer.IPv4 enb) true]);
          match r with
          | Err _ => remove ;; mret CauseSystemFailure
          | Ok _ => SetBearer l (new_bearer ebi enb p) ;; mret cause
          end
        else remove ;; mret CauseSystemFailure
    end.

Fixpoint bearer_results (single : bool) (l : loc) (k : createBearerTxnKey) (full_reject : bool)
    (provs : list bearerProvisioning) (respIndex : nat) (bcs : list IE) (acc : results) : P results :=
  match bcs with
  | [] => mret acc
  | bc :: bcs =>
      let next := bearer_results single l k full_reject provs (S respIndex) bcs in
      match ChildIEs bc with
      | Err _ => next acc
      | Ok children =>
          match FindFirst children TypeEBI, FindFirst children TypeCause with
          | Some ebiIE, Some causeIE =>
              let ebi := dropped 0 (EBIValue ebiIE) in
              let matched := match_prov single provs respIndex children in
              cause ← one_bearer l k full_reject ebi (dropped 0 (CauseValue causeIE))
                        (endpoint_of children 0) matched;
              ctx ← unwrap (buildCreateBearerS5CResponseContext ebi cause matched);
              let ok := cause =? CauseRequestAccepted in
              next (mkResults (if ok then S (acceptedBearers acc) else acceptedBearers acc)
                              (if ok then failedBearers acc else S (failedBearers acc))
                              (if negb ok && (firstFailureCause acc =? 0) then cause
                               else firstFailureCause acc)
                              (s5cBCIEs acc ++ [ctx]))
          | _, _ => next acc
          end
      end
  end.

Definition is_success (cause : Z) : bool :=
  (cause =? CauseRequestAccepted) || (cause =? CauseRequestAcceptedPartially).
Definition out_cause (msgCause : Z) (r : results) : Z :=
  if (0 <? failedBearers r)%nat then
    if (0 <? acceptedBearers r)%nat then CauseRequestAcceptedPartially
    else if negb (firstFailureCause r =? 0) then firstFailureCause r
    else msgCause
  else msgCause.

(** From the MME's answer to the response to the gateway.  [piggybacked] tells whether the
    answer is to a piggybacked request: a failure is then remembered before the response
    is built, and there is no fallback to the only provisioning. *)
Definition answer_gateway (piggybacked : bool) (l : loc) (txn : nat) (pgwAddr : UDPAddr) (h : Header)
    (cbReq : CreateBearerRequest) (provs : list bearerProvisioning) (raw : bytes) : P unit :=
  s ← session l;
  let peer := SessionData.ft_TEID (SessionData.PGWControlFTEID s) in
  tx ← txn_of txn;
  let k := key tx in
  match ParseCreateBearerResponse raw with
  | Err _ =>
      removeAllCreateBearerTxnProvisioning k l provs ;;
      replyCreateBearerTxnError k pgwAddr h cbReq peer CauseSystemFailure
  | Ok cbResp =>
      match validateCreateBearerResponseResults cbResp (length provs) with
      | Err _ =>
          removeAllCreateBearerTxnProvisioning k l provs ;;
          replyCreateBearerTxnError k pgwAddr h cbReq peer CauseInvalidMessageFormat ;;
          rememberFailure (procedureKey tx) CauseInvalidMessageFormat (described CauseInvalidMessageFormat)
      | Ok _ =>
          causeIE ← unwrap (CBResp_Cause cbResp);
          let msgCause := dropped 0 (CauseValue causeIE) in
          let desc := describeGTPCause (Some causeIE) in
          let full_reject := negb (is_success msgCause) in
          whenM full_reject (removeAllCreateBearerTxnProvisioning k l provs) ;;
          r ← bearer_results (negb piggybacked) l k full_reject provs 0 (CBResp_BearerContexts cbResp)
                (mkResults 0 0 0 []);
          let out := out_cause msgCause r in
          let remember := whenM (negb (is_success out)) (rememberFailure (procedureKey tx) out desc) in
          whenM piggybacked remember ;;
          match MarshalCreateBearerResponse peer (SequenceNumber h)
                  (NewCause out 0 0 0 None :: s5cBCIEs r) with
          | Err _ => mret tt
          | Ok resp =>
              on_s5c (S5c.ReplyToPGW pgwAddr resp) ;;
              whenM (negb piggybacked) remember ;;
              completeTxn k resp out
          end
      end
  end.

(** ** Piggybacked requests *)

Definition registerPending (mmeAddr : UDPAddr) (csrspSeq : Z) (p : preparedCreateBearerRelay) : P unit :=
  t ← now;
  let peer := UDPAddr_String mmeAddr in
  on_cb (fun tb => (tt, registerPendingS11CreateBearer (peer, pr_s11Seq p)
    (mkPending (pr_pgwAddr p) peer (pr_hdr p) (pr_cbReq p) (pr_sess p) (pr_txn p) (pr_activeProc p)
       (pr_bearerProvs p) csrspSeq (pr_s11Seq p) (pr_linkedEBI p) t) tb)).

Definition completeCreateBearerFromS11Response (p : pendingS11CreateBearer) (raw : bytes) : P unit :=
  answer_gateway true (p_sess p) (p_txn p) (p_pgwAddr p) (p_hdr p) (p_cbReq p) (p_bearerProvs p) raw ;;
  finishProcedure (p_sess p) (p_activeProc p).
Definition handlePiggybackCreateBearerResponse (mmeAddr : UDPAddr) (h : Header) (raw : bytes) : P unit :=
  pending ← on_cb (popPendingS11CreateBearer (UDPAddr_String mmeAddr, SequenceNumber h));
  match pending with
  | None => mret tt
  | Some p => completeCreateBearerFromS11Response p raw
  end.

(** The timer of a request the MME did not answer. *)
Definition expirePendingS11CreateBearer (k : string * Z) : P unit :=
  pending ← on_cb (popPendingS11CreateBearer k);
  match pending with
  | None => mret tt
  | Some p =>
      finishProcedure (p_sess p) (p_activeProc p) ;;
      tx ← txn_of (p_txn p);
      removeAllCreateBearerTxnProvisioning (key tx) (p_sess p) (p_bearerProvs p) ;;
      s ← session (p_sess p);
      tx ← txn_of (p_txn p);
      let procKey :=
        if decide (procedureKey tx = zero_procedure)
        then newCreateBearerProcedureKey (p_pgwAddr p) (p_hdr p) s (p_linkedEBI p)
               (CBReq_BearerContexts (p_cbReq p))
        else procedureKey tx in
      rememberFailure procKey CauseRequestRejected (described CauseRequestRejected) ;;
      replyCreateBearerTxnError (key tx) (p_pgwAddr p) (p_hdr p) (p_cbReq p)
        (SessionData.ft_TEID (SessionData.PGWControlFTEID s)) CauseRequestRejected
  end.

(** ** Requests outside a Create Session Response *)

Definition handleCreateBearer (pgwAddr : UDPAddr) (h : Header) (raw : bytes) : P unit :=
  prep ← prepareCreateBearerRelay pgwAddr h raw;
  match prep with
  | None => mret tt
  | Some p =>
      let l := pr_sess p in
      s ← session l;
      ip4 ← unwrap (As4 (SessionData.ft_IPv4 (SessionData.MMEControlFTEID s)));
      answer ← on_io (Send SgwcIo.S11 (mkUDPAddr ip4 2123) (pr_s11Raw p));
      match answer with
      | Err _ =>
          tx ← txn_of (pr_txn p);
          removeAllCreateBearerTxnProvisioning (key tx) l (pr_bearerProvs p) ;;
          replyCreateBearerTxnError (key tx) pgwAddr h (pr_cbReq p)
            (SessionData.ft_TEID (SessionData.PGWControlFTEID s)) CauseSystemFailure
      | Ok resp =>
          answer_gateway false l (pr_txn p) pgwAddr h (pr_cbReq p) (pr_bearerProvs p) resp
      end ;;
      finishProcedure l (pr_activeProc p)
  end.
End Relay.
