(* ===== verification/S11Create.v ===== *)
(** * Create Session ([internal/sgwc/s11/handler.go], handleCreateSessionRequest)

    The establishment of a PDN connection: a session is registered, the one it replaces is
    released at the gateway and at the SGW-U, the SGW-U is provisioned, the gateway is
    asked, the uplink is opened, and the MME is answered.  Every failure undoes what was
    done. *)

From S2P Require Import Prelude GoLib Effects Gtpv2Ie Gtpv2Message Gtpv2Procedures SgwcIo.
From S2P Require Bearer Collision SessionData Session SessionManager S5c PfcpClient PfcpIe S11Pfcp.
From S2P Require CreateBearerTxn.
From S2P Require Import S11 S11Relay.
#[local] Open Scope string_scope.
#[local] Open Scope list_scope.
#[local] Open Scope Z_scope.
#[local] Existing Instance Bearer.eta_Bearer.

(** EBI, QCI and ARP of the first bearer context. *)
Definition extractDefaultBearer (bcs : list IE) : Z * Z * Bearer.ARP :=
  let dflt := (5, 9, Bearer.mkARP 9 false false) in
  match bcs with
  | [] => dflt
  | bc :: _ =>
      match ChildIEs bc with
      | Err _ => dflt
      | Ok children =>
          let ebi := match FindFirst children TypeEBI with
                     | Some i => dropped 0 (EBIValue i) | None => 0 end in
          let '(qci, arp) :=
            match FindFirst children TypeBearerQoS with
            | Some q =>
                if (2 <=? length (IE_Value q))%nat then
                  let v0 := nth 0 (IE_Value q) 0 in
                  (nth 1 (IE_Value q) 0,
                   Bearer.mkARP (Z.land (Z.shiftr v0 2) 0x0F) (negb (Z.land v0 0x40 =? 0))
                     (negb (Z.land v0 0x01 =? 0)))
                else (0, Bearer.mkARP 0 false false)
            | None => (0, Bearer.mkARP 0 false false)
            end in
          (if ebi =? 0 then 5 else ebi, if qci =? 0 then 9 else qci, arp)
      end
  end.

(** The subscriber: the IMSI, else the equipment identity. *)
Definition subscriber (req : CreateSessionRequest) : string :=
  match CSReq_IMSI req, CSReq_MEI req with
  | Some i, _ => dropped "" (Gtpv2Ie.IMSI i)
  | None, Some i => "mei:" ++ dropped "" (MEIValue i)
  | None, None => ""
  end.
Definition serving_network (req : CreateSessionRequest) : string :=
  match CSReq_ServingNetwork req with
  | Some i => let '(mcc, mnc) := dropped ("", "") (ServingNetworkValue i) in mcc ++ "-" ++ mnc
  | None => ""
  end.
Definition no_fteid : FTEID := mkFTEID 0 0 AddrZero.
Definition create_params (req : CreateSessionRequest) (apnIE ratIE fteidIE : IE)
    (reuse : SessionData.FTEID) : SessionManager.CreateParams :=
  let mme := dropped no_fteid (FTEIDValue fteidIE) in
  let '(ebi, qci, arp) := extractDefaultBearer (CSReq_BearerContexts req) in
  SessionManager.mkCreateParams (subscriber req) (dropped "" (APNValue apnIE))
    (dropped 0 (RATTypeValue ratIE)) (serving_network req)
    (SessionData.mkFTEID (FTEID_TEID mme) (FTEID_IPv4 mme)) reuse ebi qci arp 0 0.

(** ** The response to the MME *)

Definition created_context (ebi : Z) (r : S5c.CreateSessionResult) (p : S11Pfcp.pfcpSessionResult)
    : option IE :=
  sgw ← fteid_if_known 0 IFTypeS1USGW (S11Pfcp.sgwUS1UFTEID p);
  pgw ← (if negb (Bearer.TEID (S5c.PGWS5UFTEID r) =? 0)
         then i ← NewFTEID 2 IFTypeS5S8UPGW (Bearer.TEID (S5c.PGWS5UFTEID r)) (Bearer.IPv4 (S5c.PGWS5UFTEID r));
              Some [i]
         else Some []);
  Some (NewBearerContext 0 ([NewEBI ebi; NewCause CauseRequestAccepted 0 0 0 None] ++ sgw ++ pgw)).

Section Create.
Context {E : Type} `{Environment E}.
Notation P A := (M (World E) A).

(** [paa] may be a nil pointer; the log line that follows looks for a Recovery IE in the
    list and dereferences every pointer before it. *)
Definition buildS11CreateSessionResponseIEs (a : UDPAddr) (ebi : Z) (sgwS11 pgwS5C : IE)
    (paa ambr : option IE) (r : S5c.CreateSessionResult) (p : S11Pfcp.pfcpSessionResult)
    : P (list (option IE)) :=
  bc ← unwrap (created_context ebi r p);
  h ← get_h;
  rec ← (if bool_decide (is_Some (recovery h)) then maybeRecoveryIE a else mret None);
  mret ([Some sgwS11; Some pgwS5C; paa]
        ++ (Some <$> (S5c.opt_list (S5c.APNRestriction r) ++ S5c.opt_list ambr
                      ++ S5c.opt_list (S5c.PCO r) ++ [bc] ++ S5c.opt_list (S5c.ChargingID r)
                      ++ S5c.opt_list rec))).

Definition s11_response (a : UDPAddr) (req : CreateSessionRequest) (ebi : Z) (l : loc)
    (r : S5c.CreateSessionResult) (p : S11Pfcp.pfcpSessionResult) : P (result MsgError bytes) :=
  s ← session l;
  h ← get_h;
  sgwS11 ← unwrap (NewFTEID 0 IFTypeS11S4SGW (SessionData.ft_TEID (SessionData.SGWS11FTEID s)) (localIP h));
  let pgw := S5c.PGWControlFTEID r in
  pgwS5C ← unwrap (NewFTEID 1 IFTypeS5S8CPGW (SessionData.ft_TEID pgw) (SessionData.ft_IPv4 pgw));
  paa ← (if IsValid (S5c.UEIP r) then i ← unwrap (NewPAA PDNTypeIPv4 (S5c.UEIP r)); mret (Some i)
         else mret (CSReq_PAA req));
  let ambr := match S5c.AMBR r with Some i => Some i | None => CSReq_AMBR req end in
  ptrs ← buildS11CreateSessionResponseIEs a ebi sgwS11 pgwS5C paa ambr r p;
  ies ← unwrap (mapM id ptrs);
  mret (MarshalCreateSessionResponse req CauseRequestAccepted ies).

(** The piggybacked frames of the gateway: the first Create Bearer Request that can be
    relayed rides on the response; the others are handled as if they had come alone. *)
Fixpoint piggyback_frames (a pgwAddr : UDPAddr) (csrspSeq : Z) (frames : list Frame) (resp : bytes)
    (done : bool) (remaining : list Frame) : P (bytes * list Frame) :=
  match frames with
  | [] => mret (resp, remaining)
  | f :: frames =>
      if negb (MessageType (Frame_Header f) =? MsgTypeCreateBearerRequest) || done
      then piggyback_frames a pgwAddr csrspSeq frames resp done (remaining ++ [f])
      else
        prep ← prepareCreateBearerRelay pgwAddr (Frame_Header f) (Frame_Raw f);
        match prep with
        | None => piggyback_frames a pgwAddr csrspSeq frames resp done remaining
        | Some p =>
            match MarshalPiggybacked resp (pr_s11Raw p) with
            | Err _ =>
                tx ← txn_of (pr_txn p);
                removeAllCreateBearerTxnProvisioning (CreateBearerTxn.key tx) (pr_sess p) (pr_bearerProvs p) ;;
                s ← session (pr_sess p);
                replyCreateBearerTxnError (CreateBearerTxn.key tx) (pr_pgwAddr p) (pr_hdr p) (pr_cbReq p)
                  (SessionData.ft_TEID (SessionData.PGWControlFTEID s)) CauseSystemFailure ;;
                piggyback_frames a pgwAddr csrspSeq frames resp done remaining
            | Ok resp =>
                registerPending a csrspSeq p ;;
                piggyback_frames a pgwAddr csrspSeq frames resp true remaining
            end
        end
  end.

(** ** Steps of the procedure *)

Definition clear_failures (id : string) : P unit :=
  on_cb (fun tb => (tt, CreateBearerTxn.clearCreateBearerProcedureFailuresForSession id tb)).
(** [Delete] of a session that is given up. *)
Definition drop_session (l : loc) : P unit :=
  s ← session l;
  clear_failures (SessionData.SessionID s) ;; Delete (SessionData.SessionID s).

(** Release a PFCP session, failures ignored. *)
Definition release_pfcp (peer : string) (upSEID : Z) : P unit :=
  on_pfcp (PfcpClient.DeleteSessionOnPeer pfcp_send peer upSEID) ;; mret tt.
(** The SGW-U session a session is bound to, if there is one. *)
Definition bound (s : SGWSession) : bool :=
  SessionData.pb_Established (SessionData.PFCP s)
  && negb (SessionData.fs_SEID (SessionData.pb_SGWUFSEID (SessionData.PFCP s)) =? 0).
Definition release_binding (s : SGWSession) : P unit :=
  if bound s
  then release_pfcp (SessionData.pb_SGWUAddr (SessionData.PFCP s))
         (SessionData.fs_SEID (SessionData.pb_SGWUFSEID (SessionData.PFCP s)))
  else mret tt.

(** The session that the new one replaced, already out of the indexes. *)
Definition release_evicted (evicted : option loc) : P unit :=
  match evicted with
  | None => mret tt
  | Some old =>
      s ← session old;
      (if negb (SessionData.ft_TEID (SessionData.PGWControlFTEID s) =? 0) then
         clear_failures (SessionData.SessionID s) ;;
         on_s5c (S5c.DeleteSession s) ;; mret tt
       else mret tt) ;;
      release_binding s
  end.

(** The session that a new one replaces: the same subscriber and EBI. *)
Definition replaced (p : SessionManager.CreateParams) (m : SessionManager.Manager) : option SGWSession :=
  old ← SessionManager.byPDN m !! SessionManager.mkpdnKey (SessionManager.cp_IMSI p) (SessionManager.cp_DefaultEBI p);
  SessionManager.heap m !! old.
Definition create_session (req : CreateSessionRequest) (h : Header)
    : P (result SessionManager.CreateError (loc * option loc)) :=
  apnIE ← unwrap (CSReq_APN req);
  ratIE ← unwrap (CSReq_RATType req);
  fteidIE ← unwrap (CSReq_FTEID req);
  m ← gets mgr;
  let reuse :=
    if TEID h =? 0 then SessionData.no_FTEID
    else match SessionManager.FindByS11TEID (TEID h) m ≫= fun l => SessionManager.heap m !! l with
         | Some s => SessionData.SGWS11FTEID s
         | None => SessionData.no_FTEID
         end in
  rnd ← (if SessionData.ft_TEID reuse =? 0 then on_io (on_env env_random) else mret (fun _ => None));
  id ← on_io (on_env env_session_id);
  t ← now;
  let p := create_params req apnIE ratIE fteidIE reuse in
  order ← sessions_order (SessionData.SessionID <$> replaced p m);
  on_mgr (fun m =>
    let '(r, m, calls) :=
      SessionManager.Create t rnd id order (fresh (dom (SessionManager.heap m))) p m in
    (r, (m, calls))).

(** The response when the gateway rejected the session: its cause, with CS set. *)
Definition relay_rejection (a : UDPAddr) (req : CreateSessionRequest) (cause : Z) : P unit :=
  let teid := match CSReq_FTEID req with
              | Some i => match FTEIDValue i with Ok f => FTEID_TEID f | Err _ => 0 end
              | None => 0 end in
  reply_raw a
    (Marshal (simple_header true MsgTypeCreateSessionResponse teid (SequenceNumber (CSReq_Header req)))
       [NewCause cause 0 0 1 None]).

(** The session once the gateway has accepted it. *)
Definition store_answer (l : loc) (pgwAddr : UDPAddr) (ebi : Z) (r : S5c.CreateSessionResult) : P unit :=
  on_sess l (fun t => Session.SetPGWControlFTEID t (S5c.PGWControlFTEID r)) ;;
  s ← session l;
  t ← now;
  mgr_do (SessionManager.RegisterPGW t (SessionData.SessionID s) (UDPAddr_String pgwAddr)) ;;
  on_sess l (fun t => Session.SetUEIPv4 t (S5c.UEIP r)) ;;
  s ← session l;
  match Session.GetBearer ebi s with
  | Some b => SetBearer l (b <| Bearer.PGWS5UFTEID := S5c.PGWS5UFTEID r |>)
  | None => mret tt
  end.

(** Turn the uplink to forwarding, when the gateway gave a tunnel endpoint. *)
Definition open_uplink (p : S11Pfcp.pfcpSessionResult) (r : S5c.CreateSessionResult)
    : P (result PfcpClient.ClientError unit) :=
  if Bearer.TEID (S5c.PGWS5UFTEID r) =? 0 then mret (Ok tt)
  else on_pfcp (S11Pfcp.modifyPFCPUplinkFAR pfcp_send (S11Pfcp.peerAddr p) (S11Pfcp.upSEID p)
                  (S5c.PGWS5UFTEID r)).

(** The session becomes active on its SGW-U. *)
Definition activate (l : loc) (ebi : Z) (p : S11Pfcp.pfcpSessionResult) : P unit :=
  h ← get_h;
  on_sess l (fun t => Session.SetPFCPBinding t
    (SessionData.mkPFCPSessionBinding (SessionData.mkFSEID (S11Pfcp.cpSEID p) (localIP h))
       (SessionData.mkFSEID (S11Pfcp.upSEID p) AddrZero) (S11Pfcp.peerName p) (S11Pfcp.peerAddr p) true)) ;;
  s ← session l;
  match Session.GetBearer ebi s with
  | Some b => SetBearer l (b <| Bearer.SGWS1UFTEID := S11Pfcp.sgwUS1UFTEID p |>
                             <| Bearer.SGWS5UFTEID := S11Pfcp.sgwUS5UFTEID p |>)
  | None => mret tt
  end ;;
  on_sess l (fun t s => (Session.Transition t SessionData.StateActive s).2).

(** The answer to the MME with what is piggybacked on it, then the frames left over. *)
Definition respond (a : UDPAddr) (req : CreateSessionRequest) (pgwAddr : UDPAddr) (ebi : Z) (l : loc)
    (r : S5c.CreateSessionResult) (p : S11Pfcp.pfcpSessionResult) : P unit :=
  resp ← s11_response a req ebi l r p;
  match resp with
  | Err _ => mret tt
  | Ok resp =>
      out ← piggyback_frames a pgwAddr (SequenceNumber (CSReq_Header req)) (S5c.Piggybacks r) resp false [];
      on_io (Reply SgwcIo.S11 a out.1) ;;
      if decide (out.2 = []) then mret tt else on_s5c (S5c.DispatchPiggybacks pgwAddr out.2)
  end.

(** From the gateway's acceptance on. *)
Definition gateway_accepted (a : UDPAddr) (h : Header) (req : CreateSessionRequest) (mmeTEID : Z)
    (pgwAddr : UDPAddr) (ebi : Z) (l : loc) (s5cTEID : Z) (r : S5c.CreateSessionResult)
    (p : S11Pfcp.pfcpSessionResult) : P unit :=
  store_answer l pgwAddr ebi r ;;
  opened ← open_uplink p r;
  match opened with
  | Err _ =>
      s ← session l;
      on_s5c (S5c.DeleteSession s) ;;
      release_pfcp (S11Pfcp.peerAddr p) (S11Pfcp.upSEID p) ;;
      drop_session l ;;
      on_s5c (S5c.FreeTEID s5cTEID) ;;
      sendCause a h mmeTEID CauseSystemFailure
  | Ok _ =>
      activate l ebi p ;;
      respond a req pgwAddr ebi l r p
  end.

(** From the SGW-U's session on: a TEID for the gateway, then the gateway is asked. *)
Definition ask_gateway (a : UDPAddr) (h : Header) (req : CreateSessionRequest) (mmeTEID : Z)
    (pgwAddr : UDPAddr) (ebi : Z) (l : loc) (p : S11Pfcp.pfcpSessionResult) : P unit :=
  allocated ← on_s5c S5c.AllocTEID;
  match allocated with
  | Err _ =>
      release_pfcp (S11Pfcp.peerAddr p) (S11Pfcp.upSEID p) ;;
      drop_session l ;;
      sendCause a h mmeTEID CauseNoResourcesAvailable
  | Ok t5c =>
      hd ← get_h;
      on_sess l (fun t => Session.SetSGWS5CFTEID t (SessionData.mkFTEID t5c (localIP hd))) ;;
      s ← session l;
      mgr_do (SessionManager.RegisterS5CTEID (SessionData.SessionID s) t5c) ;;
      answer ← on_s5c (S5c.CreateSession pgwAddr req t5c (S11Pfcp.sgwUS5UFTEID p));
      let undo :=
        release_pfcp (S11Pfcp.peerAddr p) (S11Pfcp.upSEID p) ;;
        drop_session l ;;
        on_s5c (S5c.FreeTEID t5c) in
      match answer with
      | Err _ => undo ;; sendCause a h mmeTEID CauseSystemFailure
      | Ok r =>
          if negb (S5c.Cause r =? CauseRequestAccepted)
          then undo ;; relay_rejection a req (S5c.Cause r)
          else gateway_accepted a h req mmeTEID pgwAddr ebi l t5c r p
      end
  end.

(** From the registered session on. *)
Definition establish (a : UDPAddr) (h : Header) (req : CreateSessionRequest) (mmeTEID : Z) (l : loc)
    : P unit :=
  let ebi := (extractDefaultBearer (CSReq_BearerContexts req)).1.1 in
  match S5c.PGWAddr req with
  | Err _ => drop_session l ;; sendCause a h mmeTEID CauseConditionalIEMissing
  | Ok pgwAddr =>
      ok ← allowPeerProcedure (pgwProcedureRequest Collision.ProcedureCreateSession
                                 (UDPAddr_String pgwAddr) 0 (SequenceNumber h) [ebi]);
      if negb ok then drop_session l ;; sendCause a h mmeTEID CauseSystemFailure
      else
        hd ← get_h;
        s ← session l;
        provisional ← on_pfcp (S11Pfcp.establishProvisionalPFCPSession pfcp_send (localIP hd) s);
        match provisional with
        | Err _ => drop_session l ;; sendCause a h mmeTEID CauseSystemFailure
        | Ok p => ask_gateway a h req mmeTEID pgwAddr ebi l p
        end
  end.

Definition handleCreateSessionRequest (a : UDPAddr) (h : Header) (ies : list IE) : P unit :=
  match ParseCreateSessionRequest h ies with
  | Err e => sendMissingIECause a h (peerTEIDFromIEs ies) e
  | Ok req =>
      fteidIE ← unwrap (CSReq_FTEID req);
      let mmeTEID := FTEID_TEID (dropped no_fteid (FTEIDValue fteidIE)) in
      created ← create_session req h;
      match created with
      | Err _ => sendCause a h mmeTEID CauseSystemFailure
      | Ok (l, evicted) =>
          release_evicted evicted ;;
          establish a h req mmeTEID l
      end
  end.
End Create.
