(* ===== verification/S11Session.v ===== *)
(** * Modify Bearer, Release Access Bearers, Delete Session ([internal/sgwc/s11/handler.go])

    The requests of the MME on an established PDN connection. *)

From S2P Require Import Prelude GoLib Effects Gtpv2Ie Gtpv2Message Gtpv2Procedures SgwcIo.
From S2P Require Bearer Collision SessionData Session SessionManager S5c PfcpClient PfcpIe S11Pfcp.
From S2P Require Import S11 S11Relay S11Create.
#[local] Open Scope string_scope.
#[local] Open Scope list_scope.
#[local] Open Scope Z_scope.
#[local] Existing Instance Bearer.eta_Bearer.

(** The downlink rule of a bearer; the default bearer may fall back to rule 2. *)
Definition downlinkPFCPRuleIDs (s : SGWSession) (b : Bearer.Bearer) : option (Z * Z) :=
  let pdrID := u16 (Bearer.PDRIDs b).2 in
  let farID := (Bearer.FARIDs b).2 in
  if negb (pdrID =? 0) && negb (farID =? 0) then Some (pdrID, farID)
  else if Bearer.EBI b =? SessionData.DefaultBearerID s then Some (2, 2)
  else None.

(** Downlink to an eNodeB. *)
Definition forward_to (pdrID farID : Z) (enb : Bearer.FTEID) : PfcpClient.FARUpdate :=
  PfcpClient.mkFARUpdate farID pdrID PfcpIe.ApplyActionFORW PfcpIe.DestInterfaceAccess
    (Bearer.TEID enb) (Bearer.IPv4 enb) true.

Section Requests.
Context {E : Type} `{Environment E}.
Notation P A := (M (World E) A).

Definition modify_session (s : SGWSession) (updates : list PfcpClient.FARUpdate)
    : P (result PfcpClient.ClientError unit) :=
  on_pfcp (PfcpClient.ModifySessionOnPeer pfcp_send (SessionData.pb_SGWUAddr (SessionData.PFCP s))
             (SessionData.fs_SEID (SessionData.pb_SGWUFSEID (SessionData.PFCP s))) updates).

(** Point the downlink of a bearer to an eNodeB: stored first, taken back when the SGW-U
    refuses. *)
Definition redirect (l : loc) (b : Bearer.Bearer) (ids : Z * Z) (enb : Bearer.FTEID)
    : P (result PfcpClient.ClientError unit) :=
  s ← session l;
  r ← modify_session s [forward_to ids.1 ids.2 enb];
  match r with
  | Ok _ => mret (Ok tt)
  | Err e => SetBearer l b ;; mret (Err e)
  end.

(** ** Modify Bearer *)

Definition nsaDCNREnabled (c : option Config) : bool :=
  match c with None => true | Some c => NSADCNREnabled c end.
Definition nsaDCNRForwardSecondaryRATUsageReports (c : option Config) (req : ModifyBearerRequest)
    : bool :=
  (0 <? length (MBReq_SecondaryRATUsageDataReports req))%nat && nsaDCNREnabled c
  && match c with None => true | Some c => ForwardSecondaryRATUsageReports c end.

(** The sessions of the EBIs, each once, in some order; the default session if none. *)
Definition locs_order (ls : list loc) : P (list loc) :=
  rank ← on_io (on_env env_order_Z);
  mret (Z.to_nat <$> ranged rank (Z.of_nat <$> remove_dups ls)).
Definition secondaryRATReportTargetSessions (t : Z) (ebis : list Z) (dflt : loc) (hasReports : bool)
    : P (list loc) :=
  if negb hasReports then mret []
  else
    m ← gets mgr;
    match omap (fun ebi => SessionManager.FindByS11TEIDAndBearer t ebi m) ebis with
    | [] => mret [dflt]
    | ls => locs_order ls
    end.

Fixpoint decode_reports (a : UDPAddr) (h : Header) (ies : list IE)
    : P (list SessionData.SecondaryRATUsageDataReport) :=
  match ies with
  | [] => mret []
  | i :: ies =>
      match SecondaryRATUsageDataReportValue i with
      | Err _ => decode_reports a h ies
      | Ok payload =>
          t ← now;
          rest ← decode_reports a h ies;
          mret (SessionData.mkSecondaryRATUsageDataReport t "s11_modify_bearer_request"
                  (UDPAddr_String a) (TEID h) (SequenceNumber h) payload :: rest)
      end
  end.
Definition captureSecondaryRATUsageReports (a : UDPAddr) (h : Header) (req : ModifyBearerRequest)
    (dflt : loc) : P unit :=
  hd ← get_h;
  if negb (nsaDCNREnabled (cfg hd)) || (length (MBReq_SecondaryRATUsageDataReports req) =? 0)%nat
  then mret tt
  else
    targets ← secondaryRATReportTargetSessions (TEID h) (bearerContextEBIs (MBReq_BearerContexts req)) dflt true;
    if decide (targets = []) then mret tt
    else
      reports ← decode_reports a h (MBReq_SecondaryRATUsageDataReports req);
      if decide (reports = []) then mret tt
      else for_each targets (fun l =>
             on_sess l (fun t => Session.RecordSecondaryRATUsageDataReports (fun _ => t) reports)).

Definition shouldCompleteMMERestorationOnModifyBearer (s : SGWSession) : bool :=
  let st := SessionData.MMERestoration s in
  SessionData.mr_RestorationPending st
  && String.eqb (SessionData.mr_PolicyAction st) SessionData.MMERestorationPolicyPreserve
  && SessionData.mr_DDNAcked st
  && (SessionData.mr_DDNAckCause st =? CauseRequestAccepted)
  && negb (SessionData.mr_UserPlaneRestored st).

(** The other bearers of the session follow the default bearer's eNodeB. *)
Definition restore_sibling (l : loc) (requested : list Z) (enb : Bearer.FTEID) (b : Bearer.Bearer)
    : P unit :=
  s ← session l;
  if (Bearer.EBI b =? SessionData.DefaultBearerID s) || existsb (Z.eqb (Bearer.EBI b)) requested
     || String.eqb (Bearer.State b) Bearer.BearerStateDeleting
     || String.eqb (Bearer.State b) Bearer.BearerStateDeleted
  then mret tt
  else
    match downlinkPFCPRuleIDs s b with
    | None => mret tt
    | Some ids =>
        SetBearer l (b <| Bearer.ENBS1UFTEID := enb |>) ;;
        redirect l b ids enb ;; mret tt
    end.
Definition restoreSiblingBearersAfterModifyBearer (l : loc) (requested : list Z) (enb : Bearer.FTEID)
    : P unit :=
  if negb (IsValid (Bearer.IPv4 enb)) || (Bearer.TEID enb =? 0) then mret tt
  else bs ← BearerList l; for_each bs (restore_sibling l requested enb).

(** What one bearer context of the request comes to: EBI, cause and the SGW-U endpoint. *)
Record mbResult := mkMbResult { mr_ebi : Z; mr_cause : Z; mr_sgw : Bearer.FTEID }.
Definition rejected (ebi cause : Z) : mbResult := mkMbResult ebi cause Bearer.no_FTEID.

Definition modify_bearer (l : loc) (requested : list Z) (ebi : Z) (b : Bearer.Bearer)
    (enb : Bearer.FTEID) : P mbResult :=
  s ← session l;
  if negb (bound s) then mret (rejected ebi CauseSystemFailure)
  else
    SetBearer l (b <| Bearer.ENBS1UFTEID := enb |>) ;;
    match downlinkPFCPRuleIDs s b with
    | None => SetBearer l b ;; mret (rejected ebi CauseSystemFailure)
    | Some ids =>
        r ← redirect l b ids enb;
        match r with
        | Err _ => mret (rejected ebi CauseSystemFailure)
        | Ok _ =>
            s ← session l;
            let sgw := match Session.GetBearer ebi s with
                       | Some b => Bearer.SGWS1UFTEID b | None => Bearer.no_FTEID end in
            (if shouldCompleteMMERestorationOnModifyBearer s
             then t ← now;
                  on_sess l (fun t' => Session.MarkMMERestorationUserPlaneRestored t' ebi t)
             else mret tt) ;;
            whenM (ebi =? SessionData.DefaultBearerID s)
              (restoreSiblingBearersAfterModifyBearer l requested enb) ;;
            mret (mkMbResult ebi CauseRequestAccepted sgw)
        end
    end.

Definition modify_context (t : Z) (requested : list Z) (bc : IE) : P (list mbResult) :=
  match ChildIEs bc with
  | Err _ => mret []
  | Ok children =>
      match FindFirst children TypeEBI with
      | None => mret []
      | Some ebiIE =>
          let ebi := dropped 0 (EBIValue ebiIE) in
          match FindFirst children TypeFTEID with
          | None => mret [rejected ebi CauseMandatoryIEMissing]
          | Some fteidIE =>
              m ← gets mgr;
              match SessionManager.FindByS11TEIDAndBearer t ebi m with
              | None => mret [rejected ebi CauseContextNotFound]
              | Some l =>
                  s ← session l;
                  match Session.GetBearer ebi s with
                  | None => mret [rejected ebi CauseContextNotFound]
                  | Some b =>
                      let f := dropped no_fteid (FTEIDValue fteidIE) in
                      r ← modify_bearer l requested ebi b (Bearer.mkFTEID (FTEID_TEID f) (FTEID_IPv4 f));
                      mret [r]
                  end
              end
          end
      end
  end.
Fixpoint modify_contexts (t : Z) (requested : list Z) (bcs : list IE) : P (list mbResult) :=
  match bcs with
  | [] => mret []
  | bc :: bcs => r ← modify_context t requested bc; rs ← modify_contexts t requested bcs; mret (r ++ rs)
  end.

(** Hand the usage reports to the gateways: was any asked, and the cause of the first failure. *)
Fixpoint forward_reports (targets : list loc) (h : Header) (req : ModifyBearerRequest) (ebis : list Z)
    (acc : bool * Z) : P (bool * Z) :=
  match targets with
  | [] => mret acc
  | l :: targets =>
      s ← session l;
      if SessionData.ft_TEID (SessionData.PGWControlFTEID s) =? 0
      then forward_reports targets h req ebis acc
      else
        let failed cause := (true, if acc.2 =? CauseRequestAccepted then cause else acc.2) in
        ok ← allowPeerProcedure (pgwProcedureRequest Collision.ProcedureModifyBearer
               (pgwAddrFromSession s) (SessionData.ft_TEID (SessionData.PGWControlFTEID s))
               (SequenceNumber h) ebis);
        if negb ok then forward_reports targets h req ebis (failed CauseSystemFailure)
        else
          r ← on_s5c (S5c.ModifyBearerFromS11 s req);
          forward_reports targets h req ebis
            match r with Err _ => failed CauseSystemFailure | Ok cause => failed cause end
  end.

Definition modified_context (r : mbResult) : option IE :=
  f ← (if mr_cause r =? CauseRequestAccepted then fteid_if_known 0 IFTypeS1USGW (mr_sgw r) else Some []);
  Some (NewBearerContext 0 ([NewEBI (mr_ebi r); NewCause (mr_cause r) 0 0 0 None] ++ f)).
Fixpoint modified_contexts (rs : list mbResult) : option (list IE) :=
  match rs with
  | [] => Some []
  | r :: rs => a ← modified_context r; b ← modified_contexts rs; Some (a :: b)
  end.
(** The cause of the response. *)
Definition message_cause (rs : list mbResult) (forwarded : bool * Z) : Z :=
  match rs with
  | [] => if forwarded.1 && negb (forwarded.2 =? CauseRequestAccepted) then forwarded.2
          else CauseRequestAccepted
  | r :: _ => if existsb (fun r => mr_cause r =? CauseRequestAccepted) rs
              then CauseRequestAccepted else mr_cause r
  end.

Definition handle_modify (a : UDPAddr) (h : Header) (req : ModifyBearerRequest) (dflt : loc)
    (mmeTEID : Z) (ebis : list Z) : P unit :=
  captureSecondaryRATUsageReports a h req dflt ;;
  hd ← get_h;
  targets ← secondaryRATReportTargetSessions (TEID h) ebis dflt
              (nsaDCNRForwardSecondaryRATUsageReports (cfg hd) req);
  rs ← modify_contexts (TEID h) ebis (MBReq_BearerContexts req);
  forwarded ← forward_reports targets h req ebis (false, CauseRequestAccepted);
  bcs ← unwrap (modified_contexts rs);
  rec ← maybeRecoveryIE a;
  reply_checked a (MarshalModifyBearerResponse req mmeTEID (message_cause rs forwarded)
                     (bcs ++ S5c.opt_list rec)).

Definition handleModifyBearerRequest (a : UDPAddr) (h : Header) (ies : list IE) : P unit :=
  match ParseModifyBearerRequest h ies with
  | Err e => sendMissingIECause a h (peerTEIDFromIEs ies) e
  | Ok req =>
      m ← gets mgr;
      match SessionManager.FindByS11TEID (TEID h) m with
      | None =>
          let peer := match MBReq_FTEID req with
                      | Some i => FTEID_TEID (dropped no_fteid (FTEIDValue i)) | None => 0 end in
          reply_raw a (MarshalModifyBearerResponse req peer CauseContextNotFound [])
      | Some l =>
          s ← session l;
          let mmeTEID := SessionData.ft_TEID (SessionData.MMEControlFTEID s) in
          let ebis := bearerContextEBIs (MBReq_BearerContexts req) in
          proc ← beginProcedure l (mmeProcedureRequest Collision.ProcedureModifyBearer a (TEID h)
                                     (SequenceNumber h) ebis);
          match proc with
          | None => reply_raw a (MarshalModifyBearerResponse req mmeTEID CauseRequestRejected [])
          | Some proc => handle_modify a h req l mmeTEID ebis ;; finishProcedure l proc
          end
      end
  end.

(** ** Release Access Bearers *)

(** Drop the downlink of every bearer; [None] when a bearer has no downlink rule. *)
Fixpoint release_updates (s : SGWSession) (bs : list Bearer.Bearer)
    : option (list PfcpClient.FARUpdate) :=
  match bs with
  | [] => Some []
  | b :: bs =>
      ids ← downlinkPFCPRuleIDs s b;
      us ← release_updates s bs;
      Some (PfcpClient.mkFARUpdate ids.2 ids.1 PfcpIe.ApplyActionDROP 0 0 AddrZero false :: us)
  end.
Definition releaseAccessBearerFARUpdates (l : loc) : P (option (list PfcpClient.FARUpdate)) :=
  bs ← BearerList l;
  s ← session l;
  mret (release_updates s bs).

(** Whether the downlink of every session could be dropped, in turn up to a failure. *)
Fixpoint drop_downlinks (ls : list loc) : P bool :=
  match ls with
  | [] => mret true
  | l :: ls =>
      s ← session l;
      if negb (bound s) then drop_downlinks ls
      else
        us ← releaseAccessBearerFARUpdates l;
        match us with
        | None => mret false
        | Some [] => drop_downlinks ls
        | Some us =>
            r ← modify_session s us;
            match r with Err _ => mret false | Ok _ => drop_downlinks ls end
        end
  end.

(** The acceptance with a Recovery IE where it is due. *)
Definition accept_with_recovery (a : UDPAddr) (typ teid seq : Z) : P unit :=
  rec ← maybeRecoveryIE a;
  reply_checked a (Marshal (simple_header true typ teid seq)
                     (NewCause CauseRequestAccepted 0 0 0 None :: S5c.opt_list rec)).

Definition handleReleaseAccessBearersRequest (a : UDPAddr) (h : Header) (ies : list IE) : P unit :=
  let req := ParseReleaseAccessBearersRequest h ies in
  ls ← gets (fun w => SessionManager.FindAllByS11TEID (TEID h) (mgr w));
  match last ls with
  | None => reply_raw a (MarshalReleaseAccessBearersResponse req 0 CauseContextNotFound)
  | Some control =>
      s ← session control;
      let mmeTEID := SessionData.ft_TEID (SessionData.MMEControlFTEID s) in
      proc ← beginProcedure control (mmeProcedureRequest Collision.ProcedureReleaseAccessBearers a
                                       (TEID h) (SequenceNumber h) []);
      match proc with
      | None => reply_raw a (MarshalReleaseAccessBearersResponse req mmeTEID CauseRequestRejected)
      | Some proc =>
          dropped ← drop_downlinks ls;
          (if dropped : bool then
             for_each ls (fun l => on_sess l Session.ClearENBFTEIDs) ;;
             accept_with_recovery a MsgTypeReleaseAccessBearersResponse mmeTEID
               (SequenceNumber (RABReq_Header req))
           else reply_raw a (MarshalReleaseAccessBearersResponse req mmeTEID CauseSystemFailure)) ;;
          finishProcedure control proc
      end
  end.

(** ** Delete Session *)

(** The session the request is about: the owner of the EBI, where one is given. *)
Definition delete_owner (t : Z) (req : DeleteSessionRequest) (l : loc) (m : SessionManager.Manager)
    : option loc :=
  match DSReq_EBI req ≫= ebi_of with
  | None => Some l
  | Some ebi =>
      match SessionManager.FindByS11TEIDAndDefaultBearer t ebi m with
      | Some owner => Some owner
      | None => SessionManager.FindByS11TEIDAndBearer t ebi m
      end
  end.

(** Ask the gateway: [None] when the session can go, else the response to the MME. *)
Definition delete_at_gateway (l : loc) (h : Header) (req : DeleteSessionRequest) (ebis : list Z)
    (mmeTEID : Z) : P (option (result MsgError bytes)) :=
  s ← session l;
  let pgwTEID := SessionData.ft_TEID (SessionData.PGWControlFTEID s) in
  let refused := MarshalDeleteSessionResponse req mmeTEID CauseSystemFailure in
  if pgwTEID =? 0 then mret None
  else
    ok ← allowPeerProcedure (pgwProcedureRequest Collision.ProcedureDeleteSession
           (pgwAddrFromSession s) pgwTEID (SequenceNumber h) ebis);
    if negb ok then mret (Some refused)
    else
      answer ← on_s5c (S5c.DeleteSessionFromS11 s req);
      match answer with
      | Err _ => mret (Some refused)
      | Ok cause =>
          if cause =? CauseRequestAccepted then mret None
          else mret (Some (Marshal (simple_header true MsgTypeDeleteSessionResponse mmeTEID
                              (SequenceNumber (DSReq_Header req))) [NewCause cause 0 0 1 None]))
      end.

Definition handle_delete (a : UDPAddr) (h : Header) (req : DeleteSessionRequest) (l : loc)
    (ebis : list Z) (mmeTEID : Z) : P unit :=
  on_sess l (fun t s => (Session.Transition t SessionData.StateDeleting s).2) ;;
  refused ← delete_at_gateway l h req ebis mmeTEID;
  match refused with
  | Some resp => reply_raw a resp
  | None =>
      s ← session l;
      release_binding s ;;
      drop_session l ;;
      accept_with_recovery a MsgTypeDeleteSessionResponse mmeTEID (SequenceNumber (DSReq_Header req))
  end.

Definition handleDeleteSessionRequest (a : UDPAddr) (h : Header) (ies : list IE) : P unit :=
  match ParseDeleteSessionRequest h ies with
  | Err e => sendMissingIECause a h (peerTEIDFromIEs ies) e
  | Ok req =>
      m ← gets mgr;
      match SessionManager.FindByS11TEID (TEID h) m with
      | None => reply_raw a (MarshalDeleteSessionResponse req 0 CauseContextNotFound)
      | Some first =>
          s ← session first;
          match delete_owner (TEID h) req first m with
          | None =>
              reply_raw a (MarshalDeleteSessionResponse req
                (SessionData.ft_TEID (SessionData.MMEControlFTEID s)) CauseContextNotFound)
          | Some l =>
              s ← session l;
              let mmeTEID := SessionData.ft_TEID (SessionData.MMEControlFTEID s) in
              let ebis := S5c.opt_list (DSReq_EBI req ≫= ebi_of) in
              proc ← beginProcedure l (mmeProcedureRequest Collision.ProcedureDeleteSession a (TEID h)
                                         (SequenceNumber h) ebis);
              match proc with
              | None => reply_raw a (MarshalDeleteSessionResponse req mmeTEID CauseRequestRejected)
              | Some proc => handle_delete a h req l ebis mmeTEID ;; finishProcedure l proc
              end
          end
      end
  end.
End Requests.
