(* ===== verification/S11Bearer.v ===== *)
(** * Update and Delete Bearer ([internal/sgwc/s11/bearer_handler.go])

    The gateway's Update Bearer and Delete Bearer Requests, relayed to the MME, the MME's
    Delete Bearer Command, relayed to the gateways that own the bearers, and the messages
    of a PDN gateway in general. *)

From S2P Require Import Prelude GoLib Effects Gtpv2Ie Gtpv2Message Gtpv2Procedures SgwcIo.
From S2P Require Bearer Collision SessionData Session SessionManager S5c PfcpClient PeerHealth.
From S2P Require Import S11 S11Relay S11Create S11Session.
#[local] Open Scope string_scope.
#[local] Open Scope list_scope.
#[local] Open Scope Z_scope.
#[local] Existing Instance Bearer.eta_Bearer.

(** A bearer context with an EBI and a cause, decoded. *)
Definition context_result (bc : IE) : option (Z * Z) :=
  match ChildIEs bc with
  | Err _ => None
  | Ok children =>
      ebiIE ← FindFirst children TypeEBI;
      causeIE ← FindFirst children TypeCause;
      Some (dropped 0 (EBIValue ebiIE), dropped 0 (CauseValue causeIE))
  end.
Definition context_ebi (bc : IE) : option Z :=
  match ChildIEs bc with
  | Err _ => None
  | Ok children => FindFirst children TypeEBI ≫= ebi_of
  end.

Definition bearerContextsForEBIs (ebis : list Z) (cause : Z) : list IE :=
  (fun ebi => NewBearerContext 0 [NewEBI ebi; NewCause cause 0 0 0 None]) <$> ebis.
Definition acceptedUpdateBearerContextsFromRequest (reqBCs : list IE) : list IE :=
  bearerContextsForEBIs (omap context_ebi reqBCs) CauseRequestAccepted.

(** The distinct EBIs of a command, and a context for each one it names. *)
Definition deleteBearerCommandEBIs (bcs : list IE) : list Z * list IE :=
  (distinct_values (context_ebi <$> bcs),
   (fun ebi => NewBearerContext 0 [NewEBI ebi]) <$> omap context_ebi bcs).
(** The IEs of a command for some of its bearers. *)
Definition deleteBearerCommandIEsForEBIs (ies : list IE) (ebis : list Z) : list IE :=
  List.filter (fun i =>
    if negb (IE_Type i =? TypeBearerContext) || negb (IE_Instance i =? 0) then true
    else match context_ebi i with Some e => existsb (Z.eqb e) ebis | None => false end) ies.

(** The first bearer context of the request for an EBI. *)
Definition request_context (ebi : Z) (reqBCs : list IE) : option (list IE) :=
  head (omap (fun bc => match ChildIEs bc with
                        | Err _ => None
                        | Ok children =>
                            i ← FindFirst children TypeEBI;
                            if dropped 0 (EBIValue i) =? ebi then Some children else None
                        end) reqBCs).
(** TFT and QoS of a bearer as the gateway's request sets them. *)
Definition updated_bearer (children : list IE) (b : Bearer.Bearer) : Bearer.Bearer :=
  let b := match FindFirst children TypeBearerTFT with
           | Some i => match BearerTFTValue i with
                       | Ok raw => b <| Bearer.BearerTFT := Some (Bearer.mkTFT raw) |> | Err _ => b end
           | None => b
           end in
  match FindFirst children TypeBearerQoS with
  | Some q =>
      if (2 <=? length (IE_Value q))%nat then
        let v0 := nth 0 (IE_Value q) 0 in
        b <| Bearer.BearerARP := Bearer.mkARP (Z.land (Z.shiftr v0 2) 0x0F) (negb (Z.land v0 0x40 =? 0))
               (negb (Z.land v0 0x01 =? 0)) |>
          <| Bearer.QCI := nth 1 (IE_Value q) 0 |>
      else b
  | None => b
  end.

Section Requests.
Context {E : Type} `{Environment E}.
Notation P A := (M (World E) A).

(** Relay a request to the session's MME and parse its answer; [None] is a failure. *)
Definition ask_mme {R} (l : loc) (marshal : Z -> Z -> result MsgError bytes)
    (parse : bytes -> result TypedError R) : P (option R) :=
  s ← session l;
  let mme := SessionData.MMEControlFTEID s in
  seq ← on_io (AllocSeq SgwcIo.S11);
  match marshal (SessionData.ft_TEID mme) seq with
  | Err _ => mret None
  | Ok raw =>
      ip4 ← unwrap (As4 (SessionData.ft_IPv4 mme));
      answer ← on_io (Send SgwcIo.S11 (mkUDPAddr ip4 2123) raw);
      mret match answer with
           | Ok resp => match parse resp with Ok r => Some r | Err _ => None end
           | Err _ => None
           end
  end.
(** The response to the gateway. *)
Definition answer_pgw (pgwAddr : UDPAddr) (raw : result MsgError bytes) : P unit :=
  match raw with
  | Err _ => mret tt
  | Ok b => on_s5c (S5c.ReplyToPGW pgwAddr b) ;; mret tt
  end.

(** ** Update Bearer *)

Definition update_bearer (l : loc) (reqBCs : list IE) (bc : IE) : P unit :=
  match context_result bc with
  | None => mret tt
  | Some (ebi, cause) =>
      s ← session l;
      match Session.GetBearer ebi s, request_context ebi reqBCs with
      | Some b, Some children =>
          if cause =? CauseRequestAccepted then SetBearer l (updated_bearer children b) else mret tt
      | _, _ => mret tt
      end
  end.

Definition handle_update (pgwAddr : UDPAddr) (h : Header) (req : UpdateBearerRequest) (l : loc) : P unit :=
  resp ← ask_mme l (fun teid seq => MarshalUpdateBearerRequest teid seq
                      (UBReq_BearerContexts req ++ S5c.opt_list (UBReq_AMBR req)))
           ParseUpdateBearerResponse;
  s ← session l;
  let peer := SessionData.ft_TEID (SessionData.PGWControlFTEID s) in
  match resp with
  | None => replyBearerError pgwAddr h MsgTypeUpdateBearerResponse peer CauseSystemFailure
  | Some resp =>
      causeIE ← unwrap (UBResp_Cause resp);
      let msgCause := dropped 0 (CauseValue causeIE) in
      let bcs := if (length (UBResp_BearerContexts resp) =? 0)%nat && (msgCause =? CauseRequestAccepted)
                 then acceptedUpdateBearerContextsFromRequest (UBReq_BearerContexts req)
                 else UBResp_BearerContexts resp in
      for_each bcs (update_bearer l (UBReq_BearerContexts req)) ;;
      answer_pgw pgwAddr (MarshalUpdateBearerResponse peer (SequenceNumber h)
                            (NewCause msgCause 0 0 0 None :: bcs))
  end.

(** The frame of a request of the gateway: parse, find the session, begin the procedure. *)
Definition gateway_request {R} (pgwAddr : UDPAddr) (h : Header) (respType : Z) (proc : string)
    (parsed : result TypedError R) (ebis_of : R -> list Z) (run : R -> loc -> P unit) : P unit :=
  match parsed with
  | Err _ => replyBearerError pgwAddr h respType 0 CauseInvalidMessageFormat
  | Ok req =>
      found ← gets (fun w => SessionManager.FindByS5CTEID (TEID h) (mgr w));
      match found with
      | None => replyBearerError pgwAddr h respType 0 CauseContextNotFound
      | Some l =>
          begun ← beginProcedure l (pgwProcedureRequest proc (UDPAddr_String pgwAddr) (TEID h)
                                      (SequenceNumber h) (ebis_of req));
          match begun with
          | None =>
              s ← session l;
              replyBearerError pgwAddr h respType
                (SessionData.ft_TEID (SessionData.PGWControlFTEID s)) CauseRequestRejected
          | Some p => run req l ;; finishProcedure l p
          end
      end
  end.

Definition handleUpdateBearer (pgwAddr : UDPAddr) (h : Header) (raw : bytes) : P unit :=
  gateway_request pgwAddr h MsgTypeUpdateBearerResponse Collision.ProcedureUpdateBearer
    (ParseUpdateBearerRequest raw) (fun r => bearerContextEBIs (UBReq_BearerContexts r))
    (handle_update pgwAddr h).

(** ** Delete Bearer *)

(** Remove a bearer's rules, if it has any, and the bearer. *)
Definition remove_bearer (l : loc) (ebi : Z) : P unit :=
  s ← session l;
  match Session.GetBearer ebi s with
  | None => mret tt
  | Some b =>
      let '(p0, p1) := Bearer.PDRIDs b in
      (if negb (p0 =? 0) || negb (p1 =? 0) then
         on_pfcp (PfcpClient.RemoveBearerRulesOnPeer pfcp_send (SessionData.pb_SGWUAddr (SessionData.PFCP s))
                    (SessionData.fs_SEID (SessionData.pb_SGWUFSEID (SessionData.PFCP s)))
                    [p0; p1] [(Bearer.FARIDs b).1; (Bearer.FARIDs b).2]) ;; mret tt
       else mret tt)
  end ;;
  t1 ← now;
  on_sess l (fun t2 s => (Session.DeleteBearer t1 t2 ebi s).2).
Definition delete_bearer (l : loc) (bc : IE) : P unit :=
  match context_result bc with
  | Some (ebi, cause) =>
      if cause =? CauseRequestAccepted then remove_bearer l ebi else mret tt
  | None => mret tt
  end.

Definition handle_delete_bearer (pgwAddr : UDPAddr) (h : Header) (req : DeleteBearerRequest) (l : loc)
    : P unit :=
  resp ← ask_mme l (fun teid seq => MarshalDeleteBearerRequest teid seq
                      (S5c.opt_list (DBReq_LBI req) ++ DBReq_EBIs req))
           ParseDeleteBearerResponse;
  s ← session l;
  let peer := SessionData.ft_TEID (SessionData.PGWControlFTEID s) in
  match resp with
  | None => replyBearerError pgwAddr h MsgTypeDeleteBearerResponse peer CauseSystemFailure
  | Some resp =>
      causeIE ← unwrap (DBResp_Cause resp);
      let msgCause := dropped 0 (CauseValue causeIE) in
      whenM (is_success msgCause) (for_each (DBResp_BearerContexts resp) (delete_bearer l)) ;;
      answer_pgw pgwAddr (MarshalDeleteBearerResponse peer (SequenceNumber h)
        (NewCause msgCause 0 0 0 None :: S5c.opt_list (DBResp_LBI resp) ++ DBResp_BearerContexts resp))
  end.

Definition handleDeleteBearer (pgwAddr : UDPAddr) (h : Header) (raw : bytes) : P unit :=
  gateway_request pgwAddr h MsgTypeDeleteBearerResponse Collision.ProcedureDeleteBearer
    (ParseDeleteBearerRequest raw)
    (fun r => ebiIEsToValues (DBReq_EBIs r) ++ S5c.opt_list (DBReq_LBI r ≫= ebi_of))
    (handle_delete_bearer pgwAddr h).

(** ** Delete Bearer Command *)

Definition mmePeerTEIDForLocalS11 (t : Z) (m : SessionManager.Manager) : Z :=
  if t =? 0 then 0
  else match SessionManager.FindByS11TEID t m ≫= fun l => SessionManager.heap m !! l with
       | Some s => SessionData.ft_TEID (SessionData.MMEControlFTEID s)
       | None => 0
       end.

Definition replyDeleteBearerFailureIndication (a : UDPAddr) (h : Header) (peerTEID cause : Z)
    (failedBCs : list IE) : P unit :=
  m ← gets mgr;
  let peer := if peerTEID =? 0 then mmePeerTEIDForLocalS11 (TEID h) m else peerTEID in
  if peer =? 0 then mret tt
  else
    let bcs := match failedBCs with
               | [] => [NewBearerContext 0 [NewCause cause 0 0 0 None]] | _ => failedBCs end in
    reply_checked a (MarshalDeleteBearerFailureIndication peer (SequenceNumber h)
                       (NewCause cause 0 0 0 None :: bcs)).

(** Commands that wait for the gateway, by session and EBI. *)
Definition sweepExpiredDeleteBearerCommandPendingLocked (t : time)
    (cmds : gmap (string * Z) deleteBearerCommandPending) : gmap (string * Z) deleteBearerCommandPending :=
  filter (fun kc => (IsZero (dc_expiresAt kc.2) || negb (After t (dc_expiresAt kc.2))) = true) cmds.
Definition pending_command (s : SGWSession) (h : Header) (ebi : Z) (t expires : time)
    : deleteBearerCommandPending :=
  mkCommandPending (SessionData.SessionID s) (SessionData.IMSI s) (SessionData.APN s)
    (SessionData.DefaultBearerID s) ebi (TEID h)
    (SessionData.ft_TEID (SessionData.MMEControlFTEID s))
    (SessionData.ft_TEID (SessionData.SGWS5CFTEID s))
    (SessionData.ft_TEID (SessionData.PGWControlFTEID s)) (SequenceNumber h) t expires.
Definition markDeleteBearerCommandPending (s : SGWSession) (h : Header) (ebis : list Z) : P unit :=
  if decide (ebis = []) then mret tt
  else
    t ← now;
    on_h (fun hd =>
      let expires := Add t (operationTimeout (cfg hd)) in
      let cmds := sweepExpiredDeleteBearerCommandPendingLocked t (dbCmds hd) in
      (tt, hd <| dbCmds := fold_left (fun m ebi =>
             <[(SessionData.SessionID s, ebi) := pending_command s h ebi t expires]> m) ebis cmds |>)).
(** The number of entries that were there. *)
Definition clear_commands (id : string) (ebis : list Z)
    (cmds : gmap (string * Z) deleteBearerCommandPending)
    : nat * gmap (string * Z) deleteBearerCommandPending :=
  fold_left (fun '(n, m) ebi =>
    match m !! (id, ebi) with Some _ => (S n, delete (id, ebi) m) | None => (n, m) end) ebis (0%nat, cmds).
Definition clearDeleteBearerCommandPending (s : SGWSession) (ebis : list Z) : P nat :=
  if decide (ebis = []) then mret 0%nat
  else
    t ← now;
    on_h (fun hd =>
      let '(n, cmds) := clear_commands (SessionData.SessionID s) ebis
                          (sweepExpiredDeleteBearerCommandPendingLocked t (dbCmds hd)) in
      (n, hd <| dbCmds := cmds |>)).

(** The owners of the EBIs with the EBIs of each, or the MME's TEID and the cause to refuse
    the command with. *)
Fixpoint owner_groups (m : SessionManager.Manager) (t : Z) (ebis : list Z) (peer : Z)
    (groups : gmap string (loc * list Z)) : result (Z * Z) (gmap string (loc * list Z)) :=
  match ebis with
  | [] => Ok groups
  | ebi :: ebis =>
      match (l ← SessionManager.FindByS11TEIDAndBearer t ebi m; s ← SessionManager.heap m !! l; Some (l, s)) with
      | None => Err (peer, CauseContextNotFound)
      | Some (l, s) =>
          let mme := SessionData.ft_TEID (SessionData.MMEControlFTEID s) in
          if ebi =? SessionData.DefaultBearerID s then Err (mme, CauseRequestRejected)
          else
            let g := default (l, []) (groups !! SessionData.SessionID s) in
            owner_groups m t ebis (if peer =? 0 then mme else peer)
              (<[SessionData.SessionID s := (g.1, g.2 ++ [ebi])]> groups)
      end
  end.

(** Relay the command to one gateway; the cause of a failure. *)
Definition relay_command (h : Header) (cmd : DeleteBearerCommand) (l : loc) (ebis : list Z)
    : P (option Z) :=
  s ← session l;
  hd ← get_h;
  let pgw := SessionData.PGWControlFTEID s in
  if negb (IsValid (SessionData.ft_IPv4 pgw)) then mret (Some CauseContextNotFound)
  else
    ip4 ← unwrap (As4 (SessionData.ft_IPv4 pgw));
    let ies := deleteBearerCommandIEsForEBIs (DBCmd_IEs cmd) ebis in
    let t5c := SessionData.ft_TEID (SessionData.SGWS5CFTEID s) in
    sender ← (if bool_decide (FindInstance ies TypeFTEID 0 = None) && negb (t5c =? 0) && IsValid (localIP hd)
              then i ← unwrap (NewFTEID 0 IFTypeS5S8CSGW t5c (localIP hd)); mret [i]
              else mret []);
    seq ← on_io (AllocSeq SgwcIo.S11);
    match MarshalDeleteBearerCommand (SessionData.ft_TEID pgw) seq (ies ++ sender) with
    | Err _ => mret (Some CauseSystemFailure)
    | Ok raw =>
        sent ← on_s5c (S5c.ReplyToPGW (mkUDPAddr ip4 2123) raw);
        if sent : bool then markDeleteBearerCommandPending s h ebis ;; mret None
        else mret (Some CauseSystemFailure)
    end.

(** The groups in turn up to a failure; the procedures end when the handler returns. *)
Fixpoint relay_groups (a : UDPAddr) (h : Header) (cmd : DeleteBearerCommand)
    (groups : list (loc * list Z)) : P unit :=
  match groups with
  | [] => mret tt
  | (l, ebis) :: groups =>
      let refuse cause :=
        s ← session l;
        replyDeleteBearerFailureIndication a h (SessionData.ft_TEID (SessionData.MMEControlFTEID s)) cause
          (bearerContextsForEBIs ebis cause) in
      proc ← beginProcedure l (mmeProcedureRequest Collision.ProcedureDeleteBearer a (TEID h)
                                 (SequenceNumber h) ebis);
      match proc with
      | None => refuse CauseRequestRejected
      | Some proc =>
          failure ← relay_command h cmd l ebis;
          match failure with
          | Some cause => refuse cause
          | None => relay_groups a h cmd groups
          end ;;
          finishProcedure l proc
      end
  end.

Definition handleDeleteBearerCommand (a : UDPAddr) (h : Header) (raw : bytes) : P unit :=
  m ← gets mgr;
  let fallback := mmePeerTEIDForLocalS11 (TEID h) m in
  match ParseDeleteBearerCommand raw with
  | Err _ => replyDeleteBearerFailureIndication a h fallback CauseInvalidMessageFormat []
  | Ok cmd =>
      let '(ebis, failedBCs) := deleteBearerCommandEBIs (DBCmd_BearerContexts cmd) in
      match ebis with
      | [] => replyDeleteBearerFailureIndication a h fallback CauseMandatoryIEMissing failedBCs
      | _ =>
          match owner_groups m (TEID h) ebis 0 ∅ with
          | Err (peer, cause) => replyDeleteBearerFailureIndication a h peer cause failedBCs
          | Ok groups =>
              rank ← on_io (on_env env_order);
              relay_groups a h cmd
                (omap (fun id => groups !! id) (ranged rank (elements (dom groups))))
          end
      end
  end.

Definition handleS5CDeleteBearerFailureIndication (h : Header) (raw : bytes) : P unit :=
  match ParseDeleteBearerFailureIndication raw with
  | Err _ => mret tt
  | Ok ind =>
      found ← gets (fun w => SessionManager.FindByS5CTEID (TEID h) (mgr w));
      match found with
      | None => mret tt
      | Some l =>
          s ← session l;
          clearDeleteBearerCommandPending s (bearerContextEBIs (DBFail_BearerContexts ind)) ;;
          let mme := SessionData.MMEControlFTEID s in
          if negb (IsValid (SessionData.ft_IPv4 mme)) then mret tt
          else
            ip4 ← unwrap (As4 (SessionData.ft_IPv4 mme));
            causeIE ← unwrap (DBFail_Cause ind);
            seq ← on_io (AllocSeq SgwcIo.S11);
            reply_checked (mkUDPAddr ip4 2123)
              (MarshalDeleteBearerFailureIndication (SessionData.ft_TEID mme) seq
                 (causeIE :: DBFail_BearerContexts ind))
      end
  end.

(** ** Messages of the gateway *)

Definition HandleS5CInbound (pgwAddr : UDPAddr) (h : Header) (raw : bytes) : P unit :=
  match Parse raw with
  | Ok (_, ies) => observeGTPPeer PeerHealth.RolePGW pgwAddr h ies
  | Err _ => mret tt
  end ;;
  if MessageType h =? MsgTypeCreateBearerRequest then handleCreateBearer pgwAddr h raw
  else if MessageType h =? MsgTypeUpdateBearerRequest then handleUpdateBearer pgwAddr h raw
  else if MessageType h =? MsgTypeDeleteBearerRequest then handleDeleteBearer pgwAddr h raw
  else if MessageType h =? MsgTypeDeleteBearerFailureIndication
  then handleS5CDeleteBearerFailureIndication h raw
  else mret tt.
End Requests.
