(* ===== verification/S11Ddn.v ===== *)
(** * Downlink data notifications and dispatch ([internal/sgwc/s11/handler.go])

    The messages that wake an idle subscriber after its MME was lost, what the MME answers
    to them, and the dispatch of the MME's messages to their handlers. *)

From S2P Require Import Prelude GoLib Effects Gtpv2Ie Gtpv2Message Gtpv2Procedures SgwcIo.
From S2P Require Bearer Collision SessionData Session SessionManager S5c PfcpClient.
From S2P Require PeerHealth DdnControl.
From S2P Require Import S11 S11Relay S11Create S11Session S11Bearer.
#[local] Open Scope string_scope.
#[local] Open Scope list_scope.
#[local] Open Scope Z_scope.

Inductive DdnError :=
| NoMMEFTEID | NoDefaultBearer (ebi : Z) | DdnMarshal (e : MsgError) | Cancelled | SendFailed.

Definition newARPFromBearer (arp : Bearer.ARP) : IE :=
  let pci := if Bearer.PreemptionCapability arp then 1 else 0 in
  let pvi := if Bearer.PreemptionVulnerability arp then 1 else 0 in
  mkIE TypeARP 0 [Z.lor (Z.lor (u8 (Z.shiftl (Z.land pci 1) 6))
                         (u8 (Z.shiftl (Z.land (Bearer.PriorityLevel arp) 0x0F) 2))) (Z.land pvi 1)].

Definition stop_paging_after_ack (cfg : option Config) (st : SessionData.MMERestorationStatus) (cause : Z)
    : bool :=
  match cfg with
  | None => false
  | Some c =>
      StopPagingEnabled c && StopPagingOnDDNAck c && (cause =? CauseRequestAccepted)
      && SessionData.mr_RestorationPending st && SessionData.mr_DDNTriggered st
      && negb (SessionData.mr_StopPagingSent st) && negb (SessionData.mr_UserPlaneRestored st)
  end.

Definition ddnLowPriorityThrottleDuration (cfg : option Config) (throttling : IE) : duration :=
  match IE_Value throttling with
  | v :: _ =>
      if negb (v =? 0) then v * Second
      else match cfg with
           | Some c => if 0 <? LowPriorityThrottleSeconds c then seconds (LowPriorityThrottleSeconds c) else 0
           | None => 0
           end
  | [] => match cfg with
          | Some c => if 0 <? LowPriorityThrottleSeconds c then seconds (LowPriorityThrottleSeconds c) else 0
          | None => 0
          end
  end.

Section Notifications.
Context {E : Type} `{Environment E}.
Notation P A := (M (World E) A).

(** Send a message of its own to the session's MME; [live] tells whether the caller's
    context is still alive. *)
Definition send_to_mme (live : bool) (mme : SessionData.FTEID) (raw : result MsgError bytes)
    : P (result DdnError unit) :=
  match raw with
  | Err e => mret (Err (DdnMarshal e))
  | Ok b =>
      ip4 ← unwrap (As4 (SessionData.ft_IPv4 mme));
      if negb live then mret (Err Cancelled)
      else
        sent ← on_io (Reply SgwcIo.S11 (mkUDPAddr ip4 PeerHealth.GTPControlPort) b);
        mret (if sent : bool then Ok tt else Err SendFailed)
  end.
Definition mme_known (mme : SessionData.FTEID) : bool :=
  negb (SessionData.ft_TEID mme =? 0) && IsValid (SessionData.ft_IPv4 mme).

(** The sequence number of the notification. *)
Definition SendDownlinkDataNotification (live : bool) (l : loc) : P (result DdnError Z) :=
  s ← session l;
  let mme := SessionData.MMEControlFTEID s in
  if negb (mme_known mme) then mret (Err NoMMEFTEID)
  else
    match Session.GetBearer (SessionData.DefaultBearerID s) s with
    | None => mret (Err (NoDefaultBearer (SessionData.DefaultBearerID s)))
    | Some b =>
        h ← get_h;
        seq ← on_io (AllocSeq SgwcIo.S11);
        sender ← unwrap (NewFTEID 0 IFTypeS11S4SGW (SessionData.ft_TEID (SessionData.SGWS11FTEID s)) (localIP h));
        let! _ := send_to_mme live mme
          (MarshalDownlinkDataNotification (SessionData.ft_TEID mme) seq
             [NewIMSI (SessionData.IMSI s); NewEBI (SessionData.DefaultBearerID s);
              newARPFromBearer (Bearer.BearerARP b); sender]) in
        mret (Ok seq)
    end.

Definition SendStopPagingIndication (live : bool) (l : loc) : P (result DdnError Z) :=
  s ← session l;
  let mme := SessionData.MMEControlFTEID s in
  if negb (mme_known mme) then mret (Err NoMMEFTEID)
  else
    seq ← on_io (AllocSeq SgwcIo.S11);
    let! _ := send_to_mme live mme
      (MarshalStopPagingIndication (SessionData.ft_TEID mme) seq [NewIMSI (SessionData.IMSI s)]) in
    t ← now;
    on_sess l (fun t' => Session.MarkMMERestorationStopPagingSent t' seq t) ;;
    mret (Ok seq).

(** ** The MME's answers *)

Definition findDDNRestorationSession (a : UDPAddr) (h : Header) (imsiIE : option IE) : P (option loc) :=
  order ← sessions_order None;
  m ← gets mgr;
  let by_ddn t := SessionManager.FindMMERestorationByDDN order (UDPAddr_String a) t (SequenceNumber h) m in
  mret match by_ddn (TEID h) with
       | Some l => Some l
       | None =>
           match (if TEID h =? 0 then None else by_ddn 0) with
           | Some l => Some l
           | None =>
               i ← imsiIE;
               match Gtpv2Ie.IMSI i with
               | Ok imsi => SessionManager.FindMMERestorationByIMSI order (UDPAddr_String a) imsi m
               | Err _ => None
               end
           end
       end.

Definition markDDNLowPriorityThrottle (a : UDPAddr) (throttling : option IE) (at_ : time) : P unit :=
  h ← get_h;
  match ddnCtl h, throttling with
  | Some ctl, Some i =>
      let d := ddnLowPriorityThrottleDuration (cfg h) i in
      let mme := SessionManager.CanonicalGTPCEndpoint (UDPAddr_String a) in
      if (d <=? 0) || String.eqb mme "" then mret tt
      else
        t ← now;
        on_h (fun h => (tt, h <| ddnCtl := Some (DdnControl.MarkMMELowPriorityThrottled t mme
                                "ddn-ack-low-priority-throttling" (Add at_ d) at_ ctl) |>))
  | _, _ => mret tt
  end.

Definition maybeSendStopPagingAfterDDNAck (l : loc) (cause : Z) : P unit :=
  h ← get_h;
  s ← session l;
  if stop_paging_after_ack (cfg h) (SessionData.MMERestoration s) cause
  then SendStopPagingIndication true l ;; mret tt
  else mret tt.

Definition handleDownlinkDataNotificationAck (a : UDPAddr) (raw : bytes) : P unit :=
  match ParseDownlinkDataNotificationAck raw with
  | Err _ => mret tt
  | Ok ack =>
      causeIE ← unwrap (DDNAck_Cause ack);
      let cause := dropped 0 (CauseValue causeIE) in
      found ← findDDNRestorationSession a (DDNAck_Header ack) (DDNAck_IMSI ack);
      match found with
      | None => mret tt
      | Some l =>
          t ← now;
          on_sess l (fun t' => Session.MarkMMERestorationDDNAck t' cause t) ;;
          markDDNLowPriorityThrottle a (DDNAck_LowPriorityTrafficThrottling ack) t ;;
          maybeSendStopPagingAfterDDNAck l cause
      end
  end.

Definition handleDownlinkDataNotificationFailureIndication (a : UDPAddr) (raw : bytes) : P unit :=
  match ParseDownlinkDataNotificationFailureIndication raw with
  | Err _ => mret tt
  | Ok ind =>
      causeIE ← unwrap (DDNFail_Cause ind);
      let cause := dropped 0 (CauseValue causeIE) in
      found ← findDDNRestorationSession a (DDNFail_Header ind) (DDNFail_IMSI ind);
      match found with
      | None => mret tt
      | Some l =>
          t ← now;
          on_sess l (fun t' => Session.MarkMMERestorationDDNFailureIndication t' cause t)
      end
  end.

(** ** Dispatch *)

(** [handle]: [h] is the header the transport read, [raw] the datagram.  A late bearer
    response is only logged. *)
Definition handle (a : UDPAddr) (h : Header) (raw : bytes) : P unit :=
  match Parse raw with
  | Err _ => sendCause a h 0 CauseInvalidMessageFormat
  | Ok (_, ies) =>
      let observed (m : P unit) := observeGTPPeer PeerHealth.RoleMME a h ies ;; m in
      let typ := MessageType h in
      if typ =? MsgTypeEchoRequest then handleEchoRequest a h ies
      else if typ =? MsgTypeCreateSessionRequest then observed (handleCreateSessionRequest a h ies)
      else if typ =? MsgTypeModifyBearerRequest then observed (handleModifyBearerRequest a h ies)
      else if typ =? MsgTypeCreateBearerResponse then observed (handlePiggybackCreateBearerResponse a h raw)
      else if typ =? MsgTypeDeleteSessionRequest then observed (handleDeleteSessionRequest a h ies)
      else if typ =? MsgTypeReleaseAccessBearersRequest
      then observed (handleReleaseAccessBearersRequest a h ies)
      else if typ =? MsgTypeDeleteBearerCommand then observed (handleDeleteBearerCommand a h raw)
      else if typ =? MsgTypeDownlinkDataNotificationAck
      then observed (handleDownlinkDataNotificationAck a raw)
      else if typ =? MsgTypeDownlinkDataNotificationFailureIndication
      then observed (handleDownlinkDataNotificationFailureIndication a raw)
      else if (typ =? MsgTypeUpdateBearerResponse) || (typ =? MsgTypeDeleteBearerResponse)
      then observed (mret tt)
      else mret tt
  end.
End Notifications.
