(* ===== verification/S11Frames.v ===== *)
(** * What the S11 handlers leave alone

    For every step of the handlers: it sends no reply to the MME ([quiet]), or it does not
    touch the session manager.  The handlers' theorems put these together. *)

From S2P Require Import Prelude GoLib Effects Gtpv2Ie Gtpv2Message Gtpv2Procedures SgwcIo.
From S2P Require Bearer Collision SessionData Session SessionManager S5c PfcpClient PfcpIe S11Pfcp.
From S2P Require CreateBearerTxn.
From S2P Require Import S11 S11Relay S11Create S11Session S11Bearer S11Ddn.
#[local] Open Scope list_scope.
#[local] Open Scope Z_scope.

(** The datagrams sent to an MME as replies, in order. *)
Definition replied (a : action) : option (UDPAddr * bytes) :=
  match a with Replied SgwcIo.S11 a raw => Some (a, raw) | _ => None end.
Definition replies (t : list action) : list (UDPAddr * bytes) := omap replied t.

Section Frames.
Context {E : Type} `{Environment E}.
Notation W := (World E).

Definition io_replies (i : IO E) : list (UDPAddr * bytes) := replies (trace i).
Definition s11_replies (w : W) : list (UDPAddr * bytes) := io_replies (io w).
Notation quiet_io m := (keeps (same io_replies) m).
Notation quiet m := (keeps (same s11_replies) m).

Lemma quiet_record l : Forall (fun a => replied a = None) l -> quiet_io (record l).
Proof.
  intros Hl. apply keeps_modify. intros i. unfold same, io_replies, replies. cbn.
  rewrite omap_app. enough (omap replied l = []) as -> by (by rewrite app_nil_r).
  induction Hl as [|a l Ha Hl IH]; [done|]. cbn. by rewrite Ha.
Qed.
Lemma quiet_env {A} (f : E -> A * E) : quiet_io (on_env f).
Proof. apply keeps_act. intros i. by destruct (f (env i)). Qed.
Lemma quiet_Now : quiet_io Now.
Proof. apply quiet_env. Qed.
Lemma quiet_AllocSeq i : quiet_io (AllocSeq i).
Proof. apply quiet_env. Qed.
Lemma quiet_SendPiggy i a raw : quiet_io (SendWithPiggybacks i a raw).
Proof. apply keeps_bind; [apply _|by apply quiet_record; repeat constructor|]. intros _. apply quiet_env. Qed.
Lemma quiet_Send i a raw : quiet_io (Send i a raw).
Proof. unfold Send. apply keeps_bind; [apply _|apply quiet_SendPiggy|]. intros. apply keeps_ret, _. Qed.
Lemma quiet_Reply_pgw a raw : quiet_io (Reply SgwcIo.S5C a raw).
Proof. apply keeps_bind; [apply _|by apply quiet_record; repeat constructor|]. intros _. apply quiet_env. Qed.
Lemma pfcp_send_replies a raw i : io_replies (pfcp_send a raw i).2 = io_replies i.
Proof.
  unfold pfcp_send. destruct (env_pfcp a raw (env i)). unfold io_replies, replies. cbn.
  rewrite omap_app. by rewrite app_nil_r.
Qed.

(** A reply that does go to the MME. *)
Lemma Reply_replies a raw (w : W) ok w' :
  on_io (Reply SgwcIo.S11 a raw) w = Some (ok, w') -> s11_replies w' = s11_replies w ++ [(a, raw)].
Proof.
  unfold on_io, zoom, Reply, mbind, M_bind, record, on_env, modify, act. cbn.
  destruct (env_reply _ _ _ _) as [b e]. intros Er. injection Er as <- <-.
  unfold s11_replies, io_replies, replies. cbn. by rewrite omap_app.
Qed.
(** ** The S5/S8 client *)

Definition s5c_replies (s : S5c.S (E := E)) := io_replies s.2.2.
Notation quiet_s5c m := (keeps (same s5c_replies) m).

Lemma quiet_s5c_io {A} (m : M (IO E) A) : quiet_io m -> quiet_s5c (S5c.on_io m).
Proof. intros Hm. eapply keeps_zoom; [exact Hm|]. by intros. Qed.
Lemma quiet_s5c_client {A} (f : S5c.Client -> A * S5c.Client) : quiet_s5c (S5c.on_client f).
Proof. apply keeps_act. intros s. by destruct (f s.1). Qed.
#[local] Hint Resolve quiet_record quiet_env quiet_Now quiet_AllocSeq quiet_SendPiggy quiet_Send
  quiet_Reply_pgw quiet_s5c_io quiet_s5c_client : keeps.

Lemma quiet_observe role a h ies :
  keeps (same (fun s : PeerHealth.Table * IO E => io_replies s.2)) (observe role a h ies).
Proof.
  unfold observe. apply keeps_bind; [apply _|eapply keeps_zoom; [apply quiet_Now|by intros]|intros t].
  apply keeps_bind; [apply _| |intros calls].
  { intros s c s' Es. unfold zoom in Es. destruct (act _ s.1) as [[b u]|]; [|done].
    by injection Es as <- <-. }
  eapply keeps_zoom; [apply quiet_record|by intros].
  apply Forall_fmap, Forall_forall. by intros.
Qed.
Lemma quiet_observePeer a h ies : quiet_s5c (S5c.observePeer a h ies).
Proof.
  unfold S5c.observePeer. apply keeps_bind; [apply _|apply keeps_gets, _|]. intros [].
  - eapply keeps_zoom; [apply quiet_observe|by intros].
  - apply keeps_ret, _.
Qed.
Lemma quiet_s5c_recovery a : quiet_s5c (S5c.maybeRecoveryIE a).
Proof. apply quiet_s5c_client. Qed.
#[local] Hint Resolve quiet_observePeer quiet_s5c_recovery : keeps.
Lemma quiet_exchange a want raw : quiet_s5c (S5c.exchange a want raw).
Proof. unfold S5c.exchange. keeps_tac. Qed.
#[local] Hint Resolve quiet_exchange : keeps.
Lemma quiet_FreeTEID t : quiet_s5c (S5c.FreeTEID t).
Proof. apply quiet_s5c_client. Qed.
#[local] Hint Resolve quiet_FreeTEID : keeps.
Lemma quiet_CreateSession a req t f : quiet_s5c (S5c.CreateSession a req t f).
Proof. unfold S5c.CreateSession. keeps_tac. Qed.
Lemma quiet_deleteSession s req : quiet_s5c (S5c.deleteSession s req).
Proof. unfold S5c.deleteSession. keeps_tac. Qed.
Lemma quiet_ModifyBearerFromS11 s req : quiet_s5c (S5c.ModifyBearerFromS11 s req).
Proof. unfold S5c.ModifyBearerFromS11. keeps_tac. Qed.
Lemma quiet_AllocTEID : quiet_s5c S5c.AllocTEID.
Proof. unfold S5c.AllocTEID. keeps_tac. Qed.
Lemma quiet_ReplyToPGW a raw : quiet_s5c (S5c.ReplyToPGW a raw).
Proof. unfold S5c.ReplyToPGW. keeps_tac. Qed.
Lemma quiet_Dispatch a fs : quiet_s5c (S5c.DispatchPiggybacks a fs).
Proof. apply quiet_s5c_io, quiet_record. by repeat constructor. Qed.

(** ** The PFCP client: every procedure sends at most one request *)

Definition pfcp_quiet {R} (f : PfcpClient.Client -> IO E -> R * PfcpClient.Client * IO E) : Prop :=
  forall c i, io_replies (f c i).2 = io_replies i.

Lemma transaction_quiet {R} p typ seid ies (parse : bytes -> result PfcpMessage.MessageError R) cause :
  pfcp_quiet (PfcpClient.transaction pfcp_send p typ seid ies parse cause).
Proof.
  intros c i. unfold PfcpClient.transaction. destruct (PfcpClient.AllocSeq c) as [seq c1].
  pose proof (pfcp_send_replies (PfcpClient.addr p) (PfcpClient.session_request typ seid seq ies) i) as Hs.
  by destruct (pfcp_send _ _ i) as [r j].
Qed.
Lemma on_peer_quiet {R} lookup
    (run : PfcpClient.peer -> PfcpClient.Client -> IO E -> result PfcpClient.ClientError R * PfcpClient.Client * IO E) i :
  (forall p, pfcp_quiet (run p)) -> io_replies (PfcpClient.on_peer lookup run i).2 = io_replies i.
Proof. intros Hr. unfold PfcpClient.on_peer. destruct lookup as [[p|e] c]; [apply Hr|done]. Qed.
Lemma ignore_io {R} (r : result PfcpClient.ClientError R * PfcpClient.Client * IO E) :
  (PfcpClient.ignore r).2 = r.2.
Proof. by destruct r as [[]]. Qed.
Lemma modification_quiet peer up ies : pfcp_quiet (PfcpClient.modification pfcp_send peer up ies).
Proof. intros c i. apply on_peer_quiet. intros p. apply transaction_quiet. Qed.
Lemma ModifySessionOnPeer_quiet peer up us : pfcp_quiet (PfcpClient.ModifySessionOnPeer pfcp_send peer up us).
Proof.
  intros c i. unfold PfcpClient.ModifySessionOnPeer. destruct (PfcpClient.updates_ies us).
  - rewrite ignore_io. apply modification_quiet.
  - by destruct (PfcpClient.selectPeerByAddr peer c) as [[]].
Qed.
Lemma AddBearerRules_quiet peer up ps fs : pfcp_quiet (PfcpClient.AddBearerRulesOnPeer pfcp_send peer up ps fs).
Proof.
  intros c i. unfold PfcpClient.AddBearerRulesOnPeer.
  pose proof (modification_quiet peer up (ps ++ fs) c i) as Hm.
  by destruct (PfcpClient.modification _ _ _ _ c i) as [[r c1] j].
Qed.
Lemma RemoveBearerRules_quiet peer up ps fs : pfcp_quiet (PfcpClient.RemoveBearerRulesOnPeer pfcp_send peer up ps fs).
Proof. intros c i. unfold PfcpClient.RemoveBearerRulesOnPeer. rewrite ignore_io. apply modification_quiet. Qed.
Lemma DeleteSessionOnPeer_quiet peer up : pfcp_quiet (PfcpClient.DeleteSessionOnPeer pfcp_send peer up).
Proof.
  intros c i. unfold PfcpClient.DeleteSessionOnPeer. rewrite ignore_io.
  apply on_peer_quiet. intros p. apply transaction_quiet.
Qed.
Lemma EstablishSession_quiet params : pfcp_quiet (PfcpClient.EstablishSession pfcp_send params).
Proof.
  intros c i. unfold PfcpClient.EstablishSession. apply on_peer_quiet. intros p c1 j.
  destruct (PfcpIe.NewFSEID _ _); [|done].
  match goal with |- context [PfcpClient.transaction ?a ?b ?d ?e ?f ?g ?k c1 j] =>
    pose proof (transaction_quiet b d e f g k c1 j) as Ht;
    destruct (PfcpClient.transaction a b d e f g k c1 j) as [[r c2] k2] end.
  done.
Qed.
Lemma provisional_quiet ip s : pfcp_quiet (S11Pfcp.establishProvisionalPFCPSession pfcp_send ip s).
Proof.
  intros c i. unfold S11Pfcp.establishProvisionalPFCPSession. destruct (PfcpClient.AllocCPSEID c) as [cp c1].
  match goal with |- context [PfcpClient.EstablishSession ?a ?b c1 i] =>
    pose proof (EstablishSession_quiet b c1 i) as He; destruct (PfcpClient.EstablishSession a b c1 i) as [[r c2] k2] end.
  done.
Qed.
Lemma uplink_quiet peer up f : pfcp_quiet (S11Pfcp.modifyPFCPUplinkFAR pfcp_send peer up f).
Proof. apply ModifySessionOnPeer_quiet. Qed.

(** ** Steps of the handlers *)

Lemma quiet_on_io {A} (m : M (IO E) A) : quiet_io m -> quiet (on_io m).
Proof. intros Hm. eapply keeps_zoom; [exact Hm|]. by intros. Qed.
Lemma quiet_on_h {A} (f : Handler -> A * Handler) : quiet (on_h f).
Proof. apply keeps_act. intros w. by destruct (f (hs w)). Qed.
Lemma quiet_on_cb {A} (f : CreateBearerTxn.Tables -> A * CreateBearerTxn.Tables) : quiet (on_cb f).
Proof. apply quiet_on_h. Qed.
Lemma quiet_get_h : quiet get_h.
Proof. apply keeps_gets, _. Qed.
Lemma quiet_on_mgr {A} (f : SessionManager.Manager -> A * (SessionManager.Manager * list SessionData.sink_call)) :
  quiet (on_mgr f).
Proof.
  unfold on_mgr. apply keeps_bind; [apply _| |intros calls].
  { apply keeps_act. intros w. by destruct (f (mgr w)) as [a [m calls]]. }
  apply keeps_bind; [apply _|apply quiet_on_io, quiet_record|intros; apply keeps_ret, _].
  apply Forall_fmap, Forall_forall. by intros.
Qed.
Lemma quiet_mgr_do f : quiet (mgr_do f).
Proof. apply quiet_on_mgr. Qed.
Lemma quiet_on_s5c {A} (m : M S5c.S A) : quiet_s5c m -> quiet (on_s5c m).
Proof. intros Hm. eapply keeps_zoom; [exact Hm|]. by intros. Qed.
Lemma quiet_on_pfcp {R} (f : PfcpClient.Client -> IO E -> result PfcpClient.ClientError R * PfcpClient.Client * IO E) :
  pfcp_quiet f -> quiet (on_pfcp f).
Proof.
  intros Hf. unfold on_pfcp. apply keeps_bind; [apply _| |intros []; keeps_tac].
  apply keeps_act. intros w. specialize (Hf (pfcp w) (io w)). by destruct (f (pfcp w) (io w)) as [[r c] i].
Qed.
Lemma quiet_now : quiet now.
Proof. apply quiet_on_io, quiet_Now. Qed.
#[local] Hint Resolve quiet_on_io quiet_on_h quiet_on_cb quiet_get_h quiet_on_mgr quiet_mgr_do
  quiet_on_s5c quiet_on_pfcp quiet_now quiet_CreateSession quiet_deleteSession
  quiet_ModifyBearerFromS11 quiet_AllocTEID quiet_ReplyToPGW quiet_Dispatch
  ModifySessionOnPeer_quiet AddBearerRules_quiet RemoveBearerRules_quiet DeleteSessionOnPeer_quiet
  provisional_quiet uplink_quiet : keeps.

Ltac quiet_by d := unfold d; keeps_tac.
Lemma quiet_session l : quiet (session l).
Proof. quiet_by @session. Qed.
Lemma quiet_on_sess l f : quiet (on_sess l f).
Proof. quiet_by @on_sess. Qed.
#[local] Hint Resolve quiet_session quiet_on_sess : keeps.
Lemma quiet_edit_sess {A} l (f : SGWSession -> A * SGWSession) : quiet (edit_sess l f).
Proof. quiet_by @edit_sess. Qed.
Lemma quiet_sessions_order gone : quiet (sessions_order gone).
Proof. quiet_by @sessions_order. Qed.
Lemma quiet_keys_order ks : quiet (keys_order ks).
Proof. quiet_by @keys_order. Qed.
#[local] Hint Resolve quiet_edit_sess quiet_sessions_order quiet_keys_order : keeps.
Lemma quiet_BearerList l : quiet (BearerList l).
Proof. quiet_by @BearerList. Qed.
Lemma quiet_SetBearer l b : quiet (SetBearer l b).
Proof. quiet_by @SetBearer. Qed.
Lemma quiet_Delete id : quiet (Delete id).
Proof. quiet_by @Delete. Qed.
Lemma quiet_observeGTPPeer role a h ies : quiet (observeGTPPeer role a h ies).
Proof.
  unfold observeGTPPeer. apply keeps_bind; [apply _|apply quiet_get_h|intros hd].
  destruct (peerHealth hd); [|apply keeps_ret, _]. eapply keeps_zoom; [apply quiet_observe|by intros].
Qed.
Lemma quiet_maybeRecoveryIE a : quiet (maybeRecoveryIE a).
Proof. quiet_by @maybeRecoveryIE. Qed.
Lemma quiet_allow req : quiet (allowPeerProcedure req).
Proof. quiet_by @allowPeerProcedure. Qed.
Lemma quiet_on_tracker {A} l (f : option Collision.Tracker -> A * option Collision.Tracker) : quiet (on_tracker l f).
Proof. quiet_by @on_tracker. Qed.
#[local] Hint Resolve quiet_BearerList quiet_SetBearer quiet_Delete quiet_observeGTPPeer
  quiet_maybeRecoveryIE quiet_allow quiet_on_tracker : keeps.
Lemma quiet_finish l p : quiet (finishProcedure l p).
Proof. quiet_by @finishProcedure. Qed.
#[local] Hint Resolve quiet_finish : keeps.
Lemma quiet_begin l req : quiet (beginProcedure l req).
Proof. quiet_by @beginProcedure. Qed.
#[local] Hint Resolve quiet_begin : keeps.

(** *** Create Bearer: nothing is replied to the MME *)

Lemma quiet_guard_enabled : quiet guard_enabled.
Proof. quiet_by @guard_enabled. Qed.
Lemma quiet_completeTxn k r c : quiet (completeTxn k r c).
Proof. quiet_by @completeTxn. Qed.
Lemma quiet_txn_of l : quiet (txn_of l).
Proof. quiet_by @txn_of. Qed.
#[local] Hint Resolve quiet_guard_enabled quiet_completeTxn quiet_txn_of : keeps.
Lemma quiet_rememberFailure k c d : quiet (rememberFailure k c d).
Proof. quiet_by @rememberFailure. Qed.
Lemma quiet_replyBearerError a h t p c : quiet (replyBearerError a h t p c).
Proof. quiet_by @replyBearerError. Qed.
Lemma quiet_replyTxnError k a h r p c : quiet (replyCreateBearerTxnError k a h r p c).
Proof. quiet_by @replyCreateBearerTxnError. Qed.
Lemma quiet_retryGuard a h r p f : quiet (replyCreateBearerRetryGuardFailure a h r p f).
Proof. quiet_by @replyCreateBearerRetryGuardFailure. Qed.
Lemma quiet_remove_rules l ps fs : quiet (remove_rules l ps fs).
Proof. quiet_by @remove_rules. Qed.
#[local] Hint Resolve quiet_rememberFailure quiet_replyBearerError quiet_replyTxnError
  quiet_retryGuard quiet_remove_rules : keeps.
Lemma quiet_mark k p : quiet (mark_rolled_back k p).
Proof. quiet_by @mark_rolled_back. Qed.
#[local] Hint Resolve quiet_mark : keeps.
Lemma quiet_not_rolled_back k ps : quiet (not_rolled_back k ps).
Proof. induction ps; cbn [not_rolled_back]; keeps_tac. Qed.
#[local] Hint Resolve quiet_not_rolled_back : keeps.
Lemma quiet_removeAll k l ps : quiet (removeAllCreateBearerTxnProvisioning k l ps).
Proof. quiet_by @removeAllCreateBearerTxnProvisioning. Qed.
Lemma quiet_removeOne k l p : quiet (removeCreateBearerTxnProvisioning k l p).
Proof. unfold removeCreateBearerTxnProvisioning, removeProvisionedBearerRules. keeps_tac. Qed.
Lemma quiet_provision l bcs : quiet (provision_contexts l bcs).
Proof. induction bcs; cbn [provision_contexts]; keeps_tac. Qed.
#[local] Hint Resolve quiet_removeAll quiet_removeOne quiet_provision : keeps.
Lemma quiet_relay_to_mme a h r l lbi k t p : quiet (relay_to_mme a h r l lbi k t p).
Proof. quiet_by @relay_to_mme. Qed.
#[local] Hint Resolve quiet_relay_to_mme : keeps.
Lemma quiet_begin_and_relay a h raw r l lbi fp pk p : quiet (begin_and_relay a h raw r l lbi fp pk p).
Proof. quiet_by @begin_and_relay. Qed.
#[local] Hint Resolve quiet_begin_and_relay : keeps.
Lemma quiet_prepare a h raw : quiet (prepareCreateBearerRelay a h raw).
Proof. quiet_by @prepareCreateBearerRelay. Qed.
Lemma quiet_one_bearer l k f ebi c e m : quiet (one_bearer l k f ebi c e m).
Proof. quiet_by @one_bearer. Qed.
#[local] Hint Resolve quiet_prepare quiet_one_bearer : keeps.
Lemma quiet_bearer_results s l k f ps bcs : forall n acc, quiet (bearer_results s l k f ps n bcs acc).
Proof. induction bcs; cbn [bearer_results]; keeps_tac. Qed.
#[local] Hint Resolve quiet_bearer_results : keeps.
Lemma quiet_answer_gateway pb l t a h r ps raw : quiet (answer_gateway pb l t a h r ps raw).
Proof. quiet_by @answer_gateway. Qed.
Lemma quiet_registerPending a s p : quiet (registerPending a s p).
Proof. quiet_by @registerPending. Qed.
#[local] Hint Resolve quiet_answer_gateway quiet_registerPending : keeps.
Lemma quiet_piggybacked_response a h raw : quiet (handlePiggybackCreateBearerResponse a h raw).
Proof. unfold handlePiggybackCreateBearerResponse, completeCreateBearerFromS11Response. keeps_tac. Qed.
Lemma quiet_handleCreateBearer a h raw : quiet (handleCreateBearer a h raw).
Proof. quiet_by @handleCreateBearer. Qed.

(** *** Create Session up to its response *)

Lemma quiet_clear_failures id : quiet (clear_failures id).
Proof. quiet_by @clear_failures. Qed.
#[local] Hint Resolve quiet_clear_failures : keeps.
Lemma quiet_drop_session l : quiet (drop_session l).
Proof. quiet_by @drop_session. Qed.
Lemma quiet_release_pfcp p u : quiet (release_pfcp p u).
Proof. quiet_by @release_pfcp. Qed.
#[local] Hint Resolve quiet_drop_session quiet_release_pfcp : keeps.
Lemma quiet_release_binding s : quiet (release_binding s).
Proof. quiet_by @release_binding. Qed.
#[local] Hint Resolve quiet_release_binding : keeps.
Lemma quiet_release_evicted o : quiet (release_evicted o).
Proof. unfold release_evicted, S5c.DeleteSession. keeps_tac. Qed.
Lemma quiet_create_session req h : quiet (create_session req h).
Proof. quiet_by @create_session. Qed.
Lemma quiet_store_answer l a e r : quiet (store_answer l a e r).
Proof. quiet_by @store_answer. Qed.
Lemma quiet_open_uplink p r : quiet (open_uplink p r).
Proof. quiet_by @open_uplink. Qed.
Lemma quiet_activate l e p : quiet (activate l e p).
Proof. quiet_by @activate. Qed.
Lemma quiet_build a e s p paa ambr r q : quiet (buildS11CreateSessionResponseIEs a e s p paa ambr r q).
Proof. quiet_by @buildS11CreateSessionResponseIEs. Qed.
#[local] Hint Resolve quiet_release_evicted quiet_create_session quiet_store_answer quiet_open_uplink
  quiet_activate quiet_build : keeps.
Lemma quiet_s11_response a req e l r p : quiet (s11_response a req e l r p).
Proof. quiet_by @s11_response. Qed.
Lemma quiet_piggyback_frames a pa seq fs : forall resp d rem, quiet (piggyback_frames a pa seq fs resp d rem).
Proof. induction fs; cbn [piggyback_frames]; keeps_tac. Qed.

(** *** Modify Bearer, Release Access Bearers and Delete Session up to their responses *)

Lemma quiet_modify_session s us : quiet (modify_session s us).
Proof. quiet_by @modify_session. Qed.
#[local] Hint Resolve quiet_modify_session : keeps.
Lemma quiet_redirect l b ids e : quiet (redirect l b ids e).
Proof. quiet_by @redirect. Qed.
Lemma quiet_locs_order ls : quiet (locs_order ls).
Proof. quiet_by @locs_order. Qed.
Lemma quiet_decode_reports a h ies : quiet (decode_reports a h ies).
Proof. induction ies; cbn [decode_reports]; keeps_tac. Qed.
#[local] Hint Resolve quiet_redirect quiet_locs_order quiet_decode_reports : keeps.
Lemma quiet_targets t es d b : quiet (secondaryRATReportTargetSessions t es d b).
Proof. quiet_by @secondaryRATReportTargetSessions. Qed.
#[local] Hint Resolve quiet_targets : keeps.
Lemma quiet_capture a h req d : quiet (captureSecondaryRATUsageReports a h req d).
Proof. quiet_by @captureSecondaryRATUsageReports. Qed.
Lemma quiet_restore_sibling l r e b : quiet (restore_sibling l r e b).
Proof. quiet_by @restore_sibling. Qed.
#[local] Hint Resolve quiet_capture quiet_restore_sibling : keeps.
Lemma quiet_restore_siblings l r e : quiet (restoreSiblingBearersAfterModifyBearer l r e).
Proof. quiet_by @restoreSiblingBearersAfterModifyBearer. Qed.
#[local] Hint Resolve quiet_restore_siblings : keeps.
Lemma quiet_modify_bearer l r ebi b e : quiet (modify_bearer l r ebi b e).
Proof. quiet_by @modify_bearer. Qed.
#[local] Hint Resolve quiet_modify_bearer : keeps.
Lemma quiet_modify_context t r bc : quiet (modify_context t r bc).
Proof. quiet_by @modify_context. Qed.
#[local] Hint Resolve quiet_modify_context : keeps.
Lemma quiet_modify_contexts t r bcs : quiet (modify_contexts t r bcs).
Proof. induction bcs; cbn [modify_contexts]; keeps_tac. Qed.
Lemma quiet_forward ts h req es : forall acc, quiet (forward_reports ts h req es acc).
Proof. induction ts; cbn [forward_reports]; keeps_tac. Qed.
Lemma quiet_releaseUpdates l : quiet (releaseAccessBearerFARUpdates l).
Proof. quiet_by @releaseAccessBearerFARUpdates. Qed.
#[local] Hint Resolve quiet_modify_contexts quiet_forward quiet_releaseUpdates : keeps.
Lemma quiet_drop_downlinks ls : quiet (drop_downlinks ls).
Proof. induction ls; cbn [drop_downlinks]; keeps_tac. Qed.
Lemma quiet_delete_at_gateway l h req es t : quiet (delete_at_gateway l h req es t).
Proof. unfold delete_at_gateway, S5c.DeleteSessionFromS11. keeps_tac. Qed.
End Frames.

#[export] Hint Resolve
  quiet_record quiet_env quiet_Now quiet_AllocSeq quiet_SendPiggy quiet_Send quiet_Reply_pgw
  quiet_s5c_io quiet_s5c_client quiet_observe quiet_observePeer quiet_s5c_recovery
  quiet_exchange quiet_FreeTEID quiet_CreateSession quiet_deleteSession
  quiet_ModifyBearerFromS11 quiet_AllocTEID quiet_ReplyToPGW quiet_Dispatch quiet_on_io
  quiet_on_h quiet_on_cb quiet_get_h quiet_on_mgr quiet_mgr_do quiet_on_s5c quiet_on_pfcp
  quiet_now quiet_session quiet_on_sess quiet_edit_sess quiet_sessions_order quiet_keys_order
  quiet_BearerList quiet_SetBearer quiet_Delete quiet_observeGTPPeer quiet_maybeRecoveryIE
  quiet_allow quiet_on_tracker quiet_finish quiet_begin quiet_guard_enabled quiet_completeTxn
  quiet_txn_of quiet_rememberFailure quiet_replyBearerError quiet_replyTxnError
  quiet_retryGuard quiet_remove_rules quiet_mark quiet_not_rolled_back quiet_removeAll
  quiet_removeOne quiet_provision quiet_relay_to_mme quiet_begin_and_relay quiet_prepare
  quiet_one_bearer quiet_bearer_results quiet_answer_gateway quiet_registerPending
  quiet_piggybacked_response quiet_handleCreateBearer quiet_clear_failures quiet_drop_session
  quiet_release_pfcp quiet_release_binding quiet_release_evicted quiet_create_session
  quiet_store_answer quiet_open_uplink quiet_activate quiet_build quiet_s11_response
  quiet_piggyback_frames quiet_modify_session quiet_redirect quiet_locs_order
  quiet_decode_reports quiet_targets quiet_capture quiet_restore_sibling
  quiet_restore_siblings quiet_modify_bearer quiet_modify_context quiet_modify_contexts
  quiet_forward quiet_releaseUpdates quiet_drop_downlinks quiet_delete_at_gateway
  ModifySessionOnPeer_quiet AddBearerRules_quiet RemoveBearerRules_quiet DeleteSessionOnPeer_quiet
  provisional_quiet uplink_quiet : keeps.
