(* ===== verification/S11Example.v ===== *)
(** * A network around the S11 handler

    Concrete surroundings for the handlers' properties: the SGW-U is the server of
    [PfcpServer], which answers each PFCP request as modelled there; the PDN gateway and
    the MME answer from a script; the clock ticks at each reading. *)

From S2P Require Import Prelude GoLib Effects Gtpv2Ie Gtpv2Message Gtpv2Procedures SgwcIo.
From S2P Require Bearer SessionData Session SessionManager S5c PfcpClient PeerHealth.
From S2P Require PfcpServer PfcpServerSpec Sxa Gtpv2Transport CreateBearerTxn.
From S2P Require Import S11 S11Ddn.
#[local] Open Scope string_scope.
#[local] Open Scope list_scope.
#[local] Open Scope Z_scope.

Record network := mkNetwork {
  clock : time; seqs : Z; words : Z; script : list gtp_answer; sgwu : PfcpServer.Server
}.
#[export] Instance eta_network : Eta network := fun n =>
  mkNetwork (clock n) (seqs n) (words n) (script n) (sgwu n).

#[export] Instance network_environment : Environment network := {
  env_now n := (clock n, n <| clock := clock n + Second |>);
  env_seq _ n := (seqs n, n <| seqs := seqs n + 1 |>);
  env_send _ _ _ n := match script n with
                      | [] => (Err (Gtpv2Transport.SendNoResponse 0 0), n)
                      | r :: rs => (r, n <| script := rs |>)
                      end;
  env_reply _ _ _ n := (true, n);
  env_pfcp a raw n := let '(r, s) := Sxa.sgwu PfcpServerSpec.example_env PfcpServerSpec.example_addr a raw (sgwu n)
                      in (r, n <| sgwu := s |>);
  env_random n := (fun _ => Some (be_bytes 4 (words n)), n <| words := words n + 1 |>);
  env_session_id n := (Some (be_bytes 8 (words n)), n <| words := words n + 1 |>);
  env_order n := (fun _ => 0, n);
  env_order_Z n := (fun k => k, n);
  env_resolve _ n := (None, n)
}.

Definition mme : UDPAddr := mkUDPAddr [10; 0; 0; 5] 2123.
Definition enb : option IE := NewFTEID 0 0 0x99 (AddrV4 0x0A000063).
Definition config : Config := mkConfig 3 3 true true true true true true true 0 0 true "" 0.

Definition world (answers : list gtp_answer) : World network :=
  mkWorld (NewWithConn (Some config) (Some 3) (AddrV4 0x0A000001)) SessionManager.NewManager
    (S5c.NewWithConn (AddrV4 0x0A000001) (Some 3)) Sxa.example_client PeerHealth.NewTable
    (mkIO (mkNetwork Second 100 33 answers PfcpServerSpec.example_server) []).

Definition bytes_of (r : result MsgError bytes) : bytes := match r with Ok b => b | Err _ => [] end.
Definition opt (o : option IE) : list IE := S5c.opt_list o.

Definition request (typ teid seq : Z) (ies : list IE) : Header * bytes :=
  let h := simple_header true typ teid seq in (h, bytes_of (Marshal h ies)).
Definition create_request : Header * bytes :=
  request MsgTypeCreateSessionRequest 0 7
    ([NewIMSI "001010123456789"; NewRATType 6; NewAPN "internet"; NewPDNType 1; NewSelectionMode 0;
      NewAMBR 1000 1000]
     ++ opt (NewFTEID 0 10 0x55 (AddrV4 0x0A000005)) ++ opt (NewFTEID 1 7 0 (AddrV4 0x0A000007))
     ++ opt (NewPAA 1 (AddrV4 0))
     ++ [NewBearerContext 0 [NewEBI 5; NewBearerQoS 0 9 0 9 0 0 0 0]]).
Definition pgw_answer (typ cause : Z) (ies : list IE) : gtp_answer :=
  Ok (bytes_of (Marshal (simple_header true typ 33 0) (NewCause cause 0 0 0 None :: ies)), []).
Definition pgw_accepts : gtp_answer :=
  pgw_answer MsgTypeCreateSessionResponse CauseRequestAccepted
    (opt (NewFTEID 1 7 0x77 (AddrV4 0x0A000007)) ++ opt (NewPAA 1 (AddrV4 0x64000001))
     ++ [NewBearerContext 0 ([NewEBI 5; NewCause 16 0 0 0 None] ++ opt (NewFTEID 2 5 0x78 (AddrV4 0x0A000008)))]).

Definition exec (hr : Header * bytes) (w : World network) : World network :=
  match handle mme hr.1 hr.2 w with Some (_, w) => w | None => w end.
Definition created : World network := exec create_request (world [pgw_accepts]).

(** The session is deleted again, on the gateway's word. *)
Definition pgw_deletes : gtp_answer := pgw_answer MsgTypeDeleteSessionResponse CauseRequestAccepted [].
Definition delete_request : Header * bytes := request MsgTypeDeleteSessionRequest 33 8 [NewEBI 5].
Definition created_to_delete : World network := exec create_request (world [pgw_accepts; pgw_deletes]).
Definition deleted : World network := exec delete_request created_to_delete.
