(* ===== verification/S11Answers.v ===== *)
(** * One answer per request ([internal/sgwc/s11])

    What the MME gets back for a request: at most one datagram, of the response type, with
    the sequence number of the request. *)

From S2P Require Import Prelude GoLib Effects Gtpv2Ie Gtpv2Message Gtpv2Procedures SgwcIo.
From S2P Require Bearer Collision SessionData Session SessionManager S5c PfcpClient PeerHealth.
From S2P Require Import S11 S11Relay S11Create S11Session S11Bearer S11Ddn S11Frames S11Example.
#[local] Open Scope list_scope.
#[local] Open Scope Z_scope.

(** A datagram that answers a request: its response type and its sequence number; it may
    carry a piggybacked message. *)
Definition response_to (h : Header) (raw : bytes) : Prop :=
  exists typ t teid ies b,
    ResponseTypeFor (MessageType h) = Some typ /\
    Marshal (simple_header t typ teid (SequenceNumber h)) ies = Ok b /\
    (raw = b \/ exists pig, MarshalPiggybacked b pig = Ok raw).

Section Answers.
Context {E : Type} `{Environment E}.

(** [m] sends the peer at most one datagram, a response to [h]; exactly one if [must]. *)
Definition answers {A} (must : bool) (a : UDPAddr) (h : Header) (m : M (World E) A) : Prop :=
  forall w r w', m w = Some (r, w') ->
    (must = false /\ s11_replies w' = s11_replies w) \/
    exists raw, s11_replies w' = s11_replies w ++ [(a, raw)] /\ response_to h raw.

Lemma answers_quiet {A} a h (m : M (World E) A) :
  keeps (same s11_replies) m -> answers false a h m.
Proof. intros Hm w r w' Er. left. split; [done|]. by eapply Hm. Qed.
Lemma answers_after {A B} must a h (m : M (World E) A) (k : A -> M (World E) B) :
  keeps (same s11_replies) m -> (forall x, answers must a h (k x)) -> answers must a h (m ≫= k).
Proof.
  intros Hm Hk w r w' Er. unfold mbind, M_bind in Er.
  destruct (m w) as [[x w1]|] eqn:Em; [|done]. rewrite <-(Hm _ _ _ Em). by eapply Hk.
Qed.
Lemma answers_then {A B} must a h (m : M (World E) A) (k : A -> M (World E) B) :
  answers must a h m -> (forall x, keeps (same s11_replies) (k x)) -> answers must a h (m ≫= k).
Proof.
  intros Hm Hk w r w' Er. unfold mbind, M_bind in Er.
  destruct (m w) as [[x w1]|] eqn:Em; [|done]. rewrite (Hk _ _ _ _ Er). by eapply Hm.
Qed.
Lemma answers_weaken {A} must a h (m : M (World E) A) : answers true a h m -> answers must a h m.
Proof. intros Hm w r w' Er. destruct (Hm w r w' Er) as [[]|]; [done|by right]. Qed.

Lemma answers_Reply a h raw : response_to h raw -> answers true a h (on_io (Reply SgwcIo.S11 a raw)).
Proof. intros Hr w r w' Er. right. exists raw. by apply Reply_replies in Er. Qed.

(** A marshalled response of the request's type. *)
Definition responds (h : Header) (r : result MsgError bytes) : Prop :=
  exists typ t teid ies, ResponseTypeFor (MessageType h) = Some typ /\
    r = Marshal (simple_header t typ teid (SequenceNumber h)) ies.
Lemma responds_Ok h r b : responds h r -> r = Ok b -> response_to h b.
Proof. intros (typ & t & teid & ies & Ht & ->) Eb. exists typ, t, teid, ies, b. auto. Qed.

Lemma answers_checked a h r : responds h r -> answers false a h (reply_checked a r).
Proof.
  intros Hr. unfold reply_checked. destruct r as [b|e] eqn:Er; [|apply answers_quiet, keeps_ret, _].
  apply answers_then; [|intros; apply keeps_ret, _]. apply answers_weaken, answers_Reply.
  eapply responds_Ok; [exact Hr|done].
Qed.
Lemma answers_checked_Ok a h r : responds h r -> (exists b, r = Ok b) -> answers true a h (reply_checked a r).
Proof.
  intros Hr (b & ->). apply answers_then; [|intros; apply keeps_ret, _].
  apply answers_Reply. by eapply responds_Ok.
Qed.
Lemma answers_raw a h r : responds h r -> (exists b, r = Ok b) -> answers true a h (reply_raw a r).
Proof.
  intros Hr (b & ->). apply answers_then; [|intros; apply keeps_ret, _].
  apply answers_Reply. by eapply responds_Ok.
Qed.

(** A message of a cause, and of a cause and a restart counter, is never too long. *)
Lemma Marshal_cause t typ teid seq c pce bce cs o :
  exists b, Marshal (simple_header t typ teid seq) [NewCause c pce bce cs o] = Ok b.
Proof. unfold Marshal. destruct o, t; cbn; eauto. Qed.
Lemma Marshal_cause_recovery t typ teid seq c rec :
  (forall i, rec = Some i -> exists v, i = NewRecovery v) ->
  exists b, Marshal (simple_header t typ teid seq) (NewCause c 0 0 0 None :: S5c.opt_list rec) = Ok b.
Proof.
  intros Hr. destruct rec as [i|]; [destruct (Hr i eq_refl) as (v & ->)|]; destruct t; cbn; eauto.
Qed.

Create HintDb answers.
(** Take a handler apart up to its replies. *)
Ltac answers_step :=
  first
  [ solve [eauto with answers nocore]
  | match goal with |- answers false _ _ _ => apply answers_quiet; solve [auto with keeps] end
  | apply answers_after; [solve [auto with keeps]|intros ?]
  | apply answers_after; [first [apply keeps_unwrap, _|apply keeps_gets, _]|intros ?]
  | apply answers_after; [solve [keeps_tac]|intros ?]
  | apply answers_then; [|solve [auto with keeps]]
  | match goal with
    | |- answers _ _ _ (let '(_, _) := ?x in _) => destruct x eqn:?
    | |- answers _ _ _ (match ?x with _ => _ end) => destruct x eqn:?
    end ].
Ltac answers_tac := repeat (intros; answers_step).

Section Handlers.
Context (a : UDPAddr) (h : Header) (typ : Z) (Htyp : ResponseTypeFor (MessageType h) = Some typ).

Lemma responds_simple t teid ies :
  responds h (Marshal (simple_header t typ teid (SequenceNumber h)) ies).
Proof using Htyp. by exists typ, t, teid, ies. Qed.

Lemma sendCauseWithOffending_answers teid c o must :
  answers must a h (sendCauseWithOffending a h teid c o).
Proof using Htyp.
  apply answers_weaken. unfold sendCauseWithOffending. rewrite Htyp.
  apply answers_checked_Ok; [apply responds_simple|apply Marshal_cause].
Qed.
Lemma sendCause_answers teid c must : answers must a h (sendCause a h teid c).
Proof using Htyp. apply sendCauseWithOffending_answers. Qed.
Lemma sendMissingIECause_answers teid e must : answers must a h (sendMissingIECause a h teid e).
Proof using Htyp. unfold sendMissingIECause. destruct e; apply sendCauseWithOffending_answers. Qed.
Lemma cause_raw_answers t teid c pce bce cs o :
  answers true a h (reply_raw a (Marshal (simple_header t typ teid (SequenceNumber h)) [NewCause c pce bce cs o])).
Proof using Htyp. apply answers_raw; [apply responds_simple|apply Marshal_cause]. Qed.
Lemma recovery_answers teid :
  answers true a h (accept_with_recovery a typ teid (SequenceNumber h)).
Proof using Htyp.
  intros w r w' Er. unfold accept_with_recovery, mbind, M_bind in Er.
  destruct (maybeRecoveryIE a w) as [[rec w1]|] eqn:Em; [|done].
  rewrite <-(quiet_maybeRecoveryIE a _ _ _ Em). revert Er. apply answers_checked_Ok.
  { apply responds_simple. }
  apply Marshal_cause_recovery. intros i ->. unfold maybeRecoveryIE, mbind, M_bind in Em. cbn in Em.
  destruct (recovery (hs w)) as [v|]; [|done]. cbn in Em.
  destruct (decide _); [done|]. cbn in Em. injection Em as <- _. eauto.
Qed.
End Handlers.
#[local] Hint Resolve sendCauseWithOffending_answers sendCause_answers sendMissingIECause_answers
  cause_raw_answers recovery_answers : answers.

Lemma echo_answers a h ies :
  MessageType h = MsgTypeEchoRequest -> answers true a h (handleEchoRequest a h ies).
Proof.
  intros Ht. unfold handleEchoRequest. answers_tac. apply answers_checked_Ok.
  - eexists _, _, _, _. rewrite Ht. split; [done|]. reflexivity.
  - unfold MarshalEchoResponse, Marshal. cbn. eauto.
Qed.

Lemma release_answers a h ies :
  MessageType h = MsgTypeReleaseAccessBearersRequest ->
  answers true a h (handleReleaseAccessBearersRequest a h ies).
Proof.
  intros Ht. assert (ResponseTypeFor (MessageType h) = Some MsgTypeReleaseAccessBearersResponse) as Hr
    by (rewrite Ht; done).
  assert (RABReq_Header (ParseReleaseAccessBearersRequest h ies) = h) as Hh.
  { unfold ParseReleaseAccessBearersRequest. set (r := mkRABReq h None None).
    assert (RABReq_Header r = h) as Hi by done. clearbody r. revert r Hi.
    induction ies as [|i ies IH]; intros r Hi; [done|]. cbn [fold_left]. apply IH.
    unfold RABReq_set. by repeat case_match. }
  unfold handleReleaseAccessBearersRequest, MarshalReleaseAccessBearersResponse. rewrite Hh.
  answers_tac.
Qed.

Lemma DSReq_Header_kept h ies req : ParseDeleteSessionRequest h ies = Ok req -> DSReq_Header req = h.
Proof.
  unfold ParseDeleteSessionRequest. intros Er. injection Er as <-. set (r := mkDSReq h None None None None).
  assert (DSReq_Header r = h) as Hi by done. clearbody r. revert r Hi.
  induction ies as [|i ies IH]; intros r Hi; [done|]. cbn [fold_left]. apply IH.
  unfold DSReq_set. by repeat case_match.
Qed.

Lemma delete_at_gateway_yields l h req es t :
  yields (delete_at_gateway l h req es t)
    (fun r => forall resp, r = Some resp -> exists hasTEID c cs,
       resp = Marshal (simple_header hasTEID MsgTypeDeleteSessionResponse t (SequenceNumber (DSReq_Header req)))
                [NewCause c 0 0 cs None]).
Proof. unfold delete_at_gateway, MarshalDeleteSessionResponse. yields_tac; intros ? [= <-]; eauto. Qed.

Lemma answers_after_yields {A B} must a h (m : M (World E) A) (k : A -> M (World E) B) Q :
  keeps (same s11_replies) m -> yields m Q -> (forall x, Q x -> answers must a h (k x)) ->
  answers must a h (m ≫= k).
Proof.
  intros Hm Hy Hk w r w' Er. unfold mbind, M_bind in Er.
  destruct (m w) as [[x w1]|] eqn:Em; [|done]. rewrite <-(Hm _ _ _ Em).
  eapply Hk; [by eapply Hy|done].
Qed.

Lemma handle_delete_answers a h req l es t :
  MessageType h = MsgTypeDeleteSessionRequest -> DSReq_Header req = h ->
  answers true a h (handle_delete a h req l es t).
Proof.
  intros Ht Ep. assert (ResponseTypeFor (MessageType h) = Some MsgTypeDeleteSessionResponse) as Hr
    by (rewrite Ht; done).
  unfold handle_delete. apply answers_after; [auto with keeps|intros _].
  eapply answers_after_yields; [auto with keeps|apply delete_at_gateway_yields|].
  rewrite Ep. intros [resp|] Hresp; [|answers_tac].
  destruct (Hresp _ eq_refl) as (t' & c & cs & ->). eauto with answers nocore.
Qed.
#[local] Hint Resolve handle_delete_answers : answers.

Lemma delete_answers a h ies :
  MessageType h = MsgTypeDeleteSessionRequest -> answers true a h (handleDeleteSessionRequest a h ies).
Proof.
  intros Ht. assert (ResponseTypeFor (MessageType h) = Some MsgTypeDeleteSessionResponse) as Hr
    by (rewrite Ht; done).
  unfold handleDeleteSessionRequest. destruct (ParseDeleteSessionRequest h ies) as [req|e] eqn:Ep;
    [|by eapply sendMissingIECause_answers].
  apply DSReq_Header_kept in Ep. unfold MarshalDeleteSessionResponse. rewrite Ep. answers_tac.
Qed.

(** *** Modify Bearer *)

Lemma MBReq_Header_kept h ies req : ParseModifyBearerRequest h ies = Ok req -> MBReq_Header req = h.
Proof.
  unfold ParseModifyBearerRequest. intros Er. injection Er as <-. set (r := mkMBReq h None [] [] None None).
  assert (MBReq_Header r = h) as Hi by done. clearbody r. revert r Hi.
  induction ies as [|i ies IH]; intros r Hi; [done|]. cbn [fold_left]. apply IH.
  unfold MBReq_set. by repeat case_match.
Qed.
Lemma modify_answers a h ies :
  MessageType h = MsgTypeModifyBearerRequest -> answers false a h (handleModifyBearerRequest a h ies).
Proof.
  intros Ht. assert (ResponseTypeFor (MessageType h) = Some MsgTypeModifyBearerResponse) as Hr
    by (rewrite Ht; done).
  unfold handleModifyBearerRequest. destruct (ParseModifyBearerRequest h ies) as [req|e] eqn:Ep;
    [|by eapply sendMissingIECause_answers].
  apply MBReq_Header_kept in Ep. unfold handle_modify, MarshalModifyBearerResponse. rewrite Ep.
  answers_tac; try (apply answers_weaken; eauto with answers nocore; fail);
    by apply answers_checked, responds_simple.
Qed.

(** *** Create Session *)

Lemma CSReq_Header_kept h ies req : ParseCreateSessionRequest h ies = Ok req -> CSReq_Header req = h.
Proof.
  unfold ParseCreateSessionRequest. set (r0 := mkCSReq h _ _ _ _ _ _ _ _ _ _ _ _ _ _ _ _ _ _ _ _ _).
  assert (CSReq_Header (fold_left CSReq_set ies r0) = h) as Hk.
  { assert (CSReq_Header r0 = h) as Hi by done. clearbody r0. revert r0 Hi.
    induction ies as [|i ies IH]; intros r Hi; [done|]. cbn [fold_left]. apply IH.
    unfold CSReq_set. by repeat case_match. }
  cbv zeta. destruct (validate _); [|done]. intros Er. by injection Er as <-.
Qed.

Lemma s11_response_yields a req e l r p :
  yields (S := World E) (s11_response a req e l r p)
    (fun resp => exists ies, resp = MarshalCreateSessionResponse req CauseRequestAccepted ies).
Proof. unfold s11_response. yields_tac; eauto. Qed.

Definition rides (b out : bytes) : Prop := out = b \/ exists pig, MarshalPiggybacked b pig = Ok out.
Lemma piggyback_frames_done a pa seq fs : forall resp rem,
  yields (S := World E) (piggyback_frames a pa seq fs resp true rem) (fun out => out.1 = resp).
Proof.
  induction fs as [|f fs IH]; intros resp rem; cbn [piggyback_frames]; [by apply yields_ret|].
  rewrite orb_true_r. apply IH.
Qed.
Lemma piggyback_frames_rides a pa seq fs : forall resp rem,
  yields (S := World E) (piggyback_frames a pa seq fs resp false rem) (fun out => rides resp out.1).
Proof.
  induction fs as [|f fs IH]; intros resp rem; cbn [piggyback_frames]; [apply yields_ret; by left|].
  rewrite orb_false_r. destruct (negb _); [apply IH|]. apply yields_bind. intros [p|]; [|apply IH].
  destruct (MarshalPiggybacked resp (pr_s11Raw p)) as [resp'|e] eqn:Em.
  - apply yields_bind. intros _ w out w' Er. apply piggyback_frames_done in Er as ->. right. eauto.
  - do 4 (apply yields_bind; intros ?). apply IH.
Qed.

Lemma respond_answers a h req pa e l r p :
  MessageType h = MsgTypeCreateSessionRequest -> CSReq_Header req = h ->
  answers false a h (respond a req pa e l r p).
Proof.
  intros Ht Ep. unfold respond. eapply answers_after_yields; [auto with keeps|apply s11_response_yields|].
  intros resp (ies & Eresp). destruct resp as [b|]; [|apply answers_quiet; keeps_tac].
  eapply answers_after_yields; [auto with keeps|apply piggyback_frames_rides|].
  intros out Hout. apply answers_then; [|intros ?; keeps_tac].
  apply answers_weaken, answers_Reply. unfold MarshalCreateSessionResponse in Eresp. rewrite Ep in Eresp.
  eexists _, _, _, _, b. rewrite Ht. split; [done|]. split; [symmetry; exact Eresp|exact Hout].
Qed.
#[local] Hint Resolve respond_answers : answers.

Lemma rejection_answers a h req c :
  MessageType h = MsgTypeCreateSessionRequest -> CSReq_Header req = h ->
  answers false a h (relay_rejection a req c).
Proof.
  intros Ht Ep. apply answers_weaken. unfold relay_rejection. rewrite Ep. apply answers_raw.
  - apply responds_simple. by rewrite Ht.
  - apply Marshal_cause.
Qed.
#[local] Hint Resolve rejection_answers : answers.

Lemma create_answers a h ies :
  MessageType h = MsgTypeCreateSessionRequest -> answers false a h (handleCreateSessionRequest a h ies).
Proof.
  intros Ht. assert (ResponseTypeFor (MessageType h) = Some MsgTypeCreateSessionResponse) as Hr
    by (rewrite Ht; done).
  unfold handleCreateSessionRequest. destruct (ParseCreateSessionRequest h ies) as [req|e] eqn:Ep;
    [|by eapply sendMissingIECause_answers].
  apply CSReq_Header_kept in Ep. unfold establish, ask_gateway, gateway_accepted, S5c.DeleteSession.
  answers_tac.
Qed.

(** ** The property *)

(** The requests that are answered whatever happens. *)
Definition must_answer (typ : Z) (parsed : bool) : bool :=
  negb parsed || (typ =? MsgTypeEchoRequest) || (typ =? MsgTypeDeleteSessionRequest)
  || (typ =? MsgTypeReleaseAccessBearersRequest).
Definition parses (raw : bytes) : bool := match Parse raw with Ok _ => true | Err _ => false end.

Lemma handle_answers a h raw typ :
  ResponseTypeFor (MessageType h) = Some typ ->
  answers (must_answer (MessageType h) (parses raw)) a h (handle a h raw).
Proof.
  intros Hr. unfold handle, parses. destruct (Parse raw) as [[h' ies]|e]; [|by apply answers_weaken; eauto with answers nocore].
  cbv zeta. unfold must_answer. cbn [negb orb].
  destruct (Z.eqb_spec (MessageType h) MsgTypeEchoRequest) as [Et|Ne]; [by apply echo_answers|].
  destruct (Z.eqb_spec (MessageType h) MsgTypeDeleteSessionRequest) as [Et|Nd].
  { rewrite Et. cbn -[observeGTPPeer handleDeleteSessionRequest].
    apply answers_after; [auto with keeps|intros _]. by apply delete_answers. }
  destruct (Z.eqb_spec (MessageType h) MsgTypeReleaseAccessBearersRequest) as [Et|Nr].
  { rewrite Et. cbn -[observeGTPPeer handleReleaseAccessBearersRequest].
    apply answers_after; [auto with keeps|intros _]. by apply release_answers. }
  cbn [orb]. repeat match goal with
    | |- answers _ _ _ (if ?x =? ?y then _ else _) => destruct (Z.eqb_spec x y) as [Et|?]
    end; try (apply answers_after; [auto with keeps|intros _]); try (rewrite Et in Hr; done).
  - by apply create_answers.
  - by apply modify_answers.
  - destruct (_ || _); answers_tac; apply answers_quiet, keeps_ret, _.
Qed.

End Answers.

