(* ===== verification/S11Registry.v ===== *)
(** * What the MME is told and what is registered ([internal/sgwc/s11])

    Create Session and Delete Session against the registry of sessions: the cause in the
    response to the MME says whether the registry was changed. *)

From S2P Require Import Prelude GoLib Effects Gtpv2Ie Gtpv2Message Gtpv2Procedures SgwcIo.
From S2P Require Bearer Collision SessionData Session SessionManager S5c PfcpClient.
From S2P Require S11Pfcp CreateBearerTxn.
From S2P Require Import S11 S11Relay S11Create S11Session S11Bearer S11Ddn S11Frames S11Example S11Answers.
#[local] Open Scope list_scope.
#[local] Open Scope Z_scope.

(** ** What is followed of a world *)

(** Of a session: its identifier, its state and its user plane. *)
Definition core (s : SGWSession) : string * string * SessionData.PFCPSessionBinding :=
  (SessionData.SessionID s, SessionData.State s, SessionData.PFCP s).

Section Registry.
Context {E : Type} `{Environment E}.
Notation W := (World E).

(** The registry, the cores of all session objects, and what was sent to MMEs. *)
Definition registry (w : W) := SessionManager.byID (mgr w).
Definition view (w : W) := (registry w, core <$> SessionManager.heap (mgr w)).
Definition facts (w : W) := (view w, s11_replies w).
Notation steady m := (keeps (same view) m).

(** *** Steps that leave registry and cores alone *)

Lemma steady_on_io {A} (m : M (IO E) A) : steady (on_io m).
Proof. eapply (keeps_zoom _ (fun _ _ => True)); [done|by intros]. Qed.
Lemma steady_on_h {A} (f : Handler -> A * Handler) : steady (on_h f).
Proof. apply keeps_act. intros w. by destruct (f (hs w)). Qed.
Lemma steady_on_cb {A} (f : CreateBearerTxn.Tables -> A * CreateBearerTxn.Tables) : steady (on_cb f).
Proof. apply steady_on_h. Qed.
Lemma steady_get_h : steady get_h.
Proof. apply keeps_gets, _. Qed.
Lemma steady_on_s5c {A} (m : M S5c.S A) : steady (on_s5c m).
Proof. eapply (keeps_zoom _ (fun _ _ => True)); [done|by intros]. Qed.
Lemma steady_on_pfcp {R} (f : PfcpClient.Client -> IO E -> result PfcpClient.ClientError R * PfcpClient.Client * IO E) :
  steady (on_pfcp f).
Proof.
  unfold on_pfcp. apply keeps_bind; [apply _| |intros []; keeps_tac].
  apply keeps_act. intros w. by destruct (f (pfcp w) (io w)) as [[r c] i].
Qed.
(** A step of the manager, by what it does to the view. *)
Lemma steady_mgr_do f :
  (forall m, SessionManager.byID (f m).1 = SessionManager.byID m /\
     core <$> SessionManager.heap (f m).1 = core <$> SessionManager.heap m) -> steady (mgr_do f).
Proof.
  intros Hf. unfold mgr_do, on_mgr. apply keeps_bind; [apply _| |intros calls].
  { apply keeps_act. intros w. destruct (Hf (mgr w)) as [Hi Hh]. destruct (f (mgr w)) as [m calls].
    unfold same, view, registry. cbn in *. by rewrite Hi, Hh. }
  apply keeps_bind; [apply _|apply steady_on_io|intros; apply keeps_ret, _].
Qed.
Lemma on_session_view l f m0 m :
  SessionManager.byID m0 = SessionManager.byID m -> SessionManager.heap m0 = SessionManager.heap m ->
  (forall s, core (f s).1 = core s) ->
  SessionManager.byID (SessionManager.on_session l f m0).1 = SessionManager.byID m /\
  core <$> SessionManager.heap (SessionManager.on_session l f m0).1 = core <$> SessionManager.heap m.
Proof.
  intros Hi Hh Hf. unfold SessionManager.on_session. rewrite Hh.
  destruct (SessionManager.heap m !! l) as [s|] eqn:Es; [|cbn; by rewrite Hh].
  specialize (Hf s). destruct (f s) as [s' calls]. cbn in *. split; [done|].
  rewrite fmap_insert, Hf. apply insert_id. by rewrite lookup_fmap, Es.
Qed.
Lemma steady_now : steady now.
Proof. apply steady_on_io. Qed.
Lemma steady_session l : steady (session l).
Proof. unfold session. keeps_tac. Qed.
#[local] Hint Resolve steady_on_io steady_on_h steady_on_cb steady_get_h steady_on_s5c steady_on_pfcp
  steady_now steady_session : keeps.
Lemma steady_on_sess l f : (forall t s, core (f t s).1 = core s) -> steady (on_sess l f).
Proof.
  intros Hf. unfold on_sess. apply keeps_bind; [apply _|apply steady_now|intros t].
  apply steady_mgr_do. intros m. by apply on_session_view.
Qed.
(** An edit writes back what it read. *)
Lemma steady_edit_sess {A} l (f : SGWSession -> A * SGWSession) :
  (forall s, core (f s).2 = core s) -> steady (edit_sess l f).
Proof.
  intros Hf w a w' Er. unfold edit_sess, mbind, M_bind in Er.
  destruct (session l w) as [[s w1]|] eqn:Es; [|done].
  assert (w1 = w /\ SessionManager.heap (mgr w) !! l = Some s) as [-> Hs].
  { unfold session, mbind, M_bind, gets, unwrap in Es. destruct (_ !! l) as [s0|] eqn:El; [|done].
    cbn in Es. by injection Es as -> ->. }
  specialize (Hf s). destruct (f s) as [b s'] eqn:Ef. cbn in Hf.
  destruct (mgr_do _ w) as [[[] w2]|] eqn:Em; [|done]. injection Er as <- <-.
  unfold mgr_do, on_mgr, mbind, M_bind, act in Em. cbn in Em. unfold SessionManager.on_session in Em.
  rewrite Hs in Em. cbn in Em. injection Em as <-. unfold same, view, registry. cbn.
  rewrite fmap_insert, Hf. f_equal. apply insert_id. by rewrite lookup_fmap, Hs.
Qed.

(** The step [core (f t s).1 = core s] is a matter of unfolding the setter. *)
#[local] Hint Extern 2 (keeps (same view) (on_sess _ _)) =>
  apply steady_on_sess; intros; reflexivity : keeps.
#[local] Hint Extern 2 (keeps (same view) (edit_sess _ _)) =>
  apply steady_edit_sess; intros; reflexivity : keeps.
Ltac steady_by d := unfold d; keeps_tac.

Lemma steady_sessions_order gone : steady (sessions_order gone).
Proof. steady_by @sessions_order. Qed.
Lemma steady_keys_order ks : steady (keys_order ks).
Proof. steady_by @keys_order. Qed.
Lemma steady_SetBearer l b : steady (SetBearer l b).
Proof. steady_by @SetBearer. Qed.
Lemma steady_on_tracker {A} l (f : option Collision.Tracker -> A * option Collision.Tracker) :
  steady (on_tracker l f).
Proof. apply steady_edit_sess. intros s. by destruct (f (tracker s)). Qed.
Lemma steady_maybeRecoveryIE a : steady (maybeRecoveryIE a).
Proof. steady_by @maybeRecoveryIE. Qed.
Lemma steady_allow req : steady (allowPeerProcedure req).
Proof. steady_by @allowPeerProcedure. Qed.
#[local] Hint Resolve steady_sessions_order steady_keys_order steady_SetBearer steady_on_tracker
  steady_maybeRecoveryIE steady_allow : keeps.
Lemma steady_finish l p : steady (finishProcedure l p).
Proof. steady_by @finishProcedure. Qed.
#[local] Hint Resolve steady_finish : keeps.
Lemma steady_begin l req : steady (beginProcedure l req).
Proof. steady_by @beginProcedure. Qed.
#[local] Hint Resolve steady_begin : keeps.

(** *** A relayed Create Bearer Request *)

Lemma steady_txn_of l : steady (txn_of l).
Proof. steady_by @txn_of. Qed.
Lemma steady_guard : steady guard_enabled.
Proof. steady_by @guard_enabled. Qed.
Lemma steady_completeTxn k r c : steady (completeTxn k r c).
Proof. steady_by @completeTxn. Qed.
Lemma steady_replyBearerError a h t p c : steady (replyBearerError a h t p c).
Proof. steady_by @replyBearerError. Qed.
#[local] Hint Resolve steady_txn_of steady_guard steady_completeTxn steady_replyBearerError : keeps.
Lemma steady_replyTxnError k a h r p c : steady (replyCreateBearerTxnError k a h r p c).
Proof. steady_by @replyCreateBearerTxnError. Qed.
Lemma steady_retryGuard a h r p f : steady (replyCreateBearerRetryGuardFailure a h r p f).
Proof. steady_by @replyCreateBearerRetryGuardFailure. Qed.
Lemma steady_remove_rules l ps fs : steady (remove_rules l ps fs).
Proof. steady_by @remove_rules. Qed.
Lemma steady_mark k p : steady (mark_rolled_back k p).
Proof. steady_by @mark_rolled_back. Qed.
#[local] Hint Resolve steady_replyTxnError steady_retryGuard steady_remove_rules steady_mark : keeps.
Lemma steady_not_rolled_back k ps : steady (not_rolled_back k ps).
Proof. induction ps; cbn [not_rolled_back]; keeps_tac. Qed.
#[local] Hint Resolve steady_not_rolled_back : keeps.
Lemma steady_removeAll k l ps : steady (removeAllCreateBearerTxnProvisioning k l ps).
Proof. steady_by @removeAllCreateBearerTxnProvisioning. Qed.
Lemma steady_provision l bcs : steady (provision_contexts l bcs).
Proof. induction bcs; cbn [provision_contexts]; keeps_tac. Qed.
#[local] Hint Resolve steady_removeAll steady_provision : keeps.
Lemma steady_relay a h r l lbi k t p : steady (relay_to_mme a h r l lbi k t p).
Proof. steady_by @relay_to_mme. Qed.
#[local] Hint Resolve steady_relay : keeps.
Lemma steady_begin_and_relay a h raw r l lbi fp pk p : steady (begin_and_relay a h raw r l lbi fp pk p).
Proof. steady_by @begin_and_relay. Qed.
#[local] Hint Resolve steady_begin_and_relay : keeps.
Lemma steady_prepare a h raw : steady (prepareCreateBearerRelay a h raw).
Proof. steady_by @prepareCreateBearerRelay. Qed.
Lemma steady_registerPending a s p : steady (registerPending a s p).
Proof. steady_by @registerPending. Qed.
#[local] Hint Resolve steady_prepare steady_registerPending : keeps.

(** *** Parts of Create Session *)

Lemma steady_piggyback_frames a pa seq fs : forall resp d rem, steady (piggyback_frames a pa seq fs resp d rem).
Proof. induction fs; cbn [piggyback_frames]; keeps_tac. Qed.
Lemma steady_clear_failures id : steady (clear_failures id).
Proof. steady_by @clear_failures. Qed.
Lemma steady_release_pfcp p u : steady (release_pfcp p u).
Proof. steady_by @release_pfcp. Qed.
#[local] Hint Resolve steady_piggyback_frames steady_clear_failures steady_release_pfcp : keeps.
Lemma steady_release_binding s : steady (release_binding s).
Proof. steady_by @release_binding. Qed.
#[local] Hint Resolve steady_release_binding : keeps.
Lemma steady_release_evicted o : steady (release_evicted o).
Proof. steady_by @release_evicted. Qed.
Lemma steady_open_uplink p r : steady (open_uplink p r).
Proof. steady_by @open_uplink. Qed.
Lemma steady_register_s5c id t : steady (mgr_do (SessionManager.RegisterS5CTEID id t)).
Proof.
  apply steady_mgr_do. intros m. unfold SessionManager.RegisterS5CTEID.
  destruct (SessionManager.byID m !! id) as [l|]; [|done]. by apply on_session_view.
Qed.
Lemma steady_register_pgw now id addr : steady (mgr_do (SessionManager.RegisterPGW now id addr)).
Proof.
  apply steady_mgr_do. intros m. unfold SessionManager.RegisterPGW.
  destruct (String.eqb _ _); [done|]. destruct (SessionManager.byID m !! id) as [l|]; [|done].
  destruct (SessionManager.heap m !! l) as [s|]; [|done]. cbv zeta.
  apply on_session_view; [| |by intros]; cbn; destruct (_ && _); try done;
    by edestruct SessionManager.removePGW_frame as [[= ] ?].
Qed.
#[local] Hint Resolve steady_release_evicted steady_open_uplink steady_register_s5c steady_register_pgw : keeps.
Lemma steady_store_answer l pa e r : steady (store_answer l pa e r).
Proof. steady_by @store_answer. Qed.
Lemma steady_s11_response a req e l r p : steady (s11_response a req e l r p).
Proof. unfold s11_response, buildS11CreateSessionResponseIEs. keeps_tac. Qed.
Lemma steady_delete_at_gateway l h req es t : steady (delete_at_gateway l h req es t).
Proof. steady_by @delete_at_gateway. Qed.

(** *** Runs followed from facts to facts *)

Definition Facts : Type :=
  (gmap string loc * gmap loc (string * string * SessionData.PFCPSessionBinding))
  * list (UDPAddr * bytes).
(** Every run of [m] that starts at the facts [x] and does not panic ends as [Q] says. *)
Definition run_to {A} (x : Facts) (m : M W A) (Q : A -> Facts -> Prop) : Prop :=
  forall w a w', facts w = x -> m w = Some (a, w') -> Q a (facts w').

Lemma run_ret {A} x (a : A) Q : Q a x -> run_to x (mret a) Q.
Proof. intros Hq w b w' <- Er. by injection Er as <- <-. Qed.
Lemma run_bind {A B} x (m : M W A) (k : A -> M W B) Q R :
  run_to x m R -> (forall a y, R a y -> run_to y (k a) Q) -> run_to x (m ≫= k) Q.
Proof.
  intros Hm Hk w b w' Ew Er. unfold mbind, M_bind in Er. destruct (m w) as [[a w1]|] eqn:Em; [|done].
  eapply Hk; [by eapply Hm|reflexivity|done].
Qed.
Lemma run_after {A B} x (m : M W A) (k : A -> M W B) Q :
  keeps (same s11_replies) m -> steady m -> (forall a, run_to x (k a) Q) -> run_to x (m ≫= k) Q.
Proof.
  intros Hq Hs Hk. eapply (run_bind _ _ _ _ (fun _ y => y = x)); [|intros a y ->; apply Hk].
  intros w a w' <- Er. unfold facts. by rewrite (Hq _ _ _ Er), (Hs _ _ _ Er).
Qed.
Lemma run_mono {A} x (m : M W A) (Q R : A -> Facts -> Prop) :
  run_to x m R -> (forall a y, R a y -> Q a y) -> run_to x m Q.
Proof. intros Hm Hi w a w' Ew Er. apply Hi. by eapply Hm. Qed.
Lemma run_quiet {A} x (m : M W A) (Q : A -> Facts -> Prop) :
  keeps (same s11_replies) m -> steady m -> (forall a, Q a x) -> run_to x m Q.
Proof.
  intros Hq Hs HQ w a w' <- Er. unfold facts.
  rewrite (Hq _ _ _ Er), (Hs _ _ _ Er). apply HQ.
Qed.
(** Reading a session. *)
Lemma run_session {A} b c rs l (k : SGWSession -> M W A) Q :
  (forall s, c !! l = Some (core s) -> run_to (b, c, rs) (k s) Q) ->
  run_to (b, c, rs) (session l ≫= k) Q.
Proof.
  intros Hk w a w' Ew Er. unfold session, mbind, M_bind, gets, unwrap in Er.
  destruct (SessionManager.heap (mgr w) !! l) as [s|] eqn:Es; [|done]. cbn in Er.
  eapply (Hk s); [|exact Ew|exact Er]. unfold facts, view in Ew. injection Ew as _ <- _.
  by rewrite lookup_fmap, Es.
Qed.
(** A method of a session. *)
Lemma run_on_sess {A} b c rs l f (k : unit -> M W A) Q :
  (forall t s, c !! l = Some (core s) -> run_to (b, <[l := core (f t s).1]> c, rs) (k tt) Q) ->
  (c !! l = None -> run_to (b, c, rs) (k tt) Q) ->
  run_to (b, c, rs) (on_sess l f ≫= k) Q.
Proof.
  intros Hs Hn. unfold on_sess.
  eapply (run_bind _ _ _ _ (fun _ y =>
    (c !! l = None /\ y = (b, c, rs)) \/
    exists t s, c !! l = Some (core s) /\ y = (b, <[l := core (f t s).1]> c, rs))).
  2: { intros [] y [[Hl ->]|(t & s & Hl & ->)]; [by apply Hn|by apply Hs]. }
  apply run_after; [auto with keeps|auto with keeps|]. intros t w [] w' Ew Er.
  pose proof (quiet_mgr_do _ _ _ _ Er) as Hq. unfold same in Hq.
  unfold facts. rewrite Hq. clear Hq. unfold mgr_do, on_mgr, mbind, M_bind, act in Er. cbn in Er.
  unfold facts, view, registry in Ew. injection Ew as Eb Ec Er'.
  unfold SessionManager.on_session in Er. destruct (SessionManager.heap (mgr w) !! l) as [s|] eqn:Es.
  - right. exists t, s. rewrite <-Ec, lookup_fmap, Es. split; [done|]. cbn in Er.
    destruct (f t s) as [s' calls]. cbn in Er. injection Er as <-. unfold view, registry. cbn.
    by rewrite Eb, fmap_insert, Er'.
  - left. rewrite <-Ec, lookup_fmap, Es. split; [done|]. cbn in Er. injection Er as <-.
    unfold view, registry. cbn. by rewrite Eb, Er'.
Qed.

(** *** Registration and removal *)

(** Every entry of the registry leads to a session of its name. *)
Definition named (b : gmap string loc)
    (c : gmap loc (string * string * SessionData.PFCPSessionBinding)) : Prop :=
  forall id l, b !! id = Some l -> exists st p, c !! l = Some (id, st, p).

Lemma Delete_view order id m :
  named (SessionManager.byID m) (core <$> SessionManager.heap m) ->
  SessionManager.byID (SessionManager.Delete order id m).1 = delete id (SessionManager.byID m) /\
  SessionManager.heap (SessionManager.Delete order id m).1 = SessionManager.heap m.
Proof.
  intros Hn. unfold SessionManager.Delete. destruct (SessionManager.byID m !! id) as [l|] eqn:El.
  2: { split; [|done]. by rewrite delete_id. }
  destruct (Hn id l El) as (st & p & Hc). rewrite lookup_fmap in Hc.
  destruct (SessionManager.heap m !! l) as [s|] eqn:Es; [|done]. injection Hc as Hid _ _.
  pose proof (SessionManager.removeLocked_frame order l m s Es) as Hr.
  set (m1 := SessionManager.removeLocked order l m) in *. injection Hr as Hh Hi _ _. rewrite Hid in Hi.
  destruct (SessionManager.free_if_unused_frame (SessionData.ft_TEID (SessionData.SGWS11FTEID s)) m1)
    as [Hf _]. injection Hf as Hfh Hfi _ _. cbn. by rewrite Hfh, Hfi.
Qed.
Lemma run_drop {A} b c rs l id st p (k : unit -> M W A) Q :
  named b c -> c !! l = Some (id, st, p) -> run_to (delete id b, c, rs) (k tt) Q ->
  run_to (b, c, rs) (drop_session l ≫= k) Q.
Proof.
  intros Hn Hl Hk. eapply (run_bind _ _ _ _ (fun _ y => y = (delete id b, c, rs))); [|by intros [] y ->].
  apply run_session. intros s Hs. rewrite Hl in Hs. injection Hs as -> _ _.
  apply run_after; [auto with keeps|auto with keeps|intros _]. unfold Delete.
  apply run_after; [auto with keeps|auto with keeps|]. intros order w [] w' Ew Er.
  pose proof (quiet_mgr_do _ _ _ _ Er) as Hq. unfold same in Hq. unfold facts. rewrite Hq. clear Hq.
  unfold mgr_do, on_mgr, mbind, M_bind, act in Er. cbn in Er. unfold facts, view, registry in Ew.
  injection Ew as Eb Ec Er'. rewrite <-Eb, <-Ec in Hn.
  destruct (Delete_view order (SessionData.SessionID s) (mgr w) Hn) as [Hi Hh].
  destruct (SessionManager.Delete order _ (mgr w)) as [m calls]. cbn in Er, Hi, Hh.
  injection Er as <-. unfold view, registry. cbn. by rewrite Hi, Hh, Eb, Ec, Er'.
Qed.

Lemma evict_view order k t m :
  SessionManager.byID (SessionManager.evict order k t m).2 ⊆ SessionManager.byID m /\
  SessionManager.heap (SessionManager.evict order k t m).2 = SessionManager.heap m.
Proof.
  unfold SessionManager.evict. destruct (SessionManager.byPDN m !! k) as [old|]; [|done].
  destruct (SessionManager.heap m !! old) as [s|] eqn:Es; cbn.
  2: { unfold SessionManager.removeLocked. by rewrite Es. }
  pose proof (SessionManager.removeLocked_frame order old m s Es) as Hr.
  set (m1 := SessionManager.removeLocked order old m) in *. injection Hr as Hh Hi _ _.
  destruct (SessionManager.free_if_unused_frame (SessionData.ft_TEID (SessionData.SGWS11FTEID s)) m1)
    as [Hf _]. injection Hf as Hfh Hfi _ _.
  destruct (_ =? t); rewrite ?Hfi, ?Hfh, Hi, Hh; split; try done; apply delete_subseteq.
Qed.
Lemma entered l id s m m1 :
  core s = (id, SessionData.StatePending, SessionData.no_binding) ->
  SessionManager.byID m1 ⊆ SessionManager.byID m -> SessionManager.heap m1 = SessionManager.heap m ->
  l = l /\ exists id' s' b, b ⊆ SessionManager.byID m /\
    core s' = (id', SessionData.StatePending, SessionData.no_binding) /\
    SessionManager.byID (SessionManager.register l s m1) = <[id' := l]> b /\
    SessionManager.heap (SessionManager.register l s m1) = <[l := s']> (SessionManager.heap m).
Proof.
  intros Hc Hb Hh. split; [done|]. exists id, s, (SessionManager.byID m1). split; [done|]. split; [done|].
  cbn. rewrite Hh. injection Hc as -> _ _. done.
Qed.
(** What [Create] does to the registry: nothing, or one entry, for a new pending session
    without user plane, after at most one eviction. *)
Lemma Create_view now rnd id_rnd order l p m :
  let '(r, m', _) := SessionManager.Create now rnd id_rnd order l p m in
  match r with
  | Err _ => SessionManager.byID m' = SessionManager.byID m /\ SessionManager.heap m' = SessionManager.heap m
  | Ok (l', _) => l' = l /\ exists id s b, b ⊆ SessionManager.byID m /\
      core s = (id, SessionData.StatePending, SessionData.no_binding) /\
      SessionManager.byID m' = <[id := l]> b /\
      SessionManager.heap m' = <[l := s]> (SessionManager.heap m)
  end.
Proof.
  unfold SessionManager.Create. destruct (SessionData.ft_TEID (SessionManager.cp_ReuseSGWS11FTEID p) =? 0).
  - destruct (Teid.Alloc rnd (SessionManager.teidAlloc m)) as [[t|e] a]; [|done].
    destruct (SessionManager.newSessionID id_rnd) as [id|]; [|done].
    match goal with |- context [SessionManager.evict order ?k ?u ?m0] =>
      pose proof (evict_view order k u m0) as Hv; destruct (SessionManager.evict order k u m0) as [ev m1] end.
    destruct Hv as [Hb Hh]. by apply (entered l id _ m m1).
  - destruct (SessionManager.newSessionID id_rnd) as [id|]; [|done].
    match goal with |- context [SessionManager.evict order ?k ?u ?m0] =>
      pose proof (evict_view order k u m0) as Hv; destruct (SessionManager.evict order k u m0) as [ev m1] end.
    destruct Hv as [Hb Hh]. by apply (entered l id _ m m1).
Qed.

(** *** Responses and their cause *)

(** A response of the request's type and sequence number whose first IE is the cause [c]; a
    Create Bearer Request may ride on it. *)
Definition says (h : Header) (c : Z) (raw : bytes) : Prop :=
  exists typ t teid pce bce cs o ies b,
    ResponseTypeFor (MessageType h) = Some typ /\
    Marshal (simple_header t typ teid (SequenceNumber h)) (NewCause c pce bce cs o :: ies) = Ok b /\
    rides b raw.
Definition answered (a : UDPAddr) (h : Header) (c : Z) (x y : Facts) : Prop :=
  exists raw, y = (x.1, x.2 ++ [(a, raw)]) /\ says h c raw.

Lemma run_after_yields {A B} x (m : M W A) (k : A -> M W B) Q R :
  keeps (same s11_replies) m -> steady m -> yields m R -> (forall a, R a -> run_to x (k a) Q) ->
  run_to x (m ≫= k) Q.
Proof.
  intros Hq Hs Hy Hk. eapply (run_bind _ _ _ _ (fun a y => R a /\ y = x)); [|intros a y [Ha ->]; by apply Hk].
  intros w a w' <- Er. split; [by eapply Hy|]. unfold facts. by rewrite (Hq _ _ _ Er), (Hs _ _ _ Er).
Qed.
Lemma run_Reply {A} x a raw (k : bool -> M W A) Q :
  (forall ok, run_to (x.1, x.2 ++ [(a, raw)]) (k ok) Q) -> run_to x (on_io (Reply SgwcIo.S11 a raw) ≫= k) Q.
Proof.
  intros Hk. eapply (run_bind _ _ _ _ (fun _ y => y = (x.1, x.2 ++ [(a, raw)]))); [|intros ok y ->; apply Hk].
  intros w ok w' <- Er. unfold facts. by rewrite (steady_on_io _ _ _ _ Er), (Reply_replies _ _ _ _ _ Er).
Qed.
Lemma run_reply_checked x a h typ t teid c pce bce cs o ies :
  ResponseTypeFor (MessageType h) = Some typ ->
  (exists b, Marshal (simple_header t typ teid (SequenceNumber h)) (NewCause c pce bce cs o :: ies) = Ok b) ->
  run_to x (reply_checked a (Marshal (simple_header t typ teid (SequenceNumber h))
                               (NewCause c pce bce cs o :: ies)))
    (fun _ y => answered a h c x y).
Proof.
  intros Ht (b & Eb). rewrite Eb. apply run_Reply. intros ok. apply run_ret. exists b. split; [done|].
  exists typ, t, teid, pce, bce, cs, o, ies, b. split; [done|]. split; [done|]. by left.
Qed.
Lemma run_reply_raw x a h typ t teid c pce bce cs o ies :
  ResponseTypeFor (MessageType h) = Some typ ->
  (exists b, Marshal (simple_header t typ teid (SequenceNumber h)) (NewCause c pce bce cs o :: ies) = Ok b) ->
  run_to x (reply_raw a (Marshal (simple_header t typ teid (SequenceNumber h))
                           (NewCause c pce bce cs o :: ies)))
    (fun _ y => answered a h c x y).
Proof.
  intros Ht (b & Eb). rewrite Eb. apply run_Reply. intros ok. apply run_ret. exists b. split; [done|].
  exists typ, t, teid, pce, bce, cs, o, ies, b. split; [done|]. split; [done|]. by left.
Qed.
Lemma run_offending x a h typ teid c o :
  ResponseTypeFor (MessageType h) = Some typ ->
  run_to x (sendCauseWithOffending a h teid c o) (fun _ y => answered a h c x y).
Proof.
  intros Ht. unfold sendCauseWithOffending. rewrite Ht. apply run_reply_checked; [done|apply Marshal_cause].
Qed.
Lemma run_sendCause x a h typ teid c :
  ResponseTypeFor (MessageType h) = Some typ ->
  run_to x (sendCause a h teid c) (fun _ y => answered a h c x y).
Proof. apply run_offending. Qed.

(** ** Create Session *)

(** From the facts [x]: nothing new is registered and the MME is told a failure. *)
Definition refused (a : UDPAddr) (h : Header) (x y : Facts) : Prop :=
  y.1.1 ⊆ x.1.1 /\
  exists c raw, y.2 = x.2 ++ [(a, raw)] /\ says h c raw /\ (c =? CauseRequestAccepted) = false.
(** From the facts [x]: one active session with a user plane is new, and the MME is told
    so (or nothing, when the acceptance cannot be coded). *)
Definition established (a : UDPAddr) (h : Header) (x y : Facts) : Prop :=
  exists id l p, y.1.1 !! id = Some l /\ delete id y.1.1 ⊆ x.1.1 /\ x.1.2 !! l = None /\
    y.1.2 !! l = Some (id, SessionData.StateActive, p) /\ SessionData.pb_Established p = true /\
    (y.2 = x.2 \/ exists raw, y.2 = x.2 ++ [(a, raw)] /\ says h CauseRequestAccepted raw).

(** The new session on its way: registered and pending. *)
Record on_the_way (x : Facts) (id : string) (l : loc) (y : Facts) : Prop := mkOnTheWay {
  ow_named : named y.1.1 y.1.2;
  ow_reg : y.1.1 !! id = Some l;
  ow_new : delete id y.1.1 ⊆ x.1.1;
  ow_fresh : x.1.2 !! l = None;
  ow_core : exists p, y.1.2 !! l = Some (id, SessionData.StatePending, p);
  ow_told : y.2 = x.2
}.

Section Tails.
Context (a : UDPAddr) (h : Header) (typ : Z) (Htyp : ResponseTypeFor (MessageType h) = Some typ).
Context (x y : Facts) (id : string) (l : loc) (Hy : on_the_way x id l y).

Lemma run_refusing {A} (m : M W A) c :
  (forall z, run_to z m (fun _ y => answered a h c z y)) -> (c =? CauseRequestAccepted) = false ->
  run_to y (drop_session l ≫= fun _ => m) (fun _ => refused a h x).
Proof using Hy.
  intros Hm Hc. destruct Hy as [Hn Hr Hw Hf (p & Hp) Ht]. destruct y as [[b cs] rs]. cbn in *.
  eapply run_drop; [done..|]. eapply run_mono; [apply Hm|].
  intros r z (raw & -> & Hs). split; [done|]. cbn. rewrite Ht. eauto.
Qed.
Lemma run_give_up teid c : (c =? CauseRequestAccepted) = false ->
  run_to y (drop_session l ≫= fun _ => sendCause a h teid c) (fun _ => refused a h x).
Proof using Hy Htyp. intros Hc. apply (run_refusing _ c); [|done]. intros z. by eapply run_sendCause. Qed.
Lemma run_undone {A} (n : M W unit) (m : M W A) c :
  keeps (same s11_replies) n -> steady n ->
  (forall z, run_to z m (fun _ y => answered a h c z y)) -> (c =? CauseRequestAccepted) = false ->
  run_to y (drop_session l ≫= fun _ => n ≫= fun _ => m) (fun _ => refused a h x).
Proof using Hy.
  intros Hq Hs Hm Hc. apply (run_refusing _ c); [|done]. intros z. by apply run_after.
Qed.
End Tails.

Lemma run_assoc {A B C} x (m : M W A) (k : A -> M W B) (k' : B -> M W C) Q :
  run_to x (m ≫= fun a => k a ≫= k') Q -> run_to x ((m ≫= k) ≫= k') Q.
Proof.
  intros Hr w c w' Ew Er. apply (Hr w c w' Ew). unfold mbind, M_bind in *. by destruct (m w) as [[]|].
Qed.

Lemma respond_outcome a h req pa e l r p x y id p' :
  MessageType h = MsgTypeCreateSessionRequest -> CSReq_Header req = h ->
  y.1.1 !! id = Some l -> delete id y.1.1 ⊆ x.1.1 -> x.1.2 !! l = None ->
  y.1.2 !! l = Some (id, SessionData.StateActive, p') -> SessionData.pb_Established p' = true ->
  y.2 = x.2 ->
  run_to y (respond a req pa e l r p) (fun _ => established a h x).
Proof.
  intros Hm Hh H1 H2 H3 H4 H5 H6. unfold respond.
  eapply run_after_yields; [auto with keeps|apply steady_s11_response|apply s11_response_yields|].
  intros resp (ies & Eresp). destruct resp as [b|err].
  2: { apply run_ret. exists id, l, p'. do 5 (split; [done|]). by left. }
  eapply run_after_yields; [auto with keeps|apply steady_piggyback_frames|apply piggyback_frames_rides|].
  intros out Hout. apply run_Reply. intros ok.
  apply run_quiet; [keeps_tac|keeps_tac|intros _].
  exists id, l, p'. do 5 (split; [done|]). right. exists out.1. cbn. rewrite H6. split; [done|].
  unfold MarshalCreateSessionResponse in Eresp. rewrite Hh in Eresp.
  eexists _, _, _, _, _, _, _, _, b. rewrite Hm. split; [done|]. split; [by symmetry|done].
Qed.

Lemma run_activated x id l y e p (m : M W unit) Q :
  on_the_way x id l y ->
  (forall z p', z.1.1 !! id = Some l -> delete id z.1.1 ⊆ x.1.1 -> x.1.2 !! l = None ->
     z.1.2 !! l = Some (id, SessionData.StateActive, p') -> SessionData.pb_Established p' = true ->
     z.2 = x.2 -> run_to z m Q) ->
  run_to y (activate l e p ≫= fun _ => m) Q.
Proof.
  intros [Hn Hr Hw Hf (p0 & Hp) Ht] Hm. destruct y as [[b cs] rs]. cbn in *. unfold activate.
  apply run_assoc. apply run_after; [auto with keeps|apply steady_get_h|intros hd]. cbv beta.
  apply run_assoc, run_on_sess; [|congruence]. intros t s Hs. rewrite Hp in Hs. injection Hs as Hid Hst _.
  match goal with |- context [Session.SetPFCPBinding t ?b s] => set (binding := b) end.
  assert (Hc : forall t0, core (Session.SetPFCPBinding t0 binding s).1 = (id, SessionData.StatePending, binding))
    by (intros t0; unfold core; cbn; by rewrite <-Hid, <-Hst).
  rewrite Hc. apply run_assoc, run_session. intros s1 Hs1. rewrite lookup_insert_eq in Hs1.
  apply run_assoc, run_after.
  { destruct (Session.GetBearer e s1); auto with keeps. apply keeps_ret, _. }
  { destruct (Session.GetBearer e s1); [apply steady_SetBearer|apply keeps_ret, _]. }
  intros _. apply run_on_sess; [|rewrite lookup_insert_eq; congruence].
  intros t2 s2 Hs2. rewrite lookup_insert_eq in Hs2. injection Hs2 as Hid2 Hst2 Hb2.
  assert (core (Session.Transition t2 SessionData.StateActive s2).2.1 = (id, SessionData.StateActive, binding)) as ->.
  { unfold Session.Transition. rewrite <-Hst2. cbn. unfold core. cbn. by rewrite <-Hid2, <-Hb2. }
  eapply Hm; try done; cbn; by rewrite ?lookup_insert_eq.
Qed.

Definition outcome (a : UDPAddr) (h : Header) (x y : Facts) : Prop := refused a h x y \/ established a h x y.
Lemma run_refused {A} a h x y (m : M W A) :
  run_to y m (fun _ => refused a h x) -> run_to y m (fun _ => outcome a h x).
Proof. intros Hm. eapply run_mono; [exact Hm|]. by left. Qed.

(** Facts that stay while the new session is on its way. *)
Lemma run_setting {A} x id l y f (m : M W A) Q :
  on_the_way x id l y -> (forall t s, core (f t s).1 = core s) ->
  run_to y m Q -> run_to y (on_sess l f ≫= fun _ => m) Q.
Proof.
  intros _ Hf Hm. apply run_after; [auto with keeps|by apply steady_on_sess|by intros].
Qed.

Section Create.
Context (a : UDPAddr) (h : Header) (req : CreateSessionRequest).
Context (Hmt : MessageType h = MsgTypeCreateSessionRequest) (Hreq : CSReq_Header req = h).

Lemma create_response : ResponseTypeFor (MessageType h) = Some MsgTypeCreateSessionResponse.
Proof using Hmt. by rewrite Hmt. Qed.

Lemma run_gateway_accepted x id l y teid pa e t5c r p :
  on_the_way x id l y ->
  run_to y (gateway_accepted a h req teid pa e l t5c r p) (fun _ => outcome a h x).
Proof using Hmt Hreq.
  intros Hy. unfold gateway_accepted.
  apply run_after; [auto with keeps|apply steady_store_answer|intros _].
  apply run_after; [auto with keeps|auto with keeps|intros [[]|err]].
  - eapply run_activated; [exact Hy|]. intros z p' ? ? ? ? ? ?.
    eapply run_mono; [by eapply respond_outcome|]. intros ? ? ?. by right.
  - apply run_refused. apply run_after; [auto with keeps|auto with keeps|intros s].
    apply run_after; [unfold S5c.DeleteSession; auto with keeps|auto with keeps|intros _].
    apply run_after; [auto with keeps|auto with keeps|intros _].
    eapply (run_undone a h x y id l Hy _ _ CauseSystemFailure); [auto with keeps|auto with keeps| |done].
    intros z. eapply run_sendCause, create_response.
Qed.

Lemma run_rejection z c : run_to z (relay_rejection a req c) (fun _ y => answered a h c z y).
Proof using Hmt Hreq.
  unfold relay_rejection. rewrite Hreq. apply run_reply_raw; [apply create_response|apply Marshal_cause].
Qed.

Lemma run_ask_gateway x id l y teid pa e p :
  on_the_way x id l y ->
  run_to y (ask_gateway a h req teid pa e l p) (fun _ => outcome a h x).
Proof using Hmt Hreq.
  intros Hy. unfold ask_gateway.
  apply run_after; [auto with keeps|auto with keeps|intros [t5c|err]].
  2: { apply run_refused. apply run_after; [auto with keeps|auto with keeps|intros _].
       eapply run_give_up; [apply create_response|exact Hy|done]. }
  apply run_after; [auto with keeps|apply steady_get_h|intros hd].
  eapply run_setting; [exact Hy|done|].
  apply run_after; [auto with keeps|auto with keeps|intros s].
  apply run_after; [auto with keeps|apply steady_register_s5c|intros _].
  apply run_after; [auto with keeps|auto with keeps|intros answer]. cbv zeta.
  assert (Hundo : forall c (m : M W unit), (forall z, run_to z m (fun _ y => answered a h c z y)) ->
    (c =? CauseRequestAccepted) = false ->
    run_to y ((release_pfcp (S11Pfcp.peerAddr p) (S11Pfcp.upSEID p) ;; drop_session l ;;
               on_s5c (S5c.FreeTEID t5c)) ;; m) (fun _ => outcome a h x)).
  { intros c m Hm Hc. apply run_refused. apply run_assoc.
    apply run_after; [auto with keeps|auto with keeps|intros _]. apply run_assoc.
    by eapply (run_undone a h x y id l Hy _ _ c); [auto with keeps|auto with keeps|..]. }
  destruct answer as [r|err].
  - destruct (negb _) eqn:Ec; [|by eapply run_gateway_accepted].
    apply (Hundo (S5c.Cause r)); [|by apply negb_true_iff]. intros z. apply run_rejection.
  - apply (Hundo CauseSystemFailure); [|done]. intros z. eapply run_sendCause, create_response.
Qed.

Lemma run_establish x id l y teid :
  on_the_way x id l y -> run_to y (establish a h req teid l) (fun _ => outcome a h x).
Proof using Hmt Hreq.
  intros Hy. unfold establish. cbv zeta.
  assert (Hgive : forall c, (c =? CauseRequestAccepted) = false ->
    run_to y (drop_session l ;; sendCause a h teid c) (fun _ => outcome a h x)).
  { intros c Hc. apply run_refused. by eapply run_give_up; [apply create_response|exact Hy|]. }
  destruct (S5c.PGWAddr req) as [pa|err]; [|by apply Hgive].
  apply run_after; [auto with keeps|auto with keeps|intros [|]]; cbn [negb]; [|by apply Hgive].
  apply run_after; [auto with keeps|apply steady_get_h|intros hd].
  apply run_after; [auto with keeps|auto with keeps|intros s].
  apply run_after; [auto with keeps|auto with keeps|intros [p|err]]; [|by apply Hgive].
  by apply (run_ask_gateway _ id).
Qed.
End Create.

Lemma entered_named b c b' l id st p :
  named b c -> b' ⊆ b -> c !! l = None -> named (<[id := l]> b') (<[l := (id, st, p)]> c).
Proof.
  intros Hn Hb Hl id' l' Hid. apply lookup_insert_Some in Hid as [[<- <-]|[Hne Hid]].
  - rewrite lookup_insert_eq. eauto.
  - destruct (Hn id' l') as (st' & p' & Hc); [by eapply lookup_weaken|].
    rewrite lookup_insert_ne; [eauto|]. intros ->. congruence.
Qed.
Lemma run_create_session x req h (k : result SessionManager.CreateError (loc * option loc) -> M W unit) Q :
  named x.1.1 x.1.2 ->
  (forall e, run_to x (k (Err e)) Q) ->
  (forall id l ev y, on_the_way x id l y -> run_to y (k (Ok (l, ev))) Q) ->
  run_to x (create_session req h ≫= k) Q.
Proof.
  intros Hn He Hk.
  eapply (run_bind _ _ _ _ (fun r y => match r with
    | Err _ => y = x | Ok (l, _) => exists id, on_the_way x id l y end)).
  2: { intros [[l ev]|e] y; [by intros (id & Hy); eapply Hk|by intros ->]. }
  unfold create_session.
  do 3 (apply run_after; [apply keeps_unwrap, _|apply keeps_unwrap, _|intros ?]).
  apply run_after; [apply keeps_gets, _|apply keeps_gets, _|intros m0]. cbv zeta.
  apply run_after; [keeps_tac|keeps_tac|intros rnd].
  do 2 (apply run_after; [auto with keeps|auto with keeps|intros ?]).
  apply run_after; [auto with keeps|apply steady_sessions_order|intros order].
  match goal with |- run_to _ (on_mgr ?f) _ => set (step := f) end.
  intros w r w' <- Er. pose proof (quiet_on_mgr _ _ _ _ Er) as Hq. unfold same in Hq.
  unfold on_mgr, mbind, M_bind, act in Er. cbn in Er. unfold step in Er. clear step.
  match type of Er with context [SessionManager.Create ?t ?rn ?i ?o ?l ?p (mgr w)] =>
    pose proof (Create_view t rn i o l p (mgr w)) as Hv;
    assert (Hl : SessionManager.heap (mgr w) !! l = None) by apply not_elem_of_dom, is_fresh;
    destruct (SessionManager.Create t rn i o l p (mgr w)) as [[r0 m'] calls] end.
  cbn in Er. injection Er as <- <-.
  destruct r0 as [[l' ev]|e].
  - destruct Hv as (-> & id & s & b & Hb & Hc & Hi & Hh). exists id.
    unfold facts, view, registry in *. cbn in *. rewrite Hi, Hh, fmap_insert, Hc.
    assert (Hfl : (core <$> SessionManager.heap (mgr w)) !! fresh (dom (SessionManager.heap (mgr w))) = None)
      by by rewrite lookup_fmap, Hl.
    split; cbn; [by eapply entered_named|by rewrite lookup_insert_eq| |done| |done].
    + rewrite delete_insert_eq. etrans; [apply delete_subseteq|done].
    + rewrite lookup_insert_eq. eauto.
  - destruct Hv as [Hi Hh]. unfold facts, view, registry in *. cbn in *. by rewrite Hi, Hh, Hq.
Qed.

Lemma create_outcome a h ies x :
  MessageType h = MsgTypeCreateSessionRequest -> named x.1.1 x.1.2 ->
  run_to x (handleCreateSessionRequest a h ies) (fun _ => outcome a h x).
Proof.
  intros Hm Hn. pose proof (create_response h Hm) as Hr.
  assert (Hsay : forall c (m : M W unit), run_to x m (fun _ y => answered a h c x y) ->
    (c =? CauseRequestAccepted) = false -> run_to x m (fun _ => outcome a h x)).
  { intros c m Hs Hc. eapply run_mono; [exact Hs|]. intros r y (raw & -> & Hsays). left.
    split; [done|]. cbn. eauto. }
  unfold handleCreateSessionRequest. destruct (ParseCreateSessionRequest h ies) as [req|e] eqn:Ep.
  2: { unfold sendMissingIECause. destruct e; (eapply Hsay; [by eapply run_offending|done]). }
  apply CSReq_Header_kept in Ep.
  apply run_after; [apply keeps_unwrap, _|apply keeps_unwrap, _|intros fteidIE]. cbv zeta.
  apply run_create_session; [done| |].
  - intros e. eapply Hsay; [by eapply run_sendCause|done].
  - intros id l ev y Hy. apply run_after; [auto with keeps|apply steady_release_evicted|intros _].
    by eapply run_establish.
Qed.

(** ** Delete Session *)

(** From the facts [x]: the registry is as it was and the MME is told a failure. *)
Definition kept (a : UDPAddr) (h : Header) (x y : Facts) : Prop :=
  y.1.1 = x.1.1 /\
  exists c raw, y.2 = x.2 ++ [(a, raw)] /\ says h c raw /\ (c =? CauseRequestAccepted) = false.
(** From the facts [x]: one session is out of the registry and the MME is told so. *)
Definition removed (a : UDPAddr) (h : Header) (id : string) (x y : Facts) : Prop :=
  y.1.1 = delete id x.1.1 /\
  exists raw, y.2 = x.2 ++ [(a, raw)] /\ says h CauseRequestAccepted raw.

Lemma run_kept {A} a h x y c (m : M W A) :
  y.1.1 = x.1.1 -> y.2 = x.2 -> (c =? CauseRequestAccepted) = false ->
  run_to y m (fun _ z => answered a h c y z) -> run_to y m (fun _ => kept a h x).
Proof.
  intros Hb Hr Hc Hm. eapply run_mono; [exact Hm|]. intros r z (raw & -> & Hs). split; [done|].
  cbn. rewrite Hr. eauto.
Qed.
Lemma delete_at_gateway_refuses l h req es t :
  yields (S := W) (delete_at_gateway l h req es t)
    (fun r => forall resp, r = Some resp -> exists hasTEID c cs, (c =? CauseRequestAccepted) = false /\
       resp = Marshal (simple_header hasTEID MsgTypeDeleteSessionResponse t (SequenceNumber (DSReq_Header req)))
                [NewCause c 0 0 cs None]).
Proof. unfold delete_at_gateway, MarshalDeleteSessionResponse. yields_tac; intros ? [= <-]; eexists _, _, _; by (split; [|reflexivity]). Qed.

Lemma run_recovery y a h typ teid :
  ResponseTypeFor (MessageType h) = Some typ ->
  run_to y (accept_with_recovery a typ teid (SequenceNumber h))
    (fun _ z => answered a h CauseRequestAccepted y z).
Proof.
  intros Ht. unfold accept_with_recovery.
  eapply (run_after_yields _ _ _ _ (fun rec => forall i, rec = Some i -> exists v, i = NewRecovery v));
    [auto with keeps|auto with keeps| |].
  - unfold maybeRecoveryIE. yields_tac; intros i Hi; [done|injection Hi as <-; eauto].
  - intros rec Hrec. apply run_reply_checked; [done|]. by apply Marshal_cause_recovery.
Qed.

Lemma run_handle_delete a h req l es t x id st p :
  MessageType h = MsgTypeDeleteSessionRequest -> DSReq_Header req = h ->
  named x.1.1 x.1.2 -> x.1.2 !! l = Some (id, st, p) ->
  run_to x (handle_delete a h req l es t) (fun _ y => kept a h x y \/ removed a h id x y).
Proof.
  intros Hm Hh Hn Hl. assert (ResponseTypeFor (MessageType h) = Some MsgTypeDeleteSessionResponse) as Hr
    by by rewrite Hm.
  destruct x as [[b c] rs]. cbn in Hn, Hl. unfold handle_delete. apply run_on_sess; [|congruence].
  intros t0 s Hs. rewrite Hl in Hs. injection Hs as Hid _ _.
  set (c' := <[l := _]> c). assert (Hl' : exists st' p', c' !! l = Some (id, st', p')).
  { unfold c'. rewrite lookup_insert_eq. unfold core. eexists _, _. f_equal. f_equal. f_equal.
    rewrite Hid. unfold Session.Transition. by destruct (negb _). }
  assert (Hn' : named b c').
  { intros id' l' Hid'. destruct (decide (l' = l)) as [->|Hne].
    - destruct (Hn id' l Hid') as (st' & p' & Hc). rewrite Hl in Hc. injection Hc as <- _ _. exact Hl'.
    - unfold c'. rewrite lookup_insert_ne by congruence. by apply Hn. }
  clearbody c'. clear s Hid.
  eapply run_after_yields; [auto with keeps|apply steady_delete_at_gateway|apply delete_at_gateway_refuses|].
  intros [resp|] Hresp.
  - destruct (Hresp _ eq_refl) as (ht & cause & cs & Hc & ->). rewrite Hh.
    eapply run_mono; [eapply (run_kept a h (b, c, rs) (b, c', rs) cause)|by left]; try done.
    apply run_reply_raw; [done|apply Marshal_cause].
  - apply run_after; [auto with keeps|auto with keeps|intros s].
    apply run_after; [auto with keeps|auto with keeps|intros _].
    destruct Hl' as (st' & p' & Hl'). eapply run_drop; [done|exact Hl'|]. rewrite Hh.
    eapply run_mono; [by apply run_recovery|]. intros r y (raw & -> & Hs). right. split; [done|]. eauto.
Qed.

Lemma core_at w l id st p : (view w).2 !! l = Some (id, st, p) ->
  exists s, SessionManager.heap (mgr w) !! l = Some s /\ SessionData.SessionID s = id.
Proof.
  unfold view. cbn. rewrite lookup_fmap. destruct (SessionManager.heap (mgr w) !! l) as [s|]; [|done].
  intros Hs. injection Hs as <- _ _. eauto.
Qed.
Lemma delete_outcome a h ies w w' :
  MessageType h = MsgTypeDeleteSessionRequest -> named (registry w) (view w).2 ->
  handleDeleteSessionRequest a h ies w = Some (tt, w') ->
  kept a h (facts w) (facts w') \/
  exists req first l s, ParseDeleteSessionRequest h ies = Ok req /\
    SessionManager.FindByS11TEID (TEID h) (mgr w) = Some first /\
    delete_owner (TEID h) req first (mgr w) = Some l /\ SessionManager.heap (mgr w) !! l = Some s /\
    removed a h (SessionData.SessionID s) (facts w) (facts w').
Proof.
  intros Hm Hn Er. assert (ResponseTypeFor (MessageType h) = Some MsgTypeDeleteSessionResponse) as Hr
    by by rewrite Hm.
  assert (Hcause : forall c t teid, (c =? CauseRequestAccepted) = false ->
    run_to (facts w) (reply_raw a (Marshal (simple_header t MsgTypeDeleteSessionResponse teid (SequenceNumber h))
                                     [NewCause c 0 0 0 None])) (fun _ => kept a h (facts w))).
  { intros c t teid Hc. eapply run_kept; [done|done|exact Hc|]. by apply run_reply_raw; [|apply Marshal_cause]. }
  unfold handleDeleteSessionRequest in Er.
  destruct (ParseDeleteSessionRequest h ies) as [req|e] eqn:Ep; [|done].
  pose proof (DSReq_Header_kept _ _ _ Ep) as Hh. unfold MarshalDeleteSessionResponse in Er. rewrite Hh in Er.
  match type of Er with (gets mgr ≫= ?k) w = _ =>
    change (k (mgr w) w = Some (tt, w')) in Er; cbv beta in Er end.
  destruct (SessionManager.FindByS11TEID (TEID h) (mgr w)) as [first|] eqn:Ef.
  2: { left. by apply (Hcause CauseContextNotFound _ _ eq_refl _ _ _ eq_refl Er). }
  match type of Er with ?m w = _ =>
    assert (Hrun : run_to (facts w) m (fun _ y => kept a h (facts w) y \/
      exists l id st p, delete_owner (TEID h) req first (mgr w) = Some l /\
        (view w).2 !! l = Some (id, st, p) /\ removed a h id (facts w) y)) end.
  { apply run_session. intros s0 _. destruct (delete_owner (TEID h) req first (mgr w)) as [l|] eqn:Eo.
    2: { eapply run_mono; [by apply Hcause|]. by left. }
    apply run_session. intros s Hs. cbv zeta.
    apply run_after; [auto with keeps|apply steady_begin|intros [proc|]].
    2: { eapply run_mono; [by apply Hcause|]. by left. }
    eapply run_bind; [by eapply run_handle_delete; [..|exact Hs]|]. intros r y Hy.
    apply run_quiet; [auto with keeps|apply steady_finish|intros _].
    destruct Hy as [Hy|Hy]; [by left|]. right. exists l. unfold core in Hs. eauto 10. }
  destruct (Hrun w tt w' eq_refl Er) as [Hk|(l & id & st & p & Eo & Hl & Hd)]; [by left|right].
  destruct (core_at w l id st p Hl) as (s & Hs & <-). by exists req, first, l, s.
Qed.

(** ** Properties *)


End Registry.

Lemma world_named answers : named (registry (world answers)) (view (world answers)).2.
Proof. intros id l Hid. change ((∅ : gmap string loc) !! id = Some l) in Hid. by rewrite lookup_empty in Hid. Qed.
Definition created_ies (hr : Header * bytes) : list IE :=
  match Parse hr.2 with Ok (_, ies) => ies | Err _ => [] end.
Definition created_alone : World network :=
  match handleCreateSessionRequest mme create_request.1 (created_ies create_request) (world [pgw_accepts]) with
  | Some (_, w) => w | None => world [] end.


Lemma created_named : named (registry created_to_delete) (view created_to_delete).2.
Proof.
  assert (registry created_to_delete = {[ "0000000000000022"%string := 0%nat ]}) as -> by (vm_compute; reflexivity).
  intros id l Hid. apply lookup_singleton_Some in Hid as [<- <-].
  eexists _, _. vm_compute. reflexivity.
Qed.
Definition deleted_alone : World network :=
  match handleDeleteSessionRequest mme delete_request.1 (created_ies delete_request) created_to_delete with
  | Some (_, w) => w | None => created_to_delete end.


(** The deletion does go through: the registry is empty afterwards. *)
Example delete_request_runs : size (registry created_to_delete) = 1%nat /\ size (registry deleted_alone) = 0%nat.
Proof. split; vm_compute; reflexivity. Qed.
