(* ===== verification/S11Manager.v ===== *)
(** * What the steps do to the session manager

    The manager through the steps of the S11 world: which of them leave it alone, what a
    session's method changes, and what reading a session or the iteration order yields. *)

From S2P Require Import Prelude GoLib Effects SgwcIo.
From S2P Require SessionData Session SessionManager PfcpClient S11Registry.
From S2P Require Import S11.
#[local] Open Scope list_scope.
#[local] Open Scope Z_scope.

Section Manager.
Context {E : Type} `{Environment E}.
Notation W := (World E).

Definition session_at (w : W) (l : loc) : option SGWSession := SessionManager.heap (mgr w) !! l.

(** A step that leaves the manager alone, and any view of it. *)
Lemma mgr_on_io {A} (m : M (IO E) A) : keeps (same (mgr (E := E))) (on_io m).
Proof. eapply (keeps_zoom _ (fun _ _ => True)); [done|by intros]. Qed.
Lemma mgr_on_h {A} (f : Handler -> A * Handler) : keeps (same (mgr (E := E))) (on_h f).
Proof. apply keeps_act. intros w. by destruct (f (hs w)). Qed.
Lemma mgr_on_s5c {A} (m : M S5c.S A) : keeps (same (mgr (E := E))) (on_s5c m).
Proof. eapply (keeps_zoom _ (fun _ _ => True)); [done|by intros]. Qed.
Lemma mgr_on_pfcp {R} (f : PfcpClient.Client -> IO E -> result PfcpClient.ClientError R * PfcpClient.Client * IO E) :
  keeps (same (mgr (E := E))) (on_pfcp f).
Proof.
  unfold on_pfcp. apply keeps_bind; [apply _| |intros []; keeps_tac].
  apply keeps_act. intros w. by destruct (f (pfcp w) (io w)) as [[r c'] i].
Qed.
#[local] Hint Resolve mgr_on_io mgr_on_h mgr_on_s5c mgr_on_pfcp : keeps.
Lemma mgr_now : keeps (same (mgr (E := E))) now.
Proof. apply mgr_on_io. Qed.
Lemma mgr_session l : keeps (same (mgr (E := E))) (session l).
Proof. unfold session. keeps_tac. Qed.
Lemma mgr_keys ks : keeps (same (mgr (E := E))) (keys_order ks).
Proof. unfold keys_order. keeps_tac. Qed.
Lemma mgr_order gone : keeps (same (mgr (E := E))) (sessions_order gone).
Proof. unfold sessions_order. keeps_tac. Qed.

Lemma keeps_view {A X} (f : SessionManager.Manager -> X) (m : M W A) :
  keeps (same (mgr (E := E))) m -> keeps (same (fun w => f (mgr w))) m.
Proof. intros Hm w a w' Er. unfold same. f_equal. exact (Hm w a w' Er). Qed.

(** *** Readings *)

Lemma wp_session l (w : W) (Q : SGWSession -> W -> Prop) :
  (forall s, session_at w l = Some s -> Q s w) -> wp True (session l) Q w.
Proof. intros HQ. apply wp_bind, wp_gets, wp_unwrap; [done|]. intros s Hs. by apply HQ. Qed.
Lemma wp_session_at l (w : W) s (Q : SGWSession -> W -> Prop) :
  session_at w l = Some s -> Q s w -> wp True (session l) Q w.
Proof. intros Hs HQ. apply wp_session. intros s' Hs'. rewrite Hs in Hs'. by injection Hs' as <-. Qed.

(** The iteration order names every registered session. *)
Definition ids_ordered (w : W) (order : list string) : Prop :=
  forall id l, SessionManager.byID (mgr w) !! id = Some l -> id ∈ order.
Lemma order_complete (w : W) :
  wp True (sessions_order None) (fun order w' => mgr w' = mgr w /\ ids_ordered w order) w.
Proof.
  unfold sessions_order. apply wp_bind. eapply wp_keeps; [apply mgr_on_io|]. intros rank w1 Em.
  unfold same in Em. apply wp_bind, wp_gets, wp_ret. split; [done|]. intros id l Hl.
  rewrite ranged_Permutation, elem_of_elements, elem_of_dom, Em. by exists l.
Qed.

(** *** Methods of a session *)

Lemma mgr_on_sess l f (w : W) :
  wp True (on_sess l f) (fun _ w' => exists t, mgr w' = (SessionManager.on_session l (f t) (mgr w)).1) w.
Proof.
  unfold on_sess. apply wp_bind. eapply wp_keeps; [apply mgr_now|]. intros t w1 E1. unfold same in E1.
  unfold mgr_do, on_mgr. apply wp_bind, wp_act. intros calls w2 E2.
  apply wp_bind. eapply wp_keeps; [apply mgr_on_io|]. intros _ w3 E3. unfold same in E3.
  apply wp_ret. exists t. rewrite E3, <- E1.
  destruct (SessionManager.on_session l (f t) (mgr w1)) as [m k]. by injection E2 as <- <-.
Qed.
(** A method that leaves a view of sessions alone. *)
Lemma same_on_sess {X} (f : SGWSession -> X) l op : (forall t s, f (op t s).1 = f s) ->
  keeps (same (fun w : W => (SessionManager.byID (mgr w), f <$> SessionManager.heap (mgr w)))) (on_sess l op).
Proof.
  intros Hop w [] w' Er. destruct (wp_run True _ _ _ _ _ (mgr_on_sess l op w) Er) as [t Em].
  unfold same. cbv beta. rewrite Em. unfold SessionManager.on_session.
  destruct (SessionManager.heap (mgr w) !! l) as [s|] eqn:Es; [|done].
  pose proof (Hop t s) as Ho. destruct (op t s) as [s' k]. cbn in *.
  rewrite fmap_insert, Ho, insert_id; [done|]. by rewrite lookup_fmap, Es.
Qed.
(** A method that may not fail to take place. *)
Lemma on_sess_at l op (w : W) s : session_at w l = Some s ->
  wp True (on_sess l op) (fun _ w' => exists t, session_at w' l = Some (op t s).1
    /\ (forall l', l' <> l -> session_at w' l' = session_at w l')
    /\ SessionManager.byID (mgr w') = SessionManager.byID (mgr w)) w.
Proof.
  intros Hs. eapply wp_mono; [done| |apply mgr_on_sess]. intros _ w' [t Em]. exists t.
  unfold session_at in *. rewrite Em. unfold SessionManager.on_session. rewrite Hs.
  destruct (op t s) as [s' k]. cbn. split_and!; [by rewrite lookup_insert_eq| |done].
  intros l' Hne. by rewrite lookup_insert_ne.
Qed.

(** *** The registry *)

(** The registry names sessions by their own ids. *)
Definition named_sessions (w : W) : Prop := forall id l,
  SessionManager.byID (mgr w) !! id = Some l ->
  exists s, session_at w l = Some s /\ SessionData.SessionID s = id.
Lemma view_named (w : W) : S11Registry.named (S11Registry.registry w) (S11Registry.view w).2 -> named_sessions w.
Proof.
  intros Hn id l Hl. destruct (Hn id l Hl) as (st & b & Hc). cbn in Hc. rewrite lookup_fmap in Hc.
  apply fmap_Some in Hc as (s & Hs & Ec). exists s. split; [done|]. by injection Ec.
Qed.

(** The registered sessions. *)
Definition registered (w : W) : list loc := (map_to_list (SessionManager.byID (mgr w))).*2.
Lemma listed_registered order m : Permutation order (elements (dom (SessionManager.byID m))) ->
  Permutation (SessionManager.SessionList order m) (map_to_list (SessionManager.byID m)).*2.
Proof.
  intros Ho. set (ids := SessionManager.byID m) in *.
  assert (Permutation order (map_to_list ids).*1) as Hk.
  { rewrite Ho. apply NoDup_Permutation; [apply NoDup_elements|apply NoDup_fst_map_to_list|].
    intros id. rewrite elem_of_elements, elem_of_dom, list_elem_of_fmap. split.
    - intros [l Hl]. exists (id, l). split; [done|]. by apply elem_of_map_to_list.
    - intros ([id' l] & -> & Hl). apply elem_of_map_to_list in Hl. by exists l. }
  unfold SessionManager.SessionList, SessionManager.in_order. rewrite Hk.
  assert (forall ps, Forall (fun p => ids !! p.1 = Some p.2) ps -> omap (fun id => ids !! id) ps.*1 = ps.*2) as Hl.
  { induction 1 as [|p ps Hp _ IH]; [done|]. cbn. by rewrite Hp, IH. }
  fold ids. rewrite Hl; [done|]. apply Forall_forall. intros [id l] Hp. by apply elem_of_map_to_list in Hp.
Qed.
Lemma registered_nodup (w : W) : named_sessions w -> NoDup (registered w).
Proof.
  intros Hn. unfold registered. apply NoDup_fmap_2_strong; [|apply NoDup_map_to_list].
  intros [id l] [id' l'] H1 H2 El. cbn in El. subst l'. apply elem_of_map_to_list in H1, H2.
  destruct (Hn _ _ H1) as (s & Hs & <-), (Hn _ _ H2) as (s' & Hs' & <-). congruence.
Qed.
Lemma elem_registered (w : W) l : l ∈ registered w <-> exists id, SessionManager.byID (mgr w) !! id = Some l.
Proof.
  unfold registered. rewrite list_elem_of_fmap. split.
  - intros ([id l'] & -> & Hp). apply elem_of_map_to_list in Hp. by exists id.
  - intros [id Hl]. exists (id, l). split; [done|]. by apply elem_of_map_to_list.
Qed.
End Manager.

#[export] Hint Resolve mgr_on_io mgr_on_h mgr_on_s5c mgr_on_pfcp mgr_now mgr_session mgr_keys mgr_order : keeps.
