(* ===== verification/IdleDownlink.v ===== *)
(** * Idle downlink handler ([internal/sgwc/idledownlink/handler.go])

    What the SGW-C does with a report of the SGW-U about a packet for an idle subscriber:
    policies decide whether it is worth waking the subscriber, a throttle spaces the
    reports of one bearer, and the notification control has the last word.  The handler
    runs over the world of the S11 handlers, whose [ddnCtl] is the state the handlers
    share. *)

From S2P Require Import Prelude GoLib GoText Effects SgwcIo.
From S2P Require Bearer SessionData Session SessionManager PfcpIe DdnControl PolicyReason SgwcConfig.
From S2P Require S11 S11Ddn S11Frames S11Example.
From S2P Require Import S11Manager.
#[local] Open Scope string_scope.
#[local] Open Scope list_scope.
#[local] Open Scope Z_scope.
Notation loc := SessionManager.loc.

Record Config := mkConfig {
  Enabled : bool; TriggerDDN : bool; ReportThrottle : duration; RequireReleaseAccessDrop : bool;
  HighPriority : list DdnControl.PriorityRule; Suppress : list DdnControl.PriorityRule
}.

(** [hasSender] and [hasControl]: the handler was given a sender and the control state. *)
Record Handler := mkHandler {
  hasSender : bool; hasControl : bool; cfg : Config; lastReport : gmap string time;
  reports : Z; suppressed : Z; throttled : Z; ddnSent : Z; ddnFailed : Z
}.
#[export] Instance eta_Handler : Eta Handler := fun h =>
  mkHandler (hasSender h) (hasControl h) (cfg h) (lastReport h) (reports h) (suppressed h)
    (throttled h) (ddnSent h) (ddnFailed h).

Definition New (c : Config) : Handler := mkHandler false false c ∅ 0 0 0 0 0.
Definition SetDDNSender (sender : bool) (h : Handler) : Handler := h <| hasSender := sender |>.
Definition SetDDNControl (control : bool) (h : Handler) : Handler := h <| hasControl := control |>.

Record Snapshot := mkSnapshot {
  sn_Enabled : bool; sn_TriggerDDN : bool; sn_Reports : Z; sn_Suppressed : Z; sn_Throttled : Z;
  sn_DDNSent : Z; sn_DDNFailed : Z; TrackedBearers : nat
}.
Definition snapshot (h : Handler) : Snapshot :=
  mkSnapshot (Enabled (cfg h)) (TriggerDDN (cfg h)) (reports h) (suppressed h) (throttled h)
    (ddnSent h) (ddnFailed h) (size (lastReport h)).

(** ** Policies *)

Section Policies.
Context `{Unicode}.

Definition priorityRules (rules : list SgwcConfig.DDNControlPriorityRuleConfig) (action : string)
    : list DdnControl.PriorityRule :=
  (fun r =>
     DdnControl.mkPriorityRule (SgwcConfig.dcr_APN r) (SgwcConfig.dcr_QCI r)
       (SgwcConfig.dcr_ARPPriorityMin r) (SgwcConfig.dcr_ARPPriorityMax r)
       (PolicyReason.Build "idle-downlink" action
          (PolicyReason.mkRule (SgwcConfig.dcr_APN r) (SgwcConfig.dcr_QCI r)
             (SgwcConfig.dcr_ARPPriorityMin r) (SgwcConfig.dcr_ARPPriorityMax r) "" 0))) <$> rules.
Definition ConfigFromSGWC (c : SgwcConfig.IdleDownlinkConfig) : Config :=
  mkConfig (SgwcConfig.id_Enabled c) (SgwcConfig.id_TriggerDDN c)
    (i64 (SgwcConfig.ReportThrottleSeconds c * Second)) (SgwcConfig.RequireReleaseAccessDrop c)
    (priorityRules (SgwcConfig.id_HighPriority c) "high-priority")
    (priorityRules (SgwcConfig.Suppress c) "suppress").

Definition ruleMatches (r : DdnControl.PriorityRule) (c : DdnControl.Candidate) : bool :=
  let arp := DdnControl.c_ARPPriority c in
  if negb (String.eqb (DdnControl.pr_APN r) "")
     && negb (GoText.Contains (ToLower (DdnControl.c_APN c)) (ToLower (DdnControl.pr_APN r))) then false
  else if negb (DdnControl.pr_QCI r =? 0) && negb (DdnControl.pr_QCI r =? DdnControl.c_QCI c) then false
  else if negb (DdnControl.ARPPriorityMin r =? 0) && ((arp =? 0) || (arp <? DdnControl.ARPPriorityMin r))
  then false
  else if negb (DdnControl.ARPPriorityMax r =? 0) && ((arp =? 0) || (DdnControl.ARPPriorityMax r <? arp))
  then false
  else true.
Definition matchesAny (rules : list DdnControl.PriorityRule) (c : DdnControl.Candidate) : bool * string :=
  match List.find (fun r => ruleMatches r c) rules with
  | Some r => (true, if blank (DdnControl.pr_Reason r) then "idle-downlink-policy-match"
                     else DdnControl.pr_Reason r)
  | None => (false, "idle-downlink-policy-no-match")
  end.
End Policies.

Definition candidate (s : SessionData.SGWSession) (report : PfcpIe.VectorCoreIdleDownlinkReport)
    : DdnControl.Candidate :=
  let ebi := if PfcpIe.EBI report =? 0 then SessionData.DefaultBearerID s else PfcpIe.EBI report in
  let b := Session.GetBearer ebi s in
  DdnControl.mkCandidate
    (Addr_String (SessionData.ft_IPv4 (SessionData.MMEControlFTEID s)) ++ ":2123")%string
    (SessionData.IMSI s) (SessionData.APN s) ebi
    (if PfcpIe.QCI report =? 0 then from_option Bearer.QCI 0 b else PfcpIe.QCI report)
    (from_option (fun b => Bearer.PriorityLevel (Bearer.BearerARP b)) 0 b).

(** A report is throttled, or the bearer's last report is now. *)
Definition throttle_key (sessionID : string) (ebi : Z) : string := (sessionID ++ "/" ++ Itoa ebi)%string.
Definition throttle (sessionID : string) (ebi : Z) (at_ : time) (h : Handler)
    : (bool * duration) * Handler :=
  if ReportThrottle (cfg h) <=? 0 then ((false, 0), h)
  else
    let key := throttle_key sessionID ebi in
    let passed := ((false, 0), h <| lastReport := <[key := at_]> (lastReport h) |>) in
    match lastReport h !! key with
    | Some last_ =>
        let until := Add last_ (ReportThrottle (cfg h)) in
        if Before at_ until then ((true, Sub until at_), h) else passed
    | None => passed
    end.

(** ** Reports *)

Section Reports.
Context {E : Type} `{Environment E} `{Unicode} (fold : Z -> Z).
Notation World := (S11.World E).
Notation P A := (M (Handler * World) A).

(** [Add(1)] on one of the counters. *)
Definition bump (f : Handler -> Handler) : P unit := on_fst (modify f).
Definition count_report (h : Handler) : Handler := h <| reports := u64 (reports h + 1) |>.
Definition count_suppressed (h : Handler) : Handler := h <| suppressed := u64 (suppressed h + 1) |>.
Definition count_throttled (h : Handler) : Handler := h <| throttled := u64 (throttled h + 1) |>.
Definition count_sent (h : Handler) : Handler := h <| ddnSent := u64 (ddnSent h + 1) |>.
Definition count_failed (h : Handler) : Handler := h <| ddnFailed := u64 (ddnFailed h + 1) |>.

(** The notification control decides on the shared state. *)
Definition control (c : DdnControl.Candidate) (at_ : time) : M World DdnControl.Decision :=
  t ← S11.now;
  S11.on_h (fun h => let '(d, st) := DdnControl.Decide fold t c at_ (S11.ddnCtl h) in
                     (d, S11.SetDDNControl st h)).
Definition decide_ (c : DdnControl.Candidate) (at_ : time) : P DdnControl.Decision :=
  h ← gets fst;
  if hasControl h then on_snd (control c at_)
  else mret (DdnControl.mkDecision DdnControl.ActionSendNow DdnControl.PriorityHigh
               "idle-downlink-ddn-control-unavailable" 0 false c 0 0).

Definition notify (l : loc) (at_ : time) : P unit :=
  r ← on_snd (S11Ddn.SendDownlinkDataNotification true l);
  match r with
  | Err _ => bump count_failed
  | Ok seq =>
      bump count_sent ;;
      on_snd (S11.on_sess l (fun t => Session.MarkMMERestorationDDNTriggered t seq at_))
  end.

(** The report of a session, once the policies are known to want it. *)
Definition deliver (l : loc) (sessionID : string) (c : DdnControl.Candidate) : P unit :=
  at_ ← on_snd S11.now;
  t ← on_fst (act (throttle sessionID (DdnControl.c_EBI c) at_));
  h ← gets fst;
  if t.1 : bool then bump count_throttled
  else if negb (TriggerDDN (cfg h)) then bump count_suppressed
  else
    d ← decide_ c at_;
    if negb (String.eqb (DdnControl.Action d) "")
       && negb (String.eqb (DdnControl.Action d) DdnControl.ActionSendNow) then bump count_suppressed
    else if negb (hasSender h) then bump count_failed
    else notify l at_.

Definition HandleReport (report : PfcpIe.VectorCoreIdleDownlinkReport) : P unit :=
  h ← gets fst;
  if negb (Enabled (cfg h)) then mret tt
  else
    bump count_report ;;
    if RequireReleaseAccessDrop (cfg h)
       && negb (PfcpIe.R_DropReason report =? PfcpIe.VectorCoreIdleDownlinkDropReleaseAccessBearers)
    then bump count_suppressed
    else
      order ← on_snd (S11.sessions_order None);
      m ← gets (fun p => S11.mgr p.2);
      match SessionManager.FindByPFCPSEID order (PfcpIe.CPSEID report) (PfcpIe.UPSEID report) m with
      | None => bump count_suppressed
      | Some l =>
          s ← on_snd (S11.session l);
          let c := candidate s report in
          if (matchesAny (Suppress (cfg h)) c).1 then bump count_suppressed
          else if negb (matchesAny (HighPriority (cfg h)) c).1 then bump count_suppressed
          else deliver l (SessionData.SessionID s) c
      end.
End Reports.

(** ** What a report leads to *)

(** How the handling of a counted report ends. *)
Inductive ending := Ignored | Throttled | NotSent | Woken.
#[export] Instance ending_eq_dec : EqDecision ending.
Proof. solve_decision. Defined.
Definition ended (e : ending) : Handler -> Handler :=
  match e with
  | Ignored => count_suppressed | Throttled => count_throttled | NotSent => count_failed
  | Woken => count_sent
  end.

(** The last report of a bearer is at least [d] before [at_]. *)
Definition paced (d : duration) (last_ : option time) (at_ : time) : Prop :=
  0 < d -> forall t, last_ = Some t -> t + d <= at_.

Section Outcome.
Context {E : Type} `{Environment E} `{Unicode} (fold : Z -> Z).
Notation World := (S11.World E).

(** The report names the session's PFCP session. *)
Definition names (report : PfcpIe.VectorCoreIdleDownlinkReport) (s : SessionData.SGWSession) : Prop :=
  let b := SessionData.PFCP s in
  SessionData.pb_Established b = true
  /\ (PfcpIe.CPSEID report = 0 \/ SessionData.fs_SEID (SessionData.pb_LocalFSEID b) = PfcpIe.CPSEID report)
  /\ (PfcpIe.UPSEID report = 0 \/ SessionData.fs_SEID (SessionData.pb_SGWUFSEID b) = PfcpIe.UPSEID report).
(** The policies want the subscriber woken. *)
Definition wanted (c : Config) (report : PfcpIe.VectorCoreIdleDownlinkReport)
    (s : SessionData.SGWSession) : Prop :=
  (RequireReleaseAccessDrop c = true ->
   PfcpIe.R_DropReason report = PfcpIe.VectorCoreIdleDownlinkDropReleaseAccessBearers)
  /\ (matchesAny (Suppress c) (candidate s report)).1 = false
  /\ (matchesAny (HighPriority c) (candidate s report)).1 = true
  /\ TriggerDDN c = true.

(** What justifies a notification to [a]. *)
Record justified (report : PfcpIe.VectorCoreIdleDownlinkReport) (h : Handler) (w : World)
    (lasts : gmap string time) (a : UDPAddr) : Prop := mkJustified {
  ju_session : exists l s ip at_,
    session_at w l = Some s /\ names report s /\ wanted (cfg h) report s
    /\ As4 (SessionData.ft_IPv4 (SessionData.MMEControlFTEID s)) = Some ip /\ a = mkUDPAddr ip 2123
    /\ (let key := throttle_key (SessionData.SessionID s) (DdnControl.c_EBI (candidate s report)) in
       paced (ReportThrottle (cfg h)) (lastReport h !! key) at_
       /\ lasts = (if 0 <? ReportThrottle (cfg h) then <[key := at_]> (lastReport h) else lastReport h))
    /\ (hasControl h = true -> exists now,
        DdnControl.Action (DdnControl.Decide fold now (candidate s report) at_ (S11.ddnCtl (S11.hs w))).1
        = DdnControl.ActionSendNow);
  ju_sender : hasSender h = true
}.
(** The frames of a report: at most one, and only a justified one. *)
Definition frames_ok (report : PfcpIe.VectorCoreIdleDownlinkReport) (h : Handler) (w : World) (e : ending)
    (lasts : gmap string time) (frames : list (UDPAddr * bytes)) : Prop :=
  (frames = [] /\ e <> Woken)
  \/ exists a raw, frames = [(a, raw)] /\ (e = Woken \/ e = NotSent) /\ justified report h w lasts a.
Definition report_outcome (report : PfcpIe.VectorCoreIdleDownlinkReport) (h : Handler) (w : World)
    (h' : Handler) (w' : World) : Prop :=
  if Enabled (cfg h)
  then exists e lasts frames,
    h' = ended e (count_report h) <| lastReport := lasts |>
    /\ S11Frames.s11_replies w' = S11Frames.s11_replies w ++ frames
    /\ frames_ok report h w e lasts frames
  else h' = h /\ w' = w.

(** The frames an MME is sent by one message of its own. *)
Definition to_mme (s : SessionData.SGWSession) (frames : list (UDPAddr * bytes)) : Prop :=
  exists ip raw, As4 (SessionData.ft_IPv4 (SessionData.MMEControlFTEID s)) = Some ip
    /\ frames = [(mkUDPAddr ip 2123, raw)].
Definition sends {A} (s : SessionData.SGWSession) (w : World) (r : result S11Ddn.DdnError A) (w' : World)
    : Prop :=
  exists frames, S11Frames.s11_replies w' = S11Frames.s11_replies w ++ frames
    /\ ((frames = [] /\ exists e, r = Err e) \/ to_mme s frames).
Lemma sends_none {A} s (w w' : World) e :
  S11Frames.s11_replies w' = S11Frames.s11_replies w -> sends (A := A) s w (Err e) w'.
Proof. intros E0. exists []. rewrite app_nil_r. split; [done|]. left. eauto. Qed.

Lemma send_to_mme_frames live s raw (w : World) :
  wp True (S11Ddn.send_to_mme live (SessionData.MMEControlFTEID s) raw) (fun r w' => sends s w r w') w.
Proof.
  unfold S11Ddn.send_to_mme. destruct raw as [b|e]; [|by apply wp_ret, sends_none].
  apply wp_bind, wp_unwrap; [done|]. intros ip Hip.
  destruct live; cbn [negb]; [|by apply wp_ret, sends_none].
  apply wp_bind, wp_of_runs. intros ok w' Er. apply wp_ret. exists [(mkUDPAddr ip 2123, b)].
  split; [by eapply S11Frames.Reply_replies|]. right. by exists ip, b.
Qed.

(** The notification is the only frame of its procedure. *)
Lemma SendDDN_frames live l (w : World) s : session_at w l = Some s ->
  wp True (S11Ddn.SendDownlinkDataNotification live l) (fun r w' => sends s w r w') w.
Proof.
  intros Hs. unfold S11Ddn.SendDownlinkDataNotification. apply wp_bind.
  apply (wp_session_at l w s); [done|]. destruct (S11Ddn.mme_known _); cbn [negb]; [|by apply wp_ret, sends_none].
  destruct (Session.GetBearer _ s) as [b|]; [|by apply wp_ret, sends_none].
  apply wp_bind, wp_gets. apply wp_bind. eapply wp_keeps; [apply S11Frames.quiet_on_io, S11Frames.quiet_AllocSeq|].
  intros seq w1 E1. apply wp_bind, wp_unwrap; [done|]. intros sender _.
  apply wp_try. eapply wp_mono; [done| |apply (send_to_mme_frames live s)].
  intros r w2 (frames & E2 & Hf). unfold same in E1. rewrite E1 in E2.
  destruct r as [[]|e]; [apply wp_ret|]; exists frames; (split; [done|]); destruct Hf as [[-> [e' He]]|Hf];
    try done; [by right|left; eauto|by right].
Qed.

Notation state := (Handler * World)%type.
(** How a step of the handler ended, and what it sent. *)
Definition ends (p : state) (Q : ending -> list (UDPAddr * bytes) -> Prop) (p' : state) : Prop :=
  exists e frames, p'.1 = ended e p.1
    /\ S11Frames.s11_replies p'.2 = S11Frames.s11_replies p.2 ++ frames /\ Q e frames.
Lemma bump_ends e (p : state) (Q : ending -> list (UDPAddr * bytes) -> Prop) :
  Q e [] -> wp True (bump (ended e)) (fun _ p' => ends p Q p') p.
Proof.
  intros HQ. apply wp_on_fst, wp_modify. exists e, []. cbn. by rewrite app_nil_r.
Qed.

Definition notified (s : SessionData.SGWSession) (e : ending) (frames : list (UDPAddr * bytes)) : Prop :=
  (e = NotSent /\ frames = []) \/ ((e = Woken \/ e = NotSent) /\ to_mme s frames).
Lemma notify_ends l at_ (p : state) s : session_at p.2 l = Some s ->
  wp True (notify l at_) (fun _ p' => ends p (notified s) p') p.
Proof.
  intros Hs. unfold notify. apply wp_bind, wp_on_snd. eapply wp_mono; [done| |by apply SendDDN_frames].
  intros r w1 (frames & E1 & Hf). destruct r as [seq|e].
  - destruct Hf as [[_ [? ?]]|Hf]; [done|]. apply wp_bind, wp_on_fst, wp_modify, wp_on_snd.
    eapply wp_keeps; [apply S11Frames.quiet_on_sess|]. intros _ w2 E2. exists Woken, frames.
    cbn. split; [done|]. unfold same in E2. rewrite E2. split; [done|]. right. auto.
  - apply wp_on_fst, wp_modify. exists NotSent, frames. cbn. split; [done|]. split; [done|].
    destruct Hf as [[-> _]|Hf]; [by left|right; auto].
Qed.

(** The decision of the control, and what it leaves alone. *)
Lemma decide_allows c at_ (p : state) (Q : DdnControl.Decision -> state -> Prop) :
  (forall d p', p'.1 = p.1 -> S11Frames.s11_replies p'.2 = S11Frames.s11_replies p.2 ->
     (forall l, session_at p'.2 l = session_at p.2 l) ->
     (hasControl p.1 = true -> exists now, d = (DdnControl.Decide fold now c at_ (S11.ddnCtl (S11.hs p.2))).1) ->
     Q d p') ->
  wp True (decide_ fold c at_) Q p.
Proof.
  intros HQ. unfold decide_. apply wp_bind, wp_gets. destruct (hasControl p.1) eqn:Hc.
  - apply wp_on_snd. apply wp_of_runs. intros d w' Er. unfold control, mbind, M_bind, S11.now in Er.
    unfold S11.on_io, zoom, Now, on_env, act, S11.on_h in Er. cbn in Er.
    destruct (env_now _) as [t e]. cbn in Er.
    unfold act in Er. cbn in Er.
    destruct (DdnControl.Decide fold t c at_ (S11.ddnCtl (S11.hs p.2))) as [d0 st] eqn:Ed.
    injection Er as <- <-. apply HQ; [done..|]. intros _. exists t. by rewrite Ed.
  - apply wp_ret, HQ; done.
Qed.

(** Steps on the surroundings leave the handler's and the manager's state alone. *)
Definition parts (w : World) := (S11.hs w, S11.mgr w, S11Frames.s11_replies w).
Lemma now_parts : keeps (same parts) (S11.now (E := E)).
Proof.
  unfold S11.now, S11.on_io. eapply keeps_zoom; [apply S11Frames.quiet_Now|].
  intros w i Hi. unfold same, parts, S11Frames.s11_replies in *. cbn. by rewrite Hi.
Qed.
Lemma order_parts gone : keeps (same parts) (S11.sessions_order (E := E) gone).
Proof.
  unfold S11.sessions_order. apply keeps_bind; [apply _| |intros; keeps_tac].
  unfold S11.on_io. eapply keeps_zoom; [apply S11Frames.quiet_env|].
  intros w i Hi. unfold same, parts, S11Frames.s11_replies in *. cbn. by rewrite Hi.
Qed.

Definition with_lasts (lasts : gmap string time) (h : Handler) : Handler := h <| lastReport := lasts |>.
Lemma throttle_paced id ebi at_ h :
  let key := throttle_key id ebi in
  let t := throttle id ebi at_ h in
  (t.1.1 = true /\ t.2 = h)
  \/ (t.1.1 = false /\ paced (ReportThrottle (cfg h)) (lastReport h !! key) at_
      /\ t.2 = with_lasts (if 0 <? ReportThrottle (cfg h) then <[key := at_]> (lastReport h)
                           else lastReport h) h).
Proof.
  unfold throttle, with_lasts, paced. destruct (Z.leb_spec (ReportThrottle (cfg h)) 0) as [Hd|Hd].
  - right. split; [done|]. split; [lia|]. rewrite (proj2 (Z.ltb_ge _ _)) by lia. by destruct h.
  - rewrite (proj2 (Z.ltb_lt _ _)) by lia.
    destruct (lastReport h !! _) as [u|]; [|right; naive_solver].
    unfold Before, Add. destruct (Z.ltb_spec at_ (u + ReportThrottle (cfg h))); [by left|].
    right. split; [done|]. split; [|done]. intros _ ? [= <-]. lia.
Qed.

(** A control decides on one of its three actions. *)
Lemma Decide_acts now c at_ st : DdnControl.Action (DdnControl.Decide fold now c at_ st).1 <> "".
Proof.
  unfold DdnControl.Decide. destruct st as [st|]; [|done].
  unfold DdnControl.Decide_state. destruct (DdnControl.classifyLocked fold c st) as [priority reason].
  destruct (DdnControl.Enabled (DdnControl.cfg st)); cbn [negb]; [|done].
  unfold DdnControl.decide_refilled. repeat case_match; simplify_eq; done.
Qed.

Definition handled report (h : Handler) (w : World) (p' : state) : Prop :=
  exists e lasts frames, p'.1 = ended e (with_lasts lasts h)
    /\ S11Frames.s11_replies p'.2 = S11Frames.s11_replies w ++ frames
    /\ frames_ok report h w e lasts frames.
Lemma quit_handled report h w e lasts w1 : S11Frames.s11_replies w1 = S11Frames.s11_replies w -> e <> Woken ->
  wp True (bump (ended e)) (fun _ p' => handled report h w p') (with_lasts lasts h, w1).
Proof.
  intros Er He. apply wp_on_fst, wp_modify. exists e, lasts, []. rewrite app_nil_r.
  split; [done|]. split; [done|by left].
Qed.

Lemma deliver_handled report l s (h : Handler) (w : World) :
  session_at w l = Some s -> names report s ->
  (TriggerDDN (cfg h) = true -> wanted (cfg h) report s) ->
  wp True (deliver fold l (SessionData.SessionID s) (candidate s report))
    (fun _ p' => handled report h w p') (h, w).
Proof.
  intros Hs Hn Hw. unfold deliver.
  apply wp_bind, wp_on_snd. eapply wp_keeps; [apply now_parts|]. intros at_ w1 E1.
  apply wp_bind, wp_on_fst, wp_act. intros t h1 Et. cbn [fst snd] in Et.
  apply wp_bind, wp_gets. cbn [fst snd].
  pose proof (throttle_paced (SessionData.SessionID s) (DdnControl.c_EBI (candidate s report)) at_ h) as Ht.
  cbn zeta in Ht. rewrite Et in Ht. cbn [fst snd] in Ht. injection E1 as Eh Em Er.
  destruct Ht as [[-> ->]|(-> & Hp & ->)].
  { pose proof (quit_handled report h w Throttled (lastReport h) w1 Er) as Hq.
    replace (with_lasts (lastReport h) h) with h in Hq by (by destruct h). by apply Hq. }
  set (lasts := if 0 <? ReportThrottle (cfg h) then _ else _) in *. change (cfg (with_lasts lasts h)) with (cfg h).
  change (hasSender (with_lasts lasts h)) with (hasSender h).
  destruct (TriggerDDN (cfg h)) eqn:Htr; cbn [negb]; [|by apply (quit_handled report h w Ignored lasts)].
  apply wp_bind, decide_allows. cbn [fst snd]. intros d [h2 w2] E2 Er2 Hsess Hd. cbn [fst snd] in *. subst h2.
  rewrite Er in Er2. assert (session_at w2 l = Some s) as Hs2 by (rewrite Hsess; unfold session_at; by rewrite Em).
  destruct (_ && _) eqn:Ha; [by apply (quit_handled report h w Ignored lasts)|].
  destruct (hasSender h) eqn:Hsend; cbn [negb]; [|by apply (quit_handled report h w NotSent lasts)].
  eapply wp_mono; [done| |by apply (notify_ends l at_ (with_lasts lasts h, w2) s)].
  intros _ p' (e & frames & Eh' & Ef & Hn'). cbn [fst snd] in *. exists e, lasts, frames.
  split; [done|]. rewrite Er2 in Ef. split; [done|].
  destruct Hn' as [[-> ->]|(He & ip & raw & Hip & ->)]; [by left|]. right. exists (mkUDPAddr ip 2123), raw.
  split_and!; [done|done|]. split; [|done]. exists l, s, ip, at_. split_and!; try done; [by apply Hw|].
  intros Hc. destruct (Hd Hc) as [t0 ->]. exists t0. rewrite <- Eh.
  pose proof (Decide_acts t0 (candidate s report) at_ (S11.ddnCtl (S11.hs w1))) as Hne.
  apply String.eqb_neq in Hne. rewrite Hne in Ha. cbn [negb andb] in Ha.
  by apply negb_false_iff, String.eqb_eq in Ha.
Qed.

Lemma found_session order report m l : SessionManager.FindByPFCPSEID order (PfcpIe.CPSEID report)
    (PfcpIe.UPSEID report) m = Some l -> exists s, SessionManager.heap m !! l = Some s /\ names report s.
Proof.
  unfold SessionManager.FindByPFCPSEID, SessionManager.find_session. intros Hf.
  apply List.find_some in Hf as [_ Ht]. destruct (SessionManager.heap m !! l) as [s|]; [|done].
  exists s. split; [done|]. apply andb_true_iff in Ht as [Ht Hu]. apply andb_true_iff in Ht as [He Hc].
  apply orb_true_iff in Hu, Hc. rewrite !Z.eqb_eq in Hu, Hc. split_and!; [done|tauto|tauto].
Qed.

Lemma HandleReport_outcome report h w :
  wp True (HandleReport fold report) (fun _ p' => report_outcome report h w p'.1 p'.2) (h, w).
Proof.
  unfold HandleReport, report_outcome. apply wp_bind, wp_gets. cbn [fst].
  destruct (Enabled (cfg h)); cbn [negb]; [|by apply wp_ret].
  apply wp_bind, wp_on_fst, wp_modify. cbn [fst snd].
  eapply (wp_mono True True _ (fun _ p' => handled report (count_report h) w p')); [done| |].
  { intros _ p' (e & lasts & frames & E1 & E2 & Hf). exists e, lasts, frames. split_and!; [|done|].
    - rewrite E1. by destruct e.
    - destruct Hf as [Hf|(a & raw & -> & He & [[l Hj] Hs])]; [by left|]. right. exists a, raw.
      split_and!; [done|done|]. split; [by exists l|done]. }
  assert (forall w1, parts w1 = parts w -> wp True (bump count_suppressed)
            (fun _ p' => handled report (count_report h) w p') (count_report h, w1)) as Hquit.
  { intros w1 E1. injection E1 as _ _ Er.
    pose proof (quit_handled report (count_report h) w Ignored (lastReport h) w1 Er) as Hq. by apply Hq. }
  destruct (RequireReleaseAccessDrop (cfg h) && _) eqn:Hdrop; [by apply Hquit|].
  apply wp_bind, wp_on_snd. eapply wp_keeps; [apply order_parts|]. intros order w1 E1. unfold same in E1.
  apply wp_bind, wp_gets. cbn [fst snd].
  destruct (SessionManager.FindByPFCPSEID _ _ _ _) as [l|] eqn:Hfind; [|by apply Hquit].
  destruct (found_session _ _ _ _ Hfind) as (s & Hs & Hn).
  apply wp_bind, wp_on_snd, (wp_session_at l w1 s); [done|]. cbn [fst snd].
  destruct (matchesAny (Suppress (cfg h)) _).1 eqn:Hsup; [by apply Hquit|].
  destruct (matchesAny (HighPriority (cfg h)) _).1 eqn:Hhigh; cbn [negb]; [|by apply Hquit].
  injection E1 as Eh Em Er.
  eapply wp_mono; [done| |apply (deliver_handled report l s (count_report h) w1); try done].
  - intros _ p' (e & lasts & frames & H1 & H2 & Hf). exists e, lasts, frames. rewrite Er in H2.
    split_and!; [done|done|]. destruct Hf as [Hf|(a & raw & -> & He & [(l' & s' & ip & at_ & Hj) Hsend])]; [by left|].
    right. exists a, raw. split_and!; [done|done|]. split; [|done]. exists l', s', ip, at_.
    unfold session_at in *. by rewrite <- Em, <- Eh.
  - intros Htr. split_and!; try done. intros Hreq. cbn [cfg count_report] in Hreq.
    change (cfg (count_report h)) with (cfg h) in Hreq. rewrite Hreq in Hdrop. cbn [andb] in Hdrop.
    by apply negb_false_iff, Z.eqb_eq in Hdrop.
Qed.
End Outcome.

(** ** Property *)

(** C8: a report of the SGW-U wakes a subscriber only when that is wanted.  A disabled
    handler does nothing.  An enabled one counts the report and exactly one of its four
    endings (suppressed, throttled, failed, sent), and it sends nothing, unless the report
    names the PFCP session of a registered session, its drop reason is the one required,
    no suppress rule and some high-priority rule matches, notifications are switched on,
    the bearer's last report is at least the throttle interval ago, and the shared control
    lets the notification go; then it sends one datagram, to that session's MME, and
    remembers the time. *)
Theorem report_wakes_when_wanted {E : Type} `{Environment E} `{Unicode} (fold : Z -> Z) report
    (h h' : Handler) (w w' : S11.World E) :
  HandleReport fold report (h, w) = Some (tt, (h', w')) -> report_outcome fold report h w h' w'.
Proof. intros Hr. exact (wp_run True _ _ _ _ _ (HandleReport_outcome fold report h w) Hr). Qed.

(** ** Checked on a report *)

#[local] Existing Instances PolicyReason.no_tables S11Example.network_environment.
Definition example_rule (apn : string) : DdnControl.PriorityRule := DdnControl.mkPriorityRule apn 0 0 0 "".
Definition example_handler : Handler :=
  SetDDNSender true (New (mkConfig true true (10 * Second) true [example_rule "NET"] [example_rule "ims"])).
Definition example_report : PfcpIe.VectorCoreIdleDownlinkReport :=
  PfcpIe.mkReport 8 2 1 1 0 5 9 0 true 1.
Definition after_report (n : nat) : option (Handler * S11.World S11Example.network) :=
  Nat.iter n (fun r => p ← r; '(_, p) ← HandleReport (fun r => r) example_report p; Some p)
    (Some (example_handler, S11Example.created)).

(** The second report comes within the interval. *)
Example reports_example :
  (fun p => (snapshot p.1, map fst (drop 1 (S11Frames.s11_replies p.2)))) <$> after_report 2
  = Some (mkSnapshot true true 2 0 1 1 0 1, [S11Example.mme]).
Proof. vm_compute. reflexivity. Qed.

Definition example_after : Handler * S11.World S11Example.network :=
  default (example_handler, S11Example.created) (after_report 1).
Lemma report_wakes_when_wanted_witness :
  report_outcome (fun r => r) example_report example_handler S11Example.created example_after.1 example_after.2.
Proof.
  refine (report_wakes_when_wanted (fun r => r) example_report example_handler example_after.1
            S11Example.created example_after.2 _).
  vm_compute. reflexivity.
Defined.
