(* ===== verification/BearerInactivity.v ===== *)
(** * Bearer inactivity ([internal/sgwc/bearerinactivity])

    The scan that removes idle dedicated bearers: the policy decision for each bearer, the
    executor that takes the bearer's rules off the SGW-U and deletes it, and the counters
    of the scans.  The executor runs over the world of the S11 handlers. *)

From stdpp Require Import sorting.
From S2P Require Import Prelude GoLib GoText Effects SgwcIo.
From S2P Require Bearer SessionData Session SessionManager PfcpClient DdnControl PolicyReason SgwcConfig.
From S2P Require S11 S11Example PfcpIe PfcpMessage.
From S2P Require Import S11Manager.
#[local] Open Scope string_scope.
#[local] Open Scope list_scope.
#[local] Open Scope Z_scope.
Notation loc := SessionManager.loc.
Notation SGWSession := SessionData.SGWSession.
Notation Config := SgwcConfig.BearerInactivityConfig.
Notation RuleConfig := SgwcConfig.BearerInactivityRuleConfig.

(** ** Decisions ([policy.go]) *)

Definition DecisionPreserve := "preserve".
Definition DecisionCleanupDedicatedBearer := "cleanup_dedicated_bearer".
Definition DecisionCleanupDefaultBearer := "cleanup_default_bearer".
Definition DecisionDeferNoActivityEvidence := "defer_no_activity_evidence".
Definition DecisionDeferNotIdle := "defer_not_idle".
Definition DecisionDeferRecentControl := "defer_recent_control_activity".
Definition DecisionDeferNoPolicy := "defer_no_matching_cleanup_policy".
Definition DecisionDenyDefaultBearer := "deny_default_bearer_cleanup".
Definition DecisionDisabled := "disabled".

Record Decision := mkDecision {
  d_SessionID : string; d_IMSI : string; d_APN : string; d_EBI : Z; BearerType : string; d_QCI : Z;
  d_ARPPriority : Z; BearerState : string; Action : string; Reason : string;
  IdleThreshold : duration; IdleFor : duration; LastControlActivityAt : time;
  LastUserPlaneActivityAt : time; LastActivityAt : time; LastActivitySource : string;
  RequireNoRecentControl : bool; MatchedPreserveRule : string; MatchedCleanupRule : string
}.
#[export] Instance eta_Decision : Eta Decision := fun d =>
  mkDecision (d_SessionID d) (d_IMSI d) (d_APN d) (d_EBI d) (BearerType d) (d_QCI d) (d_ARPPriority d)
    (BearerState d) (Action d) (Reason d) (IdleThreshold d) (IdleFor d) (LastControlActivityAt d)
    (LastUserPlaneActivityAt d) (LastActivityAt d) (LastActivitySource d) (RequireNoRecentControl d)
    (MatchedPreserveRule d) (MatchedCleanupRule d).

Definition latestTime (a b : time) : time :=
  if IsZero a then b else if IsZero b || After a b then a else b.
(** [now.Sub(at)], not below zero. *)
Definition idle_since (now at_ : time) : duration :=
  let d := Sub now at_ in if d <? 0 then 0 else d.

(** The decision before the policy, for a session and a bearer that may be missing. *)
Definition baseDecision (sess : option SGWSession) (b : option Bearer.Bearer) (now : time) (c : Config)
    : Decision :=
  let on {A} (f : SGWSession -> A) (z : A) := from_option f z sess in
  let d := mkDecision (on SessionData.SessionID "") (on SessionData.IMSI "") (on SessionData.APN "") 0 "" 0 0
             "" "" "" 0 0 0 0 0 "" (SgwcConfig.RequireNoRecentControlActivity c) "" "" in
  match b with
  | None => d
  | Some b =>
      let last := latestTime (Bearer.LastControlActivityAt b) (Bearer.LastUserPlaneActivityAt b) in
      let type := if on (fun s => Bearer.EBI b =? SessionData.DefaultBearerID s) false
                  then "default" else "dedicated" in
      mkDecision (d_SessionID d) (d_IMSI d) (d_APN d) (Bearer.EBI b) type (Bearer.QCI b)
        (Bearer.PriorityLevel (Bearer.BearerARP b)) (Bearer.State b) "" ""
        0 (if IsZero last then 0 else idle_since now last)
        (Bearer.LastControlActivityAt b) (Bearer.LastUserPlaneActivityAt b) last
        (Bearer.LastActivitySource b) (RequireNoRecentControl d) "" ""
  end.

(** [strings.TrimSuffix(fallback, "-rule")] of the two fallbacks in use. *)
Inductive rule_list := PreserveRule | CleanupRule.
Definition rule_action (l : rule_list) : string :=
  match l with PreserveRule => "preserve" | CleanupRule => "cleanup" end.

Section Policy.
Context `{Unicode} (fold : Z -> Z).

Definition bearerRuleMatches (r : RuleConfig) (apn bearerType : string) (b : Bearer.Bearer) : bool :=
  if negb (String.eqb (SgwcConfig.bir_APN r) "") && negb (DdnControl.EqualFold fold (SgwcConfig.bir_APN r) apn)
  then false
  else if negb (String.eqb (SgwcConfig.bir_BearerType r) "")
          && negb (DdnControl.EqualFold fold (SgwcConfig.bir_BearerType r) bearerType) then false
  else if negb (SgwcConfig.bir_QCI r =? 0) && negb (SgwcConfig.bir_QCI r =? Bearer.QCI b) then false
  else if negb (SgwcConfig.bir_ARPPriorityMin r =? 0) || negb (SgwcConfig.bir_ARPPriorityMax r =? 0) then
    let lo := if SgwcConfig.bir_ARPPriorityMin r =? 0 then 1 else SgwcConfig.bir_ARPPriorityMin r in
    let hi := if SgwcConfig.bir_ARPPriorityMax r =? 0 then 15 else SgwcConfig.bir_ARPPriorityMax r in
    let level := Bearer.PriorityLevel (Bearer.BearerARP b) in
    negb ((level <? lo) || (hi <? level))
  else true.
Definition firstMatchingRule (rules : list RuleConfig) (apn bearerType : string) (b : Bearer.Bearer)
    : option RuleConfig := List.find (fun r => bearerRuleMatches r apn bearerType b) rules.
Definition policyReason (r : RuleConfig) (l : rule_list) : string :=
  PolicyReason.Build "bearer-inactivity" (rule_action l)
    (PolicyReason.mkRule (SgwcConfig.bir_APN r) (SgwcConfig.bir_QCI r) (SgwcConfig.bir_ARPPriorityMin r)
       (SgwcConfig.bir_ARPPriorityMax r) (SgwcConfig.bir_BearerType r) (SgwcConfig.bir_IdleSeconds r)).

Variable c : Config.

Definition idleThreshold (bearerType state : string) (r : RuleConfig) : duration :=
  let seconds z := i64 (z * Second) in
  if String.eqb state Bearer.BearerStatePending then seconds (SgwcConfig.PendingBearerTimeoutSeconds c)
  else if 0 <? SgwcConfig.bir_IdleSeconds r then seconds (SgwcConfig.bir_IdleSeconds r)
  else if String.eqb bearerType "default" then seconds (SgwcConfig.DefaultBearerIdleSeconds c)
  else seconds (SgwcConfig.DedicatedBearerIdleSeconds c).

Definition decided (action reason : string) (d : Decision) : Decision :=
  d <| Action := action |> <| Reason := reason |>.

(** The decision for a bearer that a cleanup rule names. *)
Definition evaluate_idle (r : RuleConfig) (state : string) (now : time) (d : Decision) : Decision :=
  let d := d <| MatchedCleanupRule := policyReason r CleanupRule |> in
  if String.eqb (BearerType d) "default" && negb (SgwcConfig.DeleteDefaultBearers c)
  then decided DecisionDenyDefaultBearer "default-bearer-cleanup-disabled" d
  else
    let threshold := idleThreshold (BearerType d) state r in
    let d := d <| IdleThreshold := threshold |> in
    if threshold <=? 0 then decided DecisionDenyDefaultBearer "default-bearer-idle-timeout-disabled" d
    else if IsZero (LastActivityAt d)
    then decided DecisionDeferNoActivityEvidence "no-control-or-user-plane-activity" d
    else
      let d := d <| IdleFor := idle_since now (LastActivityAt d) |> in
      if SgwcConfig.RequireNoRecentControlActivity c && negb (IsZero (LastControlActivityAt d))
         && (Sub now (LastControlActivityAt d) <? threshold)
      then decided DecisionDeferRecentControl "recent-control-plane-activity" d
      else if IdleFor d <? threshold then decided DecisionDeferNotIdle "bearer-not-idle" d
      else decided (if String.eqb (BearerType d) "default" then DecisionCleanupDefaultBearer
                    else DecisionCleanupDedicatedBearer) (MatchedCleanupRule d) d.

(** [now] is not zero: the callers read the clock first. *)
Definition EvaluateBearer (sess : option SGWSession) (b : option Bearer.Bearer) (now : time) : Decision :=
  let d := baseDecision sess b now c in
  match sess, b with
  | Some s, Some b =>
      if negb (SgwcConfig.bi_Enabled c) then decided DecisionDisabled "bearer-inactivity-disabled" d
      else
        match firstMatchingRule (SgwcConfig.bi_Preserve c) (SessionData.APN s) (BearerType d) b with
        | Some r =>
            let reason := policyReason r PreserveRule in
            (decided DecisionPreserve reason d) <| MatchedPreserveRule := reason |>
        | None =>
            match firstMatchingRule (SgwcConfig.Cleanup c) (SessionData.APN s) (BearerType d) b with
            | None => decided DecisionDeferNoPolicy "no-matching-cleanup-policy" d
            | Some r => evaluate_idle r (Bearer.State b) now d
            end
        end
  | _, _ => decided DecisionDeferNoActivityEvidence "missing-session-or-bearer" d
  end.

Definition ebi_le (a b : Bearer.Bearer) : Prop := Bearer.EBI a <= Bearer.EBI b.
#[local] Instance ebi_le_dec : RelDecision ebi_le.
Proof using. intros a b. unfold ebi_le. apply _. Defined.
(** [bearers] is the session's bearer list, in the order the map is ranged over. *)
Definition EvaluateSession (s : SGWSession) (bearers : list Bearer.Bearer) (now : time) : list Decision :=
  (fun b => EvaluateBearer (Some s) (Some b) now) <$> merge_sort ebi_le bearers.

(** By IMSI, APN and EBI. *)
Definition before (a b : Decision) : bool :=
  if negb (String.eqb (d_IMSI a) (d_IMSI b)) then String.ltb (d_IMSI a) (d_IMSI b)
  else if negb (String.eqb (d_APN a) (d_APN b)) then String.ltb (d_APN a) (d_APN b)
  else d_EBI a <? d_EBI b.
Definition decision_le (a b : Decision) : Prop := before b a = false.
#[local] Instance decision_le_dec : RelDecision decision_le.
Proof using. intros a b. unfold decision_le. apply _. Defined.
Definition sort_decisions (ds : list Decision) : list Decision := merge_sort decision_le ds.
End Policy.

Definition Decision_String (d : Decision) : string :=
  (Action d ++ " imsi=" ++ d_IMSI d ++ " apn=" ++ d_APN d ++ " ebi=" ++ Itoa (d_EBI d)
   ++ " reason=" ++ Reason d)%string.

(** ** Counters of the scans ([status.go]) *)

Record CleanupResult := mkCleanupResult {
  r_Planned : Z; r_Skipped : Z; r_Cleaned : Z; r_Failed : Z; r_DeniedDefault : Z; r_MissingRules : Z
}.
#[export] Instance eta_CleanupResult : Eta CleanupResult := fun r =>
  mkCleanupResult (r_Planned r) (r_Skipped r) (r_Cleaned r) (r_Failed r) (r_DeniedDefault r) (r_MissingRules r).
Definition no_result : CleanupResult := mkCleanupResult 0 0 0 0 0 0.

Record Status := mkStatus {
  lastScanAt : time; lastResult : CleanupResult; scans : Z; planned : Z; skipped : Z; cleaned : Z;
  failed : Z; deniedDefault : Z; missingRules : Z; lastActionCounts : gmap string Z
}.
Definition NewStatus : Status := mkStatus zero_time no_result 0 0 0 0 0 0 0 ∅.

Definition countActions (ds : list Decision) : gmap string Z :=
  foldl (fun m d => <[Action d := default 0 (m !! Action d) + 1]> m) ∅ ds.

Definition RecordScan (now at_ : time) (r : CleanupResult) (ds : list Decision) (s : Status) : Status :=
  mkStatus (or_now at_ now) r (u64 (scans s + 1)) (u64 (planned s + r_Planned r))
    (u64 (skipped s + r_Skipped r)) (u64 (cleaned s + r_Cleaned r)) (u64 (failed s + r_Failed r))
    (u64 (deniedDefault s + r_DeniedDefault r)) (u64 (missingRules s + r_MissingRules r)) (countActions ds).

Record RuntimeSnapshot := mkRuntimeSnapshot {
  LastScanAt : time; LastResult : CleanupResult; Scans : Z; Planned : Z; Skipped : Z; Cleaned : Z;
  Failed : Z; DeniedDefault : Z; MissingRules : Z; LastActionCounts : gmap string Z
}.
Definition Status_Snapshot (s : option Status) : RuntimeSnapshot :=
  match s with
  | None => mkRuntimeSnapshot zero_time no_result 0 0 0 0 0 0 0 ∅
  | Some s => mkRuntimeSnapshot (lastScanAt s) (lastResult s) (scans s) (planned s) (skipped s) (cleaned s)
                (failed s) (deniedDefault s) (missingRules s) (lastActionCounts s)
  end.
Record Snapshot := mkSnapshot { Runtime : RuntimeSnapshot; Decisions : list Decision; ActionCounts : gmap string Z }.

(** ** The executor ([executor.go]) *)

Inductive CleanupError :=
| RefusingDefault (ebi : Z) | RemoverUnavailable | SessionNotFound | BearerNotFound (ebi : Z)
| BindingRequired | MissingRuleIDs (ebi : Z) (pdrIDs farIDs : list Z)
| PFCPFailed (e : PfcpClient.ClientError).
Definition isMissingRuleError (e : CleanupError) : bool :=
  match e with MissingRuleIDs _ _ _ => true | _ => false end.

Definition completeRuleIDs (pdrIDs farIDs : list Z) : bool :=
  bool_decide (length pdrIDs = 2%nat) && bool_decide (length farIDs = 2%nat)
  && forallb (fun id => negb (id =? 0)) pdrIDs && forallb (fun id => negb (id =? 0)) farIDs.

Section Executor.
Context {E : Type} `{Environment E} `{Unicode} (fold : Z -> Z).
Notation World := (S11.World E).
(** [hasSessions], [hasPFCP]: the executor's manager and rule remover are set. *)
Variables (c : Config) (hasSessions hasPFCP : bool).

(** [m.List()] evaluated, session by session. *)
Fixpoint evaluate_sessions (ls : list loc) (now : time) : M World (list Decision) :=
  match ls with
  | [] => mret []
  | l :: ls =>
      s ← S11.session l;
      bearers ← S11.BearerList l;
      ds ← evaluate_sessions ls now;
      mret (EvaluateSession fold c s bearers now ++ ds)
  end.
Definition EvaluateManager (now : time) : M World (list Decision) :=
  if negb hasSessions then mret []
  else
    order ← S11.sessions_order None;
    m ← gets S11.mgr;
    ds ← evaluate_sessions (SessionManager.SessionList order m) now;
    mret (sort_decisions ds).

Definition binding_ready (b : SessionData.PFCPSessionBinding) : bool :=
  SessionData.pb_Established b && negb (SessionData.fs_SEID (SessionData.pb_LocalFSEID b) =? 0)
  && negb (SessionData.fs_SEID (SessionData.pb_SGWUFSEID b) =? 0)
  && negb (String.eqb (SessionData.pb_SGWUAddr b) "").

Definition cleanupDedicatedBearer (d : Decision) : M World (result CleanupError unit) :=
  if String.eqb (BearerType d) "default" then mret (Err (RefusingDefault (d_EBI d)))
  else if negb hasPFCP then mret (Err RemoverUnavailable)
  else
    found ← gets (fun w => SessionManager.Find (d_SessionID d) (S11.mgr w));
    match found with
    | None => mret (Err SessionNotFound)
    | Some l =>
        s ← S11.session l;
        if d_EBI d =? SessionData.DefaultBearerID s then mret (Err (RefusingDefault (d_EBI d)))
        else
          match Session.GetBearer (d_EBI d) s with
          | None => mret (Err (BearerNotFound (d_EBI d)))
          | Some b =>
              let binding := SessionData.PFCP s in
              if negb (binding_ready binding) then mret (Err BindingRequired)
              else
                let pdrIDs := [(Bearer.PDRIDs b).1; (Bearer.PDRIDs b).2] in
                let farIDs := [(Bearer.FARIDs b).1; (Bearer.FARIDs b).2] in
                if negb (completeRuleIDs pdrIDs farIDs)
                then mret (Err (MissingRuleIDs (d_EBI d) pdrIDs farIDs))
                else
                  removed ← S11.on_pfcp (PfcpClient.RemoveBearerRulesOnPeer pfcp_send
                              (SessionData.pb_SGWUAddr binding)
                              (SessionData.fs_SEID (SessionData.pb_SGWUFSEID binding)) pdrIDs farIDs);
                  match removed with
                  | Err e => mret (Err (PFCPFailed e))
                  | Ok _ =>
                      t1 ← S11.now;
                      S11.on_sess l (fun t2 s => (Session.DeleteBearer t1 t2 (d_EBI d) s).2) ;;
                      mret (Ok tt)
                  end
          end
    end.

Definition apply_decision (d : Decision) (r : CleanupResult) : M World CleanupResult :=
  let r := r <| r_Planned := r_Planned r + 1 |> in
  if String.eqb (Action d) DecisionCleanupDedicatedBearer then
    done ← cleanupDedicatedBearer d;
    mret match done with
         | Ok _ => r <| r_Cleaned := r_Cleaned r + 1 |>
         | Err e =>
             let r := r <| r_Failed := r_Failed r + 1 |> in
             if isMissingRuleError e then r <| r_MissingRules := r_MissingRules r + 1 |> else r
         end
  else if String.eqb (Action d) DecisionCleanupDefaultBearer
          || String.eqb (Action d) DecisionDenyDefaultBearer
  then mret (r <| r_DeniedDefault := r_DeniedDefault r + 1 |>)
  else mret (r <| r_Skipped := r_Skipped r + 1 |>).
Fixpoint apply_decisions (ds : list Decision) (r : CleanupResult) : M World CleanupResult :=
  match ds with
  | [] => mret r
  | d :: ds => r ← apply_decision d r; apply_decisions ds r
  end.

(** The deferred [RecordScan] runs after the last decision. *)
Definition Apply (now : time) : M (Status * World) CleanupResult :=
  if negb hasSessions then mret no_result
  else
    now ← (if IsZero now then on_snd S11.now else mret now);
    ds ← on_snd (EvaluateManager now);
    r ← on_snd (apply_decisions ds no_result);
    t ← on_snd S11.now;
    on_fst (modify (RecordScan t now r ds)) ;;
    mret r.

(** [Reporter.Snapshot] *)
Definition Reporter_Snapshot : M (Status * World) Snapshot :=
  now ← on_snd S11.now;
  ds ← on_snd (EvaluateManager now);
  s ← gets fst;
  mret (mkSnapshot (Status_Snapshot (Some s)) ds (countActions ds)).

(** The ticks of [Runner.Run], at the interval of the configuration. *)
Definition runner_interval (interval : duration) : duration :=
  if interval <=? 0 then 30 * Second else interval.
Fixpoint Run (ticks : nat) : M (Status * World) unit :=
  match ticks with
  | O => mret tt
  | S ticks => now ← on_snd S11.now; Apply now ;; Run ticks
  end.
End Executor.

(** A decision names the session and the bearer it is about. *)
Lemma EvaluateBearer_names `{Unicode} fold c s b now :
  let d := EvaluateBearer fold c (Some s) (Some b) now in
  d_SessionID d = SessionData.SessionID s /\ d_EBI d = Bearer.EBI b.
Proof.
  unfold EvaluateBearer. cbv zeta. set (d := baseDecision _ _ _ _).
  assert (d_SessionID d = SessionData.SessionID s /\ d_EBI d = Bearer.EBI b) as Hd by done. clearbody d.
  destruct (negb _); [exact Hd|]. destruct (firstMatchingRule _ _ _ _ _); [exact Hd|].
  destruct (firstMatchingRule _ _ _ _ _) as [r|]; [|exact Hd].
  unfold evaluate_idle. destruct (_ && _); [exact Hd|]. cbv zeta.
  destruct (_ <=? _); [exact Hd|]. destruct (IsZero _); [exact Hd|].
  destruct (_ && _); [exact Hd|]. destruct (_ <? _); exact Hd.
Qed.

(** ** When a bearer is cleaned up *)

Section Expiry.
Context `{Unicode} (fold : Z -> Z) (c : Config).

Definition bearer_type (s : SGWSession) (b : Bearer.Bearer) : string :=
  if Bearer.EBI b =? SessionData.DefaultBearerID s then "default" else "dedicated".
Definition last_activity (b : Bearer.Bearer) : time :=
  latestTime (Bearer.LastControlActivityAt b) (Bearer.LastUserPlaneActivityAt b).
(** A dedicated bearer that no preserve rule protects, that a cleanup rule names, and
    without activity, of the control or the user plane, for the rule's threshold. *)
Record expired (s : SGWSession) (b : Bearer.Bearer) (now : time) : Prop := mkExpired {
  ex_enabled : SgwcConfig.bi_Enabled c = true;
  ex_dedicated : Bearer.EBI b <> SessionData.DefaultBearerID s;
  ex_unprotected : firstMatchingRule fold (SgwcConfig.bi_Preserve c) (SessionData.APN s) "dedicated" b = None;
  ex_idle : exists r,
    firstMatchingRule fold (SgwcConfig.Cleanup c) (SessionData.APN s) "dedicated" b = Some r
    /\ let threshold := idleThreshold c "dedicated" (Bearer.State b) r in
       0 < threshold /\ last_activity b <> 0 /\ last_activity b + threshold <= now
}.

Lemma i64_range z : min_i64 <= i64 z <= max_i64.
Proof. unfold i64, min_i64, max_i64. pose proof (Z.mod_pos_bound (z + 2 ^ 63) (2 ^ 64)). lia. Qed.
Lemma threshold_range t st r : idleThreshold c t st r <= max_i64.
Proof using. unfold idleThreshold. repeat case_match; apply i64_range. Qed.
Lemma Sub_lt now at_ t : 0 < t <= max_i64 -> (Sub now at_ <? t) = (now <? at_ + t).
Proof. unfold Sub, max_i64, min_i64. intros. apply eq_bool_prop_intro. rewrite !Is_true_true, !Z.ltb_lt. lia. Qed.
Lemma idle_since_lt now at_ t : 0 < t <= max_i64 -> (idle_since now at_ <? t) = (now <? at_ + t).
Proof.
  intros Ht. rewrite <- (Sub_lt now at_ t Ht). unfold idle_since.
  destruct (Z.ltb_spec (Sub now at_) 0); [|done]. apply eq_bool_prop_intro. rewrite !Is_true_true, !Z.ltb_lt. lia.
Qed.
Lemma latest_ge a b : a <> 0 -> a <= latestTime a b.
Proof.
  intros Ha. unfold latestTime, IsZero, After. rewrite (proj2 (Z.eqb_neq a 0) Ha).
  destruct (Z.eqb_spec b 0), (Z.ltb_spec b a); cbn; lia.
Qed.

#[local] Arguments policyReason : simpl never.
#[local] Arguments idleThreshold : simpl never.
#[local] Arguments idle_since : simpl never.
#[local] Arguments Sub : simpl never.
(** The switch on recent control activity only changes the reported reason: control
    activity counts as activity of the bearer with or without it. *)
Lemma evaluate_idle_cleans r state now d : BearerType d = "dedicated" ->
  LastControlActivityAt d = 0 \/ LastControlActivityAt d <= LastActivityAt d ->
  Action (evaluate_idle c r state now d) = DecisionCleanupDedicatedBearer
  <-> let threshold := idleThreshold c "dedicated" state r in
      0 < threshold /\ LastActivityAt d <> 0 /\ LastActivityAt d + threshold <= now.
Proof using.
  destruct d as [? ? ? ? bt ? ? ? ? ? ? ? lc lu la ? ? ? ?]. cbn [BearerType LastControlActivityAt LastActivityAt].
  intros -> Hc. unfold evaluate_idle. cbn.
  pose proof (threshold_range "dedicated" state r) as Hr. set (t := idleThreshold c "dedicated" state r) in *.
  destruct (Z.leb_spec t 0); [split; [done|lia]|]. unfold IsZero.
  destruct (Z.eqb_spec la 0); [split; [done|lia]|].
  rewrite Sub_lt, idle_since_lt by lia.
  destruct (SgwcConfig.RequireNoRecentControlActivity c && _ && _) eqn:Hn.
  - apply andb_true_iff in Hn as [Hn Hlt]. apply andb_true_iff in Hn as [_ Hz].
    apply Z.ltb_lt in Hlt. apply negb_true_iff, Z.eqb_neq in Hz. split; [done|lia].
  - destruct (Z.ltb_spec now (la + t)); (split; [|done || lia]); [done|].
    intros _. lia.
Qed.

Lemma EvaluateBearer_cleans s b now :
  Action (EvaluateBearer fold c (Some s) (Some b) now) = DecisionCleanupDedicatedBearer <-> expired s b now.
Proof using.
  unfold EvaluateBearer. cbn [from_option baseDecision BearerType]. fold (bearer_type s b).
  destruct (SgwcConfig.bi_Enabled c) eqn:He; cbn [negb]; [|by split; [|intros []; congruence]].
  unfold bearer_type. destruct (Z.eqb_spec (Bearer.EBI b) (SessionData.DefaultBearerID s)) as [Hd|Hd].
  { split; [|intros []; congruence]. destruct (firstMatchingRule _ _ _ _ _); [done|].
    destruct (firstMatchingRule _ _ _ _ _); [|done]. unfold evaluate_idle. cbn.
    repeat case_match; cbn; try done. }
  destruct (firstMatchingRule fold (SgwcConfig.bi_Preserve c) _ _ _) eqn:Hp; [by split; [|intros []; congruence]|].
  destruct (firstMatchingRule fold (SgwcConfig.Cleanup c) _ _ _) as [r|] eqn:Hr;
    [|split; [done|]; intros [_ _ _ (r & E & _)]; congruence].
  rewrite evaluate_idle_cleans; [|done|].
  - split; [intros Hi; split; [done..|by exists r]|]. intros [_ _ _ (r' & E & Hi)].
    rewrite Hr in E. by injection E as <-.
  - cbn. destruct (decide (Bearer.LastControlActivityAt b = 0)); [by left|right; by apply latest_ge].
Qed.
End Expiry.

(** ** What a scan removes *)

Section Scan.
Context {E : Type} `{Environment E} `{Unicode} (fold : Z -> Z) (c : Config).
Notation World := (S11.World E).

(** The sessions of [w'] are those of [w], but for bearers that [may] go. *)
Definition pruned_session (may : SGWSession -> Bearer.Bearer -> Prop) (s s' : SGWSession) : Prop :=
  SessionData.DefaultBearerID s' = SessionData.DefaultBearerID s
  /\ forall ebi, SessionData.Bearers s' !! ebi = SessionData.Bearers s !! ebi
       \/ (SessionData.Bearers s' !! ebi = None
           /\ exists b, SessionData.Bearers s !! ebi = Some b /\ may s b).
Definition pruned (may : SGWSession -> Bearer.Bearer -> Prop) (w w' : World) : Prop :=
  SessionManager.byID (S11.mgr w') = SessionManager.byID (S11.mgr w)
  /\ forall l, option_relation (pruned_session may) (fun _ => False) (fun _ => False)
                 (session_at w l) (session_at w' l).

Lemma pruned_mgr may w0 w w' : S11.mgr w' = S11.mgr w -> pruned may w0 w -> pruned may w0 w'.
Proof. unfold pruned, session_at. by intros ->. Qed.
Lemma pruned_refl may w : pruned may w w.
Proof.
  split; [done|]. intros l. destruct (session_at w l); cbn; [|done]. split; [done|]. intros. by left.
Qed.

(** *** The decisions come from the sessions *)

Definition evaluated (ls : list loc) (m : SessionManager.Manager) (now : time) (d : Decision) : Prop :=
  exists l s ebi b, l ∈ ls /\ SessionManager.heap m !! l = Some s
    /\ SessionData.Bearers s !! ebi = Some b /\ d = EvaluateBearer fold c (Some s) (Some b) now.

Lemma evaluate_sessions_from ls now (w : World) :
  wp True (evaluate_sessions fold c ls now)
    (fun ds w' => S11.mgr w' = S11.mgr w /\ Forall (evaluated ls (S11.mgr w) now) ds) w.
Proof.
  revert w. induction ls as [|l ls IH]; intros w; cbn [evaluate_sessions]; [by apply wp_ret|].
  apply wp_bind, wp_session. intros s Hs. apply wp_bind.
  unfold S11.BearerList. apply wp_bind, wp_session. intros s0 Hs0. rewrite Hs in Hs0. injection Hs0 as <-.
  apply wp_bind. eapply wp_keeps; [apply mgr_keys|]. intros order w1 E1. unfold same in E1.
  apply wp_ret, wp_bind. eapply wp_mono; [done| |apply IH]. intros ds w2 [E2 Hds].
  apply wp_ret. rewrite E1 in E2, Hds. split; [done|]. apply Forall_app. split.
  - apply Forall_forall. intros d Hd. unfold EvaluateSession in Hd.
    apply list_elem_of_fmap in Hd as (b & -> & Hb). rewrite merge_sort_Permutation in Hb.
    apply list_elem_of_omap in Hb as (ebi & _ & Hb). exists l, s, ebi, b. split_and!; [left|done..].
  - eapply Forall_impl; [exact Hds|]. intros d (l' & s' & ebi & b & Hl & H1).
    exists l', s', ebi, b. split; [by right|done].
Qed.
Lemma EvaluateManager_from hasSessions now (w : World) :
  wp True (EvaluateManager fold c hasSessions now)
    (fun ds w' => S11.mgr w' = S11.mgr w /\ Forall (fun d => exists ls,
       (forall l, l ∈ ls -> exists id, SessionManager.byID (S11.mgr w) !! id = Some l)
       /\ evaluated ls (S11.mgr w) now d) ds) w.
Proof.
  unfold EvaluateManager. destruct hasSessions; cbn [negb]; [|by apply wp_ret].
  apply wp_bind. eapply wp_keeps; [apply mgr_order|]. intros order w1 E1. unfold same in E1.
  apply wp_bind, wp_gets, wp_bind. eapply wp_mono; [done| |apply evaluate_sessions_from].
  intros ds w2 [E2 Hds]. apply wp_ret. split; [congruence|].
  unfold sort_decisions. rewrite merge_sort_Permutation. eapply Forall_impl; [exact Hds|].
  intros d Hd. rewrite E1 in Hd. eexists. split; [|exact Hd]. intros l Hl.
  unfold SessionManager.SessionList, SessionManager.in_order in Hl.
  apply list_elem_of_omap in Hl as (id & _ & Hl). by exists id.
Qed.

(** *** Removals *)

Lemma prune_step may w0 (w w' : World) l ebi t1 t2 :
  pruned may w0 w ->
  (forall s b, session_at w0 l = Some s -> SessionData.Bearers s !! ebi = Some b -> may s b) ->
  S11.mgr w' = (SessionManager.on_session l (fun s => (Session.DeleteBearer t1 t2 ebi s).2) (S11.mgr w)).1 ->
  pruned may w0 w'.
Proof.
  intros [Hid Hs] Hmay Hm. unfold SessionManager.on_session in Hm.
  destruct (SessionManager.heap (S11.mgr w) !! l) as [s|] eqn:El; [|by apply (pruned_mgr may w0 w)].
  cbn in Hm. split; [by rewrite Hm|]. intros l'. pose proof (Hs l') as Hl'. unfold session_at at 2. rewrite Hm. cbn.
  destruct (decide (l' = l)) as [->|Hne]; [|by rewrite lookup_insert_ne].
  rewrite lookup_insert_eq. unfold session_at in Hl' at 2. rewrite El in Hl'.
  destruct (session_at w0 l) as [s0|] eqn:E0; [|done]. destruct Hl' as [Hd Hb]. split; [done|]. intros k. cbn.
  destruct (decide (k = ebi)) as [->|Hk]; [|rewrite lookup_delete_ne by done; apply Hb].
  rewrite lookup_delete_eq. destruct (SessionData.Bearers s0 !! ebi) as [b|] eqn:Eb; [|by left].
  right. split; [done|]. exists b. split; [done|]. by eapply Hmay.
Qed.

(** A decision may remove the bearer it names. *)
Definition backed (may : SGWSession -> Bearer.Bearer -> Prop) (w0 : World) (d : Decision) : Prop :=
  forall l s b, SessionManager.Find (d_SessionID d) (S11.mgr w0) = Some l -> session_at w0 l = Some s ->
    d_EBI d <> SessionData.DefaultBearerID s -> SessionData.Bearers s !! d_EBI d = Some b -> may s b.

Lemma cleanup_prunes may w0 hasPFCP d w : backed may w0 d -> pruned may w0 w ->
  wp True (cleanupDedicatedBearer hasPFCP d) (fun _ w' => pruned may w0 w') w.
Proof.
  intros Hd Hw. unfold cleanupDedicatedBearer. destruct (String.eqb (BearerType d) "default"); [by apply wp_ret|].
  destruct hasPFCP; cbn [negb]; [|by apply wp_ret]. apply wp_bind, wp_gets.
  destruct (SessionManager.Find _ _) as [l|] eqn:Hl; [|by apply wp_ret].
  apply wp_bind, wp_session. intros s Hs.
  destruct (Z.eqb_spec (d_EBI d) (SessionData.DefaultBearerID s)) as [|Hdef]; [by apply wp_ret|].
  destruct (Session.GetBearer _ s) as [b|] eqn:Hb; [|by apply wp_ret].
  destruct (binding_ready _); cbn [negb]; [|by apply wp_ret].
  destruct (completeRuleIDs _ _); cbn [negb]; [|by apply wp_ret].
  apply wp_bind. eapply wp_keeps; [apply mgr_on_pfcp|]. intros r w1 E1. unfold same in E1.
  destruct r as [[]|e]; [|by apply wp_ret; apply (pruned_mgr may w0 w)].
  apply wp_bind. eapply wp_keeps; [apply mgr_now|]. intros t1 w2 E2. unfold same in E2.
  apply wp_bind. eapply wp_mono; [done| |apply mgr_on_sess]. intros _ w3 [t2 E3]. apply wp_ret.
  rewrite E2, E1 in E3. eapply prune_step; [exact Hw| |exact E3]. intros s0 b0 Hs0 Hb0.
  destruct Hw as [Hid Hall]. pose proof (Hall l) as Hsl. rewrite Hs0, Hs in Hsl. destruct Hsl as [Hdd _].
  apply (Hd l s0 b0); [|done|by rewrite <- Hdd|done]. unfold SessionManager.Find in *. by rewrite <- Hid.
Qed.

Lemma decisions_prune may w0 hasPFCP ds : forall r w,
  Forall (fun d => Action d = DecisionCleanupDedicatedBearer -> backed may w0 d) ds -> pruned may w0 w ->
  wp True (apply_decisions hasPFCP ds r) (fun _ w' => pruned may w0 w') w.
Proof.
  induction ds as [|d ds IH]; intros r w Hds Hw; cbn [apply_decisions]; [by apply wp_ret|].
  apply Forall_cons in Hds as [Hd Hds]. apply wp_bind.
  assert (wp True (apply_decision hasPFCP d r) (fun _ w' => pruned may w0 w') w) as Hstep.
  { unfold apply_decision. destruct (String.eqb_spec (Action d) DecisionCleanupDedicatedBearer) as [Ha|].
    - apply wp_bind. eapply wp_mono; [done| |apply cleanup_prunes; [by apply Hd|done]].
      intros r' w' Hw'. by apply wp_ret.
    - destruct (_ || _); by apply wp_ret. }
  eapply wp_mono; [done| |exact Hstep]. intros r' w' Hw'. by apply IH.
Qed.

(** What the manager keeps about its registered sessions. *)
Definition registered_ok (m : SessionManager.Manager) : Prop :=
  (forall id l, SessionManager.byID m !! id = Some l ->
     exists s, SessionManager.heap m !! l = Some s /\ SessionData.SessionID s = id)
  /\ (forall l s, SessionManager.reg m l s -> Session.bearers_wf s).

Lemma evaluated_backed now (w : World) ls d : registered_ok (S11.mgr w) ->
  (forall l, l ∈ ls -> exists id, SessionManager.byID (S11.mgr w) !! id = Some l) ->
  evaluated ls (S11.mgr w) now d -> Action d = DecisionCleanupDedicatedBearer ->
  backed (fun s b => expired fold c s b now) w d.
Proof.
  intros [Hid Hwf] Hls (l & s & ebi & b & Hl & Hs & Hb & ->) Ha l' s' b' Hf Hs' _ Hb'.
  apply EvaluateBearer_cleans in Ha as Hexp.
  assert (d_SessionID (EvaluateBearer fold c (Some s) (Some b) now) = SessionData.SessionID s
          /\ d_EBI (EvaluateBearer fold c (Some s) (Some b) now) = Bearer.EBI b) as [E1 E2].
  { apply EvaluateBearer_names. }
  rewrite E1 in Hf. rewrite E2 in Hb'. destruct (Hls l Hl) as [id Hil].
  destruct (Hid id l Hil) as (s1 & Hs1 & Es1). unfold session_at in Hs'. rewrite Hs in Hs1. injection Hs1 as <-.
  unfold SessionManager.Find in Hf. rewrite Es1, Hil in Hf. injection Hf as <-. rewrite Hs in Hs'. injection Hs' as <-.
  assert (Bearer.EBI b = ebi) as Ek.
  { eapply (Hwf l s); [split; [done|by rewrite Es1]|exact Hb]. }
  rewrite Ek, Hb in Hb'. by injection Hb' as <-.
Qed.

Definition accounted (r : CleanupResult) : Prop :=
  r_Planned r = r_Skipped r + r_Cleaned r + r_Failed r + r_DeniedDefault r /\ r_MissingRules r <= r_Failed r.
Lemma decisions_accounted hasPFCP ds : forall r, accounted r ->
  yields (apply_decisions hasPFCP ds r) accounted.
Proof.
  induction ds as [|d ds IH]; intros r Hr w r' w' Er; cbn [apply_decisions] in Er; [by injection Er as <- <-|].
  unfold mbind, M_bind in Er. destruct (apply_decision hasPFCP d r w) as [[r1 w1]|] eqn:E1; [|done].
  apply (IH r1) in Er; [done|]. clear IH Er. unfold apply_decision in E1. destruct r as [p sk cl fl dn mi].
  unfold accounted in *. cbn in *. destruct (String.eqb (Action d) _).
  - unfold mbind, M_bind in E1. destruct (cleanupDedicatedBearer hasPFCP d w) as [[[[]|e] w2]|]; [..|done].
    + injection E1 as <- <-. cbn. lia.
    + injection E1 as <- <-. destruct (isMissingRuleError e); cbn; lia.
  - destruct (_ || _); injection E1 as <- <-; cbn; lia.
Qed.

Lemma Apply_prunes hasSessions hasPFCP now (st : Status) (w : World) : registered_ok (S11.mgr w) ->
  wp True (Apply fold c hasSessions hasPFCP now)
    (fun r p => accounted r /\ exists t, (now <> 0 -> t = now)
       /\ pruned (fun s b => expired fold c s b t) w p.2) (st, w).
Proof.
  intros Hok. unfold Apply. destruct hasSessions; cbn [negb].
  2: { apply wp_ret. split; [split; cbn; lia|]. exists now. split; [done|apply pruned_refl]. }
  apply wp_bind. apply (wp_mono True True _ (fun t p => (now <> 0 -> t = now) /\ S11.mgr p.2 = S11.mgr w)); [done| |].
  2: { unfold IsZero. destruct (Z.eqb_spec now 0).
       - apply wp_on_snd. eapply wp_keeps; [apply mgr_now|]. intros t w1 E1. by split.
       - by apply wp_ret. }
  intros t [st1 w1] [Ht E1]. cbn [snd] in E1. apply wp_bind, wp_on_snd. eapply wp_mono; [done| |apply EvaluateManager_from].
  intros ds w2 [E2 Hds]. cbn [fst snd] in *. rewrite E1 in E2, Hds.
  assert (Forall (fun d => Action d = DecisionCleanupDedicatedBearer ->
            backed (fun s b => expired fold c s b t) w d) ds) as Hback.
  { eapply Forall_impl; [exact Hds|]. intros d (ls & Hls & He) Ha. by eapply evaluated_backed. }
  apply wp_bind, wp_on_snd.
  eapply wp_mono; [done| |apply (wp_conj True _ (fun r _ => accounted r))].
  - intros r w3 [Hr Hw3]. apply wp_bind, wp_on_snd. eapply wp_keeps; [apply mgr_now|]. intros u w4 E4. unfold same in E4.
    apply wp_bind, wp_on_fst, wp_modify, wp_ret. split; [exact Hr|]. exists t. split; [done|].
    exact (pruned_mgr _ w w3 w4 E4 Hw3).
  - apply wp_of_runs. intros r w3 Er. eapply (decisions_accounted hasPFCP ds no_result); [split; cbn; lia|exact Er].
  - apply decisions_prune; [exact Hback|]. exact (pruned_mgr _ w w w2 E2 (pruned_refl _ w)).
Qed.
End Scan.

(** ** Property *)


(** ** Checked on a scan *)

#[local] Existing Instance PolicyReason.no_tables.
(** The network of the S11 handlers' example, with an SGW-U that accepts. *)
#[local] Instance accepting : Environment S11Example.network := {
  env_now := env_now (Environment := S11Example.network_environment);
  env_seq := env_seq (Environment := S11Example.network_environment);
  env_send := env_send (Environment := S11Example.network_environment);
  env_reply := env_reply (Environment := S11Example.network_environment);
  env_pfcp _ _ n :=
    (Ok (Some (PfcpMessage.Marshal
       (PfcpMessage.mkHeader 1 true PfcpMessage.MsgTypeSessionModificationResponse 0 8 9)
       [PfcpIe.NewCause PfcpIe.CauseRequestAccepted])), n);
  env_random := env_random (Environment := S11Example.network_environment);
  env_session_id := env_session_id (Environment := S11Example.network_environment);
  env_order := env_order (Environment := S11Example.network_environment);
  env_order_Z := env_order_Z (Environment := S11Example.network_environment);
  env_resolve := env_resolve (Environment := S11Example.network_environment)
}.
(** A session with a default bearer and a dedicated one. *)
Definition example_bearer : Bearer.Bearer :=
  Bearer.mkBearer 6 2 (Bearer.mkARP 9 false false) Bearer.no_FTEID Bearer.no_FTEID Bearer.no_FTEID
    Bearer.no_FTEID 0 0 0 0 None Bearer.BearerStateActive (3, 4) (3, 4) 0 0 "" 0 false.
Definition example_world : S11.World S11Example.network :=
  from_option snd S11Example.created (S11.SetBearer 0%nat example_bearer S11Example.created).
Definition example_config : Config :=
  let d := SgwcConfig.BearerInactivity (SgwcConfig.GTPC SgwcConfig.Default) in
  SgwcConfig.mkBearerInactivity true (SgwcConfig.bi_Timers d) (SgwcConfig.bi_Conditions d)
    (SgwcConfig.bi_Actions d) (SgwcConfig.bi_Policy d) 30 300 60 0 false true
    (SgwcConfig.bi_Preserve d) (SgwcConfig.Cleanup d).
Definition scan_at (now : time) : CleanupResult * (Status * S11.World S11Example.network) :=
  default (no_result, (NewStatus, example_world))
    (Apply (fun r => r) example_config true true now (NewStatus, example_world)).
Definition example_bearers (w : S11.World S11Example.network) : list (list Z) :=
  (fun s => elements (dom (SessionData.Bearers s))) <$> option_list (SessionManager.heap (S11.mgr w) !! 0%nat).

(** Too early nothing happens; after the threshold the dedicated bearer goes. *)
Example scans_example :
  (example_bearers example_world, example_bearers (scan_at (100 * Second)).2.2,
   example_bearers (scan_at (1000 * Second)).2.2, (scan_at (1000 * Second)).1)
  = ([[5; 6]], [[5; 6]], [[5]], mkCleanupResult 2 1 1 0 0 0).
Proof. vm_compute. reflexivity. Qed.

(** A check of [registered_ok]. *)
Definition check_registered (m : SessionManager.Manager) : bool :=
  forallb (fun p => from_option (fun s => bool_decide (SessionData.SessionID s = p.1)) false
                      (SessionManager.heap m !! p.2)) (map_to_list (SessionManager.byID m))
  && forallb (fun p => bool_decide (Session.bearers_wf p.2)) (map_to_list (SessionManager.heap m)).
Lemma check_registered_ok m : check_registered m = true -> registered_ok m.
Proof.
  intros Hc. apply andb_true_iff in Hc as [Hi Hh]. rewrite forallb_forall in Hi, Hh. split.
  - intros id l Hl. specialize (Hi (id, l)). cbn in Hi.
    destruct (SessionManager.heap m !! l) as [s|]; cbn in Hi.
    + exists s. split; [done|]. eapply bool_decide_eq_true, Hi. by apply list_elem_of_In, elem_of_map_to_list.
    + discriminate Hi. by apply list_elem_of_In, elem_of_map_to_list.
  - intros l s [Hs _]. specialize (Hh (l, s)). eapply bool_decide_eq_true, Hh.
    by apply list_elem_of_In, elem_of_map_to_list.
Qed.
Lemma example_registered : registered_ok (S11.mgr example_world).
Proof. apply check_registered_ok. vm_compute. reflexivity. Qed.

