(* ===== verification/MmeRestoration.v ===== *)
(** * MME restoration ([internal/sgwc/mmerestoration/handler.go])

    The handler the peer health table notifies of an MME: it marks the MME's sessions, and
    after a restart it decides for each of them whether to keep it, releases those the
    policy gives up and notifies the others, at once or from a delayed queue.  The handler
    runs over the world of the S11 handlers; a timer of the queue is a later call of
    [fireDelayedDDN]. *)

From stdpp Require Import sorting.
From S2P Require Import Prelude GoLib Effects Gtpv2Ie SgwcIo.
From S2P Require Bearer SessionData Session SessionManager S5c PfcpClient DdnControl PeerHealth.
From S2P Require S11 S11Ddn IdleDownlink S11Example.
From S2P Require Import S11Manager.
#[local] Open Scope string_scope.
#[local] Open Scope list_scope.
#[local] Open Scope Z_scope.
Notation loc := SessionManager.loc.
Notation SGWSession := SessionData.SGWSession.

Record PolicyRule := mkPolicyRule {
  r_APN : string; r_QCI : Z; ARPPriorityMin : Z; ARPPriorityMax : Z; Reason : string
}.
Record Config := mkConfig {
  Enabled : bool; MarkSessionsOnPathDown : bool; MarkSessionsOnRestart : bool;
  EnforceDeletePolicy : bool; TriggerDDN : bool; CleanupTimeout : duration;
  DelayedQueueMax : Z; DelayedQueuePerMME : Z; DelayedMaxAge : duration;
  Preserve : list PolicyRule; DeleteRules : list PolicyRule; DefaultAction : string
}.

Record mmeState := mkMmeState {
  addr : string; state : string; lastStateChange : time; recoverySeen : bool; recoveryCounter : Z;
  restartDetectedAt : time; affectedSessions : nat; restarts : Z; pathDownEvents : Z
}.
#[export] Instance eta_mmeState : Eta mmeState := fun r =>
  mkMmeState (addr r) (state r) (lastStateChange r) (recoverySeen r) (recoveryCounter r)
    (restartDetectedAt r) (affectedSessions r) (restarts r) (pathDownEvents r).

Record delayedDDN := mkDelayedDDN {
  q_sessionID : string; q_mmeAddr : string; enqueuedAt : time; fireAt : time; attempts : Z
}.
#[export] Instance delayedDDN_eq_dec : EqDecision delayedDDN.
Proof. solve_decision. Defined.

(** [hasS5C], [hasPFCP], [hasSender], [hasControl]: what the handler was given. *)
Record Handler := mkHandler {
  hasS5C : bool; hasPFCP : bool; hasSender : bool; hasControl : bool; cfg : Config;
  mmes : gmap string mmeState; queue : gmap string delayedDDN; queueMME : gmap string Z
}.
#[export] Instance eta_Handler : Eta Handler := fun h =>
  mkHandler (hasS5C h) (hasPFCP h) (hasSender h) (hasControl h) (cfg h) (mmes h) (queue h) (queueMME h).

Definition NewHandlerWithCleanup (c : Config) (s5c pfcp : bool) : Handler :=
  mkHandler s5c pfcp false false c ∅ ∅ ∅.
Definition NewHandler (c : Config) : Handler := NewHandlerWithCleanup c false false.
Definition SetDDNSender (sender : bool) (h : Handler) : Handler := h <| hasSender := sender |>.
Definition SetDDNControl (control : bool) (h : Handler) : Handler := h <| hasControl := control |>.

(** ** Records per MME *)

Definition mmePathState (s : string) : string :=
  if String.eqb s PeerHealth.StateUp then SessionData.MMERestorationStateUp
  else if String.eqb s PeerHealth.StateDegraded then SessionData.MMERestorationStateDegraded
  else if String.eqb s PeerHealth.StateSuspect then SessionData.MMERestorationStateSuspect
  else if String.eqb s PeerHealth.StateDown then SessionData.MMERestorationStateDown
  else SessionData.MMERestorationStateUnknown.

Definition getOrCreateLocked (a : string) (h : Handler) : mmeState :=
  default (mkMmeState a SessionData.MMERestorationStateUnknown zero_time false 0 zero_time 0 0 0) (mmes h !! a).

Definition recordStateChange (now : time) (event : PeerHealth.StateChangeEvent) (st : string)
    (affected : nat) (h : Handler) : Handler :=
  let canonical := SessionManager.CanonicalGTPCEndpoint (PeerHealth.sc_Addr event) in
  if String.eqb canonical "" then h
  else
    let mme := getOrCreateLocked canonical h in
    let at_ := or_now (PeerHealth.sc_At event) now in
    let mme :=
      if negb (String.eqb (state mme) st) then
        let mme := if String.eqb st SessionData.MMERestorationStateDown
                   then mme <| pathDownEvents := u64 (pathDownEvents mme + 1) |> else mme in
        mme <| lastStateChange := at_ |>
      else mme in
    let mme := mme <| state := st |> <| affectedSessions := affected |> in
    h <| mmes := <[canonical := mme]> (mmes h) |>.

Definition recordRestart (now : time) (event : PeerHealth.RestartEvent) (affected : nat)
    (h : Handler) : Handler :=
  let canonical := SessionManager.CanonicalGTPCEndpoint (PeerHealth.re_Addr event) in
  if String.eqb canonical "" then h
  else
    let mme := getOrCreateLocked canonical h in
    let at_ := or_now (PeerHealth.re_At event) now in
    let mme := mme <| state := SessionData.MMERestorationStateRestorationPending |>
                   <| recoverySeen := true |> <| recoveryCounter := PeerHealth.NewRecovery event |>
                   <| restartDetectedAt := at_ |> <| lastStateChange := at_ |>
                   <| affectedSessions := affected |> <| restarts := u64 (restarts mme + 1) |> in
    h <| mmes := <[canonical := mme]> (mmes h) |>.

Definition addr_le (a b : mmeState) : Prop := String.leb (addr a) (addr b) = true.
#[local] Instance addr_le_dec : RelDecision addr_le.
Proof. intros a b. unfold addr_le. apply _. Defined.
Definition Snapshot (h : Handler) : list mmeState := merge_sort addr_le ((map_to_list (mmes h)).*2).

(** ** Policies *)

Definition defaultPolicyAction (action : string) : string :=
  if String.eqb action SessionData.MMERestorationPolicyDelete
  then SessionData.MMERestorationPolicyDelete else SessionData.MMERestorationPolicyPreserve.
Definition policyReason (r : PolicyRule) (fallback : string) : string :=
  if negb (String.eqb (Reason r) "") then Reason r else fallback.

Definition default_bearer (s : SGWSession) : option Bearer.Bearer :=
  Session.GetBearer (SessionData.DefaultBearerID s) s.

Section Policy.
Variable fold : Z -> Z.

Definition matches (r : PolicyRule) (s : SGWSession) : bool :=
  if negb (String.eqb (r_APN r) "") && negb (DdnControl.EqualFold fold (r_APN r) (SessionData.APN s)) then false
  else if negb (r_QCI r =? 0) && negb (from_option (fun b => Bearer.QCI b =? r_QCI r) false (default_bearer s))
  then false
  else if negb (ARPPriorityMin r =? 0) || negb (ARPPriorityMax r =? 0) then
    match default_bearer s with
    | None => false
    | Some b =>
        let lo := if ARPPriorityMin r =? 0 then 1 else ARPPriorityMin r in
        let hi := if ARPPriorityMax r =? 0 then 15 else ARPPriorityMax r in
        let level := Bearer.PriorityLevel (Bearer.BearerARP b) in
        if hi <? lo then false else negb ((level <? lo) || (hi <? level))
    end
  else true.

Definition evaluatePolicy (c : Config) (s : SGWSession) : string * string :=
  match List.find (fun r => matches r s) (Preserve c) with
  | Some r => (SessionData.MMERestorationPolicyPreserve, policyReason r "preserve-rule")
  | None =>
      match List.find (fun r => matches r s) (DeleteRules c) with
      | Some r => (SessionData.MMERestorationPolicyDelete, policyReason r "delete-rule")
      | None => let action := defaultPolicyAction (DefaultAction c) in (action, ("default-" ++ action)%string)
      end
  end.
End Policy.

(** ** The delayed queue *)

Definition max_age (c : Config) : duration := if DelayedMaxAge c <=? 0 then 30 * Second else DelayedMaxAge c.
Definition max_global (c : Config) : Z := if DelayedQueueMax c <=? 0 then 1000 else DelayedQueueMax c.
Definition max_per_mme (c : Config) : Z := if DelayedQueuePerMME c <=? 0 then 200 else DelayedQueuePerMME c.

Definition queued_for (a : string) (h : Handler) : Z := default 0 (queueMME h !! a).
(** One entry less for an MME, not below zero. *)
Definition release_slot (a : string) (h : Handler) : Handler :=
  if 0 <? queued_for a h then h <| queueMME := <[a := queued_for a h - 1]> (queueMME h) |> else h.

(** A session's entry is replaced, or a new one is added while there is room. *)
Definition enqueue (id mmeAddr : string) (retryAfter : duration) (at_ : time) (h : Handler) : bool * Handler :=
  let insert h :=
    let h := h <| queue := <[id := mkDelayedDDN id mmeAddr at_ (Add at_ retryAfter) 0]> (queue h) |> in
    (true, h <| queueMME := <[mmeAddr := queued_for mmeAddr h + 1]> (queueMME h) |>) in
  match queue h !! id with
  | Some old => insert (release_slot (q_mmeAddr old) h)
  | None =>
      if (max_global (cfg h) <=? Z.of_nat (size (queue h))) || (max_per_mme (cfg h) <=? queued_for mmeAddr h)
      then (false, h) else insert h
  end.
Definition dequeue (id : string) (h : Handler) : option delayedDDN * Handler :=
  match queue h !! id with
  | None => (None, h)
  | Some e => (Some e, release_slot (q_mmeAddr e) (h <| queue := delete id (queue h) |>))
  end.

(** ** Errors *)

Inductive DeleteError :=
| S5CUnavailable | S5CFailed (e : S5c.S5cError) | PGWRejected (cause : Z) | PFCPUnavailable.
Inductive SendError := SenderUnavailable | SendFailed (e : S11Ddn.DdnError).

(** The texts of the errors of other components end up in reasons. *)
Class ErrorTexts := { s5c_text : S5c.S5cError -> string; ddn_text : S11Ddn.DdnError -> string }.

Section Texts.
Context `{ErrorTexts}.
Definition delete_text (e : DeleteError) : string :=
  match e with
  | S5CUnavailable => "S5/S8-C deleter unavailable"
  | S5CFailed e => ("S5/S8-C Delete Session failed: " ++ s5c_text e)%string
  | PGWRejected cause => ("PGW rejected Delete Session: cause=" ++ Itoa cause)%string
  | PFCPUnavailable => "PFCP deleter unavailable for established PFCP session"
  end.
Definition send_text (e : SendError) : string :=
  match e with SenderUnavailable => "DDN sender unavailable" | SendFailed e => ddn_text e end.
End Texts.

(** ** Events *)

Section Events.
Context {E : Type} `{Environment E} `{ErrorTexts} (fold : Z -> Z).
Notation World := (S11.World E).
Notation P A := (M (Handler * World) A).

Definition w_now : P time := on_snd S11.now.
Definition on_session (l : loc) (f : time -> SGWSession -> Session.outcome) : P unit := on_snd (S11.on_sess l f).
Definition FindByMME (a : string) : P (list loc) :=
  order ← on_snd (S11.sessions_order None);
  gets (fun p => SessionManager.FindByMME order a (S11.mgr p.2)).
Definition restoration (l : loc) : P SessionData.MMERestorationStatus :=
  s ← on_snd (S11.session l); mret (SessionData.MMERestoration s).

Definition OnPeerStateChange (event : PeerHealth.StateChangeEvent) : P unit :=
  h ← gets fst;
  if negb (Enabled (cfg h)) || negb (MarkSessionsOnPathDown (cfg h)) then mret tt
  else if negb (String.eqb (PeerHealth.sc_Role event) PeerHealth.RoleMME) then mret tt
  else
    let st := mmePathState (PeerHealth.NewState event) in
    order ← on_snd (S11.sessions_order None);
    t ← w_now;
    affected ← on_snd (S11.on_mgr (SessionManager.MarkMMEPathState t order (PeerHealth.sc_Addr event) st
                                     (PeerHealth.sc_At event)));
    t ← w_now;
    on_fst (modify (recordStateChange t event st affected)).

(** [applyPolicy]; the two counts of the source are only logged. *)
Definition applyPolicy (event : PeerHealth.RestartEvent) : P unit :=
  h ← gets fst;
  ls ← FindByMME (PeerHealth.re_Addr event);
  t ← w_now;
  let at_ := or_now (PeerHealth.re_At event) t in
  for_each ls (fun l =>
    s ← on_snd (S11.session l);
    let '(action, reason) := evaluatePolicy fold (cfg h) s in
    on_session l (fun t => Session.SetMMERestorationPolicy t action reason at_)).

Definition deleteSessionForRestoration (l : loc) : P (result DeleteError unit) :=
  h ← gets fst;
  if negb (hasS5C h) then mret (Err S5CUnavailable)
  else
    s ← on_snd (S11.session l);
    answer ← on_snd (S11.on_s5c (S5c.DeleteSession s));
    match answer with
    | Err e => mret (Err (S5CFailed e))
    | Ok cause =>
        if negb (cause =? CauseRequestAccepted) then mret (Err (PGWRejected cause))
        else
          s ← on_snd (S11.session l);
          let b := SessionData.PFCP s in
          let up := SessionData.fs_SEID (SessionData.pb_SGWUFSEID b) in
          let release := on_snd (S11.Delete (SessionData.SessionID s)) ;; mret (Ok tt) in
          if SessionData.pb_Established b && negb (up =? 0) then
            if negb (hasPFCP h) then mret (Err PFCPUnavailable)
            else
              on_snd (S11.on_pfcp (PfcpClient.DeleteSessionOnPeer pfcp_send (SessionData.pb_SGWUAddr b) up)) ;;
              release
          else release
    end.

Definition enforceDeletePolicy (event : PeerHealth.RestartEvent) : P unit :=
  h ← gets fst;
  if negb (EnforceDeletePolicy (cfg h)) then mret tt
  else
    ls ← FindByMME (PeerHealth.re_Addr event);
    for_each ls (fun l =>
      status ← restoration l;
      if negb (String.eqb (SessionData.mr_PolicyAction status) SessionData.MMERestorationPolicyDelete) then mret tt
      else
        r ← deleteSessionForRestoration l;
        match r with
        | Ok _ => mret tt
        | Err e =>
            on_session l (fun t => Session.SetMMERestorationPolicy t SessionData.MMERestorationPolicyDelete
              (SessionData.mr_PolicyReason status ++ "; enforcement failed: " ++ delete_text e)%string
              (PeerHealth.re_At event))
        end).

(** The decision of the control, or the zero decision without one. *)
Definition zero_candidate : DdnControl.Candidate := DdnControl.mkCandidate "" "" "" 0 0 0.
Definition zero_decision : DdnControl.Decision := DdnControl.mkDecision "" "" "" 0 false zero_candidate 0 0.
Definition ddn_candidate (mmeAddr : string) (s : SGWSession) : DdnControl.Candidate :=
  DdnControl.mkCandidate mmeAddr (SessionData.IMSI s) (SessionData.APN s) (SessionData.DefaultBearerID s)
    (from_option Bearer.QCI 0 (default_bearer s))
    (from_option (fun b => Bearer.PriorityLevel (Bearer.BearerARP b)) 0 (default_bearer s)).
Definition decideDDN (mmeAddr : string) (l : loc) (at_ : time) : P DdnControl.Decision :=
  h ← gets fst;
  if negb (hasControl h) then mret zero_decision
  else
    s ← on_snd (S11.session l);
    on_snd (IdleDownlink.control fold (ddn_candidate mmeAddr s) at_).

Definition sendDDNNow (l : loc) (at_ : time) : P (result SendError unit) :=
  h ← gets fst;
  if negb (hasSender h) then mret (Err SenderUnavailable)
  else
    r ← on_snd (S11Ddn.SendDownlinkDataNotification true l);
    match r with
    | Err e => mret (Err (SendFailed e))
    | Ok seq => on_session l (fun t => Session.MarkMMERestorationDDNTriggered t seq at_) ;; mret (Ok tt)
    end.

Definition failed (l : loc) (reason : string) (at_ : time) : P unit :=
  on_session l (fun t => Session.MarkMMERestorationDDNFailed t reason at_).
Definition controlled (l : loc) (d : DdnControl.Decision) (at_ : time) : P unit :=
  on_session l (fun t => Session.MarkMMERestorationDDNControlDecision t (DdnControl.Action d)
    (DdnControl.Priority d) (DdnControl.d_Reason d) (DdnControl.RetryAfter d) at_).

Definition enqueueDelayedDDN (mmeAddr : string) (l : loc) (d : DdnControl.Decision) (at_ : time) : P bool :=
  h ← gets fst;
  if DdnControl.RetryAfter d <=? 0 then mret false
  else
    t ← w_now;
    let at_ := or_now at_ t in
    if max_age (cfg h) <? DdnControl.RetryAfter d
    then failed l "DDN delayed retry exceeds max age" at_ ;; mret false
    else
      s ← on_snd (S11.session l);
      ok ← on_fst (act (enqueue (SessionData.SessionID s) mmeAddr (DdnControl.RetryAfter d) at_));
      if ok : bool then mret true
      else failed l "DDN delayed queue full" at_ ;; mret false.

(** Send, or note why not. *)
Definition send_or_fail (l : loc) (at_ : time) : P unit :=
  r ← sendDDNNow l at_;
  match r with Ok _ => mret tt | Err e => failed l (send_text e) at_ end.

Definition notify_preserved (event : PeerHealth.RestartEvent) (l : loc) : P unit :=
  status ← restoration l;
  if negb (String.eqb (SessionData.mr_PolicyAction status) SessionData.MMERestorationPolicyPreserve) then mret tt
  else if SessionData.mr_DDNTriggered status then mret tt
  else
    let at_ := PeerHealth.re_At event in
    d ← decideDDN (PeerHealth.re_Addr event) l at_;
    if String.eqb (DdnControl.Action d) "" then send_or_fail l at_
    else
      controlled l d at_ ;;
      if String.eqb (DdnControl.Action d) DdnControl.ActionSendNow then send_or_fail l at_
      else if String.eqb (DdnControl.Action d) DdnControl.ActionDelay
      then enqueueDelayedDDN (PeerHealth.re_Addr event) l d at_ ;; mret tt
      else mret tt.

Definition triggerDDNForPreservedSessions (event : PeerHealth.RestartEvent) : P unit :=
  h ← gets fst;
  if negb (TriggerDDN (cfg h)) then mret tt
  else
    ls ← FindByMME (PeerHealth.re_Addr event);
    if negb (hasSender h) then
      for_each ls (fun l =>
        status ← restoration l;
        if String.eqb (SessionData.mr_PolicyAction status) SessionData.MMERestorationPolicyPreserve
        then failed l "DDN sender unavailable" (PeerHealth.re_At event) else mret tt)
    else for_each ls (notify_preserved event).

Definition OnPeerRestart (event : PeerHealth.RestartEvent) : P unit :=
  h ← gets fst;
  if negb (Enabled (cfg h)) || negb (MarkSessionsOnRestart (cfg h)) then mret tt
  else if negb (String.eqb (PeerHealth.re_Role event) PeerHealth.RoleMME) then mret tt
  else
    order ← on_snd (S11.sessions_order None);
    t ← w_now;
    affected ← on_snd (S11.on_mgr (SessionManager.Manager_MarkMMERestart t order (PeerHealth.re_Addr event)
                                     (PeerHealth.NewRecovery event) (PeerHealth.re_At event)));
    applyPolicy event ;;
    enforceDeletePolicy event ;;
    triggerDDNForPreservedSessions event ;;
    t ← w_now;
    on_fst (modify (recordRestart t event affected)).

(** The timer of an entry. *)
Definition fireDelayedDDN (sessionID : string) : P unit :=
  entry ← on_fst (act (dequeue sessionID));
  match entry with
  | None => mret tt
  | Some entry =>
      found ← gets (fun p => SessionManager.Find sessionID (S11.mgr p.2));
      match found with
      | None => mret tt
      | Some l =>
          status ← restoration l;
          if negb (String.eqb (SessionData.mr_PolicyAction status) SessionData.MMERestorationPolicyPreserve)
             || SessionData.mr_DDNTriggered status then mret tt
          else
            h ← gets fst;
            now ← w_now;
            if max_age (cfg h) <? Sub now (enqueuedAt entry)
            then failed l "DDN delayed queue entry expired" now
            else
              d ← decideDDN (q_mmeAddr entry) l now;
              controlled l d now ;;
              if String.eqb (DdnControl.Action d) DdnControl.ActionDelay && (0 <? DdnControl.RetryAfter d)
                 && (Sub (Add now (DdnControl.RetryAfter d)) (enqueuedAt entry) <=? max_age (cfg h))
              then enqueueDelayedDDN (q_mmeAddr entry) l d now ;; mret tt
              else if negb (String.eqb (DdnControl.Action d) "")
                      && negb (String.eqb (DdnControl.Action d) DdnControl.ActionSendNow)
              then failed l ("DDN delayed send suppressed: " ++ DdnControl.d_Reason d)%string now
              else send_or_fail l now
      end
  end.
End Events.

(** ** The queue's accounts *)

(** The entries of an MME. *)
Definition entries_for (a : string) (q : gmap string delayedDDN) : gmap string delayedDDN :=
  filter (fun p => q_mmeAddr p.2 = a) q.
(** Every entry stands under its session and will be due within the maximal age; the slots
    taken by an MME are its entries; the queue is within its limit. *)
Record queue_ok (h : Handler) : Prop := mkQueueOk {
  qo_entries : map_Forall (fun id e => q_sessionID e = id
     /\ enqueuedAt e < fireAt e <= enqueuedAt e + max_age (cfg h)) (queue h);
  qo_slots : forall a, queued_for a h = Z.of_nat (size (entries_for a (queue h)));
  qo_limit : Z.of_nat (size (queue h)) <= max_global (cfg h)
}.

Lemma max_global_pos c : 0 < max_global c.
Proof. unfold max_global. destruct (Z.leb_spec (DelayedQueueMax c) 0); lia. Qed.
Lemma NewHandler_queue c s5c pfcp : queue_ok (NewHandlerWithCleanup c s5c pfcp).
Proof.
  split; cbn [queue cfg NewHandlerWithCleanup]; [done|intros a; done|].
  rewrite map_size_empty. pose proof (max_global_pos c). lia.
Qed.

Lemma entries_insert a id e q : q !! id = None ->
  size (entries_for a (<[id := e]> q))
  = ((if decide (q_mmeAddr e = a) then 1 else 0) + size (entries_for a q))%nat.
Proof.
  intros Hid. unfold entries_for. rewrite map_filter_insert. cbn. case_decide.
  - rewrite map_size_insert_None; [done|]. by apply map_lookup_filter_None_2; left.
  - by rewrite map_filter_delete, delete_id by (by apply map_lookup_filter_None_2; left).
Qed.
Lemma entries_delete a id e q : q !! id = Some e ->
  size (entries_for a q) = ((if decide (q_mmeAddr e = a) then 1 else 0) + size (entries_for a (delete id q)))%nat.
Proof.
  intros Hid. rewrite <- (insert_delete_id q id e Hid) at 1. by rewrite entries_insert by apply lookup_delete_eq.
Qed.

Lemma release_slot_for a b h : 0 <= queued_for a h ->
  queued_for a (release_slot b h) = if decide (a = b) then Z.max 0 (queued_for a h - 1) else queued_for a h.
Proof.
  intros Ha. unfold release_slot. destruct (Z.ltb_spec 0 (queued_for b h)) as [Hb|Hb].
  - unfold queued_for in *. cbn. case_decide as E.
    + subst b. rewrite lookup_insert_eq. cbn. unfold queued_for. lia.
    + by rewrite lookup_insert_ne.
  - case_decide; subst; lia.
Qed.

Lemma dequeue_ok id h : queue_ok h -> queue_ok (dequeue id h).2.
Proof.
  intros [He Hs Hl]. unfold dequeue. destruct (queue h !! id) as [e|] eqn:Eq; [|by split].
  cbn [snd]. set (h1 := h <| queue := delete id (queue h) |>).
  assert (queue (release_slot (q_mmeAddr e) h1) = delete id (queue h)
          /\ cfg (release_slot (q_mmeAddr e) h1) = cfg h) as [Eq1 Ec].
  { unfold release_slot. by destruct (0 <? _). }
  split; rewrite ?Eq1, ?Ec.
  - by apply map_Forall_delete.
  - intros a. rewrite release_slot_for; change (queued_for a h1) with (queued_for a h); rewrite Hs; [|lia].
    rewrite (entries_delete a id e) by done. repeat case_decide; subst; try done; lia.
  - rewrite map_size_delete_Some by (by exists e). lia.
Qed.

Lemma insert_entry_ok id mmeAddr retry at_ h :
  queue_ok h -> queue h !! id = None -> Z.of_nat (size (queue h)) < max_global (cfg h) ->
  0 < retry <= max_age (cfg h) ->
  queue_ok (h <| queue := <[id := mkDelayedDDN id mmeAddr at_ (Add at_ retry) 0]> (queue h) |>
              <| queueMME := <[mmeAddr := queued_for mmeAddr h + 1]> (queueMME h) |>).
Proof.
  intros [He Hs Hl] Hid Hroom Hr. split; cbn.
  - apply map_Forall_insert_2; [|done]. cbn. unfold Add. split; [done|lia].
  - intros a. unfold queued_for at 1. cbn. rewrite entries_insert by done. cbn. case_decide as E.
    + subst a. rewrite lookup_insert_eq. cbn. rewrite Hs. lia.
    + rewrite lookup_insert_ne by done. apply Hs.
  - rewrite map_size_insert_None by done. lia.
Qed.

Lemma enqueue_ok id mmeAddr retry at_ h : queue_ok h -> 0 < retry <= max_age (cfg h) ->
  queue_ok (enqueue id mmeAddr retry at_ h).2.
Proof.
  intros Hok Hr. unfold enqueue. destruct (queue h !! id) as [old|] eqn:Eq.
  - pose proof (dequeue_ok id h Hok) as Hdq. unfold dequeue in Hdq. rewrite Eq in Hdq. cbn [snd] in *.
    assert (forall g, release_slot (q_mmeAddr old) (g <| queue := delete id (queue h) |>)
              = (release_slot (q_mmeAddr old) g) <| queue := delete id (queue h) |>) as Hcomm.
    { intros g. unfold release_slot. change (queued_for (q_mmeAddr old) (g <| queue := _ |>))
        with (queued_for (q_mmeAddr old) g). by destruct (0 <? _). }
    rewrite Hcomm in Hdq. set (h1 := release_slot (q_mmeAddr old) h) in *.
    assert (queue h1 = queue h /\ cfg h1 = cfg h) as [Eq1 Ec]
      by (unfold h1, release_slot; by destruct (0 <? _)).
    pose proof (insert_entry_ok id mmeAddr retry at_ _ Hdq) as Hin. cbn in Hin.
    rewrite lookup_delete_eq, Ec in Hin. specialize (Hin eq_refl).
    rewrite map_size_delete_Some in Hin by (by exists old). destruct Hok as [_ _ Hl].
    assert (0 < Z.of_nat (size (queue h))) as Hpos.
    { assert (size (queue h) <> 0%nat) as Hne by (apply map_size_ne_0_lookup; eauto). lia. }
    rewrite insert_delete_eq in Hin. cbn. rewrite Eq1. apply Hin; lia.
  - destruct (Z.leb_spec (max_global (cfg h)) (Z.of_nat (size (queue h)))) as [|Hroom]; cbn [orb]; [done|].
    destruct (max_per_mme (cfg h) <=? _); [done|].
    exact (insert_entry_ok id mmeAddr retry at_ h Hok Eq Hroom Hr).
Qed.

Section QueueRuns.
Context {E : Type} `{Environment E} `{ErrorTexts} (fold : Z -> Z).
Notation World := (S11.World E).
Notation state_ := (Handler * World)%type.

(** The configuration stays, and so do the accounts. *)
Definition queue_kept (p p' : state_) : Prop :=
  cfg p'.1 = cfg p.1 /\ (queue_ok p.1 -> queue_ok p'.1).
#[export] Instance queue_kept_preorder : PreOrder queue_kept.
Proof. split; [by intros p|]. intros p q r [E1 H1] [E2 H2]. split; [congruence|tauto]. Qed.
Notation kept m := (keeps queue_kept m).

Lemma kept_world {A} (m : M World A) : kept (on_snd (S := Handler) m).
Proof. eapply (keeps_on_snd _ (fun _ _ => True)); [done|by intros]. Qed.
Lemma kept_record (f : Handler -> Handler) :
  (forall h, cfg (f h) = cfg h /\ queue (f h) = queue h /\ queueMME (f h) = queueMME h) ->
  kept (on_fst (T := World) (modify f)).
Proof.
  intros Hf p a p' Er. unfold on_fst, zoom, modify in Er. injection Er as <- <-.
  destruct (Hf p.1) as (E1 & E2 & E3). split; [done|]. intros [H1 H2 H3].
  split; cbn [fst]; unfold queued_for in *; by rewrite ?E1, ?E2, ?E3.
Qed.
Lemma kept_dequeue id : kept (on_fst (T := World) (act (dequeue id))).
Proof.
  intros p a p' Er. unfold on_fst, zoom, act in Er. pose proof (dequeue_ok id p.1) as Hd.
  assert (cfg (dequeue id p.1).2 = cfg p.1) as Ec.
  { unfold dequeue. destruct (queue p.1 !! id); [|done]. cbn. unfold release_slot. by destruct (0 <? _). }
  destruct (dequeue id p.1) as [e h]. injection Er as <- <-. by split.
Qed.
Lemma kept_FindByMME a : kept (FindByMME a).
Proof. unfold FindByMME. apply keeps_bind; [apply _|apply kept_world|]. intros. apply keeps_gets, _. Qed.
#[local] Hint Resolve kept_world kept_dequeue kept_FindByMME : keeps.
Lemma kept_restoration l : kept (restoration l).
Proof. unfold restoration. keeps_tac. Qed.
Lemma kept_now : kept w_now.
Proof. apply kept_world. Qed.
Lemma kept_session l f : kept (on_session l f).
Proof. apply kept_world. Qed.
#[local] Hint Resolve kept_restoration kept_now kept_session : keeps.
Lemma kept_failed l r at_ : kept (failed l r at_).
Proof. apply kept_session. Qed.
Lemma kept_controlled l d at_ : kept (controlled l d at_).
Proof. apply kept_session. Qed.
Lemma kept_decide a l at_ : kept (decideDDN fold a l at_).
Proof. unfold decideDDN. keeps_tac. Qed.
Lemma kept_send l at_ : kept (sendDDNNow l at_).
Proof. unfold sendDDNNow. keeps_tac. Qed.
#[local] Hint Resolve kept_failed kept_controlled kept_decide kept_send : keeps.
Lemma kept_send_or_fail l at_ : kept (send_or_fail l at_).
Proof. unfold send_or_fail. keeps_tac. Qed.

Lemma enqueue_cfg id a retry at_ h : cfg (enqueue id a retry at_ h).2 = cfg h.
Proof.
  unfold enqueue. destruct (queue h !! id); [|by destruct (_ || _)].
  cbn. unfold release_slot. by destruct (0 <? _).
Qed.
Lemma kept_enqueue a l d at_ : kept (enqueueDelayedDDN a l d at_).
Proof.
  intros p. intros r p' Er. revert r p' Er.
  enough (wp True (enqueueDelayedDDN a l d at_) (fun _ p' => queue_kept p p') p) as Hwp.
  { intros r p' Er. exact (wp_run True _ _ _ _ _ Hwp Er). }
  unfold enqueueDelayedDDN. apply wp_bind, wp_gets.
  destruct (Z.leb_spec (DdnControl.RetryAfter d) 0); [by apply wp_ret|].
  apply wp_bind, wp_of_runs. intros t p1 E1. pose proof (kept_now _ _ _ E1) as K1.
  destruct (Z.ltb_spec (max_age (cfg p.1)) (DdnControl.RetryAfter d)).
  { apply wp_bind, wp_of_runs. intros u p2 E2. apply wp_ret. transitivity p1; [done|].
    exact (kept_failed _ _ _ _ _ _ E2). }
  apply wp_bind, wp_of_runs. intros s p2 E2. pose proof (kept_world _ _ _ _ E2) as K2.
  apply wp_bind, wp_on_fst, wp_act. intros ok h' Eq.
  assert (queue_kept p (h', p2.2)) as K3.
  { transitivity p2; [by transitivity p1|]. destruct K1 as [C1 _], K2 as [C2 _].
    pose proof (enqueue_cfg (SessionData.SessionID s) a (DdnControl.RetryAfter d) (or_now at_ t) p2.1) as Ec.
    pose proof (enqueue_ok (SessionData.SessionID s) a (DdnControl.RetryAfter d) (or_now at_ t) p2.1) as Hq.
    rewrite Eq in Ec, Hq. split; [done|]. intros Hok. apply Hq; [done|]. rewrite C2, C1. lia. }
  destruct ok; [by apply wp_ret|]. apply wp_bind, wp_of_runs. intros u p4 E4. apply wp_ret.
  transitivity (h', p2.2); [done|]. exact (kept_failed _ _ _ _ _ _ E4).
Qed.
#[local] Hint Resolve kept_send_or_fail kept_enqueue : keeps.

(** The events of the handler. *)
Inductive event :=
| PeerStateChange (e : PeerHealth.StateChangeEvent) | PeerRestart (e : PeerHealth.RestartEvent)
| TimerFires (sessionID : string).
Definition on_event (e : event) : M state_ unit :=
  match e with
  | PeerStateChange e => OnPeerStateChange e
  | PeerRestart e => OnPeerRestart fold e
  | TimerFires id => fireDelayedDDN fold id
  end.
Lemma record_change_frame t e st n h :
  let h' := recordStateChange t e st n h in cfg h' = cfg h /\ queue h' = queue h /\ queueMME h' = queueMME h.
Proof. unfold recordStateChange. by destruct (String.eqb _ _). Qed.
Lemma record_restart_frame t e n h :
  let h' := recordRestart t e n h in cfg h' = cfg h /\ queue h' = queue h /\ queueMME h' = queueMME h.
Proof. unfold recordRestart. by destruct (String.eqb _ _). Qed.
#[local] Hint Resolve kept_record record_change_frame record_restart_frame : keeps.
Lemma kept_delete l : kept (deleteSessionForRestoration l).
Proof. unfold deleteSessionForRestoration. keeps_tac. Qed.
#[local] Hint Resolve kept_delete : keeps.
Lemma kept_apply e : kept (applyPolicy fold e).
Proof. unfold applyPolicy. keeps_tac. Qed.
Lemma kept_enforce e : kept (enforceDeletePolicy e).
Proof. unfold enforceDeletePolicy. keeps_tac. Qed.
Lemma kept_notify e l : kept (notify_preserved fold e l).
Proof. unfold notify_preserved. keeps_tac. Qed.
#[local] Hint Resolve kept_apply kept_enforce kept_notify : keeps.
Lemma kept_trigger e : kept (triggerDDNForPreservedSessions fold e).
Proof. unfold triggerDDNForPreservedSessions. keeps_tac. Qed.
#[local] Hint Resolve kept_trigger : keeps.
Lemma kept_event e : kept (on_event e).
Proof.
  destruct e; cbn [on_event]; unfold OnPeerStateChange, OnPeerRestart, fireDelayedDDN; keeps_tac.
Qed.
End QueueRuns.

(** ** Property *)

(** C17: the queue of delayed notifications stays bounded and its accounts stay right, for
    a new handler with whatever configuration and any sequence of peer state changes,
    restarts and timers over any world.  The queue holds at most the configured number of
    entries, each under its session's id and due within the maximal age of its queueing,
    and the slots counted against every MME are exactly the entries queued for it. *)
Theorem delayed_queue_bounded {E : Type} `{Environment E} `{ErrorTexts} (fold : Z -> Z) c
    (s5c pfcp sender control : bool) (events : list event) (w : S11.World E) p' :
  for_each events (on_event fold)
    (SetDDNControl control (SetDDNSender sender (NewHandlerWithCleanup c s5c pfcp)), w) = Some (tt, p') ->
  Z.of_nat (size (queue p'.1)) <= max_global c
  /\ map_Forall (fun id e => q_sessionID e = id /\ enqueuedAt e < fireAt e <= enqueuedAt e + max_age c)
       (queue p'.1)
  /\ forall a, queued_for a p'.1 = Z.of_nat (size (entries_for a (queue p'.1))).
Proof.
  intros Hr. assert (keeps queue_kept (for_each events (on_event (E := E) fold))) as Hk.
  { apply keeps_for_each; [apply _|]. intros e. apply kept_event. }
  destruct (Hk _ _ _ Hr) as [Ec Hok]. destruct Hok as [H1 H2 H3].
  - destruct (NewHandler_queue c s5c pfcp) as [Q1 Q2 Q3]. by split.
  - cbn [fst] in Ec. change (cfg p'.1 = c) in Ec. rewrite Ec in *. by split_and!.
Qed.

(** ** Checked on a restart *)

#[local] Existing Instance S11Example.network_environment.
#[local] Instance no_texts : ErrorTexts := { s5c_text _ := ""; ddn_text _ := "" }.
Definition example_handler : Handler :=
  SetDDNControl true (SetDDNSender true (NewHandler
    (mkConfig true true true true true 0 0 1 0 [] [] "preserve"))).
(** A world whose control has just spent the only token of the MME. *)
Definition example_control : option DdnControl.State :=
  (DdnControl.Decide (fun r => r) Second (DdnControl.mkCandidate "10.0.0.5:2123" "other" "apn" 5 9 1) Second
     (Some (DdnControl.NewState (DdnControl.mkConfig true 1 1 0 true 0 false [] [])))).2.
Definition example_world : S11.World S11Example.network :=
  let w := S11Example.created in
  S11.mkWorld (S11.SetDDNControl example_control (S11.hs w)) (S11.mgr w) (S11.s5c w) (S11.pfcp w)
    (S11.table w) (S11.io w).
Definition example_events : list event :=
  [PeerRestart (PeerHealth.mkRestartEvent PeerHealth.RoleMME "10.0.0.5:2123" 3 4 Second)].
Definition example_run (events : list event) : option (Handler * S11.World S11Example.network) :=
  snd <$> for_each events (on_event (fun r => r)) (example_handler, example_world).
Definition queued (p : Handler * S11.World S11Example.network) : list (string * Z * Z) :=
  (fun e => (q_mmeAddr e, enqueuedAt e, fireAt e)) <$> (map_to_list (queue p.1)).*2.
Definition example_done : list event := example_events ++ [TimerFires "0000000000000022"].
(** The notification waits for the next token; its timer empties the queue. *)
Example delayed_example :
  queued <$> example_run example_events = Some [("10.0.0.5:2123", Second, 2 * Second)]
  /\ (fun p => (queued p, map_to_list (queueMME p.1))) <$> example_run example_done
     = Some ([], [("10.0.0.5:2123", 0)]).
Proof. vm_compute. split; reflexivity. Qed.

(** The limit per MME is not looked at when a session's entry moves to another MME. *)
Definition limited : Handler :=
  NewHandler (mkConfig true true true true true 0 0 1 0 [] [] "preserve").
Definition moved : Handler :=
  let put id a h := (enqueue id a Second Second h).2 in put "1" "b" (put "2" "b" (put "1" "a" limited)).
Example limit_bypassed : max_per_mme (cfg moved) = 1 /\ queued_for "b" moved = 2
  /\ (enqueue "3" "b" Second Second moved).1 = false.
Proof. vm_compute. by split_and!. Qed.

Definition example_end : Handler * S11.World S11Example.network :=
  default (example_handler, example_world) (example_run example_events).
Lemma delayed_queue_bounded_witness :
  let h := example_end.1 in
  Z.of_nat (size (queue h)) <= max_global (cfg example_handler)
  /\ map_Forall (fun id e => q_sessionID e = id
       /\ enqueuedAt e < fireAt e <= enqueuedAt e + max_age (cfg example_handler)) (queue h)
  /\ forall a, queued_for a h = Z.of_nat (size (entries_for a (queue h))).
Proof.
  refine (delayed_queue_bounded (fun r => r) (cfg example_handler) false false true true example_events
            example_world example_end _).
  vm_compute. reflexivity.
Defined.
