(* ===== verification/MmeRestart.v ===== *)
(** * MME restoration: what a restart does to the sessions

    The handler of [MmeRestoration] when an MME has restarted: it marks the sessions of the
    MME, decides on each of them, releases those the policy gives up, and only then
    notifies.  A session leaves the registry only by the policy and with the gateway's
    consent. *)

From S2P Require Import Prelude GoLib Effects Gtpv2Ie SgwcIo.
From S2P Require SessionData Session SessionManager S5c PeerHealth.
From S2P Require S11 S11Registry S11Example.
From S2P Require Import S11Manager MmeRestoration.
#[local] Open Scope string_scope.
#[local] Open Scope list_scope.
#[local] Open Scope Z_scope.

#[local] Existing Instance SessionData.eta_SGWSession.
(** A session apart from its restoration record and its time stamp. *)
Definition fixed (s : SGWSession) : SGWSession :=
  s <| SessionData.MMERestoration := SessionData.no_restoration |> <| SessionData.UpdatedAt := zero_time |>.
Definition policy_of (s : SGWSession) : string := SessionData.mr_PolicyAction (SessionData.MMERestoration s).
Definition pending (s : SGWSession) : bool := SessionData.mr_RestorationPending (SessionData.MMERestoration s).
(** What survives the notifications. *)
Definition part (s : SGWSession) : SGWSession * string * bool := (fixed s, policy_of s, pending s).

(** A session of the MME at a canonical endpoint. *)
Definition of_mme (a : string) (s : SGWSession) : Prop :=
  SessionManager.CanonicalGTPCEndpoint a <> ""
  /\ SessionManager.mme_matches (SessionManager.CanonicalGTPCEndpoint a) s = true.

Lemma fixed_fields s s' : fixed s = fixed s' ->
  SessionData.SessionID s = SessionData.SessionID s' /\ SessionData.PFCP s = SessionData.PFCP s'
  /\ SessionData.APN s = SessionData.APN s'
  /\ SessionData.MMEControlFTEID s = SessionData.MMEControlFTEID s'
  /\ default_bearer s = default_bearer s'.
Proof. intros E. destruct s, s'. cbn in E. injection E. intros. subst. done. Qed.
Lemma fixed_of_mme a s s' : fixed s = fixed s' -> of_mme a s -> of_mme a s'.
Proof.
  intros E. destruct (fixed_fields _ _ E) as (_ & _ & _ & Em & _). unfold of_mme, SessionManager.mme_matches.
  by rewrite Em.
Qed.
Lemma fixed_policy fold c s s' : fixed s = fixed s' -> evaluatePolicy fold c s = evaluatePolicy fold c s'.
Proof.
  intros E. destruct (fixed_fields _ _ E) as (_ & _ & Ea & _ & Eb).
  assert (forall r, matches fold r s = matches fold r s') as Em.
  { intros r. unfold matches. by rewrite Ea, Eb. }
  unfold evaluatePolicy.
  assert (forall rs, List.find (fun r => matches fold r s) rs = List.find (fun r => matches fold r s') rs) as Ef.
  { intros rs. induction rs as [|r rs IH]; [done|]. cbn. by rewrite Em, IH. }
  by rewrite !Ef.
Qed.

Section Restart.
Context {E : Type} `{Environment E} `{ErrorTexts} (fold : Z -> Z).
Notation World := (S11.World E).
Notation state_ := (Handler * World)%type.

Definition registry (w : World) : gmap string loc := SessionManager.byID (S11.mgr w).
Definition fixed_view (w : World) := (registry w, fixed <$> SessionManager.heap (S11.mgr w)).
Definition part_view (w : World) := (registry w, part <$> SessionManager.heap (S11.mgr w)).

(** *** Steps of the world *)

Lemma same_on_io {A X} (f : SessionManager.Manager -> X) (m : M (IO E) A) :
  keeps (same (fun w => f (S11.mgr w))) (S11.on_io m).
Proof. apply keeps_view, mgr_on_io. Qed.
Lemma same_control {X} (f : SessionManager.Manager -> X) c at_ :
  keeps (same (fun w => f (S11.mgr w))) (IdleDownlink.control (E := E) fold c at_).
Proof. apply keeps_view. unfold IdleDownlink.control. keeps_tac. Qed.
Lemma same_send {X} (f : SessionManager.Manager -> X) l :
  keeps (same (fun w => f (S11.mgr w))) (S11Ddn.SendDownlinkDataNotification (E := E) true l).
Proof.
  apply keeps_view. unfold S11Ddn.SendDownlinkDataNotification, S11Ddn.send_to_mme, S11.get_h. keeps_tac.
Qed.

(** *** Steps of the handler that only touch notifications *)

Definition same_parts (p p' : state_) : Prop := cfg p'.1 = cfg p.1 /\ part_view p'.2 = part_view p.2.
#[export] Instance same_parts_preorder : PreOrder same_parts.
Proof. split; [by intros p|]. intros p q r [? ?] [? ?]. split; congruence. Qed.
Notation calm m := (keeps same_parts m).
Lemma calm_world {A} (m : M World A) : keeps (same part_view) m -> calm (on_snd (S := Handler) m).
Proof. intros Hm. eapply keeps_on_snd; [exact Hm|]. by intros h w w' Hw. Qed.
Lemma calm_io {A} (m : M (IO E) A) : calm (on_snd (S := Handler) (S11.on_io m)).
Proof. apply calm_world, (same_on_io (fun m => (SessionManager.byID m, part <$> SessionManager.heap m))). Qed.
Lemma calm_now : calm (w_now (E := E)).
Proof. apply calm_io. Qed.
Lemma calm_on_session l op : (forall t s, part (op t s).1 = part s) -> calm (on_session l op).
Proof. intros Hop. apply calm_world. exact (same_on_sess part l op Hop). Qed.
Lemma calm_session l : calm (on_snd (S := Handler) (S11.session (E := E) l)).
Proof. apply calm_world. unfold S11.session. keeps_tac. Qed.
#[local] Hint Resolve calm_now calm_session : keeps.
Lemma calm_restoration l : calm (restoration (E := E) l).
Proof. unfold restoration. keeps_tac. Qed.
Lemma calm_failed l r at_ : calm (failed (E := E) l r at_).
Proof. by apply calm_on_session. Qed.
Lemma calm_controlled l d at_ : calm (controlled (E := E) l d at_).
Proof. by apply calm_on_session. Qed.
Lemma calm_decide a l at_ : calm (decideDDN (E := E) fold a l at_).
Proof.
  unfold decideDDN. keeps_tac. apply calm_world.
  apply (same_control (fun m => (SessionManager.byID m, part <$> SessionManager.heap m))).
Qed.
Lemma calm_send l at_ : calm (sendDDNNow (E := E) l at_).
Proof.
  unfold sendDDNNow. keeps_tac; [|by apply calm_on_session]. apply calm_world.
  apply (same_send (fun m => (SessionManager.byID m, part <$> SessionManager.heap m))).
Qed.
#[local] Hint Resolve calm_restoration calm_failed calm_controlled calm_decide calm_send : keeps.
Lemma calm_send_or_fail l at_ : calm (send_or_fail (E := E) l at_).
Proof. unfold send_or_fail. keeps_tac. Qed.
Lemma calm_enqueue a l d at_ : calm (enqueueDelayedDDN (E := E) a l d at_).
Proof.
  unfold enqueueDelayedDDN. keeps_tac. eapply (keeps_zoom _ (fun h h' => cfg h' = cfg h)).
  - apply keeps_act. intros h. apply enqueue_cfg.
  - by intros [h w] h' Hc.
Qed.
#[local] Hint Resolve calm_send_or_fail calm_enqueue : keeps.
Lemma calm_FindByMME a : calm (FindByMME (E := E) a).
Proof.
  unfold FindByMME. apply keeps_bind; [apply _| |intros; apply keeps_gets, _]. apply calm_world.
  unfold S11.sessions_order. apply keeps_bind; [apply _| |intros; keeps_tac].
  apply (same_on_io (fun m => (SessionManager.byID m, part <$> SessionManager.heap m))).
Qed.
#[local] Hint Resolve calm_FindByMME : keeps.
Lemma calm_trigger e : calm (triggerDDNForPreservedSessions (E := E) fold e).
Proof. unfold triggerDDNForPreservedSessions, notify_preserved. keeps_tac. Qed.

(** *** Marking *)

Definition marked (now : time) (mmeAddr : string) (rec : Z) (at_ : time) (s : SGWSession) : SGWSession :=
  (Session.MarkMMERestart now mmeAddr rec at_ s).1.
(** A pass over the sessions of a list: the fixed parts stay, a property that each visited
    session gains and that no visit takes away holds of all of them. *)
Lemma on_sessions_gain (gained : SGWSession -> Prop) f ls : forall m,
  (forall s, fixed (f s).1 = fixed s) -> (forall s, gained (f s).1) ->
  let m' := (SessionManager.on_sessions ls f m).1 in
  SessionManager.byID m' = SessionManager.byID m
  /\ fixed <$> SessionManager.heap m' = fixed <$> SessionManager.heap m
  /\ forall l s', SessionManager.heap m' !! l = Some s' ->
       (l ∈ ls \/ exists s, SessionManager.heap m !! l = Some s /\ gained s) -> gained s'.
Proof.
  intros m Hfix Hgain. revert m. induction ls as [|l0 ls IH]; intros m; cbn [SessionManager.on_sessions].
  { cbn. split_and!; [done|done|]. intros l s' Hs [Hl|(s & Hs' & Hg)]; [by apply not_elem_of_nil in Hl|].
    rewrite Hs in Hs'. by injection Hs' as <-. }
  assert (SessionManager.byID (SessionManager.on_session l0 f m).1 = SessionManager.byID m
    /\ fixed <$> SessionManager.heap (SessionManager.on_session l0 f m).1 = fixed <$> SessionManager.heap m
    /\ forall l s1, SessionManager.heap (SessionManager.on_session l0 f m).1 !! l = Some s1 ->
        (l = l0 /\ gained s1) \/ (l <> l0 /\ SessionManager.heap m !! l = Some s1)) as (B1 & B2 & B3).
  { unfold SessionManager.on_session. destruct (SessionManager.heap m !! l0) as [s0|] eqn:E0.
    2: { split_and!; [done|done|]. intros l s1 Hl. right. split; [|done]. intros ->. cbn in Hl. congruence. }
    pose proof (Hfix s0) as Hf0. pose proof (Hgain s0) as Hg0. destruct (f s0) as [s1 k]. cbn in *.
    split_and!; [done| |].
    - rewrite fmap_insert, Hf0, insert_id; [done|]. by rewrite lookup_fmap, E0.
    - intros l s2 Hl. apply lookup_insert_Some in Hl as [[<- <-]|[Hne Hl]]; [by left|by right]. }
  destruct (SessionManager.on_session l0 f m) as [m1 k1]. cbn [fst] in *.
  destruct (IH m1) as (C1 & C2 & C3). destruct (SessionManager.on_sessions ls f m1) as [m2 k2]. cbn [fst] in *.
  split_and!; [congruence|congruence|]. intros l s' Hs Hor. apply (C3 l s' Hs).
  destruct (decide (l ∈ ls)) as [|Hnin]; [by left|]. right.
  assert (is_Some (SessionManager.heap m1 !! l)) as [s1 Hs1].
  { assert (is_Some ((fixed <$> SessionManager.heap m2) !! l)) as Hi by (rewrite lookup_fmap, Hs; by eexists).
    rewrite C2, lookup_fmap in Hi. by apply fmap_is_Some in Hi. }
  exists s1. split; [done|]. destruct (B3 l s1 Hs1) as [[_ ?]|[Hne Hm]]; [done|].
  destruct Hor as [Hin|(s & Hms & Hg)].
  - by apply elem_of_cons in Hin as [->|].
  - rewrite Hm in Hms. by injection Hms as <-.
Qed.

(** *** The policy of each session *)

(** [FindByMME] lists the registered sessions of the MME, and only them. *)
Definition mme_listed (w : World) (a : string) (ls : list loc) : Prop :=
  (forall l, l ∈ ls -> exists id s, registry w !! id = Some l /\ session_at w l = Some s /\ of_mme a s)
  /\ forall id l s, registry w !! id = Some l -> session_at w l = Some s -> of_mme a s -> l ∈ ls.
Lemma listed_by_order (w : World) a order : ids_ordered w order ->
  mme_listed w a (SessionManager.FindByMME order a (S11.mgr w)).
Proof.
  intros Ho. unfold mme_listed, SessionManager.FindByMME, of_mme.
  destruct (String.eqb_spec (SessionManager.CanonicalGTPCEndpoint a) "") as [->|Hne].
  { split; [intros l Hl; by apply not_elem_of_nil in Hl|]. by intros id l s _ _ []. }
  split.
  - intros l Hl. apply list_elem_of_filter in Hl as [Hm Hl]. apply list_elem_of_omap in Hl as (id & _ & Hl).
    unfold session_at. destruct (SessionManager.heap (S11.mgr w) !! l) as [s|] eqn:Es; [|done]. by exists id, s.
  - intros id l s Hl Hs [_ Hm]. apply list_elem_of_filter. unfold session_at in Hs. rewrite Hs. split; [done|].
    apply list_elem_of_omap. exists id. split; [by apply (Ho id l)|done].
Qed.
Lemma FindByMME_lists a (p : state_) :
  wp True (FindByMME a) (fun ls p' => p'.1 = p.1 /\ S11.mgr p'.2 = S11.mgr p.2 /\ mme_listed p.2 a ls) p.
Proof.
  unfold FindByMME. apply wp_bind, wp_on_snd. eapply wp_mono; [done| |apply order_complete].
  intros order w [Em Ho]. apply wp_gets. split_and!; [done|done|]. cbn [snd]. rewrite Em.
  by apply listed_by_order.
Qed.

(** The marked sessions of the MME carry the policy's verdict. *)
Definition verdict_on (c : Config) (s : SGWSession) : Prop :=
  pending s = true /\ policy_of s = (evaluatePolicy fold c s).1.
Definition judged (c : Config) (a : string) (w : World) : Prop := forall id l s,
  registry w !! id = Some l -> session_at w l = Some s -> of_mme a s -> verdict_on c s.

Lemma set_policy c at_ reason (l : loc) (s : SGWSession) (w : World) : session_at w l = Some s -> pending s = true ->
  wp True (S11.on_sess l (fun t => Session.SetMMERestorationPolicy t (evaluatePolicy fold c s).1 reason at_))
    (fun _ w' => fixed_view w' = fixed_view w
       /\ (forall s', session_at w' l = Some s' -> verdict_on c s')
       /\ forall l', l' <> l -> session_at w' l' = session_at w l') w.
Proof.
  intros Hs Hp. set (op := fun t => Session.SetMMERestorationPolicy t (evaluatePolicy fold c s).1 reason at_).
  apply (wp_conj True _ (fun _ w' => fixed_view w' = fixed_view w)).
  - apply wp_of_runs. intros [] w' Er. exact (same_on_sess fixed l op (fun t s => eq_refl) _ _ _ Er).
  - eapply wp_mono; [done| |by apply (on_sess_at l op w s)]. intros [] w' (t & Hs' & Ho & _).
    split; [|exact Ho]. intros s1 Hs1. rewrite Hs' in Hs1. injection Hs1 as <-. split; [done|].
    cbn. by apply f_equal, (fixed_policy fold c).
Qed.

(** A property of session objects that only depends on the registry and the fixed parts
    holds before and after. *)
Lemma fixed_view_at (w w' : World) l s' : fixed_view w' = fixed_view w -> session_at w' l = Some s' ->
  exists s, session_at w l = Some s /\ fixed s = fixed s'.
Proof.
  intros Ev Hs. injection Ev as _ Eh. unfold session_at in *.
  assert ((fixed <$> SessionManager.heap (S11.mgr w')) !! l = Some (fixed s')) as Hl by (by rewrite lookup_fmap, Hs).
  rewrite Eh, lookup_fmap in Hl. apply fmap_Some in Hl as (s & -> & ->). by exists s.
Qed.

(** The loop of [applyPolicy], over marked sessions. *)
Lemma policy_loop h at_ ls : forall w : World,
  (forall l s, l ∈ ls -> session_at w l = Some s -> pending s = true) ->
  wp True (for_each ls (fun l =>
      s ← on_snd (S11.session l);
      let '(action, reason) := evaluatePolicy fold (cfg h) s in
      on_session l (fun t => Session.SetMMERestorationPolicy t action reason at_)))
    (fun _ p => p.1 = h /\ fixed_view p.2 = fixed_view w
       /\ (forall l s, l ∈ ls -> session_at p.2 l = Some s -> verdict_on (cfg h) s)
       /\ forall l, l ∉ ls -> session_at p.2 l = session_at w l) (h, w).
Proof.
  induction ls as [|l ls IH]; intros w Hp; cbn [for_each].
  { apply wp_ret. split_and!; [done..|by intros l s Hl; apply not_elem_of_nil in Hl|done]. }
  apply wp_bind, wp_bind, wp_on_snd, wp_session. intros s Hs. cbn [fst].
  rewrite (surjective_pairing (evaluatePolicy fold (cfg h) s)). unfold on_session. apply wp_on_snd. cbn [fst snd].
  eapply wp_mono; [done| |apply (set_policy (cfg h) at_ _ l s w Hs); eapply Hp; [left|exact Hs]].
  intros _ w1 (Hf1 & Hv & Ho). eapply wp_mono; [done| |apply IH].
  - intros _ [h2 w2] (-> & Hf2 & Hv2 & Ho2). cbn [fst snd] in *. split_and!; [done|congruence| |].
    + intros l' s' Hl' Hs'. destruct (decide (l' ∈ ls)) as [|Hn]; [by eapply Hv2|].
      apply elem_of_cons in Hl' as [->|]; [|done]. apply Hv. by rewrite <- Ho2.
    + intros l' Hl'. apply not_elem_of_cons in Hl' as [Hne Hn]. by rewrite Ho2, Ho.
  - intros l' s' Hl' Hs'. destruct (decide (l' = l)) as [->|Hne]; [by destruct (Hv s' Hs')|].
    rewrite Ho in Hs' by done. by eapply Hp; [right|].
Qed.

(** All sessions of the MME are marked. *)
Definition all_pending (a : string) (w : World) : Prop := forall id l s,
  registry w !! id = Some l -> session_at w l = Some s -> of_mme a s -> pending s = true.
Lemma applyPolicy_judges e h (w : World) : all_pending (PeerHealth.re_Addr e) w ->
  wp True (applyPolicy fold e)
    (fun _ p => p.1 = h /\ fixed_view p.2 = fixed_view w /\ judged (cfg h) (PeerHealth.re_Addr e) p.2) (h, w).
Proof.
  intros Hp. unfold applyPolicy. apply wp_bind, wp_gets, wp_bind. cbn [fst].
  eapply wp_mono; [done| |apply FindByMME_lists]. intros ls [h1 w1] (Eh & Em & Hin & Hall). cbn [fst snd] in *. subst h1.
  apply wp_bind. unfold w_now. apply wp_on_snd. cbn [fst snd].
  eapply wp_keeps; [apply mgr_now|]. intros t w2 E2. unfold same in E2.
  assert (fixed_view w2 = fixed_view w) as Hw2 by (unfold fixed_view, registry; by rewrite E2, Em).
  assert (forall l, session_at w2 l = session_at w l) as Hat by (intros l; unfold session_at; by rewrite E2, Em).
  eapply wp_mono; [done| |apply policy_loop].
  - intros _ p (-> & Hf & Hv & Ho). split_and!; [done|congruence|]. intros id l s Hid Hs Hm.
    assert (fixed_view p.2 = fixed_view w) as Hfw by congruence.
    destruct (fixed_view_at _ _ _ _ Hfw Hs) as (s0 & Hs0 & Ef).
    apply (Hv l s); [|done]. apply (Hall id l s0); [|done|by apply (fixed_of_mme _ s s0)].
    injection Hfw as Er _. by rewrite <- Er.
  - intros l s Hl Hs. rewrite Hat in Hs. destruct (Hin l Hl) as (id & s0 & Hid & Hs0 & Hm).
    rewrite Hs in Hs0. injection Hs0 as <-. by apply (Hp id l s).
Qed.

(** *** Releasing sessions *)

(** The policy gives the session up, and the gateway has accepted its deletion. *)
Definition released (h : Handler) (a : string) (s : SGWSession) : Prop :=
  of_mme a s
  /\ (evaluatePolicy fold (cfg h) s).1 = SessionData.MMERestorationPolicyDelete
  /\ EnforceDeletePolicy (cfg h) = true /\ hasS5C h = true
  /\ exists s1 x y, fixed s1 = fixed s /\ S5c.DeleteSession s1 x = Some (Ok CauseRequestAccepted, y).
(** How far the releases have come since [w0]. *)
Record releasing (h : Handler) (a : string) (w0 w : World) : Prop := mkReleasing {
  re_parts : forall l, part <$> session_at w l = part <$> session_at w0 l;
  re_registry : registry w ⊆ registry w0;
  re_gone : forall id l s, registry w0 !! id = Some l -> session_at w0 l = Some s ->
    registry w !! id = None -> released h a s
}.
Lemma releasing_refl h a w : releasing h a w w.
Proof. split; [done|done|]. intros id l s Hl _ Hn. congruence. Qed.
Lemma releasing_manager h a (w0 w w' : World) : S11.mgr w' = S11.mgr w -> releasing h a w0 w -> releasing h a w0 w'.
Proof. intros Em [H1 H2 H3]. unfold registry, session_at in *. split; unfold registry, session_at; by rewrite Em. Qed.
Lemma releasing_at h a (w0 w : World) l s : releasing h a w0 w -> session_at w l = Some s ->
  exists s0, session_at w0 l = Some s0 /\ part s = part s0.
Proof.
  intros Hr Hs. pose proof (re_parts _ _ _ _ Hr l) as Hp. rewrite Hs in Hp.
  destruct (session_at w0 l) as [s0|]; [|done]. exists s0. split; [done|]. by apply (inj Some) in Hp.
Qed.

Lemma Delete_world id (w : World) : named_sessions w ->
  wp True (S11.Delete id) (fun _ w' => registry w' = delete id (registry w)
    /\ forall l, session_at w' l = session_at w l) w.
Proof.
  intros Hn. unfold S11.Delete. apply wp_bind. eapply wp_keeps; [apply mgr_order|]. intros order w1 E1.
  unfold same in E1. unfold S11.mgr_do, S11.on_mgr. apply wp_bind, wp_act. intros calls w2 E2.
  apply wp_bind. eapply wp_keeps; [apply mgr_on_io|]. intros _ w3 E3. unfold same in E3. apply wp_ret.
  rewrite E1 in E2. destruct (S11Registry.Delete_view order id (S11.mgr w)) as [Hi Hh].
  { intros id' l Hl. destruct (Hn id' l Hl) as (s & Hs & <-). unfold session_at in Hs. rewrite lookup_fmap, Hs.
    by do 2 eexists. }
  destruct (SessionManager.Delete order id (S11.mgr w)) as [m k]. injection E2 as _ <-. cbn [fst S11.mgr] in *.
  unfold registry, session_at. rewrite E3, Hi, Hh. done.
Qed.

Lemma part_fields s s' : part s = part s' -> fixed s = fixed s' /\ policy_of s = policy_of s' /\ pending s = pending s'.
Proof.
  intros Ep. split_and!; [exact (f_equal (fun p => p.1.1) Ep)|exact (f_equal (fun p => p.1.2) Ep)|].
  exact (f_equal snd Ep).
Qed.
(** The registered sessions keep their names while others are released. *)
Lemma releasing_named h a (w0 w : World) : releasing h a w0 w -> named_sessions w0 -> named_sessions w.
Proof.
  intros Hr Hn id l Hl. destruct (Hn id l) as (s0 & Hs0 & Hid); [by eapply lookup_weaken, re_registry|].
  pose proof (re_parts _ _ _ _ Hr l) as Hp. rewrite Hs0 in Hp.
  destruct (session_at w l) as [s|]; [|done]. apply (inj Some) in Hp. apply part_fields in Hp as (Hf & _).
  exists s. split; [done|]. by destruct (fixed_fields _ _ Hf) as (-> & _).
Qed.

(** The session at [l] of [w0] may be released. *)
Definition given_up (h : Handler) (a : string) (w0 : World) (l : loc) : Prop :=
  (exists id, registry w0 !! id = Some l)
  /\ exists s, session_at w0 l = Some s /\ of_mme a s
       /\ (evaluatePolicy fold (cfg h) s).1 = SessionData.MMERestorationPolicyDelete.

Lemma delete_released h a (w0 w : World) l s x y s1 : named_sessions w0 -> given_up h a w0 l ->
  EnforceDeletePolicy (cfg h) = true -> hasS5C h = true ->
  releasing h a w0 w -> session_at w l = Some s ->
  fixed s1 = fixed s -> S5c.DeleteSession s1 x = Some (Ok CauseRequestAccepted, y) ->
  wp True (S11.Delete (SessionData.SessionID s)) (fun _ w' => releasing h a w0 w') w.
Proof.
  intros Hn [[id0 Hid0] (s0 & Hs0 & Hm & Hp)] Hen Hs5 Hr Hs Hf Hd.
  eapply wp_mono; [done| |apply Delete_world; by eapply releasing_named].
  intros _ w' [Ereg Hat]. destruct (releasing_at _ _ _ _ _ _ Hr Hs) as (s0' & Hs0' & Hps).
  rewrite Hs0 in Hs0'. injection Hs0' as <-. apply part_fields in Hps as (Hfs & _ & _).
  destruct (Hn id0 l Hid0) as (s0' & Hs0' & Hsid). rewrite Hs0 in Hs0'. injection Hs0' as <-.
  assert (SessionData.SessionID s = id0) as Eid by (rewrite <- Hsid; by destruct (fixed_fields _ _ Hfs) as (-> & _)).
  split.
  - intros l'. rewrite Hat. apply Hr.
  - rewrite Ereg. etransitivity; [apply delete_subseteq|apply Hr].
  - intros id l' s' Hl' Hs' Hgone. rewrite Ereg in Hgone.
    destruct (decide (id = SessionData.SessionID s)) as [Ei|Hne].
    2: { rewrite lookup_delete_ne in Hgone by done. by eapply re_gone. }
    rewrite Ei, Eid, Hid0 in Hl'. injection Hl' as <-. rewrite Hs0 in Hs'. injection Hs' as <-.
    split_and!; [done..|]. exists s1, x, y. split; [congruence|done].
Qed.

Lemma delete_step h a (w0 w : World) l : named_sessions w0 -> given_up h a w0 l ->
  EnforceDeletePolicy (cfg h) = true -> releasing h a w0 w ->
  wp True (deleteSessionForRestoration l)
    (fun r p => p.1 = h /\ releasing h a w0 p.2
       /\ forall e, r = Err e -> session_at p.2 l = session_at w l) (h, w).
Proof.
  intros Hn Hg Hen Hr. unfold deleteSessionForRestoration. apply wp_bind, wp_gets. cbn [fst].
  destruct (hasS5C h) eqn:Hs5; cbn [negb]; [|by apply wp_ret].
  apply wp_bind, wp_on_snd, wp_session. intros s Hs. cbn [fst snd] in *.
  apply wp_bind, wp_on_snd, wp_zoom, wp_of_runs. intros answer y Ey. cbn [fst snd].
  set (w1 := S11.mkWorld _ _ _ _ _ _). assert (S11.mgr w1 = S11.mgr w) as E1 by done.
  pose proof (releasing_manager _ _ _ _ w1 E1 Hr) as Hr1. assert (session_at w1 l = Some s) as Hs1 by done.
  clearbody w1. destruct answer as [cause|e]; [|apply wp_ret; split_and!; [done..|]; intros ? _; cbn; congruence].
  destruct (Z.eqb_spec cause CauseRequestAccepted) as [->|]; cbn [negb]; [|apply wp_ret; split_and!; [done..|]; intros ? _; cbn; congruence].
  apply wp_bind, wp_on_snd, (wp_session_at l w1 s); [done|]. cbn [fst snd].
  assert (forall w2 : World, S11.mgr w2 = S11.mgr w1 ->
    wp True (on_snd (S := Handler) (S11.Delete (SessionData.SessionID s)) ;; mret (Ok tt))
      (fun r p => p.1 = h /\ releasing h a w0 p.2
        /\ forall e : DeleteError, r = Err e -> session_at p.2 l = session_at w l) (h, w2)) as Hdel.
  { intros w2 E2. apply wp_bind, wp_on_snd. cbn [fst snd].
    assert (session_at w2 l = Some s) as Hs2 by (unfold session_at in *; by rewrite E2).
    eapply wp_mono; [done| |eapply (delete_released h a w0 w2 l s); try done; by eapply releasing_manager].
    intros u w3 Hr3. apply wp_ret. by split_and!. }
  destruct (_ && _); [|by apply Hdel].
  destruct (hasPFCP h); cbn [negb]; [|apply wp_ret; split_and!; [done..|]; intros ? _; cbn; congruence].
  apply wp_bind, wp_on_snd. cbn [fst snd]. eapply wp_keeps; [apply mgr_on_pfcp|]. intros _ w2 E2. by apply Hdel.
Qed.

(** A failed release is noted in the session's reason. *)
Lemma note_failure h a (w0 w : World) l s reason at_ : releasing h a w0 w -> session_at w l = Some s ->
  policy_of s = SessionData.MMERestorationPolicyDelete ->
  wp True (S11.on_sess l (fun t => Session.SetMMERestorationPolicy t SessionData.MMERestorationPolicyDelete reason at_))
    (fun _ w' => releasing h a w0 w') w.
Proof.
  intros Hr Hs Hp. eapply wp_mono; [done| |by apply (on_sess_at l _ w s)].
  intros _ w' (t & Hs' & Ho & Hb). split.
  - intros l'. destruct (decide (l' = l)) as [->|Hne]; [|rewrite Ho by done; apply Hr].
    rewrite <- (re_parts _ _ _ _ Hr l), Hs, Hs'. cbn [fmap option_fmap option_map]. f_equal.
    unfold part. by rewrite Hp.
  - unfold registry. rewrite Hb. apply Hr.
  - intros id l' s' Hl' Hs0 Hgone. unfold registry in Hgone. rewrite Hb in Hgone. by eapply (re_gone _ _ _ _ Hr).
Qed.

Lemma enforce_releases e h (w : World) : named_sessions w -> judged (cfg h) (PeerHealth.re_Addr e) w ->
  wp True (enforceDeletePolicy e) (fun _ p => p.1 = h /\ releasing h (PeerHealth.re_Addr e) w p.2) (h, w).
Proof.
  intros Hn Hj. unfold enforceDeletePolicy. apply wp_bind, wp_gets. cbn [fst].
  destruct (EnforceDeletePolicy (cfg h)) eqn:Hen; cbn [negb]; [|apply wp_ret; split; [done|apply releasing_refl]].
  apply wp_bind. eapply wp_mono; [done| |apply FindByMME_lists]. intros ls [h1 w1] (Eh & Em & Hin & _).
  cbn [fst snd] in *. subst h1.
  apply (wp_for_each True ls _ (fun p => p.1 = h /\ releasing h (PeerHealth.re_Addr e) w p.2)).
  { split; [done|]. eapply releasing_manager; [exact Em|apply releasing_refl]. }
  intros l [h2 w2] Hl [Eh2 Hr2]. cbn [fst snd] in *. subst h2.
  destruct (Hin l Hl) as (id & s0 & Hid & Hs0 & Hm).
  unfold restoration. apply wp_bind, wp_bind, wp_on_snd, wp_session. intros s Hs. apply wp_ret. cbn [fst].
  change (SessionData.mr_PolicyAction (SessionData.MMERestoration s)) with (policy_of s).
  destruct (String.eqb_spec (policy_of s) SessionData.MMERestorationPolicyDelete) as [Hd|]; cbn [negb];
    [|by apply wp_ret].
  destruct (releasing_at _ _ _ _ _ _ Hr2 Hs) as (s0' & Hs0' & Hps). rewrite Hs0 in Hs0'. injection Hs0' as <-.
  apply part_fields in Hps as (_ & Hpol & _).
  assert (given_up h (PeerHealth.re_Addr e) w l) as Hg.
  { split; [by exists id|]. exists s0. split_and!; [done|done|]. destruct (Hj id l s0) as [_ <-]; [done..|congruence]. }
  apply wp_bind. eapply wp_mono; [done| |by apply (delete_step h (PeerHealth.re_Addr e) w w2 l)].
  intros r [h3 w3] (Eh3 & Hr3 & Herr). cbn [fst snd] in *. subst h3.
  destruct r as [[]|er]; [by apply wp_ret|]. unfold on_session. apply wp_on_snd. cbn [fst snd].
  eapply wp_mono; [done| |eapply (note_failure h (PeerHealth.re_Addr e) w w3 l s); try done].
  - intros u w4 Hr4. by split.
  - by rewrite (Herr er).
Qed.

(** *** The whole restart *)

(** The fixed parts and the registry tell which sessions are named. *)
Lemma fixed_view_named (w w' : World) : fixed_view w' = fixed_view w -> named_sessions w -> named_sessions w'.
Proof.
  intros Ev Hn id l Hl. assert (registry w' = registry w) as Er by (by injection Ev).
  change (registry w' !! id = Some l) in Hl. rewrite Er in Hl. destruct (Hn id l Hl) as (s & Hs & Hid).
  destruct (fixed_view_at w' w l s (eq_sym Ev) Hs) as (s' & Hs' & Hf). exists s'. split; [done|].
  destruct (fixed_fields _ _ Hf) as (-> & _). done.
Qed.

Lemma mark_all h e order (w : World) t : ids_ordered w order ->
  wp True (on_snd (S := Handler) (S11.on_mgr (SessionManager.Manager_MarkMMERestart t order (PeerHealth.re_Addr e)
                     (PeerHealth.NewRecovery e) (PeerHealth.re_At e))))
    (fun _ p => p.1 = h /\ fixed_view p.2 = fixed_view w /\ all_pending (PeerHealth.re_Addr e) p.2) (h, w).
Proof.
  intros Ho. apply wp_on_snd. cbn [fst snd]. unfold S11.on_mgr. apply wp_bind, wp_act. intros calls w1 E1.
  apply wp_bind. eapply wp_keeps; [apply mgr_on_io|]. intros _ w2 E2. unfold same in E2. apply wp_ret.
  cbn [fst snd]. split; [done|]. unfold SessionManager.Manager_MarkMMERestart in E1.
  pose proof (on_sessions_gain (fun s => pending s = true)
    (Session.MarkMMERestart t (SessionManager.CanonicalGTPCEndpoint (PeerHealth.re_Addr e))
       (PeerHealth.NewRecovery e) (PeerHealth.re_At e))
    (SessionManager.FindByMME order (PeerHealth.re_Addr e) (S11.mgr w)) (S11.mgr w)
    (fun s => eq_refl) (fun s => eq_refl)) as (B1 & B2 & B3).
  destruct (SessionManager.on_sessions _ _ _) as [m k]. injection E1 as _ <-. cbn [fst S11.mgr] in *.
  assert (fixed_view w2 = fixed_view w) as Hf by (unfold fixed_view, registry; by rewrite E2, B1, B2).
  split; [done|]. intros id l s Hid Hs Hm. unfold session_at in Hs. rewrite E2 in Hs.
  apply (B3 l s Hs). left. destruct (listed_by_order w (PeerHealth.re_Addr e) order Ho) as [_ Hall].
  assert (registry w2 = registry w) as Er by (by injection Hf). rewrite Er in Hid.
  destruct (fixed_view_at w w2 l s Hf) as (s0 & Hs0 & Hf0); [unfold session_at; by rewrite E2|].
  apply (Hall id l s0); [done|done|by apply (fixed_of_mme _ s s0)].
Qed.

(** What a restart of the MME at [a] leaves of the sessions of [w]. *)
Record restarted (h : Handler) (a : string) (w w' : World) : Prop := mkRestarted {
  rs_registry : registry w' ⊆ registry w;
  rs_sessions : forall id l s, registry w !! id = Some l -> session_at w l = Some s ->
    (registry w' !! id = None /\ released h a s)
    \/ (registry w' !! id = Some l
        /\ exists s', session_at w' l = Some s' /\ fixed s' = fixed s
             /\ (of_mme a s -> verdict_on (cfg h) s'))
}.
(** The handler is to act on the restart of an MME. *)
Definition restart_wanted (h : Handler) (e : PeerHealth.RestartEvent) : bool :=
  Enabled (cfg h) && MarkSessionsOnRestart (cfg h) && String.eqb (PeerHealth.re_Role e) PeerHealth.RoleMME.
Definition restart_outcome (e : PeerHealth.RestartEvent) (h : Handler) (w : World) (h' : Handler) (w' : World)
    : Prop :=
  if restart_wanted h e then restarted h (PeerHealth.re_Addr e) w w' else h' = h /\ w' = w.

Lemma restarted_calm h a (w w1 w2 w3 : World) : fixed_view w1 = fixed_view w -> judged (cfg h) a w1 ->
  releasing h a w1 w2 -> part_view w3 = part_view w2 -> restarted h a w w3.
Proof.
  intros Ev Hj Hr Ep. assert (registry w1 = registry w) as Er1 by (by injection Ev).
  assert (registry w3 = registry w2) as Er3 by (by injection Ep).
  assert (forall l, part <$> session_at w3 l = part <$> session_at w1 l) as Hparts.
  { intros l. rewrite <- (re_parts _ _ _ _ Hr l). injection Ep as _ Eh. unfold session_at.
    by rewrite <- !lookup_fmap, Eh. }
  split; [rewrite Er3, <- Er1; apply Hr|]. intros id l s Hl Hs. rewrite <- Er1 in Hl.
  destruct (fixed_view_at w1 w l s (eq_sym Ev) Hs) as (s1 & Hs1 & Hf). rewrite Er3.
  destruct (registry w2 !! id) as [l'|] eqn:Hid.
  - right. pose proof (lookup_weaken _ _ _ _ Hid (re_registry _ _ _ _ Hr)) as Hl'.
    rewrite Hl in Hl'. injection Hl' as ->. split; [done|]. specialize (Hparts l'). rewrite Hs1 in Hparts.
    destruct (session_at w3 l') as [s3|]; [|done]. apply (inj Some) in Hparts.
    apply part_fields in Hparts as (Hf3 & Hp3 & Hn3). exists s3. split_and!; [done|congruence|].
    intros Hm. destruct (Hj id l' s1) as [Hpend Hpol]; [done|done|by apply (fixed_of_mme a s s1)|].
    split; [congruence|]. rewrite Hp3, Hpol. by rewrite (fixed_policy fold (cfg h) s1 s3).
  - left. split; [done|]. destruct (re_gone _ _ _ _ Hr id l s1) as (H1 & H2 & H3 & H4 & s0 & x & y & H5 & H6);
      [done..|]. split_and!; [by apply (fixed_of_mme a s1 s)| |done|done|].
    + by rewrite (fixed_policy fold (cfg h) s s1).
    + exists s0, x, y. split; [congruence|done].
Qed.

Lemma OnPeerRestart_outcome e h (w : World) : named_sessions w ->
  wp True (OnPeerRestart fold e) (fun _ p => restart_outcome e h w p.1 p.2) (h, w).
Proof.
  intros Hn. unfold OnPeerRestart, restart_outcome, restart_wanted. apply wp_bind, wp_gets. cbn [fst].
  destruct (Enabled (cfg h)); cbn [negb orb andb]; [|by apply wp_ret].
  destruct (MarkSessionsOnRestart (cfg h)); cbn [negb orb andb]; [|by apply wp_ret].
  destruct (String.eqb _ PeerHealth.RoleMME); cbn [negb]; [|by apply wp_ret].
  set (a := PeerHealth.re_Addr e). apply wp_bind, wp_on_snd. cbn [fst snd].
  eapply wp_mono; [done| |apply order_complete]. intros order w1 [E1 Ho].
  apply wp_bind. unfold w_now. apply wp_on_snd. cbn [fst snd]. eapply wp_keeps; [apply mgr_now|].
  intros t w2 E2. unfold same in E2. rewrite E1 in E2.
  assert (fixed_view w2 = fixed_view w) as Ev2 by (unfold fixed_view, registry; by rewrite E2).
  apply wp_bind. eapply wp_mono; [done| |apply (mark_all h e order w2 t)].
  2: { intros id l Hl. apply (Ho id l). by rewrite <- E2. }
  intros affected [h3 w3] (Eh & Ev3 & Hp). cbn [fst snd] in *. subst h3. rewrite Ev2 in Ev3.
  apply wp_bind. eapply wp_mono; [done| |by apply applyPolicy_judges].
  intros _ [h4 w4] (Eh & Ev4 & Hj). cbn [fst snd] in *. subst h4. rewrite Ev3 in Ev4.
  apply wp_bind. eapply wp_mono; [done| |apply enforce_releases; [by apply (fixed_view_named w)|done]].
  intros _ [h5 w5] (Eh & Hr). cbn [fst snd] in *. subst h5.
  apply wp_bind. eapply wp_keeps; [apply calm_trigger|]. intros _ [h6 w6] [Ec Ep]. cbn [fst snd] in *.
  apply wp_bind. eapply wp_keeps; [apply calm_now|]. intros t' [h7 w7] [Ec' Ep']. cbn [fst snd] in *.
  apply wp_on_fst, wp_modify. cbn [fst snd].
  eapply (restarted_calm h a w w4 w5 w7); [done|done|done|congruence].
Qed.
End Restart.

(** ** Property *)

(** C4: what a restart of an MME does to the sessions of the gateway, policy rules and the
    gateway's answers included.  A handler that is switched off, or an event about another
    kind of peer, changes nothing.  Otherwise no session is registered anew; a session
    disappears only when it is one of the MME, the policy says delete, enforcement is on,
    and the packet gateway has accepted the deletion of just that session; every other
    session stays as it was but for its restoration record, and those of the MME await
    restoration and carry the verdict of the policy.  No notification, queueing or failed
    deletion that follows changes that. *)
Theorem restart_releases_only_given_up {E : Type} `{Environment E} `{ErrorTexts} (fold : Z -> Z) e
    (h h' : Handler) (w w' : S11.World E) :
  named_sessions w -> OnPeerRestart fold e (h, w) = Some (tt, (h', w')) -> restart_outcome fold e h w h' w'.
Proof. intros Hn Hr. exact (wp_run True _ _ _ _ _ (OnPeerRestart_outcome fold e h w Hn) Hr). Qed.

(** ** Checked on a restart *)

#[local] Existing Instance S11Example.network_environment.
#[local] Instance silent_texts : ErrorTexts := { s5c_text _ := ""; ddn_text _ := "" }.
Definition example_handler (action : string) (rules : list PolicyRule) : Handler :=
  NewHandlerWithCleanup (mkConfig true true true true true 0 0 0 0 rules [] action) true true.
Definition example_restart : PeerHealth.RestartEvent :=
  PeerHealth.mkRestartEvent PeerHealth.RoleMME "10.0.0.5:2123" 3 4 Second.
Definition after_restart (h : Handler) : option (Handler * S11.World S11Example.network) :=
  snd <$> OnPeerRestart (fun r => r) example_restart (h, S11Example.created_to_delete).
Definition summary (p : Handler * S11.World S11Example.network) :=
  (size (registry p.2), (fun s => (policy_of s, pending s)) <$> (map_to_list (SessionManager.heap (S11.mgr p.2))).*2).
(** Under the default policy of deletion the session is released with the gateway's word;
    a preserve rule keeps it. *)
Example restart_example :
  summary <$> after_restart (example_handler "delete" []) = Some (0%nat, [("delete", true)])
  /\ summary <$> after_restart (example_handler "delete" [mkPolicyRule "internet" 0 0 0 ""])
     = Some (1%nat, [("preserve", true)]).
Proof. vm_compute. split; reflexivity. Qed.

Definition example_released : Handler * S11.World S11Example.network :=
  default (example_handler "delete" [], S11Example.created_to_delete) (after_restart (example_handler "delete" [])).
Lemma restart_releases_only_given_up_witness :
  restart_outcome (fun r => r) example_restart (example_handler "delete" []) S11Example.created_to_delete
    example_released.1 example_released.2.
Proof.
  refine (restart_releases_only_given_up (fun r => r) example_restart (example_handler "delete" []) _ _ _
            (view_named _ S11Registry.created_named) _).
  vm_compute. reflexivity.
Defined.
