(* ===== verification/PfcpReconcile.v ===== *)
(** * PFCP reconciliation and repair ([internal/sgwc/session/reconcile.go], [repair.go],
    [manager_snapshot.go])

    What the SGW-C does with restored sessions: each PFCP binding is compared with what an
    inventory of the SGW-U says, the session's state follows the verdict, and a plan says
    how to repair it.  The inventory and the executor of repairs are interfaces without an
    implementation in the program: arguments, which run over the same world. *)

From stdpp Require Import sorting.
From S2P Require Import Prelude GoLib Effects SgwcIo.
From S2P Require Bearer Checkpoint SessionData Session SessionManager SessionRestore.
From S2P Require SgwuStore PfcpServer S11 S11Registry S11Example.
From S2P Require Import S11Manager.
#[local] Open Scope string_scope.
#[local] Open Scope list_scope.
#[local] Open Scope Z_scope.
Notation loc := SessionManager.loc.
Notation SGWSession := SessionData.SGWSession.
Notation Binding := SessionData.PFCPSessionBinding.

Record PFCPInventorySession := mkInventorySession {
  PeerName : string; PeerAddr : string; CPSEID : Z; UPSEID : Z; i_PDRIDs : list Z; i_FARIDs : list Z
}.
Record PFCPReconciliationResult := mkReconciliationResult {
  Checked : Z; Matched : Z; Missing : Z; Mismatched : Z; Unverifiable : Z; NoBinding : Z
}.
#[export] Instance eta_Result : Eta PFCPReconciliationResult := fun r =>
  mkReconciliationResult (Checked r) (Matched r) (Missing r) (Mismatched r) (Unverifiable r) (NoBinding r).

(** ** Texts *)

(** [%016X] *)
Definition upper_hex (c : ascii) : ascii :=
  let n := byte_of_ascii c in if in_range 97 n 122 then ascii_of_byte (n - 32) else c.
Definition hex16 (z : Z) : string :=
  let digits := format_hex z in
  string_of_list_ascii (repeat "0"%char (16 - String.length digits) ++ map upper_hex (list_ascii_of_string digits)).
(** [%v] of a slice of numbers. *)
Definition show_ids (ids : list Z) : string := ("[" ++ String.concat " " (map Itoa ids) ++ "]")%string.

(** ** Rule ids ([reconcile.go]) *)

Definition sortedIDs (ids : gset Z) : list Z := merge_sort Z.le (elements ids).
Definition nonzero_ids (ids : list Z) : gset Z := list_to_set (filter (fun id => id <> 0) ids).
Definition pair_ids (p : Z * Z) : list Z := [p.1; p.2].
(** Of the bearers, in whatever order they are listed. *)
Definition expectedPFCPRuleIDs (bearers : list Bearer.Bearer) : list Z * list Z :=
  let ids f := sortedIDs (nonzero_ids (flat_map (fun b => pair_ids (f b)) bearers)) in
  (ids Bearer.PDRIDs, ids Bearer.FARIDs).
Definition missingIDs (expected actual : list Z) : list Z :=
  let actualSet := nonzero_ids actual in filter (fun id => id ∉ actualSet) expected.

Definition has_binding (b : Binding) : bool :=
  SessionData.pb_Established b && negb (SessionData.fs_SEID (SessionData.pb_LocalFSEID b) =? 0)
  && negb (SessionData.fs_SEID (SessionData.pb_SGWUFSEID b) =? 0).

(** The verdict on a session that the inventory knows. *)
Definition compare (b : Binding) (bearers : list Bearer.Bearer) (actual : PFCPInventorySession) : string * string :=
  let cp := SessionData.fs_SEID (SessionData.pb_LocalFSEID b) in
  let up := SessionData.fs_SEID (SessionData.pb_SGWUFSEID b) in
  if negb (CPSEID actual =? cp) || negb (UPSEID actual =? up)
  then (SessionData.PFCPReconciliationMismatched,
        ("seid-mismatch expected_cp=0x" ++ hex16 cp ++ " expected_up=0x" ++ hex16 up
         ++ " actual_cp=0x" ++ hex16 (CPSEID actual) ++ " actual_up=0x" ++ hex16 (UPSEID actual))%string)
  else
    let '(pdrs, fars) := expectedPFCPRuleIDs bearers in
    let missingPDRs := missingIDs pdrs (i_PDRIDs actual) in
    let missingFARs := missingIDs fars (i_FARIDs actual) in
    if bool_decide (missingPDRs <> []) || bool_decide (missingFARs <> [])
    then (SessionData.PFCPReconciliationMismatched,
          ("rule-mismatch missing_pdrs=" ++ show_ids missingPDRs ++ " missing_fars=" ++ show_ids missingFARs)%string)
    else (SessionData.PFCPReconciliationMatched, "pfcp-session-and-rule-ids-match").

(** ** Reconciliation *)

Definition counted (state : string) (r : PFCPReconciliationResult) : PFCPReconciliationResult :=
  if String.eqb state SessionData.PFCPReconciliationMatched then r <| Matched := Matched r + 1 |>
  else if String.eqb state SessionData.PFCPReconciliationMissing then r <| Missing := Missing r + 1 |>
  else if String.eqb state SessionData.PFCPReconciliationMismatched then r <| Mismatched := Mismatched r + 1 |>
  else if String.eqb state SessionData.PFCPReconciliationUnverifiable then r <| Unverifiable := Unverifiable r + 1 |>
  else if String.eqb state SessionData.PFCPReconciliationNoBinding then r <| NoBinding := NoBinding r + 1 |>
  else r.

Section Reconcile.
Context {E : Type} `{Environment E}.
Notation World := (S11.World E).

(** [FindPFCPReconciliationSession] of an inventory. *)
Definition PFCPInventory : Type := Binding -> M World (result string (option PFCPInventorySession)).

Definition reconcileSessionPFCP (l : loc) (inv : option PFCPInventory) : M World (string * string) :=
  s ← S11.session l;
  let b := SessionData.PFCP s in
  if negb (has_binding b) then mret (SessionData.PFCPReconciliationNoBinding, "no-established-pfcp-binding")
  else
    match inv with
    | None => mret (SessionData.PFCPReconciliationUnverifiable, "pfcp-inventory-unavailable")
    | Some find =>
        found ← find b;
        match found with
        | Err e => mret (SessionData.PFCPReconciliationUnverifiable, e)
        | Ok None =>
            mret (SessionData.PFCPReconciliationMissing,
                  ("sgwu-session-not-found cp_seid=0x" ++ hex16 (SessionData.fs_SEID (SessionData.pb_LocalFSEID b))
                   ++ " up_seid=0x" ++ hex16 (SessionData.fs_SEID (SessionData.pb_SGWUFSEID b)))%string)
        | Ok (Some actual) => bearers ← S11.BearerList l; mret (compare b bearers actual)
        end
    end.

Definition reconcile_one (inv : option PFCPInventory) (at_ : time) (l : loc) : M World string :=
  v ← reconcileSessionPFCP l inv;
  S11.on_sess l (fun t => Session.MarkPFCPReconciliation t v.1 v.2 at_) ;;
  mret v.1.
Fixpoint reconcile_all (inv : option PFCPInventory) (at_ : time) (ls : list loc) (r : PFCPReconciliationResult)
    : M World PFCPReconciliationResult :=
  match ls with
  | [] => mret r
  | l :: ls => state ← reconcile_one inv at_ l; reconcile_all inv at_ ls (counted state r)
  end.
Definition ReconcilePFCPBindings (inv : option PFCPInventory) (at_ : time) : M World PFCPReconciliationResult :=
  t ← S11.now;
  order ← S11.sessions_order None;
  m ← gets S11.mgr;
  let ls := SessionManager.SessionList order m in
  reconcile_all inv (or_now at_ t) ls (mkReconciliationResult (Z.of_nat (length ls)) 0 0 0 0 0).

(** [Snapshots] ([manager_snapshot.go]) *)
Definition Snapshots : M World (list Checkpoint.SessionSnapshot) :=
  order ← S11.sessions_order None;
  gets (fun w => omap (fun l => SessionData.Snapshot <$> SessionManager.heap (S11.mgr w) !! l)
                   (SessionManager.SessionList order (S11.mgr w))).
End Reconcile.

(** ** Repair plans ([repair.go]) *)

Definition PFCPRepairNone := "none".
Definition PFCPRepairReestablishSession := "reestablish_session".
Definition PFCPRepairRecreateMissingRules := "recreate_missing_rules".
Definition PFCPRepairCleanup := "cleanup".

Record PFCPRepairPlan := mkPlan {
  pl_SessionID : string; pl_IMSI : string; pl_APN : string; Action : string; Reason : string;
  pl_Binding : Binding; BearerEBIs : list Z; pl_PDRIDs : list Z; pl_FARIDs : list Z; Repairable : bool
}.
#[export] Instance eta_Plan : Eta PFCPRepairPlan := fun p =>
  mkPlan (pl_SessionID p) (pl_IMSI p) (pl_APN p) (Action p) (Reason p) (pl_Binding p) (BearerEBIs p)
    (pl_PDRIDs p) (pl_FARIDs p) (Repairable p).
Record PFCPRepairResult := mkRepairResult {
  Planned : Z; Noop : Z; Reestablished : Z; RulesRecreated : Z; Cleanup : Z; Failed : Z
}.
#[export] Instance eta_RepairResult : Eta PFCPRepairResult := fun r =>
  mkRepairResult (Planned r) (Noop r) (Reestablished r) (RulesRecreated r) (Cleanup r) (Failed r).

Definition hasEnoughStateForSessionReestablish (snap : Checkpoint.SessionSnapshot) : bool :=
  if String.eqb (Checkpoint.SessionID snap) "" || String.eqb (Checkpoint.IMSI snap) ""
     || (Checkpoint.DefaultBearerID snap =? 0) || bool_decide (Checkpoint.Bearers snap = [])
  then false
  else existsb (fun b => Checkpoint.bs_EBI b =? Checkpoint.DefaultBearerID snap) (Checkpoint.Bearers snap).

(** The action, its reason and whether it can be done. *)
Definition planned_action (status : SessionData.PFCPReconciliationStatus) (enough : bool) : string * string * bool :=
  let state := SessionData.rec_State status in
  if String.eqb state SessionData.PFCPReconciliationMatched then (PFCPRepairNone, "pfcp-already-matched", false)
  else if String.eqb state SessionData.PFCPReconciliationMissing
  then (PFCPRepairReestablishSession, "sgwu-session-missing", enough)
  else if String.eqb state SessionData.PFCPReconciliationMismatched
  then (PFCPRepairRecreateMissingRules, SessionData.rec_Reason status, enough)
  else if String.eqb state SessionData.PFCPReconciliationNoBinding
  then (PFCPRepairReestablishSession, "no-pfcp-binding", enough)
  else if String.eqb state SessionData.PFCPReconciliationUnverifiable
          || String.eqb state SessionData.PFCPReconciliationUnknown || String.eqb state ""
  then (PFCPRepairNone, ("repair-deferred: " ++ SessionData.rec_Reason status)%string, false)
  else (PFCPRepairNone, ("repair-deferred: reconciliation=" ++ state)%string, false).

Definition SGWSession_PFCPRepairPlan (bearers : list Bearer.Bearer) (s : SGWSession) : PFCPRepairPlan :=
  let snap := SessionData.Snapshot s in
  let '(pdrIDs, farIDs) := expectedPFCPRuleIDs bearers in
  let '(action, reason, repairable) :=
    planned_action (SessionData.PFCPReconciliation s) (hasEnoughStateForSessionReestablish snap) in
  let plan := mkPlan (SessionData.SessionID s) (SessionData.IMSI s) (SessionData.APN s) action reason
                (SessionData.PFCP s) (Checkpoint.bs_EBI <$> Checkpoint.Bearers snap) pdrIDs farIDs repairable in
  if negb repairable && (String.eqb action PFCPRepairReestablishSession
                         || String.eqb action PFCPRepairRecreateMissingRules)
  then plan <| Action := PFCPRepairCleanup |> <| Reason := (reason ++ "; insufficient-state-for-repair")%string |>
  else plan.

Section Repair.
Context {E : Type} `{Environment E}.
Notation World := (S11.World E).

Record PFCPRepairExecutor := mkExecutor {
  ReestablishPFCPSession : loc -> PFCPRepairPlan -> M World (result string unit);
  RecreatePFCPRules : loc -> PFCPRepairPlan -> M World (result string unit);
  CleanupUnrepairablePFCP : loc -> PFCPRepairPlan -> M World (result string unit)
}.

Definition plan_of (l : loc) : M World PFCPRepairPlan :=
  s ← S11.session l; bearers ← S11.BearerList l; mret (SGWSession_PFCPRepairPlan bearers s).
Fixpoint plans_of (ls : list loc) : M World (list PFCPRepairPlan) :=
  match ls with
  | [] => mret []
  | l :: ls => p ← plan_of l; ps ← plans_of ls; mret (p :: ps)
  end.
Definition PFCPRepairPlans : M World (list PFCPRepairPlan) :=
  order ← S11.sessions_order None;
  m ← gets S11.mgr;
  plans_of (SessionManager.SessionList order m).

(** [timeNow] is read before the session's method. *)
Definition mark (l : loc) (state reason : string) : M World unit :=
  at_ ← S11.now; S11.on_sess l (fun t => Session.MarkPFCPReconciliation t state reason at_).

(** A repair by the executor: what is noted when there is none, and when it fails. *)
Definition attempt (l : loc) (plan : PFCPRepairPlan)
    (todo : option (loc -> PFCPRepairPlan -> M World (result string unit)))
    (unavailable failing : string) (done_ : M World unit)
    (count : PFCPRepairResult -> PFCPRepairResult) (r : PFCPRepairResult) : M World PFCPRepairResult :=
  let fail := r <| Failed := Failed r + 1 |> in
  match todo with
  | None => mark l SessionData.PFCPReconciliationUnverifiable unavailable ;; mret fail
  | Some f =>
      answer ← f l plan;
      match answer with
      | Err e => mark l SessionData.PFCPReconciliationMismatched (failing ++ e)%string ;; mret fail
      | Ok _ => done_ ;; mret (count r)
      end
  end.

Definition apply_plan (exec : option PFCPRepairExecutor) (l : loc) (r : PFCPRepairResult)
    : M World PFCPRepairResult :=
  plan ← plan_of l;
  let able {A} (f : PFCPRepairExecutor -> A) : option A :=
    if Repairable plan then f <$> exec else None in
  if String.eqb (Action plan) PFCPRepairNone then mret (r <| Noop := Noop r + 1 |>)
  else if String.eqb (Action plan) PFCPRepairReestablishSession then
    attempt l plan (able ReestablishPFCPSession) "repair executor unavailable" "repair failed: "
      (mark l SessionData.PFCPReconciliationMatched "pfcp-session-reestablished")
      (fun r => r <| Reestablished := Reestablished r + 1 |>) r
  else if String.eqb (Action plan) PFCPRepairRecreateMissingRules then
    attempt l plan (able RecreatePFCPRules) "repair executor unavailable" "rule repair failed: "
      (mark l SessionData.PFCPReconciliationMatched "pfcp-rules-recreated")
      (fun r => r <| RulesRecreated := RulesRecreated r + 1 |>) r
  else if String.eqb (Action plan) PFCPRepairCleanup then
    attempt l plan (CleanupUnrepairablePFCP <$> exec) "cleanup executor unavailable" "cleanup failed: "
      (mret tt) (fun r => r <| Cleanup := Cleanup r + 1 |>) r
  else mret r.
Fixpoint apply_plans (exec : option PFCPRepairExecutor) (ls : list loc) (r : PFCPRepairResult)
    : M World PFCPRepairResult :=
  match ls with
  | [] => mret r
  | l :: ls => r ← apply_plan exec l r; apply_plans exec ls r
  end.
Definition ApplyPFCPRepairPlans (exec : option PFCPRepairExecutor) : M World PFCPRepairResult :=
  order ← S11.sessions_order None;
  m ← gets S11.mgr;
  let ls := SessionManager.SessionList order m in
  apply_plans exec ls (mkRepairResult (Z.of_nat (length ls)) 0 0 0 0 0).
End Repair.

(** ** What reconciliation does to the sessions *)

#[local] Existing Instances SessionData.eta_SGWSession SessionData.eta_PFCPSessionBinding.
(** A session apart from what a verdict changes. *)
Definition rest (s : SGWSession) : SGWSession :=
  s <| SessionData.State := "" |> <| SessionData.PFCP := SessionData.no_binding |>
    <| SessionData.PFCPReconciliation := SessionData.no_reconciliation |> <| SessionData.UpdatedAt := zero_time |>.

(** Every rule of the session's bearers is among the rules of the SGW-U. *)
Definition rules_known (s : SGWSession) (actual : PFCPInventorySession) : Prop :=
  forall ebi b, SessionData.Bearers s !! ebi = Some b ->
    (forall id, id ∈ pair_ids (Bearer.PDRIDs b) -> id <> 0 -> id ∈ i_PDRIDs actual)
    /\ (forall id, id ∈ pair_ids (Bearer.FARIDs b) -> id <> 0 -> id ∈ i_FARIDs actual).
Definition same_seids (b : Binding) (actual : PFCPInventorySession) : Prop :=
  CPSEID actual = SessionData.fs_SEID (SessionData.pb_LocalFSEID b)
  /\ UPSEID actual = SessionData.fs_SEID (SessionData.pb_SGWUFSEID b).
(** The state a verdict leaves a session in. *)
Definition state_after (state old : string) : string :=
  if String.eqb state SessionData.PFCPReconciliationMatched
  then if String.eqb old SessionData.StateRecovering then SessionData.StateActive else old
  else if String.eqb old SessionData.StateDeleting || String.eqb old SessionData.StateDeleted then old
  else SessionData.StateRecovering.

Section Outcome.
Context {E : Type} `{Environment E}.
Notation World := (S11.World E).

(** What the answer of the inventory says about a session. *)
Inductive verdict (inv : option (PFCPInventory (E := E))) (s : SGWSession) : string -> Prop :=
| no_binding : has_binding (SessionData.PFCP s) = false -> verdict inv s SessionData.PFCPReconciliationNoBinding
| no_inventory : has_binding (SessionData.PFCP s) = true -> inv = None ->
    verdict inv s SessionData.PFCPReconciliationUnverifiable
| inventory_failed find w e w' : has_binding (SessionData.PFCP s) = true -> inv = Some find ->
    find (SessionData.PFCP s) w = Some (Err e, w') -> verdict inv s SessionData.PFCPReconciliationUnverifiable
| not_found find w w' : has_binding (SessionData.PFCP s) = true -> inv = Some find ->
    find (SessionData.PFCP s) w = Some (Ok None, w') -> verdict inv s SessionData.PFCPReconciliationMissing
| differs find w actual w' : has_binding (SessionData.PFCP s) = true -> inv = Some find ->
    find (SessionData.PFCP s) w = Some (Ok (Some actual), w') ->
    ~ (same_seids (SessionData.PFCP s) actual /\ rules_known s actual) ->
    verdict inv s SessionData.PFCPReconciliationMismatched
| agrees find w actual w' : has_binding (SessionData.PFCP s) = true -> inv = Some find ->
    find (SessionData.PFCP s) w = Some (Ok (Some actual), w') ->
    same_seids (SessionData.PFCP s) actual -> rules_known s actual ->
    verdict inv s SessionData.PFCPReconciliationMatched.

(** A session after the verdict on it. *)
Record judged (inv : option (PFCPInventory (E := E))) (at_ : time) (s s' : SGWSession) : Prop := mkJudged {
  ju_verdict : verdict inv s (SessionData.rec_State (SessionData.PFCPReconciliation s'));
  ju_at : at_ <> 0 -> SessionData.rec_At (SessionData.PFCPReconciliation s') = at_;
  ju_state : SessionData.State s'
             = state_after (SessionData.rec_State (SessionData.PFCPReconciliation s')) (SessionData.State s);
  ju_binding : SessionData.PFCP s' = SessionData.PFCP s;
  ju_rest : rest s' = rest s
}.

Lemma verdict_cases inv s state : verdict inv s state ->
  state = SessionData.PFCPReconciliationMatched \/ state = SessionData.PFCPReconciliationMissing
  \/ state = SessionData.PFCPReconciliationMismatched \/ state = SessionData.PFCPReconciliationUnverifiable
  \/ state = SessionData.PFCPReconciliationNoBinding.
Proof. destruct 1; tauto. Qed.
Lemma verdict_bound inv s : verdict inv s SessionData.PFCPReconciliationMatched ->
  has_binding (SessionData.PFCP s) = true.
Proof. intros Hv. by inversion Hv. Qed.

(** *** The verdict *)

Lemma elem_nonzero id ids : id ∈ nonzero_ids ids <-> id ∈ ids /\ id <> 0.
Proof. unfold nonzero_ids. rewrite elem_of_list_to_set, list_elem_of_filter. tauto. Qed.
Lemma missing_none (ids : gset Z) actual : (forall id, id ∈ ids -> id <> 0) ->
  missingIDs (sortedIDs ids) actual = [] <-> forall id, id ∈ ids -> id ∈ actual.
Proof.
  intros Hnz. unfold missingIDs, sortedIDs. split.
  - intros Hm id Hid. destruct (decide (id ∈ nonzero_ids actual)) as [Hin|Hn].
    + by apply elem_nonzero in Hin as [? _].
    + exfalso. assert (id ∈ filter (fun id => id ∉ nonzero_ids actual) (merge_sort Z.le (elements ids))) as Hf.
      { apply list_elem_of_filter. split; [done|]. by rewrite merge_sort_Permutation, elem_of_elements. }
      rewrite Hm in Hf. by apply not_elem_of_nil in Hf.
  - intros Hall. apply elem_of_nil_inv. intros id Hf. apply list_elem_of_filter in Hf as [Hn Hid].
    rewrite merge_sort_Permutation, elem_of_elements in Hid. apply Hn, elem_nonzero. split; auto.
Qed.

(** The listed bearers of a session. *)
Definition all_bearers (s : SGWSession) (bearers : list Bearer.Bearer) : Prop :=
  forall b, b ∈ bearers <-> exists ebi, SessionData.Bearers s !! ebi = Some b.
Lemma BearerList_complete l (w : World) s : session_at w l = Some s ->
  wp True (S11.BearerList l) (fun bs w' => S11.mgr w' = S11.mgr w /\ all_bearers s bs) w.
Proof.
  intros Hs. unfold S11.BearerList. apply wp_bind, (wp_session_at l w s); [done|]. apply wp_bind.
  unfold S11.keys_order. apply wp_bind. eapply wp_keeps; [apply mgr_on_io|]. intros rank w1 E1.
  do 2 apply wp_ret. split; [done|]. intros b. unfold Session.BearerList. rewrite list_elem_of_omap. split.
  - intros (ebi & _ & Hb). by exists ebi.
  - intros [ebi Hb]. exists ebi. split; [|done]. rewrite ranged_Permutation, elem_of_elements, elem_of_dom. by exists b.
Qed.

(** The rule ids of one kind are all known. *)
Lemma missing_rules (f : Bearer.Bearer -> Z * Z) s bs actual : all_bearers s bs ->
  missingIDs (sortedIDs (nonzero_ids (flat_map (fun b => pair_ids (f b)) bs))) actual = []
  <-> forall ebi b, SessionData.Bearers s !! ebi = Some b ->
        forall id, id ∈ pair_ids (f b) -> id <> 0 -> id ∈ actual.
Proof.
  intros Hbs. rewrite missing_none by (intros id Hid; by apply elem_nonzero in Hid as [_ ?]). split.
  - intros Hall ebi b Hb id Hid Hnz. apply Hall, elem_nonzero. split; [|done].
    apply list_elem_of_In, in_flat_map. exists b. split; apply list_elem_of_In; [|done]. apply Hbs. by exists ebi.
  - intros Hall id Hid. apply elem_nonzero in Hid as [Hid Hnz].
    apply list_elem_of_In, in_flat_map in Hid as (b & Hb & Hid). apply list_elem_of_In in Hb, Hid.
    apply Hbs in Hb as [ebi Hb]. by apply (Hall ebi b).
Qed.
Lemma compare_spec s bs actual : all_bearers s bs ->
  let state := (compare (SessionData.PFCP s) bs actual).1 in
  (same_seids (SessionData.PFCP s) actual /\ rules_known s actual /\ state = SessionData.PFCPReconciliationMatched)
  \/ (~ (same_seids (SessionData.PFCP s) actual /\ rules_known s actual)
      /\ state = SessionData.PFCPReconciliationMismatched).
Proof.
  intros Hbs. unfold compare, same_seids.
  pose proof (missing_rules Bearer.PDRIDs s bs (i_PDRIDs actual) Hbs) as Hp.
  pose proof (missing_rules Bearer.FARIDs s bs (i_FARIDs actual) Hbs) as Hf.
  destruct (Z.eqb_spec (CPSEID actual) (SessionData.fs_SEID (SessionData.pb_LocalFSEID (SessionData.PFCP s))));
    cbn [negb orb]; [|right; tauto].
  destruct (Z.eqb_spec (UPSEID actual) (SessionData.fs_SEID (SessionData.pb_SGWUFSEID (SessionData.PFCP s))));
    cbn [negb]; [|right; tauto].
  unfold expectedPFCPRuleIDs. cbn [fst snd]. case_bool_decide as Hp'; cbn [orb].
  { right. split; [|done]. intros [_ Hk]. apply Hp', Hp. intros ebi b Hb. by apply (Hk ebi b). }
  case_bool_decide as Hf'; cbn [fst].
  { right. split; [|done]. intros [_ Hk]. apply Hf', Hf. intros ebi b Hb. by apply (Hk ebi b). }
  left. split_and!; [done|done| |done]. intros ebi b Hb.
  split; [by apply (proj1 Hp Hp' ebi b)|by apply (proj1 Hf Hf' ebi b)].
Qed.

(** *** One session, and all of them *)

(** An inventory does not touch the sessions. *)
Definition inventory_ok (inv : option (PFCPInventory (E := E))) : Prop := forall find b,
  inv = Some find -> keeps (same (S11.mgr (E := E))) (find b).

Lemma reconcileSession_verdict inv l (w : World) s : inventory_ok inv -> session_at w l = Some s ->
  wp True (reconcileSessionPFCP l inv) (fun v w' => S11.mgr w' = S11.mgr w /\ verdict inv s v.1) w.
Proof.
  intros Hok Hs. unfold reconcileSessionPFCP. apply wp_bind, (wp_session_at l w s); [done|].
  destruct (has_binding (SessionData.PFCP s)) eqn:Hb; cbn [negb]; [|apply wp_ret; split; [done|by constructor]].
  destruct inv as [find|] eqn:Ei; [|apply wp_ret; split; [done|by constructor]].
  apply wp_bind, wp_of_runs. intros found w1 Er. pose proof (Hok find (SessionData.PFCP s) eq_refl _ _ _ Er) as E1.
  unfold same in E1. destruct found as [[actual|]|e].
  - apply wp_bind. eapply wp_mono; [done| |apply (BearerList_complete l w1 s)].
    2: { unfold session_at in *. by rewrite E1. }
    intros bs w2 [E2 Hbs]. apply wp_ret. split; [congruence|].
    destruct (compare_spec s bs actual Hbs) as [(H1 & H2 & ->)|[H1 ->]].
    + by eapply agrees.
    + by eapply differs.
  - apply wp_ret. split; [done|]. by eapply not_found.
  - apply wp_ret. split; [done|]. by eapply inventory_failed.
Qed.

Lemma mark_fields t state reason at_ s : state = SessionData.PFCPReconciliationMatched
    \/ state = SessionData.PFCPReconciliationMissing \/ state = SessionData.PFCPReconciliationMismatched
    \/ state = SessionData.PFCPReconciliationUnverifiable \/ state = SessionData.PFCPReconciliationNoBinding ->
  let s' := (Session.MarkPFCPReconciliation t state reason at_ s).1 in
  SessionData.PFCPReconciliation s' = SessionData.mkPFCPReconciliationStatus state (or_now at_ t) reason
  /\ SessionData.State s' = state_after state (SessionData.State s)
  /\ SessionData.PFCP s' = (if String.eqb state SessionData.PFCPReconciliationMatched
                            then (SessionData.PFCP s) <| SessionData.pb_Established := true |> else SessionData.PFCP s)
  /\ rest s' = rest s.
Proof.
  intros Hcases. unfold Session.MarkPFCPReconciliation, Session.recovered, Session.to_recovering, Session.is_state.
  destruct s as [id imsi apn rat sn mme s11 pgw s5c ue deb bs pf rec pr sr pf2 mr sink st ca ua nr].
  unfold state_after, rest. destruct Hcases as [->|[->|[->|[->| ->]]]]; cbn -[SessionData.StateRecovering
    SessionData.StateDeleting SessionData.StateDeleted];
    destruct (String.eqb st SessionData.StateRecovering), (String.eqb st SessionData.StateDeleting),
      (String.eqb st SessionData.StateDeleted); by split_and!.
Qed.
Lemma mark_judged inv at_ t s state reason : verdict inv s state ->
  let s' := (Session.MarkPFCPReconciliation t state reason at_ s).1 in
  judged inv at_ s s' /\ SessionData.rec_State (SessionData.PFCPReconciliation s') = state.
Proof.
  intros Hv s'. destruct (mark_fields t state reason at_ s (verdict_cases _ _ _ Hv)) as (H1 & H2 & H3 & H4).
  fold s' in H1, H2, H3, H4. clearbody s'. split; [|by rewrite H1]. split; rewrite ?H1; cbn; try done.
  - intros Ha. unfold or_now, IsZero. by destruct (Z.eqb_spec at_ 0).
  - rewrite H3. destruct (String.eqb_spec state SessionData.PFCPReconciliationMatched) as [->|]; [|done].
    apply verdict_bound in Hv. unfold has_binding in Hv. destruct (SessionData.PFCP s) as [lf sf nm ad [|]]; [done|].
    by cbn in Hv.
Qed.

Definition state_at (w : World) (l : loc) : string :=
  from_option (fun s => SessionData.rec_State (SessionData.PFCPReconciliation s)) "" (session_at w l).
Lemma reconcile_one_judges inv at_ l (w : World) s : inventory_ok inv -> session_at w l = Some s ->
  wp True (reconcile_one inv at_ l) (fun state w' =>
    SessionManager.byID (S11.mgr w') = SessionManager.byID (S11.mgr w)
    /\ (forall l', l' <> l -> session_at w' l' = session_at w l')
    /\ state = state_at w' l
    /\ exists s', session_at w' l = Some s' /\ judged inv at_ s s') w.
Proof.
  intros Hok Hs. unfold reconcile_one. apply wp_bind.
  eapply wp_mono; [done| |by apply reconcileSession_verdict]. intros v w1 [E1 Hv].
  apply wp_bind. eapply wp_mono; [done| |apply (on_sess_at l _ w1 s); unfold session_at in *; by rewrite E1].
  intros _ w2 (t & Hs' & Ho & Hid). apply wp_ret.
  destruct (mark_judged inv at_ t s v.1 v.2 Hv) as [Hj Est].
  split_and!; [by rewrite Hid, E1|intros l' Hne; rewrite Ho by done; unfold session_at; by rewrite E1| |by eexists].
  unfold state_at. by rewrite Hs'.
Qed.

Definition count_states (w : World) (ls : list loc) (r : PFCPReconciliationResult) : PFCPReconciliationResult :=
  foldl (fun r l => counted (state_at w l) r) r ls.
Lemma count_states_ext (w w' : World) ls : (forall l, l ∈ ls -> state_at w l = state_at w' l) ->
  forall r, count_states w ls r = count_states w' ls r.
Proof.
  induction ls as [|l ls IH]; intros Hs r; [done|]. cbn. rewrite Hs by left. apply IH.
  intros l' Hl. apply Hs. by right.
Qed.

Lemma reconcile_all_judges inv at_ ls : inventory_ok inv -> NoDup ls -> forall r (w : World),
  wp True (reconcile_all inv at_ ls r) (fun r' w' =>
    SessionManager.byID (S11.mgr w') = SessionManager.byID (S11.mgr w)
    /\ (forall l, l ∉ ls -> session_at w' l = session_at w l)
    /\ (forall l s, l ∈ ls -> session_at w l = Some s -> exists s', session_at w' l = Some s' /\ judged inv at_ s s')
    /\ r' = count_states w' ls r) w.
Proof.
  intros Hok Hnd. induction Hnd as [|l ls Hl Hnd IH]; intros r w; cbn [reconcile_all].
  { apply wp_ret. split_and!; [done|done| |done]. intros l s Hl. by apply not_elem_of_nil in Hl. }
  apply wp_bind. destruct (session_at w l) as [s|] eqn:Hs.
  2: { apply wp_bind. unfold reconcileSessionPFCP. apply wp_bind, wp_session. intros s' Hs'. congruence. }
  eapply wp_mono; [done| |by apply reconcile_one_judges]. intros state w1 (E1 & Ho & -> & s' & Hs' & Hj).
  eapply wp_mono; [done| |apply IH]. intros r' w2 (E2 & Ho2 & Hj2 & ->).
  assert (session_at w2 l = session_at w1 l) as El by (by apply Ho2).
  split_and!; [congruence| | |].
  - intros l' Hl'. apply not_elem_of_cons in Hl' as [Hne Hn]. by rewrite Ho2, Ho.
  - intros l' s0 Hl' Hs0. apply elem_of_cons in Hl' as [->|Hin].
    + rewrite Hs in Hs0. injection Hs0 as <-. exists s'. by rewrite El.
    + apply (Hj2 l' s0 Hin). rewrite Ho; [done|]. by intros ->.
  - cbn. by assert (state_at w1 l = state_at w2 l) as -> by (unfold state_at; by rewrite El).
Qed.

(** *** The counts *)

Definition number (state : string) (states : list string) : Z := Z.of_nat (length (filter (fun x => x = state) states)).
(** The counts of a list of verdicts. *)
Definition tally (states : list string) : PFCPReconciliationResult :=
  mkReconciliationResult (Z.of_nat (length states))
    (number SessionData.PFCPReconciliationMatched states) (number SessionData.PFCPReconciliationMissing states)
    (number SessionData.PFCPReconciliationMismatched states)
    (number SessionData.PFCPReconciliationUnverifiable states)
    (number SessionData.PFCPReconciliationNoBinding states).
Definition states_of (w : World) : list string :=
  state_at w <$> (map_to_list (SessionManager.byID (S11.mgr w))).*2.

Lemma number_cons x state states :
  number x (state :: states) = (if String.eqb state x then 1 else 0) + number x states.
Proof.
  unfold number. rewrite filter_cons. case_decide as Ex.
  - subst. rewrite String.eqb_refl. cbn [length]. lia.
  - apply String.eqb_neq in Ex. rewrite Ex. lia.
Qed.
Lemma counted_all states : forall r, foldl (fun r state => counted state r) r states =
  mkReconciliationResult (Checked r)
    (Matched r + number SessionData.PFCPReconciliationMatched states)
    (Missing r + number SessionData.PFCPReconciliationMissing states)
    (Mismatched r + number SessionData.PFCPReconciliationMismatched states)
    (Unverifiable r + number SessionData.PFCPReconciliationUnverifiable states)
    (NoBinding r + number SessionData.PFCPReconciliationNoBinding states).
Proof.
  induction states as [|state states IH]; intros r.
  { destruct r. cbn. unfold number. cbn. f_equal; lia. }
  cbn [foldl]. rewrite IH, !number_cons. unfold counted. destruct r as [c m mi mm u n].
  destruct (String.eqb_spec state SessionData.PFCPReconciliationMatched) as [->|]; [cbn; f_equal; lia|].
  destruct (String.eqb_spec state SessionData.PFCPReconciliationMissing) as [->|]; [cbn; f_equal; lia|].
  destruct (String.eqb_spec state SessionData.PFCPReconciliationMismatched) as [->|]; [cbn; f_equal; lia|].
  destruct (String.eqb_spec state SessionData.PFCPReconciliationUnverifiable) as [->|]; [cbn; f_equal; lia|].
  destruct (String.eqb_spec state SessionData.PFCPReconciliationNoBinding) as [->|]; cbn; f_equal; lia.
Qed.
Lemma count_states_tally (w : World) ls :
  count_states w ls (mkReconciliationResult (Z.of_nat (length ls)) 0 0 0 0 0) = tally (state_at w <$> ls).
Proof.
  unfold count_states. rewrite <- (foldl_fmap (fun r state => counted state r) _ ls (state_at w)), counted_all.
  cbn [Checked Matched Missing Mismatched Unverifiable NoBinding]. unfold tally. by rewrite length_fmap, !Z.add_0_l.
Qed.
Lemma tally_perm states states' : Permutation states states' -> tally states = tally states'.
Proof.
  intros Hp. unfold tally, number. rewrite (Permutation_length Hp). f_equal; f_equal; by rewrite Hp.
Qed.

Lemma ReconcilePFCPBindings_judges inv at_ (w : World) : inventory_ok inv -> named_sessions w ->
  wp True (ReconcilePFCPBindings inv at_) (fun r w' =>
    SessionManager.byID (S11.mgr w') = SessionManager.byID (S11.mgr w)
    /\ (forall l, l ∉ registered w -> session_at w' l = session_at w l)
    /\ (forall l s, l ∈ registered w -> session_at w l = Some s ->
         exists s', session_at w' l = Some s' /\ exists t, (at_ <> 0 -> t = at_) /\ judged inv t s s')
    /\ r = tally (states_of w')) w.
Proof.
  intros Hok Hn. unfold ReconcilePFCPBindings. apply wp_bind. eapply wp_keeps; [apply mgr_now|]. intros t w1 E1.
  unfold same in E1. apply wp_bind. unfold S11.sessions_order. apply wp_bind.
  eapply wp_keeps; [apply mgr_on_io|]. intros rank w2 E2. unfold same in E2. rewrite E1 in E2.
  apply wp_bind, wp_gets, wp_ret, wp_bind, wp_gets. rewrite E2.
  set (order := ranged rank _). set (ls := SessionManager.SessionList order (S11.mgr w)).
  assert (Permutation ls (registered w)) as Hls by (apply listed_registered, ranged_Permutation).
  assert (forall l, session_at w2 l = session_at w l) as Hat by (intros l; unfold session_at; by rewrite E2).
  eapply wp_mono; [done| |apply (reconcile_all_judges inv (or_now at_ t) ls); [done|]].
  2: { rewrite Hls. by apply registered_nodup. }
  intros r w3 (E3 & Ho & Hj & ->). rewrite E2 in E3. split_and!; [done| | |].
  - intros l Hl. rewrite Ho; [apply Hat|]. by rewrite Hls.
  - intros l s Hl Hs. destruct (Hj l s) as (s' & Hs' & Hs''); [by rewrite Hls|by rewrite Hat|].
    exists s'. split; [done|]. exists (or_now at_ t). split; [|done]. intros Ha. unfold or_now, IsZero.
    by destruct (Z.eqb_spec at_ 0).
  - rewrite count_states_tally. apply tally_perm. unfold states_of. rewrite E3. fold (registered w). by rewrite Hls.
Qed.
End Outcome.

(** ** What a repair does *)

Section RepairOutcome.
Context {E : Type} `{Environment E}.
Notation World := (S11.World E).

(** A plan is for a matched session or a session without a verdict nothing, for one that
    can be set up again what the verdict calls for, for any other the clean-up. *)
Lemma plan_actions bearers s :
  let p := SGWSession_PFCPRepairPlan bearers s in
  let state := SessionData.rec_State (SessionData.PFCPReconciliation s) in
  let enough := hasEnoughStateForSessionReestablish (SessionData.Snapshot s) in
  Action p = (if String.eqb state SessionData.PFCPReconciliationMissing
                 || String.eqb state SessionData.PFCPReconciliationNoBinding
              then if enough then PFCPRepairReestablishSession else PFCPRepairCleanup
              else if String.eqb state SessionData.PFCPReconciliationMismatched
              then if enough then PFCPRepairRecreateMissingRules else PFCPRepairCleanup
              else PFCPRepairNone)
  /\ (Repairable p = true -> enough = true).
Proof.
  unfold SGWSession_PFCPRepairPlan. destruct (expectedPFCPRuleIDs bearers) as [pdrs fars].
  unfold planned_action. destruct (hasEnoughStateForSessionReestablish _);
    set (state := SessionData.rec_State _); clearbody state;
    destruct (String.eqb_spec state SessionData.PFCPReconciliationMatched) as [->|]; try done;
    destruct (String.eqb_spec state SessionData.PFCPReconciliationMissing) as [->|]; try done;
    destruct (String.eqb_spec state SessionData.PFCPReconciliationMismatched) as [->|]; try done;
    destruct (String.eqb_spec state SessionData.PFCPReconciliationNoBinding) as [->|]; try done;
    destruct (_ || _); done.
Qed.

(** Every planned repair is counted once. *)
Definition repairs_counted (r : PFCPRepairResult) : Z :=
  Noop r + Reestablished r + RulesRecreated r + Cleanup r + Failed r.
Lemma attempt_counted l plan todo u f done_ count r (w : World) :
  repairs_counted (count r) = repairs_counted r + 1 -> Planned (count r) = Planned r ->
  wp True (attempt l plan todo u f done_ count r)
    (fun r' _ => repairs_counted r' = repairs_counted r + 1 /\ Planned r' = Planned r) w.
Proof.
  intros Hc Hp. assert (repairs_counted (r <| Failed := Failed r + 1 |>) = repairs_counted r + 1
    /\ Planned (r <| Failed := Failed r + 1 |>) = Planned r) as Hf by (unfold repairs_counted; cbn; split; lia).
  unfold attempt. destruct todo as [g|].
  - apply wp_bind, wp_of_runs. intros [[]|e] w1 _.
    + by apply wp_bind, wp_of_runs.
    + by apply wp_bind, wp_of_runs.
  - by apply wp_bind, wp_of_runs.
Qed.
Lemma apply_plan_counted exec l r (w : World) :
  wp True (apply_plan exec l r)
    (fun r' _ => repairs_counted r' = repairs_counted r + 1 /\ Planned r' = Planned r) w.
Proof.
  unfold apply_plan, plan_of. apply wp_bind, wp_bind, wp_session. intros s _. apply wp_bind, wp_of_runs.
  intros bs w1 _. apply wp_ret. destruct (plan_actions bs s) as [Ha _]. cbn zeta in Ha.
  set (p := SGWSession_PFCPRepairPlan bs s) in *. clearbody p.
  destruct (String.eqb_spec (Action p) PFCPRepairNone) as [|H1]; [apply wp_ret; unfold repairs_counted; cbn; lia|].
  destruct (String.eqb_spec (Action p) PFCPRepairReestablishSession) as [|H2];
    [apply attempt_counted; unfold repairs_counted; cbn; lia|].
  destruct (String.eqb_spec (Action p) PFCPRepairRecreateMissingRules) as [|H3];
    [apply attempt_counted; unfold repairs_counted; cbn; lia|].
  destruct (String.eqb_spec (Action p) PFCPRepairCleanup) as [|H4];
    [apply attempt_counted; unfold repairs_counted; cbn; lia|].
  exfalso. rewrite Ha in *. repeat case_match; done.
Qed.
Lemma apply_plans_counted exec ls : forall r (w : World),
  wp True (apply_plans exec ls r)
    (fun r' _ => repairs_counted r' = repairs_counted r + Z.of_nat (length ls) /\ Planned r' = Planned r) w.
Proof.
  induction ls as [|l ls IH]; intros r w; cbn [apply_plans]; [apply wp_ret; cbn; lia|].
  apply wp_bind. eapply wp_mono; [done| |apply apply_plan_counted]. intros r1 w1 [E1 P1].
  eapply wp_mono; [done| |apply IH]. intros r2 _ [E2 P2]. cbn [length]. lia.
Qed.
Lemma repairs_all_counted exec (w : World) :
  wp True (ApplyPFCPRepairPlans exec) (fun r _ => repairs_counted r = Planned r) w.
Proof.
  unfold ApplyPFCPRepairPlans. apply wp_bind, wp_of_runs. intros order w1 _. apply wp_bind, wp_gets.
  eapply wp_mono; [done| |apply apply_plans_counted]. intros r _ [E1 P1]. rewrite E1, P1. unfold repairs_counted. cbn. lia.
Qed.
End RepairOutcome.

(** ** Property *)

(** C21: reconciliation judges every registered session once, on the inventory's word.  With
    an inventory that leaves the sessions alone (none at all included) the registry stays,
    no other session is touched, and each registered session gets the verdict its own
    binding calls for: no binding; unverifiable without an answer; missing when the SGW-U
    does not know it; matched exactly when the SEIDs agree and every rule id of every
    bearer is known, else mismatched.  A match takes a recovering session back to active,
    any other verdict puts a session into recovery unless it is being deleted, nothing
    else of a session changes, and the result counts the verdicts. *)
Theorem reconciliation_judges_sessions {E : Type} `{Environment E} inv at_ (w w' : S11.World E) r :
  inventory_ok inv -> named_sessions w -> ReconcilePFCPBindings inv at_ w = Some (r, w') ->
  SessionManager.byID (S11.mgr w') = SessionManager.byID (S11.mgr w)
  /\ (forall l, l ∉ registered w -> session_at w' l = session_at w l)
  /\ (forall l s, l ∈ registered w -> session_at w l = Some s ->
       exists s', session_at w' l = Some s' /\ exists t, (at_ <> 0 -> t = at_) /\ judged inv t s s')
  /\ r = tally (states_of w').
Proof. intros Hok Hn Hr. exact (wp_run True _ _ _ _ _ (ReconcilePFCPBindings_judges inv at_ w Hok Hn) Hr). Qed.

(** ** Checked on a session set up at the SGW-U *)

#[local] Existing Instance S11Example.network_environment.
(** An inventory that looks into the session store of the SGW-U, where some rules of
    [lost] sessions are gone. *)
Definition store_inventory (lost : bool) : PFCPInventory (E := S11Example.network) := fun b =>
  gets (fun w =>
    let st := PfcpServer.sessions (S11Example.sgwu (env (S11.io w))) in
    match SgwuStore.FindByUPSEID (SessionData.fs_SEID (SessionData.pb_SGWUFSEID b)) st ≫= (SgwuStore.objects st !!.) with
    | None => Ok None
    | Some s => Ok (Some (mkInventorySession "" "" (SgwuStore.CPSEID s) (SgwuStore.UPSEID s)
                            (if lost then [] else map SgwuStore.pd_ID (SgwuStore.PDRs s))
                            (map SgwuStore.fa_ID (SgwuStore.FARs s))))
    end).
Definition reconciled (inv : option (PFCPInventory (E := S11Example.network))) :=
  (fun p => (p.1, (fun s => (SessionData.State s, SessionData.rec_Reason (SessionData.PFCPReconciliation s))) <$>
     session_at p.2 0%nat)) <$> ReconcilePFCPBindings inv 5 S11Example.created_to_delete.
(** The session matches what the SGW-U holds; without an inventory it goes into recovery. *)
Example reconcile_example :
  reconciled (Some (store_inventory false))
  = Some (mkReconciliationResult 1 1 0 0 0 0, Some ("active", "pfcp-session-and-rule-ids-match"))
  /\ reconciled None
     = Some (mkReconciliationResult 1 0 0 0 1 0, Some ("recovering", "pfcp-inventory-unavailable")).
Proof. vm_compute. split; reflexivity. Qed.
(** The rules of a default bearer are not recorded in it: a session that has lost them at
    the SGW-U matches all the same. *)
Example default_rules_unchecked :
  reconciled (Some (store_inventory true)) = reconciled (Some (store_inventory false)).
Proof. vm_compute. reflexivity. Qed.

Lemma store_inventory_ok lost : inventory_ok (Some (store_inventory lost)).
Proof. intros find b [= <-]. apply keeps_gets, _. Qed.
Definition example_reconciled : PFCPReconciliationResult * S11.World S11Example.network :=
  default (tally [], S11Example.created_to_delete)
    (ReconcilePFCPBindings (Some (store_inventory false)) 5 S11Example.created_to_delete).
Lemma reconciliation_judges_sessions_witness :
  let w := S11Example.created_to_delete in let w' := example_reconciled.2 in
  SessionManager.byID (S11.mgr w') = SessionManager.byID (S11.mgr w)
  /\ (forall l, l ∉ registered w -> session_at w' l = session_at w l)
  /\ (forall l s, l ∈ registered w -> session_at w l = Some s ->
       exists s', session_at w' l = Some s'
         /\ exists t, (5 <> 0 -> t = 5) /\ judged (Some (store_inventory false)) t s s')
  /\ example_reconciled.1 = tally (states_of w').
Proof.
  refine (reconciliation_judges_sessions (Some (store_inventory false)) 5 S11Example.created_to_delete
            example_reconciled.2 example_reconciled.1 (store_inventory_ok false)
            (view_named _ S11Registry.created_named) _).
  vm_compute. reflexivity.
Defined.
