(* ===== verification/SgwcMain.v ===== *)
(** * SGW-C program ([cmd/vectorcore-sgw-c/main.go])

    What the program adds to its parts: the run-time parameters it computes from the
    configuration, the control-plane address, the dispatch of a GTP-C socket that S11 and
    S5/S8-C share, the callbacks that tie the supervision of the SGW-Us to the sessions,
    and the restart of the sessions from their checkpoints. *)

From S2P Require Import Prelude GoLib GoText Effects Gtpv2Message SgwcIo.
From S2P Require PolicyReason SgwcConfig DdnControl MmeRestoration PgwFailure PeerHealth BearerInactivity.
From S2P Require Checkpoint SessionData Session SessionRestore SessionManager PfcpClient S11Manager.
From S2P Require Forwarder SgwuConfig.
From S2P Require Import S11 S11Bearer S11Ddn.
#[local] Open Scope string_scope.
#[local] Open Scope list_scope.
#[local] Open Scope Z_scope.
Notation loc := SessionManager.loc.
Notation SGWSession := SessionData.SGWSession.
Notation Manager := SessionManager.Manager.

(** ** Parameters from the configuration *)

Definition Millisecond : duration := 1000000.
Definition seconds (n : Z) : duration := i64 (n * Second).

Section Policies.
Context `{Unicode}.

Definition mmeRestorationPolicyAction (action : string) : string :=
  if String.eqb action "delete" then "delete" else "preserve".
Definition mmeRestorationPolicyRules (rules : list SgwcConfig.MMERestorationPolicyRuleConfig) (action : string)
    : list MmeRestoration.PolicyRule :=
  (fun r =>
     MmeRestoration.mkPolicyRule (SgwcConfig.mrr_APN r) (SgwcConfig.mrr_QCI r)
       (SgwcConfig.mrr_ARPPriorityMin r) (SgwcConfig.mrr_ARPPriorityMax r)
       (PolicyReason.Build "mme-restoration" action
          (PolicyReason.mkRule (SgwcConfig.mrr_APN r) (SgwcConfig.mrr_QCI r)
             (SgwcConfig.mrr_ARPPriorityMin r) (SgwcConfig.mrr_ARPPriorityMax r) "" 0))) <$> rules.
Definition ddnControlPriorityRules (rules : list SgwcConfig.DDNControlPriorityRuleConfig) (action : string)
    : list DdnControl.PriorityRule :=
  (fun r =>
     DdnControl.mkPriorityRule (SgwcConfig.dcr_APN r) (SgwcConfig.dcr_QCI r)
       (SgwcConfig.dcr_ARPPriorityMin r) (SgwcConfig.dcr_ARPPriorityMax r)
       (PolicyReason.Build "ddn" action
          (PolicyReason.mkRule (SgwcConfig.dcr_APN r) (SgwcConfig.dcr_QCI r)
             (SgwcConfig.dcr_ARPPriorityMin r) (SgwcConfig.dcr_ARPPriorityMax r) "" 0))) <$> rules.
Definition ddnControlConfig (cfg : SgwcConfig.DDNControlConfig) : DdnControl.Config :=
  DdnControl.mkConfig (SgwcConfig.dc_Enabled cfg) (SgwcConfig.PerMMERateLimitPerSecond cfg)
    (SgwcConfig.PerMMEBurst cfg) (seconds (SgwcConfig.PerUESuppressionSeconds cfg))
    (SgwcConfig.HonorMMELowPriorityThrottling cfg) (seconds (SgwcConfig.LowPriorityThrottleSeconds cfg))
    (SgwcConfig.HighPriorityBypass cfg)
    (ddnControlPriorityRules (SgwcConfig.dc_HighPriority cfg) "high-priority")
    (ddnControlPriorityRules (SgwcConfig.dc_LowPriority cfg) "low-priority").
Definition mme_restoration_config (g : SgwcConfig.GTPCConfig) : MmeRestoration.Config :=
  let m := SgwcConfig.MMERestoration g in
  let d := SgwcConfig.DDNControl g in
  MmeRestoration.mkConfig (SgwcConfig.mr_Enabled m) (SgwcConfig.mr_MarkSessionsOnPathDown m)
    (SgwcConfig.mr_MarkSessionsOnRestart m) (SgwcConfig.EnforceDeletePolicy m) (SgwcConfig.mr_TriggerDDN m)
    (seconds (SgwcConfig.CleanupTimeoutSeconds m)) (SgwcConfig.DelayedQueueMax d)
    (SgwcConfig.DelayedQueuePerMME d) (seconds (SgwcConfig.DelayedMaxAgeSeconds d))
    (mmeRestorationPolicyRules (SgwcConfig.mr_Preserve m) "preserve")
    (mmeRestorationPolicyRules (SgwcConfig.mr_Delete m) "delete")
    (mmeRestorationPolicyAction (SgwcConfig.DefaultAction m)).
End Policies.

Definition pgw_failure_config (g : SgwcConfig.GTPCConfig) : PgwFailure.Config :=
  let f := SgwcConfig.PGWFailure g in
  PgwFailure.mkConfig (SgwcConfig.pf_Enabled f) (SgwcConfig.pf_MarkSessionsOnPathDown f)
    (SgwcConfig.pf_MarkSessionsOnRestart f).
Definition prober_config (g : SgwcConfig.GTPCConfig) : PeerHealth.ProberConfig :=
  let p := SgwcConfig.PeerHealth g in
  PeerHealth.mkProberConfig (SgwcConfig.ph_Enabled p) (seconds (SgwcConfig.EchoIntervalSeconds p))
    (seconds (SgwcConfig.EchoTimeoutSeconds p)) (SgwcConfig.SuspectAfterMissed p)
    (SgwcConfig.DownAfterMissed p) (i64 (SgwcConfig.DegradedRTTMS p * Millisecond))
    (SgwcConfig.ProbeMMEPeers p) (SgwcConfig.ProbePGWPeers p).
Definition cleanup_interval (g : SgwcConfig.GTPCConfig) : duration :=
  seconds (SgwcConfig.CheckIntervalSeconds (SgwcConfig.BearerInactivity g)).
Definition sharedControl (c : SgwcConfig.Config) : bool :=
  String.eqb (SgwcConfig.s11_Bind (SgwcConfig.g_S11 (SgwcConfig.GTPC c)))
    (SgwcConfig.g_Bind (SgwcConfig.S5C (SgwcConfig.GTPC c))).

(** The parameters of a valid configuration whose durations fit 64 bits: what was
    configured, with none of the fallbacks of the parts. *)
Definition durations_fit (g : SgwcConfig.GTPCConfig) : Prop :=
  Forall (fun n => n * Second < 2 ^ 63)
    [SgwcConfig.EchoIntervalSeconds (SgwcConfig.PeerHealth g); SgwcConfig.EchoTimeoutSeconds (SgwcConfig.PeerHealth g);
     SgwcConfig.DelayedMaxAgeSeconds (SgwcConfig.DDNControl g);
     SgwcConfig.CheckIntervalSeconds (SgwcConfig.BearerInactivity g)].
Lemma seconds_fit n : 0 < n -> n * Second < 2 ^ 63 -> seconds n = n * Second /\ 0 < seconds n.
Proof.
  intros H0 H1. unfold seconds, i64, Second in *. rewrite Z.mod_small by lia. lia.
Qed.
Lemma runtime_parameters `{Unicode} c : SgwcConfig.valid c -> durations_fit (SgwcConfig.GTPC c) ->
  let g := SgwcConfig.GTPC c in
  (PeerHealth.Run_config true true true (prober_config g)
   = if SgwcConfig.ph_Enabled (SgwcConfig.PeerHealth g) then Some (prober_config g) else None)
  /\ 0 < PeerHealth.EchoTimeout (prober_config g) < PeerHealth.EchoInterval (prober_config g)
  /\ MmeRestoration.max_age (mme_restoration_config g) = SgwcConfig.DelayedMaxAgeSeconds (SgwcConfig.DDNControl g) * Second
  /\ MmeRestoration.max_global (mme_restoration_config g) = SgwcConfig.DelayedQueueMax (SgwcConfig.DDNControl g)
  /\ MmeRestoration.max_per_mme (mme_restoration_config g) = SgwcConfig.DelayedQueuePerMME (SgwcConfig.DDNControl g)
  /\ DdnControl.rate_of (ddnControlConfig (SgwcConfig.DDNControl g))
     = SgwcConfig.PerMMERateLimitPerSecond (SgwcConfig.DDNControl g)
  /\ DdnControl.burst_of (ddnControlConfig (SgwcConfig.DDNControl g)) = SgwcConfig.PerMMEBurst (SgwcConfig.DDNControl g)
  /\ BearerInactivity.runner_interval (cleanup_interval g)
     = SgwcConfig.CheckIntervalSeconds (SgwcConfig.BearerInactivity g) * Second.
Proof.
  intros (_ & (Hto & _) & _ & _ & Hd & _ & _ & Hb & _) Hf. cbn zeta.
  destruct Hd as (Hr & Hbu & _ & _ & Hq & Hqm & Ha & _), Hb as (Hc & _).
  apply Forall_cons in Hf as [F1 Hf]. apply Forall_cons in Hf as [F2 Hf]. apply Forall_cons in Hf as [F3 Hf].
  apply Forall_cons in Hf as [F4 _].
  destruct (seconds_fit _ (Z.lt_trans _ _ _ (proj1 Hto) (proj2 Hto)) F1) as [E1 P1].
  destruct (seconds_fit _ (proj1 Hto) F2) as [E2 P2], (seconds_fit _ Ha F3) as [E3 P3], (seconds_fit _ Hc F4) as [E4 P4].
  unfold PeerHealth.Run_config, prober_config, MmeRestoration.max_age, MmeRestoration.max_global,
    MmeRestoration.max_per_mme, DdnControl.burst_of, DdnControl.rate_of, BearerInactivity.runner_interval,
    cleanup_interval, mme_restoration_config, ddnControlConfig. cbn.
  repeat (match goal with |- context [?x <=? 0] => rewrite (proj2 (Z.leb_gt x 0)) by lia end).
  rewrite E1, E2. unfold Second in *. split_and!; try lia. cbn.
  rewrite (proj2 (Z.leb_gt _ 0)) by lia. by destruct (SgwcConfig.ph_Enabled _).
Qed.

(** [resolve] is [net.ResolveUDPAddr] on "udp4". *)
Definition resolveControlIP (resolve : string -> option UDPAddr) (c : SgwcConfig.Config) : Addr :=
  let fallback :=
    match resolve (SgwcConfig.S5CListen c) with
    | None => AddrZero
    | Some ua =>
        match To4 (ua_IP ua) with
        | None => AddrZero
        | Some ip4 =>
            let a := AddrFrom4 ip4 in if SgwuConfig.IsUnspecified a then AddrZero else a
        end
    end in
  let configured := SgwcConfig.ControlPlaneIP (SgwcConfig.SGWC c) in
  if String.eqb configured "" then fallback
  else match ParseAddr configured with Some a => Forwarder.Unmap a | None => fallback end.

(** ** Restart of the sessions ([sessioncheckpoint/status.go], the restore in [main]) *)

Record RuntimeConfig := mkRuntimeConfig {
  rc_Enabled : bool; rc_Backend : string; rc_SQLitePath : string; rc_RestoreOnStartup : bool;
  rc_ReconcileOnStartup : bool; rc_CheckpointIntervalSeconds : Z
}.
Record RuntimeStatus := mkStatus {
  st_config : RuntimeConfig; SessionsLoaded : Z; SessionsRestored : Z; SessionsSkipped : Z;
  ReservedS11TEIDs : Z; PeerSnapshotsLoaded : Z; GTPCPeersRestored : Z; PFCPPeersRestored : Z;
  Flushes : Z; FlushFailures : Z; SessionSaves : Z; SessionDeletes : Z; PeerSaves : Z;
  LastFlushAt : time; LastFlushError : string; LastFlushErrorAt : time; LastSuccessfulFlushAt : time
}.
#[export] Instance eta_RuntimeStatus : Eta RuntimeStatus := fun s =>
  mkStatus (st_config s) (SessionsLoaded s) (SessionsRestored s) (SessionsSkipped s)
    (ReservedS11TEIDs s) (PeerSnapshotsLoaded s) (GTPCPeersRestored s) (PFCPPeersRestored s)
    (Flushes s) (FlushFailures s) (SessionSaves s) (SessionDeletes s) (PeerSaves s)
    (LastFlushAt s) (LastFlushError s) (LastFlushErrorAt s) (LastSuccessfulFlushAt s).
(** A method of a nil tracker does nothing. *)
Definition StatusTracker : Type := option RuntimeStatus.
Definition NewStatusTracker (c : RuntimeConfig) : StatusTracker :=
  Some (mkStatus c 0 0 0 0 0 0 0 0 0 0 0 0 zero_time "" zero_time zero_time).
Definition Status (t : StatusTracker) : RuntimeStatus :=
  default (mkStatus (mkRuntimeConfig false "" "" false false 0) 0 0 0 0 0 0 0 0 0 0 0 0
             zero_time "" zero_time zero_time) t.
Definition RecordSessionRestore (loaded restored skippedDeleted skippedInvalid reserved : Z)
    (t : StatusTracker) : StatusTracker :=
  (fun s => s <| SessionsLoaded := loaded |> <| SessionsRestored := restored |>
              <| SessionsSkipped := skippedDeleted + skippedInvalid |> <| ReservedS11TEIDs := reserved |>) <$> t.
Definition RecordPeerSnapshotsLoaded (n : Z) (t : StatusTracker) : StatusTracker :=
  (fun s => s <| PeerSnapshotsLoaded := n |>) <$> t.
Definition RecordGTPCPeersRestored (n : Z) (t : StatusTracker) : StatusTracker :=
  (fun s => s <| GTPCPeersRestored := n |>) <$> t.
Definition RecordPFCPPeersRestored (n : Z) (t : StatusTracker) : StatusTracker :=
  (fun s => s <| PFCPPeersRestored := n |>) <$> t.
Definition RecordSessionSave (t : StatusTracker) : StatusTracker :=
  (fun s => s <| SessionSaves := u64 (SessionSaves s + 1) |>) <$> t.
Definition RecordSessionDelete (t : StatusTracker) : StatusTracker :=
  (fun s => s <| SessionDeletes := u64 (SessionDeletes s + 1) |>) <$> t.
Definition RecordPeerSave (t : StatusTracker) : StatusTracker :=
  (fun s => s <| PeerSaves := u64 (PeerSaves s + 1) |>) <$> t.
Definition RecordFlush (now : time) (err : option string) (at_ : time) (t : StatusTracker) : StatusTracker :=
  (fun s =>
     let at_ := or_now at_ now in
     let s := s <| Flushes := u64 (Flushes s + 1) |> <| LastFlushAt := at_ |> in
     match err with
     | Some e => s <| FlushFailures := u64 (FlushFailures s + 1) |> <| LastFlushError := e |>
                   <| LastFlushErrorAt := at_ |>
     | None => s <| LastSuccessfulFlushAt := at_ |> <| LastFlushError := "" |> <| LastFlushErrorAt := zero_time |>
     end) <$> t.

(** The restore before anything runs: a failed load or invalid data leaves no session. *)
Definition restore_on_startup (now : nat -> time) (l : loc)
    (load : option (list Checkpoint.SessionSnapshot)) (t : StatusTracker) : Manager * StatusTracker :=
  let m := SessionManager.NewManager in
  match load with
  | None => (m, t)
  | Some snapshots =>
      match SessionRestore.RestoreSnapshots now l snapshots m with
      | (_, Some _, m) => (m, t)
      | (r, None, m) =>
          (m, RecordSessionRestore (Z.of_nat (SessionRestore.Loaded r)) (Z.of_nat (SessionRestore.Restored r))
                (Z.of_nat (SessionRestore.SkippedDeleted r)) (Z.of_nat (SessionRestore.SkippedInvalid r))
                (Z.of_nat (SessionRestore.ReservedS11TEID r)) t)
      end
  end.

(** ** One socket for S11 and S5/S8-C *)

Definition isPGWInitiatedBearerRequest (msgType : Z) : bool :=
  (msgType =? MsgTypeCreateBearerRequest) || (msgType =? MsgTypeUpdateBearerRequest)
  || (msgType =? MsgTypeDeleteBearerRequest).

Section Dispatch.
Context {E : Type} `{Environment E}.
Notation P A := (M (World E) A).

Definition sharedGTPCHandler (a : UDPAddr) (h : Header) (raw : bytes) : P unit :=
  if isPGWInitiatedBearerRequest (MessageType h) then HandleS5CInbound a h raw else handle a h raw.

(** The types each of the two dispatchers acts on. *)
Definition s11_types : list Z :=
  [MsgTypeEchoRequest; MsgTypeCreateSessionRequest; MsgTypeModifyBearerRequest; MsgTypeCreateBearerResponse;
   MsgTypeDeleteSessionRequest; MsgTypeReleaseAccessBearersRequest; MsgTypeDeleteBearerCommand;
   MsgTypeDownlinkDataNotificationAck; MsgTypeDownlinkDataNotificationFailureIndication;
   MsgTypeUpdateBearerResponse; MsgTypeDeleteBearerResponse].

Lemma handle_ignores a h raw p (w : World E) : Parse raw = Ok p -> MessageType h ∉ s11_types ->
  handle a h raw w = Some (tt, w).
Proof.
  intros Hp Ht. unfold handle. rewrite Hp. destruct p as [hd ies].
  unfold s11_types in Ht. rewrite !not_elem_of_cons in Ht. destruct_and! Ht.
  repeat (match goal with |- context [if ?t =? ?c then _ else _] => rewrite (proj2 (Z.eqb_neq t c)) by done end).
  by rewrite !(proj2 (Z.eqb_neq _ _)) by done.
Qed.

(** On one shared socket, the requests a gateway starts reach their handler as on a socket
    of its own, and so does everything an MME sends; but the refusal of a Delete Bearer
    Command does not: the shared socket drops it. *)
Lemma control_dispatch a h raw p (w : World E) : Parse raw = Ok p ->
  (MessageType h ∈ [MsgTypeCreateBearerRequest; MsgTypeUpdateBearerRequest; MsgTypeDeleteBearerRequest] ->
     sharedGTPCHandler a h raw w = HandleS5CInbound a h raw w /\ handle a h raw w = Some (tt, w))
  /\ (MessageType h ∈ s11_types -> sharedGTPCHandler a h raw w = handle a h raw w)
  /\ (MessageType h = MsgTypeDeleteBearerFailureIndication -> sharedGTPCHandler a h raw w = Some (tt, w)).
Proof.
  intros Hp. unfold sharedGTPCHandler. split_and!.
  - intros Ht. split.
    + assert (isPGWInitiatedBearerRequest (MessageType h) = true) as ->; [|done].
      unfold isPGWInitiatedBearerRequest. rewrite !orb_true_iff, !Z.eqb_eq. set_solver.
    + eapply handle_ignores; [done|]. intros Hs.
      repeat (apply elem_of_cons in Ht as [Ht|Ht]; [rewrite Ht in Hs; by refine (proj1 (bool_decide_eq_false _) _ Hs); vm_compute|]).
      by apply not_elem_of_nil in Ht.
  - intros Ht. repeat (apply elem_of_cons in Ht as [->|Ht]; [done|]). by apply not_elem_of_nil in Ht.
  - intros Ht. assert (isPGWInitiatedBearerRequest (MessageType h) = false) as -> by (by rewrite Ht).
    eapply handle_ignores; [done|]. rewrite Ht. refine (proj1 (bool_decide_eq_false _) _). by vm_compute.
Qed.
End Dispatch.

(** ** The callbacks of the SGW-U supervision *)

(** The peer whose bindings an event takes away: one that goes down or that restarted. *)
Definition lost_peer (ev : PfcpClient.event) : option (string * string) :=
  match ev with
  | PfcpClient.OnPeerStateChange name peerAddr state =>
      if String.eqb state PfcpClient.PeerStateDown then Some (name, peerAddr) else None
  | PfcpClient.OnPeerRestart name peerAddr _ _ => Some (name, peerAddr)
  | _ => None
  end.
(** What a callback reads: the clock, twice per session, and the order of the sessions. *)
Record reads := mkReads { r_now1 : time; r_now2 : time; r_order : list string }.
Definition on_peer_event (r : reads) (ev : PfcpClient.event) (m : Manager)
    : Manager * list SessionData.sink_call :=
  match lost_peer ev with
  | Some (name, peerAddr) =>
      (SessionManager.InvalidatePFCPBindingsForPeer (r_now1 r) (r_now2 r) (r_order r) name peerAddr m).2
  | None => (m, [])
  end.
Fixpoint on_peer_events (rs : nat -> reads) (evs : list PfcpClient.event) (m : Manager)
    : Manager * list SessionData.sink_call :=
  match evs with
  | [] => (m, [])
  | ev :: evs =>
      let '(m, calls1) := on_peer_event (rs O) ev m in
      let '(m, calls2) := on_peer_events (fun i => rs (S i)) evs m in
      (m, calls1 ++ calls2)
  end.

(** ** Lemmas: one method on every session *)

Lemma in_session_list m order l : Permutation order (elements (dom (SessionManager.byID m))) ->
  l ∈ SessionManager.SessionList order m <-> exists id, SessionManager.byID m !! id = Some l.
Proof.
  intros Ho. rewrite (S11Manager.listed_registered order m Ho), list_elem_of_fmap. split.
  - intros ([id l'] & -> & Hp). apply elem_of_map_to_list in Hp. by exists id.
  - intros [id Hl]. exists (id, l). split; [done|]. by apply elem_of_map_to_list.
Qed.
Lemma session_list_nodup X m order : SessionManager.mgr_wf X m ->
  Permutation order (elements (dom (SessionManager.byID m))) -> NoDup (SessionManager.SessionList order m).
Proof.
  intros Hw Ho. rewrite (S11Manager.listed_registered order m Ho).
  apply NoDup_fmap_2_strong; [|apply NoDup_map_to_list].
  intros [id l] [id' l'] H1 H2 El. cbn in El. subst l'. apply elem_of_map_to_list in H1, H2.
  destruct (SessionManager.wf_id _ _ Hw _ _ H1) as (s & Hs & <-).
  destruct (SessionManager.wf_id _ _ Hw _ _ H2) as (s' & Hs' & <-). congruence.
Qed.

Lemma on_session_effect l f m :
  SessionManager.byID (SessionManager.on_session l f m).1 = SessionManager.byID m
  /\ forall k, SessionManager.heap (SessionManager.on_session l f m).1 !! k
       = (if decide (k = l) then (fun s => (f s).1) <$> SessionManager.heap m !! k else SessionManager.heap m !! k).
Proof.
  unfold SessionManager.on_session. destruct (SessionManager.heap m !! l) as [s|] eqn:Es.
  - destruct (f s) as [s' calls] eqn:Ef. cbn. split; [done|]. intros k. destruct (decide (k = l)) as [->|Hne].
    + by rewrite Es, lookup_insert_eq; cbn; rewrite Ef.
    + by rewrite lookup_insert_ne.
  - cbn. split; [done|]. intros k. destruct (decide (k = l)) as [->|]; [|done]. by rewrite Es.
Qed.
Lemma count_sessions_effect ls f m : NoDup ls ->
  SessionManager.byID (SessionManager.count_sessions ls f m).2.1 = SessionManager.byID m
  /\ forall k, SessionManager.heap (SessionManager.count_sessions ls f m).2.1 !! k
       = (if decide (k ∈ ls) then (fun s => (f s).2.1) <$> SessionManager.heap m !! k else SessionManager.heap m !! k).
Proof.
  intros Hd. revert m. induction Hd as [|l ls Hl Hd IH]; intros m; cbn [SessionManager.count_sessions]; [done|].
  destruct (on_session_effect l (fun s => (f s).2) m) as [Hi Hh].
  destruct (SessionManager.on_session l _ m) as [m1 c1]. cbn [fst] in Hi, Hh.
  destruct (IH m1) as [Hi1 Hh1]. destruct (SessionManager.count_sessions ls f m1) as [n [m2 c2]].
  cbn [fst snd] in *. split; [by rewrite Hi1|]. intros k. rewrite Hh1, Hh.
  destruct (decide (k = l)) as [->|Hne].
  - rewrite decide_False by done. rewrite decide_True by (left). done.
  - destruct (decide (k ∈ ls)) as [Hk|Hk]; [rewrite decide_True by (by right)|rewrite decide_False by set_solver]; done.
Qed.

(** ** Lemmas: the loss of a peer *)

(** Whatever is left of a binding. *)
Definition had_pfcp (b : SessionData.PFCPSessionBinding) : bool :=
  SessionData.pb_Established b || negb (SessionData.fs_SEID (SessionData.pb_LocalFSEID b) =? 0)
  || negb (SessionData.fs_SEID (SessionData.pb_SGWUFSEID b) =? 0).
(** A session with a binding at the peer, and what the loss makes of it. *)
Definition bound (name peerAddr : string) (s : SGWSession) : Prop :=
  SessionData.pb_SGWUName (SessionData.PFCP s) = name /\ SessionData.pb_SGWUAddr (SessionData.PFCP s) = peerAddr
  /\ had_pfcp (SessionData.PFCP s) = true.
Definition released (s s' : SGWSession) : Prop :=
  SessionData.PFCP s' = SessionData.no_binding
  /\ SessionData.rec_State (SessionData.PFCPReconciliation s') = SessionData.PFCPReconciliationMissing
  /\ SessionData.State s' = (if decide (SessionData.State s = SessionData.StateDeleting
                                       \/ SessionData.State s = SessionData.StateDeleted)
                             then SessionData.State s else SessionData.StateRecovering)
  /\ dom (SessionData.Bearers s') = dom (SessionData.Bearers s)
  /\ map_Forall (fun _ b => Bearer.SGWS1UFTEID b = Bearer.no_FTEID /\ Bearer.SGWS5UFTEID b = Bearer.no_FTEID)
       (SessionData.Bearers s').

Lemma not_bound t1 t2 name peerAddr s : ~ bound name peerAddr s ->
  (Session.InvalidatePFCPBindingForPeer t1 t2 name peerAddr s).2.1 = s.
Proof.
  unfold bound, Session.InvalidatePFCPBindingForPeer, Session.InvalidatePFCPBinding. fold (had_pfcp (SessionData.PFCP s)).
  intros Hb. destruct (_ && _) eqn:E; [|done]. apply andb_true_iff in E as [H1%String.eqb_eq H2%String.eqb_eq].
  destruct (had_pfcp _) eqn:Eh; [|done]. by destruct Hb.
Qed.
Lemma bound_released t1 t2 name peerAddr s : bound name peerAddr s ->
  released s (Session.InvalidatePFCPBindingForPeer t1 t2 name peerAddr s).2.1.
Proof.
  intros (H1 & H2 & Hh). pose proof (Session.InvalidatePFCPBinding_complete t1 t2 s) as Hc. cbn zeta in Hc.
  fold (had_pfcp (SessionData.PFCP s)) in Hc. rewrite Hh in Hc.
  destruct (Session.InvalidatePFCPBinding t1 t2 s) as [ok [s' calls]] eqn:E.
  destruct Hc as (_ & _ & Hc & Hp). rewrite Hp, decide_True by done. cbn [fst snd].
  destruct (Hc eq_refl) as (? & ? & ? & Hb & ? & _). split_and!; [done..|].
  intros ebi b' Hl. by destruct (Hb ebi b' Hl) as (b & _ & ->).
Qed.
Lemma released_unbound name peerAddr s s' : released s s' -> ~ bound name peerAddr s'.
Proof. intros (Hp & _) (_ & _ & Hh). by rewrite Hp in Hh. Qed.

(** What one loss does to the sessions. *)
Lemma loss_effect X r name peerAddr m : SessionManager.mgr_wf X m ->
  Permutation (r_order r) (elements (dom (SessionManager.byID m))) ->
  let m' := (SessionManager.InvalidatePFCPBindingsForPeer (r_now1 r) (r_now2 r) (r_order r) name peerAddr m).2.1 in
  SessionManager.mgr_wf X m' /\ SessionManager.byID m' = SessionManager.byID m
  /\ forall l s, SessionManager.reg m l s -> exists s', SessionManager.heap m' !! l = Some s'
       /\ (bound name peerAddr s -> released s s') /\ (~ bound name peerAddr s -> s' = s).
Proof.
  intros Hw Ho. pose proof (session_list_nodup _ _ _ Hw Ho) as Hd.
  destruct (count_sessions_effect _ (Session.InvalidatePFCPBindingForPeer (r_now1 r) (r_now2 r) name peerAddr) m Hd) as [Hi Hh].
  unfold SessionManager.InvalidatePFCPBindingsForPeer. cbn zeta. split_and!; [|done|].
  - apply SessionManager.count_sessions_wf; [|done]. intros s.
    exact (SessionManager.exec_index_key (Session.OpInvalidatePFCPBindingForPeer (r_now1 r) (r_now2 r) name peerAddr) s).
  - intros l s [Hs Hl]. eexists. split.
    { rewrite Hh, decide_True by (apply in_session_list; eauto). by rewrite Hs. }
    split; [apply bound_released|apply not_bound].
Qed.

(** The steps of the supervision that lose what the peer holds: a heartbeat that fails or
    shows a restart, and an association with a peer that has restarted. *)
Definition loses (ph ph' : PfcpClient.phase) (p p' : PfcpClient.peer) : bool :=
  match ph, ph' with
  | PfcpClient.Heartbeating, PfcpClient.Associating => true
  | PfcpClient.Associating, PfcpClient.Heartbeating =>
      PfcpClient.isRecoveryRestart (PfcpClient.peerRecoveryTS p) (PfcpClient.peerRecoveryTS p')
  | _, _ => false
  end.
Definition losses (evs : list PfcpClient.event) : list (string * string) := omap lost_peer evs.
Lemma losses_app evs evs' : losses (evs ++ evs') = losses evs ++ losses evs'.
Proof. apply omap_app. Qed.
Lemma losses_checkpoint s c : losses (PfcpClient.emitPeerCheckpoint s c) = [].
Proof. unfold PfcpClient.emitPeerCheckpoint, PfcpClient.when. by destruct (_ && _). Qed.
Lemma losses_restart p o n c : PfcpClient.has_onPeerRestart c = true ->
  losses (PfcpClient.notifyPeerRestart p o n c) = [(PfcpClient.cfg_Name p, PfcpClient.cfg_Addr p)].
Proof. unfold PfcpClient.notifyPeerRestart. by intros ->. Qed.
Lemma losses_state p c : PfcpClient.has_onPeerStateChange c = true ->
  losses (PfcpClient.notifyPeerState p c)
  = if String.eqb (PfcpClient.state p) PfcpClient.PeerStateDown
    then [(PfcpClient.cfg_Name p, PfcpClient.cfg_Addr p)] else [].
Proof. unfold PfcpClient.notifyPeerState. intros ->. cbn. by destruct (String.eqb _ _). Qed.

Lemma associate_losses now a p c r p' evs :
  PfcpClient.has_onPeerStateChange c = true -> PfcpClient.has_onPeerRestart c = true ->
  PfcpClient.associate now a p c = (r, p', evs) ->
  losses evs = match r with
               | Ok _ => if PfcpClient.isRecoveryRestart (PfcpClient.peerRecoveryTS p) (PfcpClient.peerRecoveryTS p')
                         then [(PfcpClient.cfg_Name p, PfcpClient.cfg_Addr p)] else []
               | Err _ => []
               end.
Proof.
  intros Hs Hr. unfold PfcpClient.associate. destruct a as [raw|e].
  - cbv zeta. destruct (rbind _ _) as [[ts [id|]]|e].
    + intros [= <- <- <-]. rewrite !losses_app, losses_checkpoint, losses_state by done. cbn [app].
      match goal with |- _ = if PfcpClient.isRecoveryRestart _ ?t then _ else _ => change t with ts end.
      destruct (PfcpClient.isRecoveryRestart _ ts); [rewrite losses_restart by done|]; done.
    + by intros [= <- <- <-].
    + by intros [= <- <- <-].
  - unfold PfcpClient.down. intros [= <- <- <-]. apply losses_checkpoint.
Qed.
Lemma heartbeat_losses now a p c r p' evs : PfcpClient.has_onPeerRestart c = true ->
  PfcpClient.heartbeat now a p c = (r, p', evs) ->
  PfcpClient.cfg_Name p' = PfcpClient.cfg_Name p /\ PfcpClient.cfg_Addr p' = PfcpClient.cfg_Addr p
  /\ exists n, losses evs = replicate n (PfcpClient.cfg_Name p, PfcpClient.cfg_Addr p)
       /\ match r with Ok _ => n = O | Err _ => True end.
Proof.
  intros Hr. unfold PfcpClient.heartbeat. destruct (PfcpClient.parsed _ _) as [resp|e].
  2: { intros [= <- <- <-]. split_and!; [done..|]. by exists O. }
  destruct (PfcpMessage.HBResp_RecoveryTimeStamp resp) as [i|]; cbn zeta.
  - destruct (PfcpClient.isRecoveryRestart _ _); intros [= <- <- <-]; (split_and!; [done..|]).
    + exists 1%nat. by rewrite losses_app, losses_checkpoint, losses_restart.
    + exists O. by rewrite losses_checkpoint.
  - intros [= <- <- <-]. split_and!; [done..|]. exists O. by rewrite losses_checkpoint.
Qed.
Lemma managePeer_losses now1 now2 a c ph p ph' p' evs :
  PfcpClient.has_onPeerStateChange c = true -> PfcpClient.has_onPeerRestart c = true ->
  PfcpClient.managePeer now1 now2 a c (ph, p) = (ph', p', evs) ->
  exists n, losses evs = replicate n (PfcpClient.cfg_Name p, PfcpClient.cfg_Addr p)
    /\ bool_decide (n <> O) = loses ph ph' p p'.
Proof.
  intros Hs Hr. unfold PfcpClient.managePeer. destruct ph.
  - destruct (PfcpClient.associate now1 a p c) as [[r q] evq] eqn:E. intros Hm.
    pose proof (associate_losses _ _ _ _ _ _ _ Hs Hr E) as Hl. destruct r as [u|e]; injection Hm as <- <- <-; cbn [loses].
    + rewrite Hl. destruct (PfcpClient.isRecoveryRestart _ _); [by exists 1%nat|by exists O].
    + rewrite Hl. by exists O.
  - unfold PfcpClient.heartbeatLoop_tick. destruct (PfcpClient.heartbeat now1 a p c) as [[r q] evq] eqn:E.
    destruct (heartbeat_losses _ _ _ _ _ _ _ Hr E) as (Hn & Ha & n & Hl & Hk). destruct r as [u|e].
    + intros [= <- <- <-]. cbn [loses]. subst n. by exists O.
    + unfold PfcpClient.down. intros [= <- <- <-]. cbn [loses]. exists (n + 1)%nat. split.
      * rewrite !losses_app, losses_checkpoint, losses_state, Hl by done. cbn. by rewrite Hn, Ha, replicate_add.
      * apply bool_decide_eq_true. lia.
Qed.

(** The callbacks of a run of events, all of whose losses are of one peer. *)
Lemma events_effect X name peerAddr n evs : forall rs m, losses evs = replicate n (name, peerAddr) ->
  SessionManager.mgr_wf X m -> (forall i, Permutation (r_order (rs i)) (elements (dom (SessionManager.byID m)))) ->
  let m' := (on_peer_events rs evs m).1 in
  SessionManager.mgr_wf X m' /\ SessionManager.byID m' = SessionManager.byID m
  /\ forall l s, SessionManager.reg m l s -> exists s', SessionManager.heap m' !! l = Some s'
       /\ (bound name peerAddr s -> n <> O -> released s s')
       /\ (~ (bound name peerAddr s /\ n <> O) -> s' = s).
Proof.
  revert n. induction evs as [|ev evs IH]; intros n rs m Hl Hw Ho; cbn [on_peer_events].
  { split_and!; [done|done|]. intros l s [Hs _]. exists s. destruct n; [|done]. by split_and!. }
  change (losses (ev :: evs)) with (match lost_peer ev with Some x => x :: losses evs | None => losses evs end) in Hl.
  unfold on_peer_event. destruct (lost_peer ev) as [[name' addr']|].
  2: { specialize (IH n (fun i => rs (S i)) m Hl Hw (fun i => Ho (S i))). by destruct (on_peer_events _ evs m). }
  destruct n as [|n]; [done|]. cbn [replicate] in Hl. injection Hl as -> -> Hl.
  pose proof (loss_effect X (rs O) name peerAddr m Hw (Ho O)) as He. cbn zeta in He.
  destruct (SessionManager.InvalidatePFCPBindingsForPeer _ _ _ _ _ m).2 as [m1 c1]. cbn [fst] in He.
  destruct He as (Hw1 & Hi1 & Hh1).
  specialize (IH n (fun i => rs (S i)) m1 Hl Hw1). rewrite Hi1 in IH. specialize (IH (fun i => Ho (S i))).
  destruct (on_peer_events _ evs m1) as [m2 c2]. cbn [fst] in *. destruct IH as (Hw2 & Hi2 & Hh2).
  split_and!; [done|done|]. intros l s Hreg. destruct (Hh1 l s Hreg) as (s1 & Hs1 & Hb1 & Hn1).
  assert (SessionManager.reg m1 l s1) as Hreg1.
  { split; [done|]. rewrite Hi1. destruct Hreg as [Hs Hid].
    destruct (SessionManager.wf_id _ _ Hw1 (SessionData.SessionID s) l) as (s2 & Hs2 & Hid2); [by rewrite Hi1|].
    rewrite Hs1 in Hs2. injection Hs2 as <-. by rewrite Hid2. }
  destruct (Hh2 l s1 Hreg1) as (s2 & Hs2 & _ & Hn2). exists s2. split; [done|].
  assert (~ bound name peerAddr s1) as Hub.
  { intros Hb. destruct (decide (bound name peerAddr s)) as [Hbs|Hbs].
    - exact (released_unbound name peerAddr s s1 (Hb1 Hbs) Hb).
    - by rewrite (Hn1 Hbs) in Hb. }
  rewrite (Hn2 (fun H => Hub (proj1 H))). split; [intros Hb _; by apply Hb1|]. intros Hb. apply Hn1. naive_solver.
Qed.

(** ** Property *)


Definition example_binding : SessionData.PFCPSessionBinding :=
  SessionData.mkPFCPSessionBinding (SessionData.mkFSEID 1 (AddrV4 1)) (SessionData.mkFSEID 2 (AddrV4 2))
    "u" "10.0.0.2:8805" true.
(** Two sessions, one of them at the peer. *)
Definition example_manager : Manager :=
  (SessionManager.on_session 1%nat (Session.exec (Session.OpSetPFCPBinding 150 example_binding))
     SessionManager.example_m2).1.
Definition example_reads : reads :=
  mkReads 300 301 (elements (dom (SessionManager.byID example_manager))).
Definition example_silence : PfcpClient.answer := Err (PfcpTransport.SendNoResponse 3 1).
Definition example_step : PfcpClient.phase * PfcpClient.peer * list PfcpClient.event :=
  PfcpClient.managePeer 300 301 example_silence (PfcpClient.example_client 0 [])
    (PfcpClient.Heartbeating, PfcpClient.example_peer 2 PfcpClient.PeerStateEstablished).
Lemma example_manager_wf : SessionManager.mgr_wf ∅ example_manager.
Proof.
  apply SessionManager.on_session_wf; [|apply SessionManager.example_m2_wf]. intros s.
  apply SessionManager.exec_index_key.
Qed.

Lemma example_reads_order : forall i : nat,
  Permutation (r_order ((fun _ => example_reads) i)) (elements (dom (SessionManager.byID example_manager))).
Proof. intros i. unfold example_reads. cbn [r_order]. reflexivity. Qed.
